(* ===== verification/_CoqProject ===== *)
-Q . S2P
Prelude.v
CoreTypes.v
PyVal.v
SafeData.v
CorePolicy.v
Capability.v
Scope.v
RateLimit.v
Execution.v
Records.v
Orchestration.v
Ledger.v
Lease.v
Candidate.v
Verification.v
Finding.v
FindingRecords.v
FindingFlow.v
Controller.v
Frontier.v
DiscoveryConfig.v
FrontierFlow.v
ModelRuntime.v
Routing.v
Impact.v
EvidenceRecords.v
ImpactLedger.v
Float.v
Validation.v
Submission.v
PyText.v
PyUrl.v
Graph.v
Discovery.v
Surface.v
HuntRecords.v
Retry.v
Coverage.v
CoverageFlow.v
CoverageLive.v
Scheduler.v
Context.v
Plans.v
HttpPolicy.v
Proposals.v
Compiler.v
Planning.v
Cycle.v
Propose.v
CellContract.v
CompilerRegistry.v
Exploratory.v
Evaluators.v
Opportunity.v
Selection.v
Envelope.v
Session.v
Redirect.v
ExecDb.v
Ingest.v
Authorize.v
Dispatch.v
Normalizers.v
Evidence.v
CandidateFlow.v
Promotion.v
