(* ===== verification/Prelude.v ===== *)
(** * A verification library for zest

    zest is a control plane for authorized security research.  A model proposes, the
    deterministic control plane decides: Core authorizes every execution, budgets and rate
    limits bound it, a worker runs it under a fenced lease, Research turns observations into
    evidence, candidates, verified candidates and finding proposals, and a human operator
    has the last word on every finding.  This library models that control plane as pure,
    executable Rocq functions and proves what makes it safe.  File and function names below
    are those under [src/src/zest/].

    ** Conventions

    A Python function that may raise is a function into [result]; an exception is its
    class, messages are dropped.  A dataclass is a module with a record [t] and, where it
    validates, [post_init]; the constructor call is [post_init (mk ...)].  An [Enum] is an
    inductive type with [value].  [isinstance] tests are discharged by typing.  An [int] is
    [Z]; where PostgreSQL stores it in 32 bits the repository functions test [is_int4].
    Strings are ASCII-wise [string]; [strip], [lower], [split] follow Python on ASCII.  JSON
    values are [PyVal.pyval].  A timezone-aware [datetime] is its UTC instant in
    microseconds, and arithmetic outside the years 1..9999 raises [OverflowError]
    ([DateTime]).  A database is a record of maps (tables read by key) and lists (tables
    read in order); a unit of work that raises leaves it unchanged, because the function
    returns [Raise] and no database.  Where a use case reads and writes around the commits of
    others, the reads and the writes are given their own databases, the former called [seen]
    ([FindingFlow], [Submission], [Evaluators], [Ingest], [Authorize], [Dispatch], [FrontierFlow],
    [Evidence], [CandidateFlow], [Promotion]), or are steps of their own ([Controller]).  A query
    without [ORDER BY] whose order matters returns its rows in an order that is a parameter
    ([ImpactLedger.EdgeOrder]).  [ORDER BY] on text is the order by
    character code.  A Python [float] is a rational that [Float] rounds like binary64.  The
    iteration order of a Python [set] is a parameter of which the elements are known
    ([Impact]); [sorted] with a comparison function is the stable insertion of [Routing],
    with a class for comparisons that are total orders.  Fresh ids, clock readings and SHA-256 are arguments or
    section parameters; no law is assumed of them except that
    the digest does not collide on the two rows compared, in one theorem of [Orchestration] and one
    lemma of [FrontierFlow], that it has no blanks around it, in [Selection], and that a fresh id
    has none, in [CandidateFlow], [Promotion] and [FrontierFlow].  A doc
    comment [[file.py:first-last symbol]] before a definition names the code it translates.

    ** Files

    - [Prelude] (this file): [result] and its monad, Python string, list and time
      operations, the [KeyOrder] class behind [sorted(key=...)], the [Validator] class of
      validating constructors, the rewrite database [zest_bool] and the tactics
      [bool_prop], [py_cases], [peel].
    - [CoreTypes]: [core/enums.py], [core/identity.py].  [PyVal]: JSON values and Python's
      truth, equality and membership on them.
    - [SafeData]: [safe_data.py].  [reject_secret_keys] accepts exactly the payloads
      without sensitive keys; redaction depends on the public part only.
    - [CorePolicy]: [core/authorization.py], [core/approval.py], [core/budget.py],
      [core/pricing.py].
    - [Capability]: [tools/registry.py], [tools/fingerprint.py],
      [tools/integration_allowlist.py], [core/capability.py].
    - [Scope]: [core/scope.py], [core/scope_compiler.py] and the path rules of
      [platform/url_normalize.py].  The string tests of the code are related to label-wise
      and segment-wise readings of hosts and paths.
    - [RateLimit]: [core/rate_limit.py]; over every reachable history no window holds more
      than its allowance.
    - [Execution]: [core/execution.py]; [may_execute] is the contract, a proposition
      without the order of tests, and [evaluate_execution] refines it.
    - [Records], [FindingRecords], [EvidenceRecords]: the records of [data/records.py] the
      models store.
    - [Ledger]: [data/budget_ledger.py], [application/budget_consumption.py] and the ledger
      repository.  The invariant of reachable databases is that no issued budget and no
      model-call limit is overspent.
    - [Orchestration]: [research/orchestration.py], [application/orchestration_config.py].
      The policy lets a cycle begin exactly within all limits, every stop has a reason, and the
      limits of a persisted run cannot be changed without changing its fingerprint.
    - [Lease]: the lease operations of [PostgresResearchOrchestrationRepository] and
      [application/lease_fencing.py].  A step relation, over the saves it admits, interleaves
      runtimes and saves of any process, fenced or not; as long as no save brings another epoch
      than the row has, epochs never go back and a superseded lease can neither write nor
      dispatch; an abandoned lease can always be taken over.
    - [Candidate]: [research/candidate.py].  [Verification]: [research/verification.py].
      A candidate is validated only by an independent reproduction.
    - [Finding]: [research/finding_proposal.py].  [FindingFlow]:
      [application/start_human_review.py], [application/record_human_review.py],
      [application/finalize_finding.py] on the database.  [FindingFlow.step]
      runs each use case on databases it read at any time ([late]: candidates moved on such
      reads too); a finding stands on a human review and a recorded human approval of its
      content.
    - [Controller]: the writes of [application/autonomous_research_controller.py] to the
      orchestration, cycle and audit tables, against the interface [OrchestrationStore] that
      the plain and the fenced repository of [Lease] implement.  [sys_step] interleaves
      them with lease operations and with ticks that hold old copies of a row; each step is
      refined to elementary writes ([sys_step_writes]).  Conclusions and cancellations are
      final, the configuration of a run never drifts, the history is append-only.
    - [Frontier]: [research/discovery/frontier.py]: items, events, the legal lifecycle, the
      selection order.  [DiscoveryConfig]: [research/discovery/config.py],
      [application/discovery/config.py]; a discovery run resumes only under its own limits.
      [FrontierFlow]: seeding, claiming and the cycles of [application/discovery/runner.py]
      on the frontier tables, with a step relation that interleaves runners that choose on old
      reads ([views]); no two cycles hold the same item, and every history stays legal but for
      a repeated block.
    - [ModelRuntime]: [research/model_runtime.py].  [Routing]: [research/routing.py],
      [application/select_research_runtime.py]; what is selected passes every hard rule, and
      attempts are bounded and never repeat.
    - [Impact]: [research/impact/]; a chain is accepted exactly when it is acyclic, and its
      kinds of impact are those its proofs demonstrate.  [ImpactLedger]: registering a chain,
      rebuilding it and resolving its proofs on the database, whatever the order
      ([EdgeOrder]) in which it returns rows that no query sorts.
    - [Float]: binary64 rounding.  [Validation]: [research/validation/] and the audit view of
      [application/validation_audit.py].
    - [Submission]: [application/submit_finding_proposal.py],
      [application/score_finding_severity.py].  A submission is a run of the workflow of
      [FindingFlow] and adds only proposals that [Verification], [Validation] and
      [ImpactLedger] justify ([grounded]); severity stays within what the ledger holds.
    - [PyText], [PyUrl]: Python text operations the later files share ([repr], [str] of JSON
      values, percent encoding, the splitting of URLs the code does itself).
    - [Graph], [Discovery], [Surface]: [research/discovery/] facts, inferences, their
      admission, and the attack surface graph rebuilt from them; scope is never promoted.
    - [HuntRecords]: the records of hypotheses, experiments, attempts and the hunt.
      [Retry]: [application/retry_policy.py].  [Scheduler]: [research/scheduler/],
      [application/run_hunt_scheduler.py].
    - [Coverage], [CoverageFlow], [CoverageLive]: [research/coverage/] and
      [application/coverage/]: the matrix, its views read from the ledger, the debt.
    - [Context]: [research/context.py], what a model is shown, bounded and accounted for.
      [Proposals]: [research/output_contracts.py], [research/proposals.py], what it may
      answer.  [Cycle]: [research/admission.py], [research/cycle.py].  [Propose]: the cycle of
      [application/propose_research_hypothesis.py] on the database; where
      the models are asked, a hypothesis is stored only when both roles answered, it was
      admitted and a plan was compiled.
    - [HttpPolicy]: [tools/http_transaction_policy.py].  [Compiler]: [research/compiler.py].
      [Planning]: [research/planning.py], [research/http_transaction.py].  [Plans]:
      [research/mutation/matrix.py], [research/protocol/parser_plan.py].  [CellContract]:
      [research/mutation/cell_contract.py].  [CompilerRegistry]:
      [research/compiler_registry.py] and the compilers it chooses between; every plan they
      return is bound to an action of the capability registry at its registered level.
    - [Exploratory]: [research/exploratory.py], its two compilers and
      [research/identity_anomaly.py].
    - [Evaluators]: [research/feedback.py], [research/assessment.py], [research/evaluators/],
      [application/plan_records.py], [application/evaluate_experiment_feedback.py]; what an
      execution taught, assessed once unless two evaluations race.
    - [Opportunity]: [research/exploration.py], the choice of research opportunities within the
      slots of a policy budget.  [Selection]: [research/selection.py], the portfolio of a run,
      the experiments it may try next, the one chosen, its plan and why a run stops.
    - [Envelope]: [application/authorized_network_envelope.py],
      [application/http_transaction_authorization.py] and the worker's
      [worker_runtime/python/browser_envelope.py], over [platform/url_normalize.py]; what the
      worker lets through is within the scope, for rules the envelope can express and URLs Core
      can normalize.
      [Session]: [platform/secrets.py], [application/session_binding.py],
      [application/session_lifecycle.py].  [Redirect]: [application/scope_reauthorization.py].
    - [ExecDb]: the tables of an execution and their repositories.  [Ingest]:
      [application/ingest_worker_invocation.py].  [Authorize], [Dispatch]:
      [application/execute_planned_experiment.py], the transaction that decides and those
      around the call of the worker, each over old reads; [Dispatch.step] interleaves them with the
      rest of the system, and a worker is called at most once for an experiment on whose attempt no
      two transactions race.
    - [Normalizers]: [application/transition_a/]; what a worker returned becomes at most one
      observation, with the named facts of its kind only.
    - [Evidence]: [research/evidence.py], [application/admit_diagnostic_evidence.py]; evidence is
      admitted exactly when it is sourced.  [CandidateFlow]: [application/propose_candidate.py],
      [application/start_candidate_verification.py],
      [application/complete_candidate_verification.py] on the database, with a step relation that
      interleaves workers; a validated candidate was reproduced.
    - [Promotion]: [application/promotion_pipeline.py], [application/prepare_planned_experiment.py]:
      from an assessment to a proposal, a program in the state and error monad [Promotion.M] with
      the other workers between its transactions.  Its tables keep the invariant
      of [CandidateFlow], a recorded proposal was reproduced, and advancing ends in two turns.  Its proofs are triples
      ([Promotion.triple]) over facts that steps of the flow cannot take away.

    How the parts call each other: [Execution] calls [CorePolicy], [Capability] and [Scope];
    [Ledger] calls [CorePolicy] and [Records]; [FindingFlow] calls [Finding] (which calls
    [Candidate]) and the approval check of [CorePolicy]; [Lease] and [Orchestration] share
    the orchestration row of [Records], and [Controller] writes it through [Lease] and reads
    its configuration through [Orchestration]; [FrontierFlow] runs [Frontier] under the
    limits of [DiscoveryConfig]; [Submission] composes [Finding], [FindingFlow],
    [Validation], [Impact] and [ImpactLedger].  [Surface] rebuilds a [Graph] from the facts of
    [Discovery]; [CoverageLive] reads it for [Coverage], whose debt [Scheduler] ranks.
    [Propose] runs [Cycle], which shows a [Context] to two roles, reads their [Proposals] and
    plans with [Planning]; [Planning] and [CompilerRegistry] end in [Compiler], which looks the
    action up in the registry of [Capability]; [Evaluators] read the plans back.
    [Selection] reads the portfolio from assessments and plans through [Compiler]; the outcome
    of its choice and that of [Opportunity] share one enumeration.  [Authorize] composes
    [Compiler], [Scope], [Envelope], [RateLimit], [Session] and [Execution] over the tables of
    [ExecDb]; [Dispatch] reserves through [Ledger], hands the answer of the worker to [Ingest]
    and a redirect to [Redirect].  The observations [Ingest] stores come from [Normalizers];
    [Evaluators] assess them, [Evidence] and [CandidateFlow] (which run the rules of [Candidate] and
    [Verification]) take an assessment to a verification, and [Promotion] runs these, the
    reproduction and [Submission] in turn.

    ** Bounds and fuel

    Every loop of the modelled code but two runs over a list or a string and is structural.
    The depth-first search [Impact.visit] takes one unit of fuel per recursive call; [has_cycle]
    gives it as many as there are nodes, and [has_cycle_iff] says that this is enough for every
    graph (Python's recursion limit is not modelled).  [Promotion.advance_one] counts its calls of
    itself; [advance_needs_two_turns] says that two are enough while other workers keep the
    candidate of a promotion.

    ** Counterexamples kept as examples

    [Scope.expired_rule_requires_review] (an expired rule hides a later exclusion),
    [SafeData.strip_header_keeps_earlier_secret], [Lease.unfenced_save_moves_epoch_back],
    [Lease.fenced_save_undoes_renewal], [Controller.pause_lost_by_checkpoint],
    [Verification.foreign_run_reproduction_validates], [Routing.quality_order_is_cyclic] (the
    comparison of runtimes is no order where a latency is unknown),
    [Routing.fallback_forgets_escalation], [Impact.composite_requirements_are_alternatives],
    [Coverage.specific_last_wins], [Plans.sqli_header_never_planned],
    [Context.fingerprint_ignores_statements], [Propose.policy_conflict_recorded_or_lost],
    [Exploratory.negative_control_is_letters], [Evaluators.row_order_decides_outcome],
    [Evaluators.redirect_is_consistent], [Envelope.prefix_boundary_is_lost],
    [Envelope.wildcard_exclusion_is_lost], [Session.login_result_revives_revoked_session],
    [Authorize.authorization_window_is_not_asked], [Authorize.rate_limit_refusal_is_final],
    [Authorize.no_policy_is_no_limit], [Authorize.stale_reads_authorize_twice],
    [Dispatch.stale_reads_dispatch_twice], [Dispatch.long_diagnostic_loses_the_outcome],
    [FindingFlow.late_review_reopens_an_approved_proposal],
    [FrontierFlow.two_cycles_block_one_item], [Evaluators.concurrent_evaluations_store_two],
    [Envelope.unnormalizable_url_is_let_through],
    [Selection.blank_verification_actor_is_not_recognised],
    [Dispatch.exhausted_state_is_not_stored], [Dispatch.completed_without_result_succeeds],
    [Evidence.mismatch_is_admitted_as_supporting], [Evidence.absent_assessment_is_kept],
    [CandidateFlow.other_hypothesis_validates],
    [CandidateFlow.late_start_reopens_a_concluded_candidate] and
    [Promotion.collision_reopens_a_recorded_promotion] show behaviour that the documentation of the
    code does not promise.

    ** Not modelled, and next

    I/O (processes, browsers, HTTP, SQL text, files, model providers), user interfaces and
    the measurement harnesses are out of reach or out of interest.  Left, in this order: the validation and queue of the
    hunt ([application/hunt_validation.py], [application/hunt_v3_queue_approval.py]); the
    variants of the mutation engine; the tick of the controller ([step], [run_bounded]), of
    which [Controller] has the writes and [Orchestration] the decisions; and the projections of
    discovery. *)
From Stdlib Require Export ZArith Lia Ascii String.
From stdpp Require Export base gmap strings list sorting pretty.

#[global] Set Warnings "-clear-no-such-hyp".
#[global] Arguments String.append !_ _ / : simpl nomatch.
#[global] Open Scope string_scope.
#[global] Open Scope list_scope.
#[global] Open Scope Z_scope.

(** ** Exceptions and fallible code

    A Python function that may raise is a Rocq function into [result].  An
    exception is its class (and, where callers inspect one, its attribute);
    the human-readable message is not modelled, but for the one message of
    [ResearchInputError] that a caller compares. *)
Inductive exn : Set :=
  | CoreInputError | InvalidBudgetError | BudgetAllocationError
  | UnknownModelPriceError
  | ResearchInputError | ImpactGraphError
  | SecretMaterialError
  | CapabilityRegistryError
  | PersistenceError | PersistenceInputError | BudgetOverspendError
  | TerminalOrchestrationStateError | LeaseFencingError
  | PersistenceConflictError
  | ApplicationError | BudgetConsumptionRejected | OrchestrationIntegrityError
  | KeyError | TypeError | ValueError | IndexError | OverflowError
  | AttributeError | AssertionError | ZeroDivisionError
  | ProposalAuthorityError
  | ContractValidationError | UnsupportedNormalizerError | MalformedNormalizedPayloadError
  | ResearchInputErrorSaying (message : string)
  | MutationCellIdentityError (reason_code : string)
  | MutationCellContractError (reason_code : string)
  | ProtocolStepContractError (reason_code : string)
  | ExperimentCompileError (reason_code : string)
  | CapabilityBindingError (reason_code : string).

#[global] Instance exn_eq_dec : EqDecision exn.
Proof. solve_decision. Defined.

Inductive result (A : Type) : Type :=
  | Ok (a : A)
  | Raise (e : exn).
Arguments Ok {A} a.
Arguments Raise {A} e.

#[global] Instance result_ret : MRet result := fun A a => Ok a.
#[global] Instance result_bind : MBind result :=
  fun A B f r => match r with Ok a => f a | Raise e => Raise e end.
#[global] Instance result_fmap : FMap result :=
  fun A B f r => match r with Ok a => Ok (f a) | Raise e => Raise e end.

#[global] Instance result_eq_dec `{EqDecision A} : EqDecision (result A).
Proof. solve_decision. Defined.

Declare Scope zest_scope.
Delimit Scope zest_scope with zest.
#[global] Open Scope zest_scope.

(** [if cond: raise E] followed by the rest of the body. *)
Notation "'raise_if' b 'as' e ';;' k" := (if b then Raise e else k)
  (at level 100, b at level 99, e at level 99, k at level 200, right associativity)
  : zest_scope.

Definition is_ok {A} (r : result A) : bool :=
  match r with Ok _ => true | Raise _ => false end.

(** [for x in l: f(x)] collecting the results; the first exception stops it. *)
Fixpoint traverse {A B} (f : A -> result B) (l : list A) : result (list B) :=
  match l with
  | [] => Ok []
  | x :: l' => y ← f x; ys ← traverse f l'; Ok (y :: ys)
  end.

(** ** Python [str]

    A Python string is modelled on the code points U+0000 to U+00FF, which is
    what [ascii] holds: [isspace] and [lower] are the ones of that range. *)
Module Str.
Definition code (c : ascii) : nat := nat_of_ascii c.

(** [str.isspace] on U+0000..U+00FF. *)
Definition is_space (c : ascii) : bool :=
  let n := code c in
  ((9 <=? n)%nat && (n <=? 13)%nat) || ((28 <=? n)%nat && (n <=? 32)%nat)
  || (n =? 133)%nat || (n =? 160)%nat.

Fixpoint lstrip (s : string) : string :=
  match s with
  | EmptyString => EmptyString
  | String c s' => if is_space c then lstrip s' else s
  end.

Fixpoint rstrip (s : string) : string :=
  match s with
  | EmptyString => EmptyString
  | String c s' =>
      match rstrip s' with
      | EmptyString => if is_space c then EmptyString else String c EmptyString
      | r => String c r
      end
  end.

(** [s.strip()] *)
Definition strip (s : string) : string := rstrip (lstrip s).

(** [s.strip("...")]: the characters are those of [cs]. *)
Fixpoint lstrip_chars (cs : list ascii) (s : string) : string :=
  match s with
  | EmptyString => EmptyString
  | String c s' => if existsb (Ascii.eqb c) cs then lstrip_chars cs s' else s
  end.

Fixpoint rstrip_chars (cs : list ascii) (s : string) : string :=
  match s with
  | EmptyString => EmptyString
  | String c s' =>
      match rstrip_chars cs s' with
      | EmptyString => if existsb (Ascii.eqb c) cs then EmptyString else String c EmptyString
      | r => String c r
      end
  end.

Definition strip_chars (cs : list ascii) (s : string) : string :=
  rstrip_chars cs (lstrip_chars cs s).

(** [not s] *)
Definition is_empty (s : string) : bool :=
  match s with EmptyString => true | _ => false end.

(** [not s.strip()] *)
Definition is_blank (s : string) : bool := is_empty (strip s).

Definition lower_ascii (c : ascii) : ascii :=
  let n := code c in
  if ((65 <=? n)%nat && (n <=? 90)%nat)
     || ((192 <=? n)%nat && (n <=? 222)%nat && negb (n =? 215)%nat)
  then ascii_of_nat (n + 32) else c.

Fixpoint lower (s : string) : string :=
  match s with
  | EmptyString => EmptyString
  | String c s' => String (lower_ascii c) (lower s')
  end.

(** [s.upper()] for comparison with ASCII text: the characters whose upper case is
    not one character of the range (U+00B5, U+00DF, U+00FF) are left as they are. *)
Definition upper_ascii (c : ascii) : ascii :=
  let n := code c in
  if ((97 <=? n)%nat && (n <=? 122)%nat)
     || ((224 <=? n)%nat && (n <=? 254)%nat && negb (n =? 247)%nat)
  then ascii_of_nat (n - 32) else c.

Fixpoint upper (s : string) : string :=
  match s with
  | EmptyString => EmptyString
  | String c s' => String (upper_ascii c) (upper s')
  end.

(** [s.startswith(p)] *)
Definition starts_with (s p : string) : bool := String.prefix p s.

Fixpoint ends_with (s p : string) : bool :=
  (s =? p)%string ||
  match s with EmptyString => false | String _ s' => ends_with s' p end.

(** [p in s] *)
Fixpoint contains (s p : string) : bool :=
  String.prefix p s ||
  match s with EmptyString => false | String _ s' => contains s' p end.

(** [s[n:]] for [n >= 0] *)
Fixpoint drop (n : nat) (s : string) : string :=
  match n, s with
  | O, _ => s
  | S n', String _ s' => drop n' s'
  | S _, EmptyString => EmptyString
  end.

(** [s[:n]] for [n >= 0] *)
Fixpoint take (n : nat) (s : string) : string :=
  match n, s with
  | S n', String c s' => String c (take n' s')
  | _, _ => EmptyString
  end.

(** [s.find(p)]: [None] for -1. *)
Fixpoint find (p s : string) : option nat :=
  if String.prefix p s then Some O
  else match s with
       | EmptyString => None
       | String _ s' => S <$> find p s'
       end.

(** [s.replace(a, b)] for one-character [a] and [b]. *)
Fixpoint replace_char (a b : ascii) (s : string) : string :=
  match s with
  | EmptyString => EmptyString
  | String c s' => String (if Ascii.eqb c a then b else c) (replace_char a b s')
  end.

(** [s.split(c)] for a one-character separator. *)
Fixpoint split (c : ascii) (s : string) : list string :=
  match s with
  | EmptyString => [EmptyString]
  | String d s' =>
      if Ascii.eqb d c then EmptyString :: split c s'
      else match split c s' with
           | [] => [String d EmptyString]
           | h :: t => String d h :: t
           end
  end.

(** [c.join(l)] *)
Fixpoint join (c : ascii) (l : list string) : string :=
  match l with
  | [] => EmptyString
  | [x] => x
  | x :: l' => (x ++ String c (join c l'))%string
  end.

Lemma append_nil_r s : (s ++ "" = s)%string.
Proof. by induction s as [|c s IH]; simpl; [|rewrite IH]. Qed.

Lemma append_assoc a b c : ((a ++ b) ++ c = a ++ (b ++ c))%string.
Proof. by induction a as [|x a IH]; simpl; [|rewrite IH]. Qed.

Lemma append_cancel_l a b c : (a ++ b = a ++ c)%string -> b = c.
Proof. induction a as [|x a IH]; simpl; [done|]. intros [=]; auto. Qed.

Lemma is_empty_true s : is_empty s = true <-> s = EmptyString.
Proof. by destruct s. Qed.

Lemma starts_with_true s p :
  starts_with s p = true <-> exists r, s = (p ++ r)%string.
Proof.
  unfold starts_with. revert s; induction p as [|c p IH]; intros s; simpl.
  - split; [by exists s|]. by destruct s.
  - destruct s as [|d s]; simpl.
    + split; [done|]. by intros [r ?].
    + destruct (ascii_dec c d) as [->|Hne].
      * rewrite IH. split; intros [r Hr]; exists r; [by rewrite Hr|by injection Hr].
      * split; [done|]. intros [r [=]]. congruence.
Qed.

Lemma ends_with_true s p :
  ends_with s p = true <-> exists r, s = (r ++ p)%string.
Proof.
  induction s as [|c s IH]; cbn [ends_with].
  - rewrite orb_false_r, String.eqb_eq. split.
    + intros <-. by exists EmptyString.
    + intros [[|] Hr]; [done|discriminate].
  - rewrite orb_true_iff, String.eqb_eq, IH. split.
    + intros [<-|[r ->]]; [by exists EmptyString|by exists (String c r)].
    + intros [[|d r] Hr]; [by left|]. right. exists r. by injection Hr.
Qed.

Lemma contains_true s p :
  contains s p = true <-> exists a b, s = (a ++ p ++ b)%string.
Proof.
  induction s as [|c s IH]; cbn [contains]; rewrite orb_true_iff.
  - fold (starts_with EmptyString p). rewrite starts_with_true. split.
    + intros [[r Hr]|]; [|done]. by exists EmptyString, r.
    + intros (a & b & Hab). left. destruct a; [by exists b|discriminate].
  - fold (starts_with (String c s) p). rewrite starts_with_true, IH. split.
    + intros [[r Hr]|(a & b & ->)]; [by exists EmptyString, r|]. by exists (String c a), b.
    + intros (a & b & Hab). destruct a as [|d a]; [left; by exists b|].
      right. exists a, b. by injection Hab.
Qed.

Lemma join_split c s : join c (split c s) = s.
Proof.
  induction s as [|d s IH]; simpl; [done|].
  destruct (Ascii.eqb d c) eqn:E.
  - apply Ascii.eqb_eq in E as ->. destruct (split c s) eqn:Hs; simpl in *.
    + by destruct s as [|e s]; simpl in Hs; [|destruct (Ascii.eqb e c), (split c s)].
    + by rewrite IH.
  - destruct (split c s) as [|h t] eqn:Hs; [by destruct s as [|e s]; simpl in Hs;
      [|destruct (Ascii.eqb e c), (split c s)]|].
    rewrite <- IH. by destruct t.
Qed.

Lemma split_cons c s : exists h t, split c s = h :: t.
Proof.
  destruct s as [|d s]; simpl; [by eexists _, _|].
  destruct (Ascii.eqb d c); [by eexists _, _|]. destruct (split c s); by eexists _, _.
Qed.

Lemma split_app_sep c a b :
  split c (a ++ String c b) = split c a ++ split c b.
Proof.
  induction a as [|d a IH]; simpl; [by rewrite Ascii.eqb_refl|].
  destruct (Ascii.eqb d c); [by rewrite IH|].
  rewrite IH. by destruct (split_cons c a) as (h & t & ->).
Qed.

(** Stripping is idempotent: what the validators store is a fixed point. *)
Lemma lstrip_strip s : lstrip (strip s) = strip s.
Proof.
  unfold strip. induction s as [|c s IH]; simpl; [done|].
  destruct (is_space c) eqn:E; [done|]. simpl.
  destruct (rstrip s) eqn:R; simpl; rewrite E; simpl; by rewrite ?E.
Qed.

Lemma rstrip_idem s : rstrip (rstrip s) = rstrip s.
Proof.
  induction s as [|c s IH]; simpl; [done|].
  destruct (rstrip s) as [|d r] eqn:R.
  - destruct (is_space c) eqn:E; simpl; by rewrite ?E.
  - simpl in *. by rewrite IH.
Qed.

Lemma strip_idem s : strip (strip s) = strip s.
Proof. unfold strip at 1. rewrite lstrip_strip. apply rstrip_idem. Qed.

Lemma is_blank_strip s : is_blank (strip s) = is_blank s.
Proof. unfold is_blank. by rewrite strip_idem. Qed.
End Str.

(** ** Orders and [sorted(..., key=...)]

    [KeyOrder K] is what [sorted] asks of the keys: a total order decided by a
    boolean.  Tuples are compared lexicographically, strings by code point. *)
Class KeyOrder (K : Type) := {
  kle : K -> K -> bool;
  kle_total : forall a b, kle a b = true \/ kle b a = true;
  kle_trans : forall a b c, kle a b = true -> kle b c = true -> kle a c = true;
  kle_antisym : forall a b, kle a b = true -> kle b a = true -> a = b
}.

Lemma kle_refl `{KeyOrder K} (a : K) : kle a a = true.
Proof. by destruct (kle_total a a). Qed.

Lemma kle_false `{KeyOrder K} (a b : K) : kle a b = false -> kle b a = true.
Proof. intros Hf. destruct (kle_total a b); congruence. Qed.

#[global] Program Instance Z_key_order : KeyOrder Z := {| kle := Z.leb |}.
Next Obligation. intros a b. rewrite !Z.leb_le. lia. Qed.
Next Obligation. intros a b c. rewrite !Z.leb_le. lia. Qed.
Next Obligation. intros a b. rewrite !Z.leb_le. lia. Qed.

#[global] Program Instance nat_key_order : KeyOrder nat := {| kle := Nat.leb |}.
Next Obligation. intros a b. rewrite !Nat.leb_le. lia. Qed.
Next Obligation. intros a b c. rewrite !Nat.leb_le. lia. Qed.
Next Obligation. intros a b. rewrite !Nat.leb_le. lia. Qed.

Section prod_order.
Context `{KeyOrder A, KeyOrder B}.

Definition prod_kle (x y : A * B) : bool :=
  kle x.1 y.1 && (negb (kle y.1 x.1) || kle x.2 y.2).

#[global] Program Instance prod_key_order : KeyOrder (A * B) := {| kle := prod_kle |}.
Next Obligation.
  intros [a b] [a' b']. unfold prod_kle; simpl.
  destruct (kle a a') eqn:E1, (kle a' a) eqn:E2; simpl; auto using kle_total.
  apply kle_false in E1. congruence.
Qed.
Next Obligation.
  intros [a b] [a' b'] [a'' b'']. unfold prod_kle; simpl.
  rewrite !andb_true_iff, !orb_true_iff, !negb_true_iff.
  intros [L1 R1] [L2 R2]. split; [by eapply kle_trans|].
  destruct (kle a'' a) eqn:E; [right|by left].
  assert (kle a' a = true) by (by eapply kle_trans).
  assert (kle a'' a' = true) by (by eapply kle_trans).
  destruct R1, R2; try congruence. by eapply kle_trans.
Qed.
Next Obligation.
  intros [a b] [a' b']. unfold prod_kle; simpl.
  rewrite !andb_true_iff, !orb_true_iff, !negb_true_iff.
  intros [L1 R1] [L2 R2]. assert (a = a') as -> by (by apply kle_antisym).
  f_equal. destruct R1, R2; try congruence. by apply kle_antisym.
Qed.
End prod_order.

Fixpoint string_kle (s t : string) : bool :=
  match s, t with
  | EmptyString, _ => true
  | String _ _, EmptyString => false
  | String c s', String d t' =>
      if (Str.code c <? Str.code d)%nat then true
      else if (Str.code c =? Str.code d)%nat then string_kle s' t' else false
  end.

Lemma str_code_inj c d : Str.code c = Str.code d -> c = d.
Proof.
  unfold Str.code. intros E. rewrite <-(ascii_nat_embedding c), <-(ascii_nat_embedding d).
  by rewrite E.
Qed.

#[global] Program Instance string_key_order : KeyOrder string := {| kle := string_kle |}.
Next Obligation.
  induction a as [|c s IH]; intros [|d t]; simpl; auto.
  destruct (Nat.ltb_spec (Str.code c) (Str.code d)), (Nat.ltb_spec (Str.code d) (Str.code c)),
    (Nat.eqb_spec (Str.code c) (Str.code d)), (Nat.eqb_spec (Str.code d) (Str.code c));
    auto; lia.
Qed.
Next Obligation.
  induction a as [|c s IH]; intros [|d t] [|e u]; simpl; try done.
  destruct (Nat.ltb_spec (Str.code c) (Str.code d)), (Nat.ltb_spec (Str.code d) (Str.code e)),
    (Nat.ltb_spec (Str.code c) (Str.code e)), (Nat.eqb_spec (Str.code c) (Str.code d)),
    (Nat.eqb_spec (Str.code d) (Str.code e)), (Nat.eqb_spec (Str.code c) (Str.code e));
    try done; try lia. apply IH.
Qed.
Next Obligation.
  induction a as [|c s IH]; intros [|d t]; simpl; try done.
  destruct (Nat.ltb_spec (Str.code c) (Str.code d)), (Nat.ltb_spec (Str.code d) (Str.code c)),
    (Nat.eqb_spec (Str.code c) (Str.code d)), (Nat.eqb_spec (Str.code d) (Str.code c));
    try done; try lia.
  intros. f_equal; [by apply str_code_inj|auto].
Qed.

Section sort_by.
Context {A K : Type} `{KeyOrder K} (key : A -> K).

Fixpoint insert_by (x : A) (l : list A) : list A :=
  match l with
  | [] => [x]
  | y :: l' => if kle (key x) (key y) then x :: y :: l' else y :: insert_by x l'
  end.

(** [sorted(l, key=key)]: stable, ascending. *)
Definition sort_by (l : list A) : list A := foldr insert_by [] l.

Definition key_le (x y : A) : Prop := kle (key x) (key y) = true.

Lemma insert_by_perm x l : insert_by x l ≡ₚ x :: l.
Proof.
  induction l as [|y l IH]; simpl; [done|]. destruct (kle _ _); [done|].
  by rewrite IH, Permutation_swap.
Qed.

Lemma sort_by_perm l : sort_by l ≡ₚ l.
Proof. induction l as [|x l IH]; simpl; [done|]. by rewrite insert_by_perm, IH. Qed.

Lemma insert_by_sorted x l :
  StronglySorted key_le l -> StronglySorted key_le (insert_by x l).
Proof.
  induction 1 as [|y l Hl IH Hy]; simpl; [repeat constructor|].
  destruct (kle (key x) (key y)) eqn:E.
  - constructor; [by constructor|]. constructor; [done|].
    eapply Forall_impl; [exact Hy|]. intros z Hz. by eapply kle_trans.
  - constructor; [done|]. rewrite insert_by_perm. constructor; [by apply kle_false|done].
Qed.

Lemma sort_by_sorted l : StronglySorted key_le (sort_by l).
Proof. induction l; simpl; [constructor|by apply insert_by_sorted]. Qed.

Lemma elem_of_sort_by x l : x ∈ sort_by l <-> x ∈ l.
Proof. by rewrite sort_by_perm. Qed.

Lemma length_sort_by l : length (sort_by l) = length l.
Proof. by rewrite sort_by_perm. Qed.

Lemma sort_by_head_min l x l' y :
  sort_by l = x :: l' -> y ∈ l -> kle (key x) (key y) = true.
Proof.
  intros E Hy. pose proof (sort_by_sorted l) as Hs. rewrite E in Hs.
  apply StronglySorted_inv in Hs as [_ Hx]. rewrite Forall_forall in Hx.
  apply elem_of_sort_by in Hy. rewrite E in Hy.
  apply elem_of_cons in Hy as [->|Hy]; [apply kle_refl|by apply Hx].
Qed.

(** Two sorted arrangements of the same elements agree when the key tells the
    elements apart. *)
Lemma sorted_perm_unique l1 l2 :
  (forall x y, x ∈ l1 -> y ∈ l1 -> key x = key y -> x = y) ->
  StronglySorted key_le l1 -> StronglySorted key_le l2 -> l1 ≡ₚ l2 -> l1 = l2.
Proof.
  revert l2. induction l1 as [|x l1 IH]; intros l2 Hinj H1 H2 Hp.
  - by apply Permutation_nil_l in Hp.
  - destruct l2 as [|y l2]; [by apply Permutation_nil_r in Hp|].
    apply StronglySorted_inv in H1 as [H1 Hx]. apply StronglySorted_inv in H2 as [H2 Hy].
    rewrite Forall_forall in Hx. rewrite Forall_forall in Hy.
    assert (x = y) as ->.
    { assert (y ∈ x :: l1) as Hin by (rewrite Hp; left).
      assert (x ∈ y :: l2) as Hin' by (rewrite <-Hp; left).
      apply elem_of_cons in Hin as [->|Hin]; [done|].
      apply elem_of_cons in Hin' as [->|Hin']; [done|].
      apply Hinj; [left|by right|]. apply kle_antisym; [by apply Hx|by apply Hy]. }
    f_equal. apply IH; [|done|done|by apply Permutation_cons_inv in Hp].
    intros u v Hu Hv. apply Hinj; by right.
Qed.

Lemma sort_by_perm_eq l1 l2 :
  (forall x y, x ∈ l1 -> y ∈ l1 -> key x = key y -> x = y) ->
  l1 ≡ₚ l2 -> sort_by l1 = sort_by l2.
Proof.
  intros Hinj Hp. apply sorted_perm_unique; try apply sort_by_sorted.
  - intros x y. rewrite !elem_of_sort_by. apply Hinj.
  - by rewrite !sort_by_perm.
Qed.

Lemma sort_by_sorted_id l : StronglySorted key_le l -> sort_by l = l.
Proof.
  induction 1 as [|x l Hl IH Hx]; [done|]. cbn. fold (sort_by l). rewrite IH.
  destruct l as [|y l]; [done|]. cbn. apply Forall_inv in Hx. unfold key_le in Hx. by rewrite Hx.
Qed.

Lemma sort_by_snoc l x :
  (forall y, y ∈ l -> kle (key y) (key x) = true) -> sort_by (l ++ [x]) = sort_by l ++ [x].
Proof.
  assert (forall y l', kle (key y) (key x) = true ->
            insert_by y (l' ++ [x]) = insert_by y l' ++ [x]) as Hins.
  { intros y l' Hy. induction l' as [|z l' IH]; cbn; [by rewrite Hy|].
    destruct (kle (key y) (key z)); [done|]. by rewrite IH. }
  induction l as [|y l IH]; intros Hle; [done|]. cbn. fold (sort_by l).
  fold (sort_by (l ++ [x])). rewrite IH; [|intros z Hz; apply Hle; by right].
  apply Hins, Hle. left.
Qed.
End sort_by.

(** ** Lists as Python uses them *)

(** [x in l] *)
Definition mem `{EqDecision A} (x : A) (l : list A) : bool := bool_decide (x ∈ l).

Lemma mem_true `{EqDecision A} (x : A) l : mem x l = true <-> x ∈ l.
Proof. apply bool_decide_eq_true. Qed.

Lemma mem_false `{EqDecision A} (x : A) l : mem x l = false <-> x ∉ l.
Proof. apply bool_decide_eq_false. Qed.

(** [tuple(dict.fromkeys(l))]: the first occurrence of each element, in order. *)
Fixpoint dedupe `{EqDecision A} (l : list A) : list A :=
  match l with
  | [] => []
  | x :: l' => x :: filter (fun y => y ≠ x) (dedupe l')
  end.

Lemma elem_of_concat {A} (x : A) ls : x ∈ concat ls <-> exists l, x ∈ l /\ l ∈ ls.
Proof.
  rewrite list_elem_of_In, in_concat. setoid_rewrite <-list_elem_of_In. naive_solver.
Qed.

Lemma elem_of_dedupe `{EqDecision A} (x : A) l : x ∈ dedupe l <-> x ∈ l.
Proof.
  induction l as [|y l IH]; simpl; [done|].
  rewrite !elem_of_cons, list_elem_of_filter, IH. destruct (decide (x = y)); naive_solver.
Qed.

Lemma NoDup_dedupe `{EqDecision A} (l : list A) : NoDup (dedupe l).
Proof.
  induction l as [|y l IH]; simpl; constructor.
  - rewrite list_elem_of_filter. naive_solver.
  - by apply NoDup_filter.
Qed.

(** [Enum(s)]: the member with the value [s]. *)
Definition enum_of {A} (value : A -> string) (members : list A) (s : string) : result A :=
  match List.find (fun x => (value x =? s)%string) members with
  | Some x => Ok x
  | None => Raise ValueError
  end.

Lemma enum_of_ok {A} (value : A -> string) members s x :
  enum_of value members s = Ok x -> s = value x.
Proof.
  unfold enum_of. destruct (List.find _ _) eqn:E; [|done]. intros [= <-].
  apply find_some in E as [_ E]. by apply String.eqb_eq in E.
Qed.

(** A value that is a member of an enumeration or the text of one, as some constructors
    accept. *)
Inductive member_or_text (A : Type) : Type :=
  | Member (a : A)
  | Text (s : string).
Arguments Member {A} a.
Arguments Text {A} s.

(** The member meant; unknown text raises [ResearchInputError]. *)
Definition coerce {A} (of_value : string -> result A) (x : member_or_text A) : result A :=
  match x with
  | Member a => Ok a
  | Text s => match of_value s with Ok a => Ok a | Raise _ => Raise ResearchInputError end
  end.

Lemma existsb_true {A} (f : A -> bool) l :
  existsb f l = true <-> exists x, x ∈ l /\ f x = true.
Proof. rewrite existsb_exists. by setoid_rewrite list_elem_of_In. Qed.

Lemma existsb_false {A} (f : A -> bool) l :
  existsb f l = false <-> forall x, x ∈ l -> f x = false.
Proof.
  rewrite <-not_true_iff_false, existsb_true. split.
  - intros Hn x Hx. apply not_true_iff_false. intros Hf. apply Hn. eauto.
  - intros Hf (x & Hx & Hfx). rewrite (Hf _ Hx) in Hfx. done.
Qed.

Lemma forallb_true {A} (f : A -> bool) l :
  forallb f l = true <-> forall x, x ∈ l -> f x = true.
Proof. rewrite forallb_forall. by setoid_rewrite list_elem_of_In. Qed.

(** ** [datetime] and [timedelta]

    A timezone-aware [datetime] is its UTC instant in microseconds since
    0001-01-01T00:00:00Z; arithmetic that leaves the years 1..9999 raises
    [OverflowError], as does a [timedelta] of more than 999999999 days. *)
Module DateTime.
Definition per_second : Z := 1000000.
Definition max_instant : Z := 315537897600 * 1000000 - 1.
Definition max_delta_days : Z := 999999999.

Definition in_range (t : Z) : bool := (0 <=? t) && (t <=? max_instant).

(** [timedelta(seconds=n)] for an [int] [n]. *)
Definition seconds (n : Z) : result Z :=
  let days := n / 86400 in
  raise_if ((days <? - max_delta_days) || (max_delta_days <? days)) as OverflowError;;
  Ok (n * per_second).

(** [t + d] *)
Definition add (t d : Z) : result Z :=
  raise_if negb (in_range (t + d)) as OverflowError;;
  Ok (t + d).

(** [t - d] *)
Definition sub (t d : Z) : result Z := add t (- d).

Lemma seconds_ok n d : seconds n = Ok d -> d = n * per_second.
Proof. unfold seconds. by case_match; intros [= <-]. Qed.

Lemma add_ok t d u : add t d = Ok u <-> u = t + d /\ in_range (t + d) = true.
Proof. unfold add. destruct (in_range (t + d)); naive_solver. Qed.

Lemma in_range_true t : in_range t = true <-> 0 <= t <= max_instant.
Proof. unfold in_range. rewrite andb_true_iff, !Z.leb_le. done. Qed.
End DateTime.

(** ** Automation

    [zest_bool] turns boolean tests into propositions, [bool_prop] does so in
    every hypothesis, [py_cases] splits a fallible body into its paths. *)
Create Rewrite HintDb zest_bool.
#[export] Hint Rewrite andb_true_iff andb_false_iff orb_true_iff orb_false_iff
  negb_true_iff negb_false_iff Z.ltb_lt Z.ltb_ge Z.leb_le Z.leb_gt Z.geb_le
  Z.eqb_eq Z.eqb_neq String.eqb_eq String.eqb_neq @bool_decide_eq_true
  @bool_decide_eq_false @mem_true @mem_false
  using (typeclasses eauto) : zest_bool.

Ltac bool_prop := autorewrite with zest_bool in *.

Ltac py_cases :=
  repeat (progress (simplify_eq/=) || case_match); simplify_eq/=.

Lemma bind_ok {A B} (r : result A) (f : A -> result B) b :
  r ≫= f = Ok b <-> exists a, r = Ok a /\ f a = Ok b.
Proof. destruct r; simpl; naive_solver. Qed.

Lemma bind_raise {A B} (r : result A) (f : A -> result B) e :
  r ≫= f = Raise e <-> r = Raise e \/ exists a, r = Ok a /\ f a = Raise e.
Proof. destruct r; simpl; naive_solver. Qed.

Lemma raise_if_ok {A} (b : bool) e (r : result A) a :
  (raise_if b as e;; r) = Ok a <-> b = false /\ r = Ok a.
Proof. destruct b; naive_solver. Qed.

Lemma traverse_ok {A B} (f : A -> result B) l ys :
  traverse f l = Ok ys <-> Forall2 (fun x y => f x = Ok y) l ys.
Proof.
  revert ys; induction l as [|x l IH]; intros ys; simpl.
  - split; [by intros [= <-]|]. by inversion 1.
  - rewrite bind_ok. setoid_rewrite bind_ok. setoid_rewrite IH. split.
    + intros (y & Hy & ys' & Hys & [= <-]). by constructor.
    + inversion 1; subst. eauto 6.
Qed.

(** ** Dictionaries kept as item lists *)

(** [dict.get] on an association list with distinct keys. *)
Definition assoc {V} (k : string) (d : list (string * V)) : option V :=
  snd <$> List.find (fun p => (fst p =? k)%string) d.

Lemma assoc_None {V} k (d : list (string * V)) : assoc k d = None <-> k ∉ d.*1.
Proof.
  unfold assoc. induction d as [|[k' v] d IH]; simpl; [by split; [set_solver|]|].
  destruct (k' =? k)%string eqn:E; bool_prop; rewrite ?IH, not_elem_of_cons; naive_solver.
Qed.

Lemma assoc_Some_in {V} k (d : list (string * V)) v : assoc k d = Some v -> (k, v) ∈ d.
Proof.
  unfold assoc. rewrite fmap_Some. intros ([k' v'] & Hf & ->).
  apply find_some in Hf as [Hin E]. simpl in E. bool_prop. subst. by apply list_elem_of_In.
Qed.

(** A [for] loop threading a state through a fallible body. *)
Fixpoint fold_result {S A} (f : S -> A -> result S) (s : S) (l : list A) : result S :=
  match l with
  | [] => Ok s
  | x :: l' => s' ← f s x; fold_result f s' l'
  end.

(** [[x for x in l if f(x)]] for a test that may raise. *)
Fixpoint filter_result {A} (f : A -> result bool) (l : list A) : result (list A) :=
  match l with
  | [] => Ok []
  | x :: l =>
      b ← f x; rest ← filter_result f l; Ok (match b with true => x :: rest | false => rest end)
  end.

Lemma fold_result_ind {S A} (P : S -> Prop) (f : S -> A -> result S) l s s' :
  (forall s0 x s1, x ∈ l -> P s0 -> f s0 x = Ok s1 -> P s1) ->
  P s -> fold_result f s l = Ok s' -> P s'.
Proof.
  revert s. induction l as [|x l IH]; simpl; intros s Hf Hs; [by intros [= <-]|].
  rewrite bind_ok. intros (s1 & H1 & H2). eapply IH; [| |exact H2].
  - intros s0 y s2 Hy. apply Hf. by right.
  - eapply Hf; eauto. left.
Qed.

(** ** [List.filter] and [List.find] with boolean tests *)

Lemma elem_of_list_filter_bool {A} (f : A -> bool) l x :
  x ∈ List.filter f l <-> x ∈ l /\ f x = true.
Proof. rewrite !list_elem_of_In, filter_In. done. Qed.

Lemma filter_nil_bool {A} (f : A -> bool) l :
  List.filter f l = [] <-> forall x, x ∈ l -> f x = false.
Proof.
  induction l as [|x l IH]; simpl; [set_solver|].
  destruct (f x) eqn:E; [|rewrite IH; set_solver].
  split; [done|]. intros H. rewrite H in E; [done|left].
Qed.

Lemma find_None_iff {A} (f : A -> bool) l :
  List.find f l = None <-> forall x, x ∈ l -> f x = false.
Proof.
  induction l as [|x l IH]; simpl; [set_solver|].
  destruct (f x) eqn:E; [|rewrite IH; set_solver].
  split; [done|]. intros H. rewrite H in E; [done|left].
Qed.

Lemma find_Some_elem {A} (f : A -> bool) l x :
  List.find f l = Some x -> x ∈ l /\ f x = true.
Proof. intros [H ?]%find_some. by rewrite list_elem_of_In. Qed.

(** ** Dicts whose order is read, sets that are sorted, permutations *)

(** [d[k] = v] *)
Fixpoint dict_put {K V} `{EqDecision K} (k : K) (v : V) (d : list (K * V)) : list (K * V) :=
  match d with
  | [] => [(k, v)]
  | (k', v') :: d' =>
      if bool_decide (k' = k) then (k, v) :: d' else (k', v') :: dict_put k v d'
  end.

(** [d.get(k)] *)
Definition dict_look {K V} `{EqDecision K} (k : K) (d : list (K * V)) : option V :=
  snd <$> List.find (fun p => bool_decide (p.1 = k)) d.

Lemma elem_of_dict_put {K V} `{EqDecision K} (k : K) (v : V) d p :
  p ∈ dict_put k v d -> p = (k, v) \/ p ∈ d.
Proof.
  induction d as [|[k' v'] d IH]; cbn; [by intros ->%list_elem_of_singleton; left|].
  case_bool_decide as E; rewrite !elem_of_cons.
  - naive_solver.
  - intros [->|Hin]; [by right; left|]. destruct (IH Hin); [by left|by right; right].
Qed.

Lemma dict_look_in {K V} `{EqDecision K} (k : K) (d : list (K * V)) v :
  dict_look k d = Some v -> (k, v) ∈ d.
Proof.
  unfold dict_look. rewrite fmap_Some. intros ([k' v'] & Hf%find_Some_elem & ->). cbn in *.
  rewrite bool_decide_eq_true in Hf. by destruct Hf as [? ->].
Qed.

(** [tuple(sorted(set(l)))] *)
Definition sorted_set (l : list string) : list string := sort_by id (dedupe l).

Lemma elem_of_sorted_set x l : x ∈ sorted_set l <-> x ∈ l.
Proof. unfold sorted_set. by rewrite elem_of_sort_by, elem_of_dedupe. Qed.

Lemma NoDup_fmap_inj {A B} (f : A -> B) l x y :
  NoDup (f <$> l) -> x ∈ l -> y ∈ l -> f x = f y -> x = y.
Proof.
  induction l as [|z l IH]; cbn; [by intros _ ?%elem_of_nil|].
  intros [Hz Hl]%NoDup_cons [->|Hx]%elem_of_cons [->|Hy]%elem_of_cons E; auto.
  - exfalso. apply Hz. rewrite E. by apply list_elem_of_fmap_2.
  - exfalso. apply Hz. rewrite <-E. by apply list_elem_of_fmap_2.
Qed.

Lemma fold_result_snoc {S A} (f : S -> A -> result S) s l x s' :
  fold_result f s (l ++ [x]) = Ok s' <-> exists s1, fold_result f s l = Ok s1 /\ f s1 x = Ok s'.
Proof.
  revert s. induction l as [|y l IH]; intros s; cbn.
  - rewrite bind_ok. naive_solver.
  - rewrite bind_ok. setoid_rewrite bind_ok. setoid_rewrite IH. naive_solver.
Qed.

Lemma existsb_perm {A} (f : A -> bool) l l' : l ≡ₚ l' -> existsb f l = existsb f l'.
Proof. induction 1; simpl; try congruence. by destruct (f x), (f y). Qed.

Lemma forallb_perm {A} (f : A -> bool) l l' : l ≡ₚ l' -> forallb f l = forallb f l'.
Proof.
  induction 1 as [|x l l' _ IH|x y l|l l' l'' _ IH1 _ IH2]; cbn; [done|by rewrite IH| |congruence].
  by destruct (f x), (f y).
Qed.

Lemma filter_bool_perm {A} (f g : A -> bool) l l' :
  (forall x, f x = g x) -> l ≡ₚ l' -> List.filter f l ≡ₚ List.filter g l'.
Proof.
  intros Hfg Hp. rewrite (List.filter_ext f g Hfg).
  induction Hp as [|x l l' _ IH|x y l|l l' l'' _ IH1 _ IH2]; cbn; [done| | |by rewrite IH1].
  - destruct (g x); by rewrite IH.
  - destruct (g x), (g y); done || constructor.
Qed.

Lemma bind_perm_ext {A B} (f g : A -> list B) l l' :
  l ≡ₚ l' -> (forall x, f x ≡ₚ g x) -> l ≫= f ≡ₚ l' ≫= g.
Proof. intros -> Hfg. induction l' as [|x l' IH]; cbn; [done|]. by rewrite Hfg, IH. Qed.

Definition inj_on {A B} (f : A -> B) (l : list A) : Prop :=
  forall x y, x ∈ l -> y ∈ l -> f x = f y -> x = y.

(** ** Validating constructors

    Most constructors of the data layer check their fields and store them unchanged.
    [peel] takes a successful validation apart. *)
Ltac peel H :=
  repeat first [apply raise_if_ok in H as [_ H] | apply bind_ok in H as (? & _ & H)].

Class Validator {A} (post_init : A -> result A) : Prop :=
  validated : forall x y, post_init x = Ok y -> y = x.

Ltac solve_validator :=
  lazymatch goal with
  | |- Validator ?f => intros ? ? H; unfold f in H; peel H; congruence
  end.
