(* ===== verification/CoreTypes.v ===== *)
(** * Core enums and identities

    The enumerations of [core/enums.py] and the identity checks of
    [core/identity.py].  Each Python [Enum] class is a module whose type [t]
    has the members as constructors and whose [value] gives the string the
    member carries. *)
From S2P Require Import Prelude.

(** [core/enums.py:6-10 ActorType] *)
Module ActorType.
Inductive t : Set :=
  | HUMAN_OPERATOR | CONTROL_PLANE | WORKER | INTEGRATION.
#[global] Instance eq_dec : EqDecision t.
Proof. solve_decision. Defined.
Definition value (x : t) : string :=
  match x with
  | HUMAN_OPERATOR => "HUMAN_OPERATOR" | CONTROL_PLANE => "CONTROL_PLANE"
  | WORKER => "WORKER" | INTEGRATION => "INTEGRATION"
  end.
End ActorType.

(** [core/enums.py:13-16 AuthorizationSourceState] *)
Module AuthorizationSourceState.
Inductive t : Set :=
  | ACTIVE | EXPIRED | REVOKED.
#[global] Instance eq_dec : EqDecision t.
Proof. solve_decision. Defined.
Definition value (x : t) : string :=
  match x with
  | ACTIVE => "ACTIVE" | EXPIRED => "EXPIRED" | REVOKED => "REVOKED"
  end.
End AuthorizationSourceState.

(** [core/enums.py:19-22 ScopeDecision] *)
Module ScopeDecision.
Inductive t : Set :=
  | ALLOW | DENY | REQUIRE_HUMAN_REVIEW.
#[global] Instance eq_dec : EqDecision t.
Proof. solve_decision. Defined.
Definition value (x : t) : string :=
  match x with
  | ALLOW => "ALLOW" | DENY => "DENY" | REQUIRE_HUMAN_REVIEW => "REQUIRE_HUMAN_REVIEW"
  end.
End ScopeDecision.

(** [core/enums.py:25-28 ScopeClassification] *)
Module ScopeClassification.
Inductive t : Set :=
  | IN_SCOPE | UNKNOWN | OUT_OF_SCOPE.
#[global] Instance eq_dec : EqDecision t.
Proof. solve_decision. Defined.
Definition value (x : t) : string :=
  match x with
  | IN_SCOPE => "IN_SCOPE" | UNKNOWN => "UNKNOWN" | OUT_OF_SCOPE => "OUT_OF_SCOPE"
  end.
End ScopeClassification.

(** [core/enums.py:31-35 ScopeRuleEffect] *)
Module ScopeRuleEffect.
Inductive t : Set :=
  | ALLOW | DENY | OUT_OF_SCOPE | UNKNOWN.
#[global] Instance eq_dec : EqDecision t.
Proof. solve_decision. Defined.
Definition value (x : t) : string :=
  match x with
  | ALLOW => "ALLOW" | DENY => "DENY" | OUT_OF_SCOPE => "OUT_OF_SCOPE"
  | UNKNOWN => "UNKNOWN"
  end.
End ScopeRuleEffect.

(** [core/enums.py:39-43 SideEffectLevel] *)
Module SideEffectLevel.
Inductive t : Set := LEVEL_0 | LEVEL_1 | LEVEL_2 | LEVEL_3.
#[global] Instance eq_dec : EqDecision t.
Proof. solve_decision. Defined.

(** [int(level)] *)
Definition value (x : t) : Z :=
  match x with LEVEL_0 => 0 | LEVEL_1 => 1 | LEVEL_2 => 2 | LEVEL_3 => 3 end.

(** [SideEffectLevel(n)]; [None] stands for the [ValueError]. *)
Definition of_int (n : Z) : option t :=
  match n with
  | 0 => Some LEVEL_0 | 1 => Some LEVEL_1 | 2 => Some LEVEL_2 | 3 => Some LEVEL_3
  | _ => None
  end.

Lemma of_int_value x : of_int (value x) = Some x.
Proof. by destruct x. Qed.

Lemma value_of_int n x : of_int n = Some x -> value x = n.
Proof. unfold of_int. intros. by repeat case_match; simplify_eq/=. Qed.
End SideEffectLevel.

(** [core/enums.py:45-47 ApprovalDecision] *)
Module ApprovalDecision.
Inductive t : Set :=
  | APPROVE | REJECT.
#[global] Instance eq_dec : EqDecision t.
Proof. solve_decision. Defined.
Definition value (x : t) : string :=
  match x with
  | APPROVE => "APPROVE" | REJECT => "REJECT"
  end.
End ApprovalDecision.

(** [core/enums.py:50-53 ExecutionDecisionKind] *)
Module ExecutionDecisionKind.
Inductive t : Set :=
  | ALLOW | DENY | REQUIRE_HUMAN_REVIEW.
#[global] Instance eq_dec : EqDecision t.
Proof. solve_decision. Defined.
Definition value (x : t) : string :=
  match x with
  | ALLOW => "ALLOW" | DENY => "DENY" | REQUIRE_HUMAN_REVIEW => "REQUIRE_HUMAN_REVIEW"
  end.
End ExecutionDecisionKind.

(** [core/enums.py:56-94 ReasonCode] *)
Module ReasonCode.
Inductive t : Set :=
  | ALLOWED | AUTHORIZATION_MISSING | AUTHORIZATION_INACTIVE | SCOPE_DENIED
  | SCOPE_NOT_EXPLICITLY_ALLOWED | SCOPE_AMBIGUOUS | BUDGET_EXHAUSTED
  | BUDGET_MISMATCH | APPROVAL_REQUIRED | APPROVAL_REJECTED | APPROVAL_INVALID_ACTOR
  | APPROVAL_SUBJECT_MISMATCH | APPROVAL_NOT_RECORDED | SIDE_EFFECT_LEVEL_DENIED
  | CAPABILITY_AUTHORIZATION_MISSING | UNKNOWN_CAPABILITY | UNKNOWN_ACTION
  | UNSUPPORTED_CAPABILITY_VERSION | DEFINITION_FINGERPRINT_MISMATCH
  | RISK_UNDERSTATEMENT | RISK_EXCEEDS_CAPABILITY | SIDE_EFFECT_BINDING_MISMATCH
  | SCHEMA_MISMATCH | SCOPE_PATH_AMBIGUOUS | SCOPE_NORMALIZATION_INVALID
  | SCOPE_USERINFO_DENIED | SCOPE_WILDCARD_REJECTED | SCOPE_UNKNOWN_CLASSIFICATION
  | SCOPE_EXPIRED | PROGRAM_POLICY_DENIED | RATE_LIMIT_DENIED | SENSOR_TIMEOUT
  | SENSOR_FAILED | CENSUS_ALLOWED | CENSUS_DENIED | IMPACT_CHAIN_MISSING
  | IMPACT_CHAIN_CROSS_RUN | CROSS_RUN_PROOF.
#[global] Instance eq_dec : EqDecision t.
Proof. solve_decision. Defined.
Definition value (x : t) : string :=
  match x with
  | ALLOWED => "ALLOWED" | AUTHORIZATION_MISSING => "AUTHORIZATION_MISSING"
  | AUTHORIZATION_INACTIVE => "AUTHORIZATION_INACTIVE"
  | SCOPE_DENIED => "SCOPE_DENIED"
  | SCOPE_NOT_EXPLICITLY_ALLOWED => "SCOPE_NOT_EXPLICITLY_ALLOWED"
  | SCOPE_AMBIGUOUS => "SCOPE_AMBIGUOUS" | BUDGET_EXHAUSTED => "BUDGET_EXHAUSTED"
  | BUDGET_MISMATCH => "BUDGET_MISMATCH" | APPROVAL_REQUIRED => "APPROVAL_REQUIRED"
  | APPROVAL_REJECTED => "APPROVAL_REJECTED"
  | APPROVAL_INVALID_ACTOR => "APPROVAL_INVALID_ACTOR"
  | APPROVAL_SUBJECT_MISMATCH => "APPROVAL_SUBJECT_MISMATCH"
  | APPROVAL_NOT_RECORDED => "APPROVAL_NOT_RECORDED"
  | SIDE_EFFECT_LEVEL_DENIED => "SIDE_EFFECT_LEVEL_DENIED"
  | CAPABILITY_AUTHORIZATION_MISSING => "CAPABILITY_AUTHORIZATION_MISSING"
  | UNKNOWN_CAPABILITY => "UNKNOWN_CAPABILITY" | UNKNOWN_ACTION => "UNKNOWN_ACTION"
  | UNSUPPORTED_CAPABILITY_VERSION => "UNSUPPORTED_CAPABILITY_VERSION"
  | DEFINITION_FINGERPRINT_MISMATCH => "DEFINITION_FINGERPRINT_MISMATCH"
  | RISK_UNDERSTATEMENT => "RISK_UNDERSTATEMENT"
  | RISK_EXCEEDS_CAPABILITY => "RISK_EXCEEDS_CAPABILITY"
  | SIDE_EFFECT_BINDING_MISMATCH => "SIDE_EFFECT_BINDING_MISMATCH"
  | SCHEMA_MISMATCH => "SCHEMA_MISMATCH"
  | SCOPE_PATH_AMBIGUOUS => "SCOPE_PATH_AMBIGUOUS"
  | SCOPE_NORMALIZATION_INVALID => "SCOPE_NORMALIZATION_INVALID"
  | SCOPE_USERINFO_DENIED => "SCOPE_USERINFO_DENIED"
  | SCOPE_WILDCARD_REJECTED => "SCOPE_WILDCARD_REJECTED"
  | SCOPE_UNKNOWN_CLASSIFICATION => "SCOPE_UNKNOWN_CLASSIFICATION"
  | SCOPE_EXPIRED => "SCOPE_EXPIRED"
  | PROGRAM_POLICY_DENIED => "PROGRAM_POLICY_DENIED"
  | RATE_LIMIT_DENIED => "RATE_LIMIT_DENIED" | SENSOR_TIMEOUT => "SENSOR_TIMEOUT"
  | SENSOR_FAILED => "SENSOR_FAILED" | CENSUS_ALLOWED => "CENSUS_ALLOWED"
  | CENSUS_DENIED => "CENSUS_DENIED"
  | IMPACT_CHAIN_MISSING => "IMPACT_CHAIN_MISSING"
  | IMPACT_CHAIN_CROSS_RUN => "IMPACT_CHAIN_CROSS_RUN"
  | CROSS_RUN_PROOF => "CROSS_RUN_PROOF"
  end.
End ReasonCode.

(** ** Opaque identifiers *)

(** A string that is not blank is accepted and returned unchanged.
    [core/identity.py:9-12 require_opaque_id] *)
Definition require_opaque_id (value : string) : result string :=
  raise_if Str.is_blank value as CoreInputError;;
  Ok value.

(** [core/identity.py:15-23 Actor] *)
Module Actor.
Record t : Set := mk { actor_id : string; actor_type : ActorType.t }.

Definition post_init (x : t) : result t :=
  _ ← require_opaque_id x.(actor_id);
  Ok x.
End Actor.

(** [isinstance(level, int) and level in (0, 1, 2, 3)], the test several
    validators repeat. *)
Definition is_side_effect (n : Z) : bool := (0 <=? n) && (n <=? 3).

Lemma is_side_effect_of_int n :
  is_side_effect n = true <-> exists l, SideEffectLevel.of_int n = Some l.
Proof.
  unfold is_side_effect. rewrite andb_true_iff, !Z.leb_le. split.
  - intros Hn. assert (n = 0 \/ n = 1 \/ n = 2 \/ n = 3) as [-> | [-> | [-> | ->]]] by lia;
      by eexists.
  - intros [l Hl]. apply SideEffectLevel.value_of_int in Hl as <-. by destruct l.
Qed.

Lemma require_opaque_id_ok v w : require_opaque_id v = Ok w <-> w = v /\ Str.is_blank v = false.
Proof. unfold require_opaque_id. destruct (Str.is_blank v); naive_solver. Qed.
