(* ===== verification/PyVal.v ===== *)
(** * JSON-like Python values

    What [json.loads] produces and what the [Mapping[str, Any]] fields of the
    code hold.  A [dict] is its item list in insertion order with distinct
    keys; a finite [float] is the rational it denotes. *)
From S2P Require Import Prelude.
From Stdlib Require Import QArith.
#[local] Open Scope Z_scope.

#[local] Set Warnings "-register-all".

Inductive pyval : Type :=
  | PNone
  | PBool (b : bool)
  | PInt (z : Z)
  | PFloat (q : Q)
  | PStr (s : string)
  | PList (l : list pyval)
  | PDict (d : list (string * pyval)).

Section pyval_ind'.
  Context (P : pyval -> Prop)
    (Hnone : P PNone) (Hbool : forall b, P (PBool b)) (Hint : forall z, P (PInt z))
    (Hfloat : forall q, P (PFloat q)) (Hstr : forall s, P (PStr s))
    (Hlist : forall l, Forall P l -> P (PList l))
    (Hdict : forall d, Forall (fun p => P p.2) d -> P (PDict d)).

Fixpoint pyval_ind' (v : pyval) : P v :=
  match v with
  | PNone => Hnone
  | PBool b => Hbool b
  | PInt z => Hint z
  | PFloat q => Hfloat q
  | PStr s => Hstr s
  | PList l => Hlist l
      ((fix go l : Forall P l :=
          match l with
          | [] => List.Forall_nil _
          | x :: l' => List.Forall_cons _ x l' (pyval_ind' x) (go l')
          end) l)
  | PDict d => Hdict d
      ((fix go d : Forall (fun p => P p.2) d :=
          match d with
          | [] => List.Forall_nil _
          | p :: d' => List.Forall_cons _ p d' (pyval_ind' p.2) (go d')
          end) d)
  end.
End pyval_ind'.

(** [d.get(k)]: [None] of the model when the key is absent. *)
Fixpoint dict_find (k : string) (d : list (string * pyval)) : option pyval :=
  match d with
  | [] => None
  | (k', v) :: d' => if (k' =? k)%string then Some v else dict_find k d'
  end.

(** [d.get(k)] with Python's [None] for an absent key. *)
Definition dict_get (k : string) (d : list (string * pyval)) : pyval :=
  default PNone (dict_find k d).

(** Truth value testing, [bool(v)]. *)
Definition truthy (v : pyval) : bool :=
  match v with
  | PNone => false
  | PBool b => b
  | PInt z => negb (z =? 0)
  | PFloat q => negb (Qeq_bool q 0)
  | PStr s => negb (Str.is_empty s)
  | PList l => match l with [] => false | _ => true end
  | PDict d => match d with [] => false | _ => true end
  end.

(** [v == z] for an [int] literal [z]: [bool] is an [int], a float compares by value. *)
Definition eq_int (v : pyval) (z : Z) : bool :=
  match v with
  | PBool b => (if b then 1 else 0) =? z
  | PInt z' => z' =? z
  | PFloat q => Qeq_bool q (inject_Z z)
  | _ => false
  end.

(** [v == s] for a [str] [s]. *)
Definition eq_str (v : pyval) (s : string) : bool :=
  match v with PStr s' => (s' =? s)%string | _ => false end.

(** [v in {z1, ..., zn}]: testing membership in a set hashes [v], which a list or
    a dict refuses. *)
Definition in_int_set (v : pyval) (zs : list Z) : result bool :=
  match v with
  | PList _ | PDict _ => Raise TypeError
  | _ => Ok (existsb (eq_int v) zs)
  end.

(** [isinstance(v, str) and bool(v.strip())] *)
Definition is_text (v : pyval) : bool :=
  match v with PStr s => negb (Str.is_blank s) | _ => false end.

(** The items [for x in v] visits; [None] when [v] is not iterable. *)
Definition iter_items (v : pyval) : option (list pyval) :=
  match v with
  | PStr s => Some ((fun c => PStr (String c EmptyString)) <$> String.list_ascii_of_string s)
  | PList l => Some l
  | PDict d => Some ((fun p => PStr p.1) <$> d)
  | _ => None
  end.

Lemma eq_str_true v s : eq_str v s = true <-> v = PStr s.
Proof. destruct v; simpl; rewrite ?String.eqb_eq; naive_solver. Qed.

Lemma is_text_true v : is_text v = true <-> exists s, v = PStr s /\ Str.is_blank s = false.
Proof. destruct v; simpl; rewrite ?negb_true_iff; naive_solver. Qed.

Lemma PDict_inj d d' : PDict d = PDict d' -> d = d'.
Proof. congruence. Qed.
