(* ===== verification/SafeData.v ===== *)
(** * Secret protection: [safe_data.py]

    Payloads are JSON values, so the safe-reference dataclasses, tuples and sets of
    the code do not occur in them; the walk over dicts and lists is as written. *)
From S2P Require Import Prelude PyVal.

(** [safe_data.py:15 REDACTED] *)
Definition REDACTED : string := "[REDACTED]".

(** [safe_data.py:17-39 SENSITIVE_KEYS] *)
Definition SENSITIVE_KEYS : list string :=
  [ "authorization"; "proxy_authorization"; "api_key"; "apikey"; "access_token";
    "refresh_token"; "token"; "secret"; "password"; "cookie"; "set_cookie"; "session";
    "client_secret"; "session_token"; "raw_secret"; "secret_value"; "credential";
    "openai_api_key"; "anthropic_api_key" ].

(** [safe_data.py:48-57 SessionReference] *)
Module SessionReference.
Record t : Set := mk { value : string }.

Definition post_init (x : t) : result t :=
  raise_if Str.is_blank x.(value) as ValueError;;
  Ok (mk (Str.strip x.(value))).
End SessionReference.

(** [safe_data.py:60-63 normalize_secret_key] *)
Definition normalize_secret_key (key : string) : string :=
  Str.replace_char "-" "_" (Str.lower (Str.strip key)).

(** [safe_data.py:66-70 is_sensitive_key] *)
Definition is_sensitive_key (key : string) : bool :=
  let normalized := normalize_secret_key key in
  if Str.is_empty normalized then false else mem normalized SENSITIVE_KEYS.

(** [f"{path}.{key}" if path else str(key)] *)
Definition child_path (path key : string) : string :=
  if Str.is_empty path then key else path +:+ "." +:+ key.
#[local] Arguments child_path : simpl never.

(** The paths found, in order, and the cleaned value.
    [safe_data.py:103-137 _collect_sensitive] *)
Fixpoint collect_sensitive (redact : bool) (path : string) (v : pyval) {struct v}
    : list string * pyval :=
  match v with
  | PDict d =>
      let '(found, cleaned) :=
        (fix items (d : list (string * pyval)) : list string * list (string * pyval) :=
           match d with
           | [] => ([], [])
           | (key, item) :: d' =>
               let '(found', cleaned') := items d' in
               if is_sensitive_key key
               then (child_path path key :: found',
                     if redact then (key, PStr REDACTED) :: cleaned' else cleaned')
               else
                 let '(found, c) := collect_sensitive redact (child_path path key) item in
                 (found ++ found', (key, c) :: cleaned')
           end) d in
      (found, PDict cleaned)
  | PList l =>
      let '(found, cleaned) :=
        (fix elements (index : nat) (l : list pyval) : list string * list pyval :=
           match l with
           | [] => ([], [])
           | item :: l' =>
               let '(found, c) :=
                 collect_sensitive redact (path +:+ "[" +:+ pretty index +:+ "]") item in
               let '(found', cleaned') := elements (S index) l' in
               (found ++ found', c :: cleaned')
           end) O l in
      (found, PList cleaned)
  | _ => ([], v)
  end.

(** [safe_data.py:91-100 walk_sensitive_keys] *)
Definition walk_sensitive_keys (value : pyval) (path : string) : list string :=
  fst (collect_sensitive false path value).

(** [safe_data.py:140-149 reject_secret_keys] *)
Definition reject_secret_keys (payload : pyval) (field_name : string) : result pyval :=
  let '(found, cleaned) := collect_sensitive false field_name payload in
  raise_if negb (bool_decide (found = [])) as SecretMaterialError;;
  Ok cleaned.

(** [safe_data.py:152-156 redact_secret_keys] *)
Definition redact_secret_keys (payload : pyval) (field_name : string) : pyval :=
  snd (collect_sensitive true field_name payload).

(** [safe_data.py:228-234 require_mapping_without_secrets] *)
Definition require_mapping_without_secrets (payload : pyval) (field_name : string)
    : result (list (string * pyval)) :=
  match payload with
  | PDict _ =>
      cleaned ← reject_secret_keys payload field_name;
      match cleaned with
      | PDict d => Ok d
      | _ => Raise SecretMaterialError
      end
  | _ => Raise SecretMaterialError
  end.

(** [safe_data.py:219-225 _strip_header_like_text] *)
Definition HEADER_MARKERS : list string :=
  [ "authorization:"; "api-key:"; "api_key="; "bearer "; "cookie:" ].

(** [safe_data.py:219-225 _strip_header_like_text] *)
Definition strip_header_like_text (message : string) : string :=
  let lowered := Str.lower message in
  (fix loop (markers : list string) : string :=
     match markers with
     | [] => message
     | marker :: markers =>
         match Str.find marker lowered with
         | Some index => Str.take index message +:+ REDACTED
         | None => loop markers
         end
     end) HEADER_MARKERS.

(** ** Reading of a payload without the walk *)

(** No sensitive key at any depth. *)
Fixpoint secret_free (v : pyval) : bool :=
  match v with
  | PDict d => forallb (fun p => negb (is_sensitive_key p.1) && secret_free p.2) d
  | PList l => forallb secret_free l
  | _ => true
  end.

(** Every value under a sensitive key is the constant. *)
Fixpoint fully_redacted (v : pyval) : bool :=
  match v with
  | PDict d =>
      forallb (fun p => if is_sensitive_key p.1 then eq_str p.2 REDACTED
                        else fully_redacted p.2) d
  | PList l => forallb fully_redacted l
  | _ => true
  end.

(** What may be seen of a payload: the values under sensitive keys are erased. *)
Fixpoint public (v : pyval) : pyval :=
  match v with
  | PDict d => PDict (map (fun p => (p.1, if is_sensitive_key p.1 then PNone else public p.2)) d)
  | PList l => PList (map public l)
  | _ => v
  end.

(** The cleaned value alone, without paths. *)
Fixpoint redacted (v : pyval) : pyval :=
  match v with
  | PDict d =>
      PDict (map (fun p => (p.1, if is_sensitive_key p.1 then PStr REDACTED else redacted p.2)) d)
  | PList l => PList (map redacted l)
  | _ => v
  end.

(** Rewrites with the induction hypothesis of a child at the path the walk gave it. *)
Ltac use_child Hx E :=
  match type of E with
  | collect_sensitive _ ?p _ = _ =>
      first [rewrite <-(Hx p), E | rewrite <-(Hx p) by assumption; rewrite E]
  end.

Lemma redact_is_redacted v path : redact_secret_keys v path = redacted v.
Proof.
  unfold redact_secret_keys. revert path.
  induction v as [| | | | |l IH|d IH] using pyval_ind'; intros path; try done; simpl.
  - case_match eqn:E. simpl. f_equal. revert l1 l0 E. generalize O.
    induction IH as [|x l Hx Hl IHl]; intros n l1 l0; simpl; [by intros [= _ <-]|].
    case_match eqn:E1. case_match eqn:E2. intros [= _ <-]. f_equal; [|by eapply IHl].
    by use_child Hx E1.
  - case_match eqn:E. simpl. f_equal. revert l0 l E.
    induction IH as [|[k x] d Hx Hd IHd]; intros c f; simpl; [by intros [= _ <-]|].
    case_match eqn:E2. specialize (IHd _ _ eq_refl). subst.
    destruct (is_sensitive_key k); [by intros [= _ <-]|].
    case_match eqn:E1. intros [= _ <-]. f_equal. f_equal. simpl in Hx.
    by use_child Hx E1.
Qed.

Lemma collect_found v path : (collect_sensitive false path v).1 = [] <-> secret_free v = true.
Proof.
  revert path. induction v as [| | | | |l IH|d IH] using pyval_ind'; intros path; try done; simpl.
  - case_match eqn:E. simpl. revert l1 l0 E. generalize O.
    induction IH as [|x l Hx Hl IHl]; intros n l1 l0; simpl; [by intros [= <- _]|].
    case_match eqn:E1. case_match eqn:E2. intros [= <- _].
    rewrite andb_true_iff, <-(IHl _ _ _ E2). use_child Hx E1.
    simpl. split; [by intros ?%app_nil|by intros [-> ->]].
  - case_match eqn:E. simpl. revert l0 l E.
    induction IH as [|[k x] d Hx Hd IHd]; intros c f; simpl; [by intros [= <- _]|].
    case_match eqn:E2. specialize (IHd _ _ eq_refl).
    destruct (is_sensitive_key k); simpl; [by intros [= <- _]|].
    case_match eqn:E1. intros [= <- _]. simpl in Hx. rewrite andb_true_iff, <-IHd.
    use_child Hx E1.
    simpl. split; [by intros ?%app_nil|by intros [-> ->]].
Qed.

Lemma collect_free v path : secret_free v = true -> (collect_sensitive false path v).2 = v.
Proof.
  revert path. induction v as [| | | | |l IH|d IH] using pyval_ind'; intros path; try done; simpl.
  - intros Hf. case_match eqn:E. simpl. f_equal. revert l1 l0 E Hf. generalize O.
    induction IH as [|x l Hx Hl IHl]; intros n l1 l0; simpl; [by intros [= _ <-]|].
    case_match eqn:E1. case_match eqn:E2. intros [= _ <-]. rewrite andb_true_iff. intros [Hf1 Hf2].
    f_equal; [|by eapply IHl]. by use_child Hx E1.
  - intros Hf. case_match eqn:E. simpl. f_equal. revert l0 l E Hf.
    induction IH as [|[k x] d Hx Hd IHd]; intros c f; simpl; [by intros [= _ <-]|].
    case_match eqn:E2. rewrite !andb_true_iff, negb_true_iff. intros Hc [[Hk Hf1] Hf2].
    specialize (IHd _ _ eq_refl Hf2). subst. rewrite Hk in Hc. simpl in Hx.
    revert Hc. case_match eqn:E1. intros [= _ <-]. f_equal. f_equal.
    by use_child Hx E1.
Qed.

(** [reject_secret_keys] accepts a payload exactly when no dict at any depth has a
    sensitive key, whatever the case, dashes or surrounding blanks of the key, and then
    returns it unchanged; otherwise it raises [SecretMaterialError]. *)
Theorem reject_secret_keys_exact v field :
  reject_secret_keys v field
  = if secret_free v then Ok v else Raise SecretMaterialError.
Proof.
  unfold reject_secret_keys. pose proof (collect_found v field) as Hf.
  pose proof (collect_free v field) as Hv.
  destruct (collect_sensitive false field v) as [found cleaned]. simpl in *.
  destruct (secret_free v).
  - rewrite bool_decide_true by (by apply Hf). simpl. by rewrite Hv.
  - rewrite bool_decide_false; [done|]. intros E. by apply Hf in E.
Qed.

Lemma fully_redacted_redacted v : fully_redacted (redacted v) = true.
Proof.
  induction v as [| | | | |l IH|d IH] using pyval_ind'; try done; simpl.
  - by induction IH as [|x l Hx Hl IHl]; simpl; [|rewrite Hx].
  - induction IH as [|[k x] d Hx Hd IHd]; simpl; [done|].
    destruct (is_sensitive_key k); simpl in *; by rewrite ?Hx, IHd.
Qed.

Lemma redacted_public v : redacted (public v) = redacted v.
Proof.
  induction v as [| | | | |l IH|d IH] using pyval_ind'; try done; simpl.
  - f_equal. rewrite map_map. induction IH as [|x l Hx Hl IHl]; simpl; [done|]. by rewrite Hx, IHl.
  - f_equal. rewrite map_map. induction IH as [|[k x] d Hx Hd IHd]; simpl; [done|].
    simpl in *. rewrite IHd. destruct (is_sensitive_key k); by rewrite ?Hx.
Qed.

Lemma redacted_idem v : redacted (redacted v) = redacted v.
Proof.
  induction v as [| | | | |l IH|d IH] using pyval_ind'; try done; simpl.
  - f_equal. rewrite map_map. induction IH as [|x l Hx Hl IHl]; simpl; [done|]. by rewrite Hx, IHl.
  - f_equal. rewrite map_map. induction IH as [|[k x] d Hx Hd IHd]; simpl; [done|].
    simpl in *. rewrite IHd. destruct (is_sensitive_key k); by rewrite ?Hx.
Qed.

(** Redaction does not leak: the output depends only on the public part of the payload,
    so two payloads that differ in secret values alone redact to the same output; every
    value left under a sensitive key is the constant, and redacting again changes nothing. *)
Theorem redaction_noninterference v w path path' :
  public v = public w ->
  redact_secret_keys v path = redact_secret_keys w path'
  /\ fully_redacted (redact_secret_keys v path) = true
  /\ redact_secret_keys (redact_secret_keys v path) path' = redact_secret_keys v path.
Proof.
  intros E. rewrite !redact_is_redacted. split.
  - by rewrite <-(redacted_public v), E, redacted_public.
  - split; [apply fully_redacted_redacted|apply redacted_idem].
Qed.

Lemma redaction_noninterference_witness :
  let v s := PDict [("user", PStr "bob"); (" Set-Cookie ", PStr s)] in
  redact_secret_keys (v "s1") "payload" = redact_secret_keys (v "s2") "body".
Proof.
  intros v.
  exact (proj1 (redaction_noninterference (v "s1") (v "s2") "payload" "body" eq_refl)).
Defined.

(** The markers are tried in the order of the tuple, not of the text: a marker that
    stands earlier in the message but later in the tuple leaves its secret in place. *)
Example strip_header_keeps_earlier_secret :
  strip_header_like_text "Bearer s3cr3t rejected; cookie: abc; authorization: none"
  = "Bearer s3cr3t rejected; cookie: abc; [REDACTED]".
Proof. reflexivity. Qed.
