(* ===== verification/CorePolicy.v ===== *)
(** * Core policy checks: authorization source, human approval, budgets, pricing

    [core/authorization.py], [core/approval.py], [core/budget.py] and
    [core/pricing.py].  A dataclass is a module with its record [t] and, where it
    validates, [post_init]: the constructor call [C(...)] is [post_init (mk ...)].
    [isinstance] tests are discharged by typing. *)
From S2P Require Import Prelude CoreTypes.

(** ** Authorization source *)

(** [core/authorization.py:10-20 AuthorizationSourceView] *)
Module AuthorizationSourceView.
Record t : Set := mk {
  authorization_source_id : string;
  program_id : string;
  state : AuthorizationSourceState.t }.

Definition post_init (x : t) : result t :=
  _ ← require_opaque_id x.(authorization_source_id);
  _ ← require_opaque_id x.(program_id);
  Ok x.
End AuthorizationSourceView.

(** [core/authorization.py:23-27 AuthorizationCheck] *)
Module AuthorizationCheck.
Record t : Set := mk {
  allowed_to_continue : bool;
  reason_code : ReasonCode.t;
  authorization_source_id : option string }.
End AuthorizationCheck.

(** [core/authorization.py:30-39 check_authorization] *)
Definition check_authorization (source : option AuthorizationSourceView.t)
    : AuthorizationCheck.t :=
  match source with
  | None => AuthorizationCheck.mk false ReasonCode.AUTHORIZATION_MISSING None
  | Some s =>
      if negb (bool_decide (s.(AuthorizationSourceView.state)
                            = AuthorizationSourceState.ACTIVE))
      then AuthorizationCheck.mk false ReasonCode.AUTHORIZATION_INACTIVE
             (Some s.(AuthorizationSourceView.authorization_source_id))
      else AuthorizationCheck.mk true ReasonCode.ALLOWED
             (Some s.(AuthorizationSourceView.authorization_source_id))
  end.

(** ** Human approval *)

(** [core/approval.py:9-28 ApprovalView] *)
Module ApprovalView.
Record t : Set := mk {
  approval_id : string;
  subject_reference : string;
  decision : ApprovalDecision.t;
  decided_by : string;
  actor_type : ActorType.t;
  recorded : bool }.

Definition post_init (x : t) : result t :=
  _ ← require_opaque_id x.(approval_id);
  _ ← require_opaque_id x.(subject_reference);
  _ ← require_opaque_id x.(decided_by);
  Ok x.
End ApprovalView.

(** [core/approval.py:31-36 ApprovalCheck] *)
Module ApprovalCheck.
Record t : Set := mk {
  authorizes : bool;
  require_human_review : bool;
  reason_code : ReasonCode.t;
  approval_id : option string }.
End ApprovalCheck.

(** [core/approval.py:39-62 check_approval] *)
Definition check_approval (approval : option ApprovalView.t) (requested_subject : string)
    : result ApprovalCheck.t :=
  _ ← require_opaque_id requested_subject;
  match approval with
  | None => Ok (ApprovalCheck.mk false true ReasonCode.APPROVAL_REQUIRED None)
  | Some a =>
      let refuse r := Ok (ApprovalCheck.mk false false r (Some a.(ApprovalView.approval_id))) in
      if negb a.(ApprovalView.recorded) then refuse ReasonCode.APPROVAL_NOT_RECORDED
      else if negb (bool_decide (a.(ApprovalView.actor_type) = ActorType.HUMAN_OPERATOR))
      then refuse ReasonCode.APPROVAL_INVALID_ACTOR
      else if negb (a.(ApprovalView.subject_reference) =? requested_subject)%string
      then refuse ReasonCode.APPROVAL_SUBJECT_MISMATCH
      else if bool_decide (a.(ApprovalView.decision) = ApprovalDecision.REJECT)
      then refuse ReasonCode.APPROVAL_REJECTED
      else Ok (ApprovalCheck.mk true false ReasonCode.ALLOWED
                 (Some a.(ApprovalView.approval_id)))
  end.

(** [core/approval.py:65-76 RecordedApprovalEvaluation] *)
Module RecordedApprovalEvaluation.
Record t : Set := mk {
  valid_record : bool;
  authorizes : bool;
  reason_code : ReasonCode.t;
  approval_id : option string }.
End RecordedApprovalEvaluation.

(** [core/approval.py:79-101 evaluate_recorded_approval] *)
Definition evaluate_recorded_approval (approval : option ApprovalView.t)
    (requested_subject : string) : result RecordedApprovalEvaluation.t :=
  check ← check_approval approval requested_subject;
  let reason := check.(ApprovalCheck.reason_code) in
  match approval with
  | None => Ok (RecordedApprovalEvaluation.mk false false reason None)
  | Some a =>
      let id := Some a.(ApprovalView.approval_id) in
      if bool_decide (reason = ReasonCode.APPROVAL_REJECTED)
      then Ok (RecordedApprovalEvaluation.mk true false reason id)
      else if check.(ApprovalCheck.authorizes)
      then Ok (RecordedApprovalEvaluation.mk true true reason id)
      else Ok (RecordedApprovalEvaluation.mk false false reason id)
  end.

(** ** Budgets *)

(** [core/budget.py:14-16 _require_non_negative] *)
Definition require_non_negative (value : Z) : result unit :=
  raise_if value <? 0 as InvalidBudgetError;;
  Ok tt.

(** [core/budget.py:19-34 IssuedBudget] *)
Module IssuedBudget.
Record t : Set := mk {
  budget_id : string;
  max_requests : Z;
  max_tool_calls : Z;
  max_runtime_ms : Z;
  max_concurrency : Z }.

Definition post_init (x : t) : result t :=
  _ ← require_opaque_id x.(budget_id);
  _ ← require_non_negative x.(max_requests);
  _ ← require_non_negative x.(max_tool_calls);
  _ ← require_non_negative x.(max_runtime_ms);
  _ ← require_non_negative x.(max_concurrency);
  Ok x.
End IssuedBudget.

(** [core/budget.py:37-48 BudgetUsage] *)
Module BudgetUsage.
Record t : Set := mk {
  requests : Z;
  tool_calls : Z;
  runtime_ms : Z;
  concurrency : Z }.

Definition post_init (x : t) : result t :=
  _ ← require_non_negative x.(requests);
  _ ← require_non_negative x.(tool_calls);
  _ ← require_non_negative x.(runtime_ms);
  _ ← require_non_negative x.(concurrency);
  Ok x.
End BudgetUsage.

(** [core/budget.py:51-55 BudgetCheck] *)
Module BudgetCheck.
Record t : Set := mk {
  allowed_to_continue : bool;
  reason_code : ReasonCode.t;
  budget_id : string }.
End BudgetCheck.

(** [core/budget.py:58-72 ProgramDailyBudget] *)
Module ProgramDailyBudget.
Record t : Set := mk {
  program_id : string;
  date : string;
  limit_microdollars : Z;
  spent_microdollars : Z }.

Definition post_init (x : t) : result t :=
  _ ← require_opaque_id x.(program_id);
  raise_if Str.is_blank x.(date) as InvalidBudgetError;;
  _ ← require_non_negative x.(limit_microdollars);
  _ ← require_non_negative x.(spent_microdollars);
  Ok x.
End ProgramDailyBudget.

(** [core/budget.py:75-86 check_program_daily_budget] *)
Definition check_program_daily_budget (budget : ProgramDailyBudget.t)
    (requested_program_id : string) : result BudgetCheck.t :=
  _ ← require_opaque_id requested_program_id;
  let pid := budget.(ProgramDailyBudget.program_id) in
  if negb (requested_program_id =? pid)%string
  then Ok (BudgetCheck.mk false ReasonCode.BUDGET_MISMATCH pid)
  else if budget.(ProgramDailyBudget.limit_microdollars)
          <=? budget.(ProgramDailyBudget.spent_microdollars)
  then Ok (BudgetCheck.mk false ReasonCode.BUDGET_EXHAUSTED pid)
  else Ok (BudgetCheck.mk true ReasonCode.ALLOWED pid).

(** [core/budget.py:89-113 allocate_experiment_budget] *)
Definition allocate_experiment_budget (parent : IssuedBudget.t) (budget_id : string)
    (max_requests max_tool_calls max_runtime_ms max_concurrency : Z)
    : result IssuedBudget.t :=
  child ← IssuedBudget.post_init
            (IssuedBudget.mk budget_id max_requests max_tool_calls max_runtime_ms
               max_concurrency);
  raise_if (parent.(IssuedBudget.max_requests) <? child.(IssuedBudget.max_requests))
           || (parent.(IssuedBudget.max_tool_calls) <? child.(IssuedBudget.max_tool_calls))
           || (parent.(IssuedBudget.max_runtime_ms) <? child.(IssuedBudget.max_runtime_ms))
           || (parent.(IssuedBudget.max_concurrency) <? child.(IssuedBudget.max_concurrency))
  as BudgetAllocationError;;
  Ok child.

(** The four [>=] tests of [check_budget].  [core/budget.py:128-133 check_budget] *)
Definition budget_exhausted (issued : IssuedBudget.t) (usage : BudgetUsage.t) : bool :=
  (issued.(IssuedBudget.max_requests) <=? usage.(BudgetUsage.requests))
  || (issued.(IssuedBudget.max_tool_calls) <=? usage.(BudgetUsage.tool_calls))
  || (issued.(IssuedBudget.max_runtime_ms) <=? usage.(BudgetUsage.runtime_ms))
  || (issued.(IssuedBudget.max_concurrency) <=? usage.(BudgetUsage.concurrency)).

(** [core/budget.py:118-136 check_budget] *)
Definition check_budget (issued : IssuedBudget.t) (usage : BudgetUsage.t)
    (requested_budget_id : string) : result BudgetCheck.t :=
  _ ← require_opaque_id requested_budget_id;
  let id := issued.(IssuedBudget.budget_id) in
  if negb (requested_budget_id =? id)%string
  then Ok (BudgetCheck.mk false ReasonCode.BUDGET_MISMATCH id)
  else if budget_exhausted issued usage
  then Ok (BudgetCheck.mk false ReasonCode.BUDGET_EXHAUSTED id)
  else Ok (BudgetCheck.mk true ReasonCode.ALLOWED id).

(** ** Pricing *)

(** [core/pricing.py:14-19 MODEL_PRICE_TABLE] *)
Definition MODEL_PRICE_TABLE : list (string * (Z * Z)) :=
  [ ("gpt-4o-mini", (150000, 600000));
    ("gpt-4o", (2500000, 10000000));
    ("claude-3-5-sonnet", (3000000, 15000000));
    ("local-fixture", (0, 0)) ].

(** [core/pricing.py:22-38 estimate_cost] *)
Definition estimate_cost (model_id : option string) (tokens_in tokens_out : option Z)
    : result Z :=
  match model_id with
  | None => Raise UnknownModelPriceError
  | Some m =>
      match assoc m MODEL_PRICE_TABLE with
      | None => Raise UnknownModelPriceError
      | Some (input_rate, output_rate) =>
          let in_tokens := default 0 tokens_in in
          let out_tokens := default 0 tokens_out in
          raise_if (in_tokens <? 0) || (out_tokens <? 0) as UnknownModelPriceError;;
          Ok ((in_tokens * input_rate + out_tokens * output_rate) / 1000000)
      end
  end.


(** ** Theorems *)

(** What an approval must be to authorize a subject: the declarative reading of
    the approval rules. *)
Definition approves (approval : option ApprovalView.t) (subject : string) : Prop :=
  exists a, approval = Some a
    /\ a.(ApprovalView.recorded) = true
    /\ a.(ApprovalView.actor_type) = ActorType.HUMAN_OPERATOR
    /\ a.(ApprovalView.subject_reference) = subject
    /\ a.(ApprovalView.decision) = ApprovalDecision.APPROVE.

Lemma check_approval_ok approval subject :
  Str.is_blank subject = false ->
  exists c, check_approval approval subject = Ok c.
Proof.
  intros Hs. unfold check_approval, require_opaque_id. rewrite Hs. simpl.
  destruct approval; repeat case_match; eauto.
Qed.

Lemma check_approval_cases approval subject c :
  check_approval approval subject = Ok c ->
  (c.(ApprovalCheck.authorizes) = true <-> approves approval subject)
  /\ (c.(ApprovalCheck.require_human_review) = true <-> approval = None)
  /\ c.(ApprovalCheck.approval_id) = ApprovalView.approval_id <$> approval.
Proof.
  unfold check_approval. rewrite bind_ok. intros (w & _ & Hc). unfold approves.
  destruct approval as [a|]; [|injection Hc as <-; simpl; naive_solver].
  repeat case_match; simplify_eq/=; bool_prop; destruct (ApprovalView.decision a) eqn:?;
    naive_solver congruence.
Qed.

Lemma recorded_approval_cases approval subject e :
  evaluate_recorded_approval approval subject = Ok e ->
  (e.(RecordedApprovalEvaluation.authorizes) = true <-> approves approval subject)
  /\ (e.(RecordedApprovalEvaluation.valid_record) = true <->
      exists a, approval = Some a /\ a.(ApprovalView.recorded) = true
        /\ a.(ApprovalView.actor_type) = ActorType.HUMAN_OPERATOR
        /\ a.(ApprovalView.subject_reference) = subject).
Proof.
  unfold evaluate_recorded_approval, check_approval. rewrite bind_ok.
  intros (c & Hc & He). rewrite bind_ok in Hc. destruct Hc as (w & _ & Hc).
  unfold approves. destruct approval as [a|]; [|injection He as <-; simpl; naive_solver].
  repeat case_match; simplify_eq/=; bool_prop; destruct (ApprovalView.decision a) eqn:?;
    naive_solver congruence.
Qed.

(** [evaluate_recorded_approval] never authorizes without a valid record, and a
    record is valid exactly when it is a recorded decision of a human operator on
    the requested subject: an approval then authorizes, a rejection does not. *)
Theorem recorded_approval_valid approval subject e :
  evaluate_recorded_approval approval subject = Ok e ->
  (e.(RecordedApprovalEvaluation.authorizes) = true <-> approves approval subject)
  /\ (e.(RecordedApprovalEvaluation.valid_record) = true <->
      exists a, approval = Some a /\ a.(ApprovalView.recorded) = true
        /\ a.(ApprovalView.actor_type) = ActorType.HUMAN_OPERATOR
        /\ a.(ApprovalView.subject_reference) = subject).
Proof. apply recorded_approval_cases. Qed.

Lemma recorded_approval_valid_witness :
  let a := ApprovalView.mk "a1" "exp-1" ApprovalDecision.APPROVE "op" ActorType.HUMAN_OPERATOR true in
  approves (Some a) "exp-1".
Proof.
  intros a.
  refine (proj1 (proj1 (recorded_approval_valid (Some a) "exp-1"
    (RecordedApprovalEvaluation.mk true true ReasonCode.ALLOWED (Some "a1")) eq_refl)) eq_refl).
Defined.

Lemma budget_exhausted_false issued usage :
  budget_exhausted issued usage = false <->
  usage.(BudgetUsage.requests) < issued.(IssuedBudget.max_requests)
  /\ usage.(BudgetUsage.tool_calls) < issued.(IssuedBudget.max_tool_calls)
  /\ usage.(BudgetUsage.runtime_ms) < issued.(IssuedBudget.max_runtime_ms)
  /\ usage.(BudgetUsage.concurrency) < issued.(IssuedBudget.max_concurrency).
Proof. unfold budget_exhausted. bool_prop. tauto. Qed.

Lemma check_budget_allowed issued usage id c :
  check_budget issued usage id = Ok c ->
  c.(BudgetCheck.allowed_to_continue) = true <->
  id = issued.(IssuedBudget.budget_id) /\ budget_exhausted issued usage = false.
Proof.
  unfold check_budget. rewrite bind_ok. intros (? & _ & Hc).
  repeat case_match; simplify_eq/=; bool_prop; naive_solver.
Qed.

Lemma check_budget_reason issued usage id c :
  check_budget issued usage id = Ok c ->
  c.(BudgetCheck.budget_id) = issued.(IssuedBudget.budget_id)
  /\ (c.(BudgetCheck.allowed_to_continue) = true ->
      c.(BudgetCheck.reason_code) = ReasonCode.ALLOWED).
Proof.
  unfold check_budget. rewrite bind_ok. intros (? & _ & Hc).
  repeat case_match; simplify_eq/=; naive_solver.
Qed.

(** A budget allocated to an experiment never widens its parent: whenever the
    child budget lets an execution continue at some usage, the parent's limits are
    not exhausted at that usage either; and an allocation that would widen any
    of the four limits is refused. *)
Theorem allocated_budget_within_parent parent id r tc ms cc child usage c :
  allocate_experiment_budget parent id r tc ms cc = Ok child ->
  check_budget child usage id = Ok c ->
  c.(BudgetCheck.allowed_to_continue) = true ->
  child = IssuedBudget.mk id r tc ms cc
  /\ budget_exhausted parent usage = false
  /\ r <= parent.(IssuedBudget.max_requests)
  /\ tc <= parent.(IssuedBudget.max_tool_calls)
  /\ ms <= parent.(IssuedBudget.max_runtime_ms)
  /\ cc <= parent.(IssuedBudget.max_concurrency).
Proof.
  unfold allocate_experiment_budget. rewrite bind_ok. intros (b & Hb & Hc) Hcheck Ha.
  assert (b = IssuedBudget.mk id r tc ms cc) as ->.
  { unfold IssuedBudget.post_init in Hb. rewrite !bind_ok in Hb.
    destruct Hb as (? & _ & Hb). do 4 (apply bind_ok in Hb as (? & _ & Hb)).
    by injection Hb as <-. }
  rewrite raise_if_ok in Hc. destruct Hc as [Hc [= <-]]. simpl in Hc. bool_prop.
  apply (check_budget_allowed _ _ _ _ Hcheck) in Ha as [_ Ha].
  rewrite budget_exhausted_false in *. simpl in *. repeat split; lia.
Qed.

Lemma allocated_budget_within_parent_witness :
  budget_exhausted (IssuedBudget.mk "p" 10 10 100 2) (BudgetUsage.mk 3 1 10 0) = false.
Proof.
  refine (proj1 (proj2 (allocated_budget_within_parent (IssuedBudget.mk "p" 10 10 100 2)
    "c" 5 5 50 1 (IssuedBudget.mk "c" 5 5 50 1) (BudgetUsage.mk 3 1 10 0)
    (BudgetCheck.mk true ReasonCode.ALLOWED "c") eq_refl eq_refl eq_refl))).
Defined.

Lemma estimate_cost_ok m i o c :
  estimate_cost m i o = Ok c <->
  exists name ri ro, m = Some name /\ assoc name MODEL_PRICE_TABLE = Some (ri, ro)
    /\ 0 <= default 0 i /\ 0 <= default 0 o
    /\ c = (default 0 i * ri + default 0 o * ro) / 1000000.
Proof.
  unfold estimate_cost. destruct m as [name|]; [|naive_solver].
  destruct (assoc name MODEL_PRICE_TABLE) as [[ri ro]|] eqn:E; [|naive_solver].
  rewrite raise_if_ok. bool_prop. split.
  - intros [[? ?] [= <-]]. by exists name, ri, ro.
  - intros (n & a & b & [= ->] & Ha & ? & ? & ->). rewrite E in Ha. naive_solver.
Qed.

Lemma price_table_nonneg name ri ro :
  assoc name MODEL_PRICE_TABLE = Some (ri, ro) -> 0 <= ri /\ 0 <= ro.
Proof.
  unfold assoc. rewrite fmap_Some. intros ([n r] & Hf & Hr). simpl in Hr. subst r.
  apply find_some in Hf as [Hf _]. simpl in Hf. naive_solver lia.
Qed.

(** Integer pricing loses less than one microdollar per split: charging two calls
    separately costs at most the charge of their sum and at least that minus one,
    costs are never negative, and more tokens never cost less. *)
Theorem estimate_cost_split m i1 o1 i2 o2 c1 c2 c :
  estimate_cost m (Some i1) (Some o1) = Ok c1 ->
  estimate_cost m (Some i2) (Some o2) = Ok c2 ->
  estimate_cost m (Some (i1 + i2)) (Some (o1 + o2)) = Ok c ->
  0 <= c1 /\ c1 + c2 <= c <= c1 + c2 + 1 /\ c1 <= c.
Proof.
  rewrite !estimate_cost_ok.
  intros (n & a & b & -> & E & ? & ? & ->) (n' & a' & b' & [= <-] & E' & ? & ? & ->)
    (n'' & a'' & b'' & [= <-] & E'' & ? & ? & ->).
  rewrite E in E', E''. injection E' as <- <-. injection E'' as <- <-. simpl in *.
  apply price_table_nonneg in E as [Ha Hb].
  assert (0 <= i1 * a + o1 * b) by nia. assert (0 <= i2 * a + o2 * b) by nia.
  replace ((i1 + i2) * a + (o1 + o2) * b)
    with ((i1 * a + o1 * b) + (i2 * a + o2 * b)) by ring.
  generalize dependent (i1 * a + o1 * b). generalize dependent (i2 * a + o2 * b).
  intros y Hy x Hx. repeat split; Z.to_euclidean_division_equations; lia.
Qed.

Lemma estimate_cost_split_witness : 0 <= 1 /\ 1 + 1 <= 3 <= 1 + 1 + 1 /\ 1 <= 3.
Proof.
  exact (estimate_cost_split (Some "gpt-4o-mini") 10 0 10 0 1 1 3 eq_refl eq_refl eq_refl).
Defined.
