(* ===== verification/Capability.v ===== *)
(** * Tools capability registry and Core's capability check

    [tools/registry.py], [tools/fingerprint.py], [tools/integration_allowlist.py]
    and [core/capability.py].  Capability documents are JSON objects; the SHA-256
    of the canonical JSON text is a parameter ([json.dumps] and [hashlib]). *)
From S2P Require Import Prelude CoreTypes CorePolicy PyVal.

(** [tools/registry.py:18 SUPPORTED_EXECUTOR_CLASSES] *)
Definition SUPPORTED_EXECUTOR_CLASSES : list string := ["WORKER"].
(** [tools/registry.py:19 SUPPORTED_REQUIREMENTS] *)
Definition SUPPORTED_REQUIREMENTS : list string := ["loopback"; "scope_derived"].
(** [tools/registry.py:20 WORKER_EXECUTOR_CLASS] *)
Definition WORKER_EXECUTOR_CLASS : string := "WORKER".

(** [tools/registry.py:27-39 CapabilityActionDefinition] *)
Module CapabilityActionDefinition.
Record t : Type := mk {
  action_id : string;
  argument_schema : list (string * pyval);
  result_schema : list (string * pyval);
  minimum_side_effect_level : Z;
  maximum_side_effect_level : Z;
  target_types : list string;
  network_policy : option (list (string * pyval));
  requirements : list string;
  supports_reproduction : bool;
  supports_negative_control : bool;
  normalizer_reference : option string }.
End CapabilityActionDefinition.

(** [tools/registry.py:42-49 CapabilityDefinition] *)
Module CapabilityDefinition.
Record t : Type := mk {
  capability_id : string;
  version : string;
  implementation_reference : string;
  executor_class : string;
  actions : list (string * CapabilityActionDefinition.t);
  definition_fingerprint : string }.

(** [tools/registry.py:51-52 CapabilityDefinition.action] *)
Definition action (d : t) (action_id : string) : option CapabilityActionDefinition.t :=
  assoc action_id d.(actions).
End CapabilityDefinition.

(** [tools/registry.py:61-94 CapabilityRegistry] *)
Module CapabilityRegistry.
Definition t : Type := gmap string CapabilityDefinition.t.

(** [tools/registry.py:65-66 CapabilityRegistry.get] *)
Definition get (r : t) (capability_id : string) : option CapabilityDefinition.t :=
  r !! capability_id.

(** [tools/registry.py:71-72 CapabilityRegistry.ids] *)
Definition ids (r : t) : list string := sort_by id (map_to_list r).*1.

(** [tools/registry.py:74-75 CapabilityRegistry.definitions] *)
Definition definitions (r : t) : list CapabilityDefinition.t :=
  omap (fun k => r !! k) (ids r).

(** [tools/registry.py:77-82 CapabilityRegistry.worker_definitions] *)
Definition worker_definitions (r : t) : list CapabilityDefinition.t :=
  List.filter (fun d => (d.(CapabilityDefinition.executor_class)
                         =? WORKER_EXECUTOR_CLASS)%string) (definitions r).

(** [tools/registry.py:84-93 CapabilityRegistry.lookup] *)
Definition lookup (r : t) (capability_id action_id : string)
    : option (CapabilityDefinition.t * CapabilityActionDefinition.t) :=
  match get r capability_id with
  | None => None
  | Some definition =>
      match CapabilityDefinition.action definition action_id with
      | None => None
      | Some action => Some (definition, action)
      end
  end.
End CapabilityRegistry.

(** ** Reading a capability document *)

(** [tools/registry.py:256-259 _require_text] *)
Definition require_text (value : pyval) : result string :=
  match value with
  | PStr s => raise_if Str.is_blank s as CapabilityRegistryError;; Ok (Str.strip s)
  | _ => Raise CapabilityRegistryError
  end.

(** [value in (0, 1, 2, 3)] and [int(value)].
    [tools/registry.py:262-265 _require_side_effect] *)
Definition require_side_effect (value : pyval) : result Z :=
  match List.find (eq_int value) [0; 1; 2; 3] with
  | Some n => Ok n
  | None => Raise CapabilityRegistryError
  end.

(** [tools/registry.py:268-275 _require_string_tuple] *)
Definition require_string_tuple (value : pyval) : result (list string) :=
  match value with
  | PStr _ => Raise CapabilityRegistryError
  | _ =>
      match iter_items value with
      | None => Raise CapabilityRegistryError
      | Some items => traverse require_text items
      end
  end.

(** [x or ()] *)
Definition or_empty (value : pyval) : pyval := if truthy value then value else PList [].

(** [isinstance(v, Mapping)] *)
Definition require_mapping (value : pyval) : result (list (string * pyval)) :=
  match value with PDict d => Ok d | _ => Raise CapabilityRegistryError end.

Definition require_bool (value : pyval) : result bool :=
  match value with PBool b => Ok b | _ => Raise CapabilityRegistryError end.

(** [tools/registry.py:200-253 _action_from_document] *)
Definition action_from_document (action_id : string) (raw : list (string * pyval))
    : result CapabilityActionDefinition.t :=
  argument_schema ← require_mapping (dict_get "argument_schema" raw);
  raise_if match dict_get "additionalProperties" argument_schema with
           | PBool false => false | _ => true end
  as CapabilityRegistryError;;
  result_schema ← require_mapping (dict_get "result_schema" raw);
  minimum ← require_side_effect (dict_get "minimum_side_effect_level" raw);
  maximum ← require_side_effect (dict_get "maximum_side_effect_level" raw);
  raise_if maximum <? minimum as CapabilityRegistryError;;
  target_types ← require_string_tuple (dict_get "target_types" raw);
  raise_if bool_decide (target_types = []) as CapabilityRegistryError;;
  network_policy ←
    match dict_get "network_policy" raw with
    | PNone => Ok None
    | v => d ← require_mapping v; Ok (Some d)
    end;
  requirements ← require_string_tuple (or_empty (dict_get "requirements" raw));
  raise_if negb (forallb (fun r => mem r SUPPORTED_REQUIREMENTS) requirements)
  as CapabilityRegistryError;;
  supports_reproduction ← require_bool (dict_get "supports_reproduction" raw);
  supports_negative_control ← require_bool (dict_get "supports_negative_control" raw);
  normalizer_reference ←
    match dict_get "normalizer_reference" raw with
    | PNone => Ok None
    | v => s ← require_text v; Ok (Some s)
    end;
  Ok (CapabilityActionDefinition.mk action_id argument_schema result_schema minimum maximum
        target_types network_policy requirements supports_reproduction
        supports_negative_control normalizer_reference).

(** One turn of the loop over [actions_in.items()].
    [tools/registry.py:173-186 _definition_from_document] *)
Definition read_action (actions : list (string * CapabilityActionDefinition.t))
    (item : string * pyval) : result (list (string * CapabilityActionDefinition.t)) :=
  let '(action_id, raw_action) := item in
  raise_if Str.is_blank action_id as CapabilityRegistryError;;
  raise_if match assoc action_id actions with Some _ => true | None => false end
  as CapabilityRegistryError;;
  raw ← require_mapping raw_action;
  raise_if match dict_find "action_id" raw with
           | None => false
           | Some declared => negb (eq_str declared action_id)
           end
  as CapabilityRegistryError;;
  action ← action_from_document action_id raw;
  Ok (actions ++ [(action_id, action)]).

(** [tools/fingerprint.py:11-17 DEFINITION_POLICY_FIELDS] *)
Definition DEFINITION_POLICY_FIELDS : list string :=
  ["capability_id"; "version"; "implementation_reference"; "executor_class"; "actions"].
(** [tools/fingerprint.py:18-30 ACTION_POLICY_FIELDS] *)
Definition ACTION_POLICY_FIELDS : list string :=
  [ "action_id"; "argument_schema"; "result_schema"; "minimum_side_effect_level";
    "maximum_side_effect_level"; "target_types"; "network_policy"; "requirements";
    "supports_reproduction"; "supports_negative_control"; "normalizer_reference" ].

(** [{field: raw_action.get(field) for field in ACTION_POLICY_FIELDS}] *)
Definition action_payload (raw : list (string * pyval)) : pyval :=
  PDict ((fun f => (f, dict_get f raw)) <$> ACTION_POLICY_FIELDS).

(** The definition-level fields the payload copies as they are. *)
Definition copied_fields : list string :=
  ["capability_id"; "version"; "implementation_reference"; "executor_class"].

(** The policy fields only, actions in key order; [ValueError] for a shape that is
    not a mapping.  JSON arrays are lists already, so the two [list(...)] copies change nothing.
    [tools/fingerprint.py:48-75 allowlisted_policy_payload] *)
Definition allowlisted_policy_payload (document : list (string * pyval)) : result pyval :=
  match dict_get "actions" document with
  | PDict actions_in =>
      actions ← traverse (fun item =>
                  match item.2 with
                  | PDict raw => Ok (item.1, action_payload raw)
                  | _ => Raise ValueError
                  end) (sort_by fst actions_in);
      Ok (PDict (((fun f => (f, dict_get f document)) <$> copied_fields)
                 ++ [("actions", PDict actions)]))
  | _ => Raise ValueError
  end.

Section registry.
(** [sha256(canonical_json_bytes(payload)).hexdigest()] *)
Context (sha256_json : pyval -> string).

(** [tools/fingerprint.py:78-81 fingerprint_capability_document] *)
Definition fingerprint_capability_document (document : list (string * pyval))
    : result string :=
  payload ← allowlisted_policy_payload document;
  Ok (sha256_json payload).

(** [tools/registry.py:157-195 _definition_from_document] *)
Definition definition_from_document (document : list (string * pyval))
    : result CapabilityDefinition.t :=
  capability_id ← require_text (dict_get "capability_id" document);
  version ← require_text (dict_get "version" document);
  implementation_reference ← require_text (dict_get "implementation_reference" document);
  executor_class ← require_text (dict_get "executor_class" document);
  raise_if negb (mem executor_class SUPPORTED_EXECUTOR_CLASSES)
  as CapabilityRegistryError;;
  actions_in ← require_mapping (dict_get "actions" document);
  raise_if match actions_in with [] => true | _ => false end
  as CapabilityRegistryError;;
  actions ← fold_result read_action [] actions_in;
  fingerprint ← fingerprint_capability_document document;
  Ok (CapabilityDefinition.mk capability_id version implementation_reference
        executor_class actions fingerprint).

Definition add_document (definitions : CapabilityRegistry.t)
    (document : list (string * pyval)) : result CapabilityRegistry.t :=
  definition ← definition_from_document document;
  let id := definition.(CapabilityDefinition.capability_id) in
  raise_if bool_decide (is_Some (definitions !! id)) as CapabilityRegistryError;;
  Ok (<[id := definition]> definitions).

(** [tools/registry.py:116-127 registry_from_documents] *)
Definition registry_from_documents (documents : list (list (string * pyval)))
    : result CapabilityRegistry.t :=
  fold_result add_document ∅ documents.
End registry.

(** ** Integration allowlist *)

(** [tools/integration_allowlist.py:13-18 IntegrationAllowlistEntry] *)
Module IntegrationAllowlistEntry.
Record t : Set := mk {
  capability_id : string;
  action : string;
  minimum_side_effect_level : Z;
  maximum_side_effect_level : Z }.
End IntegrationAllowlistEntry.

(** [tools/integration_allowlist.py:21-34 INTEGRATION_CAPABILITY_ALLOWLIST] *)
Definition INTEGRATION_CAPABILITY_ALLOWLIST
    : list ((string * string) * IntegrationAllowlistEntry.t) :=
  [ (("strix.diagnostic.ping", "ping"),
     IntegrationAllowlistEntry.mk "strix.diagnostic.ping" "ping" 0 0) ].

(** [tools/integration_allowlist.py:37-38 integration_capability_ids] *)
Definition integration_capability_ids : list string :=
  (fun p => p.1.1) <$> INTEGRATION_CAPABILITY_ALLOWLIST.

(** [tools/integration_allowlist.py:41-44 lookup_integration_capability] *)
Definition lookup_integration_capability (capability_id action : string)
    : option IntegrationAllowlistEntry.t :=
  snd <$> List.find (fun p => bool_decide (p.1 = (capability_id, action)))
            INTEGRATION_CAPABILITY_ALLOWLIST.

(** ** Core's check of a capability claim *)

(** [core/capability.py:19-38 CapabilityAuthorizationView] *)
Module CapabilityAuthorizationView.
Record t : Set := mk {
  capability_id : string;
  action : string;
  capability_version : string;
  definition_fingerprint : string;
  authoritative_minimum_side_effect : Z;
  effective_side_effect : Z }.

Definition post_init (x : t) : result t :=
  _ ← require_opaque_id x.(capability_id);
  _ ← require_opaque_id x.(action);
  _ ← require_opaque_id x.(capability_version);
  _ ← require_opaque_id x.(definition_fingerprint);
  raise_if negb (is_side_effect x.(authoritative_minimum_side_effect)) as CoreInputError;;
  raise_if negb (is_side_effect x.(effective_side_effect)) as CoreInputError;;
  Ok x.
End CapabilityAuthorizationView.

(** [core/capability.py:41-44 CapabilityAuthorizationCheck] *)
Module CapabilityAuthorizationCheck.
Record t : Set := mk { allowed_to_continue : bool; reason_code : ReasonCode.t }.
End CapabilityAuthorizationCheck.

(** [core/capability.py:84-106 _check_integration_allowlist] *)
Definition check_integration_allowlist (view : CapabilityAuthorizationView.t)
    (request_side_effect : SideEffectLevel.t) : CapabilityAuthorizationCheck.t :=
  let deny r := CapabilityAuthorizationCheck.mk false r in
  match lookup_integration_capability view.(CapabilityAuthorizationView.capability_id)
          view.(CapabilityAuthorizationView.action) with
  | None =>
      if mem view.(CapabilityAuthorizationView.capability_id) integration_capability_ids
      then deny ReasonCode.UNKNOWN_ACTION
      else deny ReasonCode.UNKNOWN_CAPABILITY
  | Some entry =>
      let minimum := entry.(IntegrationAllowlistEntry.minimum_side_effect_level) in
      let maximum := entry.(IntegrationAllowlistEntry.maximum_side_effect_level) in
      let effective := view.(CapabilityAuthorizationView.effective_side_effect) in
      if negb (view.(CapabilityAuthorizationView.authoritative_minimum_side_effect) =? minimum)
      then deny ReasonCode.RISK_UNDERSTATEMENT
      else if effective <? minimum then deny ReasonCode.RISK_UNDERSTATEMENT
      else if maximum <? effective then deny ReasonCode.RISK_EXCEEDS_CAPABILITY
      else if negb (SideEffectLevel.value request_side_effect =? effective)
      then deny ReasonCode.SIDE_EFFECT_BINDING_MISMATCH
      else CapabilityAuthorizationCheck.mk true ReasonCode.ALLOWED
  end.

(** [catalog] is the registry passed, or the packaged one.
    [core/capability.py:47-81 check_capability_authorization] *)
Definition check_capability_authorization (catalog : CapabilityRegistry.t)
    (view : option CapabilityAuthorizationView.t) (request_side_effect : SideEffectLevel.t)
    : CapabilityAuthorizationCheck.t :=
  let deny r := CapabilityAuthorizationCheck.mk false r in
  match view with
  | None => deny ReasonCode.CAPABILITY_AUTHORIZATION_MISSING
  | Some view =>
      match CapabilityRegistry.get catalog view.(CapabilityAuthorizationView.capability_id) with
      | None => check_integration_allowlist view request_side_effect
      | Some definition =>
          if negb (definition.(CapabilityDefinition.executor_class)
                   =? WORKER_EXECUTOR_CLASS)%string
          then deny ReasonCode.UNKNOWN_CAPABILITY
          else
          match CapabilityDefinition.action definition
                  view.(CapabilityAuthorizationView.action) with
          | None => deny ReasonCode.UNKNOWN_ACTION
          | Some action =>
              let minimum := action.(CapabilityActionDefinition.minimum_side_effect_level) in
              let maximum := action.(CapabilityActionDefinition.maximum_side_effect_level) in
              let effective := view.(CapabilityAuthorizationView.effective_side_effect) in
              if negb (view.(CapabilityAuthorizationView.capability_version)
                       =? definition.(CapabilityDefinition.version))%string
              then deny ReasonCode.UNSUPPORTED_CAPABILITY_VERSION
              else if negb (view.(CapabilityAuthorizationView.definition_fingerprint)
                            =? definition.(CapabilityDefinition.definition_fingerprint))%string
              then deny ReasonCode.DEFINITION_FINGERPRINT_MISMATCH
              else if negb (view.(CapabilityAuthorizationView.authoritative_minimum_side_effect)
                            =? minimum)
              then deny ReasonCode.RISK_UNDERSTATEMENT
              else if effective <? minimum then deny ReasonCode.RISK_UNDERSTATEMENT
              else if maximum <? effective then deny ReasonCode.RISK_EXCEEDS_CAPABILITY
              else if negb (SideEffectLevel.value request_side_effect =? effective)
              then deny ReasonCode.SIDE_EFFECT_BINDING_MISMATCH
              else CapabilityAuthorizationCheck.mk true ReasonCode.ALLOWED
          end
      end
  end.

(** ** Theorems *)

(** What the registry promises of every action and definition it admits. *)
Definition action_ok (aid : string) (a : CapabilityActionDefinition.t) : Prop :=
  a.(CapabilityActionDefinition.action_id) = aid
  /\ Str.is_blank aid = false
  /\ 0 <= a.(CapabilityActionDefinition.minimum_side_effect_level)
       <= a.(CapabilityActionDefinition.maximum_side_effect_level)
  /\ a.(CapabilityActionDefinition.maximum_side_effect_level) <= 3
  /\ a.(CapabilityActionDefinition.target_types) ≠ []
  /\ (forall r, r ∈ a.(CapabilityActionDefinition.requirements) -> r ∈ SUPPORTED_REQUIREMENTS)
  /\ dict_get "additionalProperties" a.(CapabilityActionDefinition.argument_schema)
     = PBool false.

Definition definition_ok (d : CapabilityDefinition.t) : Prop :=
  d.(CapabilityDefinition.executor_class) = WORKER_EXECUTOR_CLASS
  /\ d.(CapabilityDefinition.actions) ≠ []
  /\ NoDup d.(CapabilityDefinition.actions).*1
  /\ (forall p, p ∈ d.(CapabilityDefinition.actions) -> action_ok p.1 p.2).

Lemma require_side_effect_ok v n : require_side_effect v = Ok n -> 0 <= n <= 3.
Proof.
  unfold require_side_effect. case_match eqn:E; intros [= <-].
  apply find_some in E as [E _]. simpl in E. naive_solver lia.
Qed.

Lemma action_from_document_ok aid raw a :
  Str.is_blank aid = false -> action_from_document aid raw = Ok a -> action_ok aid a.
Proof.
  intros Hb. unfold action_from_document.
  rewrite bind_ok. intros (args & _ & H). rewrite raise_if_ok in H. destruct H as [Hadd H].
  rewrite bind_ok in H. destruct H as (res & _ & H).
  rewrite bind_ok in H. destruct H as (mn & Hmn & H).
  rewrite bind_ok in H. destruct H as (mx & Hmx & H).
  rewrite raise_if_ok in H. destruct H as [Hle H].
  rewrite bind_ok in H. destruct H as (tt_ & _ & H).
  rewrite raise_if_ok in H. destruct H as [Htt H].
  rewrite bind_ok in H. destruct H as (np & _ & H).
  rewrite bind_ok in H. destruct H as (reqs & _ & H).
  rewrite raise_if_ok in H. destruct H as [Hreq H].
  do 3 (rewrite bind_ok in H; destruct H as (? & _ & H)). injection H as <-.
  apply require_side_effect_ok in Hmn, Hmx. bool_prop. rewrite forallb_true in Hreq.
  repeat split; simpl; try done; try lia.
  - intros r Hr. by apply mem_true, Hreq.
  - destruct (dict_get _ args) as [|[]| | | | |]; done.
Qed.

Lemma read_action_ok acts item acts' :
  NoDup acts.*1 /\ (forall p, p ∈ acts -> action_ok p.1 p.2) ->
  read_action acts item = Ok acts' ->
  (NoDup acts'.*1 /\ (forall p, p ∈ acts' -> action_ok p.1 p.2)) /\ acts' ≠ [].
Proof.
  intros [Hnd Hok]. destruct item as [aid raw]. unfold read_action.
  rewrite raise_if_ok. intros [Hb H]. rewrite raise_if_ok in H. destruct H as [Hnew H].
  rewrite bind_ok in H. destruct H as (d & _ & H). rewrite raise_if_ok in H.
  destruct H as [_ H]. rewrite bind_ok in H. destruct H as (a & Ha & [= <-]).
  apply action_from_document_ok in Ha; [|done].
  destruct (assoc aid acts) eqn:E; [done|]. apply assoc_None in E.
  split; [split|by destruct acts].
  - rewrite fmap_app. apply NoDup_app. split; [done|]. split; [|apply NoDup_singleton].
    simpl. set_solver.
  - intros p. rewrite elem_of_app, list_elem_of_singleton. intros [?| ->]; auto.
Qed.

Section registry_theorems.
Context (sha256_json : pyval -> string).

Lemma definition_from_document_ok doc d :
  definition_from_document sha256_json doc = Ok d ->
  definition_ok d
  /\ fingerprint_capability_document sha256_json doc
     = Ok d.(CapabilityDefinition.definition_fingerprint).
Proof.
  unfold definition_from_document.
  do 4 (rewrite bind_ok; intros (? & _ & H); revert H). rewrite raise_if_ok.
  intros [Hex H]. rewrite bind_ok in H. destruct H as (acts_in & _ & H).
  rewrite raise_if_ok in H. destruct H as [Hne H].
  rewrite bind_ok in H. destruct H as (acts & Hacts & H).
  rewrite bind_ok in H. destruct H as (fp & Hfp & [= <-]). split; [|done].
  bool_prop. apply list_elem_of_singleton in Hex as ->.
  destruct acts_in as [|a0 rest]; [done|]. cbn in Hacts. rewrite bind_ok in Hacts.
  destruct Hacts as (s1 & H1 & H2).
  apply read_action_ok in H1 as Hs1; [|split; [constructor|set_solver]].
  eapply (fold_result_ind (fun l => (NoDup l.*1 /\ forall p, p ∈ l -> action_ok p.1 p.2)
                                    /\ l ≠ [])) in H2;
    [|intros s0 itm s2 _ [Hs _] Hr; by eapply read_action_ok|exact Hs1].
  destruct H2 as [[] ?]. unfold definition_ok; simpl; auto.
Qed.

Definition registry_ok (docs : list (list (string * pyval))) (r : CapabilityRegistry.t) : Prop :=
  forall id d, r !! id = Some d ->
    d.(CapabilityDefinition.capability_id) = id /\ definition_ok d
    /\ exists doc, doc ∈ docs /\ definition_from_document sha256_json doc = Ok d.

Lemma add_document_ok docs r doc r' :
  doc ∈ docs -> registry_ok docs r -> add_document sha256_json r doc = Ok r' ->
  registry_ok docs r' /\ size r' = S (size r).
Proof.
  intros Hdoc Hr. unfold add_document. rewrite bind_ok. intros (d & Hd & H).
  rewrite raise_if_ok in H. destruct H as [Hnew [= <-]]. bool_prop.
  split; [|by apply (map_size_insert_None (M:=gmap string)), eq_None_not_Some].
  intros id d'. unfold CapabilityRegistry.t in *. rewrite lookup_insert. case_decide; [|apply Hr].
  intros [= <-]. split; [done|]. split; [by apply definition_from_document_ok in Hd as []|].
  eauto.
Qed.

Lemma registry_from_documents_invariant docs r :
  registry_from_documents sha256_json docs = Ok r ->
  registry_ok docs r /\ size r = length docs.
Proof.
  unfold registry_from_documents.
  assert (forall l r0 r1, (forall x, x ∈ l -> x ∈ docs) -> registry_ok docs r0 ->
    fold_result (add_document sha256_json) r0 l = Ok r1 ->
    registry_ok docs r1 /\ size r1 = (size r0 + length l)%nat) as Hgen.
  { induction l as [|x l IH]; simpl; intros r0 r1 Hl H0.
    - intros [= <-]. split; [done|lia].
    - rewrite bind_ok. intros (r2 & H2 & H). apply (add_document_ok docs) in H2 as [H2 Hsz];
        [|set_solver|done]. apply IH in H as [? ->]; [|set_solver|done]. split; [done|lia]. }
  intros H. apply Hgen in H as [? Hs]; [|done|by intros ?].
  split; [done|]. exact Hs.
Qed.
End registry_theorems.

(** A registry built from documents is policy truth: it holds exactly one entry per
    document, each entry is filed under its own id and comes from one of the
    documents with that document's policy fingerprint, is executed by the worker,
    and each of its actions has distinct non-blank names, closed argument
    schemas, a side-effect range inside 0..3, at least one target type and only
    supported requirements. *)
Theorem registry_is_policy_truth sha docs r :
  registry_from_documents sha docs = Ok r ->
  size r = length docs
  /\ (forall id d, CapabilityRegistry.get r id = Some d ->
       d.(CapabilityDefinition.capability_id) = id
       /\ definition_ok d
       /\ exists doc, doc ∈ docs
          /\ fingerprint_capability_document sha doc
             = Ok d.(CapabilityDefinition.definition_fingerprint)).
Proof.
  intros H. apply registry_from_documents_invariant in H as [Hok Hs]. split; [done|].
  intros id d Hd. destruct (Hok id d Hd) as (? & ? & doc & ? & Hdoc).
  split; [done|]. split; [done|]. exists doc.
  by apply definition_from_document_ok in Hdoc as [].
Qed.

(** A document and the fingerprint function of the witnesses. *)
Definition sample_action : list (string * pyval) :=
  [ ("argument_schema", PDict [("additionalProperties", PBool false)]);
    ("result_schema", PDict []); ("minimum_side_effect_level", PInt 1);
    ("maximum_side_effect_level", PInt 2); ("target_types", PList [PStr "url"]);
    ("requirements", PList [PStr "loopback"]); ("supports_reproduction", PBool true);
    ("supports_negative_control", PBool false) ].

Definition sample_document : list (string * pyval) :=
  [ ("capability_id", PStr " http.get "); ("version", PStr "1");
    ("implementation_reference", PStr "impl"); ("executor_class", PStr "WORKER");
    ("actions", PDict [("fetch", PDict sample_action)]) ].

Definition sample_sha (v : pyval) : string :=
  match v with PDict d => pretty (length d) | _ => "0" end.

Definition sample_registry : CapabilityRegistry.t :=
  match registry_from_documents sample_sha [sample_document] with Ok r => r | Raise _ => ∅ end.

Lemma registry_is_policy_truth_witness : size sample_registry = 1%nat.
Proof.
  exact (proj1 (registry_is_policy_truth sample_sha [sample_document] sample_registry eq_refl)).
Defined.

(** The range test both branches of the check end with. *)
Lemma range_checks_allowed am mn e mx lv :
  (if negb (am =? mn) then CapabilityAuthorizationCheck.mk false ReasonCode.RISK_UNDERSTATEMENT
   else if e <? mn then CapabilityAuthorizationCheck.mk false ReasonCode.RISK_UNDERSTATEMENT
   else if mx <? e then CapabilityAuthorizationCheck.mk false ReasonCode.RISK_EXCEEDS_CAPABILITY
   else if negb (lv =? e)
   then CapabilityAuthorizationCheck.mk false ReasonCode.SIDE_EFFECT_BINDING_MISMATCH
   else CapabilityAuthorizationCheck.mk true ReasonCode.ALLOWED)
    .(CapabilityAuthorizationCheck.allowed_to_continue) = true
  <-> am = mn /\ mn <= e <= mx /\ lv = e.
Proof. repeat case_match; simpl; bool_prop; naive_solver lia. Qed.

(** The claim [view] is covered by the worker action the catalog holds. *)
Definition covered_by_catalog (catalog : CapabilityRegistry.t)
    (view : CapabilityAuthorizationView.t) (level : SideEffectLevel.t) : Prop :=
  exists d a,
    CapabilityRegistry.lookup catalog view.(CapabilityAuthorizationView.capability_id)
      view.(CapabilityAuthorizationView.action) = Some (d, a)
    /\ d.(CapabilityDefinition.executor_class) = WORKER_EXECUTOR_CLASS
    /\ view.(CapabilityAuthorizationView.capability_version) = d.(CapabilityDefinition.version)
    /\ view.(CapabilityAuthorizationView.definition_fingerprint)
       = d.(CapabilityDefinition.definition_fingerprint)
    /\ view.(CapabilityAuthorizationView.authoritative_minimum_side_effect)
       = a.(CapabilityActionDefinition.minimum_side_effect_level)
    /\ a.(CapabilityActionDefinition.minimum_side_effect_level) <= SideEffectLevel.value level
       <= a.(CapabilityActionDefinition.maximum_side_effect_level)
    /\ SideEffectLevel.value level = view.(CapabilityAuthorizationView.effective_side_effect).

(** The claim is not in the catalog and the integration allowlist covers it. *)
Definition covered_by_allowlist (catalog : CapabilityRegistry.t)
    (view : CapabilityAuthorizationView.t) (level : SideEffectLevel.t) : Prop :=
  CapabilityRegistry.get catalog view.(CapabilityAuthorizationView.capability_id) = None
  /\ exists e,
    lookup_integration_capability view.(CapabilityAuthorizationView.capability_id)
      view.(CapabilityAuthorizationView.action) = Some e
    /\ view.(CapabilityAuthorizationView.authoritative_minimum_side_effect)
       = e.(IntegrationAllowlistEntry.minimum_side_effect_level)
    /\ e.(IntegrationAllowlistEntry.minimum_side_effect_level) <= SideEffectLevel.value level
       <= e.(IntegrationAllowlistEntry.maximum_side_effect_level)
    /\ SideEffectLevel.value level = view.(CapabilityAuthorizationView.effective_side_effect).

Lemma allowlist_allowed view level :
  (check_integration_allowlist view level)
    .(CapabilityAuthorizationCheck.allowed_to_continue) = true
  <-> exists e,
    lookup_integration_capability view.(CapabilityAuthorizationView.capability_id)
      view.(CapabilityAuthorizationView.action) = Some e
    /\ view.(CapabilityAuthorizationView.authoritative_minimum_side_effect)
       = e.(IntegrationAllowlistEntry.minimum_side_effect_level)
    /\ e.(IntegrationAllowlistEntry.minimum_side_effect_level) <= SideEffectLevel.value level
       <= e.(IntegrationAllowlistEntry.maximum_side_effect_level)
    /\ SideEffectLevel.value level = view.(CapabilityAuthorizationView.effective_side_effect).
Proof.
  unfold check_integration_allowlist.
  destruct (lookup_integration_capability _ _) as [e|].
  - rewrite range_checks_allowed. split; [|naive_solver lia].
    intros (? & ? & E). exists e. rewrite E. naive_solver lia.
  - destruct (mem _ _); naive_solver.
Qed.

Lemma capability_check_allowed catalog view level :
  (check_capability_authorization catalog view level)
    .(CapabilityAuthorizationCheck.allowed_to_continue) = true
  <-> exists v, view = Some v
      /\ (covered_by_catalog catalog v level \/ covered_by_allowlist catalog v level).
Proof.
  unfold check_capability_authorization, covered_by_catalog, covered_by_allowlist,
    CapabilityRegistry.lookup.
  assert (forall P, (forall v, view = Some v -> ~ P v) ->
    false = true <-> exists v : CapabilityAuthorizationView.t, view = Some v /\ P v) as refuse
    by naive_solver.
  destruct view as [v|]; [|apply refuse; done].
  destruct (CapabilityRegistry.get _ _) as [d|] eqn:Hd.
  - destruct (CapabilityDefinition.action d _) as [a|] eqn:Ha.
    2:{ case_match; apply refuse; intros ? [= <-] [(d' & a' & E & _)|[E _]];
        rewrite Hd, ?Ha in E; done. }
    do 3 (case_match; bool_prop;
      [apply refuse; intros ? [= <-] [(d' & a' & E & ? & ? & ? & _)|[E _]];
       rewrite Hd, ?Ha in E; simplify_eq/=; done|]).
    rewrite range_checks_allowed. split.
    + intros (? & ? & E). exists v. split; [done|]. left. exists d, a. rewrite Hd, Ha, E. done.
    + intros (v' & [= <-] & [(d' & a' & E & ? & ? & ? & ? & ? & <-)|[E _]]);
        rewrite Hd, ?Ha in E; simplify_eq/=; done.
  - rewrite allowlist_allowed. split.
    + intros He. exists v. split; [done|]. by right.
    + intros (v' & [= <-] & [(d' & a' & E & _)|[_ He]]); [by rewrite Hd in E|done].
Qed.

(** Core lets a capability claim continue exactly when the registry (or, for a
    capability the registry does not hold, the integration allowlist) covers it:
    same version and policy fingerprint, the true minimum side effect, and the
    requested level bound to the claimed one inside the action's range. *)
Theorem capability_authorized_iff catalog view level :
  (check_capability_authorization catalog view level)
    .(CapabilityAuthorizationCheck.allowed_to_continue) = true
  <-> exists v, view = Some v
      /\ (covered_by_catalog catalog v level \/ covered_by_allowlist catalog v level).
Proof. apply capability_check_allowed. Qed.

(** ** The fingerprint covers the policy and nothing else *)

Definition policy_equiv_action (p q : string * pyval) : Prop :=
  p.1 = q.1 /\ exists raw raw', p.2 = PDict raw /\ q.2 = PDict raw'
    /\ forall f, f ∈ ACTION_POLICY_FIELDS -> dict_get f raw = dict_get f raw'.

(** Two documents state the same policy: same definition-level fields, and, in key
    order, the same actions with the same action-level policy fields. *)
Definition policy_equiv (doc doc' : list (string * pyval)) : Prop :=
  (forall f, f ∈ copied_fields -> dict_get f doc = dict_get f doc')
  /\ exists acts acts', dict_get "actions" doc = PDict acts
     /\ dict_get "actions" doc' = PDict acts'
     /\ Forall2 policy_equiv_action (sort_by fst acts) (sort_by fst acts').

Lemma field_rows_eq (fs : list string) (raw raw' : list (string * pyval)) :
  (fun f => (f, dict_get f raw)) <$> fs = (fun f => (f, dict_get f raw')) <$> fs <->
  forall f, f ∈ fs -> dict_get f raw = dict_get f raw'.
Proof.
  induction fs as [|f fs IH]; csimpl; [set_solver|]. split.
  - intros [= E1 E2]. rewrite IH in E2. set_solver.
  - intros E. f_equal; [|apply IH]; [f_equal; apply E; left|]. intros g Hg. apply E. by right.
Qed.

Definition action_row (item : string * pyval) : result (string * pyval) :=
  match item.2 with PDict raw => Ok (item.1, action_payload raw) | _ => Raise ValueError end.

Lemma action_row_ok item row :
  action_row item = Ok row <->
  exists raw, item.2 = PDict raw /\ row = (item.1, action_payload raw).
Proof. unfold action_row. destruct item as [k []]; naive_solver. Qed.

Lemma action_rows_eq l l' r r' :
  traverse action_row l = Ok r -> traverse action_row l' = Ok r' ->
  r = r' <-> Forall2 policy_equiv_action l l'.
Proof.
  rewrite !traverse_ok. intros Hl. revert l' r'.
  induction Hl as [|x y l r Hxy Hl IH]; intros l' r' Hl'.
  - inversion Hl'; subst; split; try done; intros Hf;
      first [by apply Forall2_nil_2|by inversion Hf].
  - inversion Hl' as [|x' y' l0 r0 Hxy' Hl0]; subst; [split; [done|by inversion 1]|].
    apply action_row_ok in Hxy as (raw & Hraw & ->), Hxy' as (raw' & Hraw' & ->).
    specialize (IH _ _ Hl0). unfold action_payload. split.
    + intros E. constructor; [|apply IH; congruence].
      split; [congruence|]. exists raw, raw'. split; [done|]. split; [done|].
      apply field_rows_eq. congruence.
    + inversion 1 as [|? ? ? ? (E1 & w & w' & Ew & Ew' & Hf) E2]; subst.
      rewrite Hraw in Ew. rewrite Hraw' in Ew'. injection Ew as <-. injection Ew' as <-.
      f_equal; [|by apply IH]. rewrite E1. do 2 f_equal. by apply field_rows_eq.
Qed.

(** The payload a fingerprint hashes is equal for two readable documents exactly when
    they state the same policy: key order, extra metadata fields and the order of
    the actions do not change a fingerprint, and every change of a policy field does
    change what is hashed. *)
Theorem fingerprint_covers_policy doc doc' p p' :
  allowlisted_policy_payload doc = Ok p -> allowlisted_policy_payload doc' = Ok p' ->
  p = p' <-> policy_equiv doc doc'.
Proof.
  unfold allowlisted_policy_payload, policy_equiv.
  destruct (dict_get "actions" doc) as [| | | | | |acts]; try done.
  destruct (dict_get "actions" doc') as [| | | | | |acts']; try done.
  rewrite !bind_ok. fold action_row. intros (r & Hr & [= <-]) (r' & Hr' & [= <-]).
  rewrite <-field_rows_eq. pose proof (action_rows_eq _ _ _ _ Hr Hr') as Heq. split.
  - intros E. apply PDict_inj in E. split; [unfold copied_fields; csimpl; congruence|].
    exists acts, acts'. split; [done|]. split; [done|]. apply Heq. congruence.
  - intros [Hd (a & a' & [= <-] & [= <-] & Ha)]. apply Heq in Ha as ->.
    unfold copied_fields in Hd. csimpl in *. congruence.
Qed.

Lemma fingerprint_covers_policy_witness :
  let doc' := ("vendor_note", PStr "x") :: rev sample_document in
  policy_equiv sample_document doc'.
Proof.
  intros doc'.
  refine (proj1 (fingerprint_covers_policy sample_document doc' _ _ eq_refl eq_refl) eq_refl).
Defined.
