(* ===== verification/Scope.v ===== *)
(** * Scope: rule matches, compiled scope rules, the path a scope rule is matched against

    [core/scope.py], [core/scope_compiler.py] and the path part of
    [platform/url_normalize.py].  Paths, hosts and prefixes are strings compared by
    character, as in the code; the theorems relate those comparisons to the
    segment-wise and label-wise readings they stand for. *)
From S2P Require Import Prelude CoreTypes.

(** ** Decision over pre-evaluated matches *)

(** [core/scope.py:15-28 ScopeRuleMatch] *)
Module ScopeRuleMatch.
Record t : Set := mk {
  rule_id : string;
  effect : ScopeRuleEffect.t;
  matched : bool;
  source_reference : string }.

Definition post_init (x : t) : result t :=
  _ ← require_opaque_id x.(rule_id);
  _ ← require_opaque_id x.(source_reference);
  Ok x.
End ScopeRuleMatch.

(** [core/scope.py:31-40 ScopeEvaluationInput] *)
Module ScopeEvaluationInput.
Record t : Set := mk { matches : list ScopeRuleMatch.t; ambiguous : bool }.
End ScopeEvaluationInput.

(** [core/scope.py:43-48 ScopeCheck] *)
Module ScopeCheck.
Record t : Set := mk {
  decision : ScopeDecision.t;
  reason_code : ReasonCode.t;
  matched_rule_ids : list string;
  classification : ScopeClassification.t }.
End ScopeCheck.

(** [effect in (ScopeRuleEffect.DENY, ScopeRuleEffect.OUT_OF_SCOPE)] *)
Definition is_exclusion (e : ScopeRuleEffect.t) : bool :=
  bool_decide (e = ScopeRuleEffect.DENY) || bool_decide (e = ScopeRuleEffect.OUT_OF_SCOPE).

Definition is_allow (e : ScopeRuleEffect.t) : bool :=
  bool_decide (e = ScopeRuleEffect.ALLOW).

Definition is_unknown (e : ScopeRuleEffect.t) : bool :=
  bool_decide (e = ScopeRuleEffect.UNKNOWN).

(** [core/scope.py:51-97 check_scope] *)
Definition check_scope (evaluation : ScopeEvaluationInput.t) : ScopeCheck.t :=
  let matched := List.filter ScopeRuleMatch.matched evaluation.(ScopeEvaluationInput.matches) in
  let matched_ids := ScopeRuleMatch.rule_id <$> matched in
  if existsb (fun m => is_exclusion m.(ScopeRuleMatch.effect)) matched
  then ScopeCheck.mk ScopeDecision.DENY ReasonCode.SCOPE_DENIED matched_ids
         ScopeClassification.OUT_OF_SCOPE
  else if evaluation.(ScopeEvaluationInput.ambiguous)
  then ScopeCheck.mk ScopeDecision.REQUIRE_HUMAN_REVIEW ReasonCode.SCOPE_AMBIGUOUS matched_ids
         ScopeClassification.OUT_OF_SCOPE
  else if existsb (fun m => is_allow m.(ScopeRuleMatch.effect)) matched
  then ScopeCheck.mk ScopeDecision.ALLOW ReasonCode.ALLOWED matched_ids
         ScopeClassification.IN_SCOPE
  else if existsb (fun m => is_unknown m.(ScopeRuleMatch.effect)) matched
  then ScopeCheck.mk ScopeDecision.DENY ReasonCode.SCOPE_UNKNOWN_CLASSIFICATION matched_ids
         ScopeClassification.UNKNOWN
  else ScopeCheck.mk ScopeDecision.DENY ReasonCode.SCOPE_NOT_EXPLICITLY_ALLOWED matched_ids
         ScopeClassification.OUT_OF_SCOPE.

(** ** Compiled scope rules *)

(** [core/scope_compiler.py:22-25 DEFAULT_SCHEME_PORTS] *)
Definition DEFAULT_SCHEME_PORTS : list (string * Z) := [("http", 80); ("https", 443)].
(** [core/scope_compiler.py:26 NORMALIZATION_USERINFO] *)
Definition NORMALIZATION_USERINFO : string := "USERINFO".
(** [core/scope_compiler.py:27 NORMALIZATION_WILDCARD] *)
Definition NORMALIZATION_WILDCARD : string := "WILDCARD".
(** [core/scope_compiler.py:28 NORMALIZATION_PATH_AMBIGUOUS] *)
Definition NORMALIZATION_PATH_AMBIGUOUS : string := "PATH_AMBIGUOUS".

(** [core/scope_compiler.py:31-39 ScopeCandidate] *)
Module ScopeCandidate.
Record t : Set := mk {
  raw_target : string;
  normalized_scheme : option string;
  normalized_host : option string;
  normalized_port : option Z;
  raw_path : string;
  scope_match_path : option string;
  normalization_error : option string }.
End ScopeCandidate.

(** [core/scope_compiler.py:42-88 ScopeRuleDefinition] *)
Module ScopeRuleDefinition.
Record t : Set := mk {
  rule_id : string;
  effect : ScopeRuleEffect.t;
  scheme : string;
  host : option string;
  port : option Z;
  path_prefix : option string;
  source_reference : string;
  host_pattern : option string;
  expires_at : option Z }.

Definition post_init (x : t) : result t :=
  _ ← require_opaque_id x.(rule_id);
  _ ← require_opaque_id x.(source_reference);
  raise_if Str.is_blank x.(scheme) as CoreInputError;;
  raise_if bool_decide (is_Some x.(host)) && bool_decide (is_Some x.(host_pattern))
  as CoreInputError;;
  raise_if bool_decide (x.(host) = None) && bool_decide (x.(host_pattern) = None)
  as CoreInputError;;
  raise_if match x.(host) with
           | None => false
           | Some h => Str.is_blank h || Str.contains h "*"
           end
  as CoreInputError;;
  raise_if match x.(host_pattern) with
           | None => false
           | Some p =>
               negb (Str.starts_with p "*.")
               || let apex := Str.lower (Str.strip (Str.drop 2 p)) in
                  Str.is_empty apex || Str.contains apex "*"
           end
  as CoreInputError;;
  raise_if Str.contains x.(scheme) "*" as CoreInputError;;
  raise_if match x.(port) with None => false | Some p => p <? 1 end as CoreInputError;;
  raise_if match x.(path_prefix) with
           | None => false
           | Some p => negb (Str.starts_with p "/")
           end
  as CoreInputError;;
  Ok x.
End ScopeRuleDefinition.

(** [core/scope_compiler.py:91-101 CompiledScopeRule] *)
Module CompiledScopeRule.
Record t : Set := mk {
  rule_id : string;
  effect : ScopeRuleEffect.t;
  scheme : string;
  host : option string;
  host_pattern : option string;
  port : Z;
  path_prefix : option string;
  source_reference : string;
  expires_at : option Z }.
#[global] Instance eq_dec : EqDecision t.
Proof. solve_decision. Defined.
End CompiledScopeRule.

(** [core/scope_compiler.py:104-106 CompiledScope] *)
Module CompiledScope.
Record t : Set := mk { rules : list CompiledScopeRule.t }.
End CompiledScope.

(** One turn of the loop.  [core/scope_compiler.py:111-134 compile_scope_rules] *)
Definition compile_scope_rule (rule : ScopeRuleDefinition.t) : result CompiledScopeRule.t :=
  let scheme := Str.strip (Str.lower rule.(ScopeRuleDefinition.scheme)) in
  match assoc scheme DEFAULT_SCHEME_PORTS with
  | None => Raise CoreInputError
  | Some default_port =>
      let '(host, host_pattern) :=
        match rule.(ScopeRuleDefinition.host) with
        | Some h => (Some (Str.lower (Str.strip_chars ["["; "]"]%char h)), None)
        | None =>
            (None,
             match rule.(ScopeRuleDefinition.host_pattern) with
             | Some p => if Str.is_empty p then None else Some (Str.lower (Str.strip p))
             | None => None
             end)
        end in
      Ok (CompiledScopeRule.mk rule.(ScopeRuleDefinition.rule_id)
            rule.(ScopeRuleDefinition.effect) scheme host host_pattern
            (default default_port rule.(ScopeRuleDefinition.port))
            rule.(ScopeRuleDefinition.path_prefix)
            rule.(ScopeRuleDefinition.source_reference)
            rule.(ScopeRuleDefinition.expires_at))
  end.

(** [core/scope_compiler.py:109-135 compile_scope_rules] *)
Definition compile_scope_rules (rules : list ScopeRuleDefinition.t) : result CompiledScope.t :=
  CompiledScope.mk <$> traverse compile_scope_rule rules.

(** [core/scope_compiler.py:217-223 _deny] *)
Definition deny (reason : ReasonCode.t) : ScopeCheck.t :=
  ScopeCheck.mk ScopeDecision.DENY reason [] ScopeClassification.OUT_OF_SCOPE.

(** [core/scope_compiler.py:234-242 _host_matches] *)
Definition host_matches (host : option string) (rule : CompiledScopeRule.t) : bool :=
  match host with
  | None => false
  | Some host =>
      match rule.(CompiledScopeRule.host), rule.(CompiledScopeRule.host_pattern) with
      | Some h, _ => (host =? h)%string
      | None, Some p =>
          let apex := Str.drop 2 p in
          negb (host =? apex)%string && Str.ends_with host ("." +:+ apex)
      | None, None => false
      end
  end.

(** [core/scope_compiler.py:226-231 _origin_matches] *)
Definition origin_matches (candidate : ScopeCandidate.t) (rule : CompiledScopeRule.t) : bool :=
  if negb (bool_decide (candidate.(ScopeCandidate.normalized_scheme)
                        = Some rule.(CompiledScopeRule.scheme)))
  then false
  else if negb (host_matches candidate.(ScopeCandidate.normalized_host) rule) then false
  else bool_decide (candidate.(ScopeCandidate.normalized_port)
                    = Some rule.(CompiledScopeRule.port)).

(** [core/scope_compiler.py:245-250 _path_prefix_matches] *)
Definition path_prefix_matches (path prefix : string) : bool :=
  if (path =? prefix)%string then true
  else
    let prefix := if negb (Str.ends_with prefix "/") then prefix +:+ "/" else prefix in
    Str.starts_with path prefix.

(** The two [continue] guards of the loop.
    [core/scope_compiler.py:165-170 evaluate_scope_candidate] *)
Definition rule_matches (candidate : ScopeCandidate.t) (path : string)
    (rule : CompiledScopeRule.t) : bool :=
  if negb (origin_matches candidate rule) then false
  else match rule.(CompiledScopeRule.path_prefix) with
       | None => true
       | Some prefix => path_prefix_matches path prefix
       end.

(** [rule.expires_at is not None and rule.expires_at <= evaluated_at] *)
Definition is_expired (evaluated_at : Z) (rule : CompiledScopeRule.t) : bool :=
  match rule.(CompiledScopeRule.expires_at) with
  | None => false
  | Some at_ => at_ <=? evaluated_at
  end.

(** The three lists the loop fills. *)
Module RuleBuckets.
Record t : Set := mk {
  matched_exclusions : list CompiledScopeRule.t;
  matched_allows : list CompiledScopeRule.t;
  matched_unknown : list CompiledScopeRule.t }.

Definition empty : t := mk [] [] [].

(** [core/scope_compiler.py:178-183 evaluate_scope_candidate] *)
Definition add (b : t) (rule : CompiledScopeRule.t) : t :=
  let e := rule.(CompiledScopeRule.effect) in
  if is_exclusion e
  then mk (b.(matched_exclusions) ++ [rule]) b.(matched_allows) b.(matched_unknown)
  else if is_allow e
  then mk b.(matched_exclusions) (b.(matched_allows) ++ [rule]) b.(matched_unknown)
  else if is_unknown e
  then mk b.(matched_exclusions) b.(matched_allows) (b.(matched_unknown) ++ [rule])
  else b.
End RuleBuckets.

(** The loop: the first matching rule that has expired ends it with its id ([inl]).
    [core/scope_compiler.py:164-183 evaluate_scope_candidate] *)
Fixpoint scan_rules (candidate : ScopeCandidate.t) (path : string) (evaluated_at : Z)
    (b : RuleBuckets.t) (rules : list CompiledScopeRule.t) : string + RuleBuckets.t :=
  match rules with
  | [] => inr b
  | rule :: rules =>
      if negb (rule_matches candidate path rule)
      then scan_rules candidate path evaluated_at b rules
      else if is_expired evaluated_at rule then inl rule.(CompiledScopeRule.rule_id)
      else scan_rules candidate path evaluated_at (RuleBuckets.add b rule) rules
  end.

(** [clock] is what [datetime.now(timezone.utc)] returns.
    [core/scope_compiler.py:138-214 evaluate_scope_candidate] *)
Definition evaluate_scope_candidate (clock : Z) (candidate : ScopeCandidate.t)
    (compiled : CompiledScope.t) (now : option Z) : ScopeCheck.t :=
  let error := candidate.(ScopeCandidate.normalization_error) in
  if bool_decide (error = Some NORMALIZATION_USERINFO)
  then deny ReasonCode.SCOPE_USERINFO_DENIED
  else if bool_decide (error = Some NORMALIZATION_WILDCARD)
  then deny ReasonCode.SCOPE_WILDCARD_REJECTED
  else if bool_decide (error = Some NORMALIZATION_PATH_AMBIGUOUS)
  then deny ReasonCode.SCOPE_PATH_AMBIGUOUS
  else if bool_decide (is_Some error) then deny ReasonCode.SCOPE_NORMALIZATION_INVALID
  else
  match candidate.(ScopeCandidate.scope_match_path) with
  | None => deny ReasonCode.SCOPE_PATH_AMBIGUOUS
  | Some path =>
      let evaluated_at := default clock now in
      match scan_rules candidate path evaluated_at RuleBuckets.empty
              compiled.(CompiledScope.rules) with
      | inl expired_id =>
          ScopeCheck.mk ScopeDecision.REQUIRE_HUMAN_REVIEW ReasonCode.SCOPE_EXPIRED
            [expired_id] ScopeClassification.OUT_OF_SCOPE
      | inr b =>
          let ids l := CompiledScopeRule.rule_id <$> l in
          if negb (bool_decide (b.(RuleBuckets.matched_exclusions) = []))
          then ScopeCheck.mk ScopeDecision.DENY ReasonCode.SCOPE_DENIED
                 (ids b.(RuleBuckets.matched_exclusions)) ScopeClassification.OUT_OF_SCOPE
          else if negb (bool_decide (b.(RuleBuckets.matched_allows) = []))
          then ScopeCheck.mk ScopeDecision.ALLOW ReasonCode.ALLOWED
                 (ids b.(RuleBuckets.matched_allows)) ScopeClassification.IN_SCOPE
          else if negb (bool_decide (b.(RuleBuckets.matched_unknown) = []))
          then ScopeCheck.mk ScopeDecision.DENY ReasonCode.SCOPE_UNKNOWN_CLASSIFICATION
                 (ids b.(RuleBuckets.matched_unknown)) ScopeClassification.UNKNOWN
          else ScopeCheck.mk ScopeDecision.DENY ReasonCode.SCOPE_NOT_EXPLICITLY_ALLOWED []
                 ScopeClassification.UNKNOWN
      end
  end.

(** ** The path a scope rule is matched against *)

(** [[0-9A-Fa-f]] *)
Definition is_hex (c : ascii) : bool :=
  let n := Str.code c in
  ((48 <=? n)%nat && (n <=? 57)%nat) || ((65 <=? n)%nat && (n <=? 70)%nat)
  || ((97 <=? n)%nat && (n <=? 102)%nat).

(** [[0-9A-Fa-f]{2}] at the start of [s]. *)
Definition starts_hex2 (s : string) : bool :=
  match s with String a (String b _) => is_hex a && is_hex b | _ => false end.

Definition is_percent (c : ascii) : bool := Ascii.eqb c "%"%char.

(** [_BAD_PERCENT.search(s)].  [platform/url_normalize.py:138 _BAD_PERCENT] *)
Fixpoint bad_percent (s : string) : bool :=
  match s with
  | EmptyString => false
  | String c s' => (is_percent c && negb (starts_hex2 s')) || bad_percent s'
  end.

(** [s] starts with [2f] or [2F] ([lo = "f"], [hi = "F"]). *)
Definition starts_2x (lo hi : ascii) (s : string) : bool :=
  match s with
  | String a (String b _) => Ascii.eqb a "2"%char && (Ascii.eqb b lo || Ascii.eqb b hi)
  | _ => false
  end.

Fixpoint search_2x (lo hi : ascii) (s : string) : bool :=
  match s with
  | EmptyString => false
  | String c s' => (is_percent c && starts_2x lo hi s') || search_2x lo hi s'
  end.

(** [platform/url_normalize.py:139 _ENCODED_SLASH] *)
Definition encoded_slash (s : string) : bool := search_2x "f"%char "F"%char s.
(** [platform/url_normalize.py:140 _ENCODED_DOT] *)
Definition encoded_dot (s : string) : bool := search_2x "e"%char "E"%char s.

(** [_PERCENT.findall(s)], each match without its [%].
    [platform/url_normalize.py:137 _PERCENT] *)
Fixpoint percent_matches (s : string) : list (ascii * ascii) :=
  match s with
  | String c (String a (String b s3) as s1) =>
      if is_percent c && (is_hex a && is_hex b) then (a, b) :: percent_matches s3
      else percent_matches s1
  | _ => []
  end.

(** [bytes.fromhex] accepts the concatenation of the matches. *)
Definition fromhex_ok (l : list (ascii * ascii)) : bool :=
  forallb (fun p => is_hex p.1 && is_hex p.2) l.

(** [platform/url_normalize.py:167-176 _is_unambiguous_segment] *)
Definition is_unambiguous_segment (segment : string) : bool :=
  if negb (Str.contains segment "%") then true
  else if bad_percent segment then false
  else fromhex_ok (percent_matches segment).

(** [segment.encode("ascii").decode("utf-8")] succeeds, and is then the identity. *)
Fixpoint is_ascii (s : string) : bool :=
  match s with
  | EmptyString => true
  | String c s' => (Str.code c <? 128)%nat && is_ascii s'
  end.

(** The loop over [raw_path.split("/")[1:]]: [None] for a [return None] or a
    [UnicodeError].  [platform/url_normalize.py:154-161 _scope_match_path] *)
Fixpoint decode_segments (segments : list string) : option (list string) :=
  match segments with
  | [] => Some []
  | segment :: segments =>
      if mem segment ["."; ".."] then None
      else if negb (is_ascii segment) then None
      else rest ← decode_segments segments; Some (segment :: rest)
  end.

(** [platform/url_normalize.py:143-164 _scope_match_path] *)
Definition scope_match_path (raw_path : string) : option string * option string :=
  let ambiguous := (None, Some NORMALIZATION_PATH_AMBIGUOUS) in
  if Str.contains raw_path "\" then ambiguous
  else if bad_percent raw_path then ambiguous
  else if encoded_slash raw_path || encoded_dot raw_path then ambiguous
  else if negb (Str.starts_with raw_path "/") then ambiguous
  else if Str.contains raw_path "//" then ambiguous
  else
  match decode_segments (tail (Str.split "/"%char raw_path)) with
  | None => ambiguous
  | Some decoded_segments =>
      if existsb (fun item => negb (is_unambiguous_segment item))
           (List.filter (fun item => negb (Str.is_empty item)) decoded_segments)
      then ambiguous
      else (Some raw_path, None)
  end.

(** ** Theorems: the decision *)

Definition check_scope_allows (e : ScopeEvaluationInput.t) : Prop :=
  e.(ScopeEvaluationInput.ambiguous) = false
  /\ (exists m, m ∈ e.(ScopeEvaluationInput.matches) /\ m.(ScopeRuleMatch.matched) = true
        /\ m.(ScopeRuleMatch.effect) = ScopeRuleEffect.ALLOW)
  /\ (forall m, m ∈ e.(ScopeEvaluationInput.matches) -> m.(ScopeRuleMatch.matched) = true ->
        is_exclusion m.(ScopeRuleMatch.effect) = false).

Lemma check_scope_denied e :
  existsb (fun m => is_exclusion m.(ScopeRuleMatch.effect))
    (List.filter ScopeRuleMatch.matched e.(ScopeEvaluationInput.matches)) = true ->
  (check_scope e).(ScopeCheck.decision) = ScopeDecision.DENY.
Proof. unfold check_scope. by intros ->. Qed.

Lemma check_scope_allow e :
  (check_scope e).(ScopeCheck.decision) = ScopeDecision.ALLOW <-> check_scope_allows e.
Proof.
  unfold check_scope, check_scope_allows.
  destruct (existsb (fun m => is_exclusion _) _) eqn:E1; simpl.
  { split; [done|]. rewrite existsb_true in E1. destruct E1 as (m & Hm & Hx).
    rewrite elem_of_list_filter_bool in Hm. intros (_ & _ & Hn).
    rewrite (Hn m) in Hx by tauto. done. }
  rewrite existsb_false in E1.
  assert (forall m, m ∈ e.(ScopeEvaluationInput.matches) -> m.(ScopeRuleMatch.matched) = true ->
    is_exclusion m.(ScopeRuleMatch.effect) = false) as Hex.
  { intros m Hm Hma. apply E1. by rewrite elem_of_list_filter_bool. }
  destruct (ScopeEvaluationInput.ambiguous e); simpl; [naive_solver|].
  destruct (existsb (fun m => is_allow _) _) eqn:E2; simpl.
  - split; [|done]. intros _. split; [done|]. split; [|done].
    rewrite existsb_true in E2. destruct E2 as (m & Hm & Hx).
    rewrite elem_of_list_filter_bool in Hm. unfold is_allow in Hx. bool_prop. naive_solver.
  - rewrite existsb_false in E2. split; [by case_match|].
    intros (_ & (m & Hm & Hma & He) & _). specialize (E2 m).
    rewrite elem_of_list_filter_bool in E2. unfold is_allow in E2.
    rewrite He, bool_decide_true in E2 by done. naive_solver.
Qed.

(** ** Theorems: compiled rules *)

Section scan.
Context (candidate : ScopeCandidate.t) (path : string) (evaluated_at : Z).

Definition matching (rules : list CompiledScopeRule.t) : list CompiledScopeRule.t :=
  List.filter (rule_matches candidate path) rules.

Definition with_effect (f : ScopeRuleEffect.t -> bool) (rules : list CompiledScopeRule.t)
    : list CompiledScopeRule.t :=
  List.filter (fun r => f r.(CompiledScopeRule.effect)) rules.

(** The buckets hold the matching rules by effect, in rule order; a scan that ends
    early ends at the first expired matching rule. *)
Definition scan_spec (b : RuleBuckets.t) (rules : list CompiledScopeRule.t)
    : string + RuleBuckets.t :=
  match List.find (is_expired evaluated_at) (matching rules) with
  | Some r => inl r.(CompiledScopeRule.rule_id)
  | None =>
      inr (RuleBuckets.mk
        (b.(RuleBuckets.matched_exclusions) ++ with_effect is_exclusion (matching rules))
        (b.(RuleBuckets.matched_allows) ++ with_effect is_allow (matching rules))
        (b.(RuleBuckets.matched_unknown) ++ with_effect is_unknown (matching rules)))
  end.

Lemma scan_rules_spec rules b :
  scan_rules candidate path evaluated_at b rules = scan_spec b rules.
Proof.
  revert b. induction rules as [|r rules IH]; intros b; unfold scan_spec; simpl.
  { rewrite !app_nil_r. by destruct b. }
  destruct (rule_matches candidate path r); simpl; [|by rewrite IH].
  destruct (is_expired evaluated_at r); [done|]. rewrite IH. unfold scan_spec.
  case_match; [done|]. f_equal. unfold RuleBuckets.add.
  destruct (CompiledScopeRule.effect r); simpl; by rewrite <-?app_assoc.
Qed.
End scan.

(** ALLOW, declaratively. *)
Definition scope_allows (at_ : Z) (c : ScopeCandidate.t) (compiled : CompiledScope.t) : Prop :=
  c.(ScopeCandidate.normalization_error) = None
  /\ exists path, c.(ScopeCandidate.scope_match_path) = Some path
     /\ (forall r, r ∈ compiled.(CompiledScope.rules) -> rule_matches c path r = true ->
           is_expired at_ r = false /\ is_exclusion r.(CompiledScopeRule.effect) = false)
     /\ exists r, r ∈ compiled.(CompiledScope.rules) /\ rule_matches c path r = true
          /\ r.(CompiledScopeRule.effect) = ScopeRuleEffect.ALLOW.

Lemma scope_allow_iff clock candidate compiled now :
  (evaluate_scope_candidate clock candidate compiled now).(ScopeCheck.decision)
    = ScopeDecision.ALLOW
  <-> scope_allows (default clock now) candidate compiled.
Proof.
  unfold evaluate_scope_candidate, scope_allows.
  destruct (ScopeCandidate.normalization_error candidate) as [err|].
  { repeat case_bool_decide; simpl; try (split; naive_solver); exfalso; eauto. }
  simpl. destruct (ScopeCandidate.scope_match_path candidate) as [path|]; [|split; naive_solver].
  rewrite scan_rules_spec. unfold scan_spec. generalize (default clock now) as at_. intros at_.
  destruct (List.find _ _) as [r|] eqn:Hf; simpl.
  { apply find_Some_elem in Hf as [Hr Hx]. unfold matching in Hr.
    rewrite elem_of_list_filter_bool in Hr. split; [done|].
    intros (_ & ? & [= <-] & Hall & _). destruct (Hall r); naive_solver congruence. }
  rewrite find_None_iff in Hf. unfold matching, with_effect in *.
  setoid_rewrite elem_of_list_filter_bool in Hf.
  case_bool_decide as He; simpl.
  - rewrite filter_nil_bool in He. setoid_rewrite elem_of_list_filter_bool in He.
    case_bool_decide as Ha; simpl.
    + split; [by case_match|]. intros (_ & ? & [= <-] & _ & r & Hr & Hm & Heff).
      rewrite filter_nil_bool in Ha. setoid_rewrite elem_of_list_filter_bool in Ha.
      specialize (Ha r). unfold is_allow in Ha. rewrite Heff, bool_decide_true in Ha by done.
      naive_solver.
    + split; [|done]. intros _. split; [done|]. exists path. split; [done|].
      split; [naive_solver|].
      destruct (List.filter (fun r => is_allow _) _) as [|r l] eqn:Hl; [done|].
      assert (r ∈ r :: l) as Hr by left. rewrite <-Hl, !elem_of_list_filter_bool in Hr.
      exists r. unfold is_allow in Hr. bool_prop. naive_solver.
  - split; [done|]. intros (_ & ? & [= <-] & Hall & _). destruct He. apply filter_nil_bool.
    setoid_rewrite elem_of_list_filter_bool. naive_solver.
Qed.

(** What an ALLOW names: the matching rules that allow. *)
Lemma scope_allow_ids clock candidate compiled now :
  let check := evaluate_scope_candidate clock candidate compiled now in
  check.(ScopeCheck.decision) = ScopeDecision.ALLOW ->
  exists path, candidate.(ScopeCandidate.scope_match_path) = Some path
    /\ check.(ScopeCheck.matched_rule_ids)
       = CompiledScopeRule.rule_id
           <$> with_effect is_allow (matching candidate path compiled.(CompiledScope.rules)).
Proof.
  cbv zeta. unfold evaluate_scope_candidate.
  destruct (ScopeCandidate.normalization_error candidate) as [err|];
    [by repeat case_bool_decide; try done; exfalso; eauto|]. simpl.
  destruct (ScopeCandidate.scope_match_path candidate) as [path|]; [|done].
  rewrite scan_rules_spec. unfold scan_spec. destruct (List.find _ _); [done|]. simpl.
  intros Hd. exists path. split; [done|]. revert Hd.
  repeat case_bool_decide; by simpl.
Qed.

(** C15. A target is ALLOWed by compiled scope rules exactly when its normalization left no
    error, some ALLOW rule matches its origin and path, no matching rule excludes it and no
    matching rule has expired at the evaluation instant ([now], or the clock). *)
Theorem evaluate_scope_allow_iff clock candidate compiled now :
  (evaluate_scope_candidate clock candidate compiled now).(ScopeCheck.decision)
    = ScopeDecision.ALLOW
  <-> scope_allows (default clock now) candidate compiled.
Proof. exact (scope_allow_iff clock candidate compiled now). Qed.

(** The first expired matching rule decides, whatever the other rules say: a DENY
    rule that matches the same target does not win over it. *)
Lemma scan_expired_first candidate path at_ b pre r post :
  (forall x, x ∈ pre -> rule_matches candidate path x = true -> is_expired at_ x = false) ->
  rule_matches candidate path r = true -> is_expired at_ r = true ->
  scan_rules candidate path at_ b (pre ++ r :: post) = inl r.(CompiledScopeRule.rule_id).
Proof.
  intros Hpre Hm He. rewrite scan_rules_spec. unfold scan_spec, matching.
  rewrite List.filter_app. simpl. rewrite Hm.
  assert (List.find (is_expired at_) (List.filter (rule_matches candidate path) pre
    ++ r :: List.filter (rule_matches candidate path) post) = Some r) as ->; [|done].
  induction pre as [|x pre IH]; simpl; [by rewrite He|].
  destruct (rule_matches candidate path x) eqn:Hx; simpl; [|apply IH; set_solver].
  rewrite (Hpre x) by (done || left). apply IH. set_solver.
Qed.

(** An expired rule is only ever answered with human review: when a rule that matches
    the candidate has expired and the rules before it that match have not, the decision is
    REQUIRE_HUMAN_REVIEW naming that rule, even when an exclusion matches as well. *)
Theorem expired_rule_requires_review clock candidate pre r post now path :
  candidate.(ScopeCandidate.normalization_error) = None ->
  candidate.(ScopeCandidate.scope_match_path) = Some path ->
  rule_matches candidate path r = true ->
  is_expired (default clock now) r = true ->
  (forall x, x ∈ pre -> rule_matches candidate path x = true ->
     is_expired (default clock now) x = false) ->
  evaluate_scope_candidate clock candidate (CompiledScope.mk (pre ++ r :: post)) now
  = ScopeCheck.mk ScopeDecision.REQUIRE_HUMAN_REVIEW ReasonCode.SCOPE_EXPIRED
      [r.(CompiledScopeRule.rule_id)] ScopeClassification.OUT_OF_SCOPE.
Proof.
  intros He Hp Hm Hx Hpre. unfold evaluate_scope_candidate. rewrite He, Hp. simpl.
  by rewrite scan_expired_first.
Qed.

Definition sample_candidate : ScopeCandidate.t :=
  ScopeCandidate.mk "https://a.example.com/admin" (Some "https") (Some "a.example.com")
    (Some 443) "/admin" (Some "/admin") None.

Definition sample_rule (id : string) (e : ScopeRuleEffect.t) (exp : option Z)
    : CompiledScopeRule.t :=
  CompiledScopeRule.mk id e "https" None (Some "*.example.com") 443 (Some "/admin") "src" exp.

Lemma expired_rule_requires_review_witness :
  let deny_rule := sample_rule "deny" ScopeRuleEffect.DENY None in
  let old_rule := sample_rule "old" ScopeRuleEffect.ALLOW (Some 5) in
  evaluate_scope_candidate 10 sample_candidate (CompiledScope.mk [deny_rule; old_rule]) None
  = ScopeCheck.mk ScopeDecision.REQUIRE_HUMAN_REVIEW ReasonCode.SCOPE_EXPIRED
      ["old"] ScopeClassification.OUT_OF_SCOPE.
Proof.
  intros deny_rule old_rule.
  refine (expired_rule_requires_review 10 sample_candidate [deny_rule] old_rule [] None "/admin"
    eq_refl eq_refl eq_refl eq_refl _).
  intros x Hx _. apply list_elem_of_singleton in Hx as ->. reflexivity.
Defined.

(** ** Theorems: hosts, ports and path prefixes *)

Definition labels (s : string) : list string := Str.split "."%char s.
Definition segments (s : string) : list string := Str.split "/"%char s.

Lemma split_inj c s t : Str.split c s = Str.split c t -> s = t.
Proof. intros E. rewrite <-(Str.join_split c s), <-(Str.join_split c t). by rewrite E. Qed.

Lemma split_no_sep_iff c l s :
  Str.split c s = l -> forall x, x ∈ l -> Str.split c x = [x].
Proof.
  revert l. induction s as [|d s IH]; simpl; intros l Hl x Hx.
  - subst. apply list_elem_of_singleton in Hx as ->. done.
  - destruct (Ascii.eqb d c) eqn:E.
    + subst. apply elem_of_cons in Hx as [->|Hx]; [done|by eapply IH].
    + destruct (Str.split_cons c s) as (h & t & Hs). rewrite Hs in Hl. subst.
      apply elem_of_cons in Hx as [->|Hx]; [|eapply IH; [exact Hs|by right]].
      simpl. rewrite E, (IH _ Hs h); [done|left].
Qed.

Lemma split_join c l : l ≠ [] -> (forall x, x ∈ l -> Str.split c x = [x]) ->
  Str.split c (Str.join c l) = l.
Proof.
  induction l as [|x [|y l] IH]; intros Hne Hl; [done|simpl; apply Hl; left|].
  change (Str.join c (x :: y :: l)) with (x +:+ String c (Str.join c (y :: l))).
  rewrite Str.split_app_sep, (Hl x), IH by (done || set_solver). done.
Qed.

(** A string whose parts extend the parts of [t] on the left is [r c t]. *)
Lemma split_suffix c s t :
  (exists r, s = r +:+ String c t) <->
  exists ls, ls ≠ [] /\ Str.split c s = ls ++ Str.split c t.
Proof.
  split.
  - intros [r ->]. exists (Str.split c r). rewrite Str.split_app_sep. split; [|done].
    by destruct (Str.split_cons c r) as (? & ? & ->).
  - intros (ls & Hne & E). exists (Str.join c ls). apply (split_inj c).
    rewrite Str.split_app_sep, split_join; [done|done|].
    intros x Hx. eapply split_no_sep_iff; [exact E|]. rewrite elem_of_app. by left.
Qed.

Lemma split_prefix c s t :
  (exists r, s = t +:+ String c r) <->
  exists ls, ls ≠ [] /\ Str.split c s = Str.split c t ++ ls.
Proof.
  split.
  - intros [r ->]. exists (Str.split c r). rewrite Str.split_app_sep. split; [|done].
    by destruct (Str.split_cons c r) as (? & ? & ->).
  - intros (ls & Hne & E). exists (Str.join c ls). apply (split_inj c).
    rewrite Str.split_app_sep, split_join; [done|done|].
    intros x Hx. eapply split_no_sep_iff; [exact E|]. rewrite elem_of_app. by right.
Qed.

Lemma append_shift a c b : a +:+ String c b = (a +:+ String c "") +:+ b.
Proof. by rewrite Str.append_assoc. Qed.

Lemma ends_with_sep s c t :
  Str.ends_with s (String c EmptyString +:+ t) = true <->
  exists ls, ls ≠ [] /\ Str.split c s = ls ++ Str.split c t.
Proof. rewrite Str.ends_with_true, <-split_suffix. done. Qed.

Lemma host_pattern_labels host apex :
  negb (host =? apex)%string && Str.ends_with host ("." +:+ apex) = true <->
  exists ls, ls ≠ [] /\ labels host = ls ++ labels apex.
Proof.
  rewrite andb_true_iff, negb_true_iff, String.eqb_neq.
  change ("." +:+ apex) with (String "."%char EmptyString +:+ apex). rewrite ends_with_sep.
  split; [naive_solver|]. intros (ls & Hne & E). split; [|by exists ls]. intros ->.
  apply (f_equal length) in E. rewrite length_app in E. by destruct ls; simpl in E; [|lia].
Qed.

(** A wildcard rule [*.apex] matches exactly the hosts whose dot-separated labels
    extend those of the apex on the left by at least one label: never the apex itself, and
    never a host that only ends in the same letters. *)
Theorem wildcard_host_matches_subdomains rule host apex :
  rule.(CompiledScopeRule.host) = None ->
  rule.(CompiledScopeRule.host_pattern) = Some ("*." +:+ apex) ->
  host_matches (Some host) rule = true
  <-> exists ls, ls ≠ [] /\ labels host = ls ++ labels apex.
Proof.
  intros Hh Hp. unfold host_matches. rewrite Hh, Hp. apply host_pattern_labels.
Qed.

Lemma wildcard_host_matches_subdomains_witness :
  host_matches (Some "evil-example.com") (sample_rule "r" ScopeRuleEffect.ALLOW None) = false
  /\ exists ls, ls ≠ [] /\ labels "a.example.com" = ls ++ labels "example.com".
Proof.
  split; [reflexivity|].
  exact (proj1 (wildcard_host_matches_subdomains (sample_rule "r" ScopeRuleEffect.ALLOW None)
    "a.example.com" "example.com" eq_refl eq_refl) eq_refl).
Defined.

(** Path prefixes are matched by whole segments.  A rule prefix [p] without a final
    slash matches exactly the paths whose segments start with the segments of [p]; a
    prefix [q/] matches exactly those that have at least one more segment than [q] and
    start with its segments. *)
Theorem path_prefix_segmentwise path p :
  (Str.ends_with p "/" = false ->
     path_prefix_matches path p = true <-> segments p `prefix_of` segments path)
  /\ (path_prefix_matches path (p +:+ "/") = true <->
      exists ls, ls ≠ [] /\ segments path = segments p ++ ls).
Proof.
  unfold path_prefix_matches, segments. split.
  - intros ->. simpl. destruct (path =? p)%string eqn:E; bool_prop.
    + subst. split; [by exists []; rewrite app_nil_r|done].
    + rewrite Str.starts_with_true. split.
      * intros [r ->]. rewrite <-append_shift, Str.split_app_sep. by eexists.
      * intros [ls Hls]. assert (ls ≠ []) as Hne.
        { intros ->. rewrite app_nil_r in Hls. by apply split_inj in Hls. }
        destruct (proj2 (split_prefix "/"%char path p)) as [r ->]; [by exists ls|].
        exists r. apply append_shift.
  - assert (Str.ends_with (p +:+ "/") "/" = true) as -> by (apply Str.ends_with_true; by exists p).
    simpl. rewrite <-split_prefix. destruct (path =? p +:+ "/")%string eqn:E; bool_prop.
    + subst. split; [by exists EmptyString|done].
    + rewrite Str.starts_with_true. split; intros [r ->]; exists r;
        [symmetry|]; apply append_shift.
Qed.

Lemma path_prefix_segmentwise_witness :
  path_prefix_matches "/administrator" "/admin" = false
  /\ segments "/admin" `prefix_of` segments "/admin/users".
Proof.
  split; [reflexivity|].
  exact (proj1 (proj1 (path_prefix_segmentwise "/admin/users" "/admin") eq_refl) eq_refl).
Defined.

(** ** Theorems: compilation *)

Lemma rstrip_empty s : Str.rstrip s = "" -> Str.strip s = "".
Proof.
  unfold Str.strip. induction s as [|c s IH]; simpl; [done|].
  destruct (Str.rstrip s) eqn:E; [|done]. destruct (Str.is_space c); [|done]. auto.
Qed.

Lemma is_empty_lower s : Str.is_empty (Str.lower s) = Str.is_empty s.
Proof. by destruct s. Qed.

Lemma strip_wildcard p :
  Str.starts_with p "*." = true -> Str.is_empty (Str.lower (Str.strip (Str.drop 2 p))) = false ->
  exists apex, Str.lower (Str.strip p) = "*." +:+ apex /\ apex ≠ "".
Proof.
  rewrite Str.starts_with_true, is_empty_lower. intros [r ->] Hne.
  exists (Str.lower (Str.rstrip r)). unfold Str.strip at 1. split.
  - simpl. by destruct (Str.rstrip r).
  - intros E. assert (Str.rstrip r = "") as Er by (by destruct (Str.rstrip r)).
    simpl in Hne. by rewrite (rstrip_empty _ Er) in Hne.
Qed.

Definition compiled_from (r : ScopeRuleDefinition.t) (c : CompiledScopeRule.t) : Prop :=
  c.(CompiledScopeRule.rule_id) = r.(ScopeRuleDefinition.rule_id)
  /\ c.(CompiledScopeRule.effect) = r.(ScopeRuleDefinition.effect)
  /\ c.(CompiledScopeRule.path_prefix) = r.(ScopeRuleDefinition.path_prefix)
  /\ c.(CompiledScopeRule.expires_at) = r.(ScopeRuleDefinition.expires_at)
  /\ (c.(CompiledScopeRule.scheme) = "http" \/ c.(CompiledScopeRule.scheme) = "https")
  /\ 1 <= c.(CompiledScopeRule.port)
  /\ ((exists h, c.(CompiledScopeRule.host) = Some h
          /\ c.(CompiledScopeRule.host_pattern) = None)
      \/ (exists apex, apex ≠ "" /\ c.(CompiledScopeRule.host) = None
          /\ c.(CompiledScopeRule.host_pattern) = Some ("*." +:+ apex))).

Lemma rule_post_init_ok r r' :
  ScopeRuleDefinition.post_init r = Ok r' ->
  r' = r
  /\ (forall p, r.(ScopeRuleDefinition.port) = Some p -> 1 <= p)
  /\ (r.(ScopeRuleDefinition.host) = None -> exists p,
        r.(ScopeRuleDefinition.host_pattern) = Some p /\ Str.starts_with p "*." = true
        /\ Str.is_empty (Str.lower (Str.strip (Str.drop 2 p))) = false).
Proof.
  unfold ScopeRuleDefinition.post_init. rewrite bind_ok. intros (? & _ & H).
  rewrite bind_ok in H. destruct H as (? & _ & H). rewrite !raise_if_ok in H.
  destruct H as (_ & _ & Hnone & _ & Hpat & _ & Hport & _ & [= <-]).
  split; [done|]. split.
  - intros p Hp. rewrite Hp in Hport. bool_prop. lia.
  - intros Hh. rewrite Hh, bool_decide_true in Hnone by done. simpl in Hnone.
    destruct (ScopeRuleDefinition.host_pattern r) as [p|]; [|done].
    exists p. split; [done|]. rewrite !orb_false_iff, negb_false_iff in Hpat. naive_solver.
Qed.

Lemma compile_scope_rule_ok r c :
  ScopeRuleDefinition.post_init r = Ok r -> compile_scope_rule r = Ok c -> compiled_from r c.
Proof.
  intros (_ & Hport & Hpat)%rule_post_init_ok. unfold compile_scope_rule.
  destruct (assoc _ _) as [dp|] eqn:Hs; [|done]. apply assoc_Some_in in Hs.
  set (sch := Str.strip _) in *.
  assert ((sch = "http" \/ sch = "https") /\ 1 <= dp) as [Hsch Hdp].
  { unfold DEFAULT_SCHEME_PORTS in Hs. rewrite !elem_of_cons in Hs.
    destruct Hs as [[= -> ->]|[[= -> ->]|Hs]]; [auto with lia..|set_solver]. }
  assert (1 <= default dp r.(ScopeRuleDefinition.port)) as Hp.
  { destruct (ScopeRuleDefinition.port r); simpl; [by apply Hport|done]. }
  destruct (ScopeRuleDefinition.host r) as [h|].
  - intros [= <-]. repeat split; try done. left. by eexists.
  - destruct (Hpat eq_refl) as (p & -> & Hst & Hne).
    destruct (strip_wildcard p Hst Hne) as (apex & E & Ha).
    destruct (Str.is_empty p) eqn:Hp0; [by destruct p|].
    rewrite E. intros [= <-]. repeat split; try done. right. by exists apex.
Qed.

(** Compiling validated rules keeps every rule and their order; each compiled rule
    carries its rule's effect, prefix and expiry unchanged, an http or https scheme, a
    positive port and exactly one of an exact host and a wildcard [*.apex] pattern with a
    non-empty apex. *)
Theorem compile_scope_rules_faithful rules compiled :
  (forall r, r ∈ rules -> ScopeRuleDefinition.post_init r = Ok r) ->
  compile_scope_rules rules = Ok compiled ->
  Forall2 compiled_from rules compiled.(CompiledScope.rules).
Proof.
  intros Hr. unfold compile_scope_rules.
  destruct (traverse compile_scope_rule rules) as [cs|] eqn:E; [|done]. intros [= <-].
  apply traverse_ok in E. simpl. induction E as [|r c rules cs Hc E IH]; constructor.
  - apply compile_scope_rule_ok; [apply Hr; left|done].
  - apply IH. set_solver.
Qed.

Lemma compile_scope_rules_faithful_witness :
  let r := ScopeRuleDefinition.mk "r" ScopeRuleEffect.ALLOW " HTTPS" None None (Some "/a")
             "src" (Some "*.Example.com ") None in
  Forall2 compiled_from [r]
    [CompiledScopeRule.mk "r" ScopeRuleEffect.ALLOW "https" None (Some "*.example.com") 443
       (Some "/a") "src" None].
Proof.
  intros r. refine (compile_scope_rules_faithful [r] (CompiledScope.mk _) _ eq_refl).
  intros x Hx. apply list_elem_of_singleton in Hx as ->. reflexivity.
Defined.

(** ** Theorems: an accepted path means what it says

    [percent_decode] is what a server that decodes the path sees, [resolve_dots] is
    the removal of [.] and [..] segments: both are references, not code. *)
Definition hex_value (c : ascii) : nat :=
  let n := Str.code c in
  if (n <=? 57)%nat then (n - 48)%nat else if (n <=? 70)%nat then (n - 55)%nat else (n - 87)%nat.

Definition decode_pair (a b : ascii) : ascii :=
  ascii_of_nat (16 * hex_value a + hex_value b).

Fixpoint percent_decode (s : string) : string :=
  match s with
  | EmptyString => EmptyString
  | String c s1 =>
      match s1 with
      | String a (String b s3) =>
          if is_percent c && (is_hex a && is_hex b)
          then String (decode_pair a b) (percent_decode s3)
          else String c (percent_decode s1)
      | _ => String c (percent_decode s1)
      end
  end.

Fixpoint resolve_dots (acc : list string) (segs : list string) : list string :=
  match segs with
  | [] => rev acc
  | s :: segs =>
      if (s =? ".")%string then resolve_dots acc segs
      else if (s =? "..")%string then resolve_dots (tail acc) segs
      else resolve_dots (s :: acc) segs
  end.

Lemma hex_range c : is_hex c = true -> (hex_value c < 16)%nat.
Proof. destruct c as [[] [] [] [] [] [] [] []]; vm_compute; intros; try discriminate; lia. Qed.

Lemma hex_two c : is_hex c = true -> hex_value c = 2%nat -> c = "2"%char.
Proof. destruct c as [[] [] [] [] [] [] [] []]; vm_compute; intros; try discriminate; done. Qed.

Lemma hex_fifteen c : is_hex c = true -> hex_value c = 15%nat -> c = "f"%char \/ c = "F"%char.
Proof. destruct c as [[] [] [] [] [] [] [] []]; vm_compute; intros; try discriminate; auto. Qed.

Lemma hex_fourteen c : is_hex c = true -> hex_value c = 14%nat -> c = "e"%char \/ c = "E"%char.
Proof. destruct c as [[] [] [] [] [] [] [] []]; vm_compute; intros; try discriminate; auto. Qed.

Lemma hex_not_sep c : is_hex c = true -> Ascii.eqb c "/" = false.
Proof. destruct c as [[] [] [] [] [] [] [] []]; vm_compute; intros; try discriminate; done. Qed.

Lemma decode_pair_code a b : is_hex a = true -> is_hex b = true ->
  Str.code (decode_pair a b) = (16 * hex_value a + hex_value b)%nat.
Proof.
  intros Ha%hex_range Hb%hex_range. unfold decode_pair, Str.code.
  rewrite nat_ascii_embedding; lia.
Qed.

Lemma decode_slash a b s : is_hex a = true -> is_hex b = true ->
  decode_pair a b = "/"%char -> starts_2x "f" "F" (String a (String b s)) = true.
Proof.
  intros Ha Hb E. apply (f_equal Str.code) in E. rewrite decode_pair_code in E by done.
  change (Str.code "/") with 47%nat in E. pose proof (hex_range _ Ha).
  pose proof (hex_range _ Hb). rewrite (hex_two a) by (done || lia).
  destruct (hex_fifteen b Hb) as [-> | ->]; [lia|done..].
Qed.

Lemma decode_dot a b s : is_hex a = true -> is_hex b = true ->
  decode_pair a b = "."%char -> starts_2x "e" "E" (String a (String b s)) = true.
Proof.
  intros Ha Hb E. apply (f_equal Str.code) in E. rewrite decode_pair_code in E by done.
  change (Str.code ".") with 46%nat in E. pose proof (hex_range _ Ha).
  pose proof (hex_range _ Hb). rewrite (hex_two a) by (done || lia).
  destruct (hex_fourteen b Hb) as [-> | ->]; [lia|done..].
Qed.

(** Case analysis along [percent_decode]. *)
Lemma percent_decode_ind (P : string -> Prop) :
  P EmptyString ->
  (forall a b s, is_hex a = true -> is_hex b = true -> P s ->
     P (String "%" (String a (String b s)))) ->
  (forall c s, is_percent c && starts_hex2 s = false -> P s -> P (String c s)) ->
  forall s, P s.
Proof.
  intros H0 H1 H2 s. remember (String.length s) as n eqn:Hn.
  assert (String.length s <= n)%nat as Hle by lia. clear Hn. revert s Hle.
  induction n as [|n IH]; intros [|c s] Hle; simpl in Hle; try done; try lia.
  destruct (is_percent c && starts_hex2 s) eqn:E; [|apply H2; [done|apply IH; lia]].
  apply andb_true_iff in E as [Hc Hh]. apply Ascii.eqb_eq in Hc as ->.
  destruct s as [|a [|b s]]; [done..|]. simpl in Hh, Hle.
  apply andb_true_iff in Hh as [Ha Hb]. apply H1; [done..|]. apply IH. lia.
Qed.

Lemma percent_decode_hex a b s : is_hex a = true -> is_hex b = true ->
  percent_decode (String "%" (String a (String b s)))
  = String (decode_pair a b) (percent_decode s).
Proof. intros Ha Hb. cbn -[decode_pair]. by rewrite Ha, Hb. Qed.

Lemma percent_decode_plain c s : is_percent c && starts_hex2 s = false ->
  percent_decode (String c s) = String c (percent_decode s).
Proof. destruct s as [|a [|b s]]; [done..|]. intros H. simpl in H.
  cbn [percent_decode]. by rewrite H.
Qed.

(** Splitting at slashes and decoding commute when no slash is encoded. *)
Lemma split_percent_decode s :
  bad_percent s = false -> encoded_slash s = false ->
  Str.split "/" (percent_decode s) = percent_decode <$> Str.split "/" s.
Proof.
  induction s as [|a b s Ha Hb IH|c s Hc IH] using percent_decode_ind; [done| |].
  - intros Hbad Henc. rewrite percent_decode_hex by done. unfold encoded_slash in *.
    cbn [bad_percent search_2x] in Hbad, Henc. rewrite !orb_false_iff in Hbad, Henc.
    destruct Hbad as (_ & _ & _ & Hbad), Henc as (Henc0 & _ & _ & Henc).
    specialize (IH Hbad Henc). cbn [Str.split].
    rewrite (hex_not_sep a Ha), (hex_not_sep b Hb). change (Ascii.eqb "%" "/") with false.
    destruct (Ascii.eqb (decode_pair a b) "/") eqn:E.
    { apply Ascii.eqb_eq in E. apply (decode_slash a b s) in E; [|done..].
      rewrite E in Henc0. done. }
    destruct (Str.split "/" s) as [|h t] eqn:Hs;
      [by destruct (Str.split_cons "/" s) as (? & ? & ?); congruence|].
    rewrite IH. csimpl. by rewrite Ha, Hb.
  - intros Hbad Henc. rewrite percent_decode_plain by done. unfold encoded_slash in *.
    cbn [bad_percent search_2x] in Hbad, Henc. rewrite !orb_false_iff in Hbad, Henc.
    destruct Hbad as (Hbad0 & Hbad), Henc as (_ & Henc).
    assert (is_percent c = false) as Hp.
    { destruct (is_percent c); [|done]. simpl in *. by rewrite Hc in Hbad0. }
    specialize (IH Hbad Henc). cbn [Str.split].
    destruct (Ascii.eqb c "/"); [by rewrite IH|].
    destruct (Str.split "/" s) as [|h t] eqn:Hs;
      [by destruct (Str.split_cons "/" s) as (? & ? & ?); congruence|].
    rewrite IH, !fmap_cons, percent_decode_plain; [done|by rewrite Hp].
Qed.

(** A decoded segment made of dots was written with dots. *)
Definition all_dots (s : string) : bool :=
  forallb (fun c => Ascii.eqb c "."%char) (String.list_ascii_of_string s).

Lemma percent_decode_dots x :
  encoded_dot x = false -> all_dots (percent_decode x) = true -> percent_decode x = x.
Proof.
  unfold all_dots, encoded_dot.
  induction x as [|a b s Ha Hb IH|c s Hc IH] using percent_decode_ind; [done| |].
  - rewrite percent_decode_hex by done. intros Henc Hd. exfalso. cbn in Hd.
    apply andb_true_iff in Hd as [E _]. apply Ascii.eqb_eq in E.
    apply (decode_dot a b s) in E; [|done..]. cbn [search_2x] in Henc. by rewrite E in Henc.
  - rewrite percent_decode_plain by done. intros Henc Hd. cbn in Hd.
    apply andb_true_iff in Hd as [_ Hd]. cbn [search_2x] in Henc.
    apply orb_false_iff in Henc as [_ Henc]. by rewrite (IH Henc Hd).
Qed.

Lemma starts_2x_app lo hi s r : starts_2x lo hi s = true -> starts_2x lo hi (s +:+ r) = true.
Proof. by destruct s as [|a [|b s]]. Qed.

Lemma split_head_prefix c s h t : Str.split c s = h :: t -> exists r, s = h +:+ r.
Proof.
  intros E. pose proof (Str.join_split c s) as J. rewrite E in J. rewrite <-J.
  destruct t; simpl; [exists ""; by rewrite Str.append_nil_r|by eexists].
Qed.

Lemma search_2x_split c lo hi s x :
  search_2x lo hi s = false -> x ∈ Str.split c s -> search_2x lo hi x = false.
Proof.
  revert x. induction s as [|d s IH]; intros x; simpl; [set_solver|].
  rewrite orb_false_iff. intros [Hd Hs]. specialize (fun x => IH x Hs).
  destruct (Ascii.eqb d c).
  { rewrite elem_of_cons. intros [->|Hx]; [done|by apply IH]. }
  destruct (Str.split_cons c s) as (h & t & E). rewrite E in *.
  rewrite elem_of_cons. intros [->|Hx]; [|apply IH; by right]. simpl.
  rewrite (IH h) by left. rewrite orb_false_r.
  destruct (split_head_prefix _ _ _ _ E) as [r ->].
  destruct (is_percent d); [|done]. destruct (starts_2x lo hi h) eqn:H2; [|done].
  apply (starts_2x_app _ _ _ r) in H2. by rewrite H2 in Hd.
Qed.

Lemma resolve_dots_id acc segs :
  (forall x, x ∈ segs -> x ≠ "." /\ x ≠ "..") -> resolve_dots acc segs = rev acc ++ segs.
Proof.
  revert acc. induction segs as [|s segs IH]; intros acc Hs; simpl; [by rewrite app_nil_r|].
  destruct (Hs s) as [H1 H2]; [left|]. rewrite !(proj2 (String.eqb_neq _ _)) by done.
  rewrite IH by set_solver. simpl. by rewrite <-app_assoc.
Qed.

Lemma decode_segments_ok l r :
  decode_segments l = Some r -> r = l /\ forall x, x ∈ l -> x ≠ "." /\ x ≠ "..".
Proof.
  revert r. induction l as [|x l IH]; simpl; intros r; [intros [= <-]; set_solver|].
  destruct (mem x _) eqn:E; [done|]. apply mem_false in E. case_match; [done|].
  destruct (decode_segments l) as [r'|]; simpl; [|done]. intros [= <-].
  destruct (IH _ eq_refl) as [-> Hl]. split; [done|]. set_solver.
Qed.

Lemma scope_match_path_accepts raw p e :
  scope_match_path raw = (Some p, e) ->
  p = raw /\ e = None /\ bad_percent raw = false /\ encoded_slash raw = false
  /\ encoded_dot raw = false /\ Str.contains raw "\" = false
  /\ (exists r, raw = "/" +:+ r)
  /\ (forall x, x ∈ segments raw -> x ≠ "." /\ x ≠ "..").
Proof.
  unfold scope_match_path. destruct (Str.contains raw "\"); [done|].
  destruct (bad_percent raw); [done|].
  destruct (encoded_slash raw || encoded_dot raw) eqn:E1; [done|].
  destruct (negb (Str.starts_with raw "/")) eqn:E2; [done|].
  destruct (Str.contains raw "//"); [done|].
  destruct (decode_segments _) as [r|] eqn:E3; [|done].
  destruct (existsb _ _); [done|]. intros [= <- <-].
  rewrite orb_false_iff in E1. rewrite negb_false_iff, Str.starts_with_true in E2.
  apply decode_segments_ok in E3 as [_ Hs]. destruct E1. repeat split; try done.
  all: destruct E2 as [r' ->]; unfold segments in *; simpl in *; set_solver.
Qed.

(** A path the normalizer accepts is the raw path, and it is unambiguous: decoding the
    percent escapes does not move a segment boundary, and neither the written nor the
    decoded path has a [.] or [..] segment to resolve, so prefix rules are matched against
    the path a server serves. *)
Theorem accepted_path_is_unambiguous raw p e :
  scope_match_path raw = (Some p, e) ->
  p = raw /\ e = None
  /\ segments (percent_decode p) = percent_decode <$> segments p
  /\ resolve_dots [] (segments p) = segments p
  /\ resolve_dots [] (segments (percent_decode p)) = segments (percent_decode p).
Proof.
  intros (-> & -> & Hbad & Hsl & Hdot & _ & _ & Hseg)%scope_match_path_accepts.
  assert (segments (percent_decode raw) = percent_decode <$> segments raw) as Hd
    by by apply split_percent_decode.
  repeat split; [done|by apply resolve_dots_id|]. rewrite Hd.
  apply (resolve_dots_id []). intros y (x & -> & Hx)%list_elem_of_fmap.
  specialize (Hseg x Hx) as [H1 H2]. apply (search_2x_split "/") with (x := x) in Hdot; [|done].
  split; intros E; pose proof (percent_decode_dots x Hdot) as Hx'; rewrite E in Hx';
    naive_solver.
Qed.

Lemma accepted_path_is_unambiguous_witness :
  scope_match_path "/a/%2e%2E/b" = (None, Some NORMALIZATION_PATH_AMBIGUOUS)
  /\ segments (percent_decode "/a%20b/c") = percent_decode <$> segments "/a%20b/c".
Proof.
  split; [reflexivity|].
  exact (proj1 (proj2 (proj2
    (accepted_path_is_unambiguous "/a%20b/c" "/a%20b/c" None eq_refl)))).
Defined.
