(* ===== verification/RateLimit.v ===== *)
(** * Rate limits: the rolling window of [core/rate_limit.py]

    Instants and intervals are microseconds ([DateTime] of the prelude).  The
    history of attempts is the caller's; [reachable] is a caller that records an
    attempt when, and only when, the check allowed it. *)
From S2P Require Import Prelude CoreTypes.

(** [core/rate_limit.py:14-29 RateLimitProfile] *)
Module RateLimitProfile.
Record t : Set := mk {
  profile_id : string;
  program_id : string;
  max_requests_per_window : Z;
  window_seconds : Z }.

Definition post_init (x : t) : result t :=
  _ ← require_opaque_id x.(profile_id);
  _ ← require_opaque_id x.(program_id);
  raise_if x.(max_requests_per_window) <? 0 as CoreInputError;;
  raise_if x.(window_seconds) <? 0 as CoreInputError;;
  Ok x.
End RateLimitProfile.

(** [core/rate_limit.py:32-38 RateLimitCheck] *)
Module RateLimitCheck.
Record t : Set := mk {
  allowed : bool;
  reason_code : ReasonCode.t;
  next_allowed_at : option Z }.
End RateLimitCheck.

(** [min(l)]: [ValueError] on an empty sequence. *)
Definition py_min (l : list Z) : result Z :=
  match l with
  | [] => Raise ValueError
  | x :: l => Ok (foldl Z.min x l)
  end.

(** [[t for t in attempt_times if t > window_start and t <= now]] *)
Definition recent (window_start now : Z) (attempt_times : list Z) : list Z :=
  List.filter (fun t => (window_start <? t) && (t <=? now)) attempt_times.

(** [core/rate_limit.py:41-75 check_rate_limit] *)
Definition check_rate_limit (profile : RateLimitProfile.t) (attempt_times : list Z) (now : Z)
    : result RateLimitCheck.t :=
  let max_requests := profile.(RateLimitProfile.max_requests_per_window) in
  let window_seconds := profile.(RateLimitProfile.window_seconds) in
  if (max_requests =? 0) || (window_seconds =? 0)
  then Ok (RateLimitCheck.mk false ReasonCode.RATE_LIMIT_DENIED None)
  else
    window ← DateTime.seconds window_seconds;
    window_start ← DateTime.sub now window;
    let recent := recent window_start now attempt_times in
    if max_requests <=? Z.of_nat (length recent)
    then
      oldest_in_window ← py_min recent;
      window ← DateTime.seconds window_seconds;
      next_allowed_at ← DateTime.add oldest_in_window window;
      Ok (RateLimitCheck.mk false ReasonCode.RATE_LIMIT_DENIED (Some next_allowed_at))
    else Ok (RateLimitCheck.mk true ReasonCode.ALLOWED None).

(** ** Lemmas *)

Lemma recent_elem ws now l t : t ∈ recent ws now l <-> t ∈ l /\ ws < t <= now.
Proof.
  unfold recent. rewrite !list_elem_of_In, filter_In.
  rewrite andb_true_iff, Z.ltb_lt, Z.leb_le. tauto.
Qed.

(** Number of attempts in the half-open window [(ws, now]]. *)
Definition count (ws now : Z) (l : list Z) : Z := Z.of_nat (length (recent ws now l)).

Lemma count_app ws now l l' : count ws now (l ++ l') = count ws now l + count ws now l'.
Proof. unfold count, recent. rewrite List.filter_app, length_app. lia. Qed.

Lemma count_nonneg ws now l : 0 <= count ws now l.
Proof. unfold count. lia. Qed.

Lemma count_cons ws now t l :
  count ws now (t :: l) = (if (ws <? t) && (t <=? now) then 1 else 0) + count ws now l.
Proof. unfold count, recent. simpl. case_match; simpl length; lia. Qed.

Lemma count_singleton ws now t : count ws now [t] <= 1.
Proof.
  rewrite count_cons. change (count ws now []) with 0. destruct ((ws <? t) && _); lia.
Qed.

(** Attempts counted in one window and not in another: monotonicity. *)
Lemma count_mono ws ws' now now' l :
  (forall t, t ∈ l -> ws < t <= now -> ws' < t <= now') ->
  count ws now l <= count ws' now' l.
Proof.
  induction l as [|t l IH]; intros H; [done|]. rewrite !count_cons.
  assert (count ws now l <= count ws' now' l) by (apply IH; set_solver).
  assert (ws < t <= now -> ws' < t <= now') as Ht by (apply H; left).
  destruct ((ws <? t) && (t <=? now)) eqn:E1, ((ws' <? t) && (t <=? now')) eqn:E2;
    bool_prop; lia.
Qed.

Lemma count_mono_strict ws ws' now now' l t :
  (forall t, t ∈ l -> ws < t <= now -> ws' < t <= now') ->
  t ∈ l -> ws' < t <= now' -> ~ (ws < t <= now) ->
  count ws now l < count ws' now' l.
Proof.
  induction l as [|x l IH]; intros H Hin Hw Hn; [set_solver|]. rewrite !count_cons.
  assert (ws < x <= now -> ws' < x <= now') as Hx by (apply H; left).
  apply elem_of_cons in Hin as [<-|Hin].
  - assert (count ws now l <= count ws' now' l) by (apply count_mono; set_solver).
    destruct ((ws <? t) && (t <=? now)) eqn:E1, ((ws' <? t) && (t <=? now')) eqn:E2;
      bool_prop; lia.
  - assert (count ws now l < count ws' now' l) by (apply IH; set_solver).
    destruct ((ws <? x) && (x <=? now)) eqn:E1, ((ws' <? x) && (x <=? now')) eqn:E2;
      bool_prop; lia.
Qed.

Lemma foldl_min_le l x y : y ∈ x :: l -> foldl Z.min x l <= y.
Proof.
  revert x y. induction l as [|z l IH]; simpl; intros x y Hy; [set_solver by lia|].
  rewrite !elem_of_cons in Hy. destruct Hy as [->|[->|Hy]].
  - transitivity (Z.min x z); [apply IH; left|lia].
  - transitivity (Z.min x z); [apply IH; left|lia].
  - apply IH. by right.
Qed.

Lemma foldl_min_in l x : foldl Z.min x l ∈ x :: l.
Proof.
  revert x. induction l as [|z l IH]; simpl; intros x; [left|].
  specialize (IH (Z.min x z)). rewrite !elem_of_cons in *.
  destruct IH as [E|E]; [|tauto]. rewrite E.
  destruct (Z.min_spec x z) as [[_ ->]|[_ ->]]; auto.
Qed.

Lemma py_min_ok l m : py_min l = Ok m -> m ∈ l /\ forall y, y ∈ l -> m <= y.
Proof.
  destruct l as [|x l]; simpl; [done|]. intros [= <-]. split; [apply foldl_min_in|].
  intros y. apply foldl_min_le.
Qed.

(** Width of the window in microseconds. *)
Definition window_us (p : RateLimitProfile.t) : Z :=
  p.(RateLimitProfile.window_seconds) * DateTime.per_second.

Definition active (p : RateLimitProfile.t) : Prop :=
  p.(RateLimitProfile.max_requests_per_window) <> 0
  /\ p.(RateLimitProfile.window_seconds) <> 0.

(** The three outcomes of the check that do not raise. *)
Lemma check_rate_limit_cases p h now c :
  check_rate_limit p h now = Ok c ->
  (~ active p /\ c = RateLimitCheck.mk false ReasonCode.RATE_LIMIT_DENIED None)
  \/ (active p /\ c = RateLimitCheck.mk true ReasonCode.ALLOWED None
      /\ count (now - window_us p) now h < p.(RateLimitProfile.max_requests_per_window))
  \/ (active p
      /\ p.(RateLimitProfile.max_requests_per_window) <= count (now - window_us p) now h
      /\ exists oldest, oldest ∈ h /\ now - window_us p < oldest <= now
         /\ (forall t, t ∈ h -> now - window_us p < t <= now -> oldest <= t)
         /\ c = RateLimitCheck.mk false ReasonCode.RATE_LIMIT_DENIED
                  (Some (oldest + window_us p))).
Proof.
  unfold check_rate_limit, active. case_match eqn:Ha; bool_prop.
  { intros [= <-]. left. split; [tauto|done]. }
  rewrite bind_ok. intros (w & Hw & H). rewrite bind_ok in H. destruct H as (ws & Hws & H).
  apply DateTime.seconds_ok in Hw as Hw'. subst w. apply DateTime.add_ok in Hws as [-> _].
  fold (window_us p) in *. replace (now + - window_us p) with (now - window_us p) in * by lia.
  fold (count (now - window_us p) now h) in H. destruct (_ <=? count _ _ _) eqn:E; bool_prop.
  - right; right. split; [tauto|]. split; [done|].
    rewrite bind_ok in H. destruct H as (o & Ho & H). rewrite Hw in H. simpl in H.
    rewrite bind_ok in H. destruct H as (n & Hn & [= <-]).
    apply DateTime.add_ok in Hn as [-> _]. apply py_min_ok in Ho as [Hin Hmin].
    apply recent_elem in Hin as [Hin ?]. exists o. repeat split; try done; try lia.
    intros t Ht Hr. apply Hmin, recent_elem. done.
  - right; left. injection H as <-. repeat split; try tauto; done.
Qed.

Lemma check_rate_limit_allowed p h now c :
  check_rate_limit p h now = Ok c -> c.(RateLimitCheck.allowed) = true ->
  active p /\ count (now - window_us p) now h < p.(RateLimitProfile.max_requests_per_window).
Proof. intros [[? ->]|[(? & -> & ?)|(? & ? & o & _ & _ & _ & ->)]]%check_rate_limit_cases; done. Qed.

(** A caller that records exactly the allowed attempts, as time passes. *)
Inductive reachable (p : RateLimitProfile.t) : list Z -> Z -> Prop :=
  | reach_start now : reachable p [] now
  | reach_wait h now now' : reachable p h now -> now <= now' -> reachable p h now'
  | reach_attempt h now c :
      reachable p h now -> check_rate_limit p h now = Ok c ->
      c.(RateLimitCheck.allowed) = true -> reachable p (h ++ [now]) now.

Lemma reachable_past p h now : reachable p h now -> forall t, t ∈ h -> t <= now.
Proof.
  induction 1 as [|h now now' _ IH ?|h now c _ IH _ _]; intros t Ht; [set_solver| |].
  - specialize (IH t Ht). lia.
  - rewrite elem_of_app, list_elem_of_singleton in Ht. destruct Ht as [Ht| ->]; [auto|lia].
Qed.

Lemma window_bound p h now :
  reachable p h now -> 0 <= p.(RateLimitProfile.max_requests_per_window) ->
  forall t, count (t - window_us p) t h <= p.(RateLimitProfile.max_requests_per_window).
Proof.
  intros Hr Hmax. induction Hr as [|h now now' _ IH ?|h now c Hr IH Hc Ha]; intros t; [done|auto|].
  rewrite count_app. destruct (check_rate_limit_allowed _ _ _ _ Hc Ha) as [_ Hlt].
  rewrite count_cons. change (count (t - window_us p) t []) with 0.
  destruct ((t - window_us p <? now) && (now <=? t)) eqn:E; [|specialize (IH t); lia].
  bool_prop. assert (count (t - window_us p) t h <= count (now - window_us p) now h); [|lia].
  apply count_mono. intros x Hx ?. pose proof (reachable_past _ _ _ Hr x Hx). lia.
Qed.

(** ** Properties *)

(** C16. However the attempts are spaced, a caller that only records allowed attempts never
    has more than [max_requests_per_window] of them in any window of [window_seconds],
    aligned or not; with either limit at 0 it never records one. *)
Theorem rate_limit_never_exceeded p h now :
  RateLimitProfile.post_init p = Ok p -> reachable p h now ->
  (forall t, count (t - window_us p) t h <= p.(RateLimitProfile.max_requests_per_window))
  /\ (~ active p -> h = []).
Proof.
  intros Hp Hr. split.
  - apply (window_bound p h now Hr). unfold RateLimitProfile.post_init in Hp.
    rewrite !bind_ok in Hp. destruct Hp as (? & _ & Hp). apply bind_ok in Hp as (? & _ & Hp).
    rewrite !raise_if_ok in Hp. destruct Hp as [Hp _]. bool_prop. lia.
  - intros Hna. induction Hr as [|h now now' Hr IH ?|h now c Hr IH Hc Ha]; [done|done|].
    by destruct (check_rate_limit_allowed _ _ _ _ Hc Ha).
Qed.

Definition sample_profile : RateLimitProfile.t := RateLimitProfile.mk "p" "prog" 2 60.
Definition sample_now : Z := 63000000000 * DateTime.per_second.

Lemma sample_reachable : reachable sample_profile [sample_now; sample_now + 5] (sample_now + 5).
Proof.
  assert (reachable sample_profile [sample_now] sample_now) as H.
  { refine (reach_attempt sample_profile [] sample_now (RateLimitCheck.mk true ReasonCode.ALLOWED None)
      (reach_start _ _) eq_refl eq_refl). }
  refine (reach_attempt sample_profile [sample_now] (sample_now + 5)
    (RateLimitCheck.mk true ReasonCode.ALLOWED None) _ eq_refl eq_refl).
  eapply reach_wait; [exact H|lia].
Defined.

Lemma rate_limit_never_exceeded_witness :
  count (sample_now + 7 - 60000000) (sample_now + 7) [sample_now; sample_now + 5] <= 2.
Proof.
  exact (proj1 (rate_limit_never_exceeded sample_profile _ _ eq_refl sample_reachable)
    (sample_now + 7)).
Defined.

(** The instant a denied check reports is exactly the earliest one worth retrying at:
    with no further attempt recorded, every check from [now] until just before it is
    denied (or raises), and a check at that instant is allowed. *)
Theorem next_allowed_at_is_earliest p h now c next :
  RateLimitProfile.post_init p = Ok p -> reachable p h now ->
  check_rate_limit p h now = Ok c ->
  c.(RateLimitCheck.next_allowed_at) = Some next ->
  now < next
  /\ (forall t c', now <= t < next -> check_rate_limit p h t = Ok c' ->
        c'.(RateLimitCheck.allowed) = false)
  /\ (forall c', check_rate_limit p h next = Ok c' -> c'.(RateLimitCheck.allowed) = true).
Proof.
  intros Hp Hr Hc Hn.
  destruct (check_rate_limit_cases _ _ _ _ Hc) as [[? ->]|[(? & -> & ?)|H]]; [done..|].
  destruct H as (Ha & Hge & o & Ho & Hw & Hmin & ->). simpl in Hn. injection Hn as <-.
  pose proof (reachable_past _ _ _ Hr) as Hpast.
  assert (0 <= p.(RateLimitProfile.max_requests_per_window)) as Hmax.
  { unfold RateLimitProfile.post_init in Hp. rewrite !bind_ok in Hp.
    destruct Hp as (? & _ & Hp). apply bind_ok in Hp as (? & _ & Hp).
    rewrite !raise_if_ok in Hp. destruct Hp as [Hp _]. bool_prop. lia. }
  split; [lia|]. split.
  - intros t c' Ht Hc'. destruct (RateLimitCheck.allowed c') eqn:E; [|done]. exfalso.
    destruct (check_rate_limit_allowed _ _ _ _ Hc' E) as [_ Hlt].
    assert (count (now - window_us p) now h <= count (t - window_us p) t h); [|lia].
    apply count_mono. intros x Hx Hxw. specialize (Hmin x Hx Hxw). lia.
  - intros c' Hc'.
    destruct (check_rate_limit_cases _ _ _ _ Hc') as [[? _]|[(_ & -> & _)|H]]; [done..|].
    exfalso. destruct H as (_ & Hge' & _).
    pose proof (window_bound p h now Hr Hmax now) as Hb.
    assert (count (o + window_us p - window_us p) (o + window_us p) h
            < count (now - window_us p) now h); [|lia].
    apply (count_mono_strict _ _ _ _ _ o); [|done|lia|lia].
    intros x Hx ?. specialize (Hpast x Hx). lia.
Qed.

Lemma next_allowed_at_is_earliest_witness : sample_now + 6 < sample_now + 60000000.
Proof.
  refine (proj1 (next_allowed_at_is_earliest sample_profile [sample_now; sample_now + 5]
    (sample_now + 6)
    (RateLimitCheck.mk false ReasonCode.RATE_LIMIT_DENIED (Some (sample_now + 60000000)))
    (sample_now + 60000000) eq_refl _ eq_refl eq_refl)).
  eapply reach_wait; [exact sample_reachable|lia].
Defined.
