(* ===== verification/Execution.v ===== *)
(** * Execution authorization: [core/execution.py]

    [evaluate_execution] composes the five checks of Core.  [may_execute] is the
    contract it promises: who may run what, without the order of the tests. *)
From S2P Require Import Prelude CoreTypes CorePolicy Capability Scope PyVal.

(** [SideEffectLevel | int]: an enum member or a bare integer. *)
Inductive level_arg : Set :=
  | LevelMember (l : SideEffectLevel.t)
  | LevelInt (n : Z).

(** [core/execution.py:28-34 _parse_side_effect_level] *)
Definition parse_side_effect_level (value : level_arg) : result SideEffectLevel.t :=
  match value with
  | LevelMember l => Ok l
  | LevelInt n =>
      match SideEffectLevel.of_int n with
      | Some l => Ok l
      | None => Raise CoreInputError
      end
  end.

(** [core/execution.py:37-47 ExecutionRequest] *)
Module ExecutionRequest.
Record t : Set := mk {
  authorization_source : option AuthorizationSourceView.t;
  scope : option ScopeEvaluationInput.t;
  issued_budget : option IssuedBudget.t;
  budget_usage : option BudgetUsage.t;
  requested_budget_id : string;
  side_effect_level : level_arg;
  requested_subject : string;
  capability : option CapabilityAuthorizationView.t;
  approval : option ApprovalView.t }.
End ExecutionRequest.

(** [core/execution.py:50-60 ExecutionDecision] *)
Module ExecutionDecision.
Record t : Set := mk {
  decision : ExecutionDecisionKind.t;
  reason_code : ReasonCode.t;
  authorization_source_id : option string;
  matched_scope_rule_ids : list string;
  budget_id : option string;
  side_effect_level : SideEffectLevel.t;
  approval_id : option string }.
End ExecutionDecision.

(** [request.f is None] raises.  [core/execution.py:96-101 evaluate_execution] *)
Definition required {A} (x : option A) : result A :=
  match x with Some a => Ok a | None => Raise CoreInputError end.

(** The decisions, once every check has been computed.
    [core/execution.py:116-171 evaluate_execution] *)
Definition decide_execution (level : SideEffectLevel.t)
    (capability : CapabilityAuthorizationCheck.t) (auth : AuthorizationCheck.t)
    (scope : ScopeCheck.t) (budget : BudgetCheck.t)
    (approval : option ApprovalView.t) (requested_subject : string)
    : result ExecutionDecision.t :=
  let finish kind reason approval_id :=
    Ok (ExecutionDecision.mk kind reason auth.(AuthorizationCheck.authorization_source_id)
          scope.(ScopeCheck.matched_rule_ids) (Some budget.(BudgetCheck.budget_id)) level
          approval_id) in
  if negb capability.(CapabilityAuthorizationCheck.allowed_to_continue)
  then finish ExecutionDecisionKind.DENY
         capability.(CapabilityAuthorizationCheck.reason_code) None
  else if negb auth.(AuthorizationCheck.allowed_to_continue)
  then finish ExecutionDecisionKind.DENY auth.(AuthorizationCheck.reason_code) None
  else if bool_decide (scope.(ScopeCheck.decision) = ScopeDecision.DENY)
  then finish ExecutionDecisionKind.DENY scope.(ScopeCheck.reason_code) None
  else if negb budget.(BudgetCheck.allowed_to_continue)
  then finish ExecutionDecisionKind.DENY budget.(BudgetCheck.reason_code) None
  else if bool_decide (level = SideEffectLevel.LEVEL_3)
  then finish ExecutionDecisionKind.DENY ReasonCode.SIDE_EFFECT_LEVEL_DENIED None
  else if bool_decide (scope.(ScopeCheck.decision) = ScopeDecision.REQUIRE_HUMAN_REVIEW)
  then finish ExecutionDecisionKind.REQUIRE_HUMAN_REVIEW scope.(ScopeCheck.reason_code) None
  else if mem level [SideEffectLevel.LEVEL_0; SideEffectLevel.LEVEL_1]
  then finish ExecutionDecisionKind.ALLOW ReasonCode.ALLOWED None
  else
    approval ← check_approval approval requested_subject;
    let id := approval.(ApprovalCheck.approval_id) in
    if approval.(ApprovalCheck.require_human_review)
    then finish ExecutionDecisionKind.REQUIRE_HUMAN_REVIEW
           approval.(ApprovalCheck.reason_code) id
    else if negb approval.(ApprovalCheck.authorizes)
    then finish ExecutionDecisionKind.DENY approval.(ApprovalCheck.reason_code) id
    else finish ExecutionDecisionKind.ALLOW ReasonCode.ALLOWED id.

(** [core/execution.py:84-171 evaluate_execution] *)
Definition evaluate_execution (catalog : CapabilityRegistry.t) (request : ExecutionRequest.t)
    : result ExecutionDecision.t :=
  issued_budget ← required request.(ExecutionRequest.issued_budget);
  budget_usage ← required request.(ExecutionRequest.budget_usage);
  scope_input ← required request.(ExecutionRequest.scope);
  level ← parse_side_effect_level request.(ExecutionRequest.side_effect_level);
  _ ← require_opaque_id request.(ExecutionRequest.requested_subject);
  _ ← require_opaque_id request.(ExecutionRequest.requested_budget_id);
  let capability :=
    check_capability_authorization catalog request.(ExecutionRequest.capability) level in
  let auth := check_authorization request.(ExecutionRequest.authorization_source) in
  let scope := check_scope scope_input in
  budget ← check_budget issued_budget budget_usage request.(ExecutionRequest.requested_budget_id);
  decide_execution level capability auth scope budget request.(ExecutionRequest.approval)
    request.(ExecutionRequest.requested_subject).

(** ** The contract *)

Definition active_source (source : option AuthorizationSourceView.t) : Prop :=
  exists s, source = Some s
    /\ s.(AuthorizationSourceView.state) = AuthorizationSourceState.ACTIVE.

(** What every execution needs, reviewed or not: nothing here denies. *)
Record not_denied (catalog : CapabilityRegistry.t) (r : ExecutionRequest.t)
    (level : SideEffectLevel.t) : Prop := {
  nd_level : level <> SideEffectLevel.LEVEL_3;
  nd_capability : exists v, r.(ExecutionRequest.capability) = Some v
    /\ (covered_by_catalog catalog v level \/ covered_by_allowlist catalog v level);
  nd_source : active_source r.(ExecutionRequest.authorization_source);
  nd_scope : exists e, r.(ExecutionRequest.scope) = Some e
    /\ (check_scope e).(ScopeCheck.decision) <> ScopeDecision.DENY;
  nd_budget : exists b u, r.(ExecutionRequest.issued_budget) = Some b
    /\ r.(ExecutionRequest.budget_usage) = Some u
    /\ r.(ExecutionRequest.requested_budget_id) = b.(IssuedBudget.budget_id)
    /\ budget_exhausted b u = false }.

(** May this request run?  The scope must allow it outright, and side effects of level
    2 need the recorded approval of a human operator for this very subject. *)
Record may_execute (catalog : CapabilityRegistry.t) (r : ExecutionRequest.t)
    (level : SideEffectLevel.t) : Prop := {
  me_not_denied : not_denied catalog r level;
  me_scope : exists e, r.(ExecutionRequest.scope) = Some e /\ check_scope_allows e;
  me_approval : level = SideEffectLevel.LEVEL_2 ->
    approves r.(ExecutionRequest.approval) r.(ExecutionRequest.requested_subject) }.

(** The requests the code accepts to judge: everything else raises. *)
Definition well_formed (r : ExecutionRequest.t) (level : SideEffectLevel.t) : Prop :=
  (exists b u e, r.(ExecutionRequest.issued_budget) = Some b
     /\ r.(ExecutionRequest.budget_usage) = Some u /\ r.(ExecutionRequest.scope) = Some e)
  /\ parse_side_effect_level r.(ExecutionRequest.side_effect_level) = Ok level
  /\ Str.is_blank r.(ExecutionRequest.requested_subject) = false
  /\ Str.is_blank r.(ExecutionRequest.requested_budget_id) = false.

Lemma check_authorization_allowed source :
  (check_authorization source).(AuthorizationCheck.allowed_to_continue) = true
  <-> active_source source.
Proof.
  unfold check_authorization, active_source. destruct source as [s|]; [|naive_solver].
  case_match; bool_prop; naive_solver.
Qed.

Lemma check_budget_total b u id :
  Str.is_blank id = false -> exists c, check_budget b u id = Ok c.
Proof.
  intros Hb. unfold check_budget, require_opaque_id. rewrite Hb. simpl.
  repeat case_match; eauto.
Qed.

Section request.
Context (catalog : CapabilityRegistry.t) (r : ExecutionRequest.t) (level : SideEffectLevel.t).
Context (b : IssuedBudget.t) (u : BudgetUsage.t) (e : ScopeEvaluationInput.t).
Context (Hb : r.(ExecutionRequest.issued_budget) = Some b).
Context (Hu : r.(ExecutionRequest.budget_usage) = Some u).
Context (He : r.(ExecutionRequest.scope) = Some e).
Context (Hlevel : parse_side_effect_level r.(ExecutionRequest.side_effect_level) = Ok level).
Context (Hsub : Str.is_blank r.(ExecutionRequest.requested_subject) = false).
Context (Hid : Str.is_blank r.(ExecutionRequest.requested_budget_id) = false).

Lemma evaluate_reduces :
  exists budget, check_budget b u r.(ExecutionRequest.requested_budget_id) = Ok budget
  /\ evaluate_execution catalog r =
     decide_execution level
       (check_capability_authorization catalog r.(ExecutionRequest.capability) level)
       (check_authorization r.(ExecutionRequest.authorization_source)) (check_scope e) budget
       r.(ExecutionRequest.approval) r.(ExecutionRequest.requested_subject).
Proof using All.
  destruct (check_budget_total b u _ Hid) as [c Hc]. exists c. split; [done|].
  unfold evaluate_execution. rewrite Hb, Hu, He, Hlevel. simpl.
  unfold require_opaque_id at 1 2. rewrite Hsub, Hid. simpl. by rewrite Hc.
Qed.

(** The chain of [decide_execution], read as one case analysis. *)
Lemma evaluate_cases :
  exists d, evaluate_execution catalog r = Ok d
  /\ d.(ExecutionDecision.side_effect_level) = level
  /\ (d.(ExecutionDecision.decision) = ExecutionDecisionKind.ALLOW
      <-> may_execute catalog r level)
  /\ (d.(ExecutionDecision.decision) = ExecutionDecisionKind.REQUIRE_HUMAN_REVIEW
      <-> not_denied catalog r level
          /\ ((check_scope e).(ScopeCheck.decision) = ScopeDecision.REQUIRE_HUMAN_REVIEW
              \/ (level = SideEffectLevel.LEVEL_2 /\ r.(ExecutionRequest.approval) = None))).
Proof using All.
  destruct evaluate_reduces as (c & Hc & ->).
  pose proof (check_budget_allowed _ _ _ _ Hc) as Hba.
  pose proof (capability_check_allowed catalog r.(ExecutionRequest.capability) level) as Hcap.
  pose proof (check_authorization_allowed r.(ExecutionRequest.authorization_source)) as Hauth.
  pose proof (check_scope_allow e) as Hsc.
  destruct (check_approval_ok r.(ExecutionRequest.approval) _ Hsub) as [a Ha].
  destruct (check_approval_cases _ _ _ Ha) as (Hap & Hrev & _).
  assert (not_denied catalog r level <->
    level <> SideEffectLevel.LEVEL_3
    /\ (check_capability_authorization catalog r.(ExecutionRequest.capability) level)
         .(CapabilityAuthorizationCheck.allowed_to_continue) = true
    /\ (check_authorization r.(ExecutionRequest.authorization_source))
         .(AuthorizationCheck.allowed_to_continue) = true
    /\ (check_scope e).(ScopeCheck.decision) <> ScopeDecision.DENY
    /\ c.(BudgetCheck.allowed_to_continue) = true) as Hnd.
  { rewrite Hba, Hcap, Hauth. split; [intros []; naive_solver|]. intros (?&?&?&?&?).
    constructor; naive_solver. }
  assert (may_execute catalog r level <-> not_denied catalog r level
    /\ (check_scope e).(ScopeCheck.decision) = ScopeDecision.ALLOW
    /\ (level = SideEffectLevel.LEVEL_2 -> a.(ApprovalCheck.authorizes) = true)) as Hme.
  { rewrite Hsc, Hap. split; [intros []; naive_solver|].
    intros (?&?&?). constructor; naive_solver. }
  assert (a.(ApprovalCheck.authorizes) = true ->
    a.(ApprovalCheck.require_human_review) = true -> False) as Hxor.
  { rewrite Hap, Hrev. intros (? & -> & _) [=]. }
  rewrite Hnd in Hme. setoid_rewrite Hme. setoid_rewrite Hnd. setoid_rewrite <-Hrev.
  unfold decide_execution. rewrite Ha. simpl. clear -Hxor.
  destruct (CapabilityAuthorizationCheck.allowed_to_continue _),
    (AuthorizationCheck.allowed_to_continue _), (ScopeCheck.decision (check_scope e)),
    (BudgetCheck.allowed_to_continue c), level, (ApprovalCheck.require_human_review a) eqn:?,
    (ApprovalCheck.authorizes a) eqn:?; simpl;
    (eexists; split; [reflexivity|]; simpl; naive_solver).
Qed.
End request.

(** ** Properties *)

(** C1. [evaluate_execution] implements its contract on every well-formed request: it
    returns, ALLOW is answered exactly when [may_execute] holds, human review exactly when
    nothing denies and either the scope is under review or a level-2 request has no
    approval, and DENY in every other case; so DENY outranks review and level 3 never runs. *)
Theorem execution_refines_contract catalog r level e :
  well_formed r level -> r.(ExecutionRequest.scope) = Some e ->
  exists d, evaluate_execution catalog r = Ok d
  /\ d.(ExecutionDecision.side_effect_level) = level
  /\ (d.(ExecutionDecision.decision) = ExecutionDecisionKind.ALLOW
      <-> may_execute catalog r level)
  /\ (d.(ExecutionDecision.decision) = ExecutionDecisionKind.REQUIRE_HUMAN_REVIEW
      <-> not_denied catalog r level
          /\ ((check_scope e).(ScopeCheck.decision) = ScopeDecision.REQUIRE_HUMAN_REVIEW
              \/ (level = SideEffectLevel.LEVEL_2 /\ r.(ExecutionRequest.approval) = None))).
Proof.
  intros ((b & u & e' & Hb & Hu & He') & Hl & Hs & Hi) He.
  exact (evaluate_cases catalog r level b u e Hb Hu He Hl Hs Hi).
Qed.

Definition sample_request (approval : option ApprovalView.t) : ExecutionRequest.t :=
  ExecutionRequest.mk
    (Some (AuthorizationSourceView.mk "src" "prog" AuthorizationSourceState.ACTIVE))
    (Some (ScopeEvaluationInput.mk
       [ScopeRuleMatch.mk "r1" ScopeRuleEffect.ALLOW true "doc"] false))
    (Some (IssuedBudget.mk "b1" 10 10 1000 2)) (Some (BudgetUsage.mk 0 0 0 0)) "b1"
    (LevelInt 2) "exp-1"
    (Some (CapabilityAuthorizationView.mk "http.get" "fetch" "1" "5" 1 2)) approval.

Definition sample_approval : option ApprovalView.t :=
  Some (ApprovalView.mk "a1" "exp-1" ApprovalDecision.APPROVE "op" ActorType.HUMAN_OPERATOR true).

Lemma sample_request_well_formed a : well_formed (sample_request a) SideEffectLevel.LEVEL_2.
Proof. repeat split. by eexists _, _, _. Defined.

Lemma execution_refines_contract_witness :
  (exists d, evaluate_execution sample_registry (sample_request sample_approval) = Ok d
     /\ d.(ExecutionDecision.decision) = ExecutionDecisionKind.ALLOW)
  /\ may_execute sample_registry (sample_request sample_approval) SideEffectLevel.LEVEL_2.
Proof.
  destruct (execution_refines_contract sample_registry (sample_request sample_approval)
    SideEffectLevel.LEVEL_2 _ (sample_request_well_formed _) eq_refl)
    as (d & Hd & _ & Hallow & _).
  assert (d.(ExecutionDecision.decision) = ExecutionDecisionKind.ALLOW) as E.
  { vm_compute in Hd. injection Hd as <-. reflexivity. }
  split; [exists d; split; [exact Hd|exact E]|exact (proj1 Hallow E)].
Defined.

(** C26. The only failure is [CoreInputError], raised exactly for requests that are not
    well formed: a missing budget, usage or scope evaluation, a side-effect level outside
    0..3, or a blank subject or budget id.  Policy never turns into an exception. *)
Theorem execution_raises_iff_malformed catalog r :
  (forall e, evaluate_execution catalog r = Raise e ->
     e = CoreInputError /\ forall level, ~ well_formed r level)
  /\ ((exists level, well_formed r level) ->
      exists d, evaluate_execution catalog r = Ok d).
Proof.
  assert ((exists level, well_formed r level) ->
      exists d, evaluate_execution catalog r = Ok d) as Htot.
  { intros [level ((b & u & e & Hb & Hu & He) & Hl & Hs & Hi)].
    destruct (evaluate_cases catalog r level b u e Hb Hu He Hl Hs Hi) as (d & Hd & _). eauto. }
  split; [|done]. intros x Hx. split; [|intros level Hw; destruct Htot; [eauto|congruence]].
  destruct (Str.is_blank r.(ExecutionRequest.requested_budget_id)) eqn:Hi,
    (Str.is_blank r.(ExecutionRequest.requested_subject)) eqn:Hs,
    r.(ExecutionRequest.issued_budget) as [b|] eqn:Hb,
    r.(ExecutionRequest.budget_usage) as [u|] eqn:Hu,
    r.(ExecutionRequest.scope) as [e|] eqn:He,
    (parse_side_effect_level r.(ExecutionRequest.side_effect_level)) as [l|y] eqn:Hl.
  all: try (destruct Htot as [d Hd];
    [exists l; repeat split; [by eexists _, _, _|done..]|congruence]).
  all: unfold evaluate_execution, require_opaque_id in Hx;
    rewrite ?Hb, ?Hu, ?He, ?Hl, ?Hs, ?Hi in Hx; simpl in Hx; try congruence.
  all: unfold parse_side_effect_level in Hl; repeat case_match; congruence.
Qed.
