(* ===== verification/Records.v ===== *)
(** * Persisted records of the data layer

    The records of [data/records.py] that the budget ledger and the lease
    protocol read and write, with the validation their constructors run.
    Instants are [DateTime] microseconds, so "timezone-aware" holds by typing. *)
From S2P Require Import Prelude PyVal SafeData.

(** [data/records.py:370-373 require_opaque_id] *)
Definition data_opaque_id (value : string) : result string :=
  raise_if Str.is_blank value as PersistenceInputError;;
  Ok value.

(** [data/records.py:376-379 require_optional_opaque_id] *)
Definition data_optional_opaque_id (value : option string) : result (option string) :=
  match value with
  | None => Ok None
  | Some v => id ← data_opaque_id v; Ok (Some id)
  end.

(** [data/records.py:390-396 require_non_negative_int] *)
Definition data_non_negative_int (value : Z) : result Z :=
  raise_if value <? 0 as PersistenceInputError;;
  Ok value.

(** [data/records.py:398-406 _reject_secret_keys] *)
Definition data_reject_secret_keys (payload : list (string * pyval)) : result unit :=
  match reject_secret_keys (PDict payload) "payload" with
  | Ok _ => Ok tt
  | Raise SecretMaterialError => Raise PersistenceInputError
  | Raise e => Raise e
  end.

(** [data/records.py:409-414 _optional_mapping] *)
Definition data_optional_mapping (value : option (list (string * pyval)))
    : result (option (list (string * pyval))) :=
  match value with
  | None => Ok None
  | Some d => _ ← data_reject_secret_keys d; Ok (Some d)
  end.

(** [not isinstance(v, str) or not v.strip()] for a value that may be [None]. *)
Definition blank_when_set (value : option string) : bool :=
  match value with None => false | Some v => Str.is_blank v end.

(** [data/records.py:2252-2263 ALLOWED_ORCHESTRATION_STATES] *)
Definition ALLOWED_ORCHESTRATION_STATES : list string :=
  [ "READY"; "RUNNING"; "PAUSED"; "WAITING_HUMAN"; "BLOCKED"; "BUDGET_EXHAUSTED";
    "COMPLETED"; "FAILED_OPERATIONAL" ].

(** [data/records.py:2267-2273 TERMINAL_ORCHESTRATION_STATES] *)
Definition TERMINAL_ORCHESTRATION_STATES : list string :=
  [ "COMPLETED"; "BUDGET_EXHAUSTED"; "FAILED_OPERATIONAL" ].

(** [data/records.py:2274-2289 ALLOWED_ORCHESTRATION_PHASES] *)
Definition ALLOWED_ORCHESTRATION_PHASES : list string :=
  [ "CYCLE_READY"; "OPPORTUNITY_SELECTED"; "HYPOTHESIS_ADMITTED"; "EXPERIMENT_PLANNED";
    "AUTHORIZATION_REQUESTED"; "ATTEMPT_AUTHORIZED"; "DISPATCHING";
    "WORKER_RESULT_RECORDED"; "TRANSITION_A_COMPLETE"; "ASSESSMENT_COMPLETE";
    "TRANSITION_B_COMPLETE"; "CYCLE_COMPLETE" ].

(** [data/records.py:2299-2311 ALLOWED_BUDGET_RESOURCE_TYPES] *)
Definition ALLOWED_BUDGET_RESOURCE_TYPES : list string :=
  [ "MODEL_CALL"; "MODEL_TOKENS_IN"; "MODEL_TOKENS_OUT"; "MODEL_ESCALATION_DECISION";
    "WORKER_INVOCATION"; "REQUEST"; "EXECUTION_TIME"; "ARTIFACT_BYTES"; "COST" ].

(** [data/records.py:2312-2318 ALLOWED_BUDGET_UNITS] *)
Definition ALLOWED_BUDGET_UNITS : list string := [ "count"; "milliseconds"; "bytes" ].

(** The resources counted in units.  [data/records.py:2586-2587 BudgetConsumptionRecord] *)
Definition COUNT_RESOURCES : list string :=
  [ "REQUEST"; "MODEL_CALL"; "WORKER_INVOCATION"; "MODEL_TOKENS_IN"; "MODEL_TOKENS_OUT";
    "MODEL_ESCALATION_DECISION" ].

(** [data/records.py:747-765 IssuedBudgetRecord] *)
Module IssuedBudgetRecord.
Record t : Set := mk {
  budget_id : string;
  research_run_id : option string;
  max_requests : Z;
  max_tool_calls : Z;
  max_runtime_ms : Z;
  max_concurrency : Z;
  issued_at : Z }.

Definition post_init (x : t) : result t :=
  _ ← data_opaque_id x.(budget_id);
  _ ← data_optional_opaque_id x.(research_run_id);
  _ ← data_non_negative_int x.(max_requests);
  _ ← data_non_negative_int x.(max_tool_calls);
  _ ← data_non_negative_int x.(max_runtime_ms);
  _ ← data_non_negative_int x.(max_concurrency);
  Ok x.

#[global] Instance post_init_validator : Validator post_init.
Proof. solve_validator. Qed.
End IssuedBudgetRecord.

(** [data/records.py:2557-2595 BudgetConsumptionRecord] *)
Module BudgetConsumptionRecord.
Record t : Type := mk {
  consumption_id : string;
  budget_id : string;
  research_run_id : option string;
  resource_type : string;
  amount : Z;
  unit : string;
  occurred_at : Z;
  provenance : string;
  experiment_id : option string;
  request_id : option string;
  resource_metadata : option (list (string * pyval)) }.

Definition post_init (x : t) : result t :=
  _ ← data_opaque_id x.(consumption_id);
  _ ← data_opaque_id x.(budget_id);
  _ ← data_optional_opaque_id x.(research_run_id);
  raise_if negb (mem x.(resource_type) ALLOWED_BUDGET_RESOURCE_TYPES) as PersistenceInputError;;
  raise_if negb (mem x.(unit) ALLOWED_BUDGET_UNITS) as PersistenceInputError;;
  raise_if x.(amount) <=? 0 as PersistenceInputError;;
  raise_if Str.is_blank x.(provenance) as PersistenceInputError;;
  _ ← data_optional_opaque_id x.(experiment_id);
  _ ← data_optional_opaque_id x.(request_id);
  _ ← data_optional_mapping x.(resource_metadata);
  raise_if mem x.(resource_type) COUNT_RESOURCES && negb (x.(unit) =? "count")%string
  as PersistenceInputError;;
  raise_if (x.(resource_type) =? "EXECUTION_TIME")%string
           && negb (x.(unit) =? "milliseconds")%string
  as PersistenceInputError;;
  raise_if (x.(resource_type) =? "ARTIFACT_BYTES")%string && negb (x.(unit) =? "bytes")%string
  as PersistenceInputError;;
  raise_if (x.(resource_type) =? "COST")%string as PersistenceInputError;;
  Ok x.

#[global] Instance post_init_validator : Validator post_init.
Proof. solve_validator. Qed.
End BudgetConsumptionRecord.

(** [data/records.py:2325-2427 ResearchOrchestrationRecord] *)
Module ResearchOrchestrationRecord.
Record t : Set := mk {
  research_run_id : string;
  state : string;
  cycle_number : Z;
  last_phase : string;
  policy_version : string;
  max_cycles : Z;
  max_experiments : Z;
  max_model_calls : Z;
  max_worker_invocations : Z;
  max_elapsed_ms : Z;
  max_selected_opportunities : Z;
  max_runtime_fallback : Z;
  side_effect_ceiling : Z;
  allow_repeated_control_experiments : bool;
  created_at : Z;
  updated_at : Z;
  checkpoint_at : Z;
  budget_id : string;
  target_reference : string;
  research_question : string;
  configuration_fingerprint : string;
  current_phase : string;
  last_opportunity_id : option string;
  last_hypothesis_id : option string;
  last_experiment_id : option string;
  pause_reason : option string;
  stop_reason : option string;
  active_cycle_id : option string;
  last_attempt_id : option string;
  last_observation_id : option string;
  last_assessment_id : option string;
  last_worker_result_id : option string;
  routing_policy_version : option string;
  scope_fingerprint : option string;
  owner_runtime_instance_id : option string;
  lease_epoch : Z;
  lease_expires_at : option Z }.

Definition post_init (x : t) : result t :=
  _ ← data_opaque_id x.(research_run_id);
  _ ← data_opaque_id x.(budget_id);
  raise_if negb (mem x.(state) ALLOWED_ORCHESTRATION_STATES) as PersistenceInputError;;
  _ ← data_non_negative_int x.(lease_epoch);
  _ ← data_non_negative_int x.(cycle_number);
  _ ← data_non_negative_int x.(max_cycles);
  _ ← data_non_negative_int x.(max_experiments);
  _ ← data_non_negative_int x.(max_model_calls);
  _ ← data_non_negative_int x.(max_worker_invocations);
  _ ← data_non_negative_int x.(max_elapsed_ms);
  _ ← data_non_negative_int x.(max_selected_opportunities);
  _ ← data_non_negative_int x.(max_runtime_fallback);
  raise_if negb (mem x.(side_effect_ceiling) [0; 1; 2; 3]) as PersistenceInputError;;
  raise_if Str.is_blank x.(last_phase) as PersistenceInputError;;
  raise_if negb (mem x.(current_phase) ALLOWED_ORCHESTRATION_PHASES) as PersistenceInputError;;
  raise_if Str.is_blank x.(policy_version) as PersistenceInputError;;
  raise_if Str.is_blank x.(target_reference) as PersistenceInputError;;
  raise_if Str.is_blank x.(research_question) as PersistenceInputError;;
  raise_if negb (String.length x.(configuration_fingerprint) =? 64)%nat
  as PersistenceInputError;;
  _ ← data_optional_opaque_id x.(last_opportunity_id);
  _ ← data_optional_opaque_id x.(last_hypothesis_id);
  _ ← data_optional_opaque_id x.(last_experiment_id);
  _ ← data_optional_opaque_id x.(active_cycle_id);
  _ ← data_optional_opaque_id x.(last_attempt_id);
  _ ← data_optional_opaque_id x.(last_observation_id);
  _ ← data_optional_opaque_id x.(last_assessment_id);
  _ ← data_optional_opaque_id x.(last_worker_result_id);
  raise_if blank_when_set x.(pause_reason) as PersistenceInputError;;
  raise_if blank_when_set x.(stop_reason) as PersistenceInputError;;
  raise_if blank_when_set x.(routing_policy_version) as PersistenceInputError;;
  raise_if match x.(scope_fingerprint) with
           | None => false
           | Some f => negb (String.length f =? 64)%nat
           end
  as PersistenceInputError;;
  Ok x.

#[global] Instance post_init_validator : Validator post_init.
Proof. solve_validator. Qed.

(** An [UPDATE] of the lease columns and [updated_at]. *)
Definition set_lease (x : t) (owner : option string) (epoch : Z) (expires : option Z)
    (updated : Z) : t :=
  mk x.(research_run_id) x.(state) x.(cycle_number) x.(last_phase) x.(policy_version)
    x.(max_cycles) x.(max_experiments) x.(max_model_calls) x.(max_worker_invocations)
    x.(max_elapsed_ms) x.(max_selected_opportunities) x.(max_runtime_fallback)
    x.(side_effect_ceiling) x.(allow_repeated_control_experiments) x.(created_at) updated
    x.(checkpoint_at) x.(budget_id) x.(target_reference) x.(research_question)
    x.(configuration_fingerprint) x.(current_phase) x.(last_opportunity_id)
    x.(last_hypothesis_id) x.(last_experiment_id) x.(pause_reason) x.(stop_reason)
    x.(active_cycle_id) x.(last_attempt_id) x.(last_observation_id) x.(last_assessment_id)
    x.(last_worker_result_id) x.(routing_policy_version) x.(scope_fingerprint) owner epoch
    expires.

#[global] Instance eq_dec : EqDecision t.
Proof. solve_decision. Defined.
End ResearchOrchestrationRecord.

(** [record.state in TERMINAL_ORCHESTRATION_STATES] *)
Definition is_terminal_state (state : string) : bool := mem state TERMINAL_ORCHESTRATION_STATES.

(** A PostgreSQL [integer] column holds 32 bits; a value outside them is refused
    by the server, which the repositories report as [PersistenceError]. *)
Definition is_int4 (z : Z) : bool := (- 2147483648 <=? z) && (z <=? 2147483647).

Lemma data_opaque_id_ok v w : data_opaque_id v = Ok w <-> w = v /\ Str.is_blank v = false.
Proof. unfold data_opaque_id. destruct (Str.is_blank v); naive_solver. Qed.

(** [data/records.py:769-788 HypothesisRecord] *)
Module HypothesisRecord.
Record t : Set := mk {
  hypothesis_id : string;
  research_run_id : string;
  claim : string;
  created_at : Z;
  origin_reference : option string;
  identity_id : option string }.

Definition post_init (x : t) : result t :=
  _ ← data_opaque_id x.(hypothesis_id);
  _ ← data_opaque_id x.(research_run_id);
  raise_if Str.is_blank x.(claim) as PersistenceInputError;;
  _ ← data_optional_opaque_id x.(origin_reference);
  _ ← data_optional_opaque_id x.(identity_id);
  Ok x.

#[global] Instance post_init_validator : Validator post_init.
Proof. solve_validator. Qed.
End HypothesisRecord.
