(* ===== verification/Orchestration.v ===== *)
(** * Bounded orchestration: policy and configuration

    [research/orchestration.py] and [application/orchestration_config.py]: the hard limits
    of an autonomous run, the choice of the next cycle, the stop mapping, and the
    configuration whose fingerprint guards the limits of a persisted run. *)
From S2P Require Import Prelude PyVal CoreTypes Scope Records.
From Stdlib Require Import QArith.
#[local] Open Scope Z_scope.

(** [research/orchestration.py:30-40 OrchestrationState] *)
Module OrchestrationState.
Inductive t : Set :=
  | READY | RUNNING | PAUSED | WAITING_HUMAN | BLOCKED | BUDGET_EXHAUSTED | COMPLETED
  | FAILED_OPERATIONAL.
#[global] Instance eq_dec : EqDecision t.
Proof. solve_decision. Defined.
Definition value (x : t) : string :=
  match x with
  | READY => "READY" | RUNNING => "RUNNING" | PAUSED => "PAUSED"
  | WAITING_HUMAN => "WAITING_HUMAN" | BLOCKED => "BLOCKED"
  | BUDGET_EXHAUSTED => "BUDGET_EXHAUSTED" | COMPLETED => "COMPLETED"
  | FAILED_OPERATIONAL => "FAILED_OPERATIONAL"
  end.
End OrchestrationState.

(** [research/orchestration.py:43-59 StopReason] *)
Module StopReason.
Inductive t : Set :=
  | COMPLETED_NO_MORE_OPPORTUNITIES | BUDGET_EXHAUSTED | MAX_CYCLES_REACHED
  | MAX_DURATION_REACHED | REQUIRE_HUMAN_REVIEW | NO_COMPATIBLE_RUNTIME | CORE_BLOCKED
  | OPERATOR_PAUSED | OPERATOR_CANCELLED | OPERATIONAL_FAILURE | CONTENT_POLICY_BLOCKED
  | AUTH_REQUIRED | RATE_LIMITED | CANCELLED.
#[global] Instance eq_dec : EqDecision t.
Proof. solve_decision. Defined.
Definition value (x : t) : string :=
  match x with
  | COMPLETED_NO_MORE_OPPORTUNITIES => "COMPLETED_NO_MORE_OPPORTUNITIES"
  | BUDGET_EXHAUSTED => "BUDGET_EXHAUSTED" | MAX_CYCLES_REACHED => "MAX_CYCLES_REACHED"
  | MAX_DURATION_REACHED => "MAX_DURATION_REACHED"
  | REQUIRE_HUMAN_REVIEW => "REQUIRE_HUMAN_REVIEW"
  | NO_COMPATIBLE_RUNTIME => "NO_COMPATIBLE_RUNTIME" | CORE_BLOCKED => "CORE_BLOCKED"
  | OPERATOR_PAUSED => "OPERATOR_PAUSED" | OPERATOR_CANCELLED => "OPERATOR_CANCELLED"
  | OPERATIONAL_FAILURE => "OPERATIONAL_FAILURE"
  | CONTENT_POLICY_BLOCKED => "CONTENT_POLICY_BLOCKED" | AUTH_REQUIRED => "AUTH_REQUIRED"
  | RATE_LIMITED => "RATE_LIMITED" | CANCELLED => "CANCELLED"
  end.
End StopReason.

(** [research/orchestration.py:62-76 OrchestrationPhase] *)
Module OrchestrationPhase.
Inductive t : Set :=
  | CYCLE_READY | OPPORTUNITY_SELECTED | HYPOTHESIS_ADMITTED | EXPERIMENT_PLANNED
  | AUTHORIZATION_REQUESTED | ATTEMPT_AUTHORIZED | DISPATCHING | WORKER_RESULT_RECORDED
  | TRANSITION_A_COMPLETE | ASSESSMENT_COMPLETE | TRANSITION_B_COMPLETE | CYCLE_COMPLETE.
#[global] Instance eq_dec : EqDecision t.
Proof. solve_decision. Defined.
Definition value (x : t) : string :=
  match x with
  | CYCLE_READY => "CYCLE_READY" | OPPORTUNITY_SELECTED => "OPPORTUNITY_SELECTED"
  | HYPOTHESIS_ADMITTED => "HYPOTHESIS_ADMITTED" | EXPERIMENT_PLANNED => "EXPERIMENT_PLANNED"
  | AUTHORIZATION_REQUESTED => "AUTHORIZATION_REQUESTED"
  | ATTEMPT_AUTHORIZED => "ATTEMPT_AUTHORIZED" | DISPATCHING => "DISPATCHING"
  | WORKER_RESULT_RECORDED => "WORKER_RESULT_RECORDED"
  | TRANSITION_A_COMPLETE => "TRANSITION_A_COMPLETE"
  | ASSESSMENT_COMPLETE => "ASSESSMENT_COMPLETE"
  | TRANSITION_B_COMPLETE => "TRANSITION_B_COMPLETE" | CYCLE_COMPLETE => "CYCLE_COMPLETE"
  end.
End OrchestrationPhase.

(** [research/orchestration.py:82-89 CycleOutcome] *)
Module CycleOutcome.
Inductive t : Set :=
  | CONTINUE | PAUSE | COMPLETE | BLOCKED | REQUIRE_HUMAN_REVIEW.
#[global] Instance eq_dec : EqDecision t.
Proof. solve_decision. Defined.
Definition value (x : t) : string :=
  match x with
  | CONTINUE => "CONTINUE" | PAUSE => "PAUSE" | COMPLETE => "COMPLETE" | BLOCKED => "BLOCKED"
  | REQUIRE_HUMAN_REVIEW => "REQUIRE_HUMAN_REVIEW"
  end.
End CycleOutcome.

(** [research/orchestration.py:92-97 NextCycleAction] *)
Module NextCycleAction.
Inductive t : Set :=
  | STOP | BOOTSTRAP_DIAGNOSTIC | USE_SELECTED_OPPORTUNITY.
#[global] Instance eq_dec : EqDecision t.
Proof. solve_decision. Defined.
End NextCycleAction.

(** [research/orchestration.py:100-103 _require_non_negative] *)
Definition orch_non_negative (value : Z) : result Z :=
  raise_if value <? 0 as ResearchInputError;;
  Ok value.

(** [research/orchestration.py:112-136 OrchestrationBounds] *)
Module OrchestrationBounds.
Record t : Set := mk {
  max_cycles : Z;
  max_experiments : Z;
  max_model_calls : Z;
  max_worker_invocations : Z;
  max_elapsed_ms : Z;
  max_selected_opportunities : Z;
  max_runtime_fallback : Z;
  side_effect_ceiling : Z;
  allow_repeated_control_experiments : bool }.

Definition post_init (x : t) : result t :=
  _ ← orch_non_negative x.(max_cycles);
  _ ← orch_non_negative x.(max_experiments);
  _ ← orch_non_negative x.(max_model_calls);
  _ ← orch_non_negative x.(max_worker_invocations);
  _ ← orch_non_negative x.(max_elapsed_ms);
  _ ← orch_non_negative x.(max_selected_opportunities);
  _ ← orch_non_negative x.(max_runtime_fallback);
  raise_if negb (mem x.(side_effect_ceiling) [0; 1; 2; 3]) as ResearchInputError;;
  Ok x.

#[global] Instance eq_dec : EqDecision t.
Proof. solve_decision. Defined.

#[global] Instance post_init_validator : Validator post_init.
Proof. solve_validator. Qed.
End OrchestrationBounds.

(** [research/orchestration.py:139-162 OrchestrationUsage] *)
Module OrchestrationUsage.
Record t : Set := mk {
  cycles_completed : Z;
  experiments_executed : Z;
  model_calls : Z;
  worker_invocations : Z;
  elapsed_ms : Z;
  opportunities_selected : Z;
  runtime_fallbacks : Z;
  worker_requests : Z;
  execution_time_ms : Z;
  artifact_bytes : Z }.

Definition post_init (x : t) : result t :=
  _ ← orch_non_negative x.(cycles_completed);
  _ ← orch_non_negative x.(experiments_executed);
  _ ← orch_non_negative x.(model_calls);
  _ ← orch_non_negative x.(worker_invocations);
  _ ← orch_non_negative x.(elapsed_ms);
  _ ← orch_non_negative x.(opportunities_selected);
  _ ← orch_non_negative x.(runtime_fallbacks);
  _ ← orch_non_negative x.(worker_requests);
  _ ← orch_non_negative x.(execution_time_ms);
  _ ← orch_non_negative x.(artifact_bytes);
  Ok x.
End OrchestrationUsage.

(** [research/orchestration.py:165-169 BoundCheck] *)
Module BoundCheck.
Record t : Set := mk { allowed : bool; stop_reason : option StopReason.t; reason : string }.
End BoundCheck.

(** [research/orchestration.py:172-194 check_orchestration_bounds] *)
Definition check_orchestration_bounds (bounds : OrchestrationBounds.t)
    (usage : OrchestrationUsage.t) : BoundCheck.t :=
  if bounds.(OrchestrationBounds.max_cycles) <=? usage.(OrchestrationUsage.cycles_completed)
  then BoundCheck.mk false (Some StopReason.MAX_CYCLES_REACHED) "max_cycles reached"
  else if bounds.(OrchestrationBounds.max_elapsed_ms) <=? usage.(OrchestrationUsage.elapsed_ms)
  then BoundCheck.mk false (Some StopReason.MAX_DURATION_REACHED) "max_elapsed_ms reached"
  else if bounds.(OrchestrationBounds.max_experiments)
          <=? usage.(OrchestrationUsage.experiments_executed)
  then BoundCheck.mk false (Some StopReason.BUDGET_EXHAUSTED) "max_experiments reached"
  else if bounds.(OrchestrationBounds.max_model_calls) <=? usage.(OrchestrationUsage.model_calls)
  then BoundCheck.mk false (Some StopReason.BUDGET_EXHAUSTED) "max_model_calls reached"
  else if bounds.(OrchestrationBounds.max_worker_invocations)
          <=? usage.(OrchestrationUsage.worker_invocations)
  then BoundCheck.mk false (Some StopReason.BUDGET_EXHAUSTED) "max_worker_invocations reached"
  else if bounds.(OrchestrationBounds.max_runtime_fallback)
          <? usage.(OrchestrationUsage.runtime_fallbacks)
  then BoundCheck.mk false (Some StopReason.NO_COMPATIBLE_RUNTIME) "runtime fallback exhausted"
  else BoundCheck.mk true None "within bounds".

(** [research/orchestration.py:197-220 next_cycle_action] *)
Definition next_cycle_action (bounds : OrchestrationBounds.t) (usage : OrchestrationUsage.t)
    (selected_count hypothesis_count : Z) (unknown_outcome_open : bool)
    : NextCycleAction.t * option StopReason.t :=
  if unknown_outcome_open then (NextCycleAction.STOP, Some StopReason.OPERATIONAL_FAILURE)
  else
    let bound := check_orchestration_bounds bounds usage in
    if negb bound.(BoundCheck.allowed)
    then (NextCycleAction.STOP, bound.(BoundCheck.stop_reason))
    else if 0 <? selected_count
    then
      if bounds.(OrchestrationBounds.max_selected_opportunities) <? selected_count
      then (NextCycleAction.STOP, Some StopReason.BUDGET_EXHAUSTED)
      else (NextCycleAction.USE_SELECTED_OPPORTUNITY, None)
    else if hypothesis_count =? 0 then (NextCycleAction.BOOTSTRAP_DIAGNOSTIC, None)
    else if bounds.(OrchestrationBounds.allow_repeated_control_experiments)
    then (NextCycleAction.BOOTSTRAP_DIAGNOSTIC, None)
    else (NextCycleAction.STOP, Some StopReason.COMPLETED_NO_MORE_OPPORTUNITIES).

(** [research/orchestration.py:223-239 cycle_outcome_for_stop] *)
Definition cycle_outcome_for_stop (reason : StopReason.t) : CycleOutcome.t :=
  match reason with
  | StopReason.REQUIRE_HUMAN_REVIEW => CycleOutcome.REQUIRE_HUMAN_REVIEW
  | StopReason.OPERATOR_PAUSED => CycleOutcome.PAUSE
  | StopReason.CANCELLED => CycleOutcome.COMPLETE
  | StopReason.CORE_BLOCKED | StopReason.NO_COMPATIBLE_RUNTIME
  | StopReason.CONTENT_POLICY_BLOCKED | StopReason.OPERATIONAL_FAILURE
  | StopReason.AUTH_REQUIRED | StopReason.RATE_LIMITED => CycleOutcome.BLOCKED
  | _ => CycleOutcome.COMPLETE
  end.

(** [research/orchestration.py:242-261 orchestration_state_for_stop] *)
Definition orchestration_state_for_stop (reason : StopReason.t) : OrchestrationState.t :=
  match reason with
  | StopReason.BUDGET_EXHAUSTED => OrchestrationState.BUDGET_EXHAUSTED
  | StopReason.REQUIRE_HUMAN_REVIEW => OrchestrationState.WAITING_HUMAN
  | StopReason.OPERATOR_PAUSED => OrchestrationState.PAUSED
  | StopReason.OPERATIONAL_FAILURE => OrchestrationState.FAILED_OPERATIONAL
  | StopReason.CANCELLED => OrchestrationState.COMPLETED
  | StopReason.CORE_BLOCKED | StopReason.NO_COMPATIBLE_RUNTIME
  | StopReason.CONTENT_POLICY_BLOCKED | StopReason.AUTH_REQUIRED
  | StopReason.RATE_LIMITED => OrchestrationState.BLOCKED
  | _ => OrchestrationState.COMPLETED
  end.

(** ** Configuration *)

(** [research/orchestration.py:264-281 IMMUTABLE_ORCHESTRATION_CONFIG_KEYS] *)
Definition IMMUTABLE_ORCHESTRATION_CONFIG_KEYS : list string :=
  [ "research_run_id"; "budget_id"; "target_reference"; "research_question"; "policy_version";
    "routing_policy_version"; "scope_fingerprint"; "max_cycles"; "max_experiments";
    "max_model_calls"; "max_worker_invocations"; "max_elapsed_ms";
    "max_selected_opportunities"; "max_runtime_fallback"; "side_effect_ceiling";
    "allow_repeated_control_experiments" ].

(** [research/orchestration.py:284-293 canonical_orchestration_config] *)
Definition canonical_orchestration_config (payload : list (string * pyval))
    : result (list (string * pyval)) :=
  traverse (fun key =>
      match dict_find key payload with
      | Some v => Ok (key, v)
      | None => Raise ResearchInputError
      end) IMMUTABLE_ORCHESTRATION_CONFIG_KEYS.

(** [int(s)]: optional sign and decimal digits, single underscores between digits. *)
Fixpoint digits_of (acc : Z) (after_digit : bool) (s : string) : option Z :=
  match s with
  | EmptyString => if after_digit then Some acc else None
  | String c s' =>
      let n := Z.of_nat (Str.code c) in
      if (48 <=? n) && (n <=? 57) then digits_of (10 * acc + (n - 48)) true s'
      else if (n =? 95) && after_digit then digits_of acc false s'
      else None
  end.

Definition int_of_string (s : string) : option Z :=
  match Str.strip s with
  | String "-" s' => Z.opp <$> digits_of 0 false s'
  | String "+" s' => digits_of 0 false s'
  | s' => digits_of 0 false s'
  end.

(** [int(v)] *)
Definition py_int (v : pyval) : result Z :=
  match v with
  | PInt z => Ok z
  | PBool b => Ok (if b then 1 else 0)
  | PFloat q => Ok (Z.quot (Qnum q) (Z.pos (Qden q)))
  | PStr s => match int_of_string s with Some z => Ok z | None => Raise ValueError end
  | _ => Raise TypeError
  end.

(** [research/orchestration.py:302-316 bounds_from_config] *)
Definition bounds_from_config (payload : list (string * pyval)) : result OrchestrationBounds.t :=
  canonical ← canonical_orchestration_config payload;
  let get key := dict_get key canonical in
  a ← py_int (get "max_cycles");
  b ← py_int (get "max_experiments");
  c ← py_int (get "max_model_calls");
  d ← py_int (get "max_worker_invocations");
  e ← py_int (get "max_elapsed_ms");
  f ← py_int (get "max_selected_opportunities");
  g ← py_int (get "max_runtime_fallback");
  h ← py_int (get "side_effect_ceiling");
  OrchestrationBounds.post_init
    (OrchestrationBounds.mk a b c d e f g h
       (truthy (get "allow_repeated_control_experiments"))).

(** A string that may be [None], as a JSON value. *)
Definition pstr_opt (s : option string) : pyval :=
  match s with Some s => PStr s | None => PNone end.

(** [application/orchestration_config.py:40-50 EffectiveOrchestrationConfiguration] *)
Module EffectiveOrchestrationConfiguration.
Record t : Set := mk {
  research_run_id : string;
  budget_id : string;
  target_reference : string;
  research_question : string;
  policy_version : string;
  routing_policy_version : option string;
  scope_fingerprint : option string;
  bounds : OrchestrationBounds.t;
  fingerprint : string }.
End EffectiveOrchestrationConfiguration.

(** The payload the three functions below build, in the same key order.
    [application/orchestration_config.py:86-105 fingerprint_for_start] *)
Definition config_dict (research_run_id budget_id target_reference research_question
    policy_version : string) (routing_policy_version scope_fp : option string)
    (b : OrchestrationBounds.t) : list (string * pyval) :=
  [ ("research_run_id", PStr research_run_id); ("budget_id", PStr budget_id);
    ("target_reference", PStr target_reference); ("research_question", PStr research_question);
    ("policy_version", PStr policy_version);
    ("routing_policy_version", pstr_opt routing_policy_version);
    ("scope_fingerprint", pstr_opt scope_fp);
    ("max_cycles", PInt b.(OrchestrationBounds.max_cycles));
    ("max_experiments", PInt b.(OrchestrationBounds.max_experiments));
    ("max_model_calls", PInt b.(OrchestrationBounds.max_model_calls));
    ("max_worker_invocations", PInt b.(OrchestrationBounds.max_worker_invocations));
    ("max_elapsed_ms", PInt b.(OrchestrationBounds.max_elapsed_ms));
    ("max_selected_opportunities", PInt b.(OrchestrationBounds.max_selected_opportunities));
    ("max_runtime_fallback", PInt b.(OrchestrationBounds.max_runtime_fallback));
    ("side_effect_ceiling", PInt b.(OrchestrationBounds.side_effect_ceiling));
    ("allow_repeated_control_experiments",
     PBool b.(OrchestrationBounds.allow_repeated_control_experiments)) ].

(** [application/orchestration_config.py:52-72 EffectiveOrchestrationConfiguration.config_payload] *)
Definition config_payload (c : EffectiveOrchestrationConfiguration.t) : list (string * pyval) :=
  config_dict c.(EffectiveOrchestrationConfiguration.research_run_id)
    c.(EffectiveOrchestrationConfiguration.budget_id)
    c.(EffectiveOrchestrationConfiguration.target_reference)
    c.(EffectiveOrchestrationConfiguration.research_question)
    c.(EffectiveOrchestrationConfiguration.policy_version)
    c.(EffectiveOrchestrationConfiguration.routing_policy_version)
    c.(EffectiveOrchestrationConfiguration.scope_fingerprint)
    c.(EffectiveOrchestrationConfiguration.bounds).

(** The bounds columns of a row. *)
Definition record_bounds (r : ResearchOrchestrationRecord.t) : OrchestrationBounds.t :=
  OrchestrationBounds.mk r.(ResearchOrchestrationRecord.max_cycles)
    r.(ResearchOrchestrationRecord.max_experiments)
    r.(ResearchOrchestrationRecord.max_model_calls)
    r.(ResearchOrchestrationRecord.max_worker_invocations)
    r.(ResearchOrchestrationRecord.max_elapsed_ms)
    r.(ResearchOrchestrationRecord.max_selected_opportunities)
    r.(ResearchOrchestrationRecord.max_runtime_fallback)
    r.(ResearchOrchestrationRecord.side_effect_ceiling)
    r.(ResearchOrchestrationRecord.allow_repeated_control_experiments).

(** [application/orchestration_config.py:111-128 configuration_from_record] *)
Definition record_payload (r : ResearchOrchestrationRecord.t) : list (string * pyval) :=
  config_dict r.(ResearchOrchestrationRecord.research_run_id)
    r.(ResearchOrchestrationRecord.budget_id) r.(ResearchOrchestrationRecord.target_reference)
    r.(ResearchOrchestrationRecord.research_question)
    r.(ResearchOrchestrationRecord.policy_version)
    r.(ResearchOrchestrationRecord.routing_policy_version)
    r.(ResearchOrchestrationRecord.scope_fingerprint) (record_bounds r).

Section config.
(** [sha256(json.dumps(payload, sort_keys=True, ...)).hexdigest()] *)
Context (sha256_json : pyval -> string).

(** [research/orchestration.py:296-299 orchestration_config_fingerprint] *)
Definition orchestration_config_fingerprint (payload : list (string * pyval)) : result string :=
  canonical ← canonical_orchestration_config payload;
  Ok (sha256_json (PDict canonical)).

(** [application/orchestration_config.py:75-105 fingerprint_for_start] *)
Definition fingerprint_for_start (research_run_id budget_id target_reference research_question
    policy_version : string) (bounds : OrchestrationBounds.t)
    (routing_policy_version scope_fp : option string) : result string :=
  orchestration_config_fingerprint
    (config_dict research_run_id budget_id target_reference research_question policy_version
       routing_policy_version scope_fp bounds).

(** [application/orchestration_config.py:108-144 configuration_from_record] *)
Definition configuration_from_record (record : ResearchOrchestrationRecord.t)
    : result EffectiveOrchestrationConfiguration.t :=
  let payload := record_payload record in
  expected ← orchestration_config_fingerprint payload;
  raise_if negb (expected =? record.(ResearchOrchestrationRecord.configuration_fingerprint))%string
  as OrchestrationIntegrityError;;
  bounds ← bounds_from_config payload;
  Ok (EffectiveOrchestrationConfiguration.mk record.(ResearchOrchestrationRecord.research_run_id)
        record.(ResearchOrchestrationRecord.budget_id)
        record.(ResearchOrchestrationRecord.target_reference)
        record.(ResearchOrchestrationRecord.research_question)
        record.(ResearchOrchestrationRecord.policy_version)
        record.(ResearchOrchestrationRecord.routing_policy_version)
        record.(ResearchOrchestrationRecord.scope_fingerprint) bounds expected).

(** [application/orchestration_config.py:23-37 scope_fingerprint] *)
Definition scope_fingerprint (scope : ScopeEvaluationInput.t) : string :=
  sha256_json (PDict
    [ ("ambiguous", PBool scope.(ScopeEvaluationInput.ambiguous));
      ("matches", PList ((fun item =>
          PDict [ ("effect", PStr (ScopeRuleEffect.value item.(ScopeRuleMatch.effect)));
                  ("matched", PBool item.(ScopeRuleMatch.matched));
                  ("rule_id", PStr item.(ScopeRuleMatch.rule_id));
                  ("source_reference", PStr item.(ScopeRuleMatch.source_reference)) ])
        <$> scope.(ScopeEvaluationInput.matches))) ]).

(** [x is not None and x != y] *)
Definition given_and_different `{EqDecision A} (x : option A) (y : A) : bool :=
  match x with None => false | Some x => negb (bool_decide (x = y)) end.

(** [application/orchestration_config.py:147-173 assert_command_matches_configuration] *)
Definition assert_command_matches_configuration (config : EffectiveOrchestrationConfiguration.t)
    (bounds : option OrchestrationBounds.t) (budget_id target_reference research_question
    : option string) (scope : option ScopeEvaluationInput.t) : result unit :=
  raise_if given_and_different bounds config.(EffectiveOrchestrationConfiguration.bounds)
  as OrchestrationIntegrityError;;
  raise_if given_and_different budget_id config.(EffectiveOrchestrationConfiguration.budget_id)
  as OrchestrationIntegrityError;;
  raise_if given_and_different target_reference
             config.(EffectiveOrchestrationConfiguration.target_reference)
  as OrchestrationIntegrityError;;
  raise_if given_and_different research_question
             config.(EffectiveOrchestrationConfiguration.research_question)
  as OrchestrationIntegrityError;;
  match scope with
  | None => Ok tt
  | Some scope =>
      raise_if match config.(EffectiveOrchestrationConfiguration.scope_fingerprint) with
               | None => false
               | Some f => negb (scope_fingerprint scope =? f)%string
               end
      as OrchestrationIntegrityError;;
      Ok tt
  end.
End config.

(** ** Theorems: what the policy allows *)

(** All counters strictly below their limits. *)
Record within (b : OrchestrationBounds.t) (u : OrchestrationUsage.t) : Prop := {
  wi_cycles : u.(OrchestrationUsage.cycles_completed) < b.(OrchestrationBounds.max_cycles);
  wi_elapsed : u.(OrchestrationUsage.elapsed_ms) < b.(OrchestrationBounds.max_elapsed_ms);
  wi_experiments :
    u.(OrchestrationUsage.experiments_executed) < b.(OrchestrationBounds.max_experiments);
  wi_model : u.(OrchestrationUsage.model_calls) < b.(OrchestrationBounds.max_model_calls);
  wi_worker :
    u.(OrchestrationUsage.worker_invocations) < b.(OrchestrationBounds.max_worker_invocations);
  wi_fallback :
    u.(OrchestrationUsage.runtime_fallbacks) <= b.(OrchestrationBounds.max_runtime_fallback) }.

Lemma bounds_allowed_iff b u :
  (check_orchestration_bounds b u).(BoundCheck.allowed) = true <-> within b u.
Proof.
  unfold check_orchestration_bounds.
  repeat match goal with |- context [if ?x then _ else _] =>
    let E := fresh in destruct x eqn:E; autorewrite with zest_bool in E end;
    simpl; (split; [done || constructor; lia|]); try done; intros []; lia.
Qed.

Lemma bounds_stop_reason b u :
  (check_orchestration_bounds b u).(BoundCheck.allowed) = false <->
  (check_orchestration_bounds b u).(BoundCheck.stop_reason) <> None.
Proof. unfold check_orchestration_bounds. repeat case_match; done. Qed.

Lemma next_action_not_stop b u n h o :
  (next_cycle_action b u n h o).1 <> NextCycleAction.STOP <->
  o = false /\ within b u
  /\ (n <= 0 \/ n <= b.(OrchestrationBounds.max_selected_opportunities))
  /\ (0 < n \/ h = 0 \/ b.(OrchestrationBounds.allow_repeated_control_experiments) = true).
Proof.
  rewrite <-bounds_allowed_iff. unfold next_cycle_action. destruct o; [naive_solver|].
  destruct (BoundCheck.allowed _); simpl; [|naive_solver].
  destruct (Z.ltb_spec 0 n).
  - destruct (Z.ltb_spec b.(OrchestrationBounds.max_selected_opportunities) n); simpl;
      split; try done; intros; repeat split; auto; lia.
  - destruct (Z.eqb_spec h 0); simpl; [split; [intros; repeat split; auto; lia|done]|].
    destruct (OrchestrationBounds.allow_repeated_control_experiments b); simpl;
      split; try done; [intros; repeat split; auto; lia|]. intros (_ & _ & _ & [?|[?|?]]); [lia|done..].
Qed.

Definition sample_bounds : OrchestrationBounds.t :=
  OrchestrationBounds.mk 2 5 5 5 1000 3 0 0 false.

Definition sample_usage (n : Z) : OrchestrationUsage.t :=
  OrchestrationUsage.mk n 0 0 0 (10 * n) 0 0 0 0 0.

(** Every stop has a reason, and an orchestration that stops is not left READY or RUNNING. *)
Lemma stop_has_reason b u n h o r :
  next_cycle_action b u n h o = (NextCycleAction.STOP, r) ->
  exists s, r = Some s
    /\ orchestration_state_for_stop s <> OrchestrationState.READY
    /\ orchestration_state_for_stop s <> OrchestrationState.RUNNING.
Proof.
  intros H. assert (r <> None) as Hr.
  { revert H. unfold next_cycle_action. destruct o; [by intros [= <-]|].
    destruct (BoundCheck.allowed (check_orchestration_bounds b u)) eqn:E; simpl.
    - repeat case_match; by intros [= <-].
    - intros [= <-]. by apply bounds_stop_reason. }
  destruct r as [s|]; [|done]. exists s. by destruct s.
Qed.

(** ** Theorems: configuration *)

Lemma canonical_config_dict a b c d e f g bounds :
  canonical_orchestration_config (config_dict a b c d e f g bounds)
  = Ok (config_dict a b c d e f g bounds).
Proof. reflexivity. Qed.

Lemma bounds_of_config_dict a b c d e f g bounds :
  bounds_from_config (config_dict a b c d e f g bounds) = OrchestrationBounds.post_init bounds.
Proof. by destruct bounds. Qed.

Lemma configuration_from_record_ok sha r c :
  configuration_from_record sha r = Ok c <->
  r.(ResearchOrchestrationRecord.configuration_fingerprint) = sha (PDict (record_payload r))
  /\ OrchestrationBounds.post_init (record_bounds r) = Ok (record_bounds r)
  /\ c = EffectiveOrchestrationConfiguration.mk r.(ResearchOrchestrationRecord.research_run_id)
           r.(ResearchOrchestrationRecord.budget_id)
           r.(ResearchOrchestrationRecord.target_reference)
           r.(ResearchOrchestrationRecord.research_question)
           r.(ResearchOrchestrationRecord.policy_version)
           r.(ResearchOrchestrationRecord.routing_policy_version)
           r.(ResearchOrchestrationRecord.scope_fingerprint) (record_bounds r)
           (sha (PDict (record_payload r))).
Proof.
  unfold configuration_from_record, orchestration_config_fingerprint. cbv zeta.
  unfold record_payload. rewrite canonical_config_dict. cbn [mbind result_bind].
  rewrite raise_if_ok, negb_false_iff, String.eqb_eq, bounds_of_config_dict. split.
  - intros [<- H]. apply bind_ok in H as (b & Hb & [= <-]).
    pose proof (validated _ _ Hb) as ->. done.
  - intros (-> & Hb & ->). rewrite Hb. done.
Qed.

(** The sixteen fields can be read back from the payload. *)
Lemma record_payload_inj r r' :
  record_payload r' = record_payload r ->
  r'.(ResearchOrchestrationRecord.research_run_id) = r.(ResearchOrchestrationRecord.research_run_id)
  /\ r'.(ResearchOrchestrationRecord.budget_id) = r.(ResearchOrchestrationRecord.budget_id)
  /\ r'.(ResearchOrchestrationRecord.target_reference)
     = r.(ResearchOrchestrationRecord.target_reference)
  /\ r'.(ResearchOrchestrationRecord.research_question)
     = r.(ResearchOrchestrationRecord.research_question)
  /\ r'.(ResearchOrchestrationRecord.policy_version)
     = r.(ResearchOrchestrationRecord.policy_version)
  /\ r'.(ResearchOrchestrationRecord.routing_policy_version)
     = r.(ResearchOrchestrationRecord.routing_policy_version)
  /\ r'.(ResearchOrchestrationRecord.scope_fingerprint)
     = r.(ResearchOrchestrationRecord.scope_fingerprint)
  /\ record_bounds r' = record_bounds r.
Proof.
  unfold record_payload, config_dict, record_bounds. intros E.
  injection E as E1 E2 E3 E4 E5 E6 E7 E8 E9 E10 E11 E12 E13 E14 E15 E16.
  assert (forall a b, pstr_opt a = pstr_opt b -> a = b) as Hinj by (intros [] []; simpl; congruence).
  apply Hinj in E6, E7. repeat split; congruence.
Qed.

(** The configuration of a persisted run is tamper-evident: it is accepted exactly when
    the fingerprint column is that of its sixteen immutable fields and the limits are well
    formed; it then carries the fields of the row, so that two accepted rows with the same
    fingerprint have the same configuration unless the digest collides on them. *)
Theorem persisted_configuration_integrity sha r c r' c' :
  configuration_from_record sha r = Ok c ->
  configuration_from_record sha r' = Ok c' ->
  r'.(ResearchOrchestrationRecord.configuration_fingerprint)
  = r.(ResearchOrchestrationRecord.configuration_fingerprint) ->
  (sha (PDict (record_payload r')) = sha (PDict (record_payload r)) ->
     PDict (record_payload r') = PDict (record_payload r)) ->
  config_payload c = record_payload r
  /\ c.(EffectiveOrchestrationConfiguration.fingerprint)
     = r.(ResearchOrchestrationRecord.configuration_fingerprint)
  /\ c' = c.
Proof.
  rewrite !configuration_from_record_ok. intros (Hf & _ & ->) (Hf' & _ & ->) Hsame Hcoll.
  split; [done|]. split; [done|]. assert (record_payload r' = record_payload r) as E.
  { apply PDict_inj, Hcoll. congruence. }
  rewrite E. apply record_payload_inj in E as (? & ? & ? & ? & ? & ? & ? & ?). congruence.
Qed.

(** What a run was started with is what every later tick runs with: a row that stores
    the start fields and [fingerprint_for_start] of them is accepted with exactly the
    started limits, and a command passes the check only if it names the same limits. *)
Theorem started_bounds_are_effective sha r fp bounds :
  OrchestrationBounds.post_init bounds = Ok bounds ->
  record_bounds r = bounds ->
  fingerprint_for_start sha r.(ResearchOrchestrationRecord.research_run_id)
    r.(ResearchOrchestrationRecord.budget_id) r.(ResearchOrchestrationRecord.target_reference)
    r.(ResearchOrchestrationRecord.research_question)
    r.(ResearchOrchestrationRecord.policy_version) bounds
    r.(ResearchOrchestrationRecord.routing_policy_version)
    r.(ResearchOrchestrationRecord.scope_fingerprint) = Ok fp ->
  r.(ResearchOrchestrationRecord.configuration_fingerprint) = fp ->
  exists c, configuration_from_record sha r = Ok c
    /\ c.(EffectiveOrchestrationConfiguration.bounds) = bounds
    /\ forall command b t q s,
         assert_command_matches_configuration sha c (Some command) b t q s = Ok tt ->
         command = bounds.
Proof.
  intros Hb <- Hfp Hr. eexists. split; [|split].
  - apply configuration_from_record_ok. split; [|split; [done|reflexivity]].
    rewrite Hr. unfold fingerprint_for_start, orchestration_config_fingerprint in Hfp.
    rewrite canonical_config_dict in Hfp. by injection Hfp as <-.
  - done.
  - intros command b t q s. unfold assert_command_matches_configuration.
    rewrite raise_if_ok. cbn. rewrite negb_false_iff, bool_decide_eq_true. by intros [? _].
Qed.

(** ** Witnesses: a started run and its row one cycle later *)

Definition sample_digest : string :=
  "0123456789abcdef0123456789abcdef0123456789abcdef0123456789abcdef".

Definition sample_orchestration (cycle_number : Z) : ResearchOrchestrationRecord.t :=
  ResearchOrchestrationRecord.mk "run1" "RUNNING" cycle_number "running" "orchestration.bounded.v1"
    2 5 5 5 1000 3 0 0 false 0 0 0 "b1" "https://a.example" "question" sample_digest "CYCLE_READY"
    None None None None None None None None None None None None None 0 None.

Definition sample_configuration : EffectiveOrchestrationConfiguration.t :=
  EffectiveOrchestrationConfiguration.mk "run1" "b1" "https://a.example" "question"
    "orchestration.bounded.v1" None None sample_bounds sample_digest.

Lemma persisted_configuration_integrity_witness :
  config_payload sample_configuration = record_payload (sample_orchestration 0).
Proof.
  refine (proj1 (persisted_configuration_integrity (fun _ => sample_digest)
    (sample_orchestration 0) sample_configuration (sample_orchestration 1) sample_configuration
    _ _ _ _)); [vm_compute; reflexivity..|]. intros _. reflexivity.
Defined.

Lemma started_bounds_are_effective_witness :
  exists c, configuration_from_record (fun _ => sample_digest) (sample_orchestration 0) = Ok c
    /\ c.(EffectiveOrchestrationConfiguration.bounds) = sample_bounds.
Proof.
  destruct (started_bounds_are_effective (fun _ => sample_digest) (sample_orchestration 0)
    sample_digest sample_bounds) as (c & H & Hb & _); [vm_compute; reflexivity..|].
  exists c. exact (conj H Hb).
Defined.
