(* ===== verification/Ledger.v ===== *)
(** * The budget consumption ledger

    [data/budget_ledger.py], the ledger repository of
    [data/postgres/repositories.py] and [RecordBudgetConsumption] of
    [application/budget_consumption.py].  A database state is the issued budgets,
    the orchestration rows and the ledger rows; a unit of work that raises leaves
    the state it started from ([result]). *)
From S2P Require Import Prelude PyVal CorePolicy Records.

(** [data/budget_ledger.py:16-32 LedgerTotals] *)
Module LedgerTotals.
Record t : Set := mk {
  model_calls : Z;
  worker_requests : Z;
  worker_invocations : Z;
  execution_time_ms : Z;
  artifact_bytes : Z }.

(** [data/budget_ledger.py:24-32 LedgerTotals.to_budget_usage] *)
Definition to_budget_usage (x : t) : result BudgetUsage.t :=
  BudgetUsage.post_init
    (BudgetUsage.mk x.(worker_requests) x.(worker_invocations) x.(execution_time_ms) 0).
End LedgerTotals.

(** One turn of the accumulation loop.  [data/budget_ledger.py:44-54 ledger_totals] *)
Definition add_record (acc : LedgerTotals.t) (r : BudgetConsumptionRecord.t) : LedgerTotals.t :=
  let '(LedgerTotals.mk mc wr wi et ab) := acc in
  let kind := r.(BudgetConsumptionRecord.resource_type) in
  let amount := r.(BudgetConsumptionRecord.amount) in
  if (kind =? "MODEL_CALL")%string then LedgerTotals.mk (mc + amount) wr wi et ab
  else if (kind =? "REQUEST")%string then LedgerTotals.mk mc (wr + amount) wi et ab
  else if (kind =? "WORKER_INVOCATION")%string then LedgerTotals.mk mc wr (wi + amount) et ab
  else if (kind =? "EXECUTION_TIME")%string then LedgerTotals.mk mc wr wi (et + amount) ab
  else if (kind =? "ARTIFACT_BYTES")%string then LedgerTotals.mk mc wr wi et (ab + amount)
  else acc.

(** [data/budget_ledger.py:38-61 ledger_totals] *)
Definition ledger_totals (records : list BudgetConsumptionRecord.t) : LedgerTotals.t :=
  foldl add_record (LedgerTotals.mk 0 0 0 0 0) records.

(** [data/budget_ledger.py:64-65 usage_from_consumptions] *)
Definition usage_from_consumptions (records : list BudgetConsumptionRecord.t)
    : result BudgetUsage.t :=
  LedgerTotals.to_budget_usage (ledger_totals records).

(** [data/budget_ledger.py:68-75 remaining_for_resource] *)
Definition remaining_for_resource (issued : IssuedBudgetRecord.t) (usage : BudgetUsage.t)
    (resource_type : string) : result Z :=
  if (resource_type =? "REQUEST")%string
  then Ok (issued.(IssuedBudgetRecord.max_requests) - usage.(BudgetUsage.requests))
  else if (resource_type =? "WORKER_INVOCATION")%string
  then Ok (issued.(IssuedBudgetRecord.max_tool_calls) - usage.(BudgetUsage.tool_calls))
  else if (resource_type =? "EXECUTION_TIME")%string
  then Ok (issued.(IssuedBudgetRecord.max_runtime_ms) - usage.(BudgetUsage.runtime_ms))
  else Raise BudgetOverspendError.

(** [data/budget_ledger.py:78-79 remaining_model_calls] *)
Definition remaining_model_calls (orchestration : ResearchOrchestrationRecord.t)
    (totals : LedgerTotals.t) : Z :=
  orchestration.(ResearchOrchestrationRecord.max_model_calls)
  - totals.(LedgerTotals.model_calls).

(** [data/budget_ledger.py:82-101 assert_within_allowance] *)
Definition assert_within_allowance (issued : IssuedBudgetRecord.t)
    (existing : list BudgetConsumptionRecord.t) (incoming : BudgetConsumptionRecord.t)
    (orchestration : option ResearchOrchestrationRecord.t) : result unit :=
  let totals := ledger_totals existing in
  if (incoming.(BudgetConsumptionRecord.resource_type) =? "MODEL_CALL")%string
  then
    match orchestration with
    | None => Raise BudgetOverspendError
    | Some orchestration =>
        raise_if negb (bool_decide (incoming.(BudgetConsumptionRecord.research_run_id)
                   = Some orchestration.(ResearchOrchestrationRecord.research_run_id)))
        as BudgetOverspendError;;
        raise_if remaining_model_calls orchestration totals
                 <? incoming.(BudgetConsumptionRecord.amount)
        as BudgetOverspendError;;
        Ok tt
    end
  else
    usage ← LedgerTotals.to_budget_usage totals;
    remaining ← remaining_for_resource issued usage
                  incoming.(BudgetConsumptionRecord.resource_type);
    raise_if remaining <? incoming.(BudgetConsumptionRecord.amount) as BudgetOverspendError;;
    Ok tt.

(** ** The database *)
Module Db.
Record t : Type := mk {
  issued : gmap string IssuedBudgetRecord.t;
  orchestrations : gmap string ResearchOrchestrationRecord.t;
  rows : list BudgetConsumptionRecord.t }.
End Db.

(** [item.request_id == r.request_id and item.resource_type == r.resource_type and
    r.request_id is not None] *)
Definition same_request (request_id : option string) (resource_type : string)
    (item : BudgetConsumptionRecord.t) : bool :=
  bool_decide (item.(BudgetConsumptionRecord.request_id) = request_id)
  && (item.(BudgetConsumptionRecord.resource_type) =? resource_type)%string
  && bool_decide (is_Some request_id).

(** Rows of one budget, in the order of their ids.
    [data/postgres/repositories.py:3077-3087 list_for_budget] *)
Definition list_for_budget (db : Db.t) (budget_id : string)
    : result (list BudgetConsumptionRecord.t) :=
  _ ← data_opaque_id budget_id;
  Ok (sort_by BudgetConsumptionRecord.consumption_id
        (List.filter (fun r => (r.(BudgetConsumptionRecord.budget_id) =? budget_id)%string)
           db.(Db.rows))).

(** Unique constraints of the table: the primary key and
    [uq_budget_consumption_request_resource].
    [data/postgres/tables.py:1360-1396 budget_consumption] *)
Definition conflicts (r item : BudgetConsumptionRecord.t) : bool :=
  (item.(BudgetConsumptionRecord.consumption_id)
     =? r.(BudgetConsumptionRecord.consumption_id))%string
  || ((item.(BudgetConsumptionRecord.budget_id) =? r.(BudgetConsumptionRecord.budget_id))%string
      && same_request r.(BudgetConsumptionRecord.request_id)
           r.(BudgetConsumptionRecord.resource_type) item).

(** The foreign key to [issued_budget]; a null run id is not checked (MATCH SIMPLE).
    [data/postgres/tables.py:1374-1378 budget_consumption] *)
Definition foreign_key_holds (db : Db.t) (r : BudgetConsumptionRecord.t) : bool :=
  match r.(BudgetConsumptionRecord.research_run_id) with
  | None => true
  | Some run =>
      match db.(Db.issued) !! r.(BudgetConsumptionRecord.budget_id) with
      | Some b => bool_decide (b.(IssuedBudgetRecord.research_run_id) = Some run)
      | None => false
      end
  end.

(** The other constraints of the table repeat [post_init]; a unique violation is
    reported as a conflict, the rest as a persistence error.
    [data/postgres/repositories.py:3008-3012 insert] *)
Definition insert (db : Db.t) (r : BudgetConsumptionRecord.t) : result Db.t :=
  raise_if negb (is_int4 r.(BudgetConsumptionRecord.amount)) as PersistenceError;;
  raise_if existsb (conflicts r) db.(Db.rows) as PersistenceConflictError;;
  raise_if negb (foreign_key_holds db r) as PersistenceError;;
  Ok (Db.mk db.(Db.issued) db.(Db.orchestrations) (db.(Db.rows) ++ [r])).

(** The locked orchestration row of a model call.
    [data/postgres/repositories.py:3043-3058 insert_within_allowance] *)
Definition lookup_orchestration (db : Db.t) (r : BudgetConsumptionRecord.t)
    : result (option ResearchOrchestrationRecord.t) :=
  if (r.(BudgetConsumptionRecord.resource_type) =? "MODEL_CALL")%string
  then match r.(BudgetConsumptionRecord.research_run_id)
               ≫= (fun run => db.(Db.orchestrations) !! run) with
       | None => Raise BudgetOverspendError
       | Some o => Ok (Some o)
       end
  else Ok None.

(** [data/postgres/repositories.py:3014-3065 insert_within_allowance] *)
Definition insert_within_allowance (db : Db.t) (record : BudgetConsumptionRecord.t)
    : result Db.t :=
  match db.(Db.issued) !! record.(BudgetConsumptionRecord.budget_id) with
  | None => Raise PersistenceError
  | Some mapped_issued =>
      raise_if negb (mapped_issued.(IssuedBudgetRecord.budget_id)
                     =? record.(BudgetConsumptionRecord.budget_id))%string
      as PersistenceError;;
      raise_if negb (bool_decide (mapped_issued.(IssuedBudgetRecord.research_run_id)
                                  = record.(BudgetConsumptionRecord.research_run_id)))
      as PersistenceError;;
      existing ← list_for_budget db record.(BudgetConsumptionRecord.budget_id);
      if existsb (same_request record.(BudgetConsumptionRecord.request_id)
                    record.(BudgetConsumptionRecord.resource_type)) existing
      then Ok db
      else
        orchestration ← lookup_orchestration db record;
        _ ← assert_within_allowance mapped_issued existing record orchestration;
        match insert db record with
        | Ok db' => Ok db'
        | Raise PersistenceConflictError => Ok db
        | Raise e => Raise e
        end
  end.

(** ** The use case *)

(** [application/budget_consumption.py:20-30 RecordBudgetConsumptionCommand] *)
Module RecordBudgetConsumptionCommand.
Record t : Type := mk {
  budget_id : string;
  research_run_id : option string;
  resource_type : string;
  amount : Z;
  unit : string;
  provenance : string;
  experiment_id : option string;
  request_id : option string;
  resource_metadata : option (list (string * pyval)) }.
End RecordBudgetConsumptionCommand.

(** [application/budget_consumption.py:33-37 RecordBudgetConsumptionResult] *)
Module RecordBudgetConsumptionResult.
Record t : Type := mk {
  consumption_id : option string;
  already_recorded : bool;
  usage : BudgetUsage.t }.
End RecordBudgetConsumptionResult.

(** The record the use case builds.
    [application/budget_consumption.py:60-72 RecordBudgetConsumption.execute] *)
Definition record_of (consumption_id : string) (now : Z) (c : RecordBudgetConsumptionCommand.t)
    : BudgetConsumptionRecord.t :=
  BudgetConsumptionRecord.mk consumption_id
    c.(RecordBudgetConsumptionCommand.budget_id)
    c.(RecordBudgetConsumptionCommand.research_run_id)
    c.(RecordBudgetConsumptionCommand.resource_type)
    c.(RecordBudgetConsumptionCommand.amount)
    c.(RecordBudgetConsumptionCommand.unit) now
    c.(RecordBudgetConsumptionCommand.provenance)
    c.(RecordBudgetConsumptionCommand.experiment_id)
    c.(RecordBudgetConsumptionCommand.request_id)
    c.(RecordBudgetConsumptionCommand.resource_metadata).

(** Records tracked against the daily budget, inserted without an allowance check.
    [application/budget_consumption.py:83-85 RecordBudgetConsumption.execute] *)
Definition UNCHECKED_RESOURCES : list string :=
  [ "MODEL_TOKENS_IN"; "MODEL_TOKENS_OUT"; "MODEL_ESCALATION_DECISION" ].

(** [consumption_id] is the fresh id, [now] the clock.
    [application/budget_consumption.py:50-103 RecordBudgetConsumption.execute] *)
Definition execute (db : Db.t) (consumption_id : string) (now : Z)
    (command : RecordBudgetConsumptionCommand.t)
    : result (Db.t * RecordBudgetConsumptionResult.t) :=
  let budget_id := command.(RecordBudgetConsumptionCommand.budget_id) in
  let run := command.(RecordBudgetConsumptionCommand.research_run_id) in
  let resource_type := command.(RecordBudgetConsumptionCommand.resource_type) in
  _ ← data_opaque_id budget_id;
  match db.(Db.issued) !! budget_id with
  | None => Raise ApplicationError
  | Some issued =>
      raise_if bool_decide (is_Some run)
               && negb (bool_decide (issued.(IssuedBudgetRecord.research_run_id) = run))
      as ApplicationError;;
      record ← BudgetConsumptionRecord.post_init (record_of consumption_id now command);
      before ← list_for_budget db budget_id;
      let duplicate :=
        existsb (same_request command.(RecordBudgetConsumptionCommand.request_id) resource_type)
          before in
      if duplicate
      then
        usage ← usage_from_consumptions before;
        Ok (db, RecordBudgetConsumptionResult.mk None true usage)
      else if mem resource_type UNCHECKED_RESOURCES
      then
        db' ← insert db record;
        after ← list_for_budget db' budget_id;
        usage ← usage_from_consumptions after;
        Ok (db', RecordBudgetConsumptionResult.mk (Some consumption_id) false usage)
      else
        '(db', duplicate) ←
          match insert_within_allowance db record with
          | Ok db' => Ok (db', false)
          | Raise BudgetOverspendError => Raise BudgetConsumptionRejected
          | Raise PersistenceConflictError => Ok (db, true)
          | Raise e => Raise e
          end;
        after ← list_for_budget db' budget_id;
        usage ← usage_from_consumptions after;
        Ok (db', RecordBudgetConsumptionResult.mk
                   (if (duplicate : bool) then None else Some consumption_id) duplicate usage)
  end.

(** ** Totals as sums *)

(** Sum of the amounts of one resource: the reading of the accumulation loop. *)
Fixpoint sum_of (kind : string) (rows : list BudgetConsumptionRecord.t) : Z :=
  match rows with
  | [] => 0
  | r :: rows =>
      (if (r.(BudgetConsumptionRecord.resource_type) =? kind)%string
       then r.(BudgetConsumptionRecord.amount) else 0) + sum_of kind rows
  end.

Definition totals_of (rows : list BudgetConsumptionRecord.t) : LedgerTotals.t :=
  LedgerTotals.mk (sum_of "MODEL_CALL" rows) (sum_of "REQUEST" rows)
    (sum_of "WORKER_INVOCATION" rows) (sum_of "EXECUTION_TIME" rows)
    (sum_of "ARTIFACT_BYTES" rows).

Definition plus_totals (a b : LedgerTotals.t) : LedgerTotals.t :=
  LedgerTotals.mk (a.(LedgerTotals.model_calls) + b.(LedgerTotals.model_calls))
    (a.(LedgerTotals.worker_requests) + b.(LedgerTotals.worker_requests))
    (a.(LedgerTotals.worker_invocations) + b.(LedgerTotals.worker_invocations))
    (a.(LedgerTotals.execution_time_ms) + b.(LedgerTotals.execution_time_ms))
    (a.(LedgerTotals.artifact_bytes) + b.(LedgerTotals.artifact_bytes)).

Lemma add_record_totals acc r :
  add_record acc r = plus_totals acc (totals_of [r]).
Proof.
  destruct acc as [mc wr wi et ab]. unfold add_record, plus_totals, totals_of. simpl.
  destruct (String.eqb_spec (BudgetConsumptionRecord.resource_type r) "MODEL_CALL") as [E|];
    [rewrite E; simpl; f_equal; lia|].
  destruct (String.eqb_spec (BudgetConsumptionRecord.resource_type r) "REQUEST") as [E|];
    [rewrite E; simpl; f_equal; lia|].
  destruct (String.eqb_spec (BudgetConsumptionRecord.resource_type r) "WORKER_INVOCATION") as [E|];
    [rewrite E; simpl; f_equal; lia|].
  destruct (String.eqb_spec (BudgetConsumptionRecord.resource_type r) "EXECUTION_TIME") as [E|];
    [rewrite E; simpl; f_equal; lia|].
  destruct (String.eqb_spec (BudgetConsumptionRecord.resource_type r) "ARTIFACT_BYTES") as [E|];
    f_equal; lia.
Qed.

Lemma ledger_totals_sum rows : ledger_totals rows = totals_of rows.
Proof.
  unfold ledger_totals.
  assert (forall acc, foldl add_record acc rows = plus_totals acc (totals_of rows)) as ->.
  { induction rows as [|r rows IH]; intros acc; simpl.
    - destruct acc. unfold plus_totals, totals_of. simpl. f_equal; lia.
    - rewrite IH, add_record_totals. unfold plus_totals, totals_of. simpl. f_equal; lia. }
  unfold plus_totals, totals_of. simpl. f_equal; lia.
Qed.

Lemma sum_of_app kind l l' : sum_of kind (l ++ l') = sum_of kind l + sum_of kind l'.
Proof. induction l as [|r l IH]; simpl; [done|]. rewrite IH. lia. Qed.

#[global] Instance sum_of_perm kind : Proper (Permutation ==> eq) (sum_of kind).
Proof. induction 1; simpl; lia. Qed.

#[global] Instance totals_of_perm : Proper (Permutation ==> eq) totals_of.
Proof. intros l l' H. unfold totals_of. by rewrite H. Qed.

Definition positive (rows : list BudgetConsumptionRecord.t) : Prop :=
  forall r, r ∈ rows -> 0 < r.(BudgetConsumptionRecord.amount).

Lemma sum_of_nonneg kind rows : positive rows -> 0 <= sum_of kind rows.
Proof.
  induction rows as [|r rows IH]; simpl; intros H; [lia|].
  assert (0 < r.(BudgetConsumptionRecord.amount)) by (apply H; left).
  assert (0 <= sum_of kind rows) by (apply IH; intros x Hx; apply H; by right).
  case_match; lia.
Qed.

(** The rows of one budget, in table order. *)
Definition budget_rows (db : Db.t) (budget_id : string) : list BudgetConsumptionRecord.t :=
  List.filter (fun r => (r.(BudgetConsumptionRecord.budget_id) =? budget_id)%string) db.(Db.rows).

Definition usage_of (rows : list BudgetConsumptionRecord.t) : BudgetUsage.t :=
  BudgetUsage.mk (sum_of "REQUEST" rows) (sum_of "WORKER_INVOCATION" rows)
    (sum_of "EXECUTION_TIME" rows) 0.

Lemma to_budget_usage_totals rows :
  positive rows -> LedgerTotals.to_budget_usage (totals_of rows) = Ok (usage_of rows).
Proof.
  intros H. unfold LedgerTotals.to_budget_usage, BudgetUsage.post_init, require_non_negative.
  simpl. pose proof (sum_of_nonneg "REQUEST" rows H).
  pose proof (sum_of_nonneg "WORKER_INVOCATION" rows H).
  pose proof (sum_of_nonneg "EXECUTION_TIME" rows H).
  repeat (rewrite (proj2 (Z.ltb_ge _ _)) by lia; simpl). done.
Qed.

Lemma usage_from_consumptions_sum rows :
  positive rows -> usage_from_consumptions rows = Ok (usage_of rows).
Proof.
  intros H. unfold usage_from_consumptions. rewrite ledger_totals_sum.
  by apply to_budget_usage_totals.
Qed.

(** Usage is the sum of the ledger: reconstructing it from rows with positive amounts
    never fails, counts exactly the requests, worker invocations and execution time, does
    not depend on the order rows are read in, and ignores model calls and tokens. *)
Theorem usage_is_ledger_sum rows rows' :
  positive rows -> rows ≡ₚ rows' ->
  usage_from_consumptions rows' = Ok (usage_of rows)
  /\ ledger_totals rows' = totals_of rows.
Proof.
  intros H E. split.
  - rewrite usage_from_consumptions_sum; [|intros x; rewrite <-E; apply H].
    unfold usage_of. by rewrite E.
  - by rewrite ledger_totals_sum, E.
Qed.

Definition sample_row (id kind : string) (amount : Z) (request_id : option string)
    : BudgetConsumptionRecord.t :=
  BudgetConsumptionRecord.mk id "b1" (Some "run1") kind amount "count" 0 "test" None request_id
    None.

Lemma usage_is_ledger_sum_witness :
  usage_from_consumptions [sample_row "c2" "REQUEST" 3 None; sample_row "c1" "MODEL_CALL" 2 None]
  = Ok (BudgetUsage.mk 3 0 0 0).
Proof.
  refine (proj1 (usage_is_ledger_sum
    [sample_row "c1" "MODEL_CALL" 2 None; sample_row "c2" "REQUEST" 3 None] _ _ _)).
  - intros r. rewrite !elem_of_cons. intros [->|[->|H]]; [by vm_compute|by vm_compute|inversion H].
  - apply perm_swap.
Defined.

(** ** The ledger as a state machine *)

Inductive step : Db.t -> Db.t -> Prop :=
  | step_execute db cid now command db' res :
      (forall r, r ∈ db.(Db.rows) -> r.(BudgetConsumptionRecord.consumption_id) <> cid) ->
      execute db cid now command = Ok (db', res) -> step db db'.

(** States reachable from an empty ledger; issued budgets and orchestration rows are
    filed under their ids and do not change. *)
Inductive reachable : Db.t -> Prop :=
  | reach_init issued orchs :
      (forall id b, issued !! id = Some b -> b.(IssuedBudgetRecord.budget_id) = id
         /\ 0 <= b.(IssuedBudgetRecord.max_requests)
         /\ 0 <= b.(IssuedBudgetRecord.max_tool_calls)
         /\ 0 <= b.(IssuedBudgetRecord.max_runtime_ms)) ->
      (forall run o, orchs !! run = Some o -> 0 <= o.(ResearchOrchestrationRecord.max_model_calls)) ->
      reachable (Db.mk issued orchs [])
  | reach_step db db' : reachable db -> step db db' -> reachable db'.

Lemma post_init_consumption r r' :
  BudgetConsumptionRecord.post_init r = Ok r' ->
  r' = r /\ 0 < r.(BudgetConsumptionRecord.amount)
  /\ Str.is_blank r.(BudgetConsumptionRecord.budget_id) = false.
Proof.
  unfold BudgetConsumptionRecord.post_init. rewrite bind_ok. intros (? & _ & H). rewrite bind_ok in H. destruct H as (? & Hb & H).
  rewrite bind_ok in H. destruct H as (? & _ & H). rewrite !raise_if_ok in H.
  apply data_opaque_id_ok in Hb as [_ Hb]. destruct H as (_ & _ & Ha & _ & H). do 3 (rewrite bind_ok in H; destruct H as (? & _ & H)).
  rewrite !raise_if_ok in H. destruct H as (_ & _ & _ & _ & [= <-]). bool_prop.
  split; [done|]. split; [lia|done].
Qed.

Lemma list_for_budget_ok db id :
  Str.is_blank id = false ->
  exists l, list_for_budget db id = Ok l /\ l ≡ₚ budget_rows db id.
Proof.
  intros H. unfold list_for_budget, data_opaque_id. rewrite H. simpl. eexists. split; [done|].
  apply sort_by_perm.
Qed.

Section allowance.
Context (db : Db.t) (b : IssuedBudgetRecord.t) (r : BudgetConsumptionRecord.t).

(** What the allowance check bounds, per resource. *)
Definition within_allowance : Prop :=
  let id := r.(BudgetConsumptionRecord.budget_id) in
  let kind := r.(BudgetConsumptionRecord.resource_type) in
  let used := sum_of kind (budget_rows db id) + r.(BudgetConsumptionRecord.amount) in
  (kind = "REQUEST" /\ used <= b.(IssuedBudgetRecord.max_requests))
  \/ (kind = "WORKER_INVOCATION" /\ used <= b.(IssuedBudgetRecord.max_tool_calls))
  \/ (kind = "EXECUTION_TIME" /\ used <= b.(IssuedBudgetRecord.max_runtime_ms))
  \/ (kind = "MODEL_CALL" /\ exists run o, r.(BudgetConsumptionRecord.research_run_id) = Some run
        /\ db.(Db.orchestrations) !! run = Some o
        /\ o.(ResearchOrchestrationRecord.research_run_id) = run
        /\ used <= o.(ResearchOrchestrationRecord.max_model_calls)).

Lemma assert_within_allowance_iff existing :
  positive existing ->
  existing ≡ₚ budget_rows db r.(BudgetConsumptionRecord.budget_id) ->
  (o ← lookup_orchestration db r; assert_within_allowance b existing r o)
  = Ok tt <-> within_allowance.
Proof.
  intros Hpos Hp. unfold within_allowance, lookup_orchestration, assert_within_allowance.
  rewrite ledger_totals_sum. assert (sum_of (BudgetConsumptionRecord.resource_type r) existing
    = sum_of (BudgetConsumptionRecord.resource_type r)
        (budget_rows db (BudgetConsumptionRecord.budget_id r))) as Hs by by rewrite Hp.
  rewrite <-Hs. clear Hs Hp.
  destruct (String.eqb_spec (BudgetConsumptionRecord.resource_type r) "MODEL_CALL") as [E|N].
  { rewrite E. destruct (BudgetConsumptionRecord.research_run_id r) as [run|]; simpl;
      [|split; [done|]; naive_solver].
    destruct (Db.orchestrations db !! run) as [o|] eqn:Ho; simpl; [|split; [done|]; naive_solver].
    rewrite !raise_if_ok. unfold remaining_model_calls, totals_of. simpl. bool_prop. split.
    - intros ([= Erun] & ? & _). right; right; right. split; [done|]. exists run, o.
      repeat split; [done|done|lia].
    - intros [[??]|[[??]|[[??]|(_ & run' & o' & [= <-] & Ho' & Erun & Hle)]]]; [done..|].
      rewrite Ho in Ho'. injection Ho' as <-. rewrite Erun. repeat split; try done; lia. }
  simpl. rewrite to_budget_usage_totals by done. simpl.
  unfold remaining_for_resource, usage_of. simpl.
  destruct (String.eqb_spec (BudgetConsumptionRecord.resource_type r) "REQUEST") as [->|N1];
    [|destruct (String.eqb_spec (BudgetConsumptionRecord.resource_type r) "WORKER_INVOCATION")
        as [->|N2];
      [|destruct (String.eqb_spec (BudgetConsumptionRecord.resource_type r) "EXECUTION_TIME")
          as [->|N3]]]; simpl; rewrite ?raise_if_ok; bool_prop;
    (split; [|naive_solver lia]); try naive_solver lia.
Qed.

Lemma assert_raises existing e :
  positive existing ->
  (o ← lookup_orchestration db r; assert_within_allowance b existing r o) = Raise e ->
  e = BudgetOverspendError.
Proof.
  intros Hpos. unfold lookup_orchestration, assert_within_allowance.
  rewrite ledger_totals_sum. case_match; simpl.
  - destruct (BudgetConsumptionRecord.research_run_id r) as [run|]; simpl; [|congruence].
    destruct (Db.orchestrations db !! run); simpl; repeat case_match; congruence.
  - rewrite to_budget_usage_totals by done. simpl. unfold remaining_for_resource.
    repeat case_match; simpl; repeat case_match; congruence.
Qed.
End allowance.

(** ** What one execution does *)

Definition append_row (db : Db.t) (r : BudgetConsumptionRecord.t) : Db.t :=
  Db.mk db.(Db.issued) db.(Db.orchestrations) (db.(Db.rows) ++ [r]).

Definition fresh_id (db : Db.t) (cid : string) : Prop :=
  forall r, r ∈ db.(Db.rows) -> r.(BudgetConsumptionRecord.consumption_id) <> cid.

Definition all_positive (db : Db.t) : Prop := positive db.(Db.rows).

Lemma budget_rows_positive db id : all_positive db -> positive (budget_rows db id).
Proof.
  intros H r. unfold budget_rows. rewrite list_elem_of_In, filter_In, <-list_elem_of_In.
  intros [Hr _]. by apply H.
Qed.

Lemma insert_ok db r db' :
  insert db r = Ok db' ->
  db' = append_row db r /\ is_int4 r.(BudgetConsumptionRecord.amount) = true.
Proof.
  unfold insert, append_row. rewrite !raise_if_ok. intros (Hi & _ & _ & [= <-]).
  bool_prop. done.
Qed.

(** No unique violation when the id is fresh and the request is not recorded yet. *)
Lemma no_conflict db r :
  fresh_id db r.(BudgetConsumptionRecord.consumption_id) ->
  existsb (same_request r.(BudgetConsumptionRecord.request_id)
             r.(BudgetConsumptionRecord.resource_type))
    (budget_rows db r.(BudgetConsumptionRecord.budget_id)) = false ->
  existsb (conflicts r) db.(Db.rows) = false.
Proof.
  intros Hf Hd. rewrite existsb_false in Hd. rewrite existsb_false. intros x Hx.
  unfold conflicts. rewrite orb_false_iff, String.eqb_neq. split; [by apply Hf|].
  apply andb_false_iff. destruct (String.eqb_spec (BudgetConsumptionRecord.budget_id x)
    (BudgetConsumptionRecord.budget_id r)) as [E|]; [right|by left].
  apply Hd. unfold budget_rows. rewrite list_elem_of_In, filter_In, <-list_elem_of_In.
  split; [done|]. by apply String.eqb_eq.
Qed.

(** The command names an issued budget of its run and makes a valid record. *)
Definition valid_command (db : Db.t) (cid : string) (now : Z)
    (c : RecordBudgetConsumptionCommand.t) (b : IssuedBudgetRecord.t) : Prop :=
  db.(Db.issued) !! c.(RecordBudgetConsumptionCommand.budget_id) = Some b
  /\ b.(IssuedBudgetRecord.budget_id) = c.(RecordBudgetConsumptionCommand.budget_id)
  /\ b.(IssuedBudgetRecord.research_run_id) = c.(RecordBudgetConsumptionCommand.research_run_id)
  /\ BudgetConsumptionRecord.post_init (record_of cid now c) = Ok (record_of cid now c)
  /\ is_int4 c.(RecordBudgetConsumptionCommand.amount) = true.

Definition is_duplicate (db : Db.t) (c : RecordBudgetConsumptionCommand.t) : bool :=
  existsb (same_request c.(RecordBudgetConsumptionCommand.request_id)
             c.(RecordBudgetConsumptionCommand.resource_type))
    (budget_rows db c.(RecordBudgetConsumptionCommand.budget_id)).

Section execute.
Context (db : Db.t) (cid : string) (now : Z) (c : RecordBudgetConsumptionCommand.t).
Context (Hpos : all_positive db).

Let id := c.(RecordBudgetConsumptionCommand.budget_id).
Let r := record_of cid now c.

Lemma insert_within_allowance_cases b :
  db.(Db.issued) !! id = Some b ->
  Str.is_blank id = false -> is_duplicate db c = false -> fresh_id db cid ->
  forall res, insert_within_allowance db r = res ->
  (exists e, res = Raise e /\ e <> PersistenceConflictError)
  \/ (res = Ok (append_row db r) /\ within_allowance db b r).
Proof using Hpos.
  intros Hb Hblank Hdup Hfresh res. unfold insert_within_allowance.
  change (BudgetConsumptionRecord.budget_id r) with id. rewrite Hb.
  destruct (negb _); [intros <-; eauto|]. destruct (negb _); [intros <-; eauto|].
  destruct (list_for_budget_ok db id Hblank) as (l & Hl & Hp). rewrite Hl. simpl.
  rewrite (existsb_perm _ _ _ Hp). unfold is_duplicate in Hdup. fold id in Hdup.
  change (existsb (same_request (BudgetConsumptionRecord.request_id r)
    (BudgetConsumptionRecord.resource_type r)) (budget_rows db id)) with
    (existsb (same_request (RecordBudgetConsumptionCommand.request_id c)
      (RecordBudgetConsumptionCommand.resource_type c)) (budget_rows db id)).
  rewrite Hdup.
  assert (positive l) as Hl' by (intros x; rewrite Hp; by apply budget_rows_positive).
  pose proof (assert_raises db b r l) as Hraise.
  destruct (lookup_orchestration db r) as [o|e] eqn:Ho;
    cbn [mbind result_bind] in *.
  2:{ intros <-. left. exists e. split; [done|]. by rewrite (Hraise e). }
  destruct (assert_within_allowance b l r o) as [[]|e] eqn:Ha; cbn [mbind result_bind].
  2:{ intros <-. left. exists e. split; [done|]. by rewrite (Hraise e). }
  assert (within_allowance db b r) as Hw.
  { apply (assert_within_allowance_iff db b r l); [done..|]. by rewrite Ho. }
  destruct (insert db r) as [db'|e] eqn:Hi; [|destruct e; intros <-; eauto].
  - intros <-. right. by apply insert_ok in Hi as [-> _].
  - exfalso. unfold insert in Hi. destruct (negb (is_int4 _)); [done|].
    rewrite (no_conflict db r Hfresh Hdup) in Hi. destruct (negb _); done.
Qed.

(** Either nothing was recorded because the request was, or one row was appended. *)
Lemma execute_cases db' res :
  fresh_id db cid -> execute db cid now c = Ok (db', res) ->
  (db' = db /\ is_duplicate db c = true
   /\ res = RecordBudgetConsumptionResult.mk None true (usage_of (budget_rows db id)))
  \/ (db' = append_row db r /\ is_duplicate db c = false
      /\ 0 < r.(BudgetConsumptionRecord.amount)
      /\ res = RecordBudgetConsumptionResult.mk (Some cid) false (usage_of (budget_rows db' id))
      /\ exists b, db.(Db.issued) !! id = Some b
         /\ (mem r.(BudgetConsumptionRecord.resource_type) UNCHECKED_RESOURCES = true
             \/ within_allowance db b r)).
Proof using Hpos.
  intros Hfresh. unfold execute. fold id r. rewrite bind_ok. intros (? & Hid & H).
  apply data_opaque_id_ok in Hid as [_ Hblank].
  destruct (Db.issued db !! id) as [b|] eqn:Hb; [|done]. rewrite raise_if_ok in H.
  destruct H as [_ H]. rewrite bind_ok in H. destruct H as (r' & Hr & H).
  apply post_init_consumption in Hr as (-> & Hamount & _).
  destruct (list_for_budget_ok db id Hblank) as (l & Hl & Hp). rewrite Hl in H. simpl in H.
  rewrite (existsb_perm _ _ _ Hp) in H.
  change (existsb _ (budget_rows db id)) with (is_duplicate db c) in H.
  assert (forall rows, positive rows -> forall l, l ≡ₚ rows ->
    usage_from_consumptions l = Ok (usage_of rows)) as Husage.
  { intros rows Hrows l' E. rewrite usage_from_consumptions_sum.
    - unfold usage_of. by rewrite E.
    - intros y. rewrite E. apply Hrows. }
  assert (positive (budget_rows (append_row db r) id)) as Hpos'.
  { apply budget_rows_positive. intros y. unfold append_row. simpl.
    rewrite elem_of_app, list_elem_of_singleton. intros [?| ->]; [by apply Hpos|done]. }
  destruct (is_duplicate db c) eqn:Hdup.
  { left. rewrite (Husage (budget_rows db id)) in H by (done || by apply budget_rows_positive).
    cbn [mbind result_bind] in H. by injection H as <- <-. }
  right. destruct (mem _ UNCHECKED_RESOURCES) eqn:Hun.
  - rewrite bind_ok in H. destruct H as (db1 & Hi & H). apply insert_ok in Hi as [-> _].
    destruct (list_for_budget_ok (append_row db r) id Hblank) as (l' & Hl' & Hp').
    rewrite Hl' in H. simpl in H. rewrite (Husage _ Hpos' _ Hp') in H.
    cbn [mbind result_bind] in H. injection H as <- <-. eauto 10.
  - rewrite bind_ok in H. destruct H as ([db1 dup] & Hi & H).
    destruct (insert_within_allowance_cases b Hb Hblank Hdup Hfresh _ eq_refl)
      as [(e & He & Hne)|[He Hw]]; rewrite He in Hi; [by destruct e|].
    cbn [mbind result_bind] in *.    injection Hi as <- <-.
    destruct (list_for_budget_ok (append_row db r) id Hblank) as (l' & Hl' & Hp').
    rewrite Hl' in H. simpl in H. rewrite (Husage _ Hpos' _ Hp') in H.
    cbn [mbind result_bind] in H. injection H as <- <-. eauto 10.
Qed.
End execute.

(** ** Properties *)

(** Ledger totals of every budget stay inside its issued envelope, and the model calls
    of a budget inside the allowance of its run. *)
Definition within_envelopes (db : Db.t) : Prop :=
  forall id b, db.(Db.issued) !! id = Some b ->
    b.(IssuedBudgetRecord.budget_id) = id
    /\ sum_of "REQUEST" (budget_rows db id) <= b.(IssuedBudgetRecord.max_requests)
    /\ sum_of "WORKER_INVOCATION" (budget_rows db id) <= b.(IssuedBudgetRecord.max_tool_calls)
    /\ sum_of "EXECUTION_TIME" (budget_rows db id) <= b.(IssuedBudgetRecord.max_runtime_ms).

Lemma budget_rows_append db r id :
  budget_rows (append_row db r) id
  = budget_rows db id
    ++ (if (r.(BudgetConsumptionRecord.budget_id) =? id)%string then [r] else []).
Proof. unfold budget_rows, append_row. simpl. rewrite List.filter_app. simpl. by case_match. Qed.

Lemma append_within db b r :
  db.(Db.issued) !! r.(BudgetConsumptionRecord.budget_id) = Some b ->
  mem r.(BudgetConsumptionRecord.resource_type) UNCHECKED_RESOURCES = true
    \/ within_allowance db b r ->
  within_envelopes db -> within_envelopes (append_row db r).
Proof.
  intros Hb Hw Henv id b' Hb'. unfold append_row in Hb'. simpl in Hb'. destruct (Henv id b' Hb') as (Hid & H1 & H2 & H3).
  split; [done|]. rewrite budget_rows_append, !sum_of_app.
  destruct (String.eqb_spec r.(BudgetConsumptionRecord.budget_id) id) as [E|E]; simpl; [|lia].
  rewrite E in Hb. rewrite Hb in Hb'. injection Hb' as <-.
  unfold within_allowance in Hw. rewrite E in Hw.
  destruct Hw as [Hu|[[K Hle]|[[K Hle]|[[K Hle]|[K _]]]]]; try (rewrite K in *; simpl; lia).
  apply mem_true in Hu. unfold UNCHECKED_RESOURCES in Hu. rewrite !elem_of_cons in Hu.
  destruct Hu as [K|[K|[K|Hu]]]; [rewrite K; simpl; lia..|inversion Hu].
Qed.

Lemma reachable_invariant db :
  reachable db -> all_positive db /\ within_envelopes db.
Proof.
  induction 1 as [issued orchs Hi Ho|db db' _ [Hpos Henv] Hstep].
  - split; [intros r Hr; inversion Hr|]. intros id b Hb. simpl in *.
    destruct (Hi id b Hb) as (? & ? & ? & ?). done.
  - destruct Hstep as [db cid now c db' res Hfresh Hex].
    destruct (execute_cases db cid now c Hpos db' res Hfresh Hex)
      as [(-> & _)|(-> & _ & Hamt & _ & b & Hb & Hw)]; [done|].
    split; [|by apply (append_within db b)].
    intros r. unfold append_row. simpl. rewrite elem_of_app, list_elem_of_singleton.
    intros [?| ->]; [by apply Hpos|done].
Qed.

(** C2. The ledger never overspends: in every state reached by recording consumptions, in
    any order and with any retries, the requests, worker invocations and execution time of
    each issued budget stay within its envelope. *)
Theorem ledger_never_overspends db id b :
  reachable db -> db.(Db.issued) !! id = Some b ->
  sum_of "REQUEST" (budget_rows db id) <= b.(IssuedBudgetRecord.max_requests)
  /\ sum_of "WORKER_INVOCATION" (budget_rows db id) <= b.(IssuedBudgetRecord.max_tool_calls)
  /\ sum_of "EXECUTION_TIME" (budget_rows db id) <= b.(IssuedBudgetRecord.max_runtime_ms).
Proof. intros Hr Hb. apply reachable_invariant in Hr as [_ Henv]. by apply Henv. Qed.

Definition sample_budget : IssuedBudgetRecord.t :=
  IssuedBudgetRecord.mk "b1" (Some "run1") 3 1 1000 1 0.

Definition sample_db (rows : list BudgetConsumptionRecord.t) : Db.t :=
  Db.mk {[ "b1" := sample_budget ]} ∅ rows.

Definition sample_command (amount : Z) (request_id : option string)
    : RecordBudgetConsumptionCommand.t :=
  RecordBudgetConsumptionCommand.mk "b1" (Some "run1") "REQUEST" amount "count" "test" None
    request_id None.

Lemma sample_empty_reachable : reachable (sample_db []).
Proof.
  apply reach_init.
  - intros id b. rewrite lookup_singleton_Some. intros [<- <-]. simpl. repeat split; lia.
  - intros run o. by rewrite lookup_empty.
Defined.

Lemma ledger_never_overspends_witness :
  exists db, reachable db /\ sum_of "REQUEST" (budget_rows db "b1") = 2
    /\ sum_of "REQUEST" (budget_rows db "b1") <= 3.
Proof.
  destruct (execute (sample_db []) "c1" 0 (sample_command 2 (Some "q1"))) as [[db res]|e] eqn:E;
    [|discriminate].
  assert (reachable db) as Hr.
  { eapply reach_step; [exact sample_empty_reachable|].
    eapply step_execute; [|exact E]. intros r Hr. inversion Hr. }
  vm_compute in E. injection E as <- <-. eexists. split; [exact Hr|]. split; [reflexivity|].
  exact (proj1 (ledger_never_overspends _ "b1" sample_budget Hr eq_refl)).
Defined.

Lemma same_request_self cid now c :
  is_Some c.(RecordBudgetConsumptionCommand.request_id) ->
  same_request c.(RecordBudgetConsumptionCommand.request_id)
    c.(RecordBudgetConsumptionCommand.resource_type) (record_of cid now c) = true.
Proof.
  intros H. unfold same_request. simpl.
  by rewrite !bool_decide_true, String.eqb_refl.
Qed.

Lemma duplicate_after db cid now c db' res :
  reachable db -> fresh_id db cid -> is_Some c.(RecordBudgetConsumptionCommand.request_id) ->
  execute db cid now c = Ok (db', res) -> is_duplicate db' c = true.
Proof.
  intros Hr Hfresh Hreq Hex. apply reachable_invariant in Hr as [Hpos _].
  destruct (execute_cases db cid now c Hpos db' res Hfresh Hex) as [(-> & Hd & _)|(-> & _)];
    [done|]. unfold is_duplicate. rewrite budget_rows_append. simpl.
  rewrite String.eqb_refl, existsb_app. simpl. rewrite same_request_self by done.
  by rewrite orb_true_r.
Qed.

(** Recording is idempotent per request: once a consumption with a request id has been
    recorded, every later execution of the command that returns reports it as already
    recorded, adds no row and reports the same usage. *)
Theorem consumption_is_idempotent db cid now c db1 res1 cid' now' db2 res2 :
  reachable db -> fresh_id db cid -> fresh_id db1 cid' ->
  is_Some c.(RecordBudgetConsumptionCommand.request_id) ->
  execute db cid now c = Ok (db1, res1) ->
  execute db1 cid' now' c = Ok (db2, res2) ->
  db2 = db1
  /\ res2 = RecordBudgetConsumptionResult.mk None true
              res1.(RecordBudgetConsumptionResult.usage).
Proof.
  intros Hr Hf Hf' Hreq H1 H2.
  assert (reachable db1) as Hr1 by (eapply reach_step; [done|by econstructor]).
  pose proof (duplicate_after _ _ _ _ _ _ Hr Hf Hreq H1) as Hdup.
  apply reachable_invariant in Hr as [Hpos _]. apply reachable_invariant in Hr1 as [Hpos1 _].
  destruct (execute_cases db1 cid' now' c Hpos1 db2 res2 Hf' H2)
    as [(-> & _ & ->)|(_ & Hn & _)]; [|congruence]. split; [done|]. f_equal.
  destruct (execute_cases db cid now c Hpos db1 res1 Hf H1)
    as [(-> & _ & ->)|(-> & _ & _ & -> & _)]; done.
Qed.

Lemma consumption_is_idempotent_witness :
  exists db1 res1 db2, execute (sample_db []) "c1" 0 (sample_command 2 (Some "q1")) = Ok (db1, res1)
    /\ execute db1 "c2" 5 (sample_command 2 (Some "q1"))
       = Ok (db2, RecordBudgetConsumptionResult.mk None true (BudgetUsage.mk 2 0 0 0))
    /\ db2 = db1.
Proof.
  destruct (execute (sample_db []) "c1" 0 (sample_command 2 (Some "q1"))) as [[db1 res1]|e] eqn:E1;
    [|discriminate].
  destruct (execute db1 "c2" 5 (sample_command 2 (Some "q1"))) as [[db2 res2]|e] eqn:E2;
    [|vm_compute in E1; injection E1 as <- <-; discriminate].
  assert (fresh_id (sample_db []) "c1") as F1 by (intros r Hr; inversion Hr).
  assert (fresh_id db1 "c2") as F2.
  { clear E2. vm_compute in E1. injection E1 as <- _. intros r Hr.
    apply list_elem_of_singleton in Hr as ->. discriminate. }
  destruct (consumption_is_idempotent (sample_db []) "c1" 0 (sample_command 2 (Some "q1")) db1 res1
    "c2" 5 db2 res2 sample_empty_reachable F1 F2 (mk_is_Some (Some "q1") "q1" eq_refl) E1 E2) as [-> ->].
  exists db1, res1, db1. split; [reflexivity|]. split; [|reflexivity]. rewrite E2.
  vm_compute in E1. injection E1 as _ <-. reflexivity.
Defined.

Lemma insert_accepts db cid now c b :
  valid_command db cid now c b -> fresh_id db cid -> is_duplicate db c = false ->
  insert db (record_of cid now c) = Ok (append_row db (record_of cid now c)).
Proof.
  intros (Hb & Hid & Hrun & _ & Hint) Hf Hd. unfold insert.
  change (BudgetConsumptionRecord.amount (record_of cid now c))
    with (RecordBudgetConsumptionCommand.amount c). rewrite Hint. cbn [negb].
  rewrite (no_conflict db (record_of cid now c) Hf Hd).
  assert (foreign_key_holds db (record_of cid now c) = true) as ->; [|done].
  unfold foreign_key_holds. simpl. rewrite <-Hrun, Hb.
  destruct (IssuedBudgetRecord.research_run_id b) eqn:E; [|done]. by apply bool_decide_eq_true.
Qed.

Lemma result_unit_dec (x : result unit) : x = Ok tt \/ exists e, x = Raise e.
Proof. destruct x as [[]|e]; eauto. Qed.

Lemma insert_within_allowance_decides db cid now c b :
  all_positive db -> valid_command db cid now c b -> fresh_id db cid ->
  is_duplicate db c = false ->
  (within_allowance db b (record_of cid now c) ->
     insert_within_allowance db (record_of cid now c) = Ok (append_row db (record_of cid now c)))
  /\ (~ within_allowance db b (record_of cid now c) ->
     insert_within_allowance db (record_of cid now c) = Raise BudgetOverspendError).
Proof.
  intros Hpos Hv Hf Hd. pose proof (insert_accepts db cid now c b Hv Hf Hd) as Hins.
  destruct Hv as (Hb & Hid & Hrun & Hr & Hint).
  pose proof (post_init_consumption _ _ Hr) as (_ & _ & Hblank).
  set (r := record_of cid now c) in *. unfold insert_within_allowance.
  change (BudgetConsumptionRecord.budget_id r) with (RecordBudgetConsumptionCommand.budget_id c) in *.
  rewrite Hb, Hid, String.eqb_refl. cbn [negb].
  rewrite bool_decide_true by (by rewrite Hrun). cbn [negb].
  destruct (list_for_budget_ok db _ Hblank) as (l & Hl & Hp). rewrite Hl. cbn [mbind result_bind].
  rewrite (existsb_perm _ _ _ Hp). change (existsb _ (budget_rows db _)) with (is_duplicate db c).
  rewrite Hd. assert (positive l) as Hl' by (intros x; rewrite Hp; by apply budget_rows_positive).
  pose proof (assert_within_allowance_iff db b r l Hl' Hp) as Hiff.
  pose proof (assert_raises db b r l) as Hraise.
  destruct (lookup_orchestration db r) as [o|e]; cbn [mbind result_bind] in *.
  - destruct (result_unit_dec (assert_within_allowance b l r o)) as [E|[e E]];
      rewrite E in *; cbn [mbind result_bind]; split; intros Hw.
    + by rewrite Hins.
    + by destruct Hw; apply Hiff.
    + by apply Hiff in Hw.
    + by rewrite (Hraise e).
  - split; intros Hw; [by apply Hiff in Hw|by rewrite (Hraise e)].
Qed.

(** The allowance decides, exactly: a valid command for a new request on a checked
    resource is recorded, with its usage, precisely when the amount fits what is left of the
    issued envelope (or, for a model call, of the run's model-call allowance), and is
    otherwise rejected without a trace; resources without an allowance, such as artifact
    bytes, are always rejected. *)
Theorem consumption_accepted_iff db cid now c b :
  reachable db -> valid_command db cid now c b -> fresh_id db cid -> is_duplicate db c = false ->
  mem c.(RecordBudgetConsumptionCommand.resource_type) UNCHECKED_RESOURCES = false ->
  (within_allowance db b (record_of cid now c) ->
     execute db cid now c
     = Ok (append_row db (record_of cid now c),
           RecordBudgetConsumptionResult.mk (Some cid) false
             (usage_of (budget_rows (append_row db (record_of cid now c))
                          c.(RecordBudgetConsumptionCommand.budget_id)))))
  /\ (~ within_allowance db b (record_of cid now c) ->
      execute db cid now c = Raise BudgetConsumptionRejected)
  /\ (c.(RecordBudgetConsumptionCommand.resource_type) = "ARTIFACT_BYTES" ->
      ~ within_allowance db b (record_of cid now c)).
Proof.
  intros Hreach Hv Hf Hd Hun. apply reachable_invariant in Hreach as [Hpos _].
  pose proof (insert_within_allowance_decides db cid now c b Hpos Hv Hf Hd) as [Hyes Hno].
  assert (forall x, insert_within_allowance db (record_of cid now c) = x ->
    execute db cid now c = match x with
      | Ok db' => after ← list_for_budget db' (RecordBudgetConsumptionCommand.budget_id c);
                  usage ← usage_from_consumptions after;
                  Ok (db', RecordBudgetConsumptionResult.mk (Some cid) false usage)
      | Raise BudgetOverspendError => Raise BudgetConsumptionRejected
      | Raise _ => execute db cid now c
      end) as Hex.
  { intros x Hx. destruct Hv as (Hb & Hid & Hrun & Hr & Hint).
    pose proof (post_init_consumption _ _ Hr) as (_ & Hamt & Hblank). unfold execute.
    change (BudgetConsumptionRecord.budget_id _)
      with (RecordBudgetConsumptionCommand.budget_id c) in Hblank.
    rewrite (proj2 (data_opaque_id_ok _ _) (conj eq_refl Hblank)). cbn [mbind result_bind].
    rewrite Hb, Hrun, (bool_decide_true (_ = _)) by done. cbn [negb]. rewrite andb_false_r.
    rewrite Hr. cbn [mbind result_bind].
    destruct (list_for_budget_ok db _ Hblank) as (l & Hl & Hp). rewrite Hl.
    cbn [mbind result_bind]. rewrite (existsb_perm _ _ _ Hp).
    change (existsb _ (budget_rows db _)) with (is_duplicate db c). rewrite Hd, Hun, Hx.
    destruct x as [db'|[]]; done. }
  split; [|split].
  - intros Hw. rewrite (Hex _ (Hyes Hw)). destruct Hv as (_ & _ & _ & Hr & _).
    pose proof (post_init_consumption _ _ Hr) as (_ & Hamt & Hblank).
    destruct (list_for_budget_ok (append_row db (record_of cid now c)) _ Hblank)
      as (l & Hl & Hp). simpl in Hl. rewrite Hl. cbn [mbind result_bind].
    rewrite usage_from_consumptions_sum; [cbn [mbind result_bind]; unfold usage_of; by rewrite Hp|].
    intros x. rewrite Hp. apply budget_rows_positive. intros y. unfold append_row. simpl.
    rewrite elem_of_app, list_elem_of_singleton. intros [?| ->]; [by apply Hpos|done].
  - intros Hw. by rewrite (Hex _ (Hno Hw)).
  - intros K. unfold within_allowance. simpl. rewrite K. naive_solver.
Qed.

Lemma consumption_accepted_iff_witness :
  execute (sample_db []) "c1" 0 (sample_command 3 None)
  = Ok (append_row (sample_db []) (record_of "c1" 0 (sample_command 3 None)),
        RecordBudgetConsumptionResult.mk (Some "c1") false (BudgetUsage.mk 3 0 0 0)).
Proof.
  refine (proj1 (consumption_accepted_iff (sample_db []) "c1" 0 (sample_command 3 None)
    sample_budget sample_empty_reachable _ _ eq_refl eq_refl) _).
  - repeat split.
  - intros r Hr. inversion Hr.
  - left. split; [reflexivity|]. vm_compute. discriminate.
Defined.
