(* ===== verification/Lease.v ===== *)
(** * Orchestration leases and fencing

    The lease operations of [PostgresResearchOrchestrationRepository]
    ([data/postgres/repositories.py]) and the fenced wrappers of
    [application/lease_fencing.py].  The [research_orchestration] table is a map
    from run id to row; one [UPDATE ... WHERE] is one function, [server_now] the
    database clock it reads.  A time to live is a whole number of seconds. *)
From S2P Require Import Prelude Records.

Abbreviation row := ResearchOrchestrationRecord.t.
Abbreviation table := (gmap string ResearchOrchestrationRecord.t).

(** [data/records.py:2430-2436 LeaseAcquireOutcome] *)
Module LeaseAcquireOutcome.
Inductive t : Set :=
  | ACQUIRED | DENIED_TERMINAL | DENIED_HELD_BY_OTHER | NOT_FOUND.
#[global] Instance eq_dec : EqDecision t.
Proof. solve_decision. Defined.
Definition value (x : t) : string :=
  match x with
  | ACQUIRED => "ACQUIRED" | DENIED_TERMINAL => "DENIED_TERMINAL"
  | DENIED_HELD_BY_OTHER => "DENIED_HELD_BY_OTHER" | NOT_FOUND => "NOT_FOUND"
  end.
End LeaseAcquireOutcome.

(** [data/records.py:2510-2521 LeaseAcquireResult] *)
Module LeaseAcquireResult.
Record t : Set := mk { outcome : LeaseAcquireOutcome.t; record : option row }.

Definition post_init (x : t) : result t :=
  raise_if bool_decide (x.(outcome) = LeaseAcquireOutcome.ACQUIRED)
           && bool_decide (x.(record) = None)
  as PersistenceInputError;;
  Ok x.
End LeaseAcquireResult.

(** Timing in whole seconds.  [application/orchestration_lease.py:17-33 LeaseConfig] *)
Module LeaseConfig.
Record t : Set := mk { heartbeat_interval_seconds : Z; lease_ttl_seconds : Z }.

Definition post_init (x : t) : result t :=
  raise_if x.(heartbeat_interval_seconds) <=? 0 as ValueError;;
  raise_if x.(lease_ttl_seconds) <=? 0 as ValueError;;
  raise_if x.(lease_ttl_seconds) <=? x.(heartbeat_interval_seconds) as ValueError;;
  Ok x.
End LeaseConfig.

(** SQL comparison with a column that may be null: null never satisfies it. *)
Definition owned_by (owner : string) (r : row) : bool :=
  bool_decide (r.(ResearchOrchestrationRecord.owner_runtime_instance_id) = Some owner).

Definition unowned (r : row) : bool :=
  bool_decide (r.(ResearchOrchestrationRecord.owner_runtime_instance_id) = None).

Definition expired (now : Z) (r : row) : bool :=
  match r.(ResearchOrchestrationRecord.lease_expires_at) with
  | None => false
  | Some at_ => at_ <? now
  end.

Definition at_epoch (epoch : Z) (r : row) : bool :=
  r.(ResearchOrchestrationRecord.lease_epoch) =? epoch.

Definition terminal (r : row) : bool :=
  is_terminal_state r.(ResearchOrchestrationRecord.state).

(** All integer columns fit the 32 bits of their type. *)
Definition columns_fit (r : row) : bool :=
  forallb is_int4
    [ r.(ResearchOrchestrationRecord.cycle_number); r.(ResearchOrchestrationRecord.max_cycles);
      r.(ResearchOrchestrationRecord.max_experiments);
      r.(ResearchOrchestrationRecord.max_model_calls);
      r.(ResearchOrchestrationRecord.max_worker_invocations);
      r.(ResearchOrchestrationRecord.max_elapsed_ms);
      r.(ResearchOrchestrationRecord.max_selected_opportunities);
      r.(ResearchOrchestrationRecord.max_runtime_fallback);
      r.(ResearchOrchestrationRecord.side_effect_ceiling);
      r.(ResearchOrchestrationRecord.lease_epoch) ].

(** The row [WHERE research_run_id = run AND cond] selects. *)
Definition select_row (t : table) (run : string) (cond : row -> bool) : option row :=
  match t !! run with
  | Some r => if cond r then Some r else None
  | None => None
  end.

(** [data/postgres/repositories.py:2735-2815 save] *)
Definition save (server_now : Z) (t : table) (record : row)
    (expect_owner : option string) (expect_epoch : option Z) (require_unowned_or_expired : bool)
    : result table :=
  let run := record.(ResearchOrchestrationRecord.research_run_id) in
  _ ← data_opaque_id run;
  raise_if negb (Bool.eqb (bool_decide (expect_owner = None)) (bool_decide (expect_epoch = None)))
  as PersistenceInputError;;
  let fenced_by_epoch := bool_decide (is_Some expect_owner) in
  raise_if fenced_by_epoch && require_unowned_or_expired as PersistenceInputError;;
  let cond r :=
    negb (terminal r)
    && match expect_owner, expect_epoch with
       | Some o, Some e => owned_by o r && at_epoch e r
       | _, _ => true
       end
    && (negb require_unowned_or_expired || unowned r || expired server_now r) in
  match select_row t run cond with
  | Some _ =>
      raise_if negb (columns_fit record) as PersistenceError;;
      Ok (<[run := record]> t)
  | None =>
      match t !! run with
      | None => Raise PersistenceError
      | Some current =>
          raise_if terminal current as TerminalOrchestrationStateError;;
          raise_if fenced_by_epoch as LeaseFencingError;;
          raise_if require_unowned_or_expired as LeaseFencingError;;
          Raise PersistenceError
      end
  end.

(** [data/postgres/repositories.py:2817-2872 acquire_lease] *)
Definition acquire_lease (server_now : Z) (t : table) (run owner : string) (ttl_seconds : Z)
    : result (table * LeaseAcquireResult.t) :=
  _ ← data_opaque_id run;
  raise_if Str.is_blank owner as PersistenceInputError;;
  raise_if ttl_seconds <=? 0 as PersistenceInputError;;
  ttl ← DateTime.seconds ttl_seconds;
  expires_at ← DateTime.add server_now ttl;
  let cond r := negb (terminal r) && (unowned r || owned_by owner r || expired server_now r) in
  match select_row t run cond with
  | Some r =>
      let epoch := r.(ResearchOrchestrationRecord.lease_epoch) + 1 in
      raise_if negb (is_int4 epoch) as PersistenceError;;
      let r' := ResearchOrchestrationRecord.set_lease r (Some owner) epoch (Some expires_at)
                  server_now in
      res ← LeaseAcquireResult.post_init
              (LeaseAcquireResult.mk LeaseAcquireOutcome.ACQUIRED (Some r'));
      Ok (<[run := r']> t, res)
  | None =>
      let outcome :=
        match t !! run with
        | None => LeaseAcquireOutcome.NOT_FOUND
        | Some current =>
            if terminal current then LeaseAcquireOutcome.DENIED_TERMINAL
            else LeaseAcquireOutcome.DENIED_HELD_BY_OTHER
        end in
      res ← LeaseAcquireResult.post_init (LeaseAcquireResult.mk outcome None);
      Ok (t, res)
  end.

(** [data/postgres/repositories.py:2874-2909 renew_lease] *)
Definition renew_lease (server_now : Z) (t : table) (run owner : string)
    (expected_lease_epoch ttl_seconds : Z) : result (table * bool) :=
  _ ← data_opaque_id run;
  raise_if Str.is_blank owner as PersistenceInputError;;
  raise_if ttl_seconds <=? 0 as PersistenceInputError;;
  ttl ← DateTime.seconds ttl_seconds;
  expires_at ← DateTime.add server_now ttl;
  let cond r := owned_by owner r && at_epoch expected_lease_epoch r && negb (terminal r) in
  match select_row t run cond with
  | Some r =>
      Ok (<[run := ResearchOrchestrationRecord.set_lease r
                     r.(ResearchOrchestrationRecord.owner_runtime_instance_id)
                     r.(ResearchOrchestrationRecord.lease_epoch) (Some expires_at)
                     server_now]> t, true)
  | None => Ok (t, false)
  end.

(** [data/postgres/repositories.py:2911-2939 release_lease] *)
Definition release_lease (server_now : Z) (t : table) (run owner : string)
    (expected_lease_epoch : Z) : result (table * bool) :=
  _ ← data_opaque_id run;
  raise_if Str.is_blank owner as PersistenceInputError;;
  let cond r := owned_by owner r && at_epoch expected_lease_epoch r in
  match select_row t run cond with
  | Some r =>
      Ok (<[run := ResearchOrchestrationRecord.set_lease r None
                     r.(ResearchOrchestrationRecord.lease_epoch) None server_now]> t, true)
  | None => Ok (t, false)
  end.

(** ** Fenced wrappers *)

(** The remembered lease: [_owner_runtime_instance_id] and [_lease_epoch]. *)
Module Token.
Record t : Set := mk { owner : string; epoch : Z }.
End Token.

(** [kwargs.setdefault]: a keyword the caller passes, even as [None], is kept.
    [application/lease_fencing.py:29-32 FencedOrchestrationRepository.save] *)
Definition fenced_save (server_now : Z) (t : table) (token : Token.t) (record : row)
    (expect_owner : option (option string)) (expect_epoch : option (option Z))
    (require_unowned_or_expired : bool) : result table :=
  save server_now t record (default (Some token.(Token.owner)) expect_owner)
    (default (Some token.(Token.epoch)) expect_epoch) require_unowned_or_expired.

(** [inner] is the wrapped worker port.
    [application/lease_fencing.py:113-140 LeaseFencedWorkerPort.invoke] *)
Definition invoke {A} (t : table) (run : string) (token : Token.t) (inner : result A) : result A :=
  match data_opaque_id run with
  | Raise _ => Raise LeaseFencingError
  | Ok _ =>
      match t !! run with
      | None => Raise LeaseFencingError
      | Some record =>
          raise_if negb (owned_by token.(Token.owner) record)
                   || negb (at_epoch token.(Token.epoch) record)
          as LeaseFencingError;;
          inner
      end
  end.

(** ** Executions

    What the processes of a deployment do to the table: take, renew and give back leases,
    and save records, through the fenced repository or without the fence, as the operator
    commands and the reconciliation do.  A saved record is a copy of a row that was read at
    some time; [may_save current record] restricts which record may replace the row
    [current].  A step may grant a lease. *)
Module Grant.
Record t : Set := mk { run : string; token : Token.t }.
End Grant.

Definition granted (run owner : string) (res : LeaseAcquireResult.t) : list Grant.t :=
  match res.(LeaseAcquireResult.outcome), res.(LeaseAcquireResult.record) with
  | LeaseAcquireOutcome.ACQUIRED, Some r =>
      [Grant.mk run (Token.mk owner r.(ResearchOrchestrationRecord.lease_epoch))]
  | _, _ => []
  end.

(** A row that is owned has an expiry. *)
Definition dated_row (r : row) : Prop :=
  r.(ResearchOrchestrationRecord.owner_runtime_instance_id) ≠ None ->
  is_Some r.(ResearchOrchestrationRecord.lease_expires_at).

(** Any record, as old as may be. *)
Definition any_record (current record : row) : Prop := dated_row record.

(** A record that was read since the latest grant: it carries the epoch of the row it replaces. *)
Definition same_epoch (current record : row) : Prop :=
  record.(ResearchOrchestrationRecord.lease_epoch)
  = current.(ResearchOrchestrationRecord.lease_epoch).

Inductive step (may_save : row -> row -> Prop) : table -> list Grant.t -> table -> Prop :=
  | step_acquire now t run owner ttl t' res :
      acquire_lease now t run owner ttl = Ok (t', res) ->
      step may_save t (granted run owner res) t'
  | step_renew now t run owner epoch ttl t' b :
      renew_lease now t run owner epoch ttl = Ok (t', b) -> step may_save t [] t'
  | step_release now t run owner epoch t' b :
      release_lease now t run owner epoch = Ok (t', b) -> step may_save t [] t'
  | step_save now t record current expect_owner expect_epoch req t' :
      t !! record.(ResearchOrchestrationRecord.research_run_id) = Some current ->
      may_save current record ->
      save now t record expect_owner expect_epoch req = Ok t' -> step may_save t [] t'.

Inductive trace (may_save : row -> row -> Prop) : table -> list Grant.t -> table -> Prop :=
  | trace_nil t : trace may_save t [] t
  | trace_cons t gs t1 gs' t2 :
      step may_save t gs t1 -> trace may_save t1 gs' t2 -> trace may_save t (gs ++ gs') t2.

(** ** How one row evolves *)

Definition same_conclusion (r r' : row) : Prop :=
  r'.(ResearchOrchestrationRecord.state) = r.(ResearchOrchestrationRecord.state)
  /\ r'.(ResearchOrchestrationRecord.stop_reason) = r.(ResearchOrchestrationRecord.stop_reason).

Definition keeps_epoch (r r' : row) : Prop :=
  r'.(ResearchOrchestrationRecord.lease_epoch) = r.(ResearchOrchestrationRecord.lease_epoch)
  /\ (terminal r = true -> same_conclusion r r').

Definition next_lease (run : string) (r r' : row) (gs : list Grant.t) : Prop :=
  exists owner,
    gs = [Grant.mk run (Token.mk owner (r.(ResearchOrchestrationRecord.lease_epoch) + 1))]
    /\ terminal r = false
    /\ r'.(ResearchOrchestrationRecord.lease_epoch)
       = r.(ResearchOrchestrationRecord.lease_epoch) + 1
    /\ r'.(ResearchOrchestrationRecord.owner_runtime_instance_id) = Some owner.

Definition evolves (run : string) (r r' : row) (gs : list Grant.t) : Prop :=
  (gs = [] /\ keeps_epoch r r')
  \/ (exists other, other <> run /\ Forall (fun g => g.(Grant.run) = other) gs /\ r' = r)
  \/ next_lease run r r' gs.

Lemma keeps_epoch_refl r : keeps_epoch r r.
Proof. by repeat split. Qed.

Lemma select_row_Some t run cond r :
  select_row t run cond = Some r <-> t !! run = Some r /\ cond r = true.
Proof.
  unfold select_row. destruct (t !! run) as [r'|]; [|naive_solver].
  destruct (cond r') eqn:E; (split; [intros [= <-]|intros [[= <-] ?]]); congruence || done.
Qed.

Lemma save_ok now t record eo ee req t' :
  save now t record eo ee req = Ok t' ->
  exists cur, t !! record.(ResearchOrchestrationRecord.research_run_id) = Some cur
  /\ terminal cur = false
  /\ (forall o e, eo = Some o -> ee = Some e -> owned_by o cur = true /\ at_epoch e cur = true)
  /\ t' = <[record.(ResearchOrchestrationRecord.research_run_id) := record]> t.
Proof.
  unfold save. rewrite bind_ok. intros (? & _ & H). rewrite !raise_if_ok in H.
  destruct H as (_ & _ & H). destruct (select_row _ _ _) as [cur|] eqn:E.
  - rewrite raise_if_ok in H. destruct H as [_ [= <-]]. apply select_row_Some in E as [Hc Hcond].
    exists cur. rewrite !andb_true_iff, negb_true_iff in Hcond. destruct Hcond as [[Ht Hf] _].
    split; [done|]. split; [done|]. split; [|done]. intros o e -> ->.
    by rewrite andb_true_iff in Hf.
  - destruct (t !! _); [|done]. rewrite !raise_if_ok in H. naive_solver.
Qed.

Lemma acquire_ok now t run owner ttl t' res :
  acquire_lease now t run owner ttl = Ok (t', res) ->
  (exists r expires, t !! run = Some r /\ terminal r = false
     /\ (unowned r || owned_by owner r || expired now r) = true
     /\ let r' := ResearchOrchestrationRecord.set_lease r (Some owner)
                    (r.(ResearchOrchestrationRecord.lease_epoch) + 1) (Some expires) now in
        t' = <[run := r']> t
        /\ res = LeaseAcquireResult.mk LeaseAcquireOutcome.ACQUIRED (Some r'))
  \/ (t' = t /\ exists o, res = LeaseAcquireResult.mk o None /\ o <> LeaseAcquireOutcome.ACQUIRED
      /\ (forall r, t !! run = Some r ->
            negb (terminal r) && (unowned r || owned_by owner r || expired now r) = false
            /\ o = if terminal r then LeaseAcquireOutcome.DENIED_TERMINAL
                   else LeaseAcquireOutcome.DENIED_HELD_BY_OTHER)).
Proof.
  unfold acquire_lease. rewrite bind_ok. intros (? & _ & H). rewrite !raise_if_ok in H.
  destruct H as (_ & _ & H). rewrite bind_ok in H. destruct H as (d & _ & H).
  rewrite bind_ok in H. destruct H as (ex & _ & H).
  destruct (select_row _ _ _) as [r|] eqn:E.
  - left. rewrite raise_if_ok in H. destruct H as [_ H]. simpl in H. injection H as <- <-.
    apply select_row_Some in E as [Hr Hc]. rewrite andb_true_iff, negb_true_iff in Hc.
    destruct Hc. by exists r, ex.
  - right. unfold select_row in E. destruct (t !! run) as [r|] eqn:Hr.
    + destruct (_ && _) eqn:Hc in E; [done|].
      destruct (terminal r) eqn:Ht; simpl in H; injection H as <- <-; (split; [done|]);
        (eexists; split; [done|]; split; [done|]; intros r' [= <-]; rewrite Ht; by rewrite ?Ht in Hc).
    + simpl in H. injection H as <- <-. split; [done|]. eexists.
      split; [done|]. split; [done|]. done.
Qed.

Lemma renew_ok now t run owner epoch ttl t' b :
  renew_lease now t run owner epoch ttl = Ok (t', b) ->
  (b = false /\ t' = t)
  \/ (b = true /\ exists r expires, t !! run = Some r /\ terminal r = false
      /\ t' = <[run := ResearchOrchestrationRecord.set_lease r
                  r.(ResearchOrchestrationRecord.owner_runtime_instance_id)
                  r.(ResearchOrchestrationRecord.lease_epoch) (Some expires) now]> t).
Proof.
  unfold renew_lease. rewrite bind_ok. intros (? & _ & H). rewrite !raise_if_ok in H.
  destruct H as (_ & _ & H). rewrite bind_ok in H. destruct H as (d & _ & H).
  rewrite bind_ok in H. destruct H as (ex & _ & H).
  destruct (select_row _ _ _) as [r|] eqn:E; injection H as <- <-; [right|by left].
  apply select_row_Some in E as [Hr Hc]. bool_prop. naive_solver.
Qed.

Lemma release_ok now t run owner epoch t' b :
  release_lease now t run owner epoch = Ok (t', b) ->
  (b = false /\ t' = t)
  \/ (b = true /\ exists r, t !! run = Some r
      /\ t' = <[run := ResearchOrchestrationRecord.set_lease r None
                  r.(ResearchOrchestrationRecord.lease_epoch) None now]> t).
Proof.
  unfold release_lease. rewrite bind_ok. intros (? & _ & H). rewrite !raise_if_ok in H.
  destruct H as (_ & H). destruct (select_row _ _ _) as [r|] eqn:E; injection H as <- <-;
    [right|by left]. apply select_row_Some in E as [Hr _]. split; [done|]. by exists r.
Qed.

Lemma evolves_insert (t : table) (key run : string) (new r : row) :
  t !! run = Some r ->
  (key = run -> keeps_epoch r new) ->
  exists r', (<[key := new]> t : table) !! run = Some r' /\ evolves run r r' [].
Proof.
  intros Hr Hk. rewrite lookup_insert. case_decide as E.
  - exists new. split; [done|]. left. auto.
  - exists r. split; [done|]. left. split; [done|apply keeps_epoch_refl].
Qed.

Lemma step_row t gs t' run r :
  step same_epoch t gs t' -> t !! run = Some r ->
  exists r', t' !! run = Some r' /\ evolves run r r' gs.
Proof.
  intros Hs Hr.
  destruct Hs as [now t key owner ttl t' res H|now t key owner e ttl t' b H
    |now t key owner e t' b H|now t rec cur eo ee req t' Hcur He H].
  - apply acquire_ok in H as [(r0 & ex & Hr0 & Ht & _ & -> & ->)|(-> & o & -> & Hno & _)].
    + rewrite lookup_insert. case_decide as E.
      * subst key. rewrite Hr in Hr0. injection Hr0 as <-. eexists. split; [done|].
        right; right. exists owner. done.
      * exists r. split; [done|]. right; left. exists key. unfold granted. simpl.
        repeat split; [congruence|by repeat constructor].
    + exists r. split; [done|]. left. unfold granted. simpl.
      split; [by destruct o|apply keeps_epoch_refl].
  - apply renew_ok in H as [(_ & ->)|(_ & r0 & ex & Hr0 & Ht & ->)].
    + exists r. split; [done|]. left. split; [done|apply keeps_epoch_refl].
    + apply evolves_insert; [done|]. intros ->. rewrite Hr in Hr0. injection Hr0 as <-.
      by repeat split.
  - apply release_ok in H as [(_ & ->)|(_ & r0 & Hr0 & ->)].
    + exists r. split; [done|]. left. split; [done|apply keeps_epoch_refl].
    + apply evolves_insert; [done|]. intros ->. rewrite Hr in Hr0. injection Hr0 as <-.
      by repeat split.
  - apply save_ok in H as (cur' & Hcur' & Ht & _ & ->). apply evolves_insert; [done|].
    intros E. rewrite E, Hr in *. injection Hcur' as <-. injection Hcur as <-.
    split; [exact He|]. congruence.
Qed.

(** Grants of one run in a trace lie above the epoch it starts from, in order. *)
Definition for_run (run : string) (gs : list Grant.t) : list Z :=
  (fun g => g.(Grant.token).(Token.epoch))
    <$> List.filter (fun g => (g.(Grant.run) =? run)%string) gs.

Lemma for_run_app run gs gs' : for_run run (gs ++ gs') = for_run run gs ++ for_run run gs'.
Proof. unfold for_run. by rewrite List.filter_app, fmap_app. Qed.

Lemma for_run_other run other gs :
  other <> run -> Forall (fun g => g.(Grant.run) = other) gs -> for_run run gs = [].
Proof.
  intros Hne. unfold for_run. induction 1 as [|g gs Hg _ IH]; simpl; [done|].
  rewrite Hg, (proj2 (String.eqb_neq _ _)) by done. done.
Qed.

Lemma evolves_epoch run r r' gs :
  evolves run r r' gs ->
  r.(ResearchOrchestrationRecord.lease_epoch) <= r'.(ResearchOrchestrationRecord.lease_epoch)
  /\ (forall e, e ∈ for_run run gs ->
        r.(ResearchOrchestrationRecord.lease_epoch) < e
          <= r'.(ResearchOrchestrationRecord.lease_epoch))
  /\ Sorted.StronglySorted Z.lt (for_run run gs)
  /\ (terminal r = true -> same_conclusion r r').
Proof.
  intros [[-> (E & Hs)]|[(other & Hne & Hg & ->)|(o & -> & Ht & E & _)]].
  - split; [lia|]. split; [intros e He; inversion He|]. split; [constructor|done].
  - rewrite (for_run_other run other gs) by done. split; [lia|].
    split; [intros e He; inversion He|]. split; [constructor|done].
  - unfold for_run. simpl. rewrite String.eqb_refl. simpl. split; [lia|].
    split; [intros e He%list_elem_of_singleton; lia|]. split; [repeat constructor|congruence].
Qed.

Lemma StronglySorted_app_between (l l' : list Z) m :
  Sorted.StronglySorted Z.lt l -> Sorted.StronglySorted Z.lt l' ->
  (forall x, x ∈ l -> x <= m) -> (forall y, y ∈ l' -> m < y) ->
  Sorted.StronglySorted Z.lt (l ++ l').
Proof.
  induction 1 as [|x l Hl IH Hx]; simpl; intros Hl' H1 H2; [done|]. constructor.
  - apply IH; [done|intros y Hy; apply H1; by right|done].
  - apply Forall_app. split; [done|]. rewrite Forall_forall. intros y Hy.
    assert (x <= m) by (apply H1; left). specialize (H2 y Hy). lia.
Qed.

Lemma trace_row t gs t' run r :
  trace same_epoch t gs t' -> t !! run = Some r ->
  exists r', t' !! run = Some r'
  /\ r.(ResearchOrchestrationRecord.lease_epoch) <= r'.(ResearchOrchestrationRecord.lease_epoch)
  /\ (forall e, e ∈ for_run run gs ->
        r.(ResearchOrchestrationRecord.lease_epoch) < e
          <= r'.(ResearchOrchestrationRecord.lease_epoch))
  /\ Sorted.StronglySorted Z.lt (for_run run gs)
  /\ (terminal r = true -> same_conclusion r r').
Proof.
  intros Htr. revert r. induction Htr as [t|t gs t1 gs' t2 Hs Htr IH]; intros r Hr.
  - exists r. split; [done|]. split; [lia|]. split; [intros ep Hep; inversion Hep|].
    split; [constructor|done].
  - destruct (step_row _ _ _ _ _ Hs Hr) as (r1 & Hr1 & Hev).
    apply evolves_epoch in Hev as (H1 & H2 & H3 & H4).
    destruct (IH r1 Hr1) as (r2 & Hr2 & K1 & K2 & K3 & K4). exists r2.
    split; [done|]. split; [lia|]. rewrite for_run_app. split; [|split].
    + intros e [He|He]%elem_of_app; [apply H2 in He; lia|apply K2 in He; lia].
    + apply (StronglySorted_app_between _ _ r1.(ResearchOrchestrationRecord.lease_epoch));
        [done|done|intros ep Hep; apply H2 in Hep; lia|intros ep Hep; apply K2 in Hep; lia].
    + intros Ht. destruct (H4 Ht) as [E1 E2]. unfold terminal in *.
      rewrite E1 in K4. destruct (K4 Ht) as [E3 E4]. split; congruence.
Qed.

(** ** Properties *)

(** Along any execution in which no saved record carries another epoch than the row it
    replaces, the epoch of a run never decreases, every grant carries a larger epoch than all
    earlier grants of that run, and once a run is terminal its state and stop reason never
    change again. *)
Theorem lease_epoch_monotone t gs t' run r :
  trace same_epoch t gs t' -> t !! run = Some r ->
  exists r', t' !! run = Some r'
  /\ r.(ResearchOrchestrationRecord.lease_epoch) <= r'.(ResearchOrchestrationRecord.lease_epoch)
  /\ Sorted.StronglySorted Z.lt (for_run run gs)
  /\ (terminal r = true -> same_conclusion r r').
Proof. intros Htr Hr. destruct (trace_row _ _ _ _ _ Htr Hr) as (r' & ? & ? & ? & ? & ?). eauto. Qed.

Lemma stale_epoch_rejected t run token cur record now :
  t !! run = Some cur -> token.(Token.epoch) < cur.(ResearchOrchestrationRecord.lease_epoch) ->
  record.(ResearchOrchestrationRecord.research_run_id) = run -> Str.is_blank run = false ->
  fenced_save now t token record None None false
  = Raise (if terminal cur then TerminalOrchestrationStateError else LeaseFencingError)
  /\ (forall A (inner : result A), invoke t run token inner = Raise LeaseFencingError).
Proof.
  intros Hcur Hlt Hrun Hb. assert (at_epoch (Token.epoch token) cur = false) as Hep.
  { unfold at_epoch. apply Z.eqb_neq. lia. } split.
  - unfold fenced_save, save. rewrite Hrun.
    rewrite (proj2 (data_opaque_id_ok _ _) (conj eq_refl Hb)). simpl. unfold select_row.
    rewrite Hcur, Hep, andb_false_r, andb_false_r. simpl. by destruct (terminal cur).
  - intros A inner. unfold invoke. rewrite (proj2 (data_opaque_id_ok _ _) (conj eq_refl Hb)).
    rewrite Hcur, Hep. by rewrite orb_true_r.
Qed.

(** C8. A stale owner is fenced: after a runtime was granted a lease, as soon as the run is
    granted again, the first lease can neither persist a checkpoint nor dispatch the worker,
    whatever happened before, in between or since: leases taken, renewed and given back, and
    saves of any process, fenced or not, provided that no save brings a record with another
    lease epoch than the row it replaces has at that moment.  The program does not ensure the
    proviso: an unfenced save of a record read before the second grant moves the epoch back,
    and the first token passes again ([unfenced_save_moves_epoch_back]). *)
Theorem stale_owner_is_fenced t0 gs1 t1 tok1 t2 gs2 t3 tok2 t4 gs3 t5 run r record now :
  trace same_epoch t0 gs1 t1 -> t0 !! run = Some r -> Str.is_blank run = false ->
  step same_epoch t1 [Grant.mk run tok1] t2 -> trace same_epoch t2 gs2 t3 ->
  step same_epoch t3 [Grant.mk run tok2] t4 -> trace same_epoch t4 gs3 t5 ->
  record.(ResearchOrchestrationRecord.research_run_id) = run ->
  (fenced_save now t5 tok1 record None None false = Raise LeaseFencingError
   \/ fenced_save now t5 tok1 record None None false = Raise TerminalOrchestrationStateError)
  /\ (forall A (inner : result A), invoke t5 run tok1 inner = Raise LeaseFencingError).
Proof.
  intros T1 Hr Hb S1 T2 S2 T3 Hrec.
  assert (forall tok, for_run run [Grant.mk run tok] = [tok.(Token.epoch)]) as Hone.
  { intros tok. unfold for_run. simpl. by rewrite String.eqb_refl. }
  destruct (trace_row _ _ _ _ _ T1 Hr) as (r1 & Hr1 & _).
  destruct (step_row _ _ _ _ _ S1 Hr1) as (r2 & Hr2 & E1%evolves_epoch).
  destruct (trace_row _ _ _ _ _ T2 Hr2) as (r3 & Hr3 & L23 & _).
  destruct (step_row _ _ _ _ _ S2 Hr3) as (r4 & Hr4 & E2%evolves_epoch).
  destruct (trace_row _ _ _ _ _ T3 Hr4) as (r5 & Hr5 & L45 & _).
  rewrite Hone in E1, E2. destruct E1 as (_ & E1 & _), E2 as (_ & E2 & _).
  specialize (E1 (Token.epoch tok1)). specialize (E2 (Token.epoch tok2)).
  rewrite list_elem_of_singleton in E1, E2. specialize (E1 eq_refl). specialize (E2 eq_refl).
  destruct (stale_epoch_rejected t5 run tok1 r5 record now Hr5 ltac:(lia) Hrec Hb) as [Hs Hi].
  split; [|done]. rewrite Hs. destruct (terminal r5); auto.
Qed.

(** A live lease excludes others: an acquisition succeeds exactly on a run that exists,
    is not terminal and is unowned, already the caller's or past its expiry; while another
    owner's lease has not expired it is denied as held and changes nothing. *)
Theorem acquire_respects_live_lease now t run owner ttl t' res r :
  acquire_lease now t run owner ttl = Ok (t', res) -> t !! run = Some r ->
  (res.(LeaseAcquireResult.outcome) = LeaseAcquireOutcome.ACQUIRED <->
     terminal r = false /\ (unowned r || owned_by owner r || expired now r) = true)
  /\ (forall other, terminal r = false -> owned_by other r = true -> other <> owner ->
        expired now r = false ->
        t' = t /\ res.(LeaseAcquireResult.outcome) = LeaseAcquireOutcome.DENIED_HELD_BY_OTHER).
Proof.
  intros H Hr.
  apply acquire_ok in H as [(r0 & ex & Hr0 & Ht & Hc & -> & ->)|(-> & o & -> & Hno & Hheld)]; simpl.
  - rewrite Hr in Hr0. injection Hr0 as <-. split; [done|]. intros other _ Ho Hne He. exfalso.
    unfold unowned, owned_by in *. rewrite He in Hc. bool_prop. naive_solver.
  - destruct (Hheld r Hr) as [Hc ->]. split.
    + split; [by destruct (terminal r)|]. intros [Ht Hc']. by rewrite Ht, Hc' in Hc.
    + intros other Ht _ _ _. by rewrite Ht.
Qed.

(** ** A lease can always be taken over *)

(** Every row that is owned has an expiry. *)
Definition dated (t : table) : Prop := forall run r, t !! run = Some r -> dated_row r.

Lemma dated_insert (t : table) run r : dated t -> dated_row r -> dated (<[run := r]> t).
Proof. intros Ht Hr key x. rewrite lookup_insert. case_decide; [by intros [= <-]|apply Ht]. Qed.

Lemma step_dated t gs t' : step any_record t gs t' -> dated t -> dated t'.
Proof.
  intros Hs Hd.
  destruct Hs as [now t key owner ttl t' res H|now t key owner e ttl t' b H
    |now t key owner e t' b H|now t rec cur eo ee req t' _ Hrec H].
  - apply acquire_ok in H as [(r & ex & _ & _ & _ & -> & _)|(-> & _)]; [|done].
    apply dated_insert; [done|]. intros _. by eexists.
  - apply renew_ok in H as [(_ & ->)|(_ & r & ex & _ & _ & ->)]; [done|].
    apply dated_insert; [done|]. intros _. by eexists.
  - apply release_ok in H as [(_ & ->)|(_ & r & _ & ->)]; [done|].
    apply dated_insert; [done|]. intros Hn. by destruct Hn.
  - apply save_ok in H as (_ & _ & _ & _ & ->). by apply dated_insert.
Qed.

Lemma trace_dated t gs t' : trace any_record t gs t' -> dated t -> dated t'.
Proof. induction 1; eauto using step_dated. Qed.

(** When the lease of a row is free to take. *)
Definition deadline (r : row) : Z :=
  default 0 r.(ResearchOrchestrationRecord.lease_expires_at).

Lemma takeable r now : dated_row r -> deadline r < now -> (unowned r || expired now r) = true.
Proof.
  unfold dated_row, unowned, expired, deadline. intros Hd Hn.
  destruct r.(ResearchOrchestrationRecord.owner_runtime_instance_id); [|done].
  destruct Hd as [x Hx]; [done|]. rewrite Hx in *. cbn in *. by apply Z.ltb_lt.
Qed.

(** C12. No owner blocks a run for ever: whatever the lease protocol did before, and whatever
    records were saved, fenced or not, however old, as long as one with an owner has an expiry (as
    every row read from such a table has), a run that has not
    concluded has a deadline after which every runtime that asks takes the lease over, with the
    next epoch, and the new owner's token passes the fence of the worker port at once. *)
Theorem abandoned_lease_is_recoverable t0 gs t run r owner ttl now :
  dated t0 -> trace any_record t0 gs t -> t !! run = Some r -> terminal r = false ->
  is_ok (data_opaque_id run) = true -> Str.is_blank owner = false ->
  0 < ttl -> is_ok (expires ← DateTime.seconds ttl; DateTime.add now expires) = true ->
  is_int4 (r.(ResearchOrchestrationRecord.lease_epoch) + 1) = true ->
  deadline r < now ->
  exists t' res,
    acquire_lease now t run owner ttl = Ok (t', res)
    /\ step any_record t [Grant.mk run (Token.mk owner (r.(ResearchOrchestrationRecord.lease_epoch) + 1))] t'
    /\ res.(LeaseAcquireResult.outcome) = LeaseAcquireOutcome.ACQUIRED
    /\ forall A (inner : result A),
         invoke t' run (Token.mk owner (r.(ResearchOrchestrationRecord.lease_epoch) + 1)) inner = inner.
Proof.
  intros Hd Htr Hr Ht Hid Hown Httl Hclock Hep Hnow.
  pose proof (takeable _ _ (trace_dated _ _ _ Htr Hd _ _ Hr) Hnow) as Htake.
  assert (Hfree : negb (terminal r) && (unowned r || owned_by owner r || expired now r) = true).
  { rewrite Ht. destruct (unowned r), (owned_by owner r); try done. }
  destruct (data_opaque_id run) as [key|] eqn:Ekey; [|done].
  destruct (DateTime.seconds ttl) as [d|] eqn:Ed; [|done]. cbn [mbind result_bind] in Hclock.
  destruct (DateTime.add now d) as [ex|] eqn:Eex; [|done].
  assert (Ha : exists t' res, acquire_lease now t run owner ttl = Ok (t', res)
             /\ granted run owner res
                = [Grant.mk run (Token.mk owner (r.(ResearchOrchestrationRecord.lease_epoch) + 1))]
             /\ res.(LeaseAcquireResult.outcome) = LeaseAcquireOutcome.ACQUIRED
             /\ t' = <[run := ResearchOrchestrationRecord.set_lease r (Some owner)
                                (r.(ResearchOrchestrationRecord.lease_epoch) + 1) (Some ex) now]> t).
  { unfold acquire_lease. rewrite Ekey. cbn [mbind result_bind].
    rewrite Hown, (proj2 (Z.leb_gt _ _) Httl), Ed. cbn [mbind result_bind]. rewrite Eex.
    cbn [mbind result_bind]. unfold select_row. rewrite Hr. cbv beta. rewrite Hfree. cbv zeta.
    rewrite Hep. cbn. do 2 eexists. by split_and!. }
  destruct Ha as (t' & res & Ha & Hg & Ho & ->). eexists _, res. split; [exact Ha|].
  split; [rewrite <-Hg; by eapply step_acquire|]. split; [done|].
  intros A inner. unfold invoke. rewrite Ekey, lookup_insert. case_decide; [|done].
  unfold owned_by, at_epoch. cbn. by rewrite bool_decide_true, Z.eqb_refl by done.
Qed.

(** ** Witnesses *)

Definition sample_row (owner : option string) (epoch : Z) (expires : option Z) : row :=
  ResearchOrchestrationRecord.mk "run1" "RUNNING" 1 "running" "v1" 5 5 5 5 1000 3 1 1 false
    0 0 0 "b1" "https://a.example" "question"
    "0123456789abcdef0123456789abcdef0123456789abcdef0123456789abcdef" "CYCLE_READY"
    None None None None None None None None None None None None owner epoch expires.

Definition sample_table : table := {[ "run1" := sample_row None 0 None ]}.

(** The database clock of the witnesses: 1000 seconds, and what a lease of 90 s adds. *)
Definition at_s (s : Z) : Z := (63000000000 + s) * 1000000.

Definition acquired (now : Z) (t : table) (owner : string) : table :=
  match acquire_lease now t "run1" owner 90 with Ok (t', _) => t' | Raise _ => t end.

Definition table_a : table := acquired (at_s 0) sample_table "A".
Definition table_b : table := acquired (at_s 200) table_a "B".

Definition result_of (owner : string) (epoch expires now : Z) : LeaseAcquireResult.t :=
  LeaseAcquireResult.mk LeaseAcquireOutcome.ACQUIRED
    (Some (ResearchOrchestrationRecord.set_lease (sample_row None 0 None) (Some owner) epoch
             (Some expires) now)).

Lemma step_a may_save : step may_save sample_table [Grant.mk "run1" (Token.mk "A" 1)] table_a.
Proof.
  exact (step_acquire may_save (at_s 0) sample_table "run1" "A" 90 table_a
    (result_of "A" 1 (at_s 90) (at_s 0)) eq_refl).
Defined.

Lemma step_b may_save : step may_save table_a [Grant.mk "run1" (Token.mk "B" 2)] table_b.
Proof.
  exact (step_acquire may_save (at_s 200) table_a "run1" "B" 90 table_b
    (result_of "B" 2 (at_s 290) (at_s 200)) eq_refl).
Defined.

Lemma lease_epoch_monotone_witness :
  exists r', table_b !! "run1" = Some r' /\ r'.(ResearchOrchestrationRecord.lease_epoch) = 2.
Proof.
  destruct (lease_epoch_monotone sample_table
    ([Grant.mk "run1" (Token.mk "A" 1)] ++ [Grant.mk "run1" (Token.mk "B" 2)] ++ []) table_b "run1"
    (sample_row None 0 None) (trace_cons _ _ _ _ _ _ (step_a _) (trace_cons _ _ _ _ _ _ (step_b _) (trace_nil _ _)))
    eq_refl) as (r' & Hr' & _).
  exists r'. split; [exact Hr'|]. vm_compute in Hr'. injection Hr' as <-. reflexivity.
Defined.

(** The operator pauses the run of the second owner, without the fence. *)
Definition paused_row : row :=
  ResearchOrchestrationRecord.set_lease (sample_row None 0 None) (Some "B") 2 (Some (at_s 290))
    (at_s 250).
Definition table_p : table :=
  match save (at_s 250) table_b paused_row None None false with Ok t => t | Raise _ => table_b end.

Lemma stale_owner_is_fenced_witness :
  invoke table_p "run1" (Token.mk "A" 1) (Ok tt) = Raise LeaseFencingError.
Proof.
  refine (proj2 (stale_owner_is_fenced sample_table [] sample_table (Token.mk "A" 1) table_a []
    table_a (Token.mk "B" 2) table_b ([] ++ []) table_p "run1" (sample_row None 0 None)
    (sample_row (Some "A") 1 None) (at_s 251) (trace_nil _ _) eq_refl eq_refl (step_a _)
    (trace_nil _ _) (step_b _) (trace_cons _ _ _ _ _ _ _ (trace_nil _ _)) eq_refl) unit (Ok tt)).
  refine (step_save _ (at_s 250) table_b paused_row
    (ResearchOrchestrationRecord.set_lease (sample_row None 0 None) (Some "B") 2 (Some (at_s 290))
       (at_s 200)) None None false table_p _ _ _); vm_compute; reflexivity.
Defined.

Lemma acquire_respects_live_lease_witness :
  acquired (at_s 50) table_a "B" = table_a.
Proof.
  refine (proj1 (proj2 (acquire_respects_live_lease (at_s 50) table_a "run1" "B" 90
    (acquired (at_s 50) table_a "B")
    (LeaseAcquireResult.mk LeaseAcquireOutcome.DENIED_HELD_BY_OTHER None)
    (ResearchOrchestrationRecord.set_lease (sample_row None 0 None) (Some "A") 1
       (Some (at_s 90)) (at_s 0)) eq_refl eq_refl) "A" eq_refl eq_refl _ eq_refl)).
  discriminate.
Defined.

Lemma abandoned_lease_is_recoverable_witness :
  exists t' res, acquire_lease (at_s 91) table_a "run1" "B" 90 = Ok (t', res)
    /\ invoke t' "run1" (Token.mk "B" 2) (Ok tt) = Ok tt.
Proof.
  destruct (abandoned_lease_is_recoverable sample_table ([Grant.mk "run1" (Token.mk "A" 1)] ++ [])
    table_a "run1"
    (ResearchOrchestrationRecord.set_lease (sample_row None 0 None) (Some "A") 1
       (Some (at_s 90)) (at_s 0)) "B" 90 (at_s 91)) as (t' & res & Ha & _ & _ & Hi);
    try reflexivity.
  - intros run r. unfold sample_table. rewrite lookup_singleton. case_decide; [|discriminate].
    intros [= <-] Hn. by destruct Hn.
  - exact (trace_cons _ _ _ _ _ _ (step_a _) (trace_nil _ _)).
  - exists t', res. split; [exact Ha|]. apply (Hi unit).
Defined.

(** ** What the proviso on saved records is needed for

    [save] writes the lease columns of the record it is given.  Without the fence a
    record read before a takeover moves the epoch back, and the old token passes again. *)
Example unfenced_save_moves_epoch_back :
  let stale := ResearchOrchestrationRecord.set_lease (sample_row None 0 None) (Some "A") 1
                 (Some (at_s 90)) (at_s 0) in
  exists t', save (at_s 201) table_b stale None None false = Ok t'
  /\ (ResearchOrchestrationRecord.lease_epoch <$> table_b !! "run1") = Some 2
  /\ (ResearchOrchestrationRecord.lease_epoch <$> t' !! "run1") = Some 1
  /\ invoke t' "run1" (Token.mk "A" 1) (Ok tt) = Ok tt.
Proof. eexists. split; [reflexivity|]. split; [reflexivity|]. split; reflexivity. Qed.

(** A fenced checkpoint with a record read before a heartbeat takes the renewed
    expiry back: the owner believes in a lease the table no longer shows. *)
Example fenced_save_undoes_renewal :
  let read_before := ResearchOrchestrationRecord.set_lease (sample_row None 0 None) (Some "A") 1
                       (Some (at_s 90)) (at_s 0) in
  exists renewed t', renew_lease (at_s 60) table_a "run1" "A" 1 90 = Ok (renewed, true)
  /\ fenced_save (at_s 61) renewed (Token.mk "A" 1) read_before None None false = Ok t'
  /\ (renewed !! "run1" ≫= ResearchOrchestrationRecord.lease_expires_at) = Some (at_s 150)
  /\ (t' !! "run1" ≫= ResearchOrchestrationRecord.lease_expires_at) = Some (at_s 90).
Proof. eexists _, _. split; [reflexivity|]. split; [reflexivity|]. split; reflexivity. Qed.
