(* ===== verification/Candidate.v ===== *)
(** * Candidates: proposal, admission, lifecycle

    [research/candidate.py], with the evidence claims and polarity of
    [research/evidence.py] it reads.  A validating constructor returns the stripped
    copy it stores.  Free-form mappings are JSON objects ([PyVal]). *)
From S2P Require Import Prelude PyVal.

(** [research/evidence.py:60-63 EvidencePolarity] *)
Module EvidencePolarity.
Inductive t : Set :=
  | SUPPORTING | CONTRADICTING | NEUTRAL.
#[global] Instance eq_dec : EqDecision t.
Proof. solve_decision. Defined.
Definition value (x : t) : string :=
  match x with
  | SUPPORTING => "SUPPORTING" | CONTRADICTING => "CONTRADICTING"
  | NEUTRAL => "NEUTRAL"
  end.
End EvidencePolarity.

(** [research/evidence.py:21 DIAGNOSTIC_ECHO_MATCHED_CLAIM] *)
Definition DIAGNOSTIC_ECHO_MATCHED_CLAIM : string :=
  "diagnostic echo observation matched the executed plan".
(** [research/evidence.py:22-24 DIAGNOSTIC_ECHO_MISMATCHED_CLAIM] *)
Definition DIAGNOSTIC_ECHO_MISMATCHED_CLAIM : string :=
  "diagnostic echo observation did not match the executed plan".
(** [research/evidence.py:25-28 HTTP_AUTHORIZATION_DIFFERENTIAL_CLAIM] *)
Definition HTTP_AUTHORIZATION_DIFFERENTIAL_CLAIM : string :=
  "Authenticated actor can read another actor's account object because object authorization is missing on the vulnerable endpoint.".
(** [research/evidence.py:32-35 HTTP_STATE_TRANSITION_CLAIM] *)
Definition HTTP_STATE_TRANSITION_CLAIM : string :=
  "Authenticated requester performed an unauthorized workflow state transition because role or sequence authorization is missing on the workflow endpoint.".

(** [research/candidate.py:18 DIAGNOSTIC_CANDIDATE_CLASSIFICATION] *)
Definition DIAGNOSTIC_CANDIDATE_CLASSIFICATION : string := "DIAGNOSTIC_PLUMBING".
(** [research/candidate.py:19 DIAGNOSTIC_CANDIDATE_CLAIM] *)
Definition DIAGNOSTIC_CANDIDATE_CLAIM : string := DIAGNOSTIC_ECHO_MATCHED_CLAIM.
(** [research/candidate.py:20 HTTP_AUTHORIZATION_DIFFERENTIAL_CLASSIFICATION] *)
Definition HTTP_AUTHORIZATION_DIFFERENTIAL_CLASSIFICATION : string :=
  "HTTP_AUTHORIZATION_DIFFERENTIAL".
(** [research/candidate.py:21 HTTP_AUTHORIZATION_DIFFERENTIAL_CANDIDATE_CLAIM] *)
Definition HTTP_AUTHORIZATION_DIFFERENTIAL_CANDIDATE_CLAIM : string :=
  HTTP_AUTHORIZATION_DIFFERENTIAL_CLAIM.
(** [research/candidate.py:22 HTTP_STATE_TRANSITION_CLASSIFICATION] *)
Definition HTTP_STATE_TRANSITION_CLASSIFICATION : string := "HTTP_STATE_TRANSITION_AUTHORIZATION".
(** [research/candidate.py:23 HTTP_STATE_TRANSITION_CANDIDATE_CLAIM] *)
Definition HTTP_STATE_TRANSITION_CANDIDATE_CLAIM : string := HTTP_STATE_TRANSITION_CLAIM.

(** [research/candidate.py:25-36 FORBIDDEN_CANDIDATE_KEYS] *)
Definition FORBIDDEN_CANDIDATE_KEYS : list string :=
  [ "severity"; "cvss"; "finding"; "finding_proposal"; "exploitability"; "authorization";
    "confidence"; "verification" ].

(** [research/candidate.py:38-44 ALLOWED_CANDIDATE_CLASSIFICATIONS] *)
Definition ALLOWED_CANDIDATE_CLASSIFICATIONS : list string :=
  [ DIAGNOSTIC_CANDIDATE_CLASSIFICATION; HTTP_AUTHORIZATION_DIFFERENTIAL_CLASSIFICATION;
    HTTP_STATE_TRANSITION_CLASSIFICATION ].

(** [research/candidate.py:47-56 CandidateState] *)
Module CandidateState.
Inductive t : Set :=
  | OPEN | VERIFYING | VALIDATED | REJECTED | INCONCLUSIVE | DUPLICATE | OUT_OF_SCOPE.
#[global] Instance eq_dec : EqDecision t.
Proof. solve_decision. Defined.
Definition value (x : t) : string :=
  match x with
  | OPEN => "OPEN" | VERIFYING => "VERIFYING" | VALIDATED => "VALIDATED"
  | REJECTED => "REJECTED" | INCONCLUSIVE => "INCONCLUSIVE"
  | DUPLICATE => "DUPLICATE" | OUT_OF_SCOPE => "OUT_OF_SCOPE"
  end.
End CandidateState.

(** [research/candidate.py:59-65 CandidateAdmissionOutcome] *)
Module CandidateAdmissionOutcome.
Inductive t : Set :=
  | ADMITTED | REJECTED_INSUFFICIENT_SUPPORT | REJECTED_BROKEN_PROVENANCE
  | REJECTED_CLAIM_EXCEEDS_EVIDENCE | REJECTED_NOT_TESTABLE
  | REJECTED_POLICY_CONFLICT.
#[global] Instance eq_dec : EqDecision t.
Proof. solve_decision. Defined.
Definition value (x : t) : string :=
  match x with
  | ADMITTED => "ADMITTED"
  | REJECTED_INSUFFICIENT_SUPPORT => "REJECTED_INSUFFICIENT_SUPPORT"
  | REJECTED_BROKEN_PROVENANCE => "REJECTED_BROKEN_PROVENANCE"
  | REJECTED_CLAIM_EXCEEDS_EVIDENCE => "REJECTED_CLAIM_EXCEEDS_EVIDENCE"
  | REJECTED_NOT_TESTABLE => "REJECTED_NOT_TESTABLE"
  | REJECTED_POLICY_CONFLICT => "REJECTED_POLICY_CONFLICT"
  end.
End CandidateAdmissionOutcome.

(** [research/candidate.py:68-79 LEGAL_CANDIDATE_TRANSITIONS] *)
Definition LEGAL_CANDIDATE_TRANSITIONS : list (CandidateState.t * CandidateState.t) :=
  [ (CandidateState.OPEN, CandidateState.VERIFYING);
    (CandidateState.VERIFYING, CandidateState.VALIDATED);
    (CandidateState.VERIFYING, CandidateState.REJECTED);
    (CandidateState.VERIFYING, CandidateState.INCONCLUSIVE);
    (CandidateState.OPEN, CandidateState.OUT_OF_SCOPE);
    (CandidateState.VERIFYING, CandidateState.OUT_OF_SCOPE);
    (CandidateState.OPEN, CandidateState.DUPLICATE);
    (CandidateState.VERIFYING, CandidateState.DUPLICATE) ].

(** [research/candidate.py:81-89 TERMINAL_CANDIDATE_STATES] *)
Definition TERMINAL_CANDIDATE_STATES : list CandidateState.t :=
  [ CandidateState.VALIDATED; CandidateState.REJECTED; CandidateState.INCONCLUSIVE;
    CandidateState.DUPLICATE; CandidateState.OUT_OF_SCOPE ].

(** [research/candidate.py:92-95 _require_text] *)
Definition require_text (value : string) : result string :=
  raise_if Str.is_blank value as ResearchInputError;;
  Ok (Str.strip value).

(** A field that is checked when it is not [None]. *)
Definition require_text_when_set (value : option string) : result (option string) :=
  match value with
  | None => Ok None
  | Some v => s ← require_text v; Ok (Some s)
  end.

(** [research/candidate.py:98-104 _require_ids] *)
Definition require_ids (value : list string) : result (list string) := traverse require_text value.

(** The key test of the [_reject_forbidden] functions, for a set of keys.
    [research/candidate.py:107-113 _reject_forbidden] *)
Definition reject_forbidden (keys : list string) (payload : list (string * pyval))
    : result (list (string * pyval)) :=
  raise_if existsb (fun p => mem p.1 keys) payload as ResearchInputError;;
  Ok payload.

(** [research/candidate.py:116-145 CandidateEvidenceRef] *)
Module CandidateEvidenceRef.
Record t : Set := mk {
  evidence_id : string;
  research_run_id : string;
  hypothesis_id : string;
  experiment_id : string;
  polarity : string;
  claim_scope : string }.

Definition post_init (x : t) : result t :=
  a ← require_text x.(evidence_id);
  b ← require_text x.(research_run_id);
  c ← require_text x.(hypothesis_id);
  d ← require_text x.(experiment_id);
  e ← require_text x.(polarity);
  f ← require_text x.(claim_scope);
  Ok (mk a b c d e f).
End CandidateEvidenceRef.

(** [research/candidate.py:148-194 CandidateProposal] *)
Module CandidateProposal.
Record t : Type := mk {
  proposal_id : string;
  research_run_id : string;
  hypothesis_id : string;
  evidence_ids : list string;
  claim : string;
  classification : string;
  rationale : list (string * pyval);
  provenance : list (string * pyval);
  duplicate_of_candidate_id : option string }.

Definition post_init (x : t) : result t :=
  a ← require_text x.(proposal_id);
  b ← require_text x.(research_run_id);
  c ← require_text x.(hypothesis_id);
  d ← require_ids x.(evidence_ids);
  e ← require_text x.(claim);
  f ← require_text x.(classification);
  g ← reject_forbidden FORBIDDEN_CANDIDATE_KEYS x.(rationale);
  h ← reject_forbidden FORBIDDEN_CANDIDATE_KEYS x.(provenance);
  i ← require_text_when_set x.(duplicate_of_candidate_id);
  Ok (mk a b c d e f g h i).
End CandidateProposal.

(** [research/candidate.py:197-226 CandidateAdmissionContext] *)
Module CandidateAdmissionContext.
Record t : Set := mk {
  research_run_id : string;
  hypothesis_id : string;
  evidence : list CandidateEvidenceRef.t;
  missing_evidence_ids : list string;
  authoritative_out_of_scope : bool;
  known_duplicate_candidate_id : option string }.

Definition post_init (x : t) : result t :=
  a ← require_text x.(research_run_id);
  b ← require_text x.(hypothesis_id);
  Ok (mk a b x.(evidence) x.(missing_evidence_ids) x.(authoritative_out_of_scope)
        x.(known_duplicate_candidate_id)).

(** [research/candidate.py:224-226 CandidateAdmissionContext.evidence_ids] *)
Definition evidence_ids (x : t) : list string :=
  CandidateEvidenceRef.evidence_id <$> x.(evidence).
End CandidateAdmissionContext.

(** [research/candidate.py:229-239 CandidateAdmissionDecision] *)
Module CandidateAdmissionDecision.
Record t : Type := mk {
  outcome : CandidateAdmissionOutcome.t;
  reason_codes : list string;
  proposal : CandidateProposal.t;
  admitted : bool;
  initial_state : option CandidateState.t }.

(** [research/candidate.py:237-239 CandidateAdmissionDecision.creates_candidate] *)
Definition creates_candidate (x : t) : bool :=
  bool_decide (x.(outcome) = CandidateAdmissionOutcome.ADMITTED) && x.(admitted).
End CandidateAdmissionDecision.

(** The proposal the three [propose_*] functions share: one supporting evidence of the
    context's run with the expected claim. *)
Definition propose_from (evidence_claim claim classification : string)
    (rationale : list (string * pyval)) (source : string)
    (context : CandidateAdmissionContext.t) (proposal_id : string)
    : result (option CandidateProposal.t) :=
  match context.(CandidateAdmissionContext.evidence) with
  | [evidence] =>
      if negb (evidence.(CandidateEvidenceRef.polarity)
               =? EvidencePolarity.value EvidencePolarity.SUPPORTING)%string then Ok None
      else if negb (evidence.(CandidateEvidenceRef.claim_scope) =? evidence_claim)%string
      then Ok None
      else if negb (evidence.(CandidateEvidenceRef.research_run_id)
                    =? context.(CandidateAdmissionContext.research_run_id))%string
      then Ok None
      else
        p ← CandidateProposal.post_init
              (CandidateProposal.mk proposal_id
                 context.(CandidateAdmissionContext.research_run_id)
                 context.(CandidateAdmissionContext.hypothesis_id)
                 [evidence.(CandidateEvidenceRef.evidence_id)] claim classification rationale
                 [("source", PStr source);
                  ("evidence_id", PStr evidence.(CandidateEvidenceRef.evidence_id))] None);
        Ok (Some p)
  | _ => Ok None
  end.

(** [research/candidate.py:242-274 propose_diagnostic_candidate] *)
Definition propose_diagnostic_candidate :=
  propose_from DIAGNOSTIC_ECHO_MATCHED_CLAIM DIAGNOSTIC_CANDIDATE_CLAIM
    DIAGNOSTIC_CANDIDATE_CLASSIFICATION
    [("reason_code", PStr "DIAGNOSTIC_ECHO_EVIDENCE_SEEDED"); ("not_a_vulnerability", PBool true);
     ("not_a_finding", PBool true)] "diagnostic.echo.candidate".

(** [research/candidate.py:277-308 propose_authorization_differential_candidate] *)
Definition propose_authorization_differential_candidate :=
  propose_from HTTP_AUTHORIZATION_DIFFERENTIAL_CLAIM
    HTTP_AUTHORIZATION_DIFFERENTIAL_CANDIDATE_CLAIM HTTP_AUTHORIZATION_DIFFERENTIAL_CLASSIFICATION
    [("reason_code", PStr "HTTP_AUTHORIZATION_DIFFERENTIAL_EVIDENCE_SEEDED");
     ("not_a_finding", PBool true)] "http.authorization.differential.candidate".

(** The code's further test against the other claim cannot hold, the two differ.
    [research/candidate.py:311-344 propose_state_transition_candidate] *)
Definition propose_state_transition_candidate :=
  propose_from HTTP_STATE_TRANSITION_CLAIM HTTP_STATE_TRANSITION_CANDIDATE_CLAIM
    HTTP_STATE_TRANSITION_CLASSIFICATION
    [("reason_code", PStr "HTTP_STATE_TRANSITION_AUTHORIZATION_EVIDENCE_SEEDED");
     ("not_a_finding", PBool true)] "http.state_transition.candidate".

(** The loop over the evidence: its first mismatch, if any.
    [research/candidate.py:363-369 admit_candidate] *)
Fixpoint evidence_codes (run hypothesis : string) (evidence : list CandidateEvidenceRef.t)
    : list string :=
  match evidence with
  | [] => []
  | item :: evidence =>
      if negb (item.(CandidateEvidenceRef.research_run_id) =? run)%string
      then ["EVIDENCE_WRONG_RUN"]
      else if negb (item.(CandidateEvidenceRef.hypothesis_id) =? hypothesis)%string
      then ["EVIDENCE_WRONG_HYPOTHESIS"]
      else evidence_codes run hypothesis evidence
  end.

(** [if b: codes.append(code)] *)
Definition code_if (b : bool) (code : string) : list string := if b then [code] else [].

(** [research/candidate.py:353-369 admit_candidate] *)
Definition provenance_codes (proposal : CandidateProposal.t)
    (context : CandidateAdmissionContext.t) : list string :=
  let run := context.(CandidateAdmissionContext.research_run_id) in
  let hypothesis := context.(CandidateAdmissionContext.hypothesis_id) in
  let unknown :=
    List.filter (fun i => negb (mem i (CandidateAdmissionContext.evidence_ids context)))
      proposal.(CandidateProposal.evidence_ids) in
  code_if (negb (proposal.(CandidateProposal.research_run_id) =? run)%string) "WRONG_RESEARCH_RUN"
  ++ code_if (negb (proposal.(CandidateProposal.hypothesis_id) =? hypothesis)%string)
       "WRONG_HYPOTHESIS"
  ++ code_if (negb (bool_decide (context.(CandidateAdmissionContext.missing_evidence_ids) = [])))
       "MISSING_EVIDENCE"
  ++ code_if (negb (bool_decide (unknown = []))
              || bool_decide (proposal.(CandidateProposal.evidence_ids) = []))
       "HALLUCINATED_OR_ABSENT_EVIDENCE"
  ++ evidence_codes run hypothesis context.(CandidateAdmissionContext.evidence).

(** Claim expected of a classification, also of its evidence.
    [research/candidate.py:421-428 admit_candidate] *)
Definition expected_claim (classification : string) : string :=
  if (classification =? HTTP_AUTHORIZATION_DIFFERENTIAL_CLASSIFICATION)%string
  then HTTP_AUTHORIZATION_DIFFERENTIAL_CANDIDATE_CLAIM
  else if (classification =? HTTP_STATE_TRANSITION_CLASSIFICATION)%string
  then HTTP_STATE_TRANSITION_CANDIDATE_CLAIM
  else DIAGNOSTIC_CANDIDATE_CLAIM.

(** [research/candidate.py:477-482 admit_candidate] *)
Definition admitted_reason (classification : string) : string :=
  if (classification =? HTTP_STATE_TRANSITION_CLASSIFICATION)%string
  then "HTTP_STATE_TRANSITION_AUTHORIZATION_CANDIDATE_SEEDED_FROM_EVIDENCE"
  else if (classification =? HTTP_AUTHORIZATION_DIFFERENTIAL_CLASSIFICATION)%string
  then "HTTP_AUTHORIZATION_DIFFERENTIAL_CANDIDATE_SEEDED_FROM_EVIDENCE"
  else "DIAGNOSTIC_CANDIDATE_SEEDED_FROM_EVIDENCE".

(** [research/candidate.py:347-489 admit_candidate] *)
Definition admit_candidate (proposal : CandidateProposal.t)
    (context : CandidateAdmissionContext.t) : CandidateAdmissionDecision.t :=
  let codes := provenance_codes proposal context in
  let reject outcome codes := CandidateAdmissionDecision.mk outcome codes proposal false None in
  let classification := proposal.(CandidateProposal.classification) in
  let cited item := mem item.(CandidateEvidenceRef.evidence_id)
                      proposal.(CandidateProposal.evidence_ids) in
  let evidence_claims :=
    CandidateEvidenceRef.claim_scope
      <$> List.filter cited context.(CandidateAdmissionContext.evidence) in
  let expected := expected_claim classification in
  let supporting :=
    List.filter (fun item =>
        cited item
        && (item.(CandidateEvidenceRef.polarity)
            =? EvidencePolarity.value EvidencePolarity.SUPPORTING)%string
        && (item.(CandidateEvidenceRef.claim_scope) =? expected)%string)
      context.(CandidateAdmissionContext.evidence) in
  if context.(CandidateAdmissionContext.authoritative_out_of_scope)
  then reject CandidateAdmissionOutcome.REJECTED_POLICY_CONFLICT
         ("AUTHORITATIVE_OUT_OF_SCOPE" :: codes)
  else if mem "WRONG_RESEARCH_RUN" codes || mem "EVIDENCE_WRONG_RUN" codes
          || mem "MISSING_EVIDENCE" codes
  then reject CandidateAdmissionOutcome.REJECTED_BROKEN_PROVENANCE codes
  else if mem "HALLUCINATED_OR_ABSENT_EVIDENCE" codes
  then reject CandidateAdmissionOutcome.REJECTED_BROKEN_PROVENANCE codes
  else if negb (mem classification ALLOWED_CANDIDATE_CLASSIFICATIONS)
  then reject CandidateAdmissionOutcome.REJECTED_NOT_TESTABLE
         ("UNSUPPORTED_CANDIDATE_CLASSIFICATION" :: codes)
  else if ((classification =? HTTP_STATE_TRANSITION_CLASSIFICATION)%string
           && mem HTTP_AUTHORIZATION_DIFFERENTIAL_CLAIM evidence_claims)
          || ((classification =? HTTP_AUTHORIZATION_DIFFERENTIAL_CLASSIFICATION)%string
              && mem HTTP_STATE_TRANSITION_CLAIM evidence_claims)
  then reject CandidateAdmissionOutcome.REJECTED_NOT_TESTABLE
         ("CROSS_CLASS_EVIDENCE_REJECTED" :: codes)
  else if negb (proposal.(CandidateProposal.claim) =? expected)%string
  then reject CandidateAdmissionOutcome.REJECTED_NOT_TESTABLE
         ("CLAIM_NOT_TESTABLE_FOR_CLASSIFICATION" :: codes)
  else
  match supporting with
  | [] => reject CandidateAdmissionOutcome.REJECTED_INSUFFICIENT_SUPPORT
            ("EVIDENCE_DOES_NOT_SUPPORT_CLAIM" :: codes)
  | first :: _ =>
      if negb (proposal.(CandidateProposal.claim)
               =? first.(CandidateEvidenceRef.claim_scope))%string
      then reject CandidateAdmissionOutcome.REJECTED_CLAIM_EXCEEDS_EVIDENCE
             ("CLAIM_EXCEEDS_EVIDENCE_SCOPE" :: codes)
      else if bool_decide (is_Some proposal.(CandidateProposal.duplicate_of_candidate_id))
              && negb (bool_decide (proposal.(CandidateProposal.duplicate_of_candidate_id)
                        = context.(CandidateAdmissionContext.known_duplicate_candidate_id)))
      then reject CandidateAdmissionOutcome.REJECTED_BROKEN_PROVENANCE
             ("UNKNOWN_DUPLICATE_REFERENCE" :: codes)
      else if negb (bool_decide (codes = []))
      then reject CandidateAdmissionOutcome.REJECTED_INSUFFICIENT_SUPPORT codes
      else CandidateAdmissionDecision.mk CandidateAdmissionOutcome.ADMITTED
             [admitted_reason classification] proposal true (Some CandidateState.OPEN)
  end.

(** [research/candidate.py:492-504 transition_candidate] *)
Definition transition_candidate (current target : CandidateState.t) : result CandidateState.t :=
  raise_if negb (mem (current, target) LEGAL_CANDIDATE_TRANSITIONS) as ResearchInputError;;
  Ok target.

(** [research/candidate.py:507-508 start_candidate_verification] *)
Definition start_candidate_verification (current : CandidateState.t) : result CandidateState.t :=
  transition_candidate current CandidateState.VERIFYING.

(** ** Theorems: lifecycle *)

Inductive candidate_steps : CandidateState.t -> CandidateState.t -> Prop :=
  | steps_refl s : candidate_steps s s
  | steps_trans s t u :
      transition_candidate s t = Ok t -> candidate_steps t u -> candidate_steps s u.

Lemma transition_candidate_ok s t u :
  transition_candidate s t = Ok u <-> u = t /\ (s, t) ∈ LEGAL_CANDIDATE_TRANSITIONS.
Proof.
  unfold transition_candidate. rewrite raise_if_ok, negb_false_iff, mem_true. naive_solver.
Qed.

(** The terminal states are exactly the ones without a way out. *)
Lemma terminal_iff_stuck s :
  s ∈ TERMINAL_CANDIDATE_STATES <-> forall t u, transition_candidate s t <> Ok u.
Proof.
  split.
  - rewrite <-mem_true. intros Hs t u. destruct s, t; vm_compute in Hs |- *; discriminate.
  - intros H. apply mem_true. destruct s; try reflexivity; exfalso.
    + exact (H CandidateState.VERIFYING _ eq_refl).
    + exact (H CandidateState.VALIDATED _ eq_refl).
Qed.

Lemma into_validated s : transition_candidate s CandidateState.VALIDATED
    = Ok CandidateState.VALIDATED -> s = CandidateState.VERIFYING.
Proof. by destruct s. Qed.

Lemma terminal_absorbing s t :
  candidate_steps s t -> s ∈ TERMINAL_CANDIDATE_STATES -> t = s.
Proof. destruct 1 as [|s t u H _]; [done|]. intros Hs. by apply (proj1 (terminal_iff_stuck s) Hs) in H. Qed.

(** A candidate's conclusion is reached once and through verification: from OPEN every
    path of legal transitions to VALIDATED, REJECTED or INCONCLUSIVE goes through
    VERIFYING, and from a terminal state no path leads anywhere else. *)
Theorem candidate_lifecycle s t :
  candidate_steps s t ->
  (s ∈ TERMINAL_CANDIDATE_STATES -> t = s)
  /\ (s = CandidateState.OPEN ->
      t ∈ [CandidateState.VALIDATED; CandidateState.REJECTED; CandidateState.INCONCLUSIVE] ->
      transition_candidate CandidateState.VERIFYING t = Ok t
      /\ candidate_steps CandidateState.VERIFYING t).
Proof.
  intros H. split; [by apply terminal_absorbing|]. intros ->. inversion H as [|? u ? Hu Hs]; subst.
  - intros Ht. apply mem_true in Ht. discriminate.
  - intros Ht. apply mem_true in Ht.
    destruct u; try discriminate;
      [|apply terminal_absorbing in Hs as ->; [discriminate|by apply mem_true]..].
    inversion Hs as [|? u ? Hv Hs']; subst; [discriminate|].
    destruct u; try discriminate; apply terminal_absorbing in Hs' as E; try (by apply mem_true);
      subst; try discriminate; (split; [reflexivity|done]).
Qed.

Lemma candidate_lifecycle_witness :
  transition_candidate CandidateState.VERIFYING CandidateState.VALIDATED
  = Ok CandidateState.VALIDATED.
Proof.
  refine (proj1 (proj2 (candidate_lifecycle CandidateState.OPEN CandidateState.VALIDATED _)
    eq_refl _)).
  - apply (steps_trans CandidateState.OPEN CandidateState.VERIFYING); [reflexivity|].
    apply (steps_trans CandidateState.VERIFYING CandidateState.VALIDATED); [reflexivity|].
    constructor.
  - left.
Defined.

(** ** Theorems: admission *)

Lemma code_if_mem b c d : d ∈ code_if b c <-> b = true /\ d = c.
Proof. destruct b; simpl; rewrite ?list_elem_of_singleton; naive_solver set_solver. Qed.

Lemma code_if_nil b c : code_if b c = [] <-> b = false.
Proof. by destruct b. Qed.

Lemma evidence_codes_nil run h l :
  evidence_codes run h l = [] <->
  forall e, e ∈ l -> e.(CandidateEvidenceRef.research_run_id) = run
    /\ e.(CandidateEvidenceRef.hypothesis_id) = h.
Proof.
  induction l as [|e l IH]; simpl; [split; [intros _ x Hx; inversion Hx|done]|].
  destruct (String.eqb_spec e.(CandidateEvidenceRef.research_run_id) run); simpl;
    [|split; [done|intros H; destruct (H e); [left|done]]].
  destruct (String.eqb_spec e.(CandidateEvidenceRef.hypothesis_id) h); simpl;
    [|split; [done|intros H; destruct (H e); [left|done]]].
  rewrite IH. setoid_rewrite elem_of_cons. naive_solver.
Qed.

(** The proposal is grounded in the loaded evidence. *)
Record grounded (p : CandidateProposal.t) (c : CandidateAdmissionContext.t) : Prop := {
  gr_run : p.(CandidateProposal.research_run_id) = c.(CandidateAdmissionContext.research_run_id);
  gr_hypothesis :
    p.(CandidateProposal.hypothesis_id) = c.(CandidateAdmissionContext.hypothesis_id);
  gr_missing : c.(CandidateAdmissionContext.missing_evidence_ids) = [];
  gr_cites : p.(CandidateProposal.evidence_ids) <> [];
  gr_known : forall i, i ∈ p.(CandidateProposal.evidence_ids) ->
    i ∈ CandidateAdmissionContext.evidence_ids c;
  gr_evidence : forall e, e ∈ c.(CandidateAdmissionContext.evidence) ->
    e.(CandidateEvidenceRef.research_run_id) = c.(CandidateAdmissionContext.research_run_id)
    /\ e.(CandidateEvidenceRef.hypothesis_id) = c.(CandidateAdmissionContext.hypothesis_id) }.

Lemma filter_negb_nil {A} (f : A -> bool) l :
  List.filter (fun x => negb (f x)) l = [] <-> forall x, x ∈ l -> f x = true.
Proof.
  induction l as [|x l IH]; simpl; [split; [intros _ x Hx; inversion Hx|done]|].
  setoid_rewrite elem_of_cons. destruct (f x) eqn:E; simpl; [rewrite IH; naive_solver|].
  split; [done|]. intros H. rewrite H in E; [done|by left].
Qed.

Lemma provenance_codes_nil p c : provenance_codes p c = [] <-> grounded p c.
Proof.
  unfold provenance_codes. rewrite !app_nil, !code_if_nil, evidence_codes_nil.
  rewrite !negb_false_iff, !String.eqb_eq, orb_false_iff, negb_false_iff, bool_decide_eq_true,
    bool_decide_eq_false, bool_decide_eq_true, filter_negb_nil. setoid_rewrite mem_true.
  split; [intros (?&?&?&[? ?]&?); by constructor|]. intros []. tauto.
Qed.

(** Some cited evidence supports exactly the claim, and none is of the other class. *)
Record supported (p : CandidateProposal.t) (c : CandidateAdmissionContext.t) : Prop := {
  su_class : p.(CandidateProposal.classification) ∈ ALLOWED_CANDIDATE_CLASSIFICATIONS;
  su_claim : p.(CandidateProposal.claim) = expected_claim p.(CandidateProposal.classification);
  su_evidence : exists e, e ∈ c.(CandidateAdmissionContext.evidence)
    /\ e.(CandidateEvidenceRef.evidence_id) ∈ p.(CandidateProposal.evidence_ids)
    /\ e.(CandidateEvidenceRef.polarity) = "SUPPORTING"
    /\ e.(CandidateEvidenceRef.claim_scope) = p.(CandidateProposal.claim);
  su_class_pure : forall e, e ∈ c.(CandidateAdmissionContext.evidence) ->
    e.(CandidateEvidenceRef.evidence_id) ∈ p.(CandidateProposal.evidence_ids) ->
    (p.(CandidateProposal.classification) = HTTP_STATE_TRANSITION_CLASSIFICATION ->
       e.(CandidateEvidenceRef.claim_scope) <> HTTP_AUTHORIZATION_DIFFERENTIAL_CLAIM)
    /\ (p.(CandidateProposal.classification) = HTTP_AUTHORIZATION_DIFFERENTIAL_CLASSIFICATION ->
       e.(CandidateEvidenceRef.claim_scope) <> HTTP_STATE_TRANSITION_CLAIM) }.

Lemma admitted_cases p c :
  (admit_candidate p c).(CandidateAdmissionDecision.outcome) = CandidateAdmissionOutcome.ADMITTED
  <-> c.(CandidateAdmissionContext.authoritative_out_of_scope) = false
      /\ grounded p c /\ supported p c
      /\ (p.(CandidateProposal.duplicate_of_candidate_id) = None
          \/ p.(CandidateProposal.duplicate_of_candidate_id)
             = c.(CandidateAdmissionContext.known_duplicate_candidate_id)).
Proof.
  rewrite <-provenance_codes_nil. unfold admit_candidate. cbv zeta.
  destruct (CandidateAdmissionContext.authoritative_out_of_scope c); [split; naive_solver|].
  destruct (decide (provenance_codes p c = [])) as [Hc|Hc].
  2:{ split; [|tauto]. rewrite (bool_decide_false _ Hc). simpl. intros H.
      repeat case_match; discriminate. }
  rewrite Hc. change (mem _ []) with false. cbn [orb negb].
  destruct (mem _ ALLOWED_CANDIDATE_CLASSIFICATIONS) eqn:Hcl; cbn [negb].
  2:{ split; [done|]. intros (_ & _ & [Hs _ _ _] & _). apply mem_true in Hs. congruence. }
  apply mem_true in Hcl. match goal with |- context [if ?b then _ else _] => destruct b eqn:Hx end.
  { split; [done|]. intros (_ & _ & [_ _ _ Hp] & _). exfalso.
    rewrite orb_true_iff, !andb_true_iff, !String.eqb_eq, !mem_true in Hx.
    destruct Hx as [[Hk (e & Hce & He)%list_elem_of_fmap]|[Hk (e & Hce & He)%list_elem_of_fmap]];
      rewrite elem_of_list_filter_bool, mem_true in He; destruct He as [He1 He2];
      destruct (Hp e He1 He2); naive_solver. }
  destruct (String.eqb_spec p.(CandidateProposal.claim)
    (expected_claim p.(CandidateProposal.classification))) as [Ecl|Ncl]; cbn [negb].
  2:{ split; [done|]. intros (_ & _ & [_ Hs _ _] & _). done. }
  rewrite <-Ecl.
  match goal with |- context [match ?l with [] => _ | _ => _ end] =>
    destruct l as [|f rest] eqn:Hsup end.
  { split; [done|]. intros (_ & _ & [_ _ (e & He & Hid & Hpol & Hscope) _] & _). exfalso.
    pose proof (proj1 (filter_nil_bool _ _) Hsup e He) as Hf. simpl in Hf.
    rewrite (proj2 (mem_true _ _) Hid), Hpol, Hscope, !String.eqb_refl in Hf. discriminate Hf. }
  assert (f ∈ f :: rest) as Hf by left. rewrite <-Hsup, elem_of_list_filter_bool in Hf.
  destruct Hf as [Hf1 Hf2]. autorewrite with zest_bool in Hf2. destruct Hf2 as [[Hf2 Hf3] Hf4].
  rewrite (proj2 (String.eqb_eq _ _) (eq_sym Hf4)). cbn [negb].
  assert (supported p c) as Hs.
  { constructor; [done|done|by exists f|]. intros e He1 He2.
    rewrite orb_false_iff, !andb_false_iff, !String.eqb_neq, !mem_false in Hx.
    assert (e.(CandidateEvidenceRef.claim_scope) ∈ CandidateEvidenceRef.claim_scope
      <$> List.filter (fun item => mem item.(CandidateEvidenceRef.evidence_id)
        p.(CandidateProposal.evidence_ids)) c.(CandidateAdmissionContext.evidence)) as Hin.
    { apply list_elem_of_fmap. exists e. split; [done|]. by rewrite elem_of_list_filter_bool, mem_true. }
    destruct Hx as [Hx1 Hx2]. split; intros Hk E; rewrite E in Hin; naive_solver. }
  destruct (CandidateProposal.duplicate_of_candidate_id p) as [d|] eqn:Hd; simpl.
  - case_bool_decide as Hk; simpl; [by rewrite Hk; split; auto|]. split; [done|]. naive_solver.
  - split; auto.
Qed.

(** A candidate is created exactly when the proposal is in scope, grounded in the loaded
    evidence of its own run and hypothesis, and supported: an allowed classification, its
    one testable claim, cited SUPPORTING evidence for that very claim and no cited evidence
    of the other class; an admitted candidate starts OPEN. The outcome
    REJECTED_CLAIM_EXCEEDS_EVIDENCE is never produced. *)
Theorem admit_candidate_iff p c :
  (CandidateAdmissionDecision.creates_candidate (admit_candidate p c) = true
   <-> c.(CandidateAdmissionContext.authoritative_out_of_scope) = false
       /\ grounded p c /\ supported p c
       /\ (p.(CandidateProposal.duplicate_of_candidate_id) = None
           \/ p.(CandidateProposal.duplicate_of_candidate_id)
              = c.(CandidateAdmissionContext.known_duplicate_candidate_id)))
  /\ (admit_candidate p c).(CandidateAdmissionDecision.initial_state)
     = (if CandidateAdmissionDecision.creates_candidate (admit_candidate p c)
        then Some CandidateState.OPEN else None)
  /\ (admit_candidate p c).(CandidateAdmissionDecision.outcome)
     <> CandidateAdmissionOutcome.REJECTED_CLAIM_EXCEEDS_EVIDENCE.
Proof.
  rewrite <-admitted_cases. unfold CandidateAdmissionDecision.creates_candidate.
  split; [|split].
  - rewrite andb_true_iff, bool_decide_eq_true. split; [tauto|]. intros H. split; [done|].
    revert H. unfold admit_candidate. cbv zeta. repeat case_match; done.
  - unfold admit_candidate. cbv zeta. repeat (case_match; try reflexivity).
  - unfold admit_candidate. cbv zeta.
    match goal with |- context [match List.filter ?f ?l with _ => _ end] =>
      destruct (List.filter f l) as [|x xs] eqn:Hf end; [by repeat case_match|].
    assert (x ∈ x :: xs) as Hx by left. rewrite <-Hf, elem_of_list_filter_bool in Hx.
    destruct Hx as [_ Hx]. rewrite !andb_true_iff, !String.eqb_eq in Hx.
    destruct Hx as [_ ->]. clear Hf. repeat (case_match; try discriminate).
Qed.
