(* ===== verification/Verification.v ===== *)
(** * Verification: independent reproduction of a candidate

    [research/verification.py]: the plans, the three deterministic verifiers and the
    application of a verification result to a candidate.  Observed facts are JSON
    objects; comparing them follows Python ([PyVal]). *)
From S2P Require Import Prelude PyVal Candidate.

(** [research/assessment.py:13-20 AssessmentOutcome] *)
Module AssessmentOutcome.
Inductive t : Set :=
  | CONSISTENT_WITH_PREDICTION | CONTRADICTS_PREDICTION | INCONCLUSIVE
  | EXECUTION_UNUSABLE | NEEDS_MORE_CONTEXT.
#[global] Instance eq_dec : EqDecision t.
Proof. solve_decision. Defined.
Definition value (x : t) : string :=
  match x with
  | CONSISTENT_WITH_PREDICTION => "CONSISTENT_WITH_PREDICTION"
  | CONTRADICTS_PREDICTION => "CONTRADICTS_PREDICTION"
  | INCONCLUSIVE => "INCONCLUSIVE" | EXECUTION_UNUSABLE => "EXECUTION_UNUSABLE"
  | NEEDS_MORE_CONTEXT => "NEEDS_MORE_CONTEXT"
  end.
End AssessmentOutcome.

(** [research/verification.py:46-53 VerificationOutcome] *)
Module VerificationOutcome.
Inductive t : Set :=
  | VALIDATED | REJECTED | INCONCLUSIVE | DUPLICATE | OUT_OF_SCOPE.
#[global] Instance eq_dec : EqDecision t.
Proof. solve_decision. Defined.
Definition value (x : t) : string :=
  match x with
  | VALIDATED => "VALIDATED" | REJECTED => "REJECTED" | INCONCLUSIVE => "INCONCLUSIVE"
  | DUPLICATE => "DUPLICATE" | OUT_OF_SCOPE => "OUT_OF_SCOPE"
  end.
End VerificationOutcome.

(** [research/verification.py:20 DIAGNOSTIC_VERIFICATION_STRATEGY] *)
Definition DIAGNOSTIC_VERIFICATION_STRATEGY : string := "diagnostic.echo.reproduction.v1".
(** [research/verification.py:21-23 HTTP_AUTHORIZATION_DIFFERENTIAL_VERIFICATION_STRATEGY] *)
Definition HTTP_AUTHORIZATION_DIFFERENTIAL_VERIFICATION_STRATEGY : string :=
  "http.authorization.differential.reproduction.v1".
(** [research/verification.py:24 HTTP_STATE_TRANSITION_VERIFICATION_STRATEGY] *)
Definition HTTP_STATE_TRANSITION_VERIFICATION_STRATEGY : string :=
  "http.state_transition.reproduction.v1".
(** [research/verification.py:25 DIAGNOSTIC_VERIFIER_KIND] *)
Definition DIAGNOSTIC_VERIFIER_KIND : string := "DETERMINISTIC".
(** [research/verification.py:26 DIAGNOSTIC_VERIFIER_IDENTITY] *)
Definition DIAGNOSTIC_VERIFIER_IDENTITY : string := "diagnostic.echo.verifier.v1".
(** [research/verification.py:27-29 HTTP_AUTHORIZATION_DIFFERENTIAL_VERIFIER_IDENTITY] *)
Definition HTTP_AUTHORIZATION_DIFFERENTIAL_VERIFIER_IDENTITY : string :=
  "http.authorization.differential.verifier.v1".
(** [research/verification.py:30 HTTP_STATE_TRANSITION_VERIFIER_IDENTITY] *)
Definition HTTP_STATE_TRANSITION_VERIFIER_IDENTITY : string := "http.state_transition.verifier.v1".
(** [research/verification.py:31 DIAGNOSTIC_NEGATIVE_CONTROL_TOKEN] *)
Definition DIAGNOSTIC_NEGATIVE_CONTROL_TOKEN : string := "__diagnostic_control_fail__".

(** [research/verification.py:33-43 FORBIDDEN_VERIFICATION_KEYS] *)
Definition FORBIDDEN_VERIFICATION_KEYS : list string :=
  [ "severity"; "cvss"; "finding"; "finding_proposal"; "exploitability"; "authorization";
    "confidence" ].

(** A mapping that is checked when it is not [None]. *)
Definition reject_forbidden_when_set (keys : list string)
    (value : option (list (string * pyval))) : result (option (list (string * pyval))) :=
  match value with
  | None => Ok None
  | Some d => d' ← reject_forbidden keys d; Ok (Some d')
  end.

(** [research/verification.py:77-124 VerificationEvidenceRef] *)
Module VerificationEvidenceRef.
Record t : Type := mk {
  evidence_id : string;
  research_run_id : string;
  experiment_id : string;
  request_id : string;
  observation_ids : list string;
  polarity : string;
  claim_scope : string;
  observed_echo : option string;
  observed_facts : option (list (string * pyval)) }.

Definition post_init (x : t) : result t :=
  a ← require_text x.(evidence_id);
  b ← require_text x.(research_run_id);
  c ← require_text x.(experiment_id);
  d ← require_text x.(request_id);
  e ← require_ids x.(observation_ids);
  f ← require_text x.(polarity);
  g ← require_text x.(claim_scope);
  h ← require_text_when_set x.(observed_echo);
  i ← reject_forbidden_when_set FORBIDDEN_VERIFICATION_KEYS x.(observed_facts);
  Ok (mk a b c d e f g h i).
End VerificationEvidenceRef.

(** [research/verification.py:127-182 VerificationPlan] *)
Module VerificationPlan.
Record t : Set := mk {
  candidate_id : string;
  verification_strategy : string;
  expected_security_behavior : string;
  observed_behavior_to_confirm : string;
  negative_control_intent : string;
  alternative_explanations_to_test : list string;
  required_original_evidence_ids : list string;
  maximum_side_effect_level : Z;
  negative_control_token : string }.

Definition post_init (x : t) : result t :=
  a ← require_text x.(candidate_id);
  b ← require_text x.(verification_strategy);
  c ← require_text x.(expected_security_behavior);
  d ← require_text x.(observed_behavior_to_confirm);
  e ← require_text x.(negative_control_intent);
  f ← require_ids x.(required_original_evidence_ids);
  raise_if negb (mem x.(maximum_side_effect_level) [0; 1; 2; 3]) as ResearchInputError;;
  g ← require_text x.(negative_control_token);
  Ok (mk a b c d e x.(alternative_explanations_to_test) f x.(maximum_side_effect_level) g).
End VerificationPlan.

(** [research/verification.py:185-251 VerificationContext] *)
Module VerificationContext.
Record t : Type := mk {
  candidate_id : string;
  candidate_state : CandidateState.t;
  research_run_id : string;
  hypothesis_id : string;
  claim : string;
  plan : VerificationPlan.t;
  original_evidence : VerificationEvidenceRef.t;
  reproduction_evidence : option VerificationEvidenceRef.t;
  negative_control_evidence : option VerificationEvidenceRef.t;
  reproduction_execution_unusable : bool;
  authoritative_out_of_scope : bool;
  duplicate_of_candidate_id : option string;
  known_duplicate_exists : bool;
  reproduction_assessment_outcome : option AssessmentOutcome.t;
  reproduction_experiment_id : option string;
  reproduction_request_id : option string;
  reproduction_observation_ids : list string }.

Definition post_init (x : t) : result t :=
  a ← require_text x.(candidate_id);
  b ← require_text x.(research_run_id);
  c ← require_text x.(hypothesis_id);
  d ← require_text x.(claim);
  e ← require_text_when_set x.(duplicate_of_candidate_id);
  f ← require_text_when_set x.(reproduction_experiment_id);
  g ← require_text_when_set x.(reproduction_request_id);
  Ok (mk a x.(candidate_state) b c d x.(plan) x.(original_evidence) x.(reproduction_evidence)
        x.(negative_control_evidence) x.(reproduction_execution_unusable)
        x.(authoritative_out_of_scope) e x.(known_duplicate_exists)
        x.(reproduction_assessment_outcome) f g x.(reproduction_observation_ids)).
End VerificationContext.

(** [research/verification.py:254-305 VerificationResult] *)
Module VerificationResult.
Record t : Type := mk {
  outcome : VerificationOutcome.t;
  reason_codes : list string;
  proposed_candidate_state : CandidateState.t;
  original_evidence_ids : list string;
  reproduction_evidence_ids : list string;
  negative_control_evidence_ids : list string;
  alternative_explanation_checks : list (string * pyval);
  verifier_kind : string;
  verifier_identity : string;
  strategy : string }.

Definition post_init (x : t) : result t :=
  raise_if negb (CandidateState.value x.(proposed_candidate_state)
                 =? VerificationOutcome.value x.(outcome))%string
  as ResearchInputError;;
  a ← require_ids x.(reason_codes);
  b ← require_ids x.(original_evidence_ids);
  c ← reject_forbidden FORBIDDEN_VERIFICATION_KEYS x.(alternative_explanation_checks);
  d ← require_text x.(verifier_kind);
  e ← require_text x.(verifier_identity);
  f ← require_text x.(strategy);
  Ok (mk x.(outcome) a x.(proposed_candidate_state) b x.(reproduction_evidence_ids)
        x.(negative_control_evidence_ids) c d e f).
End VerificationResult.

(** ** Plans *)

(** [research/verification.py:308-328 plan_diagnostic_verification] *)
Definition plan_diagnostic_verification (candidate_id : string) (original_evidence_ids : list string)
    : result VerificationPlan.t :=
  VerificationPlan.post_init
    (VerificationPlan.mk candidate_id DIAGNOSTIC_VERIFICATION_STRATEGY
       "diagnostic echo returns the submitted value of a NEW experiment plan"
       "echoed value equals the reproduction submitted value"
       "echo must not equal the diagnostic negative-control fail token"
       [ "original observation reused as sole proof";
         "control fail token would satisfy the claim" ]
       original_evidence_ids 0 DIAGNOSTIC_NEGATIVE_CONTROL_TOKEN).

(** [research/verification.py:331-356 plan_authorization_differential_verification] *)
Definition plan_authorization_differential_verification (candidate_id : string)
    (original_evidence_ids : list string) : result VerificationPlan.t :=
  VerificationPlan.post_init
    (VerificationPlan.mk candidate_id HTTP_AUTHORIZATION_DIFFERENTIAL_VERIFICATION_STRATEGY
       "object access control prevents an authenticated actor from reading another actor's account object"
       "fresh independent experiment reproduces cross-object account read with the returned object owner proven"
       "secure-control and unauthenticated requests remain denied"
       [ "original observation reused as sole proof"; "HTTP 200 without proven object owner";
         "secure control would also return the other actor's object" ]
       original_evidence_ids 0 DIAGNOSTIC_NEGATIVE_CONTROL_TOKEN).

(** [research/verification.py:359-385 plan_state_transition_verification] *)
Definition plan_state_transition_verification (candidate_id : string)
    (original_evidence_ids : list string) : result VerificationPlan.t :=
  VerificationPlan.post_init
    (VerificationPlan.mk candidate_id HTTP_STATE_TRANSITION_VERIFICATION_STRATEGY
       "workflow authorization prevents a requester from approving or skipping required states"
       "fresh independent experiment reproduces an unauthorized workflow state transition with authoritative pre-state and post-state"
       "control-path transition remains denied or conflicted"
       [ "original observation reused as sole proof";
         "HTTP 200 without authoritative state change"; "explicit delegated reviewer authority";
         "idempotent repeat of an already completed transition" ]
       original_evidence_ids 1 DIAGNOSTIC_NEGATIVE_CONTROL_TOKEN).

(** ** Checks *)

(** [set(a) & set(b)] is not empty. *)
Definition intersects (a b : list string) : bool := existsb (fun x => mem x b) a.

(** [research/verification.py:388-397 _independent] *)
Definition independent (original reproduction : VerificationEvidenceRef.t) : bool :=
  if (original.(VerificationEvidenceRef.evidence_id)
      =? reproduction.(VerificationEvidenceRef.evidence_id))%string then false
  else if (original.(VerificationEvidenceRef.experiment_id)
           =? reproduction.(VerificationEvidenceRef.experiment_id))%string then false
  else if (original.(VerificationEvidenceRef.request_id)
           =? reproduction.(VerificationEvidenceRef.request_id))%string then false
  else negb (intersects original.(VerificationEvidenceRef.observation_ids)
               reproduction.(VerificationEvidenceRef.observation_ids)).

(** [CandidateState(outcome.value)] *)
Definition state_of (outcome : VerificationOutcome.t) : CandidateState.t :=
  match outcome with
  | VerificationOutcome.VALIDATED => CandidateState.VALIDATED
  | VerificationOutcome.REJECTED => CandidateState.REJECTED
  | VerificationOutcome.INCONCLUSIVE => CandidateState.INCONCLUSIVE
  | VerificationOutcome.DUPLICATE => CandidateState.DUPLICATE
  | VerificationOutcome.OUT_OF_SCOPE => CandidateState.OUT_OF_SCOPE
  end.

(** [research/verification.py:400-421 _result] *)
Definition make_result (outcome : VerificationOutcome.t) (context : VerificationContext.t)
    (reason_codes reproduction_ids control_ids : list string) (checks : list (string * pyval))
    (verifier_identity : string) : result VerificationResult.t :=
  VerificationResult.post_init
    (VerificationResult.mk outcome reason_codes (state_of outcome)
       [context.(VerificationContext.original_evidence).(VerificationEvidenceRef.evidence_id)]
       reproduction_ids control_ids checks DIAGNOSTIC_VERIFIER_KIND verifier_identity
       context.(VerificationContext.plan).(VerificationPlan.verification_strategy)).

(** [research/verification.py:701-704 _reproduction_ids] *)
Definition reproduction_ids_of (context : VerificationContext.t) : list string :=
  match context.(VerificationContext.reproduction_evidence) with
  | None => []
  | Some r => [r.(VerificationEvidenceRef.evidence_id)]
  end.

(** [not s] for a value that may be [None]. *)
Definition absent (s : option string) : bool :=
  match s with None => true | Some s => Str.is_empty s end.

(** [research/verification.py:707-727 _reproduction_independent_of_original] *)
Definition reproduction_independent_of_original (context : VerificationContext.t) : bool :=
  let original := context.(VerificationContext.original_evidence) in
  let '(same_evidence, experiment_id, request_id, observation_ids) :=
    match context.(VerificationContext.reproduction_evidence) with
    | Some r =>
        ((original.(VerificationEvidenceRef.evidence_id)
          =? r.(VerificationEvidenceRef.evidence_id))%string,
         Some r.(VerificationEvidenceRef.experiment_id),
         Some r.(VerificationEvidenceRef.request_id),
         r.(VerificationEvidenceRef.observation_ids))
    | None =>
        (false, context.(VerificationContext.reproduction_experiment_id),
         context.(VerificationContext.reproduction_request_id),
         context.(VerificationContext.reproduction_observation_ids))
    end in
  if (same_evidence : bool) then false
  else if absent experiment_id || absent request_id then false
  else if bool_decide (Some original.(VerificationEvidenceRef.experiment_id) = experiment_id)
  then false
  else if bool_decide (Some original.(VerificationEvidenceRef.request_id) = request_id)
  then false
  else negb (intersects original.(VerificationEvidenceRef.observation_ids) observation_ids).

(** [isinstance(v, str) and v.strip().upper() == word] *)
Definition is_word (word : string) (v : pyval) : bool :=
  match v with PStr s => (Str.upper (Str.strip s) =? word)%string | _ => false end.

(** [isinstance(readers, list) and isinstance(actor, str) and actor in readers] *)
Definition actor_listed (readers actor : pyval) : bool :=
  match readers, actor with
  | PList l, PStr a => existsb (fun x => eq_str x a) l
  | _, _ => false
  end.

(** [a != b] for a string [b]. *)
Definition differs_text (a b : pyval) : bool :=
  match b with PStr s => negb (eq_str a s) | _ => true end.

(** [x and (y : fallible)] *)
Definition and_then (x : bool) (y : result bool) : result bool := if x then y else Ok false.

(** [research/verification.py:730-756 _controls_held] *)
Definition controls_held (facts : option (list (string * pyval))) : result bool :=
  match facts with
  | None => Ok false
  | Some facts =>
      let secure := dict_get "secure_control_status" facts in
      let unauth := dict_get "unauthenticated_control_status" facts in
      let cross_owner := dict_get "cross_object_request_object_owner" facts in
      let cross_status := dict_get "cross_object_request_status" facts in
      let actor := dict_get "actor" facts in
      if is_word "PUBLIC" (dict_get "cross_object_request_visibility" facts) then Ok false
      else if is_word "SHARED" (dict_get "cross_object_request_resource_kind" facts) then Ok false
      else if actor_listed (dict_get "cross_object_request_authorized_readers" facts) actor
      then Ok false
      else
        and_then (eq_int secure 403)
          (unauth_ok ← in_int_set unauth [401; 403];
           Ok (unauth_ok && eq_int cross_status 200 && is_text cross_owner && is_text actor
               && differs_text cross_owner actor))
  end.

(** [research/verification.py:759-779 _workflow_controls_held] *)
Definition workflow_controls_held (facts : option (list (string * pyval))) : result bool :=
  match facts with
  | None => Ok false
  | Some facts =>
      let control := dict_get "control_status" facts in
      let post_state := dict_get "post_state" facts in
      let pre_state := dict_get "pre_state" facts in
      let actor := dict_get "actor" facts in
      let actor_role := dict_get "actor_role" facts in
      let approved_by := dict_get "approved_by" facts in
      if actor_listed (dict_get "delegated_reviewers" facts) actor then Ok false
      else
        control_ok ← in_int_set control [401; 403; 409];
        Ok (control_ok && eq_str post_state "APPROVED" && differs_text pre_state post_state
            && eq_str actor_role "requester" && is_text actor
            && match actor with PStr a => eq_str approved_by a | _ => false end)
  end.

(** The three tests every verifier starts with.
    [research/verification.py:427-432 evaluate_diagnostic_verification] *)
Definition check_plan (context : VerificationContext.t) (strategy : string) : result unit :=
  let plan := context.(VerificationContext.plan) in
  raise_if negb (plan.(VerificationPlan.candidate_id)
                 =? context.(VerificationContext.candidate_id))%string as ResearchInputError;;
  raise_if negb (plan.(VerificationPlan.verification_strategy) =? strategy)%string
  as ResearchInputError;;
  raise_if negb (context.(VerificationContext.original_evidence)
                   .(VerificationEvidenceRef.research_run_id)
                 =? context.(VerificationContext.research_run_id))%string
  as ResearchInputError;;
  Ok tt.

Definition polarity_is (e : VerificationEvidenceRef.t) (p : EvidencePolarity.t) : bool :=
  (e.(VerificationEvidenceRef.polarity) =? EvidencePolarity.value p)%string.

Definition scope_is (e : VerificationEvidenceRef.t) (claim : string) : bool :=
  (e.(VerificationEvidenceRef.claim_scope) =? claim)%string.

(** [research/verification.py:424-552 evaluate_diagnostic_verification] *)
Definition evaluate_diagnostic_verification (context : VerificationContext.t)
    : result VerificationResult.t :=
  let finish outcome codes rep ctl checks :=
    make_result outcome context codes rep ctl checks DIAGNOSTIC_VERIFIER_IDENTITY in
  let original := context.(VerificationContext.original_evidence) in
  _ ← check_plan context DIAGNOSTIC_VERIFICATION_STRATEGY;
  if context.(VerificationContext.authoritative_out_of_scope)
  then finish VerificationOutcome.OUT_OF_SCOPE ["AUTHORITATIVE_OUT_OF_SCOPE"] [] [] []
  else if bool_decide (is_Some context.(VerificationContext.duplicate_of_candidate_id))
  then
    if negb context.(VerificationContext.known_duplicate_exists)
    then finish VerificationOutcome.INCONCLUSIVE ["UNKNOWN_DUPLICATE_REFERENCE"] [] [] []
    else finish VerificationOutcome.DUPLICATE ["EXPLICIT_DUPLICATE_REFERENCE"] [] [] []
  else if context.(VerificationContext.reproduction_execution_unusable)
  then finish VerificationOutcome.INCONCLUSIVE
         ["REPRODUCTION_UNUSABLE"; "FAILURE_TO_VERIFY_IS_NOT_REJECTION"] [] [] []
  else
  match context.(VerificationContext.reproduction_evidence) with
  | None =>
      finish VerificationOutcome.INCONCLUSIVE
        ["MISSING_REPRODUCTION_EVIDENCE"; "CANNOT_SELF_VALIDATE"] [] [] []
  | Some reproduction =>
      let rep := [reproduction.(VerificationEvidenceRef.evidence_id)] in
      if negb (independent original reproduction)
      then finish VerificationOutcome.INCONCLUSIVE
             ["REPRODUCTION_NOT_INDEPENDENT"; "CANNOT_SELF_VALIDATE"] rep [] []
      else if negb (reproduction.(VerificationEvidenceRef.research_run_id)
                    =? context.(VerificationContext.research_run_id))%string
      then finish VerificationOutcome.INCONCLUSIVE ["REPRODUCTION_WRONG_RUN"] rep [] []
      else
      let ctl := match context.(VerificationContext.negative_control_evidence) with
                 | Some c => [c.(VerificationEvidenceRef.evidence_id)]
                 | None => []
                 end in
      if polarity_is reproduction EvidencePolarity.CONTRADICTING
         && scope_is reproduction DIAGNOSTIC_ECHO_MISMATCHED_CLAIM
      then finish VerificationOutcome.REJECTED ["REPRODUCTION_CONTRADICTS_CLAIM"] rep ctl []
      else if negb (polarity_is reproduction EvidencePolarity.SUPPORTING
                    && scope_is reproduction DIAGNOSTIC_ECHO_MATCHED_CLAIM)
      then finish VerificationOutcome.INCONCLUSIVE ["REPRODUCTION_DOES_NOT_SUPPORT_CLAIM"] rep ctl []
      else
      let observed := reproduction.(VerificationEvidenceRef.observed_echo) in
      let token := context.(VerificationContext.plan).(VerificationPlan.negative_control_token) in
      let control_held :=
        match observed with Some o => negb (o =? token)%string | None => false end in
      let checks :=
        [ ("negative_control_token", PStr token);
          ("reproduction_observed_echo",
           match observed with Some o => PStr o | None => PNone end);
          ("negative_control_held", PBool control_held); ("not_a_vulnerability", PBool true);
          ("not_a_finding", PBool true) ] in
      let conclude checks :=
        if negb control_held
        then finish VerificationOutcome.INCONCLUSIVE ["NEGATIVE_CONTROL_DID_NOT_HOLD"] rep ctl checks
        else finish VerificationOutcome.VALIDATED
               ["REPRODUCTION_INDEPENDENT"; "NEGATIVE_CONTROL_HELD"; "DIAGNOSTIC_PLUMBING_ONLY"]
               rep ctl checks in
      match context.(VerificationContext.negative_control_evidence) with
      | None => conclude checks
      | Some control =>
          if polarity_is control EvidencePolarity.CONTRADICTING
             && scope_is control DIAGNOSTIC_ECHO_MISMATCHED_CLAIM
             && independent original control
             && negb (control.(VerificationEvidenceRef.evidence_id)
                      =? reproduction.(VerificationEvidenceRef.evidence_id))%string
          then conclude (checks ++ [("mismatch_fixture_held", PBool true)])
          else finish VerificationOutcome.INCONCLUSIVE ["NEGATIVE_CONTROL_EVIDENCE_UNUSABLE"]
                 rep ctl checks
      end
  end.

(** The two HTTP verifiers differ in strategy, claim, controls and reason codes only.
    [research/verification.py:628-698 evaluate_state_transition_verification] *)
Definition evaluate_http_verification (strategy identity claim : string)
    (held : option (list (string * pyval)) -> result bool) (reproduced control_code : string)
    (context : VerificationContext.t) : result VerificationResult.t :=
  let finish outcome codes rep checks :=
    make_result outcome context codes rep [] checks identity in
  let rep := reproduction_ids_of context in
  _ ← check_plan context strategy;
  if context.(VerificationContext.authoritative_out_of_scope)
  then finish VerificationOutcome.OUT_OF_SCOPE ["AUTHORITATIVE_OUT_OF_SCOPE"] [] []
  else if context.(VerificationContext.reproduction_execution_unusable)
  then finish VerificationOutcome.INCONCLUSIVE
         ["REPRODUCTION_UNUSABLE"; "FAILURE_TO_VERIFY_IS_NOT_REJECTION"] [] []
  else if negb (reproduction_independent_of_original context)
  then finish VerificationOutcome.INCONCLUSIVE
         ["REPRODUCTION_NOT_INDEPENDENT"; "CANNOT_SELF_VALIDATE"] rep []
  else
    reproduced_ok ←
      match context.(VerificationContext.reproduction_evidence) with
      | None => Ok false
      | Some r =>
          and_then (polarity_is r EvidencePolarity.SUPPORTING && scope_is r claim)
            (held r.(VerificationEvidenceRef.observed_facts))
      end;
    if (reproduced_ok : bool)
    then finish VerificationOutcome.VALIDATED
           ["REPRODUCTION_INDEPENDENT"; "NEGATIVE_CONTROL_HELD"; reproduced] rep
           [("negative_control_held", PBool true); ("not_a_finding", PBool true)]
    else if bool_decide (context.(VerificationContext.reproduction_assessment_outcome)
                         = Some AssessmentOutcome.CONTRADICTS_PREDICTION)
    then finish VerificationOutcome.REJECTED
           ["REPRODUCTION_CONTRADICTS_CLAIM"; control_code] rep []
    else finish VerificationOutcome.INCONCLUSIVE ["REPRODUCTION_DOES_NOT_SUPPORT_CLAIM"] rep [].

(** [research/verification.py:555-625 evaluate_authorization_differential_verification] *)
Definition evaluate_authorization_differential_verification
    : VerificationContext.t -> result VerificationResult.t :=
  evaluate_http_verification HTTP_AUTHORIZATION_DIFFERENTIAL_VERIFICATION_STRATEGY
    HTTP_AUTHORIZATION_DIFFERENTIAL_VERIFIER_IDENTITY HTTP_AUTHORIZATION_DIFFERENTIAL_CLAIM
    controls_held "HTTP_AUTHORIZATION_DIFFERENTIAL_REPRODUCED" "OBJECT_ACCESS_CONTROL_HELD".

(** [research/verification.py:628-698 evaluate_state_transition_verification] *)
Definition evaluate_state_transition_verification
    : VerificationContext.t -> result VerificationResult.t :=
  evaluate_http_verification HTTP_STATE_TRANSITION_VERIFICATION_STRATEGY
    HTTP_STATE_TRANSITION_VERIFIER_IDENTITY HTTP_STATE_TRANSITION_CLAIM
    workflow_controls_held "HTTP_STATE_TRANSITION_AUTHORIZATION_REPRODUCED"
    "WORKFLOW_CONTROL_HELD".

(** [research/verification.py:782-788 apply_verification_to_candidate] *)
Definition apply_verification_to_candidate (current : CandidateState.t)
    (r : VerificationResult.t) : result CandidateState.t :=
  transition_candidate current r.(VerificationResult.proposed_candidate_state).

(** ** What the verifiers establish *)

(** Two evidence references share nothing: another evidence, another experiment, another
    request, no common observation. *)
Record separate (a b : VerificationEvidenceRef.t) : Prop := {
  sep_evidence : a.(VerificationEvidenceRef.evidence_id) <> b.(VerificationEvidenceRef.evidence_id);
  sep_experiment :
    a.(VerificationEvidenceRef.experiment_id) <> b.(VerificationEvidenceRef.experiment_id);
  sep_request : a.(VerificationEvidenceRef.request_id) <> b.(VerificationEvidenceRef.request_id);
  sep_observations : forall o, o ∈ a.(VerificationEvidenceRef.observation_ids) ->
    o ∉ b.(VerificationEvidenceRef.observation_ids) }.

Lemma intersects_false a b : intersects a b = false <-> forall x, x ∈ a -> x ∉ b.
Proof.
  unfold intersects. rewrite existsb_false. split; intros H x Hx; specialize (H x Hx);
    by apply mem_false in H || apply mem_false.
Qed.

Lemma independent_iff a b : independent a b = true <-> separate a b.
Proof.
  unfold independent. destruct (String.eqb_spec a.(VerificationEvidenceRef.evidence_id)
    b.(VerificationEvidenceRef.evidence_id)); [by split; [|intros []]|].
  destruct (String.eqb_spec a.(VerificationEvidenceRef.experiment_id)
    b.(VerificationEvidenceRef.experiment_id)); [by split; [|intros []]|].
  destruct (String.eqb_spec a.(VerificationEvidenceRef.request_id)
    b.(VerificationEvidenceRef.request_id)); [by split; [|intros []]|].
  rewrite negb_true_iff, intersects_false. split; [by constructor|by intros []].
Qed.

(** With a reproduction evidence, the second test is the first one, for references that
    name their experiment and request (their constructor refuses blank names). *)
Lemma reproduction_independent_iff ctx r :
  ctx.(VerificationContext.reproduction_evidence) = Some r ->
  reproduction_independent_of_original ctx
  = negb (Str.is_empty r.(VerificationEvidenceRef.experiment_id))
    && negb (Str.is_empty r.(VerificationEvidenceRef.request_id))
    && independent ctx.(VerificationContext.original_evidence) r.
Proof.
  intros E. unfold reproduction_independent_of_original, independent. rewrite E. cbn.
  destruct (Str.is_empty r.(VerificationEvidenceRef.experiment_id)),
    (Str.is_empty r.(VerificationEvidenceRef.request_id)); cbn; try (by case_match).
  destruct (String.eqb_spec
    ctx.(VerificationContext.original_evidence).(VerificationEvidenceRef.evidence_id)
    r.(VerificationEvidenceRef.evidence_id)); [done|].
  do 2 (match goal with |- context [(?a =? ?b)%string] =>
      destruct (String.eqb_spec a b) as [e|?];
        [rewrite bool_decide_true by congruence; done
        |rewrite bool_decide_false by congruence] end).
  done.
Qed.

Lemma make_result_inv outcome ctx codes rep ctl checks identity r :
  make_result outcome ctx codes rep ctl checks identity = Ok r ->
  r.(VerificationResult.outcome) = outcome
  /\ r.(VerificationResult.proposed_candidate_state) = state_of outcome
  /\ r.(VerificationResult.reproduction_evidence_ids) = rep.
Proof.
  unfold make_result, VerificationResult.post_init. rewrite raise_if_ok. intros [_ H].
  repeat (apply bind_ok in H as (? & _ & H)). by injection H as <-.
Qed.

Lemma and_then_true x y : and_then x y = Ok true <-> x = true /\ y = Ok true.
Proof. destruct x; simpl; naive_solver. Qed.

(** A reproduction that proves [claim] under [held]. *)
Definition reproduces (claim : string) (held : option (list (string * pyval)) -> result bool)
    (ctx : VerificationContext.t) (r : VerificationEvidenceRef.t) : Prop :=
  ctx.(VerificationContext.reproduction_evidence) = Some r
  /\ separate ctx.(VerificationContext.original_evidence) r
  /\ r.(VerificationEvidenceRef.polarity) = "SUPPORTING"
  /\ r.(VerificationEvidenceRef.claim_scope) = claim
  /\ held r.(VerificationEvidenceRef.observed_facts) = Ok true.

(** A context from which conclusions are drawn. *)
Definition usable (ctx : VerificationContext.t) : Prop :=
  ctx.(VerificationContext.authoritative_out_of_scope) = false
  /\ ctx.(VerificationContext.reproduction_execution_unusable) = false.

Section http.
Context (strategy identity claim : string)
  (held : option (list (string * pyval)) -> result bool) (reproduced control_code : string).

(** The evidence that concludes: what each branch of the verifier saw. *)
Lemma http_result_inv ctx r :
  evaluate_http_verification strategy identity claim held reproduced control_code ctx = Ok r ->
  (r.(VerificationResult.outcome) = VerificationOutcome.VALIDATED ->
     usable ctx /\ exists e, reproduces claim held ctx e
       /\ r.(VerificationResult.reproduction_evidence_ids)
          = [e.(VerificationEvidenceRef.evidence_id)])
  /\ (r.(VerificationResult.outcome) = VerificationOutcome.REJECTED ->
     usable ctx /\ reproduction_independent_of_original ctx = true
     /\ ctx.(VerificationContext.reproduction_assessment_outcome)
        = Some AssessmentOutcome.CONTRADICTS_PREDICTION)
  /\ r.(VerificationResult.proposed_candidate_state)
     = state_of r.(VerificationResult.outcome)
  /\ (r.(VerificationResult.outcome) = VerificationOutcome.OUT_OF_SCOPE
      <-> ctx.(VerificationContext.authoritative_out_of_scope) = true)
  /\ r.(VerificationResult.outcome) <> VerificationOutcome.DUPLICATE.
Proof.
  unfold evaluate_http_verification. cbv zeta. rewrite bind_ok. intros ([] & _ & H).
  unfold usable. destruct (VerificationContext.authoritative_out_of_scope ctx).
  { apply make_result_inv in H as (-> & -> & _). done. }
  destruct (VerificationContext.reproduction_execution_unusable ctx).
  { apply make_result_inv in H as (-> & -> & _). done. }
  destruct (reproduction_independent_of_original ctx) eqn:Hind; cbn [negb] in H.
  2:{ apply make_result_inv in H as (-> & -> & _). done. }
  apply bind_ok in H as (ok & Hok & H). destruct ok.
  - apply make_result_inv in H as (-> & -> & ->). repeat split; try done.
    destruct (VerificationContext.reproduction_evidence ctx) as [e|] eqn:He; [|done].
    exists e. rewrite (reproduction_independent_iff _ _ He) in Hind.
    rewrite and_then_true in Hok. unfold polarity_is, scope_is in Hok.
    rewrite !andb_true_iff in Hind, Hok. rewrite !String.eqb_eq in Hok.
    unfold reproduces. rewrite <-independent_iff. unfold reproduction_ids_of. rewrite He.
    naive_solver.
  - case_bool_decide; apply make_result_inv in H as (-> & -> & _); done.
Qed.
End http.

(** A candidate is VALIDATED as an authorization differential only by an independent
    reproduction: fresh evidence of another experiment, request and observations than the
    original, supporting this very claim, whose own facts show the cross-object read with
    the secure and unauthenticated controls denied; evidence never validates itself. *)
Theorem differential_validated_by_reproduction ctx r :
  evaluate_authorization_differential_verification ctx = Ok r ->
  r.(VerificationResult.outcome) = VerificationOutcome.VALIDATED ->
  usable ctx
  /\ exists e, reproduces HTTP_AUTHORIZATION_DIFFERENTIAL_CLAIM controls_held ctx e
     /\ r.(VerificationResult.reproduction_evidence_ids)
        = [e.(VerificationEvidenceRef.evidence_id)].
Proof. intros H. by apply (http_result_inv _ _ _ _ _ _ _ _ H). Qed.

(** A candidate is VALIDATED as a workflow state transition only by an independent
    reproduction whose facts show the authoritative state change by the requester with the
    control path denied. *)
Theorem transition_validated_by_reproduction ctx r :
  evaluate_state_transition_verification ctx = Ok r ->
  r.(VerificationResult.outcome) = VerificationOutcome.VALIDATED ->
  usable ctx
  /\ exists e, reproduces HTTP_STATE_TRANSITION_CLAIM workflow_controls_held ctx e
     /\ r.(VerificationResult.reproduction_evidence_ids)
        = [e.(VerificationEvidenceRef.evidence_id)].
Proof. intros H. by apply (http_result_inv _ _ _ _ _ _ _ _ H). Qed.

Definition diagnostic_supports (ctx : VerificationContext.t) (e : VerificationEvidenceRef.t) : Prop :=
  reproduces DIAGNOSTIC_ECHO_MATCHED_CLAIM (fun _ => Ok true) ctx e
  /\ e.(VerificationEvidenceRef.research_run_id) = ctx.(VerificationContext.research_run_id)
  /\ (exists o, e.(VerificationEvidenceRef.observed_echo) = Some o
       /\ o <> ctx.(VerificationContext.plan).(VerificationPlan.negative_control_token))
  /\ (forall c, ctx.(VerificationContext.negative_control_evidence) = Some c ->
       separate ctx.(VerificationContext.original_evidence) c
       /\ c.(VerificationEvidenceRef.evidence_id) <> e.(VerificationEvidenceRef.evidence_id)
       /\ c.(VerificationEvidenceRef.polarity) = "CONTRADICTING").

Lemma diagnostic_result_inv ctx r :
  evaluate_diagnostic_verification ctx = Ok r ->
  (r.(VerificationResult.outcome) = VerificationOutcome.VALIDATED ->
     usable ctx /\ exists e, diagnostic_supports ctx e
       /\ r.(VerificationResult.reproduction_evidence_ids)
          = [e.(VerificationEvidenceRef.evidence_id)])
  /\ (r.(VerificationResult.outcome) = VerificationOutcome.REJECTED ->
     usable ctx /\ exists e, ctx.(VerificationContext.reproduction_evidence) = Some e
       /\ separate ctx.(VerificationContext.original_evidence) e
       /\ e.(VerificationEvidenceRef.polarity) = "CONTRADICTING")
  /\ r.(VerificationResult.proposed_candidate_state)
     = state_of r.(VerificationResult.outcome).
Proof.
  unfold evaluate_diagnostic_verification. cbv zeta. rewrite bind_ok. intros ([] & _ & H).
  unfold usable.
  destruct (VerificationContext.authoritative_out_of_scope ctx);
    [apply make_result_inv in H as (-> & -> & _); done|].
  case_bool_decide;
    [destruct (VerificationContext.known_duplicate_exists ctx);
     apply make_result_inv in H as (-> & -> & _); done|].
  destruct (VerificationContext.reproduction_execution_unusable ctx);
    [apply make_result_inv in H as (-> & -> & _); done|].
  destruct (VerificationContext.reproduction_evidence ctx) as [e|] eqn:He;
    [|apply make_result_inv in H as (-> & -> & _); done].
  destruct (independent _ e) eqn:Hind; cbn [negb] in H;
    [apply independent_iff in Hind|apply make_result_inv in H as (-> & -> & _); done].
  destruct (String.eqb_spec e.(VerificationEvidenceRef.research_run_id)
    ctx.(VerificationContext.research_run_id)) as [Hrun|]; cbn [negb] in H;
    [|apply make_result_inv in H as (-> & -> & _); done].
  destruct (polarity_is e EvidencePolarity.CONTRADICTING && _) eqn:Hcon.
  { apply make_result_inv in H as (-> & -> & _). repeat split; try done.
    exists e. apply andb_true_iff in Hcon as [Hcon%String.eqb_eq _]. done. }
  destruct (polarity_is e EvidencePolarity.SUPPORTING && _) eqn:Hsup; cbn [negb] in H;
    [|apply make_result_inv in H as (-> & -> & _); done].
  unfold polarity_is, scope_is in Hsup. apply andb_true_iff in Hsup as [Hp%String.eqb_eq Hs%String.eqb_eq].
  revert H. set (held := match e.(VerificationEvidenceRef.observed_echo) with
    Some o => negb (o =? _)%string | None => false end).
  intros H. assert (held = true -> exists o, e.(VerificationEvidenceRef.observed_echo) = Some o
    /\ o <> ctx.(VerificationContext.plan).(VerificationPlan.negative_control_token)) as Hheld.
  { unfold held. destruct (VerificationEvidenceRef.observed_echo e) as [o|]; [|done].
    rewrite negb_true_iff, String.eqb_neq. eauto. }
  unfold diagnostic_supports, reproduces. rewrite He.
  destruct (VerificationContext.negative_control_evidence ctx) as [c|].
  - match type of H with context [if ?b then _ else _] => destruct b eqn:Hc end.
    2:{ by apply make_result_inv in H as (-> & -> & _). }
    rewrite !andb_true_iff in Hc. destruct Hc as [[[Hc1 _] Hc2] Hc3].
    apply independent_iff in Hc2. apply String.eqb_eq in Hc1.
    rewrite negb_true_iff, String.eqb_neq in Hc3.
    destruct held; cbn [negb] in H; apply make_result_inv in H as (-> & -> & ->); [|done].
    repeat split; try done. exists e. naive_solver.
  - destruct held; cbn [negb] in H; apply make_result_inv in H as (-> & -> & ->); [|done].
    repeat split; try done. exists e. naive_solver.
Qed.

(** The diagnostic verifier concludes only from a reproduction of the candidate's own run
    that is independent of the original evidence: VALIDATED needs supporting evidence with
    an echo different from the fail token and, when a control is given, a separate
    contradicting control; REJECTED needs contradicting evidence. A missing, unusable or
    dependent reproduction is never a rejection. *)
Theorem diagnostic_conclusions_need_reproduction ctx r :
  evaluate_diagnostic_verification ctx = Ok r ->
  (r.(VerificationResult.outcome) = VerificationOutcome.VALIDATED ->
     usable ctx /\ exists e, diagnostic_supports ctx e
       /\ r.(VerificationResult.reproduction_evidence_ids)
          = [e.(VerificationEvidenceRef.evidence_id)])
  /\ (r.(VerificationResult.outcome) = VerificationOutcome.REJECTED ->
     usable ctx /\ exists e, ctx.(VerificationContext.reproduction_evidence) = Some e
       /\ separate ctx.(VerificationContext.original_evidence) e
       /\ e.(VerificationEvidenceRef.polarity) = "CONTRADICTING").
Proof. intros H. destruct (diagnostic_result_inv _ _ H) as (? & ? & _). done. Qed.

(** Every result of a verifier can be applied to a candidate under verification: the
    proposed state is the one named by the outcome, the transition from VERIFYING never
    raises, and the candidate ends in a terminal state. *)
Theorem verification_result_applies ctx r :
  evaluate_diagnostic_verification ctx = Ok r
  \/ evaluate_authorization_differential_verification ctx = Ok r
  \/ evaluate_state_transition_verification ctx = Ok r ->
  apply_verification_to_candidate CandidateState.VERIFYING r
  = Ok (state_of r.(VerificationResult.outcome))
  /\ state_of r.(VerificationResult.outcome) ∈ TERMINAL_CANDIDATE_STATES.
Proof.
  intros H. assert (r.(VerificationResult.proposed_candidate_state)
    = state_of r.(VerificationResult.outcome)) as E.
  { destruct H as [H|[H|H]]; [by apply diagnostic_result_inv in H as (_ & _ & ?)|
      by apply http_result_inv in H as (_ & _ & ? & _)..]. }
  unfold apply_verification_to_candidate. rewrite E.
  split; [|apply mem_true]; by destruct (VerificationResult.outcome r).
Qed.

(** ** Witnesses *)

Definition sample_ref (n : string) (claim : string) (facts : list (string * pyval))
    : VerificationEvidenceRef.t :=
  VerificationEvidenceRef.mk ("ev-" ++ n)%string "run" ("exp-" ++ n)%string
    ("req-" ++ n)%string [("obs-" ++ n)%string]
    "SUPPORTING" claim (Some "hello") (Some facts).

Definition sample_context (strategy claim : string) (facts : list (string * pyval))
    : VerificationContext.t :=
  VerificationContext.mk "cand" CandidateState.VERIFYING "run" "hyp" claim
    (VerificationPlan.mk "cand" strategy "expected" "observed" "control" [] ["ev-1"] 0
       DIAGNOSTIC_NEGATIVE_CONTROL_TOKEN)
    (sample_ref "1" claim facts) (Some (sample_ref "2" claim facts)) None false false None false
    None None None [].

Definition differential_facts : list (string * pyval) :=
  [ ("secure_control_status", PInt 403); ("unauthenticated_control_status", PInt 401);
    ("cross_object_request_status", PInt 200); ("cross_object_request_object_owner", PStr "bob");
    ("actor", PStr "alice") ].

Definition workflow_facts : list (string * pyval) :=
  [ ("control_status", PInt 409); ("pre_state", PStr "DRAFT"); ("post_state", PStr "APPROVED");
    ("actor", PStr "alice"); ("actor_role", PStr "requester"); ("approved_by", PStr "alice") ].

Definition differential_context : VerificationContext.t :=
  sample_context HTTP_AUTHORIZATION_DIFFERENTIAL_VERIFICATION_STRATEGY
    HTTP_AUTHORIZATION_DIFFERENTIAL_CLAIM differential_facts.

Definition workflow_context : VerificationContext.t :=
  sample_context HTTP_STATE_TRANSITION_VERIFICATION_STRATEGY HTTP_STATE_TRANSITION_CLAIM
    workflow_facts.

Definition diagnostic_context : VerificationContext.t :=
  sample_context DIAGNOSTIC_VERIFICATION_STRATEGY DIAGNOSTIC_ECHO_MATCHED_CLAIM [].

Definition sample_validated (rep : string) (codes : list string) (checks : list (string * pyval))
    (identity strategy : string) : VerificationResult.t :=
  VerificationResult.mk VerificationOutcome.VALIDATED codes CandidateState.VALIDATED ["ev-1"] [rep]
    [] checks DIAGNOSTIC_VERIFIER_KIND identity strategy.

Definition http_validated (code identity strategy : string) : VerificationResult.t :=
  sample_validated "ev-2" ["REPRODUCTION_INDEPENDENT"; "NEGATIVE_CONTROL_HELD"; code]
    [("negative_control_held", PBool true); ("not_a_finding", PBool true)] identity strategy.

Lemma differential_validated_by_reproduction_witness : usable differential_context.
Proof.
  refine (proj1 (differential_validated_by_reproduction differential_context
    (http_validated "HTTP_AUTHORIZATION_DIFFERENTIAL_REPRODUCED"
       HTTP_AUTHORIZATION_DIFFERENTIAL_VERIFIER_IDENTITY
       HTTP_AUTHORIZATION_DIFFERENTIAL_VERIFICATION_STRATEGY) _ _)); vm_compute; reflexivity.
Defined.

Lemma transition_validated_by_reproduction_witness : usable workflow_context.
Proof.
  refine (proj1 (transition_validated_by_reproduction workflow_context
    (http_validated "HTTP_STATE_TRANSITION_AUTHORIZATION_REPRODUCED"
       HTTP_STATE_TRANSITION_VERIFIER_IDENTITY HTTP_STATE_TRANSITION_VERIFICATION_STRATEGY)
    _ _)); vm_compute; reflexivity.
Defined.

Definition diagnostic_validated : VerificationResult.t :=
  sample_validated "ev-2"
    ["REPRODUCTION_INDEPENDENT"; "NEGATIVE_CONTROL_HELD"; "DIAGNOSTIC_PLUMBING_ONLY"]
    [ ("negative_control_token", PStr DIAGNOSTIC_NEGATIVE_CONTROL_TOKEN);
      ("reproduction_observed_echo", PStr "hello"); ("negative_control_held", PBool true);
      ("not_a_vulnerability", PBool true); ("not_a_finding", PBool true) ]
    DIAGNOSTIC_VERIFIER_IDENTITY DIAGNOSTIC_VERIFICATION_STRATEGY.

Lemma diagnostic_conclusions_need_reproduction_witness : usable diagnostic_context.
Proof.
  refine (proj1 (proj1 (diagnostic_conclusions_need_reproduction diagnostic_context
    diagnostic_validated _) _)); vm_compute; reflexivity.
Defined.

Lemma verification_result_applies_witness :
  apply_verification_to_candidate CandidateState.VERIFYING diagnostic_validated
  = Ok CandidateState.VALIDATED.
Proof.
  refine (proj1 (verification_result_applies diagnostic_context diagnostic_validated _)).
  left. vm_compute. reflexivity.
Defined.

(** The two HTTP verifiers, unlike the diagnostic one, do not ask that the reproduction
    belong to the candidate's run. *)
Definition foreign_run_context : VerificationContext.t :=
  VerificationContext.mk "cand" CandidateState.VERIFYING "run" "hyp"
    HTTP_AUTHORIZATION_DIFFERENTIAL_CLAIM
    differential_context.(VerificationContext.plan)
    differential_context.(VerificationContext.original_evidence)
    (Some (VerificationEvidenceRef.mk "ev-2" "another run" "exp-2" "req-2" ["obs-2"] "SUPPORTING"
             HTTP_AUTHORIZATION_DIFFERENTIAL_CLAIM None (Some differential_facts)))
    None false false None false None None None [].

Example foreign_run_reproduction_validates :
  exists r, evaluate_authorization_differential_verification foreign_run_context = Ok r
    /\ r.(VerificationResult.outcome) = VerificationOutcome.VALIDATED.
Proof. eexists. split; [vm_compute; reflexivity|reflexivity]. Qed.
