(* ===== verification/Finding.v ===== *)
(** * Findings: proposal, human review, creation gate

    [research/finding_proposal.py].  A finding is created from a proposal on a VALIDATED
    candidate once a human review and a Core approval agree; the application flow
    around this gate is [FindingFlow]. *)
From S2P Require Import Prelude PyVal Candidate.

(** [research/finding_proposal.py:23 DIAGNOSTIC_FINDING_PROPOSAL_TITLE] *)
Definition DIAGNOSTIC_FINDING_PROPOSAL_TITLE : string := "Diagnostic echo verification proposal".
(** [research/finding_proposal.py:24 DIAGNOSTIC_FINDING_CLASSIFICATION] *)
Definition DIAGNOSTIC_FINDING_CLASSIFICATION : string := DIAGNOSTIC_CANDIDATE_CLASSIFICATION.
(** [research/finding_proposal.py:25-27 HTTP_AUTHORIZATION_DIFFERENTIAL_FINDING_TITLE] *)
Definition HTTP_AUTHORIZATION_DIFFERENTIAL_FINDING_TITLE : string :=
  "Local lab missing object authorization on account read".
(** [research/finding_proposal.py:28-30 HTTP_AUTHORIZATION_DIFFERENTIAL_FINDING_CLASSIFICATION] *)
Definition HTTP_AUTHORIZATION_DIFFERENTIAL_FINDING_CLASSIFICATION : string :=
  HTTP_AUTHORIZATION_DIFFERENTIAL_CLASSIFICATION.
(** [research/finding_proposal.py:31-33 HTTP_STATE_TRANSITION_FINDING_TITLE] *)
Definition HTTP_STATE_TRANSITION_FINDING_TITLE : string :=
  "Local lab unauthorized workflow state transition".
(** [research/finding_proposal.py:34 HTTP_STATE_TRANSITION_FINDING_CLASSIFICATION] *)
Definition HTTP_STATE_TRANSITION_FINDING_CLASSIFICATION : string :=
  HTTP_STATE_TRANSITION_CLASSIFICATION.
(** [research/finding_proposal.py:35 HUMAN_OPERATOR_ACTOR] *)
Definition HUMAN_OPERATOR_ACTOR : string := "HUMAN_OPERATOR".

(** [research/finding_proposal.py:37-48 FORBIDDEN_FINDING_KEYS] *)
Definition FORBIDDEN_FINDING_KEYS : list string :=
  [ "severity"; "cvss"; "cve"; "bounty"; "exploitability"; "confidence"; "vulnerability";
    "authorization" ].

(** [research/finding_proposal.py:51-57 FindingProposalState] *)
Module FindingProposalState.
Inductive t : Set :=
  | PROPOSED | HUMAN_REVIEW | APPROVED | REJECTED.
#[global] Instance eq_dec : EqDecision t.
Proof. solve_decision. Defined.
Definition value (x : t) : string :=
  match x with
  | PROPOSED => "PROPOSED" | HUMAN_REVIEW => "HUMAN_REVIEW"
  | APPROVED => "APPROVED" | REJECTED => "REJECTED"
  end.

(** [FindingProposalState(s)]
    [research/finding_proposal.py:51-57 FindingProposalState] *)
Definition of_value (s : string) : result t :=
  if (s =? "PROPOSED")%string then Ok PROPOSED
  else if (s =? "HUMAN_REVIEW")%string then Ok HUMAN_REVIEW
  else if (s =? "APPROVED")%string then Ok APPROVED
  else if (s =? "REJECTED")%string then Ok REJECTED
  else Raise ValueError.
End FindingProposalState.

(** [research/finding_proposal.py:60-65 FindingProposalAdmissionOutcome] *)
Module FindingProposalAdmissionOutcome.
Inductive t : Set :=
  | ADMITTED | REJECTED_CANDIDATE_NOT_VALIDATED | REJECTED_BROKEN_PROVENANCE
  | REJECTED_POLICY_CONFLICT | REJECTED_VALIDATION_NOT_PASSED.
#[global] Instance eq_dec : EqDecision t.
Proof. solve_decision. Defined.
End FindingProposalAdmissionOutcome.

(** [research/finding_proposal.py:82-84 HumanReviewDecision] *)
Module HumanReviewDecision.
Inductive t : Set :=
  | APPROVE | REJECT.
#[global] Instance eq_dec : EqDecision t.
Proof. solve_decision. Defined.
Definition value (x : t) : string :=
  match x with APPROVE => "APPROVE" | REJECT => "REJECT" end.

(** [HumanReviewDecision(s)]
    [research/finding_proposal.py:82-84 HumanReviewDecision] *)
Definition of_value (s : string) : result t :=
  if (s =? "APPROVE")%string then Ok APPROVE
  else if (s =? "REJECT")%string then Ok REJECT
  else Raise ValueError.
End HumanReviewDecision.

(** [research/finding_proposal.py:87-96 FindingCreationOutcome] *)
Module FindingCreationOutcome.
Inductive t : Set :=
  | CREATED | REJECTED_PROPOSAL | REJECTED_MISSING_REVIEW | REJECTED_MISSING_APPROVAL
  | REJECTED_ACTOR | REJECTED_SUBJECT_MISMATCH | REJECTED_INCONSISTENT_DECISIONS
  | REJECTED_CANDIDATE_NOT_VALIDATED | REJECTED_ILLEGAL_STATE.
#[global] Instance eq_dec : EqDecision t.
Proof. solve_decision. Defined.
End FindingCreationOutcome.

(** [research/finding_proposal.py:99-105 LEGAL_FINDING_PROPOSAL_TRANSITIONS] *)
Definition LEGAL_FINDING_PROPOSAL_TRANSITIONS
    : list (FindingProposalState.t * FindingProposalState.t) :=
  [ (FindingProposalState.PROPOSED, FindingProposalState.HUMAN_REVIEW);
    (FindingProposalState.HUMAN_REVIEW, FindingProposalState.APPROVED);
    (FindingProposalState.HUMAN_REVIEW, FindingProposalState.REJECTED) ].

(** [research/finding_proposal.py:68-79 ImpactClaim] *)
Module ImpactClaim.
Record t : Set := mk { claim_text : string; impact_kind : string; chain_id : string }.

Definition post_init (x : t) : result t :=
  a ← require_text x.(claim_text);
  b ← require_text x.(impact_kind);
  c ← require_text x.(chain_id);
  Ok (mk a b c).
End ImpactClaim.

(** [research/finding_proposal.py:148-149 approval_subject_for] *)
Definition approval_subject_for (proposal_id content_fingerprint : string) : string :=
  ("finding-proposal:" ++ proposal_id ++ ":" ++ content_fingerprint)%string.

(** [research/finding_proposal.py:152-202 FindingProposalDraft] *)
Module FindingProposalDraft.
Record t : Type := mk {
  proposal_id : string;
  candidate_id : string;
  research_run_id : string;
  title : string;
  claim : string;
  evidence_ids : list string;
  verification_ids : list string;
  rationale : list (string * pyval);
  provenance : list (string * pyval);
  impact_claims : list ImpactClaim.t }.

Definition post_init (x : t) : result t :=
  a ← require_text x.(proposal_id);
  b ← require_text x.(candidate_id);
  c ← require_text x.(research_run_id);
  d ← require_text x.(title);
  e ← require_text x.(claim);
  f ← require_ids x.(evidence_ids);
  g ← require_ids x.(verification_ids);
  h ← reject_forbidden FORBIDDEN_FINDING_KEYS x.(rationale);
  i ← reject_forbidden FORBIDDEN_FINDING_KEYS x.(provenance);
  Ok (mk a b c d e f g h i x.(impact_claims)).
End FindingProposalDraft.

Section fingerprint.
(** [sha256(json.dumps(payload, sort_keys=True, ...)).hexdigest()] *)
Context (sha256_json : pyval -> string).

(** The keys are listed in their sorted order.
    [research/finding_proposal.py:129-145 finding_proposal_content_fingerprint] *)
Definition finding_proposal_content_fingerprint (candidate_id title claim : string)
    (evidence_ids verification_ids : list string) : string :=
  sha256_json (PDict
    [ ("candidate_id", PStr candidate_id); ("claim", PStr claim);
      ("evidence_ids", PList (PStr <$> evidence_ids)); ("title", PStr title);
      ("verification_ids", PList (PStr <$> verification_ids)) ]).

(** [research/finding_proposal.py:204-212 FindingProposalDraft.content_fingerprint] *)
Definition content_fingerprint (d : FindingProposalDraft.t) : string :=
  finding_proposal_content_fingerprint d.(FindingProposalDraft.candidate_id)
    d.(FindingProposalDraft.title) d.(FindingProposalDraft.claim)
    d.(FindingProposalDraft.evidence_ids) d.(FindingProposalDraft.verification_ids).

(** [research/finding_proposal.py:214-216 FindingProposalDraft.approval_subject] *)
Definition approval_subject (d : FindingProposalDraft.t) : string :=
  approval_subject_for d.(FindingProposalDraft.proposal_id) (content_fingerprint d).
End fingerprint.

(** [research/finding_proposal.py:219-249 FindingProposalAdmissionContext] *)
Module FindingProposalAdmissionContext.
Record t : Set := mk {
  candidate_id : string;
  candidate_state : CandidateState.t;
  research_run_id : string;
  evidence_ids : list string;
  verification_ids : list string;
  classification : string }.

Definition post_init (x : t) : result t :=
  a ← require_text x.(candidate_id);
  b ← require_text x.(research_run_id);
  c ← require_ids x.(evidence_ids);
  d ← require_ids x.(verification_ids);
  e ← require_text x.(classification);
  Ok (mk a x.(candidate_state) b c d e).
End FindingProposalAdmissionContext.

(** [research/finding_proposal.py:252-258 FindingProposalAdmissionDecision] *)
Module FindingProposalAdmissionDecision.
Record t : Type := mk {
  outcome : FindingProposalAdmissionOutcome.t;
  reason_codes : list string;
  draft : FindingProposalDraft.t;
  admitted : bool;
  initial_state : option FindingProposalState.t }.

(** [research/finding_proposal.py:260-264 FindingProposalAdmissionDecision.creates_proposal] *)
Definition creates_proposal (x : t) : bool :=
  bool_decide (x.(outcome) = FindingProposalAdmissionOutcome.ADMITTED) && x.(admitted).
End FindingProposalAdmissionDecision.

(** [research/finding_proposal.py:267-302 HumanReviewView] *)
Module HumanReviewView.
Record t : Set := mk {
  review_id : string;
  proposal_id : string;
  content_fingerprint : string;
  decision : HumanReviewDecision.t;
  reviewer_id : string;
  actor_type : string;
  reason_codes : list string;
  note : option string }.

Definition post_init (x : t) : result t :=
  a ← require_text x.(review_id);
  b ← require_text x.(proposal_id);
  c ← require_text x.(content_fingerprint);
  d ← require_text x.(reviewer_id);
  e ← require_text x.(actor_type);
  f ← require_ids x.(reason_codes);
  g ← require_text_when_set x.(note);
  Ok (mk a b c x.(decision) d e f g).
End HumanReviewView.

(** [research/finding_proposal.py:305-366 FindingCreationContext] *)
Module FindingCreationContext.
Record t : Set := mk {
  candidate_id : string;
  candidate_state : CandidateState.t;
  research_run_id : string;
  proposal_id : string;
  proposal_state : FindingProposalState.t;
  title : string;
  claim : string;
  evidence_ids : list string;
  verification_ids : list string;
  content_fingerprint : string;
  approval_subject : string;
  human_review : option HumanReviewView.t;
  approval_valid_record : bool;
  approval_authorizes : bool;
  approval_subject_matches : bool;
  approval_decision : option HumanReviewDecision.t;
  approval_actor_type : option string }.

Definition post_init (x : t) : result t :=
  a ← require_text x.(candidate_id);
  b ← require_text x.(research_run_id);
  c ← require_text x.(proposal_id);
  d ← require_text x.(title);
  e ← require_text x.(claim);
  f ← require_ids x.(evidence_ids);
  g ← require_ids x.(verification_ids);
  h ← require_text x.(content_fingerprint);
  i ← require_text x.(approval_subject);
  Ok (mk a x.(candidate_state) b c x.(proposal_state) d e f g h i x.(human_review)
        x.(approval_valid_record) x.(approval_authorizes) x.(approval_subject_matches)
        x.(approval_decision) x.(approval_actor_type)).
End FindingCreationContext.

(** [research/finding_proposal.py:369-374 FindingCreationDecision] *)
Module FindingCreationDecision.
Record t : Set := mk {
  outcome : FindingCreationOutcome.t;
  reason_codes : list string;
  proposal_state : FindingProposalState.t;
  creates_finding : bool }.
End FindingCreationDecision.

(** ** Proposing *)

(** The draft the three [propose_*] functions share. *)
Definition propose_finding (classification title claim : string)
    (rationale : list (string * pyval)) (source : string)
    (context : FindingProposalAdmissionContext.t) (proposal_id : string)
    : result (option FindingProposalDraft.t) :=
  if negb (bool_decide (context.(FindingProposalAdmissionContext.candidate_state)
                        = CandidateState.VALIDATED)) then Ok None
  else if negb (context.(FindingProposalAdmissionContext.classification)
                =? classification)%string then Ok None
  else if bool_decide (context.(FindingProposalAdmissionContext.evidence_ids) = [])
          || bool_decide (context.(FindingProposalAdmissionContext.verification_ids) = [])
  then Ok None
  else
    d ← FindingProposalDraft.post_init
          (FindingProposalDraft.mk proposal_id
             context.(FindingProposalAdmissionContext.candidate_id)
             context.(FindingProposalAdmissionContext.research_run_id) title claim
             context.(FindingProposalAdmissionContext.evidence_ids)
             context.(FindingProposalAdmissionContext.verification_ids) rationale
             [("source", PStr source)] []);
    Ok (Some d).

(** [research/finding_proposal.py:377-402 propose_diagnostic_finding_proposal] *)
Definition propose_diagnostic_finding_proposal :=
  propose_finding DIAGNOSTIC_FINDING_CLASSIFICATION DIAGNOSTIC_FINDING_PROPOSAL_TITLE
    DIAGNOSTIC_CANDIDATE_CLAIM
    [ ("reason_code", PStr "DIAGNOSTIC_PLUMBING_PROPOSAL"); ("not_a_vulnerability", PBool true);
      ("not_a_finding", PBool true) ] "diagnostic.echo.finding_proposal".

(** [research/finding_proposal.py:405-429 propose_authorization_differential_finding_proposal] *)
Definition propose_authorization_differential_finding_proposal :=
  propose_finding HTTP_AUTHORIZATION_DIFFERENTIAL_FINDING_CLASSIFICATION
    HTTP_AUTHORIZATION_DIFFERENTIAL_FINDING_TITLE HTTP_AUTHORIZATION_DIFFERENTIAL_CANDIDATE_CLAIM
    [("reason_code", PStr "AUTHORIZED_LOCAL_LAB_PROPOSAL"); ("not_a_finding", PBool true)]
    "http.authorization.differential.finding_proposal".

(** [research/finding_proposal.py:432-456 propose_state_transition_finding_proposal] *)
Definition propose_state_transition_finding_proposal :=
  propose_finding HTTP_STATE_TRANSITION_FINDING_CLASSIFICATION
    HTTP_STATE_TRANSITION_FINDING_TITLE HTTP_STATE_TRANSITION_CANDIDATE_CLAIM
    [("reason_code", PStr "AUTHORIZED_LOCAL_LAB_PROPOSAL"); ("not_a_finding", PBool true)]
    "http.state_transition.finding_proposal".

(** ** Admission *)

(** [set(a) == set(b)] *)
Definition same_set (a b : list string) : bool :=
  forallb (fun x => mem x b) a && forallb (fun x => mem x a) b.

(** [research/finding_proposal.py:465-473 admit_finding_proposal] *)
Definition finding_codes (draft : FindingProposalDraft.t)
    (context : FindingProposalAdmissionContext.t) : list string :=
  code_if (negb (draft.(FindingProposalDraft.candidate_id)
                 =? context.(FindingProposalAdmissionContext.candidate_id))%string)
    "WRONG_CANDIDATE"
  ++ code_if (negb (draft.(FindingProposalDraft.research_run_id)
                    =? context.(FindingProposalAdmissionContext.research_run_id))%string)
       "WRONG_RESEARCH_RUN"
  ++ code_if (negb (same_set draft.(FindingProposalDraft.evidence_ids)
                      context.(FindingProposalAdmissionContext.evidence_ids)))
       "EVIDENCE_SET_MISMATCH"
  ++ code_if (negb (same_set draft.(FindingProposalDraft.verification_ids)
                      context.(FindingProposalAdmissionContext.verification_ids)))
       "VERIFICATION_SET_MISMATCH".

(** What a classification expects. *)
Module Expected.
Record t : Set := mk {
  title : string; claim : string; classification : string;
  admitted_reason : string; title_code : string; claim_code : string }.
End Expected.

(** [research/finding_proposal.py:508-527 admit_finding_proposal] *)
Definition expected_of (classification : string) : Expected.t :=
  if (classification =? HTTP_AUTHORIZATION_DIFFERENTIAL_FINDING_CLASSIFICATION)%string
  then Expected.mk HTTP_AUTHORIZATION_DIFFERENTIAL_FINDING_TITLE
         HTTP_AUTHORIZATION_DIFFERENTIAL_CANDIDATE_CLAIM
         HTTP_AUTHORIZATION_DIFFERENTIAL_FINDING_CLASSIFICATION
         "HTTP_AUTHORIZATION_DIFFERENTIAL_FINDING_PROPOSAL_FROM_VALIDATED_CANDIDATE"
         "TITLE_NOT_HTTP_AUTHORIZATION_DIFFERENTIAL" "CLAIM_NOT_HTTP_AUTHORIZATION_DIFFERENTIAL"
  else if (classification =? HTTP_STATE_TRANSITION_FINDING_CLASSIFICATION)%string
  then Expected.mk HTTP_STATE_TRANSITION_FINDING_TITLE HTTP_STATE_TRANSITION_CANDIDATE_CLAIM
         HTTP_STATE_TRANSITION_FINDING_CLASSIFICATION
         "HTTP_STATE_TRANSITION_AUTHORIZATION_FINDING_PROPOSAL_FROM_VALIDATED_CANDIDATE"
         "TITLE_NOT_HTTP_STATE_TRANSITION_AUTHORIZATION"
         "CLAIM_NOT_HTTP_STATE_TRANSITION_AUTHORIZATION"
  else Expected.mk DIAGNOSTIC_FINDING_PROPOSAL_TITLE DIAGNOSTIC_CANDIDATE_CLAIM
         DIAGNOSTIC_FINDING_CLASSIFICATION "DIAGNOSTIC_FINDING_PROPOSAL_FROM_VALIDATED_CANDIDATE"
         "TITLE_NOT_DIAGNOSTIC" "CLAIM_NOT_DIAGNOSTIC".

(** [research/finding_proposal.py:459-566 admit_finding_proposal] *)
Definition admit_finding_proposal (draft : FindingProposalDraft.t)
    (context : FindingProposalAdmissionContext.t) : FindingProposalAdmissionDecision.t :=
  let codes := finding_codes draft context in
  let reject outcome codes :=
    FindingProposalAdmissionDecision.mk outcome codes draft false None in
  let expected := expected_of context.(FindingProposalAdmissionContext.classification) in
  if negb (bool_decide (context.(FindingProposalAdmissionContext.candidate_state)
                        = CandidateState.VALIDATED))
  then reject FindingProposalAdmissionOutcome.REJECTED_CANDIDATE_NOT_VALIDATED
         ("CANDIDATE_NOT_VALIDATED" :: codes)
  else if existsb (fun c => Str.is_blank c.(ImpactClaim.chain_id))
            draft.(FindingProposalDraft.impact_claims)
  then reject FindingProposalAdmissionOutcome.REJECTED_POLICY_CONFLICT
         ("IMPACT_CHAIN_MISSING" :: codes)
  else if mem "WRONG_CANDIDATE" codes || mem "WRONG_RESEARCH_RUN" codes
  then reject FindingProposalAdmissionOutcome.REJECTED_BROKEN_PROVENANCE codes
  else if mem "EVIDENCE_SET_MISMATCH" codes || mem "VERIFICATION_SET_MISMATCH" codes
  then reject FindingProposalAdmissionOutcome.REJECTED_BROKEN_PROVENANCE codes
  else if negb (draft.(FindingProposalDraft.title) =? expected.(Expected.title))%string
  then reject FindingProposalAdmissionOutcome.REJECTED_POLICY_CONFLICT
         (expected.(Expected.title_code) :: codes)
  else if negb (draft.(FindingProposalDraft.claim) =? expected.(Expected.claim))%string
  then reject FindingProposalAdmissionOutcome.REJECTED_POLICY_CONFLICT
         (expected.(Expected.claim_code) :: codes)
  else if negb (context.(FindingProposalAdmissionContext.classification)
                =? expected.(Expected.classification))%string
  then reject FindingProposalAdmissionOutcome.REJECTED_POLICY_CONFLICT
         ("UNSUPPORTED_CLASSIFICATION" :: codes)
  else if negb (bool_decide (codes = []))
  then reject FindingProposalAdmissionOutcome.REJECTED_BROKEN_PROVENANCE codes
  else FindingProposalAdmissionDecision.mk FindingProposalAdmissionOutcome.ADMITTED
         [expected.(Expected.admitted_reason)] draft true (Some FindingProposalState.PROPOSED).

(** ** State machine, review and creation *)

(** [research/finding_proposal.py:569-581 transition_finding_proposal] *)
Definition transition_finding_proposal (current target : FindingProposalState.t)
    : result FindingProposalState.t :=
  raise_if negb (mem (current, target) LEGAL_FINDING_PROPOSAL_TRANSITIONS) as ResearchInputError;;
  Ok target.

(** [research/finding_proposal.py:584-585 start_finding_proposal_review] *)
Definition start_finding_proposal_review (current : FindingProposalState.t)
    : result FindingProposalState.t :=
  transition_finding_proposal current FindingProposalState.HUMAN_REVIEW.

(** The last test cannot fail, the decision is one of the two members.
    [research/finding_proposal.py:588-596 admit_human_review] *)
Definition admit_human_review (review : HumanReviewView.t)
    (proposal_id content_fingerprint : string) : result unit :=
  raise_if negb (review.(HumanReviewView.proposal_id) =? proposal_id)%string
  as ResearchInputError;;
  raise_if negb (review.(HumanReviewView.content_fingerprint) =? content_fingerprint)%string
  as ResearchInputError;;
  raise_if negb (review.(HumanReviewView.actor_type) =? HUMAN_OPERATOR_ACTOR)%string
  as ResearchInputError;;
  Ok tt.

(** [approval_actor_type is not None and approval_actor_type != HUMAN_OPERATOR_ACTOR] *)
Definition non_human (actor : option string) : bool :=
  match actor with None => false | Some a => negb (a =? HUMAN_OPERATOR_ACTOR)%string end.

(** [research/finding_proposal.py:678-687 evaluate_finding_creation] *)
Definition created_codes (title claim : string) : list string :=
  if ((title =? HTTP_AUTHORIZATION_DIFFERENTIAL_FINDING_TITLE)%string
      && (claim =? HTTP_AUTHORIZATION_DIFFERENTIAL_CANDIDATE_CLAIM)%string)
     || ((title =? HTTP_STATE_TRANSITION_FINDING_TITLE)%string
         && (claim =? HTTP_STATE_TRANSITION_CANDIDATE_CLAIM)%string)
  then ["AUTHORIZED_LOCAL_LAB_FINDING"]
  else ["DIAGNOSTIC_PLUMBING_FINDING"; "NOT_A_VULNERABILITY"].

(** [research/finding_proposal.py:599-693 evaluate_finding_creation] *)
Definition evaluate_finding_creation (context : FindingCreationContext.t)
    : FindingCreationDecision.t :=
  let refuse outcome codes :=
    FindingCreationDecision.mk outcome codes context.(FindingCreationContext.proposal_state) false
  in
  if negb (bool_decide (context.(FindingCreationContext.candidate_state)
                        = CandidateState.VALIDATED))
  then refuse FindingCreationOutcome.REJECTED_CANDIDATE_NOT_VALIDATED ["CANDIDATE_NOT_VALIDATED"]
  else if negb (bool_decide (context.(FindingCreationContext.proposal_state)
                             = FindingProposalState.HUMAN_REVIEW))
  then refuse FindingCreationOutcome.REJECTED_ILLEGAL_STATE ["PROPOSAL_NOT_IN_HUMAN_REVIEW"]
  else
  match context.(FindingCreationContext.human_review) with
  | None => refuse FindingCreationOutcome.REJECTED_MISSING_REVIEW ["HUMAN_REVIEW_REQUIRED"]
  | Some review =>
      if negb (review.(HumanReviewView.actor_type) =? HUMAN_OPERATOR_ACTOR)%string
         || non_human context.(FindingCreationContext.approval_actor_type)
      then refuse FindingCreationOutcome.REJECTED_ACTOR ["NON_HUMAN_ACTOR"]
      else if negb (review.(HumanReviewView.proposal_id)
                    =? context.(FindingCreationContext.proposal_id))%string
              || negb (review.(HumanReviewView.content_fingerprint)
                       =? context.(FindingCreationContext.content_fingerprint))%string
      then refuse FindingCreationOutcome.REJECTED_SUBJECT_MISMATCH ["REVIEW_CONTENT_MISMATCH"]
      else if negb context.(FindingCreationContext.approval_subject_matches)
              || negb context.(FindingCreationContext.approval_valid_record)
      then
        if negb context.(FindingCreationContext.approval_valid_record)
        then refuse FindingCreationOutcome.REJECTED_MISSING_APPROVAL ["APPROVAL_REQUIRED"]
        else refuse FindingCreationOutcome.REJECTED_SUBJECT_MISMATCH ["APPROVAL_SUBJECT_MISMATCH"]
      else if negb (bool_decide (context.(FindingCreationContext.approval_decision)
                                 = Some review.(HumanReviewView.decision)))
      then refuse FindingCreationOutcome.REJECTED_INCONSISTENT_DECISIONS
             ["REVIEW_APPROVAL_DECISION_MISMATCH"]
      else if bool_decide (review.(HumanReviewView.decision) = HumanReviewDecision.REJECT)
      then FindingCreationDecision.mk FindingCreationOutcome.REJECTED_PROPOSAL
             ["HUMAN_REJECTED_PROPOSAL"; "CANDIDATE_REMAINS_VALIDATED"]
             FindingProposalState.REJECTED false
      else if negb context.(FindingCreationContext.approval_authorizes)
      then FindingCreationDecision.mk FindingCreationOutcome.REJECTED_PROPOSAL
             ["CORE_APPROVAL_REJECTED"; "CANDIDATE_REMAINS_VALIDATED"]
             FindingProposalState.REJECTED false
      else FindingCreationDecision.mk FindingCreationOutcome.CREATED
             (created_codes context.(FindingCreationContext.title)
                context.(FindingCreationContext.claim))
             FindingProposalState.APPROVED true
  end.

(** ** Theorems: the creation gate *)

(** What the code means by "a human decided": a recorded human review of this very content
    that approves, together with a valid Core approval of the same decision. *)
Record humanly_approved (c : FindingCreationContext.t) (r : HumanReviewView.t) : Prop := {
  ha_review : c.(FindingCreationContext.human_review) = Some r;
  ha_actor : r.(HumanReviewView.actor_type) = HUMAN_OPERATOR_ACTOR;
  ha_proposal : r.(HumanReviewView.proposal_id) = c.(FindingCreationContext.proposal_id);
  ha_content :
    r.(HumanReviewView.content_fingerprint) = c.(FindingCreationContext.content_fingerprint);
  ha_decision : r.(HumanReviewView.decision) = HumanReviewDecision.APPROVE;
  ha_valid : c.(FindingCreationContext.approval_valid_record) = true;
  ha_authorizes : c.(FindingCreationContext.approval_authorizes) = true;
  ha_subject : c.(FindingCreationContext.approval_subject_matches) = true;
  ha_same : c.(FindingCreationContext.approval_decision) = Some HumanReviewDecision.APPROVE;
  ha_approver : forall a, c.(FindingCreationContext.approval_actor_type) = Some a ->
    a = HUMAN_OPERATOR_ACTOR }.

Lemma non_human_false o :
  non_human o = false <-> forall a, o = Some a -> a = HUMAN_OPERATOR_ACTOR.
Proof.
  destruct o as [a|]; simpl; [|done]. rewrite negb_false_iff, String.eqb_eq. naive_solver.
Qed.

Lemma creation_true_iff c :
  (evaluate_finding_creation c).(FindingCreationDecision.creates_finding) = true
  <-> c.(FindingCreationContext.candidate_state) = CandidateState.VALIDATED
      /\ c.(FindingCreationContext.proposal_state) = FindingProposalState.HUMAN_REVIEW
      /\ exists r, humanly_approved c r.
Proof.
  unfold evaluate_finding_creation. split.
  - intros H. do 2 (destruct (bool_decide _) eqn:? in H; [|done]; cbn [negb] in H).
    destruct (FindingCreationContext.human_review c) as [r|] eqn:Hr; [|done].
    repeat (destruct (_ || _) eqn:? in H; [repeat case_match; done|]).
    destruct (bool_decide (FindingCreationContext.approval_decision c = _)) eqn:? in H; [|done].
    destruct (bool_decide (HumanReviewView.decision r = _)) eqn:? in H; [done|].
    destruct (FindingCreationContext.approval_authorizes c) eqn:?; [|done].
    bool_prop. split; [tauto|]. split; [tauto|]. exists r.
    destruct (HumanReviewView.decision r) eqn:?; [|done].
    constructor; try tauto; try congruence. apply non_human_false. tauto.
  - intros (-> & -> & r & [-> Ha Hp Hf Hd Hv Hz Hs He Hn]).
    rewrite Ha, Hp, Hf, Hv, Hz, Hs, He, Hd, !String.eqb_refl.
    by rewrite (proj2 (non_human_false _) Hn).
Qed.

Lemma creation_state c :
  let d := evaluate_finding_creation c in
  d.(FindingCreationDecision.proposal_state) = c.(FindingCreationContext.proposal_state)
  \/ transition_finding_proposal c.(FindingCreationContext.proposal_state)
       d.(FindingCreationDecision.proposal_state)
     = Ok d.(FindingCreationDecision.proposal_state).
Proof.
  cbv zeta. unfold evaluate_finding_creation.
  destruct (bool_decide _); [|by left]. cbn [negb].
  destruct (bool_decide (FindingCreationContext.proposal_state c = _)) eqn:Hs; [|by left].
  apply bool_decide_eq_true in Hs. rewrite Hs. cbn [negb].
  repeat case_match; first [by left|by right].
Qed.

(** C20. A finding is created exactly when the candidate is VALIDATED, the proposal is under
    HUMAN_REVIEW, and a human operator's review of this very content and a valid Core
    approval both say APPROVE; the decided proposal state is the current one or a legal
    successor, and APPROVED is decided only together with the finding. *)
Theorem finding_created_iff c :
  ((evaluate_finding_creation c).(FindingCreationDecision.creates_finding) = true
   <-> c.(FindingCreationContext.candidate_state) = CandidateState.VALIDATED
       /\ c.(FindingCreationContext.proposal_state) = FindingProposalState.HUMAN_REVIEW
       /\ exists r, humanly_approved c r)
  /\ (let d := evaluate_finding_creation c in
      d.(FindingCreationDecision.proposal_state) = c.(FindingCreationContext.proposal_state)
      \/ transition_finding_proposal c.(FindingCreationContext.proposal_state)
           d.(FindingCreationDecision.proposal_state)
         = Ok d.(FindingCreationDecision.proposal_state)).
Proof. split; [apply creation_true_iff|apply creation_state]. Qed.

(** ** Theorems: admission *)

Lemma same_set_iff a b : same_set a b = true <-> forall x, x ∈ a <-> x ∈ b.
Proof.
  unfold same_set. rewrite andb_true_iff, !forallb_true. setoid_rewrite mem_true. naive_solver.
Qed.

Lemma finding_codes_nil d c :
  finding_codes d c = [] <->
  d.(FindingProposalDraft.candidate_id) = c.(FindingProposalAdmissionContext.candidate_id)
  /\ d.(FindingProposalDraft.research_run_id)
     = c.(FindingProposalAdmissionContext.research_run_id)
  /\ (forall x, x ∈ d.(FindingProposalDraft.evidence_ids)
        <-> x ∈ c.(FindingProposalAdmissionContext.evidence_ids))
  /\ (forall x, x ∈ d.(FindingProposalDraft.verification_ids)
        <-> x ∈ c.(FindingProposalAdmissionContext.verification_ids)).
Proof.
  unfold finding_codes. rewrite !app_nil, !code_if_nil, !negb_false_iff, !String.eqb_eq.
  by rewrite !same_set_iff.
Qed.

(** The three classes a finding may have, each with its one title and claim. *)
Definition finding_class (classification title claim : string) : Prop :=
  (classification = DIAGNOSTIC_FINDING_CLASSIFICATION
     /\ title = DIAGNOSTIC_FINDING_PROPOSAL_TITLE /\ claim = DIAGNOSTIC_CANDIDATE_CLAIM)
  \/ (classification = HTTP_AUTHORIZATION_DIFFERENTIAL_FINDING_CLASSIFICATION
     /\ title = HTTP_AUTHORIZATION_DIFFERENTIAL_FINDING_TITLE
     /\ claim = HTTP_AUTHORIZATION_DIFFERENTIAL_CANDIDATE_CLAIM)
  \/ (classification = HTTP_STATE_TRANSITION_FINDING_CLASSIFICATION
     /\ title = HTTP_STATE_TRANSITION_FINDING_TITLE
     /\ claim = HTTP_STATE_TRANSITION_CANDIDATE_CLAIM).

Lemma expected_class k t cl :
  (t = (expected_of k).(Expected.title) /\ cl = (expected_of k).(Expected.claim)
   /\ k = (expected_of k).(Expected.classification)) <-> finding_class k t cl.
Proof.
  unfold expected_of, finding_class.
  destruct (String.eqb_spec k HTTP_AUTHORIZATION_DIFFERENTIAL_FINDING_CLASSIFICATION) as [->|];
    [split; [naive_solver|intros [(? & _)|[?|(? & _)]]; [discriminate|naive_solver|discriminate]]|].
  destruct (String.eqb_spec k HTTP_STATE_TRANSITION_FINDING_CLASSIFICATION) as [->|];
    [split; [naive_solver|intros [(? & _)|[(? & _)|?]]; [discriminate|discriminate|naive_solver]]|].
  simpl. naive_solver.
Qed.

Lemma creates_proposal_iff d c :
  FindingProposalAdmissionDecision.creates_proposal (admit_finding_proposal d c) = true <->
  c.(FindingProposalAdmissionContext.candidate_state) = CandidateState.VALIDATED
  /\ (forall i, i ∈ d.(FindingProposalDraft.impact_claims) ->
        Str.is_blank i.(ImpactClaim.chain_id) = false)
  /\ finding_codes d c = []
  /\ finding_class c.(FindingProposalAdmissionContext.classification)
       d.(FindingProposalDraft.title) d.(FindingProposalDraft.claim).
Proof.
  rewrite <-expected_class, <-existsb_false. unfold admit_finding_proposal. cbv zeta.
  set (e := expected_of _). clearbody e. set (b := existsb _ _). clearbody b.
  destruct (decide (finding_codes d c = [])) as [Hc|Hc].
  - rewrite Hc. change (mem _ []) with false. cbn [orb]. rewrite (bool_decide_true ([] = [])) by done.
    case_bool_decide as Hv; [|split; [done|naive_solver]]. cbn [negb].
    destruct b; [split; [done|naive_solver]|].
    destruct (String.eqb_spec (FindingProposalDraft.title d) (Expected.title e)); cbn [negb];
      [|split; [done|naive_solver]].
    destruct (String.eqb_spec (FindingProposalDraft.claim d) (Expected.claim e)); cbn [negb];
      [|split; [done|naive_solver]].
    destruct (String.eqb_spec (FindingProposalAdmissionContext.classification c)
      (Expected.classification e)); cbn [negb]; [|split; [done|naive_solver]].
    split; [intros _|done]. done.
  - rewrite (bool_decide_false (finding_codes d c = [])) by done. cbn [negb].
    split; [|tauto]. intros H. exfalso. revert H.
    repeat (case_match; [discriminate|]). discriminate.
Qed.

(** A finding proposal is admitted exactly for a VALIDATED candidate of the same run
    whose evidence and verification sets are cited in full, when title and claim are those
    of the candidate's class and every impact claim names its chain. *)
Theorem finding_proposal_admitted_iff d c :
  FindingProposalAdmissionDecision.creates_proposal (admit_finding_proposal d c) = true <->
  c.(FindingProposalAdmissionContext.candidate_state) = CandidateState.VALIDATED
  /\ (forall i, i ∈ d.(FindingProposalDraft.impact_claims) ->
        Str.is_blank i.(ImpactClaim.chain_id) = false)
  /\ d.(FindingProposalDraft.candidate_id) = c.(FindingProposalAdmissionContext.candidate_id)
  /\ d.(FindingProposalDraft.research_run_id)
     = c.(FindingProposalAdmissionContext.research_run_id)
  /\ (forall x, x ∈ d.(FindingProposalDraft.evidence_ids)
        <-> x ∈ c.(FindingProposalAdmissionContext.evidence_ids))
  /\ (forall x, x ∈ d.(FindingProposalDraft.verification_ids)
        <-> x ∈ c.(FindingProposalAdmissionContext.verification_ids))
  /\ finding_class c.(FindingProposalAdmissionContext.classification)
       d.(FindingProposalDraft.title) d.(FindingProposalDraft.claim).
Proof. rewrite creates_proposal_iff, finding_codes_nil. tauto. Qed.

(** ** Theorems: the built-in proposals *)

Lemma require_text_stored s v : require_text s = Ok v -> require_text v = Ok v.
Proof.
  unfold require_text. destruct (Str.is_blank s) eqn:E; [done|]. intros [= <-].
  by rewrite Str.is_blank_strip, E, Str.strip_idem.
Qed.

Lemma require_ids_stored l v : require_ids l = Ok v -> require_ids v = Ok v.
Proof.
  unfold require_ids. rewrite !traverse_ok. induction 1; constructor; eauto using require_text_stored.
Qed.

Lemma propose_finding_admitted k t cl rationale source context0 context id d :
  finding_class k t cl -> require_text t = Ok t -> require_text cl = Ok cl ->
  reject_forbidden FORBIDDEN_FINDING_KEYS rationale = Ok rationale ->
  FindingProposalAdmissionContext.post_init context0 = Ok context ->
  propose_finding k t cl rationale source context id = Ok (Some d) ->
  FindingProposalAdmissionDecision.creates_proposal (admit_finding_proposal d context) = true.
Proof.
  intros Hk Ht Hcl Hr Hctx H. rewrite creates_proposal_iff, finding_codes_nil.
  unfold FindingProposalAdmissionContext.post_init in Hctx.
  repeat (apply bind_ok in Hctx as (? & ? & Hctx)). injection Hctx as <-.
  unfold propose_finding in H. cbn in H.
  case_bool_decide as Hv; [|done]. cbn in H.
  match type of H with context [negb (?a =? k)%string] =>
    destruct (String.eqb_spec a k) as [->|]; [|done] end.
  cbn [negb] in H. case_match; [done|].
  apply bind_ok in H as (d' & Hd & [= <-]). unfold FindingProposalDraft.post_init in Hd. cbn in Hd.
  change (traverse require_text) with require_ids in Hd.
  apply bind_ok in Hd as (? & _ & Hd).
  repeat match goal with
  | E : require_text _ = Ok ?a |- _ => rewrite (require_text_stored _ _ E) in Hd; clear E
  | E : require_ids _ = Ok ?a |- _ => rewrite (require_ids_stored _ _ E) in Hd; clear E
  end.
  rewrite Hr in Hd.
  cbn in Hd. injection Hd as <-. cbn. set_solver.
Qed.

(** What the system proposes by itself is admissible: a draft built by one of the three
    [propose_*] functions from a stored context is always admitted in that context. *)
Theorem built_proposals_are_admitted context0 context id d :
  FindingProposalAdmissionContext.post_init context0 = Ok context ->
  propose_diagnostic_finding_proposal context id = Ok (Some d)
  \/ propose_authorization_differential_finding_proposal context id = Ok (Some d)
  \/ propose_state_transition_finding_proposal context id = Ok (Some d) ->
  FindingProposalAdmissionDecision.creates_proposal (admit_finding_proposal d context) = true.
Proof.
  intros Hc [H|[H|H]]; eapply propose_finding_admitted; try exact H; try exact Hc;
    try reflexivity; unfold finding_class; tauto.
Qed.

Definition sample_finding_context : FindingProposalAdmissionContext.t :=
  FindingProposalAdmissionContext.mk "cand-1" CandidateState.VALIDATED "run-1" ["ev-1"; "ev-2"]
    ["ver-1"] HTTP_STATE_TRANSITION_FINDING_CLASSIFICATION.

Definition sample_draft : FindingProposalDraft.t :=
  FindingProposalDraft.mk "prop-1" "cand-1" "run-1" HTTP_STATE_TRANSITION_FINDING_TITLE
    HTTP_STATE_TRANSITION_CANDIDATE_CLAIM ["ev-1"; "ev-2"] ["ver-1"]
    [("reason_code", PStr "AUTHORIZED_LOCAL_LAB_PROPOSAL"); ("not_a_finding", PBool true)]
    [("source", PStr "http.state_transition.finding_proposal")] [].

Lemma built_proposals_are_admitted_witness :
  FindingProposalAdmissionDecision.creates_proposal
    (admit_finding_proposal sample_draft sample_finding_context) = true.
Proof.
  apply (built_proposals_are_admitted sample_finding_context sample_finding_context " prop-1");
    [vm_compute; reflexivity|right; right; vm_compute; reflexivity].
Defined.
