(* ===== verification/FindingRecords.v ===== *)
(** * Persisted records of the finding workflow

    The candidate, proposal, review, approval, finding and audit records of
    [data/records.py] with the validation of their constructors. *)
From S2P Require Import Prelude PyVal SafeData CoreTypes Records.

(** [data/records.py:31-31 ALLOWED_ACTOR_TYPES] *)
Definition ALLOWED_ACTOR_TYPES : list string :=
  [ "HUMAN_OPERATOR"; "CONTROL_PLANE"; "WORKER"; "INTEGRATION" ].

(** [data/records.py:250-256 ALLOWED_FINDING_CLASSIFICATIONS] *)
Definition ALLOWED_FINDING_CLASSIFICATIONS : list string :=
  [ "DIAGNOSTIC_PLUMBING"; "HTTP_AUTHORIZATION_DIFFERENTIAL";
    "HTTP_STATE_TRANSITION_AUTHORIZATION" ].

(** [data/records.py:245-247 ALLOWED_FINDING_PROPOSAL_STATES] *)
Definition ALLOWED_FINDING_PROPOSAL_STATES : list string :=
  [ "PROPOSED"; "HUMAN_REVIEW"; "APPROVED"; "REJECTED" ].

(** [data/records.py:248-248 ALLOWED_HUMAN_REVIEW_DECISIONS] *)
Definition ALLOWED_HUMAN_REVIEW_DECISIONS : list string := ["APPROVE"; "REJECT"].

(** [data/records.py:249-249 ALLOWED_RECORDED_APPROVAL_DECISIONS] *)
Definition ALLOWED_RECORDED_APPROVAL_DECISIONS : list string := ["APPROVE"; "REJECT"].

(** [data/records.py:194-204 ALLOWED_CANDIDATE_STATES] *)
Definition ALLOWED_CANDIDATE_STATES : list string :=
  [ "OPEN"; "VERIFYING"; "VALIDATED"; "REJECTED"; "INCONCLUSIVE"; "DUPLICATE"; "OUT_OF_SCOPE" ].

(** [data/records.py:205-211 ALLOWED_CANDIDATE_CLASSIFICATIONS] *)
Definition DATA_CANDIDATE_CLASSIFICATIONS : list string :=
  [ "DIAGNOSTIC_PLUMBING"; "HTTP_AUTHORIZATION_DIFFERENTIAL";
    "HTTP_STATE_TRANSITION_AUTHORIZATION" ].

(** A non-empty tuple of opaque ids. *)
Definition data_ids (ids : list string) : result (list string) :=
  raise_if bool_decide (ids = []) as PersistenceInputError;;
  traverse data_opaque_id ids.

(** [data/records.py:1061-1091 CandidateRecord] *)
Module CandidateRecord.
Record t : Set := mk {
  candidate_id : string;
  research_run_id : string;
  hypothesis_id : string;
  claim : string;
  classification : string;
  state : string;
  evidence_ids : list string;
  created_at : Z;
  admission_record_id : string }.

Definition post_init (x : t) : result t :=
  _ ← data_opaque_id x.(candidate_id);
  _ ← data_opaque_id x.(research_run_id);
  _ ← data_opaque_id x.(hypothesis_id);
  _ ← data_opaque_id x.(admission_record_id);
  raise_if Str.is_blank x.(claim) as PersistenceInputError;;
  raise_if negb (mem x.(classification) DATA_CANDIDATE_CLASSIFICATIONS)
  as PersistenceInputError;;
  raise_if negb (mem x.(state) ALLOWED_CANDIDATE_STATES) as PersistenceInputError;;
  _ ← data_ids x.(evidence_ids);
  Ok x.

#[global] Instance post_init_validator : Validator post_init.
Proof. solve_validator. Qed.
End CandidateRecord.

(** [data/records.py:1265-1325 FindingProposalRecord] *)
Module FindingProposalRecord.
Record t : Set := mk {
  proposal_id : string;
  candidate_id : string;
  research_run_id : string;
  title : string;
  claim : string;
  classification : string;
  state : string;
  evidence_ids : list string;
  verification_ids : list string;
  content_fingerprint : string;
  created_at : Z;
  impact_chain_ids : list string }.

Definition post_init (x : t) : result t :=
  _ ← data_opaque_id x.(proposal_id);
  _ ← data_opaque_id x.(candidate_id);
  _ ← data_opaque_id x.(research_run_id);
  raise_if Str.is_blank x.(title) as PersistenceInputError;;
  raise_if Str.is_blank x.(claim) as PersistenceInputError;;
  raise_if negb (mem x.(classification) ALLOWED_FINDING_CLASSIFICATIONS)
  as PersistenceInputError;;
  raise_if negb (mem x.(state) ALLOWED_FINDING_PROPOSAL_STATES) as PersistenceInputError;;
  _ ← data_ids x.(evidence_ids);
  _ ← data_ids x.(verification_ids);
  raise_if Str.is_blank x.(content_fingerprint) as PersistenceInputError;;
  _ ← traverse data_opaque_id x.(impact_chain_ids);
  Ok x.

#[global] Instance post_init_validator : Validator post_init.
Proof. solve_validator. Qed.
End FindingProposalRecord.

(** [data/records.py:1328-1356 HumanReviewRecord] *)
Module HumanReviewRecord.
Record t : Set := mk {
  review_id : string;
  proposal_id : string;
  content_fingerprint : string;
  decision : string;
  reviewer_id : string;
  actor_type : string;
  reason_codes : list string;
  created_at : Z;
  note : option string }.

Definition post_init (x : t) : result t :=
  _ ← data_opaque_id x.(review_id);
  _ ← data_opaque_id x.(proposal_id);
  _ ← data_opaque_id x.(reviewer_id);
  raise_if Str.is_blank x.(content_fingerprint) as PersistenceInputError;;
  raise_if negb (mem x.(decision) ALLOWED_HUMAN_REVIEW_DECISIONS) as PersistenceInputError;;
  raise_if negb (mem x.(actor_type) ALLOWED_ACTOR_TYPES) as PersistenceInputError;;
  raise_if bool_decide (x.(reason_codes) = []) as PersistenceInputError;;
  raise_if blank_when_set x.(note) as PersistenceInputError;;
  Ok x.

#[global] Instance post_init_validator : Validator post_init.
Proof. solve_validator. Qed.
End HumanReviewRecord.

(** [data/records.py:1359-1389 ApprovalRecord] *)
Module ApprovalRecord.
Record t : Set := mk {
  approval_id : string;
  subject_reference : string;
  decision : string;
  decided_by : string;
  actor_type : string;
  recorded : bool;
  created_at : Z;
  research_run_id : string;
  proposal_id : string;
  human_review_id : string }.

Definition post_init (x : t) : result t :=
  _ ← data_opaque_id x.(approval_id);
  _ ← data_opaque_id x.(subject_reference);
  _ ← data_opaque_id x.(decided_by);
  _ ← data_opaque_id x.(research_run_id);
  _ ← data_opaque_id x.(proposal_id);
  _ ← data_opaque_id x.(human_review_id);
  raise_if negb (mem x.(decision) ALLOWED_RECORDED_APPROVAL_DECISIONS) as PersistenceInputError;;
  raise_if negb (mem x.(actor_type) ALLOWED_ACTOR_TYPES) as PersistenceInputError;;
  raise_if negb x.(recorded) as PersistenceInputError;;
  Ok x.

#[global] Instance post_init_validator : Validator post_init.
Proof. solve_validator. Qed.
End ApprovalRecord.

(** [data/records.py:1392-1442 FindingRecord] *)
Module FindingRecord.
Record t : Set := mk {
  finding_id : string;
  finding_proposal_id : string;
  candidate_id : string;
  research_run_id : string;
  approval_id : string;
  human_review_id : string;
  title : string;
  claim : string;
  classification : string;
  evidence_ids : list string;
  verification_ids : list string;
  created_at : Z }.

Definition post_init (x : t) : result t :=
  _ ← data_opaque_id x.(finding_id);
  _ ← data_opaque_id x.(finding_proposal_id);
  _ ← data_opaque_id x.(candidate_id);
  _ ← data_opaque_id x.(research_run_id);
  _ ← data_opaque_id x.(approval_id);
  _ ← data_opaque_id x.(human_review_id);
  raise_if Str.is_blank x.(title) as PersistenceInputError;;
  raise_if Str.is_blank x.(claim) as PersistenceInputError;;
  raise_if negb (mem x.(classification) ALLOWED_FINDING_CLASSIFICATIONS)
  as PersistenceInputError;;
  _ ← data_ids x.(evidence_ids);
  _ ← data_ids x.(verification_ids);
  Ok x.

#[global] Instance post_init_validator : Validator post_init.
Proof. solve_validator. Qed.
End FindingRecord.

(** [data/records.py:2158-2188 AuditEventRecord] *)
Module AuditEventRecord.
Record t : Type := mk {
  audit_event_id : string;
  occurred_at : Z;
  actor_id : string;
  actor_type : string;
  event_type : string;
  subject_type : string;
  subject_id : string;
  payload : list (string * pyval);
  correlation_id : option string }.

Definition post_init (x : t) : result t :=
  _ ← data_opaque_id x.(audit_event_id);
  _ ← data_opaque_id x.(actor_id);
  _ ← data_opaque_id x.(subject_id);
  raise_if negb (mem x.(actor_type) ALLOWED_ACTOR_TYPES) as PersistenceInputError;;
  raise_if Str.is_blank x.(event_type) as PersistenceInputError;;
  raise_if Str.is_blank x.(subject_type) as PersistenceInputError;;
  _ ← data_reject_secret_keys x.(payload);
  _ ← data_optional_opaque_id x.(correlation_id);
  Ok x.

#[global] Instance post_init_validator : Validator post_init.
Proof. solve_validator. Qed.
End AuditEventRecord.

(** The append-only audit table: the primary key is its one unique constraint.
    [data/postgres/repositories.py:2577-2591 PostgresAuditEventRepository.insert] *)
Definition append_audit (events : list AuditEventRecord.t) (e : AuditEventRecord.t)
    : result (list AuditEventRecord.t) :=
  raise_if existsb (fun o => (o.(AuditEventRecord.audit_event_id)
                              =? e.(AuditEventRecord.audit_event_id))%string) events
  as PersistenceConflictError;;
  Ok (events ++ [e]).

Lemma append_audit_ok events e events' :
  append_audit events e = Ok events' -> events' = events ++ [e].
Proof. unfold append_audit. rewrite raise_if_ok. by intros [_ [= <-]]. Qed.
