(* ===== verification/FindingFlow.v ===== *)
(** * The finding workflow on the database

    [StartHumanReview], [RecordHumanReview] and [FinalizeFinding] of [application/] with
    the repositories they use ([data/postgres/repositories.py], [data/postgres/tables.py]).
    A unit of work that raises leaves the database it started from ([result]).  Fresh ids
    and clock readings are arguments.  Rows are validated when they are written, so a
    read does not raise.  No use case locks what it reads: [seen n] is the database its
    [n]-th read sees, [db] the one its writes meet. *)
From S2P Require Import Prelude PyVal CoreTypes CorePolicy Candidate Finding Records FindingRecords.

(** ** Tables *)
Module Db.
Record t : Type := mk {
  runs : gset string;
  candidates : gmap string CandidateRecord.t;
  proposals : gmap string FindingProposalRecord.t;
  human_reviews : list HumanReviewRecord.t;
  approvals : list ApprovalRecord.t;
  findings : list FindingRecord.t;
  audit_events : list AuditEventRecord.t }.

Definition set_candidates (f : gmap string CandidateRecord.t -> gmap string CandidateRecord.t)
    (db : t) : t :=
  mk db.(runs) (f db.(candidates)) db.(proposals) db.(human_reviews) db.(approvals) db.(findings)
    db.(audit_events).

Definition set_proposals
    (f : gmap string FindingProposalRecord.t -> gmap string FindingProposalRecord.t) (db : t) : t :=
  mk db.(runs) db.(candidates) (f db.(proposals)) db.(human_reviews) db.(approvals) db.(findings)
    db.(audit_events).
End Db.

(** [.mappings().one_or_none()] *)
Definition one_or_none {A} (rows : list A) : result (option A) :=
  match rows with
  | [] => Ok None
  | [x] => Ok (Some x)
  | _ => Raise PersistenceError
  end.

(** ** Repositories *)

(** [data/postgres/repositories.py:1832-1840 PostgresFindingProposalRepository.get] *)
Definition get_proposal (db : Db.t) (proposal_id : string)
    : result (option FindingProposalRecord.t) :=
  _ ← data_opaque_id proposal_id;
  Ok (db.(Db.proposals) !! proposal_id).

(** [data/postgres/repositories.py:1842-1852 PostgresFindingProposalRepository.list_for_candidate] *)
Definition list_proposals_for_candidate (db : Db.t) (candidate_id : string)
    : result (list FindingProposalRecord.t) :=
  _ ← data_opaque_id candidate_id;
  Ok (sort_by FindingProposalRecord.proposal_id
        (List.filter (fun p => (p.(FindingProposalRecord.candidate_id) =? candidate_id)%string)
           (snd <$> map_to_list db.(Db.proposals)))).

(** A new row; the candidate's unique constraint and the two foreign keys.
    [data/postgres/repositories.py:1813-1830 PostgresFindingProposalRepository.insert] *)
Definition insert_proposal (db : Db.t) (r : FindingProposalRecord.t) : result Db.t :=
  let id := r.(FindingProposalRecord.proposal_id) in
  let cand := r.(FindingProposalRecord.candidate_id) in
  raise_if bool_decide (is_Some (db.(Db.proposals) !! id))
           || existsb (fun p => (p.2.(FindingProposalRecord.candidate_id) =? cand)%string)
                (map_to_list db.(Db.proposals))
  as PersistenceConflictError;;
  raise_if negb (bool_decide (is_Some (db.(Db.candidates) !! cand)))
           || negb (bool_decide (r.(FindingProposalRecord.research_run_id) ∈ db.(Db.runs)))
  as PersistenceError;;
  Ok (Db.set_proposals <[id := r]> db).

(** [UPDATE ... SET state]. *)
Definition with_state (state : string) (r : FindingProposalRecord.t) : FindingProposalRecord.t :=
  FindingProposalRecord.mk r.(FindingProposalRecord.proposal_id)
    r.(FindingProposalRecord.candidate_id) r.(FindingProposalRecord.research_run_id)
    r.(FindingProposalRecord.title) r.(FindingProposalRecord.claim)
    r.(FindingProposalRecord.classification) state r.(FindingProposalRecord.evidence_ids)
    r.(FindingProposalRecord.verification_ids) r.(FindingProposalRecord.content_fingerprint)
    r.(FindingProposalRecord.created_at) r.(FindingProposalRecord.impact_chain_ids).

(** [data/postgres/repositories.py:1869-1879 PostgresFindingProposalRepository.set_state] *)
Definition set_proposal_state (db : Db.t) (proposal_id state : string) : result Db.t :=
  _ ← data_opaque_id proposal_id;
  raise_if negb (mem state ALLOWED_FINDING_PROPOSAL_STATES) as PersistenceInputError;;
  match db.(Db.proposals) !! proposal_id with
  | None => Raise PersistenceError
  | Some r => Ok (Db.set_proposals <[proposal_id := with_state state r]> db)
  end.

Definition candidate_with_state (state : string) (r : CandidateRecord.t) : CandidateRecord.t :=
  CandidateRecord.mk r.(CandidateRecord.candidate_id) r.(CandidateRecord.research_run_id)
    r.(CandidateRecord.hypothesis_id) r.(CandidateRecord.claim) r.(CandidateRecord.classification)
    state r.(CandidateRecord.evidence_ids) r.(CandidateRecord.created_at)
    r.(CandidateRecord.admission_record_id).

(** [data/postgres/repositories.py:1580-1590 PostgresCandidateRepository.set_state] *)
Definition set_candidate_state (db : Db.t) (candidate_id state : string) : result Db.t :=
  _ ← data_opaque_id candidate_id;
  raise_if negb (mem state ALLOWED_CANDIDATE_STATES) as PersistenceInputError;;
  match db.(Db.candidates) !! candidate_id with
  | None => Raise PersistenceError
  | Some r => Ok (Db.set_candidates <[candidate_id := candidate_with_state state r]> db)
  end.

(** [data/postgres/repositories.py:1912-1924 PostgresHumanReviewRepository.get_for_proposal] *)
Definition get_review_for_proposal (db : Db.t) (proposal_id : string)
    : result (option HumanReviewRecord.t) :=
  _ ← data_opaque_id proposal_id;
  one_or_none (List.filter (fun r => (r.(HumanReviewRecord.proposal_id) =? proposal_id)%string)
                 db.(Db.human_reviews)).

(** The primary key and [uq_human_review_proposal_fingerprint]; the foreign key.
    [data/postgres/repositories.py:1886-1900 PostgresHumanReviewRepository.insert] *)
Definition insert_review (db : Db.t) (r : HumanReviewRecord.t) : result Db.t :=
  raise_if existsb (fun q =>
      (q.(HumanReviewRecord.review_id) =? r.(HumanReviewRecord.review_id))%string
      || ((q.(HumanReviewRecord.proposal_id) =? r.(HumanReviewRecord.proposal_id))%string
          && (q.(HumanReviewRecord.content_fingerprint)
              =? r.(HumanReviewRecord.content_fingerprint))%string)) db.(Db.human_reviews)
  as PersistenceConflictError;;
  raise_if negb (bool_decide (is_Some (db.(Db.proposals) !! r.(HumanReviewRecord.proposal_id))))
  as PersistenceError;;
  Ok (Db.mk db.(Db.runs) db.(Db.candidates) db.(Db.proposals) (db.(Db.human_reviews) ++ [r])
        db.(Db.approvals) db.(Db.findings) db.(Db.audit_events)).

Definition has_review (db : Db.t) (review_id : string) : bool :=
  existsb (fun q => (q.(HumanReviewRecord.review_id) =? review_id)%string) db.(Db.human_reviews).

(** [data/postgres/repositories.py:1958-1970 PostgresApprovalRepository.get_by_subject] *)
Definition get_approval_by_subject (db : Db.t) (subject : string)
    : result (option ApprovalRecord.t) :=
  _ ← data_opaque_id subject;
  one_or_none (List.filter (fun a => (a.(ApprovalRecord.subject_reference) =? subject)%string)
                 db.(Db.approvals)).

(** The primary key and [uq_approval_subject_reference]; the three foreign keys.
    [data/postgres/repositories.py:1931-1946 PostgresApprovalRepository.insert] *)
Definition insert_approval (db : Db.t) (a : ApprovalRecord.t) : result Db.t :=
  raise_if existsb (fun b =>
      (b.(ApprovalRecord.approval_id) =? a.(ApprovalRecord.approval_id))%string
      || (b.(ApprovalRecord.subject_reference) =? a.(ApprovalRecord.subject_reference))%string)
      db.(Db.approvals)
  as PersistenceConflictError;;
  raise_if negb (bool_decide (a.(ApprovalRecord.research_run_id) ∈ db.(Db.runs)))
           || negb (bool_decide (is_Some (db.(Db.proposals) !! a.(ApprovalRecord.proposal_id))))
           || negb (has_review db a.(ApprovalRecord.human_review_id))
  as PersistenceError;;
  Ok (Db.mk db.(Db.runs) db.(Db.candidates) db.(Db.proposals) db.(Db.human_reviews)
        (db.(Db.approvals) ++ [a]) db.(Db.findings) db.(Db.audit_events)).

(** [data/postgres/repositories.py:2006-2018 PostgresFindingRepository.get_by_proposal] *)
Definition get_finding_by_proposal (db : Db.t) (proposal_id : string)
    : result (option FindingRecord.t) :=
  _ ← data_opaque_id proposal_id;
  one_or_none (List.filter (fun f => (f.(FindingRecord.finding_proposal_id) =? proposal_id)%string)
                 db.(Db.findings)).

(** The primary key and [uq_finding_proposal_id]; the five foreign keys.
    [data/postgres/repositories.py:1977-1994 PostgresFindingRepository.insert] *)
Definition insert_finding (db : Db.t) (f : FindingRecord.t) : result Db.t :=
  raise_if existsb (fun g =>
      (g.(FindingRecord.finding_id) =? f.(FindingRecord.finding_id))%string
      || (g.(FindingRecord.finding_proposal_id) =? f.(FindingRecord.finding_proposal_id))%string)
      db.(Db.findings)
  as PersistenceConflictError;;
  raise_if negb (bool_decide (f.(FindingRecord.research_run_id) ∈ db.(Db.runs)))
           || negb (bool_decide (is_Some (db.(Db.proposals)
                                          !! f.(FindingRecord.finding_proposal_id))))
           || negb (bool_decide (is_Some (db.(Db.candidates) !! f.(FindingRecord.candidate_id))))
           || negb (existsb (fun a => (a.(ApprovalRecord.approval_id)
                                       =? f.(FindingRecord.approval_id))%string) db.(Db.approvals))
           || negb (has_review db f.(FindingRecord.human_review_id))
  as PersistenceError;;
  Ok (Db.mk db.(Db.runs) db.(Db.candidates) db.(Db.proposals) db.(Db.human_reviews)
        db.(Db.approvals) (db.(Db.findings) ++ [f]) db.(Db.audit_events)).

(** [uow.audit_events.insert(e)] *)
Definition insert_audit (db : Db.t) (e : AuditEventRecord.t) : result Db.t :=
  events ← append_audit db.(Db.audit_events) e;
  Ok (Db.mk db.(Db.runs) db.(Db.candidates) db.(Db.proposals) db.(Db.human_reviews)
        db.(Db.approvals) db.(Db.findings) events).

(** ** Use cases *)

(** [except X as exc: raise ApplicationError(...) from exc] *)
Definition reraise {A} (caught : exn -> bool) (r : result A) : result A :=
  match r with
  | Ok a => Ok a
  | Raise e => if caught e then Raise ApplicationError else Raise e
  end.

Definition is_input_or_value_error (e : exn) : bool :=
  match e with ResearchInputError | ValueError => true | _ => false end.
Definition is_input_error (e : exn) : bool :=
  match e with ResearchInputError => true | _ => false end.
Definition is_value_error (e : exn) : bool :=
  match e with ValueError => true | _ => false end.
Definition is_conflict (e : exn) : bool :=
  match e with PersistenceConflictError => true | _ => false end.

(** [if x is None: raise ApplicationError(...)] *)
Definition found {A} (x : option A) : result A :=
  match x with Some a => Ok a | None => Raise ApplicationError end.

(** [application/start_human_review.py:31-43 StartHumanReview.execute] *)
Definition start_human_review (seen : nat -> Db.t) (db : Db.t) (proposal_id : string)
    : result (Db.t * (string * FindingProposalState.t)) :=
  proposal ← get_proposal (seen 0%nat) proposal_id;
  proposal ← found proposal;
  next_state ←
    reraise is_input_or_value_error
      (current ← FindingProposalState.of_value proposal.(FindingProposalRecord.state);
       start_finding_proposal_review current);
  db' ← set_proposal_state db proposal.(FindingProposalRecord.proposal_id)
          (FindingProposalState.value next_state);
  Ok (db', (proposal.(FindingProposalRecord.proposal_id), next_state)).

(** [application/record_human_review.py:22-29 RecordHumanReviewCommand] *)
Module RecordHumanReviewCommand.
Record t : Set := mk {
  proposal_id : string;
  reviewer_id : string;
  actor_type : ActorType.t;
  decision : HumanReviewDecision.t;
  reason_codes : list string;
  note : option string }.
End RecordHumanReviewCommand.

(** [application/record_human_review.py:32-36 RecordHumanReviewResult] *)
Module RecordHumanReviewResult.
Record t : Set := mk {
  review_id : string; proposal_id : string; decision : HumanReviewDecision.t }.
End RecordHumanReviewResult.

(** [review_id], [audit_id] are the fresh ids, [now] the readings of the clock.
    [application/record_human_review.py:49-121 RecordHumanReview.execute] *)
Definition record_human_review (seen : nat -> Db.t) (db : Db.t) (review_id audit_id : string) (now : nat -> Z) (command : RecordHumanReviewCommand.t)
    : result (Db.t * RecordHumanReviewResult.t) :=
  let decision := command.(RecordHumanReviewCommand.decision) in
  let actor := ActorType.value command.(RecordHumanReviewCommand.actor_type) in
  proposal ← get_proposal (seen 0%nat) command.(RecordHumanReviewCommand.proposal_id);
  proposal ← found proposal;
  let id := proposal.(FindingProposalRecord.proposal_id) in
  let fingerprint := proposal.(FindingProposalRecord.content_fingerprint) in
  raise_if negb (proposal.(FindingProposalRecord.state)
                 =? FindingProposalState.value FindingProposalState.HUMAN_REVIEW)%string
  as ApplicationError;;
  existing ← get_review_for_proposal (seen 1%nat) id;
  match existing with
  | Some existing =>
      raise_if negb (existing.(HumanReviewRecord.content_fingerprint) =? fingerprint)%string
      as ApplicationError;;
      d ← HumanReviewDecision.of_value existing.(HumanReviewRecord.decision);
      Ok (db, RecordHumanReviewResult.mk existing.(HumanReviewRecord.review_id)
                existing.(HumanReviewRecord.proposal_id) d)
  | None =>
      view ← HumanReviewView.post_init
               (HumanReviewView.mk review_id id fingerprint decision
                  command.(RecordHumanReviewCommand.reviewer_id) actor
                  command.(RecordHumanReviewCommand.reason_codes)
                  command.(RecordHumanReviewCommand.note));
      _ ← reraise is_input_error (admit_human_review view id fingerprint);
      record ← HumanReviewRecord.post_init
                 (HumanReviewRecord.mk review_id id fingerprint
                    (HumanReviewDecision.value decision)
                    command.(RecordHumanReviewCommand.reviewer_id) actor
                    command.(RecordHumanReviewCommand.reason_codes) (now 0%nat)
                    command.(RecordHumanReviewCommand.note));
      db ← reraise is_conflict (insert_review db record);
      event ← AuditEventRecord.post_init
                (AuditEventRecord.mk audit_id (now 1%nat)
                   command.(RecordHumanReviewCommand.reviewer_id) actor "HUMAN_REVIEW_RECORDED"
                   "finding_proposal" id
                   [("review_id", PStr review_id);
                    ("decision", PStr (HumanReviewDecision.value decision))] None);
      db ← insert_audit db event;
      Ok (db, RecordHumanReviewResult.mk review_id id decision)
  end.

(** [application/finalize_finding.py:31-35 FinalizeFindingCommand] *)
Module FinalizeFindingCommand.
Record t : Set := mk { proposal_id : string; decided_by : string; actor_type : ActorType.t }.
End FinalizeFindingCommand.

(** [application/finalize_finding.py:38-45 FinalizeFindingResult] *)
Module FinalizeFindingResult.
Record t : Set := mk {
  outcome : FindingCreationOutcome.t;
  proposal_id : string;
  proposal_state : FindingProposalState.t;
  finding_id : option string;
  approval_id : option string;
  reason_codes : list string }.
End FinalizeFindingResult.

(** [CandidateState(s)]
    [research/candidate.py:47-56 CandidateState] *)
Definition candidate_state_of_value (s : string) : result CandidateState.t :=
  match List.find (fun x => (CandidateState.value x =? s)%string)
          [ CandidateState.OPEN; CandidateState.VERIFYING; CandidateState.VALIDATED;
            CandidateState.REJECTED; CandidateState.INCONCLUSIVE; CandidateState.DUPLICATE;
            CandidateState.OUT_OF_SCOPE ] with
  | Some x => Ok x
  | None => Raise ValueError
  end.

(** [ApprovalDecision(review.decision.value)] *)
Definition approval_decision_of (d : HumanReviewDecision.t) : ApprovalDecision.t :=
  match d with
  | HumanReviewDecision.APPROVE => ApprovalDecision.APPROVE
  | HumanReviewDecision.REJECT => ApprovalDecision.REJECT
  end.

(** The recorded review as Research sees it.
    [application/finalize_finding.py:101-112 FinalizeFinding.execute] *)
Definition review_view (record : option HumanReviewRecord.t) : result (option HumanReviewView.t) :=
  match record with
  | None => Ok None
  | Some r =>
      d ← HumanReviewDecision.of_value r.(HumanReviewRecord.decision);
      v ← HumanReviewView.post_init
            (HumanReviewView.mk r.(HumanReviewRecord.review_id) r.(HumanReviewRecord.proposal_id)
               r.(HumanReviewRecord.content_fingerprint) d r.(HumanReviewRecord.reviewer_id)
               r.(HumanReviewRecord.actor_type) r.(HumanReviewRecord.reason_codes)
               r.(HumanReviewRecord.note));
      Ok (Some v)
  end.

(** [application/finalize_finding.py:120-129 FinalizeFinding.execute] *)
Definition approval_view_of (review : option HumanReviewView.t) (approval_id subject : string)
    (command : FinalizeFindingCommand.t) : result (option ApprovalView.t) :=
  match review with
  | None => Ok None
  | Some r =>
      v ← ApprovalView.post_init
            (ApprovalView.mk approval_id subject
               (approval_decision_of r.(HumanReviewView.decision))
               command.(FinalizeFindingCommand.decided_by)
               command.(FinalizeFindingCommand.actor_type) true);
      Ok (Some v)
  end.

(** [application/finalize_finding.py:132-157 FinalizeFinding.execute] *)
Definition creation_context (candidate : CandidateRecord.t) (candidate_state : CandidateState.t)
    (proposal : FindingProposalRecord.t) (proposal_state : FindingProposalState.t)
    (subject : string) (review : option HumanReviewView.t) (view : option ApprovalView.t)
    (evaluation : RecordedApprovalEvaluation.t) (command : FinalizeFindingCommand.t)
    : FindingCreationContext.t :=
  FindingCreationContext.mk candidate.(CandidateRecord.candidate_id) candidate_state
    candidate.(CandidateRecord.research_run_id) proposal.(FindingProposalRecord.proposal_id)
    proposal_state proposal.(FindingProposalRecord.title) proposal.(FindingProposalRecord.claim)
    proposal.(FindingProposalRecord.evidence_ids) proposal.(FindingProposalRecord.verification_ids)
    proposal.(FindingProposalRecord.content_fingerprint) subject review
    evaluation.(RecordedApprovalEvaluation.valid_record)
    evaluation.(RecordedApprovalEvaluation.authorizes)
    (match view with
     | Some v => (v.(ApprovalView.subject_reference) =? subject)%string
     | None => false
     end)
    (HumanReviewView.decision <$> review)
    (Some (ActorType.value command.(FinalizeFindingCommand.actor_type))).

(** [creation.outcome in {...}]
    [application/finalize_finding.py:159-167 FinalizeFinding.execute] *)
Definition finalization_rejected (o : FindingCreationOutcome.t) : bool :=
  match o with
  | FindingCreationOutcome.CREATED | FindingCreationOutcome.REJECTED_PROPOSAL => false
  | _ => true
  end.

(** The finding of a created decision and its audit event.
    [application/finalize_finding.py:209-244 FinalizeFinding.execute] *)
Definition write_finding (db : Db.t) (fresh : nat -> string) (now : nat -> Z)
    (candidate : CandidateRecord.t) (proposal : FindingProposalRecord.t)
    (approval_id review_id : string) : result (Db.t * string) :=
  let finding_id := fresh 2%nat in
  finding ← FindingRecord.post_init
              (FindingRecord.mk finding_id proposal.(FindingProposalRecord.proposal_id)
                 candidate.(CandidateRecord.candidate_id)
                 proposal.(FindingProposalRecord.research_run_id) approval_id review_id
                 proposal.(FindingProposalRecord.title) proposal.(FindingProposalRecord.claim)
                 proposal.(FindingProposalRecord.classification)
                 proposal.(FindingProposalRecord.evidence_ids)
                 proposal.(FindingProposalRecord.verification_ids) (now 2%nat));
  db ← insert_finding db finding;
  event ← AuditEventRecord.post_init
            (AuditEventRecord.mk (fresh 3%nat) (now 3%nat) "control-plane"
               (ActorType.value ActorType.CONTROL_PLANE) "FINDING_CREATED" "finding" finding_id
               [ ("proposal_id", PStr proposal.(FindingProposalRecord.proposal_id));
                 ("candidate_id", PStr candidate.(CandidateRecord.candidate_id));
                 ("not_a_finding_until_approval", PBool true);
                 ("classification", PStr proposal.(FindingProposalRecord.classification)) ] None);
  db ← insert_audit db event;
  Ok (db, finding_id).

(** What is written once the gate has decided: the approval, its audit event, the new
    proposal state, and the finding when the gate creates one.
    [application/finalize_finding.py:173-245 FinalizeFinding.execute] *)
Definition write_decision (db : Db.t) (fresh : nat -> string) (now : nat -> Z)
    (command : FinalizeFindingCommand.t) (candidate : CandidateRecord.t)
    (proposal : FindingProposalRecord.t) (proposal_state : FindingProposalState.t)
    (creation : FindingCreationDecision.t) (review : HumanReviewView.t) (view : ApprovalView.t)
    : result (Db.t * FinalizeFindingResult.t) :=
  let approval_id := fresh 0%nat in
  let id := proposal.(FindingProposalRecord.proposal_id) in
  let actor := ActorType.value command.(FinalizeFindingCommand.actor_type) in
  let decision := ApprovalDecision.value view.(ApprovalView.decision) in
  next_state ← reraise is_input_error
                 (transition_finding_proposal proposal_state
                    creation.(FindingCreationDecision.proposal_state));
  approval ← ApprovalRecord.post_init
               (ApprovalRecord.mk approval_id view.(ApprovalView.subject_reference) decision
                  command.(FinalizeFindingCommand.decided_by) actor true (now 0%nat)
                  proposal.(FindingProposalRecord.research_run_id) id
                  review.(HumanReviewView.review_id));
  db ← insert_approval db approval;
  event ← AuditEventRecord.post_init
            (AuditEventRecord.mk (fresh 1%nat) (now 1%nat)
               command.(FinalizeFindingCommand.decided_by) actor "CORE_APPROVAL_RECORDED"
               "finding_proposal" id
               [("approval_id", PStr approval_id); ("decision", PStr decision)] None);
  db ← insert_audit db event;
  db ← set_proposal_state db id (FindingProposalState.value next_state);
  '(db, finding_id) ←
    if creation.(FindingCreationDecision.creates_finding)
    then '(db, f) ← write_finding db fresh now candidate proposal approval_id
                      review.(HumanReviewView.review_id);
         Ok (db, Some f)
    else Ok (db, None);
  Ok (db, FinalizeFindingResult.mk creation.(FindingCreationDecision.outcome) id next_state
            finding_id (Some approval_id) creation.(FindingCreationDecision.reason_codes)).

(** The proposal that is decided now.
    [application/finalize_finding.py:93-172 FinalizeFinding.execute] *)
Definition decide_proposal (seen : nat -> Db.t) (db : Db.t) (fresh : nat -> string) (now : nat -> Z)
    (command : FinalizeFindingCommand.t) (proposal : FindingProposalRecord.t)
    (proposal_state : FindingProposalState.t) : result (Db.t * FinalizeFindingResult.t) :=
  _ ← data_opaque_id proposal.(FindingProposalRecord.candidate_id);
  candidate ← found ((seen 2%nat).(Db.candidates)
                       !! proposal.(FindingProposalRecord.candidate_id));
  candidate_state ← reraise is_value_error
                      (candidate_state_of_value candidate.(CandidateRecord.state));
  record ← get_review_for_proposal (seen 3%nat) proposal.(FindingProposalRecord.proposal_id);
  review ← review_view record;
  let subject := approval_subject_for proposal.(FindingProposalRecord.proposal_id)
                   proposal.(FindingProposalRecord.content_fingerprint) in
  view ← approval_view_of review (fresh 0%nat) subject command;
  evaluation ← evaluate_recorded_approval view subject;
  context ← FindingCreationContext.post_init
              (creation_context candidate candidate_state proposal proposal_state subject review
                 view evaluation command);
  let creation := evaluate_finding_creation context in
  raise_if finalization_rejected creation.(FindingCreationDecision.outcome) as ApplicationError;;
  match review, view with
  | Some review, Some view =>
      write_decision db fresh now command candidate proposal proposal_state creation review view
  | _, _ => Raise ApplicationError
  end.

(** [fresh] are the ids drawn in order: approval, its audit event, finding, its audit event.
    [application/finalize_finding.py:58-253 FinalizeFinding.execute] *)
Definition finalize_finding (seen : nat -> Db.t) (db : Db.t) (fresh : nat -> string) (now : nat -> Z)
    (command : FinalizeFindingCommand.t) : result (Db.t * FinalizeFindingResult.t) :=
  proposal ← get_proposal (seen 0%nat) command.(FinalizeFindingCommand.proposal_id);
  proposal ← found proposal;
  let id := proposal.(FindingProposalRecord.proposal_id) in
  existing ← get_finding_by_proposal (seen 1%nat) id;
  match existing with
  | Some existing =>
      Ok (db, FinalizeFindingResult.mk FindingCreationOutcome.CREATED id
                FindingProposalState.APPROVED (Some existing.(FindingRecord.finding_id))
                (Some existing.(FindingRecord.approval_id)) ["IDEMPOTENT_EXISTING_FINDING"])
  | None =>
      proposal_state ← reraise is_value_error
                         (FindingProposalState.of_value proposal.(FindingProposalRecord.state));
      match proposal_state with
      | FindingProposalState.REJECTED =>
          approval ← get_approval_by_subject (seen 2%nat)
                       (approval_subject_for id
                          proposal.(FindingProposalRecord.content_fingerprint));
          Ok (db, FinalizeFindingResult.mk FindingCreationOutcome.REJECTED_PROPOSAL id
                    FindingProposalState.REJECTED None (ApprovalRecord.approval_id <$> approval)
                    ["IDEMPOTENT_REJECTED_PROPOSAL"])
      | FindingProposalState.APPROVED => Raise ApplicationError
      | _ => decide_proposal seen db fresh now command proposal proposal_state
      end
  end.

(** ** The primitive writes *)

Lemma reraise_ok {A} f (r : result A) a : reraise f r = Ok a <-> r = Ok a.
Proof. destruct r; simpl; [done|]. case_match; split; done. Qed.

Lemma found_ok {A} (x : option A) a : found x = Ok a <-> x = Some a.
Proof. destruct x; simpl; naive_solver. Qed.

Lemma one_or_none_ok {A} (l : list A) x : one_or_none l = Ok x -> l = match x with None => [] | Some a => [a] end.
Proof. destruct l as [|a [|b l]]; simpl; by intros [= <-]. Qed.

(** What a later database keeps of an earlier one: rows are never deleted, and only the state
    of a candidate or a proposal ever changes. *)
Record extends (db db' : Db.t) : Prop := {
  ex_candidates : forall k c, db.(Db.candidates) !! k = Some c ->
    exists s, db'.(Db.candidates) !! k = Some (candidate_with_state s c);
  ex_proposals : forall k p, db.(Db.proposals) !! k = Some p ->
    exists s, db'.(Db.proposals) !! k = Some (with_state s p);
  ex_reviews : forall r, r ∈ db.(Db.human_reviews) -> r ∈ db'.(Db.human_reviews);
  ex_approvals : forall a, a ∈ db.(Db.approvals) -> a ∈ db'.(Db.approvals);
  ex_findings : forall f, f ∈ db.(Db.findings) -> f ∈ db'.(Db.findings) }.

Lemma candidate_with_state_id c : candidate_with_state c.(CandidateRecord.state) c = c.
Proof. by destruct c. Qed.

Lemma with_state_id p : with_state p.(FindingProposalRecord.state) p = p.
Proof. by destruct p. Qed.

Lemma with_state_twice s t p : with_state s (with_state t p) = with_state s p.
Proof. by destruct p. Qed.

(** Databases with the same candidates and proposals, and more of the rest. *)
Lemma extends_same db db' :
  db'.(Db.candidates) = db.(Db.candidates) -> db'.(Db.proposals) = db.(Db.proposals) ->
  (forall r, r ∈ db.(Db.human_reviews) -> r ∈ db'.(Db.human_reviews)) ->
  (forall a, a ∈ db.(Db.approvals) -> a ∈ db'.(Db.approvals)) ->
  (forall f, f ∈ db.(Db.findings) -> f ∈ db'.(Db.findings)) -> extends db db'.
Proof.
  intros Hc Hp Hr Ha Hf. constructor; rewrite ?Hc, ?Hp; auto.
  - intros k c H. exists c.(CandidateRecord.state). by rewrite candidate_with_state_id.
  - intros k p H. exists p.(FindingProposalRecord.state). by rewrite with_state_id.
Qed.

#[global] Instance extends_preorder : PreOrder extends.
Proof.
  split.
  - intros db. by apply extends_same.
  - intros a b c [C1 P1 R1 A1 F1] [C2 P2 R2 A2 F2]. constructor; eauto.
    + intros k x H. destruct (C1 _ _ H) as (s & H1). destruct (C2 _ _ H1) as (t & H2). by exists t.
    + intros k p H. destruct (P1 _ _ H) as (s & H1). destruct (P2 _ _ H1) as (t & H2).
      exists t. by rewrite with_state_twice in H2.
Qed.

Lemma insert_audit_ok db e db' :
  insert_audit db e = Ok db' ->
  db' = Db.mk db.(Db.runs) db.(Db.candidates) db.(Db.proposals) db.(Db.human_reviews)
          db.(Db.approvals) db.(Db.findings) (db.(Db.audit_events) ++ [e]).
Proof.
  unfold insert_audit. rewrite bind_ok. intros (x & ->%append_audit_ok & [= <-]). done.
Qed.

Lemma insert_review_ok db r db' :
  insert_review db r = Ok db' ->
  db' = Db.mk db.(Db.runs) db.(Db.candidates) db.(Db.proposals) (db.(Db.human_reviews) ++ [r])
          db.(Db.approvals) db.(Db.findings) db.(Db.audit_events).
Proof. unfold insert_review. rewrite !raise_if_ok. by intros (_ & _ & [= <-]). Qed.

Lemma insert_approval_ok db a db' :
  insert_approval db a = Ok db' ->
  db' = Db.mk db.(Db.runs) db.(Db.candidates) db.(Db.proposals) db.(Db.human_reviews)
          (db.(Db.approvals) ++ [a]) db.(Db.findings) db.(Db.audit_events).
Proof. unfold insert_approval. rewrite !raise_if_ok. by intros (_ & _ & [= <-]). Qed.

Lemma insert_finding_ok db f db' :
  insert_finding db f = Ok db' ->
  db' = Db.mk db.(Db.runs) db.(Db.candidates) db.(Db.proposals) db.(Db.human_reviews)
          db.(Db.approvals) (db.(Db.findings) ++ [f]) db.(Db.audit_events)
  /\ forall g, g ∈ db.(Db.findings) ->
       g.(FindingRecord.finding_proposal_id) <> f.(FindingRecord.finding_proposal_id).
Proof.
  unfold insert_finding. rewrite !raise_if_ok, existsb_false. intros (Hu & _ & [= <-]).
  split; [done|]. intros g Hg E. specialize (Hu g Hg). simpl in Hu.
  rewrite E, String.eqb_refl, orb_true_r in Hu. done.
Qed.

Lemma set_proposal_state_ok db id s db' :
  set_proposal_state db id s = Ok db' ->
  exists p, db.(Db.proposals) !! id = Some p
    /\ db' = Db.set_proposals <[id := with_state s p]> db.
Proof.
  unfold set_proposal_state. rewrite bind_ok. intros (? & _ & H).
  apply raise_if_ok in H as [_ H]. case_match; [|done]. injection H as <-. eauto.
Qed.

Lemma set_candidate_state_ok db id s db' :
  set_candidate_state db id s = Ok db' ->
  exists c, db.(Db.candidates) !! id = Some c
    /\ db' = Db.set_candidates <[id := candidate_with_state s c]> db.
Proof.
  unfold set_candidate_state. rewrite bind_ok. intros (? & _ & H).
  apply raise_if_ok in H as [_ H]. case_match; [|done]. injection H as <-. eauto.
Qed.

Lemma set_proposals_extends db id s p :
  db.(Db.proposals) !! id = Some p ->
  extends db (Db.set_proposals <[id := with_state s p]> db).
Proof.
  intros Hp. constructor; simpl; eauto.
  - intros k c Hc. exists c.(CandidateRecord.state). by rewrite candidate_with_state_id.
  - intros k q Hq. destruct (decide (k = id)) as [->|].
    + rewrite Hp in Hq. injection Hq as <-. exists s. by rewrite lookup_insert_eq.
    + exists q.(FindingProposalRecord.state). by rewrite lookup_insert_ne, with_state_id.
Qed.

(** ** The invariant *)

(** What a finding stands on: a stored proposal of the same content, a human review and a
    Core approval of that very content, both APPROVE and both by a human operator; and the
    databases of [history] that were read: one with the proposal under HUMAN_REVIEW and one
    with its candidate VALIDATED. *)
Definition stands (history : list Db.t) (db : Db.t) (f : FindingRecord.t) : Prop :=
  exists p c r a,
    (exists s, db.(Db.proposals) !! f.(FindingRecord.finding_proposal_id) = Some (with_state s p))
    /\ p.(FindingProposalRecord.state) = "HUMAN_REVIEW"
    /\ (exists seen, seen ∈ history
          /\ seen.(Db.proposals) !! f.(FindingRecord.finding_proposal_id) = Some p)
    /\ f.(FindingRecord.title) = p.(FindingProposalRecord.title)
    /\ f.(FindingRecord.claim) = p.(FindingProposalRecord.claim)
    /\ f.(FindingRecord.evidence_ids) = p.(FindingProposalRecord.evidence_ids)
    /\ f.(FindingRecord.verification_ids) = p.(FindingProposalRecord.verification_ids)
    /\ (exists s, db.(Db.candidates) !! p.(FindingProposalRecord.candidate_id)
                  = Some (candidate_with_state s c))
    /\ c.(CandidateRecord.state) = "VALIDATED"
    /\ (exists seen, seen ∈ history
          /\ seen.(Db.candidates) !! p.(FindingProposalRecord.candidate_id) = Some c)
    /\ r ∈ db.(Db.human_reviews)
    /\ r.(HumanReviewRecord.proposal_id) = f.(FindingRecord.finding_proposal_id)
    /\ r.(HumanReviewRecord.content_fingerprint) = p.(FindingProposalRecord.content_fingerprint)
    /\ r.(HumanReviewRecord.decision) = "APPROVE"
    /\ r.(HumanReviewRecord.actor_type) = "HUMAN_OPERATOR"
    /\ a ∈ db.(Db.approvals)
    /\ a.(ApprovalRecord.approval_id) = f.(FindingRecord.approval_id)
    /\ a.(ApprovalRecord.subject_reference)
       = approval_subject_for f.(FindingRecord.finding_proposal_id)
           p.(FindingProposalRecord.content_fingerprint)
    /\ a.(ApprovalRecord.decision) = "APPROVE"
    /\ a.(ApprovalRecord.actor_type) = "HUMAN_OPERATOR".

Record inv (db : Db.t) : Prop := {
  inv_key : forall k p, db.(Db.proposals) !! k = Some p ->
    p.(FindingProposalRecord.proposal_id) = k;
  inv_review : forall r, r ∈ db.(Db.human_reviews) -> exists p,
    db.(Db.proposals) !! r.(HumanReviewRecord.proposal_id) = Some p
    /\ r.(HumanReviewRecord.content_fingerprint) = p.(FindingProposalRecord.content_fingerprint)
    /\ r.(HumanReviewRecord.actor_type) = "HUMAN_OPERATOR";
  inv_approved : forall k p, db.(Db.proposals) !! k = Some p ->
    p.(FindingProposalRecord.state) = "APPROVED" ->
    exists f, f ∈ db.(Db.findings) /\ f.(FindingRecord.finding_proposal_id) = k;
  inv_unique : NoDup (FindingRecord.finding_proposal_id <$> db.(Db.findings)) }.

(** A database of a history whose [past] databases it keeps everything of. *)
Record settled (past : list Db.t) (db : Db.t) : Prop := {
  settled_inv : inv db;
  settled_past : forall x, x ∈ past -> inv x /\ extends x db }.

Lemma settled_seen past db x : settled past db -> x ∈ db :: past -> inv x /\ extends x db.
Proof. intros [I P] [->|Hx]%elem_of_cons; [by split|by apply P]. Qed.

Lemma settled_cons past db db' :
  settled past db -> extends db db' -> inv db' -> settled (db :: past) db'.
Proof.
  intros S E I. split; [done|]. intros x Hx. destruct (settled_seen _ _ _ S Hx) as [Ix Ex].
  split; [done|by etransitivity].
Qed.

Lemma stands_extends h h' db db' f :
  extends db db' -> (forall x, x ∈ h -> x ∈ h') -> stands h db f -> stands h' db' f.
Proof.
  intros [C P R A _] Hh (p & c & r & a & (s & Hp) & Hs & (x & Hx & Hxp) & H1 & H2 & H3 & H4
    & (t & Hc) & Hcs & (y & Hy & Hyc) & Hr & H5 & H6 & H7 & H8 & Ha & H9 & H10 & H11 & H12).
  destruct (P _ _ Hp) as (s' & Hp'). rewrite with_state_twice in Hp'.
  destruct (C _ _ Hc) as (t' & Hc').
  exists p, c, r, a. split; [by exists s'|]. split; [done|]. split; [exists x; auto|].
  do 4 (split; [done|]). split; [by exists t'|]. split; [done|]. split; [exists y; auto|].
  split; [auto|]. do 4 (split; [done|]). split; [auto|]. done.
Qed.

(** The parts of the invariant that only depend on what was kept. *)
Lemma inv_extends db db' :
  inv db -> extends db db' ->
  (forall k p, db'.(Db.proposals) !! k = Some p -> p.(FindingProposalRecord.proposal_id) = k) ->
  (forall r, r ∈ db'.(Db.human_reviews) -> r ∈ db.(Db.human_reviews) \/ exists p,
     db'.(Db.proposals) !! r.(HumanReviewRecord.proposal_id) = Some p
     /\ r.(HumanReviewRecord.content_fingerprint) = p.(FindingProposalRecord.content_fingerprint)
     /\ r.(HumanReviewRecord.actor_type) = "HUMAN_OPERATOR") ->
  (forall k p, db'.(Db.proposals) !! k = Some p -> p.(FindingProposalRecord.state) = "APPROVED" ->
     (exists p0, db.(Db.proposals) !! k = Some p0 /\ p0.(FindingProposalRecord.state) = "APPROVED")
     \/ exists f, f ∈ db'.(Db.findings) /\ f.(FindingRecord.finding_proposal_id) = k) ->
  NoDup (FindingRecord.finding_proposal_id <$> db'.(Db.findings)) -> inv db'.
Proof.
  intros [K R A _] E HK HR HA HU. constructor; [done|..|done].
  - intros r Hr. destruct (HR r Hr) as [Hr'|?]; [|done]. destruct (R r Hr') as (p & Hp & Hf & Ha).
    destruct (ex_proposals _ _ E _ _ Hp) as (s & Hp'). exists (with_state s p). done.
  - intros k p Hp Hs. destruct (HA k p Hp Hs) as [(p0 & Hp0 & Hs0)|?]; [|done].
    destruct (A k p0 Hp0 Hs0) as (f & Hf & ?). exists f. split; [|done]. by apply E.
Qed.

(** ** Reading back *)

Lemma decision_of_value s d :
  HumanReviewDecision.of_value s = Ok d -> s = HumanReviewDecision.value d.
Proof.
  unfold HumanReviewDecision.of_value.
  destruct (String.eqb_spec s "APPROVE"); [by intros [= <-]|].
  destruct (String.eqb_spec s "REJECT"); [by intros [= <-]|done].
Qed.

Lemma proposal_state_of_value s x :
  FindingProposalState.of_value s = Ok x <-> s = FindingProposalState.value x.
Proof.
  split.
  - unfold FindingProposalState.of_value.
    repeat match goal with |- context [(s =? ?w)%string] =>
      destruct (String.eqb_spec s w); [by intros [= <-]|] end. done.
  - intros ->. by destruct x.
Qed.

Lemma candidate_state_of_value_ok s x :
  candidate_state_of_value s = Ok x -> s = CandidateState.value x.
Proof.
  unfold candidate_state_of_value. destruct (List.find _ _) eqn:E; [|done]. intros [= <-].
  apply find_Some_elem in E as [_ E]. by apply String.eqb_eq in E.
Qed.

Lemma approval_decision_value d :
  ApprovalDecision.value (approval_decision_of d) = HumanReviewDecision.value d.
Proof. by destruct d. Qed.

Lemma review_view_some record v :
  review_view record = Ok (Some v) ->
  exists r, record = Some r
    /\ r.(HumanReviewRecord.decision) = HumanReviewDecision.value v.(HumanReviewView.decision).
Proof.
  destruct record as [r|]; [|done]. simpl. rewrite bind_ok. intros (d & Hd & H).
  apply bind_ok in H as (w & Hw & [= <-]). exists r. split; [done|].
  apply decision_of_value in Hd. unfold HumanReviewView.post_init in Hw. peel Hw.
  by injection Hw as <-.
Qed.

Lemma approval_view_some review id subject cmd v :
  approval_view_of review id subject cmd = Ok (Some v) ->
  exists w, review = Some w
    /\ v = ApprovalView.mk id subject (approval_decision_of w.(HumanReviewView.decision))
             cmd.(FinalizeFindingCommand.decided_by) cmd.(FinalizeFindingCommand.actor_type) true.
Proof.
  destruct review as [w|]; [|done]. simpl. rewrite bind_ok. intros (u & Hu & [= <-]).
  exists w. split; [done|]. unfold ApprovalView.post_init in Hu. peel Hu. by injection Hu as <-.
Qed.

Lemma creation_context_fields x y :
  FindingCreationContext.post_init x = Ok y ->
  y.(FindingCreationContext.candidate_state) = x.(FindingCreationContext.candidate_state)
  /\ y.(FindingCreationContext.proposal_state) = x.(FindingCreationContext.proposal_state)
  /\ y.(FindingCreationContext.human_review) = x.(FindingCreationContext.human_review)
  /\ y.(FindingCreationContext.approval_actor_type)
     = x.(FindingCreationContext.approval_actor_type).
Proof. unfold FindingCreationContext.post_init. intros H. peel H. by injection H as <-. Qed.

Lemma creation_not_rejected c :
  finalization_rejected (evaluate_finding_creation c).(FindingCreationDecision.outcome) = false ->
  ((evaluate_finding_creation c).(FindingCreationDecision.creates_finding) = true
     /\ (evaluate_finding_creation c).(FindingCreationDecision.proposal_state)
        = FindingProposalState.APPROVED
     /\ (evaluate_finding_creation c).(FindingCreationDecision.outcome)
        = FindingCreationOutcome.CREATED)
  \/ ((evaluate_finding_creation c).(FindingCreationDecision.creates_finding) = false
     /\ (evaluate_finding_creation c).(FindingCreationDecision.proposal_state)
        = FindingProposalState.REJECTED
     /\ (evaluate_finding_creation c).(FindingCreationDecision.outcome)
        = FindingCreationOutcome.REJECTED_PROPOSAL).
Proof.
  unfold evaluate_finding_creation. intros H.
  repeat (case_match; simpl in *; try discriminate); auto.
Qed.

(** ** What a decision writes *)

Record wrote (db db' : Db.t) (p : FindingProposalRecord.t) (s : FindingProposalState.t)
    (a : ApprovalRecord.t) (fs : list FindingRecord.t) : Prop := {
  wr_candidates : db'.(Db.candidates) = db.(Db.candidates);
  wr_proposals : exists p0, db.(Db.proposals) !! p.(FindingProposalRecord.proposal_id) = Some p0
    /\ db'.(Db.proposals) = <[p.(FindingProposalRecord.proposal_id)
                              := with_state (FindingProposalState.value s) p0]> db.(Db.proposals);
  wr_reviews : db'.(Db.human_reviews) = db.(Db.human_reviews);
  wr_approvals : db'.(Db.approvals) = db.(Db.approvals) ++ [a];
  wr_findings : db'.(Db.findings) = db.(Db.findings) ++ fs;
  wr_unique : NoDup (FindingRecord.finding_proposal_id <$> db.(Db.findings)) ->
    NoDup (FindingRecord.finding_proposal_id <$> db'.(Db.findings)) }.

Lemma write_finding_ok db fresh now c p aid rid db' id :
  write_finding db fresh now c p aid rid = Ok (db', id) ->
  exists f, db'.(Db.findings) = db.(Db.findings) ++ [f]
    /\ (forall g, g ∈ db.(Db.findings) ->
          g.(FindingRecord.finding_proposal_id) <> f.(FindingRecord.finding_proposal_id))
    /\ id = f.(FindingRecord.finding_id)
    /\ f.(FindingRecord.finding_proposal_id) = p.(FindingProposalRecord.proposal_id)
    /\ f.(FindingRecord.approval_id) = aid
    /\ f.(FindingRecord.title) = p.(FindingProposalRecord.title)
    /\ f.(FindingRecord.claim) = p.(FindingProposalRecord.claim)
    /\ f.(FindingRecord.evidence_ids) = p.(FindingProposalRecord.evidence_ids)
    /\ f.(FindingRecord.verification_ids) = p.(FindingProposalRecord.verification_ids)
    /\ db'.(Db.candidates) = db.(Db.candidates) /\ db'.(Db.proposals) = db.(Db.proposals)
    /\ db'.(Db.human_reviews) = db.(Db.human_reviews)
    /\ db'.(Db.approvals) = db.(Db.approvals).
Proof.
  unfold write_finding. cbv zeta. rewrite bind_ok. intros (f & Hf & H).
  apply validated in Hf as ->. apply bind_ok in H as (db1 & H1 & H).
  apply insert_finding_ok in H1 as [-> Hu]. apply bind_ok in H as (e & _ & H).
  apply bind_ok in H as (db2 & H2 & H). apply insert_audit_ok in H2 as ->.
  injection H as <- <-. eexists. split; [reflexivity|]. split; [exact Hu|]. done.
Qed.

Lemma unique_snoc (fs : list FindingRecord.t) f :
  (forall g, g ∈ fs ->
     g.(FindingRecord.finding_proposal_id) <> f.(FindingRecord.finding_proposal_id)) ->
  NoDup (FindingRecord.finding_proposal_id <$> fs) ->
  NoDup (FindingRecord.finding_proposal_id <$> fs ++ [f]).
Proof.
  intros Hf Hn. rewrite fmap_app, NoDup_app. split; [done|]. split; [|apply NoDup_singleton].
  intros x (g & -> & Hg)%list_elem_of_fmap E%list_elem_of_singleton. by apply (Hf g).
Qed.

Lemma write_decision_ok db fresh now cmd c p s creation w v db' res :
  write_decision db fresh now cmd c p s creation w v = Ok (db', res) ->
  transition_finding_proposal s creation.(FindingCreationDecision.proposal_state)
    = Ok creation.(FindingCreationDecision.proposal_state)
  /\ res.(FinalizeFindingResult.outcome) = creation.(FindingCreationDecision.outcome)
  /\ res.(FinalizeFindingResult.proposal_id) = p.(FindingProposalRecord.proposal_id)
  /\ exists a fs,
    wrote db db' p creation.(FindingCreationDecision.proposal_state) a fs
    /\ a.(ApprovalRecord.approval_id) = fresh 0%nat
    /\ a.(ApprovalRecord.subject_reference) = v.(ApprovalView.subject_reference)
    /\ a.(ApprovalRecord.decision) = ApprovalDecision.value v.(ApprovalView.decision)
    /\ a.(ApprovalRecord.actor_type)
       = ActorType.value cmd.(FinalizeFindingCommand.actor_type)
    /\ res.(FinalizeFindingResult.approval_id) = Some (fresh 0%nat)
    /\ (if creation.(FindingCreationDecision.creates_finding)
        then exists f, fs = [f]
          /\ res.(FinalizeFindingResult.finding_id) = Some f.(FindingRecord.finding_id)
          /\ f.(FindingRecord.finding_proposal_id) = p.(FindingProposalRecord.proposal_id)
          /\ f.(FindingRecord.approval_id) = fresh 0%nat
          /\ f.(FindingRecord.title) = p.(FindingProposalRecord.title)
          /\ f.(FindingRecord.claim) = p.(FindingProposalRecord.claim)
          /\ f.(FindingRecord.evidence_ids) = p.(FindingProposalRecord.evidence_ids)
          /\ f.(FindingRecord.verification_ids) = p.(FindingProposalRecord.verification_ids)
        else fs = [] /\ res.(FinalizeFindingResult.finding_id) = None).
Proof.
  unfold write_decision. cbv zeta. rewrite bind_ok. intros (next & Hn & H).
  rewrite reraise_ok in Hn. pose proof Hn as Hn'. unfold transition_finding_proposal in Hn'.
  apply raise_if_ok in Hn' as [_ [= <-]]. split; [done|].
  apply bind_ok in H as (a & Ha & H). apply validated in Ha as ->.
  apply bind_ok in H as (db1 & H1 & H). apply insert_approval_ok in H1 as ->.
  apply bind_ok in H as (e & _ & H). apply bind_ok in H as (db2 & H2 & H).
  apply insert_audit_ok in H2 as ->. apply bind_ok in H as (db3 & H3 & H).
  apply set_proposal_state_ok in H3 as (p0 & Hp0 & ->). apply bind_ok in H as ([db4 fid] & H4 & H).
  injection H as <- <-. do 2 (split; [done|]).
  destruct (FindingCreationDecision.creates_finding creation).
  - apply bind_ok in H4 as ([db5 id] & H5 & [= <- <-]).
    apply write_finding_ok in H5 as (f & Hf & Hu & -> & Hpid & Haid & Ht & Hcl & Hev & Hver & Hc & Hp & Hr
      & Hap).
    simpl in *. eexists _, [f]. split.
    { constructor; [exact Hc|by exists p0|exact Hr|exact Hap|exact Hf|].
      rewrite Hf. by apply unique_snoc. }
    simpl. do 5 (split; [done|]). by exists f.
  - injection H4 as <- <-. simpl in *. eexists _, [].
    split; [constructor; [done|by exists p0|done|done|by rewrite app_nil_r|done]|]. done.
Qed.

(** ** The invariant is preserved *)

Lemma wrote_extends db db' p s a fs : wrote db db' p s a fs -> extends db db'.
Proof.
  intros [Hc (q & Hq & Hp) Hr Ha Hf _].
  pose proof (set_proposals_extends db _ (FindingProposalState.value s) _ Hq) as [_ P _ _ _].
  constructor; rewrite ?Hr, ?Ha, ?Hf; [|rewrite Hp; exact P|set_solver..].
  intros k c. rewrite Hc. exists c.(CandidateRecord.state). by rewrite candidate_with_state_id.
Qed.

(** Writing a decision keeps the invariant when APPROVED is written only together with a
    finding. *)
Lemma wrote_inv db db' p s a fs :
  inv db -> wrote db db' p s a fs ->
  (s = FindingProposalState.APPROVED -> exists f, f ∈ fs
     /\ f.(FindingRecord.finding_proposal_id) = p.(FindingProposalRecord.proposal_id)) ->
  extends db db' /\ inv db'.
Proof.
  intros I W Happ. pose proof (wrote_extends _ _ _ _ _ _ W) as E.
  split; [done|]. destruct W as [Wc (q & Hq & Wp) Wr Wa Wf Wu].
  apply (inv_extends db); [done|done|..|by apply Wu, I].
  - intros k x. rewrite Wp, lookup_insert_Some. intros [[<- <-]|[_ Hx]]; [|by apply I].
    exact (inv_key _ I _ _ Hq).
  - intros r. rewrite Wr. by left.
  - intros k x. rewrite Wp, lookup_insert_Some. intros [[<- <-]|[_ Hx]] Hs; [right|left; eauto].
    destruct s; try discriminate. destruct Happ as (f & Hf & ?); [done|].
    exists f. rewrite Wf, elem_of_app. auto.
Qed.

Lemma review_for_proposal db id r :
  get_review_for_proposal db id = Ok (Some r) ->
  r ∈ db.(Db.human_reviews) /\ r.(HumanReviewRecord.proposal_id) = id.
Proof.
  unfold get_review_for_proposal. rewrite bind_ok. intros (_ & _ & H).
  apply one_or_none_ok in H. assert (r ∈ [r]) as Hr by left. rewrite <-H in Hr.
  by rewrite elem_of_list_filter_bool, String.eqb_eq in Hr.
Qed.

(** Two databases of one history hold the same proposal up to its state. *)
Lemma extends_fingerprint x y db k p q :
  extends x db -> extends y db -> x.(Db.proposals) !! k = Some p ->
  y.(Db.proposals) !! k = Some q ->
  p.(FindingProposalRecord.content_fingerprint) = q.(FindingProposalRecord.content_fingerprint).
Proof.
  intros Ex Ey Hp Hq. destruct (ex_proposals _ _ Ex _ _ Hp) as (s & H1).
  destruct (ex_proposals _ _ Ey _ _ Hq) as (t & H2). rewrite H1 in H2.
  injection H2. by destruct p, q.
Qed.

(** The finding of a decision stands on what the decision read and wrote. *)
Lemma decision_stands past (seen : nat -> Db.t) db db' p c r a f :
  settled past db -> (forall n, seen n ∈ db :: past) -> extends db db' ->
  (seen 0%nat).(Db.proposals) !! p.(FindingProposalRecord.proposal_id) = Some p ->
  p.(FindingProposalRecord.state) = "HUMAN_REVIEW" ->
  (seen 2%nat).(Db.candidates) !! p.(FindingProposalRecord.candidate_id) = Some c ->
  c.(CandidateRecord.state) = "VALIDATED" ->
  get_review_for_proposal (seen 3%nat) p.(FindingProposalRecord.proposal_id) = Ok (Some r) ->
  r.(HumanReviewRecord.decision) = "APPROVE" ->
  a ∈ db'.(Db.approvals) ->
  a.(ApprovalRecord.approval_id) = f.(FindingRecord.approval_id) ->
  a.(ApprovalRecord.subject_reference)
    = approval_subject_for p.(FindingProposalRecord.proposal_id)
        p.(FindingProposalRecord.content_fingerprint) ->
  a.(ApprovalRecord.decision) = "APPROVE" -> a.(ApprovalRecord.actor_type) = "HUMAN_OPERATOR" ->
  f.(FindingRecord.finding_proposal_id) = p.(FindingProposalRecord.proposal_id) ->
  f.(FindingRecord.title) = p.(FindingProposalRecord.title) ->
  f.(FindingRecord.claim) = p.(FindingProposalRecord.claim) ->
  f.(FindingRecord.evidence_ids) = p.(FindingProposalRecord.evidence_ids) ->
  f.(FindingRecord.verification_ids) = p.(FindingProposalRecord.verification_ids) ->
  stands (db :: past) db' f.
Proof.
  intros S Hseen E Hp Hps Hc Hcs Hr Hrd Ha A1 A2 A3 A4 Fp F1 F2 F3 F4.
  assert (forall n, inv (seen n) /\ extends (seen n) db) as K
    by (intros n; exact (settled_seen _ _ _ S (Hseen n))).
  assert (forall n, extends (seen n) db') as K' by (intros n; etransitivity; [apply K|done]).
  apply review_for_proposal in Hr as [Hr Hrp].
  destruct (inv_review _ (proj1 (K 3%nat)) _ Hr) as (q & Hq & Hrf & Hra). rewrite Hrp in Hq.
  exists p, c, r, a. rewrite Fp. split; [exact (ex_proposals _ _ (K' 0%nat) _ _ Hp)|].
  split; [done|]. split; [by exists (seen 0%nat)|]. do 4 (split; [done|]).
  split; [exact (ex_candidates _ _ (K' 2%nat) _ _ Hc)|]. split; [done|].
  split; [by exists (seen 2%nat)|].
  split; [exact (ex_reviews _ _ (K' 3%nat) _ Hr)|].
  split; [done|]. split; [|done]. rewrite Hrf. symmetry.
  exact (extends_fingerprint _ _ _ _ _ _ (K' 0%nat) (K' 3%nat) Hp Hq).
Qed.

(** A decision that is written: the gate's two outcomes. *)
Lemma decide_proposal_ok past (seen : nat -> Db.t) db fresh now cmd p s db' res :
  settled past db -> (forall n, seen n ∈ db :: past) ->
  (seen 0%nat).(Db.proposals) !! p.(FindingProposalRecord.proposal_id) = Some p ->
  p.(FindingProposalRecord.state) = FindingProposalState.value s ->
  decide_proposal seen db fresh now cmd p s = Ok (db', res) ->
  extends db db' /\ inv db'
  /\ db'.(Db.candidates) = db.(Db.candidates)
  /\ res.(FinalizeFindingResult.proposal_id) = p.(FindingProposalRecord.proposal_id)
  /\ ((res.(FinalizeFindingResult.outcome) = FindingCreationOutcome.CREATED
       /\ cmd.(FinalizeFindingCommand.actor_type) = ActorType.HUMAN_OPERATOR
       /\ exists f, db'.(Db.findings) = db.(Db.findings) ++ [f]
           /\ stands (db :: past) db' f
           /\ f.(FindingRecord.finding_proposal_id) = p.(FindingProposalRecord.proposal_id)
           /\ res.(FinalizeFindingResult.finding_id) = Some f.(FindingRecord.finding_id)
           /\ res.(FinalizeFindingResult.approval_id) = Some f.(FindingRecord.approval_id))
      \/ (res.(FinalizeFindingResult.outcome) = FindingCreationOutcome.REJECTED_PROPOSAL
          /\ res.(FinalizeFindingResult.finding_id) = None
          /\ db'.(Db.findings) = db.(Db.findings))).
Proof.
  intros S Hseen Hp Hps. pose proof (settled_inv _ _ S) as I.
  unfold decide_proposal. cbv zeta. rewrite bind_ok. intros (_ & _ & H).
  apply bind_ok in H as (c & Hc & H). apply found_ok in Hc.
  apply bind_ok in H as (cs & Hcs & H). rewrite reraise_ok in Hcs.
  apply candidate_state_of_value_ok in Hcs.
  apply bind_ok in H as (record & Hrec & H). apply bind_ok in H as (review & Hrev & H).
  apply bind_ok in H as (view & Hview & H). apply bind_ok in H as (ev & Hev & H).
  apply bind_ok in H as (ctx & Hctx & H). apply raise_if_ok in H as [Hout H].
  destruct review as [w|]; [|done]. destruct view as [v|]; [|done].
  apply review_view_some in Hrev as (r & -> & Hrd).
  apply approval_view_some in Hview as (w' & [= <-] & ->).
  apply creation_context_fields in Hctx as (Ecs & Eps & Ehr & Eat). simpl in Ecs, Eps, Ehr, Eat.
  apply write_decision_ok in H as (Htr & Ho & Hid & a & fs & W & Haid & Hsub & Hdec & Hact & Hraid
    & Hfs). simpl in Hsub, Hdec.
  destruct (creation_not_rejected _ Hout) as [(Hcr & Hst & Ho')|(Hcr & Hst & Ho')];
    rewrite Hcr in Hfs; rewrite Hst in W, Htr; rewrite Ho' in Ho; rewrite Hid, Ho.
  2:{ destruct Hfs as [-> Hfid]. destruct (wrote_inv _ _ _ _ _ _ I W) as [E I']; [done|].
      do 2 (split; [done|]). split; [apply W|]. split; [done|]. right. do 2 (split; [done|]).
      by rewrite (wr_findings _ _ _ _ _ _ W), app_nil_r. }
  destruct Hfs as (f & -> & Hfid & Hfp & Hfa & Hft & Hfc & Hfe & Hfv).
  destruct (wrote_inv _ _ _ _ _ _ I W) as [E I'].
  { intros _. exists f. split; [left|done]. }
  do 2 (split; [done|]). split; [apply W|]. split; [done|]. left. split; [done|].
  apply creation_true_iff in Hcr as (Hv & Hs & hr & [H1 H2 H3 H4 H5 H6 H7 H8 H9 H10]).
  rewrite Ehr in H1. injection H1 as <-. specialize (H10 _ Eat). rewrite H5 in Hrd, Hdec.
  assert (cmd.(FinalizeFindingCommand.actor_type) = ActorType.HUMAN_OPERATOR) as Hhuman
    by (by destruct (FinalizeFindingCommand.actor_type cmd)).
  split; [done|]. exists f. split; [by rewrite (wr_findings _ _ _ _ _ _ W)|].
  rewrite Hfa. split; [|done].
  destruct W as [_ _ _ Wa _ _].
  eapply (decision_stands past seen db db' p c r a f); eauto; try congruence.
  - by rewrite Hps, <-Eps, Hs.
  - by rewrite Hcs, <-Ecs, Hv.
  - rewrite Wa, elem_of_app, list_elem_of_singleton. by right.
  - by rewrite Hact, Hhuman.
Qed.

(** ** Steps *)

(** What happens to the tables: a proposal is submitted in PROPOSED, a candidate appears or
    moves along a legal transition of the state somebody read, an audit event is recorded,
    and the three use cases run.  Every read may see any database of [history], the present
    one and those before it.  [late = false] is the world in which no candidate moves on a
    state that changed since it was read. *)
Inductive step (late : bool) (history : list Db.t) (db : Db.t) : Db.t -> Prop :=
  | step_submit r db' :
      r.(FindingProposalRecord.state) = "PROPOSED" -> insert_proposal db r = Ok db' ->
      step late history db db'
  | step_new_candidate k c :
      db.(Db.candidates) !! k = None -> step late history db (Db.set_candidates <[k := c]> db)
  | step_candidate seen k c s t db' :
      seen ∈ history -> seen.(Db.candidates) !! k = Some c ->
      late = true \/ db.(Db.candidates) !! k = Some c ->
      candidate_state_of_value c.(CandidateRecord.state) = Ok s ->
      transition_candidate s t = Ok t ->
      set_candidate_state db k (CandidateState.value t) = Ok db' -> step late history db db'
  | step_audit e db' : insert_audit db e = Ok db' -> step late history db db'
  | step_start_review seen id db' x :
      (forall n, seen n ∈ history) -> start_human_review seen db id = Ok (db', x) ->
      step late history db db'
  | step_record_review seen rid aid now cmd db' x :
      (forall n, seen n ∈ history) -> record_human_review seen db rid aid now cmd = Ok (db', x) ->
      step late history db db'
  | step_finalize seen fresh now cmd db' x :
      (forall n, seen n ∈ history) -> finalize_finding seen db fresh now cmd = Ok (db', x) ->
      step late history db db'.

(** A history: the databases before [db], newest first, and [db] itself, each made from the
    one before it by a step that reads any of those so far. *)
Inductive steps (late : bool) (past0 : list Db.t) (db0 : Db.t) : list Db.t -> Db.t -> Prop :=
  | steps_refl : steps late past0 db0 past0 db0
  | steps_snoc past db db' :
      steps late past0 db0 past db -> step late (db :: past) db db' ->
      steps late past0 db0 (db :: past) db'.

Lemma get_proposal_ok db id p :
  get_proposal db id = Ok (Some p) -> db.(Db.proposals) !! id = Some p.
Proof. unfold get_proposal. rewrite bind_ok. by intros (_ & _ & [= ?]). Qed.

Lemma insert_proposal_inv db r db' :
  inv db -> r.(FindingProposalRecord.state) = "PROPOSED" -> insert_proposal db r = Ok db' ->
  extends db db' /\ inv db'.
Proof.
  intros I Hs. unfold insert_proposal. cbv zeta. rewrite !raise_if_ok.
  intros (Hn & _ & [= <-]). apply orb_false_iff in Hn as [Hn _].
  rewrite bool_decide_eq_false, <-eq_None_not_Some in Hn.
  assert (extends db (Db.set_proposals <[r.(FindingProposalRecord.proposal_id) := r]> db)) as E.
  { constructor; simpl; eauto.
    - intros k c Hc. exists c.(CandidateRecord.state). by rewrite candidate_with_state_id.
    - intros k q Hq. exists q.(FindingProposalRecord.state).
      rewrite lookup_insert_ne by congruence. by rewrite with_state_id. }
  split; [done|]. apply (inv_extends db); [done|done|simpl..|apply I].
  - intros k p. rewrite lookup_insert_Some. intros [[<- <-]|[_ Hp]]; [done|by apply I].
  - by left.
  - intros k p. rewrite lookup_insert_Some. intros [[<- <-]|[_ Hp]] Hp'; [congruence|left; eauto].
Qed.

Lemma set_candidates_inv db k c :
  inv db ->
  (forall c0, db.(Db.candidates) !! k = Some c0 ->
     exists s, c = candidate_with_state s c0) ->
  extends db (Db.set_candidates <[k := c]> db) /\ inv (Db.set_candidates <[k := c]> db).
Proof.
  intros I Hc. assert (extends db (Db.set_candidates <[k := c]> db)) as E.
  { constructor; simpl; eauto.
    - intros j d Hd. destruct (decide (j = k)) as [->|].
      + destruct (Hc d Hd) as [s ->]. exists s. by rewrite lookup_insert_eq.
      + exists d.(CandidateRecord.state). by rewrite lookup_insert_ne, candidate_with_state_id.
    - intros j p Hp. exists p.(FindingProposalRecord.state). by rewrite with_state_id. }
  split; [done|].
  apply (inv_extends db); simpl; [done|done|apply I|by left|eauto|apply I].
Qed.

Lemma start_human_review_ok (seen : nat -> Db.t) db id db' x :
  inv (seen 0%nat) -> start_human_review seen db id = Ok (db', x) ->
  exists p s, db.(Db.proposals) !! id = Some p /\ s <> "APPROVED"
    /\ db' = Db.set_proposals <[id := with_state s p]> db.
Proof.
  intros I. unfold start_human_review. rewrite bind_ok. intros (o & Ho & H).
  apply bind_ok in H as (p & Hp & H). apply found_ok in Hp as ->. apply get_proposal_ok in Ho.
  apply bind_ok in H as (n & Hn & H). rewrite reraise_ok in Hn.
  apply bind_ok in Hn as (s & Hs & Hn).
  apply bind_ok in H as (db1 & H1 & [= <- _]).
  apply set_proposal_state_ok in H1 as (q & Hq & ->). rewrite (inv_key _ I _ _ Ho) in *.
  exists q, (FindingProposalState.value n). split; [done|]. split; [|done].
  destruct s; vm_compute in Hn; try discriminate; injection Hn as <-; discriminate.
Qed.

Lemma start_human_review_inv (seen : nat -> Db.t) db id db' x :
  inv db -> inv (seen 0%nat) -> start_human_review seen db id = Ok (db', x) ->
  extends db db' /\ inv db'.
Proof.
  intros I Is H. apply start_human_review_ok in H as (p & s & Hp & Hs & ->); [|done].
  pose proof (set_proposals_extends db id s p Hp) as E.
  split; [done|]. apply (inv_extends db); [done|done|simpl..|apply I].
  - intros k r. rewrite lookup_insert_Some.
    intros [[<- <-]|[_ Hr]]; [exact (inv_key _ I _ _ Hp)|exact (inv_key _ I _ _ Hr)].
  - by left.
  - intros k r. rewrite lookup_insert_Some. intros [[<- <-]|[_ Hr]] Hr'; [done|left; eauto].
Qed.

Lemma review_view_actor x y :
  HumanReviewView.post_init x = Ok y ->
  require_text x.(HumanReviewView.actor_type) = Ok y.(HumanReviewView.actor_type).
Proof.
  unfold HumanReviewView.post_init. intros H.
  repeat (apply bind_ok in H as (? & ? & H)). by injection H as <-.
Qed.

Lemma record_human_review_inv past (seen : nat -> Db.t) db rid aid now cmd db' x :
  settled past db -> (forall n, seen n ∈ db :: past) ->
  record_human_review seen db rid aid now cmd = Ok (db', x) ->
  extends db db' /\ inv db' /\ db'.(Db.findings) = db.(Db.findings)
  /\ db'.(Db.candidates) = db.(Db.candidates).
Proof.
  intros S Hseen. destruct (settled_seen _ _ _ S (Hseen 0%nat)) as [Is Es].
  pose proof (settled_inv _ _ S) as I.
  unfold record_human_review. cbv zeta. rewrite bind_ok. intros (o & Ho & H).
  apply bind_ok in H as (p & Hp & H). apply found_ok in Hp as ->. apply get_proposal_ok in Ho.
  apply raise_if_ok in H as [_ H]. apply bind_ok in H as (existing & _ & H).
  destruct existing as [r|].
  { peel H. injection H as <- _. done. }
  apply bind_ok in H as (v & Hv & H). apply bind_ok in H as ([] & Ha & H). rewrite reraise_ok in Ha.
  apply bind_ok in H as (r & Hr & H). apply validated in Hr as ->.
  apply bind_ok in H as (db1 & H1 & H). rewrite reraise_ok in H1. apply insert_review_ok in H1 as ->.
  apply bind_ok in H as (e & _ & H). apply bind_ok in H as (db2 & H2 & H).
  apply insert_audit_ok in H2 as ->. injection H as <- _.
  set (r := HumanReviewRecord.mk _ _ _ _ _ _ _ _ _).
  match goal with |- extends db ?d /\ _ => assert (extends db d) as E end.
  { apply extends_same; simpl; try done. set_solver. }
  split; [done|]. split; [|done]. apply (inv_extends db); [done|done|simpl..|apply I].
  - apply I.
  - intros q. rewrite elem_of_app, list_elem_of_singleton. intros [?| ->]; [by left|right].
    destruct (ex_proposals _ _ Es _ _ Ho) as (s & Hs). exists (with_state s p). simpl.
    rewrite (inv_key _ Is _ _ Ho). split; [done|]. split; [done|].
    unfold admit_human_review in Ha. rewrite !raise_if_ok, negb_false_iff, String.eqb_eq in Ha.
    destruct Ha as (_ & _ & Ha & _). apply negb_false_iff, String.eqb_eq in Ha.
    apply review_view_actor in Hv. rewrite Ha in Hv. simpl in Hv.
    by destruct (RecordHumanReviewCommand.actor_type cmd).
  - eauto.
Qed.

Lemma finding_for_proposal db id f :
  get_finding_by_proposal db id = Ok (Some f) ->
  f ∈ db.(Db.findings) /\ f.(FindingRecord.finding_proposal_id) = id.
Proof.
  unfold get_finding_by_proposal. rewrite bind_ok. intros (_ & _ & H).
  apply one_or_none_ok in H. assert (f ∈ [f]) as Hf by left. rewrite <-H in Hf.
  by rewrite elem_of_list_filter_bool, String.eqb_eq in Hf.
Qed.

(** The three ways [finalize_finding] returns. *)
Lemma finalize_finding_ok past (seen : nat -> Db.t) db fresh now cmd db' res :
  settled past db -> (forall n, seen n ∈ db :: past) ->
  finalize_finding seen db fresh now cmd = Ok (db', res) ->
  let id := cmd.(FinalizeFindingCommand.proposal_id) in
  res.(FinalizeFindingResult.proposal_id) = id
  /\ ((exists f, db' = db /\ f ∈ (seen 1%nat).(Db.findings)
          /\ f.(FindingRecord.finding_proposal_id) = id
          /\ res.(FinalizeFindingResult.outcome) = FindingCreationOutcome.CREATED
          /\ res.(FinalizeFindingResult.finding_id) = Some f.(FindingRecord.finding_id)
          /\ res.(FinalizeFindingResult.approval_id) = Some f.(FindingRecord.approval_id))
      \/ (db' = db /\ res.(FinalizeFindingResult.outcome) = FindingCreationOutcome.REJECTED_PROPOSAL
          /\ res.(FinalizeFindingResult.finding_id) = None)
      \/ (exists p s, (seen 0%nat).(Db.proposals) !! p.(FindingProposalRecord.proposal_id) = Some p
          /\ p.(FindingProposalRecord.proposal_id) = id
          /\ p.(FindingProposalRecord.state) = FindingProposalState.value s
          /\ decide_proposal seen db fresh now cmd p s = Ok (db', res))).
Proof.
  intros S Hseen H id. destruct (settled_seen _ _ _ S (Hseen 0%nat)) as [Is _].
  unfold finalize_finding in H. cbv zeta in H. apply bind_ok in H as (o & Ho & H).
  apply bind_ok in H as (p & Hp & H). apply found_ok in Hp as ->. apply get_proposal_ok in Ho.
  pose proof (inv_key _ Is _ _ Ho) as Hk. rewrite Hk in H.
  apply bind_ok in H as (existing & He & H). destruct existing as [f|].
  { injection H as <- <-. simpl. split; [done|]. left. exists f.
    apply finding_for_proposal in He. tauto. }
  apply bind_ok in H as (s & Hs & H). rewrite reraise_ok in Hs.
  assert (s = FindingProposalState.REJECTED \/ decide_proposal seen db fresh now cmd p s = Ok (db', res))
    as [->|Hd] by (destruct s; naive_solver).
  { apply bind_ok in H as (a & _ & [= <- <-]). simpl. split; [done|]. right. by left. }
  apply proposal_state_of_value in Hs. rewrite <-Hk in Ho.
  pose proof (decide_proposal_ok _ _ _ _ _ _ _ _ _ _ S Hseen Ho Hs Hd) as (_ & _ & _ & Hid & _).
  split; [by rewrite Hid|]. right. right. by exists p, s.
Qed.

Lemma finalize_finding_inv past (seen : nat -> Db.t) db fresh now cmd db' res :
  settled past db -> (forall n, seen n ∈ db :: past) ->
  finalize_finding seen db fresh now cmd = Ok (db', res) ->
  extends db db' /\ inv db' /\ db'.(Db.candidates) = db.(Db.candidates)
  /\ forall f, f ∈ db'.(Db.findings) -> f ∈ db.(Db.findings) \/ stands (db :: past) db' f.
Proof.
  intros S Hseen H. pose proof (settled_inv _ _ S) as I.
  destruct (finalize_finding_ok _ _ _ _ _ _ _ _ S Hseen H)
    as (_ & [(f & -> & _)|[(-> & _)|(p & s & Hp & _ & Hs & Hd)]]);
    [do 3 (split; [done|]); by left..|].
  destruct (decide_proposal_ok _ _ _ _ _ _ _ _ _ _ S Hseen Hp Hs Hd) as (E & I' & Hc & _
    & [(_ & _ & f & Hf & St & _)|(_ & _ & Hf)]); do 3 (split; [done|]); intros g; rewrite Hf.
  - rewrite elem_of_app, list_elem_of_singleton. intros [?| ->]; [by left|by right].
  - by left.
Qed.

Definition keeps_validated (db db' : Db.t) : Prop :=
  forall k c, db.(Db.candidates) !! k = Some c -> c.(CandidateRecord.state) = "VALIDATED" ->
  exists c', db'.(Db.candidates) !! k = Some c' /\ c'.(CandidateRecord.state) = "VALIDATED".

Lemma same_validated db db' :
  db'.(Db.candidates) = db.(Db.candidates) -> keeps_validated db db'.
Proof. intros E k c Hc Hs. exists c. by rewrite E. Qed.

(** A candidate that moves on the state it still has never leaves VALIDATED. *)
Lemma candidate_move_validated db k c s t :
  db.(Db.candidates) !! k = Some c -> c.(CandidateRecord.state) = CandidateState.value s ->
  transition_candidate s t = Ok t ->
  keeps_validated db
    (Db.set_candidates <[k := candidate_with_state (CandidateState.value t) c]> db).
Proof.
  intros Hc Hs Ht j d Hd Hv. simpl. destruct (decide (j = k)) as [->|].
  - rewrite lookup_insert_eq. eexists. split; [done|]. simpl. rewrite Hd in Hc.
    injection Hc as ->. rewrite Hs in Hv. assert (s = CandidateState.VALIDATED) as -> by (by destruct s).
    by destruct t.
  - exists d. by rewrite lookup_insert_ne.
Qed.

Lemma step_inv late past db db' :
  settled past db -> step late (db :: past) db db' ->
  extends db db' /\ inv db' /\ (late = false -> keeps_validated db db')
  /\ forall f, f ∈ db'.(Db.findings) -> f ∈ db.(Db.findings) \/ stands (db :: past) db' f.
Proof.
  intros S H. pose proof (settled_inv _ _ S) as I.
  destruct H as [r db' Hs H|k c Hn|seen k c s t db' Hin Hc Hl Hs Ht H|e db' H
    |seen id db' x Hseen H|seen rid aid now cmd db' x Hseen H|seen fresh now cmd db' x Hseen H].
  - destruct (insert_proposal_inv _ _ _ I Hs H) as [E I']. do 2 (split; [done|]).
    unfold insert_proposal in H. cbv zeta in H. rewrite !raise_if_ok in H.
    destruct H as (_ & _ & [= <-]). split; [by intros _; apply same_validated|by left].
  - destruct (set_candidates_inv db k c I) as [E I']; [intros c0 Hc0; congruence|].
    do 2 (split; [done|]). split; [|by left]. intros _ j d Hd Hv. exists d. simpl.
    rewrite lookup_insert_ne by congruence. done.
  - apply set_candidate_state_ok in H as (d & Hd & ->). apply candidate_state_of_value_ok in Hs.
    destruct (set_candidates_inv db k (candidate_with_state (CandidateState.value t) d) I)
      as [E I']; [intros c0 Hc0; rewrite Hd in Hc0; injection Hc0 as <-; by eexists|].
    do 2 (split; [done|]). split; [|by left]. intros ->. destruct Hl as [?|Hl]; [done|].
    rewrite Hd in Hl. injection Hl as ->. by eapply candidate_move_validated.
  - apply insert_audit_ok in H as ->. assert (extends db (Db.mk db.(Db.runs) db.(Db.candidates)
      db.(Db.proposals) db.(Db.human_reviews) db.(Db.approvals) db.(Db.findings)
      (db.(Db.audit_events) ++ [e]))) as E by (by apply extends_same).
    split; [done|]. split; [|split; [by intros _; apply same_validated|by left]].
    apply (inv_extends db); simpl; [done|done|apply I|by left|eauto|apply I].
  - destruct (settled_seen _ _ _ S (Hseen 0%nat)) as [Is _].
    destruct (start_human_review_inv _ _ _ _ _ I Is H) as [E I']. do 2 (split; [done|]).
    apply start_human_review_ok in H as (p & s & _ & _ & ->); [|done].
    split; [by intros _; apply same_validated|by left].
  - destruct (record_human_review_inv _ _ _ _ _ _ _ _ _ S Hseen H) as (E & I' & -> & Hc).
    do 2 (split; [done|]). split; [by intros _; apply same_validated|by left].
  - destruct (finalize_finding_inv _ _ _ _ _ _ _ _ S Hseen H) as (E & I' & Hc & Hf).
    do 2 (split; [done|]). split; [by intros _; apply same_validated|done].
Qed.

Lemma keeps_validated_trans a b c :
  keeps_validated a b -> keeps_validated b c -> keeps_validated a c.
Proof. intros Hab Hbc k x Hx Hs. destruct (Hab _ _ Hx Hs) as (y & ? & ?). eauto. Qed.

(** A database whose findings all stand on its history. *)
Definition founded (past : list Db.t) (db : Db.t) : Prop :=
  forall f, f ∈ db.(Db.findings) -> stands (db :: past) db f.

Lemma steps_inv late past db past' db' :
  steps late past db past' db' -> settled past db ->
  extends db db' /\ settled past' db' /\ (late = false -> keeps_validated db db')
  /\ (founded past db -> founded past' db').
Proof.
  induction 1 as [|past' db1 db2 _ IH H]; intros S.
  { split; [done|]. split; [done|]. split; [by intros _ k c ? ?; exists c|done]. }
  destruct (IH S) as (E & S' & V & F). destruct (step_inv _ _ _ _ S' H) as (E' & I' & V' & F').
  split; [by etransitivity|]. split; [by apply settled_cons|].
  split; [intros Hl; eapply keeps_validated_trans; eauto|].
  intros Hf f Hin. destruct (F' f Hin) as [Hin'|St].
  - eapply stands_extends; [exact E'| |by apply (F Hf)]. intros x Hx. by right.
  - eapply stands_extends; [reflexivity| |exact St]. intros x Hx. by right.
Qed.

(** ** Theorems *)

(** Where the workflow starts: nothing proposed, reviewed, approved or found yet. *)
Definition fresh_start (db : Db.t) : Prop :=
  db.(Db.proposals) = ∅ /\ db.(Db.human_reviews) = [] /\ db.(Db.approvals) = []
  /\ db.(Db.findings) = [].

Lemma fresh_start_inv db : fresh_start db -> inv db.
Proof.
  intros (Hp & Hr & _ & Hf). constructor; rewrite ?Hp, ?Hr, ?Hf; [set_solver..|constructor].
Qed.

Lemma fresh_start_settled db : fresh_start db -> settled [] db /\ founded [] db.
Proof.
  intros H. split; [split; [by apply fresh_start_inv|set_solver]|].
  intros f. destruct H as (_ & _ & _ & ->). set_solver.
Qed.

Lemma finding_of_proposal db f :
  inv db -> f ∈ db.(Db.findings) ->
  List.filter (fun g => (g.(FindingRecord.finding_proposal_id)
                         =? f.(FindingRecord.finding_proposal_id))%string) db.(Db.findings) = [f].
Proof.
  intros I. pose proof (inv_unique _ I) as U. revert U. clear I.
  induction db.(Db.findings) as [|g l IH]; [set_solver|]. simpl.
  rewrite NoDup_cons. intros [Hg U] [->|Hf]%elem_of_cons.
  - rewrite String.eqb_refl. f_equal. apply filter_nil_bool. intros x Hx.
    apply String.eqb_neq. intros E. apply Hg. rewrite <-E. apply list_elem_of_fmap. eauto.
  - destruct (String.eqb_spec g.(FindingRecord.finding_proposal_id)
      f.(FindingRecord.finding_proposal_id)) as [E|]; [|by apply IH].
    destruct Hg. rewrite E. apply list_elem_of_fmap. eauto.
Qed.

Lemma steps_steady db0 past db x :
  settled [] db0 -> steps false [] db0 past db -> x ∈ db :: past -> keeps_validated x db.
Proof.
  intros S H. induction H as [|past db1 db2 H1 IH H2].
  - intros ->%list_elem_of_singleton. by intros k c ? ?; exists c.
  - destruct (steps_inv _ _ _ _ _ H1 S) as (_ & S1 & _).
    destruct (step_inv _ _ _ _ S1 H2) as (_ & _ & V & _).
    intros [->|Hx]%elem_of_cons; [by intros k c ? ?; exists c|].
    eapply keeps_validated_trans; [by apply IH|by apply V].
Qed.

Lemma validated_for_good db0 past db f :
  settled [] db0 -> steps false [] db0 past db -> stands (db :: past) db f ->
  exists p c, db.(Db.proposals) !! f.(FindingRecord.finding_proposal_id) = Some p
    /\ db.(Db.candidates) !! p.(FindingProposalRecord.candidate_id) = Some c
    /\ c.(CandidateRecord.state) = "VALIDATED".
Proof.
  intros S H (p & c & r & a & (s & Hp) & _ & _ & _ & _ & _ & _ & _ & Hcs & (x & Hx & Hc) & _).
  destruct (steps_steady _ _ _ _ S H Hx _ _ Hc Hcs) as (c' & Hc' & Hv).
  by exists (with_state s p), c'.
Qed.

Lemma created_finding past (seen : nat -> Db.t) db fresh now cmd db' res db2 :
  settled past db -> (forall n, seen n ∈ db :: past) ->
  finalize_finding seen db fresh now cmd = Ok (db', res) ->
  res.(FinalizeFindingResult.outcome) = FindingCreationOutcome.CREATED -> extends db' db2 ->
  exists f, f ∈ db'.(Db.findings)
    /\ f.(FindingRecord.finding_proposal_id) = cmd.(FinalizeFindingCommand.proposal_id)
    /\ res.(FinalizeFindingResult.finding_id) = Some f.(FindingRecord.finding_id)
    /\ res.(FinalizeFindingResult.approval_id) = Some f.(FindingRecord.approval_id)
    /\ exists p, db2.(Db.proposals) !! cmd.(FinalizeFindingCommand.proposal_id) = Some p.
Proof.
  intros S Hseen H Ho E2. destruct (finalize_finding_inv _ _ _ _ _ _ _ _ S Hseen H) as (E & _).
  assert (exists p, db2.(Db.proposals) !! cmd.(FinalizeFindingCommand.proposal_id) = Some p) as Hp.
  { pose proof H as H'. unfold finalize_finding in H'. apply bind_ok in H' as (o & Hr & H').
    apply bind_ok in H' as (p & ->%found_ok & _). apply get_proposal_ok in Hr.
    destruct (settled_seen _ _ _ S (Hseen 0%nat)) as [_ Es].
    assert (extends (seen 0%nat) db2) as Ex by (etransitivity; [exact Es|by etransitivity]).
    destruct (ex_proposals _ _ Ex _ _ Hr) as (s & ?). eauto. }
  destruct (finalize_finding_ok _ _ _ _ _ _ _ _ S Hseen H)
    as (_ & [(f & -> & Hf & Hfp & _ & Hfid & Haid)|[(_ & Ho' & _)|(p & s & Hp0 & Hk & Hs & Hd)]]).
  - exists f. split; [|done]. by apply (settled_seen _ _ _ S (Hseen 1%nat)).
  - congruence.
  - destruct (decide_proposal_ok _ _ _ _ _ _ _ _ _ _ S Hseen Hp0 Hs Hd) as (_ & _ & _ & _
      & [(_ & _ & f & Hf & _ & Hfp & Hfid & Haid)|(Ho' & _)]); [|congruence].
    exists f. rewrite Hf, elem_of_app, list_elem_of_singleton. rewrite Hfp, Hk. auto.
Qed.

(** C3. Whatever the order in which proposals are submitted, reviewed and finalized, and
    however old the rows the use cases read (any database of the history, candidates moved on
    stale reads included): every finding in the database stands on a stored proposal of the
    same content, on a human operator's stored APPROVE review of that content and on a
    recorded APPROVE of a human operator for that very subject, and the history has a database
    with that proposal under HUMAN_REVIEW and one with its candidate VALIDATED.  An APPROVED
    proposal always has its finding, a proposal has at most one, and no row or content is ever
    lost.  When no candidate moves on a state that changed since it was read, the candidate
    of a finding is VALIDATED for good. *)
Theorem findings_stand_on_human_approval late db0 past db past' db' :
  fresh_start db0 -> steps late [] db0 past db -> steps late past db past' db' ->
  (forall f, f ∈ db.(Db.findings) ->
     stands (db :: past) db f /\ f ∈ db'.(Db.findings) /\ stands (db' :: past') db' f
     /\ (late = false -> exists p c,
           db.(Db.proposals) !! f.(FindingRecord.finding_proposal_id) = Some p
           /\ db.(Db.candidates) !! p.(FindingProposalRecord.candidate_id) = Some c
           /\ c.(CandidateRecord.state) = "VALIDATED"))
  /\ (forall k p, db.(Db.proposals) !! k = Some p ->
       p.(FindingProposalRecord.state) = "APPROVED" ->
       exists f, f ∈ db.(Db.findings) /\ f.(FindingRecord.finding_proposal_id) = k)
  /\ NoDup (FindingRecord.finding_proposal_id <$> db.(Db.findings))
  /\ extends db db'.
Proof.
  intros H0 H1 H2. destruct (fresh_start_settled _ H0) as [S0 F0].
  destruct (steps_inv _ _ _ _ _ H1 S0) as (_ & S & _ & F). specialize (F F0).
  destruct (steps_inv _ _ _ _ _ H2 S) as (E & S' & _ & F'). specialize (F' F).
  split; [|split; [by apply inv_approved, (settled_inv _ _ S)|split; [apply (settled_inv _ _ S)|done]]].
  intros f Hf. assert (f ∈ db'.(Db.findings)) as Hf' by (by apply E).
  split; [by apply F|]. split; [done|]. split; [by apply F'|].
  intros ->. exact (validated_for_good _ _ _ _ S0 H1 (F f Hf)).
Qed.

(** Finalizing is idempotent: once a call has created (or found) the finding of a
    proposal, every later call that reads the database as it is then, by whoever and with
    whatever ids, leaves it as it is and returns the same finding and approval. *)
Theorem finalize_is_idempotent late db0 past db seen fresh now cmd db' res past2 db2 fresh' now'
    cmd' :
  fresh_start db0 -> steps late [] db0 past db -> (forall n, seen n ∈ db :: past) ->
  finalize_finding seen db fresh now cmd = Ok (db', res) ->
  res.(FinalizeFindingResult.outcome) = FindingCreationOutcome.CREATED ->
  steps late (db :: past) db' past2 db2 ->
  cmd'.(FinalizeFindingCommand.proposal_id) = cmd.(FinalizeFindingCommand.proposal_id) ->
  exists res', finalize_finding (fun _ => db2) db2 fresh' now' cmd' = Ok (db2, res')
    /\ res'.(FinalizeFindingResult.outcome) = FindingCreationOutcome.CREATED
    /\ res'.(FinalizeFindingResult.finding_id) = res.(FinalizeFindingResult.finding_id)
    /\ res'.(FinalizeFindingResult.approval_id) = res.(FinalizeFindingResult.approval_id).
Proof.
  intros H0 H1 Hseen H Ho H2 Hcmd. destruct (fresh_start_settled _ H0) as [S0 _].
  destruct (steps_inv _ _ _ _ _ H1 S0) as (_ & S & _).
  destruct (finalize_finding_inv _ _ _ _ _ _ _ _ S Hseen H) as (E & I' & _).
  destruct (steps_inv _ _ _ _ _ H2 (settled_cons _ _ _ S E I')) as (E2 & S2 & _).
  pose proof (settled_inv _ _ S2) as I2.
  destruct (created_finding _ _ _ _ _ _ _ _ _ S Hseen H Ho E2)
    as (f & Hf & Hfp & Hfid & Haid & q & Hq).
  apply E2 in Hf. unfold finalize_finding, get_proposal. rewrite Hcmd.
  assert (exists y, data_opaque_id cmd.(FinalizeFindingCommand.proposal_id) = Ok y) as [y Hid].
  { unfold finalize_finding, get_proposal in H. apply bind_ok in H as (o & (y & ? & _)%bind_ok & _).
    by exists y. }
  rewrite Hid. cbn [mbind result_bind]. rewrite Hq. cbn [mbind result_bind found].
  rewrite (inv_key _ I2 _ _ Hq). unfold get_finding_by_proposal. rewrite Hid, <-Hfp.
  cbn [mbind result_bind]. rewrite (finding_of_proposal _ _ I2 Hf). cbn [one_or_none mbind result_bind].
  eexists. split; [reflexivity|]. simpl. by rewrite Hfid, Haid.
Qed.

Lemma creation_needs_human c :
  finalization_rejected (evaluate_finding_creation c).(FindingCreationDecision.outcome) = false ->
  non_human c.(FindingCreationContext.approval_actor_type) = false.
Proof.
  unfold evaluate_finding_creation. intros H.
  do 2 (destruct (bool_decide _) in H; [|done]; cbn [negb] in H).
  destruct (FindingCreationContext.human_review c); [|done].
  destruct (non_human _); [|done]. by rewrite orb_true_r in H.
Qed.

(** Only a human operator changes anything by finalizing: for every other actor type a
    finalization raises or reports an earlier decision, and the database is unchanged. *)
Theorem only_humans_finalize seen db fresh now cmd db' res :
  finalize_finding seen db fresh now cmd = Ok (db', res) ->
  cmd.(FinalizeFindingCommand.actor_type) <> ActorType.HUMAN_OPERATOR -> db' = db.
Proof.
  intros H Hn. unfold finalize_finding in H. cbv zeta in H.
  apply bind_ok in H as (o & _ & H). apply bind_ok in H as (p & _ & H).
  apply bind_ok in H as (e & _ & H). destruct e as [f|]; [by injection H as <- _|].
  apply bind_ok in H as (s & _ & H).
  assert (db' = db \/ decide_proposal seen db fresh now cmd p s = Ok (db', res)) as [?|Hd]; [|done|].
  { destruct s; auto; [done|]. apply bind_ok in H as (a & _ & [= <- _]). by left. }
  clear H. exfalso. unfold decide_proposal in Hd. cbv zeta in Hd.
  apply bind_ok in Hd as (? & _ & Hd). apply bind_ok in Hd as (c & _ & Hd).
  apply bind_ok in Hd as (cs & _ & Hd). apply bind_ok in Hd as (r & _ & Hd).
  apply bind_ok in Hd as (w & _ & Hd). apply bind_ok in Hd as (v & _ & Hd).
  apply bind_ok in Hd as (ev & _ & Hd). apply bind_ok in Hd as (ctx & Hctx & Hd).
  apply raise_if_ok in Hd as [Hout _]. apply creation_needs_human in Hout.
  apply creation_context_fields in Hctx as (_ & _ & _ & Ha). rewrite Ha in Hout. simpl in Hout.
  by destruct (FinalizeFindingCommand.actor_type cmd).
Qed.

(** ** A run of the workflow *)

Definition sample_candidate : CandidateRecord.t :=
  CandidateRecord.mk "cand" "run" "hyp" HTTP_STATE_TRANSITION_CLAIM
    HTTP_STATE_TRANSITION_CLASSIFICATION "VALIDATED" ["ev"] 0 "adm".

Definition sample_proposal : FindingProposalRecord.t :=
  FindingProposalRecord.mk "prop" "cand" "run" HTTP_STATE_TRANSITION_FINDING_TITLE
    HTTP_STATE_TRANSITION_CANDIDATE_CLAIM HTTP_STATE_TRANSITION_FINDING_CLASSIFICATION "PROPOSED"
    ["ev"] ["ver"] "fp" 0 [].

Definition sample_start : Db.t := Db.mk {["run"]} {["cand" := sample_candidate]} ∅ [] [] [] [].

Definition sample_clock (n : nat) : Z := Z.of_nat n.
Definition sample_ids (n : nat) : string :=
  match n with 0%nat => "approval" | 1%nat => "audit-2" | 2%nat => "finding" | _ => "audit-3" end.

Definition sample_review : RecordHumanReviewCommand.t :=
  RecordHumanReviewCommand.mk "prop" "alice" ActorType.HUMAN_OPERATOR HumanReviewDecision.APPROVE
    ["HUMAN_REVIEW_RECORDED"] None.

Definition sample_finalize : FinalizeFindingCommand.t :=
  FinalizeFindingCommand.mk "prop" "alice" ActorType.HUMAN_OPERATOR.

Definition or_start (r : result Db.t) : Db.t := match r with Ok db => db | Raise _ => sample_start end.
Definition sample_submitted : Db.t := or_start (insert_proposal sample_start sample_proposal).

(** Every read sees the present database. *)
Definition now_at (db : Db.t) : nat -> Db.t := fun _ => db.

Definition sample_in_review : Db.t :=
  or_start (fst <$> start_human_review (now_at sample_submitted) sample_submitted "prop").
Definition sample_reviewed : Db.t :=
  or_start (fst <$> record_human_review (now_at sample_in_review) sample_in_review "review" "audit-1"
                      sample_clock sample_review).

(** The databases before [sample_reviewed]. *)
Definition sample_past : list Db.t := [sample_in_review; sample_submitted; sample_start].

Lemma sample_steps late : steps late [] sample_start sample_past sample_reviewed.
Proof.
  apply (steps_snoc _ _ _ [sample_submitted; sample_start] sample_in_review).
  - apply (steps_snoc _ _ _ [sample_start] sample_submitted).
    + apply (steps_snoc _ _ _ [] sample_start); [constructor|].
      apply (step_submit _ _ _ sample_proposal); reflexivity.
    + apply (step_start_review _ _ _ (now_at sample_submitted) "prop" _
        ("prop", FindingProposalState.HUMAN_REVIEW)); [left|]. vm_compute. reflexivity.
  - apply (step_record_review _ _ _ (now_at sample_in_review) "review" "audit-1" sample_clock
      sample_review _ (RecordHumanReviewResult.mk "review" "prop" HumanReviewDecision.APPROVE));
      [left|]. vm_compute. reflexivity.
Qed.

Definition sample_finalized : Db.t * FinalizeFindingResult.t :=
  match finalize_finding (now_at sample_reviewed) sample_reviewed sample_ids sample_clock
          sample_finalize with
  | Ok x => x
  | Raise _ => (sample_start, FinalizeFindingResult.mk FindingCreationOutcome.REJECTED_PROPOSAL ""
                  FindingProposalState.REJECTED None None [])
  end.

Lemma sample_finalize_ok :
  finalize_finding (now_at sample_reviewed) sample_reviewed sample_ids sample_clock sample_finalize
  = Ok sample_finalized.
Proof. vm_compute. reflexivity. Qed.

Lemma sample_all_steps late :
  steps late [] sample_start (sample_reviewed :: sample_past) sample_finalized.1.
Proof.
  apply (steps_snoc _ _ _ sample_past sample_reviewed); [apply sample_steps|].
  apply (step_finalize _ _ _ (now_at sample_reviewed) sample_ids sample_clock sample_finalize _
    sample_finalized.2); [left|]. rewrite sample_finalize_ok. by destruct sample_finalized.
Qed.

Lemma sample_fresh_start : fresh_start sample_start.
Proof. done. Qed.

(** Starting a review on an old read reopens a decided proposal: it was PROPOSED when it was
    read and is APPROVED, with its finding, when HUMAN_REVIEW is written. *)
Definition sample_reopened : Db.t :=
  or_start (fst <$> start_human_review (now_at sample_submitted) sample_finalized.1 "prop").

Example late_review_reopens_an_approved_proposal :
  steps false [] sample_start (sample_finalized.1 :: sample_reviewed :: sample_past) sample_reopened
  /\ FindingProposalRecord.state <$> sample_finalized.1.(Db.proposals) !! "prop" = Some "APPROVED"
  /\ FindingProposalRecord.state <$> sample_reopened.(Db.proposals) !! "prop" = Some "HUMAN_REVIEW"
  /\ FindingRecord.finding_id <$> sample_reopened.(Db.findings) = ["finding"].
Proof.
  split; [|by vm_compute]. apply steps_snoc; [apply sample_all_steps|].
  apply (step_start_review _ _ _ (now_at sample_submitted) "prop" _
    ("prop", FindingProposalState.HUMAN_REVIEW)).
  - intros n. do 3 right. left.
  - vm_compute. reflexivity.
Qed.

Lemma findings_stand_on_human_approval_witness :
  exists f, f ∈ sample_reopened.(Db.findings)
    /\ stands (sample_reopened :: sample_finalized.1 :: sample_reviewed :: sample_past)
         sample_reopened f.
Proof.
  destruct (findings_stand_on_human_approval false sample_start
    (sample_finalized.1 :: sample_reviewed :: sample_past) sample_reopened
    (sample_finalized.1 :: sample_reviewed :: sample_past) sample_reopened
    sample_fresh_start) as [Hs _].
  - apply late_review_reopens_an_approved_proposal.
  - constructor.
  - exists (default (FindingRecord.mk "" "" "" "" "" "" "" "" "" [] [] 0)
      (head sample_reopened.(Db.findings))). split; [left|]. apply Hs. left.
Defined.

Lemma finalize_is_idempotent_witness :
  exists res', finalize_finding (fun _ => sample_reopened) sample_reopened sample_ids sample_clock
      sample_finalize = Ok (sample_reopened, res')
    /\ res'.(FinalizeFindingResult.finding_id) = Some "finding".
Proof.
  destruct (finalize_is_idempotent false sample_start sample_past sample_reviewed
    (now_at sample_reviewed) sample_ids sample_clock sample_finalize sample_finalized.1
    sample_finalized.2 (sample_finalized.1 :: sample_reviewed :: sample_past) sample_reopened
    sample_ids sample_clock sample_finalize sample_fresh_start (sample_steps false))
    as (res' & H & _ & Hf & _).
  - left.
  - rewrite sample_finalize_ok. by destruct sample_finalized.
  - vm_compute. reflexivity.
  - apply (steps_snoc _ _ _ (sample_reviewed :: sample_past) sample_finalized.1); [constructor|].
    apply (step_start_review _ _ _ (now_at sample_submitted) "prop" _
      ("prop", FindingProposalState.HUMAN_REVIEW)).
    + intros n. do 3 right. left.
    + vm_compute. reflexivity.
  - reflexivity.
  - exists res'. split; [exact H|]. rewrite Hf. vm_compute. reflexivity.
Defined.

Lemma only_humans_finalize_witness :
  sample_finalized.1 = sample_finalized.1.
Proof.
  refine (only_humans_finalize (now_at sample_finalized.1) sample_finalized.1 sample_ids sample_clock
    (FinalizeFindingCommand.mk "prop" "w" ActorType.WORKER) _
    (FinalizeFindingResult.mk FindingCreationOutcome.CREATED "prop" FindingProposalState.APPROVED
       (Some "finding") (Some "approval") ["IDEMPOTENT_EXISTING_FINDING"]) _ _).
  - vm_compute. reflexivity.
  - discriminate.
Defined.
