(* ===== verification/Controller.v ===== *)
(** * The autonomous controller's writes to the orchestration row

    [AutonomousResearchController] of [application/autonomous_research_controller.py]:
    starting, pausing, resuming, cancelling and failing a run, and the checkpoints and
    cycle completions of a tick.  The repository is an interface, [OrchestrationStore]:
    the plain one and the lease-fenced one of [Lease] both implement it.  A tick holds the
    row it has read, [current]; other writers may have changed the table since.  Executions
    interleave all of them ([sys_step]); every step is a sequence of elementary writes
    ([sys_step_writes]), over which the invariants are proved.  Telemetry, the in-process
    start times and the dispatch of a tick to models and workers are not modelled. *)
From S2P Require Import Prelude PyVal CoreTypes Scope Records FindingRecords Orchestration Lease.

(** ** The repository interface *)

(** [store t record require_unowned_or_expired] is [research_orchestrations.save]: it
    writes the record it is given, over a row that exists and is not terminal, or raises. *)
Class OrchestrationStore (store : table -> row -> bool -> result table) : Prop := {
  store_ok : forall t r req t', store t r req = Ok t' ->
    exists cur, t !! r.(ResearchOrchestrationRecord.research_run_id) = Some cur
    /\ terminal cur = false
    /\ t' = <[r.(ResearchOrchestrationRecord.research_run_id) := r]> t;
  store_terminal : forall t r cur,
    t !! r.(ResearchOrchestrationRecord.research_run_id) = Some cur ->
    terminal cur = true ->
    Str.is_blank r.(ResearchOrchestrationRecord.research_run_id) = false ->
    store t r false = Raise TerminalOrchestrationStateError }.

Definition plain_store (now : Z) (t : table) (r : row) (req : bool) : result table :=
  Lease.save now t r None None req.

Definition fenced_store (now : Z) (token : Token.t) (t : table) (r : row) (req : bool)
    : result table :=
  fenced_save now t token r None None req.

Lemma save_terminal now t r cur eo ee :
  bool_decide (eo = None) = bool_decide (ee = None) ->
  t !! r.(ResearchOrchestrationRecord.research_run_id) = Some cur -> terminal cur = true ->
  Str.is_blank r.(ResearchOrchestrationRecord.research_run_id) = false ->
  Lease.save now t r eo ee false = Raise TerminalOrchestrationStateError.
Proof.
  intros He Hc Ht Hb. unfold Lease.save, data_opaque_id, select_row. rewrite Hb, He, eqb_reflx.
  cbn [mbind result_bind negb]. rewrite andb_false_r, Hc, Ht. done.
Qed.

#[global] Instance plain_store_lawful now : OrchestrationStore (plain_store now).
Proof.
  split.
  - intros t r req t' H. apply save_ok in H as (cur & ? & ? & _ & ?). eauto.
  - intros t r cur Hc Ht Hb. by apply (save_terminal _ _ _ cur).
Qed.

#[global] Instance fenced_store_lawful now token : OrchestrationStore (fenced_store now token).
Proof.
  split.
  - intros t r req t' H. apply save_ok in H as (cur & ? & ? & _ & ?). eauto.
  - intros t r cur Hc Ht Hb. by apply (save_terminal _ _ _ cur).
Qed.

(** ** Data *)

(** [data/records.py:2290-2298 ALLOWED_CYCLE_OUTCOMES] *)
Definition ALLOWED_CYCLE_OUTCOMES : list string :=
  [ "CONTINUE"; "PAUSE"; "COMPLETE"; "BLOCKED"; "REQUIRE_HUMAN_REVIEW" ].

(** [data/records.py:2523-2553 ResearchCycleRecord] *)
Module ResearchCycleRecord.
Record t : Set := mk {
  cycle_id : string;
  research_run_id : string;
  cycle_number : Z;
  phase_completed : string;
  outcome : string;
  created_at : Z;
  stop_reason : option string;
  opportunity_id : option string;
  hypothesis_id : option string;
  experiment_id : option string }.

Definition post_init (x : t) : result t :=
  _ ← data_opaque_id x.(cycle_id);
  _ ← data_opaque_id x.(research_run_id);
  _ ← data_non_negative_int x.(cycle_number);
  raise_if Str.is_blank x.(phase_completed) as PersistenceInputError;;
  raise_if negb (mem x.(outcome) ALLOWED_CYCLE_OUTCOMES) as PersistenceInputError;;
  raise_if blank_when_set x.(stop_reason) as PersistenceInputError;;
  _ ← data_optional_opaque_id x.(opportunity_id);
  _ ← data_optional_opaque_id x.(hypothesis_id);
  _ ← data_optional_opaque_id x.(experiment_id);
  Ok x.

#[global] Instance post_init_validator : Validator post_init.
Proof. solve_validator. Qed.
End ResearchCycleRecord.

Module Db.
Record t : Type := mk {
  runs : gset string;
  orchestrations : table;
  cycles : list ResearchCycleRecord.t;
  audit_events : list AuditEventRecord.t }.
End Db.

(** [application/autonomous_research_controller.py:132-144 StartAutonomousResearchCommand] *)
Module StartAutonomousResearchCommand.
Record t : Set := mk {
  research_run_id : string;
  budget_id : string;
  target_reference : string;
  scope : ScopeEvaluationInput.t;
  bounds : OrchestrationBounds.t;
  research_question : string;
  has_routing_request : bool }.
End StartAutonomousResearchCommand.

(** [application/autonomous_research_controller.py:147-156 OrchestrationTickResult] *)
Module OrchestrationTickResult.
Record t : Set := mk {
  research_run_id : string;
  state : string;
  cycle_number : Z;
  outcome : string;
  stop_reason : option string;
  last_phase : string;
  hypothesis_id : option string;
  experiment_id : option string }.
End OrchestrationTickResult.

(** [application/autonomous_research_controller.py:1676-1691 _result_from_record] *)
Definition result_from_record (r : row) (outcome : CycleOutcome.t) : OrchestrationTickResult.t :=
  OrchestrationTickResult.mk r.(ResearchOrchestrationRecord.research_run_id)
    r.(ResearchOrchestrationRecord.state) r.(ResearchOrchestrationRecord.cycle_number)
    (if (r.(ResearchOrchestrationRecord.state)
         =? OrchestrationState.value OrchestrationState.PAUSED)%string
     then CycleOutcome.value CycleOutcome.PAUSE else CycleOutcome.value outcome)
    r.(ResearchOrchestrationRecord.stop_reason) r.(ResearchOrchestrationRecord.last_phase)
    r.(ResearchOrchestrationRecord.last_hypothesis_id)
    r.(ResearchOrchestrationRecord.last_experiment_id).

(** [x or y] for a string that may be [None]. *)
Definition or_else (x y : option string) : option string :=
  match x with
  | Some s => if Str.is_empty s then y else x
  | None => y
  end.

(** The columns a controller write replaces; the constructor validates the copy.
    [dataclasses.replace(current, ...)] *)
Module Change.
Record t : Set := mk {
  state : string;
  cycle_number : Z;
  last_phase : string;
  current_phase : string;
  last_opportunity_id : option string;
  last_hypothesis_id : option string;
  last_experiment_id : option string;
  pause_reason : option string;
  stop_reason : option string;
  active_cycle_id : option string;
  last_attempt_id : option string;
  last_observation_id : option string;
  last_assessment_id : option string;
  last_worker_result_id : option string }.

Definition of_row (r : row) : t :=
  mk r.(ResearchOrchestrationRecord.state) r.(ResearchOrchestrationRecord.cycle_number)
    r.(ResearchOrchestrationRecord.last_phase) r.(ResearchOrchestrationRecord.current_phase)
    r.(ResearchOrchestrationRecord.last_opportunity_id)
    r.(ResearchOrchestrationRecord.last_hypothesis_id)
    r.(ResearchOrchestrationRecord.last_experiment_id)
    r.(ResearchOrchestrationRecord.pause_reason) r.(ResearchOrchestrationRecord.stop_reason)
    r.(ResearchOrchestrationRecord.active_cycle_id)
    r.(ResearchOrchestrationRecord.last_attempt_id)
    r.(ResearchOrchestrationRecord.last_observation_id)
    r.(ResearchOrchestrationRecord.last_assessment_id)
    r.(ResearchOrchestrationRecord.last_worker_result_id).

(** Another state, phase label, pause and stop reason. *)
Definition status (c : t) (new_state phase : string) (pause stop : option string) : t :=
  mk new_state c.(cycle_number) phase c.(current_phase) c.(last_opportunity_id)
    c.(last_hypothesis_id) c.(last_experiment_id) pause stop c.(active_cycle_id)
    c.(last_attempt_id) c.(last_observation_id) c.(last_assessment_id)
    c.(last_worker_result_id).
End Change.

Definition changed (r : row) (c : Change.t) (now : Z) : row :=
  ResearchOrchestrationRecord.mk r.(ResearchOrchestrationRecord.research_run_id)
    c.(Change.state) c.(Change.cycle_number) c.(Change.last_phase)
    r.(ResearchOrchestrationRecord.policy_version) r.(ResearchOrchestrationRecord.max_cycles)
    r.(ResearchOrchestrationRecord.max_experiments)
    r.(ResearchOrchestrationRecord.max_model_calls)
    r.(ResearchOrchestrationRecord.max_worker_invocations)
    r.(ResearchOrchestrationRecord.max_elapsed_ms)
    r.(ResearchOrchestrationRecord.max_selected_opportunities)
    r.(ResearchOrchestrationRecord.max_runtime_fallback)
    r.(ResearchOrchestrationRecord.side_effect_ceiling)
    r.(ResearchOrchestrationRecord.allow_repeated_control_experiments)
    r.(ResearchOrchestrationRecord.created_at) now now
    r.(ResearchOrchestrationRecord.budget_id) r.(ResearchOrchestrationRecord.target_reference)
    r.(ResearchOrchestrationRecord.research_question)
    r.(ResearchOrchestrationRecord.configuration_fingerprint) c.(Change.current_phase)
    c.(Change.last_opportunity_id) c.(Change.last_hypothesis_id) c.(Change.last_experiment_id)
    c.(Change.pause_reason) c.(Change.stop_reason) c.(Change.active_cycle_id)
    c.(Change.last_attempt_id) c.(Change.last_observation_id) c.(Change.last_assessment_id)
    c.(Change.last_worker_result_id) r.(ResearchOrchestrationRecord.routing_policy_version)
    r.(ResearchOrchestrationRecord.scope_fingerprint)
    r.(ResearchOrchestrationRecord.owner_runtime_instance_id)
    r.(ResearchOrchestrationRecord.lease_epoch) r.(ResearchOrchestrationRecord.lease_expires_at).

Definition replace (r : row) (c : Change.t) (now : Z) : result row :=
  ResearchOrchestrationRecord.post_init (changed r c now).

(** ** Repositories *)

(** [data/postgres/repositories.py:2725-2733 get] *)
Definition get_orchestration (db : Db.t) (run : string) : result (option row) :=
  _ ← data_opaque_id run;
  Ok (db.(Db.orchestrations) !! run).

(** The primary key, the foreign key to the run and the integer columns.
    [data/postgres/repositories.py:2717-2723 insert] *)
Definition insert_orchestration (db : Db.t) (r : row) : result Db.t :=
  let run := r.(ResearchOrchestrationRecord.research_run_id) in
  raise_if negb (columns_fit r) as PersistenceError;;
  raise_if bool_decide (is_Some (db.(Db.orchestrations) !! run)) as PersistenceConflictError;;
  raise_if negb (bool_decide (run ∈ db.(Db.runs))) as PersistenceError;;
  Ok (Db.mk db.(Db.runs) (<[run := r]> db.(Db.orchestrations)) db.(Db.cycles)
        db.(Db.audit_events)).

Definition insert_audit (db : Db.t) (e : AuditEventRecord.t) : result Db.t :=
  events ← append_audit db.(Db.audit_events) e;
  Ok (Db.mk db.(Db.runs) db.(Db.orchestrations) db.(Db.cycles) events).

Definition insert_audits (db : Db.t) (es : list AuditEventRecord.t) : result Db.t :=
  fold_result insert_audit db es.

(** The insertion of a cycle as the controller makes it: a second row for the same run and
    number ([uq_research_cycle_run_number]) is left out silently.
    [application/autonomous_research_controller.py:1245-1263 _complete_cycle] *)
Definition insert_cycle (db : Db.t) (c : ResearchCycleRecord.t) : result Db.t :=
  raise_if existsb (fun d => (d.(ResearchCycleRecord.cycle_id)
                              =? c.(ResearchCycleRecord.cycle_id))%string) db.(Db.cycles)
  as PersistenceConflictError;;
  if existsb (fun d => (d.(ResearchCycleRecord.research_run_id)
                        =? c.(ResearchCycleRecord.research_run_id))%string
                       && (d.(ResearchCycleRecord.cycle_number)
                           =? c.(ResearchCycleRecord.cycle_number))) db.(Db.cycles)
  then Ok db
  else
    raise_if negb (bool_decide (c.(ResearchCycleRecord.research_run_id) ∈ db.(Db.runs)))
    as PersistenceError;;
    Ok (Db.mk db.(Db.runs) db.(Db.orchestrations) (db.(Db.cycles) ++ [c]) db.(Db.audit_events)).

(** The keyword arguments of [_checkpoint]. *)
Module CheckpointArgs.
Record t : Set := mk {
  opportunity_id : option string;
  hypothesis_id : option string;
  experiment_id : option string;
  active_cycle_id : option string;
  attempt_id : option string;
  observation_id : option string;
  assessment_id : option string;
  worker_result_id : option string }.
Definition none : t := mk None None None None None None None None.
End CheckpointArgs.

(** The keyword arguments of [_complete_cycle]; [pause_reason] is [None] when unset. *)
Module CycleArgs.
Record t : Type := mk {
  stop_reason : option string;
  state : option OrchestrationState.t;
  hypothesis_id : option string;
  experiment_id : option string;
  opportunity_id : option string;
  observation_id : option string;
  assessment_id : option string;
  pause_reason : option (option string);
  increment_cycle : bool;
  current_phase : option OrchestrationPhase.t;
  extra_audit_events : list AuditEventRecord.t }.
End CycleArgs.

(** ** Operations *)
Section controller.
Context (store : table -> row -> bool -> result table).
Context (sha256_json : pyval -> string).
Context (actor_id : string).

(** [uow.research_orchestrations.save(r)] *)
Definition save_row (db : Db.t) (r : row) (require_unowned_or_expired : bool) : result Db.t :=
  t ← store db.(Db.orchestrations) r require_unowned_or_expired;
  Ok (Db.mk db.(Db.runs) t db.(Db.cycles) db.(Db.audit_events)).

(** An audit event of the control plane about a run. *)
Definition run_event (id : string) (now : Z) (event_type run : string)
    (payload : list (string * pyval)) : result AuditEventRecord.t :=
  AuditEventRecord.post_init
    (AuditEventRecord.mk id now actor_id (ActorType.value ActorType.CONTROL_PLANE) event_type
       "research_run" run payload None).

(** The row of a run that starts.
    [application/autonomous_research_controller.py:253-306 start] *)
Definition start_row (now : Z) (command : StartAutonomousResearchCommand.t) : result row :=
  let b := command.(StartAutonomousResearchCommand.bounds) in
  let zero := b.(OrchestrationBounds.max_cycles) =? 0 in
  let scope_fp := scope_fingerprint sha256_json command.(StartAutonomousResearchCommand.scope) in
  let routing_version :=
    if command.(StartAutonomousResearchCommand.has_routing_request)
    then Some "runtime.routing.v1" else None in
  let version := "orchestration.bounded.v1" in
  fingerprint ← fingerprint_for_start sha256_json
                  command.(StartAutonomousResearchCommand.research_run_id)
                  command.(StartAutonomousResearchCommand.budget_id)
                  command.(StartAutonomousResearchCommand.target_reference)
                  command.(StartAutonomousResearchCommand.research_question) version b
                  routing_version (Some scope_fp);
  ResearchOrchestrationRecord.post_init
    (ResearchOrchestrationRecord.mk command.(StartAutonomousResearchCommand.research_run_id)
       (if zero then OrchestrationState.value OrchestrationState.COMPLETED
        else OrchestrationState.value OrchestrationState.READY)
       0 "start" version b.(OrchestrationBounds.max_cycles)
       b.(OrchestrationBounds.max_experiments) b.(OrchestrationBounds.max_model_calls)
       b.(OrchestrationBounds.max_worker_invocations) b.(OrchestrationBounds.max_elapsed_ms)
       b.(OrchestrationBounds.max_selected_opportunities)
       b.(OrchestrationBounds.max_runtime_fallback) b.(OrchestrationBounds.side_effect_ceiling)
       b.(OrchestrationBounds.allow_repeated_control_experiments) now now now
       command.(StartAutonomousResearchCommand.budget_id)
       command.(StartAutonomousResearchCommand.target_reference)
       command.(StartAutonomousResearchCommand.research_question) fingerprint
       (OrchestrationPhase.value OrchestrationPhase.CYCLE_READY) None None None None
       (if zero then Some (StopReason.value StopReason.MAX_CYCLES_REACHED) else None)
       None None None None None routing_version (Some scope_fp) None 0 None).

(** [application/autonomous_research_controller.py:243-332 start] *)
Definition start (db : Db.t) (audit_id : string) (now : Z)
    (command : StartAutonomousResearchCommand.t) : result (Db.t * OrchestrationTickResult.t) :=
  let run := command.(StartAutonomousResearchCommand.research_run_id) in
  let b := command.(StartAutonomousResearchCommand.bounds) in
  _ ← data_opaque_id run;
  raise_if negb (bool_decide (run ∈ db.(Db.runs))) as ApplicationError;;
  existing ← get_orchestration db run;
  match existing with
  | Some existing => Ok (db, result_from_record existing CycleOutcome.CONTINUE)
  | None =>
      record ← start_row now command;
      db ← insert_orchestration db record;
      event ← run_event audit_id now "ORCHESTRATION_STARTED" run
                [ ("policy_version", PStr "orchestration.bounded.v1");
                  ("max_cycles", PInt b.(OrchestrationBounds.max_cycles));
                  ("not_unbounded", PBool true) ];
      db ← insert_audit db event;
      Ok (db, result_from_record record
                (if b.(OrchestrationBounds.max_cycles) =? 0 then CycleOutcome.COMPLETE
                 else CycleOutcome.CONTINUE))
  end.

(** [uow.research_orchestrations.get(run)], which must exist. *)
Definition reload (db : Db.t) (run : string) : result row :=
  current ← get_orchestration db run;
  match current with
  | None => Raise ApplicationError
  | Some current => Ok current
  end.

(** [application/autonomous_research_controller.py:1032-1076 _operator_state] *)
Definition operator_state (db : Db.t) (audit_id : string) (now : Z) (run : string)
    (state : OrchestrationState.t) (reason : StopReason.t) (outcome : CycleOutcome.t)
    : result (Db.t * OrchestrationTickResult.t) :=
  current ← reload db run;
  if is_terminal_state current.(ResearchOrchestrationRecord.state)
  then
    event ← run_event audit_id now "ORCHESTRATION_OPERATOR_COMMAND_REJECTED" run
              [ ("requested_state", PStr (OrchestrationState.value state));
                ("requested_stop_reason", PStr (StopReason.value reason));
                ("current_state", PStr current.(ResearchOrchestrationRecord.state));
                ("current_stop_reason",
                 pstr_opt current.(ResearchOrchestrationRecord.stop_reason));
                ("rejection_reason", PStr "terminal_state_immutable") ];
    db ← insert_audit db event;
    Ok (db, result_from_record current CycleOutcome.CONTINUE)
  else
    let c := Change.of_row current in
    updated ← replace current
                (Change.status c (OrchestrationState.value state) "operator"
                   (if bool_decide (state = OrchestrationState.PAUSED)
                    then Some (StopReason.value reason) else c.(Change.pause_reason))
                   (Some (StopReason.value reason))) now;
    db ← save_row db updated false;
    Ok (db, result_from_record updated outcome).

(** [application/autonomous_research_controller.py:334-340 pause] *)
Definition pause (db : Db.t) (audit_id : string) (now : Z) (run : string) :=
  operator_state db audit_id now run OrchestrationState.PAUSED StopReason.OPERATOR_PAUSED
    CycleOutcome.PAUSE.

(** [application/autonomous_research_controller.py:364-370 cancel] *)
Definition cancel (db : Db.t) (audit_id : string) (now : Z) (run : string) :=
  operator_state db audit_id now run OrchestrationState.COMPLETED StopReason.OPERATOR_CANCELLED
    CycleOutcome.COMPLETE.

(** [application/autonomous_research_controller.py:342-362 resume] *)
Definition resume (db : Db.t) (now : Z) (run : string)
    : result (Db.t * OrchestrationTickResult.t) :=
  current ← reload db run;
  if negb (current.(ResearchOrchestrationRecord.state)
           =? OrchestrationState.value OrchestrationState.PAUSED)%string
  then Ok (db, result_from_record current CycleOutcome.CONTINUE)
  else
    updated ← replace current
                (Change.status (Change.of_row current)
                   (OrchestrationState.value OrchestrationState.READY) "resume" None None) now;
    db ← save_row db updated false;
    Ok (db, result_from_record updated CycleOutcome.CONTINUE).

(** A row that fails operationally. *)
Definition failed (current : row) (phase : string) (now : Z) : result row :=
  let c := Change.of_row current in
  replace current
    (Change.status c (OrchestrationState.value OrchestrationState.FAILED_OPERATIONAL) phase
       c.(Change.pause_reason) (Some (StopReason.value StopReason.OPERATIONAL_FAILURE))) now.

(** [application/autonomous_research_controller.py:372-421 stop_for_operational_failure] *)
Definition stop_for_operational_failure (db : Db.t) (audit_id : string) (now : Z)
    (run phase : string) : result (Db.t * OrchestrationTickResult.t) :=
  current ← reload db run;
  if negb (mem current.(ResearchOrchestrationRecord.state)
             [ OrchestrationState.value OrchestrationState.READY;
               OrchestrationState.value OrchestrationState.RUNNING ])
  then Ok (db, result_from_record current CycleOutcome.CONTINUE)
  else
    updated ← failed current phase now;
    db ← save_row db updated false;
    event ← run_event audit_id now "ORCHESTRATION_OPERATIONAL_FAILURE" run
              [ ("previous_state", PStr current.(ResearchOrchestrationRecord.state));
                ("phase", PStr phase); ("not_research_truth", PBool true) ];
    db ← insert_audit db event;
    Ok (db, result_from_record updated CycleOutcome.BLOCKED).

(** [application/autonomous_research_controller.py:1078-1130 mark_operational_failure] *)
Definition mark_operational_failure (db : Db.t) (audit_id : string) (now : Z)
    (run reason : string) : result (Db.t * OrchestrationTickResult.t) :=
  current ← reload db run;
  if negb (current.(ResearchOrchestrationRecord.state)
           =? OrchestrationState.value OrchestrationState.RUNNING)%string
  then Ok (db, result_from_record current CycleOutcome.CONTINUE)
  else
    updated ← failed current "reconciliation" now;
    db ← save_row db updated true;
    event ← run_event audit_id now "ORCHESTRATION_RECONCILED_OPERATIONAL_FAILURE" run
              [ ("previous_state", PStr current.(ResearchOrchestrationRecord.state));
                ("reason", PStr reason) ];
    db ← insert_audit db event;
    Ok (db, result_from_record updated CycleOutcome.BLOCKED).

(** [application/autonomous_research_controller.py:1140-1152 _mark_running] *)
Definition mark_running (db : Db.t) (now : Z) (current : row) : result Db.t :=
  let c := Change.of_row current in
  updated ← replace current
              (Change.status c (OrchestrationState.value OrchestrationState.RUNNING) "running"
                 c.(Change.pause_reason) c.(Change.stop_reason)) now;
  save_row db updated false.

(** [application/autonomous_research_controller.py:1368-1406 _checkpoint] *)
Definition checkpoint (db : Db.t) (now : Z) (current : row) (phase : OrchestrationPhase.t)
    (a : CheckpointArgs.t) : result (Db.t * row) :=
  let c := Change.of_row current in
  let label := OrchestrationPhase.value phase in
  updated ← replace current
              (Change.mk (OrchestrationState.value OrchestrationState.RUNNING)
                 c.(Change.cycle_number) label label
                 (or_else a.(CheckpointArgs.opportunity_id) c.(Change.last_opportunity_id))
                 (or_else a.(CheckpointArgs.hypothesis_id) c.(Change.last_hypothesis_id))
                 (or_else a.(CheckpointArgs.experiment_id) c.(Change.last_experiment_id))
                 c.(Change.pause_reason) c.(Change.stop_reason)
                 (or_else a.(CheckpointArgs.active_cycle_id) c.(Change.active_cycle_id))
                 (or_else a.(CheckpointArgs.attempt_id) c.(Change.last_attempt_id))
                 (or_else a.(CheckpointArgs.observation_id) c.(Change.last_observation_id))
                 (or_else a.(CheckpointArgs.assessment_id) c.(Change.last_assessment_id))
                 (or_else a.(CheckpointArgs.worker_result_id) c.(Change.last_worker_result_id)))
              now;
  match save_row db updated false with
  | Ok db => Ok (db, updated)
  | Raise TerminalOrchestrationStateError =>
      durable ← reload db current.(ResearchOrchestrationRecord.research_run_id);
      Ok (db, durable)
  | Raise e => Raise e
  end.

(** [application/autonomous_research_controller.py:1199-1212 _complete_cycle] *)
Definition next_state (current : row) (outcome : CycleOutcome.t)
    (state : option OrchestrationState.t) : string :=
  match state with
  | Some s => OrchestrationState.value s
  | None =>
      match outcome with
      | CycleOutcome.COMPLETE => OrchestrationState.value OrchestrationState.COMPLETED
      | CycleOutcome.CONTINUE => OrchestrationState.value OrchestrationState.READY
      | _ => current.(ResearchOrchestrationRecord.state)
      end
  end.

(** [application/autonomous_research_controller.py:1197-1240 _complete_cycle] *)
Definition completed_row (now : Z) (current : row) (outcome : CycleOutcome.t) (phase : string)
    (inserting : bool) (a : CycleArgs.t) : result row :=
  let c := Change.of_row current in
  replace current
    (Change.mk (next_state current outcome a.(CycleArgs.state))
       (c.(Change.cycle_number) + if inserting then 1 else 0) phase
       (match a.(CycleArgs.current_phase) with
        | Some p => OrchestrationPhase.value p
        | None => if inserting then OrchestrationPhase.value OrchestrationPhase.CYCLE_COMPLETE
                  else c.(Change.current_phase)
        end)
       (or_else a.(CycleArgs.opportunity_id) c.(Change.last_opportunity_id))
       (or_else a.(CycleArgs.hypothesis_id) c.(Change.last_hypothesis_id))
       (or_else a.(CycleArgs.experiment_id) c.(Change.last_experiment_id))
       (default c.(Change.pause_reason) a.(CycleArgs.pause_reason))
       (or_else a.(CycleArgs.stop_reason) c.(Change.stop_reason)) c.(Change.active_cycle_id)
       c.(Change.last_attempt_id)
       (or_else a.(CycleArgs.observation_id) c.(Change.last_observation_id))
       (or_else a.(CycleArgs.assessment_id) c.(Change.last_assessment_id))
       c.(Change.last_worker_result_id)) now.

(** [application/autonomous_research_controller.py:1181-1280 _complete_cycle] *)
Definition complete_cycle (db : Db.t) (cycle_id : string) (now : Z) (current : row)
    (outcome : CycleOutcome.t) (phase : string) (a : CycleArgs.t)
    : result (Db.t * OrchestrationTickResult.t) :=
  let run := current.(ResearchOrchestrationRecord.research_run_id) in
  let inserting := a.(CycleArgs.increment_cycle)
                   || negb (bool_decide (outcome = CycleOutcome.CONTINUE)) in
  updated ← completed_row now current outcome phase inserting a;
  match save_row db updated false with
  | Raise TerminalOrchestrationStateError =>
      durable ← reload db run;
      Ok (db, result_from_record durable outcome)
  | Raise e => Raise e
  | Ok db =>
      db ← (if inserting
            then
              cycle ← ResearchCycleRecord.post_init
                        (ResearchCycleRecord.mk cycle_id run
                           updated.(ResearchOrchestrationRecord.cycle_number) phase
                           (CycleOutcome.value outcome) now
                           (or_else a.(CycleArgs.stop_reason) None) a.(CycleArgs.opportunity_id)
                           a.(CycleArgs.hypothesis_id) a.(CycleArgs.experiment_id));
              insert_cycle db cycle
            else Ok db);
      db ← insert_audits db a.(CycleArgs.extra_audit_events);
      Ok (db, result_from_record updated outcome)
  end.

(** [application/autonomous_research_controller.py:1154-1179 _stop] *)
Definition stop (db : Db.t) (cycle_id : string) (now : Z) (current : row) (reason : StopReason.t)
    (phase : string) (hypothesis_id experiment_id opportunity_id : option string)
    (increment_cycle : bool) (current_phase : option OrchestrationPhase.t)
    : result (Db.t * OrchestrationTickResult.t) :=
  complete_cycle db cycle_id now current (cycle_outcome_for_stop reason) phase
    (CycleArgs.mk (Some (StopReason.value reason)) (Some (orchestration_state_for_stop reason))
       hypothesis_id experiment_id opportunity_id None None None increment_cycle current_phase []).
End controller.


(** ** Executions

    What the processes of a deployment do to the tables, in any order: operator commands,
    reconciliation, lease operations, and the steps of ticks.  A tick works on rows it has
    read at some point, the [held] ones; each repository may be fenced or not. *)
Module Sys.
Record t : Type := mk { db : Db.t; held : list row }.
End Sys.

Definition stored (db : Db.t) (r : row) : Prop :=
  exists run, db.(Db.orchestrations) !! run = Some r.

Definition with_table (db : Db.t) (t : table) : Db.t :=
  Db.mk db.(Db.runs) t db.(Db.cycles) db.(Db.audit_events).

Definition hold (s : Sys.t) (db : Db.t) : Sys.t := Sys.mk db s.(Sys.held).

(** A step of the lease protocol on the table. *)
Inductive lease_op : table -> table -> Prop :=
  | lease_acquire now t run owner ttl t' res :
      acquire_lease now t run owner ttl = Ok (t', res) -> lease_op t t'
  | lease_renew now t run owner epoch ttl t' b :
      renew_lease now t run owner epoch ttl = Ok (t', b) -> lease_op t t'
  | lease_release now t run owner epoch t' b :
      release_lease now t run owner epoch = Ok (t', b) -> lease_op t t'.

Section executions.
Context (sha256_json : pyval -> string).
Context (actor_id : string).

Inductive sys_step : Sys.t -> Sys.t -> Prop :=
  | sys_read s r : stored s.(Sys.db) r -> sys_step s (Sys.mk s.(Sys.db) (r :: s.(Sys.held)))
  | sys_lease s t :
      lease_op s.(Sys.db).(Db.orchestrations) t -> sys_step s (hold s (with_table s.(Sys.db) t))
  | sys_start s id now command db res :
      OrchestrationBounds.post_init command.(StartAutonomousResearchCommand.bounds)
      = Ok command.(StartAutonomousResearchCommand.bounds) ->
      start sha256_json actor_id s.(Sys.db) id now command = Ok (db, res) ->
      sys_step s (hold s db)
  | sys_pause store `{OrchestrationStore store} s id now run db res :
      pause store actor_id s.(Sys.db) id now run = Ok (db, res) -> sys_step s (hold s db)
  | sys_cancel store `{OrchestrationStore store} s id now run db res :
      cancel store actor_id s.(Sys.db) id now run = Ok (db, res) -> sys_step s (hold s db)
  | sys_resume store `{OrchestrationStore store} s now run db res :
      resume store s.(Sys.db) now run = Ok (db, res) -> sys_step s (hold s db)
  | sys_fail store `{OrchestrationStore store} s id now run phase db res :
      stop_for_operational_failure store actor_id s.(Sys.db) id now run phase = Ok (db, res) ->
      sys_step s (hold s db)
  | sys_reconcile store `{OrchestrationStore store} s id now run reason db res :
      mark_operational_failure store actor_id s.(Sys.db) id now run reason = Ok (db, res) ->
      sys_step s (hold s db)
  | sys_running store `{OrchestrationStore store} s now current db :
      current ∈ s.(Sys.held) -> mark_running store s.(Sys.db) now current = Ok db ->
      sys_step s (hold s db)
  | sys_checkpoint store `{OrchestrationStore store} s now current phase a db r :
      current ∈ s.(Sys.held) -> checkpoint store s.(Sys.db) now current phase a = Ok (db, r) ->
      sys_step s (Sys.mk db (r :: s.(Sys.held)))
  | sys_complete store `{OrchestrationStore store} s id now current outcome phase a db res :
      current ∈ s.(Sys.held) ->
      complete_cycle store s.(Sys.db) id now current outcome phase a = Ok (db, res) ->
      sys_step s (hold s db)
  | sys_stop store `{OrchestrationStore store} s id now current reason phase h x o inc p db res :
      current ∈ s.(Sys.held) ->
      stop store s.(Sys.db) id now current reason phase h x o inc p = Ok (db, res) ->
      sys_step s (hold s db).

(** A copy of a held or stored row replaces the row of its run, unless that is terminal. *)
Inductive row_write (held : list row) (db : Db.t) : string -> Db.t -> Prop :=
  | row_write_intro base c now cur :
      base ∈ held \/ stored db base ->
      db.(Db.orchestrations) !! base.(ResearchOrchestrationRecord.research_run_id) = Some cur ->
      terminal cur = false ->
      row_write held db base.(ResearchOrchestrationRecord.research_run_id)
        (with_table db (<[base.(ResearchOrchestrationRecord.research_run_id)
                          := changed base c now]> db.(Db.orchestrations))).

(** Every operation is a sequence of elementary writes.  A cycle is only ever recorded in
    the transaction that has just written the row of its run. *)
Inductive write (held : list row) (db : Db.t) : Db.t -> Prop :=
  | write_audit e db' : insert_audit db e = Ok db' -> write held db db'
  | write_lease t : lease_op db.(Db.orchestrations) t -> write held db (with_table db t)
  | write_start now command r db' :
      OrchestrationBounds.post_init command.(StartAutonomousResearchCommand.bounds)
      = Ok command.(StartAutonomousResearchCommand.bounds) ->
      start_row sha256_json now command = Ok r -> insert_orchestration db r = Ok db' ->
      write held db db'
  | write_row run db' : row_write held db run db' -> write held db db'
  | write_cycle run db1 c db' :
      row_write held db run db1 -> c.(ResearchCycleRecord.research_run_id) = run ->
      insert_cycle db1 c = Ok db' -> write held db db'.

Abbreviation writes held := (rtc (write held)).

Lemma save_row_ok store `{OrchestrationStore store} db r req db' :
  save_row store db r req = Ok db' ->
  exists cur, db.(Db.orchestrations) !! r.(ResearchOrchestrationRecord.research_run_id) = Some cur
  /\ terminal cur = false
  /\ db' = with_table db
             (<[r.(ResearchOrchestrationRecord.research_run_id) := r]> db.(Db.orchestrations)).
Proof.
  unfold save_row. rewrite bind_ok. intros (t & Hs & [= <-]).
  apply store_ok in Hs as (cur & ? & ? & ->). eauto.
Qed.

Lemma replace_ok base c now r : replace base c now = Ok r -> r = changed base c now.
Proof. unfold replace. apply validated. Qed.

Lemma writes_audit held db e db' : insert_audit db e = Ok db' -> writes held db db'.
Proof. intros H. eapply rtc_once, write_audit, H. Qed.

Lemma writes_audits held db es db' : insert_audits db es = Ok db' -> writes held db db'.
Proof.
  unfold insert_audits. intros H. pattern db'. eapply fold_result_ind; [|done|exact H].
  intros s0 e s1 _ IH He. etrans; [exact IH|by eapply writes_audit].
Qed.

(** A copy of a known row, saved. *)
Lemma saved_row store `{OrchestrationStore store} held db base c now r req db' :
  base ∈ held \/ stored db base ->
  replace base c now = Ok r -> save_row store db r req = Ok db' ->
  row_write held db base.(ResearchOrchestrationRecord.research_run_id) db'.
Proof.
  intros Hb Hr%replace_ok Hs. subst r. apply save_row_ok in Hs as (cur & Hc & Ht & ->); [|done].
  by apply (row_write_intro held db base c now cur).
Qed.

Lemma writes_save store `{OrchestrationStore store} held db base c now r req db' :
  base ∈ held \/ stored db base ->
  replace base c now = Ok r -> save_row store db r req = Ok db' -> writes held db db'.
Proof. intros. by eapply rtc_once, write_row, saved_row. Qed.

Lemma reload_ok db run r :
  reload db run = Ok r -> stored db r.
Proof.
  unfold reload, get_orchestration. intros H. apply bind_ok in H as (o & Ho & H).
  apply bind_ok in Ho as (? & _ & [= <-]). exists run. destruct (_ !! run); congruence.
Qed.

Create HintDb controller.
#[local] Hint Resolve writes_audit writes_audits writes_save reload_ok : controller.
#[local] Hint Extern 1 (rtc _ ?x ?x) => apply rtc_refl : controller.

(** Split a run of an operation into its parts. *)
Ltac parts :=
  repeat (simplify_eq/=; match goal with
  | H : (_ ≫= _) = Ok _ |- _ => apply bind_ok in H as (? & ? & H)
  | H : match ?x with _ => _ end = Ok _ |- _ => destruct x eqn:?
  end); simplify_eq/=.

Lemma operator_state_writes store `{OrchestrationStore store} held db id now run st reason o db' res :
  operator_state store actor_id db id now run st reason o = Ok (db', res) -> writes held db db'.
Proof. unfold operator_state. intros Ho. parts; eauto 10 with controller. Qed.

Lemma resume_writes store `{OrchestrationStore store} held db now run db' res :
  resume store db now run = Ok (db', res) -> writes held db db'.
Proof. unfold resume. intros Ho. parts; eauto 10 with controller. Qed.

Lemma failure_writes store `{OrchestrationStore store} held db id now run phase db' res :
  stop_for_operational_failure store actor_id db id now run phase = Ok (db', res) ->
  writes held db db'.
Proof.
  unfold stop_for_operational_failure, failed. intros Ho. parts; [eauto with controller|].
  etrans; eauto 10 with controller.
Qed.

Lemma reconcile_writes store `{OrchestrationStore store} held db id now run reason db' res :
  mark_operational_failure store actor_id db id now run reason = Ok (db', res) ->
  writes held db db'.
Proof.
  unfold mark_operational_failure, failed. intros Ho. parts; [eauto with controller|].
  etrans; eauto 10 with controller.
Qed.

Lemma running_writes store `{OrchestrationStore store} (held : list row) db now current db' :
  current ∈ held -> mark_running store db now current = Ok db' -> writes held db db'.
Proof. unfold mark_running. intros Hc Ho. parts; eauto 10 with controller. Qed.

Lemma checkpoint_writes store `{OrchestrationStore store} (held : list row) db now current phase a
    db' r :
  current ∈ held -> checkpoint store db now current phase a = Ok (db', r) ->
  writes held db db' /\ stored db' r.
Proof.
  unfold checkpoint. intros Hc Ho.
  apply bind_ok in Ho as (u & Hu & Ho). destruct (save_row _ _ _ _) as [db1|[]] eqn:Hs; parts.
  - split; [eauto 10 with controller|]. apply save_row_ok in Hs as (cur & _ & _ & ->); [|done].
    eexists. apply lookup_insert_eq.
  - split; [done|eauto with controller].
Qed.

Lemma complete_writes store `{OrchestrationStore store} (held : list row) db id now current outcome
    phase a db' res :
  current ∈ held -> complete_cycle store db id now current outcome phase a = Ok (db', res) ->
  writes held db db'.
Proof.
  unfold complete_cycle, completed_row. intros Hc Ho.
  apply bind_ok in Ho as (u & Hu & Ho). destruct (save_row _ _ _ _) as [db1|[]] eqn:Hs; parts;
    [..|done].
  - etrans; [|by eapply writes_audits]. eapply rtc_once, write_cycle; [|reflexivity|eassumption].
    match goal with H : ResearchCycleRecord.post_init _ = Ok _ |- _ => apply validated in H as -> end.
    eapply saved_row; eauto.
  - etrans; [|by eapply writes_audits]. eauto 10 with controller.
Qed.

Lemma start_writes held db id now command db' res :
  OrchestrationBounds.post_init command.(StartAutonomousResearchCommand.bounds)
  = Ok command.(StartAutonomousResearchCommand.bounds) ->
  start sha256_json actor_id db id now command = Ok (db', res) -> writes held db db'.
Proof.
  unfold start. intros Hb Ho. parts; [done|].
  etrans; [|by eapply writes_audit]. by eapply rtc_once, write_start.
Qed.

(** Refinement: one step of the system is a sequence of elementary writes, and every row a
    tick holds afterwards was held before or is stored. *)
Lemma sys_step_writes s s' :
  sys_step s s' ->
  writes s.(Sys.held) s.(Sys.db) s'.(Sys.db)
  /\ forall h, h ∈ s'.(Sys.held) -> h ∈ s.(Sys.held) \/ stored s'.(Sys.db) h.
Proof.
  intros Hs. destruct Hs; cbn [hold Sys.db Sys.held].
  all: try (split; [|by left]).
  - split; [done|]. intros h [->|?]%elem_of_cons; auto.
  - by eapply rtc_once, write_lease.
  - by eapply start_writes.
  - by eapply operator_state_writes.
  - by eapply operator_state_writes.
  - by eapply resume_writes.
  - by eapply failure_writes.
  - by eapply reconcile_writes.
  - by eapply running_writes.
  - edestruct checkpoint_writes as [? ?]; [done..|]. split; [done|].
    intros h [->|?]%elem_of_cons; auto.
  - by eapply complete_writes.
  - by eapply complete_writes.
Qed.

(** ** Invariants of the elementary writes *)

(** The row but for its lease and [updated_at]. *)
Definition relet (r r' : row) : Prop :=
  exists owner epoch expires updated,
    r' = ResearchOrchestrationRecord.set_lease r owner epoch expires updated.

(** The configuration columns. *)
Definition same_configuration (r r' : row) : Prop :=
  record_payload r' = record_payload r
  /\ record_bounds r' = record_bounds r
  /\ r'.(ResearchOrchestrationRecord.configuration_fingerprint)
     = r.(ResearchOrchestrationRecord.configuration_fingerprint).

Definition accepted (r : row) : Prop := exists c, configuration_from_record sha256_json r = Ok c.

#[local] Instance relet_preorder : PreOrder relet.
Proof.
  split.
  - intros r. exists r.(ResearchOrchestrationRecord.owner_runtime_instance_id),
      r.(ResearchOrchestrationRecord.lease_epoch), r.(ResearchOrchestrationRecord.lease_expires_at),
      r.(ResearchOrchestrationRecord.updated_at). by destruct r.
  - intros r r1 r2 (o1 & e1 & x1 & u1 & ->) (o & e & x & u & ->). by exists o, e, x, u.
Qed.

#[local] Instance same_configuration_preorder : PreOrder same_configuration.
Proof. split; [done|]. intros ? ? ? (? & ? & ?) (? & ? & ?). repeat split; congruence. Qed.

Lemma relet_terminal r r' : relet r r' -> terminal r' = terminal r.
Proof. by intros (? & ? & ? & ? & ->). Qed.

Lemma relet_configuration r r' : relet r r' -> same_configuration r r'.
Proof. by intros (? & ? & ? & ? & ->). Qed.

Lemma changed_configuration r c now : same_configuration r (changed r c now).
Proof. done. Qed.

Lemma same_configuration_run r r' :
  same_configuration r r' ->
  r'.(ResearchOrchestrationRecord.research_run_id) = r.(ResearchOrchestrationRecord.research_run_id).
Proof. by intros ([? _]%record_payload_inj & _). Qed.

Lemma same_configuration_accepted r r' c :
  same_configuration r r' -> configuration_from_record sha256_json r = Ok c ->
  configuration_from_record sha256_json r' = Ok c.
Proof.
  rewrite !configuration_from_record_ok. intros (Hp & Hb & Hf) (H1 & H2 & ->).
  rewrite Hp, Hb, Hf. split; [done|]. split; [done|].
  apply record_payload_inj in Hp as (? & ? & ? & ? & ? & ? & ? & ?). congruence.
Qed.

Lemma lease_op_ok t t' :
  lease_op t t' ->
  t' = t \/ exists run r r', t !! run = Some r /\ relet r r' /\ t' = <[run := r']> t.
Proof.
  intros [now t1 run o ttl t1' res H|now t1 run o e ttl t1' b H|now t1 run o e t1' b H].
  - apply acquire_ok in H as [(r & x & ? & _ & _ & -> & _)|[-> _]]; [right|by left].
    exists run, r. eexists. repeat split; eauto. by eexists _, _, _, _.
  - apply renew_ok in H as [[_ ->]|[_ (r & x & ? & _ & ->)]]; [by left|right].
    exists run, r. eexists. repeat split; eauto. by eexists _, _, _, _.
  - apply release_ok in H as [[_ ->]|[_ (r & ? & ->)]]; [by left|right].
    exists run, r. eexists. repeat split; eauto. by eexists _, _, _, _.
Qed.

Lemma insert_orchestration_ok db r db' :
  insert_orchestration db r = Ok db' ->
  db.(Db.orchestrations) !! r.(ResearchOrchestrationRecord.research_run_id) = None
  /\ db' = with_table db
             (<[r.(ResearchOrchestrationRecord.research_run_id) := r]> db.(Db.orchestrations)).
Proof.
  unfold insert_orchestration. rewrite !raise_if_ok. intros (_ & Hn & _ & [= <-]).
  split; [|done]. rewrite bool_decide_eq_false in Hn. by apply eq_None_not_Some.
Qed.

Lemma insert_audit_appends db e db' :
  insert_audit db e = Ok db' ->
  db' = Db.mk db.(Db.runs) db.(Db.orchestrations) db.(Db.cycles) (db.(Db.audit_events) ++ [e]).
Proof.
  unfold insert_audit. intros H. apply bind_ok in H as (? & ->%append_audit_ok & [= <-]). done.
Qed.

Lemma insert_cycle_ok db c db' :
  insert_cycle db c = Ok db' ->
  db' = db
  \/ db' = Db.mk db.(Db.runs) db.(Db.orchestrations) (db.(Db.cycles) ++ [c]) db.(Db.audit_events)
     /\ Forall (fun d => d.(ResearchCycleRecord.cycle_id) <> c.(ResearchCycleRecord.cycle_id)
          /\ (d.(ResearchCycleRecord.research_run_id), d.(ResearchCycleRecord.cycle_number))
             <> (c.(ResearchCycleRecord.research_run_id), c.(ResearchCycleRecord.cycle_number)))
          db.(Db.cycles).
Proof.
  unfold insert_cycle. rewrite raise_if_ok. intros [Hid H].
  destruct (existsb _ _) eqn:Hn in H; [left; congruence|right].
  apply raise_if_ok in H as [_ [= <-]]. split; [done|]. apply Forall_forall. intros d Hd%list_elem_of_In.
  rewrite <- not_true_iff_false, existsb_exists in Hid, Hn. split; [intros E|intros [= E1 E2]].
  - apply Hid. exists d. by rewrite String.eqb_eq.
  - apply Hn. exists d. by rewrite andb_true_iff, String.eqb_eq, Z.eqb_eq.
Qed.

Definition cycles_of (run : string) (db : Db.t) : list ResearchCycleRecord.t :=
  filter (fun c => c.(ResearchCycleRecord.research_run_id) = run) db.(Db.cycles).

(** A run whose row is [r] and terminal only loses or changes its lease, and no cycle of it
    is recorded. *)
Definition settled (run : string) (db db' : Db.t) : Prop :=
  forall r, db.(Db.orchestrations) !! run = Some r -> terminal r = true ->
  exists r', db'.(Db.orchestrations) !! run = Some r' /\ relet r r'
  /\ cycles_of run db' = cycles_of run db.

#[local] Instance settled_preorder run : PreOrder (settled run).
Proof.
  split; [by intros db r ? _; exists r|]. intros db db1 db2 H1 H2 r Hr Ht.
  destruct (H1 r Hr Ht) as (r1 & Hr1 & Hl1 & Hc1).
  destruct (H2 r1 Hr1) as (r2 & Hr2 & Hl2 & Hc2); [by rewrite (relet_terminal _ _ Hl1)|].
  exists r2. split; [done|]. split; [by etrans|congruence].
Qed.

(** A row write is not to a terminal row. *)
Lemma row_write_terminal held db key db' run r :
  row_write held db key db' -> db.(Db.orchestrations) !! run = Some r -> terminal r = true ->
  key <> run /\ db'.(Db.orchestrations) !! run = Some r /\ db'.(Db.cycles) = db.(Db.cycles).
Proof.
  intros [base c now cur _ Hc Hnt] Hr Ht.
  assert (base.(ResearchOrchestrationRecord.research_run_id) <> run) as Hne by congruence.
  split; [done|]. cbn. by rewrite lookup_insert_ne.
Qed.

Lemma write_settled held db db' run : write held db db' -> settled run db db'.
Proof.
  intros [e db1 H|t H|now cmd n db1 _ _ H|key db1 H|key db1 c db2 H Hkey Hc] r Hr Ht.
  - apply insert_audit_appends in H as ->. by exists r.
  - apply lease_op_ok in H as [->|(key & r1 & r' & H1 & Hl & ->)]; [by exists r|]. cbn.
    rewrite lookup_insert. case_decide as E; [|by exists r]. subst key. exists r'.
    split; [done|]. split; [congruence|done].
  - apply insert_orchestration_ok in H as [Hn ->]. exists r. split; [|done]. cbn.
    rewrite lookup_insert_ne; [done|]. intros E. congruence.
  - destruct (row_write_terminal _ _ _ _ _ _ H Hr Ht) as (_ & Hr1 & Hcs). exists r.
    split; [done|]. split; [done|]. unfold cycles_of. by rewrite Hcs.
  - destruct (row_write_terminal _ _ _ _ _ _ H Hr Ht) as (Hne & Hr1 & Hcs). exists r.
    unfold cycles_of. rewrite <- Hcs.
    apply insert_cycle_ok in Hc as [->|[-> _]]; (split; [done|]; split; [done|]); [done|]. cbn.
    rewrite filter_app, filter_cons_False, filter_nil, app_nil_r; [done|congruence].
Qed.

(** The configuration of a run is the same in its row and in every copy a tick holds, and
    [configuration_from_record] accepts it. *)
Record consistent (held : list row) (db : Db.t) : Prop := {
  keyed : forall run r, db.(Db.orchestrations) !! run = Some r ->
    r.(ResearchOrchestrationRecord.research_run_id) = run;
  held_current : forall h, h ∈ held -> exists r,
    db.(Db.orchestrations) !! h.(ResearchOrchestrationRecord.research_run_id) = Some r
    /\ same_configuration h r;
  rows_accepted : forall run r, db.(Db.orchestrations) !! run = Some r -> accepted r }.

(** Rows stay, with the same configuration. *)
Definition carried (db db' : Db.t) : Prop :=
  forall run r, db.(Db.orchestrations) !! run = Some r ->
  exists r', db'.(Db.orchestrations) !! run = Some r' /\ same_configuration r r'.

#[local] Instance carried_preorder : PreOrder carried.
Proof.
  split; [by intros db run r ?; exists r|]. intros db db1 db2 H1 H2 run r Hr.
  destruct (H1 run r Hr) as (r1 & Hr1 & Hs1). destruct (H2 run r1 Hr1) as (r2 & Hr2 & Hs2).
  exists r2. split; [done|by etrans].
Qed.

(** Replacing or adding one row. *)
Lemma carried_insert db key new :
  (forall r, db.(Db.orchestrations) !! key = Some r -> same_configuration r new) ->
  carried db (with_table db (<[key := new]> db.(Db.orchestrations))).
Proof.
  intros Hk run r Hr. cbn. rewrite lookup_insert. case_decide as E; [|by exists r].
  subst key. exists new. auto.
Qed.

Lemma consistent_insert held db key new :
  consistent held db ->
  (forall r, db.(Db.orchestrations) !! key = Some r -> same_configuration r new) ->
  new.(ResearchOrchestrationRecord.research_run_id) = key -> accepted new ->
  consistent held (with_table db (<[key := new]> db.(Db.orchestrations))).
Proof.
  intros [Hkey Hheld Hacc] Hk Hrun Hnew.
  pose proof (carried_insert _ _ _ Hk) as Hcar. split.
  - intros run r. cbn. rewrite lookup_insert. case_decide; [naive_solver|eauto].
  - intros h Hh. destruct (Hheld h Hh) as (r & Hr & Hs).
    destruct (Hcar _ _ Hr) as (r' & Hr' & Hs'). exists r'. split; [done|by etrans].
  - intros run r. cbn. rewrite lookup_insert. case_decide; [naive_solver|eauto].
Qed.

Lemma start_row_accepted now command r :
  OrchestrationBounds.post_init command.(StartAutonomousResearchCommand.bounds)
  = Ok command.(StartAutonomousResearchCommand.bounds) ->
  start_row sha256_json now command = Ok r -> accepted r.
Proof.
  unfold start_row, fingerprint_for_start, orchestration_config_fingerprint. intros Hb Hr.
  rewrite canonical_config_dict in Hr. cbn [mbind result_bind] in Hr. apply validated in Hr as ->.
  eexists. apply configuration_from_record_ok. split; [reflexivity|]. split; [|reflexivity].
  unfold record_bounds. cbn. by destruct (StartAutonomousResearchCommand.bounds command).
Qed.

Lemma row_write_consistent held db key db' :
  row_write held db key db' -> consistent held db -> consistent held db' /\ carried db db'.
Proof.
  intros [base c now cur Hb Hcur _] Hc. assert (same_configuration cur base) as Hs.
  { destruct Hb as [Hh|[run Hr]].
    - destruct (held_current _ _ Hc _ Hh) as (r & Hr & Hs). rewrite Hcur in Hr.
      injection Hr as <-. destruct Hs as (? & ? & ?). by repeat split.
    - pose proof (keyed _ _ Hc _ _ Hr) as <-. rewrite Hcur in Hr. by injection Hr as <-. }
  assert (forall r, Db.orchestrations db !! base.(ResearchOrchestrationRecord.research_run_id)
                    = Some r -> same_configuration r (changed base c now)) as Hk.
  { rewrite Hcur. by intros r [= <-]. }
  split; [|by apply carried_insert]. apply consistent_insert; [done..|].
  destruct (rows_accepted _ _ Hc _ _ Hcur) as [conf Ha]. exists conf.
  by eapply same_configuration_accepted.
Qed.

Lemma lease_consistent held db t :
  lease_op db.(Db.orchestrations) t -> consistent held db ->
  consistent held (with_table db t) /\ carried db (with_table db t).
Proof.
  intros [->|(key & r1 & r' & H1 & Hl%relet_configuration & ->)]%lease_op_ok Hc;
    [by destruct db|].
  assert (forall r, Db.orchestrations db !! key = Some r -> same_configuration r r') as Hk
    by congruence.
  split; [|by apply carried_insert]. apply consistent_insert; [done..| |].
  - rewrite (same_configuration_run _ _ Hl). by eapply keyed.
  - destruct (rows_accepted _ _ Hc _ _ H1) as [c Ha]. exists c.
    by eapply same_configuration_accepted.
Qed.

Lemma write_consistent held db db' :
  write held db db' -> consistent held db -> consistent held db' /\ carried db db'.
Proof.
  intros [e db1 H|t H|now cmd n db1 Hb Hn H|key db1 H|key db1 c db2 H _ Hc2] Hc.
  - apply insert_audit_appends in H as ->. split; [by destruct Hc|by intros run r; exists r].
  - by apply lease_consistent.
  - apply insert_orchestration_ok in H as [Hnone ->].
    assert (forall r, Db.orchestrations db !! n.(ResearchOrchestrationRecord.research_run_id)
                      = Some r -> same_configuration r n) as Hk by congruence.
    split; [|by apply carried_insert]. apply consistent_insert; [done..|].
    by eapply start_row_accepted.
  - by eapply row_write_consistent.
  - destruct (row_write_consistent _ _ _ _ H Hc) as [Hc1 Hk1].
    apply insert_cycle_ok in Hc2 as [->|[-> _]]; [done|]. by destruct Hc1.
Qed.

Lemma writes_consistent held db db' :
  writes held db db' -> consistent held db -> consistent held db' /\ carried db db'.
Proof.
  induction 1 as [|db db1 db2 H1 _ IH]; [done|]. intros Hc.
  destruct (write_consistent _ _ _ H1 Hc) as [Hc1 Hk1]. destruct (IH Hc1) as [Hc2 Hk2].
  split; [done|by etrans].
Qed.

Lemma run_consistent s s' :
  rtc sys_step s s' -> consistent s.(Sys.held) s.(Sys.db) ->
  consistent s'.(Sys.held) s'.(Sys.db) /\ carried s.(Sys.db) s'.(Sys.db).
Proof.
  induction 1 as [|s s1 s2 H1 _ IH]; [done|]. intros Hc.
  apply sys_step_writes in H1 as [Hw Hheld].
  destruct (writes_consistent _ _ _ Hw Hc) as [[Hkey Hh Hacc] Hk1].
  destruct IH as [Hc2 Hk2]; [|split; [done|by etrans]].
  split; [done| |done]. intros h [Hin|[run Hr]]%Hheld; [by apply Hh|].
  exists h. by rewrite (Hkey _ _ Hr).
Qed.

(** ** The history tables *)

Definition cycle_key (c : ResearchCycleRecord.t) : string * Z :=
  (c.(ResearchCycleRecord.research_run_id), c.(ResearchCycleRecord.cycle_number)).

(** [uq_research_cycle_run_number] and the primary key. *)
Definition cycles_unique (db : Db.t) : Prop :=
  NoDup (cycle_key <$> db.(Db.cycles))
  /\ NoDup (ResearchCycleRecord.cycle_id <$> db.(Db.cycles)).

Definition history_extends (db db' : Db.t) : Prop :=
  (exists cs, db'.(Db.cycles) = db.(Db.cycles) ++ cs)
  /\ exists es, db'.(Db.audit_events) = db.(Db.audit_events) ++ es.

#[local] Instance history_extends_preorder : PreOrder history_extends.
Proof.
  split; [by intros db; split; exists []; rewrite app_nil_r|].
  intros db db1 db2 [[cs1 H1] [es1 H2]] [[cs2 H3] [es2 H4]]. split.
  - exists (cs1 ++ cs2). by rewrite H3, H1, app_assoc.
  - exists (es1 ++ es2). by rewrite H4, H2, app_assoc.
Qed.

Lemma NoDup_fmap_snoc {A B} (f : A -> B) l x :
  Forall (fun y => f y <> f x) l -> NoDup (f <$> l) -> NoDup (f <$> (l ++ [x])).
Proof.
  intros Hf Hl. rewrite fmap_app. apply NoDup_app. split; [done|].
  split; [|apply NoDup_singleton]. intros b Hb ->%list_elem_of_singleton.
  apply list_elem_of_fmap in Hb as (y & Hy & Hin). rewrite Forall_forall in Hf. by eapply Hf.
Qed.

Lemma write_history held db db' :
  write held db db' -> cycles_unique db -> cycles_unique db' /\ history_extends db db'.
Proof.
  assert (forall l : list AuditEventRecord.t, exists es, l = l ++ es) as Ha.
  { intros l. exists []. by rewrite app_nil_r. }
  assert (forall l : list ResearchCycleRecord.t, exists es, l = l ++ es) as Hc.
  { intros l. exists []. by rewrite app_nil_r. }
  intros [e db1 H|t H|now cmd n db1 Hb Hn H|key db1 [base c now cur _ _ _]
         |key db1 c db2 [base c0 now cur _ _ _] _ H] Hu.
  - apply insert_audit_appends in H as ->. split; [done|]. split; [apply Hc|by exists [e]].
  - split; [done|]. split; [apply Hc|apply Ha].
  - apply insert_orchestration_ok in H as [_ ->]. split; [done|]. split; [apply Hc|apply Ha].
  - split; [done|]. split; [apply Hc|apply Ha].
  - apply insert_cycle_ok in H as [->|[-> Hf]].
    + split; [done|]. split; [apply Hc|apply Ha].
    + destruct Hu as [Hu1 Hu2]. apply Forall_and in Hf as [Hf1 Hf2].
      split; [split; by apply NoDup_fmap_snoc|]. split; [by exists [c]|apply Ha].
Qed.

(** ** Whole executions *)

Lemma run_settled run s s' : rtc sys_step s s' -> settled run s.(Sys.db) s'.(Sys.db).
Proof.
  induction 1 as [|s s1 s2 H1 _ IH]; [done|]. apply sys_step_writes in H1 as [Hw _].
  etrans; [|exact IH]. clear IH. induction Hw as [|db db1 db2 H _ IH]; [done|].
  etrans; [by eapply write_settled|done].
Qed.

Lemma run_history s s' :
  rtc sys_step s s' -> cycles_unique s.(Sys.db) ->
  cycles_unique s'.(Sys.db) /\ history_extends s.(Sys.db) s'.(Sys.db).
Proof.
  induction 1 as [|s s1 s2 H1 _ IH]; [done|]. intros Hu.
  apply sys_step_writes in H1 as [Hw _].
  enough (cycles_unique s1.(Sys.db) /\ history_extends s.(Sys.db) s1.(Sys.db)) as [Hu1 He1].
  { destruct (IH Hu1) as [? ?]. split; [done|by etrans]. }
  clear IH. induction Hw as [|db db1 db2 Hw1 _ IHw]; [done|].
  destruct (write_history _ _ _ Hw1 Hu) as [Hu1 He1]. destruct (IHw Hu1) as [? ?].
  split; [done|by etrans].
Qed.
End executions.

(** C17. What a run has concluded survives everything: once its row is terminal, no
    interleaving of operator commands, ticks holding old copies of the row, reconcilers and
    lease operations changes any of its columns but the lease, or records a cycle of it. *)
Theorem conclusion_survives_every_write sha actor s s' run r :
  s.(Sys.db).(Db.orchestrations) !! run = Some r -> terminal r = true ->
  rtc (sys_step sha actor) s s' ->
  exists r', s'.(Sys.db).(Db.orchestrations) !! run = Some r' /\ relet r r'
  /\ cycles_of run s'.(Sys.db) = cycles_of run s.(Sys.db).
Proof. intros Hr Ht Hs. by apply (run_settled _ _ _ _ _ Hs). Qed.

(** C13. A cancellation is permanent: it stores the operator's reason and records no cycle,
    and whatever runs later, also a tick that read the row before, the run stays completed
    with that reason and no execution of it is added to the history. *)
Theorem cancel_is_permanent sha actor store `{OrchestrationStore store} db held id now run r db' res s :
  db.(Db.orchestrations) !! run = Some r ->
  r.(ResearchOrchestrationRecord.research_run_id) = run ->
  terminal r = false ->
  cancel store actor db id now run = Ok (db', res) ->
  rtc (sys_step sha actor) (Sys.mk db' held) s ->
  exists r', s.(Sys.db).(Db.orchestrations) !! run = Some r'
  /\ r'.(ResearchOrchestrationRecord.state) = "COMPLETED"
  /\ r'.(ResearchOrchestrationRecord.stop_reason) = Some "OPERATOR_CANCELLED"
  /\ r'.(ResearchOrchestrationRecord.cycle_number)
     = r.(ResearchOrchestrationRecord.cycle_number)
  /\ cycles_of run s.(Sys.db) = cycles_of run db.
Proof.
  unfold cancel, operator_state, reload, get_orchestration. intros Hr Hrun Ht Hc Hs.
  destruct (data_opaque_id run); [|done]. cbn [mbind result_bind] in Hc.
  rewrite Hr in Hc. cbn [mbind result_bind] in Hc. unfold terminal in Ht. rewrite Ht in Hc.
  apply bind_ok in Hc as (u & ->%replace_ok & Hc). apply bind_ok in Hc as (db1 & Hsave & [= <- _]).
  apply save_row_ok in Hsave as (cur & _ & _ & ->); [|done].
  edestruct (run_settled sha actor run _ _ Hs) as (r' & Hr' & (o & e & x & v & ->) & Hcs);
    [cbn; rewrite <- Hrun; apply lookup_insert_eq|reflexivity|].
  by eexists.
Qed.

(** C14. The configuration of a run never drifts: in every state the system reaches from an
    empty table, the configuration columns of a stored run pass the fingerprint check, and
    at every later state the run is there and has the same effective configuration, also
    when ticks write back copies they read long before. *)
Theorem configuration_never_drifts sha actor s0 s s' run r :
  s0.(Sys.db).(Db.orchestrations) = ∅ -> s0.(Sys.held) = [] ->
  rtc (sys_step sha actor) s0 s -> rtc (sys_step sha actor) s s' ->
  s.(Sys.db).(Db.orchestrations) !! run = Some r ->
  exists c r', configuration_from_record sha r = Ok c
  /\ s'.(Sys.db).(Db.orchestrations) !! run = Some r'
  /\ configuration_from_record sha r' = Ok c.
Proof.
  intros Hempty Hheld H0 H1 Hr.
  assert (consistent sha s0.(Sys.held) s0.(Sys.db)) as Hc.
  { rewrite Hheld. split; rewrite ?Hempty; [by intros ? ?|by intros ? ?%elem_of_nil|by intros ? ?]. }
  apply run_consistent in H0 as [Hc0 _]; [|done]. apply run_consistent in H1 as [_ Hk]; [|done].
  destruct (rows_accepted _ _ _ Hc0 _ _ Hr) as [c Ha]. destruct (Hk _ _ Hr) as (r' & Hr' & Hs).
  exists c, r'. split; [done|]. split; [done|]. by eapply same_configuration_accepted.
Qed.

(** The history of runs is append-only and no cycle is counted twice: the cycles of a
    state are a prefix of those of every later one, and so are the audit events, and no two
    cycles of a run have the same number. *)
Theorem history_is_append_only sha actor s s' :
  cycles_unique s.(Sys.db) -> rtc (sys_step sha actor) s s' ->
  cycles_unique s'.(Sys.db) /\ history_extends s.(Sys.db) s'.(Sys.db).
Proof. intros Hu Hs. by apply (run_history _ _ _ _ Hs). Qed.

(** ** A run: started, read by a tick, paused or cancelled, and checkpointed *)

Definition constant_digest (_ : pyval) : string := sample_digest.

Definition run1_start : StartAutonomousResearchCommand.t :=
  StartAutonomousResearchCommand.mk "run1" "b1" "https://a.example"
    (ScopeEvaluationInput.mk [] false) sample_bounds "question" false.

Definition no_runs : Db.t := Db.mk {["run1"]} ∅ [] [].

Definition run_or (db : Db.t) {A} (r : result (Db.t * A)) : Db.t :=
  match r with Ok (db, _) => db | Raise _ => db end.

Definition started : Db.t := run_or no_runs (start constant_digest "op" no_runs "a1" 10 run1_start).

Definition row_of (db : Db.t) : row :=
  default (sample_orchestration 0) (db.(Db.orchestrations) !! "run1").

Definition cancelled : Db.t :=
  run_or started (cancel (plain_store 20) "op" started "a2" 20 "run1").

(** The tick that read the row before the cancellation stops the run, in vain. *)
Definition after_stop : Db.t :=
  run_or cancelled (stop (plain_store 30) cancelled "c1" 30 (row_of started)
                      StopReason.MAX_CYCLES_REACHED "bounds" None None None false None).

Example the_sample_run :
  ((row_of started).(ResearchOrchestrationRecord.state),
   (row_of cancelled).(ResearchOrchestrationRecord.stop_reason),
   (row_of after_stop).(ResearchOrchestrationRecord.stop_reason),
   length after_stop.(Db.cycles), length after_stop.(Db.audit_events))
  = ("READY", Some "OPERATOR_CANCELLED", Some "OPERATOR_CANCELLED", 0%nat, 1%nat).
Proof. vm_compute. reflexivity. Qed.

Lemma step_start :
  sys_step constant_digest "op" (Sys.mk no_runs []) (Sys.mk started []).
Proof. by eapply (sys_start _ _ (Sys.mk no_runs []) "a1" 10 run1_start); vm_compute. Qed.

Lemma step_read : sys_step constant_digest "op" (Sys.mk started []) (Sys.mk started [row_of started]).
Proof. apply (sys_read _ _ (Sys.mk started [])). by exists "run1". Qed.

Lemma step_cancel :
  sys_step constant_digest "op" (Sys.mk started [row_of started])
    (Sys.mk cancelled [row_of started]).
Proof.
  by eapply (sys_cancel _ _ (plain_store 20) (Sys.mk started [row_of started]) "a2" 20 "run1");
    vm_compute.
Qed.

Lemma step_late_stop :
  sys_step constant_digest "op" (Sys.mk cancelled [row_of started])
    (Sys.mk after_stop [row_of started]).
Proof.
  eapply (sys_stop _ _ (plain_store 30) (Sys.mk cancelled [row_of started]) "c1" 30
    (row_of started) StopReason.MAX_CYCLES_REACHED "bounds" None None None false None);
    [apply list_elem_of_here|by vm_compute].
Qed.

Lemma conclusion_survives_every_write_witness :
  exists r', after_stop.(Db.orchestrations) !! "run1" = Some r' /\ relet (row_of cancelled) r'.
Proof.
  destruct (conclusion_survives_every_write constant_digest "op"
    (Sys.mk cancelled [row_of started]) (Sys.mk after_stop [row_of started]) "run1"
    (row_of cancelled)) as (r' & H & Hl & _);
    [by vm_compute|by vm_compute|apply rtc_once, step_late_stop|].
  exists r'. split; [exact H|exact Hl].
Defined.

Lemma cancel_is_permanent_witness :
  exists r', after_stop.(Db.orchestrations) !! "run1" = Some r'
  /\ r'.(ResearchOrchestrationRecord.stop_reason) = Some "OPERATOR_CANCELLED".
Proof.
  edestruct (cancel_is_permanent constant_digest "op" (plain_store 20) started [row_of started]
    "a2" 20 "run1" (row_of started) cancelled) as (r' & H & _ & Hs & _);
    [by vm_compute|by vm_compute|by vm_compute|by vm_compute|apply rtc_once, step_late_stop|].
  exists r'. split; [exact H|exact Hs].
Defined.

Lemma configuration_never_drifts_witness :
  exists c r', configuration_from_record constant_digest (row_of started) = Ok c
  /\ after_stop.(Db.orchestrations) !! "run1" = Some r'
  /\ configuration_from_record constant_digest r' = Ok c.
Proof.
  apply (configuration_never_drifts constant_digest "op" (Sys.mk no_runs [])
    (Sys.mk started [row_of started]) (Sys.mk after_stop [row_of started]));
    [by vm_compute|reflexivity| | |by vm_compute].
  - eapply rtc_l; [apply step_start|apply rtc_once, step_read].
  - eapply rtc_l; [apply step_cancel|apply rtc_once, step_late_stop].
Defined.

(** The tick that is not cancelled completes a cycle. *)
Definition completed : Db.t :=
  run_or started (stop (plain_store 30) started "c1" 30 (row_of started)
                    StopReason.MAX_CYCLES_REACHED "bounds" None None None false None).

Lemma history_is_append_only_witness :
  cycles_unique completed /\ length completed.(Db.cycles) = 1%nat
  /\ history_extends started completed.
Proof.
  destruct (history_is_append_only constant_digest "op" (Sys.mk started [row_of started])
    (Sys.mk completed [row_of started])) as [H1 H2];
    [split; apply NoDup_nil_2| |split; [exact H1|split; [reflexivity|exact H2]]].
  apply rtc_once. eapply (sys_stop _ _ (plain_store 30) (Sys.mk started [row_of started]) "c1" 30
    (row_of started) StopReason.MAX_CYCLES_REACHED "bounds" None None None false None);
    [apply list_elem_of_here|by vm_compute].
Defined.

(** A pause is not kept from a tick in flight: the tick read the row before the operator
    paused the run, and its next checkpoint writes [RUNNING] over the pause, though the
    stop reason it keeps is that of the row it read. *)
Example pause_lost_by_checkpoint :
  let paused := run_or started (pause (plain_store 20) "op" started "a2" 20 "run1") in
  let resumed := run_or paused (checkpoint (plain_store 30) paused 30 (row_of started)
                                  OrchestrationPhase.OPPORTUNITY_SELECTED CheckpointArgs.none) in
  (row_of paused).(ResearchOrchestrationRecord.state) = "PAUSED"
  /\ (row_of resumed).(ResearchOrchestrationRecord.state) = "RUNNING"
  /\ (row_of resumed).(ResearchOrchestrationRecord.pause_reason) = None.
Proof. vm_compute. repeat split. Qed.
