(* ===== verification/Frontier.v ===== *)
(** * The discovery frontier: items, lifecycle events and selection

    [research/discovery/frontier.py] with the vocabularies of
    [research/discovery/types.py] it uses.  A frontier item is a proposed piece of
    discovery work; its state is reconstructed from its events.  A validating constructor
    returns the stripped copy it stores. *)
From S2P Require Import Prelude PyVal.

(** [research/discovery/types.py:7 SURFACE_DISCOVERY_STRATEGY_VERSION] *)
Definition SURFACE_DISCOVERY_STRATEGY_VERSION : string := "surface.discovery.v1".
(** [research/discovery/types.py:8 ANONYMOUS_IDENTITY_ID] *)
Definition ANONYMOUS_IDENTITY_ID : string := "ANONYMOUS".

(** [research/discovery/types.py:10-35 FORBIDDEN_DISCOVERY_KEYS] *)
Definition FORBIDDEN_DISCOVERY_KEYS : list string :=
  [ "token"; "password"; "api_key"; "apiKey"; "raw_secret"; "credential"; "secret_value";
    "secretValue"; "session_token"; "cookie"; "authorization"; "severity"; "cvss"; "cve";
    "vulnerability"; "exploit"; "confidence"; "finding"; "candidate"; "hidden_route_map";
    "ground_truth"; "benchmark_truth" ].

(** [research/discovery/types.py:69-76 DiscoveryGoalKind] *)
Module DiscoveryGoalKind.
Inductive t : Set :=
  | INSPECT_PATH | INSPECT_CONTROL | CHARACTERIZE_HTTP_OPERATION | OBSERVE_UNDER_IDENTITY
  | RESOLVE_TRANSITION_RESULT | RESOLVE_OBJECT_TYPE | INSPECT_SPA_PATH.
#[global] Instance eq_dec : EqDecision t.
Proof. solve_decision. Defined.
Definition value (x : t) : string :=
  match x with
  | INSPECT_PATH => "INSPECT_PATH"
  | INSPECT_CONTROL => "INSPECT_CONTROL"
  | CHARACTERIZE_HTTP_OPERATION => "CHARACTERIZE_HTTP_OPERATION"
  | OBSERVE_UNDER_IDENTITY => "OBSERVE_UNDER_IDENTITY"
  | RESOLVE_TRANSITION_RESULT => "RESOLVE_TRANSITION_RESULT"
  | RESOLVE_OBJECT_TYPE => "RESOLVE_OBJECT_TYPE"
  | INSPECT_SPA_PATH => "INSPECT_SPA_PATH"
  end.
Definition members : list t :=
  [ INSPECT_PATH; INSPECT_CONTROL; CHARACTERIZE_HTTP_OPERATION; OBSERVE_UNDER_IDENTITY;
    RESOLVE_TRANSITION_RESULT; RESOLVE_OBJECT_TYPE; INSPECT_SPA_PATH ].

(** [DiscoveryGoalKind(value)] *)
Definition of_value (s : string) : result t :=
  match List.find (fun x => (value x =? s)%string) members with
  | Some x => Ok x
  | None => Raise ValueError
  end.
End DiscoveryGoalKind.

(** [research/discovery/types.py:96-108 FrontierEventKind] *)
Module FrontierEventKind.
Inductive t : Set :=
  | CREATED | ELIGIBLE | SELECTED | BLOCKED_SCOPE | BLOCKED_AUTH | BLOCKED_BUDGET
  | AWAITING_REAUTHORIZATION | NO_NEW_INFORMATION | OBSERVED | FAILED_TRANSIENT
  | FAILED_TERMINAL | SUPERSEDED.
#[global] Instance eq_dec : EqDecision t.
Proof. solve_decision. Defined.
Definition value (x : t) : string :=
  match x with
  | CREATED => "CREATED" | ELIGIBLE => "ELIGIBLE" | SELECTED => "SELECTED"
  | BLOCKED_SCOPE => "BLOCKED_SCOPE" | BLOCKED_AUTH => "BLOCKED_AUTH"
  | BLOCKED_BUDGET => "BLOCKED_BUDGET"
  | AWAITING_REAUTHORIZATION => "AWAITING_REAUTHORIZATION"
  | NO_NEW_INFORMATION => "NO_NEW_INFORMATION" | OBSERVED => "OBSERVED"
  | FAILED_TRANSIENT => "FAILED_TRANSIENT" | FAILED_TERMINAL => "FAILED_TERMINAL"
  | SUPERSEDED => "SUPERSEDED"
  end.
Definition members : list t :=
  [ CREATED; ELIGIBLE; SELECTED; BLOCKED_SCOPE; BLOCKED_AUTH; BLOCKED_BUDGET;
    AWAITING_REAUTHORIZATION; NO_NEW_INFORMATION; OBSERVED; FAILED_TRANSIENT;
    FAILED_TERMINAL; SUPERSEDED ].

(** [FrontierEventKind(value)] *)
Definition of_value (s : string) : result t :=
  match List.find (fun x => (value x =? s)%string) members with
  | Some x => Ok x
  | None => Raise ValueError
  end.

Lemma of_value_value x : of_value (value x) = Ok x.
Proof. by destruct x. Qed.

#[global] Instance value_inj : Inj (=) (=) value.
Proof. intros x y H. assert (Ok x = Ok y) as [= ->] by by rewrite <- !of_value_value, H. done. Qed.

Lemma of_value_ok s x : of_value s = Ok x -> s = value x.
Proof.
  unfold of_value. destruct (List.find _ _) eqn:E; [|done]. intros [= <-].
  apply List.find_some in E as [_ E%String.eqb_eq]. done.
Qed.
End FrontierEventKind.

(** [FrontierState] has the labels of [FrontierEventKind].
    [research/discovery/types.py:79-93 FrontierState] *)
Module FrontierState.
Definition t : Set := FrontierEventKind.t.
Definition value : t -> string := FrontierEventKind.value.
Definition of_value : string -> result t := FrontierEventKind.of_value.
End FrontierState.

(** [research/discovery/frontier.py:17-25 GOAL_PRIORITY] *)
Definition GOAL_PRIORITY : list DiscoveryGoalKind.t :=
  [ DiscoveryGoalKind.INSPECT_PATH; DiscoveryGoalKind.INSPECT_SPA_PATH;
    DiscoveryGoalKind.OBSERVE_UNDER_IDENTITY; DiscoveryGoalKind.CHARACTERIZE_HTTP_OPERATION;
    DiscoveryGoalKind.INSPECT_CONTROL; DiscoveryGoalKind.RESOLVE_TRANSITION_RESULT;
    DiscoveryGoalKind.RESOLVE_OBJECT_TYPE ].

(** [research/discovery/frontier.py:27-85 LEGAL_TRANSITIONS] *)
Definition LEGAL_TRANSITIONS (latest : FrontierEventKind.t) : list FrontierEventKind.t :=
  match latest with
  | FrontierEventKind.CREATED =>
      [ FrontierEventKind.ELIGIBLE; FrontierEventKind.BLOCKED_SCOPE;
        FrontierEventKind.BLOCKED_AUTH; FrontierEventKind.BLOCKED_BUDGET;
        FrontierEventKind.SUPERSEDED ]
  | FrontierEventKind.ELIGIBLE =>
      [ FrontierEventKind.SELECTED; FrontierEventKind.BLOCKED_SCOPE;
        FrontierEventKind.BLOCKED_AUTH; FrontierEventKind.BLOCKED_BUDGET;
        FrontierEventKind.SUPERSEDED; FrontierEventKind.NO_NEW_INFORMATION ]
  | FrontierEventKind.SELECTED =>
      [ FrontierEventKind.OBSERVED; FrontierEventKind.NO_NEW_INFORMATION;
        FrontierEventKind.FAILED_TRANSIENT; FrontierEventKind.FAILED_TERMINAL;
        FrontierEventKind.AWAITING_REAUTHORIZATION; FrontierEventKind.BLOCKED_SCOPE;
        FrontierEventKind.BLOCKED_AUTH; FrontierEventKind.BLOCKED_BUDGET;
        FrontierEventKind.SUPERSEDED ]
  | FrontierEventKind.FAILED_TRANSIENT =>
      [ FrontierEventKind.ELIGIBLE; FrontierEventKind.FAILED_TERMINAL;
        FrontierEventKind.SUPERSEDED ]
  | FrontierEventKind.AWAITING_REAUTHORIZATION =>
      [ FrontierEventKind.ELIGIBLE; FrontierEventKind.BLOCKED_AUTH;
        FrontierEventKind.SUPERSEDED ]
  | FrontierEventKind.NO_NEW_INFORMATION | FrontierEventKind.BLOCKED_AUTH =>
      [ FrontierEventKind.ELIGIBLE; FrontierEventKind.SUPERSEDED ]
  | FrontierEventKind.OBSERVED | FrontierEventKind.BLOCKED_SCOPE
  | FrontierEventKind.BLOCKED_BUDGET | FrontierEventKind.FAILED_TERMINAL =>
      [ FrontierEventKind.SUPERSEDED ]
  | FrontierEventKind.SUPERSEDED => []
  end.

(** [research/discovery/frontier.py:87-95 TERMINAL_EVENT_KINDS] *)
Definition TERMINAL_EVENT_KINDS : list FrontierEventKind.t :=
  [ FrontierEventKind.OBSERVED; FrontierEventKind.BLOCKED_SCOPE;
    FrontierEventKind.BLOCKED_BUDGET; FrontierEventKind.FAILED_TERMINAL;
    FrontierEventKind.SUPERSEDED ].

(** [research/discovery/frontier.py:98-101 _require_text] *)
Definition require_text (value : string) : result string :=
  raise_if Str.is_blank value as ResearchInputError;;
  Ok (Str.strip value).

(** [research/discovery/frontier.py:104-107 _require_side_effect] *)
Definition require_side_effect (value : Z) : result Z :=
  raise_if negb (mem value [0; 1; 2; 3]) as ResearchInputError;;
  Ok value.

(** [research/discovery/frontier.py:111-176 FrontierItem] *)
Module FrontierItem.
Record t : Type := mk {
  frontier_id : string;
  research_run_id : string;
  goal_kind : DiscoveryGoalKind.t;
  candidate_origin : string;
  candidate_path : string;
  identity_id : string;
  proposed_capability : string;
  proposed_action : string;
  expected_side_effect : Z;
  budget_class : Z;
  structural_signature : string;
  dedupe_identity : string;
  strategy_version : string;
  session_context_id : option string;
  scope_hint : option string;
  attributes : option (list (string * pyval)) }.

Definition attribute_keys (x : t) : list string :=
  match x.(attributes) with Some d => d.*1 | None => [] end.

Definition post_init (x : t) : result t :=
  fid ← require_text x.(frontier_id);
  run ← require_text x.(research_run_id);
  origin ← require_text x.(candidate_origin);
  path ← require_text x.(candidate_path);
  identity ← require_text x.(identity_id);
  capability ← require_text x.(proposed_capability);
  action ← require_text x.(proposed_action);
  effect ← require_side_effect x.(expected_side_effect);
  budget ← require_side_effect x.(budget_class);
  signature ← require_text x.(structural_signature);
  raise_if Str.starts_with signature "el-" || mem "element_reference" (attribute_keys x)
  as ResearchInputError;;
  dedupe ← require_text x.(dedupe_identity);
  version ← require_text x.(strategy_version);
  raise_if negb (version =? SURFACE_DISCOVERY_STRATEGY_VERSION)%string as ResearchInputError;;
  raise_if existsb (fun k => mem k FORBIDDEN_DISCOVERY_KEYS) (attribute_keys x)
  as ResearchInputError;;
  Ok (mk fid run x.(goal_kind) origin path identity capability action effect budget signature
        dedupe version x.(session_context_id) x.(scope_hint) x.(attributes)).
End FrontierItem.

(** [research/discovery/frontier.py:180-204 FrontierEvent] *)
Module FrontierEvent.
Record t : Set := mk {
  event_id : string;
  frontier_id : string;
  research_run_id : string;
  event_kind : FrontierEventKind.t;
  sequence : Z;
  selection_generation : option Z;
  execution_attempt_id : option string;
  reason_code : option string }.

Definition post_init (x : t) : result t :=
  a ← require_text x.(event_id);
  b ← require_text x.(frontier_id);
  c ← require_text x.(research_run_id);
  raise_if x.(sequence) <? 1 as ResearchInputError;;
  raise_if bool_decide (x.(event_kind) = FrontierEventKind.SELECTED)
           && match x.(selection_generation) with None => true | Some g => g <? 1 end
  as ResearchInputError;;
  _ ← match x.(execution_attempt_id) with
      | None => Ok None
      | Some e => e ← require_text e; Ok (Some e)
      end;
  Ok (mk a b c x.(event_kind) x.(sequence) x.(selection_generation) x.(execution_attempt_id)
        x.(reason_code)).
End FrontierEvent.

(** [research/discovery/frontier.py:207-213 legal_frontier_transition] *)
Definition legal_frontier_transition (latest : option FrontierEventKind.t)
    (nxt : FrontierEventKind.t) : bool :=
  match latest with
  | None => bool_decide (nxt = FrontierEventKind.CREATED)
  | Some latest => mem nxt (LEGAL_TRANSITIONS latest)
  end.

Definition selected_generation (item : FrontierEvent.t) : option Z :=
  if bool_decide (item.(FrontierEvent.event_kind) = FrontierEventKind.SELECTED)
  then item.(FrontierEvent.selection_generation) else None.

(** [max(l)] of a non-empty list. *)
Fixpoint list_max (x : Z) (l : list Z) : Z :=
  match l with [] => x | y :: l' => list_max (Z.max x y) l' end.

(** [research/discovery/frontier.py:216-222 next_selection_generation] *)
Definition next_selection_generation (events : list FrontierEvent.t) : Z :=
  match omap selected_generation events with
  | [] => 0
  | x :: l => list_max x l
  end + 1.

(** [research/discovery/frontier.py:225-228 latest_event] *)
Definition latest_event (events : list FrontierEvent.t) : option FrontierEvent.t :=
  last (sort_by (fun item => (item.(FrontierEvent.sequence), item.(FrontierEvent.event_id)))
          events).

(** [research/discovery/frontier.py:231-235 reconstruct_state] *)
Definition reconstruct_state (events : list FrontierEvent.t) : result (option FrontierState.t) :=
  match latest_event events with
  | None => Ok None
  | Some latest =>
      s ← FrontierState.of_value
            (FrontierEventKind.value latest.(FrontierEvent.event_kind));
      Ok (Some s)
  end.

(** [GOAL_PRIORITY.index(kind)] *)
Fixpoint index_of (x : DiscoveryGoalKind.t) (l : list DiscoveryGoalKind.t) : Z :=
  match l with
  | [] => 0
  | y :: l' => if bool_decide (x = y) then 0 else 1 + index_of x l'
  end.

(** The key of [ranked.sort].
    [research/discovery/frontier.py:253-257 select_eligible_frontier] *)
Definition rank_key (item : FrontierItem.t) : Z * (Z * (string * string)) :=
  (item.(FrontierItem.budget_class),
   (index_of item.(FrontierItem.goal_kind) GOAL_PRIORITY,
    (item.(FrontierItem.dedupe_identity), item.(FrontierItem.frontier_id)))).

(** What the loop over the items keeps.
    [research/discovery/frontier.py:247-252 select_eligible_frontier] *)
Definition selectable (events_by_frontier : string -> list FrontierEvent.t)
    (max_side_effect : Z) (item : FrontierItem.t) : bool :=
  negb ((max_side_effect <? item.(FrontierItem.budget_class))
        || (max_side_effect <? item.(FrontierItem.expected_side_effect)))
  && match latest_event (events_by_frontier item.(FrontierItem.frontier_id)) with
     | None => false
     | Some latest =>
         bool_decide (latest.(FrontierEvent.event_kind) = FrontierEventKind.ELIGIBLE)
     end.

(** [events_by_frontier] is [events_by_frontier.get(frontier_id, ())].
    [research/discovery/frontier.py:238-258 select_eligible_frontier] *)
Definition select_eligible_frontier (items : list FrontierItem.t)
    (events_by_frontier : string -> list FrontierEvent.t) (max_side_effect : Z)
    : option FrontierItem.t :=
  head (sort_by rank_key (List.filter (selectable events_by_frontier max_side_effect) items)).

(** ** Histories *)

(** Each kind of [ks] may follow the one before it, the first one [latest]. *)
Fixpoint legal_from (latest : option FrontierEventKind.t) (ks : list FrontierEventKind.t) : bool :=
  match ks with
  | [] => true
  | k :: ks' => legal_frontier_transition latest k && legal_from (Some k) ks'
  end.

(** The kind a history ends in. *)
Definition final (latest : option FrontierEventKind.t) (ks : list FrontierEventKind.t)
    : option FrontierEventKind.t :=
  match last ks with Some k => Some k | None => latest end.

Lemma final_cons latest k ks : final latest (k :: ks) = final (Some k) ks.
Proof. unfold final. rewrite last_cons. by destruct (last ks). Qed.

Lemma final_snoc latest ks k : final latest (ks ++ [k]) = Some k.
Proof. unfold final. by rewrite last_snoc. Qed.

Lemma legal_from_app latest ks1 ks2 :
  legal_from latest (ks1 ++ ks2) = legal_from latest ks1 && legal_from (final latest ks1) ks2.
Proof.
  revert latest. induction ks1 as [|k ks1 IH]; intros latest; [done|].
  cbn [app legal_from]. by rewrite IH, final_cons, andb_assoc.
Qed.

Lemma legal_from_snoc latest ks k :
  legal_from latest (ks ++ [k]) = true <->
  legal_from latest ks = true /\ legal_frontier_transition (final latest ks) k = true.
Proof. rewrite legal_from_app. cbn. by rewrite andb_true_r, andb_true_iff. Qed.

(** From a terminal kind the only way on is [SUPERSEDED], and from there none. *)
Lemma legal_from_terminal k ks :
  k ∈ TERMINAL_EVENT_KINDS -> legal_from (Some k) ks = true ->
  ks = [] \/ ks = [FrontierEventKind.SUPERSEDED].
Proof.
  intros Hk. destruct ks as [|k1 ks]; [by left|]. cbn. rewrite andb_true_iff, mem_true.
  intros [H1 H2]. right.
  assert (k1 = FrontierEventKind.SUPERSEDED) as -> by (destruct k; set_solver).
  destruct ks as [|k2 ks]; [done|]. cbn in H2. rewrite andb_true_iff, mem_true in H2. set_solver.
Qed.

(** ** Selection *)

Lemma select_eligible_spec items events max_side_effect :
  match select_eligible_frontier items events max_side_effect with
  | Some chosen =>
      chosen ∈ items /\ selectable events max_side_effect chosen = true
      /\ forall item, item ∈ items -> selectable events max_side_effect item = true ->
           kle (rank_key chosen) (rank_key item) = true
  | None => forall item, item ∈ items -> selectable events max_side_effect item = false
  end.
Proof.
  unfold select_eligible_frontier. set (l := List.filter _ items).
  destruct (sort_by rank_key l) as [|chosen rest] eqn:E; cbn [head].
  - apply filter_nil_bool. fold l. apply length_zero_iff_nil.
    by rewrite <- (length_sort_by rank_key), E.
  - assert (chosen ∈ l) as [Hin Hs]%elem_of_list_filter_bool.
    { rewrite <- (elem_of_sort_by rank_key), E. left. }
    split; [done|]. split; [done|]. intros item Hi Hsel.
    eapply sort_by_head_min; [exact E|]. by apply elem_of_list_filter_bool.
Qed.

Lemma selectable_true events max_side_effect item :
  selectable events max_side_effect item = true <->
  item.(FrontierItem.budget_class) <= max_side_effect
  /\ item.(FrontierItem.expected_side_effect) <= max_side_effect
  /\ exists e, latest_event (events item.(FrontierItem.frontier_id)) = Some e
     /\ e.(FrontierEvent.event_kind) = FrontierEventKind.ELIGIBLE.
Proof.
  unfold selectable. rewrite andb_true_iff, negb_true_iff, orb_false_iff, !Z.ltb_ge.
  destruct (latest_event _) as [e|]; [rewrite bool_decide_eq_true|]; naive_solver.
Qed.

(** ** Events in the order of their sequence numbers *)

Definition numbered {A} (number : A -> Z) (from : Z) (l : list A) : Prop :=
  number <$> l = seqZ from (Z.of_nat (length l)).

Lemma numbered_nil {A} (number : A -> Z) from : numbered number from [].
Proof. done. Qed.

Lemma numbered_cons {A} (number : A -> Z) from x l :
  numbered number from (x :: l) <-> number x = from /\ numbered number (from + 1) l.
Proof.
  unfold numbered. cbn [fmap list_fmap length]. rewrite seqZ_cons by lia.
  replace (Z.pred (Z.of_nat (S (length l)))) with (Z.of_nat (length l)) by lia.
  rewrite Z.add_1_r. split; [intros E; injection E; auto|intros [-> ?]; by f_equal].
Qed.

Lemma numbered_snoc {A} (number : A -> Z) from x l :
  numbered number from (l ++ [x]) <->
  numbered number from l /\ number x = from + Z.of_nat (length l).
Proof.
  revert from. induction l as [|y l IH]; intros from; cbn [app].
  - rewrite numbered_cons. cbn. rewrite Z.add_0_r. split; intros []; by repeat split.
  - rewrite !numbered_cons, IH. cbn [length].
    replace (from + Z.of_nat (S (length l))) with (from + 1 + Z.of_nat (length l)) by lia. tauto.
Qed.

Lemma numbered_lower {A} (number : A -> Z) from l x :
  numbered number from l -> x ∈ l -> from <= number x < from + Z.of_nat (length l).
Proof.
  revert from. induction l as [|y l IH]; intros from Hn Hx; [by apply elem_of_nil in Hx|].
  apply numbered_cons in Hn as [Hy Hn]. cbn [length]. apply elem_of_cons in Hx as [->|Hx]; [lia|].
  specialize (IH _ Hn Hx). lia.
Qed.

Lemma latest_event_numbered from l :
  numbered FrontierEvent.sequence from l -> latest_event l = last l.
Proof.
  intros Hn. unfold latest_event. f_equal. apply sort_by_sorted_id. revert from Hn.
  induction l as [|x l IH]; intros from Hn; [constructor|].
  apply numbered_cons in Hn as [Hx Hn]. constructor; [by eapply IH|]. apply Forall_forall.
  intros y Hy. pose proof (numbered_lower _ _ _ _ Hn Hy) as Hlt. unfold key_le. cbn.
  unfold prod_kle. cbn. rewrite andb_true_iff, orb_true_iff, negb_true_iff, Z.leb_le, Z.leb_gt.
  lia.
Qed.

Lemma list_max_seq x n : list_max x (seqZ (x + 1) (Z.of_nat n)) = x + Z.of_nat n.
Proof.
  revert x. induction n as [|n IH]; intros x; [by rewrite Z.add_0_r|].
  rewrite seqZ_cons by lia. cbn [list_max].
  replace (x `max` (x + 1)) with (x + 1) by lia.
  replace (Z.pred (Z.of_nat (S n))) with (Z.of_nat n) by lia.
  rewrite <- Z.add_1_r, IH. lia.
Qed.

Lemma next_selection_generation_seq events n :
  omap selected_generation events = seqZ 1 (Z.of_nat n) ->
  next_selection_generation events = Z.of_nat n + 1.
Proof.
  unfold next_selection_generation. intros ->. destruct n as [|n]; [done|].
  rewrite seqZ_cons by lia. replace (Z.pred (Z.of_nat (S n))) with (Z.of_nat n) by lia.
  rewrite <- Z.add_1_r, list_max_seq. lia.
Qed.

(** The frontier chooses well: the item selected is an eligible one within the side
    effect ceiling, no other such item comes before it in the order of budget class, goal
    priority, dedupe identity and id, and nothing is selected exactly when no item is
    eligible within the ceiling. *)
Theorem selects_best_eligible items events max_side_effect :
  match select_eligible_frontier items events max_side_effect with
  | Some chosen =>
      chosen ∈ items /\ selectable events max_side_effect chosen = true
      /\ forall item, item ∈ items -> selectable events max_side_effect item = true ->
           kle (rank_key chosen) (rank_key item) = true
  | None =>
      forall item, item ∈ items ->
        max_side_effect < item.(FrontierItem.budget_class)
        \/ max_side_effect < item.(FrontierItem.expected_side_effect)
        \/ forall e, latest_event (events item.(FrontierItem.frontier_id)) = Some e ->
             e.(FrontierEvent.event_kind) <> FrontierEventKind.ELIGIBLE
  end.
Proof.
  pose proof (select_eligible_spec items events max_side_effect) as H.
  destruct (select_eligible_frontier _ _ _); [done|]. intros item Hi.
  specialize (H item Hi). apply not_true_iff_false in H. rewrite selectable_true in H.
  destruct (Z.le_gt_cases item.(FrontierItem.budget_class) max_side_effect); [|by left].
  destruct (Z.le_gt_cases item.(FrontierItem.expected_side_effect) max_side_effect);
    [|by right; left]. right. right. naive_solver.
Qed.

(** [TERMINAL_EVENT_KINDS] are the kinds that end the life of an item: they are those
    from which no legal history selects the item again, and at most a [SUPERSEDED] event
    follows one. *)
Theorem terminal_kinds_end_the_lifecycle k :
  (k ∈ TERMINAL_EVENT_KINDS <->
   forall ks, legal_from (Some k) ks = true -> FrontierEventKind.SELECTED ∉ ks)
  /\ (k ∈ TERMINAL_EVENT_KINDS -> forall ks, legal_from (Some k) ks = true ->
      ks = [] \/ ks = [FrontierEventKind.SUPERSEDED]).
Proof.
  split; [split|intros Hk ks; by apply legal_from_terminal].
  - intros Hk ks H. destruct (legal_from_terminal _ _ Hk H) as [-> | ->]; set_solver.
  - intros H. destruct (decide (k ∈ TERMINAL_EVENT_KINDS)) as [|Hn]; [done|]. exfalso.
    assert (forall ks, legal_from (Some k) ks = true -> FrontierEventKind.SELECTED ∈ ks -> False)
      as H' by (intros; by eapply H). clear H.
    destruct k; try by apply Hn, mem_true.
    1: eapply (H' [FrontierEventKind.ELIGIBLE; FrontierEventKind.SELECTED]).
    3: eapply (H' [FrontierEventKind.SELECTED]).
    5: eapply (H' [FrontierEventKind.FAILED_TRANSIENT; FrontierEventKind.ELIGIBLE;
                   FrontierEventKind.SELECTED]).
    7,8,9,10: eapply (H' [FrontierEventKind.ELIGIBLE; FrontierEventKind.SELECTED]).
    all: first [reflexivity | by apply mem_true].
Qed.
