(* ===== verification/DiscoveryConfig.v ===== *)
(** * The configuration of a discovery run

    [research/discovery/config.py] and [application/discovery/config.py]: the limits of
    surface discovery, their persisted form and the check that a resumed run does not widen
    them.  SHA-256 of the canonical JSON is a parameter.  The eleven [max_*] fields are one
    record, [DiscoveryBounds], also in the persisted row. *)
From S2P Require Import Prelude PyVal Records Frontier.

(** [research/discovery/config.py:13-30 IMMUTABLE_DISCOVERY_CONFIG_KEYS] *)
Definition IMMUTABLE_DISCOVERY_CONFIG_KEYS : list string :=
  [ "research_run_id"; "strategy_version"; "seed_target_reference"; "normalized_origin";
    "normalized_path"; "max_discovery_cycles"; "max_frontier_items"; "max_new_facts_per_cycle";
    "max_browser_actions"; "max_http_transactions"; "max_per_route_revisit";
    "max_identity_variants"; "max_transition_depth"; "max_graph_depth_from_seed";
    "max_template_inference_fanout"; "max_duplicate_observations" ].

(** [research/discovery/config.py:33-36 _require_non_negative] *)
Definition require_non_negative (value : Z) : result Z :=
  raise_if value <? 0 as ResearchInputError;;
  Ok value.

(** [research/discovery/config.py:46-74 DiscoveryBounds] *)
Module DiscoveryBounds.
Record t : Set := mk {
  max_discovery_cycles : Z;
  max_frontier_items : Z;
  max_new_facts_per_cycle : Z;
  max_browser_actions : Z;
  max_http_transactions : Z;
  max_per_route_revisit : Z;
  max_identity_variants : Z;
  max_transition_depth : Z;
  max_graph_depth_from_seed : Z;
  max_template_inference_fanout : Z;
  max_duplicate_observations : Z }.

#[global] Instance eq_dec : EqDecision t.
Proof. solve_decision. Defined.

(** The fields in the order of the class. *)
Definition fields (x : t) : list Z :=
  [ x.(max_discovery_cycles); x.(max_frontier_items); x.(max_new_facts_per_cycle);
    x.(max_browser_actions); x.(max_http_transactions); x.(max_per_route_revisit);
    x.(max_identity_variants); x.(max_transition_depth); x.(max_graph_depth_from_seed);
    x.(max_template_inference_fanout); x.(max_duplicate_observations) ].

Definition post_init (x : t) : result t :=
  _ ← traverse require_non_negative (fields x);
  Ok x.

#[global] Instance post_init_validator : Validator post_init.
Proof. solve_validator. Qed.
End DiscoveryBounds.

(** [research/discovery/config.py:78-132 DiscoveryRunConfig] *)
Module DiscoveryRunConfig.
Record t : Set := mk {
  research_run_id : string;
  seed_target_reference : string;
  normalized_origin : string;
  normalized_path : string;
  bounds : DiscoveryBounds.t;
  strategy_version : string }.

#[global] Instance eq_dec : EqDecision t.
Proof. solve_decision. Defined.

Definition post_init (x : t) : result t :=
  run ← require_text x.(research_run_id);
  seed ← require_text x.(seed_target_reference);
  origin ← require_text x.(normalized_origin);
  path ← require_text x.(normalized_path);
  version ← require_text x.(strategy_version);
  raise_if negb (version =? SURFACE_DISCOVERY_STRATEGY_VERSION)%string as ResearchInputError;;
  Ok (mk run seed origin path x.(bounds) version).
End DiscoveryRunConfig.

(** [research/discovery/config.py:111-129 DiscoveryRunConfig.config_payload] *)
Definition config_payload (c : DiscoveryRunConfig.t) : list (string * pyval) :=
  let b := c.(DiscoveryRunConfig.bounds) in
  [ ("research_run_id", PStr c.(DiscoveryRunConfig.research_run_id));
    ("strategy_version", PStr c.(DiscoveryRunConfig.strategy_version));
    ("seed_target_reference", PStr c.(DiscoveryRunConfig.seed_target_reference));
    ("normalized_origin", PStr c.(DiscoveryRunConfig.normalized_origin));
    ("normalized_path", PStr c.(DiscoveryRunConfig.normalized_path));
    ("max_discovery_cycles", PInt b.(DiscoveryBounds.max_discovery_cycles));
    ("max_frontier_items", PInt b.(DiscoveryBounds.max_frontier_items));
    ("max_new_facts_per_cycle", PInt b.(DiscoveryBounds.max_new_facts_per_cycle));
    ("max_browser_actions", PInt b.(DiscoveryBounds.max_browser_actions));
    ("max_http_transactions", PInt b.(DiscoveryBounds.max_http_transactions));
    ("max_per_route_revisit", PInt b.(DiscoveryBounds.max_per_route_revisit));
    ("max_identity_variants", PInt b.(DiscoveryBounds.max_identity_variants));
    ("max_transition_depth", PInt b.(DiscoveryBounds.max_transition_depth));
    ("max_graph_depth_from_seed", PInt b.(DiscoveryBounds.max_graph_depth_from_seed));
    ("max_template_inference_fanout", PInt b.(DiscoveryBounds.max_template_inference_fanout));
    ("max_duplicate_observations", PInt b.(DiscoveryBounds.max_duplicate_observations)) ].

(** [research/discovery/config.py:135-142 canonical_discovery_config] *)
Definition canonical_discovery_config (payload : list (string * pyval))
    : result (list (string * pyval)) :=
  traverse (fun key =>
      match dict_find key payload with
      | Some v => Ok (key, v)
      | None => Raise ResearchInputError
      end) IMMUTABLE_DISCOVERY_CONFIG_KEYS.

(** [data/records.py:2709 DISCOVERY_STRATEGY_VERSION] *)
Definition DISCOVERY_STRATEGY_VERSION : string := "surface.discovery.v1".

(** [data/records.py:2718-2757 DiscoveryRunConfigRecord] *)
Module DiscoveryRunConfigRecord.
Record t : Set := mk {
  research_run_id : string;
  strategy_version : string;
  seed_target_reference : string;
  normalized_origin : string;
  normalized_path : string;
  bounds : DiscoveryBounds.t;
  configuration_fingerprint : string;
  created_at : Z }.

Definition post_init (x : t) : result t :=
  _ ← data_opaque_id x.(research_run_id);
  raise_if negb (x.(strategy_version) =? DISCOVERY_STRATEGY_VERSION)%string
  as PersistenceInputError;;
  _ ← data_opaque_id x.(configuration_fingerprint);
  _ ← traverse data_non_negative_int (DiscoveryBounds.fields x.(bounds));
  Ok x.

#[global] Instance post_init_validator : Validator post_init.
Proof. solve_validator. Qed.
End DiscoveryRunConfigRecord.

Section config.
Context (sha256_json : pyval -> string).

(** [research/discovery/config.py:145-148 discovery_config_fingerprint] *)
Definition discovery_config_fingerprint (payload : list (string * pyval)) : result string :=
  canonical ← canonical_discovery_config payload;
  Ok (sha256_json (PDict canonical)).

(** [research/discovery/config.py:131-132 DiscoveryRunConfig.fingerprint] *)
Definition fingerprint (c : DiscoveryRunConfig.t) : result string :=
  discovery_config_fingerprint (config_payload c).

(** [application/discovery/config.py:18-39 record_from_config] *)
Definition record_from_config (c : DiscoveryRunConfig.t) (created_at : Z)
    : result DiscoveryRunConfigRecord.t :=
  fp ← fingerprint c;
  DiscoveryRunConfigRecord.post_init
    (DiscoveryRunConfigRecord.mk c.(DiscoveryRunConfig.research_run_id)
       c.(DiscoveryRunConfig.strategy_version) c.(DiscoveryRunConfig.seed_target_reference)
       c.(DiscoveryRunConfig.normalized_origin) c.(DiscoveryRunConfig.normalized_path)
       c.(DiscoveryRunConfig.bounds) fp created_at).

(** [application/discovery/config.py:42-65 config_from_record] *)
Definition config_from_record (r : DiscoveryRunConfigRecord.t) : result DiscoveryRunConfig.t :=
  bounds ← DiscoveryBounds.post_init r.(DiscoveryRunConfigRecord.bounds);
  config ← DiscoveryRunConfig.post_init
             (DiscoveryRunConfig.mk r.(DiscoveryRunConfigRecord.research_run_id)
                r.(DiscoveryRunConfigRecord.seed_target_reference)
                r.(DiscoveryRunConfigRecord.normalized_origin)
                r.(DiscoveryRunConfigRecord.normalized_path) bounds
                r.(DiscoveryRunConfigRecord.strategy_version));
  fp ← fingerprint config;
  raise_if negb (fp =? r.(DiscoveryRunConfigRecord.configuration_fingerprint))%string
  as OrchestrationIntegrityError;;
  Ok config.

(** [application/discovery/config.py:68-76 assert_runtime_matches_persisted] *)
Definition assert_runtime_matches_persisted (persisted runtime : DiscoveryRunConfig.t)
    : result unit :=
  p ← fingerprint persisted;
  r ← fingerprint runtime;
  raise_if negb (p =? r)%string as OrchestrationIntegrityError;;
  raise_if negb (bool_decide (persisted.(DiscoveryRunConfig.bounds)
                              = runtime.(DiscoveryRunConfig.bounds)))
  as OrchestrationIntegrityError;;
  Ok tt.

Lemma canonical_config_payload c : canonical_discovery_config (config_payload c) = Ok (config_payload c).
Proof. reflexivity. Qed.

Lemma fingerprint_total c : fingerprint c = Ok (sha256_json (PDict (config_payload c))).
Proof.
  unfold fingerprint, discovery_config_fingerprint. by rewrite canonical_config_payload.
Qed.

Lemma config_payload_inj c c' : config_payload c = config_payload c' -> c = c'.
Proof.
  destruct c as [? ? ? ? [] ?], c' as [? ? ? ? [] ?]. cbn. intros E. by simplify_eq.
Qed.

Lemma require_text_stripped s x : require_text s = Ok x -> require_text x = Ok x.
Proof.
  unfold require_text. rewrite !raise_if_ok. intros [Hb [= <-]].
  unfold Str.is_blank in *. rewrite Str.strip_idem. by rewrite Hb.
Qed.

(** A validated configuration is a fixed point of its constructor. *)
Lemma run_config_validated c0 c :
  DiscoveryRunConfig.post_init c0 = Ok c -> DiscoveryRunConfig.post_init c = Ok c.
Proof.
  unfold DiscoveryRunConfig.post_init. intros H.
  apply bind_ok in H as (run & H1%require_text_stripped & H).
  apply bind_ok in H as (seed & H2%require_text_stripped & H).
  apply bind_ok in H as (origin & H3%require_text_stripped & H).
  apply bind_ok in H as (path & H4%require_text_stripped & H).
  apply bind_ok in H as (version & H5%require_text_stripped & H).
  apply raise_if_ok in H as [Hv [= <-]]. cbn. by rewrite H1, H2, H3, H4, H5; cbn; rewrite Hv.
Qed.
End config.

#[local] Arguments DiscoveryBounds.post_init : simpl never.
#[local] Arguments DiscoveryRunConfig.post_init : simpl never.
#[local] Arguments fingerprint : simpl never.

(** The persisted form of a discovery configuration loses nothing: the row written for
    a validated configuration reads back as that configuration, and the resumed run that
    brings it passes the check. *)
Theorem discovery_config_roundtrip sha c0 c created_at r :
  DiscoveryRunConfig.post_init c0 = Ok c ->
  DiscoveryBounds.post_init c.(DiscoveryRunConfig.bounds) = Ok c.(DiscoveryRunConfig.bounds) ->
  record_from_config sha c created_at = Ok r ->
  config_from_record sha r = Ok c /\ assert_runtime_matches_persisted sha c c = Ok tt.
Proof.
  intros Hc%run_config_validated Hb Hr. unfold record_from_config in Hr.
  rewrite fingerprint_total in Hr. cbn [mbind result_bind] in Hr. apply validated in Hr as ->.
  unfold config_from_record, assert_runtime_matches_persisted. cbn. rewrite Hb. cbn.
  replace (DiscoveryRunConfig.mk _ _ _ _ _ _) with c by by destruct c.
  rewrite Hc. cbn. rewrite !fingerprint_total. cbn. rewrite !String.eqb_refl. cbn.
  by rewrite bool_decide_eq_true_2.
Qed.

(** Resuming never widens discovery: a runtime configuration that passes the check has
    the persisted limits, and it is the persisted configuration unless the digest collides
    on the two. *)
Theorem discovery_resume_never_widens sha persisted runtime :
  assert_runtime_matches_persisted sha persisted runtime = Ok tt ->
  runtime.(DiscoveryRunConfig.bounds) = persisted.(DiscoveryRunConfig.bounds)
  /\ (runtime = persisted
      \/ sha (PDict (config_payload persisted)) = sha (PDict (config_payload runtime))
         /\ config_payload persisted <> config_payload runtime).
Proof.
  unfold assert_runtime_matches_persisted. rewrite !fingerprint_total. cbn [mbind result_bind].
  rewrite !raise_if_ok, !negb_false_iff, String.eqb_eq, bool_decide_eq_true.
  intros (Hf & Hb & _). split; [done|].
  destruct (decide (persisted = runtime)) as [->|Hne]; [by left|right].
  split; [done|]. by intros E%config_payload_inj.
Qed.

(** ** Witnesses *)

Definition sample_discovery_bounds : DiscoveryBounds.t :=
  DiscoveryBounds.mk 4 10 50 8 8 2 1 3 4 5 6.

Definition sample_discovery_config : DiscoveryRunConfig.t :=
  DiscoveryRunConfig.mk "run1" "https://a.example/" "https://a.example" "/" sample_discovery_bounds
    "surface.discovery.v1".

Definition sample_config_row : DiscoveryRunConfigRecord.t :=
  DiscoveryRunConfigRecord.mk "run1" "surface.discovery.v1" "https://a.example/"
    "https://a.example" "/" sample_discovery_bounds "digest" 10.

Lemma discovery_config_roundtrip_witness :
  config_from_record (fun _ => "digest") sample_config_row = Ok sample_discovery_config.
Proof.
  apply (discovery_config_roundtrip (fun _ => "digest") sample_discovery_config
    sample_discovery_config 10); vm_compute; reflexivity.
Defined.

Lemma discovery_resume_never_widens_witness :
  sample_discovery_config.(DiscoveryRunConfig.bounds) = sample_discovery_bounds.
Proof.
  apply (discovery_resume_never_widens (fun _ => "digest") sample_discovery_config
    sample_discovery_config). vm_compute. reflexivity.
Defined.

(** A runtime that asks for one more page is refused. *)
Example widened_bounds_are_refused :
  assert_runtime_matches_persisted (fun _ => "digest") sample_discovery_config
    (DiscoveryRunConfig.mk "run1" "https://a.example/" "https://a.example" "/"
       (DiscoveryBounds.mk 4 10 50 9 8 2 1 3 4 5 6) "surface.discovery.v1")
  = Raise OrchestrationIntegrityError.
Proof. vm_compute. reflexivity. Qed.
