(* ===== verification/FrontierFlow.v ===== *)
(** * Surface discovery on the database

    The frontier tables of [data/postgres/discovery_repositories.py] and the operations
    that write them: the claim of [application/discovery/claim.py], the seed, the choice and
    the completion of a cycle of [application/discovery/runner.py], and the frontier part of
    [application/discovery/project.py].  One function is one transaction; the work between
    two transactions of a cycle (compiling and executing the plan) is an argument, its
    outcome.  The choice of a cycle locks nothing: it reads databases of its own ([seen]), rows that
    are still there when it writes ([behind], [views]).  Fresh ids are arguments.  Facts, inferences
    and live pages are not modelled. *)
From S2P Require Import Prelude PyVal Records Frontier DiscoveryConfig.

(** ** Records *)

(** [data/records.py:2682-2692 ALLOWED_DISCOVERY_GOAL_KINDS] *)
Definition ALLOWED_DISCOVERY_GOAL_KINDS : list string :=
  [ "INSPECT_PATH"; "INSPECT_CONTROL"; "CHARACTERIZE_HTTP_OPERATION"; "OBSERVE_UNDER_IDENTITY";
    "RESOLVE_TRANSITION_RESULT"; "RESOLVE_OBJECT_TYPE"; "INSPECT_SPA_PATH" ].

(** [data/records.py:2693-2708 ALLOWED_FRONTIER_EVENT_KINDS] *)
Definition ALLOWED_FRONTIER_EVENT_KINDS : list string :=
  [ "CREATED"; "ELIGIBLE"; "SELECTED"; "BLOCKED_SCOPE"; "BLOCKED_AUTH"; "BLOCKED_BUDGET";
    "AWAITING_REAUTHORIZATION"; "NO_NEW_INFORMATION"; "OBSERVED"; "FAILED_TRANSIENT";
    "FAILED_TERMINAL"; "SUPERSEDED" ].

(** [data/records.py:2899-2934 FrontierItemRecord] *)
Module FrontierItemRecord.
Record t : Type := mk {
  frontier_id : string;
  research_run_id : string;
  strategy_version : string;
  goal_kind : string;
  candidate_origin : string;
  candidate_path : string;
  identity_id : string;
  proposed_capability : string;
  proposed_action : string;
  expected_side_effect : Z;
  budget_class : Z;
  structural_signature : string;
  dedupe_identity : string;
  created_at : Z;
  session_context_id : option string;
  scope_hint : option string;
  attributes : option (list (string * pyval));
  current_state : option string;
  state_version : option Z }.

Definition post_init (x : t) : result t :=
  _ ← data_opaque_id x.(frontier_id);
  _ ← data_opaque_id x.(research_run_id);
  raise_if negb (x.(strategy_version) =? DISCOVERY_STRATEGY_VERSION)%string
  as PersistenceInputError;;
  raise_if negb (mem x.(goal_kind) ALLOWED_DISCOVERY_GOAL_KINDS) as PersistenceInputError;;
  raise_if Str.starts_with x.(structural_signature) "el-" as PersistenceInputError;;
  raise_if negb (mem x.(expected_side_effect) [0; 1; 2; 3])
           || negb (mem x.(budget_class) [0; 1; 2; 3])
  as PersistenceInputError;;
  _ ← data_optional_mapping x.(attributes);
  Ok x.

#[global] Instance post_init_validator : Validator post_init.
Proof. solve_validator. Qed.

(** An [UPDATE] of the cached state. *)
Definition set_cache (x : t) (state : string) (version : Z) : t :=
  mk x.(frontier_id) x.(research_run_id) x.(strategy_version) x.(goal_kind)
    x.(candidate_origin) x.(candidate_path) x.(identity_id) x.(proposed_capability)
    x.(proposed_action) x.(expected_side_effect) x.(budget_class) x.(structural_signature)
    x.(dedupe_identity) x.(created_at) x.(session_context_id) x.(scope_hint) x.(attributes)
    (Some state) (Some version).
End FrontierItemRecord.

(** [data/records.py:2938-2962 FrontierSourceRecord] *)
Module FrontierSourceRecord.
Record t : Set := mk {
  source_row_id : string;
  research_run_id : string;
  frontier_id : string;
  created_at : Z;
  seed_config_run_id : option string;
  source_fact_id : option string;
  source_inference_id : option string;
  control_event_id : option string;
  observation_id : option string }.

(** [data/records.py:2712-2714 _one_primary] *)
Definition one_primary (values : list (option string)) : result unit :=
  raise_if negb (length (omap id values) =? 1)%nat as PersistenceInputError;;
  Ok tt.

Definition post_init (x : t) : result t :=
  _ ← data_opaque_id x.(source_row_id);
  _ ← data_opaque_id x.(research_run_id);
  _ ← data_opaque_id x.(frontier_id);
  _ ← one_primary [ x.(seed_config_run_id); x.(source_fact_id); x.(source_inference_id);
                    x.(control_event_id); x.(observation_id) ];
  Ok x.

#[global] Instance post_init_validator : Validator post_init.
Proof. solve_validator. Qed.
End FrontierSourceRecord.

(** [data/records.py:2966-2989 FrontierEventRecord] *)
Module FrontierEventRecord.
Record t : Set := mk {
  event_id : string;
  frontier_id : string;
  research_run_id : string;
  event_kind : string;
  sequence : Z;
  created_at : Z;
  selection_generation : option Z;
  execution_attempt_id : option string;
  reason_code : option string }.

Definition post_init (x : t) : result t :=
  _ ← data_opaque_id x.(event_id);
  _ ← data_opaque_id x.(frontier_id);
  _ ← data_opaque_id x.(research_run_id);
  raise_if negb (mem x.(event_kind) ALLOWED_FRONTIER_EVENT_KINDS) as PersistenceInputError;;
  _ ← data_non_negative_int x.(sequence);
  raise_if x.(sequence) <? 1 as PersistenceInputError;;
  raise_if (x.(event_kind) =? "SELECTED")%string
           && match x.(selection_generation) with None => true | Some g => g <? 1 end
  as PersistenceInputError;;
  Ok x.

#[global] Instance post_init_validator : Validator post_init.
Proof. solve_validator. Qed.
End FrontierEventRecord.

(** ** Tables

    The parents of the foreign keys are sets of keys.  [items] is keyed by [frontier_id]. *)
Module Db.
Record t : Type := mk {
  runs : gset string;
  attempts : gset (string * string);
  observations : list (string * string);
  control_events : gset (string * string);
  facts : gset (string * string);
  inferences : gset (string * string);
  configs : gmap string DiscoveryRunConfigRecord.t;
  hypotheses : list HypothesisRecord.t;
  items : gmap string FrontierItemRecord.t;
  sources : list FrontierSourceRecord.t;
  events : list FrontierEventRecord.t }.

Definition set_configs (db : t) (x : gmap string DiscoveryRunConfigRecord.t) : t :=
  mk db.(runs) db.(attempts) db.(observations) db.(control_events) db.(facts) db.(inferences) x
    db.(hypotheses) db.(items) db.(sources) db.(events).
Definition set_hypotheses (db : t) (x : list HypothesisRecord.t) : t :=
  mk db.(runs) db.(attempts) db.(observations) db.(control_events) db.(facts) db.(inferences)
    db.(configs) x db.(items) db.(sources) db.(events).
Definition set_items (db : t) (x : gmap string FrontierItemRecord.t) : t :=
  mk db.(runs) db.(attempts) db.(observations) db.(control_events) db.(facts) db.(inferences)
    db.(configs) db.(hypotheses) x db.(sources) db.(events).
Definition set_sources (db : t) (x : list FrontierSourceRecord.t) : t :=
  mk db.(runs) db.(attempts) db.(observations) db.(control_events) db.(facts) db.(inferences)
    db.(configs) db.(hypotheses) db.(items) x db.(events).
Definition set_events (db : t) (x : list FrontierEventRecord.t) : t :=
  mk db.(runs) db.(attempts) db.(observations) db.(control_events) db.(facts) db.(inferences)
    db.(configs) db.(hypotheses) db.(items) db.(sources) x.
End Db.

(** A nullable foreign key. *)
Definition refers {A} (x : option A) (f : A -> bool) : bool :=
  match x with None => true | Some a => f a end.

(** ** Repositories *)

(** [data/postgres/discovery_repositories.py:67-71 PostgresDiscoveryRunConfigRepository.insert] *)
Definition insert_config (db : Db.t) (r : DiscoveryRunConfigRecord.t) : result Db.t :=
  let run := r.(DiscoveryRunConfigRecord.research_run_id) in
  raise_if negb (forallb is_int4 (DiscoveryBounds.fields r.(DiscoveryRunConfigRecord.bounds)))
  as PersistenceError;;
  raise_if bool_decide (is_Some (db.(Db.configs) !! run)) as PersistenceConflictError;;
  raise_if negb (bool_decide (run ∈ db.(Db.runs))) as PersistenceError;;
  Ok (Db.set_configs db (<[run := r]> db.(Db.configs))).

(** [data/postgres/discovery_repositories.py:73-81 PostgresDiscoveryRunConfigRepository.get] *)
Definition get_config (db : Db.t) (run : string) : result (option DiscoveryRunConfigRecord.t) :=
  _ ← data_opaque_id run;
  Ok (db.(Db.configs) !! run).

(** The partial unique index is on origins that start with [exh:].
    [data/postgres/repositories.py:809-820 PostgresHypothesisRepository.insert] *)
Definition insert_hypothesis (db : Db.t) (h : HypothesisRecord.t) : result Db.t :=
  raise_if existsb (fun o =>
      (o.(HypothesisRecord.hypothesis_id) =? h.(HypothesisRecord.hypothesis_id))%string
      || match o.(HypothesisRecord.origin_reference), h.(HypothesisRecord.origin_reference) with
         | Some a, Some b => (a =? b)%string && Str.starts_with b "exh:"
                             && (o.(HypothesisRecord.research_run_id)
                                 =? h.(HypothesisRecord.research_run_id))%string
         | _, _ => false
         end) db.(Db.hypotheses)
  as PersistenceConflictError;;
  raise_if negb (bool_decide (h.(HypothesisRecord.research_run_id) ∈ db.(Db.runs)))
  as PersistenceError;;
  Ok (Db.set_hypotheses db (db.(Db.hypotheses) ++ [h])).

(** [data/postgres/repositories.py:832-846 PostgresHypothesisRepository.list_for_research_run] *)
Definition hypotheses_of (db : Db.t) (run : string) : result (list HypothesisRecord.t) :=
  _ ← data_opaque_id run;
  Ok (sort_by HypothesisRecord.hypothesis_id
        (List.filter (fun h => (h.(HypothesisRecord.research_run_id) =? run)%string)
           db.(Db.hypotheses))).

(** [data/postgres/discovery_repositories.py:245-246 PostgresFrontierItemRepository.insert] *)
Definition insert_item (db : Db.t) (r : FrontierItemRecord.t) : result Db.t :=
  let fid := r.(FrontierItemRecord.frontier_id) in
  raise_if negb (refers r.(FrontierItemRecord.state_version) is_int4) as PersistenceError;;
  raise_if Str.starts_with r.(FrontierItemRecord.structural_signature) "el-"
  as PersistenceError;;
  raise_if bool_decide (is_Some (db.(Db.items) !! fid)) as PersistenceConflictError;;
  raise_if existsb (fun kv =>
      (kv.2.(FrontierItemRecord.research_run_id)
       =? r.(FrontierItemRecord.research_run_id))%string
      && (kv.2.(FrontierItemRecord.dedupe_identity)
          =? r.(FrontierItemRecord.dedupe_identity))%string) (map_to_list db.(Db.items))
  as PersistenceConflictError;;
  raise_if negb (bool_decide (r.(FrontierItemRecord.research_run_id) ∈ db.(Db.runs)))
  as PersistenceError;;
  Ok (Db.set_items db (<[fid := r]> db.(Db.items))).

(** [data/postgres/discovery_repositories.py:248-256 PostgresFrontierItemRepository.get] *)
Definition get_item (db : Db.t) (fid : string) : result (option FrontierItemRecord.t) :=
  _ ← data_opaque_id fid;
  Ok (db.(Db.items) !! fid).

(** The row, locked to the end of the transaction.
    [data/postgres/discovery_repositories.py:258-272 PostgresFrontierItemRepository.lock] *)
Definition lock_item (db : Db.t) (fid : string) : result (option FrontierItemRecord.t) :=
  _ ← data_opaque_id fid;
  Ok (db.(Db.items) !! fid).

(** [data/postgres/discovery_repositories.py:274-282 PostgresFrontierItemRepository.list_for_research_run] *)
Definition items_of (db : Db.t) (run : string) : result (list FrontierItemRecord.t) :=
  _ ← data_opaque_id run;
  Ok (sort_by FrontierItemRecord.dedupe_identity
        (List.filter (fun r => (r.(FrontierItemRecord.research_run_id) =? run)%string)
           (map_to_list db.(Db.items)).*2)).

(** [data/postgres/discovery_repositories.py:284-294 PostgresFrontierItemRepository.set_cache_state] *)
Definition set_cache_state (db : Db.t) (fid current_state : string) (state_version : Z)
    : result Db.t :=
  _ ← data_opaque_id fid;
  match db.(Db.items) !! fid with
  | None => Raise PersistenceError
  | Some r =>
      Ok (Db.set_items db
            (<[fid := FrontierItemRecord.set_cache r current_state state_version]>
               db.(Db.items)))
  end.

(** [data/postgres/discovery_repositories.py:301-302 PostgresFrontierSourceRepository.insert] *)
Definition insert_source (db : Db.t) (r : FrontierSourceRecord.t) : result Db.t :=
  let run := r.(FrontierSourceRecord.research_run_id) in
  raise_if existsb (fun o => (o.(FrontierSourceRecord.source_row_id)
                              =? r.(FrontierSourceRecord.source_row_id))%string)
             db.(Db.sources)
  as PersistenceConflictError;;
  raise_if negb
    (match db.(Db.items) !! r.(FrontierSourceRecord.frontier_id) with
     | None => false
     | Some item => (item.(FrontierItemRecord.research_run_id) =? run)%string
     end
     && refers r.(FrontierSourceRecord.seed_config_run_id)
          (fun s => bool_decide (is_Some (db.(Db.configs) !! s)))
     && refers r.(FrontierSourceRecord.source_fact_id)
          (fun f => bool_decide ((f, run) ∈ db.(Db.facts)))
     && refers r.(FrontierSourceRecord.source_inference_id)
          (fun i => bool_decide ((i, run) ∈ db.(Db.inferences)))
     && refers r.(FrontierSourceRecord.control_event_id)
          (fun c => bool_decide ((c, run) ∈ db.(Db.control_events)))
     && refers r.(FrontierSourceRecord.observation_id) (fun o => mem o db.(Db.observations).*1))
  as PersistenceError;;
  Ok (Db.set_sources db (db.(Db.sources) ++ [r])).

(** Same frontier and sequence, or same frontier and generation of two [SELECTED] events. *)
Definition same_slot (o r : FrontierEventRecord.t) : bool :=
  (o.(FrontierEventRecord.frontier_id) =? r.(FrontierEventRecord.frontier_id))%string
  && ((o.(FrontierEventRecord.sequence) =? r.(FrontierEventRecord.sequence))
      || ((o.(FrontierEventRecord.event_kind) =? "SELECTED")%string
          && (r.(FrontierEventRecord.event_kind) =? "SELECTED")%string
          && match o.(FrontierEventRecord.selection_generation),
                   r.(FrontierEventRecord.selection_generation) with
             | Some a, Some b => a =? b
             | _, _ => false
             end)).

(** [data/postgres/discovery_repositories.py:309-310 PostgresFrontierEventRepository.insert] *)
Definition insert_event (db : Db.t) (r : FrontierEventRecord.t) : result Db.t :=
  let run := r.(FrontierEventRecord.research_run_id) in
  raise_if negb (is_int4 r.(FrontierEventRecord.sequence)
                 && refers r.(FrontierEventRecord.selection_generation) is_int4)
  as PersistenceError;;
  raise_if existsb (fun o =>
      (o.(FrontierEventRecord.event_id) =? r.(FrontierEventRecord.event_id))%string
      || same_slot o r) db.(Db.events)
  as PersistenceConflictError;;
  raise_if negb
    (match db.(Db.items) !! r.(FrontierEventRecord.frontier_id) with
     | None => false
     | Some item => (item.(FrontierItemRecord.research_run_id) =? run)%string
     end
     && refers r.(FrontierEventRecord.execution_attempt_id)
          (fun a => bool_decide ((a, run) ∈ db.(Db.attempts))))
  as PersistenceError;;
  Ok (Db.set_events db (db.(Db.events) ++ [r])).

(** The events of an item, by sequence. *)
Definition log (db : Db.t) (fid : string) : list FrontierEventRecord.t :=
  sort_by FrontierEventRecord.sequence
    (List.filter (fun e => (e.(FrontierEventRecord.frontier_id) =? fid)%string) db.(Db.events)).

(** [data/postgres/discovery_repositories.py:312-326 PostgresFrontierEventRepository.list_for_frontier] *)
Definition list_for_frontier (db : Db.t) (fid : string) : result (list FrontierEventRecord.t) :=
  _ ← data_opaque_id fid;
  Ok (log db fid).

(** ** Claiming an item *)

(** [application/discovery/claim.py:33-45 claim_frontier_selected] *)
Definition domain_event (item : FrontierEventRecord.t) : result FrontierEvent.t :=
  kind ← FrontierEventKind.of_value item.(FrontierEventRecord.event_kind);
  FrontierEvent.post_init
    (FrontierEvent.mk item.(FrontierEventRecord.event_id) item.(FrontierEventRecord.frontier_id)
       item.(FrontierEventRecord.research_run_id) kind item.(FrontierEventRecord.sequence)
       item.(FrontierEventRecord.selection_generation)
       item.(FrontierEventRecord.execution_attempt_id) item.(FrontierEventRecord.reason_code)).

(** The sequence number that follows a log. *)
Definition next_sequence (events : list FrontierEventRecord.t) : Z :=
  match last events with
  | Some e => e.(FrontierEventRecord.sequence) + 1
  | None => 1
  end.

(** [application/discovery/claim.py:20-61 claim_frontier_selected] *)
Definition claim_frontier_selected (db : Db.t) (event_id frontier_id : string) (created_at : Z)
    : result (Db.t * FrontierEventRecord.t) :=
  locked ← lock_item db frontier_id;
  match locked with
  | None => Raise ApplicationError
  | Some locked =>
      events ← list_for_frontier db frontier_id;
      latest_kind ← match last events with
                    | None => Ok None
                    | Some e =>
                        k ← FrontierEventKind.of_value e.(FrontierEventRecord.event_kind);
                        Ok (Some k)
                    end;
      raise_if negb (legal_frontier_transition latest_kind FrontierEventKind.SELECTED)
      as ApplicationError;;
      mapped ← traverse domain_event events;
      let generation := next_selection_generation mapped in
      record ← FrontierEventRecord.post_init
                 (FrontierEventRecord.mk event_id frontier_id
                    locked.(FrontierItemRecord.research_run_id) "SELECTED"
                    (next_sequence events) created_at (Some generation) None None);
      db ← match insert_event db record with
           | Raise PersistenceConflictError => Raise ApplicationError
           | r => r
           end;
      db ← set_cache_state db frontier_id "SELECTED" record.(FrontierEventRecord.sequence);
      Ok (db, record)
  end.

(** ** The writes of the runner *)

(** [sequence or ...]: a sequence of zero counts as none.
    [application/discovery/runner.py:516-534 SurfaceDiscoveryRunner._append_event] *)
Definition append_event (db : Db.t) (event_id frontier_id kind : string) (created_at : Z)
    (sequence : option Z) : result Db.t :=
  existing ← list_for_frontier db frontier_id;
  research_run_id ← match existing with
                    | e :: _ => Ok e.(FrontierEventRecord.research_run_id)
                    | [] =>
                        item ← get_item db frontier_id;
                        match item with
                        | None => Raise AttributeError
                        | Some item => Ok item.(FrontierItemRecord.research_run_id)
                        end
                    end;
  let number := match sequence with
                | Some s => if s =? 0 then next_sequence existing else s
                | None => next_sequence existing
                end in
  record ← FrontierEventRecord.post_init
             (FrontierEventRecord.mk event_id frontier_id research_run_id kind number created_at
                None None None);
  insert_event db record.

(** The fresh ids of a new item. *)
Module Ids.
Record t : Set := mk {
  frontier_id : string;
  source_row_id : string;
  created_id : string;
  eligible_id : string }.
End Ids.

(** The row of a new item: [current_state="ELIGIBLE", state_version=2].
    [application/discovery/project.py:490-511 _frontier_record] *)
Definition frontier_record (item : FrontierItem.t) (created_at : Z)
    : result FrontierItemRecord.t :=
  FrontierItemRecord.post_init
    (FrontierItemRecord.mk item.(FrontierItem.frontier_id) item.(FrontierItem.research_run_id)
       item.(FrontierItem.strategy_version)
       (DiscoveryGoalKind.value item.(FrontierItem.goal_kind))
       item.(FrontierItem.candidate_origin) item.(FrontierItem.candidate_path)
       item.(FrontierItem.identity_id) item.(FrontierItem.proposed_capability)
       item.(FrontierItem.proposed_action) item.(FrontierItem.expected_side_effect)
       item.(FrontierItem.budget_class) item.(FrontierItem.structural_signature)
       item.(FrontierItem.dedupe_identity) created_at item.(FrontierItem.session_context_id)
       item.(FrontierItem.scope_hint) item.(FrontierItem.attributes) (Some "ELIGIBLE") (Some 2)).

(** The row of an item, its provenance and its first two events. *)
Definition insert_new (db : Db.t) (ids : Ids.t) (item : FrontierItemRecord.t) (created_at : Z)
    (observation_id seed_config_run_id : option string) : result Db.t :=
  let fid := item.(FrontierItemRecord.frontier_id) in
  db ← insert_item db item;
  source ← FrontierSourceRecord.post_init
             (FrontierSourceRecord.mk ids.(Ids.source_row_id)
                item.(FrontierItemRecord.research_run_id) fid created_at seed_config_run_id None
                None None observation_id);
  db ← insert_source db source;
  db ← append_event db ids.(Ids.created_id) fid "CREATED" created_at (Some 1);
  append_event db ids.(Ids.eligible_id) fid "ELIGIBLE" created_at (Some 2).

(** [application/discovery/runner.py:346-380 SurfaceDiscoveryRunner._insert_frontier] *)
Definition insert_frontier (db : Db.t) (ids : Ids.t) (item : FrontierItem.t) (created_at : Z)
    (seed_run_id : string) : result Db.t :=
  record ← frontier_record item created_at;
  insert_new db ids record created_at None (Some seed_run_id).

(** [application/discovery/runner.py:78-83 SurfaceDiscoveryStart] *)
Module SurfaceDiscoveryStart.
Record t : Set := mk {
  config : DiscoveryRunConfig.t;
  identities : list string;
  session_context_by_identity : option (list (string * string)) }.
End SurfaceDiscoveryStart.

(** [tools/capabilities.py:18 BROWSER_PAGE_CAPABILITY] *)
Definition BROWSER_PAGE_CAPABILITY : string := "browser.page".
(** [tools/capabilities.py:19 BROWSER_PAGE_OBSERVE_ACTION] *)
Definition BROWSER_PAGE_OBSERVE_ACTION : string := "observe".
(** [tools/capabilities.py:11 HTTP_TRANSACTION_CAPABILITY] *)
Definition HTTP_TRANSACTION_CAPABILITY : string := "http.transaction".

(** [application/discovery/runner.py:72-74 DISCOVERY_HYPOTHESIS_CLAIM] *)
Definition DISCOVERY_HYPOTHESIS_CLAIM : string :=
  "Observe authorized in-scope target surface under configured identities.".

Section runner.
Context (sha256_json : pyval -> string).

(** The callers give at least one part.
    [research/discovery/canonical.py:22-28 canonical_key] *)
Definition canonical_key (parts : list string) : string :=
  sha256_json (PList (PStr <$> parts)).

(** [research/discovery/projection.py:120-144 seed_inspect_path_frontier] *)
Definition seed_inspect_path_frontier (config : DiscoveryRunConfig.t) (frontier_id : string)
    : result FrontierItem.t :=
  let signature := canonical_key [ "INSPECT_PATH"; config.(DiscoveryRunConfig.normalized_origin);
                                   config.(DiscoveryRunConfig.normalized_path);
                                   ANONYMOUS_IDENTITY_ID ] in
  FrontierItem.post_init
    (FrontierItem.mk frontier_id config.(DiscoveryRunConfig.research_run_id)
       DiscoveryGoalKind.INSPECT_PATH config.(DiscoveryRunConfig.normalized_origin)
       config.(DiscoveryRunConfig.normalized_path) ANONYMOUS_IDENTITY_ID BROWSER_PAGE_CAPABILITY
       BROWSER_PAGE_OBSERVE_ACTION 0 0 signature signature SURFACE_DISCOVERY_STRATEGY_VERSION
       None (Some "in_scope_seed") None).

(** [application/discovery/runner.py:319-340 SurfaceDiscoveryRunner._seed] *)
Definition identity_variant (config : DiscoveryRunConfig.t)
    (sessions : list (string * string)) (frontier_id identity : string) : result FrontierItem.t :=
  let signature := canonical_key [ "OBSERVE_UNDER_IDENTITY";
                                   config.(DiscoveryRunConfig.normalized_origin);
                                   config.(DiscoveryRunConfig.normalized_path); identity ] in
  FrontierItem.post_init
    (FrontierItem.mk frontier_id config.(DiscoveryRunConfig.research_run_id)
       DiscoveryGoalKind.OBSERVE_UNDER_IDENTITY config.(DiscoveryRunConfig.normalized_origin)
       config.(DiscoveryRunConfig.normalized_path) identity BROWSER_PAGE_CAPABILITY
       BROWSER_PAGE_OBSERVE_ACTION 0 0 signature signature SURFACE_DISCOVERY_STRATEGY_VERSION
       (assoc identity sessions) (Some "configured_identity_variant") None).

(** [seeded] variants are in; the [n]-th insertion takes the ids [ids n].
    [application/discovery/runner.py:312-344 SurfaceDiscoveryRunner._seed] *)
Fixpoint seed_variants (db : Db.t) (ids : nat -> Ids.t) (config : DiscoveryRunConfig.t)
    (sessions : list (string * string)) (created_at : Z) (identities : list string)
    (seeded : nat) : result Db.t :=
  match identities with
  | [] => Ok db
  | identity :: rest =>
      let allowed := config.(DiscoveryRunConfig.bounds).(DiscoveryBounds.max_identity_variants) in
      if (identity =? ANONYMOUS_IDENTITY_ID)%string
      then seed_variants db ids config sessions created_at rest seeded
      else if (allowed =? 0) || (allowed <=? Z.of_nat seeded)
      then Ok db
      else
        variant ← identity_variant config sessions (ids (S seeded)).(Ids.frontier_id) identity;
        db ← insert_frontier db (ids (S seeded)) variant created_at
               config.(DiscoveryRunConfig.research_run_id);
        seed_variants db ids config sessions created_at rest (S seeded)
  end.

(** [application/discovery/runner.py:307-344 SurfaceDiscoveryRunner._seed] *)
Definition seed (db : Db.t) (ids : nat -> Ids.t) (start : SurfaceDiscoveryStart.t)
    (created_at : Z) : result Db.t :=
  let config := start.(SurfaceDiscoveryStart.config) in
  item ← seed_inspect_path_frontier config (ids 0%nat).(Ids.frontier_id);
  db ← insert_frontier db (ids 0%nat) item created_at
         config.(DiscoveryRunConfig.research_run_id);
  seed_variants db ids config
    (default [] start.(SurfaceDiscoveryStart.session_context_by_identity)) created_at
    start.(SurfaceDiscoveryStart.identities) 0.

(** [application/discovery/runner.py:382-394 SurfaceDiscoveryRunner._ensure_hypothesis] *)
Definition ensure_hypothesis (db : Db.t) (hypothesis_id run : string) (created_at : Z)
    : result Db.t :=
  existing ← hypotheses_of db run;
  match existing with
  | _ :: _ => Ok db
  | [] =>
      h ← HypothesisRecord.post_init
            (HypothesisRecord.mk hypothesis_id run DISCOVERY_HYPOTHESIS_CLAIM created_at
               (Some "surface-discovery-v1") None);
      insert_hypothesis db h
  end.

(** [application/discovery/runner.py:124-136 SurfaceDiscoveryRunner.ensure_started] *)
Definition ensure_started (db : Db.t) (ids : nat -> Ids.t) (hypothesis_id : string) (now : Z)
    (start : SurfaceDiscoveryStart.t) : result Db.t :=
  let config := start.(SurfaceDiscoveryStart.config) in
  let run := config.(DiscoveryRunConfig.research_run_id) in
  existing ← get_config db run;
  match existing with
  | None =>
      record ← record_from_config sha256_json config now;
      db ← insert_config db record;
      db ← seed db ids start now;
      ensure_hypothesis db hypothesis_id run now
  | Some existing =>
      persisted ← config_from_record sha256_json existing;
      _ ← assert_runtime_matches_persisted sha256_json persisted config;
      Ok db
  end.

(** The ids of the observations of a run, in the order of the repository.
    [data/postgres/repositories.py:1134-1149 PostgresObservationRepository.list_for_research_run] *)
Definition observations_of (db : Db.t) (run : string) : result (list string) :=
  _ ← data_opaque_id run;
  Ok (sort_by id ((List.filter (fun o => (o.2 =? run)%string) db.(Db.observations)).*1)).

(** The item of another look at a route.
    [application/discovery/runner.py:430-449 SurfaceDiscoveryRunner._reobserve] *)
Definition reobserve_record (record : FrontierItemRecord.t) (inspect_id signature : string)
    (created_at : Z) : result FrontierItemRecord.t :=
  FrontierItemRecord.post_init
    (FrontierItemRecord.mk inspect_id record.(FrontierItemRecord.research_run_id)
       record.(FrontierItemRecord.strategy_version)
       (DiscoveryGoalKind.value DiscoveryGoalKind.INSPECT_PATH)
       record.(FrontierItemRecord.candidate_origin) record.(FrontierItemRecord.candidate_path)
       record.(FrontierItemRecord.identity_id) BROWSER_PAGE_CAPABILITY
       BROWSER_PAGE_OBSERVE_ACTION 0 0 signature signature created_at
       record.(FrontierItemRecord.session_context_id) None None (Some "ELIGIBLE") (Some 2)).

(** [str(n)] *)
Definition str_of (n : nat) : string := pretty n.

(** [application/discovery/runner.py:399-462 SurfaceDiscoveryRunner._reobserve] *)
Definition reobserve (db : Db.t) (ids : Ids.t) (first_id last_id : string)
    (record : FrontierItemRecord.t) (created_at : Z) : result Db.t :=
  let run := record.(FrontierItemRecord.research_run_id) in
  let fid := record.(FrontierItemRecord.frontier_id) in
  config_record ← get_config db run;
  match config_record with
  | None => Raise AssertionError
  | Some config_record =>
      config ← config_from_record sha256_json config_record;
      let bounds := config.(DiscoveryRunConfig.bounds) in
      existing ← items_of db run;
      let same_route := List.filter (fun item =>
          (item.(FrontierItemRecord.goal_kind)
           =? DiscoveryGoalKind.value DiscoveryGoalKind.INSPECT_PATH)%string
          && (item.(FrontierItemRecord.identity_id)
              =? record.(FrontierItemRecord.identity_id))%string
          && (item.(FrontierItemRecord.candidate_origin)
              =? record.(FrontierItemRecord.candidate_origin))%string
          && (item.(FrontierItemRecord.candidate_path)
              =? record.(FrontierItemRecord.candidate_path))%string) existing in
      if bounds.(DiscoveryBounds.max_per_route_revisit) <=? Z.of_nat (length same_route)
      then append_event db first_id fid "NO_NEW_INFORMATION" created_at None
      else
        let signature := canonical_key
          [ "INSPECT_PATH"; record.(FrontierItemRecord.candidate_origin);
            record.(FrontierItemRecord.candidate_path);
            record.(FrontierItemRecord.identity_id); str_of (length same_route) ] in
        if existsb (fun item => (item.(FrontierItemRecord.dedupe_identity)
                                 =? signature)%string) existing
        then append_event db first_id fid "NO_NEW_INFORMATION" created_at None
        else
          db ← append_event db first_id fid "FAILED_TRANSIENT" created_at None;
          observations ← observations_of db run;
          let observation_id := last observations in
          item ← reobserve_record record ids.(Ids.frontier_id) signature created_at;
          (* [None if observation_id else ...]: an empty id counts as none *)
          let seed_run := match observation_id with
                          | Some o => if Str.is_empty o then Some run else None
                          | None => Some run
                          end in
          db ← insert_new db ids item created_at observation_id seed_run;
          append_event db last_id fid "ELIGIBLE" created_at None
  end.

End runner.

(** ** The frontier part of a projection *)

(** A proposed item with the ids its two events and its provenance row get. *)
Module ProposedItem.
Record t : Type := mk {
  item : FrontierItem.t;
  created_id : string;
  eligible_id : string;
  source_row_id : string }.
End ProposedItem.

(** [research/discovery/projection.py:536-555 project_observation_view] *)
Definition lifecycle_events (p : ProposedItem.t) : result (list FrontierEvent.t) :=
  let item := p.(ProposedItem.item) in
  created ← FrontierEvent.post_init
              (FrontierEvent.mk p.(ProposedItem.created_id) item.(FrontierItem.frontier_id)
                 item.(FrontierItem.research_run_id) FrontierEventKind.CREATED 1 None None None);
  eligible ← FrontierEvent.post_init
               (FrontierEvent.mk p.(ProposedItem.eligible_id) item.(FrontierItem.frontier_id)
                  item.(FrontierItem.research_run_id) FrontierEventKind.ELIGIBLE 2 None None None);
  Ok [created; eligible].

(** [application/discovery/project.py:514-525 _event_record] *)
Definition event_record (event : FrontierEvent.t) (created_at : Z)
    : result FrontierEventRecord.t :=
  FrontierEventRecord.post_init
    (FrontierEventRecord.mk event.(FrontierEvent.event_id) event.(FrontierEvent.frontier_id)
       event.(FrontierEvent.research_run_id)
       (FrontierEventKind.value event.(FrontierEvent.event_kind)) event.(FrontierEvent.sequence)
       created_at event.(FrontierEvent.selection_generation)
       event.(FrontierEvent.execution_attempt_id) event.(FrontierEvent.reason_code)).

(** [application/discovery/project.py:368-386 _persist_delta] *)
Definition persist_item (created_at : Z) (observation_id : string) (db : Db.t)
    (p : ProposedItem.t) : result Db.t :=
  let item := p.(ProposedItem.item) in
  rows ← items_of db item.(FrontierItem.research_run_id);
  if existsb (fun row => (row.(FrontierItemRecord.dedupe_identity)
                          =? item.(FrontierItem.dedupe_identity))%string) rows
  then Ok db
  else
    record ← frontier_record item created_at;
    db ← insert_item db record;
    source ← FrontierSourceRecord.post_init
               (FrontierSourceRecord.mk p.(ProposedItem.source_row_id)
                  item.(FrontierItem.research_run_id) item.(FrontierItem.frontier_id) created_at
                  None None None None (Some observation_id));
    insert_source db source.

(** [application/discovery/project.py:387-393 _persist_delta] *)
Definition persist_event (created_at : Z) (db : Db.t) (event : FrontierEvent.t) : result Db.t :=
  existing ← list_for_frontier db event.(FrontierEvent.frontier_id);
  if existsb (fun row =>
       (row.(FrontierEventRecord.event_kind)
        =? FrontierEventKind.value event.(FrontierEvent.event_kind))%string
       && (row.(FrontierEventRecord.sequence) =? event.(FrontierEvent.sequence))) existing
  then Ok db
  else
    item ← get_item db event.(FrontierEvent.frontier_id);
    match item with
    | None => Ok db
    | Some _ => record ← event_record event created_at; insert_event db record
    end.

(** The frontier part of the projection of one observation.
    [application/discovery/project.py:368-393 _persist_delta] *)
Definition persist_frontier (db : Db.t) (created_at : Z) (observation_id : string)
    (proposed : list ProposedItem.t) : result Db.t :=
  db ← fold_result (persist_item created_at observation_id) db proposed;
  events ← traverse lifecycle_events proposed;
  fold_result (persist_event created_at) db (concat events).

(** An observation and what its projection proposes. *)
Definition Projection : Type := string * list ProposedItem.t.

Definition persist_projections (db : Db.t) (created_at : Z) (ps : list Projection)
    : result Db.t :=
  fold_result (fun db p => persist_frontier db created_at p.1 p.2) db ps.

(** ** One discovery cycle *)

(** [application/discovery/runner.py:558-576 _domain_item] *)
Definition domain_item (record : FrontierItemRecord.t) : result FrontierItem.t :=
  goal ← DiscoveryGoalKind.of_value record.(FrontierItemRecord.goal_kind);
  FrontierItem.post_init
    (FrontierItem.mk record.(FrontierItemRecord.frontier_id)
       record.(FrontierItemRecord.research_run_id) goal
       record.(FrontierItemRecord.candidate_origin) record.(FrontierItemRecord.candidate_path)
       record.(FrontierItemRecord.identity_id) record.(FrontierItemRecord.proposed_capability)
       record.(FrontierItemRecord.proposed_action)
       record.(FrontierItemRecord.expected_side_effect) record.(FrontierItemRecord.budget_class)
       record.(FrontierItemRecord.structural_signature)
       record.(FrontierItemRecord.dedupe_identity) record.(FrontierItemRecord.strategy_version)
       record.(FrontierItemRecord.session_context_id) record.(FrontierItemRecord.scope_hint)
       record.(FrontierItemRecord.attributes)).

(** [application/discovery/runner.py:579-592 _domain_events] *)
Definition domain_events (records : list FrontierEventRecord.t) : result (list FrontierEvent.t) :=
  traverse domain_event records.

(** [events_by.get(frontier_id, ())] of the dictionary built from the rows. *)
Definition events_by (table : list (string * list FrontierEvent.t)) (frontier_id : string)
    : list FrontierEvent.t := default [] (assoc frontier_id table).

(** The work committed so far: the number of experiments of the run and the capabilities of
    its worker results. *)
Module Work.
Record t : Set := mk { experiments : nat; worker_capabilities : list string }.
End Work.

Definition count_capability (w : Work.t) (capability : string) : Z :=
  Z.of_nat (length (List.filter (fun c => (c =? capability)%string) w.(Work.worker_capabilities))).

(** [application/discovery/runner.py:537-555 _bound_stop_reason] *)
Definition bound_stop_reason (db : Db.t) (w : Work.t) (config : DiscoveryRunConfig.t)
    : result (option string) :=
  let bounds := config.(DiscoveryRunConfig.bounds) in
  if bounds.(DiscoveryBounds.max_discovery_cycles) <=? Z.of_nat w.(Work.experiments)
  then Ok (Some "MAX_DISCOVERY_CYCLES")
  else
    items ← items_of db config.(DiscoveryRunConfig.research_run_id);
    if bounds.(DiscoveryBounds.max_frontier_items) <=? Z.of_nat (length items)
    then Ok (Some "MAX_FRONTIER_ITEMS")
    else if bounds.(DiscoveryBounds.max_browser_actions)
            <=? count_capability w BROWSER_PAGE_CAPABILITY
    then Ok (Some "MAX_BROWSER_ACTIONS")
    else if bounds.(DiscoveryBounds.max_http_transactions)
            <=? count_capability w HTTP_TRANSACTION_CAPABILITY
    then Ok (Some "MAX_HTTP_TRANSACTIONS")
    else Ok None.

(** How the choice of a cycle ends. *)
Inductive Choice : Type :=
  | Stopped (reason : string) (frontier_id : option string)
  | Claimed (record : FrontierItemRecord.t) (hypothesis_id : string).

(** The eligible item of a run that comes first.  Nothing is locked, and each query reads what is
    committed when it runs: [seen 1] is what the query for the items reads, [seen (2 + i)] what the
    query for the events of the [i]-th item reads.
    [application/discovery/runner.py:164-172 SurfaceDiscoveryRunner.run_cycle] *)
Definition choose (seen : nat -> Db.t) (run : string) : result (option FrontierItem.t) :=
  items ← items_of (seen 1%nat) run;
  table ← traverse (fun '(i, item) =>
      records ← list_for_frontier (seen (2 + i)%nat) item.(FrontierItemRecord.frontier_id);
      events ← domain_events records;
      Ok (item.(FrontierItemRecord.frontier_id), events)) (imap pair items);
  domain_items ← traverse domain_item items;
  Ok (select_eligible_frontier domain_items (events_by table) 1).

(** The first transaction of a cycle.  [projections] is what the observations not yet
    projected propose; the bound and the choice are read from [seen], what is written goes to [db].
    [application/discovery/runner.py:150-187 SurfaceDiscoveryRunner.run_cycle] *)
Definition begin_cycle (seen : nat -> Db.t) (db : Db.t) (w : Work.t) (event_id : string) (now : Z)
    (config : DiscoveryRunConfig.t) (projections : list Projection) : result (Db.t * Choice) :=
  let run := config.(DiscoveryRunConfig.research_run_id) in
  db ← persist_projections db now projections;
  bound_stop ← bound_stop_reason (seen 0%nat) w config;
  match bound_stop with
  | Some reason => Ok (db, Stopped reason None)
  | None =>
      chosen ← choose seen run;
      match chosen with
      | None => Ok (db, Stopped "NO_ELIGIBLE_FRONTIER" None)
      | Some chosen =>
          let fid := chosen.(FrontierItem.frontier_id) in
          if negb (chosen.(FrontierItem.candidate_origin)
                   =? config.(DiscoveryRunConfig.normalized_origin))%string
          then
            db ← append_event db event_id fid "BLOCKED_SCOPE" now None;
            Ok (db, Stopped "BLOCKED_SCOPE" (Some fid))
          else
            claimed ← claim_frontier_selected db event_id fid now;
            hypotheses ← hypotheses_of claimed.1 run;
            hypothesis ← match hypotheses with h :: _ => Ok h | [] => Raise IndexError end;
            record ← get_item claimed.1 fid;
            match record with
            | None => Raise AssertionError
            | Some record => Ok (claimed.1, Claimed record hypothesis.(HypothesisRecord.hypothesis_id))
            end
      end
  end.

(** [application/execute_planned_experiment.py:107-119 ResearchLoopStatus] *)
Inductive ResearchLoopStatus : Set :=
  | OBSERVATION_PRODUCED | NO_OBSERVATION | DISPATCH_DENIED | HUMAN_REVIEW_REQUIRED
  | INVOCATION_FAILED | UNKNOWN_OUTCOME | AUTHORIZED_NOT_DISPATCHED | ALREADY_TERMINAL
  | INPUT_REJECTED | REAUTHORIZATION_REQUIRED.

(** What came of the plan of a claimed item. *)
Inductive Outcome : Set :=
  | Reobserve
  | ScopeRefused
  | Executed (status : ResearchLoopStatus).

(** The last transaction of a cycle on the item it has claimed.
    [application/discovery/runner.py:205-305 SurfaceDiscoveryRunner.run_cycle] *)
Definition end_cycle (sha256_json : pyval -> string) (db : Db.t) (ids : Ids.t) (first_id last_id : string)
    (now : Z) (record : FrontierItemRecord.t) (outcome : Outcome)
    (projections : list Projection) : result Db.t :=
  let fid := record.(FrontierItemRecord.frontier_id) in
  match outcome with
  | Reobserve => reobserve sha256_json db ids first_id last_id record now
  | ScopeRefused => append_event db first_id fid "BLOCKED_SCOPE" now None
  | Executed INVOCATION_FAILED => append_event db first_id fid "FAILED_TERMINAL" now None
  | Executed UNKNOWN_OUTCOME => Ok db
  | Executed status =>
      db ← persist_projections db now projections;
      match status with
      | OBSERVATION_PRODUCED => append_event db first_id fid "OBSERVED" now None
      | REAUTHORIZATION_REQUIRED =>
          append_event db first_id fid "AWAITING_REAUTHORIZATION" now None
      | _ => Ok db
      end
  end.

(** ** Logs *)

Definition generation_of (e : FrontierEventRecord.t) : option Z :=
  if (e.(FrontierEventRecord.event_kind) =? "SELECTED")%string
  then e.(FrontierEventRecord.selection_generation) else None.

Definition kind_of (e : FrontierEventRecord.t) : option FrontierEventKind.t :=
  match FrontierEventKind.of_value e.(FrontierEventRecord.event_kind) with
  | Ok k => Some k
  | Raise _ => None
  end.

(** The kind of the last event of an item. *)
Definition last_kind (db : Db.t) (fid : string) : option FrontierEventKind.t :=
  last (log db fid) ≫= kind_of.

(** The transitions a history can have: the legal ones, and a block repeated by a cycle that chose
    the item before the first block of it was committed. *)
Definition possible_transition (latest : option FrontierEventKind.t) (k : FrontierEventKind.t)
    : bool :=
  legal_frontier_transition latest k
  || bool_decide (latest = Some FrontierEventKind.BLOCKED_SCOPE)
     && bool_decide (k = FrontierEventKind.BLOCKED_SCOPE).

Fixpoint possible_from (latest : option FrontierEventKind.t) (ks : list FrontierEventKind.t) : bool :=
  match ks with
  | [] => true
  | k :: ks' => possible_transition latest k && possible_from (Some k) ks'
  end.

(** The history of an item: the events are numbered from 1 without gaps, their kinds are possible
    from nothing on, and the selections are numbered from 1. *)
Record well_logged (l : list FrontierEventRecord.t) (ks : list FrontierEventKind.t) : Prop := {
  logged_kinds : FrontierEventRecord.event_kind <$> l = FrontierEventKind.value <$> ks;
  logged_possible : possible_from None ks = true;
  logged_numbers : numbered FrontierEventRecord.sequence 1 l;
  logged_generations : numbered id 1 (omap generation_of l) }.

Lemma possible_from_snoc latest ks k :
  possible_from latest (ks ++ [k]) = true <->
  possible_from latest ks = true /\ possible_transition (final latest ks) k = true.
Proof.
  revert latest. induction ks as [|k' ks IH]; intros latest; cbn [app possible_from].
  - cbn. rewrite andb_true_r. naive_solver.
  - rewrite !andb_true_iff, IH, final_cons. tauto.
Qed.

Lemma elem_of_log db fid e :
  e ∈ log db fid <-> e ∈ db.(Db.events) /\ e.(FrontierEventRecord.frontier_id) = fid.
Proof. unfold log. by rewrite elem_of_sort_by, elem_of_list_filter_bool, String.eqb_eq. Qed.

(** The log with one more event. *)
Lemma log_snoc db e fid :
  (e.(FrontierEventRecord.frontier_id) = fid -> forall o, o ∈ log db fid ->
     o.(FrontierEventRecord.sequence) <= e.(FrontierEventRecord.sequence)) ->
  log (Db.set_events db (db.(Db.events) ++ [e])) fid
  = if (e.(FrontierEventRecord.frontier_id) =? fid)%string then log db fid ++ [e]
    else log db fid.
Proof.
  intros Hle. unfold log. cbn. rewrite List.filter_app. cbn.
  destruct (_ =? fid)%string eqn:E; [|by rewrite app_nil_r]. bool_prop.
  apply sort_by_snoc. intros o Ho. apply Z.leb_le, Hle; [done|].
  unfold log. by rewrite elem_of_sort_by.
Qed.

Lemma well_logged_nil : well_logged [] [].
Proof. by split. Qed.

Lemma well_logged_last db fid ks :
  well_logged (log db fid) ks -> last_kind db fid = final None ks.
Proof.
  intros [Hk _ _ _]. unfold last_kind, final. revert Hk. generalize (log db fid) as l.
  intros l Hk. apply (f_equal last) in Hk. rewrite !fmap_last in Hk.
  destruct (last l) as [e|], (last ks) as [k|]; cbn in *; try done.
  injection Hk as Hk. unfold kind_of. by rewrite Hk, FrontierEventKind.of_value_value.
Qed.

Lemma omap_snoc {A B} (f : A -> option B) l x :
  omap f (l ++ [x]) = omap f l ++ match f x with Some y => [y] | None => [] end.
Proof. by rewrite omap_app. Qed.

Lemma well_logged_snoc l ks e k :
  well_logged l ks ->
  e.(FrontierEventRecord.event_kind) = FrontierEventKind.value k ->
  possible_transition (final None ks) k = true ->
  e.(FrontierEventRecord.sequence) = 1 + Z.of_nat (length l) ->
  (k = FrontierEventKind.SELECTED -> e.(FrontierEventRecord.selection_generation)
     = Some (1 + Z.of_nat (length (omap generation_of l)))) ->
  well_logged (l ++ [e]) (ks ++ [k]).
Proof.
  intros [H1 H2 H3 H4] Hk Hl Hs Hg. split.
  - rewrite !fmap_app, H1. cbn. by rewrite Hk.
  - by apply possible_from_snoc.
  - by apply numbered_snoc.
  - rewrite omap_snoc. unfold generation_of at 2. rewrite Hk.
    destruct (decide (k = FrontierEventKind.SELECTED)) as [->|Hne].
    + cbn. rewrite Hg; [|done]. by apply numbered_snoc.
    + destruct (_ =? "SELECTED")%string eqn:E; [by destruct k|]. by rewrite app_nil_r.
Qed.

Lemma next_sequence_numbered l :
  numbered FrontierEventRecord.sequence 1 l -> next_sequence l = 1 + Z.of_nat (length l).
Proof.
  unfold next_sequence. intros Hn. destruct l as [|x l _] using rev_ind; [done|].
  apply numbered_snoc in Hn as [_ Hx]. rewrite last_snoc, Hx, length_app. cbn. lia.
Qed.

(** ** The invariant of the tables *)

(** The origin configured for a run, as [config_from_record] reads it. *)
Definition origin_of (db : Db.t) (run : string) : option string :=
  (fun r => Str.strip r.(DiscoveryRunConfigRecord.normalized_origin)) <$> db.(Db.configs) !! run.

(** The item's origin is, or is not, the one configured for its run. *)
Definition on_origin (db : Db.t) (fid : string) : Prop :=
  exists r, db.(Db.items) !! fid = Some r
    /\ origin_of db r.(FrontierItemRecord.research_run_id)
       = Some (Str.strip r.(FrontierItemRecord.candidate_origin)).
Definition off_origin (db : Db.t) (fid : string) : Prop :=
  exists r o, db.(Db.items) !! fid = Some r
    /\ origin_of db r.(FrontierItemRecord.research_run_id) = Some o
    /\ o <> Str.strip r.(FrontierItemRecord.candidate_origin).

(** The events an item can have that is never worked on. *)
Definition PREPARATORY : list FrontierEventKind.t :=
  [FrontierEventKind.CREATED; FrontierEventKind.ELIGIBLE; FrontierEventKind.BLOCKED_SCOPE].

Record Inv (db : Db.t) : Prop := {
  inv_logs : forall fid, exists ks, well_logged (log db fid) ks;
  inv_parents : forall e, e ∈ db.(Db.events) ->
    is_Some (db.(Db.items) !! e.(FrontierEventRecord.frontier_id));
  inv_keyed : forall fid r, db.(Db.items) !! fid = Some r ->
    r.(FrontierItemRecord.frontier_id) = fid /\ Str.strip fid = fid;
  inv_worked : forall e k, e ∈ db.(Db.events) ->
    e.(FrontierEventRecord.event_kind) = FrontierEventKind.value k ->
    k ∈ PREPARATORY \/ on_origin db e.(FrontierEventRecord.frontier_id);
  inv_legal : forall fid ks, well_logged (log db fid) ks ->
    legal_from None ks = true \/ off_origin db fid }.

(** What no write changes: the configuration of a run, and of an item its id, its run and its
    origin. *)
Record keeps (db db' : Db.t) : Prop := {
  kept_configs : forall run c, db.(Db.configs) !! run = Some c -> db'.(Db.configs) !! run = Some c;
  kept_items : forall fid r, db.(Db.items) !! fid = Some r ->
    exists r', db'.(Db.items) !! fid = Some r'
      /\ r'.(FrontierItemRecord.frontier_id) = r.(FrontierItemRecord.frontier_id)
      /\ r'.(FrontierItemRecord.research_run_id) = r.(FrontierItemRecord.research_run_id)
      /\ r'.(FrontierItemRecord.candidate_origin) = r.(FrontierItemRecord.candidate_origin) }.

#[global] Instance keeps_preorder : PreOrder keeps.
Proof.
  split; [by split; eauto 10|]. intros x y z [C1 I1] [C2 I2]. split; [by auto|].
  intros fid r (r1 & H1 & E1 & E2 & E3)%I1. destruct (I2 _ _ H1) as (r2 & H2 & F1 & F2 & F3).
  exists r2. by rewrite F1, F2, F3.
Qed.

Lemma keeps_origin_of db db' run o :
  keeps db db' -> origin_of db run = Some o -> origin_of db' run = Some o.
Proof.
  unfold origin_of. intros [Hc _] (c & Hr & ->)%fmap_Some. by rewrite (Hc _ _ Hr).
Qed.

Lemma keeps_on_origin db db' fid : keeps db db' -> on_origin db fid -> on_origin db' fid.
Proof.
  intros Hk (r & Hr & Ho). destruct (kept_items _ _ Hk _ _ Hr) as (r' & Hr' & _ & Er & Eo).
  exists r'. split; [done|]. rewrite Er, Eo. by eapply keeps_origin_of.
Qed.

Lemma keeps_off_origin db db' fid : keeps db db' -> off_origin db fid -> off_origin db' fid.
Proof.
  intros Hk (r & o & Hr & Ho & Hne).
  destruct (kept_items _ _ Hk _ _ Hr) as (r' & Hr' & _ & Er & Eo).
  exists r', o. rewrite Er, Eo. split; [done|]. split; [by eapply keeps_origin_of|done].
Qed.

Lemma off_not_on db fid : off_origin db fid -> on_origin db fid -> False.
Proof. intros (r & o & Hr & Ho & Hne) (r' & Hr' & Ho'). by simplify_eq. Qed.

(** [db'] extends [db]: logs only grow, and those of the items whose last event is
    [SELECTED] are left alone, but for [own]. *)
Record extends (own : list string) (db db' : Db.t) : Prop := {
  ext_inv : Inv db';
  ext_keeps : keeps db db';
  ext_grow : forall fid, log db fid `prefix_of` log db' fid;
  ext_frame : forall fid, fid ∉ own -> last_kind db fid = Some FrontierEventKind.SELECTED ->
    log db' fid = log db fid }.

Lemma extends_refl own db : Inv db -> extends own db db.
Proof. by split. Qed.

Lemma last_kind_log db db' fid : log db' fid = log db fid -> last_kind db' fid = last_kind db fid.
Proof. unfold last_kind. by intros ->. Qed.

Lemma extends_trans own db db1 db2 :
  extends own db db1 -> extends own db1 db2 -> extends own db db2.
Proof.
  intros [H1 K1 H2 H3] [H4 K2 H5 H6].
  split; [done|by etrans|intros fid; etrans; [apply H2|apply H5]|].
  intros fid Hf Hs. pose proof (H3 fid Hf Hs) as E. rewrite H6; [done..|].
  by rewrite (last_kind_log _ _ _ E).
Qed.

Lemma extends_weaken own own' db db' : own ⊆ own' -> extends own db db' -> extends own' db db'.
Proof. intros Hs [? ? ? H]. split; [done..|]. intros fid Hf. apply H. set_solver. Qed.

(** A write to the other tables, or of an item. *)
Lemma extends_quiet own db db' :
  Inv db -> db'.(Db.events) = db.(Db.events) -> keeps db db' ->
  (forall fid r, db'.(Db.items) !! fid = Some r ->
     r.(FrontierItemRecord.frontier_id) = fid /\ Str.strip fid = fid) ->
  extends own db db'.
Proof.
  intros [H1 H2 H3 H4 H5] He Hi Hk. assert (forall fid, log db' fid = log db fid) as Hl.
  { intros fid. unfold log. by rewrite He. }
  split; [split|done|..].
  - intros fid. rewrite Hl. apply H1.
  - intros e. rewrite He. intros Hin. destruct (H2 e Hin) as [r Hr].
    destruct (kept_items _ _ Hi _ _ Hr) as (r' & ? & _). by exists r'.
  - done.
  - intros e k. rewrite He. intros Hin [?|?]%(H4 e k Hin); [by left|right]. by eapply keeps_on_origin.
  - intros fid ks. rewrite Hl. intros [?|?]%H5; [by left|right]. by eapply keeps_off_origin.
  - intros fid. by rewrite Hl.
  - intros fid _ _. apply Hl.
Qed.

(** [db'] has the items and events of [db], and its configurations. *)
Definition same_frontier (db db' : Db.t) : Prop :=
  db'.(Db.events) = db.(Db.events) /\ db'.(Db.items) = db.(Db.items)
  /\ forall run c, db.(Db.configs) !! run = Some c -> db'.(Db.configs) !! run = Some c.

Lemma extends_same_frontier own db db' : Inv db -> same_frontier db db' -> extends own db db'.
Proof.
  intros HI (He & Hi & Hc). apply extends_quiet; [done..| |].
  - split; [done|]. intros fid r. rewrite Hi. by eauto 10.
  - rewrite Hi. apply HI.
Qed.

Lemma insert_item_ok db r db' :
  insert_item db r = Ok db' ->
  db.(Db.items) !! r.(FrontierItemRecord.frontier_id) = None
  /\ db' = Db.set_items db (<[r.(FrontierItemRecord.frontier_id) := r]> db.(Db.items)).
Proof.
  unfold insert_item. rewrite !raise_if_ok. intros (_ & _ & Hn & _ & _ & [= <-]).
  split; [|done]. rewrite bool_decide_eq_false in Hn. by apply eq_None_not_Some.
Qed.

Lemma insert_item_extends own db r db' :
  Inv db -> Str.strip r.(FrontierItemRecord.frontier_id) = r.(FrontierItemRecord.frontier_id) ->
  insert_item db r = Ok db' -> extends own db db'.
Proof.
  intros HI Hs [Hn ->]%insert_item_ok. apply extends_quiet; [done..| |]; cbn.
  - split; [done|]. intros fid r' Hr. exists r'. split; [|done]. cbn.
    rewrite lookup_insert_ne; [done|]. intros <-. congruence.
  - intros fid r'. rewrite lookup_insert. case_decide as E; [|apply HI].
    intros [= <-]. by subst fid.
Qed.

(** An item without a row has no events. *)
Lemma log_nil db fid : Inv db -> db.(Db.items) !! fid = None -> log db fid = [].
Proof.
  intros [_ Hp _ _ _] Hn. destruct (log db fid) as [|e l] eqn:E; [done|].
  assert (e ∈ log db fid) as [Hin <-]%elem_of_log by (rewrite E; left).
  destruct (Hp e Hin). congruence.
Qed.

Lemma insert_source_same db r db' : insert_source db r = Ok db' -> same_frontier db db'.
Proof. unfold insert_source. rewrite !raise_if_ok. by intros (_ & _ & [= <-]). Qed.

Lemma insert_config_same db r db' : insert_config db r = Ok db' -> same_frontier db db'.
Proof.
  unfold insert_config. rewrite !raise_if_ok, bool_decide_eq_false.
  intros (_ & Hn & _ & [= <-]). split_and!; [done..|]. intros run c Hr. cbn.
  rewrite lookup_insert_ne; [done|]. intros <-. by destruct Hn.
Qed.

Lemma insert_hypothesis_same db h db' : insert_hypothesis db h = Ok db' -> same_frontier db db'.
Proof. unfold insert_hypothesis. rewrite !raise_if_ok. by intros (_ & _ & [= <-]). Qed.

Lemma set_cache_extends own db fid state version db' :
  Inv db -> set_cache_state db fid state version = Ok db' -> extends own db db'.
Proof.
  unfold set_cache_state. intros HI H. apply bind_ok in H as (? & _ & H).
  destruct (db.(Db.items) !! fid) as [r|] eqn:Hr; [|done]. injection H as <-.
  apply extends_quiet; [done..| |]; cbn.
  - split; [done|]. intros f r' Hf. cbn. rewrite lookup_insert. case_decide as E; [|by eauto 10].
    subst f. simplify_eq. by eexists.
  - intros f r'. rewrite lookup_insert. case_decide as E; [|apply HI].
    intros [= <-]. subst f. cbn. by apply HI.
Qed.

Lemma insert_event_ok db e db' :
  insert_event db e = Ok db' ->
  db' = Db.set_events db (db.(Db.events) ++ [e])
  /\ (forall o, o ∈ db.(Db.events) -> same_slot o e = false)
  /\ is_Some (db.(Db.items) !! e.(FrontierEventRecord.frontier_id)).
Proof.
  unfold insert_event. rewrite !raise_if_ok, existsb_false.
  intros (_ & Hc & Hi & [= <-]). split; [done|]. split.
  - intros o Ho. by apply Hc, orb_false_iff in Ho as [_ ?].
  - apply negb_false_iff, andb_true_iff in Hi as [Hi _]. by destruct (db.(Db.items) !! _).
Qed.

(** When an event can follow: the transition is legal, or repeats the block of an item of another
    origin; and only an item of the configured origin is worked on. *)
Definition may_follow (db : Db.t) (fid : string) (latest : option FrontierEventKind.t)
    (k : FrontierEventKind.t) : Prop :=
  (legal_frontier_transition latest k = true
   \/ off_origin db fid /\ latest = Some FrontierEventKind.BLOCKED_SCOPE
      /\ k = FrontierEventKind.BLOCKED_SCOPE)
  /\ (k ∈ PREPARATORY \/ on_origin db fid).

Lemma may_follow_possible db fid latest k :
  may_follow db fid latest k -> possible_transition latest k = true.
Proof.
  unfold possible_transition. intros [[->|(_ & -> & ->)] _]; [done|].
  by rewrite orb_true_r.
Qed.

(** The history of an item says which kinds it has. *)
Lemma well_logged_kinds l ks ks' : well_logged l ks -> well_logged l ks' -> ks = ks'.
Proof. intros [H _ _ _] [H' _ _ _]. rewrite H in H'. by apply (inj (fmap _)) in H'. Qed.

(** The insertion of the next event of an item. *)
Lemma push_ok db e db' k ks :
  Inv db -> insert_event db e = Ok db' ->
  e.(FrontierEventRecord.event_kind) = FrontierEventKind.value k ->
  may_follow db e.(FrontierEventRecord.frontier_id) (final None ks) k ->
  well_logged (log db e.(FrontierEventRecord.frontier_id)) ks ->
  well_logged (log db e.(FrontierEventRecord.frontier_id) ++ [e]) (ks ++ [k]) ->
  Inv db' /\ keeps db db' /\ forall fid, log db' fid
    = if (e.(FrontierEventRecord.frontier_id) =? fid)%string then log db fid ++ [e]
      else log db fid.
Proof.
  intros HI (-> & _ & Hi)%insert_event_ok Hk Hmay Hwl Hwl'.
  assert (forall fid, log (Db.set_events db (db.(Db.events) ++ [e])) fid
    = if (e.(FrontierEventRecord.frontier_id) =? fid)%string then log db fid ++ [e]
      else log db fid) as Hl.
  { intros fid. apply log_snoc. intros <- o Ho. destruct Hwl' as [_ _ Hn _], Hwl as [_ _ Hn' _].
    apply numbered_snoc in Hn as [_ ->]. pose proof (numbered_lower _ _ _ _ Hn' Ho). lia. }
  split; [|split; [by split; eauto 10|done]]. split.
  - intros fid. rewrite Hl. destruct (_ =? fid)%string eqn:E; [|apply HI]. bool_prop. subst fid. eauto.
  - cbn. intros o [Ho| ->%list_elem_of_singleton]%elem_of_app; [by apply HI|done].
  - apply HI.
  - cbn. intros o k' [Ho| ->%list_elem_of_singleton]%elem_of_app Hk'; [by apply (inv_worked _ HI)|].
    rewrite Hk in Hk'. apply (inj _) in Hk' as <-. apply Hmay.
  - intros fid ks'. rewrite Hl. destruct (_ =? fid)%string eqn:E; [|by apply (inv_legal _ HI)].
    bool_prop. subst fid. intros Hks. rewrite <- (well_logged_kinds _ _ _ Hwl' Hks).
    destruct (inv_legal _ HI _ _ Hwl) as [Hleg|Hoff]; [|by right].
    destruct Hmay as [[Hk'|[Hoff _]] _]; [left; by apply legal_from_snoc|by right].
Qed.

(** Appending to the log of an item. *)
Lemma push_extends db e db' k ks :
  Inv db -> insert_event db e = Ok db' ->
  well_logged (log db e.(FrontierEventRecord.frontier_id)) ks ->
  e.(FrontierEventRecord.event_kind) = FrontierEventKind.value k ->
  may_follow db e.(FrontierEventRecord.frontier_id) (final None ks) k ->
  e.(FrontierEventRecord.sequence)
    = 1 + Z.of_nat (length (log db e.(FrontierEventRecord.frontier_id))) ->
  (k = FrontierEventKind.SELECTED -> e.(FrontierEventRecord.selection_generation)
     = Some (1 + Z.of_nat (length (omap generation_of
                              (log db e.(FrontierEventRecord.frontier_id)))))) ->
  extends [e.(FrontierEventRecord.frontier_id)] db db'
  /\ log db' e.(FrontierEventRecord.frontier_id)
     = log db e.(FrontierEventRecord.frontier_id) ++ [e]
  /\ forall fid, fid <> e.(FrontierEventRecord.frontier_id) -> log db' fid = log db fid.
Proof.
  intros HI Hins Hwl Hk Hmay Hs Hg.
  destruct (push_ok _ _ _ k ks HI Hins Hk Hmay Hwl) as (HI' & Hkeep & Hl).
  { apply well_logged_snoc; try done. by eapply may_follow_possible. }
  assert (forall fid, fid <> e.(FrontierEventRecord.frontier_id) -> log db' fid = log db fid) as Ho.
  { intros fid Hne. rewrite Hl. by destruct (String.eqb_spec e.(FrontierEventRecord.frontier_id) fid). }
  split; [split|split]; [done|done| | |by rewrite Hl, String.eqb_refl|done].
  - intros fid. rewrite Hl. destruct (_ =? fid)%string; [by apply prefix_app_r|done].
  - intros fid Hf _. apply Ho. set_solver.
Qed.

(** An item whose last event is not [SELECTED] is nobody's own. *)
Lemma extends_free db db' fid :
  extends [fid] db db' -> last_kind db fid <> Some FrontierEventKind.SELECTED -> extends [] db db'.
Proof.
  intros [H1 H2 H3 H4] Hn. split; [done..|]. intros f _ Hs. apply H4; [|done].
  intros ->%list_elem_of_singleton. done.
Qed.

(** ** What the operations do *)

Lemma list_for_frontier_ok db fid l : list_for_frontier db fid = Ok l -> l = log db fid.
Proof. unfold list_for_frontier. intros H. by apply bind_ok in H as (? & _ & [= <-]). Qed.

Lemma last_kind_snoc db fid l e k :
  log db fid = l ++ [e] -> e.(FrontierEventRecord.event_kind) = FrontierEventKind.value k ->
  last_kind db fid = Some k.
Proof.
  unfold last_kind. intros -> Hk. rewrite last_snoc. cbn. unfold kind_of.
  by rewrite Hk, FrontierEventKind.of_value_value.
Qed.

Lemma append_event_extends db id fid k now s db' :
  Inv db -> append_event db id fid (FrontierEventKind.value k) now s = Ok db' ->
  k <> FrontierEventKind.SELECTED -> may_follow db fid (last_kind db fid) k ->
  s = None \/ s = Some (next_sequence (log db fid)) ->
  extends [fid] db db' /\ last_kind db' fid = Some k
  /\ forall f, f <> fid -> log db' f = log db f.
Proof.
  unfold append_event. intros HI H Hk Hleg Hs.
  apply bind_ok in H as (l & ->%list_for_frontier_ok & H). apply bind_ok in H as (run & _ & H).
  apply bind_ok in H as (e & ->%validated & H). destruct (inv_logs _ HI fid) as [ks Hwl].
  rewrite (well_logged_last _ _ _ Hwl) in Hleg.
  edestruct (push_extends db _ db' k ks HI H) as (He & Hlog & Ho); cbn;
    [done|done|done| |done|].
  - rewrite <- next_sequence_numbered; [|apply Hwl]. destruct Hs as [-> | ->]; [done|].
    by destruct (_ =? 0).
  - split; [done|]. split; [|done]. by eapply last_kind_snoc.
Qed.

(** On an item that is not selected. *)
Lemma append_event_free db id fid k now s db' :
  Inv db -> append_event db id fid (FrontierEventKind.value k) now s = Ok db' ->
  k <> FrontierEventKind.SELECTED -> may_follow db fid (last_kind db fid) k ->
  last_kind db fid <> Some FrontierEventKind.SELECTED ->
  s = None \/ s = Some (next_sequence (log db fid)) ->
  extends [] db db' /\ last_kind db' fid = Some k /\ forall f, f <> fid -> log db' f = log db f.
Proof.
  intros HI H Hk Hl Hn Hs. destruct (append_event_extends _ _ _ _ _ _ _ HI H Hk Hl Hs)
    as (He & Hlast & Ho). split; [by eapply extends_free|done].
Qed.

Lemma log_of_last_kind_None db fid :
  Inv db -> last_kind db fid = None -> log db fid = [].
Proof.
  intros HI Hl. destruct (inv_logs _ HI fid) as [ks Hwl].
  rewrite (well_logged_last _ _ _ Hwl) in Hl. destruct Hwl as [Hk _ _ _].
  unfold final in Hl. destruct (last ks) eqn:E; [done|]. apply last_None in E as ->.
  by apply fmap_nil_inv in Hk.
Qed.

(** A legal transition to a preparatory event. *)
Lemma may_follow_prepare db fid latest k :
  legal_frontier_transition latest k = true -> k ∈ PREPARATORY -> may_follow db fid latest k.
Proof. split; by left. Qed.

(** An item that is [SELECTED] is of the configured origin, and works on. *)
Lemma selected_on_origin db fid :
  Inv db -> last_kind db fid = Some FrontierEventKind.SELECTED -> on_origin db fid.
Proof.
  unfold last_kind. intros HI Hl. destruct (last (log db fid)) as [e|] eqn:E; [|done].
  apply last_Some in E as [l E]. cbn in Hl. unfold kind_of in Hl.
  destruct (FrontierEventKind.of_value _) as [k|] eqn:Ek; [|done]. injection Hl as ->.
  apply FrontierEventKind.of_value_ok in Ek.
  assert (e ∈ log db fid) as [Hin <-]%elem_of_log by (rewrite E; set_solver).
  by destruct (inv_worked _ HI _ _ Hin Ek) as [[?|[?|[?|[]%elem_of_nil]%elem_of_cons]%elem_of_cons]%elem_of_cons|].
Qed.

Lemma may_follow_selected db fid k :
  Inv db -> last_kind db fid = Some FrontierEventKind.SELECTED ->
  legal_frontier_transition (Some FrontierEventKind.SELECTED) k = true ->
  may_follow db fid (last_kind db fid) k.
Proof. intros HI Hs Hk. rewrite Hs. split; [by left|]. right. by apply selected_on_origin. Qed.

(** An item that is only created has one event. *)
Lemma log_of_created db fid :
  Inv db -> last_kind db fid = Some FrontierEventKind.CREATED -> length (log db fid) = 1%nat.
Proof.
  intros HI Hl. destruct (inv_logs _ HI fid) as [ks Hwl].
  rewrite (well_logged_last _ _ _ Hwl) in Hl. destruct Hwl as [Hk Hleg _ _].
  destruct ks as [|k ks _] using rev_ind; [done|]. rewrite final_snoc in Hl.
  injection Hl as ->. apply possible_from_snoc in Hleg as [_ Hleg].
  destruct ks as [|k ks _] using rev_ind.
  - apply (f_equal length) in Hk. by rewrite !length_fmap in Hk.
  - rewrite final_snoc in Hleg. by destruct k.
Qed.

Lemma next_sequence_length db fid :
  Inv db -> next_sequence (log db fid) = 1 + Z.of_nat (length (log db fid)).
Proof. intros HI. destruct (inv_logs _ HI fid) as [ks [_ _ Hn _]]. by apply next_sequence_numbered. Qed.

Lemma insert_new_extends db ids item now obs seed db' :
  Inv db ->
  Str.strip item.(FrontierItemRecord.frontier_id) = item.(FrontierItemRecord.frontier_id) ->
  insert_new db ids item now obs seed = Ok db' ->
  extends [] db db'
  /\ db.(Db.items) !! item.(FrontierItemRecord.frontier_id) = None
  /\ forall f, f <> item.(FrontierItemRecord.frontier_id) -> log db' f = log db f.
Proof.
  unfold insert_new. intros HI Hclean H. set (fid := item.(FrontierItemRecord.frontier_id)) in *.
  apply bind_ok in H as (db1 & H1 & H). apply bind_ok in H as (src & _ & H).
  apply bind_ok in H as (db2 & H2 & H). apply bind_ok in H as (db3 & H3 & H4).
  pose proof (insert_item_extends [] _ _ _ HI Hclean H1) as E1.
  apply insert_item_ok in H1 as [Hnone ->]. fold fid in Hnone.
  pose proof (insert_source_same _ _ _ H2) as Hsame.
  pose proof (extends_trans _ _ _ _ E1 (extends_same_frontier [] _ _ (ext_inv _ _ _ E1)
    Hsame)) as E2. clear E1. destruct Hsame as [Hev _].
  assert (forall f, log db2 f = log db f) as Hl2. { intros f. unfold log. by rewrite Hev. }
  pose proof (log_nil _ _ HI Hnone) as Hnil.
  assert (last_kind db2 fid = None) as Hk2 by (unfold last_kind; by rewrite Hl2, Hnil).
  destruct (append_event_free db2 _ _ FrontierEventKind.CREATED _ _ _ (ext_inv _ _ _ E2) H3)
    as (E3 & Hk3 & Ho3); [done|rewrite Hk2; by apply may_follow_prepare; [|left]|by rewrite Hk2|right; by rewrite Hl2, Hnil|].
  destruct (append_event_free db3 _ _ FrontierEventKind.ELIGIBLE _ _ _ (ext_inv _ _ _ E3) H4)
    as (E4 & Hk4 & Ho4); [done|rewrite Hk3; by apply may_follow_prepare; [|right; left]|by rewrite Hk3| |].
  { right. by rewrite next_sequence_length, log_of_created by (done || apply E3). }
  split; [|split; [done|]].
  - eapply extends_trans; [exact E2|]. by eapply extends_trans.
  - intros f Hf. by rewrite Ho4, Ho3, Hl2.
Qed.

(** The items of the domain carry no blanks around their ids. *)
Lemma domain_item_clean x y :
  FrontierItem.post_init x = Ok y ->
  y.(FrontierItem.frontier_id) = Str.strip x.(FrontierItem.frontier_id)
  /\ y.(FrontierItem.candidate_origin) = Str.strip x.(FrontierItem.candidate_origin).
Proof.
  assert (forall v r, require_text v = Ok r -> r = Str.strip v) as Ht.
  { unfold require_text. intros v r [_ [= <-]]%raise_if_ok. done. }
  unfold FrontierItem.post_init. intros H. apply bind_ok in H as (a & Ha%Ht & H).
  apply bind_ok in H as (b & _ & H). apply bind_ok in H as (c & Hc%Ht & H).
  repeat match type of H with
         | (_ ≫= _) = Ok _ => let v := fresh in apply bind_ok in H as (v & _ & H)
         | (if _ then _ else _) = Ok _ => apply raise_if_ok in H as [_ H]
         end.
  injection H as <-. cbn. by subst.
Qed.

Lemma frontier_record_clean item now r :
  frontier_record item now = Ok r ->
  r.(FrontierItemRecord.frontier_id) = item.(FrontierItem.frontier_id).
Proof. unfold frontier_record. by intros ->%validated. Qed.

Lemma insert_frontier_extends db ids x item now run db' :
  Inv db -> FrontierItem.post_init x = Ok item ->
  insert_frontier db ids item now run = Ok db' -> extends [] db db'.
Proof.
  unfold insert_frontier. intros HI [Hx _]%domain_item_clean H. apply bind_ok in H as (r & Hr & H).
  eapply insert_new_extends; [done| |exact H].
  rewrite (frontier_record_clean _ _ _ Hr), Hx. apply Str.strip_idem.
Qed.

Lemma seed_variants_extends sha db ids config sessions now identities seeded db' :
  Inv db -> seed_variants sha db ids config sessions now identities seeded = Ok db' ->
  extends [] db db'.
Proof.
  revert db seeded. induction identities as [|i l IH]; intros db seeded HI; cbn [seed_variants].
  - intros [= <-]. by apply extends_refl.
  - destruct (i =? _)%string; [by apply IH|]. destruct (_ || _).
    { intros [= <-]. by apply extends_refl. }
    intros H. apply bind_ok in H as (v & Hv & H). apply bind_ok in H as (db1 & H1 & H).
    eapply insert_frontier_extends in H1; [|done|exact Hv].
    eapply extends_trans; [exact H1|]. eapply IH; [apply H1|exact H].
Qed.

Lemma seed_extends sha db ids start now db' :
  Inv db -> seed sha db ids start now = Ok db' -> extends [] db db'.
Proof.
  unfold seed. intros HI H. apply bind_ok in H as (item & Hitem & H).
  apply bind_ok in H as (db1 & H1 & H2).
  eapply insert_frontier_extends in H1; [|done|exact Hitem].
  eapply extends_trans; [exact H1|]. eapply seed_variants_extends; [apply H1|exact H2].
Qed.

Lemma ensure_hypothesis_same db hyp run now db' :
  ensure_hypothesis db hyp run now = Ok db' -> same_frontier db db'.
Proof.
  unfold ensure_hypothesis. intros H. apply bind_ok in H as (hs & _ & H).
  destruct hs; [|by injection H as <-]. by apply bind_ok in H as (h & _ & H%insert_hypothesis_same).
Qed.

Lemma ensure_started_extends sha db ids hyp now start db' :
  Inv db -> ensure_started sha db ids hyp now start = Ok db' -> extends [] db db'.
Proof.
  unfold ensure_started. intros HI H. apply bind_ok in H as (existing & _ & H).
  destruct existing.
  - apply bind_ok in H as (? & _ & H). apply bind_ok in H as (? & _ & [= <-]).
    by apply extends_refl.
  - apply bind_ok in H as (r & _ & H). apply bind_ok in H as (db1 & H1%insert_config_same & H).
    apply (extends_same_frontier [] _ _ HI) in H1.
    apply bind_ok in H as (db2 & H2%seed_extends & H%ensure_hypothesis_same); [|apply H1].
    eapply extends_trans; [exact H1|]. eapply extends_trans; [exact H2|].
    by apply extends_same_frontier; [apply H2|].
Qed.

(** What a projection proposes are items of the domain. *)
Definition item_ok (p : ProposedItem.t) : Prop :=
  FrontierItem.post_init p.(ProposedItem.item) = Ok p.(ProposedItem.item).
Definition well_proposed (ps : list Projection) : Prop := Forall (fun p => Forall item_ok p.2) ps.

Lemma persist_item_extends now obs db p db' :
  Inv db -> item_ok p -> persist_item now obs db p = Ok db' -> extends [] db db'.
Proof.
  unfold persist_item. intros HI [Hok _]%domain_item_clean H. apply bind_ok in H as (rows & _ & H).
  destruct (existsb _ _); [injection H as <-; by apply extends_refl|].
  apply bind_ok in H as (r & Hr & H). apply bind_ok in H as (db1 & H1 & H).
  apply (insert_item_extends []) in H1; [|done|by rewrite (frontier_record_clean _ _ _ Hr)].
  apply bind_ok in H as (src & _ & H%insert_source_same).
  eapply extends_trans; [exact H1|]. apply extends_same_frontier; [apply H1|done].
Qed.

(** The sequence numbers of a log are taken. *)
Lemma number_taken db fid e n :
  Inv db -> 1 <= n <= Z.of_nat (length (log db fid)) ->
  e.(FrontierEventRecord.frontier_id) = fid -> e.(FrontierEventRecord.sequence) = n ->
  exists o, o ∈ db.(Db.events) /\ same_slot o e = true.
Proof.
  intros HI Hn <- <-. destruct (inv_logs _ HI e.(FrontierEventRecord.frontier_id)) as [ks [_ _ Hs _]].
  assert (e.(FrontierEventRecord.sequence)
          ∈ FrontierEventRecord.sequence <$> log db e.(FrontierEventRecord.frontier_id)) as Hin.
  { rewrite Hs. apply elem_of_seqZ. lia. }
  apply list_elem_of_fmap in Hin as (o & Ho & [Hin Hf]%elem_of_log). exists o. split; [done|].
  unfold same_slot. by rewrite Hf, String.eqb_refl, <- Ho, Z.eqb_refl.
Qed.

(** The first and the second event of an item, as a projection writes them. *)
Lemma persist_event_extends now db ev db' :
  Inv db -> persist_event now db ev = Ok db' ->
  (ev.(FrontierEvent.event_kind) = FrontierEventKind.CREATED /\ ev.(FrontierEvent.sequence) = 1
   \/ ev.(FrontierEvent.event_kind) = FrontierEventKind.ELIGIBLE
      /\ ev.(FrontierEvent.sequence) = 2
      /\ (db.(Db.items) !! ev.(FrontierEvent.frontier_id) = None
          \/ log db ev.(FrontierEvent.frontier_id) <> [])) ->
  extends [] db db'
  /\ db'.(Db.items) = db.(Db.items)
  /\ (db.(Db.items) !! ev.(FrontierEvent.frontier_id) = None
      \/ log db' ev.(FrontierEvent.frontier_id) <> []).
Proof.
  unfold persist_event. set (fid := ev.(FrontierEvent.frontier_id)). intros HI H Hev.
  apply bind_ok in H as (l & ->%list_for_frontier_ok & H).
  destruct (existsb _ _) eqn:Hex.
  { injection H as <-. split; [by apply extends_refl|]. split; [done|]. right.
    by destruct (log db fid). }
  apply bind_ok in H as (item & Hi & H). unfold get_item in Hi.
  apply bind_ok in Hi as (? & _ & [= <-]). destruct (db.(Db.items) !! fid) as [item|] eqn:Hitem.
  2: { injection H as <-. split; [by apply extends_refl|]. auto. }
  apply bind_ok in H as (e & He & H). unfold event_record in He. apply validated in He as ->.
  pose proof H as (Hdb & Hfree & _)%insert_event_ok.
  destruct (inv_logs _ HI fid) as [ks Hwl].
  assert (forall n, ev.(FrontierEvent.sequence) = n -> 1 <= n ->
            Z.of_nat (length (log db fid)) < n) as Hlen.
  { intros n Hn H1. destruct (Z.lt_ge_cases (Z.of_nat (length (log db fid))) n) as [|Hge]; [done|].
    edestruct (number_taken db fid) as (o & Ho & Hs); [done|split; [exact H1|exact Hge]| | |];
      [| |rewrite Hfree in Hs; [discriminate Hs|exact Ho]]; done. }
  destruct Hev as [[Hk Hs]|(Hk & Hs & Hcase)].
  - specialize (Hlen 1 Hs ltac:(lia)). destruct (log db fid) as [|o l'] eqn:El; [|cbn in Hlen; lia].
    assert (ks = []) as -> by (destruct Hwl as [E _ _ _]; by destruct ks).
    edestruct (push_extends db _ db' FrontierEventKind.CREATED [] HI H) as (He & Hlog & _);
      cbn; fold fid; rewrite ?El, ?Hk; [exact Hwl|done|by apply may_follow_prepare; [|left]|done|done|].
    cbn in He, Hlog. fold fid in He, Hlog. split; [|split].
    + eapply extends_free; [exact He|]. unfold last_kind. by rewrite El.
    + by rewrite Hdb.
    + right. rewrite Hlog, El. done.
  - specialize (Hlen 2 Hs ltac:(lia)). destruct Hcase as [|Hne]; [congruence|].
    destruct (log db fid) as [|o [|o' l']] eqn:El; [done| |cbn in Hlen; lia].
    assert (ks = [FrontierEventKind.CREATED]) as ->.
    { destruct Hwl as [E Hleg _ _]. destruct ks as [|k [|? ?]]; try done. cbn in Hleg.
      rewrite andb_true_r in Hleg. by destruct k. }
    edestruct (push_extends db _ db' FrontierEventKind.ELIGIBLE [FrontierEventKind.CREATED] HI H)
      as (He & Hlog & _); cbn; fold fid; rewrite ?El, ?Hk;
      [exact Hwl|done|by apply may_follow_prepare; [|right; left]|done|done|].
    cbn in He, Hlog. fold fid in He, Hlog. split; [|split].
    + eapply extends_free; [exact He|]. unfold fid at 1.
      rewrite (well_logged_last _ _ [FrontierEventKind.CREATED]); [done|by fold fid; rewrite El].
    + by rewrite Hdb.
    + right. rewrite Hlog, El. done.
Qed.

Lemma lifecycle_events_ok p l :
  lifecycle_events p = Ok l ->
  exists c e, l = [c; e] /\ c.(FrontierEvent.event_kind) = FrontierEventKind.CREATED
  /\ c.(FrontierEvent.sequence) = 1
  /\ e.(FrontierEvent.event_kind) = FrontierEventKind.ELIGIBLE
  /\ e.(FrontierEvent.sequence) = 2
  /\ e.(FrontierEvent.frontier_id) = c.(FrontierEvent.frontier_id).
Proof.
  unfold lifecycle_events. intros H. apply bind_ok in H as (c & Hc & H).
  apply bind_ok in H as (e & He & [= <-]). exists c, e. split; [done|].
  unfold FrontierEvent.post_init in Hc, He. cbn in Hc, He.
  apply bind_ok in Hc as (a & _ & Hc). apply bind_ok in Hc as (b & Hb & Hc).
  apply bind_ok in Hc as (r & _ & [= <-]).
  apply bind_ok in He as (a' & _ & He). apply bind_ok in He as (b' & Hb' & He).
  apply bind_ok in He as (r' & _ & [= <-]). cbn. repeat split; congruence.
Qed.

Lemma persist_frontier_extends db now obs ps db' :
  Inv db -> Forall item_ok ps -> persist_frontier db now obs ps = Ok db' -> extends [] db db'.
Proof.
  unfold persist_frontier. intros HI Hps H. apply bind_ok in H as (db1 & H1 & H).
  assert (extends [] db db1) as E1.
  { pattern db1. eapply fold_result_ind; [|by apply extends_refl|exact H1].
    intros s0 p s1 Hin E Hp. eapply extends_trans; [exact E|]. rewrite Forall_forall in Hps.
    eapply persist_item_extends; [apply E|by apply Hps|exact Hp]. }
  eapply extends_trans; [exact E1|]. apply ext_inv in E1. clear H1 HI db Hps.
  apply bind_ok in H as (evs & Hevs & H). apply traverse_ok in Hevs.
  revert db1 E1 H. induction Hevs as [|p l ps ls Hl _ IH]; intros db HI H.
  { injection H as <-. by apply extends_refl. }
  apply lifecycle_events_ok in Hl as (c & e & -> & Hc & Hcs & He & Hes & Hf).
  cbn [concat app fold_result] in H. apply bind_ok in H as (db1 & H1 & H).
  apply bind_ok in H as (db2 & H2 & H).
  destruct (persist_event_extends _ _ _ _ HI H1) as (E1 & Hit & Hl); [by left|].
  destruct (persist_event_extends _ _ _ _ (ext_inv _ _ _ E1) H2) as (E2 & _ & _).
  { right. rewrite Hit, Hf. auto. }
  eapply extends_trans; [exact E1|]. eapply extends_trans; [exact E2|].
  apply IH; [apply E2|done].
Qed.

Lemma persist_projections_extends db now ps db' :
  Inv db -> well_proposed ps -> persist_projections db now ps = Ok db' -> extends [] db db'.
Proof.
  unfold persist_projections, well_proposed. rewrite Forall_forall. intros HI Hps H. pattern db'.
  eapply fold_result_ind; [|by apply extends_refl|exact H]. intros s0 p s1 Hin E Hp.
  eapply extends_trans; [exact E|].
  eapply persist_frontier_extends; [apply E|by apply Hps|exact Hp].
Qed.

(** The events of the domain keep kind, number and generation. *)
Definition same_event (r : FrontierEventRecord.t) (e : FrontierEvent.t) : Prop :=
  kind_of r = Some e.(FrontierEvent.event_kind)
  /\ r.(FrontierEventRecord.sequence) = e.(FrontierEvent.sequence)
  /\ generation_of r = selected_generation e.

Lemma domain_event_ok r e : domain_event r = Ok e -> same_event r e.
Proof.
  unfold domain_event, same_event, kind_of, generation_of, selected_generation. intros H.
  apply bind_ok in H as (k & Hk & H). rewrite Hk. apply FrontierEventKind.of_value_ok in Hk.
  unfold FrontierEvent.post_init in H. cbn in H.
  apply bind_ok in H as (a & _ & H). apply bind_ok in H as (b & _ & H).
  apply bind_ok in H as (c & _ & H). rewrite !raise_if_ok in H. destruct H as (_ & _ & H).
  apply bind_ok in H as (x & _ & [= <-]). cbn. split; [done|]. split; [done|].
  rewrite Hk. by destruct k.
Qed.

Lemma domain_events_ok l es : domain_events l = Ok es -> Forall2 same_event l es.
Proof.
  unfold domain_events. rewrite traverse_ok. intros H.
  eapply Forall2_impl; [exact H|]. apply domain_event_ok.
Qed.

Lemma same_event_numbers l es n :
  Forall2 same_event l es -> numbered FrontierEventRecord.sequence n l ->
  numbered FrontierEvent.sequence n es.
Proof.
  intros H. revert n. induction H as [|r e l es (_ & Hs & _) _ IH]; intros n; [done|].
  rewrite !numbered_cons, Hs. intros [-> ?]. auto.
Qed.

Lemma same_event_generations l es :
  Forall2 same_event l es -> omap selected_generation es = omap generation_of l.
Proof.
  induction 1 as [|r e l es (_ & _ & Hg) _ IH]; [done|]. cbn. rewrite Hg.
  by destruct (selected_generation e); rewrite IH.
Qed.

Lemma same_event_last l es :
  Forall2 same_event l es ->
  last l ≫= kind_of = FrontierEvent.event_kind <$> last es.
Proof.
  intros H. apply Forall2_last in H. destruct H as [r e (Hk & _)|]; [|done]. cbn. by rewrite Hk.
Qed.

(** What the selection reads from the domain events is the last event of the log. *)
Lemma latest_event_log db fid es :
  numbered FrontierEventRecord.sequence 1 (log db fid) -> domain_events (log db fid) = Ok es ->
  FrontierEvent.event_kind <$> latest_event es = last_kind db fid.
Proof.
  intros Hn H%domain_events_ok. rewrite (latest_event_numbered 1); [|by eapply same_event_numbers].
  unfold last_kind. by rewrite (same_event_last _ _ H).
Qed.

Lemma numbered_prefix {A} (f : A -> Z) n l l' :
  l `prefix_of` l' -> numbered f n l' -> numbered f n l.
Proof.
  intros [k ->]. induction k as [|x k IH] using rev_ind; [by rewrite app_nil_r|].
  rewrite app_assoc. by intros [? _]%numbered_snoc; apply IH.
Qed.

Lemma claim_extends db id fid now db' e :
  Inv db -> on_origin db fid -> claim_frontier_selected db id fid now = Ok (db', e) ->
  extends [] db db' /\ last_kind db fid = Some FrontierEventKind.ELIGIBLE
  /\ last_kind db' fid = Some FrontierEventKind.SELECTED.
Proof.
  unfold claim_frontier_selected. intros HI Hon H. apply bind_ok in H as (locked & _ & H).
  destruct locked as [locked|]; [|done].
  apply bind_ok in H as (l & ->%list_for_frontier_ok & H). apply bind_ok in H as (k & Hk & H).
  apply raise_if_ok in H as [Hleg H]. apply negb_false_iff in Hleg.
  apply bind_ok in H as (es & Hes%domain_events_ok & H). apply bind_ok in H as (r & ->%validated & H).
  apply bind_ok in H as (db1 & Hins & H). apply bind_ok in H as (db2 & Hc & [= <- <-]).
  assert (insert_event db (FrontierEventRecord.mk id fid
    locked.(FrontierItemRecord.research_run_id) "SELECTED" (next_sequence (log db fid)) now
    (Some (next_selection_generation es)) None None) = Ok db1) as Hins'
    by by destruct (insert_event _ _) as [|[]].
  clear Hins. destruct (inv_logs _ HI fid) as [ks Hwl].
  assert (k = last_kind db fid) as ->.
  { unfold last_kind, kind_of. destruct (last (log db fid)) as [x|]; [|by injection Hk as <-].
    apply bind_ok in Hk as (k' & Hk & [= <-]). cbn. by rewrite Hk. }
  assert (last_kind db fid = Some FrontierEventKind.ELIGIBLE) as Hel.
  { destruct (last_kind db fid) as [[]|]; cbn in Hleg; try done; by apply mem_true in Hleg. }
  pose proof Hwl as [_ _ Hn Hg].
  edestruct (push_extends db _ db1 FrontierEventKind.SELECTED ks HI Hins') as (He & Hlog & _);
    cbn; [done|done| | | |].
  - rewrite <- (well_logged_last _ _ _ Hwl), Hel. split; [by left|by right].
  - by apply next_sequence_numbered.
  - intros _. f_equal. rewrite (next_selection_generation_seq _ (length (omap generation_of (log db fid)))).
    + lia.
    + unfold numbered in Hg. rewrite list_fmap_id in Hg. by rewrite (same_event_generations _ _ Hes).
  - cbn in He, Hlog. split; [|split; [done|]].
    + eapply extends_trans; [by eapply extends_free; [|rewrite Hel]|].
      eapply set_cache_extends; [apply He|exact Hc].
    + pose proof (set_cache_extends [] _ _ _ _ _ (ext_inv _ _ _ He) Hc) as [_ _ _ Hframe].
      assert (last_kind db1 fid = Some FrontierEventKind.SELECTED) as Hs
        by by eapply last_kind_snoc.
      rewrite (last_kind_log db1); [done|]. apply Hframe; [apply not_elem_of_nil|done].
Qed.

(** What a query of a transaction read is still there when the transaction writes: no row of these
    tables is ever deleted and events are only appended.  Every earlier database is [behind] the
    later ones ([earlier_is_behind]). *)
Definition behind (d db : Db.t) : Prop :=
  keeps d db /\ forall fid, log d fid `prefix_of` log db fid.

(** The configuration of the cycle has the origin that is persisted for the run: [run_cycle] calls
    [ensure_started] first, which compares them ([ensure_started_configures]). *)
Definition configured (db : Db.t) (config : DiscoveryRunConfig.t) : Prop :=
  origin_of db config.(DiscoveryRunConfig.research_run_id)
  = Some config.(DiscoveryRunConfig.normalized_origin).

Lemma choose_eligible seen db run chosen :
  Inv db -> (forall i, behind (seen i) db) -> choose seen run = Ok (Some chosen) ->
  exists r i, db.(Db.items) !! chosen.(FrontierItem.frontier_id) = Some r
    /\ r.(FrontierItemRecord.research_run_id) = run
    /\ Str.strip r.(FrontierItemRecord.candidate_origin) = chosen.(FrontierItem.candidate_origin)
    /\ last_kind (seen i) chosen.(FrontierItem.frontier_id) = Some FrontierEventKind.ELIGIBLE.
Proof.
  unfold choose. intros HI Hseen H. apply bind_ok in H as (items & Hitems & H).
  apply bind_ok in H as (table & Ht & H). apply bind_ok in H as (ditems & Hd & [= H]).
  pose proof (select_eligible_spec ditems (events_by table) 1) as Hs. rewrite H in Hs.
  destruct Hs as (Hin & Hs & _). apply selectable_true in Hs as (_ & _ & e & He & Hk).
  assert (exists r, db.(Db.items) !! chosen.(FrontierItem.frontier_id) = Some r
    /\ r.(FrontierItemRecord.research_run_id) = run
    /\ Str.strip r.(FrontierItemRecord.candidate_origin) = chosen.(FrontierItem.candidate_origin))
    as (r & Hr & Hrun & Ho).
  { apply traverse_ok in Hd. apply list_elem_of_lookup in Hin as [i Hi].
    destruct (Forall2_lookup_r _ _ _ _ _ Hd Hi) as (r & Hri & Hrow). unfold domain_item in Hrow.
    apply bind_ok in Hrow as (goal & _ & [Hid Horig]%domain_item_clean).
    cbn -[Str.strip] in Hid, Horig.
    unfold items_of in Hitems. apply bind_ok in Hitems as (? & _ & [= <-]).
    apply list_elem_of_lookup_2 in Hri. rewrite elem_of_sort_by, elem_of_list_filter_bool in Hri.
    destruct Hri as [Hri Hrun]. apply String.eqb_eq in Hrun.
    apply list_elem_of_fmap in Hri as ([k r0] & -> & Hri%elem_of_map_to_list).
    cbn -[Str.strip] in *.
    destruct (kept_items _ _ (proj1 (Hseen 1%nat)) _ _ Hri) as (r' & Hr' & Eid & Erun & Eo).
    destruct (inv_keyed _ HI _ _ Hr') as [Hkey Hstrip].
    rewrite <- Eid, Hkey, Hstrip in Hid. rewrite Hid. exists r'. by rewrite Erun, Eo. }
  exists r. unfold events_by in He. destruct (assoc _ table) as [es|] eqn:Ha; [|done].
  apply assoc_Some_in in Ha. apply traverse_ok in Ht.
  apply list_elem_of_lookup in Ha as [i Hi].
  destruct (Forall2_lookup_r _ _ _ _ _ Ht Hi) as ([j item] & _ & Hrow). cbn in Hrow.
  apply bind_ok in Hrow as (l & ->%list_for_frontier_ok & Hrow).
  apply bind_ok in Hrow as (es' & Hes & [= Hfid ->]). rewrite Hfid in Hes.
  exists (2 + j)%nat. split_and!; [done..|].
  destruct (inv_logs _ HI chosen.(FrontierItem.frontier_id)) as [ks Hwl].
  rewrite <- (latest_event_log (seen (2 + j)%nat) _ es).
  - change (latest_event es = Some e) in He. by rewrite He, <- Hk.
  - eapply numbered_prefix; [apply Hseen|apply Hwl].
  - exact Hes.
Qed.

(** After [ensure_started] the configuration is the one of the run, unless the digest collides on
    two configurations. *)
Lemma ensure_started_configures sha db ids hyp now start db' :
  (forall c c', sha (PDict (config_payload c)) = sha (PDict (config_payload c')) -> c = c') ->
  Inv db ->
  let config := start.(SurfaceDiscoveryStart.config) in
  DiscoveryRunConfig.post_init config = Ok config ->
  ensure_started sha db ids hyp now start = Ok db' -> configured db' config.
Proof.
  intros Hsha HI config Hconfig H. unfold configured.
  assert (Str.strip config.(DiscoveryRunConfig.normalized_origin)
          = config.(DiscoveryRunConfig.normalized_origin)) as Hstrip.
  { revert Hconfig. unfold DiscoveryRunConfig.post_init. intros E.
    apply bind_ok in E as (? & _ & E). apply bind_ok in E as (? & _ & E).
    apply bind_ok in E as (o & Ho & E). apply bind_ok in E as (? & _ & E).
    apply bind_ok in E as (? & _ & E). apply raise_if_ok in E as [_ E].
    apply (f_equal (fun r => match r with Ok c => c.(DiscoveryRunConfig.normalized_origin)
                             | Raise _ => "" end)) in E. cbn -[config] in E.
    unfold require_text in Ho. apply raise_if_ok in Ho as [_ [= <-]]. exact E. }
  unfold ensure_started in H. fold config in H.
  apply bind_ok in H as (existing & He & H). unfold get_config in He.
  apply bind_ok in He as (? & _ & [= He]). destruct existing as [existing|].
  - apply bind_ok in H as (persisted & Hp & H).
    apply bind_ok in H as ([] & [_ Hm]%discovery_resume_never_widens & [= <-]).
    assert (config = persisted) as -> by (destruct Hm as [?|[Hm _]]; [done|by rewrite (Hsha _ _ Hm)]).
    unfold origin_of. rewrite He. cbn [fmap option_fmap option_map]. f_equal.
    unfold config_from_record in Hp. apply bind_ok in Hp as (b & _ & Hp).
    apply bind_ok in Hp as (c & Hc & Hp). apply bind_ok in Hp as (fp & _ & Hp).
    apply raise_if_ok in Hp as [_ [= ->]]. revert Hc. clear. unfold DiscoveryRunConfig.post_init.
    intros H. apply bind_ok in H as (a & _ & H). apply bind_ok in H as (b' & _ & H).
    apply bind_ok in H as (o & Ho & H). apply bind_ok in H as (p & _ & H).
    apply bind_ok in H as (v & _ & H). apply raise_if_ok in H as [_ [= <-]].
    unfold require_text in Ho. by apply raise_if_ok in Ho as [_ [= <-]].
  - apply bind_ok in H as (record & Hr & H). apply bind_ok in H as (db1 & H1 & H).
    assert (origin_of db1 config.(DiscoveryRunConfig.research_run_id)
            = Some config.(DiscoveryRunConfig.normalized_origin)) as Hdb1.
    { unfold record_from_config in Hr. apply bind_ok in Hr as (fp & _ & ->%validated).
      unfold insert_config in H1. rewrite !raise_if_ok in H1. destruct H1 as (_ & _ & _ & [= <-]).
      unfold origin_of. cbn -[Str.strip]. rewrite lookup_insert_eq. cbn -[Str.strip]. by rewrite Hstrip. }
    apply insert_config_same in H1. apply (extends_same_frontier [] _ _ HI) in H1.
    apply bind_ok in H as (db2 & H2%seed_extends & H); [|apply H1].
    apply ensure_hypothesis_same in H. apply (extends_same_frontier [] _ _ (ext_inv _ _ _ H2)) in H.
    eapply keeps_origin_of; [apply H|]. by eapply keeps_origin_of; [apply H2|].
Qed.

(** An item of another origin that once was eligible still is, or is blocked. *)
Lemma off_origin_waits d db fid :
  Inv db -> off_origin db fid -> behind d db ->
  last_kind d fid = Some FrontierEventKind.ELIGIBLE ->
  last_kind db fid = Some FrontierEventKind.ELIGIBLE
  \/ last_kind db fid = Some FrontierEventKind.BLOCKED_SCOPE.
Proof.
  intros HI Hoff [_ Hp] Hel. specialize (Hp fid).
  destruct (log d fid) as [|e0 l0] eqn:Ed; [unfold last_kind in Hel; by rewrite Ed in Hel|].
  destruct (inv_logs _ HI fid) as [ks Hwl].
  destruct ks as [|k ks _] using rev_ind.
  { destruct Hwl as [E _ _ _]. apply fmap_nil_inv in E. rewrite E in Hp. by apply prefix_nil_inv in Hp. }
  pose proof (well_logged_last _ _ _ Hwl) as Hlast. rewrite final_snoc in Hlast.
  destruct (last (log db fid)) as [e|] eqn:El; [|unfold last_kind in Hlast; by rewrite El in Hlast].
  apply last_Some in El as [l El].
  assert (e.(FrontierEventRecord.event_kind) = FrontierEventKind.value k) as Hk.
  { destruct Hwl as [E _ _ _]. rewrite El, !fmap_app in E. by apply app_inj_tail in E as [_ ?]. }
  assert (e ∈ log db fid) as [Hin Hfid]%elem_of_log by (rewrite El; set_solver).
  destruct (inv_worked _ HI _ _ Hin Hk) as [Hprep|Hon].
  2: { rewrite Hfid in Hon. by destruct (off_not_on _ _ Hoff Hon). }
  rewrite Hlast. unfold PREPARATORY in Hprep.
  apply elem_of_cons in Hprep as [->|[->|[->|[]%elem_of_nil]%elem_of_cons]%elem_of_cons];
    [|by left|by right].
  apply log_of_created in Hlast as Hlen; [|done]. exfalso.
  rewrite <- (last_kind_log d db fid) in Hel; [congruence|]. rewrite Ed. destruct Hp as [l' Hp].
  rewrite Hp in Hlen |- *. cbn in Hlen. destruct l0, l'; cbn in Hlen; try lia. done.
Qed.

Lemma begin_cycle_extends seen db w id now config ps db' choice :
  Inv db -> well_proposed ps -> configured db config ->
  (forall db1, persist_projections db now ps = Ok db1 -> forall i, behind (seen i) db1) ->
  begin_cycle seen db w id now config ps = Ok (db', choice) ->
  extends [] db db'
  /\ match choice with
     | Stopped _ _ => True
     | Claimed r _ =>
         last_kind db r.(FrontierItemRecord.frontier_id) <> Some FrontierEventKind.SELECTED
         /\ last_kind db' r.(FrontierItemRecord.frontier_id) = Some FrontierEventKind.SELECTED
     end.
Proof.
  unfold begin_cycle. intros HI Hps Hconf Hseen H. apply bind_ok in H as (db1 & H1 & H).
  specialize (Hseen _ H1). apply persist_projections_extends in H1; [|done..].
  eapply keeps_origin_of in Hconf; [|apply H1].
  apply bind_ok in H as (stop & _ & H). destruct stop; [injection H as <- <-; done|].
  apply bind_ok in H as (chosen & Hch & H). destruct chosen as [chosen|];
    [|injection H as <- <-; done].
  apply (choose_eligible _ db1) in Hch as (row & i & Hrow & Hrun & Ho & Hel); [|apply H1|done].
  set (fid := chosen.(FrontierItem.frontier_id)) in *. rewrite <- Ho in H.
  destruct (negb _) eqn:Horigin.
  - apply negb_true_iff, String.eqb_neq in Horigin.
    apply bind_ok in H as (db2 & H2 & [= <- <-]). split; [|done].
    assert (off_origin db1 fid) as Hoff.
    { exists row, config.(DiscoveryRunConfig.normalized_origin). by rewrite Hrun. }
    destruct (append_event_free db1 id fid FrontierEventKind.BLOCKED_SCOPE now None db2
      (ext_inv _ _ _ H1) H2) as (E2 & _); [done| | |by left|by eapply extends_trans].
    + destruct (off_origin_waits _ _ _ (ext_inv _ _ _ H1) Hoff (Hseen i) Hel) as [-> | ->].
      * apply may_follow_prepare; [done|]. unfold PREPARATORY. set_solver.
      * split; [by right|left]. unfold PREPARATORY. set_solver.
    + by destruct (off_origin_waits _ _ _ (ext_inv _ _ _ H1) Hoff (Hseen i) Hel) as [-> | ->].
  - apply negb_false_iff, String.eqb_eq in Horigin.
    apply bind_ok in H as ([db2 e] & H2 & H). apply bind_ok in H as (hs & _ & H).
    apply bind_ok in H as (h & _ & H). apply bind_ok in H as (r & Hr & H).
    destruct r as [r|]; [|done]. injection H as <- <-. cbn in Hr |- *.
    apply claim_extends in H2 as (E2 & Hwas & Hsel); [|apply H1|].
    2: { exists row. split; [done|]. rewrite Hrun, Horigin. exact Hconf. }
    unfold get_item in Hr. apply bind_ok in Hr as (? & _ & [= Hr]).
    assert (r.(FrontierItemRecord.frontier_id) = fid) as ->
      by by eapply inv_keyed; [apply E2|].
    split; [by eapply extends_trans|]. split; [|done]. intros Hold.
    pose proof (ext_frame _ _ _ H1 fid (not_elem_of_nil _) Hold) as E.
    apply last_kind_log in E. congruence.
Qed.

(** The ids [new_opaque_id] makes carry no blanks. *)
Definition clean_id (s : string) : Prop := Str.strip s = s.

Lemma reobserve_extends sha db ids first_id last_id r now db' :
  Inv db ->
  last_kind db r.(FrontierItemRecord.frontier_id) = Some FrontierEventKind.SELECTED ->
  clean_id ids.(Ids.frontier_id) ->
  reobserve sha db ids first_id last_id r now = Ok db' ->
  extends [r.(FrontierItemRecord.frontier_id)] db db'.
Proof.
  unfold reobserve. set (fid := r.(FrontierItemRecord.frontier_id)). intros HI Hsel Hclean H.
  apply bind_ok in H as (cr & _ & H). destruct cr as [cr|]; [|done].
  apply bind_ok in H as (config & _ & H). apply bind_ok in H as (existing & _ & H).
  assert (forall id s, append_event db id fid (FrontierEventKind.value
            FrontierEventKind.NO_NEW_INFORMATION) now None = Ok s -> extends [fid] db s) as Hnone.
  { intros id s Hs.
    eapply append_event_extends; [done|exact Hs|done|by apply may_follow_selected|by left]. }
  destruct (_ <=? _); [by eapply Hnone|]. destruct (existsb _ _); [by eapply Hnone|].
  apply bind_ok in H as (db1 & H1 & H). apply bind_ok in H as (obs & _ & H).
  apply bind_ok in H as (item & Hitem & H). apply bind_ok in H as (db2 & H2 & H3).
  destruct (append_event_extends db _ fid FrontierEventKind.FAILED_TRANSIENT _ _ _ HI H1)
    as (E1 & Hk1 & _); [done|by apply may_follow_selected|by left|].
  assert (item.(FrontierItemRecord.frontier_id) = ids.(Ids.frontier_id)) as Hid
    by (unfold reobserve_record in Hitem; by apply validated in Hitem as ->).
  destruct (insert_new_extends _ _ _ _ _ _ _ (ext_inv _ _ _ E1) (ltac:(by rewrite Hid)) H2)
    as (E2 & Hfree & Ho2).
  assert (log db2 fid = log db1 fid) as Hl2.
  { apply Ho2. intros Heq. rewrite <- Heq in Hfree.
    apply log_nil in Hfree; [|apply E1]. unfold last_kind in Hk1. by rewrite Hfree in Hk1. }
  destruct (append_event_extends db2 _ fid FrontierEventKind.ELIGIBLE _ _ _ (ext_inv _ _ _ E2) H3)
    as (E3 & _); [done| |by left|].
  { rewrite (last_kind_log _ _ _ Hl2), Hk1. apply may_follow_prepare; [done|by right; left]. }
  eapply extends_trans; [exact E1|]. eapply extends_trans; [|exact E3].
  eapply extends_weaken; [|exact E2]. set_solver.
Qed.

Lemma end_cycle_extends sha db ids first_id last_id now r outcome ps db' :
  Inv db ->
  last_kind db r.(FrontierItemRecord.frontier_id) = Some FrontierEventKind.SELECTED ->
  clean_id ids.(Ids.frontier_id) -> well_proposed ps ->
  end_cycle sha db ids first_id last_id now r outcome ps = Ok db' ->
  extends [r.(FrontierItemRecord.frontier_id)] db db'.
Proof.
  unfold end_cycle. set (fid := r.(FrontierItemRecord.frontier_id)). intros HI Hsel Hclean Hps H.
  assert (forall s id k db1, Inv s -> last_kind s fid = Some FrontierEventKind.SELECTED ->
            k <> FrontierEventKind.SELECTED ->
            legal_frontier_transition (Some FrontierEventKind.SELECTED) k = true ->
            append_event s id fid (FrontierEventKind.value k) now None = Ok db1 ->
            extends [fid] s db1) as Happ.
  { intros s id k db1 Hs Hk Hne Hleg Ha.
    eapply append_event_extends; [done|exact Ha|done|by apply may_follow_selected|by left]. }
  destruct outcome as [| |status]; [by eapply reobserve_extends| |].
  { by eapply (Happ db first_id FrontierEventKind.BLOCKED_SCOPE). }
  assert (forall k, k <> FrontierEventKind.SELECTED ->
            legal_frontier_transition (Some FrontierEventKind.SELECTED) k = true ->
            (persist_projections db now ps ≫= fun s =>
               append_event s first_id fid (FrontierEventKind.value k) now None) = Ok db' ->
            extends [fid] db db') as Hproj.
  { intros k Hne Hleg Hb. apply bind_ok in Hb as (s & Hs%persist_projections_extends & Hb); [|done..].
    eapply extends_trans; [eapply extends_weaken; [|exact Hs]; set_solver|].
    eapply (Happ s); [apply Hs| |done..|exact Hb].
    rewrite (last_kind_log db); [done|]. apply Hs; [apply not_elem_of_nil|done]. }
  assert ((persist_projections db now ps ≫= fun s => Ok s) = Ok db' -> extends [fid] db db') as Hid.
  { intros Hb. apply bind_ok in Hb as (s & Hs%persist_projections_extends & [= <-]); [|done..].
    eapply extends_weaken; [|exact Hs]. set_solver. }
  destruct status; try by apply Hid.
  - by apply (Hproj FrontierEventKind.OBSERVED).
  - by eapply (Happ db first_id FrontierEventKind.FAILED_TERMINAL).
  - injection H as <-. by apply extends_refl.
  - by apply (Hproj FrontierEventKind.AWAITING_REAUTHORIZATION).
Qed.

(** ** Executions: any number of processes run cycles on one database *)

Module Sys.
Record t : Type := mk { db : Db.t; held : list FrontierItemRecord.t }.
End Sys.

(** What other parts of the system write: runs, attempts, observations, control events,
    facts and inferences, not the tables of this file. *)
Definition same_tables (db db' : Db.t) : Prop :=
  db'.(Db.configs) = db.(Db.configs) /\ db'.(Db.hypotheses) = db.(Db.hypotheses)
  /\ db'.(Db.items) = db.(Db.items) /\ db'.(Db.sources) = db.(Db.sources)
  /\ db'.(Db.events) = db.(Db.events).

(** What a cycle can have read when it begins on [db]: rows that are still there once its own
    projections are in. *)
Definition views (seen : nat -> Db.t) (db : Db.t) (now : Z) (ps : list Projection) : Prop :=
  forall db1, persist_projections db now ps = Ok db1 -> forall i, behind (seen i) db1.

(** [held] is what the cycles in flight have claimed.  A process may stop at any point.  A cycle
    begins when its configuration has been found to be the one of the run, on reads that can be
    old, and ends on the item it holds. *)
Inductive sys_step (sha : pyval -> string) : Sys.t -> Sys.t -> Prop :=
  | sys_other s db : same_tables s.(Sys.db) db -> sys_step sha s (Sys.mk db s.(Sys.held))
  | sys_start s ids hyp now start db :
      ensure_started sha s.(Sys.db) ids hyp now start = Ok db ->
      sys_step sha s (Sys.mk db s.(Sys.held))
  | sys_stopped s seen w id now config ps db reason fid :
      configured s.(Sys.db) config -> well_proposed ps -> views seen s.(Sys.db) now ps ->
      begin_cycle seen s.(Sys.db) w id now config ps = Ok (db, Stopped reason fid) ->
      sys_step sha s (Sys.mk db s.(Sys.held))
  | sys_claim s seen w id now config ps db r hyp :
      configured s.(Sys.db) config -> well_proposed ps -> views seen s.(Sys.db) now ps ->
      begin_cycle seen s.(Sys.db) w id now config ps = Ok (db, Claimed r hyp) ->
      sys_step sha s (Sys.mk db (r :: s.(Sys.held)))
  | sys_end s held1 r held2 ids first_id last_id now outcome ps db :
      s.(Sys.held) = held1 ++ r :: held2 -> clean_id ids.(Ids.frontier_id) -> well_proposed ps ->
      end_cycle sha s.(Sys.db) ids first_id last_id now r outcome ps = Ok db ->
      sys_step sha s (Sys.mk db (held1 ++ held2))
  | sys_crash s held1 r held2 :
      s.(Sys.held) = held1 ++ r :: held2 -> sys_step sha s (Sys.mk s.(Sys.db) (held1 ++ held2)).

Definition fids (s : Sys.t) : list string := FrontierItemRecord.frontier_id <$> s.(Sys.held).

(** Each item is claimed by at most one cycle, and claimed items are [SELECTED]. *)
Record SysInv (s : Sys.t) : Prop := {
  sys_inv : Inv s.(Sys.db);
  sys_exclusive : NoDup (fids s);
  sys_selected : forall fid, fid ∈ fids s ->
    last_kind s.(Sys.db) fid = Some FrontierEventKind.SELECTED }.

Lemma extends_keeps_claims (own : list string) db db' (l : list string) :
  extends own db db' ->
  (forall fid, fid ∈ l -> ~ (fid ∈ own) /\ last_kind db fid = Some FrontierEventKind.SELECTED) ->
  forall fid, fid ∈ l -> last_kind db' fid = Some FrontierEventKind.SELECTED.
Proof.
  intros [_ _ _ Hf] Hl fid Hin. destruct (Hl fid Hin) as [Hn Hs].
  rewrite (last_kind_log db); [done|]. by apply Hf.
Qed.

(** A step that extends the database for items nobody holds. *)
Lemma SysInv_extends s db :
  SysInv s -> extends [] s.(Sys.db) db -> SysInv (Sys.mk db s.(Sys.held)).
Proof.
  intros [H1 H2 H3] He. split; [apply He|done|]. apply (extends_keeps_claims [] _ _ (fids s) He).
  intros fid Hin. split; [apply not_elem_of_nil|by apply H3].
Qed.

Lemma same_tables_extends db db' : Inv db -> same_tables db db' -> extends [] db db'.
Proof.
  intros HI (Hc & _ & Hi & _ & He). apply extends_same_frontier; [done|]. split_and!; [done..|].
  intros run c. by rewrite Hc.
Qed.

Lemma sys_step_inv sha s s' :
  sys_step sha s s' -> SysInv s ->
  SysInv s' /\ behind s.(Sys.db) s'.(Sys.db)
  /\ forall fid, fid ∈ fids s -> fid ∈ fids s' -> log s'.(Sys.db) fid = log s.(Sys.db) fid.
Proof.
  assert (forall db, SysInv s -> extends [] s.(Sys.db) db ->
    behind s.(Sys.db) db
    /\ forall fid, fid ∈ fids s -> log db fid = log s.(Sys.db) fid) as Hquiet.
  { intros db [_ _ Hs] [_ Hk Hp Hf]. split; [done|]. intros fid Hin.
    apply Hf; [apply not_elem_of_nil|by apply Hs]. }
  intros Hstep HS. pose proof HS as [HI Hnd Hsel].
  destruct Hstep as [s db H|s ids hyp now start db H|s seen w id now config ps db reason fid C P V H
    |s seen w id now config ps db r hyp C P V H|s l1 r l2 ids a b now o ps db Hh C P H|s l1 r l2 Hh];
    cbn.
  - apply same_tables_extends in H; [|done]. split; [by apply SysInv_extends|].
    destruct (Hquiet db HS H) as [Hp Hf]. split; [done|]. auto.
  - apply ensure_started_extends in H; [|done]. split; [by apply SysInv_extends|].
    destruct (Hquiet db HS H) as [Hp Hf]. split; [done|]. auto.
  - apply begin_cycle_extends in H as [H _]; [|done..]. split; [by apply SysInv_extends|].
    destruct (Hquiet db HS H) as [Hp Hf]. split; [done|]. auto.
  - apply begin_cycle_extends in H as (H & Hn & Hs); [|done..].
    destruct (Hquiet db HS H) as [Hp Hf]. split; [|split; [done|auto]].
    pose proof (SysInv_extends _ _ HS H) as [_ _ Hsel']. split; [apply H| |].
    + unfold fids. cbn. constructor; [|done]. intros Hin. by apply Hn, Hsel.
    + unfold fids. cbn. intros fid [->|Hin]%elem_of_cons; [done|]. by apply Hsel'.
  - assert (fids s ≡ₚ r.(FrontierItemRecord.frontier_id)
              :: (FrontierItemRecord.frontier_id <$> (l1 ++ l2))) as Hp.
    { unfold fids. rewrite Hh, !fmap_app, fmap_cons. by rewrite Permutation_middle. }
    rewrite Hp in Hnd. apply NoDup_cons in Hnd as [Hr Hnd].
    apply end_cycle_extends in H; [|done|apply Hsel; rewrite Hp; left|done..].
    assert (forall fid, fid ∈ FrontierItemRecord.frontier_id <$> (l1 ++ l2) ->
              ~ (fid ∈ [r.(FrontierItemRecord.frontier_id)])
              /\ last_kind s.(Sys.db) fid = Some FrontierEventKind.SELECTED) as Hother.
    { intros fid Hin. split; [by intros ->%list_elem_of_singleton|].
      apply Hsel. rewrite Hp. by right. }
    split; [|split; [split; apply H|]].
    2: { intros fid _ Hin. destruct (Hother fid Hin). by apply H. }
    split; [apply H|done|]. by apply (extends_keeps_claims _ _ _ _ H).
  - split; [|by split]. split; [done| |].
    + unfold fids in *. rewrite Hh, fmap_app, fmap_cons in Hnd. cbn. rewrite fmap_app.
      by apply NoDup_app in Hnd as (? & ? & [_ ?]%NoDup_cons); apply NoDup_app; set_solver.
    + intros fid Hin. apply Hsel. unfold fids in *. rewrite Hh, !fmap_app, fmap_cons in *.
      set_solver.
Qed.

Lemma run_inv sha s s' :
  rtc (sys_step sha) s s' -> SysInv s -> SysInv s' /\ behind s.(Sys.db) s'.(Sys.db).
Proof.
  induction 1 as [|s s1 s2 H1 _ IH]; [by intros; split|]. intros HS.
  destruct (sys_step_inv _ _ _ H1 HS) as (HS1 & [K1 P1] & _). destruct (IH HS1) as [HS2 [K2 P2]].
  split; [done|]. split; [by etrans|]. intros fid. etrans; [apply P1|apply P2].
Qed.

(** What a cycle reads at any earlier moment is among the [views] it can begin on. *)
Lemma earlier_is_behind sha s s' now ps :
  rtc (sys_step sha) s s' -> SysInv s -> well_proposed ps ->
  views (fun _ => s.(Sys.db)) s'.(Sys.db) now ps.
Proof.
  intros Hr [HS' [K P]]%(run_inv _ _ _ Hr) Hps db1 Hd _.
  apply persist_projections_extends in Hd; [|by apply HS'|done].
  split; [etrans; [exact K|apply Hd]|]. intros fid. etrans; [apply P|apply Hd].
Qed.

(** No frontier, nothing claimed. *)
Definition initial (s : Sys.t) : Prop :=
  s.(Sys.db).(Db.items) = ∅ /\ s.(Sys.db).(Db.events) = [] /\ s.(Sys.held) = [].

Lemma initial_inv s : initial s -> SysInv s.
Proof.
  intros (Hi & He & Hh).
  assert (forall fid, log s.(Sys.db) fid = []) as Hl by (intros fid; unfold log; by rewrite He).
  split.
  - split.
    + intros fid. exists []. rewrite Hl. apply well_logged_nil.
    + intros e. rewrite He. by intros ?%elem_of_nil.
    + intros fid r. by rewrite Hi.
    + intros e k. rewrite He. by intros ?%elem_of_nil.
    + intros fid ks. rewrite Hl. intros [E _ _ _]. left. symmetry in E. by apply fmap_nil_inv in E as ->.
  - unfold fids. rewrite Hh. constructor.
  - unfold fids. rewrite Hh. by intros fid ?%elem_of_nil.
Qed.

(** C18. Frontier items are worked on exclusively: in every state the system reaches, however old
    the rows on which the cycles chose, no two cycles hold the same item and each item held is
    [SELECTED]; and while a cycle holds an item, no step of another cycle, process or projection
    writes to its history. *)
Theorem frontier_claims_are_exclusive sha s0 s s' :
  initial s0 -> rtc (sys_step sha) s0 s -> sys_step sha s s' ->
  NoDup (fids s)
  /\ (forall fid, fid ∈ fids s ->
       last_kind s.(Sys.db) fid = Some FrontierEventKind.SELECTED)
  /\ forall fid, fid ∈ fids s -> fid ∈ fids s' -> log s'.(Sys.db) fid = log s.(Sys.db) fid.
Proof.
  intros H0%initial_inv Hr Hs. destruct (run_inv _ _ _ Hr H0) as [HS _].
  split; [apply HS|]. split; [apply HS|]. by apply (sys_step_inv _ _ _ Hs HS).
Qed.

(** An item of another origin is never worked on. *)
Lemma off_origin_preparatory db fid ks :
  Inv db -> off_origin db fid -> well_logged (log db fid) ks ->
  Forall (fun k => k ∈ PREPARATORY) ks.
Proof.
  intros HI Hoff [Hk _ _ _]. rewrite Forall_forall. intros k Hin.
  assert (FrontierEventKind.value k ∈ FrontierEventKind.value <$> ks) as Hv
    by (by apply list_elem_of_fmap_2).
  rewrite <- Hk in Hv. apply list_elem_of_fmap in Hv as (e & He & [Hin' <-]%elem_of_log).
  destruct (inv_worked _ HI e k Hin') as [|Hon]; [done|done|]. by destruct (off_not_on _ _ Hoff Hon).
Qed.

(** A history of such an item is legal, or its block is repeated. *)
Lemma possible_shape ks :
  possible_from None ks = true -> Forall (fun k => k ∈ PREPARATORY) ks ->
  legal_from None ks = true
  \/ exists ks1 n, legal_from None (ks1 ++ [FrontierEventKind.BLOCKED_SCOPE]) = true
       /\ ks = ks1 ++ replicate (S n) FrontierEventKind.BLOCKED_SCOPE.
Proof.
  induction ks as [|k ks IH] using rev_ind; [by left|].
  intros [Hp Hk]%possible_from_snoc [Hf Hprep]%Forall_app.
  assert (k ∈ PREPARATORY) as Hk' by by inversion Hprep.
  destruct (IH Hp Hf) as [Hl|(ks1 & n & Hl & ->)].
  - unfold possible_transition in Hk. apply orb_true_iff in Hk as [Hk|Hk].
    { left. by apply legal_from_snoc. }
    rewrite andb_true_iff, !bool_decide_eq_true in Hk. destruct Hk as [Hb ->]. right.
    destruct ks as [|k ks _] using rev_ind; [done|]. rewrite final_snoc in Hb. injection Hb as ->.
    exists ks, 1%nat. by rewrite <- app_assoc.
  - right. exists ks1, (S n). split; [done|]. rewrite (replicate_S_end (S n)), app_assoc. f_equal. f_equal.
    rewrite (replicate_S_end n), app_assoc, final_snoc in Hk.
    unfold PREPARATORY in Hk'.
    by apply elem_of_cons in Hk' as [->|[->|[->|[]%elem_of_nil]%elem_of_cons]%elem_of_cons].
Qed.

Lemma item_history db fid ks :
  Inv db -> well_logged (log db fid) ks ->
  legal_from None ks = true
  \/ off_origin db fid
     /\ exists ks1 n, legal_from None (ks1 ++ [FrontierEventKind.BLOCKED_SCOPE]) = true
          /\ ks = ks1 ++ replicate (S n) FrontierEventKind.BLOCKED_SCOPE.
Proof.
  intros HI Hwl. destruct (inv_legal _ HI _ _ Hwl) as [|Hoff]; [by left|].
  destruct (possible_shape ks) as [|Hshape]; [apply Hwl| |by left|by right].
  by eapply off_origin_preparatory.
Qed.

(** C19. Frontier histories are legal, but for one repetition, although the runner never tests the
    transitions it writes and chooses on reads that can be old: in every state reached, the events
    of each item are numbered from 1 without gaps and its selections have generations 1, 2, ...;
    they follow [LEGAL_TRANSITIONS], except that the block of an item whose origin is not the
    configured one, which is never worked on, is repeated by the cycles that chose it before the
    first block was committed ([two_cycles_block_one_item]); events are never lost, and after a
    terminal one at most [SUPERSEDED], or that repeated block, comes. *)
Theorem frontier_history_is_legal sha s0 s s' fid :
  initial s0 -> rtc (sys_step sha) s0 s -> rtc (sys_step sha) s s' ->
  (exists ks, well_logged (log s.(Sys.db) fid) ks
     /\ (legal_from None ks = true
         \/ off_origin s.(Sys.db) fid
            /\ exists ks1 n, legal_from None (ks1 ++ [FrontierEventKind.BLOCKED_SCOPE]) = true
                 /\ ks = ks1 ++ replicate (S n) FrontierEventKind.BLOCKED_SCOPE))
  /\ log s.(Sys.db) fid `prefix_of` log s'.(Sys.db) fid
  /\ forall k, last_kind s.(Sys.db) fid = Some k -> k ∈ TERMINAL_EVENT_KINDS ->
       log s'.(Sys.db) fid = log s.(Sys.db) fid
       \/ last_kind s'.(Sys.db) fid = Some FrontierEventKind.SUPERSEDED
       \/ off_origin s'.(Sys.db) fid /\ k = FrontierEventKind.BLOCKED_SCOPE
          /\ last_kind s'.(Sys.db) fid = Some FrontierEventKind.BLOCKED_SCOPE.
Proof.
  intros H0%initial_inv Hr Hr'. destruct (run_inv _ _ _ Hr H0) as [HS _].
  destruct (run_inv _ _ _ Hr' HS) as [HS' [_ Hp]]. specialize (Hp fid).
  pose proof (sys_inv _ HS) as HI. pose proof (sys_inv _ HS') as HI'.
  destruct (inv_logs _ HI fid) as [ks Hwl]. destruct (inv_logs _ HI' fid) as [ks' Hwl'].
  split; [|split; [done|]].
  { exists ks. split; [done|]. by apply item_history. }
  intros k Hk Hterm. rewrite (well_logged_last _ _ _ Hwl) in Hk. rewrite (well_logged_last _ _ _ Hwl').
  assert (exists k2, ks' = ks ++ k2
            /\ (k2 = [] -> log s'.(Sys.db) fid = log s.(Sys.db) fid)) as (k2 & -> & Hsame).
  { destruct Hp as [l Hl]. rewrite Hl in *. destruct Hwl as [K _ _ _], Hwl' as [K' _ _ _].
    rewrite fmap_app, K in K'. symmetry in K'.
    apply fmap_app_inv in K' as (k1 & k2 & K1 & K2 & ->).
    apply (inj (fmap FrontierEventKind.value)) in K1 as ->. exists k2. split; [done|].
    intros ->. apply fmap_nil_inv in K2 as ->. by rewrite app_nil_r. }
  destruct (item_history _ _ _ HI' Hwl') as [L'|(Hoff & ks1 & n & _ & Hshape)].
  - rewrite legal_from_app, andb_true_iff, Hk in L'. destruct L' as [_ L'].
    destruct (legal_from_terminal _ _ Hterm L') as [-> | ->]; [left; by apply Hsame|].
    right; left. apply final_snoc.
  - right; right. split; [done|].
    pose proof (off_origin_preparatory _ _ _ HI' Hoff Hwl') as [Hprep _]%Forall_app.
    rewrite Hshape, (replicate_S_end n), app_assoc, final_snoc. split; [|done].
    rewrite Forall_forall in Hprep.
    assert (k ∈ PREPARATORY) as Hkp.
    { apply Hprep. unfold final in Hk. destruct (last ks) eqn:E; [|done]. injection Hk as ->.
      apply last_Some in E as [? ->]. set_solver. }
    revert Hkp Hterm. rewrite <- !mem_true. by destruct k.
Qed.

(** A cycle that projects nothing can read what is there. *)
Lemma views_now db now : views (fun _ => db) db now [].
Proof. intros db1 [= <-] _. by split. Qed.

(** ** A run: seeded, its one item claimed and observed *)

Definition sample_sha (_ : pyval) : string := "digest".

Definition sample_ids (n : nat) : Ids.t :=
  Ids.mk ("f" ++ pretty n) ("s" ++ pretty n) ("c" ++ pretty n) ("e" ++ pretty n).

Definition no_frontier : Db.t :=
  Db.mk {["run1"]} ∅ [] ∅ ∅ ∅ ∅ [] ∅ [] [].

Definition sample_start : SurfaceDiscoveryStart.t :=
  SurfaceDiscoveryStart.mk sample_discovery_config [ANONYMOUS_IDENTITY_ID] None.

Definition no_work : Work.t := Work.mk 0 [].

Definition db_or (db : Db.t) (r : result Db.t) : Db.t :=
  match r with Ok db => db | Raise _ => db end.

Definition seeded : Db.t :=
  db_or no_frontier (ensure_started sample_sha no_frontier sample_ids "h1" 10 sample_start).

Definition begun : result (Db.t * Choice) :=
  begin_cycle (fun _ => seeded) seeded no_work "claim1" 20 sample_discovery_config [].

Definition claimed : Db.t := match begun with Ok (db, _) => db | Raise _ => seeded end.

(** A row to name the claimed one by: the query always finds it. *)
Definition item_f0 : FrontierItemRecord.t :=
  match claimed.(Db.items) !! "f0" with
  | Some r => r
  | None => FrontierItemRecord.mk "" "" "" "" "" "" "" "" "" 0 0 "" "" 0 None None None None None
  end.

Definition observed : Db.t :=
  db_or claimed (end_cycle sample_sha claimed (sample_ids 9) "o1" "o2" 30 item_f0
                   (Executed OBSERVATION_PRODUCED) []).

Example the_sample_cycle :
  FrontierEventRecord.event_kind <$> log observed "f0"
  = ["CREATED"; "ELIGIBLE"; "SELECTED"; "OBSERVED"].
Proof. vm_compute. reflexivity. Qed.

Definition sys0 : Sys.t := Sys.mk no_frontier [].
Definition sys1 : Sys.t := Sys.mk seeded [].
Definition sys2 : Sys.t := Sys.mk claimed [item_f0].
Definition sys3 : Sys.t := Sys.mk observed [].

Lemma sample_step1 : sys_step sample_sha sys0 sys1.
Proof. apply (sys_start _ sys0 sample_ids "h1" 10 sample_start). vm_compute. reflexivity. Qed.

Lemma sample_step2 : sys_step sample_sha sys1 sys2.
Proof.
  apply (sys_claim _ sys1 (fun _ => seeded) no_work "claim1" 20 sample_discovery_config [] claimed
           item_f0 "h1").
  - vm_compute. reflexivity.
  - constructor.
  - apply (views_now seeded).
  - vm_compute. reflexivity.
Qed.

Lemma sample_step3 : sys_step sample_sha sys2 sys3.
Proof.
  apply (sys_end _ sys2 [] item_f0 [] (sample_ids 9) "o1" "o2" 30
    (Executed OBSERVATION_PRODUCED) [] observed); [| |constructor|]; vm_compute; reflexivity.
Qed.

Lemma frontier_claims_are_exclusive_witness :
  initial sys0 /\ NoDup (fids sys2) /\ last_kind claimed "f0" = Some FrontierEventKind.SELECTED.
Proof.
  destruct (frontier_claims_are_exclusive sample_sha sys0 sys2 sys3) as (H1 & H2 & _).
  - repeat split.
  - eapply rtc_l; [apply sample_step1|]. apply rtc_once, sample_step2.
  - apply sample_step3.
  - split; [repeat split|]. split; [exact H1|]. apply H2.
    apply list_elem_of_fmap. exists item_f0. split; [vm_compute; reflexivity|left].
Defined.

Lemma frontier_history_is_legal_witness :
  log claimed "f0" `prefix_of` log observed "f0" /\ length (log observed "f0") = 4%nat.
Proof.
  split; [|vm_compute; reflexivity].
  apply (frontier_history_is_legal sample_sha sys0 sys2 sys3 "f0").
  - repeat split.
  - eapply rtc_l; [apply sample_step1|]. apply rtc_once, sample_step2.
  - apply rtc_once, sample_step3.
Defined.

(** A cycle whose dispatch is denied writes no event: the item stays [SELECTED], and no later
    cycle of the run finds it eligible. *)
Example denied_item_stays_selected :
  end_cycle sample_sha claimed (sample_ids 9) "o1" "o2" 30 item_f0 (Executed DISPATCH_DENIED) []
  = Ok claimed
  /\ match begin_cycle (fun _ => claimed) claimed no_work "claim2" 40 sample_discovery_config [] with
     | Ok (_, Stopped reason _) => reason = "NO_ELIGIBLE_FRONTIER"
     | _ => False
     end.
Proof. vm_compute. split; reflexivity. Qed.

(** Two cycles choose the same item of another origin before either has written; both block it, and
    the history says so twice although nothing but [SUPERSEDED] is legal after a block. *)
Definition elsewhere : Db.t :=
  Db.set_items seeded
    ((fun _ => FrontierItemRecord.mk "f0" "run1" "surface.discovery.v1" "INSPECT_PATH" "https://b.example" "/"
       "anonymous" "browser.page" "observe" 0 0 "digest" "digest" 10 None None None
       (Some "ELIGIBLE") (Some 2)) <$> seeded.(Db.items)).

Definition blocked_once : Db.t :=
  match begin_cycle (fun _ => elsewhere) elsewhere no_work "b1" 20 sample_discovery_config [] with
  | Ok (db, _) => db | Raise _ => elsewhere end.

Example two_cycles_block_one_item :
  match begin_cycle (fun _ => elsewhere) blocked_once no_work "b2" 21 sample_discovery_config [] with
  | Ok (db, Stopped reason _) =>
      reason = "BLOCKED_SCOPE"
      /\ FrontierEventRecord.event_kind <$> log db "f0"
         = ["CREATED"; "ELIGIBLE"; "BLOCKED_SCOPE"; "BLOCKED_SCOPE"]
  | _ => False
  end
  /\ legal_frontier_transition (Some FrontierEventKind.BLOCKED_SCOPE) FrontierEventKind.BLOCKED_SCOPE
     = false.
Proof. vm_compute. repeat split. Qed.
