(* ===== verification/ModelRuntime.v ===== *)
(** * Model runtimes: [research/model_runtime.py]

    What a configured model runtime is (its kind, class, price class and fingerprint) and
    the outcomes of calling one, with the roles of [research/model_port.py].  The
    fingerprint is the SHA-256 of the canonical JSON of a payload and a parameter. *)
From S2P Require Import Prelude PyVal SafeData.

(** [research/model_port.py:20-24 ModelRole] *)
Module ModelRole.
Inductive t : Set := GENERATOR | FALSIFIER.
#[global] Instance eq_dec : EqDecision t.
Proof. solve_decision. Defined.
Definition value (x : t) : string :=
  match x with GENERATOR => "GENERATOR" | FALSIFIER => "FALSIFIER" end.
End ModelRole.

(** [research/model_runtime.py:36-41 RuntimeKind] *)
Module RuntimeKind.
Inductive t : Set := API | SUBSCRIPTION_OAUTH | CLI_SESSION | LOCAL_MODEL | EXTERNAL_AGENT.
#[global] Instance eq_dec : EqDecision t.
Proof. solve_decision. Defined.
Definition value (x : t) : string :=
  match x with
  | API => "API" | SUBSCRIPTION_OAUTH => "SUBSCRIPTION_OAUTH" | CLI_SESSION => "CLI_SESSION"
  | LOCAL_MODEL => "LOCAL_MODEL" | EXTERNAL_AGENT => "EXTERNAL_AGENT"
  end.
End RuntimeKind.

(** [research/model_runtime.py:44-48 RuntimeClass] *)
Module RuntimeClass.
Inductive t : Set := INFERENCE_RUNTIME | AGENT_RUNTIME.
#[global] Instance eq_dec : EqDecision t.
Proof. solve_decision. Defined.
Definition value (x : t) : string :=
  match x with
  | INFERENCE_RUNTIME => "INFERENCE_RUNTIME" | AGENT_RUNTIME => "AGENT_RUNTIME"
  end.
End RuntimeClass.

(** [research/model_runtime.py:51-55 ModelPriceClass] *)
Module ModelPriceClass.
Inductive t : Set := CHEAP | EXPENSIVE.
#[global] Instance eq_dec : EqDecision t.
Proof. solve_decision. Defined.
Definition value (x : t) : string :=
  match x with CHEAP => "cheap" | EXPENSIVE => "expensive" end.
End ModelPriceClass.

(** [research/model_runtime.py:58-63 AuthMode] *)
Module AuthMode.
Inductive t : Set :=
  | API_KEY | SUBSCRIPTION_OAUTH | AUTHENTICATED_CLI_SESSION | LOCAL_NO_REMOTE_AUTH
  | EXTERNAL_RUNTIME_AUTH.
#[global] Instance eq_dec : EqDecision t.
Proof. solve_decision. Defined.
Definition value (x : t) : string :=
  match x with
  | API_KEY => "API_KEY" | SUBSCRIPTION_OAUTH => "SUBSCRIPTION_OAUTH"
  | AUTHENTICATED_CLI_SESSION => "AUTHENTICATED_CLI_SESSION"
  | LOCAL_NO_REMOTE_AUTH => "LOCAL_NO_REMOTE_AUTH"
  | EXTERNAL_RUNTIME_AUTH => "EXTERNAL_RUNTIME_AUTH"
  end.
End AuthMode.

(** [research/model_runtime.py:66-79 RuntimeOutcome] *)
Module RuntimeOutcome.
Inductive t : Set :=
  | COMPLETED | UNAVAILABLE | AUTH_FAILED | RATE_LIMITED | TIMED_OUT | PROCESS_FAILED
  | PROTOCOL_ERROR | STRUCTURED_OUTPUT_INVALID | CONTENT_POLICY_BLOCKED
  | ESCALATION_NEEDED | CANCELLED.
#[global] Instance eq_dec : EqDecision t.
Proof. solve_decision. Defined.
Definition value (x : t) : string :=
  match x with
  | COMPLETED => "COMPLETED" | UNAVAILABLE => "UNAVAILABLE" | AUTH_FAILED => "AUTH_FAILED"
  | RATE_LIMITED => "RATE_LIMITED" | TIMED_OUT => "TIMED_OUT"
  | PROCESS_FAILED => "PROCESS_FAILED" | PROTOCOL_ERROR => "PROTOCOL_ERROR"
  | STRUCTURED_OUTPUT_INVALID => "STRUCTURED_OUTPUT_INVALID"
  | CONTENT_POLICY_BLOCKED => "CONTENT_POLICY_BLOCKED"
  | ESCALATION_NEEDED => "ESCALATION_NEEDED" | CANCELLED => "CANCELLED"
  end.
End RuntimeOutcome.

(** [research/model_runtime.py:82-85 _require_text] *)
Definition require_text (value : string) : result string :=
  raise_if Str.is_blank value as ResearchInputError;;
  Ok (Str.strip value).

Definition require_optional_text (value : option string) : result (option string) :=
  match value with
  | None => Ok None
  | Some s => s ← require_text s; Ok (Some s)
  end.

(** [research/model_runtime.py:88-97 reject_secret_keys] *)
Definition reject_secret_keys (payload : list (string * pyval)) (field_name : string)
    : result (list (string * pyval)) :=
  match SafeData.reject_secret_keys (PDict payload) field_name with
  | Ok (PDict cleaned) => Ok cleaned
  | Ok _ => Raise ResearchInputError
  | Raise SecretMaterialError => Raise ResearchInputError
  | Raise e => Raise e
  end.

(** [research/model_runtime.py:106-160 ModelRuntimeIdentity] *)
Module ModelRuntimeIdentity.
Record t : Set := mk {
  runtime_kind : RuntimeKind.t;
  runtime_class : RuntimeClass.t;
  adapter_id : string;
  runtime_id : string;
  auth_mode : AuthMode.t;
  configuration_fingerprint : string;
  runtime_version : option string;
  session_reference : option string;
  price_class : ModelPriceClass.t }.

#[global] Instance eq_dec : EqDecision t.
Proof. solve_decision. Defined.

Definition post_init (x : t) : result t :=
  adapter_id ← require_text x.(adapter_id);
  runtime_id ← require_text x.(runtime_id);
  fp ← require_text x.(configuration_fingerprint);
  version ← require_optional_text x.(runtime_version);
  session ← require_optional_text x.(session_reference);
  raise_if match session with
           | None => false
           | Some s =>
               existsb (Str.contains (Str.lower s)) ["sk-"; "token="; "bearer "]
           end as ResearchInputError;;
  Ok (mk x.(runtime_kind) x.(runtime_class) adapter_id runtime_id x.(auth_mode) fp version
        session x.(price_class)).
End ModelRuntimeIdentity.

Definition opt_str (s : option string) : pyval :=
  match s with None => PNone | Some s => PStr s end.

(** [research/model_runtime.py:149-160 ModelRuntimeIdentity.to_mapping] *)
Definition identity_to_mapping (x : ModelRuntimeIdentity.t) : pyval :=
  PDict
    [ ("runtime_kind", PStr (RuntimeKind.value x.(ModelRuntimeIdentity.runtime_kind)));
      ("runtime_class", PStr (RuntimeClass.value x.(ModelRuntimeIdentity.runtime_class)));
      ("adapter_id", PStr x.(ModelRuntimeIdentity.adapter_id));
      ("runtime_id", PStr x.(ModelRuntimeIdentity.runtime_id));
      ("auth_mode", PStr (AuthMode.value x.(ModelRuntimeIdentity.auth_mode)));
      ("runtime_version", opt_str x.(ModelRuntimeIdentity.runtime_version));
      ("session_reference", opt_str x.(ModelRuntimeIdentity.session_reference));
      ("configuration_fingerprint", PStr x.(ModelRuntimeIdentity.configuration_fingerprint));
      ("contains_secrets", PBool false) ].

Section fingerprints.
Context (sha256_json : pyval -> string).

(** [research/model_runtime.py:100-102 fingerprint_configuration] *)
Definition fingerprint_configuration (payload : list (string * pyval)) : string :=
  sha256_json (PDict payload).

(** [research/model_runtime.py:163-181 api_runtime_identity] *)
Definition api_runtime_identity (adapter_id runtime_id : string)
    (runtime_version : option string) : result ModelRuntimeIdentity.t :=
  let fingerprint :=
    fingerprint_configuration
      [ ("runtime_kind", PStr (RuntimeKind.value RuntimeKind.API));
        ("adapter_id", PStr adapter_id);
        ("runtime_id", PStr runtime_id);
        ("auth_mode", PStr (AuthMode.value AuthMode.API_KEY)) ] in
  ModelRuntimeIdentity.post_init
    (ModelRuntimeIdentity.mk RuntimeKind.API RuntimeClass.INFERENCE_RUNTIME adapter_id
       runtime_id AuthMode.API_KEY fingerprint runtime_version None ModelPriceClass.CHEAP).

(** [if runtime_configuration:] skips an empty mapping.
    [research/model_runtime.py:184-217 cli_session_runtime_identity] *)
Definition cli_session_runtime_identity (adapter_id runtime_id : string)
    (runtime_version session_reference model_id : option string)
    (runtime_configuration : option (list (string * pyval)))
    : result ModelRuntimeIdentity.t :=
  let payload :=
    [ ("runtime_kind", PStr (RuntimeKind.value RuntimeKind.CLI_SESSION));
      ("adapter_id", PStr adapter_id);
      ("runtime_id", PStr runtime_id);
      ("auth_mode", PStr (AuthMode.value AuthMode.AUTHENTICATED_CLI_SESSION));
      ("runtime_version", opt_str runtime_version);
      ("session_reference", opt_str session_reference) ] in
  payload ← match model_id with
            | None => Ok payload
            | Some m => m ← require_text m; Ok (payload ++ [("model_id", PStr m)])
            end;
  payload ← match runtime_configuration with
            | None | Some [] => Ok payload
            | Some c =>
                c ← reject_secret_keys c "runtime_configuration";
                Ok (payload ++ [("runtime_configuration", PDict c)])
            end;
  ModelRuntimeIdentity.post_init
    (ModelRuntimeIdentity.mk RuntimeKind.CLI_SESSION RuntimeClass.AGENT_RUNTIME adapter_id
       runtime_id AuthMode.AUTHENTICATED_CLI_SESSION (fingerprint_configuration payload)
       runtime_version session_reference ModelPriceClass.CHEAP).
End fingerprints.

(** ** Facts *)

Lemma reject_secret_keys_free d field :
  secret_free (PDict d) = true -> reject_secret_keys d field = Ok d.
Proof.
  intros H. unfold reject_secret_keys, SafeData.reject_secret_keys.
  pose proof (proj2 (collect_found (PDict d) field) H) as E1.
  pose proof (collect_free (PDict d) field H) as E2.
  destruct (collect_sensitive false field (PDict d)) as [found cleaned]. cbn in E1, E2.
  by subst.
Qed.

Lemma reject_secret_keys_ok d field d' :
  reject_secret_keys d field = Ok d' -> d' = d /\ secret_free (PDict d) = true.
Proof.
  unfold reject_secret_keys, SafeData.reject_secret_keys.
  pose proof (collect_found (PDict d) field) as E1.
  pose proof (collect_free (PDict d) field) as E2.
  destruct (collect_sensitive false field (PDict d)) as [found cleaned]. cbn in E1, E2.
  case_bool_decide as Hf; [|done]. cbn. apply E1 in Hf. rewrite E2 by done. by intros [= <-].
Qed.

(** The mapping of an identity has no sensitive key. *)
Lemma identity_secret_free x : secret_free (identity_to_mapping x) = true.
Proof. destruct x as [? ? ? ? ? ? [] [] ?]; reflexivity. Qed.
