(* ===== verification/Routing.v ===== *)
(** * Runtime routing: [research/routing.py]

    Which configured model runtime a reasoning role gets.  [select_runtime] filters the
    candidates by hard rules and by price class and takes the best survivor in the
    operator's order or in the order of observed quality; [reconsider_runtime] decides what
    happens after a runtime was tried.  [application/select_research_runtime.py] records
    each decision in the audit table.

    [sorted] with [cmp_to_key] is an interface, [ComparisonSort]: what Python promises of
    it, for every version of its merge sort.  It returns a permutation, and where the
    comparison is a strict weak order on the elements it returns the stable sorting. *)
From S2P Require Import Prelude CoreTypes PyVal SafeData FindingRecords ModelRuntime.
From Stdlib Require Import QArith.
#[local] Open Scope Z_scope.

(** ** Sorting with a comparison function *)

(** [f] returns a negative number when its first argument comes before the second. *)
Definition before {A} (f : A -> A -> Z) (x y : A) : bool := f x y <? 0.

Record weak_order_on {A} (f : A -> A -> Z) (l : list A) : Prop := {
  weak_irrefl : forall x, x ∈ l -> before f x x = false;
  weak_trans : forall x y z, x ∈ l -> y ∈ l -> z ∈ l ->
    before f x y = true -> before f y z = true -> before f x z = true;
  weak_incomp : forall x y z, x ∈ l -> y ∈ l -> z ∈ l ->
    before f x y = false -> before f y z = false -> before f x z = false }.

Fixpoint stable_insert {A} (f : A -> A -> Z) (x : A) (l : list A) : list A :=
  match l with
  | [] => [x]
  | y :: l' => if before f y x then y :: stable_insert f x l' else x :: y :: l'
  end.

(** The stable sorting of a list, as a reference. *)
Definition stable_sort {A} (f : A -> A -> Z) (l : list A) : list A :=
  foldr (stable_insert f) [] l.

(** [sorted(l, key=cmp_to_key(f))] *)
Class ComparisonSort (A : Type) := {
  py_sorted : (A -> A -> Z) -> list A -> list A;
  py_sorted_perm : forall f l, py_sorted f l ≡ₚ l;
  py_sorted_stable : forall f l, weak_order_on f l -> py_sorted f l = stable_sort f l }.

Section stable_sort.
Context {A : Type} (f : A -> A -> Z).

Lemma stable_insert_perm x l : stable_insert f x l ≡ₚ x :: l.
Proof.
  induction l as [|y l IH]; simpl; [done|]. destruct (before f y x); [|done].
  by rewrite IH, Permutation_swap.
Qed.

Lemma stable_sort_perm l : stable_sort f l ≡ₚ l.
Proof. induction l as [|x l IH]; simpl; [done|]. by rewrite stable_insert_perm, IH. Qed.

(** On a weak order nothing comes before the head of the sorted list. *)
Lemma stable_insert_head x l :
  weak_order_on f (x :: l) -> (forall y l', l = y :: l' -> forall z, z ∈ l -> before f z y = false) ->
  forall y l', stable_insert f x l = y :: l' -> forall z, z ∈ x :: l -> before f z y = false.
Proof.
  intros W Hl y l' E z Hz. destruct l as [|w l]; simpl in E.
  - injection E as [= <- _]. apply list_elem_of_singleton in Hz as ->.
    apply (weak_irrefl _ _ W). left.
  - destruct (before f w x) eqn:B; injection E as [= <- _].
    + apply elem_of_cons in Hz as [->|Hz]; [|by eapply Hl].
      destruct (before f x w) eqn:B'; [|done].
      pose proof (weak_irrefl _ _ W x) as Hirr.
      rewrite (weak_trans _ _ W x w x) in Hirr; try done; set_solver.
    + apply elem_of_cons in Hz as [->|Hz]; [apply (weak_irrefl _ _ W); left|].
      apply (weak_incomp _ _ W _ w); [set_solver..|by eapply Hl|done].
Qed.

Lemma weak_order_sub l l' : weak_order_on f l -> l' ⊆ l -> weak_order_on f l'.
Proof. intros [H1 H2 H3] Hs. split; eauto. Qed.

Lemma stable_sort_head l x l' :
  weak_order_on f l -> stable_sort f l = x :: l' -> forall z, z ∈ l -> before f z x = false.
Proof.
  revert x l'. induction l as [|w l IH]; intros x l' W E z Hz; [done|]. simpl in E.
  assert (weak_order_on f (w :: stable_sort f l)) as W'.
  { eapply weak_order_sub; [exact W|]. intros u. by rewrite !elem_of_cons, stable_sort_perm. }
  eapply (stable_insert_head _ _ W'); [|exact E|].
  - intros y l2 E2 u Hu. eapply IH; [|exact E2|by rewrite <-stable_sort_perm].
    eapply weak_order_sub; [exact W|]. set_solver.
  - by rewrite elem_of_cons, stable_sort_perm, <-elem_of_cons.
Qed.
End stable_sort.

#[global] Program Instance stable_comparison_sort A : ComparisonSort A :=
  {| py_sorted := stable_sort |}.
Next Obligation. intros. apply stable_sort_perm. Qed.

(** ** Vocabulary *)

(** [research/routing.py:24 ROUTING_POLICY_VERSION] *)
Definition ROUTING_POLICY_VERSION : string := "runtime.routing.v1".

(** [research/routing.py:25-27 UNRESTRICTED_CAPABILITY_MARKERS] *)
Definition UNRESTRICTED_CAPABILITY_MARKERS : list string :=
  [ "*"; "all"; "unrestricted"; "shell"; "yolo"; "danger-full-access"; "any" ].

(** [research/routing.py:28-40 FORBIDDEN_ROUTING_KEYS] *)
Definition FORBIDDEN_ROUTING_KEYS : list string :=
  [ "winner"; "model_score"; "weighted_score"; "quality_score"; "aggregate_score"; "api_key";
    "token"; "password"; "secret" ].

(** [None] is the entry ["none"]: no model call.
    [research/routing.py:43-48 TASK_PRICE_CLASS_POLICY] *)
Definition TASK_PRICE_CLASS_POLICY : list (string * option ModelPriceClass.t) :=
  [ ("monitoring", None);
    ("generator", Some ModelPriceClass.CHEAP);
    ("falsifier", Some ModelPriceClass.CHEAP);
    ("finding_proposal_qa", Some ModelPriceClass.EXPENSIVE) ].

(** [research/routing.py:51-53 LocalityConstraint] *)
Module LocalityConstraint.
Inductive t : Set := LOCAL_REQUIRED | REMOTE_ALLOWED.
#[global] Instance eq_dec : EqDecision t.
Proof. solve_decision. Defined.
End LocalityConstraint.

(** [research/routing.py:56-58 CandidateLocality] *)
Module CandidateLocality.
Inductive t : Set := LOCAL | REMOTE.
#[global] Instance eq_dec : EqDecision t.
Proof. solve_decision. Defined.
End CandidateLocality.

(** [research/routing.py:61-66 RoutingOutcome] *)
Module RoutingOutcome.
Inductive t : Set :=
  | SELECT | NO_COMPATIBLE_RUNTIME | BLOCKED_POLICY | UNAVAILABLE
  | REQUIRE_OPERATOR_SELECTION.
#[global] Instance eq_dec : EqDecision t.
Proof. solve_decision. Defined.
Definition value (x : t) : string :=
  match x with
  | SELECT => "SELECT" | NO_COMPATIBLE_RUNTIME => "NO_COMPATIBLE_RUNTIME"
  | BLOCKED_POLICY => "BLOCKED_POLICY" | UNAVAILABLE => "UNAVAILABLE"
  | REQUIRE_OPERATOR_SELECTION => "REQUIRE_OPERATOR_SELECTION"
  end.
End RoutingOutcome.

(** [research/routing.py:69-95 RoutingReasonCode] *)
Module RoutingReasonCode.
Inductive t : Set :=
  | SELECTED_AFTER_HARD_FILTERS | SELECTED_BY_OPERATOR_ORDER | SELECTED_BY_QUALITY_ORDER
  | TIE_REQUIRES_OPERATOR | ZERO_RUNTIME_ALLOWANCE | ZERO_FALLBACK_ALLOWANCE
  | NO_CANDIDATES | UNAVAILABLE | WRONG_RUNTIME_CLASS
  | AGENT_NOT_PERMITTED_FOR_INFERENCE_ROLE | UNRESTRICTED_CAPABILITY
  | MISSING_STRUCTURED_OUTPUT | OPERATOR_PROHIBITED | LOCALITY_MISMATCH
  | MISSING_AUTHENTICATION | CAPABILITY_EXPOSURE_TOO_BROAD
  | SIDE_EFFECT_CAPABILITY_ON_REASONING_PATH | STRIX_IS_NOT_MODEL_RUNTIME
  | CONTENT_POLICY_BLOCK_NO_BYPASS | FALLBACK_EXHAUSTED | ATTEMPT_BUDGET_EXHAUSTED
  | ALREADY_ATTEMPTED | CHEAP_CLASS_SELECTED | EXPENSIVE_CLASS_SELECTED
  | ESCALATION_REQUIRED | MONITORING_CLASS_DISABLED.
#[global] Instance eq_dec : EqDecision t.
Proof. solve_decision. Defined.
Definition value (x : t) : string :=
  match x with
  | SELECTED_AFTER_HARD_FILTERS => "SELECTED_AFTER_HARD_FILTERS"
  | SELECTED_BY_OPERATOR_ORDER => "SELECTED_BY_OPERATOR_ORDER"
  | SELECTED_BY_QUALITY_ORDER => "SELECTED_BY_QUALITY_ORDER"
  | TIE_REQUIRES_OPERATOR => "TIE_REQUIRES_OPERATOR"
  | ZERO_RUNTIME_ALLOWANCE => "ZERO_RUNTIME_ALLOWANCE"
  | ZERO_FALLBACK_ALLOWANCE => "ZERO_FALLBACK_ALLOWANCE"
  | NO_CANDIDATES => "NO_CANDIDATES"
  | UNAVAILABLE => "UNAVAILABLE"
  | WRONG_RUNTIME_CLASS => "WRONG_RUNTIME_CLASS"
  | AGENT_NOT_PERMITTED_FOR_INFERENCE_ROLE => "AGENT_NOT_PERMITTED_FOR_INFERENCE_ROLE"
  | UNRESTRICTED_CAPABILITY => "UNRESTRICTED_CAPABILITY"
  | MISSING_STRUCTURED_OUTPUT => "MISSING_STRUCTURED_OUTPUT"
  | OPERATOR_PROHIBITED => "OPERATOR_PROHIBITED"
  | LOCALITY_MISMATCH => "LOCALITY_MISMATCH"
  | MISSING_AUTHENTICATION => "MISSING_AUTHENTICATION"
  | CAPABILITY_EXPOSURE_TOO_BROAD => "CAPABILITY_EXPOSURE_TOO_BROAD"
  | SIDE_EFFECT_CAPABILITY_ON_REASONING_PATH => "SIDE_EFFECT_CAPABILITY_ON_REASONING_PATH"
  | STRIX_IS_NOT_MODEL_RUNTIME => "STRIX_IS_NOT_MODEL_RUNTIME"
  | CONTENT_POLICY_BLOCK_NO_BYPASS => "CONTENT_POLICY_BLOCK_NO_BYPASS"
  | FALLBACK_EXHAUSTED => "FALLBACK_EXHAUSTED"
  | ATTEMPT_BUDGET_EXHAUSTED => "ATTEMPT_BUDGET_EXHAUSTED"
  | ALREADY_ATTEMPTED => "ALREADY_ATTEMPTED"
  | CHEAP_CLASS_SELECTED => "CHEAP_CLASS_SELECTED"
  | EXPENSIVE_CLASS_SELECTED => "EXPENSIVE_CLASS_SELECTED"
  | ESCALATION_REQUIRED => "ESCALATION_REQUIRED"
  | MONITORING_CLASS_DISABLED => "MONITORING_CLASS_DISABLED"
  end.
End RoutingReasonCode.

(** An [int] or [float]: comparisons with a NaN are false, those of an [int] and a [float]
    are exact. *)
Module Number.
Inductive t : Set := Finite (q : Q) | PosInf | NegInf | NaN.

Definition ltb (x y : t) : bool :=
  match x, y with
  | NaN, _ | _, NaN => false
  | Finite p, Finite q => negb (Qle_bool q p)
  | NegInf, NegInf | PosInf, _ | _, NegInf => false
  | _, _ => true
  end.

Definition eqb (x y : t) : bool :=
  match x, y with
  | Finite p, Finite q => Qeq_bool p q
  | PosInf, PosInf | NegInf, NegInf => true
  | _, _ => false
  end.
End Number.

(** ** Data *)

(** [research/routing.py:98-101 _require_non_negative] *)
Definition require_non_negative (value : Z) : result Z :=
  raise_if value <? 0 as ResearchInputError;;
  Ok value.

(** [research/routing.py:105-121 RoutingBudget] *)
Module RoutingBudget.
Record t : Set := mk { max_runtime_attempts : Z; max_fallback_attempts : Z }.
Definition post_init (x : t) : result t :=
  _ ← require_non_negative x.(max_runtime_attempts);
  _ ← require_non_negative x.(max_fallback_attempts);
  Ok x.
End RoutingBudget.

(** [research/routing.py:125-164 RuntimeQualityObservation] *)
Module RuntimeQualityObservation.
Record t : Set := mk {
  grounding_safety_hard_failures : Z;
  research_usefulness_failures : Z;
  falsifier_quality_failures : Z;
  instability_events : Z;
  latency_ms : option Z;
  cost_amount : option Number.t }.

Definition post_init (x : t) : result t :=
  raise_if x.(grounding_safety_hard_failures) <? 0 as ResearchInputError;;
  raise_if x.(research_usefulness_failures) <? 0 as ResearchInputError;;
  raise_if x.(falsifier_quality_failures) <? 0 as ResearchInputError;;
  raise_if x.(instability_events) <? 0 as ResearchInputError;;
  raise_if match x.(latency_ms) with Some n => n <? 0 | None => false end
  as ResearchInputError;;
  raise_if match x.(cost_amount) with
           | Some c => Number.ltb c (Number.Finite 0)
           | None => false
           end as ResearchInputError;;
  Ok x.

Definition empty : t := mk 0 0 0 0 None None.
End RuntimeQualityObservation.

(** [research/routing.py:158-164 RuntimeQualityObservation.ordered_key] *)
Definition ordered_key (x : RuntimeQualityObservation.t) : Z * (Z * (Z * Z)) :=
  (x.(RuntimeQualityObservation.grounding_safety_hard_failures),
   (x.(RuntimeQualityObservation.research_usefulness_failures),
    (x.(RuntimeQualityObservation.falsifier_quality_failures),
     x.(RuntimeQualityObservation.instability_events)))).

(** [research/routing.py:168-194 RuntimeCandidate] *)
Module RuntimeCandidate.
Record t : Set := mk {
  identity : ModelRuntimeIdentity.t;
  available : bool;
  authenticated : bool;
  structured_output_compatible : bool;
  allowed_capabilities : list string;
  side_effect_capabilities : list string;
  locality : CandidateLocality.t;
  operator_prohibited : bool;
  quality : option RuntimeQualityObservation.t;
  is_strix : bool }.

Definition post_init (x : t) : result t :=
  raise_if existsb Str.is_blank x.(allowed_capabilities) as ResearchInputError;;
  raise_if existsb Str.is_blank x.(side_effect_capabilities) as ResearchInputError;;
  Ok x.
End RuntimeCandidate.

(** [candidate.identity.adapter_id] *)
Definition adapter (c : RuntimeCandidate.t) : string :=
  c.(RuntimeCandidate.identity).(ModelRuntimeIdentity.adapter_id).

(** [research/routing.py:198-237 RoutingRequest] *)
Module RoutingRequest.
Record t : Set := mk {
  role : ModelRole.t;
  candidates : list RuntimeCandidate.t;
  budget : RoutingBudget.t;
  required_runtime_class : RuntimeClass.t;
  structured_output_required : bool;
  locality : LocalityConstraint.t;
  allow_agent_runtime : bool;
  operator_prohibited_adapter_ids : list string;
  operator_preference_order : list string;
  require_operator_on_tie : bool;
  attempted_adapter_ids : list string;
  runtime_attempts_used : Z;
  fallback_attempts_used : Z;
  task_class : option string;
  escalation_reason : option string }.

Definition blank_when_set (s : option string) : bool :=
  match s with None => false | Some s => Str.is_blank s end.

Definition post_init (x : t) : result t :=
  raise_if (x.(runtime_attempts_used) <? 0) || (x.(fallback_attempts_used) <? 0)
  as ResearchInputError;;
  raise_if blank_when_set x.(task_class) as ResearchInputError;;
  raise_if blank_when_set x.(escalation_reason) as ResearchInputError;;
  Ok x.

#[global] Instance post_init_validator : Validator post_init.
Proof. solve_validator. Qed.
End RoutingRequest.

(** [research/routing.py:241-246 FilterRecord] *)
Module FilterRecord.
Record t : Set := mk { adapter_id : string; reason_code : RoutingReasonCode.t }.
End FilterRecord.

(** [research/routing.py:250-303 RuntimeSelectionDecision] *)
Module RuntimeSelectionDecision.
Record t : Set := mk {
  outcome : RoutingOutcome.t;
  policy_version : string;
  role : ModelRole.t;
  reason_codes : list string;
  selected_identity : option ModelRuntimeIdentity.t;
  considered_identities : list ModelRuntimeIdentity.t;
  filtered : list FilterRecord.t;
  attempted_adapter_ids : list string;
  runtime_attempts_used : Z;
  fallback_attempts_used : Z }.

Definition post_init (x : t) : result t :=
  raise_if negb (x.(policy_version) =? ROUTING_POLICY_VERSION)%string as ResearchInputError;;
  raise_if bool_decide (is_Some x.(selected_identity))
           && negb (bool_decide (x.(outcome) = RoutingOutcome.SELECT)) as ResearchInputError;;
  raise_if bool_decide (x.(outcome) = RoutingOutcome.SELECT)
           && negb (bool_decide (is_Some x.(selected_identity))) as ResearchInputError;;
  Ok x.

#[global] Instance post_init_validator : Validator post_init.
Proof. solve_validator. Qed.
End RuntimeSelectionDecision.

(** ** Operations *)

(** [research/routing.py:306-307 _capability_unrestricted] *)
Definition capability_unrestricted (capabilities : list string) : bool :=
  existsb (fun item => mem (Str.lower item) UNRESTRICTED_CAPABILITY_MARKERS) capabilities.

(** [research/routing.py:310-340 _hard_filter] *)
Definition hard_filter (candidate : RuntimeCandidate.t) (request : RoutingRequest.t)
    : option RoutingReasonCode.t :=
  let runtime_class :=
    candidate.(RuntimeCandidate.identity).(ModelRuntimeIdentity.runtime_class) in
  let late :=
    if capability_unrestricted candidate.(RuntimeCandidate.allowed_capabilities)
    then Some RoutingReasonCode.UNRESTRICTED_CAPABILITY
    else if request.(RoutingRequest.structured_output_required)
            && negb candidate.(RuntimeCandidate.structured_output_compatible)
    then Some RoutingReasonCode.MISSING_STRUCTURED_OUTPUT
    else None in
  if candidate.(RuntimeCandidate.is_strix)
  then Some RoutingReasonCode.STRIX_IS_NOT_MODEL_RUNTIME
  else if mem (adapter candidate) request.(RoutingRequest.attempted_adapter_ids)
  then Some RoutingReasonCode.ALREADY_ATTEMPTED
  else if candidate.(RuntimeCandidate.operator_prohibited)
          || mem (adapter candidate) request.(RoutingRequest.operator_prohibited_adapter_ids)
  then Some RoutingReasonCode.OPERATOR_PROHIBITED
  else if negb candidate.(RuntimeCandidate.available)
  then Some RoutingReasonCode.UNAVAILABLE
  else if negb candidate.(RuntimeCandidate.authenticated)
  then Some RoutingReasonCode.MISSING_AUTHENTICATION
  else if bool_decide (request.(RoutingRequest.locality) = LocalityConstraint.LOCAL_REQUIRED)
          && negb (bool_decide (candidate.(RuntimeCandidate.locality)
                                = CandidateLocality.LOCAL))
  then Some RoutingReasonCode.LOCALITY_MISMATCH
  else if bool_decide (runtime_class = RuntimeClass.AGENT_RUNTIME)
  then
    if negb request.(RoutingRequest.allow_agent_runtime)
       || bool_decide (request.(RoutingRequest.required_runtime_class)
                       = RuntimeClass.INFERENCE_RUNTIME)
    then Some RoutingReasonCode.AGENT_NOT_PERMITTED_FOR_INFERENCE_ROLE
    else if bool_decide (candidate.(RuntimeCandidate.allowed_capabilities) = [])
    then Some RoutingReasonCode.CAPABILITY_EXPOSURE_TOO_BROAD
    else if capability_unrestricted candidate.(RuntimeCandidate.allowed_capabilities)
            || capability_unrestricted candidate.(RuntimeCandidate.side_effect_capabilities)
    then Some RoutingReasonCode.UNRESTRICTED_CAPABILITY
    else if negb (bool_decide (candidate.(RuntimeCandidate.side_effect_capabilities) = []))
    then Some RoutingReasonCode.SIDE_EFFECT_CAPABILITY_ON_REASONING_PATH
    else late
  else if negb (bool_decide (runtime_class = request.(RoutingRequest.required_runtime_class)))
  then Some RoutingReasonCode.WRONG_RUNTIME_CLASS
  else late.

(** [candidate.quality or RuntimeQualityObservation()] *)
Definition observed (c : RuntimeCandidate.t) : RuntimeQualityObservation.t :=
  default RuntimeQualityObservation.empty c.(RuntimeCandidate.quality).

(** [x is not None and y is not None and x != y], then [-1 if x < y else 1]; [None] when
    the test fails. *)
Definition latency_decides (l r : RuntimeQualityObservation.t) : option Z :=
  match l.(RuntimeQualityObservation.latency_ms), r.(RuntimeQualityObservation.latency_ms) with
  | Some x, Some y => if x =? y then None else Some (if x <? y then -1 else 1)
  | _, _ => None
  end.

Definition cost_decides (l r : RuntimeQualityObservation.t) : option Z :=
  match l.(RuntimeQualityObservation.cost_amount), r.(RuntimeQualityObservation.cost_amount) with
  | Some x, Some y =>
      if Number.eqb x y then None else Some (if Number.ltb x y then -1 else 1)
  | _, _ => None
  end.

(** [research/routing.py:343-362 _quality_better] *)
Definition quality_better (left right : RuntimeCandidate.t) : Z :=
  let left_obs := observed left in
  let right_obs := observed right in
  let left_key := ordered_key left_obs in
  let right_key := ordered_key right_obs in
  if negb (bool_decide (left_key = right_key))
  then if negb (kle right_key left_key) then -1 else 1
  else match latency_decides left_obs right_obs with
       | Some z => z
       | None =>
           match cost_decides left_obs right_obs with
           | Some z => z
           | None =>
               if negb (adapter left =? adapter right)%string
               then if negb (kle (adapter right) (adapter left)) then -1 else 1
               else 0
           end
       end.

(** [research/routing.py:567-580 _quality_equal] *)
Definition quality_equal (left right : RuntimeCandidate.t) : bool :=
  let left_obs := observed left in
  let right_obs := observed right in
  bool_decide (ordered_key left_obs = ordered_key right_obs)
  && bool_decide (latency_decides left_obs right_obs = None)
  && bool_decide (cost_decides left_obs right_obs = None).

(** [None] for an argument left out.
    [research/routing.py:365-394 _decision] *)
Definition decision (outcome : RoutingOutcome.t) (request : RoutingRequest.t)
    (reason_codes : list RoutingReasonCode.t) (selected : option ModelRuntimeIdentity.t)
    (considered : list ModelRuntimeIdentity.t) (filtered : list FilterRecord.t)
    (runtime_attempts_used fallback_attempts_used : option Z)
    (attempted_adapter_ids : option (list string))
    : result RuntimeSelectionDecision.t :=
  RuntimeSelectionDecision.post_init
    (RuntimeSelectionDecision.mk outcome ROUTING_POLICY_VERSION request.(RoutingRequest.role)
       (RoutingReasonCode.value <$> reason_codes) selected considered filtered
       (default request.(RoutingRequest.attempted_adapter_ids) attempted_adapter_ids)
       (default request.(RoutingRequest.runtime_attempts_used) runtime_attempts_used)
       (default request.(RoutingRequest.fallback_attempts_used) fallback_attempts_used)).

(** [TASK_PRICE_CLASS_POLICY[request.task_class]] where the task class is set and listed. *)
Definition task_policy (request : RoutingRequest.t) : option (option ModelPriceClass.t) :=
  match request.(RoutingRequest.task_class) with
  | None => None
  | Some task => assoc task TASK_PRICE_CLASS_POLICY
  end.

(** [research/routing.py:397-404 _desired_price_class] *)
Definition desired_price_class (request : RoutingRequest.t) : ModelPriceClass.t :=
  if bool_decide (is_Some request.(RoutingRequest.escalation_reason))
  then ModelPriceClass.EXPENSIVE
  else match task_policy request with
       | Some (Some policy_class) => policy_class
       | _ => ModelPriceClass.CHEAP
       end.

(** The loop that splits the candidates by [_hard_filter], each list in order.
    [research/routing.py:442-449 select_runtime] *)
Fixpoint split_by {A} (reason : A -> option FilterRecord.t) (l : list A)
    : list A * list FilterRecord.t :=
  match l with
  | [] => ([], [])
  | c :: l' =>
      let '(survivors, filtered) := split_by reason l' in
      match reason c with
      | Some r => (survivors, r :: filtered)
      | None => (c :: survivors, filtered)
      end
  end.

(** [research/routing.py:445-448 select_runtime] *)
Definition hard_record (request : RoutingRequest.t) (c : RuntimeCandidate.t)
    : option FilterRecord.t :=
  FilterRecord.mk (adapter c) <$> hard_filter c request.

(** [research/routing.py:475-479 select_runtime] *)
Definition price_record (desired : ModelPriceClass.t) (c : RuntimeCandidate.t)
    : option FilterRecord.t :=
  if negb (bool_decide (c.(RuntimeCandidate.identity).(ModelRuntimeIdentity.price_class)
                        = desired))
  then Some (FilterRecord.mk (adapter c) RoutingReasonCode.WRONG_RUNTIME_CLASS)
  else None.

(** [tuple(dict.fromkeys(code.value ...)) or (NO_CANDIDATES.value,)]: different codes have
    different values.
    [research/routing.py:460-462 select_runtime] *)
Definition distinct_codes (filtered : list FilterRecord.t) : list RoutingReasonCode.t :=
  match dedupe (FilterRecord.reason_code <$> filtered) with
  | [] => [RoutingReasonCode.NO_CANDIDATES]
  | codes => codes
  end.

(** [{adapter_id: index for index, adapter_id in enumerate(order)}.get(x)]: the last
    position of [x].
    [research/routing.py:506-506 select_runtime] *)
Fixpoint position (index : Z) (order : list string) (x : string) : option Z :=
  match order with
  | [] => None
  | y :: order' =>
      match position (index + 1) order' x with
      | Some i => Some i
      | None => if (y =? x)%string then Some index else None
      end
  end.

(** [research/routing.py:546-551 select_runtime] *)
Definition price_reason (request : RoutingRequest.t) : RoutingReasonCode.t :=
  if bool_decide (is_Some request.(RoutingRequest.escalation_reason))
  then RoutingReasonCode.ESCALATION_REQUIRED
  else match desired_price_class request with
       | ModelPriceClass.EXPENSIVE => RoutingReasonCode.EXPENSIVE_CLASS_SELECTED
       | ModelPriceClass.CHEAP => RoutingReasonCode.CHEAP_CLASS_SELECTED
       end.

(** The survivors the operator ordered, first in the order; [None] when the order is empty
    or names none of them.
    [research/routing.py:505-509 select_runtime] *)
Definition operator_choice (request : RoutingRequest.t) (survivors : list RuntimeCandidate.t)
    : option RuntimeCandidate.t :=
  let order := position 0 request.(RoutingRequest.operator_preference_order) in
  let preferred :=
    List.filter (fun c => bool_decide (is_Some (order (adapter c)))) survivors in
  head (sort_by (fun c => default 0 (order (adapter c))) preferred).

(** The tables the use case touches. *)
Module Db.
Record t : Type := mk {
  runs : list string;
  audit_events : list AuditEventRecord.t }.
End Db.

(** ** Payloads *)

Lemma existsb_keys (f : string -> bool) (d : list (string * pyval)) :
  existsb (fun p => f p.1) d = existsb f d.*1.
Proof. induction d as [|p d IH]; cbn; [done|by rewrite IH]. Qed.

Lemma secret_free_dict d :
  secret_free (PDict d)
  = forallb (fun k => negb (is_sensitive_key k)) d.*1 && forallb secret_free d.*2.
Proof.
  induction d as [|[k v] d IH]; [done|]. cbn -[is_sensitive_key secret_free] in *. cbn [secret_free] in *.
  cbn [forallb]. rewrite IH. cbn. destruct (is_sensitive_key k), (secret_free v); cbn; try done.
  by rewrite andb_false_r.
Qed.

Lemma forallb_fmap_true {A} (f : A -> pyval) l :
  (forall x, secret_free (f x) = true) -> forallb secret_free (f <$> l) = true.
Proof. intros Hf. induction l as [|x l IH]; cbn; [done|]. by rewrite Hf. Qed.

Section routing.
Context `{ComparisonSort RuntimeCandidate.t}.

(** The end of [select_runtime], from the ranking on.
    [research/routing.py:530-564 select_runtime] *)
Definition rank_survivors (request : RoutingRequest.t) (survivors : list RuntimeCandidate.t)
    (considered : list ModelRuntimeIdentity.t) (filtered : list FilterRecord.t)
    : result RuntimeSelectionDecision.t :=
  match py_sorted quality_better survivors with
  | [] => Raise IndexError
  | (best :: _) as ranked =>
      let tied :=
        List.filter (fun item => negb (adapter item =? adapter best)%string
                                 && quality_equal item best) ranked in
      if negb (bool_decide (length tied = O))
         && request.(RoutingRequest.require_operator_on_tie)
      then decision RoutingOutcome.REQUIRE_OPERATOR_SELECTION request
             [RoutingReasonCode.TIE_REQUIRES_OPERATOR] None
             (RuntimeCandidate.identity <$> ranked) filtered None None None
      else decision RoutingOutcome.SELECT request
             [RoutingReasonCode.SELECTED_AFTER_HARD_FILTERS;
              RoutingReasonCode.SELECTED_BY_QUALITY_ORDER; price_reason request]
             (Some best.(RuntimeCandidate.identity)) considered filtered
             (Some (request.(RoutingRequest.runtime_attempts_used) + 1)) None None
  end.

(** [research/routing.py:407-564 select_runtime] *)
Definition select_runtime (request : RoutingRequest.t) : result RuntimeSelectionDecision.t :=
  let considered := RuntimeCandidate.identity <$> request.(RoutingRequest.candidates) in
  let limit := request.(RoutingRequest.budget).(RoutingBudget.max_runtime_attempts) in
  if limit =? 0
  then decision RoutingOutcome.UNAVAILABLE request [RoutingReasonCode.ZERO_RUNTIME_ALLOWANCE]
         None considered [] None None None
  else if limit <=? request.(RoutingRequest.runtime_attempts_used)
  then decision RoutingOutcome.UNAVAILABLE request [RoutingReasonCode.ATTEMPT_BUDGET_EXHAUSTED]
         None considered [] None None None
  else if bool_decide (length request.(RoutingRequest.candidates) = O)
  then decision RoutingOutcome.NO_COMPATIBLE_RUNTIME request [RoutingReasonCode.NO_CANDIDATES]
         None [] [] None None None
  else match task_policy request with
  | Some None =>
      decision RoutingOutcome.BLOCKED_POLICY request
        [RoutingReasonCode.MONITORING_CLASS_DISABLED] None considered [] None None None
  | _ =>
      let '(survivors, filtered) :=
        split_by (hard_record request) request.(RoutingRequest.candidates) in
      if bool_decide (length survivors = O)
      then
        let all_unavailable :=
          negb (bool_decide (length filtered = O))
          && forallb (fun r => bool_decide (r.(FilterRecord.reason_code)
                                            = RoutingReasonCode.UNAVAILABLE)) filtered in
        decision (if all_unavailable then RoutingOutcome.UNAVAILABLE
                  else RoutingOutcome.NO_COMPATIBLE_RUNTIME)
          request (distinct_codes filtered) None considered filtered None None None
      else
        let desired := desired_price_class request in
        let '(price_survivors, price_filtered) := split_by (price_record desired) survivors in
        if bool_decide (length price_survivors = O)
        then
          let all_blocked :=
            negb (bool_decide (length price_filtered = O))
            && forallb (fun r => bool_decide (r.(FilterRecord.reason_code)
                                              = RoutingReasonCode.WRONG_RUNTIME_CLASS))
                 price_filtered in
          decision (if all_blocked && bool_decide (desired = ModelPriceClass.EXPENSIVE)
                    then RoutingOutcome.BLOCKED_POLICY
                    else RoutingOutcome.NO_COMPATIBLE_RUNTIME)
            request (distinct_codes price_filtered) None considered
            (filtered ++ price_filtered) None None None
        else match operator_choice request price_survivors with
        | Some chosen =>
            decision RoutingOutcome.SELECT request
              [RoutingReasonCode.SELECTED_AFTER_HARD_FILTERS;
               RoutingReasonCode.SELECTED_BY_OPERATOR_ORDER; price_reason request]
              (Some chosen.(RuntimeCandidate.identity)) considered
              (filtered ++ price_filtered)
              (Some (request.(RoutingRequest.runtime_attempts_used) + 1)) None None
        | None => rank_survivors request price_survivors considered (filtered ++ price_filtered)
        end
  end.

(** The request of another attempt.
    [research/routing.py:645-661 reconsider_runtime] *)
Definition retry_request (request : RoutingRequest.t) (attempted : list string)
    (runtime_attempts fallback_attempts : Z) (escalation_reason : option string)
    : result RoutingRequest.t :=
  RoutingRequest.post_init
    (RoutingRequest.mk request.(RoutingRequest.role) request.(RoutingRequest.candidates)
       request.(RoutingRequest.budget) request.(RoutingRequest.required_runtime_class)
       request.(RoutingRequest.structured_output_required) request.(RoutingRequest.locality)
       request.(RoutingRequest.allow_agent_runtime)
       request.(RoutingRequest.operator_prohibited_adapter_ids)
       request.(RoutingRequest.operator_preference_order)
       request.(RoutingRequest.require_operator_on_tie) attempted runtime_attempts
       fallback_attempts request.(RoutingRequest.task_class) escalation_reason).

(** [research/routing.py:583-662 reconsider_runtime] *)
Definition reconsider_runtime (request : RoutingRequest.t)
    (previous : RuntimeSelectionDecision.t) (outcome : RuntimeOutcome.t)
    : result RuntimeSelectionDecision.t :=
  let attempted :=
    match previous.(RuntimeSelectionDecision.selected_identity) with
    | None => previous.(RuntimeSelectionDecision.attempted_adapter_ids)
    | Some i => dedupe (previous.(RuntimeSelectionDecision.attempted_adapter_ids)
                        ++ [i.(ModelRuntimeIdentity.adapter_id)])
    end in
  let limit := request.(RoutingRequest.budget).(RoutingBudget.max_fallback_attempts) in
  let runtime_attempts := previous.(RuntimeSelectionDecision.runtime_attempts_used) in
  let fallback_attempts := previous.(RuntimeSelectionDecision.fallback_attempts_used) in
  let stop kind code attempted :=
    decision kind request [code] None
      previous.(RuntimeSelectionDecision.considered_identities)
      previous.(RuntimeSelectionDecision.filtered) (Some runtime_attempts)
      (Some fallback_attempts) attempted in
  if bool_decide (outcome = RuntimeOutcome.CONTENT_POLICY_BLOCKED)
  then stop RoutingOutcome.BLOCKED_POLICY RoutingReasonCode.CONTENT_POLICY_BLOCK_NO_BYPASS
         (Some attempted)
  else if bool_decide (outcome = RuntimeOutcome.ESCALATION_NEEDED)
  then escalation_retry ← retry_request request attempted runtime_attempts fallback_attempts
                            (Some "cheap_model_returned_escalation_needed");
       select_runtime escalation_retry
  else if limit =? 0
  then stop RoutingOutcome.UNAVAILABLE RoutingReasonCode.ZERO_FALLBACK_ALLOWANCE None
  else if limit <=? fallback_attempts
  then stop RoutingOutcome.UNAVAILABLE RoutingReasonCode.FALLBACK_EXHAUSTED None
  else retry ← retry_request request attempted runtime_attempts (fallback_attempts + 1)
                 request.(RoutingRequest.escalation_reason);
       select_runtime retry.

(** ** Recording decisions: [application/select_research_runtime.py] *)

(** [research/routing.py:245-246 FilterRecord.to_mapping] *)
Definition filter_to_mapping (r : FilterRecord.t) : pyval :=
  PDict [ ("adapter_id", PStr r.(FilterRecord.adapter_id));
          ("reason_code", PStr (RoutingReasonCode.value r.(FilterRecord.reason_code))) ].

(** The payload before its checks. *)
Definition decision_payload (d : RuntimeSelectionDecision.t) : list (string * pyval) :=
  [ ("outcome", PStr (RoutingOutcome.value d.(RuntimeSelectionDecision.outcome)));
    ("policy_version", PStr d.(RuntimeSelectionDecision.policy_version));
    ("role", PStr (ModelRole.value d.(RuntimeSelectionDecision.role)));
    ("reason_codes", PList (PStr <$> d.(RuntimeSelectionDecision.reason_codes)));
    ("selected_runtime",
      match d.(RuntimeSelectionDecision.selected_identity) with
      | None => PNone
      | Some i => identity_to_mapping i
      end);
    ("considered_runtimes",
      PList (identity_to_mapping <$> d.(RuntimeSelectionDecision.considered_identities)));
    ("filtered", PList (filter_to_mapping <$> d.(RuntimeSelectionDecision.filtered)));
    ("attempted_adapter_ids",
      PList (PStr <$> d.(RuntimeSelectionDecision.attempted_adapter_ids)));
    ("runtime_attempts_used", PInt d.(RuntimeSelectionDecision.runtime_attempts_used));
    ("fallback_attempts_used", PInt d.(RuntimeSelectionDecision.fallback_attempts_used));
    ("no_aggregate_model_score", PBool true);
    ("no_automatic_winner", PBool true);
    ("not_authorization", PBool true);
    ("not_evidence", PBool true);
    ("not_finding", PBool true);
    ("contains_secrets", PBool false) ].

(** [research/routing.py:278-303 RuntimeSelectionDecision.to_mapping] *)
Definition decision_to_mapping (d : RuntimeSelectionDecision.t)
    : result (list (string * pyval)) :=
  let payload := decision_payload d in
  _ ← reject_secret_keys payload "runtime_selection_decision";
  raise_if existsb (fun p => mem (Str.lower p.1) FORBIDDEN_ROUTING_KEYS) payload
  as ResearchInputError;;
  Ok payload.

(** The body the two methods share: [event_type] tells them apart, [decide] is the call
    between the look-up of the run and the insertion.
    [application/select_research_runtime.py:50-69 SelectResearchRuntime.execute] *)
Definition record_decision (db : Db.t) (event_type audit_id actor_id run : string) (now : Z)
    (decide : result RuntimeSelectionDecision.t)
    : result (Db.t * RuntimeSelectionDecision.t) :=
  raise_if negb (mem run db.(Db.runs)) as ApplicationError;;
  decision ← decide;
  payload ← decision_to_mapping decision;
  event ← AuditEventRecord.post_init
            (AuditEventRecord.mk audit_id now actor_id (ActorType.value ActorType.CONTROL_PLANE)
               event_type "research_run" run payload None);
  events ← append_audit db.(Db.audit_events) event;
  Ok (Db.mk db.(Db.runs) events, decision).

(** [application/select_research_runtime.py:49-69 SelectResearchRuntime.execute] *)
Definition execute (db : Db.t) (audit_id actor_id run : string) (now : Z)
    (request : RoutingRequest.t) : result (Db.t * RuntimeSelectionDecision.t) :=
  record_decision db "RUNTIME_ROUTING_DECISION" audit_id actor_id run now
    (select_runtime request).

(** [application/select_research_runtime.py:71-96 SelectResearchRuntime.reconsider] *)
Definition reconsider (db : Db.t) (audit_id actor_id run : string) (now : Z)
    (request : RoutingRequest.t) (previous : RuntimeSelectionDecision.t)
    (outcome : RuntimeOutcome.t) : result (Db.t * RuntimeSelectionDecision.t) :=
  record_decision db "RUNTIME_ROUTING_RECONSIDER" audit_id actor_id run now
    (reconsider_runtime request previous outcome).

(** ** Decisions *)

Lemma decision_ok outcome request codes considered filtered ra fa attempted :
  outcome <> RoutingOutcome.SELECT ->
  exists d, decision outcome request codes None considered filtered ra fa attempted = Ok d
    /\ d.(RuntimeSelectionDecision.outcome) = outcome
    /\ d.(RuntimeSelectionDecision.selected_identity) = None
    /\ d.(RuntimeSelectionDecision.runtime_attempts_used)
       = default request.(RoutingRequest.runtime_attempts_used) ra
    /\ d.(RuntimeSelectionDecision.fallback_attempts_used)
       = default request.(RoutingRequest.fallback_attempts_used) fa.
Proof.
  intros Hne. unfold decision, RuntimeSelectionDecision.post_init. cbn.
  rewrite (bool_decide_eq_false_2 (outcome = _)) by done. cbn. by eexists.
Qed.

Lemma decision_selects request codes i considered filtered ra fa attempted :
  exists d, decision RoutingOutcome.SELECT request codes (Some i) considered filtered ra fa
              attempted = Ok d
    /\ d.(RuntimeSelectionDecision.outcome) = RoutingOutcome.SELECT
    /\ d.(RuntimeSelectionDecision.selected_identity) = Some i
    /\ d.(RuntimeSelectionDecision.attempted_adapter_ids)
       = default request.(RoutingRequest.attempted_adapter_ids) attempted
    /\ d.(RuntimeSelectionDecision.runtime_attempts_used)
       = default request.(RoutingRequest.runtime_attempts_used) ra
    /\ d.(RuntimeSelectionDecision.fallback_attempts_used)
       = default request.(RoutingRequest.fallback_attempts_used) fa.
Proof.
  unfold decision, RuntimeSelectionDecision.post_init. cbn.
  by eexists.
Qed.

Lemma split_by_survivors {A} (reason : A -> option FilterRecord.t) l :
  (split_by reason l).1 = List.filter (fun c => bool_decide (reason c = None)) l.
Proof.
  induction l as [|c l IH]; simpl; [done|]. destruct (split_by reason l) as [s fs]. simpl in *.
  destruct (reason c); simpl; by rewrite IH.
Qed.

(** ** What [select_runtime] chooses *)

(** The candidates that pass the hard rules and have the price class asked for. *)
Definition acceptable (request : RoutingRequest.t) (c : RuntimeCandidate.t) : bool :=
  bool_decide (hard_filter c request = None)
  && bool_decide (c.(RuntimeCandidate.identity).(ModelRuntimeIdentity.price_class)
                  = desired_price_class request).

Definition choices (request : RoutingRequest.t) : list RuntimeCandidate.t :=
  List.filter (acceptable request) request.(RoutingRequest.candidates).

Lemma elem_of_choices request c :
  c ∈ choices request
  <-> c ∈ request.(RoutingRequest.candidates) /\ acceptable request c = true.
Proof. apply elem_of_list_filter_bool. Qed.

Lemma survivors_are_choices request :
  (split_by (price_record (desired_price_class request))
     (split_by (hard_record request) request.(RoutingRequest.candidates)).1).1
  = choices request.
Proof.
  rewrite !split_by_survivors. unfold choices.
  induction (request.(RoutingRequest.candidates)) as [|c l IH]; [done|]. cbn [List.filter].
  rewrite <-IH. assert (acceptable request c = bool_decide (hard_record request c = None)
    && bool_decide (price_record (desired_price_class request) c = None)) as ->.
  { unfold acceptable, hard_record, price_record. f_equal; [by destruct (hard_filter c request)|].
    by case_bool_decide. }
  case_bool_decide; cbn; [|done]. by case_bool_decide.
Qed.

(** No acceptable candidate stands before [c] in the operator's order. *)
Definition operator_best (request : RoutingRequest.t) (c : RuntimeCandidate.t) : Prop :=
  let order := position 0 request.(RoutingRequest.operator_preference_order) in
  exists i, order (adapter c) = Some i
    /\ forall c' j, c' ∈ choices request -> order (adapter c') = Some j -> i <= j.

Lemma operator_choice_Some request c :
  operator_choice request (choices request) = Some c ->
  c ∈ choices request /\ operator_best request c.
Proof.
  unfold operator_choice, operator_best. set (order := position _ _).
  set (l := List.filter _ _). destruct (sort_by _ l) as [|x l'] eqn:E; simpl; [done|]. intros [= ->].
  assert (c ∈ l) as Hc by (rewrite <-(elem_of_sort_by (fun c => default 0 (order (adapter c)))), E; left).
  apply elem_of_list_filter_bool in Hc as [Hc [i Hi]%bool_decide_eq_true]. split; [done|].
  exists i. split; [done|]. intros c' j Hc' Hj.
  assert (c' ∈ l) as Hl by by apply elem_of_list_filter_bool; rewrite Hj.
  pose proof (sort_by_head_min _ _ _ _ _ E Hl) as Hle. cbv beta in Hle. rewrite Hi, Hj in Hle. cbn in Hle. by apply Z.leb_le.
Qed.

Lemma operator_choice_None request l c :
  operator_choice request l = None -> c ∈ l ->
  position 0 request.(RoutingRequest.operator_preference_order) (adapter c) = None.
Proof.
  unfold operator_choice. set (order := position _ _). set (fl := List.filter _ _).
  destruct (sort_by _ fl) as [|x l'] eqn:E; simpl; [|done]. intros _ Hc.
  destruct (order (adapter c)) eqn:Ho; [|done].
  assert (c ∈ fl) as Hin by by apply elem_of_list_filter_bool; rewrite Ho.
  apply (elem_of_sort_by (fun c => default 0 (order (adapter c)))) in Hin. rewrite E in Hin. by apply elem_of_nil in Hin.
Qed.

(** No acceptable candidate with another adapter has the same observations. *)
Definition untied (request : RoutingRequest.t) (c : RuntimeCandidate.t) : Prop :=
  forall c', c' ∈ choices request -> quality_equal c' c = true -> adapter c' = adapter c.

(** The candidate chosen by quality: nothing acceptable is in the operator's order, ties
    are left to the operator, and where the comparison is an order nothing beats it. *)
Definition quality_best (request : RoutingRequest.t) (c : RuntimeCandidate.t) : Prop :=
  (forall c', c' ∈ choices request ->
     position 0 request.(RoutingRequest.operator_preference_order) (adapter c') = None)
  /\ (request.(RoutingRequest.require_operator_on_tie) = true -> untied request c)
  /\ (weak_order_on quality_better (choices request) ->
      forall c', c' ∈ choices request -> before quality_better c' c = false).

Definition request_used (request : RoutingRequest.t) : Z :=
  request.(RoutingRequest.runtime_attempts_used).
Definition request_limit (request : RoutingRequest.t) : Z :=
  request.(RoutingRequest.budget).(RoutingBudget.max_runtime_attempts).

(** What a decision says of the request it answers. *)
Definition answers (request : RoutingRequest.t) (d : RuntimeSelectionDecision.t) : Prop :=
  match d.(RuntimeSelectionDecision.outcome) with
  | RoutingOutcome.SELECT =>
      exists c, c ∈ choices request
        /\ d.(RuntimeSelectionDecision.selected_identity) = Some c.(RuntimeCandidate.identity)
        /\ d.(RuntimeSelectionDecision.attempted_adapter_ids)
           = request.(RoutingRequest.attempted_adapter_ids)
        /\ request_used request < request_limit request
        /\ d.(RuntimeSelectionDecision.runtime_attempts_used) = request_used request + 1
        /\ (operator_best request c \/ quality_best request c)
  | outcome =>
      d.(RuntimeSelectionDecision.selected_identity) = None
      /\ d.(RuntimeSelectionDecision.runtime_attempts_used) = request_used request
      /\ if bool_decide (outcome = RoutingOutcome.REQUIRE_OPERATOR_SELECTION)
         then request.(RoutingRequest.require_operator_on_tie) = true
              /\ exists c, c ∈ choices request /\ ~ untied request c
         else request_limit request <= request_used request
              \/ task_policy request = Some None
              \/ choices request = []
  end
  /\ d.(RuntimeSelectionDecision.fallback_attempts_used)
     = request.(RoutingRequest.fallback_attempts_used).

Lemma answers_refusal outcome request codes considered filtered :
  outcome <> RoutingOutcome.SELECT -> outcome <> RoutingOutcome.REQUIRE_OPERATOR_SELECTION ->
  request_limit request <= request_used request \/ task_policy request = Some None
    \/ choices request = [] ->
  exists d, decision outcome request codes None considered filtered None None None = Ok d
    /\ answers request d.
Proof.
  intros H1 H2 H3. destruct (decision_ok outcome request codes considered filtered None None None H1)
    as (d & Hd & Ho & Hs & Hra & Hfa). exists d. split; [done|]. split; [|done]. rewrite Ho, Hs, Hra.
  by destruct outcome.
Qed.

Lemma answers_selection request codes c considered filtered :
  c ∈ choices request -> request_used request < request_limit request ->
  operator_best request c \/ quality_best request c ->
  exists d, decision RoutingOutcome.SELECT request codes (Some c.(RuntimeCandidate.identity))
              considered filtered (Some (request.(RoutingRequest.runtime_attempts_used) + 1))
              None None = Ok d
    /\ answers request d.
Proof.
  intros Hc Hu Hb. destruct (decision_selects request codes c.(RuntimeCandidate.identity)
    considered filtered (Some (request.(RoutingRequest.runtime_attempts_used) + 1)) None None)
    as (d & Hd & Ho & Hs & Ha & Hra & Hfa). exists d. split; [done|]. split; [|done].
  rewrite Ho. exists c. naive_solver.
Qed.

Lemma rank_survivors_answers request considered filtered :
  choices request <> [] -> operator_choice request (choices request) = None ->
  request_used request < request_limit request ->
  exists d, rank_survivors request (choices request) considered filtered = Ok d
    /\ answers request d.
Proof.
  intros Hne Hop Hu. unfold rank_survivors.
  pose proof (py_sorted_perm quality_better (choices request)) as Hp.
  destruct (py_sorted quality_better (choices request)) as [|best ranked] eqn:E;
    [by apply Permutation_nil_l in Hp|].
  set (tied := List.filter _ _).
  assert (best ∈ choices request) as Hb by (rewrite <-Hp; left).
  assert (tied = [] <-> untied request best) as Ht.
  { unfold tied, untied. rewrite filter_nil_bool. setoid_rewrite Hp.
    split; intros Hx c Hc; specialize (Hx c Hc).
    - intros Hq. rewrite Hq, andb_true_r in Hx. apply negb_false_iff, String.eqb_eq in Hx. done.
    - destruct (quality_equal c best); [|by rewrite andb_false_r].
      by rewrite (proj2 (String.eqb_eq _ _) (Hx eq_refl)). }
  destruct (negb _ && _) eqn:Eb.
  - apply andb_true_iff in Eb as [Hl Hr].
    destruct (decision_ok RoutingOutcome.REQUIRE_OPERATOR_SELECTION request
      [RoutingReasonCode.TIE_REQUIRES_OPERATOR] (RuntimeCandidate.identity <$> best :: ranked)
      filtered None None None) as (d & Hd & Ho & Hs & Hra & Hfa); [done|].
    exists d. split; [done|]. split; [|done]. rewrite Ho. cbn. repeat split; try done.
    exists best. split; [done|]. rewrite <-Ht. intros ->. done.
  - apply answers_selection; [done..|]. right. split; [|split].
    + intros c' Hc'. by eapply operator_choice_None.
    + intros Hr. apply Ht. rewrite Hr, andb_true_r, negb_false_iff, bool_decide_eq_true in Eb.
      by apply length_zero_iff_nil.
    + intros W c' Hc'. rewrite py_sorted_stable in E by done.
      by eapply stable_sort_head.
Qed.

Lemma select_runtime_answers request :
  0 <= request_used request ->
  exists d, select_runtime request = Ok d /\ answers request d.
Proof.
  intros H0. unfold select_runtime. fold (request_limit request) (request_used request).
  case_match eqn:E1; [apply answers_refusal; [done..|left; bool_prop; lia]|].
  case_match eqn:E2; [apply answers_refusal; [done..|left; bool_prop; lia]|].
  assert (request_used request < request_limit request) as Hu by (bool_prop; lia).
  case_bool_decide as E3.
  { apply answers_refusal; [done..|right; right]. unfold choices.
    by apply length_zero_iff_nil in E3 as ->. }
  assert (forall l, choices request = [] -> choices request = l -> l = []) as Hnil by congruence.
  pose proof (survivors_are_choices request) as Hs.
  destruct (task_policy request) as [[p|]|] eqn:E4;
    [|apply answers_refusal; [done..|by right; left]|];
  (destruct (split_by (hard_record request) _) as [survivors filtered] eqn:E5; cbn in Hs;
   case_bool_decide as E6;
   [ apply length_zero_iff_nil in E6; subst survivors; apply answers_refusal;
     [by case_match|by case_match|by right; right]
   | destruct (split_by (price_record _) survivors) as [ps pf] eqn:E7; cbn in Hs; subst ps;
     case_bool_decide as E8;
     [ apply length_zero_iff_nil in E8; apply answers_refusal;
       [by case_match|by case_match|by right; right]
     | destruct (operator_choice request (choices request)) as [c|] eqn:E9;
       [ apply operator_choice_Some in E9 as [Hc Hb]; apply answers_selection; by auto
       | apply rank_survivors_answers; [intros E10; by rewrite E10 in E8|done..] ] ] ]).
Qed.

(** ** Several attempts *)

(** [request] as [reconsider_runtime] repeats it. *)
Definition repeated (request : RoutingRequest.t) (attempted : list string) (ra fa : Z)
    (escalation : option string) : RoutingRequest.t :=
  RoutingRequest.mk request.(RoutingRequest.role) request.(RoutingRequest.candidates)
    request.(RoutingRequest.budget) request.(RoutingRequest.required_runtime_class)
    request.(RoutingRequest.structured_output_required) request.(RoutingRequest.locality)
    request.(RoutingRequest.allow_agent_runtime)
    request.(RoutingRequest.operator_prohibited_adapter_ids)
    request.(RoutingRequest.operator_preference_order)
    request.(RoutingRequest.require_operator_on_tie) attempted ra fa
    request.(RoutingRequest.task_class) escalation.

Lemma retry_request_ok request attempted ra fa escalation :
  RoutingRequest.post_init request = Ok request -> 0 <= ra -> 0 <= fa ->
  RoutingRequest.blank_when_set escalation = false ->
  retry_request request attempted ra fa escalation
  = Ok (repeated request attempted ra fa escalation).
Proof.
  intros Hv Hra Hfa He. unfold retry_request, RoutingRequest.post_init in *. cbn.
  apply raise_if_ok in Hv as [_ Hv]. apply raise_if_ok in Hv as [Ht _].
  rewrite (proj2 (Z.ltb_ge ra 0)), (proj2 (Z.ltb_ge fa 0)) by done. cbn. by rewrite Ht, He.
Qed.

(** The hard rules but the one on adapters tried before. *)
Definition permitted (request : RoutingRequest.t) (x : string) : Prop :=
  exists c, c ∈ request.(RoutingRequest.candidates) /\ adapter c = x
    /\ hard_filter c (repeated request [] 0 0 None) = None.

Lemma choice_permitted request attempted ra fa escalation c :
  c ∈ choices (repeated request attempted ra fa escalation) ->
  permitted request (adapter c) /\ adapter c ∉ attempted.
Proof.
  rewrite elem_of_choices. unfold acceptable. rewrite andb_true_iff, !bool_decide_eq_true.
  intros (Hc & Hf & _). unfold hard_filter in Hf. cbn in Hf.
  destruct (RuntimeCandidate.is_strix c) eqn:E1; [done|].
  destruct (mem (adapter c) attempted) eqn:E2; [done|]. apply mem_false in E2.
  split; [|done]. exists c. split; [done|]. split; [done|].
  unfold hard_filter. cbn. by rewrite E1.
Qed.

Lemma permitted_repeated request attempted ra fa escalation x :
  permitted (repeated request attempted ra fa escalation) x <-> permitted request x.
Proof. done. Qed.

(** What [reconsider_runtime] answers after a runtime [i] was tried: nothing is selected,
    or another selection is made with [i] marked as attempted. *)
Lemma reconsider_answers request previous i outcome :
  RoutingRequest.post_init request = Ok request ->
  previous.(RuntimeSelectionDecision.selected_identity) = Some i ->
  let ra := previous.(RuntimeSelectionDecision.runtime_attempts_used) in
  let fa := previous.(RuntimeSelectionDecision.fallback_attempts_used) in
  0 <= ra -> 0 <= fa ->
  exists d, reconsider_runtime request previous outcome = Ok d
    /\ (d.(RuntimeSelectionDecision.selected_identity) = None
        /\ d.(RuntimeSelectionDecision.runtime_attempts_used) = ra
        /\ d.(RuntimeSelectionDecision.fallback_attempts_used) = fa
        \/ outcome <> RuntimeOutcome.CONTENT_POLICY_BLOCKED
           /\ exists escalation fa',
             answers (repeated request
                        (dedupe (previous.(RuntimeSelectionDecision.attempted_adapter_ids)
                                 ++ [i.(ModelRuntimeIdentity.adapter_id)])) ra fa' escalation) d
             /\ (fa' = fa \/ fa' = fa + 1
                 /\ fa < request.(RoutingRequest.budget).(RoutingBudget.max_fallback_attempts))).
Proof.
  intros Hv Hi ra fa Hra Hfa. unfold reconsider_runtime. rewrite Hi. fold ra fa.
  set (attempted := dedupe _).
  assert (forall fa' escalation, 0 <= fa' -> RoutingRequest.blank_when_set escalation = false ->
    exists d, (r ← retry_request request attempted ra fa' escalation; select_runtime r) = Ok d
      /\ answers (repeated request attempted ra fa' escalation) d) as Hsel.
  { intros fa' escalation Hfa' He. rewrite retry_request_ok by done.
    cbn [mbind result_bind]. by apply select_runtime_answers. }
  assert (RoutingRequest.blank_when_set request.(RoutingRequest.escalation_reason) = false) as He.
  { unfold RoutingRequest.post_init in Hv. do 2 apply raise_if_ok in Hv as [_ Hv].
    by apply raise_if_ok in Hv as [? _]. }
  case_bool_decide as Ec; [|case_bool_decide as Ee; [|case_match eqn:E1; [|case_match eqn:E2]]].
  - destruct (decision_ok RoutingOutcome.BLOCKED_POLICY request
      [RoutingReasonCode.CONTENT_POLICY_BLOCK_NO_BYPASS]
      previous.(RuntimeSelectionDecision.considered_identities)
      previous.(RuntimeSelectionDecision.filtered) (Some ra) (Some fa) (Some attempted))
      as (d & Hd & _ & ? & ? & ?); [done|]. exists d. split; [done|]. by left.
  - destruct (Hsel fa (Some "cheap_model_returned_escalation_needed")) as (d & Hd & Ha); [done..|].
    exists d. split; [done|]. right. split; [done|]. eexists _, fa. eauto.
  - destruct (decision_ok RoutingOutcome.UNAVAILABLE request
      [RoutingReasonCode.ZERO_FALLBACK_ALLOWANCE]
      previous.(RuntimeSelectionDecision.considered_identities)
      previous.(RuntimeSelectionDecision.filtered) (Some ra) (Some fa) None)
      as (d & Hd & _ & ? & ? & ?); [done|]. exists d. split; [done|]. by left.
  - destruct (decision_ok RoutingOutcome.UNAVAILABLE request [RoutingReasonCode.FALLBACK_EXHAUSTED]
      previous.(RuntimeSelectionDecision.considered_identities)
      previous.(RuntimeSelectionDecision.filtered) (Some ra) (Some fa) None)
      as (d & Hd & _ & ? & ? & ?); [done|]. exists d. split; [done|]. by left.
  - destruct (Hsel (fa + 1) request.(RoutingRequest.escalation_reason)) as (d & Hd & Ha);
      [lia|done|]. exists d. split; [done|]. right. split; [done|]. eexists _, (fa + 1).
    split; [done|]. right. split; [done|]. by apply Z.leb_gt.
Qed.

(** A routing of [request]: a first selection, and a reconsideration after each selected
    runtime was tried, with whatever outcome.  [tried] are the adapters tried before the
    last decision. *)
Inductive routing_of (request : RoutingRequest.t)
    : list string -> RuntimeSelectionDecision.t -> Prop :=
  | first_choice d : select_runtime request = Ok d -> routing_of request [] d
  | next_choice tried d i outcome d' :
      routing_of request tried d ->
      d.(RuntimeSelectionDecision.selected_identity) = Some i ->
      reconsider_runtime request d outcome = Ok d' ->
      routing_of request (tried ++ [i.(ModelRuntimeIdentity.adapter_id)]) d'.

(** The adapters tried, the one selected now included. *)
Definition all_tried (tried : list string) (d : RuntimeSelectionDecision.t) : list string :=
  tried ++ match d.(RuntimeSelectionDecision.selected_identity) with
           | Some i => [i.(ModelRuntimeIdentity.adapter_id)]
           | None => []
           end.

Record routed (request : RoutingRequest.t) (tried : list string)
    (d : RuntimeSelectionDecision.t) : Prop := {
  routed_distinct : NoDup (all_tried tried d);
  routed_permitted : forall x, x ∈ all_tried tried d ->
    permitted request x /\ x ∉ request.(RoutingRequest.attempted_adapter_ids);
  routed_count : d.(RuntimeSelectionDecision.runtime_attempts_used)
    = request_used request + Z.of_nat (length (all_tried tried d));
  routed_bound : all_tried tried d <> [] ->
    d.(RuntimeSelectionDecision.runtime_attempts_used) <= request_limit request;
  routed_attempted : forall i, d.(RuntimeSelectionDecision.selected_identity) = Some i ->
    forall x, x ∈ d.(RuntimeSelectionDecision.attempted_adapter_ids)
      <-> x ∈ request.(RoutingRequest.attempted_adapter_ids) \/ x ∈ tried;
  routed_fallbacks : request.(RoutingRequest.fallback_attempts_used)
    <= d.(RuntimeSelectionDecision.fallback_attempts_used)
    <= Z.max request.(RoutingRequest.fallback_attempts_used)
         request.(RoutingRequest.budget).(RoutingBudget.max_fallback_attempts) }.

(** One selection after [tried]. *)
Lemma answers_routed request tried attempted fa escalation d :
  let ra := request_used request + Z.of_nat (length tried) in
  answers (repeated request attempted ra fa escalation) d ->
  NoDup tried ->
  (forall x, x ∈ tried ->
     permitted request x /\ x ∉ request.(RoutingRequest.attempted_adapter_ids)) ->
  (forall x, x ∈ attempted
     <-> x ∈ request.(RoutingRequest.attempted_adapter_ids) \/ x ∈ tried) ->
  (tried <> [] -> ra <= request_limit request) ->
  request.(RoutingRequest.fallback_attempts_used) <= fa
    <= Z.max request.(RoutingRequest.fallback_attempts_used)
         request.(RoutingRequest.budget).(RoutingBudget.max_fallback_attempts) ->
  routed request tried d.
Proof.
  intros ra [Ha Hfa] Hnd Hp Hatt Hb Hfb. unfold answers in Ha.
  destruct (decide (d.(RuntimeSelectionDecision.outcome) = RoutingOutcome.SELECT)) as [Ho|Ho].
  - rewrite Ho in Ha. destruct Ha as (c & [Hc1 Hc2]%choice_permitted & Hs & Hda & Hlt & Hra & _).
    unfold request_used, request_limit in Hlt, Hra. cbn in Hlt, Hra, Hda.
    assert (all_tried tried d = tried ++ [adapter c]) as Eall by (unfold all_tried; by rewrite Hs).
    split; rewrite ?Eall, ?Hfa; try done.
    + apply NoDup_app. repeat split; [done| |apply NoDup_singleton].
      intros x Hx ->%list_elem_of_singleton. apply Hc2, Hatt. by right.
    + intros x [Hx| ->%list_elem_of_singleton]%elem_of_app; [by apply Hp|].
      split; [done|]. intros Hx. apply Hc2, Hatt. by left.
    + rewrite length_app. cbn. lia.
    + unfold request_limit. lia.
    + intros i _ x. rewrite Hda. apply Hatt.
  - assert (d.(RuntimeSelectionDecision.selected_identity) = None
      /\ d.(RuntimeSelectionDecision.runtime_attempts_used) = ra) as [Hs Hra]
      by by destruct d.(RuntimeSelectionDecision.outcome); destruct Ha as (? & ? & ?).
    assert (all_tried tried d = tried) as Eall by (unfold all_tried; by rewrite Hs, app_nil_r).
    split; rewrite ?Eall, ?Hfa, ?Hra; try done. by rewrite Hs.
Qed.

Lemma routing_routed request tried d :
  RoutingRequest.post_init request = Ok request ->
  routing_of request tried d -> routed request tried d.
Proof.
  intros Hv. pose proof Hv as Hv'. unfold RoutingRequest.post_init in Hv'.
  apply raise_if_ok in Hv' as [Hu _]. apply orb_false_iff in Hu as [Hu%Z.ltb_ge Hf%Z.ltb_ge].
  induction 1 as [d Hd|tried d i outcome d' _ IH Hi Hd'].
  - destruct (select_runtime_answers request) as (d0 & Hd0 & Ha); [done|].
    assert (d0 = d) as -> by congruence.
    apply (answers_routed request [] request.(RoutingRequest.attempted_adapter_ids)
      request.(RoutingRequest.fallback_attempts_used) request.(RoutingRequest.escalation_reason)).
    + cbn. rewrite Z.add_0_r. by destruct request.
    + constructor.
    + by intros x ?%elem_of_nil.
    + set_solver.
    + done.
    + lia.
  - assert (all_tried tried d = tried ++ [i.(ModelRuntimeIdentity.adapter_id)]) as Eall
      by (unfold all_tried; by rewrite Hi).
    destruct IH as [I1 I2 I3 I4 I5 I6]. rewrite Eall in *.
    destruct (reconsider_answers request d i outcome Hv Hi) as (d0 & Hd0 & Hcase);
      [unfold request_used in I3; lia|lia|].
    assert (d0 = d') as -> by congruence.
    destruct Hcase as [(Hs & Hra & Hfa)|(_ & escalation & fa' & Ha & Hfa)].
    + assert (all_tried (tried ++ [i.(ModelRuntimeIdentity.adapter_id)]) d'
        = tried ++ [i.(ModelRuntimeIdentity.adapter_id)]) as Eall'
        by (unfold all_tried; by rewrite Hs, app_nil_r).
      split; rewrite ?Eall', ?Hra, ?Hfa; try done. by rewrite Hs.
    + rewrite I3 in Ha. eapply answers_routed; [exact Ha|done|done| |rewrite <-I3; done|lia].
      intros x. rewrite elem_of_dedupe, !elem_of_app, list_elem_of_singleton, (I5 _ Hi). tauto.
Qed.

(** Routing chooses soundly and never raises: a selected runtime is a candidate that
    passes every hard rule in the price class asked for, within the attempts left; it is
    the first such one in the operator's order, or, where the order names none, one no
    acceptable candidate beats (and, when ties are the operator's, none equals).  Without
    a selection the attempts are spent, the task class takes no model, ties are left to
    the operator, or no candidate is acceptable. *)
Theorem select_runtime_sound request :
  RoutingRequest.post_init request = Ok request ->
  exists d, select_runtime request = Ok d /\ answers request d.
Proof.
  intros Hv. apply select_runtime_answers. unfold RoutingRequest.post_init in Hv.
  apply raise_if_ok in Hv as [[Hu%Z.ltb_ge _]%orb_false_iff _]. done.
Qed.

(** Attempts are bounded and never repeat: along any sequence of selections and
    reconsiderations, the adapters selected are pairwise different, are none of those
    attempted before, each belongs to a candidate that passes the hard rules, and there are
    at most [max_runtime_attempts] of them, also after escalations; fallbacks stay within
    their allowance, and after a content policy block nothing more is selected. *)
Theorem routing_attempts_bounded request tried d :
  RoutingRequest.post_init request = Ok request ->
  routing_of request tried d ->
  let all := all_tried tried d in
  NoDup all
  /\ (forall x, x ∈ all ->
      permitted request x /\ x ∉ request.(RoutingRequest.attempted_adapter_ids))
  /\ (all = [] \/ request_used request + Z.of_nat (length all) <= request_limit request)
  /\ d.(RuntimeSelectionDecision.fallback_attempts_used)
     <= Z.max request.(RoutingRequest.fallback_attempts_used)
          request.(RoutingRequest.budget).(RoutingBudget.max_fallback_attempts)
  /\ (forall i, d.(RuntimeSelectionDecision.selected_identity) = Some i ->
      exists d', reconsider_runtime request d RuntimeOutcome.CONTENT_POLICY_BLOCKED = Ok d'
        /\ d'.(RuntimeSelectionDecision.selected_identity) = None).
Proof.
  intros Hv Hr. cbv zeta. destruct (routing_routed _ _ _ Hv Hr) as [I1 I2 I3 I4 I5 I6].
  split; [done|]. split; [done|]. split; [|split; [lia|]].
  - destruct (decide (all_tried tried d = [])) as [Hn|Hne]; [by left|]. right. specialize (I4 Hne). lia.
  - intros i Hi. unfold reconsider_runtime. cbn [bool_decide]. rewrite Hi.
    match goal with |- context [decision ?k ?r ?c None ?co ?f ?ra ?fa ?a] =>
      destruct (decision_ok k r c co f ra fa a) as (d' & Hd' & _ & Hs & _); [done|] end.
    exists d'. by split.
Qed.

(** Every decision can be recorded: its mapping passes the checks. *)
Lemma decision_to_mapping_total d : decision_to_mapping d = Ok (decision_payload d).
Proof.
  unfold decision_to_mapping. rewrite reject_secret_keys_free.
  - cbn [mbind result_bind]. rewrite raise_if_ok. split; [|done].
    rewrite (existsb_keys (fun k => mem (Str.lower k) FORBIDDEN_ROUTING_KEYS)). by vm_compute.
  - rewrite secret_free_dict, andb_true_iff. split; [by vm_compute|].
    destruct d as [? ? ? codes selected considered filtered attempted ? ?].
    cbn -[identity_to_mapping filter_to_mapping].
    rewrite (forallb_fmap_true PStr), (forallb_fmap_true identity_to_mapping),
      (forallb_fmap_true filter_to_mapping), (forallb_fmap_true PStr); try done.
    + by destruct selected as [i|]; [rewrite identity_secret_free|].
    + intros i. apply identity_secret_free.
Qed.

(** A recorded decision adds one event of the control plane that carries it. *)
Lemma record_decision_ok db event_type audit_id actor_id run now decide db' d :
  record_decision db event_type audit_id actor_id run now decide = Ok (db', d) ->
  decide = Ok d /\ db'.(Db.runs) = db.(Db.runs)
  /\ exists e, db'.(Db.audit_events) = db.(Db.audit_events) ++ [e]
     /\ e.(AuditEventRecord.payload) = decision_payload d.
Proof.
  unfold record_decision. rewrite raise_if_ok, bind_ok. intros (_ & d0 & Hd & Hr).
  rewrite decision_to_mapping_total in Hr. cbn [mbind result_bind] in Hr.
  apply bind_ok in Hr as (e & He%validated & Hr). apply bind_ok in Hr as (es & Hes & [= <- <-]).
  apply append_audit_ok in Hes as ->. split; [done|]. split; [done|]. exists e. by subst.
Qed.
End routing.

(** ** When the quality order is an order *)

(** Observations that cannot be incomparable: latency and cost are known and numbers. *)
Definition measured (c : RuntimeCandidate.t) : bool :=
  match (observed c).(RuntimeQualityObservation.latency_ms),
        (observed c).(RuntimeQualityObservation.cost_amount) with
  | Some _, Some (Number.Finite _) => true
  | _, _ => false
  end.

Section preorders.
Context {A : Type}.
Implicit Types le : A -> A -> bool.

Record preorder le : Prop := {
  pre_total : forall x y, le x y = true \/ le y x = true;
  pre_trans : forall x y z, le x y = true -> le y z = true -> le x z = true }.

(** The lexicographic composition. *)
Definition lex le1 le2 (x y : A) : bool := le1 x y && (negb (le1 y x) || le2 x y).

Lemma lex_preorder le1 le2 : preorder le1 -> preorder le2 -> preorder (lex le1 le2).
Proof.
  intros [T1 R1] [T2 R2]. unfold lex. split.
  - intros x y. destruct (T1 x y) as [E|E], (le1 x y) eqn:E1, (le1 y x) eqn:E2; cbn;
      try done; auto.
  - intros x y z. rewrite !andb_true_iff, !orb_true_iff, !negb_true_iff. intros [L1 S1] [L2 S2].
    split; [by eapply R1|]. destruct (le1 z x) eqn:E; [|by left]. right.
    assert (le1 y x = true) by by eapply R1. assert (le1 z y = true) by by eapply R1.
    destruct S1, S2; try congruence. by eapply R2.
Qed.

Lemma key_preorder `{KeyOrder K} (key : A -> K) : preorder (fun x y => kle (key x) (key y)).
Proof. split; [intros; apply kle_total|intros; by eapply kle_trans]. Qed.

Lemma preorder_weak le (f : A -> A -> Z) l :
  preorder le -> (forall x y, x ∈ l -> y ∈ l -> before f x y = negb (le y x)) ->
  weak_order_on f l.
Proof.
  intros [T R] E. split.
  - intros x Hx. rewrite E by done. by destruct (T x x) as [-> | ->].
  - intros x y z Hx Hy Hz. rewrite !E, !negb_true_iff by done. intros H1 H2.
    destruct (le z x) eqn:H3; [|done]. destruct (T y z) as [H4|H4]; [|congruence].
    by rewrite (R y z x) in H1.
  - intros x y z Hx Hy Hz. rewrite !E, !negb_false_iff by done. intros H1 H2. by eapply R.
Qed.
End preorders.

Definition latency_of (c : RuntimeCandidate.t) : Z :=
  default 0 (observed c).(RuntimeQualityObservation.latency_ms).
Definition cost_of (c : RuntimeCandidate.t) : Q :=
  match (observed c).(RuntimeQualityObservation.cost_amount) with
  | Some (Number.Finite q) => q
  | _ => 0
  end.

Definition cost_le (x y : RuntimeCandidate.t) : bool := Qle_bool (cost_of x) (cost_of y).

Lemma cost_preorder : preorder cost_le.
Proof.
  unfold cost_le. split; intros *; rewrite !Qle_bool_iff.
  - destruct (Qlt_le_dec (cost_of x) (cost_of y)); [left; by apply Qlt_le_weak|by right].
  - apply Qle_trans.
Qed.

Definition quality_le : RuntimeCandidate.t -> RuntimeCandidate.t -> bool :=
  lex (fun x y => kle (ordered_key (observed x)) (ordered_key (observed y)))
    (lex (fun x y => kle (latency_of x) (latency_of y))
       (lex cost_le (fun x y => kle (adapter x) (adapter y)))).

Lemma quality_better_measured x y :
  measured x = true -> measured y = true ->
  before quality_better x y = negb (quality_le y x).
Proof.
  unfold measured, quality_better, quality_le, before, latency_decides, cost_decides, lex, cost_le,
    latency_of, cost_of.
  destruct (RuntimeQualityObservation.latency_ms (observed x)) as [lx|]; [|done].
  destruct (RuntimeQualityObservation.cost_amount (observed x)) as [[qx| | |]|]; try done.
  destruct (RuntimeQualityObservation.latency_ms (observed y)) as [ly|]; [|done].
  destruct (RuntimeQualityObservation.cost_amount (observed y)) as [[qy| | |]|]; try done.
  intros _ _. generalize (ordered_key (observed x)), (ordered_key (observed y)). intros kx ky.
  cbn [default Number.eqb Number.ltb].
  destruct (kle ky kx) eqn:E1, (kle kx ky) eqn:E2; case_bool_decide as Ek; cbn;
    try (subst; congruence); try done; try (by destruct Ek; apply kle_antisym);
    try (by destruct (kle_total kx ky); congruence).
  destruct (Z.eqb_spec lx ly) as [->|Hl].
  2: { destruct (Z.ltb_spec lx ly), (Z.leb_spec ly lx), (Z.leb_spec lx ly); cbn; try done; lia. }
  rewrite Z.leb_refl. cbn.
  destruct (Qeq_bool qx qy) eqn:E3.
  - apply Qeq_bool_iff in E3. rewrite (proj2 (Qle_bool_iff qy qx)), (proj2 (Qle_bool_iff qx qy));
      [cbn|rewrite E3; apply Qle_refl..].
    destruct (String.eqb_spec (adapter x) (adapter y)) as [->|Ha]; cbn.
    + by destruct (kle_total (adapter y) (adapter y)) as [E|E]; cbn in E; rewrite E.
    + by destruct (string_kle (adapter y) (adapter x)).
  - destruct (Qle_bool qy qx) eqn:E4; [|done]. cbn.
    destruct (Qle_bool qx qy) eqn:E5; [|done].
    apply Qle_bool_iff in E4, E5. apply Qeq_bool_neq in E3. destruct E3. by apply Qle_antisym.
Qed.

(** Fully measured candidates are ordered. *)
Lemma measured_weak_order l :
  (forall c, c ∈ l -> measured c = true) -> weak_order_on quality_better l.
Proof.
  intros Hm. apply (preorder_weak quality_le).
  - repeat apply lex_preorder; try apply cost_preorder; apply key_preorder.
  - intros x y Hx Hy. apply quality_better_measured; auto.
Qed.

(** ** A sample configuration *)

Definition sample_runtime (name : string) (price : ModelPriceClass.t) (latency : option Z)
    (cost : option Q) : RuntimeCandidate.t :=
  RuntimeCandidate.mk
    (ModelRuntimeIdentity.mk RuntimeKind.API RuntimeClass.INFERENCE_RUNTIME name "runtime"
       AuthMode.API_KEY "fp" None None price)
    true true true [] [] CandidateLocality.REMOTE false
    (Some (RuntimeQualityObservation.mk 0 0 0 0 latency (Number.Finite <$> cost))) false.

Definition sample_request (candidates : list RuntimeCandidate.t) (attempts fallbacks : Z)
    : RoutingRequest.t :=
  RoutingRequest.mk ModelRole.GENERATOR candidates (RoutingBudget.mk attempts fallbacks)
    RuntimeClass.INFERENCE_RUNTIME true LocalityConstraint.REMOTE_ALLOWED false [] [] true [] 0 0
    (Some "generator") None.

Definition fast := sample_runtime "fast" ModelPriceClass.CHEAP (Some 5) (Some 3%Q).
Definition slow := sample_runtime "slow" ModelPriceClass.CHEAP (Some 10) (Some 1%Q).
Definition unmeasured := sample_runtime "unmeasured" ModelPriceClass.CHEAP None (Some 2%Q).
Definition strong := sample_runtime "strong" ModelPriceClass.EXPENSIVE (Some 20) (Some 9%Q).

(** The order of preference is not an order where a latency is unknown: the comparison
    goes round in a circle, and which runtime is selected, without any tie, depends on the
    order in which the runtimes are configured. *)
Example quality_order_is_cyclic :
  before quality_better slow unmeasured && before quality_better unmeasured fast
  && before quality_better fast slow = true
  /\ (forall l, l ∈ [[slow; unmeasured; fast]; [fast; slow; unmeasured]] ->
      forallb (fun x => forallb (fun y => (adapter x =? adapter y)%string
                                          || negb (quality_equal x y)) l) l = true).
Proof.
  split; [reflexivity|]. intros l [->|[->|[]%elem_of_nil]%elem_of_cons]%elem_of_cons; reflexivity.
Qed.

Definition selected_adapter (r : result RuntimeSelectionDecision.t) : option string :=
  match r with
  | Ok d => ModelRuntimeIdentity.adapter_id <$> d.(RuntimeSelectionDecision.selected_identity)
  | Raise _ => None
  end.

Definition sample_decision : RuntimeSelectionDecision.t :=
  match select_runtime (sample_request [slow; fast; strong] 3 1) with
  | Ok d => d
  | Raise _ => RuntimeSelectionDecision.mk RoutingOutcome.UNAVAILABLE "" ModelRole.GENERATOR []
                 None [] [] [] 0 0
  end.

Definition sample_escalation : RuntimeSelectionDecision.t :=
  match reconsider_runtime (sample_request [slow; fast; strong] 3 1) sample_decision
          RuntimeOutcome.ESCALATION_NEEDED with
  | Ok d => d
  | Raise _ => sample_decision
  end.

(** A fallback after an escalation goes back to a cheap runtime: the request reconsidered
    does not say that it was escalated. *)
Example fallback_forgets_escalation :
  selected_adapter (Ok sample_decision) = Some "fast"
  /\ selected_adapter (Ok sample_escalation) = Some "strong"
  /\ selected_adapter (reconsider_runtime (sample_request [slow; fast; strong] 3 1)
       sample_escalation RuntimeOutcome.TIMED_OUT) = Some "slow".
Proof. split; [reflexivity|]. split; reflexivity. Qed.

Lemma select_runtime_sound_witness :
  exists d, select_runtime (sample_request [slow; fast; strong] 3 1) = Ok d
    /\ answers (sample_request [slow; fast; strong] 3 1) d.
Proof.
  apply (select_runtime_sound (sample_request [slow; fast; strong] 3 1)). reflexivity.
Defined.

Lemma routing_attempts_bounded_witness :
  NoDup (all_tried ["fast"] sample_escalation)
  /\ length (all_tried ["fast"] sample_escalation) = 2%nat.
Proof.
  split; [|reflexivity].
  apply (routing_attempts_bounded (sample_request [slow; fast; strong] 3 1) ["fast"]
           sample_escalation); [reflexivity|].
  apply (next_choice _ [] sample_decision fast.(RuntimeCandidate.identity)
           RuntimeOutcome.ESCALATION_NEEDED); [|reflexivity..].
  apply first_choice. reflexivity.
Defined.
