(* ===== verification/Impact.v ===== *)
(** * Impact chains: [research/impact/]

    A chain claims that weaknesses combine: its nodes claim kinds of impact, its edges
    relate them, and every node and edge cites proofs.  [types.py] and [chain.py] give the
    data and the acyclicity test, [validator.py] and [capability_map.py] the validation
    against a resolver of proofs. *)
From S2P Require Import Prelude PyVal.

(** ** Vocabulary *)

(** [research/impact/types.py:12-24 ImpactKind] *)
Module ImpactKind.
Inductive t : Set :=
  | DATA_READ | DATA_WRITE | AUTH_BYPASS | STATE_CORRUPTION | ACCOUNT_TAKEOVER_PATH
  | EXTERNAL_CALLBACK.
#[global] Instance eq_dec : EqDecision t.
Proof. solve_decision. Defined.
Definition value (x : t) : string :=
  match x with
  | DATA_READ => "DATA_READ" | DATA_WRITE => "DATA_WRITE" | AUTH_BYPASS => "AUTH_BYPASS"
  | STATE_CORRUPTION => "STATE_CORRUPTION"
  | ACCOUNT_TAKEOVER_PATH => "ACCOUNT_TAKEOVER_PATH"
  | EXTERNAL_CALLBACK => "EXTERNAL_CALLBACK"
  end.
Definition members : list t :=
  [ DATA_READ; DATA_WRITE; AUTH_BYPASS; STATE_CORRUPTION; ACCOUNT_TAKEOVER_PATH;
    EXTERNAL_CALLBACK ].
(** [ImpactKind(value)] *)
Definition of_value : string -> result t := enum_of value members.

Lemma kind_of_value_value x : of_value (value x) = Ok x.
Proof. by destruct x. Qed.
End ImpactKind.

(** [research/impact/types.py:27-30 ImpactRelation] *)
Module ImpactRelation.
Inductive t : Set := ENABLES | ESCALATES | CONFIRMS.
#[global] Instance eq_dec : EqDecision t.
Proof. solve_decision. Defined.
Definition value (x : t) : string :=
  match x with
  | ENABLES => "ENABLES" | ESCALATES => "ESCALATES" | CONFIRMS => "CONFIRMS"
  end.
Definition members : list t := [ENABLES; ESCALATES; CONFIRMS].
(** [ImpactRelation(value)] *)
Definition of_value : string -> result t := enum_of value members.

Lemma relation_of_value_value x : of_value (value x) = Ok x.
Proof. by destruct x. Qed.
End ImpactRelation.

(** [research/impact/types.py:90-93 _require_text] *)
Definition require_text (value : string) : result string :=
  raise_if Str.is_blank value as ResearchInputError;;
  Ok (Str.strip value).

(** [research/impact/types.py:100-106 _require_ids] *)
Definition require_ids (value : list string) : result (list string) :=
  traverse require_text value.

(** [research/impact/types.py:34-44 ChainValidation] *)
Module ChainValidation.
Record t : Set := mk { valid : bool; reason_codes : list string }.
End ChainValidation.

(** The capabilities are a [frozenset]: only membership is used of the list.
    [research/impact/types.py:48-71 ProofRecord] *)
Module ProofRecord.
Record t : Set := mk {
  proof_id : string;
  research_run_id : string;
  target_reference : string;
  demonstrated_capabilities : list string }.

Definition post_init (x : t) : result t :=
  p ← require_text x.(proof_id);
  r ← require_text x.(research_run_id);
  g ← require_text x.(target_reference);
  Ok (mk p r g x.(demonstrated_capabilities)).
End ProofRecord.

(** [resolve(proof_id, expected_run_id)], which may read a database.
    [research/impact/types.py:75-83 ProofResolver] *)
Definition ProofResolver : Type := string -> string -> result (option ProofRecord.t).

(** ** Chains *)

(** [research/impact/chain.py:13-33 ImpactScopeRef] *)
Module ImpactScopeRef.
Record t : Set := mk {
  research_run_id : string;
  program_id : string;
  target_reference : string }.
#[global] Instance eq_dec : EqDecision t.
Proof. solve_decision. Defined.

Definition post_init (x : t) : result t :=
  r ← require_text x.(research_run_id);
  p ← require_text x.(program_id);
  g ← require_text x.(target_reference);
  Ok (mk r p g).
End ImpactScopeRef.

(** [research/impact/chain.py:37-63 ImpactNode] *)
Module ImpactNode.
Record t : Type := mk {
  node_id : string;
  proof_refs : list string;
  impact_kind : ImpactKind.t;
  claim_text : string;
  scope_ref : ImpactScopeRef.t;
  provenance : list (string * pyval) }.

Definition post_init (x : t) : result t :=
  id ← require_text x.(node_id);
  refs ← require_ids x.(proof_refs);
  raise_if bool_decide (refs = []) as ImpactGraphError;;
  claim ← require_text x.(claim_text);
  Ok (mk id refs x.(impact_kind) claim x.(scope_ref) x.(provenance)).
End ImpactNode.

(** [research/impact/chain.py:67-88 ImpactEdge] *)
Module ImpactEdge.
Record t : Set := mk {
  from_node_id : string;
  to_node_id : string;
  relation : ImpactRelation.t;
  proof_refs : list string }.

Definition post_init (x : t) : result t :=
  a ← require_text x.(from_node_id);
  b ← require_text x.(to_node_id);
  refs ← require_ids x.(proof_refs);
  raise_if bool_decide (refs = []) as ImpactGraphError;;
  Ok (mk a b x.(relation) refs).
End ImpactEdge.

(** ** The acyclicity test

    The depth-first search of [_has_cycle].  Python sets are iterated in an order of their
    own, a parameter of which only the elements are known.  A recursive call takes one unit
    of fuel; [None] is a search that ran out of it. *)
Section search.
Context (set_order : gset string -> list string).

(** [adjacency[node_id]]: every endpoint of an edge is a node when the search runs.
    [research/impact/chain.py:127-129 _has_cycle] *)
Definition successors (edges : list ImpactEdge.t) (node_id : string) : gset string :=
  list_to_set (ImpactEdge.to_node_id <$>
                 List.filter (fun e => (e.(ImpactEdge.from_node_id) =? node_id)%string) edges).

Inductive found : Type :=
  | Cycle
  | Clear (visited rec_stack : gset string).

(** [visit] of [_has_cycle], with the sets it shares as state.
    [research/impact/chain.py:133-143 _has_cycle] *)
Fixpoint visit (edges : list ImpactEdge.t) (fuel : nat) (node_id : string)
    (visited rec_stack : gset string) : option found :=
  match fuel with
  | O => None
  | S fuel =>
      let fix neighbors (l : list string) (visited rec_stack : gset string) : option found :=
        match l with
        | [] => Some (Clear visited (rec_stack ∖ {[node_id]}))
        | neighbor :: l =>
            if bool_decide (neighbor ∉ visited)
            then match visit edges fuel neighbor visited rec_stack with
                 | Some (Clear visited rec_stack) => neighbors l visited rec_stack
                 | r => r
                 end
            else if bool_decide (neighbor ∈ rec_stack) then Some Cycle
            else neighbors l visited rec_stack
        end in
      neighbors (set_order (successors edges node_id))
        ({[node_id]} ∪ visited) ({[node_id]} ∪ rec_stack)
  end.

(** The loop over the nodes.
    [research/impact/chain.py:145-149 _has_cycle] *)
Fixpoint visit_all (edges : list ImpactEdge.t) (fuel : nat) (nodes : list string)
    (visited rec_stack : gset string) : option bool :=
  match nodes with
  | [] => Some false
  | node_id :: nodes =>
      if bool_decide (node_id ∉ visited)
      then match visit edges fuel node_id visited rec_stack with
           | None => None
           | Some Cycle => Some true
           | Some (Clear visited rec_stack) => visit_all edges fuel nodes visited rec_stack
           end
      else visit_all edges fuel nodes visited rec_stack
  end.

(** [research/impact/chain.py:126-149 _has_cycle] *)
Definition has_cycle (node_ids : gset string) (edges : list ImpactEdge.t) : option bool :=
  visit_all edges (size node_ids) (set_order node_ids) ∅ ∅.
End search.

(** Any order of iteration gives the same answer ([has_cycle_iff]).
    [research/impact/chain.py:92-123 ImpactChain] *)
Module ImpactChain.
Record t : Type := mk {
  chain_id : string;
  nodes : list ImpactNode.t;
  edges : list ImpactEdge.t }.

Definition check_edge (node_ids : gset string) (e : ImpactEdge.t) : result unit :=
  raise_if negb (bool_decide (e.(ImpactEdge.from_node_id) ∈ node_ids)) as ImpactGraphError;;
  raise_if negb (bool_decide (e.(ImpactEdge.to_node_id) ∈ node_ids)) as ImpactGraphError;;
  raise_if (e.(ImpactEdge.from_node_id) =? e.(ImpactEdge.to_node_id))%string
  as ImpactGraphError;;
  Ok tt.

Definition post_init (x : t) : result t :=
  id ← require_text x.(chain_id);
  raise_if bool_decide (length x.(nodes) = O) as ImpactGraphError;;
  let node_ids : gset string := list_to_set (ImpactNode.node_id <$> x.(nodes)) in
  _ ← traverse (check_edge node_ids) x.(edges);
  raise_if negb (bool_decide (has_cycle elements node_ids x.(edges) = Some false))
  as ImpactGraphError;;
  Ok (mk id x.(nodes) x.(edges)).
End ImpactChain.

(** ** The search is exact *)

Section search_correct.
Context (set_order : gset string -> list string)
  (set_order_elements : forall X, set_order X ≡ₚ elements X)
  (edges : list ImpactEdge.t) (nodes : gset string)
  (endpoints : forall e, e ∈ edges -> e.(ImpactEdge.to_node_id) ∈ nodes).

(** There is an edge from [x] to [y]. *)
Definition edge (x y : string) : Prop := y ∈ successors edges x.

(** The nodes left behind by the search lead only to such nodes, and are on no cycle. *)
Record searched (v r : gset string) : Prop := {
  searched_stack : r ⊆ v;
  searched_nodes : v ⊆ nodes;
  searched_closed : forall x y, x ∈ v ∖ r -> edge x y -> y ∈ v ∖ r;
  searched_acyclic : forall x, x ∈ v ∖ r -> ~ tc edge x x }.

Lemma edge_node x y : edge x y -> y ∈ nodes.
Proof.
  unfold edge, successors. rewrite elem_of_list_to_set, list_elem_of_fmap.
  intros (e & -> & [He _]%elem_of_list_filter_bool). auto.
Qed.

Lemma tc_node x y : tc edge x y -> y ∈ nodes.
Proof. induction 1; [by eapply edge_node|done]. Qed.

Lemma edge_iff x y :
  edge x y <-> exists e, e ∈ edges /\ e.(ImpactEdge.from_node_id) = x
                         /\ e.(ImpactEdge.to_node_id) = y.
Proof.
  unfold edge, successors. rewrite elem_of_list_to_set, list_elem_of_fmap.
  setoid_rewrite elem_of_list_filter_bool. setoid_rewrite String.eqb_eq. naive_solver.
Qed.

Lemma tc_closed (P : string -> Prop) x y :
  (forall a b, P a -> edge a b -> P b) -> P x -> tc edge x y -> P y.
Proof. intros Hc Hx. induction 1; eauto. Qed.

Lemma tc_first x y : tc edge x y -> exists z, edge x z /\ (z = y \/ tc edge z y).
Proof. destruct 1; eauto. Qed.

(** A node all of whose successors are left behind can be left behind too. *)
Lemma searched_leave v r n :
  n ∉ r -> searched v ({[n]} ∪ r) -> (forall y, edge n y -> y ∈ v ∖ ({[n]} ∪ r)) ->
  searched v r.
Proof.
  intros Hn [H1 H2 H3 H4] Hsucc.
  assert (forall x, x ∈ v ∖ r -> x = n \/ x ∈ v ∖ ({[n]} ∪ r)) as Hx
    by (intros x; destruct (decide (x = n)); set_solver).
  assert (forall x, x ∈ v ∖ ({[n]} ∪ r) -> x ∈ v ∖ r) as Hback by set_solver.
  split; [set_solver|done| |].
  - intros x y [->|Hin]%Hx He; apply Hback; [by apply Hsucc|by eapply H3].
  - intros x [->|Hin]%Hx Hc; [|by apply (H4 x)].
    apply tc_first in Hc as (z & Hz & Hc). specialize (Hsucc _ Hz).
    assert (n ∈ v ∖ ({[n]} ∪ r)) as Hbad; [|set_solver].
    destruct Hc as [->|Hc]; [done|].
    apply (tc_closed (fun x => x ∈ v ∖ ({[n]} ∪ r)) z n); [|done|done]. intros a b. apply H3.
Qed.

Lemma visit_spec fuel n v r :
  n ∈ nodes -> n ∉ v -> searched v r -> (forall s, s ∈ r -> tc edge s n) ->
  (size (nodes ∖ v) <= fuel)%nat ->
  exists res, visit set_order edges fuel n v r = Some res
    /\ match res with
       | Cycle => exists x, tc edge x x
       | Clear v' r' => r' = r /\ searched v' r /\ {[n]} ∪ v ⊆ v'
       end.
Proof.
  revert n v r. induction fuel as [|fuel IH]; intros n v r Hn Hnv Hs Hpath Hfuel.
  { assert (nodes ∖ v ≡ ∅) as E by (apply size_empty_iff; lia). set_solver. }
  cbn [visit].
  match goal with |- exists res, ?F _ _ _ = _ /\ _ => set (neighbors := F) end.
  assert (n ∉ r) as Hnr by (pose proof (searched_stack _ _ Hs); set_solver).
  assert (forall l v0,
    (forall m, m ∈ l -> edge n m) -> {[n]} ∪ v ⊆ v0 -> searched v0 ({[n]} ∪ r) ->
    (forall y, edge n y -> y ∈ l \/ y ∈ v0 ∖ ({[n]} ∪ r)) ->
    exists res, neighbors l v0 ({[n]} ∪ r) = Some res
      /\ match res with
         | Cycle => exists x, tc edge x x
         | Clear v' r' => r' = r /\ searched v' r /\ {[n]} ∪ v ⊆ v'
         end) as Hloop.
  { induction l as [|m l IHl]; intros v0 Hl Hv0 Hs0 Hsucc; cbn.
    - eexists. split; [done|]. split; [set_solver|]. split; [|done].
      eapply searched_leave; [done|done|]. intros y Hy. destruct (Hsucc _ Hy); set_solver.
    - assert (edge n m) as Hm by (apply Hl; left).
      assert (forall m, m ∈ l -> edge n m) as Hl' by (intros; apply Hl; by right).
      assert (forall s, s ∈ {[n]} ∪ r -> tc edge s m) as Hpath'.
      { intros s [->%elem_of_singleton|Hsr]%elem_of_union; [by constructor|].
        eapply tc_r; [by apply Hpath|done]. }
      case_bool_decide as Hmv.
      + destruct (IH m v0 ({[n]} ∪ r)) as (res & -> & Hres); [by eapply edge_node|done|done|done| |].
        { assert (size (nodes ∖ v0) < size (nodes ∖ v))%nat; [|lia].
          apply subset_size. set_solver. }
        destruct res as [|v1 r1]; [by eexists|]. destruct Hres as (-> & Hs1 & Hsub).
        apply IHl; [done|set_solver|done|].
        intros y Hy. destruct (Hsucc _ Hy) as [[->|Hy']%elem_of_cons|Hy'].
        * right. apply elem_of_difference. split; [set_solver|].
          pose proof (searched_stack _ _ Hs0). set_solver.
        * by left.
        * right. set_solver.
      + destruct (decide (m ∈ v0)) as [Hmv'|]; [|done].
        case_bool_decide as Hmr.
        * eexists. split; [done|]. exists m. by apply Hpath'.
        * apply IHl; [done|done|done|].
          intros y Hy. destruct (Hsucc _ Hy) as [[->|Hy']%elem_of_cons|Hy']; [|by left|by right].
          right. set_solver. }
  apply Hloop.
  - intros m. rewrite set_order_elements. by rewrite elem_of_elements.
  - done.
  - destruct Hs as [H1 H2 H3 H4].
    assert (({[n]} ∪ v) ∖ ({[n]} ∪ r) = v ∖ r) as E by set_solver.
    split; [set_solver|set_solver| |]; rewrite E; eauto.
  - intros y Hy. left. rewrite set_order_elements. by rewrite elem_of_elements.
Qed.

Lemma visit_all_spec l v :
  (forall x, x ∈ l -> x ∈ nodes) -> searched v ∅ -> (forall x, x ∈ nodes -> x ∈ l \/ x ∈ v) ->
  exists b, visit_all set_order edges (size nodes) l v ∅ = Some b
    /\ (b = true <-> exists x, tc edge x x).
Proof.
  revert v. induction l as [|n l IH]; intros v Hl Hs Hall; cbn.
  - exists false. split; [done|]. split; [done|]. intros [x Hx]. exfalso.
    apply (searched_acyclic _ _ Hs x); [|done].
    destruct (Hall _ (tc_node _ _ Hx)) as [?%elem_of_nil|?]; set_solver.
  - case_bool_decide as Hnv.
    + destruct (visit_spec (size nodes) n v ∅) as (res & -> & Hres);
        [apply Hl; left|done|done|set_solver|apply subseteq_size; set_solver|].
      destruct res as [|v' r'].
      * exists true. split; [done|]. by split.
      * destruct Hres as (-> & Hs' & Hsub). apply IH; [|done|].
        -- intros x Hx. apply Hl. by right.
        -- intros x Hx. destruct (Hall _ Hx) as [[->|?]%elem_of_cons|?]; [right|by left|right];
             set_solver.
    + destruct (decide (n ∈ v)) as [Hv|]; [|done]. apply IH; [|done|].
      * intros x Hx. apply Hl. by right.
      * intros x Hx. destruct (Hall _ Hx) as [[->|?]%elem_of_cons|?]; [by right|by left|by right].
Qed.

(** The search ends within its fuel and finds a cycle exactly when there is one, in
    whatever order the sets are iterated. *)
Lemma has_cycle_iff :
  exists b, has_cycle set_order nodes edges = Some b /\ (b = true <-> exists x, tc edge x x).
Proof.
  unfold has_cycle. apply visit_all_spec.
  - intros x. rewrite set_order_elements. by rewrite elem_of_elements.
  - split; set_solver.
  - intros x Hx. left. rewrite set_order_elements. by apply elem_of_elements.
Qed.
End search_correct.

Lemma check_edge_ok node_ids e u :
  ImpactChain.check_edge node_ids e = Ok u
  <-> e.(ImpactEdge.from_node_id) ∈ node_ids /\ e.(ImpactEdge.to_node_id) ∈ node_ids
      /\ e.(ImpactEdge.from_node_id) <> e.(ImpactEdge.to_node_id).
Proof.
  unfold ImpactChain.check_edge. rewrite !raise_if_ok, !negb_false_iff, !bool_decide_eq_true,
    String.eqb_neq. destruct u. naive_solver.
Qed.

Lemma traverse_check_ok {A} (f : A -> result unit) l :
  (exists us, traverse f l = Ok us) <-> forall x, x ∈ l -> f x = Ok tt.
Proof.
  setoid_rewrite traverse_ok. split.
  - intros [us H] x Hx. apply list_elem_of_lookup in Hx as [i Hi].
    destruct (Forall2_lookup_l _ _ _ _ _ H Hi) as ([] & _ & ?). done.
  - intros H. exists (replicate (length l) tt). apply Forall2_same_length_lookup_2.
    + by rewrite length_replicate.
    + intros i x [] Hx _. apply H. by eapply list_elem_of_lookup_2.
Qed.

(** The ids of the nodes of a chain. *)
Definition chain_ids (x : ImpactChain.t) : list string :=
  ImpactNode.node_id <$> x.(ImpactChain.nodes).

Lemma impact_chain_ok x y :
  ImpactChain.post_init x = Ok y
  <-> Str.is_blank x.(ImpactChain.chain_id) = false
      /\ length x.(ImpactChain.nodes) <> O
      /\ (forall e, e ∈ x.(ImpactChain.edges) ->
            ImpactChain.check_edge (list_to_set (chain_ids x)) e = Ok tt)
      /\ has_cycle elements (list_to_set (chain_ids x)) x.(ImpactChain.edges) = Some false
      /\ y = ImpactChain.mk (Str.strip x.(ImpactChain.chain_id)) x.(ImpactChain.nodes)
               x.(ImpactChain.edges).
Proof.
  unfold ImpactChain.post_init. fold (chain_ids x).
  rewrite bind_ok, <-(traverse_check_ok (ImpactChain.check_edge _)). split.
  - intros (id & Hid & H). unfold require_text in Hid. apply raise_if_ok in Hid as [Hb [= <-]].
    apply raise_if_ok in H as [Hn%bool_decide_eq_false H]. apply bind_ok in H as (us & Hus & H).
    apply raise_if_ok in H as [Hc%negb_false_iff%bool_decide_eq_true [= <-]].
    split; [done|]. split; [done|]. split; [by exists us|]. by split.
  - intros (Hb & Hn & [us Hus] & Hc & ->). eexists. unfold require_text. rewrite Hb. split; [done|].
    rewrite bool_decide_eq_false_2 by done. rewrite Hus. cbn [mbind result_bind].
    by rewrite Hc, bool_decide_eq_true_2.
Qed.

(** C24. A chain is accepted exactly when it is a directed acyclic graph over its own nodes:
    it has a name and a node, every edge joins two of its nodes, and no node leads back to
    itself; and over such nodes the depth-first search always ends within its fuel, with the answer
    that there is a cycle exactly when some node leads back to itself, in whatever order Python
    iterates its sets. *)
Theorem impact_chain_accepted_iff_dag x :
  ((exists y, ImpactChain.post_init x = Ok y)
   <-> Str.is_blank x.(ImpactChain.chain_id) = false
       /\ x.(ImpactChain.nodes) <> []
       /\ (forall e, e ∈ x.(ImpactChain.edges) ->
             e.(ImpactEdge.from_node_id) ∈ chain_ids x /\ e.(ImpactEdge.to_node_id) ∈ chain_ids x)
       /\ forall id, ~ tc (edge x.(ImpactChain.edges)) id id)
  /\ forall set_order : gset string -> list string, (forall X, set_order X ≡ₚ elements X) ->
     (forall e, e ∈ x.(ImpactChain.edges) -> e.(ImpactEdge.to_node_id) ∈ chain_ids x) ->
     exists b, has_cycle set_order (list_to_set (chain_ids x)) x.(ImpactChain.edges) = Some b
       /\ (b = true <-> exists id, tc (edge x.(ImpactChain.edges)) id id).
Proof.
  assert (forall id, id ∈ (list_to_set (chain_ids x) : gset string) <-> id ∈ chain_ids x) as Hids
    by (intros; apply elem_of_list_to_set).
  assert (forall set_order, (forall X, set_order X ≡ₚ elements X) ->
    (forall e, e ∈ x.(ImpactChain.edges) -> e.(ImpactEdge.to_node_id) ∈ chain_ids x) ->
    exists b, has_cycle set_order (list_to_set (chain_ids x)) x.(ImpactChain.edges) = Some b
      /\ (b = true <-> exists id, tc (edge x.(ImpactChain.edges)) id id)) as Hc.
  { intros order Ho He. apply has_cycle_iff; [done|]. intros e Hin. by apply Hids, He. }
  split.
  - setoid_rewrite impact_chain_ok. setoid_rewrite check_edge_ok. setoid_rewrite Hids. split.
    + intros (y & Hb & Hn & He & Hcyc & _). split; [done|]. split; [by intros E; rewrite E in Hn|].
      split; [intros e Hin; by destruct (He e Hin) as (? & ? & _)|]. intros id Hid.
      destruct (Hc elements) as (b & Hb' & Hiff); [done|intros e Hin; by apply He|].
      rewrite Hcyc in Hb'. injection Hb' as <-.
      assert (false = true); [|done]. apply Hiff. by exists id.
    + intros (Hb & Hn & He & Hac). eexists. split; [done|]. split; [by destruct x.(ImpactChain.nodes)|].
      split; [|split; [|reflexivity]].
      * intros e Hin. destruct (He e Hin). split; [done|]. split; [done|]. intros E.
        apply (Hac e.(ImpactEdge.from_node_id)). constructor. apply edge_iff. exists e. by rewrite E.
      * destruct (Hc elements) as ([] & -> & Hiff); [done|intros e Hin; by apply He| |done].
        destruct (proj1 Hiff eq_refl) as [id Hid]. by destruct (Hac id).
  - exact Hc.
Qed.

(** ** Proofs: [validator.py] and [capability_map.py] *)

(** [research/impact/validator.py:38-49 _collect_proof_failures] *)
Definition collect_proof_failures (proof_refs : list string) (resolver : ProofResolver)
    (expected_run_id : string) (reason_codes : list string) : result (list string) :=
  fold_result (fun codes proof_id =>
    record ← resolver proof_id expected_run_id;
    Ok match record with
       | None => codes ++ ["HALLUCINATED_OR_ABSENT_PROOF"]
       | Some r =>
           if negb (r.(ProofRecord.research_run_id) =? expected_run_id)%string
           then codes ++ ["CROSS_RUN_PROOF"] else codes
       end) reason_codes proof_refs.

(** [research/impact/validator.py:9-35 validate_chain] *)
Definition validate_chain (chain : ImpactChain.t) (resolver : ProofResolver)
    (expected_run_id : string) : result ChainValidation.t :=
  codes ← fold_result (fun codes node =>
            if bool_decide (node.(ImpactNode.proof_refs) = [])
            then Ok (codes ++ ["EMPTY_PROOF_REFS"])
            else collect_proof_failures node.(ImpactNode.proof_refs) resolver expected_run_id codes)
            [] chain.(ImpactChain.nodes);
  codes ← fold_result (fun codes edge =>
            if bool_decide (edge.(ImpactEdge.proof_refs) = [])
            then Ok (codes ++ ["EMPTY_EDGE_PROOF_REFS"])
            else collect_proof_failures edge.(ImpactEdge.proof_refs) resolver expected_run_id codes)
            codes chain.(ImpactChain.edges);
  if negb (bool_decide (codes = [])) then Ok (ChainValidation.mk false codes)
  else Ok (ChainValidation.mk true ["IMPACT_CHAIN_PROOFS_RESOLVED"]).

(** [research/impact/capability_map.py:15-23 DEMONSTRATED_CAPABILITY_TO_IMPACT_KIND] *)
Definition DEMONSTRATED_CAPABILITY_TO_IMPACT_KIND : list (string * list string) :=
  [ ("READ_OTHER_OBJECT", ["DATA_READ"; "AUTH_BYPASS"]);
    ("WORKFLOW_TRANSITION_WITHOUT_AUTH", ["STATE_CORRUPTION"; "AUTH_BYPASS"]);
    ("OAST_CALLBACK_RECEIVED", ["EXTERNAL_CALLBACK"]);
    ("AUTHENTICATED_AS_USER", ["AUTH_BYPASS"]);
    ("PRIVILEGE_ESCALATION_EVIDENCE", ["AUTH_BYPASS"]);
    ("WRITE_OTHER_OBJECT", ["DATA_WRITE"; "STATE_CORRUPTION"]);
    ("CROSS_ACCOUNT_SESSION_ASSUMPTION", []) ].

(** [research/impact/capability_map.py:29-34 COMPOSITE_CAPABILITY_REQUIREMENTS] *)
Definition COMPOSITE_CAPABILITY_REQUIREMENTS : list (string * list (list string)) :=
  [ ("ACCOUNT_TAKEOVER_PATH",
      [ ["AUTHENTICATED_AS_USER"; "PRIVILEGE_ESCALATION_EVIDENCE"];
        ["AUTHENTICATED_AS_USER"; "CROSS_ACCOUNT_SESSION_ASSUMPTION"] ]) ].

(** [research/impact/capability_map.py:37-46 _allowed_kinds] *)
Definition allowed_kinds (capabilities : list string) : list string :=
  concat ((fun c => default [] (assoc c DEMONSTRATED_CAPABILITY_TO_IMPACT_KIND))
            <$> capabilities)
  ++ (fst <$> List.filter
       (fun p => existsb (fun required => forallb (fun c => mem c capabilities) required) p.2)
       COMPOSITE_CAPABILITY_REQUIREMENTS).

(** The loop over the proofs: the capabilities gathered, or the verdict that ends it.
    [research/impact/capability_map.py:60-73 validate_impact_scope] *)
Fixpoint gather (proof_refs : list string) (resolver : ProofResolver)
    (expected_run_id : string) (capabilities : list string)
    : result (ChainValidation.t + list string) :=
  match proof_refs with
  | [] => Ok (inr capabilities)
  | proof_id :: proof_refs =>
      record ← resolver proof_id expected_run_id;
      match record with
      | None => Ok (inl (ChainValidation.mk false ["HALLUCINATED_OR_ABSENT_PROOF"]))
      | Some r =>
          if negb (r.(ProofRecord.research_run_id) =? expected_run_id)%string
          then Ok (inl (ChainValidation.mk false ["CROSS_RUN_PROOF"]))
          else gather proof_refs resolver expected_run_id
                 (capabilities ++ r.(ProofRecord.demonstrated_capabilities))
      end
  end.

(** [research/impact/capability_map.py:49-83 validate_impact_scope] *)
Definition validate_impact_scope (node : ImpactNode.t) (resolver : ProofResolver)
    (expected_run_id : string) : result ChainValidation.t :=
  gathered ← gather node.(ImpactNode.proof_refs) resolver expected_run_id [];
  Ok match gathered with
     | inl verdict => verdict
     | inr capabilities =>
         if negb (mem (ImpactKind.value node.(ImpactNode.impact_kind))
                    (allowed_kinds capabilities))
         then ChainValidation.mk false ["IMPACT_EXCEEDS_DEMONSTRATED_CAPABILITY"]
         else ChainValidation.mk true ["IMPACT_KIND_WITHIN_DEMONSTRATED_CAPABILITY"]
     end.

(** [research/impact/capability_map.py:86-103 validate_chain_impact_scope] *)
Definition validate_chain_impact_scope (chain : ImpactChain.t) (resolver : ProofResolver)
    (expected_run_id : string) : result ChainValidation.t :=
  codes ← fold_result (fun codes node =>
            r ← validate_impact_scope node resolver expected_run_id;
            Ok (if negb r.(ChainValidation.valid)
                then codes ++ r.(ChainValidation.reason_codes) else codes))
            [] chain.(ImpactChain.nodes);
  if negb (bool_decide (codes = [])) then Ok (ChainValidation.mk false codes)
  else Ok (ChainValidation.mk true ["IMPACT_SCOPE_VALIDATED"]).

(** ** What the validation means *)

(** [proof_id] is a proof of the run, and demonstrates [caps]. *)
Definition proves (resolver : ProofResolver) (run proof_id : string) (caps : list string) : Prop :=
  exists r, resolver proof_id run = Ok (Some r) /\ r.(ProofRecord.research_run_id) = run
    /\ r.(ProofRecord.demonstrated_capabilities) = caps.

(** The kinds of impact that demonstrated capabilities support. *)
Definition supports (caps : list string) (kind : ImpactKind.t) : Prop :=
  match kind with
  | ImpactKind.DATA_READ => "READ_OTHER_OBJECT" ∈ caps
  | ImpactKind.DATA_WRITE => "WRITE_OTHER_OBJECT" ∈ caps
  | ImpactKind.STATE_CORRUPTION =>
      "WORKFLOW_TRANSITION_WITHOUT_AUTH" ∈ caps \/ "WRITE_OTHER_OBJECT" ∈ caps
  | ImpactKind.EXTERNAL_CALLBACK => "OAST_CALLBACK_RECEIVED" ∈ caps
  | ImpactKind.AUTH_BYPASS =>
      "READ_OTHER_OBJECT" ∈ caps \/ "WORKFLOW_TRANSITION_WITHOUT_AUTH" ∈ caps
      \/ "AUTHENTICATED_AS_USER" ∈ caps \/ "PRIVILEGE_ESCALATION_EVIDENCE" ∈ caps
  | ImpactKind.ACCOUNT_TAKEOVER_PATH =>
      "AUTHENTICATED_AS_USER" ∈ caps
      /\ ("PRIVILEGE_ESCALATION_EVIDENCE" ∈ caps \/ "CROSS_ACCOUNT_SESSION_ASSUMPTION" ∈ caps)
  end.

Lemma allowed_by_capability caps k :
  k ∈ concat ((fun c => default [] (assoc c DEMONSTRATED_CAPABILITY_TO_IMPACT_KIND)) <$> caps)
  <-> exists c ks, c ∈ caps /\ (c, ks) ∈ DEMONSTRATED_CAPABILITY_TO_IMPACT_KIND /\ k ∈ ks.
Proof.
  rewrite list_elem_of_In, in_concat. setoid_rewrite <-list_elem_of_In.
  setoid_rewrite list_elem_of_fmap. split.
  - intros (ks & (c & -> & Hc) & Hk). destruct (assoc c _) as [ks|] eqn:E; cbn in Hk.
    + exists c, ks. split; [done|]. split; [by apply assoc_Some_in|done].
    + by apply elem_of_nil in Hk.
  - intros (c & ks & Hc & Hin & Hk). exists ks. split; [|done]. exists c. split; [|done].
    unfold DEMONSTRATED_CAPABILITY_TO_IMPACT_KIND in Hin.
    repeat (apply elem_of_cons in Hin as [[= -> ->]|Hin]; [reflexivity|]). by apply elem_of_nil in Hin.
Qed.

Lemma allowed_intro c caps kind :
  c ∈ caps ->
  mem (ImpactKind.value kind) (default [] (assoc c DEMONSTRATED_CAPABILITY_TO_IMPACT_KIND)) = true ->
  ImpactKind.value kind ∈ allowed_kinds caps.
Proof.
  intros Hc Hk%mem_true. apply elem_of_app. left. apply allowed_by_capability.
  destruct (assoc c _) as [ks|] eqn:E; cbn in Hk; [|by apply elem_of_nil in Hk].
  exists c, ks. split; [done|]. split; [by apply assoc_Some_in|done].
Qed.

Lemma allowed_kinds_supports caps kind :
  ImpactKind.value kind ∈ allowed_kinds caps <-> supports caps kind.
Proof.
  split.
  - unfold allowed_kinds. rewrite elem_of_app, allowed_by_capability.
    intros [(c & ks & Hc & Hin & Hk)|Hk].
    + unfold DEMONSTRATED_CAPABILITY_TO_IMPACT_KIND in Hin.
      repeat (apply elem_of_cons in Hin as [[= -> ->]|Hin];
              [ repeat (apply elem_of_cons in Hk as [Hk|Hk];
                        [destruct kind; try discriminate; cbn; tauto|]);
                by apply elem_of_nil in Hk|]).
      by apply elem_of_nil in Hin.
    + apply list_elem_of_fmap in Hk as ([k' req] & Hk & Hin%elem_of_list_filter_bool).
      cbn in Hk, Hin. subst k'. destruct Hin as [Hin%list_elem_of_singleton Hex]. injection Hin as Hk Hr. subst req.
      destruct kind; try discriminate. cbn in Hex.
      rewrite !andb_true_r, orb_false_r, orb_true_iff, !andb_true_iff, !mem_true in Hex. cbn. tauto.
  - intros Hs. destruct kind; cbn in Hs.
    1,2,6: by eapply allowed_intro.
    1,2: destruct_or? Hs; by eapply allowed_intro.
    apply elem_of_app. right. apply list_elem_of_fmap. eexists. split; [|apply elem_of_list_filter_bool;
      split; [apply list_elem_of_singleton; reflexivity|]]; [reflexivity|]. cbn.
    rewrite !andb_true_r, orb_false_r, orb_true_iff, !andb_true_iff, !mem_true. tauto.
Qed.

(** A loop that only ever appends codes leaves them alone exactly when each step does. *)
Lemma fold_codes {A} (step : list string -> A -> result (list string)) (good : A -> Prop) l codes :
  (forall codes x codes', step codes x = Ok codes' -> codes `prefix_of` codes') ->
  (forall codes x, step codes x = Ok codes <-> good x) ->
  (fold_result step codes l = Ok codes <-> forall x, x ∈ l -> good x)
  /\ forall codes', fold_result step codes l = Ok codes' -> codes `prefix_of` codes'.
Proof.
  intros Hp Hg. revert codes. induction l as [|x l IH]; intros codes; cbn.
  - split; [|by intros codes' [= <-]]. split; [by intros _ x ?%elem_of_nil|done].
  - split.
    + split.
      * intros (c & Hx & Hl)%bind_ok. pose proof (Hp _ _ _ Hx) as H1.
        pose proof (proj2 (IH c) _ Hl) as H2. assert (c = codes) as -> by by apply (anti_symm prefix).
        intros y [->|Hy]%elem_of_cons; [by apply (Hg codes)|]. by apply (proj1 (IH codes)).
      * intros H. rewrite bind_ok. exists codes. split; [apply Hg, H; left|].
        apply IH. intros y Hy. apply H. by right.
    + intros codes' (c & Hx & Hl)%bind_ok. etrans; [by eapply Hp|]. by apply IH.
Qed.

(** The step of [collect_proof_failures]. *)
Lemma collect_ok refs resolver run codes :
  (collect_proof_failures refs resolver run codes = Ok codes
   <-> forall p, p ∈ refs -> exists caps, proves resolver run p caps)
  /\ forall codes', collect_proof_failures refs resolver run codes = Ok codes' ->
     codes `prefix_of` codes'.
Proof.
  unfold collect_proof_failures. apply fold_codes.
  - intros c p c' (r & Hr & [= <-])%bind_ok. destruct r as [r|]; [|by eexists].
    case_match; [by eexists|done].
  - intros c p. rewrite bind_ok. unfold proves. split.
    + intros (r & Hr & [= Hc]). destruct r as [r|].
      * destruct (_ =? run)%string eqn:E; cbn in Hc.
        -- apply String.eqb_eq in E. by eexists _, r.
        -- by apply (f_equal length) in Hc; rewrite length_app in Hc; cbn in Hc; lia.
      * by apply (f_equal length) in Hc; rewrite length_app in Hc; cbn in Hc; lia.
    + intros (caps & r & Hr & Hrun & _). exists (Some r). split; [done|].
      by rewrite (proj2 (String.eqb_eq _ _) Hrun).
Qed.

Definition all_proven (resolver : ProofResolver) (run : string) (refs : list string) : Prop :=
  refs <> [] /\ forall p, p ∈ refs -> exists caps, proves resolver run p caps.

Lemma collect_step {A} (refs : A -> list string) code resolver run :
  let step codes x :=
    if bool_decide (refs x = []) then Ok (codes ++ [code])
    else collect_proof_failures (refs x) resolver run codes in
  (forall codes x codes', step codes x = Ok codes' -> codes `prefix_of` codes')
  /\ (forall codes x, step codes x = Ok codes <-> all_proven resolver run (refs x)).
Proof.
  intros step. subst step. split; intros codes x.
  - intros codes'. case_bool_decide; [by intros [= <-]; eexists|]. by apply collect_ok.
  - unfold all_proven. case_bool_decide as E.
    + split; [|by intros [? _]]. intros [= Hc]. apply (f_equal length) in Hc.
      rewrite length_app in Hc. cbn in Hc. lia.
    + rewrite (proj1 (collect_ok _ _ _ _)). naive_solver.
Qed.

Lemma valid_verdict (codes : list string) good v :
  (if negb (bool_decide (codes = [])) then Ok (ChainValidation.mk false codes)
   else Ok (ChainValidation.mk true [good])) = Ok v ->
  v.(ChainValidation.valid) = true <-> codes = [].
Proof. case_bool_decide; cbn; intros [= <-]; by split. Qed.

Lemma validate_chain_valid chain resolver run :
  (exists v, validate_chain chain resolver run = Ok v /\ v.(ChainValidation.valid) = true)
  <-> (forall n, n ∈ chain.(ImpactChain.nodes) -> all_proven resolver run n.(ImpactNode.proof_refs))
      /\ (forall e, e ∈ chain.(ImpactChain.edges) ->
            all_proven resolver run e.(ImpactEdge.proof_refs)).
Proof.
  destruct (collect_step ImpactNode.proof_refs "EMPTY_PROOF_REFS" resolver run) as [Pn Gn].
  destruct (collect_step ImpactEdge.proof_refs "EMPTY_EDGE_PROOF_REFS" resolver run) as [Pe Ge].
  pose proof (fold_codes _ _ chain.(ImpactChain.nodes) [] Pn Gn) as [Fn _].
  pose proof (fun c => fold_codes _ _ chain.(ImpactChain.edges) c Pe Ge) as Fe.
  unfold validate_chain. split.
  - intros (v & (c1 & H1 & (c2 & H2 & Hv)%bind_ok)%bind_ok & Hval).
    apply (valid_verdict _ _ _ Hv) in Hval as ->.
    assert (c1 = []) as -> by by apply prefix_nil_inv, (proj2 (Fe c1) _ H2).
    split; [by apply Fn|by apply (proj1 (Fe []))].
  - intros [Hn He]. eexists. rewrite bind_ok. split.
    + exists []. split; [by apply Fn|]. rewrite bind_ok. exists []. split; [by apply (proj1 (Fe []))|].
      reflexivity.
    + reflexivity.
Qed.

Lemma gather_ok refs resolver run caps0 caps :
  gather refs resolver run caps0 = Ok (inr caps)
  <-> exists cs, Forall2 (proves resolver run) refs cs /\ caps = caps0 ++ concat cs.
Proof.
  revert caps0. induction refs as [|p refs IH]; intros caps0; cbn.
  - split; [intros [= <-]; exists []; by rewrite app_nil_r|].
    intros (cs & Hcs%Forall2_nil_inv_l & ->). by rewrite Hcs, app_nil_r.
  - rewrite bind_ok. split.
    + intros ([r|] & Hr & H); [|done]. destruct (_ =? run)%string eqn:E; cbn in H; [|done].
      apply String.eqb_eq in E. apply IH in H as (cs & Hcs & ->).
      exists (r.(ProofRecord.demonstrated_capabilities) :: cs). cbn. rewrite <-app_assoc.
      split; [|done]. constructor; [by exists r|done].
    + intros (cs & Hcs & ->). apply Forall2_cons_inv_l in Hcs as (c & cs' & (r & Hr & Hrun & Hc) & Hcs & ->).
      exists (Some r). split; [done|]. rewrite (proj2 (String.eqb_eq _ _) Hrun). cbn.
      apply IH. exists cs'. split; [done|]. by rewrite Hc, <-app_assoc.
Qed.

(** The kind of a node is supported by what its own proofs demonstrate. *)
Definition demonstrated (resolver : ProofResolver) (run : string) (node : ImpactNode.t) : Prop :=
  exists cs, Forall2 (proves resolver run) node.(ImpactNode.proof_refs) cs
    /\ supports (concat cs) node.(ImpactNode.impact_kind).

Lemma validate_impact_scope_valid node resolver run :
  (exists v, validate_impact_scope node resolver run = Ok v /\ v.(ChainValidation.valid) = true)
  <-> demonstrated resolver run node.
Proof.
  unfold validate_impact_scope, demonstrated. setoid_rewrite <-allowed_kinds_supports. split.
  - intros (v & (g & Hg & [= <-])%bind_ok & Hv).
    destruct g as [verdict|caps].
    + exfalso. revert Hg. generalize (@nil string).
      induction (ImpactNode.proof_refs node) as [|p l IH]; intros c; cbn; [done|].
      intros ([r|] & _ & H)%bind_ok; [|by injection H as <-].
      destruct (_ =? run)%string; cbn in H; [by eapply IH|by injection H as <-].
    + apply gather_ok in Hg as (cs & Hcs & ->). exists cs. split; [done|].
      cbn in Hv. destruct (mem _ _) eqn:E; [|done]. by apply mem_true.
  - intros (cs & Hcs & Hk). eexists. rewrite bind_ok. split.
    + eexists. split; [apply gather_ok; by exists cs|reflexivity].
    + cbn. by rewrite (proj2 (mem_true _ _) Hk).
Qed.

(** A refused node has a reason. *)
Lemma refusal_has_codes node resolver run v :
  validate_impact_scope node resolver run = Ok v -> v.(ChainValidation.valid) = false ->
  v.(ChainValidation.reason_codes) <> [].
Proof.
  unfold validate_impact_scope. intros (g & Hg & [= <-])%bind_ok.
  destruct g as [verdict|caps]; [|by destruct (mem _ _)].
  intros _. revert Hg. generalize (@nil string) at 1.
  induction (ImpactNode.proof_refs node) as [|p l IH]; intros c; cbn; [done|].
  intros ([r|] & _ & H)%bind_ok; [|by injection H as <-].
  destruct (_ =? run)%string; cbn in H; [by eapply IH|by injection H as <-].
Qed.

Lemma validate_chain_impact_scope_valid chain resolver run :
  (exists v, validate_chain_impact_scope chain resolver run = Ok v
             /\ v.(ChainValidation.valid) = true)
  <-> forall n, n ∈ chain.(ImpactChain.nodes) -> demonstrated resolver run n.
Proof.
  pose (step codes node := r ← validate_impact_scope node resolver run;
          Ok (if negb r.(ChainValidation.valid)
              then codes ++ r.(ChainValidation.reason_codes) else codes)).
  assert ((forall codes x codes', step codes x = Ok codes' -> codes `prefix_of` codes')
    /\ forall codes x, step codes x = Ok codes <-> demonstrated resolver run x) as [Ps Gs].
  { split.
    - intros c x c' (r & _ & [= <-])%bind_ok. destruct (ChainValidation.valid r); [done|by eexists].
    - intros c x. unfold step. rewrite bind_ok, <-validate_impact_scope_valid. split.
      + intros (r & Hr & [= Hc]). exists r. split; [done|].
        destruct (ChainValidation.valid r) eqn:E; [done|]. cbn in Hc.
        pose proof (refusal_has_codes _ _ _ _ Hr E) as Hne.
        apply (f_equal length) in Hc. rewrite length_app in Hc.
        destruct r.(ChainValidation.reason_codes); [done|cbn in Hc; lia].
      + intros (r & Hr & Hv). exists r. split; [done|]. by rewrite Hv. }
  pose proof (proj1 (fold_codes _ _ chain.(ImpactChain.nodes) [] Ps Gs)) as Fs.
  unfold validate_chain_impact_scope. fold step. rewrite <-Fs. split.
  - intros (v & (c & Hc & Hv)%bind_ok & Hval). by apply (valid_verdict _ _ _ Hv) in Hval as ->.
  - intros Hf. eexists. rewrite bind_ok. split; [exists []; split; [exact Hf|reflexivity]|done].
Qed.

(** The impact rules bound claims by proof: a chain passes the structural and the scope
    validation exactly when every node and every edge cites at least one proof, every proof
    cited resolves and belongs to the run, and the kind of impact of each node is one its
    own proofs demonstrate; account takeover in particular needs an authentication proof
    together with an escalation or session proof. *)
Theorem impact_bounded_by_proof chain resolver run :
  ((exists v, validate_chain chain resolver run = Ok v /\ v.(ChainValidation.valid) = true)
   /\ exists v, validate_chain_impact_scope chain resolver run = Ok v
                /\ v.(ChainValidation.valid) = true)
  <-> (forall n, n ∈ chain.(ImpactChain.nodes) ->
         n.(ImpactNode.proof_refs) <> [] /\ demonstrated resolver run n)
      /\ (forall e, e ∈ chain.(ImpactChain.edges) ->
            all_proven resolver run e.(ImpactEdge.proof_refs)).
Proof.
  rewrite validate_chain_valid, validate_chain_impact_scope_valid. split.
  - intros [[Hn He] Hd]. split; [|done]. intros n Hin. split; [by apply Hn|by apply Hd].
  - intros [Hn He]. split; [split; [|done]|intros n Hin; by apply Hn].
    intros n Hin. destruct (Hn n Hin) as [Hne (cs & Hcs & _)]. split; [done|]. intros p Hp.
    apply list_elem_of_lookup in Hp as [i Hi].
    destruct (Forall2_lookup_l _ _ _ _ _ Hcs Hi) as (c & _ & ?). by exists c.
Qed.

(** ** A sample graph *)

Definition sample_node (id : string) (kind : ImpactKind.t) (proofs : list string) : ImpactNode.t :=
  ImpactNode.mk id proofs kind "claim" (ImpactScopeRef.mk "run" "program" "target") [].

Definition sample_edge (a b : string) : ImpactEdge.t :=
  ImpactEdge.mk a b ImpactRelation.ENABLES ["e1"].

Definition sample_chain (edges : list ImpactEdge.t) : ImpactChain.t :=
  ImpactChain.mk "chain"
    [ sample_node "read" ImpactKind.DATA_READ ["e1"];
      sample_node "bypass" ImpactKind.AUTH_BYPASS ["e2"];
      sample_node "corrupt" ImpactKind.STATE_CORRUPTION ["e2"] ] edges.

(** A diamond-free chain is accepted, a cycle through three nodes is refused. *)
Example sample_chains :
  ImpactChain.post_init (sample_chain [sample_edge "read" "bypass"; sample_edge "bypass" "corrupt"])
  = Ok (sample_chain [sample_edge "read" "bypass"; sample_edge "bypass" "corrupt"])
  /\ ImpactChain.post_init
       (sample_chain [sample_edge "read" "bypass"; sample_edge "bypass" "corrupt";
                      sample_edge "corrupt" "read"]) = Raise ImpactGraphError.
Proof. split; vm_compute; reflexivity. Qed.

(** [allowed_kinds] reads the options of [COMPOSITE_CAPABILITY_REQUIREMENTS] as alternatives:
    one satisfied set is enough. *)
Example composite_requirements_are_alternatives :
  mem "ACCOUNT_TAKEOVER_PATH"
    (allowed_kinds ["AUTHENTICATED_AS_USER"; "PRIVILEGE_ESCALATION_EVIDENCE"]) = true.
Proof. reflexivity. Qed.

Lemma impact_chain_accepted_iff_dag_witness :
  exists b, has_cycle (fun X => reverse (elements X)) (list_to_set (chain_ids (sample_chain [])))
              [sample_edge "read" "bypass"; sample_edge "bypass" "read"] = Some b
    /\ (b = true <-> exists id, tc (edge [sample_edge "read" "bypass"; sample_edge "bypass" "read"]) id id).
Proof.
  apply (proj2 (impact_chain_accepted_iff_dag
                  (sample_chain [sample_edge "read" "bypass"; sample_edge "bypass" "read"]))).
  - intros X. apply reverse_Permutation.
  - intros e [->| ->%list_elem_of_singleton]%elem_of_cons; apply mem_true; reflexivity.
Defined.
