(* ===== verification/EvidenceRecords.v ===== *)
(** * Persisted records of experiments, observations, evidence and impact chains

    More of [data/records.py]: what an experiment leaves behind, and what evidence,
    verifications and impact chains are stored as. *)
From S2P Require Import Prelude PyVal SafeData Records FindingRecords.

(** [data/records.py:172 ALLOWED_EVIDENCE_POLARITIES] *)
Definition ALLOWED_EVIDENCE_POLARITIES : list string :=
  [ "SUPPORTING"; "CONTRADICTING"; "NEUTRAL" ].

(** [data/records.py:235-243 ALLOWED_VERIFICATION_OUTCOMES] *)
Definition ALLOWED_VERIFICATION_OUTCOMES : list string :=
  [ "VALIDATED"; "REJECTED"; "INCONCLUSIVE"; "DUPLICATE"; "OUT_OF_SCOPE" ].

(** [data/records.py:244 ALLOWED_VERIFIER_KINDS] *)
Definition ALLOWED_VERIFIER_KINDS : list string := ["DETERMINISTIC"].

(** [data/records.py:357-367 CANDIDATE_FORBIDDEN_KEYS] *)
Definition CANDIDATE_FORBIDDEN_KEYS : list string :=
  [ "severity"; "cvss"; "finding"; "finding_proposal"; "exploitability"; "authorization";
    "confidence" ].

(** [data/records.py:37-48 ExperimentExecutionState] *)
Definition ALLOWED_EXPERIMENT_STATES : list string :=
  [ "PLANNED"; "AUTHORIZATION_CHECK"; "READY"; "RUNNING"; "EXECUTION_SUCCEEDED";
    "EXECUTION_FAILED"; "BLOCKED"; "CANCELLED"; "BUDGET_EXHAUSTED" ].

(** [data/records.py:51-60 WorkerResultStatus] *)
Definition ALLOWED_WORKER_RESULT_STATUSES : list string :=
  [ "SUCCEEDED"; "EXECUTION_FAILED"; "BLOCKED"; "CANCELLED"; "TIMED_OUT"; "BUDGET_EXHAUSTED";
    "REAUTHORIZATION_REQUIRED" ].

(** [data/records.py:972-1008 EvidenceRecord] *)
Module EvidenceRecord.
Record t : Set := mk {
  evidence_id : string;
  research_run_id : string;
  hypothesis_id : string;
  experiment_id : string;
  admission_record_id : string;
  polarity : string;
  claim_scope : string;
  observation_ids : list string;
  assessment_ids : list string;
  created_at : Z }.

Definition post_init (x : t) : result t :=
  _ ← data_opaque_id x.(evidence_id);
  _ ← data_opaque_id x.(research_run_id);
  _ ← data_opaque_id x.(hypothesis_id);
  _ ← data_opaque_id x.(experiment_id);
  _ ← data_opaque_id x.(admission_record_id);
  raise_if negb (mem x.(polarity) ALLOWED_EVIDENCE_POLARITIES) as PersistenceInputError;;
  raise_if Str.is_blank x.(claim_scope) as PersistenceInputError;;
  _ ← data_ids x.(observation_ids);
  _ ← data_ids x.(assessment_ids);
  Ok x.

#[global] Instance post_init_validator : Validator post_init.
Proof. solve_validator. Qed.
End EvidenceRecord.

(** [data/records.py:2132-2155 ObservationRecord] *)
Module ObservationRecord.
Record t : Type := mk {
  observation_id : string;
  worker_result_id : string;
  observation_kind : string;
  payload : list (string * pyval);
  normalization_version : string;
  observed_at : Z;
  created_at : Z }.

Definition post_init (x : t) : result t :=
  _ ← data_opaque_id x.(observation_id);
  _ ← data_opaque_id x.(worker_result_id);
  raise_if Str.is_blank x.(observation_kind) as PersistenceInputError;;
  raise_if Str.is_blank x.(normalization_version) as PersistenceInputError;;
  _ ← data_reject_secret_keys x.(payload);
  Ok x.

#[global] Instance post_init_validator : Validator post_init.
Proof. solve_validator. Qed.
End ObservationRecord.

(** [data/records.py:1986-2001 ExperimentRecord] *)
Module ExperimentRecord.
Record t : Set := mk {
  experiment_id : string;
  research_run_id : string;
  hypothesis_id : string;
  budget_id : string;
  execution_state : string;
  created_at : Z }.

Definition post_init (x : t) : result t :=
  _ ← data_opaque_id x.(experiment_id);
  _ ← data_opaque_id x.(research_run_id);
  _ ← data_opaque_id x.(hypothesis_id);
  _ ← data_opaque_id x.(budget_id);
  raise_if negb (mem x.(execution_state) ALLOWED_EXPERIMENT_STATES) as PersistenceInputError;;
  Ok x.

#[global] Instance post_init_validator : Validator post_init.
Proof. solve_validator. Qed.
End ExperimentRecord.

(** [data/records.py:2057-2128 WorkerResultRecord] *)
Module WorkerResultRecord.
Record t : Type := mk {
  worker_result_id : string;
  experiment_id : string;
  research_run_id : string;
  request_id : string;
  correlation_id : string;
  worker_capability : string;
  action : string;
  authorization_decision_reference : string;
  budget_id : string;
  side_effect_level : Z;
  contract_version : string;
  worker_id : string;
  status : string;
  received_at : Z;
  started_at : option Z;
  completed_at : option Z;
  parent_request_id : option string;
  raw_result : option (list (string * pyval));
  raw_artifact_descriptors : option (list (list (string * pyval)));
  diagnostics : option (list (string * pyval));
  control_signal : option (list (string * pyval)) }.

Definition post_init (x : t) : result t :=
  _ ← data_opaque_id x.(worker_result_id);
  _ ← data_opaque_id x.(experiment_id);
  _ ← data_opaque_id x.(research_run_id);
  _ ← data_opaque_id x.(request_id);
  _ ← data_opaque_id x.(correlation_id);
  _ ← data_opaque_id x.(worker_capability);
  _ ← data_opaque_id x.(action);
  _ ← data_opaque_id x.(authorization_decision_reference);
  _ ← data_opaque_id x.(budget_id);
  _ ← data_opaque_id x.(worker_id);
  raise_if Str.is_blank x.(contract_version) as PersistenceInputError;;
  raise_if negb (mem x.(status) ALLOWED_WORKER_RESULT_STATUSES) as PersistenceInputError;;
  raise_if negb (mem x.(side_effect_level) [0; 1; 2; 3]) as PersistenceInputError;;
  _ ← data_optional_opaque_id x.(parent_request_id);
  _ ← data_optional_mapping x.(raw_result);
  _ ← data_optional_mapping x.(diagnostics);
  _ ← data_optional_mapping x.(control_signal);
  _ ← match x.(raw_artifact_descriptors) with
      | None => Ok []
      | Some l => traverse (fun d => data_optional_mapping (Some d)) l
      end;
  Ok x.

#[global] Instance post_init_validator : Validator post_init.
Proof. solve_validator. Qed.
End WorkerResultRecord.

(** [data/records.py:1140-1216 VerificationRecord] *)
Module VerificationRecord.
Record t : Type := mk {
  verification_id : string;
  candidate_id : string;
  research_run_id : string;
  strategy : string;
  outcome : string;
  proposed_candidate_state : string;
  original_evidence_ids : list string;
  reproduction_evidence_ids : list string;
  negative_control_evidence_ids : list string;
  alternative_explanation_checks : list (string * pyval);
  verifier_kind : string;
  verifier_identity : string;
  created_at : Z }.

Definition post_init (x : t) : result t :=
  _ ← data_opaque_id x.(verification_id);
  _ ← data_opaque_id x.(candidate_id);
  _ ← data_opaque_id x.(research_run_id);
  raise_if Str.is_blank x.(strategy) as PersistenceInputError;;
  raise_if negb (mem x.(outcome) ALLOWED_VERIFICATION_OUTCOMES) as PersistenceInputError;;
  raise_if negb (mem x.(proposed_candidate_state) ALLOWED_CANDIDATE_STATES)
  as PersistenceInputError;;
  raise_if negb (x.(proposed_candidate_state) =? x.(outcome))%string as PersistenceInputError;;
  raise_if negb (mem x.(verifier_kind) ALLOWED_VERIFIER_KINDS) as PersistenceInputError;;
  raise_if Str.is_blank x.(verifier_identity) as PersistenceInputError;;
  _ ← data_ids x.(original_evidence_ids);
  _ ← traverse data_opaque_id x.(reproduction_evidence_ids);
  _ ← traverse data_opaque_id x.(negative_control_evidence_ids);
  raise_if existsb (fun p => mem p.1 CANDIDATE_FORBIDDEN_KEYS) x.(alternative_explanation_checks)
  as PersistenceInputError;;
  _ ← data_reject_secret_keys x.(alternative_explanation_checks);
  Ok x.

#[global] Instance post_init_validator : Validator post_init.
Proof. solve_validator. Qed.
End VerificationRecord.

(** [data/records.py:3158-3175 ImpactChainRecord] *)
Module ImpactChainRecord.
Record t : Set := mk {
  chain_id : string;
  research_run_id : string;
  program_id : string;
  graph_hash : option string;
  created_at : Z }.

Definition post_init (x : t) : result t :=
  _ ← data_opaque_id x.(chain_id);
  _ ← data_opaque_id x.(research_run_id);
  _ ← data_opaque_id x.(program_id);
  raise_if match x.(graph_hash) with
           | None => false
           | Some h => negb (String.length h =? 64)%nat
           end as PersistenceInputError;;
  Ok x.

#[global] Instance post_init_validator : Validator post_init.
Proof. solve_validator. Qed.
End ImpactChainRecord.

(** [data/records.py:3179-3211 ImpactChainNodeRecord] *)
Module ImpactChainNodeRecord.
Record t : Type := mk {
  node_id : string;
  chain_id : string;
  impact_kind : string;
  claim_text : string;
  scope_ref : list (string * pyval);
  proof_refs : list string;
  ordering : Z;
  created_at : Z }.

Definition post_init (x : t) : result t :=
  _ ← data_opaque_id x.(node_id);
  _ ← data_opaque_id x.(chain_id);
  raise_if Str.is_blank x.(impact_kind) as PersistenceInputError;;
  raise_if Str.is_blank x.(claim_text) as PersistenceInputError;;
  _ ← data_reject_secret_keys x.(scope_ref);
  _ ← data_ids x.(proof_refs);
  raise_if x.(ordering) <? 0 as PersistenceInputError;;
  Ok x.

#[global] Instance post_init_validator : Validator post_init.
Proof. solve_validator. Qed.
End ImpactChainNodeRecord.

(** [data/records.py:3215-3243 ImpactChainEdgeRecord] *)
Module ImpactChainEdgeRecord.
Record t : Set := mk {
  edge_id : string;
  chain_id : string;
  from_node_id : string;
  to_node_id : string;
  relation : string;
  proof_refs : list string;
  created_at : Z }.

Definition post_init (x : t) : result t :=
  _ ← data_opaque_id x.(edge_id);
  _ ← data_opaque_id x.(chain_id);
  _ ← data_opaque_id x.(from_node_id);
  _ ← data_opaque_id x.(to_node_id);
  raise_if Str.is_blank x.(relation) as PersistenceInputError;;
  _ ← data_ids x.(proof_refs);
  Ok x.

#[global] Instance post_init_validator : Validator post_init.
Proof. solve_validator. Qed.
End ImpactChainEdgeRecord.
