(* ===== verification/ImpactLedger.v ===== *)
(** * Impact chains on the database

    [application/impact/register_impact_chain.py] stores a chain,
    [application/impact/proof_resolver.py] rebuilds it and resolves proofs against the
    ledger of evidence, observations and experiments; the repository is
    [PostgresImpactChainRepository].  The edges of a chain are read without an [ORDER BY]:
    the order the database gives them back in is a parameter ([EdgeOrder]). *)
From S2P Require Import Prelude PyVal SafeData Records FindingRecords EvidenceRecords Impact Candidate.

Module Db.
Record t : Type := mk {
  runs : gset string;
  programs : gset string;
  evidence : gmap string EvidenceRecord.t;
  observations : gmap string ObservationRecord.t;
  worker_results : gmap string WorkerResultRecord.t;
  experiments : gmap string ExperimentRecord.t;
  chains : gmap string ImpactChainRecord.t;
  chain_nodes : list ImpactChainNodeRecord.t;
  chain_edges : list ImpactChainEdgeRecord.t }.

Definition set_chains (chains : gmap string ImpactChainRecord.t)
    (nodes : list ImpactChainNodeRecord.t) (edges : list ImpactChainEdgeRecord.t) (db : t) : t :=
  mk db.(runs) db.(programs) db.(evidence) db.(observations) db.(worker_results)
    db.(experiments) chains nodes edges.
End Db.

(** ** Repository *)

(** One node row: the primary key, the foreign key and the integer column.
    [data/postgres/repositories.py:3396-3409 PostgresImpactChainRepository.insert] *)
Definition insert_node (chains : gmap string ImpactChainRecord.t)
    (rows : list ImpactChainNodeRecord.t) (n : ImpactChainNodeRecord.t)
    : result (list ImpactChainNodeRecord.t) :=
  raise_if existsb (fun o => (o.(ImpactChainNodeRecord.node_id)
                              =? n.(ImpactChainNodeRecord.node_id))%string) rows
  as PersistenceConflictError;;
  raise_if negb (bool_decide (is_Some (chains !! n.(ImpactChainNodeRecord.chain_id))))
  as PersistenceError;;
  raise_if 2147483647 <? n.(ImpactChainNodeRecord.ordering) as PersistenceError;;
  Ok (rows ++ [n]).

(** One edge row: the primary key, the foreign key and
    [ck_impact_chain_edge_relation].
    [data/postgres/repositories.py:3410-3422 PostgresImpactChainRepository.insert] *)
Definition insert_edge (chains : gmap string ImpactChainRecord.t)
    (rows : list ImpactChainEdgeRecord.t) (e : ImpactChainEdgeRecord.t)
    : result (list ImpactChainEdgeRecord.t) :=
  raise_if existsb (fun o => (o.(ImpactChainEdgeRecord.edge_id)
                              =? e.(ImpactChainEdgeRecord.edge_id))%string) rows
  as PersistenceConflictError;;
  raise_if negb (bool_decide (is_Some (chains !! e.(ImpactChainEdgeRecord.chain_id))))
  as PersistenceError;;
  raise_if negb (mem e.(ImpactChainEdgeRecord.relation) ["ENABLES"; "ESCALATES"; "CONFIRMS"])
  as PersistenceError;;
  Ok (rows ++ [e]).

(** [data/postgres/repositories.py:3380-3422 PostgresImpactChainRepository.insert] *)
Definition insert_chain (db : Db.t) (record : ImpactChainRecord.t)
    (nodes : list ImpactChainNodeRecord.t) (edges : list ImpactChainEdgeRecord.t)
    : result Db.t :=
  let id := record.(ImpactChainRecord.chain_id) in
  raise_if bool_decide (is_Some (db.(Db.chains) !! id)) as PersistenceConflictError;;
  raise_if negb (bool_decide (record.(ImpactChainRecord.research_run_id) ∈ db.(Db.runs)))
           || negb (bool_decide (record.(ImpactChainRecord.program_id) ∈ db.(Db.programs)))
  as PersistenceError;;
  let chains := <[id := record]> db.(Db.chains) in
  node_rows ← fold_result (insert_node chains) db.(Db.chain_nodes) nodes;
  edge_rows ← fold_result (insert_edge chains) db.(Db.chain_edges) edges;
  Ok (Db.set_chains chains node_rows edge_rows db).

(** [data/postgres/repositories.py:3424-3432 PostgresImpactChainRepository.get] *)
Definition get_chain (db : Db.t) (chain_id : string) : result (option ImpactChainRecord.t) :=
  _ ← data_opaque_id chain_id;
  Ok (db.(Db.chains) !! chain_id).

(** [data/postgres/repositories.py:3434-3447 PostgresImpactChainRepository.get_nodes] *)
Definition get_nodes (db : Db.t) (chain_id : string) : result (list ImpactChainNodeRecord.t) :=
  _ ← data_opaque_id chain_id;
  Ok (sort_by ImpactChainNodeRecord.ordering
        (List.filter (fun n => (n.(ImpactChainNodeRecord.chain_id) =? chain_id)%string)
           db.(Db.chain_nodes))).

(** The order of rows selected without an [ORDER BY]: every row once, in any order. *)
Class EdgeOrder : Type := {
  edge_order : Db.t -> list ImpactChainEdgeRecord.t -> list ImpactChainEdgeRecord.t;
  edge_order_perm : forall db rows, edge_order db rows ≡ₚ rows }.

(** The edge rows of a chain, in the order they were inserted. *)
Definition edges_of (db : Db.t) (chain_id : string) : list ImpactChainEdgeRecord.t :=
  List.filter (fun e => (e.(ImpactChainEdgeRecord.chain_id) =? chain_id)%string)
    db.(Db.chain_edges).

(** [data/postgres/repositories.py:3449-3461 PostgresImpactChainRepository.get_edges] *)
Definition get_edges `{O : EdgeOrder} (db : Db.t) (chain_id : string)
    : result (list ImpactChainEdgeRecord.t) :=
  _ ← data_opaque_id chain_id;
  Ok (edge_order db (edges_of db chain_id)).

(** ** Rebuilding a chain *)

(** The keyword arguments of [ImpactScopeRef] from a mapping: every field by its name and nothing else; a field that is
    not text is refused by the constructor.
    [application/impact/proof_resolver.py:78-78 rebuild_impact_chain] *)
Definition scope_from_mapping (d : list (string * pyval)) : result ImpactScopeRef.t :=
  raise_if negb (forallb (fun p => mem p.1 ["research_run_id"; "program_id"; "target_reference"]) d)
  as TypeError;;
  match assoc "research_run_id" d, assoc "program_id" d, assoc "target_reference" d with
  | Some r, Some p, Some t =>
      match r, p, t with
      | PStr r, PStr p, PStr t => ImpactScopeRef.post_init (ImpactScopeRef.mk r p t)
      | _, _, _ => Raise ResearchInputError
      end
  | _, _, _ => Raise TypeError
  end.

(** [application/impact/proof_resolver.py:73-80 rebuild_impact_chain] *)
Definition node_from_record (chain_id : string) (n : ImpactChainNodeRecord.t)
    : result ImpactNode.t :=
  kind ← ImpactKind.of_value n.(ImpactChainNodeRecord.impact_kind);
  scope ← scope_from_mapping n.(ImpactChainNodeRecord.scope_ref);
  ImpactNode.post_init
    (ImpactNode.mk n.(ImpactChainNodeRecord.node_id) n.(ImpactChainNodeRecord.proof_refs) kind
       n.(ImpactChainNodeRecord.claim_text) scope
       [("source", PStr "impact_chain.rebuild"); ("chain_id", PStr chain_id)]).

(** [application/impact/proof_resolver.py:84-89 rebuild_impact_chain] *)
Definition edge_from_record (e : ImpactChainEdgeRecord.t) : result ImpactEdge.t :=
  relation ← ImpactRelation.of_value e.(ImpactChainEdgeRecord.relation);
  ImpactEdge.post_init
    (ImpactEdge.mk e.(ImpactChainEdgeRecord.from_node_id) e.(ImpactChainEdgeRecord.to_node_id)
       relation e.(ImpactChainEdgeRecord.proof_refs)).

(** [application/impact/proof_resolver.py:67-92 rebuild_impact_chain] *)
Definition rebuild_impact_chain `{O : EdgeOrder} (db : Db.t) (record : ImpactChainRecord.t)
    : result ImpactChain.t :=
  let chain_id := record.(ImpactChainRecord.chain_id) in
  node_records ← get_nodes db chain_id;
  edge_records ← get_edges db chain_id;
  nodes ← traverse (node_from_record chain_id) node_records;
  edges ← traverse edge_from_record edge_records;
  ImpactChain.post_init (ImpactChain.mk chain_id nodes edges).

(** ** Resolving proofs *)

(** [application/impact/proof_resolver.py:13-20 _CLAIM_SCOPE_TO_CAPABILITIES] *)
Definition CLAIM_SCOPE_TO_CAPABILITIES : list (string * list string) :=
  [ ("Authenticated actor can read another actor's account object because object authorization is missing on the vulnerable endpoint.",
      ["READ_OTHER_OBJECT"]);
    ("Authenticated requester performed an unauthorized workflow state transition because role or sequence authorization is missing on the workflow endpoint.",
      ["WORKFLOW_TRANSITION_WITHOUT_AUTH"]) ].

(** [application/impact/proof_resolver.py:57-64 UnitOfWorkProofResolver._resolve_evidence] *)
Definition resolve_evidence (evidence : EvidenceRecord.t) : result ProofRecord.t :=
  let capabilities :=
    default [] (assoc evidence.(EvidenceRecord.claim_scope) CLAIM_SCOPE_TO_CAPABILITIES) in
  ProofRecord.post_init
    (ProofRecord.mk evidence.(EvidenceRecord.evidence_id)
       evidence.(EvidenceRecord.research_run_id) evidence.(EvidenceRecord.experiment_id)
       capabilities).

(** [application/impact/proof_resolver.py:29-55 UnitOfWorkProofResolver.resolve] *)
Definition resolve (db : Db.t) : ProofResolver := fun proof_id expected_run_id =>
  _ ← data_opaque_id proof_id;
  match db.(Db.evidence) !! proof_id with
  | Some evidence => p ← resolve_evidence evidence; Ok (Some p)
  | None =>
      match db.(Db.observations) !! proof_id with
      | Some observation =>
          match db.(Db.worker_results) !! observation.(ObservationRecord.worker_result_id) with
          | None => Ok None
          | Some worker_result =>
              p ← ProofRecord.post_init
                    (ProofRecord.mk proof_id worker_result.(WorkerResultRecord.research_run_id)
                       observation.(ObservationRecord.observation_kind) []);
              Ok (Some p)
          end
      | None =>
          match db.(Db.experiments) !! proof_id with
          | None => Ok None
          | Some experiment =>
              p ← ProofRecord.post_init
                    (ProofRecord.mk proof_id experiment.(ExperimentRecord.research_run_id)
                       experiment.(ExperimentRecord.experiment_id) []);
              Ok (Some p)
          end
      end
  end.

(** ** Registering a chain *)

(** [application/impact/register_impact_chain.py:23-28 RegisterImpactChainCommand] *)
Module RegisterImpactChainCommand.
Record t : Type := mk {
  chain_id : string;
  research_run_id : string;
  program_id : string;
  chain : ImpactChain.t;
  graph_hash : option string }.
End RegisterImpactChainCommand.

(** [dict] of the fields of the scope.
    [application/impact/register_impact_chain.py:67-67 RegisterImpactChain.execute] *)
Definition scope_mapping (s : ImpactScopeRef.t) : list (string * pyval) :=
  [ ("research_run_id", PStr s.(ImpactScopeRef.research_run_id));
    ("program_id", PStr s.(ImpactScopeRef.program_id));
    ("target_reference", PStr s.(ImpactScopeRef.target_reference)) ].

(** [application/impact/register_impact_chain.py:62-71 RegisterImpactChain.execute] *)
Definition node_record (chain_id : string) (now : Z) (index : nat) (n : ImpactNode.t)
    : result ImpactChainNodeRecord.t :=
  ImpactChainNodeRecord.post_init
    (ImpactChainNodeRecord.mk n.(ImpactNode.node_id) chain_id
       (ImpactKind.value n.(ImpactNode.impact_kind)) n.(ImpactNode.claim_text)
       (scope_mapping n.(ImpactNode.scope_ref)) n.(ImpactNode.proof_refs) (Z.of_nat index) now).

(** [application/impact/register_impact_chain.py:75-83 RegisterImpactChain.execute] *)
Definition edge_record (chain_id : string) (now : Z) (edge_id : string) (e : ImpactEdge.t)
    : result ImpactChainEdgeRecord.t :=
  ImpactChainEdgeRecord.post_init
    (ImpactChainEdgeRecord.mk edge_id chain_id e.(ImpactEdge.from_node_id)
       e.(ImpactEdge.to_node_id) (ImpactRelation.value e.(ImpactEdge.relation))
       e.(ImpactEdge.proof_refs) now).

(** [enumerate(l, start)] *)
Fixpoint enumerate {A} (start : nat) (l : list A) : list (nat * A) :=
  match l with
  | [] => []
  | x :: l => (start, x) :: enumerate (S start) l
  end.

(** The ids of the edges come from [new_opaque_id].
    [application/impact/register_impact_chain.py:47-99 RegisterImpactChain.execute] *)
Definition register_impact_chain (db : Db.t) (command : RegisterImpactChainCommand.t)
    (resolver : ProofResolver) (new_id : nat -> string) (now : Z) : result Db.t :=
  let chain := command.(RegisterImpactChainCommand.chain) in
  let chain_id := chain.(ImpactChain.chain_id) in
  structural ← validate_chain chain resolver command.(RegisterImpactChainCommand.research_run_id);
  raise_if negb structural.(ChainValidation.valid) as ApplicationError;;
  raise_if match command.(RegisterImpactChainCommand.graph_hash) with
           | None => false
           | Some h => negb (String.length h =? 64)%nat
           end as ApplicationError;;
  nodes ← traverse (fun p => node_record chain_id now p.1 p.2)
            (enumerate 0 chain.(ImpactChain.nodes));
  edges ← traverse (fun p => edge_record chain_id now (new_id p.1) p.2)
            (enumerate 0 chain.(ImpactChain.edges));
  record ← ImpactChainRecord.post_init
             (ImpactChainRecord.mk chain_id command.(RegisterImpactChainCommand.research_run_id)
                command.(RegisterImpactChainCommand.program_id)
                command.(RegisterImpactChainCommand.graph_hash) now);
  insert_chain db record nodes edges.

(** ** Facts *)

(** Every stored node and edge belongs to a stored chain. *)
Definition foreign_keys (db : Db.t) : Prop :=
  (forall n, n ∈ db.(Db.chain_nodes) ->
     is_Some (db.(Db.chains) !! n.(ImpactChainNodeRecord.chain_id)))
  /\ forall e, e ∈ db.(Db.chain_edges) ->
     is_Some (db.(Db.chains) !! e.(ImpactChainEdgeRecord.chain_id)).

Lemma fold_insert {A} (insert : list A -> A -> result (list A)) (P : A -> Prop) l rows rows' :
  (forall rows x rows', insert rows x = Ok rows' -> rows' = rows ++ [x] /\ P x) ->
  fold_result insert rows l = Ok rows' -> rows' = rows ++ l /\ forall x, x ∈ l -> P x.
Proof.
  intros Hi. revert rows. induction l as [|x l IH]; intros rows; cbn.
  - intros [= <-]. rewrite app_nil_r. split; [done|]. by intros x ?%elem_of_nil.
  - intros (r & [-> Hx]%Hi & [-> Hl]%IH)%bind_ok. rewrite <-app_assoc. split; [done|].
    intros y [->|Hy]%elem_of_cons; auto.
Qed.

Lemma insert_chain_ok db record nodes edges db' :
  insert_chain db record nodes edges = Ok db' ->
  let id := record.(ImpactChainRecord.chain_id) in
  let chains := <[id := record]> db.(Db.chains) in
  db.(Db.chains) !! id = None
  /\ db' = Db.set_chains chains (db.(Db.chain_nodes) ++ nodes) (db.(Db.chain_edges) ++ edges) db
  /\ (forall n, n ∈ nodes -> is_Some (chains !! n.(ImpactChainNodeRecord.chain_id)))
  /\ (forall e, e ∈ edges -> is_Some (chains !! e.(ImpactChainEdgeRecord.chain_id))).
Proof.
  unfold insert_chain. rewrite !raise_if_ok. intros (Hid%bool_decide_eq_false & _ & H).
  apply bind_ok in H as (rn & Hn & H). apply bind_ok in H as (re & He & [= <-]).
  apply (fold_insert _ (fun n => is_Some (<[record.(ImpactChainRecord.chain_id) := record]>
    db.(Db.chains) !! n.(ImpactChainNodeRecord.chain_id)))) in Hn as [-> Hn].
  2: { intros rows x rows'. unfold insert_node. rewrite !raise_if_ok.
       by intros (_ & Hx%negb_false_iff%bool_decide_eq_true & _ & [= <-]). }
  apply (fold_insert _ (fun e => is_Some (<[record.(ImpactChainRecord.chain_id) := record]>
    db.(Db.chains) !! e.(ImpactChainEdgeRecord.chain_id)))) in He as [-> He].
  2: { intros rows x rows'. unfold insert_edge. rewrite !raise_if_ok.
       by intros (_ & Hx%negb_false_iff%bool_decide_eq_true & _ & [= <-]). }
  split; [by apply eq_None_not_Some|]. by split.
Qed.

Lemma foreign_keys_insert db record nodes edges db' :
  foreign_keys db -> insert_chain db record nodes edges = Ok db' -> foreign_keys db'.
Proof.
  intros [Kn Ke] (_ & -> & Hn & He)%insert_chain_ok. split; cbn.
  - intros n [H|H]%elem_of_app; [|by apply Hn]. apply lookup_insert_is_Some'. right. by apply Kn.
  - intros e [H|H]%elem_of_app; [|by apply He]. apply lookup_insert_is_Some'. right. by apply Ke.
Qed.

(** The values the constructors return. *)
Record constructed (c : ImpactChain.t) : Prop := {
  constructed_chain : ImpactChain.post_init c = Ok c;
  constructed_nodes : forall n, n ∈ c.(ImpactChain.nodes) ->
    ImpactNode.post_init n = Ok n
    /\ ImpactScopeRef.post_init n.(ImpactNode.scope_ref) = Ok n.(ImpactNode.scope_ref);
  constructed_edges : forall e, e ∈ c.(ImpactChain.edges) -> ImpactEdge.post_init e = Ok e }.

(** A node as it is rebuilt: only its provenance says something else. *)
Definition rebuilt_node (chain_id : string) (n : ImpactNode.t) : ImpactNode.t :=
  ImpactNode.mk n.(ImpactNode.node_id) n.(ImpactNode.proof_refs) n.(ImpactNode.impact_kind)
    n.(ImpactNode.claim_text) n.(ImpactNode.scope_ref)
    [("source", PStr "impact_chain.rebuild"); ("chain_id", PStr chain_id)].

(** A chain as it is rebuilt: its nodes in their order, its edges in some order. *)
Definition rebuilt (c : ImpactChain.t) (edges : list ImpactEdge.t) : ImpactChain.t :=
  ImpactChain.mk c.(ImpactChain.chain_id)
    (rebuilt_node c.(ImpactChain.chain_id) <$> c.(ImpactChain.nodes)) edges.

Lemma node_provenance n p :
  ImpactNode.post_init n = Ok n ->
  ImpactNode.post_init (ImpactNode.mk n.(ImpactNode.node_id) n.(ImpactNode.proof_refs)
    n.(ImpactNode.impact_kind) n.(ImpactNode.claim_text) n.(ImpactNode.scope_ref) p)
  = Ok (ImpactNode.mk n.(ImpactNode.node_id) n.(ImpactNode.proof_refs)
    n.(ImpactNode.impact_kind) n.(ImpactNode.claim_text) n.(ImpactNode.scope_ref) p).
Proof.
  unfold ImpactNode.post_init. cbn. intros (id & Hid & H)%bind_ok.
  apply bind_ok in H as (refs & Hrefs & H). apply raise_if_ok in H as [Hne H].
  apply bind_ok in H as (claim & Hclaim & [= H]). rewrite Hid, <-H. cbn.
  rewrite <-H in Hrefs, Hclaim. cbn in Hrefs, Hclaim. by rewrite Hrefs, Hclaim; cbn; rewrite Hne.
Qed.

Lemma node_roundtrip chain_id now index n r :
  ImpactNode.post_init n = Ok n ->
  ImpactScopeRef.post_init n.(ImpactNode.scope_ref) = Ok n.(ImpactNode.scope_ref) ->
  node_record chain_id now index n = Ok r ->
  node_from_record chain_id r = Ok (rebuilt_node chain_id n)
  /\ r.(ImpactChainNodeRecord.chain_id) = chain_id
  /\ r.(ImpactChainNodeRecord.ordering) = Z.of_nat index.
Proof.
  intros Hn Hs Hr. unfold node_record in Hr. apply validated in Hr as ->. split; [|done]. unfold node_from_record. cbn -[ImpactNode.post_init].
  rewrite ImpactKind.kind_of_value_value. cbn -[ImpactNode.post_init].
  destruct n.(ImpactNode.scope_ref) as [a b c] eqn:E.
  unfold scope_from_mapping. cbn -[ImpactNode.post_init ImpactScopeRef.post_init].
  rewrite Hs. cbn -[ImpactNode.post_init]. rewrite <-E. by apply node_provenance.
Qed.

Lemma edge_roundtrip chain_id now id e r :
  ImpactEdge.post_init e = Ok e -> edge_record chain_id now id e = Ok r ->
  edge_from_record r = Ok e /\ r.(ImpactChainEdgeRecord.chain_id) = chain_id.
Proof.
  intros He Hr. unfold edge_record in Hr. apply validated in Hr as ->. split; [|done]. unfold edge_from_record.
  cbn -[ImpactEdge.post_init]. rewrite ImpactRelation.relation_of_value_value. cbn -[ImpactEdge.post_init].
  by destruct e.
Qed.

Lemma nodes_roundtrip chain_id now l k ns :
  (forall n, n ∈ l -> ImpactNode.post_init n = Ok n
     /\ ImpactScopeRef.post_init n.(ImpactNode.scope_ref) = Ok n.(ImpactNode.scope_ref)) ->
  traverse (fun p => node_record chain_id now p.1 p.2) (enumerate k l) = Ok ns ->
  traverse (node_from_record chain_id) ns = Ok (rebuilt_node chain_id <$> l)
  /\ (forall r, r ∈ ns -> r.(ImpactChainNodeRecord.chain_id) = chain_id
        /\ Z.of_nat k <= r.(ImpactChainNodeRecord.ordering))
  /\ StronglySorted (key_le ImpactChainNodeRecord.ordering) ns.
Proof.
  revert k ns. induction l as [|n l IH]; intros k ns Hl; cbn.
  - intros [= <-]. split; [done|]. split; [by intros r ?%elem_of_nil|constructor].
  - intros (r & Hr & (rs & Hrs & [= <-])%bind_ok)%bind_ok.
    destruct (Hl n) as [Hn Hs]; [left|].
    destruct (node_roundtrip _ _ _ _ _ Hn Hs Hr) as (H1 & H2 & H3).
    destruct (IH (S k) rs) as (I1 & I2 & I3); [intros m Hm; apply Hl; by right|done|].
    split; [cbn; by rewrite H1, I1|]. split.
    + intros r' [->|Hr']%elem_of_cons; [split; [done|lia]|]. destruct (I2 _ Hr'). split; [done|lia].
    + constructor; [done|]. apply Forall_forall. intros r' Hr'. destruct (I2 _ Hr').
      unfold key_le. cbn. apply Z.leb_le. lia.
Qed.

Lemma edges_roundtrip chain_id now new_id l k es :
  (forall e, e ∈ l -> ImpactEdge.post_init e = Ok e) ->
  traverse (fun p => edge_record chain_id now (new_id p.1) p.2) (enumerate k l) = Ok es ->
  traverse edge_from_record es = Ok l
  /\ forall r, r ∈ es -> r.(ImpactChainEdgeRecord.chain_id) = chain_id.
Proof.
  revert k es. induction l as [|e l IH]; intros k es Hl; cbn.
  - intros [= <-]. split; [done|]. by intros r ?%elem_of_nil.
  - intros (r & Hr & (rs & Hrs & [= <-])%bind_ok)%bind_ok.
    destruct (edge_roundtrip chain_id now (new_id k) e r) as (H1 & H2); [apply Hl; left|exact Hr|].
    destruct (IH (S k) rs) as (I1 & I2); [intros m Hm; apply Hl; by right|done|].
    split; [cbn; by rewrite H1, I1|]. intros r' [->|Hr']%elem_of_cons; [done|by apply I2].
Qed.

Lemma filter_split {A} (f : A -> bool) l1 l2 :
  (forall x, x ∈ l1 -> f x = false) -> (forall x, x ∈ l2 -> f x = true) ->
  List.filter f (l1 ++ l2) = l2.
Proof.
  intros H1 H2. rewrite List.filter_app, (proj2 (filter_nil_bool f l1) H1). cbn.
  induction l2 as [|x l2 IH]; cbn; [done|]. rewrite H2 by left. f_equal. apply IH.
  intros y Hy. apply H2. by right.
Qed.

Lemma filter_other {A} (f : A -> bool) l1 l2 :
  (forall x, x ∈ l2 -> f x = false) -> List.filter f (l1 ++ l2) = List.filter f l1.
Proof.
  intros H. rewrite List.filter_app, (proj2 (filter_nil_bool f l2) H). by rewrite app_nil_r.
Qed.

(** The order of the edges makes no difference to the search for a cycle. *)
Lemma acyclic_perm nodes edges edges' :
  (forall e, e ∈ edges -> e.(ImpactEdge.to_node_id) ∈ nodes) -> edges' ≡ₚ edges ->
  has_cycle elements nodes edges = Some false -> has_cycle elements nodes edges' = Some false.
Proof.
  intros Hn Hp Hc.
  destruct (has_cycle_iff elements (fun X => reflexivity _) edges nodes Hn) as (b & Hb & Hiff).
  destruct (has_cycle_iff elements (fun X => reflexivity _) edges' nodes) as (b' & -> & Hiff').
  { intros e. rewrite Hp. apply Hn. }
  rewrite Hc in Hb. injection Hb as <-. destruct b'; [|done].
  destruct (proj1 Hiff' eq_refl) as [x Hx]. assert (false = true); [|done]. apply Hiff. exists x.
  assert (forall a b, edge edges' a b -> edge edges a b) as Hsub.
  { intros a b. rewrite !edge_iff. intros (e & He & H). exists e. by rewrite <-Hp. }
  assert (forall a b, tc (edge edges') a b -> tc (edge edges) a b) as Htc; [|by apply Htc].
  intros a b. induction 1 as [a b H|a b c H _ IH]; [by apply tc_once, Hsub|].
  eapply tc_l; [by apply Hsub|exact IH].
Qed.

Lemma rebuilt_constructed c edges :
  ImpactChain.post_init c = Ok c -> edges ≡ₚ c.(ImpactChain.edges) ->
  ImpactChain.post_init (rebuilt c edges) = Ok (rebuilt c edges).
Proof.
  rewrite !impact_chain_ok. unfold rebuilt, chain_ids. cbn. rewrite length_fmap, <-list_fmap_compose.
  intros (Hb & Hn & He & Hc & E) Hp. split; [done|]. split; [done|].
  split; [intros e; rewrite Hp; apply He|]. split.
  - eapply acyclic_perm; [|exact Hp|exact Hc]. intros e Hin.
    apply He, check_edge_ok in Hin as (_ & Ht & _). exact Ht.
  - f_equal. by apply (f_equal ImpactChain.chain_id) in E.
Qed.

(** A traversal of permuted rows gives the values permuted. *)
Lemma traverse_perm {A B} (f : A -> result B) l l' xs :
  traverse f l = Ok xs -> l' ≡ₚ l -> exists xs', traverse f l' = Ok xs' /\ xs' ≡ₚ xs.
Proof.
  intros Hx Hl. apply traverse_ok in Hx. symmetry in Hl.
  destruct (Permutation_Forall2 Hl Hx) as (xs' & Hp & H).
  exists xs'. rewrite traverse_ok. by split.
Qed.

(** The rows of a chain registered under a new id are the ones its registration wrote. *)
Lemma registered_rows `{O : EdgeOrder} db record ns es db' :
  foreign_keys db -> insert_chain db record ns es = Ok db' ->
  let id := record.(ImpactChainRecord.chain_id) in
  (forall n, n ∈ ns -> n.(ImpactChainNodeRecord.chain_id) = id) ->
  (forall e, e ∈ es -> e.(ImpactChainEdgeRecord.chain_id) = id) ->
  StronglySorted (key_le ImpactChainNodeRecord.ordering) ns ->
  get_chain db' id = (_ ← data_opaque_id id; Ok (Some record))
  /\ get_nodes db' id = (_ ← data_opaque_id id; Ok ns)
  /\ edges_of db' id = es
  /\ forall other, other <> id ->
       get_nodes db' other = get_nodes db other /\ edges_of db' other = edges_of db other.
Proof.
  intros [Kn Ke] (Hnew & -> & _ & _)%insert_chain_ok id Hn He Hs.
  unfold get_chain, get_nodes, edges_of. cbn -[sort_by data_opaque_id]. fold id in Hnew |- *.
  assert (forall k, is_Some (db.(Db.chains) !! k) -> k <> id) as Hk
    by (intros k [x Hx] ->; congruence).
  split; [by rewrite lookup_insert_eq|]. split; [|split].
  - rewrite filter_split, sort_by_sorted_id; [done|done|..]; intros n Hin.
    + by apply String.eqb_neq, Hk, Kn.
    + by apply String.eqb_eq, Hn.
  - apply filter_split; intros e Hin; [by apply String.eqb_neq, Hk, Ke|by apply String.eqb_eq, He].
  - intros other Hne. rewrite !filter_other; [done|..]; intros x Hin; apply String.eqb_neq.
    + by rewrite (He _ Hin).
    + by rewrite (Hn _ Hin).
Qed.

(** C25. A registered chain comes back as it was: the rows stored for a chain rebuild to that
    chain, its nodes in the order given, its edges in whatever order the database returns
    them, up to the provenance note of the nodes, under the run it was registered for; and
    registering it changes the rows of no other chain, nor leaves a row without its chain. *)
Theorem registered_chain_rebuilds `{O : EdgeOrder} db command resolver new_id now db' :
  let chain := command.(RegisterImpactChainCommand.chain) in
  foreign_keys db -> constructed chain ->
  register_impact_chain db command resolver new_id now = Ok db' ->
  foreign_keys db'
  /\ (exists record edges, get_chain db' chain.(ImpactChain.chain_id) = Ok (Some record)
        /\ record.(ImpactChainRecord.research_run_id)
           = command.(RegisterImpactChainCommand.research_run_id)
        /\ edges ≡ₚ chain.(ImpactChain.edges)
        /\ rebuild_impact_chain db' record = Ok (rebuilt chain edges))
  /\ forall other, other <> chain.(ImpactChain.chain_id) ->
      get_chain db' other = get_chain db other
      /\ get_nodes db' other = get_nodes db other /\ edges_of db' other = edges_of db other.
Proof.
  intros chain Hfk [Hc Hn He] H. unfold register_impact_chain in H. fold chain in H.
  apply bind_ok in H as (v & _ & H). do 2 apply raise_if_ok in H as [_ H].
  apply bind_ok in H as (ns & Hns & H). apply bind_ok in H as (es & Hes & H).
  apply bind_ok in H as (record & Hr%validated & H).
  pose proof (foreign_keys_insert _ _ _ _ _ Hfk H) as Hfk'.
  destruct (nodes_roundtrip _ _ _ _ _ Hn Hns) as (N1 & N2 & N3).
  destruct (edges_roundtrip _ _ _ _ _ _ He Hes) as (E1 & E2).
  assert (data_opaque_id chain.(ImpactChain.chain_id) = Ok chain.(ImpactChain.chain_id)) as Hid.
  { unfold data_opaque_id. apply impact_chain_ok in Hc as (Hb & _). by rewrite Hb. }
  assert (record.(ImpactChainRecord.chain_id) = chain.(ImpactChain.chain_id)) as Ei by (by rewrite Hr).
  destruct (registered_rows _ _ _ _ _ Hfk H) as (G1 & G2 & G3 & G4).
  { intros n Hin. rewrite Ei. by apply N2. }
  { intros e Hin. rewrite Ei. by apply E2. }
  { exact N3. }
  rewrite Ei, Hid in *. cbn in G1, G2. split; [done|]. split.
  - destruct (traverse_perm edge_from_record es (edge_order db' es) _ E1) as (edges & Hed & Hp);
      [apply edge_order_perm|].
    exists record, edges. split; [done|]. split; [by rewrite Hr|]. split; [done|].
    unfold rebuild_impact_chain, get_edges. rewrite Ei, G2, G3, Hid. cbn -[ImpactChain.post_init].
    rewrite N1, Hed. cbn -[ImpactChain.post_init]. by apply rebuilt_constructed.
  - intros other Hne. destruct (G4 other Hne) as [? ?]. split; [|done].
    apply insert_chain_ok in H as (_ & -> & _ & _). unfold get_chain. cbn.
    rewrite Ei, lookup_insert_ne by done. done.
Qed.

(** The kinds of impact the ledger can demonstrate. *)
Definition LEDGER_KINDS : list ImpactKind.t :=
  [ImpactKind.DATA_READ; ImpactKind.AUTH_BYPASS; ImpactKind.STATE_CORRUPTION].

Lemma post_init_capabilities p r :
  ProofRecord.post_init p = Ok r ->
  r.(ProofRecord.demonstrated_capabilities) = p.(ProofRecord.demonstrated_capabilities).
Proof.
  unfold ProofRecord.post_init. intros (? & _ & H)%bind_ok.
  apply bind_ok in H as (? & _ & H). by apply bind_ok in H as (? & _ & [= <-]).
Qed.

(** A capability comes from an evidence row, through its claim. *)
Lemma resolved_capability db run proof_id r c :
  resolve db proof_id run = Ok (Some r) -> c ∈ r.(ProofRecord.demonstrated_capabilities) ->
  exists e, db.(Db.evidence) !! proof_id = Some e
    /\ c ∈ default [] (assoc e.(EvidenceRecord.claim_scope) CLAIM_SCOPE_TO_CAPABILITIES).
Proof.
  unfold resolve. intros (_ & _ & H)%bind_ok Hc.
  destruct (Db.evidence db !! proof_id) as [e|].
  - apply bind_ok in H as (p & Hp & [= ->]). apply post_init_capabilities in Hp. exists e.
    split; [done|]. by rewrite Hp in Hc.
  - exfalso. destruct (Db.observations db !! proof_id) as [o|].
    + destruct (Db.worker_results db !! _) as [w|]; [|done].
      apply bind_ok in H as (p & Hp & [= ->]). apply post_init_capabilities in Hp.
      rewrite Hp in Hc. by apply elem_of_nil in Hc.
    + destruct (Db.experiments db !! proof_id) as [x|]; [|done].
      apply bind_ok in H as (p & Hp & [= ->]). apply post_init_capabilities in Hp.
      rewrite Hp in Hc. by apply elem_of_nil in Hc.
Qed.

Lemma claim_capability claim c :
  c ∈ default [] (assoc claim CLAIM_SCOPE_TO_CAPABILITIES) ->
  c = "READ_OTHER_OBJECT" /\ claim = HTTP_AUTHORIZATION_DIFFERENTIAL_CLAIM
  \/ c = "WORKFLOW_TRANSITION_WITHOUT_AUTH" /\ claim = HTTP_STATE_TRANSITION_CLAIM.
Proof.
  destruct (assoc claim _) as [cs|] eqn:E; cbn; [|by intros ?%elem_of_nil].
  apply assoc_Some_in in E. unfold CLAIM_SCOPE_TO_CAPABILITIES in E.
  apply elem_of_cons in E as [[= -> ->]|E].
  { intros ->%list_elem_of_singleton. by left. }
  apply list_elem_of_singleton in E as [= -> ->]. intros ->%list_elem_of_singleton. by right.
Qed.

(** What stands in the ledger demonstrates at most reading, bypassing authorization and
    corrupting state: an impact node that passes against the ledger claims one of these and
    cites evidence of the run with one of the two security claims. *)
Lemma ledger_impact_kinds db run node :
  demonstrated (resolve db) run node ->
  node.(ImpactNode.impact_kind) ∈ LEDGER_KINDS
  /\ exists proof_id e, proof_id ∈ node.(ImpactNode.proof_refs)
       /\ db.(Db.evidence) !! proof_id = Some e
       /\ e.(EvidenceRecord.claim_scope)
          ∈ [HTTP_AUTHORIZATION_DIFFERENTIAL_CLAIM; HTTP_STATE_TRANSITION_CLAIM].
Proof.
  intros (cs & Hcs & Hk).
  assert (forall c, c ∈ concat cs -> exists proof_id e, proof_id ∈ node.(ImpactNode.proof_refs)
    /\ db.(Db.evidence) !! proof_id = Some e
    /\ (c = "READ_OTHER_OBJECT"
           /\ e.(EvidenceRecord.claim_scope) = HTTP_AUTHORIZATION_DIFFERENTIAL_CLAIM
        \/ c = "WORKFLOW_TRANSITION_WITHOUT_AUTH"
           /\ e.(EvidenceRecord.claim_scope) = HTTP_STATE_TRANSITION_CLAIM)) as Hc.
  { intros c Hc. apply list_elem_of_In, in_concat in Hc as (l & Hl & Hc).
    apply list_elem_of_In in Hl, Hc. apply list_elem_of_lookup in Hl as [i Hl].
    destruct (Forall2_lookup_r _ _ _ _ _ Hcs Hl) as (p & Hp & r & Hr & _ & <-).
    destruct (resolved_capability _ _ _ _ _ Hr Hc) as (e & He & Hce).
    exists p, e. split; [by eapply list_elem_of_lookup_2|]. split; [done|]. by apply claim_capability. }
  assert (forall c, c ∈ concat cs ->
    exists proof_id e, proof_id ∈ node.(ImpactNode.proof_refs)
      /\ db.(Db.evidence) !! proof_id = Some e
      /\ e.(EvidenceRecord.claim_scope)
         ∈ [HTTP_AUTHORIZATION_DIFFERENTIAL_CLAIM; HTTP_STATE_TRANSITION_CLAIM]) as Hcite.
  { intros c (p & e & Hp & He & [[_ Hx]|[_ Hx]])%Hc; exists p, e; (split; [done|]);
      (split; [done|]); rewrite Hx; apply mem_true; reflexivity. }
  assert (forall c, c ∈ concat cs ->
    c = "READ_OTHER_OBJECT" \/ c = "WORKFLOW_TRANSITION_WITHOUT_AUTH") as Honly
    by (intros c (? & ? & _ & _ & [[? _]|[? _]])%Hc; auto).
  destruct node.(ImpactNode.impact_kind); cbn in Hk; destruct_and? Hk; destruct_or? Hk;
    try (match goal with H : _ ∈ concat cs |- _ => by destruct (Honly _ H) end);
    (split; [apply mem_true; reflexivity|by eapply Hcite]).
Qed.

(** ** A sample ledger *)

Definition sample_evidence (id claim : string) : EvidenceRecord.t :=
  EvidenceRecord.mk id "run" "h" "x" "a" "SUPPORTING" claim ["o"] ["s"] 0.

Definition sample_ledger : Db.t :=
  Db.mk {["run"]} {["program"]}
    {[ "e1" := sample_evidence "e1" HTTP_AUTHORIZATION_DIFFERENTIAL_CLAIM;
       "e2" := sample_evidence "e2" HTTP_STATE_TRANSITION_CLAIM ]}
    ∅ ∅ ∅ ∅ [] [].

Definition sample_edges : list ImpactEdge.t :=
  [sample_edge "read" "bypass"; sample_edge "bypass" "corrupt"].

Definition sample_command : RegisterImpactChainCommand.t :=
  RegisterImpactChainCommand.mk "chain" "run" "program" (sample_chain sample_edges) None.

Definition edge_name (n : nat) : string := "edge-" ++ pretty n.

Definition registered : Db.t :=
  match register_impact_chain sample_ledger sample_command (resolve sample_ledger) edge_name 0 with
  | Ok db => db
  | Raise _ => sample_ledger
  end.

Lemma sample_constructed : constructed (sample_chain sample_edges).
Proof.
  split; [vm_compute; reflexivity| |].
  - intros n Hn. cbn in Hn. repeat (apply elem_of_cons in Hn as [->|Hn]; [by split; vm_compute|]).
    by apply elem_of_nil in Hn.
  - intros e He. cbn in He. repeat (apply elem_of_cons in He as [->|He]; [by vm_compute|]).
    by apply elem_of_nil in He.
Qed.

(** The rows come back last first. *)
#[local] Instance reversed_order : EdgeOrder.
Proof. exact {| edge_order _ rows := reverse rows; edge_order_perm _ rows := reverse_Permutation rows |}. Defined.

Lemma registered_chain_rebuilds_witness :
  foreign_keys registered
  /\ exists record edges, get_chain registered "chain" = Ok (Some record)
     /\ edges ≡ₚ sample_edges
     /\ rebuild_impact_chain registered record = Ok (rebuilt (sample_chain sample_edges) edges).
Proof.
  destruct (registered_chain_rebuilds sample_ledger sample_command (resolve sample_ledger)
    edge_name 0 registered) as (H1 & (record & edges & H2 & _ & Hp & H3) & _).
  - split; intros ? ?%elem_of_nil; done.
  - exact sample_constructed.
  - vm_compute. reflexivity.
  - split; [exact H1|]. exists record, edges. split; [exact H2|]. split; [exact Hp|exact H3].
Defined.
