(* ===== verification/Float.v ===== *)
(** * Python floats

    A [float] is an IEEE 754 binary64 number.  The code computes with them in the normal
    range only (counts, hours, rates), where an operation returns the exact result rounded
    to 53 significant bits, ties to even; a finite float is the rational it denotes.  What
    the theorems need of rounding is that it is monotone and keeps what is representable. *)
From Stdlib Require Import QArith Qround Qpower Qabs Lqa.
From S2P Require Import Prelude.
#[local] Open Scope Q_scope.

(** ** Rounding *)

(** The nearest integer, a tie to the even one. *)
Definition round_half_even (x : Q) : Z :=
  let f := Qfloor x in
  let r := x - inject_Z f in
  match Qcompare r (1 # 2) with
  | Lt => f
  | Gt => (f + 1)%Z
  | Eq => if Z.even f then f else (f + 1)%Z
  end.

(** The binary exponent of a positive number. *)
Definition exponent (x : Q) : Z :=
  let e := (Z.log2 (Qnum x) - Z.log2 (Zpos (Qden x)))%Z in
  if Qle_bool (2 ^ e) x then e else (e - 1)%Z.

Definition round_positive (x : Q) : Q :=
  let ulp := 2 ^ (exponent x - 52) in
  inject_Z (round_half_even (x / ulp)) * ulp.

(** The float nearest to [x]. *)
Definition rnd (x : Q) : Q :=
  match Qcompare x 0 with
  | Eq => 0
  | Gt => round_positive x
  | Lt => - round_positive (- x)
  end.

(** [x] is a float. *)
Definition is_float (x : Q) : Prop := rnd x == x.

(** ** Integers *)

Lemma inject_succ f : inject_Z (f + 1) == inject_Z f + 1.
Proof. by rewrite inject_Z_plus. Qed.

Lemma inject_pred f : inject_Z (f - 1) == inject_Z f - 1.
Proof. unfold Z.sub. by rewrite inject_Z_plus. Qed.

Lemma round_half_even_spec x :
  let m := round_half_even x in
  inject_Z m - (1 # 2) <= x <= inject_Z m + (1 # 2)
  /\ (x == inject_Z m + (1 # 2) \/ x == inject_Z m - (1 # 2) -> Z.even m = true).
Proof.
  unfold round_half_even. pose proof (Qfloor_le x) as H1. pose proof (Qlt_floor x) as H2.
  set (f := Qfloor x) in *. pose proof (inject_succ f) as Hs.
  destruct (Qcompare_spec (x - inject_Z f) (1 # 2)) as [E|E|E].
  - destruct (Z.even f) eqn:Ev; cbn zeta.
    + split; [lra|]. done.
    + split; [lra|]. intros _.
      rewrite Z.even_add, Ev. done.
  - split; [lra|]. intros [H|H]; lra.
  - cbn zeta. split; [lra|]. intros [H|H]; lra.
Qed.

Lemma round_half_even_mono x y : x <= y -> (round_half_even x <= round_half_even y)%Z.
Proof.
  intros Hxy. destruct (round_half_even_spec x) as [[Lx Ux] Ex], (round_half_even_spec y) as [[Ly Uy] Ey].
  set (m := round_half_even x) in *. set (n := round_half_even y) in *.
  destruct (Z.le_gt_cases m n) as [|Hlt]; [done|]. exfalso.
  assert (inject_Z n + 1 <= inject_Z m) as Hi.
  { rewrite <-inject_succ, <-Zle_Qle. lia. }
  assert (Z.even m = true) as Em by (apply Ex; right; lra).
  assert (Z.even n = true) as En by (apply Ey; left; lra).
  assert (m = n + 1)%Z as ->.
  { apply Z.le_antisymm; [|lia]. rewrite Zle_Qle. pose proof (inject_succ n). lra. }
  rewrite Z.even_add, En in Em. done.
Qed.

Lemma round_half_even_Z x z : x == inject_Z z -> round_half_even x = z.
Proof.
  intros E. destruct (round_half_even_spec x) as [[L U] _]. set (m := round_half_even x) in *.
  assert (inject_Z m < inject_Z (z + 1)) as H1 by (pose proof (inject_succ z); lra).
  assert (inject_Z (z - 1) < inject_Z m) as H2.
  { pose proof (inject_pred z). lra. }
  rewrite <-Zlt_Qlt in H1, H2. lia.
Qed.

(** ** Powers of two *)

Lemma pow2_pos e : 0 < 2 ^ e.
Proof. apply Qpower_0_lt. lra. Qed.

Lemma pow2_add a b : 2 ^ (a + b) == 2 ^ a * 2 ^ b.
Proof. apply Qpower_plus. lra. Qed.

Lemma pow2_split a b c : (a = b + c)%Z -> 2 ^ a == 2 ^ b * 2 ^ c.
Proof. intros ->. apply pow2_add. Qed.

Lemma pow2_Z e : (0 <= e)%Z -> 2 ^ e == inject_Z (2 ^ e).
Proof. intros He. by rewrite Zpower_Qpower. Qed.

Lemma pow2_le a b : (a <= b)%Z -> 2 ^ a <= 2 ^ b.
Proof. intros H. apply Qpower_le_compat_l; [done|lra]. Qed.

Lemma exponent_spec x : 0 < x -> 2 ^ exponent x <= x < 2 ^ (exponent x + 1).
Proof.
  intros Hx. destruct x as [n d]. unfold Qlt in Hx. cbn in Hx.
  assert (0 < n)%Z as Hn by lia. clear Hx.
  unfold exponent. cbn [Qnum Qden].
  pose proof (Z.log2_spec n Hn) as [An Bn]. pose proof (Z.log2_spec (Zpos d) eq_refl) as [Ad Bd].
  pose proof (Z.log2_nonneg n) as Pn. pose proof (Z.log2_nonneg (Zpos d)) as Pd.
  set (a := Z.log2 n) in *. set (b := Z.log2 (Zpos d)) in *.
  assert (2 ^ a <= inject_Z n < 2 ^ (a + 1)) as [Na Nb].
  { rewrite !pow2_Z by lia. rewrite <-Zle_Qle, <-Zlt_Qlt. done. }
  assert (2 ^ b <= inject_Z (Zpos d) < 2 ^ (b + 1)) as [Da Db].
  { rewrite !pow2_Z by lia. rewrite <-Zle_Qle, <-Zlt_Qlt. done. }
  assert (0 < inject_Z (Zpos d)) as Dp by (rewrite <-(Zlt_Qlt 0); lia).
  assert (inject_Z n == (n # d) * inject_Z (Zpos d)) as En.
  { rewrite (Qmake_Qdiv n d). field. lra. }
  set (x := n # d) in *. set (D := inject_Z (Zpos d)) in *. set (N := inject_Z n) in *.
  assert (2 ^ a == 2 ^ (a - b) * 2 ^ b) as Ea by (apply pow2_split; lia).
  assert (2 ^ (a + 1) == 2 ^ (a - b + 1) * 2 ^ b) as Ea1 by (apply pow2_split; lia).
  assert (2 ^ a == 2 ^ (a - b - 1) * 2 ^ (b + 1)) as Ea2 by (apply pow2_split; lia).
  assert (x < 2 ^ (a - b + 1)) as Hu.
  { apply (Qmult_lt_r _ _ _ Dp). rewrite <-En. eapply Qlt_le_trans; [exact Nb|]. rewrite Ea1.
    apply Qmult_le_l; [apply pow2_pos|done]. }
  assert (2 ^ (a - b - 1) < x) as Hl.
  { apply (Qmult_lt_r _ _ _ Dp). rewrite <-En. eapply Qlt_le_trans; [|exact Na]. rewrite Ea2.
    apply Qmult_lt_l; [apply pow2_pos|done]. }
  destruct (Qle_bool (2 ^ (a - b)) x) eqn:E.
  - apply Qle_bool_iff in E. done.
  - replace (a - b - 1 + 1)%Z with (a - b)%Z by lia.
    split; [lra|]. apply Qnot_le_lt. intros H%Qle_bool_iff. congruence.
Qed.

(** The exponent grows with the number. *)
Lemma exponent_mono x y : 0 < x -> x <= y -> (exponent x <= exponent y)%Z.
Proof.
  intros Hx Hxy. assert (0 < y) as Hy by lra.
  destruct (exponent_spec x Hx) as [Lx _], (exponent_spec y Hy) as [_ Uy].
  destruct (Z.le_gt_cases (exponent x) (exponent y)) as [|Hlt]; [done|].
  pose proof (pow2_le (exponent y + 1) (exponent x) ltac:(lia)). lra.
Qed.

(** ** Rounding is monotone *)

Lemma scaled_bounds x e :
  2 ^ e <= x < 2 ^ (e + 1) ->
  inject_Z (2 ^ 52) <= x / 2 ^ (e - 52) < inject_Z (2 ^ 53).
Proof.
  intros [L U]. pose proof (pow2_pos (e - 52)) as Hu.
  assert (2 ^ e == inject_Z (2 ^ 52) * 2 ^ (e - 52)) as E1.
  { rewrite <-(pow2_Z 52) by lia. apply pow2_split. lia. }
  assert (2 ^ (e + 1) == inject_Z (2 ^ 53) * 2 ^ (e - 52)) as E2.
  { rewrite <-(pow2_Z 53) by lia. apply pow2_split. lia. }
  split.
  - apply Qle_shift_div_l; [done|]. by rewrite <-E1.
  - apply Qlt_shift_div_r; [done|]. by rewrite <-E2.
Qed.

(** What is rounded stays in its binade. *)
Lemma round_positive_binade x :
  0 < x -> 2 ^ exponent x <= round_positive x <= 2 ^ (exponent x + 1).
Proof.
  intros Hx. pose proof (exponent_spec x Hx) as He. set (e := exponent x) in *.
  destruct (scaled_bounds x e He) as [L U]. unfold round_positive. fold e.
  pose proof (pow2_pos (e - 52)) as Hu.
  assert (2 ^ e == inject_Z (2 ^ 52) * 2 ^ (e - 52)) as E1.
  { rewrite <-(pow2_Z 52) by lia. apply pow2_split. lia. }
  assert (2 ^ (e + 1) == inject_Z (2 ^ 53) * 2 ^ (e - 52)) as E2.
  { rewrite <-(pow2_Z 53) by lia. apply pow2_split. lia. }
  assert (round_half_even (inject_Z (2 ^ 52)) = 2 ^ 52)%Z as R1 by by apply round_half_even_Z.
  assert (round_half_even (inject_Z (2 ^ 53)) = 2 ^ 53)%Z as R2 by by apply round_half_even_Z.
  pose proof (round_half_even_mono _ _ L) as M1. rewrite R1 in M1.
  pose proof (round_half_even_mono _ _ (Qlt_le_weak _ _ U)) as M2. rewrite R2 in M2.
  rewrite E1, E2. split; apply Qmult_le_compat_r; try (by apply Qlt_le_weak); by rewrite <-Zle_Qle.
Qed.

Lemma round_positive_mono x y : 0 < x -> x <= y -> round_positive x <= round_positive y.
Proof.
  intros Hx Hxy. assert (0 < y) as Hy by lra.
  pose proof (exponent_mono x y Hx Hxy) as He.
  destruct (Z.le_gt_cases (exponent y) (exponent x)) as [Hle|Hlt].
  - assert (exponent x = exponent y) as E by lia. unfold round_positive. rewrite E.
    pose proof (pow2_pos (exponent y - 52)) as Hu.
    apply Qmult_le_compat_r; [|by apply Qlt_le_weak]. rewrite <-Zle_Qle.
    apply round_half_even_mono. apply Qmult_le_compat_r; [done|].
    apply Qlt_le_weak, Qinv_lt_0_compat. done.
  - destruct (round_positive_binade x Hx) as [_ Ux], (round_positive_binade y Hy) as [Ly _].
    pose proof (pow2_le (exponent x + 1) (exponent y) ltac:(lia)). lra.
Qed.

Lemma round_positive_pos x : 0 < x -> 0 < round_positive x.
Proof.
  intros Hx. destruct (round_positive_binade x Hx) as [L _]. pose proof (pow2_pos (exponent x)). lra.
Qed.

Lemma rnd_mono x y : x <= y -> rnd x <= rnd y.
Proof.
  intros Hxy. unfold rnd.
  destruct (Qcompare_spec x 0) as [Ex|Ex|Ex], (Qcompare_spec y 0) as [Ey|Ey|Ey]; try lra.
  - apply Qlt_le_weak, round_positive_pos. lra.
  - pose proof (round_positive_pos (- x) ltac:(lra)). lra.
  - pose proof (round_positive_mono (- y) (- x) ltac:(lra) ltac:(lra)). lra.
  - pose proof (round_positive_pos (- x) ltac:(lra)). pose proof (round_positive_pos y ltac:(lra)). lra.
  - by apply round_positive_mono.
Qed.

Lemma rnd_0 : rnd 0 = 0.
Proof. reflexivity. Qed.

#[global] Instance rnd_proper : Proper (Qeq ==> Qeq) rnd.
Proof. intros x y E. apply Qle_antisym; apply rnd_mono; lra. Qed.

(** Rounding respects what is representable. *)
Lemma rnd_ge f x : is_float f -> f <= x -> f <= rnd x.
Proof. intros Hf Hx%rnd_mono. unfold is_float in Hf. lra. Qed.

Lemma rnd_le f x : is_float f -> x <= f -> rnd x <= f.
Proof. intros Hf Hx%rnd_mono. unfold is_float in Hf. lra. Qed.

(** ** The operations the code uses *)

(** [a / b] of two integers below 2^53. *)
Definition true_div (a b : Z) : result Q :=
  raise_if (b =? 0)%Z as ZeroDivisionError;;
  Ok (rnd (inject_Z a / inject_Z b)).

(** [int(x)]: towards zero. *)
Definition trunc (x : Q) : Z := Z.quot (Qnum x) (Zpos (Qden x)).

Lemma trunc_bounds x a b :
  (0 <= a)%Z -> inject_Z a <= x -> x <= inject_Z b -> (a <= trunc x <= b)%Z.
Proof.
  destruct x as [n d]. unfold Qle. cbn. rewrite !Z.mul_1_r. intros Ha Hl Hu. unfold trunc. cbn.
  rewrite Z.quot_div_nonneg by lia. split; [apply Z.div_le_lower_bound; lia|].
  apply Z.div_le_upper_bound; lia.
Qed.

Lemma trunc_mono x y : 0 <= x -> x <= y -> (trunc x <= trunc y)%Z.
Proof.
  destruct x as [n d], y as [m e]. unfold Qle, trunc. cbn. rewrite Z.mul_1_r. intros Hn H.
  assert (0 <= m)%Z as Hm by nia.
  rewrite !Z.quot_div_nonneg by lia. apply Z.div_le_lower_bound; [lia|].
  pose proof (Z.mul_div_le n (Zpos d) ltac:(lia)). nia.
Qed.

Lemma trunc_neg x : x <= 0 -> (trunc x <= 0)%Z.
Proof.
  destruct x as [n d]. unfold Qle, trunc. cbn. intros H.
  rewrite <-(Z.opp_involutive n), Z.quot_opp_l by lia.
  pose proof (Z.quot_pos (- n) (Zpos d) ltac:(lia) ltac:(lia)). lia.
Qed.
