(* ===== verification/Validation.v ===== *)
(** * Validation tiers, severity and the family circuit breaker

    [research/validation/]: which validation tiers a candidate must have passed
    ([tier_gate.py]), how severe demonstrated impact is and how far a caller may raise it
    ([severity.py]), when a noisy hunter family is throttled ([circuit_breaker.py]); and
    [application/validation_audit.py], which reads the tiers from the audit events. *)
From Stdlib Require Import QArith Lqa.
From S2P Require Import Prelude PyVal Float CoreTypes Candidate Records FindingRecords Impact.
#[local] Open Scope Z_scope.

(** ** Tiers *)

(** [research/validation/tier_gate.py:17-20 ValidationTier] *)
Module ValidationTier.
Inductive t : Set := V1 | V2 | V3.
#[global] Instance eq_dec : EqDecision t.
Proof. solve_decision. Defined.
Definition value (x : t) : string := match x with V1 => "V1" | V2 => "V2" | V3 => "V3" end.
Definition of_value : string -> result t := enum_of value [V1; V2; V3].
End ValidationTier.

(** [research/validation/tier_gate.py:23-27 ValidationTierOutcome] *)
Module ValidationTierOutcome.
Inductive t : Set := PASSED | REJECTED | INCONCLUSIVE | QUEUED.
#[global] Instance eq_dec : EqDecision t.
Proof. solve_decision. Defined.
Definition value (x : t) : string :=
  match x with
  | PASSED => "PASSED" | REJECTED => "REJECTED" | INCONCLUSIVE => "INCONCLUSIVE"
  | QUEUED => "QUEUED"
  end.
Definition of_value : string -> result t :=
  enum_of value [PASSED; REJECTED; INCONCLUSIVE; QUEUED].
End ValidationTierOutcome.

(** [research/validation/tier_gate.py:30-34 ValidationAdmissionOutcome] *)
Module ValidationAdmissionOutcome.
Inductive t : Set :=
  | ADMITTED | REJECTED_MISSING_REQUIRED_TIER | REJECTED_TIER_NOT_PASSED
  | REJECTED_UNKNOWN_REQUIRED_TIER.
#[global] Instance eq_dec : EqDecision t.
Proof. solve_decision. Defined.
Definition value (x : t) : string :=
  match x with
  | ADMITTED => "ADMITTED"
  | REJECTED_MISSING_REQUIRED_TIER => "REJECTED_MISSING_REQUIRED_TIER"
  | REJECTED_TIER_NOT_PASSED => "REJECTED_TIER_NOT_PASSED"
  | REJECTED_UNKNOWN_REQUIRED_TIER => "REJECTED_UNKNOWN_REQUIRED_TIER"
  end.
End ValidationAdmissionOutcome.

(** Every tier has an entry, so the [get] never misses.
    [research/validation/tier_gate.py:37-41 _REQUIRED_CHAIN] *)
Definition REQUIRED_CHAIN (tier : ValidationTier.t) : list ValidationTier.t :=
  match tier with
  | ValidationTier.V1 => [ValidationTier.V1]
  | ValidationTier.V2 => [ValidationTier.V1; ValidationTier.V2]
  | ValidationTier.V3 => [ValidationTier.V1; ValidationTier.V2; ValidationTier.V3]
  end.

(** [research/validation/tier_gate.py:45-61 ValidationAdmissionDecision] *)
Module ValidationAdmissionDecision.
Record t : Set := mk {
  outcome : ValidationAdmissionOutcome.t;
  admitted : bool;
  required_tiers : list ValidationTier.t;
  reason_codes : list string }.
End ValidationAdmissionDecision.

(** [research/validation/tier_gate.py:116-122 _coerce_tier] *)
Definition coerce_tier (value : member_or_text ValidationTier.t) : result ValidationTier.t :=
  coerce ValidationTier.of_value value.

(** [research/validation/tier_gate.py:125-131 _coerce_outcome] *)
Definition coerce_outcome (value : member_or_text ValidationTierOutcome.t)
    : result ValidationTierOutcome.t :=
  coerce ValidationTierOutcome.of_value value.

(** The item list of the mapping; of a tier named twice, by the member and by its text, the
    later item counts. *)
Definition Observed : Type :=
  list (member_or_text ValidationTier.t * member_or_text ValidationTierOutcome.t).

(** [research/validation/tier_gate.py:84-87 validate_required_tiers] *)
Definition normalize (observed : Observed)
    : result (list (ValidationTier.t * ValidationTierOutcome.t)) :=
  traverse (fun p : member_or_text ValidationTier.t * member_or_text ValidationTierOutcome.t =>
    k ← coerce_tier p.1; v ← coerce_outcome p.2; Ok (k, v)) observed.

Definition outcome_of (normalized : list (ValidationTier.t * ValidationTierOutcome.t))
    (tier : ValidationTier.t) : option ValidationTierOutcome.t :=
  snd <$> List.find (fun p => bool_decide (p.1 = tier)) (rev normalized).

(** [research/validation/tier_gate.py:64-113 validate_required_tiers] *)
Definition validate_required_tiers (required_tier : member_or_text ValidationTier.t)
    (observed_outcomes : Observed) : result ValidationAdmissionDecision.t :=
  tier ← coerce_tier required_tier;
  let required := REQUIRED_CHAIN tier in
  normalized ← normalize observed_outcomes;
  let missing :=
    List.filter (fun i => bool_decide (outcome_of normalized i = None)) required in
  if negb (bool_decide (missing = []))
  then Ok (ValidationAdmissionDecision.mk
             ValidationAdmissionOutcome.REJECTED_MISSING_REQUIRED_TIER false required
             ((fun i => ValidationTier.value i +:+ "_MISSING") <$> missing))
  else
    let not_passed :=
      List.filter (fun i => negb (bool_decide (outcome_of normalized i
                                               = Some ValidationTierOutcome.PASSED))) required in
    if negb (bool_decide (not_passed = []))
    then Ok (ValidationAdmissionDecision.mk
               ValidationAdmissionOutcome.REJECTED_TIER_NOT_PASSED false required
               ((fun i => ValidationTier.value i +:+ "_"
                          +:+ match outcome_of normalized i with
                              | Some o => ValidationTierOutcome.value o
                              | None => ""
                              end) <$> not_passed))
    else Ok (ValidationAdmissionDecision.mk ValidationAdmissionOutcome.ADMITTED true required
               ["VALIDATION_TIERS_PASSED"]).

(** ** The tiers in the audit events: [application/validation_audit.py] *)

(** [application/validation_audit.py:23-26 SECURITY_CANDIDATE_REQUIRED_TIER] *)
Definition SECURITY_CANDIDATE_REQUIRED_TIER : list (string * ValidationTier.t) :=
  [ (HTTP_AUTHORIZATION_DIFFERENTIAL_CLASSIFICATION, ValidationTier.V3);
    (HTTP_STATE_TRANSITION_CLASSIFICATION, ValidationTier.V3) ].

(** [payload.get(key) in {...}] for text: a list or a dict in the payload cannot be hashed. *)
Definition in_str_set (v : pyval) (l : list string) : result bool :=
  match v with
  | PStr s => Ok (mem s l)
  | PList _ | PDict _ => Raise TypeError
  | _ => Ok false
  end.

(** The filter of [latest_tier_events]; [list_for_subject_type] gives the events about
    hypotheses.
    [application/validation_audit.py:83-90 latest_tier_events] *)
Definition is_tier_event (research_run_id hypothesis_id : string) (e : AuditEventRecord.t)
    : result bool :=
  if (e.(AuditEventRecord.subject_type) =? "hypothesis")%string
     && (e.(AuditEventRecord.subject_id) =? hypothesis_id)%string
     && bool_decide (e.(AuditEventRecord.correlation_id) = Some research_run_id)
  then tier ← in_str_set (dict_get "tier" e.(AuditEventRecord.payload)) ["V1"; "V2"; "V3"];
       match tier with
       | true => in_str_set (dict_get "outcome" e.(AuditEventRecord.payload))
                   ["PASSED"; "REJECTED"; "INCONCLUSIVE"; "QUEUED"]
       | false => Ok false
       end
  else Ok false.

Definition text_of (v : pyval) : string := match v with PStr s => s | _ => "" end.

(** The latest event of each tier, as an item list with the latest binding last.
    [application/validation_audit.py:77-94 latest_tier_events] *)
Definition latest_tier_events (audit_events : list AuditEventRecord.t)
    (research_run_id hypothesis_id : string)
    : result (list (ValidationTier.t * AuditEventRecord.t)) :=
  events ← filter_result (is_tier_event research_run_id hypothesis_id) audit_events;
  traverse (fun e =>
      tier ← ValidationTier.of_value (text_of (dict_get "tier" e.(AuditEventRecord.payload)));
      Ok (tier, e))
    (sort_by (fun e => (e.(AuditEventRecord.occurred_at), e.(AuditEventRecord.audit_event_id)))
       events).

(** The outcome each of the latest events names.
    [application/validation_audit.py:103-110 latest_tier_outcomes] *)
Definition outcomes_of (latest : list (ValidationTier.t * AuditEventRecord.t))
    : result (list (ValidationTier.t * ValidationTierOutcome.t)) :=
  traverse (fun p : ValidationTier.t * AuditEventRecord.t =>
      o ← ValidationTierOutcome.of_value
            (text_of (dict_get "outcome" p.2.(AuditEventRecord.payload)));
      Ok (p.1, o)) latest.

(** [application/validation_audit.py:97-110 latest_tier_outcomes] *)
Definition latest_tier_outcomes (audit_events : list AuditEventRecord.t)
    (research_run_id hypothesis_id : string)
    : result (list (ValidationTier.t * ValidationTierOutcome.t)) :=
  latest ← latest_tier_events audit_events research_run_id hypothesis_id;
  outcomes_of latest.

Definition as_members (l : list (ValidationTier.t * ValidationTierOutcome.t)) : Observed :=
  (fun p : ValidationTier.t * ValidationTierOutcome.t => (Member p.1, Member p.2)) <$> l.

(** The decision is [None] for a diagnostic candidate.
    [application/validation_audit.py:29-46 ValidationAuditView] *)
Module ValidationAuditView.
Record t : Type := mk {
  decision : option ValidationAdmissionDecision.t;
  latest_events : list (ValidationTier.t * AuditEventRecord.t) }.

(** [decision is not None and decision.admitted] *)
Definition admitted (x : t) : bool :=
  match x.(decision) with
  | Some d => d.(ValidationAdmissionDecision.admitted)
  | None => false
  end.
End ValidationAuditView.

(** [application/validation_audit.py:49-74 read_validation_audit_view] *)
Definition read_validation_audit_view (audit_events : list AuditEventRecord.t)
    (candidate : CandidateRecord.t) : result ValidationAuditView.t :=
  if (candidate.(CandidateRecord.classification) =? DIAGNOSTIC_CANDIDATE_CLASSIFICATION)%string
  then Ok (ValidationAuditView.mk None [])
  else
    latest ← latest_tier_events audit_events candidate.(CandidateRecord.research_run_id)
               candidate.(CandidateRecord.hypothesis_id);
    observed ← outcomes_of latest;
    decision ←
      match assoc candidate.(CandidateRecord.classification) SECURITY_CANDIDATE_REQUIRED_TIER with
      | None => validate_required_tiers (Member ValidationTier.V3) []
      | Some tier => validate_required_tiers (Member tier) (as_members observed)
      end;
    Ok (ValidationAuditView.mk (Some decision) latest).

(** ** Severity *)

(** [research/validation/severity.py:16-20 InternalSeverity] *)
Module InternalSeverity.
Inductive t : Set := P0 | P1 | P2 | P3.
#[global] Instance eq_dec : EqDecision t.
Proof. solve_decision. Defined.
Definition value (x : t) : string :=
  match x with P0 => "P0" | P1 => "P1" | P2 => "P2" | P3 => "P3" end.
End InternalSeverity.

(** [research/validation/severity.py:23-25 ValidationState] *)
Module ValidationState.
Inductive t : Set := PASSED | NOT_PASSED.
#[global] Instance eq_dec : EqDecision t.
Proof. solve_decision. Defined.
Definition value (x : t) : string :=
  match x with PASSED => "PASSED" | NOT_PASSED => "NOT_PASSED" end.
Definition of_value : string -> result t := enum_of value [PASSED; NOT_PASSED].
End ValidationState.

(** [research/validation/severity.py:28-30 ScopeState] *)
Module ScopeState.
Inductive t : Set := IN_SCOPE | NOT_IN_SCOPE.
#[global] Instance eq_dec : EqDecision t.
Proof. solve_decision. Defined.
Definition value (x : t) : string :=
  match x with IN_SCOPE => "IN_SCOPE" | NOT_IN_SCOPE => "NOT_IN_SCOPE" end.
Definition of_value : string -> result t := enum_of value [IN_SCOPE; NOT_IN_SCOPE].
End ScopeState.

(** The event of the tier that is still bound when the dict is built. *)
Definition event_of (latest : list (ValidationTier.t * AuditEventRecord.t))
    (tier : ValidationTier.t) : option AuditEventRecord.t :=
  snd <$> List.find (fun p => bool_decide (p.1 = tier)) (rev latest).

(** [str(payload.get("scope_state") or payload.get("scope_classification") or "") ==
    "IN_SCOPE"]: no other value reads like that text.
    [application/validation_audit.py:39-43 ValidationAuditView.scope_state] *)
Definition says_in_scope (e : AuditEventRecord.t) : bool :=
  let state := dict_get "scope_state" e.(AuditEventRecord.payload) in
  if truthy state then eq_str state "IN_SCOPE"
  else eq_str (dict_get "scope_classification" e.(AuditEventRecord.payload)) "IN_SCOPE".

(** [application/validation_audit.py:34-46 ValidationAuditView.scope_state] *)
Definition scope_state (x : ValidationAuditView.t) : ScopeState.t :=
  if negb (ValidationAuditView.admitted x) then ScopeState.NOT_IN_SCOPE
  else
    let observed :=
      omap (event_of x.(ValidationAuditView.latest_events))
        [ValidationTier.V1; ValidationTier.V2; ValidationTier.V3] in
    if existsb says_in_scope observed then ScopeState.IN_SCOPE else ScopeState.NOT_IN_SCOPE.

(** [research/validation/severity.py:34-46 PlatformSeverityMapping] *)
Module PlatformSeverityMapping.
Record t : Set := mk {
  internal : InternalSeverity.t;
  bugcrowd_priority : string;
  hackerone_severity : string;
  vrt_category : string }.
End PlatformSeverityMapping.

(** [research/validation/severity.py:108-133 _PLATFORM_MAPPING] *)
Definition PLATFORM_MAPPING (s : InternalSeverity.t) : PlatformSeverityMapping.t :=
  match s with
  | InternalSeverity.P0 =>
      PlatformSeverityMapping.mk InternalSeverity.P0 "P1" "Critical"
        "Server Security Misconfiguration / Privilege Escalation"
  | InternalSeverity.P1 =>
      PlatformSeverityMapping.mk InternalSeverity.P1 "P2" "High" "Broken Access Control"
  | InternalSeverity.P2 =>
      PlatformSeverityMapping.mk InternalSeverity.P2 "P3" "Medium" "Sensitive Data Exposure"
  | InternalSeverity.P3 =>
      PlatformSeverityMapping.mk InternalSeverity.P3 "P4" "Low" "Low Impact Security Weakness"
  end.

(** [research/validation/severity.py:248-251 _require_choice] *)
Definition require_choice (value : string) (allowed : list string) : result string :=
  raise_if negb (mem value allowed) as ResearchInputError;;
  Ok value.

(** The arguments of the constructor, and the object it builds.
    [research/validation/severity.py:50-84 SeverityInput] *)
Module SeverityInput.
Record args : Type := mk_args {
  arg_validation_state : member_or_text ValidationState.t;
  arg_scope_state : member_or_text ScopeState.t;
  arg_impact_kinds : list (member_or_text ImpactKind.t);
  arg_data_sensitivity : string;
  arg_affected_scope : string }.

Record t : Set := mk {
  validation_state : ValidationState.t;
  scope_state : ScopeState.t;
  impact_kinds : list ImpactKind.t;
  data_sensitivity : string;
  affected_scope : string }.

Definition post_init (x : args) : result t :=
  v ← coerce ValidationState.of_value x.(arg_validation_state);
  s ← coerce ScopeState.of_value x.(arg_scope_state);
  kinds ← traverse (coerce ImpactKind.of_value) x.(arg_impact_kinds);
  d ← require_choice x.(arg_data_sensitivity) ["NONE"; "LOW"; "SENSITIVE"; "BULK_SENSITIVE"];
  a ← require_choice x.(arg_affected_scope) ["SINGLE_USER"; "MULTI_USER"; "ADMIN"; "INFRASTRUCTURE"];
  Ok (mk v s kinds d a).
End SeverityInput.

(** [research/validation/severity.py:88-105 SeverityResult] *)
Module SeverityResult.
Record t : Set := mk {
  severity : option InternalSeverity.t;
  platform_mapping : option PlatformSeverityMapping.t;
  reason_codes : list string }.
End SeverityResult.

Definition scored_as (s : InternalSeverity.t) (reason : string) : SeverityResult.t :=
  SeverityResult.mk (Some s) (Some (PLATFORM_MAPPING s)) [reason].

(** [research/validation/severity.py:136-185 classify_severity] *)
Definition classify_severity (signal : SeverityInput.t) : SeverityResult.t :=
  let has kind := mem kind signal.(SeverityInput.impact_kinds) in
  if negb (bool_decide (signal.(SeverityInput.validation_state) = ValidationState.PASSED))
  then SeverityResult.mk None None ["SEVERITY_REJECTED_VALIDATION_NOT_PASSED"]
  else if negb (bool_decide (signal.(SeverityInput.scope_state) = ScopeState.IN_SCOPE))
  then SeverityResult.mk None None ["SEVERITY_REJECTED_NOT_IN_SCOPE"]
  else if bool_decide (signal.(SeverityInput.impact_kinds) = [])
  then scored_as InternalSeverity.P3 "NO_DEMONSTRATED_IMPACT"
  else if has ImpactKind.ACCOUNT_TAKEOVER_PATH
          || mem signal.(SeverityInput.affected_scope) ["ADMIN"; "INFRASTRUCTURE"]
          || (signal.(SeverityInput.data_sensitivity) =? "BULK_SENSITIVE")%string
  then scored_as InternalSeverity.P0 "TERMINAL_OR_BULK_IMPACT"
  else if has ImpactKind.AUTH_BYPASS || has ImpactKind.DATA_WRITE
          || has ImpactKind.STATE_CORRUPTION
          || (signal.(SeverityInput.data_sensitivity) =? "SENSITIVE")%string
  then scored_as InternalSeverity.P1 "HIGH_VALUE_AUTH_OR_WRITE_IMPACT"
  else if has ImpactKind.DATA_READ
  then scored_as InternalSeverity.P2 "BOUNDED_DATA_READ_IMPACT"
  else scored_as InternalSeverity.P3 "LOW_OR_EXTERNAL_CALLBACK_ONLY_IMPACT".

(** [research/validation/severity.py:188-193 _SEVERITY_RANK] *)
Definition SEVERITY_RANK (s : InternalSeverity.t) : Z :=
  match s with
  | InternalSeverity.P0 => 0 | InternalSeverity.P1 => 1 | InternalSeverity.P2 => 2
  | InternalSeverity.P3 => 3
  end.

(** [research/validation/severity.py:196-218 bound_severity] *)
Definition bound_severity (demonstrated requested : SeverityResult.t) : SeverityResult.t :=
  match demonstrated.(SeverityResult.severity), requested.(SeverityResult.severity) with
  | None, _ => demonstrated
  | Some _, None => requested
  | Some d, Some r =>
      if SEVERITY_RANK r <? SEVERITY_RANK d
      then SeverityResult.mk (Some d) demonstrated.(SeverityResult.platform_mapping)
             (demonstrated.(SeverityResult.reason_codes) ++ ["CALLER_SEVERITY_CLAMPED"])
      else requested
  end.

(** ** The circuit breaker *)

(** [research/validation/circuit_breaker.py:14-16 CircuitBreakerAction] *)
Module CircuitBreakerAction.
Inductive t : Set := ALLOW | THROTTLE.
#[global] Instance eq_dec : EqDecision t.
Proof. solve_decision. Defined.
End CircuitBreakerAction.

(** The threshold is a finite float: a NaN or an infinity fails the range test.
    [research/validation/circuit_breaker.py:20-59 FamilyTelemetry] *)
Module FamilyTelemetry.
Record t : Set := mk {
  family_id : string;
  supported_count : Z;
  rejected_count : Z;
  inconclusive_count : Z;
  minimum_sample : Z;
  bad_outcome_threshold : Q }.

Definition post_init (x : t) : result t :=
  raise_if Str.is_blank x.(family_id) as ResearchInputError;;
  raise_if (x.(supported_count) <? 0) || (x.(rejected_count) <? 0)
           || (x.(inconclusive_count) <? 0) || (x.(minimum_sample) <? 0)
  as ResearchInputError;;
  raise_if x.(minimum_sample) <? 1 as ResearchInputError;;
  raise_if Qle_bool x.(bad_outcome_threshold) 0 || negb (Qle_bool x.(bad_outcome_threshold) 1)
  as ResearchInputError;;
  Ok x.

#[global] Instance post_init_validator : Validator post_init.
Proof. solve_validator. Qed.

(** [research/validation/circuit_breaker.py:48-49 FamilyTelemetry.total_count] *)
Definition total_count (x : t) : Z :=
  x.(supported_count) + x.(rejected_count) + x.(inconclusive_count).

(** [research/validation/circuit_breaker.py:52-53 FamilyTelemetry.bad_outcome_count] *)
Definition bad_outcome_count (x : t) : Z := x.(rejected_count) + x.(inconclusive_count).

(** [research/validation/circuit_breaker.py:56-59 FamilyTelemetry.bad_outcome_rate] *)
Definition bad_outcome_rate (x : t) : result Q :=
  if total_count x =? 0 then Ok 0%Q else true_div (bad_outcome_count x) (total_count x).
End FamilyTelemetry.

(** [research/validation/circuit_breaker.py:63-84 CircuitBreakerDecision] *)
Module CircuitBreakerDecision.
Record t : Set := mk {
  action : CircuitBreakerAction.t;
  throttle : bool;
  disable_family : bool;
  requires_human_review_to_restore : bool;
  bad_outcome_rate : Q;
  reason_codes : list string }.
End CircuitBreakerDecision.

(** [research/validation/circuit_breaker.py:87-117 evaluate_family_circuit_breaker] *)
Definition evaluate_family_circuit_breaker (telemetry : FamilyTelemetry.t)
    : result CircuitBreakerDecision.t :=
  rate ← FamilyTelemetry.bad_outcome_rate telemetry;
  if FamilyTelemetry.total_count telemetry <? telemetry.(FamilyTelemetry.minimum_sample)
  then Ok (CircuitBreakerDecision.mk CircuitBreakerAction.ALLOW false false false rate
             ["INSUFFICIENT_SAMPLE_ALLOW"])
  else if Qle_bool telemetry.(FamilyTelemetry.bad_outcome_threshold) rate
  then Ok (CircuitBreakerDecision.mk CircuitBreakerAction.THROTTLE true false true rate
             ["FAMILY_BAD_OUTCOME_RATE_THROTTLE"; "FAMILY_NOT_DISABLED"])
  else Ok (CircuitBreakerDecision.mk CircuitBreakerAction.ALLOW false false false rate
             ["FAMILY_TELEMETRY_WITHIN_LIMIT"]).

(** ** Tiers: what admission means *)

Lemma normalize_members l : normalize (as_members l) = Ok l.
Proof.
  unfold normalize, as_members. induction l as [|[k v] l IH]; [done|].
  cbn in *. by rewrite IH.
Qed.

Lemma validate_required_tiers_admitted tier l :
  exists d, validate_required_tiers (Member tier) (as_members l) = Ok d
    /\ (d.(ValidationAdmissionDecision.admitted) = true
        <-> forall i, i ∈ REQUIRED_CHAIN tier ->
              outcome_of l i = Some ValidationTierOutcome.PASSED).
Proof.
  unfold validate_required_tiers. cbn [coerce_tier coerce mbind result_bind].
  rewrite normalize_members. cbn [mbind result_bind].
  case_bool_decide as Hm; cbn [negb].
  - case_bool_decide as Hn; cbn [negb]; eexists; (split; [done|]); cbn.
    + split; [intros _|done]. intros i Hi.
      rewrite filter_nil_bool in Hn. specialize (Hn i Hi).
      by apply negb_false_iff, bool_decide_eq_true in Hn.
    + split; [done|]. intros H. destruct Hn. apply filter_nil_bool. intros i Hi.
      by apply negb_false_iff, bool_decide_eq_true, H.
  - eexists; split; [done|]. cbn. split; [done|]. intros H. destruct Hm.
    apply filter_nil_bool. intros i Hi. apply bool_decide_eq_false. by rewrite (H i Hi).
Qed.

Definition event_key (e : AuditEventRecord.t) : Z * string :=
  (e.(AuditEventRecord.occurred_at), e.(AuditEventRecord.audit_event_id)).

(** [e] is the latest event of [tier] for the hypothesis in the run. *)
Definition latest_of (events : list AuditEventRecord.t) (run hyp : string)
    (tier : ValidationTier.t) (e : AuditEventRecord.t) : Prop :=
  let of_tier e := is_tier_event run hyp e = Ok true
    /\ dict_get "tier" e.(AuditEventRecord.payload) = PStr (ValidationTier.value tier) in
  e ∈ events /\ of_tier e
  /\ forall e', e' ∈ events -> of_tier e' -> kle (event_key e') (event_key e) = true.

Lemma filter_result_ok {A} (f : A -> result bool) l l' :
  filter_result f l = Ok l' -> forall x, x ∈ l' <-> x ∈ l /\ f x = Ok true.
Proof.
  revert l'. induction l as [|y l IH]; intros l'; cbn.
  - intros [= <-] x. split; [by intros ?%elem_of_nil|by intros [?%elem_of_nil _]].
  - intros (b & Hb & (r & Hr & [= <-])%bind_ok)%bind_ok x. specialize (IH _ Hr x).
    destruct b; rewrite ?elem_of_cons, IH; (split; [intros; destruct_or?; destruct_and?; subst; auto|]);
      intros [[->|Hx] Hf]; auto; congruence.
Qed.

Lemma last_find_sorted {A B} (key : A -> Z * string) (tag : A -> B) (good : B -> bool) l b x :
  StronglySorted (key_le key) l ->
  List.find (fun p => good p.1) (rev ((fun e => (tag e, e)) <$> l)) = Some (b, x) ->
  x ∈ l /\ tag x = b /\ good b = true
  /\ forall y, y ∈ l -> good (tag y) = true -> kle (key y) (key x) = true.
Proof.
  induction l as [|y l IH] using rev_ind; intros Hs Hf; [done|].
  rewrite fmap_app, rev_app_distr in Hf. cbn in Hf.
  assert (StronglySorted (key_le key) l /\ forall z, z ∈ l -> kle (key z) (key y) = true) as [Hs' Hy].
  { clear -Hs. induction l as [|w l IH]; [split; [constructor|by intros ? ?%elem_of_nil]|].
    cbn in Hs. apply StronglySorted_inv in Hs as [Hs Hw]. destruct (IH Hs) as [I1 I2].
    rewrite Forall_app, Forall_singleton in Hw. destruct Hw as [Hw1 Hw2].
    split; [by constructor|]. intros z [->|Hz]%elem_of_cons; [exact Hw2|by apply I2]. }
  destruct (good (tag y)) eqn:E.
  - injection Hf as <- <-. split; [apply elem_of_app; right; left|]. split; [done|]. split; [done|].
    intros z [Hz| ->%list_elem_of_singleton]%elem_of_app _; [by apply Hy|apply kle_refl].
  - destruct (IH Hs' Hf) as (I1 & I2 & I3 & I4). split; [apply elem_of_app; by left|].
    split; [done|]. split; [done|].
    intros z [Hz| ->%list_elem_of_singleton]%elem_of_app Hg; [by apply I4|congruence].
Qed.

(** The values tested against sets can be hashed. *)
Definition hashable (e : AuditEventRecord.t) : bool :=
  is_ok (in_str_set (dict_get "tier" e.(AuditEventRecord.payload)) [])
  && is_ok (in_str_set (dict_get "outcome" e.(AuditEventRecord.payload)) []).

Lemma in_str_set_ok v l l' : is_ok (in_str_set v l) = is_ok (in_str_set v l').
Proof. by destruct v. Qed.

Lemma is_tier_event_total run hyp e : hashable e = true -> is_ok (is_tier_event run hyp e) = true.
Proof.
  unfold hashable, is_tier_event. intros [H1 H2]%andb_true_iff. case_match; [|done].
  rewrite (in_str_set_ok _ [] ["V1"; "V2"; "V3"]) in H1.
  rewrite (in_str_set_ok _ [] ["PASSED"; "REJECTED"; "INCONCLUSIVE"; "QUEUED"]) in H2.
  destruct (in_str_set _ ["V1"; "V2"; "V3"]) as [b|]; [|done]. cbn. by destruct b.
Qed.

Lemma filter_result_total {A} (f : A -> result bool) l :
  (forall x, x ∈ l -> is_ok (f x) = true) -> exists l', filter_result f l = Ok l'.
Proof.
  induction l as [|x l IH]; intros H; cbn; [by eexists|].
  destruct (f x) as [b|] eqn:E; [|by specialize (H x ltac:(left)); rewrite E in H].
  destruct IH as [l' ->]; [intros y Hy; apply H; by right|]. by eexists.
Qed.

(** The tier and the outcome an event names. *)
Definition tier_of (e : AuditEventRecord.t) : ValidationTier.t :=
  match ValidationTier.of_value (text_of (dict_get "tier" e.(AuditEventRecord.payload))) with
  | Ok t => t
  | Raise _ => ValidationTier.V1
  end.

Definition tier_outcome_of (e : AuditEventRecord.t) : ValidationTierOutcome.t :=
  match ValidationTierOutcome.of_value
          (text_of (dict_get "outcome" e.(AuditEventRecord.payload))) with
  | Ok o => o
  | Raise _ => ValidationTierOutcome.PASSED
  end.

Lemma in_str_set_true v l : in_str_set v l = Ok true -> exists s, v = PStr s /\ s ∈ l.
Proof. destruct v; cbn; try done. intros [= H%mem_true]. by eexists. Qed.

Lemma tier_event_values run hyp e :
  is_tier_event run hyp e = Ok true ->
  dict_get "tier" e.(AuditEventRecord.payload) = PStr (ValidationTier.value (tier_of e))
  /\ ValidationTier.of_value (text_of (dict_get "tier" e.(AuditEventRecord.payload)))
     = Ok (tier_of e)
  /\ dict_get "outcome" e.(AuditEventRecord.payload)
     = PStr (ValidationTierOutcome.value (tier_outcome_of e))
  /\ ValidationTierOutcome.of_value (text_of (dict_get "outcome" e.(AuditEventRecord.payload)))
     = Ok (tier_outcome_of e).
Proof.
  unfold is_tier_event. case_match; [|done]. intros (b & Hb & Ho)%bind_ok. destruct b; [|done].
  apply in_str_set_true in Hb as (s & Hs & Hin). apply in_str_set_true in Ho as (o & Ho & Hino).
  unfold tier_of, tier_outcome_of. rewrite Hs, Ho. cbn [text_of].
  repeat (apply elem_of_cons in Hin as [->|Hin]; [|]); try (by apply elem_of_nil in Hin);
    (repeat (apply elem_of_cons in Hino as [->|Hino]; [by vm_compute|]); by apply elem_of_nil in Hino).
Qed.

Lemma traverse_map {A B} (f : A -> result B) (g : A -> B) l :
  (forall x, x ∈ l -> f x = Ok (g x)) -> traverse f l = Ok (g <$> l).
Proof.
  induction l as [|x l IH]; intros H; [done|]. cbn. rewrite H by left. cbn.
  rewrite IH; [done|]. intros y Hy. apply H. by right.
Qed.

Lemma find_fmap {A B} (f : B -> bool) (g : A -> B) l :
  List.find f (g <$> l) = g <$> List.find (fun x => f (g x)) l.
Proof. induction l as [|x l IH]; [done|]. cbn. by destruct (f (g x)). Qed.

Lemma rev_fmap {A B} (f : A -> B) l : f <$> rev l = rev (f <$> l).
Proof. apply map_rev. Qed.

(** The outcomes read are those of the tier events in the order of their keys. *)
Lemma latest_tier_outcomes_ok events run hyp :
  (forall e, e ∈ events -> hashable e = true) ->
  exists fs, filter_result (is_tier_event run hyp) events = Ok fs
    /\ latest_tier_outcomes events run hyp
       = Ok ((fun e => (tier_of e, tier_outcome_of e)) <$> sort_by event_key fs).
Proof.
  intros Hh. destruct (filter_result_total (is_tier_event run hyp) events) as [fs Hfs].
  { intros e He. by apply is_tier_event_total, Hh. }
  exists fs. split; [done|]. unfold latest_tier_outcomes, latest_tier_events. rewrite Hfs. cbn.
  fold event_key. pose proof (filter_result_ok _ _ _ Hfs) as Hin.
  assert (forall e, e ∈ sort_by event_key fs -> is_tier_event run hyp e = Ok true) as Ht
    by (intros e He; rewrite sort_by_perm in He; by apply Hin).
  rewrite (traverse_map _ (fun e => (tier_of e, e))).
  2: { intros e He. destruct (tier_event_values _ _ _ (Ht _ He)) as (_ & -> & _). done. }
  cbn. unfold outcomes_of. rewrite (traverse_map _ (fun p => (p.1, tier_outcome_of p.2))).
  - f_equal. by rewrite <-list_fmap_compose.
  - intros p Hp. apply list_elem_of_fmap in Hp as (e & -> & He). cbn.
    by destruct (tier_event_values _ _ _ (Ht _ He)) as (_ & _ & _ & ->).
Qed.

Lemma outcome_of_latest events run hyp l tier o :
  (forall e, e ∈ events -> hashable e = true) ->
  NoDup (AuditEventRecord.audit_event_id <$> events) ->
  latest_tier_outcomes events run hyp = Ok l ->
  outcome_of l tier = Some o
  <-> exists e, latest_of events run hyp tier e
        /\ dict_get "outcome" e.(AuditEventRecord.payload)
           = PStr (ValidationTierOutcome.value o).
Proof.
  intros Hh Hnd Hl. destruct (latest_tier_outcomes_ok events run hyp Hh) as (fs & Hfs & Hl').
  rewrite Hl' in Hl. injection Hl as <-.
  pose proof (filter_result_ok _ _ _ Hfs) as Hin.
  assert (forall e, e ∈ sort_by event_key fs <-> e ∈ events /\ is_tier_event run hyp e = Ok true)
    as Hs by (intros e; by rewrite sort_by_perm).
  assert (forall e t, is_tier_event run hyp e = Ok true ->
    dict_get "tier" e.(AuditEventRecord.payload) = PStr (ValidationTier.value t) <-> tier_of e = t)
    as Htier.
  { intros e t He. destruct (tier_event_values _ _ _ He) as (-> & _). split; [|by intros ->].
    intros [= E]. by destruct (tier_of e), t. }
  unfold outcome_of.
  replace ((fun e => (tier_of e, tier_outcome_of e)) <$> sort_by event_key fs)
    with ((fun p : ValidationTier.t * AuditEventRecord.t => (p.1, tier_outcome_of p.2))
            <$> ((fun e => (tier_of e, e)) <$> sort_by event_key fs))
    by by rewrite <-list_fmap_compose.
  rewrite <-rev_fmap, find_fmap. cbn.
  destruct (List.find _ _) as [[t x]|] eqn:F; cbn.
  - destruct (last_find_sorted event_key tier_of (fun t => bool_decide (t = tier))
      (sort_by event_key fs) t x (sort_by_sorted _ _) F) as (Hx & <- & Hg%bool_decide_eq_true & Hmax).
    apply Hs in Hx as [Hx Hxt].
    assert (latest_of events run hyp tier x) as Hlx.
    { split; [done|]. split; [split; [done|by apply Htier]|]. intros e' He' [Ht' Hp'].
      apply Hmax; [by apply Hs|]. by apply bool_decide_eq_true, Htier. }
    destruct (tier_event_values _ _ _ Hxt) as (_ & _ & Hox & _). split.
    + intros [= <-]. by exists x.
    + intros (e & (He & [Het Hep] & Hemax) & Heo). f_equal.
      assert (e = x) as ->; [|rewrite Hox in Heo; injection Heo as Heo;
        by destruct (tier_outcome_of x), o].
      assert (event_key e = event_key x) as [= _ Eid].
      { apply kle_antisym; [|by apply Hemax, Hlx; apply Hlx]. apply Hmax; [by apply Hs|].
        by apply bool_decide_eq_true, Htier. }
      apply list_elem_of_lookup in He as [i Hi]. apply list_elem_of_lookup in Hx as [j Hj].
      assert (i = j) as ->; [|congruence].
      eapply NoDup_lookup; [exact Hnd|by rewrite list_lookup_fmap, Hi|].
      by rewrite list_lookup_fmap, Hj; cbn; rewrite Eid.
  - split; [done|]. intros (e & (He & [Het Hep] & _) & _). exfalso.
    rewrite find_None_iff in F. specialize (F (tier_of e, e)). cbn in F.
    assert (bool_decide (tier_of e = tier) = false) as Hbad.
    { apply F. apply list_elem_of_In, in_rev. rewrite rev_involutive. apply list_elem_of_In.
      apply list_elem_of_fmap. exists e. split; [done|by apply Hs]. }
    apply bool_decide_eq_false in Hbad. by apply Hbad, Htier.
Qed.

Lemma required_tier_class class tier :
  assoc class SECURITY_CANDIDATE_REQUIRED_TIER = Some tier ->
  tier = ValidationTier.V3
  /\ class ∈ [HTTP_AUTHORIZATION_DIFFERENTIAL_CLASSIFICATION; HTTP_STATE_TRANSITION_CLASSIFICATION].
Proof.
  intros A. apply assoc_Some_in in A. unfold SECURITY_CANDIDATE_REQUIRED_TIER in A.
  apply elem_of_cons in A as [[= -> ->]|[= -> ->]%list_elem_of_singleton];
    (split; [done|]); apply mem_true; reflexivity.
Qed.

(** A security candidate is admitted only on the latest word of every tier: reading the
    audit events admits it exactly when its class has a required tier and, for each of V1,
    V2 and V3, the latest event of that tier about its hypothesis in its run says PASSED; a
    candidate of any other class but the diagnostic one is never admitted. *)
Theorem security_admission_iff events candidate :
  (forall e, e ∈ events -> hashable e = true) ->
  NoDup (AuditEventRecord.audit_event_id <$> events) ->
  let class := candidate.(CandidateRecord.classification) in
  exists view, read_validation_audit_view events candidate = Ok view
    /\ (view.(ValidationAuditView.decision) = None <-> class = DIAGNOSTIC_CANDIDATE_CLASSIFICATION)
    /\ (ValidationAuditView.admitted view = true
       <-> class ∈ [HTTP_AUTHORIZATION_DIFFERENTIAL_CLASSIFICATION; HTTP_STATE_TRANSITION_CLASSIFICATION]
           /\ forall tier, exists e,
                latest_of events candidate.(CandidateRecord.research_run_id)
                  candidate.(CandidateRecord.hypothesis_id) tier e
                /\ dict_get "outcome" e.(AuditEventRecord.payload) = PStr "PASSED").
Proof.
  intros Hh Hnd class. unfold read_validation_audit_view. fold class.
  destruct (String.eqb_spec class DIAGNOSTIC_CANDIDATE_CLASSIFICATION) as [E|E].
  { exists (ValidationAuditView.mk None []). split; [done|]. split; [done|]. split; [done|].
    rewrite E. intros [Hin _]. by apply mem_true in Hin. }
  destruct (latest_tier_outcomes_ok events candidate.(CandidateRecord.research_run_id)
    candidate.(CandidateRecord.hypothesis_id) Hh) as (fs & _ & Hl).
  pose proof (fun t o => outcome_of_latest _ _ _ _ t o Hh Hnd Hl) as Hout.
  match type of Hl with _ = Ok ?x => set (l := x) in * end.
  unfold latest_tier_outcomes in Hl. apply bind_ok in Hl as (latest & -> & Hl).
  cbn [mbind result_bind]. rewrite Hl. cbn [mbind result_bind].
  assert (forall i, i ∈ REQUIRED_CHAIN ValidationTier.V3) as Hall
    by (intros []; apply mem_true; reflexivity).
  destruct (assoc class SECURITY_CANDIDATE_REQUIRED_TIER) as [tier|] eqn:A.
  - apply required_tier_class in A as [-> Hclass].
    destruct (validate_required_tiers_admitted ValidationTier.V3 l) as (d & -> & Hd).
    eexists. split; [reflexivity|]. split; [done|].
    unfold ValidationAuditView.admitted. cbn. rewrite Hd. split.
    + intros H. split; [done|]. intros t. by apply (Hout t ValidationTierOutcome.PASSED), H.
    + intros [_ H] i _. apply (Hout i ValidationTierOutcome.PASSED), H.
  - destruct (validate_required_tiers_admitted ValidationTier.V3 []) as (d & Hd & Hiff).
    cbn [as_members fmap list_fmap] in Hd. change (as_members []) with (@nil (member_or_text
      ValidationTier.t * member_or_text ValidationTierOutcome.t)) in Hd. rewrite Hd.
    eexists. split; [reflexivity|]. split; [done|].
    unfold ValidationAuditView.admitted. cbn. split.
    + rewrite Hiff. intros H. by specialize (H ValidationTier.V1 (Hall _)).
    + intros [Hin _]. exfalso. apply assoc_None in A. apply A. exact Hin.
Qed.

(** ** Severity *)

(** The signal with the caller's fields at their defaults. *)
Definition demonstrated_signal (s : SeverityInput.t) : SeverityInput.t :=
  SeverityInput.mk s.(SeverityInput.validation_state) s.(SeverityInput.scope_state)
    s.(SeverityInput.impact_kinds) "NONE" "SINGLE_USER".

(** The least severe class the kinds of impact alone allow. *)
Definition kinds_rank (kinds : list ImpactKind.t) : Z :=
  if mem ImpactKind.ACCOUNT_TAKEOVER_PATH kinds then 0
  else if mem ImpactKind.AUTH_BYPASS kinds || mem ImpactKind.DATA_WRITE kinds
          || mem ImpactKind.STATE_CORRUPTION kinds then 1
  else if mem ImpactKind.DATA_READ kinds then 2 else 3.

Definition scored_rank (r : SeverityResult.t) : option Z :=
  SEVERITY_RANK <$> r.(SeverityResult.severity).

Definition may_score (s : SeverityInput.t) : bool :=
  bool_decide (s.(SeverityInput.validation_state) = ValidationState.PASSED)
  && bool_decide (s.(SeverityInput.scope_state) = ScopeState.IN_SCOPE).

Lemma demonstrated_rank s :
  scored_rank (classify_severity (demonstrated_signal s))
  = if may_score s then Some (kinds_rank s.(SeverityInput.impact_kinds)) else None.
Proof.
  unfold classify_severity, demonstrated_signal, may_score, kinds_rank. cbn.
  destruct (bool_decide (_ = ValidationState.PASSED)); [|done].
  destruct (bool_decide (_ = ScopeState.IN_SCOPE)); [|done]. cbn.
  destruct (bool_decide (SeverityInput.impact_kinds s = [])) eqn:E.
  { apply bool_decide_eq_true in E. by rewrite E. }
  rewrite !orb_false_r. by repeat case_match.
Qed.

(** The caller's fields only ever ask for more. *)
Lemma requested_rank s :
  match scored_rank (classify_severity s) with
  | Some r => may_score s = true /\ 0 <= r <= kinds_rank s.(SeverityInput.impact_kinds)
  | None => may_score s = false
  end.
Proof.
  unfold classify_severity, may_score, kinds_rank. cbv zeta beta.
  destruct (bool_decide (_ = ValidationState.PASSED)); [|done].
  destruct (bool_decide (_ = ScopeState.IN_SCOPE)); [|done]. cbn [negb andb].
  destruct (bool_decide (SeverityInput.impact_kinds s = [])) eqn:E.
  { apply bool_decide_eq_true in E. rewrite E. split; [done|]. change (0 <= 3 <= 3). lia. }
  destruct (mem ImpactKind.ACCOUNT_TAKEOVER_PATH _), (mem ImpactKind.AUTH_BYPASS _),
    (mem ImpactKind.DATA_WRITE _), (mem ImpactKind.STATE_CORRUPTION _),
    (mem ImpactKind.DATA_READ _), (mem (SeverityInput.affected_scope s) _),
    (SeverityInput.data_sensitivity s =? "BULK_SENSITIVE")%string,
    (SeverityInput.data_sensitivity s =? "SENSITIVE")%string;
    cbn -[Z.le]; (split; [done|lia]).
Qed.

Lemma kinds_rank_mono k1 k2 : k1 ⊆ k2 -> kinds_rank k2 <= kinds_rank k1.
Proof.
  intros Hsub. unfold kinds_rank.
  assert (forall k, mem k k1 = true -> mem k k2 = true) as Hm
    by (intros k; rewrite !mem_true; apply Hsub).
  pose proof (Hm ImpactKind.ACCOUNT_TAKEOVER_PATH). pose proof (Hm ImpactKind.AUTH_BYPASS).
  pose proof (Hm ImpactKind.DATA_WRITE). pose proof (Hm ImpactKind.STATE_CORRUPTION).
  pose proof (Hm ImpactKind.DATA_READ).
  repeat match goal with
  | |- context [mem ?k k1] => destruct (mem k k1)
  | |- context [mem ?k k2] => destruct (mem k k2)
  end; cbn; try lia; naive_solver.
Qed.

(** The severity once the caller's request is bounded by what was demonstrated. *)
Definition final_severity (s : SeverityInput.t) : SeverityResult.t :=
  bound_severity (classify_severity (demonstrated_signal s)) (classify_severity s).

Lemma final_rank s :
  scored_rank (final_severity s)
  = if may_score s then Some (kinds_rank s.(SeverityInput.impact_kinds)) else None.
Proof.
  pose proof (demonstrated_rank s) as Hd. pose proof (requested_rank s) as Hr.
  unfold final_severity, bound_severity.
  destruct (SeverityResult.severity (classify_severity (demonstrated_signal s))) as [d|] eqn:Ed;
    [|done].
  destruct (SeverityResult.severity (classify_severity s)) as [r|] eqn:Er;
    unfold scored_rank in Hr, Hd; rewrite Er in Hr; rewrite Ed in Hd; cbn in Hr, Hd.
  - destruct Hr as [Hm Hr]. rewrite Hm in *. injection Hd as Hd.
    destruct (Z.ltb_spec (SEVERITY_RANK r) (SEVERITY_RANK d)); unfold scored_rank; cbn.
    + by rewrite Hd.
    + rewrite Er. cbn. f_equal. lia.
  - by rewrite Hr in Hd.
Qed.

Lemma classify_mapping x :
  (classify_severity x).(SeverityResult.platform_mapping)
  = PLATFORM_MAPPING <$> (classify_severity x).(SeverityResult.severity).
Proof. unfold classify_severity. by repeat case_match. Qed.

(** Severity is bounded by demonstrated impact: whatever data sensitivity and affected
    scope a caller asks for, the severity after bounding is the one the demonstrated kinds
    of impact give by themselves; nothing is scored that did not pass validation in scope;
    and demonstrating more never makes a finding less severe. *)
Theorem severity_is_demonstrated s :
  let final := bound_severity (classify_severity (demonstrated_signal s)) (classify_severity s) in
  scored_rank final
  = (if may_score s then Some (kinds_rank s.(SeverityInput.impact_kinds)) else None)
  /\ (forall kinds, s.(SeverityInput.impact_kinds) ⊆ kinds ->
      kinds_rank kinds <= kinds_rank s.(SeverityInput.impact_kinds))
  /\ final.(SeverityResult.platform_mapping) = PLATFORM_MAPPING <$> final.(SeverityResult.severity).
Proof.
  intros final. split; [apply final_rank|split; [intros k; apply kinds_rank_mono|]].
  unfold final, bound_severity.
  destruct (SeverityResult.severity (classify_severity (demonstrated_signal s))) as [d|] eqn:Ed;
    [|apply classify_mapping].
  destruct (SeverityResult.severity (classify_severity s)); [|apply classify_mapping].
  destruct (_ <? _); [|apply classify_mapping]. cbn. by rewrite classify_mapping, Ed.
Qed.

(** ** The circuit breaker *)

Lemma true_div_value a b : b <> 0 -> true_div a b = Ok (rnd (inject_Z a / inject_Z b)).
Proof. intros Hb. unfold true_div. by rewrite (proj2 (Z.eqb_neq b 0)). Qed.

(** The breaker throttles noisy families and nothing more: it never raises and never
    disables a family; a family below its minimum sample or without a bad outcome is
    allowed; one whose exact bad outcome ratio reaches the threshold is throttled, rounding
    of the ratio notwithstanding; and throttling always asks for human review to restore. *)
Theorem breaker_throttles_noise telemetry :
  FamilyTelemetry.post_init telemetry = Ok telemetry ->
  is_float telemetry.(FamilyTelemetry.bad_outcome_threshold) ->
  let total := FamilyTelemetry.total_count telemetry in
  let bad := FamilyTelemetry.bad_outcome_count telemetry in
  exists d, evaluate_family_circuit_breaker telemetry = Ok d
    /\ d.(CircuitBreakerDecision.disable_family) = false
    /\ d.(CircuitBreakerDecision.requires_human_review_to_restore)
       = d.(CircuitBreakerDecision.throttle)
    /\ (telemetry.(FamilyTelemetry.minimum_sample) <= total ->
        (telemetry.(FamilyTelemetry.bad_outcome_threshold) * inject_Z total <= inject_Z bad)%Q ->
        d.(CircuitBreakerDecision.throttle) = true)
    /\ (d.(CircuitBreakerDecision.throttle) = true ->
        telemetry.(FamilyTelemetry.minimum_sample) <= total /\ 0 < bad).
Proof.
  intros Hv Hf total bad. unfold FamilyTelemetry.post_init in Hv.
  apply raise_if_ok in Hv as [_ Hv].
  apply raise_if_ok in Hv as [[[[Hs Hr]%orb_false_iff Hi]%orb_false_iff _]%orb_false_iff Hv].
  apply raise_if_ok in Hv as [Hm Hv]. apply raise_if_ok in Hv as [[Ht _]%orb_false_iff _].
  bool_prop. assert (0 < telemetry.(FamilyTelemetry.bad_outcome_threshold))%Q as Hpos
    by (apply Qnot_le_lt; intros H%Qle_bool_iff; congruence).
  set (t := telemetry.(FamilyTelemetry.bad_outcome_threshold)) in *.
  unfold evaluate_family_circuit_breaker, FamilyTelemetry.bad_outcome_rate. fold total bad t.
  assert (0 <= bad /\ bad <= total) as [Hb0 Hbt]
    by (unfold bad, total, FamilyTelemetry.bad_outcome_count, FamilyTelemetry.total_count; lia).
  destruct (Z.eqb_spec total 0) as [E|E].
  { cbn [mbind result_bind]. rewrite (proj2 (Z.ltb_lt _ _)) by lia. eexists. split; [done|].
    split; [done|]. split; [done|]. split; [cbn; lia|done]. }
  rewrite true_div_value by done. cbn [mbind result_bind].
  destruct (Z.ltb_spec total telemetry.(FamilyTelemetry.minimum_sample)) as [Hlt|Hge].
  { eexists. split; [done|]. split; [done|]. split; [done|]. split; [lia|done]. }
  assert (0 < inject_Z total)%Q as Hp by (rewrite <-(Zlt_Qlt 0); lia).
  destruct (Qle_bool t (rnd (inject_Z bad / inject_Z total))) eqn:C; eexists;
    (split; [done|]); (split; [done|]); (split; [done|]); cbn [CircuitBreakerDecision.throttle].
  - split; [done|]. intros _. split; [done|]. destruct (Z.eq_dec bad 0) as [Hz|]; [|lia]. exfalso.
    apply Qle_bool_iff in C. rewrite Hz in C.
    assert (rnd (inject_Z 0 / inject_Z total) == 0)%Q as Hr0.
    { assert (inject_Z 0 / inject_Z total == 0)%Q as -> by (unfold Qdiv; apply Qmult_0_l). done. }
    rewrite Hr0 in C. lra.
  - split; [|done]. intros _ Hq. exfalso. assert (Qle_bool t (rnd (inject_Z bad / inject_Z total)) = true)
      as C'; [|congruence].
    apply Qle_bool_iff, rnd_ge; [done|]. by apply Qle_shift_div_l.
Qed.

(** ** The counts of a family: [application/evaluate_family_circuit_breaker.py] *)

(** [application/evaluate_family_circuit_breaker.py:112-118 _family_outcome_counts] *)
Definition is_family_event (research_run_id family_id : string) (e : AuditEventRecord.t)
    : result bool :=
  if (e.(AuditEventRecord.subject_type) =? "hypothesis")%string
     && bool_decide (e.(AuditEventRecord.correlation_id) = Some research_run_id)
     && eq_str (dict_get "family_id" e.(AuditEventRecord.payload)) family_id
  then in_str_set (dict_get "outcome" e.(AuditEventRecord.payload))
         ["PASSED"; "REJECTED"; "INCONCLUSIVE"]
  else Ok false.

(** The latest outcome of each hypothesis counts once.
    [application/evaluate_family_circuit_breaker.py:110-124 _family_outcome_counts] *)
Definition family_outcome_counts (audit_events : list AuditEventRecord.t)
    (research_run_id family_id : string) : result (Z * Z * Z) :=
  events ← filter_result (is_family_event research_run_id family_id) audit_events;
  let latest : gmap string string :=
    foldl (fun m e => <[ e.(AuditEventRecord.subject_id) :=
                           text_of (dict_get "outcome" e.(AuditEventRecord.payload)) ]> m)
      ∅ (sort_by event_key events) in
  let count o :=
    Z.of_nat (length (List.filter (fun p => (p.2 =? o)%string) (map_to_list latest))) in
  Ok (count "PASSED", count "REJECTED", count "INCONCLUSIVE").

(** The payload of the audit event: the rate is a float.
    [application/evaluate_family_circuit_breaker.py:68-82 EvaluateFamilyCircuitBreaker.execute] *)
Definition breaker_payload (research_run_id family_id : string) (t : FamilyTelemetry.t)
    (d : CircuitBreakerDecision.t) : list (string * pyval) :=
  [ ("research_run_id", PStr research_run_id);
    ("family_id", PStr family_id);
    ("supported_count", PInt t.(FamilyTelemetry.supported_count));
    ("rejected_count", PInt t.(FamilyTelemetry.rejected_count));
    ("inconclusive_count", PInt t.(FamilyTelemetry.inconclusive_count));
    ("bad_outcome_rate", PFloat d.(CircuitBreakerDecision.bad_outcome_rate));
    ("action", PStr match d.(CircuitBreakerDecision.action) with
                    | CircuitBreakerAction.ALLOW => "ALLOW"
                    | CircuitBreakerAction.THROTTLE => "THROTTLE"
                    end);
    ("throttle", PBool d.(CircuitBreakerDecision.throttle));
    ("disable_family", PBool d.(CircuitBreakerDecision.disable_family));
    ("requires_human_review_to_restore",
      PBool d.(CircuitBreakerDecision.requires_human_review_to_restore));
    ("reason_codes", PList (PStr <$> d.(CircuitBreakerDecision.reason_codes))) ].

(** The audit table before and after.
    [application/evaluate_family_circuit_breaker.py:48-107 EvaluateFamilyCircuitBreaker.execute] *)
Definition evaluate_family (audit_events : list AuditEventRecord.t)
    (research_run_id family_id : string) (minimum_sample : Z) (bad_outcome_threshold : Q)
    (event_id : string) (now : Z)
    : result (list AuditEventRecord.t * CircuitBreakerDecision.t) :=
  counts ← family_outcome_counts audit_events research_run_id family_id;
  let '(supported, rejected, inconclusive) := counts in
  telemetry ← FamilyTelemetry.post_init
                (FamilyTelemetry.mk family_id supported rejected inconclusive minimum_sample
                   bad_outcome_threshold);
  decision ← evaluate_family_circuit_breaker telemetry;
  event ← AuditEventRecord.post_init
            (AuditEventRecord.mk event_id now "control-plane:family-circuit-breaker"
               (ActorType.value ActorType.CONTROL_PLANE) "FAMILY_CIRCUIT_BREAKER_EVALUATED"
               "hunter_family" family_id
               (breaker_payload research_run_id family_id telemetry decision)
               (Some research_run_id));
  events ← append_audit audit_events event;
  Ok (events, decision).

(** ** Samples *)

Definition sample_tier_event (id : string) (at_ : Z) (tier outcome : string) : AuditEventRecord.t :=
  AuditEventRecord.mk id at_ "control-plane" "CONTROL_PLANE" "VALIDATION_TIER" "hypothesis" "h"
    [("tier", PStr tier); ("outcome", PStr outcome); ("scope_state", PStr "IN_SCOPE")]
    (Some "run").

Definition sample_candidate : CandidateRecord.t :=
  CandidateRecord.mk "c" "run" "h" "claim" HTTP_AUTHORIZATION_DIFFERENTIAL_CLASSIFICATION
    "VALIDATED" ["e"] 0 "a".

Definition sample_tier_events : list AuditEventRecord.t :=
  [ sample_tier_event "1" 10 "V1" "PASSED"; sample_tier_event "4" 40 "V3" "PASSED";
    sample_tier_event "2" 20 "V2" "PASSED"; sample_tier_event "3" 30 "V3" "QUEUED" ].

(** A later outcome overrides an earlier one, whatever the order of the rows. *)
Example later_outcome_counts :
  (exists view, read_validation_audit_view sample_tier_events sample_candidate = Ok view
             /\ scope_state view = ScopeState.IN_SCOPE)
  /\ exists view, read_validation_audit_view
        (sample_tier_event "5" 50 "V2" "REJECTED" :: sample_tier_events) sample_candidate = Ok view
      /\ ValidationAdmissionDecision.reason_codes <$> view.(ValidationAuditView.decision)
         = Some ["V2_REJECTED"].
Proof. split; eexists; (split; [vm_compute; reflexivity|reflexivity]). Qed.

Lemma security_admission_iff_witness :
  exists view, read_validation_audit_view sample_tier_events sample_candidate = Ok view
    /\ view.(ValidationAuditView.decision) <> None.
Proof.
  destruct (security_admission_iff sample_tier_events sample_candidate) as (r & Hr & Hn & _).
  - intros e He. unfold sample_tier_events in He.
    repeat (apply elem_of_cons in He as [->|He]; [reflexivity|]). by apply elem_of_nil in He.
  - apply (bool_decide_unpack _). vm_compute. exact I.
  - exists r. split; [exact Hr|]. intros E. apply Hn in E. discriminate.
Defined.

Lemma breaker_throttles_noise_witness :
  exists d, evaluate_family_circuit_breaker
              (FamilyTelemetry.mk "idor" 4 4 2 10 (1 # 2)) = Ok d
    /\ d.(CircuitBreakerDecision.throttle) = true.
Proof.
  destruct (breaker_throttles_noise (FamilyTelemetry.mk "idor" 4 4 2 10 (1 # 2)))
    as (d & Hd & _ & _ & Ht & _).
  - reflexivity.
  - vm_compute. reflexivity.
  - exists d. split; [exact Hd|]. apply Ht; vm_compute; discriminate.
Defined.
