(* ===== verification/Submission.v ===== *)
(** * Submitting and scoring a finding proposal

    [application/submit_finding_proposal.py] and [application/score_finding_severity.py]:
    the two use cases where the candidate, its verifications, the validation tiers, the
    impact ledger and the finding workflow meet.  A unit of work that raises leaves the
    database it started from.  Fresh ids and clock readings are arguments.  Other
    transactions may commit between the reads of a unit of work and its insertions: the
    reads see [before], the writes go to [db]. *)
From S2P Require Import Prelude PyVal CoreTypes Candidate Finding Records FindingRecords EvidenceRecords Impact ImpactLedger Validation FindingFlow.
#[local] Open Scope Z_scope.

(** ** Tables *)

(** The tables of the finding workflow, the verifications, and those of the impact ledger. *)
Module Tables.
Record t : Type := mk {
  flow : FindingFlow.Db.t;
  verifications : list VerificationRecord.t;
  ledger : ImpactLedger.Db.t }.

Definition with_flow (f : FindingFlow.Db.t) (x : t) : t := mk f x.(verifications) x.(ledger).
End Tables.

(** [data/postgres/repositories.py:1555-1563 PostgresCandidateRepository.get] *)
Definition get_candidate (db : Tables.t) (candidate_id : string)
    : result (option CandidateRecord.t) :=
  _ ← data_opaque_id candidate_id;
  Ok (db.(Tables.flow).(FindingFlow.Db.candidates) !! candidate_id).

(** [data/postgres/repositories.py:1781-1791 PostgresVerificationRepository.list_for_candidate] *)
Definition list_verifications_for_candidate (db : Tables.t) (candidate_id : string)
    : result (list VerificationRecord.t) :=
  _ ← data_opaque_id candidate_id;
  Ok (sort_by VerificationRecord.verification_id
        (List.filter (fun v => (v.(VerificationRecord.candidate_id) =? candidate_id)%string)
           db.(Tables.verifications))).

(** ** Submission *)

(** [application/submit_finding_proposal.py:44-47 SubmitFindingProposalCommand] *)
Module SubmitFindingProposalCommand.
Record t : Type := mk { candidate_id : string; draft : option FindingProposalDraft.t }.
End SubmitFindingProposalCommand.

(** [application/submit_finding_proposal.py:50-55 SubmitFindingProposalResult] *)
Module SubmitFindingProposalResult.
Record t : Set := mk {
  outcome : FindingProposalAdmissionOutcome.t;
  proposal_id : option string;
  state : option FindingProposalState.t;
  reason_codes : list string }.
End SubmitFindingProposalResult.

(** [application/submit_finding_proposal.py:251-254 _validate_security_candidate_tiers] *)
Definition validate_security_candidate_tiers (db : Tables.t) (candidate : CandidateRecord.t)
    : result (option ValidationAdmissionDecision.t) :=
  if (candidate.(CandidateRecord.classification) =? DIAGNOSTIC_CANDIDATE_CLASSIFICATION)%string
  then Ok None
  else
    view ← read_validation_audit_view db.(Tables.flow).(FindingFlow.Db.audit_events) candidate;
    Ok view.(ValidationAuditView.decision).

(** The body of the loop over the claims.
    [application/submit_finding_proposal.py:228-247 _validate_impact_claims] *)
Definition validate_impact_claim `{O : EdgeOrder} (ledger : ImpactLedger.Db.t) (expected_run_id : string)
    (claim : ImpactClaim.t) : result string :=
  record ← get_chain ledger claim.(ImpactClaim.chain_id);
  record ← found record;
  raise_if negb (record.(ImpactChainRecord.research_run_id) =? expected_run_id)%string
  as ApplicationError;;
  chain ← rebuild_impact_chain ledger record;
  structural ← validate_chain chain (resolve ledger) expected_run_id;
  raise_if negb structural.(ChainValidation.valid) as ApplicationError;;
  scope ← validate_chain_impact_scope chain (resolve ledger) expected_run_id;
  raise_if negb scope.(ChainValidation.valid) as ApplicationError;;
  Ok claim.(ImpactClaim.chain_id).

(** [application/submit_finding_proposal.py:219-248 _validate_impact_claims] *)
Definition validate_impact_claims `{O : EdgeOrder} (ledger : ImpactLedger.Db.t) (draft : FindingProposalDraft.t)
    (expected_run_id : string) : result (list string) :=
  traverse (validate_impact_claim ledger expected_run_id)
    draft.(FindingProposalDraft.impact_claims).

(** What both idempotent exits return.
    [application/submit_finding_proposal.py:211-216 SubmitFindingProposal._reload_existing] *)
Definition already_recorded (record : FindingProposalRecord.t)
    : result SubmitFindingProposalResult.t :=
  state ← FindingProposalState.of_value record.(FindingProposalRecord.state);
  Ok (SubmitFindingProposalResult.mk FindingProposalAdmissionOutcome.ADMITTED
        (Some record.(FindingProposalRecord.proposal_id)) (Some state)
        ["FINDING_PROPOSAL_ALREADY_RECORDED"]).

(** [application/submit_finding_proposal.py:202-216 SubmitFindingProposal._reload_existing] *)
Definition reload_existing (db : Tables.t) (candidate_id : string)
    : result SubmitFindingProposalResult.t :=
  existing ← list_proposals_for_candidate db.(Tables.flow) candidate_id;
  match existing with
  | [] => Raise ApplicationError
  | record :: _ => already_recorded record
  end.

(** The insertion breaks [uq_finding_proposal_candidate]; the primary key is tested first.
    [application/submit_finding_proposal.py:172-178 SubmitFindingProposal.execute] *)
Definition candidate_conflict (db : FindingFlow.Db.t) (r : FindingProposalRecord.t) : bool :=
  bool_decide (db.(FindingFlow.Db.proposals) !! r.(FindingProposalRecord.proposal_id) = None)
  && existsb (fun p => (p.2.(FindingProposalRecord.candidate_id)
                        =? r.(FindingProposalRecord.candidate_id))%string)
       (map_to_list db.(FindingFlow.Db.proposals)).

(** The draft of the command, or the first one the candidate's class has.
    [application/submit_finding_proposal.py:100-116 SubmitFindingProposal.execute] *)
Definition choose_draft (command : SubmitFindingProposalCommand.t)
    (context : FindingProposalAdmissionContext.t) (fresh : nat -> string)
    : result FindingProposalDraft.t :=
  match command.(SubmitFindingProposalCommand.draft) with
  | Some draft => Ok draft
  | None =>
      draft ← propose_diagnostic_finding_proposal context (fresh 0%nat);
      match draft with
      | Some draft => Ok draft
      | None =>
          draft ← propose_authorization_differential_finding_proposal context (fresh 1%nat);
          match draft with
          | Some draft => Ok draft
          | None =>
              draft ← propose_state_transition_finding_proposal context (fresh 2%nat);
              found draft
          end
      end
  end.

(** The audit event of a refusal by the tiers.
    [application/submit_finding_proposal.py:123-144 SubmitFindingProposal.execute] *)
Definition rejection_event (candidate : CandidateRecord.t) (v : ValidationAdmissionDecision.t)
    (event_id : string) (now : Z) (actor_id : string) : result AuditEventRecord.t :=
  AuditEventRecord.post_init
    (AuditEventRecord.mk event_id now actor_id (ActorType.value ActorType.CONTROL_PLANE)
       "FINDING_PROPOSAL_VALIDATION_REJECTED" "candidate" candidate.(CandidateRecord.candidate_id)
       [ ("hypothesis_id", PStr candidate.(CandidateRecord.hypothesis_id));
         ("classification", PStr candidate.(CandidateRecord.classification));
         ("outcome", PStr (ValidationAdmissionOutcome.value
                             v.(ValidationAdmissionDecision.outcome)));
         ("reason_codes", PList (PStr <$> v.(ValidationAdmissionDecision.reason_codes)));
         ("required_tiers", PList ((fun t => PStr (ValidationTier.value t))
                                     <$> v.(ValidationAdmissionDecision.required_tiers)));
         ("not_a_finding", PBool true) ]
       (Some candidate.(CandidateRecord.research_run_id))).

(** [application/submit_finding_proposal.py:122-122 SubmitFindingProposal.execute] *)
Definition is_refused (validation : option ValidationAdmissionDecision.t)
    : option ValidationAdmissionDecision.t :=
  match validation with
  | Some v => if v.(ValidationAdmissionDecision.admitted) then None else Some v
  | None => None
  end.

Section submit.
Context `{O : EdgeOrder} (sha256_json : pyval -> string).

(** [application/submit_finding_proposal.py:157-170 SubmitFindingProposal.execute] *)
Definition proposal_record (draft : FindingProposalDraft.t) (candidate : CandidateRecord.t)
    (state : FindingProposalState.t) (impact_chain_ids : list string) (now : Z)
    : result FindingProposalRecord.t :=
  FindingProposalRecord.post_init
    (FindingProposalRecord.mk draft.(FindingProposalDraft.proposal_id)
       draft.(FindingProposalDraft.candidate_id) draft.(FindingProposalDraft.research_run_id)
       draft.(FindingProposalDraft.title) draft.(FindingProposalDraft.claim)
       candidate.(CandidateRecord.classification) (FindingProposalState.value state)
       draft.(FindingProposalDraft.evidence_ids) draft.(FindingProposalDraft.verification_ids)
       (content_fingerprint sha256_json draft) now impact_chain_ids).

(** What is written for an admitted draft.
    [application/submit_finding_proposal.py:119-193 SubmitFindingProposal.execute] *)
Definition write_proposal (before db : Tables.t) (fresh : nat -> string) (now : nat -> Z)
    (actor_id : string) (candidate : CandidateRecord.t) (draft : FindingProposalDraft.t)
    (decision : FindingProposalAdmissionDecision.t)
    : result (Tables.t * SubmitFindingProposalResult.t) :=
  match decision.(FindingProposalAdmissionDecision.initial_state) with
  | Some FindingProposalState.PROPOSED =>
      validation ← validate_security_candidate_tiers before candidate;
      match is_refused validation with
      | Some v =>
          event ← rejection_event candidate v (fresh 3%nat) (now 0%nat) actor_id;
          flow ← insert_audit db.(Tables.flow) event;
          Ok (Tables.with_flow flow db,
              SubmitFindingProposalResult.mk
                FindingProposalAdmissionOutcome.REJECTED_VALIDATION_NOT_PASSED None None
                v.(ValidationAdmissionDecision.reason_codes))
      | None =>
          impact_chain_ids ← validate_impact_claims before.(Tables.ledger) draft
                               draft.(FindingProposalDraft.research_run_id);
          record ← proposal_record draft candidate FindingProposalState.PROPOSED
                     impact_chain_ids (now 0%nat);
          if candidate_conflict db.(Tables.flow) record
          then r ← reload_existing db candidate.(CandidateRecord.candidate_id); Ok (db, r)
          else
            flow ← insert_proposal db.(Tables.flow) record;
            event ← AuditEventRecord.post_init
                      (AuditEventRecord.mk (fresh 3%nat) (now 1%nat) actor_id
                         (ActorType.value ActorType.CONTROL_PLANE) "FINDING_PROPOSAL_CREATED"
                         "finding_proposal" draft.(FindingProposalDraft.proposal_id)
                         [("candidate_id", PStr candidate.(CandidateRecord.candidate_id));
                          ("not_a_vulnerability", PBool true)] None);
            flow ← insert_audit flow event;
            Ok (Tables.with_flow flow db,
                SubmitFindingProposalResult.mk decision.(FindingProposalAdmissionDecision.outcome)
                  (Some draft.(FindingProposalDraft.proposal_id))
                  decision.(FindingProposalAdmissionDecision.initial_state)
                  decision.(FindingProposalAdmissionDecision.reason_codes))
      end
  | _ => Raise AssertionError
  end.

(** [application/submit_finding_proposal.py:70-200 SubmitFindingProposal.execute] *)
Definition submit_finding_proposal (before db : Tables.t) (fresh : nat -> string)
    (now : nat -> Z) (actor_id : string) (command : SubmitFindingProposalCommand.t)
    : result (Tables.t * SubmitFindingProposalResult.t) :=
  candidate ← get_candidate before command.(SubmitFindingProposalCommand.candidate_id);
  candidate ← found candidate;
  let id := candidate.(CandidateRecord.candidate_id) in
  state ← reraise is_value_error (candidate_state_of_value candidate.(CandidateRecord.state));
  existing ← list_proposals_for_candidate before.(Tables.flow) id;
  match existing with
  | record :: _ => r ← already_recorded record; Ok (db, r)
  | [] =>
      verifications ← list_verifications_for_candidate before id;
      context ← FindingProposalAdmissionContext.post_init
                  (FindingProposalAdmissionContext.mk id state
                     candidate.(CandidateRecord.research_run_id)
                     candidate.(CandidateRecord.evidence_ids)
                     (VerificationRecord.verification_id <$> verifications)
                     candidate.(CandidateRecord.classification));
      draft ← choose_draft command context fresh;
      let decision := admit_finding_proposal draft context in
      if FindingProposalAdmissionDecision.creates_proposal decision
      then write_proposal before db fresh now actor_id candidate draft decision
      else Ok (db, SubmitFindingProposalResult.mk
                     decision.(FindingProposalAdmissionDecision.outcome) None
                     decision.(FindingProposalAdmissionDecision.initial_state)
                     decision.(FindingProposalAdmissionDecision.reason_codes))
  end.
End submit.

(** ** Scoring *)

(** [application/score_finding_severity.py:29-33 ScoreFindingSeverityCommand] *)
Module ScoreFindingSeverityCommand.
Record t : Set := mk { proposal_id : string; data_sensitivity : string; affected_scope : string }.
End ScoreFindingSeverityCommand.

(** [scored] is whether there is a severity.
    [application/score_finding_severity.py:36-41 ScoreFindingSeverityResult] *)
Module ScoreFindingSeverityResult.
Record t : Set := mk {
  severity : option InternalSeverity.t; reason_codes : list string; audit_event_id : string }.
End ScoreFindingSeverityResult.

(** [application/score_finding_severity.py:154-159 _impact_kinds_for_proposal] *)
Definition impact_kinds_for_proposal (ledger : ImpactLedger.Db.t) (chain_ids : list string)
    : result (list ImpactKind.t) :=
  kinds ← traverse (fun chain_id =>
            nodes ← get_nodes ledger chain_id;
            traverse (fun n => ImpactKind.of_value n.(ImpactChainNodeRecord.impact_kind)) nodes)
            chain_ids;
  Ok (concat kinds).

(** The signal of a caller; the demonstrated one has the two fields at their defaults.
    [application/score_finding_severity.py:80-96 ScoreFindingSeverity.execute] *)
Definition severity_signal (view : ValidationAuditView.t) (kinds : list ImpactKind.t)
    (data_sensitivity affected_scope : string) : result SeverityInput.t :=
  let passed := ValidationAuditView.admitted view in
  SeverityInput.post_init
    (SeverityInput.mk_args
       (Member (if passed then ValidationState.PASSED else ValidationState.NOT_PASSED))
       (Member (if passed then scope_state view else ScopeState.NOT_IN_SCOPE))
       (Member <$> kinds) data_sensitivity affected_scope).

(** [scored] *)
Definition scored (s : SeverityResult.t) : bool :=
  bool_decide (s.(SeverityResult.severity) <> None).

(** [application/score_finding_severity.py:99-127 ScoreFindingSeverity.execute] *)
Definition severity_payload (proposal : FindingProposalRecord.t) (candidate : CandidateRecord.t)
    (view : ValidationAuditView.t) (kinds : list ImpactKind.t) (severity : SeverityResult.t)
    : list (string * pyval) :=
  let scope := if ValidationAuditView.admitted view then scope_state view
               else ScopeState.NOT_IN_SCOPE in
  [ ("proposal_id", PStr proposal.(FindingProposalRecord.proposal_id));
    ("candidate_id", PStr candidate.(CandidateRecord.candidate_id));
    ("hypothesis_id", PStr candidate.(CandidateRecord.hypothesis_id));
    ("classification", PStr candidate.(CandidateRecord.classification));
    ("validation_outcome",
      match view.(ValidationAuditView.decision) with
      | None => PNone
      | Some d => PStr (ValidationAdmissionOutcome.value d.(ValidationAdmissionDecision.outcome))
      end);
    ("scope_state", PStr (ScopeState.value scope));
    ("impact_kinds", PList ((fun k => PStr (ImpactKind.value k)) <$> kinds));
    ("scored", PBool (scored severity));
    ("severity", match severity.(SeverityResult.severity) with
                 | None => PNone
                 | Some s => PStr (InternalSeverity.value s)
                 end);
    ("platform_mapping",
      match severity.(SeverityResult.platform_mapping) with
      | None => PNone
      | Some m => PDict
          [ ("bugcrowd_priority", PStr m.(PlatformSeverityMapping.bugcrowd_priority));
            ("hackerone_severity", PStr m.(PlatformSeverityMapping.hackerone_severity));
            ("vrt_category", PStr m.(PlatformSeverityMapping.vrt_category)) ]
      end);
    ("reason_codes", PList (PStr <$> severity.(SeverityResult.reason_codes))) ].

(** [application/score_finding_severity.py:49-151 ScoreFindingSeverity.execute] *)
Definition score_finding_severity (db : Tables.t) (event_id : string) (now : Z)
    (command : ScoreFindingSeverityCommand.t)
    : result (Tables.t * ScoreFindingSeverityResult.t) :=
  proposal ← get_proposal db.(Tables.flow) command.(ScoreFindingSeverityCommand.proposal_id);
  proposal ← found proposal;
  candidate ← get_candidate db proposal.(FindingProposalRecord.candidate_id);
  candidate ← found candidate;
  view ← read_validation_audit_view db.(Tables.flow).(FindingFlow.Db.audit_events) candidate;
  kinds ← impact_kinds_for_proposal db.(Tables.ledger)
            proposal.(FindingProposalRecord.impact_chain_ids);
  default_signal ← severity_signal view kinds "NONE" "SINGLE_USER";
  requested_signal ← severity_signal view kinds
                       command.(ScoreFindingSeverityCommand.data_sensitivity)
                       command.(ScoreFindingSeverityCommand.affected_scope);
  let severity := bound_severity (classify_severity default_signal)
                    (classify_severity requested_signal) in
  event ← AuditEventRecord.post_init
            (AuditEventRecord.mk event_id now "control-plane:severity"
               (ActorType.value ActorType.CONTROL_PLANE)
               (if scored severity then "FINDING_SEVERITY_SCORED"
                else "FINDING_SEVERITY_NOT_SCORED")
               "finding_proposal" proposal.(FindingProposalRecord.proposal_id)
               (severity_payload proposal candidate view kinds severity)
               (Some proposal.(FindingProposalRecord.research_run_id)));
  flow ← insert_audit db.(Tables.flow) event;
  Ok (Tables.with_flow flow db,
      ScoreFindingSeverityResult.mk severity.(SeverityResult.severity)
        severity.(SeverityResult.reason_codes) event_id).

(** ** What a submission stands on *)

(** Ids as they are generated: Research strips the text it is given. *)
Definition tidy (s : string) : Prop := Str.strip s = s.

Record well_keyed (db : Tables.t) : Prop := {
  wk_candidate : forall k c, db.(Tables.flow).(FindingFlow.Db.candidates) !! k = Some c ->
    c.(CandidateRecord.candidate_id) = k /\ tidy k /\ tidy c.(CandidateRecord.research_run_id)
    /\ Forall tidy c.(CandidateRecord.evidence_ids) /\ tidy c.(CandidateRecord.classification);
  wk_verification : forall v, v ∈ db.(Tables.verifications) ->
    tidy v.(VerificationRecord.verification_id);
  wk_chain : forall k r, db.(Tables.ledger).(ImpactLedger.Db.chains) !! k = Some r ->
    r.(ImpactChainRecord.chain_id) = k }.

(** A chain of the run in the ledger whose nodes and edges are proven and whose kinds of
    impact are demonstrated by their own proofs. *)
Definition grounded_chain `{O : EdgeOrder} (ledger : ImpactLedger.Db.t) (run chain_id : string) : Prop :=
  exists record chain,
    ledger.(ImpactLedger.Db.chains) !! chain_id = Some record
    /\ record.(ImpactChainRecord.research_run_id) = run
    /\ rebuild_impact_chain ledger record = Ok chain
    /\ (forall n, n ∈ chain.(ImpactChain.nodes) ->
          all_proven (resolve ledger) run n.(ImpactNode.proof_refs)
          /\ demonstrated (resolve ledger) run n)
    /\ (forall e, e ∈ chain.(ImpactChain.edges) ->
          all_proven (resolve ledger) run e.(ImpactEdge.proof_refs)).

(** The tiers let a candidate pass. *)
Definition tiers_passed (db : Tables.t) (c : CandidateRecord.t) : Prop :=
  c.(CandidateRecord.classification) = DIAGNOSTIC_CANDIDATE_CLASSIFICATION
  \/ exists view, read_validation_audit_view db.(Tables.flow).(FindingFlow.Db.audit_events) c
                  = Ok view /\ ValidationAuditView.admitted view = true.

(** A proposal that the tables [db] justify. *)
Record grounded `{O : EdgeOrder} (db : Tables.t) (p : FindingProposalRecord.t) (c : CandidateRecord.t) : Prop := {
  gr_candidate : db.(Tables.flow).(FindingFlow.Db.candidates)
                   !! p.(FindingProposalRecord.candidate_id) = Some c;
  gr_validated : c.(CandidateRecord.state) = "VALIDATED";
  gr_run : p.(FindingProposalRecord.research_run_id) = c.(CandidateRecord.research_run_id);
  gr_class : finding_class c.(CandidateRecord.classification) p.(FindingProposalRecord.title)
               p.(FindingProposalRecord.claim);
  gr_classification :
    p.(FindingProposalRecord.classification) = c.(CandidateRecord.classification);
  gr_evidence : forall x, x ∈ p.(FindingProposalRecord.evidence_ids)
                          <-> x ∈ c.(CandidateRecord.evidence_ids);
  gr_verifications : forall x, x ∈ p.(FindingProposalRecord.verification_ids)
    <-> exists v, v ∈ db.(Tables.verifications) /\ v.(VerificationRecord.verification_id) = x
          /\ v.(VerificationRecord.candidate_id) = c.(CandidateRecord.candidate_id);
  gr_tiers : tiers_passed db c;
  gr_chains : forall id, id ∈ p.(FindingProposalRecord.impact_chain_ids) ->
    grounded_chain db.(Tables.ledger) c.(CandidateRecord.research_run_id) id }.

Lemma validate_impact_claim_ok `{O : EdgeOrder} ledger run claim id :
  validate_impact_claim ledger run claim = Ok id ->
  id = claim.(ImpactClaim.chain_id) /\ grounded_chain ledger run id.
Proof.
  unfold validate_impact_claim. intros (r & Hr & H)%bind_ok.
  unfold get_chain in Hr. apply bind_ok in Hr as (_ & _ & [= <-]).
  apply bind_ok in H as (record & Hrec%found_ok & H).
  apply raise_if_ok in H as [Hrun%negb_false_iff%String.eqb_eq H].
  apply bind_ok in H as (chain & Hchain & H). apply bind_ok in H as (v & Hv & H).
  apply raise_if_ok in H as [Hvv%negb_false_iff H]. apply bind_ok in H as (s & Hs & H).
  apply raise_if_ok in H as [Hsv%negb_false_iff [= <-]]. split; [done|].
  destruct (proj1 (validate_chain_valid chain (resolve ledger) run)) as [Hn He]; [by exists v|].
  pose proof (proj1 (validate_chain_impact_scope_valid chain (resolve ledger) run)) as Hd.
  exists record, chain. do 3 (split; [done|]). split; [|done].
  intros n Hin. split; [by apply Hn|]. apply Hd; [by exists s|done].
Qed.

Lemma validate_impact_claims_ok `{O : EdgeOrder} ledger draft run ids :
  validate_impact_claims ledger draft run = Ok ids ->
  forall id, id ∈ ids -> grounded_chain ledger run id.
Proof.
  unfold validate_impact_claims. rewrite traverse_ok. intros H id [i Hi]%list_elem_of_lookup.
  destruct (Forall2_lookup_r _ _ _ _ _ H Hi) as (claim & _ & Hc).
  by apply validate_impact_claim_ok in Hc as [_ ?].
Qed.

Lemma require_text_tidy s v : tidy s -> Candidate.require_text s = Ok v -> v = s.
Proof.
  unfold Candidate.require_text. intros Ht [_ [= <-]]%raise_if_ok. exact Ht.
Qed.

Lemma require_ids_tidy l v : Forall tidy l -> Candidate.require_ids l = Ok v -> v = l.
Proof.
  unfold Candidate.require_ids. rewrite traverse_ok. intros Ht H.
  induction H as [|x y l v Hx _ IH]; [done|]. apply Forall_cons in Ht as [H1 H2].
  by rewrite (require_text_tidy _ _ H1 Hx), (IH H2).
Qed.

(** With tidy fields the context says what it was given. *)
Lemma context_tidy x y :
  FindingProposalAdmissionContext.post_init x = Ok y ->
  tidy x.(FindingProposalAdmissionContext.candidate_id) ->
  tidy x.(FindingProposalAdmissionContext.research_run_id) ->
  Forall tidy x.(FindingProposalAdmissionContext.evidence_ids) ->
  Forall tidy x.(FindingProposalAdmissionContext.verification_ids) ->
  tidy x.(FindingProposalAdmissionContext.classification) -> y = x.
Proof.
  intros H H1 H2 H3 H4 H5. unfold FindingProposalAdmissionContext.post_init in H.
  apply bind_ok in H as (a & Ha & H). apply bind_ok in H as (b & Hb & H).
  apply bind_ok in H as (c & Hc & H). apply bind_ok in H as (d & Hd & H).
  apply bind_ok in H as (e & He & [= <-]).
  rewrite (require_text_tidy _ _ H1 Ha), (require_text_tidy _ _ H2 Hb), (require_ids_tidy _ _ H3 Hc),
    (require_ids_tidy _ _ H4 Hd), (require_text_tidy _ _ H5 He). by destruct x.
Qed.

Lemma list_proposals_in db id l p :
  list_proposals_for_candidate db id = Ok l ->
  p ∈ l <-> p.(FindingProposalRecord.candidate_id) = id
            /\ exists k, db.(FindingFlow.Db.proposals) !! k = Some p.
Proof.
  unfold list_proposals_for_candidate. intros (_ & _ & [= <-])%bind_ok.
  rewrite elem_of_sort_by, elem_of_list_filter_bool, String.eqb_eq.
  rewrite list_elem_of_fmap. split.
  - intros [([k q] & -> & Hq%elem_of_map_to_list) E]. split; [done|by exists k].
  - intros [E [k Hk]]. split; [|done]. exists (k, p). split; [done|].
    by apply elem_of_map_to_list.
Qed.

Lemma already_recorded_ok p r :
  already_recorded p = Ok r ->
  r.(SubmitFindingProposalResult.outcome) = FindingProposalAdmissionOutcome.ADMITTED
  /\ r.(SubmitFindingProposalResult.proposal_id) = Some p.(FindingProposalRecord.proposal_id).
Proof. unfold already_recorded. by intros (s & _ & [= <-])%bind_ok. Qed.

Lemma reload_existing_ok db id r :
  reload_existing db id = Ok r ->
  exists p l, list_proposals_for_candidate db.(Tables.flow) id = Ok (p :: l)
    /\ already_recorded p = Ok r.
Proof.
  unfold reload_existing. intros (l & Hl & H)%bind_ok. destruct l as [|p l]; [done|]. eauto.
Qed.

Lemma tiers_not_refused db c v :
  validate_security_candidate_tiers db c = Ok v -> is_refused v = None -> tiers_passed db c.
Proof.
  unfold validate_security_candidate_tiers, tiers_passed.
  destruct (String.eqb_spec (CandidateRecord.classification c) DIAGNOSTIC_CANDIDATE_CLASSIFICATION)
    as [E|E]; [by left|]. intros (view & Hview & [= <-])%bind_ok Hr. right. exists view.
  split; [done|]. revert Hview Hr. unfold read_validation_audit_view.
  rewrite (proj2 (String.eqb_neq _ _) E). intros (l & _ & (o & _ & (d & _ & [= <-])%bind_ok)%bind_ok)%bind_ok.
  unfold ValidationAuditView.admitted. cbn. by destruct (ValidationAdmissionDecision.admitted d).
Qed.

(** [r] records the draft for the candidate, and what was checked before it is written. *)
Record records `{O : EdgeOrder} (before : Tables.t) (c : CandidateRecord.t) (draft : FindingProposalDraft.t)
    (r : FindingProposalRecord.t) : Prop := {
  rc_state : r.(FindingProposalRecord.state) = "PROPOSED";
  rc_candidate : r.(FindingProposalRecord.candidate_id) = draft.(FindingProposalDraft.candidate_id);
  rc_run : r.(FindingProposalRecord.research_run_id) = draft.(FindingProposalDraft.research_run_id);
  rc_title : r.(FindingProposalRecord.title) = draft.(FindingProposalDraft.title);
  rc_claim : r.(FindingProposalRecord.claim) = draft.(FindingProposalDraft.claim);
  rc_class : r.(FindingProposalRecord.classification) = c.(CandidateRecord.classification);
  rc_evidence : r.(FindingProposalRecord.evidence_ids) = draft.(FindingProposalDraft.evidence_ids);
  rc_verifications :
    r.(FindingProposalRecord.verification_ids) = draft.(FindingProposalDraft.verification_ids);
  rc_tiers : tiers_passed before c;
  rc_chains : forall id, id ∈ r.(FindingProposalRecord.impact_chain_ids) ->
    grounded_chain before.(Tables.ledger) draft.(FindingProposalDraft.research_run_id) id }.

(** The draft was admitted for what the tables say about the candidate. *)
Definition admitted_for (before : Tables.t) (c : CandidateRecord.t)
    (draft : FindingProposalDraft.t) : Prop :=
  exists context,
    candidate_state_of_value c.(CandidateRecord.state)
      = Ok context.(FindingProposalAdmissionContext.candidate_state)
    /\ FindingProposalAdmissionContext.post_init
         (FindingProposalAdmissionContext.mk c.(CandidateRecord.candidate_id)
            context.(FindingProposalAdmissionContext.candidate_state)
            c.(CandidateRecord.research_run_id) c.(CandidateRecord.evidence_ids)
            (VerificationRecord.verification_id
               <$> sort_by VerificationRecord.verification_id
                     (List.filter (fun v => (v.(VerificationRecord.candidate_id)
                                             =? c.(CandidateRecord.candidate_id))%string)
                        before.(Tables.verifications)))
            c.(CandidateRecord.classification)) = Ok context
    /\ FindingProposalAdmissionDecision.creates_proposal (admit_finding_proposal draft context)
       = true.

Section submit_correct.
Context `{O : EdgeOrder} (sha256_json : pyval -> string) (before db : Tables.t) (fresh : nat -> string)
  (now : nat -> Z) (actor_id : string).

(** How [write_proposal] ends: refused by the tiers, overtaken by another transaction, or
    recorded. *)
Inductive written (c : CandidateRecord.t) (draft : FindingProposalDraft.t)
    (db' : Tables.t) (res : SubmitFindingProposalResult.t) : Prop :=
  | written_refused e flow :
      insert_audit db.(Tables.flow) e = Ok flow -> db' = Tables.with_flow flow db ->
      res.(SubmitFindingProposalResult.outcome)
        = FindingProposalAdmissionOutcome.REJECTED_VALIDATION_NOT_PASSED ->
      res.(SubmitFindingProposalResult.proposal_id) = None -> written c draft db' res
  | written_overtaken :
      db' = db -> reload_existing db c.(CandidateRecord.candidate_id) = Ok res ->
      written c draft db' res
  | written_recorded r e flow flow' :
      insert_proposal db.(Tables.flow) r = Ok flow -> insert_audit flow e = Ok flow' ->
      db' = Tables.with_flow flow' db ->
      res.(SubmitFindingProposalResult.outcome) = FindingProposalAdmissionOutcome.ADMITTED ->
      res.(SubmitFindingProposalResult.proposal_id)
        = Some r.(FindingProposalRecord.proposal_id) ->
      records before c draft r ->
      written c draft db' res.

Lemma write_proposal_ok c draft decision db' res :
  decision.(FindingProposalAdmissionDecision.outcome) = FindingProposalAdmissionOutcome.ADMITTED ->
  write_proposal sha256_json before db fresh now actor_id c draft decision = Ok (db', res) ->
  written c draft db' res.
Proof.
  intros Hadm. unfold write_proposal.
  destruct (FindingProposalAdmissionDecision.initial_state decision) as [[]|] eqn:Hst; try done.
  intros (v & Hv & H)%bind_ok. destruct (is_refused v) as [d|] eqn:Hr.
  - apply bind_ok in H as (e & He & H). apply bind_ok in H as (flow & Hf & [= <- <-]).
    by eapply written_refused.
  - apply bind_ok in H as (ids & Hids & H). apply bind_ok in H as (r & Hrec & H).
    unfold proposal_record in Hrec. apply validated in Hrec.
    destruct (candidate_conflict _ _).
    { apply bind_ok in H as (x & Hx & [= <- <-]). by apply written_overtaken. }
    apply bind_ok in H as (flow & Hi & H). apply bind_ok in H as (e & He & H).
    apply bind_ok in H as (flow' & Ha & [= <- <-]).
    eapply (written_recorded _ _ _ _ r e flow flow'); try done; subst r; [done|].
    constructor; try done.
    + by eapply tiers_not_refused.
    + cbn. by eapply validate_impact_claims_ok.
Qed.

(** What the reads of [submit_finding_proposal] lead to. *)
Inductive submitted (command : SubmitFindingProposalCommand.t) (db' : Tables.t)
    (res : SubmitFindingProposalResult.t) : Prop :=
  | submitted_before c p l :
      before.(Tables.flow).(FindingFlow.Db.candidates)
        !! command.(SubmitFindingProposalCommand.candidate_id) = Some c ->
      list_proposals_for_candidate before.(Tables.flow) c.(CandidateRecord.candidate_id)
        = Ok (p :: l) ->
      is_ok (candidate_state_of_value c.(CandidateRecord.state)) = true ->
      already_recorded p = Ok res -> db' = db -> submitted command db' res
  | submitted_rejected c :
      before.(Tables.flow).(FindingFlow.Db.candidates)
        !! command.(SubmitFindingProposalCommand.candidate_id) = Some c ->
      list_proposals_for_candidate before.(Tables.flow) c.(CandidateRecord.candidate_id) = Ok [] ->
      res.(SubmitFindingProposalResult.outcome) <> FindingProposalAdmissionOutcome.ADMITTED ->
      res.(SubmitFindingProposalResult.proposal_id) = None -> db' = db ->
      submitted command db' res
  | submitted_written c draft :
      before.(Tables.flow).(FindingFlow.Db.candidates)
        !! command.(SubmitFindingProposalCommand.candidate_id) = Some c ->
      list_proposals_for_candidate before.(Tables.flow) c.(CandidateRecord.candidate_id) = Ok [] ->
      admitted_for before c draft -> written c draft db' res -> submitted command db' res.

Lemma submit_ok command db' res :
  submit_finding_proposal sha256_json before db fresh now actor_id command = Ok (db', res) ->
  submitted command db' res.
Proof.
  unfold submit_finding_proposal. intros (oc & Hoc & H)%bind_ok.
  unfold get_candidate in Hoc. apply bind_ok in Hoc as (_ & _ & [= <-]).
  apply bind_ok in H as (c & Hc%found_ok & H). apply bind_ok in H as (s & Hs & H).
  rewrite reraise_ok in Hs. apply bind_ok in H as (l & Hl & H). destruct l as [|p l].
  2: { apply bind_ok in H as (r & Hr & [= <- <-]). eapply submitted_before; try done.
       by rewrite Hs. }
  apply bind_ok in H as (vs & Hvs & H). unfold list_verifications_for_candidate in Hvs.
  apply bind_ok in Hvs as (_ & _ & [= <-]). apply bind_ok in H as (ctx & Hctx & H).
  apply bind_ok in H as (draft & _ & H). cbv zeta in H.
  destruct (FindingProposalAdmissionDecision.creates_proposal _) eqn:Hcr.
  - assert (s = ctx.(FindingProposalAdmissionContext.candidate_state)) as ->.
    { unfold FindingProposalAdmissionContext.post_init in Hctx.
      repeat (apply bind_ok in Hctx as (? & _ & Hctx)). by injection Hctx as <-. }
    eapply submitted_written; [done|done|by exists ctx|]. eapply write_proposal_ok; [|exact H].
    unfold FindingProposalAdmissionDecision.creates_proposal in Hcr.
    by apply andb_true_iff in Hcr as [?%bool_decide_eq_true _].
  - injection H as <- <-. eapply submitted_rejected; try done. cbn. intros E.
    unfold FindingProposalAdmissionDecision.creates_proposal in Hcr. rewrite E in Hcr.
    revert E Hcr. unfold admit_finding_proposal. repeat case_match; done.
Qed.

End submit_correct.

(** A recorded proposal is one the tables justify. *)
Lemma recorded_grounded `{O : EdgeOrder} before c draft k r :
  well_keyed before -> before.(Tables.flow).(FindingFlow.Db.candidates) !! k = Some c ->
  admitted_for before c draft -> records before c draft r ->
  grounded before r c /\ r.(FindingProposalRecord.candidate_id) = k.
Proof.
  intros WK Hc (context & Hs & Hctx & Hcr) [E0 E1 E2 E3 E4 E5 E6 E7 Ht Hch].
  destruct (wk_candidate _ WK _ _ Hc) as (Hk & T1 & T2 & T3 & T4). rewrite <-Hk in T1, Hc.
  apply context_tidy in Hctx; [|done..|cbn|done].
  2: { apply Forall_forall. intros x. rewrite list_elem_of_fmap. setoid_rewrite elem_of_sort_by.
       intros (v & -> & [Hv _]%elem_of_list_filter_bool). by apply (wk_verification _ WK). }
  apply finding_proposal_admitted_iff in Hcr as (Hst & _ & D1 & D2 & D3 & D4 & D5).
  rewrite Hctx in D1, D2, D3, D4, D5. cbn in D1, D2, D3, D4, D5.
  split; [|by rewrite E1, D1]. constructor; try done.
  - by rewrite E1, D1.
  - rewrite Hst in Hs. by apply candidate_state_of_value_ok in Hs.
  - by rewrite E2, D2.
  - by rewrite E3, E4.
  - by rewrite E6.
  - intros x. rewrite E7, D4, list_elem_of_fmap. setoid_rewrite elem_of_sort_by.
    setoid_rewrite elem_of_list_filter_bool. setoid_rewrite String.eqb_eq. naive_solver.
  - by rewrite <-D2.
Qed.

(** ** Theorems: submission *)

Lemma insert_proposal_ok db r flow :
  insert_proposal db r = Ok flow ->
  db.(FindingFlow.Db.proposals) !! r.(FindingProposalRecord.proposal_id) = None
  /\ flow = FindingFlow.Db.set_proposals <[r.(FindingProposalRecord.proposal_id) := r]> db
  /\ is_Some (db.(FindingFlow.Db.candidates) !! r.(FindingProposalRecord.candidate_id))
  /\ forall k p, db.(FindingFlow.Db.proposals) !! k = Some p ->
       p.(FindingProposalRecord.candidate_id) <> r.(FindingProposalRecord.candidate_id).
Proof.
  unfold insert_proposal. cbv zeta. rewrite !raise_if_ok.
  intros ([Hn He]%orb_false_iff & [Hc _]%orb_false_iff & [= <-]).
  rewrite bool_decide_eq_false, <-eq_None_not_Some in Hn.
  apply negb_false_iff, bool_decide_eq_true in Hc. do 3 (split; [done|]).
  intros k p Hp E. rewrite existsb_false in He. specialize (He (k, p)). cbn in He.
  rewrite E, String.eqb_refl in He. by discriminate He; apply elem_of_map_to_list.
Qed.

Lemma steps_one late past a b : step late (a :: past) a b -> steps late past a (a :: past) b.
Proof. intros H. eapply steps_snoc; [apply steps_refl|exact H]. Qed.

(** C4. Nothing is proposed without its grounds: submitting a proposal is a run of the
    finding workflow that touches neither the ledger nor the verifications; the only
    proposal it can add is PROPOSED, for a candidate that was and still is VALIDATED, with
    the title and the claim of its class, exactly its evidence and all its verifications,
    with the validation tiers passed and every impact chain it cites demonstrated by proofs
    of its own run; and it answers ADMITTED only with the id of a proposal of the candidate,
    and with any other answer leaves the proposals as they were.  Any transactions may
    commit between its reads and writes, and may themselves have read any database of the
    history; the candidate is still VALIDATED after the submission when none of them moved a
    candidate on a state that had changed since it was read ([late = false]). *)
Theorem submission_is_grounded `{O : EdgeOrder} sha256_json late past0 before past db fresh now actor_id command db'
    res :
  well_keyed before -> settled past0 before.(Tables.flow) ->
  steps late past0 before.(Tables.flow) past db.(Tables.flow) ->
  submit_finding_proposal sha256_json before db fresh now actor_id command = Ok (db', res) ->
  let proposals (x : Tables.t) := x.(Tables.flow).(FindingFlow.Db.proposals) in
  (exists past', steps late past db.(Tables.flow) past' db'.(Tables.flow))
  /\ db'.(Tables.ledger) = db.(Tables.ledger)
  /\ db'.(Tables.verifications) = db.(Tables.verifications)
  /\ (forall k p, proposals db' !! k = Some p ->
        proposals db !! k = Some p
        \/ p.(FindingProposalRecord.state) = "PROPOSED"
           /\ p.(FindingProposalRecord.candidate_id)
              = command.(SubmitFindingProposalCommand.candidate_id)
           /\ (exists c, grounded before p c)
           /\ exists c, db'.(Tables.flow).(FindingFlow.Db.candidates)
                          !! p.(FindingProposalRecord.candidate_id) = Some c
                        /\ (late = false -> c.(CandidateRecord.state) = "VALIDATED"))
  /\ (res.(SubmitFindingProposalResult.outcome) = FindingProposalAdmissionOutcome.ADMITTED ->
        exists id p, res.(SubmitFindingProposalResult.proposal_id) = Some id
          /\ proposals db' !! id = Some p
          /\ p.(FindingProposalRecord.candidate_id)
             = command.(SubmitFindingProposalCommand.candidate_id))
  /\ (res.(SubmitFindingProposalResult.outcome) <> FindingProposalAdmissionOutcome.ADMITTED ->
        res.(SubmitFindingProposalResult.proposal_id) = None /\ proposals db' = proposals db).
Proof.
  intros WK S Hbd H proposals. apply submit_ok in H. pose proof (settled_inv _ _ S) as I.
  destruct (steps_inv _ _ _ _ _ Hbd S) as (E & S' & V & _). pose proof (settled_inv _ _ S') as I'. destruct H as [c p l Hc Hl _ Hr ->|c Hc Hl Ho Hp ->
    |c draft Hc Hl Hadm W].
  - apply already_recorded_ok in Hr as [Ho Hp]. split; [eexists; apply steps_refl|]. do 2 (split; [done|]).
    split; [by left|]. split; [|done]. intros _.
    destruct (proj1 (list_proposals_in _ _ _ p Hl)) as [Hpc [k Hk]]; [by left|].
    destruct (ex_proposals _ _ E _ _ Hk) as (s & Hk').
    exists k, (with_state s p). rewrite Hp, (inv_key _ I _ _ Hk). split; [done|]. split; [done|].
    cbn. destruct (wk_candidate _ WK _ _ Hc) as [<- _]. exact Hpc.
  - split; [eexists; apply steps_refl|]. do 2 (split; [done|]). split; [by left|]. split; [by intros ?%Ho|done].
  - destruct W as [e flow Hi -> Ho Hp| -> Hr|r e flow flow' Hi Ha -> Ho Hp Hrec].
    + split; [eexists; by eapply steps_one, step_audit|]. do 2 (split; [done|]).
      apply insert_audit_ok in Hi as ->. split; [by left|]. by rewrite Ho.
    + apply reload_existing_ok in Hr as (p & l & Hl' & Hr).
      apply already_recorded_ok in Hr as [Ho Hp]. split; [eexists; apply steps_refl|]. do 2 (split; [done|]).
      split; [by left|]. split; [|done]. intros _.
      destruct (proj1 (list_proposals_in _ _ _ p Hl')) as [Hpc [k Hk]]; [by left|].
      exists k, p. rewrite Hp, (inv_key _ I' _ _ Hk). split; [done|]. split; [done|].
      destruct (wk_candidate _ WK _ _ Hc) as [<- _]. exact Hpc.
    + destruct (recorded_grounded _ _ _ _ _ WK Hc Hadm Hrec) as [G Gk].
      split.
      { eexists. eapply steps_snoc; [eapply steps_one, step_submit; [apply Hrec|exact Hi]|].
        by eapply step_audit. }
      do 2 (split; [done|]). apply insert_proposal_ok in Hi as (_ & -> & _ & _).
      apply insert_audit_ok in Ha as ->. unfold proposals. cbn. split; [|split].
      * intros k p. rewrite lookup_insert_Some. intros [[<- <-]|[_ Hk]]; [right|by left].
        split; [apply Hrec|]. split; [done|]. split; [by exists c|].
        destruct (ex_candidates _ _ E _ _ (gr_candidate _ _ _ G)) as (s & Hs). eexists.
        split; [exact Hs|]. intros Hlate.
        destruct (V Hlate _ _ (gr_candidate _ _ _ G) (gr_validated _ _ _ G)) as (c' & Hc' & Hv).
        rewrite Hs in Hc'. injection Hc' as <-. exact Hv.
      * intros _. exists r.(FindingProposalRecord.proposal_id), r. by rewrite lookup_insert_eq.
      * by rewrite Ho.
Qed.

(** Submitting for a candidate that has a proposal changes nothing. *)
Lemma submit_again `{O : EdgeOrder} sha256_json db fresh now actor_id draft k c p l r :
  db.(Tables.flow).(FindingFlow.Db.candidates) !! k = Some c ->
  c.(CandidateRecord.candidate_id) = k ->
  is_ok (candidate_state_of_value c.(CandidateRecord.state)) = true ->
  list_proposals_for_candidate db.(Tables.flow) k = Ok (p :: l) -> already_recorded p = Ok r ->
  submit_finding_proposal sha256_json db db fresh now actor_id
    (SubmitFindingProposalCommand.mk k draft) = Ok (db, r).
Proof.
  intros Hc Hk Hs Hl Hr. unfold submit_finding_proposal, get_candidate. cbn.
  assert (data_opaque_id k = Ok k) as ->.
  { unfold list_proposals_for_candidate in Hl. apply bind_ok in Hl as (x & Hx & _).
    unfold data_opaque_id in *. by destruct (Str.is_blank k). }
  cbn. rewrite Hc. cbn. rewrite Hk. destruct (candidate_state_of_value _); [|done]. cbn.
  rewrite Hl. cbn. by rewrite Hr.
Qed.

(** A candidate has one proposal: after a call that answered with a proposal, every
    later call for the candidate, whoever makes it and whatever draft it brings, leaves the
    tables as they are and answers with that proposal. *)
Theorem submission_idempotent `{O : EdgeOrder} sha256_json db fresh now actor_id command db' res id :
  well_keyed db ->
  submit_finding_proposal sha256_json db db fresh now actor_id command = Ok (db', res) ->
  res.(SubmitFindingProposalResult.proposal_id) = Some id ->
  forall fresh' now' actor_id' draft', exists res',
    submit_finding_proposal sha256_json db' db' fresh' now' actor_id'
      (SubmitFindingProposalCommand.mk command.(SubmitFindingProposalCommand.candidate_id) draft')
    = Ok (db', res')
    /\ res'.(SubmitFindingProposalResult.outcome) = FindingProposalAdmissionOutcome.ADMITTED
    /\ res'.(SubmitFindingProposalResult.proposal_id) = Some id.
Proof.
  intros WK H Hid fresh' now' actor' draft'. apply submit_ok in H.
  destruct H as [c p l Hc Hl Hs Hr ->|c Hc Hl Ho Hp ->|c draft Hc Hl Hadm W].
  - destruct (wk_candidate _ WK _ _ Hc) as [Hk _]. rewrite Hk in Hl.
    exists res. rewrite (submit_again _ _ _ _ _ _ _ _ _ _ _ Hc Hk Hs Hl Hr).
    by apply already_recorded_ok in Hr as [? _].
  - congruence.
  - destruct W as [e flow Hi -> Ho Hp| -> Hr|r e flow flow' Hi Ha -> Ho Hp Hrec]; [congruence|..].
    { apply reload_existing_ok in Hr as (p & l & Hl' & _). congruence. }
    destruct (recorded_grounded _ _ _ _ _ WK Hc Hadm Hrec) as [_ Gk].
    destruct (wk_candidate _ WK _ _ Hc) as [Hk _]. rewrite Hk in Hl.
    apply insert_proposal_ok in Hi as (_ & -> & _ & Huniq). apply insert_audit_ok in Ha as ->.
    destruct Hadm as (ctx & Hs & _).
    unfold list_proposals_for_candidate in Hl. apply bind_ok in Hl as (x & Hx & _).
    match goal with |- context [Tables.with_flow ?f db] => set (flow' := f) end.
    assert (exists l', list_proposals_for_candidate flow' command.(SubmitFindingProposalCommand.candidate_id)
      = Ok l') as [l' Hl'] by (unfold list_proposals_for_candidate; rewrite Hx; cbn; by eexists).
    pose proof (fun p => list_proposals_in _ _ _ p Hl') as Hin.
    assert (r ∈ l') as Hr.
    { apply Hin. split; [done|]. exists r.(FindingProposalRecord.proposal_id). cbn.
      apply lookup_insert_eq. }
    destruct l' as [|p l']; [by apply elem_of_nil in Hr|].
    assert (p = r) as ->.
    { destruct (proj1 (Hin p)) as [Hpc [k Hkp]]; [by left|]. cbn in Hkp.
      apply lookup_insert_Some in Hkp as [[_ <-]|[_ Hkp]]; [done|].
      by destruct (Huniq _ _ Hkp); rewrite Gk. }
    assert (exists y, already_recorded r = Ok y) as [y Hy].
    { unfold already_recorded. rewrite (rc_state _ _ _ _ Hrec). cbn. by eexists. }
    exists y. apply already_recorded_ok in Hy as Hy'. destruct Hy' as [Hyo Hyi].
    split; [|by rewrite Hyi, <-Hp]. eapply submit_again; [exact Hc|done| |exact Hl'|done].
    by rewrite Hs.
Qed.

(** ** Theorems: scoring *)

Lemma coerce_members {A} (of_value : string -> result A) (l : list A) :
  traverse (coerce of_value) (Member <$> l) = Ok l.
Proof. induction l as [|x l IH]; [done|]. cbn. cbn in IH. by rewrite IH. Qed.

Lemma severity_signal_ok view kinds d a s :
  severity_signal view kinds d a = Ok s ->
  let passed := ValidationAuditView.admitted view in
  s = SeverityInput.mk (if passed then ValidationState.PASSED else ValidationState.NOT_PASSED)
        (if passed then scope_state view else ScopeState.NOT_IN_SCOPE) kinds d a.
Proof.
  unfold severity_signal, SeverityInput.post_init. cbn [mbind result_bind coerce
    SeverityInput.arg_impact_kinds SeverityInput.arg_validation_state SeverityInput.arg_scope_state
    SeverityInput.arg_data_sensitivity SeverityInput.arg_affected_scope].
  rewrite coerce_members. cbn [mbind result_bind]. intros (d' & Hd & H)%bind_ok.
  apply bind_ok in H as (a' & Ha & [= <-]). unfold require_choice in Hd, Ha.
  apply raise_if_ok in Hd as [_ [= <-]]. by apply raise_if_ok in Ha as [_ [= <-]].
Qed.

(** The kinds collected are those of the rebuilt chains. *)
Lemma kinds_of_chain `{O : EdgeOrder} ledger record chain rows kinds :
  rebuild_impact_chain ledger record = Ok chain ->
  get_nodes ledger record.(ImpactChainRecord.chain_id) = Ok rows ->
  traverse (fun n => ImpactKind.of_value n.(ImpactChainNodeRecord.impact_kind)) rows = Ok kinds ->
  forall k, k ∈ kinds -> exists n, n ∈ chain.(ImpactChain.nodes) /\ n.(ImpactNode.impact_kind) = k.
Proof.
  unfold rebuild_impact_chain. intros H Hrows Hkinds k Hk. rewrite Hrows in H. cbn [mbind result_bind] in H.
  apply bind_ok in H as (es & _ & H). apply bind_ok in H as (nodes & Hn & H).
  apply bind_ok in H as (edges & _ & H). apply impact_chain_ok in H as (_ & _ & _ & _ & H).
  assert (chain.(ImpactChain.nodes) = nodes) as -> by (by rewrite H).
  apply traverse_ok in Hn. apply traverse_ok in Hkinds.
  apply list_elem_of_lookup in Hk as [i Hi].
  destruct (Forall2_lookup_r _ _ _ _ _ Hkinds Hi) as (row & Hrow & Hv).
  destruct (Forall2_lookup_l _ _ _ _ _ Hn Hrow) as (n & Hni & Hnode).
  exists n. split; [by eapply list_elem_of_lookup_2|]. unfold node_from_record in Hnode.
  rewrite Hv in Hnode. cbn [mbind result_bind] in Hnode.
  apply bind_ok in Hnode as (sc & _ & Hnode). unfold ImpactNode.post_init in Hnode.
  peel Hnode. by injection Hnode as <-.
Qed.

Lemma proposal_kinds `{O : EdgeOrder} ledger ids kinds :
  (forall k r, ledger.(ImpactLedger.Db.chains) !! k = Some r -> r.(ImpactChainRecord.chain_id) = k) ->
  impact_kinds_for_proposal ledger ids = Ok kinds ->
  (forall id, id ∈ ids -> exists run, grounded_chain ledger run id) ->
  forall k, k ∈ kinds ->
    k ∈ LEDGER_KINDS
    /\ exists id e, ledger.(ImpactLedger.Db.evidence) !! id = Some e
         /\ e.(EvidenceRecord.claim_scope)
            ∈ [HTTP_AUTHORIZATION_DIFFERENTIAL_CLAIM; HTTP_STATE_TRANSITION_CLAIM].
Proof.
  intros Hkey H Hg k Hk. unfold impact_kinds_for_proposal in H.
  apply bind_ok in H as (per & Hper & [= <-]). apply traverse_ok in Hper.
  apply list_elem_of_In, in_concat in Hk as (ks & Hks & Hk). apply list_elem_of_In in Hks, Hk.
  apply list_elem_of_lookup in Hks as [i Hi].
  destruct (Forall2_lookup_r _ _ _ _ _ Hper Hi) as (id & Hid & Hv).
  apply list_elem_of_lookup_2 in Hid. destruct (Hg id Hid) as (run & r & chain & Hr & _ & Hc & Hn & _).
  apply bind_ok in Hv as (rows & Hrows & Hv). rewrite <-(Hkey _ _ Hr) in Hrows.
  destruct (kinds_of_chain _ _ _ _ _ Hc Hrows Hv k Hk) as (n & Hin & <-).
  destruct (Hn n Hin) as [_ Hd]. destruct (ledger_impact_kinds _ _ _ Hd) as [Hl (x & e & _ & ? & ?)].
  split; [done|by exists x, e].
Qed.

(** Severity never exceeds what the ledger holds: scoring a proposal only adds one audit
    event; whatever sensitivity and scope the caller asks for, a severity is given only when
    the candidate passed its tiers in scope, and when the chains of the proposal are grounded
    in the ledger it is never P0, and it is above P3 only if some evidence in the ledger
    carries one of the two security claims. *)
Theorem scored_severity_within_ledger `{O : EdgeOrder} db event_id now command db' res :
  well_keyed db -> score_finding_severity db event_id now command = Ok (db', res) ->
  (exists e flow, insert_audit db.(Tables.flow) e = Ok flow /\ db' = Tables.with_flow flow db)
  /\ exists p c,
    db.(Tables.flow).(FindingFlow.Db.proposals)
      !! command.(ScoreFindingSeverityCommand.proposal_id) = Some p
    /\ db.(Tables.flow).(FindingFlow.Db.candidates) !! p.(FindingProposalRecord.candidate_id)
       = Some c
    /\ forall s, res.(ScoreFindingSeverityResult.severity) = Some s ->
       (exists view,
          read_validation_audit_view db.(Tables.flow).(FindingFlow.Db.audit_events) c = Ok view
          /\ ValidationAuditView.admitted view = true /\ scope_state view = ScopeState.IN_SCOPE)
       /\ ((forall id, id ∈ p.(FindingProposalRecord.impact_chain_ids) ->
              exists run, grounded_chain db.(Tables.ledger) run id) ->
           s <> InternalSeverity.P0
           /\ (s <> InternalSeverity.P3 -> exists id e,
                 db.(Tables.ledger).(ImpactLedger.Db.evidence) !! id = Some e
                 /\ e.(EvidenceRecord.claim_scope)
                    ∈ [HTTP_AUTHORIZATION_DIFFERENTIAL_CLAIM; HTTP_STATE_TRANSITION_CLAIM])).
Proof.
  intros WK. unfold score_finding_severity. intros (op & Hop & H)%bind_ok.
  apply bind_ok in H as (p & Hp & H). apply found_ok in Hp as ->. apply get_proposal_ok in Hop.
  apply bind_ok in H as (oc & Hoc & H). unfold get_candidate in Hoc.
  apply bind_ok in Hoc as (_ & _ & [= <-]). apply bind_ok in H as (c & Hc%found_ok & H).
  apply bind_ok in H as (view & Hview & H). apply bind_ok in H as (kinds & Hkinds & H).
  apply bind_ok in H as (s0 & Hs0%severity_signal_ok & H).
  apply bind_ok in H as (s1 & Hs1%severity_signal_ok & H). cbv zeta in H.
  assert (s0 = demonstrated_signal s1) as -> by (by subst s1).
  fold (final_severity s1) in H. apply bind_ok in H as (e & _ & H).
  apply bind_ok in H as (flow & Hf & [= <- <-]). split; [by exists e, flow|].
  exists p, c. do 2 (split; [done|]). cbn. intros s Hs.
  pose proof (final_rank s1) as Hrank. unfold scored_rank in Hrank. rewrite Hs in Hrank.
  assert (s1.(SeverityInput.impact_kinds) = kinds) as Hk by (by subst s1). rewrite Hk in Hrank.
  destruct (may_score s1) eqn:Hm; [|done]. injection Hrank as Hrank.
  assert (ValidationAuditView.admitted view = true /\ scope_state view = ScopeState.IN_SCOPE)
    as [Ha Hsc].
  { subst s1. unfold may_score in Hm. cbn in Hm. destruct (ValidationAuditView.admitted view); [|done].
    by apply andb_true_iff in Hm as [_ ?%bool_decide_eq_true]. }
  split; [by exists view|]. intros Hg.
  pose proof (proposal_kinds _ _ _ (wk_chain _ WK) Hkinds Hg) as Hpk.
  pose proof (kinds_rank_mono kinds LEDGER_KINDS (fun k Hin => proj1 (Hpk k Hin))) as Hmono.
  change (kinds_rank LEDGER_KINDS) with 1 in Hmono. split.
  - intros ->. change (0 = kinds_rank kinds) in Hrank. lia.
  - intros Hne. destruct kinds as [|k kinds].
    + destruct s; try discriminate Hrank. done.
    + by destruct (Hpk k) as [_ ?]; [left|].
Qed.

(** ** A sample *)

(** The edge rows come back as they were inserted. *)
#[local] Instance insertion_order : EdgeOrder :=
  {| edge_order _ rows := rows; edge_order_perm _ rows := Permutation_refl rows |}.

Definition sample_verification : VerificationRecord.t :=
  VerificationRecord.mk "v" "c" "run" "reproduce" "VALIDATED" "VALIDATED" ["e"] ["r"] ["n"] []
    "CONTROL_PLANE" "verifier" 0.

Definition sample_tables : Tables.t :=
  Tables.mk
    (FindingFlow.Db.mk {["run"]} {[ "c" := Validation.sample_candidate ]} ∅ [] [] [] sample_tier_events)
    [sample_verification] registered.

Definition sample_draft : FindingProposalDraft.t :=
  FindingProposalDraft.mk "p" "c" "run" HTTP_AUTHORIZATION_DIFFERENTIAL_FINDING_TITLE
    HTTP_AUTHORIZATION_DIFFERENTIAL_CANDIDATE_CLAIM ["e"] ["v"] [] []
    [ImpactClaim.mk "reads another account" "DATA_READ" "chain"].

Definition sample_submission : result (Tables.t * SubmitFindingProposalResult.t) :=
  submit_finding_proposal (fun _ => "fingerprint") sample_tables sample_tables edge_name
    (fun _ => 100) "control-plane" (SubmitFindingProposalCommand.mk "c" (Some sample_draft)).

Definition submitted_tables : Tables.t :=
  match sample_submission with Ok (db, _) => db | Raise _ => sample_tables end.

Definition submitted_result : SubmitFindingProposalResult.t :=
  SubmitFindingProposalResult.mk FindingProposalAdmissionOutcome.ADMITTED (Some "p")
    (Some FindingProposalState.PROPOSED)
    ["HTTP_AUTHORIZATION_DIFFERENTIAL_FINDING_PROPOSAL_FROM_VALIDATED_CANDIDATE"].

Lemma sample_submission_ok : sample_submission = Ok (submitted_tables, submitted_result).
Proof. vm_compute. reflexivity. Qed.

Lemma sample_well_keyed : well_keyed sample_tables.
Proof.
  constructor; cbn.
  - intros k c [<- <-]%lookup_singleton_Some. do 3 (split; [reflexivity|]).
    split; [|reflexivity]. apply Forall_singleton. reflexivity.
  - intros v ->%list_elem_of_singleton. reflexivity.
  - assert (registered.(ImpactLedger.Db.chains)
      = {[ "chain" := ImpactChainRecord.mk "chain" "run" "program" None 0 ]}) as ->
      by (vm_compute; reflexivity).
    intros k r [<- <-]%lookup_singleton_Some. reflexivity.
Qed.

Lemma submitted_well_keyed : well_keyed submitted_tables.
Proof.
  assert (submitted_tables.(Tables.flow).(FindingFlow.Db.candidates)
          = sample_tables.(Tables.flow).(FindingFlow.Db.candidates)) as E1
    by (vm_compute; reflexivity).
  assert (submitted_tables.(Tables.verifications) = sample_tables.(Tables.verifications)) as E2
    by (vm_compute; reflexivity).
  assert (submitted_tables.(Tables.ledger).(ImpactLedger.Db.chains)
          = sample_tables.(Tables.ledger).(ImpactLedger.Db.chains)) as E3
    by (vm_compute; reflexivity).
  destruct sample_well_keyed as [W1 W2 W3].
  constructor; [by rewrite E1|by rewrite E2|by rewrite E3].
Qed.

Lemma submission_is_grounded_witness :
  sample_submission = Ok (submitted_tables, submitted_result)
  /\ exists id p, submitted_result.(SubmitFindingProposalResult.proposal_id) = Some id
       /\ submitted_tables.(Tables.flow).(FindingFlow.Db.proposals) !! id = Some p.
Proof.
  split; [exact sample_submission_ok|].
  destruct (submission_is_grounded (fun _ => "fingerprint") false [] sample_tables [] sample_tables
    edge_name (fun _ => 100) "control-plane" (SubmitFindingProposalCommand.mk "c" (Some sample_draft))
    submitted_tables submitted_result sample_well_keyed) as (_ & _ & _ & _ & Hin & _).
  - apply fresh_start_settled. repeat split.
  - apply steps_refl.
  - exact sample_submission_ok.
  - destruct (Hin eq_refl) as (id & p & H1 & H2 & _). exists id, p. split; [exact H1|exact H2].
Defined.

Lemma submission_idempotent_witness :
  exists res', submit_finding_proposal (fun _ => "fingerprint") submitted_tables submitted_tables
      edge_name (fun _ => 200) "someone" (SubmitFindingProposalCommand.mk "c" None)
    = Ok (submitted_tables, res')
    /\ res'.(SubmitFindingProposalResult.proposal_id) = Some "p".
Proof.
  destruct (submission_idempotent (fun _ => "fingerprint") sample_tables edge_name (fun _ => 100)
    "control-plane" (SubmitFindingProposalCommand.mk "c" (Some sample_draft)) submitted_tables
    submitted_result "p" sample_well_keyed sample_submission_ok eq_refl edge_name (fun _ => 200)
    "someone" None) as (res' & H1 & _ & H3).
  exists res'. split; [exact H1|exact H3].
Defined.

Definition sample_score : result (Tables.t * ScoreFindingSeverityResult.t) :=
  score_finding_severity submitted_tables "s" 300
    (ScoreFindingSeverityCommand.mk "p" "BULK_SENSITIVE" "ADMIN").

Definition scored_tables : Tables.t :=
  match sample_score with Ok (db, _) => db | Raise _ => submitted_tables end.

(** The caller asks for P0 and gets what the chain demonstrates. *)
Definition scored_result : ScoreFindingSeverityResult.t :=
  ScoreFindingSeverityResult.mk (Some InternalSeverity.P1)
    ["HIGH_VALUE_AUTH_OR_WRITE_IMPACT"; "CALLER_SEVERITY_CLAMPED"] "s".

Lemma scored_severity_within_ledger_witness :
  sample_score = Ok (scored_tables, scored_result)
  /\ exists p, submitted_tables.(Tables.flow).(FindingFlow.Db.proposals) !! "p" = Some p.
Proof.
  assert (sample_score = Ok (scored_tables, scored_result)) as H by (vm_compute; reflexivity).
  split; [exact H|].
  destruct (scored_severity_within_ledger submitted_tables "s" 300
    (ScoreFindingSeverityCommand.mk "p" "BULK_SENSITIVE" "ADMIN") scored_tables scored_result
    submitted_well_keyed H) as (_ & p & c & Hp & _). exists p. exact Hp.
Defined.
