(* ===== verification/PyText.v ===== *)
(** * Values as text

    What [str(value)] and [f"{value}"] give, and the encodings the probes of the plans use.  The shortest decimal of a [float] that reads
    back as the same number is a parameter. *)
From S2P Require Import Prelude PyVal.
From Stdlib Require Import QArith.
#[local] Open Scope Z_scope.

(** [repr] of a finite float. *)
Class FloatRepr : Type := float_repr : Q -> string.

Definition hex_digit (n : nat) : ascii :=
  if (n <? 10)%nat then ascii_of_nat (48 + n) else ascii_of_nat (87 + n).

(** [c.isprintable()] on U+0000..U+00FF *)
Definition is_printable (c : ascii) : bool :=
  let n := Str.code c in
  ((32 <=? n)%nat && (n <=? 126)%nat) || ((161 <=? n)%nat && negb (n =? 173)%nat).

Definition backslash : ascii := "092"%char.
Definition single_quote : ascii := "039"%char.
Definition double_quote : ascii := "034"%char.

Definition repr_char (quote c : ascii) : string :=
  if Ascii.eqb c quote || Ascii.eqb c backslash then String backslash (String c "")
  else if Ascii.eqb c "009"%char then String backslash "t"
  else if Ascii.eqb c "010"%char then String backslash "n"
  else if Ascii.eqb c "013"%char then String backslash "r"
  else if is_printable c then String c ""
  else String backslash (String "x" (String (hex_digit (Str.code c / 16))
                                      (String (hex_digit (Str.code c mod 16)) ""))).

(** [repr(s)] *)
Definition repr_str (s : string) : string :=
  let quote :=
    if Str.contains s (String single_quote "") && negb (Str.contains s (String double_quote ""))
    then double_quote else single_quote in
  String quote (foldr (fun c r => repr_char quote c +:+ r) (String quote "")
                  (String.list_ascii_of_string s)).

(** [", ".join(l)] *)
Fixpoint comma_join (l : list string) : string :=
  match l with
  | [] => ""
  | [x] => x
  | x :: l' => x +:+ ", " +:+ comma_join l'
  end.

Section repr.
Context `{FloatRepr}.

(** [repr(v)] *)
Fixpoint py_repr (v : pyval) : string :=
  match v with
  | PNone => "None"
  | PBool b => if b then "True" else "False"
  | PInt z => pretty z
  | PFloat q => float_repr q
  | PStr s => repr_str s
  | PList l => "[" +:+ comma_join (map py_repr l) +:+ "]"
  | PDict d => "{" +:+ comma_join (map (fun p => repr_str p.1 +:+ ": " +:+ py_repr p.2) d) +:+ "}"
  end.

(** [str(v)] *)
Definition py_str (v : pyval) : string :=
  match v with PStr s => s | _ => py_repr v end.
End repr.

Example repr_nested :
  @py_str (fun _ => "0.5")
    (PList [PStr "it's"; PDict [("k", PNone)]; PInt (-3); PBool true; PFloat (1 # 2)])
  = "[" +:+ String double_quote ("it's" +:+ String double_quote ", {'k': None}, -3, True, 0.5]").
Proof. vm_compute. reflexivity. Qed.

(** For inputs without floats. *)
Definition no_floats : FloatRepr := fun _ => "".

(** ** Encodings of a text, each character the code point it is *)

(** [\xNN], [\u00NN], [%NN] *)
Definition hex2 (n : nat) : string :=
  String (hex_digit (n / 16)) (String (hex_digit (n mod 16)) "").

Definition upper_hex_digit (n : nat) : ascii := Str.upper_ascii (hex_digit n).
Definition percent_byte (n : nat) : string :=
  "%" +:+ String (upper_hex_digit (n / 16)) (String (upper_hex_digit (n mod 16)) "").

Fixpoint map_chars (f : ascii -> string) (s : string) : string :=
  match s with
  | "" => ""
  | String c s' => f c +:+ map_chars f s'
  end.

(** A character of a text in [json.dumps] with its default [ensure_ascii]. *)
Definition json_char (c : ascii) : string :=
  let n := Str.code c in
  if Ascii.eqb c double_quote then String backslash (String c "")
  else if Ascii.eqb c backslash then String backslash (String c "")
  else if (n =? 10)%nat then String backslash "n"
  else if (n =? 13)%nat then String backslash "r"
  else if (n =? 9)%nat then String backslash "t"
  else if (n =? 8)%nat then String backslash "b"
  else if (n =? 12)%nat then String backslash "f"
  else if (32 <=? n)%nat && (n <=? 126)%nat then String c ""
  else String backslash ("u00" +:+ hex2 n).

Definition json_string (s : string) : string :=
  String double_quote (map_chars json_char s +:+ String double_quote "").

(** [json.dumps(d, separators=(",", ":"))] of a dict of texts. *)
Definition json_texts (d : list (string * string)) : string :=
  "{" +:+ String.concat "," ((fun p => json_string p.1 +:+ ":" +:+ json_string p.2) <$> d) +:+ "}".

(** [urllib.parse.quote(s, safe="")]: the unreserved characters stay, the bytes of the others in
    UTF-8 are escaped. *)
Definition quote_char (c : ascii) : string :=
  let n := Str.code c in
  if ((48 <=? n)%nat && (n <=? 57)%nat) || ((65 <=? n)%nat && (n <=? 90)%nat)
     || ((97 <=? n)%nat && (n <=? 122)%nat) || existsb (Ascii.eqb c) ["_"; "."; "-"; "~"]%char
  then String c ""
  else if (n <? 128)%nat then percent_byte n
  else percent_byte (192 + n / 64) +:+ percent_byte (128 + n mod 64).

Definition quote (s : string) : string := map_chars quote_char s.

(** [s.encode("unicode_escape").decode("ascii")] *)
Definition unicode_escape_char (c : ascii) : string :=
  let n := Str.code c in
  if Ascii.eqb c backslash then String backslash (String c "")
  else if (n =? 10)%nat then String backslash "n"
  else if (n =? 13)%nat then String backslash "r"
  else if (n =? 9)%nat then String backslash "t"
  else if (32 <=? n)%nat && (n <=? 126)%nat then String c ""
  else String backslash ("x" +:+ hex2 n).

Definition unicode_escape (s : string) : string := map_chars unicode_escape_char s.

(** [f"&#{ord(char)};"] for each character. *)
Definition html_entities (s : string) : string :=
  map_chars (fun c => "&#" +:+ pretty (Str.code c) +:+ ";") s.

Example encodings :
  quote "a b/~" = "a%20b%2F~" /\ html_entities "rq" = "&#114;&#113;"
  /\ json_texts [("k", String double_quote "")] = "{" +:+ json_string "k" +:+ ":" +:+ json_string (String double_quote "") +:+ "}"
  /\ unicode_escape (String "009" "a") = String backslash "ta".
Proof. by vm_compute. Qed.
