(* ===== verification/PyUrl.v ===== *)
(** * [urllib.parse.urlsplit]

    The parts of a URL as Python's standard library splits them, and its [hostname]. *)
From S2P Require Import Prelude.

(** The tests [urlsplit] makes on a network location besides the balance of brackets: the
    bracketed address is one, and NFKC normalization brings no delimiter. *)
Class NetlocCheck : Type := netloc_ok : string -> bool.

Module Url.
Fixpoint lstrip_control (s : string) : string :=
  match s with
  | EmptyString => EmptyString
  | String c s' => if (Str.code c <=? 32)%nat then lstrip_control s' else s
  end.

Fixpoint without (cs : list ascii) (s : string) : string :=
  match s with
  | EmptyString => EmptyString
  | String c s' => if existsb (Ascii.eqb c) cs then without cs s' else String c (without cs s')
  end.

Definition is_alpha (c : ascii) : bool :=
  let n := Str.code c in ((65 <=? n)%nat && (n <=? 90)%nat) || ((97 <=? n)%nat && (n <=? 122)%nat).

Definition is_scheme_char (c : ascii) : bool :=
  let n := Str.code c in
  is_alpha c || ((48 <=? n)%nat && (n <=? 57)%nat) || existsb (Ascii.eqb c) ["+"; "-"; "."]%char.

(** What follows the scheme. *)
Definition after_scheme (url : string) : string :=
  match Str.find ":" url, url with
  | Some (S i), String c _ =>
      if is_alpha c
         && forallb is_scheme_char (String.list_ascii_of_string (Str.take (S i) url))
      then Str.drop (S (S i)) url else url
  | _, _ => url
  end.

Fixpoint until (stop : list ascii) (s : string) : string :=
  match s with
  | EmptyString => EmptyString
  | String c s' => if existsb (Ascii.eqb c) stop then EmptyString else String c (until stop s')
  end.

Definition netloc (url : string) : string :=
  let url := after_scheme (without ["009"; "010"; "013"]%char (lstrip_control url)) in
  if Str.starts_with url "//" then until ["/"; "?"; "#"]%char (Str.drop 2 url) else "".

(** [_hostinfo] and [hostname] *)
Definition host_of (netloc : string) : option string :=
  let hostinfo := List.last (Str.split "@" netloc) "" in
  let host :=
    match Str.find "[" hostinfo with
    | Some i => until ["]"]%char (Str.drop (S i) hostinfo)
    | None => until [":"]%char hostinfo
    end in
  if Str.is_empty host then None
  else Some (match Str.find "%" host with
             | Some i => Str.lower (Str.take i host) +:+ Str.drop i host
             | None => Str.lower host
             end).

Definition hostname `{NetlocCheck} (url : string) : result (option string) :=
  let n := netloc url in
  raise_if xorb (Str.contains n "[") (Str.contains n "]") as ValueError;;
  raise_if negb (netloc_ok n) as ValueError;;
  Ok (host_of n).

Example hostname_of_origin :
  @hostname (fun _ => true) "https://user@API.Example.com:8443/x" = Ok (Some "api.example.com").
Proof. reflexivity. Qed.
(** [urllib.parse.SplitResult] *)
Record split_result : Set := Split {
  scheme : string; authority : string; path : string; query : string; fragment : string }.

(** The scheme, in lower case, and what follows it. *)
Definition split_scheme (url : string) : string * string :=
  let rest := after_scheme url in
  if (rest =? url)%string then ("", url)
  else (Str.lower (Str.take (String.length url - String.length rest - 1) url), rest).

(** [s.split(c, 1)] where [c] may be missing. *)
Definition split_once (c : ascii) (s : string) : string * string :=
  match Str.find (String c "") s with
  | Some i => (Str.take i s, Str.drop (S i) s)
  | None => (s, "")
  end.

(** [urllib.parse.urlsplit] *)
Definition urlsplit `{NetlocCheck} (url : string) : result split_result :=
  let '(scheme, url) := split_scheme (without ["009"; "010"; "013"]%char (lstrip_control url)) in
  let '(authority, url) :=
    if Str.starts_with url "//"
    then let n := until ["/"; "?"; "#"]%char (Str.drop 2 url) in
         (n, Str.drop (2 + String.length n) url)
    else ("", url) in
  raise_if xorb (Str.contains authority "[") (Str.contains authority "]") as ValueError;;
  let '(url, fragment) := split_once "#" url in
  let '(path, query) := split_once "?" url in
  raise_if negb (netloc_ok authority) as ValueError;;
  Ok (Split scheme authority path query fragment).

Example urlsplit_parts :
  @urlsplit (fun _ => true) "HTTPS://h:1/a/b?x=1?#f#g"
  = Ok (Split "https" "h:1" "/a/b" "x=1?" "f#g").
Proof. reflexivity. Qed.
End Url.
