(* ===== verification/Graph.v ===== *)
(** * The attack-surface graph and the families that apply to a node

    The vocabularies of [research/discovery/types.py], the nodes, edges and graphs of
    [research/discovery/graph.py], and the registry view and resolver of
    [research/selection.py]. *)
From S2P Require Import Prelude PyVal PyText CoreTypes.

(** ** Vocabularies *)

(** [research/target_model.py:37-57 TargetEpistemicStatus] *)
Module TargetEpistemicStatus.
Inductive t : Set := OBSERVED | DERIVED | INFERRED | HYPOTHESIZED | UNTRUSTED_EXTERNAL.
#[global] Instance eq_dec : EqDecision t.
Proof. solve_decision. Defined.
Definition value (x : t) : string :=
  match x with
  | OBSERVED => "OBSERVED" | DERIVED => "DERIVED" | INFERRED => "INFERRED"
  | HYPOTHESIZED => "HYPOTHESIZED" | UNTRUSTED_EXTERNAL => "UNTRUSTED_EXTERNAL"
  end.
End TargetEpistemicStatus.

(** [research/discovery/types.py:124-148 AttackSurfaceNodeKind] *)
Module AttackSurfaceNodeKind.
Inductive t : Set :=
  | ORIGIN | EXACT_PATH | ROUTE_TEMPLATE | HTTP_OPERATION | PAGE_STATE | CONTROL | FORM
  | RESOURCE_INSTANCE_CANDIDATE | OBJECT_INSTANCE | OBJECT_TYPE | IDENTITY_REF | SESSION_REF
  | WORKFLOW_STATE | WORKFLOW_TRANSITION | RESPONSE_SHAPE | SCOPE_BOUNDARY_CANDIDATE
  | DOMAIN | HOSTNAME | CERT | SERVICE | TECH | JS_BUNDLE | API_SPEC.
#[global] Instance eq_dec : EqDecision t.
Proof. solve_decision. Defined.
Definition value (x : t) : string :=
  match x with
  | ORIGIN => "ORIGIN" | EXACT_PATH => "EXACT_PATH" | ROUTE_TEMPLATE => "ROUTE_TEMPLATE"
  | HTTP_OPERATION => "HTTP_OPERATION" | PAGE_STATE => "PAGE_STATE" | CONTROL => "CONTROL"
  | FORM => "FORM" | RESOURCE_INSTANCE_CANDIDATE => "RESOURCE_INSTANCE_CANDIDATE"
  | OBJECT_INSTANCE => "OBJECT_INSTANCE" | OBJECT_TYPE => "OBJECT_TYPE"
  | IDENTITY_REF => "IDENTITY_REF" | SESSION_REF => "SESSION_REF"
  | WORKFLOW_STATE => "WORKFLOW_STATE" | WORKFLOW_TRANSITION => "WORKFLOW_TRANSITION"
  | RESPONSE_SHAPE => "RESPONSE_SHAPE"
  | SCOPE_BOUNDARY_CANDIDATE => "SCOPE_BOUNDARY_CANDIDATE"
  | DOMAIN => "DOMAIN" | HOSTNAME => "HOSTNAME" | CERT => "CERT" | SERVICE => "SERVICE"
  | TECH => "TECH" | JS_BUNDLE => "JS_BUNDLE" | API_SPEC => "API_SPEC"
  end.
End AttackSurfaceNodeKind.

(** [research/discovery/types.py:151-168 AttackSurfaceEdgeKind] *)
Module AttackSurfaceEdgeKind.
Inductive t : Set :=
  | CONTAINS | NAVIGATES_TO | SUBMITS_TO | OBSERVED_REQUEST_TO | RETURNS | REFERENCES
  | INSTANCE_OF | VARIANT_OF | OBSERVED_UNDER | TRANSITIONS_TO | BOUNDARY_OF | SAME_AS
  | RESOLVES_TO | HOSTED_ON | SECURED_BY | RUNS.
#[global] Instance eq_dec : EqDecision t.
Proof. solve_decision. Defined.
Definition value (x : t) : string :=
  match x with
  | CONTAINS => "CONTAINS" | NAVIGATES_TO => "NAVIGATES_TO" | SUBMITS_TO => "SUBMITS_TO"
  | OBSERVED_REQUEST_TO => "OBSERVED_REQUEST_TO" | RETURNS => "RETURNS"
  | REFERENCES => "REFERENCES" | INSTANCE_OF => "INSTANCE_OF" | VARIANT_OF => "VARIANT_OF"
  | OBSERVED_UNDER => "OBSERVED_UNDER" | TRANSITIONS_TO => "TRANSITIONS_TO"
  | BOUNDARY_OF => "BOUNDARY_OF" | SAME_AS => "SAME_AS" | RESOLVES_TO => "RESOLVES_TO"
  | HOSTED_ON => "HOSTED_ON" | SECURED_BY => "SECURED_BY" | RUNS => "RUNS"
  end.
End AttackSurfaceEdgeKind.

(** A mapping of names to JSON values; [None] where the code has [None]. *)
Definition Attributes : Type := option (list (string * pyval)).

(** [attributes or {}] *)
Definition attrs_of (a : Attributes) : list (string * pyval) := default [] a.

(** ** Nodes, edges, graphs *)

(** The checks of the constructor are on types.
    [research/discovery/graph.py:71-85 AttackSurfaceNode] *)
Module AttackSurfaceNode.
Record t : Type := mk {
  node_id : string;
  kind : AttackSurfaceNodeKind.t;
  canonical_key : string;
  epistemic_status : TargetEpistemicStatus.t;
  identity_ids : list string;
  provenance_refs : list string;
  scope_classification : ScopeClassification.t;
  attributes : Attributes }.
End AttackSurfaceNode.

(** [research/discovery/graph.py:89-105 AttackSurfaceEdge] *)
Module AttackSurfaceEdge.
Record t : Set := mk {
  edge_id : string;
  kind : AttackSurfaceEdgeKind.t;
  from_node_id : string;
  to_node_id : string;
  identity_id : option string;
  provenance_refs : list string;
  epistemic_status : TargetEpistemicStatus.t }.

Definition post_init (x : t) : result t :=
  raise_if bool_decide (x.(kind) = AttackSurfaceEdgeKind.SAME_AS)
           && negb (mem x.(epistemic_status)
                      [TargetEpistemicStatus.INFERRED; TargetEpistemicStatus.HYPOTHESIZED])
  as ResearchInputError;;
  Ok x.

#[global] Instance post_init_validator : Validator post_init.
Proof. solve_validator. Qed.
End AttackSurfaceEdge.

(** [research/discovery/graph.py:109-133 AttackSurfaceGraph] *)
Module AttackSurfaceGraph.
Record t : Type := mk {
  research_run_id : string;
  strategy_version : string;
  nodes : list AttackSurfaceNode.t;
  edges : list AttackSurfaceEdge.t }.

(** [research/discovery/graph.py:117-121 AttackSurfaceGraph.node_by_canonical] *)
Definition node_by_canonical (x : t) (canonical_key : string) : option AttackSurfaceNode.t :=
  List.find (fun n => (n.(AttackSurfaceNode.canonical_key) =? canonical_key)%string) x.(nodes).
End AttackSurfaceGraph.

(** ** Hunter families *)

(** [research/selection.py:74-94 HunterFamilyView] *)
Module HunterFamilyView.
Record t : Type := mk {
  family_id : string;
  name : string;
  target_node_kinds : list string;
  preconditions : list (string * pyval);
  claim_template : string;
  evidence_requirements : list (string * pyval);
  validation_tier : string;
  enabled : bool;
  version : Z }.
End HunterFamilyView.

Section families.
Context `{FloatRepr}.

(** The set as a list; only emptiness and intersection are asked of it.
    [research/selection.py:237-244 _string_set] *)
Definition string_set (value : pyval) : list string :=
  match value with
  | PNone => []
  | PStr s => [s]
  | PList l => List.filter (fun s => negb (Str.is_blank s)) (py_str <$> l)
  | _ => [py_str value]
  end.

(** [not a.intersection(b)] *)
Definition disjoint (a b : list string) : bool := negb (existsb (fun x => mem x b) a).

(** [edge.kind.value == v] and the edge touches the node.
    [research/selection.py:206-215 _node_has_edge_kind] *)
Definition node_has_edge_kind (node : AttackSurfaceNode.t) (graph : AttackSurfaceGraph.t)
    (edge_kind_value : pyval) : bool :=
  existsb (fun e =>
      eq_str edge_kind_value (AttackSurfaceEdgeKind.value e.(AttackSurfaceEdge.kind))
      && ((e.(AttackSurfaceEdge.from_node_id) =? node.(AttackSurfaceNode.node_id))%string
          || (e.(AttackSurfaceEdge.to_node_id) =? node.(AttackSurfaceNode.node_id))%string))
    graph.(AttackSurfaceGraph.edges).

(** [research/selection.py:218-234 _node_has_required_attribute_any] *)
Definition node_has_required_attribute_any (node : AttackSurfaceNode.t)
    (required_attribute_any : pyval) : bool :=
  match required_attribute_any with
  | PDict ((_ :: _) as required) =>
      let attributes := attrs_of node.(AttackSurfaceNode.attributes) in
      forallb (fun p : string * pyval =>
        let '(key, allowed) := p in
        if Str.is_blank key then false
        else
          let allowed_values := string_set allowed in
          if bool_decide (allowed_values = []) then false
          else negb (disjoint (string_set (dict_get key attributes)) allowed_values)) required
  | _ => false
  end.

(** [v is not None and not ok(v)] *)
Definition unmet (v : pyval) (ok : pyval -> bool) : bool :=
  match v with PNone => false | _ => negb (ok v) end.

(** The guards of the loop body.
    [research/selection.py:183-204 families_for_node] *)
Definition family_applies (node : AttackSurfaceNode.t) (graph : AttackSurfaceGraph.t)
    (family : HunterFamilyView.t) : bool :=
  let get key := dict_get key family.(HunterFamilyView.preconditions) in
  if negb family.(HunterFamilyView.enabled) then false
  else if negb (mem (AttackSurfaceNodeKind.value node.(AttackSurfaceNode.kind))
                  family.(HunterFamilyView.target_node_kinds)) then false
  else if unmet (get "scope_classification") (fun v =>
      eq_str v (ScopeClassification.value node.(AttackSurfaceNode.scope_classification)))
  then false
  else if unmet (get "absent_edge_kind") (fun v => negb (node_has_edge_kind node graph v))
  then false
  else if unmet (get "required_edge_kind") (node_has_edge_kind node graph) then false
  else if unmet (get "required_attribute_any") (node_has_required_attribute_any node)
  then false
  else true.

(** [research/selection.py:165-203 families_for_node] *)
Definition families_for_node (node : AttackSurfaceNode.t) (graph : AttackSurfaceGraph.t)
    (registry : list HunterFamilyView.t) : list HunterFamilyView.t :=
  List.filter (family_applies node graph) registry.

(** [research/coverage/debt.py:200-215 _kind_matched_families] *)
Definition kind_matched_families (node : AttackSurfaceNode.t)
    (registry : list HunterFamilyView.t) : list HunterFamilyView.t :=
  List.filter (fun family =>
      family.(HunterFamilyView.enabled)
      && mem (AttackSurfaceNodeKind.value node.(AttackSurfaceNode.kind))
           family.(HunterFamilyView.target_node_kinds)) registry.

(** ** What a match means *)

Lemma node_has_edge_kind_true node graph v :
  node_has_edge_kind node graph v = true
  <-> exists e, e ∈ graph.(AttackSurfaceGraph.edges)
        /\ v = PStr (AttackSurfaceEdgeKind.value e.(AttackSurfaceEdge.kind))
        /\ (e.(AttackSurfaceEdge.from_node_id) = node.(AttackSurfaceNode.node_id)
            \/ e.(AttackSurfaceEdge.to_node_id) = node.(AttackSurfaceNode.node_id)).
Proof.
  unfold node_has_edge_kind. rewrite existsb_true.
  setoid_rewrite andb_true_iff. setoid_rewrite eq_str_true.
  setoid_rewrite orb_true_iff. setoid_rewrite String.eqb_eq. done.
Qed.

Lemma families_applicable node graph registry f :
  f ∈ families_for_node node graph registry
  -> f ∈ registry /\ f ∈ kind_matched_families node registry.
Proof.
  unfold families_for_node, kind_matched_families. rewrite !elem_of_list_filter_bool.
  intros [Hf Ha]. split; [done|]. split; [done|]. revert Ha. unfold family_applies.
  destruct (HunterFamilyView.enabled f); [|done]. by destruct (mem _ _).
Qed.
End families.
