(* ===== verification/Discovery.v ===== *)
(** * Discovery facts, inferences and the rebuilt attack-surface graph

    [research/discovery/facts.py], [research/discovery/inference.py] and
    [rebuild_attack_surface_graph] of [research/discovery/graph.py].  A validating
    constructor returns the stripped copy it stores. *)
From S2P Require Import Prelude PyVal PyText CoreTypes Candidate Frontier Graph.

(** ** Vocabularies *)

(** [research/discovery/types.py:38-59 DiscoveryFactKind] *)
Module DiscoveryFactKind.
Inductive t : Set :=
  | ORIGIN | EXACT_PATH | HTTP_OPERATION | PAGE_STATE | CONTROL | FORM | RESPONSE_SHAPE
  | RESOURCE_INSTANCE_CANDIDATE | WORKFLOW_STATE | WORKFLOW_TRANSITION
  | SCOPE_BOUNDARY_CANDIDATE | DOMAIN | HOSTNAME | CERT | SERVICE | TECH | JS_BUNDLE | API_SPEC.
#[global] Instance eq_dec : EqDecision t.
Proof. solve_decision. Defined.
Definition value (x : t) : string :=
  match x with
  | ORIGIN => "ORIGIN" | EXACT_PATH => "EXACT_PATH" | HTTP_OPERATION => "HTTP_OPERATION"
  | PAGE_STATE => "PAGE_STATE" | CONTROL => "CONTROL" | FORM => "FORM"
  | RESPONSE_SHAPE => "RESPONSE_SHAPE"
  | RESOURCE_INSTANCE_CANDIDATE => "RESOURCE_INSTANCE_CANDIDATE"
  | WORKFLOW_STATE => "WORKFLOW_STATE" | WORKFLOW_TRANSITION => "WORKFLOW_TRANSITION"
  | SCOPE_BOUNDARY_CANDIDATE => "SCOPE_BOUNDARY_CANDIDATE"
  | DOMAIN => "DOMAIN" | HOSTNAME => "HOSTNAME" | CERT => "CERT" | SERVICE => "SERVICE"
  | TECH => "TECH" | JS_BUNDLE => "JS_BUNDLE" | API_SPEC => "API_SPEC"
  end.
End DiscoveryFactKind.

(** [research/discovery/types.py:62-66 DiscoveryInferenceKind] *)
Module DiscoveryInferenceKind.
Inductive t : Set := ROUTE_TEMPLATE | OBJECT_TYPE | OBJECT_INSTANCE | SAME_AS.
#[global] Instance eq_dec : EqDecision t.
Proof. solve_decision. Defined.
End DiscoveryInferenceKind.

(** [research/discovery/types.py:111-113 DiscoverySourcePlane] *)
Module DiscoverySourcePlane.
Inductive t : Set := OBSERVATION | CONTROL_EVENT.
#[global] Instance eq_dec : EqDecision t.
Proof. solve_decision. Defined.
End DiscoverySourcePlane.

(** ** Facts *)

(** A text that must not be blank; the stripped copy is dropped. *)
Definition text_when_set (value : option string) : result (option string) :=
  match value with
  | None => Ok None
  | Some v => _ ← Frontier.require_text v; Ok (Some v)
  end.

(** [research/discovery/facts.py:33-68 DiscoveryFactSourceView] *)
Module DiscoveryFactSourceView.
Record t : Set := mk {
  source_plane : option DiscoverySourcePlane.t;
  observation_id : option string;
  sensor_observation_id : option string;
  control_event_id : option string;
  source_fact_id : option string;
  source_inference_id : option string }.

Definition is_set (x : option string) : nat := match x with Some _ => 1 | None => 0 end.

(** A source of the plane [p]. *)
Definition on_plane (x : option string) (plane : option DiscoverySourcePlane.t)
    (p : DiscoverySourcePlane.t) : result unit :=
  match x with
  | None => Ok tt
  | Some v =>
      _ ← Frontier.require_text v;
      raise_if negb (bool_decide (plane = Some p)) as ResearchInputError;;
      Ok tt
  end.

Definition post_init (x : t) : result t :=
  raise_if negb ((is_set x.(observation_id) + is_set x.(sensor_observation_id)
                  + is_set x.(control_event_id) + is_set x.(source_fact_id)
                  + is_set x.(source_inference_id)) =? 1)%nat as ResearchInputError;;
  _ ← on_plane x.(observation_id) x.(source_plane) DiscoverySourcePlane.OBSERVATION;
  _ ← on_plane x.(sensor_observation_id) x.(source_plane) DiscoverySourcePlane.OBSERVATION;
  _ ← on_plane x.(control_event_id) x.(source_plane) DiscoverySourcePlane.CONTROL_EVENT;
  _ ← text_when_set x.(source_fact_id);
  _ ← text_when_set x.(source_inference_id);
  Ok x.

#[global] Instance post_init_validator : Validator post_init.
Proof. solve_validator. Qed.
End DiscoveryFactSourceView.

(** [research/discovery/facts.py:72-122 DiscoveryFact] *)
Module DiscoveryFact.
Record t : Type := mk {
  fact_id : string;
  research_run_id : string;
  fact_kind : DiscoveryFactKind.t;
  canonical_key : string;
  epistemic_status : TargetEpistemicStatus.t;
  identity_id : string;
  target_reference : string;
  sources : list DiscoveryFactSourceView.t;
  session_context_id : option string;
  normalized_origin : option string;
  normalized_path : option string;
  http_method : option string;
  attributes : Attributes }.

Definition post_init (x : t) : result t :=
  a ← Frontier.require_text x.(fact_id);
  b ← Frontier.require_text x.(research_run_id);
  c ← Frontier.require_text x.(canonical_key);
  raise_if negb (mem x.(epistemic_status)
                   [TargetEpistemicStatus.OBSERVED; TargetEpistemicStatus.DERIVED])
  as ResearchInputError;;
  raise_if bool_decide (x.(fact_kind) = DiscoveryFactKind.SCOPE_BOUNDARY_CANDIDATE)
           && negb (bool_decide (x.(epistemic_status) = TargetEpistemicStatus.DERIVED))
  as ResearchInputError;;
  d ← Frontier.require_text x.(identity_id);
  e ← Frontier.require_text x.(target_reference);
  raise_if bool_decide (x.(sources) = []) as ResearchInputError;;
  _ ← text_when_set x.(session_context_id);
  _ ← text_when_set x.(normalized_origin);
  _ ← text_when_set x.(normalized_path);
  _ ← text_when_set x.(http_method);
  attributes ← match x.(attributes) with
               | None => Ok None
               | Some d => d' ← reject_forbidden FORBIDDEN_DISCOVERY_KEYS d; Ok (Some d')
               end;
  Ok (mk a b x.(fact_kind) c x.(epistemic_status) d e x.(sources) x.(session_context_id)
        x.(normalized_origin) x.(normalized_path) x.(http_method) attributes).
End DiscoveryFact.

(** ** Inferences *)

(** [research/discovery/inference.py:23-28 DiscoveryInferenceAdmissionOutcome] *)
Module DiscoveryInferenceAdmissionOutcome.
Inductive t : Set :=
  | ADMITTED | REJECTED_EPISTEMIC_UPGRADE | REJECTED_CROSS_RUN
  | REJECTED_INSUFFICIENT_EVIDENCE | REJECTED_FORBIDDEN_KEYS.
#[global] Instance eq_dec : EqDecision t.
Proof. solve_decision. Defined.
End DiscoveryInferenceAdmissionOutcome.

(** [research/discovery/inference.py:32-57 DiscoveryInferenceDraft] *)
Module DiscoveryInferenceDraft.
Record t : Type := mk {
  research_run_id : string;
  inference_kind : DiscoveryInferenceKind.t;
  canonical_key : string;
  epistemic_status : TargetEpistemicStatus.t;
  identity_id : string;
  source_run_ids : list string;
  source_fact_ids : list string;
  source_inference_ids : list string;
  source_observation_ids : list string;
  attributes : Attributes }.

Definition post_init (x : t) : result t :=
  a ← Frontier.require_text x.(research_run_id);
  b ← Frontier.require_text x.(canonical_key);
  c ← Frontier.require_text x.(identity_id);
  raise_if bool_decide (x.(source_run_ids) = []) as ResearchInputError;;
  Ok (mk a x.(inference_kind) b x.(epistemic_status) c x.(source_run_ids) x.(source_fact_ids)
        x.(source_inference_ids) x.(source_observation_ids) x.(attributes)).
End DiscoveryInferenceDraft.

(** [research/discovery/inference.py:61-79 DiscoveryInference] *)
Module DiscoveryInference.
Record t : Type := mk {
  inference_id : string;
  research_run_id : string;
  inference_kind : DiscoveryInferenceKind.t;
  canonical_key : string;
  epistemic_status : TargetEpistemicStatus.t;
  identity_id : string;
  source_fact_ids : list string;
  source_inference_ids : list string;
  source_observation_ids : list string;
  attributes : Attributes }.

Definition post_init (x : t) : result t :=
  a ← Frontier.require_text x.(inference_id);
  raise_if negb (mem x.(epistemic_status)
                   [TargetEpistemicStatus.INFERRED; TargetEpistemicStatus.HYPOTHESIZED])
  as ResearchInputError;;
  Ok (mk a x.(research_run_id) x.(inference_kind) x.(canonical_key) x.(epistemic_status)
        x.(identity_id) x.(source_fact_ids) x.(source_inference_ids)
        x.(source_observation_ids) x.(attributes)).
End DiscoveryInference.

(** [research/discovery/inference.py:83-90 DiscoveryInferenceDecision] *)
Module DiscoveryInferenceDecision.
Record t : Type := mk {
  outcome : DiscoveryInferenceAdmissionOutcome.t;
  inference : option DiscoveryInference.t;
  reason_codes : list string }.

(** [research/discovery/inference.py:89-90 DiscoveryInferenceDecision.admitted] *)
Definition admitted (x : t) : bool :=
  bool_decide (x.(outcome) = DiscoveryInferenceAdmissionOutcome.ADMITTED).

Definition rejected (o : DiscoveryInferenceAdmissionOutcome.t) (reason : string) : t :=
  mk o None [reason].
End DiscoveryInferenceDecision.

(** [isinstance(paths, list) and len(paths) >= 3] *)
Definition three_paths (v : pyval) : bool :=
  match v with PList l => (3 <=? length l)%nat | _ => false end.

(** [research/discovery/inference.py:93-146 admit_discovery_inference] *)
Definition admit_discovery_inference (draft : DiscoveryInferenceDraft.t) (inference_id : string)
    : result DiscoveryInferenceDecision.t :=
  if mem draft.(DiscoveryInferenceDraft.epistemic_status)
       [TargetEpistemicStatus.OBSERVED; TargetEpistemicStatus.DERIVED]
  then Ok (DiscoveryInferenceDecision.rejected
             DiscoveryInferenceAdmissionOutcome.REJECTED_EPISTEMIC_UPGRADE
             "REJECTED_EPISTEMIC_UPGRADE")
  else if existsb (fun run_id =>
            negb (run_id =? draft.(DiscoveryInferenceDraft.research_run_id))%string)
            draft.(DiscoveryInferenceDraft.source_run_ids)
  then Ok (DiscoveryInferenceDecision.rejected
             DiscoveryInferenceAdmissionOutcome.REJECTED_CROSS_RUN "REJECTED_CROSS_RUN")
  else
    let attributes := draft.(DiscoveryInferenceDraft.attributes) in
    if existsb (fun p => mem p.1 FORBIDDEN_DISCOVERY_KEYS) (attrs_of attributes)
    then Ok (DiscoveryInferenceDecision.rejected
               DiscoveryInferenceAdmissionOutcome.REJECTED_FORBIDDEN_KEYS
               "FORBIDDEN_ATTRIBUTE_KEYS")
    else if bool_decide (draft.(DiscoveryInferenceDraft.inference_kind)
                         = DiscoveryInferenceKind.ROUTE_TEMPLATE)
            && negb (three_paths (dict_get "exact_paths" (attrs_of attributes)))
    then Ok (DiscoveryInferenceDecision.rejected
               DiscoveryInferenceAdmissionOutcome.REJECTED_INSUFFICIENT_EVIDENCE
               "ROUTE_TEMPLATE_REQUIRES_THREE_PATHS")
    else
      id ← Frontier.require_text inference_id;
      inference ← DiscoveryInference.post_init (DiscoveryInference.mk id
        draft.(DiscoveryInferenceDraft.research_run_id)
        draft.(DiscoveryInferenceDraft.inference_kind)
        draft.(DiscoveryInferenceDraft.canonical_key)
        draft.(DiscoveryInferenceDraft.epistemic_status)
        draft.(DiscoveryInferenceDraft.identity_id)
        draft.(DiscoveryInferenceDraft.source_fact_ids)
        draft.(DiscoveryInferenceDraft.source_inference_ids)
        draft.(DiscoveryInferenceDraft.source_observation_ids) attributes);
      Ok (DiscoveryInferenceDecision.mk DiscoveryInferenceAdmissionOutcome.ADMITTED
            (Some inference) []).
