(* ===== verification/Surface.v ===== *)
(** * Rebuilding the attack-surface graph

    [rebuild_attack_surface_graph] of [research/discovery/graph.py] and its helpers.  The
    dicts the function fills but never reads ([cert_nodes], [tech_nodes], [service_nodes],
    [bundle_nodes], [spec_nodes]) are left out. *)
From S2P Require Import Prelude PyVal PyText PyUrl CoreTypes Candidate Frontier Graph Discovery.

(** The value of a text that is neither [None] nor empty. *)
Definition truthy_text (v : option string) : option string :=
  match v with Some s => if Str.is_empty s then None else Some s | None => None end.

(** ** What is read off a fact *)

(** [research/discovery/graph.py:22-42 FACT_NODE_KIND] *)
Definition FACT_NODE_KIND (k : DiscoveryFactKind.t) : AttackSurfaceNodeKind.t :=
  match k with
  | DiscoveryFactKind.ORIGIN => AttackSurfaceNodeKind.ORIGIN
  | DiscoveryFactKind.EXACT_PATH => AttackSurfaceNodeKind.EXACT_PATH
  | DiscoveryFactKind.HTTP_OPERATION => AttackSurfaceNodeKind.HTTP_OPERATION
  | DiscoveryFactKind.PAGE_STATE => AttackSurfaceNodeKind.PAGE_STATE
  | DiscoveryFactKind.CONTROL => AttackSurfaceNodeKind.CONTROL
  | DiscoveryFactKind.FORM => AttackSurfaceNodeKind.FORM
  | DiscoveryFactKind.RESPONSE_SHAPE => AttackSurfaceNodeKind.RESPONSE_SHAPE
  | DiscoveryFactKind.RESOURCE_INSTANCE_CANDIDATE =>
      AttackSurfaceNodeKind.RESOURCE_INSTANCE_CANDIDATE
  | DiscoveryFactKind.WORKFLOW_STATE => AttackSurfaceNodeKind.WORKFLOW_STATE
  | DiscoveryFactKind.WORKFLOW_TRANSITION => AttackSurfaceNodeKind.WORKFLOW_TRANSITION
  | DiscoveryFactKind.SCOPE_BOUNDARY_CANDIDATE => AttackSurfaceNodeKind.SCOPE_BOUNDARY_CANDIDATE
  | DiscoveryFactKind.DOMAIN => AttackSurfaceNodeKind.DOMAIN
  | DiscoveryFactKind.HOSTNAME => AttackSurfaceNodeKind.HOSTNAME
  | DiscoveryFactKind.CERT => AttackSurfaceNodeKind.CERT
  | DiscoveryFactKind.SERVICE => AttackSurfaceNodeKind.SERVICE
  | DiscoveryFactKind.TECH => AttackSurfaceNodeKind.TECH
  | DiscoveryFactKind.JS_BUNDLE => AttackSurfaceNodeKind.JS_BUNDLE
  | DiscoveryFactKind.API_SPEC => AttackSurfaceNodeKind.API_SPEC
  end.

(** [research/discovery/graph.py:44-49 INFERENCE_NODE_KIND] *)
Definition INFERENCE_NODE_KIND (k : DiscoveryInferenceKind.t) : AttackSurfaceNodeKind.t :=
  match k with
  | DiscoveryInferenceKind.ROUTE_TEMPLATE => AttackSurfaceNodeKind.ROUTE_TEMPLATE
  | DiscoveryInferenceKind.OBJECT_TYPE => AttackSurfaceNodeKind.OBJECT_TYPE
  | DiscoveryInferenceKind.OBJECT_INSTANCE | DiscoveryInferenceKind.SAME_AS =>
      AttackSurfaceNodeKind.OBJECT_INSTANCE
  end.

(** [research/discovery/graph.py:52-60 _scope_classification_from_fact] *)
Definition scope_classification_from_fact (fact : DiscoveryFact.t)
    : result ScopeClassification.t :=
  match dict_get "scope_classification" (attrs_of fact.(DiscoveryFact.attributes)) with
  | PNone => Ok ScopeClassification.UNKNOWN
  | PStr s =>
      match enum_of ScopeClassification.value
              [ScopeClassification.IN_SCOPE; ScopeClassification.UNKNOWN;
               ScopeClassification.OUT_OF_SCOPE] s with
      | Ok x => Ok x
      | Raise _ => Raise ResearchInputError
      end
  | _ => Raise ResearchInputError
  end.

(** [research/discovery/graph.py:63-67 _node_epistemic_status] *)
Definition node_epistemic_status (fact : DiscoveryFact.t) : TargetEpistemicStatus.t :=
  if existsb (fun s => bool_decide (s.(DiscoveryFactSourceView.sensor_observation_id) ≠ None))
       fact.(DiscoveryFact.sources)
  then TargetEpistemicStatus.UNTRUSTED_EXTERNAL
  else fact.(DiscoveryFact.epistemic_status).

(** [f"{v}"] of an optional text. *)
Definition text_or_none (v : option string) : string := default "None" v.

(** [research/discovery/graph.py:513-522 _source_ref] *)
Definition source_ref (s : DiscoveryFactSourceView.t) : string :=
  match truthy_text s.(DiscoveryFactSourceView.observation_id) with
  | Some id => "observation:" +:+ id
  | None =>
  match truthy_text s.(DiscoveryFactSourceView.sensor_observation_id) with
  | Some id => "sensor_observation:" +:+ id
  | None =>
  match truthy_text s.(DiscoveryFactSourceView.control_event_id) with
  | Some id => "control_event:" +:+ id
  | None =>
  match truthy_text s.(DiscoveryFactSourceView.source_fact_id) with
  | Some id => "fact:" +:+ id
  | None => "inference:" +:+ text_or_none s.(DiscoveryFactSourceView.source_inference_id)
  end end end end.

(** [tuple(sorted(_source_ref(source) for source in fact.sources))] *)
Definition provenance (fact : DiscoveryFact.t) : list string :=
  sort_by id (source_ref <$> fact.(DiscoveryFact.sources)).

(** The stripped value of the first key that has a non-blank text. *)
Definition first_text (keys : list string) (attrs : list (string * pyval)) : option string :=
  match List.find (fun k => is_text (dict_get k attrs)) keys with
  | Some k => match dict_get k attrs with PStr s => Some (Str.strip s) | _ => None end
  | None => None
  end.

(** [research/discovery/graph.py:525-532 _hostname_from_attributes] *)
Definition hostname_from_attributes (attributes : Attributes) : option string :=
  first_text ["hostname"; "name"; "host"; "subject_hostname"] (attrs_of attributes).

(** The texts of a list value that are not blank. *)
Definition texts_of_list (v : pyval) : list string :=
  match v with
  | PList l => omap (fun x => match x with PStr s => if Str.is_blank s then None else Some s
                                         | _ => None end) l
  | _ => []
  end.

Section hostnames.
Context `{NetlocCheck}.

(** [research/discovery/graph.py:539-555 _cert_hostnames] *)
Definition cert_hostnames (fact : DiscoveryFact.t) : result (list string) :=
  let attrs := attrs_of fact.(DiscoveryFact.attributes) in
  let hostnames :=
    (["san"; "subject_alt_names"; "hostnames"] ≫= fun key => texts_of_list (dict_get key attrs))
    ++ option_list (truthy_text (hostname_from_attributes (Some attrs))) in
  match truthy_text fact.(DiscoveryFact.normalized_origin) with
  | None => Ok (sorted_set hostnames)
  | Some origin =>
      host ← Url.hostname origin;
      Ok (sorted_set (hostnames ++ option_list host))
  end.

(** [research/discovery/graph.py:580-589 _service_hostname] *)
Definition service_hostname (fact : DiscoveryFact.t) : result (option string) :=
  match first_text ["hostname"; "host"] (attrs_of fact.(DiscoveryFact.attributes)) with
  | Some h => Ok (Some h)
  | None =>
      match truthy_text fact.(DiscoveryFact.normalized_origin) with
      | Some origin => Url.hostname origin
      | None => Ok None
      end
  end.
End hostnames.

(** [research/discovery/graph.py:562-573 _tech_origins] *)
Definition tech_origins (fact : DiscoveryFact.t) : list string :=
  let attrs := attrs_of fact.(DiscoveryFact.attributes) in
  let of_key key :=
    match dict_get key attrs with
    | PStr s => if Str.is_blank s then [] else [Str.strip s]
    | v => texts_of_list v
    end in
  sorted_set (of_key "origins" ++ of_key "origin"
              ++ option_list (truthy_text fact.(DiscoveryFact.normalized_origin))).

(** [attrs.get(key) or field] *)
Definition attr_or (v : pyval) (field : option string) : pyval :=
  if truthy v then v else match field with Some s => PStr s | None => PNone end.

(** [_spec_path] has the same body.
    [research/discovery/graph.py:596-602 _bundle_path] *)
Definition bundle_path (fact : DiscoveryFact.t) : option (string * string) :=
  let attrs := attrs_of fact.(DiscoveryFact.attributes) in
  match attr_or (dict_get "origin" attrs) fact.(DiscoveryFact.normalized_origin),
        attr_or (dict_get "path" attrs) fact.(DiscoveryFact.normalized_path) with
  | PStr origin, PStr path => Some (origin, path)
  | _, _ => None
  end.

(** [research/discovery/graph.py:609-615 _spec_path] *)
Definition spec_path (fact : DiscoveryFact.t) : option (string * string) := bundle_path fact.

(** The hostname a HOSTNAME fact is about. *)
Definition fact_hostname (fact : DiscoveryFact.t) : option string :=
  truthy_text
    (match truthy_text (hostname_from_attributes fact.(DiscoveryFact.attributes)) with
     | Some h => Some h
     | None => Some (List.last (Str.split ":" fact.(DiscoveryFact.canonical_key)) "")
     end).

(** ** The rebuild *)

(** The state of the function: the dict [nodes], the list [edges] and the indexes. *)
Module Build.
Record t : Type := mk {
  nodes : gmap string AttackSurfaceNode.t;
  edges : list AttackSurfaceEdge.t;
  origin_nodes : gmap string string;
  path_nodes : list ((string * string) * string);
  hostname_nodes : gmap string string }.

Definition empty : t := mk ∅ [] ∅ [] ∅.

Definition set_nodes (s : t) (m : gmap string AttackSurfaceNode.t) : t :=
  mk m s.(edges) s.(origin_nodes) s.(path_nodes) s.(hostname_nodes).

Definition append_edges (s : t) (l : list AttackSurfaceEdge.t) : t :=
  mk s.(nodes) (s.(edges) ++ l) s.(origin_nodes) s.(path_nodes) s.(hostname_nodes).
End Build.

(** The scope of a merged node.
    [research/discovery/graph.py:165-173 rebuild_attack_surface_graph] *)
Definition merged_scope (existing new : ScopeClassification.t) : ScopeClassification.t :=
  match new, existing with
  | ScopeClassification.OUT_OF_SCOPE, _ => ScopeClassification.OUT_OF_SCOPE
  | ScopeClassification.IN_SCOPE, ScopeClassification.UNKNOWN => ScopeClassification.IN_SCOPE
  | _, _ => existing
  end.

(** [research/discovery/graph.py:163-183 rebuild_attack_surface_graph] *)
Definition merge_node (existing node : AttackSurfaceNode.t) : AttackSurfaceNode.t :=
  AttackSurfaceNode.mk existing.(AttackSurfaceNode.node_id) existing.(AttackSurfaceNode.kind)
    existing.(AttackSurfaceNode.canonical_key) existing.(AttackSurfaceNode.epistemic_status)
    (sorted_set (existing.(AttackSurfaceNode.identity_ids)
                 ++ node.(AttackSurfaceNode.identity_ids)))
    (sorted_set (existing.(AttackSurfaceNode.provenance_refs)
                 ++ node.(AttackSurfaceNode.provenance_refs)))
    (merged_scope existing.(AttackSurfaceNode.scope_classification)
       node.(AttackSurfaceNode.scope_classification))
    existing.(AttackSurfaceNode.attributes).

(** [research/discovery/graph.py:158-183 rebuild_attack_surface_graph] *)
Definition add_node (nodes : gmap string AttackSurfaceNode.t) (node : AttackSurfaceNode.t)
    : gmap string AttackSurfaceNode.t :=
  let key := node.(AttackSurfaceNode.canonical_key) in
  match nodes !! key with
  | None => <[key := node]> nodes
  | Some existing => <[key := merge_node existing node]> nodes
  end.

(** An edge about a fact. *)
Definition fact_edge (fact : DiscoveryFact.t) (edge_id : string) (kind : AttackSurfaceEdgeKind.t)
    (from to : string) (status : TargetEpistemicStatus.t) : AttackSurfaceEdge.t :=
  AttackSurfaceEdge.mk edge_id kind from to (Some fact.(DiscoveryFact.identity_id))
    (provenance fact) status.

(** The node of the fact itself, of its identity and of its session, in this order.
    [research/discovery/graph.py:201-253 rebuild_attack_surface_graph] *)
Definition fact_nodes (fact : DiscoveryFact.t) (scope : ScopeClassification.t)
    : list AttackSurfaceNode.t :=
  let key := fact.(DiscoveryFact.canonical_key) in
  let identity := fact.(DiscoveryFact.identity_id) in
  AttackSurfaceNode.mk key (FACT_NODE_KIND fact.(DiscoveryFact.fact_kind)) key
    (node_epistemic_status fact) [identity] (provenance fact) scope fact.(DiscoveryFact.attributes)
  :: match truthy_text (Some identity) with
     | Some i =>
         [AttackSurfaceNode.mk ("identity:" +:+ i) AttackSurfaceNodeKind.IDENTITY_REF
            ("identity:" +:+ i) TargetEpistemicStatus.OBSERVED [i] (provenance fact)
            ScopeClassification.IN_SCOPE None]
     | None => []
     end
  ++ match truthy_text fact.(DiscoveryFact.session_context_id) with
     | Some s =>
         [AttackSurfaceNode.mk ("session:" +:+ s) AttackSurfaceNodeKind.SESSION_REF
            ("session:" +:+ s) TargetEpistemicStatus.OBSERVED [identity] (provenance fact)
            ScopeClassification.IN_SCOPE None]
     | None => []
     end.

(** [research/discovery/graph.py:228-239 rebuild_attack_surface_graph] *)
Definition identity_edges (fact : DiscoveryFact.t) : list AttackSurfaceEdge.t :=
  let key := fact.(DiscoveryFact.canonical_key) in
  match truthy_text (Some fact.(DiscoveryFact.identity_id)) with
  | Some i => [fact_edge fact (key +:+ ":under:" +:+ i) AttackSurfaceEdgeKind.OBSERVED_UNDER
                 key ("identity:" +:+ i) fact.(DiscoveryFact.epistemic_status)]
  | None => []
  end.

(** The origin and the path of a fact when both are set. *)
Definition origin_and_path (fact : DiscoveryFact.t) : option (string * string) :=
  match truthy_text fact.(DiscoveryFact.normalized_origin),
        truthy_text fact.(DiscoveryFact.normalized_path) with
  | Some o, Some p => Some (o, p)
  | _, _ => None
  end.

(** [(fact.normalized_origin or "", fact.normalized_path or "")] *)
Definition origin_path_or_empty (fact : DiscoveryFact.t) : string * string :=
  (default "" fact.(DiscoveryFact.normalized_origin), default "" fact.(DiscoveryFact.normalized_path)).

(** [research/discovery/graph.py:256-272 rebuild_attack_surface_graph] *)
Definition index_fact (s : Build.t) (fact : DiscoveryFact.t) : Build.t :=
  let key := fact.(DiscoveryFact.canonical_key) in
  match fact.(DiscoveryFact.fact_kind) with
  | DiscoveryFactKind.ORIGIN =>
      match truthy_text fact.(DiscoveryFact.normalized_origin) with
      | Some o => Build.mk s.(Build.nodes) s.(Build.edges) (<[o := key]> s.(Build.origin_nodes))
                    s.(Build.path_nodes) s.(Build.hostname_nodes)
      | None => s
      end
  | DiscoveryFactKind.EXACT_PATH =>
      match origin_and_path fact with
      | Some op => Build.mk s.(Build.nodes) s.(Build.edges) s.(Build.origin_nodes)
                     (dict_put op key s.(Build.path_nodes)) s.(Build.hostname_nodes)
      | None => s
      end
  | DiscoveryFactKind.HOSTNAME =>
      match fact_hostname fact with
      | Some h => Build.mk s.(Build.nodes) s.(Build.edges) s.(Build.origin_nodes)
                    s.(Build.path_nodes) (<[h := key]> s.(Build.hostname_nodes))
      | None => s
      end
  | _ => s
  end.

Definition origin_id (s : Build.t) (o : string) : option string :=
  truthy_text (s.(Build.origin_nodes) !! o).

Definition path_id (s : Build.t) (op : string * string) : option string :=
  truthy_text (dict_look op s.(Build.path_nodes)).

Definition hostname_id (s : Build.t) (h : option string) : option string :=
  truthy_text (h ≫= fun h => s.(Build.hostname_nodes) !! h).

(** The edges of the first pass, from what is indexed so far.
    [research/discovery/graph.py:274-330 rebuild_attack_surface_graph] *)
Definition application_edges (s : Build.t) (fact : DiscoveryFact.t) : list AttackSurfaceEdge.t :=
  let key := fact.(DiscoveryFact.canonical_key) in
  let status := fact.(DiscoveryFact.epistemic_status) in
  match fact.(DiscoveryFact.fact_kind) with
  | DiscoveryFactKind.EXACT_PATH =>
      match origin_and_path fact ≫= fun op => origin_id s op.1 with
      | Some o => [fact_edge fact (o +:+ ":contains:" +:+ key) AttackSurfaceEdgeKind.CONTAINS
                     o key status]
      | None => []
      end
  | DiscoveryFactKind.HTTP_OPERATION =>
      match origin_and_path fact ≫= path_id s with
      | Some p => [fact_edge fact (p +:+ ":req:" +:+ key)
                     AttackSurfaceEdgeKind.OBSERVED_REQUEST_TO p key status]
      | None => []
      end
  | DiscoveryFactKind.SCOPE_BOUNDARY_CANDIDATE =>
      match truthy_text fact.(DiscoveryFact.normalized_origin) ≫= origin_id s with
      | Some o => [fact_edge fact (key +:+ ":boundary:" +:+ o) AttackSurfaceEdgeKind.BOUNDARY_OF
                     key o TargetEpistemicStatus.DERIVED]
      | None => []
      end
  | DiscoveryFactKind.RESOURCE_INSTANCE_CANDIDATE =>
      match path_id s (origin_path_or_empty fact) with
      | Some p => [fact_edge fact (p +:+ ":instance:" +:+ key) AttackSurfaceEdgeKind.INSTANCE_OF
                     key p status]
      | None => []
      end
  | _ => []
  end.

(** One iteration of the first loop.
    [research/discovery/graph.py:195-330 rebuild_attack_surface_graph] *)
Definition first_pass (s : Build.t) (fact : DiscoveryFact.t) : result Build.t :=
  scope ← scope_classification_from_fact fact;
  let s := Build.set_nodes s (foldl add_node s.(Build.nodes) (fact_nodes fact scope)) in
  let s := Build.append_edges s (identity_edges fact) in
  let s := index_fact s fact in
  Ok (Build.append_edges s (application_edges s fact)).

Section rebuild.
Context `{NetlocCheck}.

(** An edge of the second pass. *)
Definition sensor_edge (fact : DiscoveryFact.t) (edge_id : string) (kind : AttackSurfaceEdgeKind.t)
    (from to : string) : AttackSurfaceEdge.t :=
  fact_edge fact edge_id kind from to TargetEpistemicStatus.UNTRUSTED_EXTERNAL.

(** [research/discovery/graph.py:350-365 rebuild_attack_surface_graph] *)
Definition cert_edge (s : Build.t) (fact : DiscoveryFact.t) (hostname : string)
    : option AttackSurfaceEdge.t :=
  let key := fact.(DiscoveryFact.canonical_key) in
  match hostname_id s (Some hostname) with
  | Some n => Some (sensor_edge fact (n +:+ ":securedby:" +:+ key)
                      AttackSurfaceEdgeKind.SECURED_BY n key)
  | None => None
  end.

(** [research/discovery/graph.py:366-380 rebuild_attack_surface_graph] *)
Definition tech_edge (s : Build.t) (fact : DiscoveryFact.t) (origin : string)
    : option AttackSurfaceEdge.t :=
  let key := fact.(DiscoveryFact.canonical_key) in
  match origin_id s origin with
  | Some o => Some (sensor_edge fact (o +:+ ":runs:" +:+ key) AttackSurfaceEdgeKind.RUNS o key)
  | None => None
  end.

(** [research/discovery/graph.py:381-410 rebuild_attack_surface_graph] *)
Definition reference_edges (s : Build.t) (fact : DiscoveryFact.t) (path : option (string * string))
    : list AttackSurfaceEdge.t :=
  let key := fact.(DiscoveryFact.canonical_key) in
  match path ≫= path_id s with
  | Some p => [sensor_edge fact (p +:+ ":references:" +:+ key) AttackSurfaceEdgeKind.REFERENCES
                 p key]
  | None => []
  end.

(** [research/discovery/graph.py:410-424 rebuild_attack_surface_graph] *)
Definition service_edges (s : Build.t) (fact : DiscoveryFact.t) (hostname : option string)
    : list AttackSurfaceEdge.t :=
  let key := fact.(DiscoveryFact.canonical_key) in
  match hostname_id s (truthy_text hostname) with
  | Some n => [sensor_edge fact (key +:+ ":hostedon:" +:+ n) AttackSurfaceEdgeKind.HOSTED_ON key n]
  | None => []
  end.

(** [research/discovery/graph.py:336-349 rebuild_attack_surface_graph] *)
Definition hostname_edges (s : Build.t) (fact : DiscoveryFact.t) : list AttackSurfaceEdge.t :=
  let key := fact.(DiscoveryFact.canonical_key) in
  match fact_hostname fact, origin_id s (default "" fact.(DiscoveryFact.normalized_origin)) with
  | Some _, Some o =>
      [sensor_edge fact (key +:+ ":resolves:" +:+ o) AttackSurfaceEdgeKind.RESOLVES_TO key o]
  | _, _ => []
  end.

(** The edges of the second pass, from the finished indexes.
    [research/discovery/graph.py:332-424 rebuild_attack_surface_graph] *)
Definition sensor_edges (s : Build.t) (fact : DiscoveryFact.t)
    : result (list AttackSurfaceEdge.t) :=
  match fact.(DiscoveryFact.fact_kind) with
  | DiscoveryFactKind.HOSTNAME => Ok (hostname_edges s fact)
  | DiscoveryFactKind.CERT =>
      (fun hs : list string => omap (cert_edge s fact) hs) <$> cert_hostnames fact
  | DiscoveryFactKind.TECH => Ok (omap (tech_edge s fact) (tech_origins fact))
  | DiscoveryFactKind.JS_BUNDLE => Ok (reference_edges s fact (bundle_path fact))
  | DiscoveryFactKind.API_SPEC => Ok (reference_edges s fact (spec_path fact))
  | DiscoveryFactKind.SERVICE => service_edges s fact <$> service_hostname fact
  | _ => Ok []
  end.

Definition second_pass (s : Build.t) (fact : DiscoveryFact.t) : result Build.t :=
  edges ← sensor_edges s fact;
  Ok (Build.append_edges s edges).

(** [{item.fact_id: item.canonical_key for item in facts}]
    [research/discovery/graph.py:426 rebuild_attack_surface_graph] *)
Definition fact_id_to_key (facts : list DiscoveryFact.t) : gmap string string :=
  foldl (fun m f => <[f.(DiscoveryFact.fact_id) := f.(DiscoveryFact.canonical_key)]> m) ∅ facts.

(** [research/discovery/graph.py:427-446 rebuild_attack_surface_graph] *)
Definition transition_edges (keys : gmap string string) (s : Build.t) (fact : DiscoveryFact.t)
    : list AttackSurfaceEdge.t :=
  if negb (bool_decide (fact.(DiscoveryFact.fact_kind) = DiscoveryFactKind.WORKFLOW_TRANSITION))
  then []
  else
    let pre_key :=
      match dict_get "pre_state_fact_id" (attrs_of fact.(DiscoveryFact.attributes)) with
      | PStr pre_id => truthy_text (keys !! pre_id)
      | _ => None
      end in
    match pre_key, path_id s (origin_path_or_empty fact) with
    | Some pre, Some p =>
        [fact_edge fact (pre +:+ ":transitions:" +:+ fact.(DiscoveryFact.canonical_key))
           AttackSurfaceEdgeKind.TRANSITIONS_TO pre p fact.(DiscoveryFact.epistemic_status)]
    | _, _ => []
    end.

Definition third_pass (keys : gmap string string) (s : Build.t) (fact : DiscoveryFact.t) : Build.t :=
  Build.append_edges s (transition_edges keys s fact).

(** [tuple(sorted(inference.source_fact_ids + inference.source_observation_ids))] *)
Definition inference_provenance (i : DiscoveryInference.t) : list string :=
  sort_by id (i.(DiscoveryInference.source_fact_ids) ++ i.(DiscoveryInference.source_observation_ids)).

(** [research/discovery/graph.py:454-465 rebuild_attack_surface_graph] *)
Definition inference_node (i : DiscoveryInference.t) : AttackSurfaceNode.t :=
  let key := i.(DiscoveryInference.canonical_key) in
  AttackSurfaceNode.mk key (INFERENCE_NODE_KIND i.(DiscoveryInference.inference_kind)) key
    i.(DiscoveryInference.epistemic_status) [i.(DiscoveryInference.identity_id)]
    (inference_provenance i) ScopeClassification.IN_SCOPE i.(DiscoveryInference.attributes).

Definition inference_edge (i : DiscoveryInference.t) (edge_id : string)
    (kind : AttackSurfaceEdgeKind.t) (from to : string) : AttackSurfaceEdge.t :=
  AttackSurfaceEdge.mk edge_id kind from to (Some i.(DiscoveryInference.identity_id))
    (inference_provenance i) i.(DiscoveryInference.epistemic_status).

(** Of the checks of the edges' constructor only the one on SAME_AS can fail.
    [research/discovery/graph.py:466-497 rebuild_attack_surface_graph] *)
Definition inference_edges (s : Build.t) (i : DiscoveryInference.t)
    : result (list AttackSurfaceEdge.t) :=
  let key := i.(DiscoveryInference.canonical_key) in
  match i.(DiscoveryInference.inference_kind) with
  | DiscoveryInferenceKind.ROUTE_TEMPLATE =>
      let exact_paths :=
        match dict_get "exact_paths" (attrs_of i.(DiscoveryInference.attributes)) with
        | PList l => l
        | _ => []
        end in
      Ok (exact_paths ≫= fun path =>
            (fun p => inference_edge i (p.2 +:+ ":variant:" +:+ key)
                        AttackSurfaceEdgeKind.VARIANT_OF p.2 key)
            <$> List.filter (fun p => eq_str path p.1.2) s.(Build.path_nodes))
  | DiscoveryInferenceKind.SAME_AS =>
      e ← AttackSurfaceEdge.post_init
            (inference_edge i ("same:" +:+ key) AttackSurfaceEdgeKind.SAME_AS key key);
      Ok [e]
  | _ => Ok []
  end.

(** [research/discovery/graph.py:448-497 rebuild_attack_surface_graph] *)
Definition inference_pass (s : Build.t) (i : DiscoveryInference.t) : result Build.t :=
  let s := Build.set_nodes s (add_node s.(Build.nodes) (inference_node i)) in
  edges ← inference_edges s i;
  Ok (Build.append_edges s edges).

(** [research/discovery/graph.py:498-501 rebuild_attack_surface_graph] *)
Definition workflow_pass (s : Build.t) (e : AttackSurfaceEdge.t) : result Build.t :=
  raise_if negb (bool_decide (e.(AttackSurfaceEdge.kind) = AttackSurfaceEdgeKind.TRANSITIONS_TO))
  as ResearchInputError;;
  Ok (Build.append_edges s [e]).

(** [(item.kind.value, item.canonical_key)] *)
Definition node_key (n : AttackSurfaceNode.t) : string * string :=
  (AttackSurfaceNodeKind.value n.(AttackSurfaceNode.kind), n.(AttackSurfaceNode.canonical_key)).

Definition by_key (facts : list DiscoveryFact.t) : list DiscoveryFact.t :=
  sort_by DiscoveryFact.canonical_key facts.

(** [research/discovery/graph.py:148-510 rebuild_attack_surface_graph] *)
Definition rebuild_attack_surface_graph (research_run_id strategy_version : string)
    (facts : list DiscoveryFact.t) (inferences : list DiscoveryInference.t)
    (workflow_edges : list AttackSurfaceEdge.t) : result AttackSurfaceGraph.t :=
  s ← fold_result first_pass Build.empty (by_key facts);
  s ← fold_result second_pass s (by_key facts);
  let s := foldl (third_pass (fact_id_to_key facts)) s (by_key facts) in
  s ← fold_result inference_pass s (sort_by DiscoveryInference.canonical_key inferences);
  s ← fold_result workflow_pass s workflow_edges;
  Ok (AttackSurfaceGraph.mk research_run_id strategy_version
        (sort_by node_key (map_to_list s.(Build.nodes)).*2)
        (sort_by AttackSurfaceEdge.edge_id s.(Build.edges))).
End rebuild.

(** ** Merging *)

(** The scopes are ordered UNKNOWN, IN_SCOPE, OUT_OF_SCOPE. *)
Definition scope_rank (s : ScopeClassification.t) : nat :=
  match s with
  | ScopeClassification.UNKNOWN => 0
  | ScopeClassification.IN_SCOPE => 1
  | ScopeClassification.OUT_OF_SCOPE => 2
  end.

Lemma scope_rank_inj a b : scope_rank a = scope_rank b -> a = b.
Proof. by destruct a, b. Qed.

Lemma scope_rank_merged a b : scope_rank (merged_scope a b) = (scope_rank a `max` scope_rank b)%nat.
Proof. by destruct a, b. Qed.

Definition merge_opt (existing : option AttackSurfaceNode.t) (node : AttackSurfaceNode.t)
    : option AttackSurfaceNode.t :=
  Some (match existing with Some e => merge_node e node | None => node end).

(** The contributions to the node of the key [k]. *)
Definition about (k : string) (cs : list AttackSurfaceNode.t) : list AttackSurfaceNode.t :=
  List.filter (fun c => (c.(AttackSurfaceNode.canonical_key) =? k)%string) cs.

Lemma elem_of_about k cs c :
  c ∈ about k cs <-> c ∈ cs /\ c.(AttackSurfaceNode.canonical_key) = k.
Proof. unfold about. by rewrite elem_of_list_filter_bool, String.eqb_eq. Qed.

Lemma add_node_lookup m n k :
  add_node m n !! k
  = if (n.(AttackSurfaceNode.canonical_key) =? k)%string then merge_opt (m !! k) n else m !! k.
Proof.
  unfold add_node. destruct (String.eqb_spec (AttackSurfaceNode.canonical_key n) k) as [<-|Hne].
  - destruct (m !! _); by rewrite lookup_insert_eq.
  - destruct (m !! AttackSurfaceNode.canonical_key n); by rewrite lookup_insert_ne.
Qed.

Lemma fold_add_lookup cs m k :
  foldl add_node m cs !! k = foldl merge_opt (m !! k) (about k cs).
Proof.
  revert m. induction cs as [|c cs IH]; intros m; cbn; [done|].
  rewrite IH, add_node_lookup. by destruct (_ =? _)%string.
Qed.

(** What is kept of a node and what is collected from those merged into it. *)
Record merged_from (first : AttackSurfaceNode.t) (rest : list AttackSurfaceNode.t)
    (n : AttackSurfaceNode.t) : Prop := {
  merged_id : n.(AttackSurfaceNode.node_id) = first.(AttackSurfaceNode.node_id);
  merged_key : n.(AttackSurfaceNode.canonical_key) = first.(AttackSurfaceNode.canonical_key);
  merged_rank : forall r,
    (scope_rank n.(AttackSurfaceNode.scope_classification) <= r)%nat
    <-> forall c, c ∈ first :: rest -> (scope_rank c.(AttackSurfaceNode.scope_classification) <= r)%nat;
  merged_identities : forall x, x ∈ n.(AttackSurfaceNode.identity_ids)
    <-> exists c, c ∈ first :: rest /\ x ∈ c.(AttackSurfaceNode.identity_ids);
  merged_provenance : forall x, x ∈ n.(AttackSurfaceNode.provenance_refs)
    <-> exists c, c ∈ first :: rest /\ x ∈ c.(AttackSurfaceNode.provenance_refs) }.

Lemma merged_self n : merged_from n [] n.
Proof.
  split; try done.
  - intros r. split; [by intros ? c ->%list_elem_of_singleton|]. intros H. apply H. left.
  - intros x. setoid_rewrite list_elem_of_singleton. naive_solver.
  - intros x. setoid_rewrite list_elem_of_singleton. naive_solver.
Qed.

Lemma merged_step e c rest n :
  merged_from (merge_node e c) rest n -> merged_from e (c :: rest) n.
Proof.
  intros [Hid Hkey Hrank Hids Hprov]. split; try done.
  - intros r. rewrite Hrank. setoid_rewrite elem_of_cons. setoid_rewrite elem_of_cons.
    split; intros H.
    + assert (scope_rank (merged_scope (AttackSurfaceNode.scope_classification e)
                (AttackSurfaceNode.scope_classification c)) <= r)%nat as Hm by (apply (H (merge_node e c)); by left).
      rewrite scope_rank_merged in Hm. intros x [->|[->|Hx]]; [lia|lia|]. apply H. by right.
    + intros x [->|Hx]; [|apply H; by right; right]. cbn. rewrite scope_rank_merged.
      apply Nat.max_lub; apply H; [by left|by right; left].
  - intros x. rewrite Hids. setoid_rewrite elem_of_cons. setoid_rewrite elem_of_cons. split.
    + intros (d & [->|Hd] & Hx); [|by eauto]. cbn in Hx.
      apply elem_of_sorted_set, elem_of_app in Hx as [Hx|Hx]; eauto.
    + intros (d & [->|[->|Hd]] & Hx); [exists (merge_node e c)|exists (merge_node e c)|by eauto];
        (split; [by left|]); cbn; apply elem_of_sorted_set, elem_of_app; auto.
  - intros x. rewrite Hprov. setoid_rewrite elem_of_cons. setoid_rewrite elem_of_cons. split.
    + intros (d & [->|Hd] & Hx); [|by eauto]. cbn in Hx.
      apply elem_of_sorted_set, elem_of_app in Hx as [Hx|Hx]; eauto.
    + intros (d & [->|[->|Hd]] & Hx); [exists (merge_node e c)|exists (merge_node e c)|by eauto];
        (split; [by left|]); cbn; apply elem_of_sorted_set, elem_of_app; auto.
Qed.

Lemma fold_merge_opt e rest n : foldl merge_opt (Some e) rest = Some n -> merged_from e rest n.
Proof.
  revert e. induction rest as [|c rest IH]; intros e; cbn.
  - intros [= <-]. apply merged_self.
  - intros H. by apply merged_step, IH.
Qed.

Lemma fold_merge_opt_is_some e rest : is_Some (foldl merge_opt (Some e) rest).
Proof. revert e. induction rest as [|c rest IH]; intros e; cbn; [by eexists|apply IH]. Qed.

(** ** The nodes of a rebuilt graph *)

(** The nodes one fact contributes. *)
Definition nodes_of_fact (fact : DiscoveryFact.t) : list AttackSurfaceNode.t :=
  match scope_classification_from_fact fact with
  | Ok scope => fact_nodes fact scope
  | Raise _ => []
  end.

(** Everything that is merged into nodes. *)
Definition contributions (facts : list DiscoveryFact.t) (inferences : list DiscoveryInference.t)
    : list AttackSurfaceNode.t :=
  (facts ≫= nodes_of_fact) ++ (inference_node <$> inferences).

Lemma elem_of_contributions facts inferences facts' inferences' c :
  facts ≡ₚ facts' -> inferences ≡ₚ inferences' ->
  c ∈ contributions facts inferences <-> c ∈ contributions facts' inferences'.
Proof. intros Hf Hi. unfold contributions. by rewrite Hf, Hi. Qed.

Lemma index_fact_nodes s f : (index_fact s f).(Build.nodes) = s.(Build.nodes).
Proof. unfold index_fact. by repeat case_match. Qed.

Lemma index_fact_edges s f : (index_fact s f).(Build.edges) = s.(Build.edges).
Proof. unfold index_fact. by repeat case_match. Qed.

Lemma first_pass_ok s f s' :
  first_pass s f = Ok s' ->
  exists s1, s1 = index_fact (Build.append_edges
                    (Build.set_nodes s (foldl add_node s.(Build.nodes) (nodes_of_fact f)))
                    (identity_edges f)) f
          /\ s' = Build.append_edges s1 (application_edges s1 f).
Proof.
  unfold first_pass, nodes_of_fact. rewrite bind_ok. intros (scope & -> & [= <-]). eauto.
Qed.

Lemma first_pass_nodes s f s' :
  first_pass s f = Ok s' -> s'.(Build.nodes) = foldl add_node s.(Build.nodes) (nodes_of_fact f).
Proof. intros (s1 & -> & ->)%first_pass_ok. cbn. by rewrite index_fact_nodes. Qed.

Lemma first_passes_nodes l s s' :
  fold_result first_pass s l = Ok s' ->
  s'.(Build.nodes) = foldl add_node s.(Build.nodes) (l ≫= nodes_of_fact).
Proof.
  revert s. induction l as [|f l IH]; intros s; cbn; [by intros [= ->]|].
  rewrite bind_ok. intros (s1 & H1%first_pass_nodes & H). rewrite (IH _ H), H1.
  by rewrite foldl_app.
Qed.

Section rebuilt.
Context `{NetlocCheck}.

Lemma second_pass_ok s f s' :
  second_pass s f = Ok s' ->
  exists edges, sensor_edges s f = Ok edges /\ s' = Build.append_edges s edges.
Proof. unfold second_pass. rewrite bind_ok. intros (edges & He & [= <-]). eauto. Qed.

Lemma second_passes_nodes l s s' :
  fold_result second_pass s l = Ok s' -> s'.(Build.nodes) = s.(Build.nodes).
Proof.
  apply (fold_result_ind (fun s' => s'.(Build.nodes) = s.(Build.nodes))); [|done].
  by intros s0 f s1 _ <- (edges & _ & ->)%second_pass_ok.
Qed.

Lemma third_passes_nodes keys l s : (foldl (third_pass keys) s l).(Build.nodes) = s.(Build.nodes).
Proof. revert s. induction l as [|f l IH]; intros s; cbn; [done|]. by rewrite IH. Qed.

Lemma inference_pass_ok s i s' :
  inference_pass s i = Ok s' ->
  exists edges,
    inference_edges (Build.set_nodes s (add_node s.(Build.nodes) (inference_node i))) i = Ok edges
    /\ s' = Build.append_edges
              (Build.set_nodes s (add_node s.(Build.nodes) (inference_node i))) edges.
Proof. unfold inference_pass. rewrite bind_ok. intros (edges & He & [= <-]). eauto. Qed.

Lemma inference_passes_nodes l s s' :
  fold_result inference_pass s l = Ok s' ->
  s'.(Build.nodes) = foldl add_node s.(Build.nodes) (inference_node <$> l).
Proof.
  revert s. induction l as [|i l IH]; intros s; cbn; [by intros [= ->]|].
  rewrite bind_ok. intros (s1 & (edges & _ & ->)%inference_pass_ok & Hl). by rewrite (IH _ Hl).
Qed.

Lemma workflow_pass_ok s e s' :
  workflow_pass s e = Ok s' ->
  e.(AttackSurfaceEdge.kind) = AttackSurfaceEdgeKind.TRANSITIONS_TO
  /\ s' = Build.append_edges s [e].
Proof.
  unfold workflow_pass. rewrite raise_if_ok, negb_false_iff, bool_decide_eq_true.
  by intros [? [= <-]].
Qed.

Lemma workflow_passes_nodes l s s' :
  fold_result workflow_pass s l = Ok s' -> s'.(Build.nodes) = s.(Build.nodes).
Proof.
  apply (fold_result_ind (fun s' => s'.(Build.nodes) = s.(Build.nodes))); [|done].
  by intros s0 f s1 _ <- [_ ->]%workflow_pass_ok.
Qed.

(** The passes of a successful rebuild. *)
Lemma rebuild_ok run version facts inferences workflow g :
  rebuild_attack_surface_graph run version facts inferences workflow = Ok g ->
  exists s1 s2 s4 s5,
    fold_result first_pass Build.empty (by_key facts) = Ok s1
    /\ fold_result second_pass s1 (by_key facts) = Ok s2
    /\ fold_result inference_pass (foldl (third_pass (fact_id_to_key facts)) s2 (by_key facts))
         (sort_by DiscoveryInference.canonical_key inferences) = Ok s4
    /\ fold_result workflow_pass s4 workflow = Ok s5
    /\ g = AttackSurfaceGraph.mk run version
             (sort_by node_key (map_to_list s5.(Build.nodes)).*2)
             (sort_by AttackSurfaceEdge.edge_id s5.(Build.edges)).
Proof.
  unfold rebuild_attack_surface_graph. rewrite bind_ok. intros (s1 & H1 & Hr). revert Hr.
  rewrite bind_ok. intros (s2 & H2 & Hr). revert Hr.
  rewrite bind_ok. intros (s4 & H4 & Hr). revert Hr.
  rewrite bind_ok. intros (s5 & H5 & [= <-]). eauto 10.
Qed.

Definition sorted_contributions (facts : list DiscoveryFact.t)
    (inferences : list DiscoveryInference.t) : list AttackSurfaceNode.t :=
  contributions (by_key facts) (sort_by DiscoveryInference.canonical_key inferences).

Lemma elem_of_sorted_contributions facts inferences c :
  c ∈ sorted_contributions facts inferences <-> c ∈ contributions facts inferences.
Proof. apply elem_of_contributions; apply sort_by_perm. Qed.

Lemma passes_nodes facts inferences workflow s1 s2 s4 s5 :
  fold_result first_pass Build.empty (by_key facts) = Ok s1 ->
  fold_result second_pass s1 (by_key facts) = Ok s2 ->
  fold_result inference_pass (foldl (third_pass (fact_id_to_key facts)) s2 (by_key facts))
    (sort_by DiscoveryInference.canonical_key inferences) = Ok s4 ->
  fold_result workflow_pass s4 workflow = Ok s5 ->
  s5.(Build.nodes) = foldl add_node ∅ (sorted_contributions facts inferences).
Proof.
  intros H1%first_passes_nodes H2%second_passes_nodes H4%inference_passes_nodes
    H5%workflow_passes_nodes.
  rewrite third_passes_nodes in H4. unfold sorted_contributions, contributions.
  by rewrite foldl_app, H5, H4, H2, H1.
Qed.

Lemma rebuilt_nodes run version facts inferences workflow g :
  rebuild_attack_surface_graph run version facts inferences workflow = Ok g ->
  g.(AttackSurfaceGraph.nodes)
  = sort_by node_key (map_to_list (foldl add_node ∅ (sorted_contributions facts inferences))).*2.
Proof.
  intros (s1 & s2 & s4 & s5 & H1 & H2 & H4 & H5 & ->)%rebuild_ok. cbn.
  by rewrite (passes_nodes _ _ _ _ _ _ _ H1 H2 H4 H5).
Qed.

Lemma fold_nodes_keyed cs k n :
  foldl add_node ∅ cs !! k = Some n ->
  n.(AttackSurfaceNode.canonical_key) = k
  /\ exists first, first ∈ cs /\ first.(AttackSurfaceNode.canonical_key) = k
       /\ n.(AttackSurfaceNode.node_id) = first.(AttackSurfaceNode.node_id).
Proof.
  rewrite fold_add_lookup, lookup_empty. destruct (about k cs) as [|first rest] eqn:E; [done|].
  intros [Hid Hk _ _ _]%fold_merge_opt.
  assert (first ∈ about k cs) as [Hf <-]%elem_of_about by (rewrite E; left). eauto.
Qed.

(** A node of the graph and what it was merged from. *)
Lemma rebuilt_node run version facts inferences workflow g n :
  rebuild_attack_surface_graph run version facts inferences workflow = Ok g ->
  n ∈ g.(AttackSurfaceGraph.nodes)
  <-> exists k first rest,
        about k (sorted_contributions facts inferences) = first :: rest
        /\ foldl merge_opt (Some first) rest = Some n.
Proof.
  intros Hg%rebuilt_nodes. rewrite Hg, elem_of_sort_by, list_elem_of_fmap. split.
  - intros ([k n'] & -> & Hn%elem_of_map_to_list). rewrite fold_add_lookup, lookup_empty in Hn.
    destruct (about k _) as [|first rest] eqn:E; [done|]. cbn in Hn. eauto.
  - intros (k & first & rest & E & Hn). exists (k, n). split; [done|].
    apply elem_of_map_to_list. by rewrite fold_add_lookup, lookup_empty, E.
Qed.

Lemma rebuilt_merged run version facts inferences workflow g n :
  rebuild_attack_surface_graph run version facts inferences workflow = Ok g ->
  n ∈ g.(AttackSurfaceGraph.nodes) ->
  exists first rest,
    merged_from first rest n
    /\ first.(AttackSurfaceNode.canonical_key) = n.(AttackSurfaceNode.canonical_key)
    /\ (forall c, c ∈ first :: rest
        <-> c ∈ contributions facts inferences
            /\ c.(AttackSurfaceNode.canonical_key) = n.(AttackSurfaceNode.canonical_key)).
Proof.
  intros Hg. rewrite (rebuilt_node _ _ _ _ _ _ _ Hg). intros (k & first & rest & E & Hn%fold_merge_opt).
  assert (first.(AttackSurfaceNode.canonical_key) = k) as Hk.
  { assert (first ∈ about k (sorted_contributions facts inferences)) as Hf by (rewrite E; left).
    by apply elem_of_about in Hf as [_ ?]. }
  exists first, rest. split; [done|]. destruct Hn. split; [done|].
  intros c. rewrite <-E, elem_of_about, elem_of_sorted_contributions. by rewrite merged_key0, Hk.
Qed.

(** The nodes of a rebuilt graph have distinct keys. *)
Lemma rebuilt_keys run version facts inferences workflow g :
  rebuild_attack_surface_graph run version facts inferences workflow = Ok g ->
  NoDup (AttackSurfaceNode.canonical_key <$> g.(AttackSurfaceGraph.nodes))
  /\ forall k, k ∈ (AttackSurfaceNode.canonical_key <$> g.(AttackSurfaceGraph.nodes))
       <-> exists c, c ∈ contributions facts inferences /\ c.(AttackSurfaceNode.canonical_key) = k.
Proof.
  intros Hg. split.
  - rewrite (rebuilt_nodes _ _ _ _ _ _ Hg), sort_by_perm.
    set (m := foldl add_node ∅ _).
    assert (AttackSurfaceNode.canonical_key <$> (map_to_list m).*2 = (map_to_list m).*1) as ->.
    { rewrite <-list_fmap_compose. apply list_fmap_ext. intros i [k n] Hi. cbn.
      apply list_elem_of_lookup_2, elem_of_map_to_list in Hi.
      by apply fold_nodes_keyed in Hi as [? _]. }
    apply NoDup_fst_map_to_list.
  - intros k. rewrite list_elem_of_fmap. split.
    + intros (n & -> & Hn). destruct (rebuilt_merged _ _ _ _ _ _ _ Hg Hn) as (first & rest & _ & _ & Hc).
      exists first. apply Hc. left.
    + intros (c & Hc & <-). setoid_rewrite (rebuilt_node _ _ _ _ _ _ _ Hg).
      destruct (about c.(AttackSurfaceNode.canonical_key) (sorted_contributions facts inferences))
        as [|first rest] eqn:E.
      { assert (c ∈ about c.(AttackSurfaceNode.canonical_key) (sorted_contributions facts inferences))
          as Hin by (apply elem_of_about; rewrite elem_of_sorted_contributions; done).
        rewrite E in Hin. by apply elem_of_nil in Hin. }
      destruct (fold_merge_opt_is_some first rest) as [n Hn]. exists n. split; [|by eauto].
      assert (first ∈ about c.(AttackSurfaceNode.canonical_key) (sorted_contributions facts inferences))
        as Hf by (rewrite E; left).
      apply elem_of_about in Hf as [_ Hf]. apply fold_merge_opt in Hn as [_ -> _ _ _]. done.
Qed.

Lemma rank_le_0 s : (scope_rank s <= 0)%nat <-> s = ScopeClassification.UNKNOWN.
Proof. destruct s; cbn; split; try done; lia. Qed.

Lemma rank_le_1 s : (scope_rank s <= 1)%nat <-> s ≠ ScopeClassification.OUT_OF_SCOPE.
Proof. destruct s; cbn; split; try done; lia. Qed.

(** Merging loses and launders nothing: the keys of a rebuilt graph are distinct and are
    those of the facts, identities, sessions and inferences; a node is out of scope exactly when
    one of the contributions to its key says so, and of unknown scope only when all of them are;
    its identities and provenance are those of all its contributions. *)
Theorem surface_scope_never_laundered run version facts inferences workflow g :
  rebuild_attack_surface_graph run version facts inferences workflow = Ok g ->
  NoDup (AttackSurfaceNode.canonical_key <$> g.(AttackSurfaceGraph.nodes))
  /\ (forall k, k ∈ (AttackSurfaceNode.canonical_key <$> g.(AttackSurfaceGraph.nodes))
       <-> exists c, c ∈ contributions facts inferences /\ c.(AttackSurfaceNode.canonical_key) = k)
  /\ forall n, n ∈ g.(AttackSurfaceGraph.nodes) ->
       let mine c := c ∈ contributions facts inferences
         /\ c.(AttackSurfaceNode.canonical_key) = n.(AttackSurfaceNode.canonical_key) in
       (n.(AttackSurfaceNode.scope_classification) = ScopeClassification.OUT_OF_SCOPE
        <-> exists c, mine c
              /\ c.(AttackSurfaceNode.scope_classification) = ScopeClassification.OUT_OF_SCOPE)
       /\ (n.(AttackSurfaceNode.scope_classification) = ScopeClassification.UNKNOWN
           <-> forall c, mine c
                 -> c.(AttackSurfaceNode.scope_classification) = ScopeClassification.UNKNOWN)
       /\ (forall x, x ∈ n.(AttackSurfaceNode.identity_ids)
           <-> exists c, mine c /\ x ∈ c.(AttackSurfaceNode.identity_ids))
       /\ (forall x, x ∈ n.(AttackSurfaceNode.provenance_refs)
           <-> exists c, mine c /\ x ∈ c.(AttackSurfaceNode.provenance_refs)).
Proof.
  intros Hg. destruct (rebuilt_keys _ _ _ _ _ _ Hg) as [Hnd Hk]. split; [done|]. split; [done|].
  intros n Hn. destruct (rebuilt_merged _ _ _ _ _ _ _ Hg Hn) as (first & rest & [_ _ Hr Hi Hp] & _ & Hc).
  cbn zeta. setoid_rewrite <-Hc. setoid_rewrite Hc in Hr. split; [|split; [|split; [exact Hi|exact Hp]]].
  - split.
    + intros Ho. destruct (decide (Exists (fun c => c.(AttackSurfaceNode.scope_classification)
                             = ScopeClassification.OUT_OF_SCOPE) (first :: rest))) as [Hex|Hex].
      { by apply Exists_exists in Hex. }
      exfalso. apply (proj1 (rank_le_1 (AttackSurfaceNode.scope_classification n))); [|done].
      apply Hr. intros c Hm%Hc. apply rank_le_1. intros Hs. apply Hex, Exists_exists. eauto.
    + intros (c & Hm & Hs). apply dec_stable. intros Hno. apply rank_le_1 in Hno.
      rewrite Hr in Hno. apply Hc in Hm. specialize (Hno c Hm). by apply rank_le_1 in Hno.
  - rewrite <-rank_le_0, Hr. split; intros H1 c Hm.
    + apply rank_le_0, H1. by apply Hc.
    + apply rank_le_0, H1. by apply Hc.
Qed.

(** ** The order of facts and inferences *)

Lemma fact_id_to_key_snoc l f :
  fact_id_to_key (l ++ [f])
  = <[f.(DiscoveryFact.fact_id) := f.(DiscoveryFact.canonical_key)]> (fact_id_to_key l).
Proof. unfold fact_id_to_key. by rewrite foldl_app. Qed.

Lemma fact_id_to_key_in facts i k :
  fact_id_to_key facts !! i = Some k ->
  exists f, f ∈ facts /\ f.(DiscoveryFact.fact_id) = i /\ f.(DiscoveryFact.canonical_key) = k.
Proof.
  induction facts as [|f facts IH] using rev_ind; [done|].
  rewrite fact_id_to_key_snoc. setoid_rewrite elem_of_app. setoid_rewrite list_elem_of_singleton.
  rewrite lookup_insert_Some. intros [[<- <-]|[Hne (g & ? & ? & ?)%IH]]; eauto 6.
Qed.

Lemma fact_id_to_key_lookup facts f :
  NoDup (DiscoveryFact.fact_id <$> facts) -> f ∈ facts ->
  fact_id_to_key facts !! f.(DiscoveryFact.fact_id) = Some f.(DiscoveryFact.canonical_key).
Proof.
  intros Hnd Hf. destruct (fact_id_to_key facts !! DiscoveryFact.fact_id f) as [k|] eqn:E.
  - destruct (fact_id_to_key_in _ _ _ E) as (g & Hg & Hi & <-).
    by rewrite (NoDup_fmap_inj _ _ _ _ Hnd Hg Hf Hi).
  - exfalso. revert Hf E. clear Hnd. induction facts as [|g facts IH] using rev_ind; [by intros ?%elem_of_nil|].
    rewrite fact_id_to_key_snoc, lookup_insert_None, elem_of_app, list_elem_of_singleton.
    intros [Hf| ->] [? ?]; auto.
Qed.

Lemma fact_id_to_key_perm facts facts' :
  NoDup (DiscoveryFact.fact_id <$> facts) -> facts ≡ₚ facts' ->
  fact_id_to_key facts = fact_id_to_key facts'.
Proof.
  intros Hnd Hp. assert (NoDup (DiscoveryFact.fact_id <$> facts')) as Hnd' by (by rewrite <-Hp).
  apply map_eq. intros i. apply option_eq. intros k. split; intros E.
  - destruct (fact_id_to_key_in _ _ _ E) as (f & Hf & <- & <-).
    apply fact_id_to_key_lookup; [done|]. by rewrite <-Hp.
  - destruct (fact_id_to_key_in _ _ _ E) as (f & Hf & <- & <-).
    apply fact_id_to_key_lookup; [done|]. by rewrite Hp.
Qed.

(** The graph is a function of what is recorded, not of the order in which the rows are
    read: with distinct canonical keys and fact ids, every arrangement of the same facts and of
    the same inferences is rebuilt to the same result, errors included. *)
Theorem rebuild_order_irrelevant run version facts facts' inferences inferences' workflow :
  facts ≡ₚ facts' -> inferences ≡ₚ inferences' ->
  NoDup (DiscoveryFact.canonical_key <$> facts) -> NoDup (DiscoveryFact.fact_id <$> facts) ->
  NoDup (DiscoveryInference.canonical_key <$> inferences) ->
  rebuild_attack_surface_graph run version facts inferences workflow
  = rebuild_attack_surface_graph run version facts' inferences' workflow.
Proof.
  intros Hf Hi Hk Hid Hik. unfold rebuild_attack_surface_graph.
  assert (by_key facts = by_key facts') as ->.
  { apply sort_by_perm_eq; [|done]. intros x y Hx Hy. by apply (NoDup_fmap_inj _ facts). }
  rewrite (fact_id_to_key_perm _ _ Hid Hf).
  assert (sort_by DiscoveryInference.canonical_key inferences
          = sort_by DiscoveryInference.canonical_key inferences') as ->; [|done].
  apply sort_by_perm_eq; [|done]. intros x y Hx Hy. by apply (NoDup_fmap_inj _ inferences).
Qed.

(** ** Edges connect nodes *)

Definition known (s : Build.t) (k : string) : Prop := is_Some (s.(Build.nodes) !! k).

(** The indexes and the edges speak of known nodes only. *)
Record wired (s : Build.t) : Prop := {
  wired_origins : forall o k, s.(Build.origin_nodes) !! o = Some k -> known s k;
  wired_paths : forall op k, (op, k) ∈ s.(Build.path_nodes) -> known s k;
  wired_hostnames : forall h k, s.(Build.hostname_nodes) !! h = Some k -> known s k;
  wired_edges : forall e, e ∈ s.(Build.edges) ->
    known s e.(AttackSurfaceEdge.from_node_id) /\ known s e.(AttackSurfaceEdge.to_node_id) }.

Definition joins (s : Build.t) (e : AttackSurfaceEdge.t) : Prop :=
  known s e.(AttackSurfaceEdge.from_node_id) /\ known s e.(AttackSurfaceEdge.to_node_id).

Lemma add_nodes_known m cs k : is_Some (m !! k) -> is_Some (foldl add_node m cs !! k).
Proof.
  rewrite fold_add_lookup. intros [n ->]. apply fold_merge_opt_is_some.
Qed.

Lemma add_nodes_has m cs c :
  c ∈ cs -> is_Some (foldl add_node m cs !! c.(AttackSurfaceNode.canonical_key)).
Proof.
  intros Hc. rewrite fold_add_lookup.
  destruct (about _ cs) as [|d rest] eqn:E.
  - exfalso. assert (c ∈ about c.(AttackSurfaceNode.canonical_key) cs) as Hin by by apply elem_of_about.
    rewrite E in Hin. by apply elem_of_nil in Hin.
  - cbn. apply fold_merge_opt_is_some.
Qed.

Lemma wired_set_nodes s cs :
  wired s -> wired (Build.set_nodes s (foldl add_node s.(Build.nodes) cs)).
Proof.
  intros [Ho Hp Hh He]. split; unfold known; cbn.
  - intros o k H1. apply add_nodes_known. by eapply Ho.
  - intros op k H1. apply add_nodes_known. by eapply Hp.
  - intros h k H1. apply add_nodes_known. by eapply Hh.
  - intros e [H1 H2]%He. split; by apply add_nodes_known.
Qed.

Lemma wired_append s es : wired s -> (forall e, e ∈ es -> joins s e) -> wired (Build.append_edges s es).
Proof.
  intros [Ho Hp Hh He] Hes. split; unfold known; cbn; [exact Ho|exact Hp|exact Hh|].
  intros e [Hin|Hin]%elem_of_app; [by apply He|by apply Hes].
Qed.

Lemma truthy_text_Some v s : truthy_text v = Some s <-> v = Some s /\ s ≠ "".
Proof.
  unfold truthy_text. destruct v as [[|a t]|]; cbn; naive_solver.
Qed.

Lemma wired_index s f :
  wired s -> known s f.(DiscoveryFact.canonical_key) -> wired (index_fact s f).
Proof.
  intros [Ho Hp Hh He] Hk. unfold index_fact.
  destruct (DiscoveryFact.fact_kind f); repeat case_match; try (split; assumption).
  - split; [|exact Hp|exact Hh|exact He]. intros o k. cbn.
    rewrite lookup_insert_Some. intros [[_ <-]|[_ H1]]; [done|by eapply Ho].
  - split; [exact Ho| |exact Hh|exact He]. intros op k. cbn.
    intros [Heq|H1]%elem_of_dict_put; [by simplify_eq|by eapply Hp].
  - split; [exact Ho|exact Hp| |exact He]. intros h k. cbn.
    rewrite lookup_insert_Some. intros [[_ <-]|[_ H1]]; [done|by eapply Hh].
Qed.

Lemma wired_origin_id s o k : wired s -> origin_id s o = Some k -> known s k.
Proof. intros Hw [H1 _]%truthy_text_Some. by eapply wired_origins. Qed.

Lemma wired_path_id s op k : wired s -> path_id s op = Some k -> known s k.
Proof. intros Hw [H1%dict_look_in _]%truthy_text_Some. by eapply wired_paths. Qed.

Lemma wired_hostname_id s h k : wired s -> hostname_id s h = Some k -> known s k.
Proof.
  intros Hw [H1 _]%truthy_text_Some. apply bind_Some in H1 as (h' & _ & H1). by eapply wired_hostnames.
Qed.

Lemma application_edges_join s f e :
  wired s -> known s f.(DiscoveryFact.canonical_key) -> e ∈ application_edges s f -> joins s e.
Proof.
  intros Hw Hk. unfold application_edges.
  destruct (DiscoveryFact.fact_kind f); try by intros ?%elem_of_nil.
  all: case_match eqn:E; [intros ->%list_elem_of_singleton|by intros ?%elem_of_nil]; split; cbn; try done.
  - apply bind_Some in E as (op & _ & E). by eapply wired_origin_id.
  - apply bind_Some in E as (op & _ & E). by eapply wired_path_id.
  - by eapply wired_path_id.
  - apply bind_Some in E as (op & _ & E). by eapply wired_origin_id.
Qed.

Lemma reference_edges_join s f p e :
  wired s -> known s f.(DiscoveryFact.canonical_key) -> e ∈ reference_edges s f p -> joins s e.
Proof.
  intros Hw Hk. unfold reference_edges. case_match eqn:E; [|by intros ?%elem_of_nil].
  intros ->%list_elem_of_singleton. apply bind_Some in E as (op & _ & E).
  split; cbn; [by eapply wired_path_id|done].
Qed.

Lemma sensor_edges_join s f es e :
  wired s -> known s f.(DiscoveryFact.canonical_key) ->
  sensor_edges s f = Ok es -> e ∈ es -> joins s e.
Proof.
  intros Hw Hk. unfold sensor_edges, spec_path.
  destruct (DiscoveryFact.fact_kind f); try by (intros [= <-] ?%elem_of_nil).
  - intros [= <-]. unfold hostname_edges. repeat case_match; try by intros ?%elem_of_nil.
    intros ->%list_elem_of_singleton. split; cbn; [done|by eapply wired_origin_id].
  - destruct (cert_hostnames f) as [hs|]; [|done]. intros [= <-].
    rewrite list_elem_of_omap. intros (h & _ & He). unfold cert_edge in He.
    case_match eqn:E; simplify_eq. split; cbn; [by eapply wired_hostname_id|done].
  - destruct (service_hostname f) as [h|]; [|done]. intros [= <-]. unfold service_edges.
    case_match eqn:E; [|by intros ?%elem_of_nil]. intros ->%list_elem_of_singleton.
    split; cbn; [done|by eapply wired_hostname_id].
  - intros [= <-]. rewrite list_elem_of_omap. intros (h & _ & He). unfold tech_edge in He.
    case_match eqn:E; simplify_eq. split; cbn; [by eapply wired_origin_id|done].
  - intros [= <-]. by apply reference_edges_join.
  - intros [= <-]. by apply reference_edges_join.
Qed.

Lemma transition_edges_join keys s f e :
  wired s -> (forall i k, keys !! i = Some k -> known s k) -> e ∈ transition_edges keys s f -> joins s e.
Proof.
  intros Hw Hkeys. unfold transition_edges. case_match; [by intros ?%elem_of_nil|].
  destruct (match dict_get _ _ with PStr _ => _ | _ => _ end) as [pre|] eqn:Epre; [|by intros ?%elem_of_nil].
  destruct (path_id s _) as [p|] eqn:Ep; [|by intros ?%elem_of_nil].
  intros ->%list_elem_of_singleton. split; cbn; [|by eapply wired_path_id].
  destruct (dict_get _ _); try done. apply truthy_text_Some in Epre as [Epre _]. by eapply Hkeys.
Qed.

Lemma inference_edges_join s i es e :
  wired s -> known s i.(DiscoveryInference.canonical_key) ->
  inference_edges s i = Ok es -> e ∈ es -> joins s e.
Proof.
  intros Hw Hk. unfold inference_edges.
  destruct (DiscoveryInference.inference_kind i); try by (intros [= <-] ?%elem_of_nil).
  - intros [= <-]. rewrite list_elem_of_bind.
    intros (path & (p & -> & [Hp _]%elem_of_list_filter_bool)%list_elem_of_fmap & _).
    split; cbn; [|done]. destruct p as [op k]. by eapply wired_paths.
  - rewrite bind_ok. intros (e' & ->%validated & [= <-]) ->%list_elem_of_singleton. done.
Qed.

Lemma nodes_of_fact_own f :
  is_ok (scope_classification_from_fact f) = true ->
  exists c, c ∈ nodes_of_fact f /\ c.(AttackSurfaceNode.canonical_key) = f.(DiscoveryFact.canonical_key).
Proof.
  unfold nodes_of_fact. destruct (scope_classification_from_fact f) as [scope|]; [|done].
  intros _. eexists. split; [by left|done].
Qed.

Lemma fact_known m f scope :
  scope_classification_from_fact f = Ok scope ->
  is_Some (foldl add_node m (nodes_of_fact f) !! f.(DiscoveryFact.canonical_key)).
Proof.
  intros E. destruct (nodes_of_fact_own f) as (c & Hc & <-); [by rewrite E|]. by apply add_nodes_has.
Qed.

Lemma identity_edges_join s f scope :
  scope_classification_from_fact f = Ok scope ->
  forall e, e ∈ identity_edges f ->
  joins (Build.set_nodes s (foldl add_node s.(Build.nodes) (nodes_of_fact f))) e.
Proof.
  intros Es e. unfold identity_edges. destruct (truthy_text _) as [i|] eqn:E; [|by intros ?%elem_of_nil].
  intros ->%list_elem_of_singleton. split; unfold known; cbn; [by eapply fact_known|].
  assert (exists c, c ∈ nodes_of_fact f /\ c.(AttackSurfaceNode.canonical_key) = "identity:" +:+ i)
    as (c & Hc & Ec).
  { unfold nodes_of_fact, fact_nodes. rewrite Es, E. eexists. split; [by right; left|done]. }
  pose proof (add_nodes_has s.(Build.nodes) _ _ Hc) as Hn. rewrite Ec in Hn. exact Hn.
Qed.

Lemma first_pass_wired s f s' :
  first_pass s f = Ok s' -> wired s -> wired s' /\ known s' f.(DiscoveryFact.canonical_key).
Proof.
  intros Hf Hw. destruct (scope_classification_from_fact f) as [scope|] eqn:Es;
    [|unfold first_pass in Hf; by rewrite Es in Hf].
  apply first_pass_ok in Hf as (s1 & Es1 & ->).
  set (s0 := Build.set_nodes s _) in Es1.
  assert (wired s1 /\ known s1 f.(DiscoveryFact.canonical_key)) as [Hw1 Hk1].
  { assert (known s0 f.(DiscoveryFact.canonical_key)) as Hk by (by eapply fact_known).
    assert (wired (Build.append_edges s0 (identity_edges f))) as Hw0.
    { apply wired_append; [by apply wired_set_nodes|]. by eapply identity_edges_join. }
    rewrite Es1. split; [by apply wired_index|]. unfold known. by rewrite index_fact_nodes. }
  split; [|done]. apply wired_append; [done|]. intros e. by apply application_edges_join.
Qed.

Lemma first_passes_wired l s s' :
  fold_result first_pass s l = Ok s' -> wired s ->
  wired s' /\ forall f, f ∈ l -> known s' f.(DiscoveryFact.canonical_key).
Proof.
  revert s. induction l as [|f l IH]; intros s; cbn.
  { intros [= ->] Hw. split; [done|]. by intros ? ?%elem_of_nil. }
  rewrite bind_ok. intros (s1 & H1 & Hl) Hw.
  destruct (first_pass_wired _ _ _ H1 Hw) as [Hw1 Hk1].
  destruct (IH _ Hl Hw1) as [Hw' Hks]. split; [done|].
  intros g [->|Hg]%elem_of_cons; [|by apply Hks].
  unfold known. rewrite (first_passes_nodes _ _ _ Hl). by apply add_nodes_known.
Qed.

Lemma second_passes_wired l s s' :
  fold_result second_pass s l = Ok s' -> wired s ->
  (forall f, f ∈ l -> known s f.(DiscoveryFact.canonical_key)) -> wired s'.
Proof.
  intros Hs Hw Hl. apply (fold_result_ind (fun s' => wired s' /\ s'.(Build.nodes) = s.(Build.nodes))) in Hs;
    [by destruct Hs| |by split].
  intros s0 f s1 Hf [Hw0 Hn0] (es & Hes & ->)%second_pass_ok. split; [|done].
  apply wired_append; [done|]. intros e He. eapply sensor_edges_join; eauto.
  unfold known. rewrite Hn0. by apply Hl.
Qed.

Lemma third_passes_wired keys l s :
  wired s -> (forall i k, keys !! i = Some k -> known s k) -> wired (foldl (third_pass keys) s l).
Proof.
  revert s. induction l as [|f l IH]; intros s Hw Hk; cbn; [done|].
  apply IH; [|done]. apply wired_append; [done|]. intros e. by apply transition_edges_join.
Qed.

Lemma inference_passes_wired l s s' :
  fold_result inference_pass s l = Ok s' -> wired s -> wired s'.
Proof.
  intros Hs Hw0. revert Hs. apply (fold_result_ind wired); [|done]. clear s' Hw0 s.
  intros s i s' _ Hw (es & Hes & ->)%inference_pass_ok.
  pose proof (wired_set_nodes s [inference_node i] Hw) as Hw1. cbn in Hw1.
  apply wired_append; [done|]. intros e He. eapply inference_edges_join; eauto.
  unfold known. cbn. apply (add_nodes_has _ [inference_node i] (inference_node i)). left.
Qed.

Lemma workflow_passes_edges l s s' e :
  fold_result workflow_pass s l = Ok s' ->
  e ∈ s'.(Build.edges) <-> e ∈ s.(Build.edges) \/ e ∈ l.
Proof.
  revert s. induction l as [|w l IH]; intros s; cbn.
  { intros [= ->]. rewrite elem_of_nil. tauto. }
  rewrite bind_ok. intros (s1 & [_ ->]%workflow_pass_ok & Hl). rewrite (IH _ Hl). cbn.
  rewrite elem_of_app, list_elem_of_singleton, elem_of_cons. tauto.
Qed.

Lemma contribution_id facts inferences c :
  c ∈ contributions facts inferences ->
  c.(AttackSurfaceNode.node_id) = c.(AttackSurfaceNode.canonical_key).
Proof.
  unfold contributions. rewrite elem_of_app, list_elem_of_bind, list_elem_of_fmap.
  intros [(f & Hc & _)|(i & -> & _)]; [|done]. revert Hc. unfold nodes_of_fact.
  destruct (scope_classification_from_fact f) as [scope|]; [|by intros ?%elem_of_nil].
  unfold fact_nodes. rewrite elem_of_cons, elem_of_app.
  destruct (truthy_text (Some _)), (truthy_text (DiscoveryFact.session_context_id f));
    rewrite ?list_elem_of_singleton, ?elem_of_nil; naive_solver.
Qed.

(** An edge of a rebuilt graph that the caller did not hand in connects two of its nodes. *)
Theorem surface_edges_connect_nodes run version facts inferences workflow g e :
  rebuild_attack_surface_graph run version facts inferences workflow = Ok g ->
  e ∈ g.(AttackSurfaceGraph.edges) -> e ∉ workflow ->
  e.(AttackSurfaceEdge.from_node_id) ∈ (AttackSurfaceNode.node_id <$> g.(AttackSurfaceGraph.nodes))
  /\ e.(AttackSurfaceEdge.to_node_id) ∈ (AttackSurfaceNode.node_id <$> g.(AttackSurfaceGraph.nodes)).
Proof.
  intros Hg He Hnw. pose proof Hg as (s1 & s2 & s4 & s5 & H1 & H2 & H4 & H5 & ->)%rebuild_ok.
  cbn in He. rewrite elem_of_sort_by, (workflow_passes_edges _ _ _ _ H5) in He.
  destruct He as [He|]; [|done].
  assert (wired Build.empty) as Hw0.
  { split; cbn; try done. - by intros ? ? ?%elem_of_nil. - by intros ? ?%elem_of_nil. }
  destruct (first_passes_wired _ _ _ H1 Hw0) as [Hw1 Hk1].
  pose proof (second_passes_wired _ _ _ H2 Hw1 Hk1) as Hw2.
  pose proof (second_passes_nodes _ _ _ H2) as Hn2.
  assert (wired s4) as Hw4.
  { eapply inference_passes_wired; [exact H4|]. apply third_passes_wired; [done|].
    intros i k (f & Hf & _ & <-)%fact_id_to_key_in. unfold known. rewrite Hn2. apply Hk1.
    unfold by_key. by rewrite elem_of_sort_by. }
  assert (forall k, known s4 k ->
    k ∈ (AttackSurfaceNode.node_id <$> sort_by node_key (map_to_list s5.(Build.nodes)).*2)) as Hids.
  { intros k [n Hn]. rewrite <-(workflow_passes_nodes _ _ _ H5) in Hn.
    assert (n ∈ sort_by node_key (map_to_list s5.(Build.nodes)).*2) as Hin.
    { apply elem_of_sort_by, list_elem_of_fmap. exists (k, n). by rewrite elem_of_map_to_list. }
    apply list_elem_of_fmap. exists n. split; [|done].
    rewrite (passes_nodes _ _ _ _ _ _ _ H1 H2 H4 H5) in Hn.
    apply fold_nodes_keyed in Hn as (_ & first & Hf & <- & ->).
    symmetry. apply (contribution_id facts inferences). by apply elem_of_sorted_contributions. }
  destruct (wired_edges _ Hw4 _ He) as [Hf Ht]. cbn. by split; apply Hids.
Qed.

(** ** Which paths are contained in their origin *)

Definition contains_edge (k : string) (e : AttackSurfaceEdge.t) : Prop :=
  e.(AttackSurfaceEdge.kind) = AttackSurfaceEdgeKind.CONTAINS /\ e.(AttackSurfaceEdge.to_node_id) = k.

Definition is_origin_fact (o : string) (f : DiscoveryFact.t) : Prop :=
  f.(DiscoveryFact.fact_kind) = DiscoveryFactKind.ORIGIN
  /\ f.(DiscoveryFact.normalized_origin) = Some o.

Definition is_path_fact (o : string) (f : DiscoveryFact.t) : Prop :=
  f.(DiscoveryFact.fact_kind) = DiscoveryFactKind.EXACT_PATH
  /\ exists path, origin_and_path f = Some (o, path).

Lemma index_fact_origin s f o :
  f.(DiscoveryFact.canonical_key) ≠ "" -> o ≠ "" ->
  is_Some (origin_id (index_fact s f) o) <-> is_Some (origin_id s o) \/ is_origin_fact o f.
Proof.
  intros Hk Ho. unfold index_fact, origin_id, is_origin_fact.
  destruct (DiscoveryFact.fact_kind f) eqn:Ef.
  2-18: try solve [repeat case_match; cbn; naive_solver].
  destruct (truthy_text (DiscoveryFact.normalized_origin f)) as [o'|] eqn:Eo; cbn.
  - apply truthy_text_Some in Eo as [Eo _]. rewrite Eo.
    destruct (decide (o' = o)) as [->|Hne].
    + rewrite lookup_insert_eq. split; [by right|]. intros _. exists (DiscoveryFact.canonical_key f).
      by apply truthy_text_Some.
    + rewrite lookup_insert_ne by done. naive_solver.
  - split; [by left|]. intros [?|[_ E]]; [done|]. rewrite E in Eo. by destruct o.
Qed.

Lemma append_edges_in s es e :
  e ∈ (Build.append_edges s es).(Build.edges) <-> e ∈ s.(Build.edges) \/ e ∈ es.
Proof. apply elem_of_app. Qed.

Lemma application_contains s f k :
  (exists e, e ∈ application_edges s f /\ contains_edge k e)
  <-> f.(DiscoveryFact.canonical_key) = k
      /\ exists o, is_path_fact o f /\ is_Some (origin_id s o).
Proof.
  unfold application_edges, is_path_fact, contains_edge.
  destruct (DiscoveryFact.fact_kind f) eqn:Ef.
  2: { destruct (origin_and_path f) as [[o path]|]; cbn; [destruct (origin_id s o) as [k'|] eqn:E|].
       - split.
         + intros (e & ->%list_elem_of_singleton & _ & <-). cbn. split; [done|]. exists o. eauto.
         + intros [<- _]. eexists. split; [by left|done].
       - split; [by intros (e & ?%elem_of_nil & _)|].
         intros (_ & o' & [_ [? [= <- _]]] & [? E']). congruence.
       - split; [by intros (e & ?%elem_of_nil & _)|]. by intros (_ & o' & [_ [? [=]]] & _). }
  all: split; [|by intros (_ & o & [[=] _] & _)].
  all: repeat case_match; intros (e & He & Hkind & _); revert He;
    first [by intros ?%elem_of_nil | intros ->%list_elem_of_singleton; discriminate Hkind].
Qed.

Lemma first_pass_contains s f s' k :
  first_pass s f = Ok s' -> f.(DiscoveryFact.canonical_key) ≠ "" ->
  (exists e, e ∈ s'.(Build.edges) /\ contains_edge k e)
  <-> (exists e, e ∈ s.(Build.edges) /\ contains_edge k e)
      \/ f.(DiscoveryFact.canonical_key) = k
         /\ exists o, o ≠ "" /\ is_path_fact o f /\ is_Some (origin_id s o).
Proof.
  intros (s1 & E1 & ->)%first_pass_ok Hk. setoid_rewrite append_edges_in.
  assert (forall e, e ∈ s1.(Build.edges) /\ contains_edge k e <-> e ∈ s.(Build.edges) /\ contains_edge k e)
    as Hold.
  { intros e. rewrite E1, index_fact_edges, append_edges_in. cbn. split; [|tauto].
    intros [[He|He] Hc]; [done|]. exfalso. revert He. unfold identity_edges.
    case_match; [|by intros ?%elem_of_nil]. intros ->%list_elem_of_singleton. by destruct Hc. }
  assert (forall o, o ≠ "" -> is_path_fact o f -> is_Some (origin_id s1 o) <-> is_Some (origin_id s o)) as Hidx.
  { intros o Ho [Hf _]. rewrite E1, index_fact_origin by done. unfold is_origin_fact, origin_id. cbn.
    rewrite Hf. naive_solver. }
  pose proof (application_contains s1 f k) as Ha.
  split.
  - intros (e & [He|He] & Hc); [left; exists e; by apply Hold|right].
    destruct (proj1 Ha) as [<- (o & Hp & Hi)]; [by exists e|]. split; [done|].
    assert (o ≠ "") as Ho. { destruct Hi as [? [Hi _]%truthy_text_Some].
      destruct Hp as [_ [path Hp]]. unfold origin_and_path in Hp. repeat case_match; simplify_eq.
      by match goal with Hx : truthy_text (DiscoveryFact.normalized_origin f) = Some _ |- _ =>
        apply truthy_text_Some in Hx as [_ Hx] end. }
    exists o. split; [done|]. split; [done|]. by apply Hidx.
  - intros [(e & He)|(<- & o & Ho & Hp & Hi)].
    + apply Hold in He as [? ?]. eauto.
    + destruct (proj2 Ha) as (e & He & Hc); [|eauto]. split; [done|]. exists o. split; [done|].
      by apply Hidx.
Qed.

Lemma first_pass_origins s f s' o :
  first_pass s f = Ok s' -> f.(DiscoveryFact.canonical_key) ≠ "" -> o ≠ "" ->
  is_Some (origin_id s' o) <-> is_Some (origin_id s o) \/ is_origin_fact o f.
Proof.
  intros (s1 & -> & ->)%first_pass_ok Hk Ho. exact (index_fact_origin _ f o Hk Ho).
Qed.

Lemma first_passes_origins l s' o :
  fold_result first_pass Build.empty l = Ok s' ->
  (forall f, f ∈ l -> f.(DiscoveryFact.canonical_key) ≠ "") -> o ≠ "" ->
  is_Some (origin_id s' o) <-> exists f, f ∈ l /\ is_origin_fact o f.
Proof.
  revert s'. induction l as [|x l IH] using rev_ind; intros s'; cbn.
  { intros [= <-] _ _. unfold origin_id. cbn. rewrite lookup_empty. cbn.
    split; [by intros [? [=]]|]. by intros (f & ?%elem_of_nil & _). }
  intros (s1 & Hl & Hx)%fold_result_snoc Hk Ho.
  setoid_rewrite elem_of_app in Hk. setoid_rewrite elem_of_app. setoid_rewrite list_elem_of_singleton.
  setoid_rewrite list_elem_of_singleton in Hk.
  rewrite (first_pass_origins _ _ _ _ Hx), (IH _ Hl) by auto. naive_solver.
Qed.

Lemma first_passes_contains l s' k :
  fold_result first_pass Build.empty l = Ok s' ->
  (forall f, f ∈ l -> f.(DiscoveryFact.canonical_key) ≠ "") ->
  (exists e, e ∈ s'.(Build.edges) /\ contains_edge k e)
  <-> exists l1 p l2 o f, l = l1 ++ p :: l2 /\ p.(DiscoveryFact.canonical_key) = k
        /\ o ≠ "" /\ is_path_fact o p /\ f ∈ l1 /\ is_origin_fact o f.
Proof.
  revert s'. induction l as [|x l IH] using rev_ind; intros s'; cbn.
  { intros [= <-] _. split; [by intros (e & ?%elem_of_nil & _)|].
    by intros ([|] & p & l2 & o & f & E & _). }
  intros (s1 & Hl & Hx)%fold_result_snoc Hk.
  assert (forall f, f ∈ l -> f.(DiscoveryFact.canonical_key) ≠ "") as Hkl.
  { intros f Hf. apply Hk, elem_of_app. by left. }
  rewrite (first_pass_contains _ _ _ _ Hx) by (apply Hk, elem_of_app; right; left).
  rewrite (IH _ Hl Hkl). split.
  - intros [(l1 & p & l2 & o & f & -> & ?)|(<- & o & Ho & Hp & Hi)].
    + exists l1, p, (l2 ++ [x]), o, f. by rewrite <-app_assoc.
    + apply (first_passes_origins _ _ _ Hl Hkl Ho) in Hi as (f & ? & ?).
      exists l, x, [], o, f. done.
  - intros (l1 & p & l2 & o & f & E & Hpk & Ho & Hp & Hf & Hof).
    destruct l2 as [|y l2 _] using rev_ind.
    + apply app_inj_tail in E as [-> ->]. right. split; [done|]. exists o. split; [done|].
      split; [done|]. apply (first_passes_origins _ _ _ Hl Hkl Ho). eauto.
    + rewrite app_comm_cons, app_assoc in E. apply app_inj_tail in E as [-> ->]. left. eauto 12.
Qed.

Definition not_contains (e : AttackSurfaceEdge.t) : Prop :=
  e.(AttackSurfaceEdge.kind) ≠ AttackSurfaceEdgeKind.CONTAINS.

Lemma sensor_edges_kind s f es e : sensor_edges s f = Ok es -> e ∈ es -> not_contains e.
Proof.
  unfold sensor_edges, spec_path, reference_edges.
  destruct (DiscoveryFact.fact_kind f); try by (intros [= <-] ?%elem_of_nil).
  - intros [= <-]. unfold hostname_edges. repeat case_match; try by intros ?%elem_of_nil.
    by intros ->%list_elem_of_singleton.
  - destruct (cert_hostnames f) as [hs|]; [|done]. intros [= <-].
    rewrite list_elem_of_omap. intros (h & _ & He). unfold cert_edge in He. by case_match; simplify_eq.
  - destruct (service_hostname f) as [h|]; [|done]. intros [= <-]. unfold service_edges.
    case_match; [|by intros ?%elem_of_nil]. by intros ->%list_elem_of_singleton.
  - intros [= <-]. rewrite list_elem_of_omap. intros (h & _ & He). unfold tech_edge in He.
    by case_match; simplify_eq.
  - intros [= <-]. case_match; [|by intros ?%elem_of_nil]. by intros ->%list_elem_of_singleton.
  - intros [= <-]. case_match; [|by intros ?%elem_of_nil]. by intros ->%list_elem_of_singleton.
Qed.

Lemma inference_edges_kind s i es e : inference_edges s i = Ok es -> e ∈ es -> not_contains e.
Proof.
  unfold inference_edges. destruct (DiscoveryInference.inference_kind i);
    try by (intros [= <-] ?%elem_of_nil).
  - intros [= <-]. rewrite list_elem_of_bind.
    by intros (path & (p & -> & _)%list_elem_of_fmap & _).
  - rewrite bind_ok. by intros (e' & ->%validated & [= <-]) ->%list_elem_of_singleton.
Qed.

Lemma transition_edges_kind keys s f e : e ∈ transition_edges keys s f -> not_contains e.
Proof.
  unfold transition_edges. repeat case_match; try by intros ?%elem_of_nil.
  all: by intros ->%list_elem_of_singleton.
Qed.

(** [s'] has the CONTAINS edges of [s]. *)
Definition same_contains (s s' : Build.t) : Prop :=
  forall k, (exists e, e ∈ s'.(Build.edges) /\ contains_edge k e)
       <-> (exists e, e ∈ s.(Build.edges) /\ contains_edge k e).

Lemma same_contains_refl s : same_contains s s.
Proof. done. Qed.

Lemma same_contains_trans s1 s2 s3 : same_contains s1 s2 -> same_contains s2 s3 -> same_contains s1 s3.
Proof. intros H1 H2 k. by rewrite (H2 k), (H1 k). Qed.

Lemma same_contains_append s s' es :
  s'.(Build.edges) = s.(Build.edges) -> (forall e, e ∈ es -> not_contains e) ->
  same_contains s (Build.append_edges s' es).
Proof.
  intros E Hes k. setoid_rewrite append_edges_in. rewrite E. split.
  - intros (e & [He|He%Hes] & Hc); [by eauto|]. by destruct Hc.
  - intros (e & He & Hc). eauto.
Qed.

Lemma later_passes_contains facts inferences workflow s1 s2 s4 s5 :
  fold_result second_pass s1 (by_key facts) = Ok s2 ->
  fold_result inference_pass (foldl (third_pass (fact_id_to_key facts)) s2 (by_key facts))
    (sort_by DiscoveryInference.canonical_key inferences) = Ok s4 ->
  fold_result workflow_pass s4 workflow = Ok s5 ->
  same_contains s1 s5.
Proof.
  intros H2 H4 H5.
  assert (same_contains s1 s2) as H12.
  { revert H2. apply fold_result_ind; [|apply same_contains_refl].
    intros s f s' _ Hs (es & Hes & ->)%second_pass_ok. eapply same_contains_trans; [exact Hs|].
    apply same_contains_append; [done|]. intros e He. by eapply sensor_edges_kind. }
  assert (forall keys l s, same_contains s (foldl (third_pass keys) s l)) as H23.
  { intros keys l. induction l as [|f l IH]; intros s; cbn; [apply same_contains_refl|].
    eapply same_contains_trans; [|apply IH]. apply same_contains_append; [done|].
    intros e. apply transition_edges_kind. }
  eapply same_contains_trans; [exact H12|]. eapply same_contains_trans; [apply H23|].
  assert (same_contains (foldl (third_pass (fact_id_to_key facts)) s2 (by_key facts)) s4) as H34.
  { revert H4. apply fold_result_ind; [|apply same_contains_refl].
    intros s i s' _ Hs (es & Hes & ->)%inference_pass_ok. eapply same_contains_trans; [exact Hs|].
    apply same_contains_append; [done|]. intros e He. by eapply inference_edges_kind. }
  eapply same_contains_trans; [exact H34|].
  revert H5. apply fold_result_ind; [|apply same_contains_refl].
  intros s e s' _ Hs [Hk ->]%workflow_pass_ok. eapply same_contains_trans; [exact Hs|].
  apply same_contains_append; [done|]. intros e' ->%list_elem_of_singleton. unfold not_contains. by rewrite Hk.
Qed.

Lemma sorted_split l l1 x l2 y :
  StronglySorted (key_le DiscoveryFact.canonical_key) l ->
  l = l1 ++ x :: l2 -> y ∈ l1 -> key_le DiscoveryFact.canonical_key y x.
Proof.
  intros Hs ->. revert Hs. induction l1 as [|z l1 IH]; cbn; [by intros _ ?%elem_of_nil|].
  intros [Hs Hz]%StronglySorted_inv [->|Hy]%elem_of_cons; [|by apply IH].
  rewrite Forall_forall in Hz. apply Hz, elem_of_app. right. left.
Qed.

Lemma sorted_before l x y :
  NoDup (DiscoveryFact.canonical_key <$> l) ->
  StronglySorted (key_le DiscoveryFact.canonical_key) l -> x ∈ l -> y ∈ l -> y ≠ x ->
  key_le DiscoveryFact.canonical_key y x -> exists l1 l2, l = l1 ++ x :: l2 /\ y ∈ l1.
Proof.
  intros Hnd Hs Hx Hy Hne Hle. apply list_elem_of_split in Hx as (l1 & l2 & E).
  exists l1, l2. split; [done|]. rewrite E in Hy.
  apply elem_of_app in Hy as [|[->|Hy]%elem_of_cons]; [done|done|]. exfalso. apply Hne.
  assert (key_le DiscoveryFact.canonical_key x y) as Hle'.
  { revert Hs. rewrite E. clear -Hy. induction l1 as [|z l1 IH]; cbn; intros [Hs Hz]%StronglySorted_inv.
    - rewrite Forall_forall in Hz. by apply Hz.
    - by apply IH. }
  apply (NoDup_fmap_inj DiscoveryFact.canonical_key l); [done| | |by apply kle_antisym]; rewrite E; apply elem_of_app; right.
  - by right.
  - left.
Qed.

(** Which application edges exist depends on the order of the keys: an origin is recorded as
    containing a path exactly when the canonical key of one of its ORIGIN facts is smaller than
    that of the path fact.  (The keys are SHA-256 digests, so for half of the paths it is not.) *)
Theorem containment_iff_origin_sorts_first run version facts inferences workflow g p o path :
  rebuild_attack_surface_graph run version facts inferences workflow = Ok g ->
  NoDup (DiscoveryFact.canonical_key <$> facts) ->
  (forall f, f ∈ facts -> f.(DiscoveryFact.canonical_key) ≠ "") ->
  p ∈ facts -> p.(DiscoveryFact.fact_kind) = DiscoveryFactKind.EXACT_PATH ->
  origin_and_path p = Some (o, path) ->
  (exists e, e ∈ g.(AttackSurfaceGraph.edges)
     /\ e.(AttackSurfaceEdge.kind) = AttackSurfaceEdgeKind.CONTAINS
     /\ e.(AttackSurfaceEdge.to_node_id) = p.(DiscoveryFact.canonical_key))
  <-> exists f, f ∈ facts /\ f.(DiscoveryFact.fact_kind) = DiscoveryFactKind.ORIGIN
        /\ f.(DiscoveryFact.normalized_origin) = Some o
        /\ kle f.(DiscoveryFact.canonical_key) p.(DiscoveryFact.canonical_key) = true.
Proof.
  intros (s1 & s2 & s4 & s5 & H1 & H2 & H4 & H5 & ->)%rebuild_ok Hnd Hk Hp Hkind Hop. cbn.
  setoid_rewrite elem_of_sort_by.
  etransitivity; [exact (later_passes_contains _ _ _ _ _ _ _ H2 H4 H5 p.(DiscoveryFact.canonical_key))|].
  assert (forall f, f ∈ by_key facts <-> f ∈ facts) as Hin by (intros f; apply elem_of_sort_by).
  assert (NoDup (DiscoveryFact.canonical_key <$> by_key facts)) as Hnd'.
  { unfold by_key. by rewrite sort_by_perm. }
  pose proof (sort_by_sorted DiscoveryFact.canonical_key facts) as Hs. fold (by_key facts) in Hs.
  rewrite (first_passes_contains _ _ _ H1) by (intros f Hf; by apply Hk, Hin). split.
  - intros (l1 & p' & l2 & o' & f & E & Hpk & Ho & Hp' & Hf & Hof).
    assert (p' ∈ by_key facts) as Hp'in by (rewrite E; apply elem_of_app; right; left).
    assert (p' = p) as ->.
    { apply (NoDup_fmap_inj DiscoveryFact.canonical_key (by_key facts)); try done. by apply Hin. }
    destruct Hp' as [_ [path' Hpath']]. rewrite Hop in Hpath'. injection Hpath' as <- _.
    exists f. split; [apply Hin; rewrite E; apply elem_of_app; by left|].
    destruct Hof as [? ?]. split; [done|]. split; [done|]. by apply (sorted_split _ _ _ _ _ Hs E).
  - intros (f & Hf & Hfk & Hfo & Hle).
    destruct (sorted_before (by_key facts) p f) as (l1 & l2 & E & Hl1); try done.
    + by apply Hin.
    + by apply Hin.
    + intros ->. congruence.
    + exists l1, p, l2, o, f. split; [done|]. split; [done|]. split.
      { intros ->. unfold origin_and_path in Hop. repeat case_match; simplify_eq.
        by match goal with Hx : truthy_text _ = Some "" |- _ => apply truthy_text_Some in Hx as [_ Hx] end. }
      split; [by split; [|exists path]|]. done.
Qed.
End rebuilt.

(** ** On concrete inputs *)

Definition sample_source : DiscoveryFactSourceView.t :=
  DiscoveryFactSourceView.mk (Some DiscoverySourcePlane.OBSERVATION) (Some "obs-1") None None None None.

Definition sample_fact (id : string) (kind : DiscoveryFactKind.t) (key : string)
    (path scope : option string) : DiscoveryFact.t :=
  DiscoveryFact.mk id "run-1" kind key TargetEpistemicStatus.OBSERVED "ANONYMOUS" "https://a.example/"
    [sample_source] None (Some "https://a.example") path None
    ((fun s => [("scope_classification", PStr s)]) <$> scope).

Definition sample_origin (key : string) : DiscoveryFact.t :=
  sample_fact "f-origin" DiscoveryFactKind.ORIGIN key (Some "/") (Some "IN_SCOPE").

Definition sample_path (key : string) : DiscoveryFact.t :=
  sample_fact "f-path" DiscoveryFactKind.EXACT_PATH key (Some "/login") (Some "OUT_OF_SCOPE").

Definition any_netloc : NetlocCheck := fun _ => true.

Definition sample_rebuild (facts : list DiscoveryFact.t) : result AttackSurfaceGraph.t :=
  @rebuild_attack_surface_graph any_netloc "run-1" "v1" facts [] [].

Definition sample_graph (facts : list DiscoveryFact.t) : AttackSurfaceGraph.t :=
  match sample_rebuild facts with
  | Ok g => g
  | Raise _ => AttackSurfaceGraph.mk "" "" [] []
  end.

(** The keys of the edges for the same two facts with the keys exchanged. *)
Example containment_depends_on_key_order :
  AttackSurfaceEdge.edge_id <$> (sample_graph [sample_origin "a"; sample_path "b"]).(AttackSurfaceGraph.edges)
  = ["a:contains:b"; "a:under:ANONYMOUS"; "b:under:ANONYMOUS"]
  /\ AttackSurfaceEdge.edge_id <$> (sample_graph [sample_origin "b"; sample_path "a"]).(AttackSurfaceGraph.edges)
     = ["a:under:ANONYMOUS"; "b:under:ANONYMOUS"].
Proof. vm_compute. done. Qed.

Lemma surface_scope_never_laundered_witness :
  let facts := [sample_origin "a"; sample_path "b"] in
  "b" ∈ (AttackSurfaceNode.canonical_key <$> (sample_graph facts).(AttackSurfaceGraph.nodes))
  /\ forall n, n ∈ (sample_graph facts).(AttackSurfaceGraph.nodes) ->
     n.(AttackSurfaceNode.canonical_key) = "b" ->
     n.(AttackSurfaceNode.scope_classification) = ScopeClassification.OUT_OF_SCOPE.
Proof.
  intros facts. split.
  - apply (bool_decide_unpack _). vm_compute. exact I.
  - intros n Hn Hk.
    destruct (@surface_scope_never_laundered any_netloc "run-1" "v1" facts [] [] (sample_graph facts))
      as (_ & _ & Hall); [vm_compute; reflexivity|].
    destruct (Hall n Hn) as [Hout _]. apply Hout. rewrite Hk.
    exists (List.nth 2 (contributions facts []) (inference_node (DiscoveryInference.mk "" ""
      DiscoveryInferenceKind.SAME_AS "" TargetEpistemicStatus.INFERRED "" [] [] [] None))).
    split; [split; [|reflexivity]|reflexivity].
    apply list_elem_of_lookup_2 with 2%nat. reflexivity.
Defined.

Lemma rebuild_order_irrelevant_witness :
  sample_rebuild [sample_origin "a"; sample_path "b"]
  = sample_rebuild [sample_path "b"; sample_origin "a"].
Proof.
  apply (@rebuild_order_irrelevant any_netloc "run-1" "v1"); try (apply (bool_decide_unpack _); vm_compute; exact I).
  - constructor.
  - constructor.
Defined.

Lemma surface_edges_connect_nodes_witness :
  exists e, e ∈ (sample_graph [sample_origin "a"; sample_path "b"]).(AttackSurfaceGraph.edges)
    /\ e.(AttackSurfaceEdge.from_node_id)
       ∈ (AttackSurfaceNode.node_id
          <$> (sample_graph [sample_origin "a"; sample_path "b"]).(AttackSurfaceGraph.nodes)).
Proof.
  set (g := sample_graph _).
  destruct (g.(AttackSurfaceGraph.edges)) as [|e l] eqn:E; [vm_compute in E; discriminate|].
  assert (e ∈ g.(AttackSurfaceGraph.edges)) as He by (rewrite E; left).
  exists e. split; [rewrite <-E; exact He|].
  apply (@surface_edges_connect_nodes any_netloc "run-1" "v1" [sample_origin "a"; sample_path "b"] [] [] g e);
    [vm_compute; reflexivity|exact He|by intros ?%elem_of_nil].
Defined.

Lemma containment_iff_origin_sorts_first_witness :
  ~ exists e, e ∈ (sample_graph [sample_origin "b"; sample_path "a"]).(AttackSurfaceGraph.edges)
      /\ e.(AttackSurfaceEdge.kind) = AttackSurfaceEdgeKind.CONTAINS
      /\ e.(AttackSurfaceEdge.to_node_id) = "a".
Proof.
  intros He.
  apply (@containment_iff_origin_sorts_first any_netloc "run-1" "v1"
           [sample_origin "b"; sample_path "a"] [] [] _ (sample_path "a")
           "https://a.example" "/login") in He.
  - destruct He as (f & Hf & Hk & _ & Hle).
    apply elem_of_cons in Hf as [->|Hf]; [discriminate Hle|].
    apply list_elem_of_singleton in Hf as ->. discriminate Hk.
  - vm_compute. reflexivity.
  - apply (bool_decide_unpack _). vm_compute. exact I.
  - intros f [->|Hf]%elem_of_cons; [discriminate|]. apply list_elem_of_singleton in Hf as ->. discriminate.
  - right. left.
  - reflexivity.
  - reflexivity.
Defined.
