(* ===== verification/HuntRecords.v ===== *)
(** * Records of the hunt

    The records of [data/records.py] that hypothesis generation, coverage, the scheduler and
    the V3 queue store. *)
From S2P Require Import Prelude PyVal SafeData Records FindingRecords.

(** [data/records.py:69-78 ExecutionAttemptState] *)
Module ExecutionAttemptState.
Inductive t : Set :=
  | AUTHORIZED | DISPATCHING | COMPLETED | FAILED | TIMED_OUT | CANCELLED | UNKNOWN_OUTCOME.
#[global] Instance eq_dec : EqDecision t.
Proof. solve_decision. Defined.
Definition value (x : t) : string :=
  match x with
  | AUTHORIZED => "AUTHORIZED" | DISPATCHING => "DISPATCHING" | COMPLETED => "COMPLETED"
  | FAILED => "FAILED" | TIMED_OUT => "TIMED_OUT" | CANCELLED => "CANCELLED"
  | UNKNOWN_OUTCOME => "UNKNOWN_OUTCOME"
  end.
Definition members : list t :=
  [ AUTHORIZED; DISPATCHING; COMPLETED; FAILED; TIMED_OUT; CANCELLED; UNKNOWN_OUTCOME ].
End ExecutionAttemptState.

(** [data/records.py:81-89 TargetContactStatus] *)
Module TargetContactStatus.
Inductive t : Set := CONFIRMED | NOT_CONTACTED | UNKNOWN.
#[global] Instance eq_dec : EqDecision t.
Proof. solve_decision. Defined.
Definition value (x : t) : string :=
  match x with
  | CONFIRMED => "CONFIRMED" | NOT_CONTACTED => "NOT_CONTACTED" | UNKNOWN => "UNKNOWN"
  end.
Definition members : list t := [ CONFIRMED; NOT_CONTACTED; UNKNOWN ].
End TargetContactStatus.

(** [data/records.py:124-126 ALLOWED_EXECUTION_ATTEMPT_STATES] *)
Definition ALLOWED_EXECUTION_ATTEMPT_STATES : list string :=
  ExecutionAttemptState.value <$> ExecutionAttemptState.members.

(** [data/records.py:127 ALLOWED_TARGET_CONTACT_STATUSES] *)
Definition ALLOWED_TARGET_CONTACT_STATUSES : list string :=
  TargetContactStatus.value <$> TargetContactStatus.members.

(** [data/records.py:159-167 ALLOWED_ASSESSMENT_OUTCOMES] *)
Definition ALLOWED_ASSESSMENT_OUTCOMES : list string :=
  [ "CONSISTENT_WITH_PREDICTION"; "CONTRADICTS_PREDICTION"; "INCONCLUSIVE";
    "EXECUTION_UNUSABLE"; "NEEDS_MORE_CONTEXT" ].

(** [data/records.py:168 ALLOWED_EVALUATOR_KINDS] *)
Definition ALLOWED_EVALUATOR_KINDS : list string := ["DETERMINISTIC"].

(** [data/records.py:169-171 ASSESSMENT_RATIONALE_FORBIDDEN_KEYS] *)
Definition ASSESSMENT_RATIONALE_FORBIDDEN_KEYS : list string :=
  [ "severity"; "evidence"; "finding"; "confidence"; "candidate" ].

(** [data/records.py:925-968 HypothesisAssessmentRecord] *)
Module HypothesisAssessmentRecord.
Record t : Type := mk {
  assessment_id : string;
  hypothesis_id : string;
  experiment_id : string;
  research_run_id : string;
  assessment_outcome : string;
  observation_ids : list string;
  evaluator_kind : string;
  evaluator_version : string;
  rationale : list (string * pyval);
  evaluation_strategy : string;
  created_at : Z }.

Definition post_init (x : t) : result t :=
  _ ← data_opaque_id x.(assessment_id);
  _ ← data_opaque_id x.(hypothesis_id);
  _ ← data_opaque_id x.(experiment_id);
  _ ← data_opaque_id x.(research_run_id);
  raise_if negb (mem x.(assessment_outcome) ALLOWED_ASSESSMENT_OUTCOMES) as PersistenceInputError;;
  raise_if negb (mem x.(evaluator_kind) ALLOWED_EVALUATOR_KINDS) as PersistenceInputError;;
  raise_if Str.is_blank x.(evaluator_version) as PersistenceInputError;;
  raise_if Str.is_blank x.(evaluation_strategy) as PersistenceInputError;;
  ids ← traverse data_opaque_id x.(observation_ids);
  raise_if existsb (fun p => mem p.1 ASSESSMENT_RATIONALE_FORBIDDEN_KEYS) x.(rationale)
  as PersistenceInputError;;
  _ ← data_reject_secret_keys x.(rationale);
  Ok (mk x.(assessment_id) x.(hypothesis_id) x.(experiment_id) x.(research_run_id)
        x.(assessment_outcome) ids x.(evaluator_kind) x.(evaluator_version) x.(rationale)
        x.(evaluation_strategy) x.(created_at)).
End HypothesisAssessmentRecord.

(** [data/records.py:509-532 SensorObservationRecord] *)
Module SensorObservationRecord.
Record t : Type := mk {
  observation_id : string;
  research_run_id : string;
  sensor_id : string;
  target_reference : string;
  collected_at : Z;
  payload_digest : string;
  epistemic_status : string;
  source_metadata : list (string * pyval);
  payload : list (string * pyval);
  created_at : Z }.

Definition post_init (x : t) : result t :=
  _ ← data_opaque_id x.(observation_id);
  _ ← data_opaque_id x.(research_run_id);
  _ ← data_opaque_id x.(sensor_id);
  _ ← data_opaque_id x.(target_reference);
  _ ← data_opaque_id x.(payload_digest);
  raise_if Str.is_blank x.(epistemic_status) as PersistenceInputError;;
  _ ← data_reject_secret_keys x.(source_metadata);
  _ ← data_reject_secret_keys x.(payload);
  Ok x.

#[global] Instance post_init_validator : Validator post_init.
Proof. solve_validator. Qed.
End SensorObservationRecord.

(** [data/records.py:2005-2053 ExecutionAttemptRecord] *)
Module ExecutionAttemptRecord.
Record t : Set := mk {
  attempt_id : string;
  request_id : string;
  experiment_id : string;
  research_run_id : string;
  correlation_id : string;
  worker_capability : string;
  action : string;
  target_reference : string;
  budget_id : string;
  side_effect_level : Z;
  authorization_decision_reference : string;
  state : string;
  created_at : Z;
  authorized_at : option Z;
  dispatch_started_at : option Z;
  completed_at : option Z;
  target_contact_status : string }.

Definition post_init (x : t) : result t :=
  _ ← data_opaque_id x.(attempt_id);
  _ ← data_opaque_id x.(request_id);
  _ ← data_opaque_id x.(experiment_id);
  _ ← data_opaque_id x.(research_run_id);
  _ ← data_opaque_id x.(correlation_id);
  _ ← data_opaque_id x.(worker_capability);
  _ ← data_opaque_id x.(action);
  _ ← data_opaque_id x.(target_reference);
  _ ← data_opaque_id x.(budget_id);
  _ ← data_opaque_id x.(authorization_decision_reference);
  raise_if negb (mem x.(side_effect_level) [0; 1; 2; 3]) as PersistenceInputError;;
  raise_if negb (mem x.(state) ALLOWED_EXECUTION_ATTEMPT_STATES) as PersistenceInputError;;
  raise_if negb (mem x.(target_contact_status) ALLOWED_TARGET_CONTACT_STATUSES)
  as PersistenceInputError;;
  Ok x.

#[global] Instance post_init_validator : Validator post_init.
Proof. solve_validator. Qed.
End ExecutionAttemptRecord.

(** The counts are a mapping of names to JSON values.
    [data/records.py:3049-3073 CoverageDebtSnapshotRecord] *)
Module CoverageDebtSnapshotRecord.
Record t : Type := mk {
  snapshot_id : string;
  research_run_id : string;
  matrix_hash : string;
  cell_counts : list (string * pyval);
  total_debt : Z;
  created_at : Z }.

Definition post_init (x : t) : result t :=
  _ ← data_opaque_id x.(snapshot_id);
  _ ← data_opaque_id x.(research_run_id);
  raise_if negb (String.length x.(matrix_hash) =? 64)%nat as PersistenceInputError;;
  _ ← data_reject_secret_keys x.(cell_counts);
  raise_if x.(total_debt) <? 0 as PersistenceInputError;;
  Ok x.

#[global] Instance post_init_validator : Validator post_init.
Proof. solve_validator. Qed.
End CoverageDebtSnapshotRecord.

(** [data/records.py:3077-3116 HunterFamilyRecord] *)
Module HunterFamilyRecord.
Record t : Type := mk {
  family_id : string;
  name : string;
  target_node_kinds : list string;
  preconditions : list (string * pyval);
  claim_template : string;
  evidence_requirements : list (string * pyval);
  validation_tier : string;
  enabled : bool;
  version : Z;
  created_at : Z }.

Definition post_init (x : t) : result t :=
  _ ← data_opaque_id x.(family_id);
  raise_if Str.is_blank x.(name) as PersistenceInputError;;
  raise_if existsb Str.is_blank x.(target_node_kinds) as PersistenceInputError;;
  _ ← data_reject_secret_keys x.(preconditions);
  raise_if Str.is_blank x.(claim_template) as PersistenceInputError;;
  _ ← data_reject_secret_keys x.(evidence_requirements);
  raise_if negb (mem x.(validation_tier) ["V1"; "V2"; "V3"]) as PersistenceInputError;;
  _ ← data_non_negative_int x.(version);
  raise_if x.(version) <? 1 as PersistenceInputError;;
  Ok x.

#[global] Instance post_init_validator : Validator post_init.
Proof. solve_validator. Qed.
End HunterFamilyRecord.

(** [data/records.py:3120-3154 HuntV3QueueRecord] *)
Module HuntV3QueueRecord.
Record t : Type := mk {
  queue_id : string;
  research_run_id : string;
  hypothesis_id : string;
  family_id : string;
  node_canonical_key : string;
  identity_id : option string;
  capability : string;
  action : string;
  arguments : list (string * pyval);
  side_effect_level : Z;
  state : string;
  created_at : Z }.

Definition post_init (x : t) : result t :=
  _ ← data_opaque_id x.(queue_id);
  _ ← data_opaque_id x.(research_run_id);
  _ ← data_opaque_id x.(hypothesis_id);
  _ ← data_opaque_id x.(family_id);
  raise_if Str.is_blank x.(node_canonical_key) as PersistenceInputError;;
  _ ← data_optional_opaque_id x.(identity_id);
  raise_if Str.is_blank x.(capability) as PersistenceInputError;;
  raise_if Str.is_blank x.(action) as PersistenceInputError;;
  _ ← data_reject_secret_keys x.(arguments);
  raise_if negb (mem x.(side_effect_level) [0; 1; 2; 3]) as PersistenceInputError;;
  raise_if negb (mem x.(state) ["PENDING"; "APPROVED"; "RUN"; "BLOCKED"])
  as PersistenceInputError;;
  Ok x.

#[global] Instance post_init_validator : Validator post_init.
Proof. solve_validator. Qed.

(** The row with another state. *)
Definition with_state (x : t) (s : string) : t :=
  mk x.(queue_id) x.(research_run_id) x.(hypothesis_id) x.(family_id) x.(node_canonical_key)
    x.(identity_id) x.(capability) x.(action) x.(arguments) x.(side_effect_level) s x.(created_at).
End HuntV3QueueRecord.
