(* ===== verification/Retry.v ===== *)
(** * Retry eligibility: [application/retry_policy.py]

    An attempt is an [ExecutionAttemptRecord], which has every attribute the function asks
    for.  The human-readable reason is left out. *)
From S2P Require Import Prelude Records HuntRecords.

(** [application/retry_policy.py:11-16 RetryClassification] *)
Module RetryClassification.
Inductive t : Set :=
  | SAFE_RETRY | REAUTHORIZE_THEN_RETRY | UNSAFE_UNKNOWN_OUTCOME | NON_RETRYABLE
  | HUMAN_DECISION_REQUIRED.
#[global] Instance eq_dec : EqDecision t.
Proof. solve_decision. Defined.
End RetryClassification.

(** [application/retry_policy.py:20-30 RetryDecision] *)
Module RetryDecision.
Record t : Set := mk { classification : RetryClassification.t; reason_code : string }.
End RetryDecision.

(** [application/retry_policy.py:33-93 classify_retry_semantics] *)
Definition classify_retry_semantics (attempt : ExecutionAttemptRecord.t) : RetryDecision.t :=
  let state := attempt.(ExecutionAttemptRecord.state) in
  let contact := attempt.(ExecutionAttemptRecord.target_contact_status) in
  let side_effect_level := attempt.(ExecutionAttemptRecord.side_effect_level) in
  let dispatched := negb (bool_decide (attempt.(ExecutionAttemptRecord.dispatch_started_at) = None)) in
  let in_state s := (state =? ExecutionAttemptState.value s)%string in
  if in_state ExecutionAttemptState.COMPLETED
  then RetryDecision.mk RetryClassification.NON_RETRYABLE "ATTEMPT_COMPLETED"
  else if in_state ExecutionAttemptState.DISPATCHING || in_state ExecutionAttemptState.UNKNOWN_OUTCOME
          || dispatched
  then RetryDecision.mk RetryClassification.UNSAFE_UNKNOWN_OUTCOME "EXTERNAL_OUTCOME_UNKNOWN"
  else if (contact =? "UNKNOWN")%string
  then RetryDecision.mk RetryClassification.HUMAN_DECISION_REQUIRED "TARGET_CONTACT_UNKNOWN"
  else if 0 <? side_effect_level
  then RetryDecision.mk RetryClassification.REAUTHORIZE_THEN_RETRY
         "SIDE_EFFECT_REQUIRES_REAUTHORIZATION"
  else if in_state ExecutionAttemptState.AUTHORIZED && (contact =? "NOT_CONTACTED")%string
  then RetryDecision.mk RetryClassification.SAFE_RETRY "AUTHORIZED_NOT_CONTACTED"
  else if (in_state ExecutionAttemptState.FAILED || in_state ExecutionAttemptState.TIMED_OUT
           || in_state ExecutionAttemptState.CANCELLED) && (contact =? "NOT_CONTACTED")%string
  then RetryDecision.mk RetryClassification.SAFE_RETRY "TERMINAL_NOT_CONTACTED"
  else RetryDecision.mk RetryClassification.HUMAN_DECISION_REQUIRED "RETRY_CONTEXT_INCOMPLETE".

(** [application/retry_policy.py:96-109 automatic_retry_allowed] *)
Definition automatic_retry_allowed (attempt_state : string) (side_effect_level : Z) : bool :=
  if mem attempt_state ["DISPATCHING"; "UNKNOWN_OUTCOME"] then false else false.

(** The attempt cannot have touched its target. *)
Definition untouched (a : ExecutionAttemptRecord.t) : Prop :=
  a.(ExecutionAttemptRecord.dispatch_started_at) = None
  /\ a.(ExecutionAttemptRecord.target_contact_status) = "NOT_CONTACTED"
  /\ a.(ExecutionAttemptRecord.side_effect_level) = 0
  /\ a.(ExecutionAttemptRecord.state) ∈ ["AUTHORIZED"; "FAILED"; "TIMED_OUT"; "CANCELLED"].

(** A persisted attempt is classified as safe to repeat exactly when it cannot have touched
    its target: never dispatched, explicitly not contacted, without side effects, and authorized
    or ended without an unknown outcome. *)
Theorem safe_retry_iff_untouched a a' :
  ExecutionAttemptRecord.post_init a = Ok a' ->
  (classify_retry_semantics a).(RetryDecision.classification) = RetryClassification.SAFE_RETRY
  <-> untouched a.
Proof.
  intros H. unfold ExecutionAttemptRecord.post_init in H.
  repeat (apply bind_ok in H as (? & _ & H)).
  apply raise_if_ok in H as [Hlevel H]. apply raise_if_ok in H as [Hstate H].
  apply raise_if_ok in H as [Hcontact _]. rewrite negb_false_iff, mem_true in Hlevel.
  rewrite negb_false_iff, mem_true in Hstate. rewrite negb_false_iff, mem_true in Hcontact.
  destruct a as [? ? ? ? ? ? ? ? ? level ? state ? ? dispatched ? contact]. cbn in *.
  unfold untouched, classify_retry_semantics. cbn.
  set_unfold in Hlevel. set_unfold in Hcontact. set_unfold in Hstate.
  destruct dispatched as [d|]; [rewrite bool_decide_false by done|rewrite bool_decide_true by done]; cbn;
    repeat match goal with
    | Hx : _ \/ _ |- _ => destruct Hx as [Hx|Hx]
    | Hx : False |- _ => destruct Hx
    end; subst; cbn; set_solver.
Qed.

Definition sample_attempt (state contact : string) (level : Z) (dispatched : option Z)
    : ExecutionAttemptRecord.t :=
  ExecutionAttemptRecord.mk "att-1" "req-1" "exp-1" "run-1" "cor-1" "diagnostic.echo" "echo"
    "https://a.example/" "b-1" level "dec-1" state 0 (Some 0) dispatched None contact.

Lemma safe_retry_iff_untouched_witness :
  (classify_retry_semantics (sample_attempt "FAILED" "NOT_CONTACTED" 0 None)).(RetryDecision.classification)
  = RetryClassification.SAFE_RETRY
  /\ ~ untouched (sample_attempt "FAILED" "NOT_CONTACTED" 0 (Some 1)).
Proof.
  split.
  - apply (safe_retry_iff_untouched _ (sample_attempt "FAILED" "NOT_CONTACTED" 0 None)); [reflexivity|].
    split; [done|]. split; [done|]. split; [done|]. right; left.
  - intros H. by apply (safe_retry_iff_untouched _ (sample_attempt "FAILED" "NOT_CONTACTED" 0 (Some 1))) in H.
Defined.

(** Nothing is retried without a decision. *)
Lemma never_automatic state level : automatic_retry_allowed state level = false.
Proof. unfold automatic_retry_allowed. by destruct (mem _ _). Qed.
