(* ===== verification/Coverage.v ===== *)
(** * Coverage debt: where the attack surface has not been hunted

    [research/coverage/types.py], [research/coverage/debt.py] and the summary of
    [application/coverage/debt_view.py].  The two dicts of [compute_coverage_debt] are lookups
    in the list of views; SHA-256 of the canonical JSON is a parameter. *)
From S2P Require Import Prelude PyVal PyText CoreTypes Graph.

(** [research/coverage/types.py:12-25 CoverageState] *)
Module CoverageState.
Inductive t : Set :=
  | NOT_APPLICABLE | UNTESTED | HYPOTHESIZED | V1_PASSED | V2_PASSED | V3_QUEUED | COVERED.
#[global] Instance eq_dec : EqDecision t.
Proof. solve_decision. Defined.
Definition value (x : t) : string :=
  match x with
  | NOT_APPLICABLE => "NOT_APPLICABLE" | UNTESTED => "UNTESTED" | HYPOTHESIZED => "HYPOTHESIZED"
  | V1_PASSED => "V1_PASSED" | V2_PASSED => "V2_PASSED" | V3_QUEUED => "V3_QUEUED"
  | COVERED => "COVERED"
  end.
End CoverageState.

(** [research/coverage/types.py:29-64 CoverageHypothesisView] *)
Module CoverageHypothesisView.
Record t : Set := mk {
  hypothesis_id : option string;
  family_id : string;
  node_canonical_key : string;
  identity_id : option string;
  highest_tier : string }.

Definition blank_when_set (v : option string) : bool :=
  match v with Some s => Str.is_blank s | None => false end.

Definition post_init (x : t) : result t :=
  raise_if blank_when_set x.(hypothesis_id) as ResearchInputError;;
  raise_if Str.is_blank x.(family_id) as ResearchInputError;;
  raise_if Str.is_blank x.(node_canonical_key) as ResearchInputError;;
  raise_if blank_when_set x.(identity_id) as ResearchInputError;;
  raise_if negb (mem x.(highest_tier) ["UNTESTED"; "V1"; "V2"; "V3_QUEUED"; "COVERED"])
  as ResearchInputError;;
  Ok x.

#[global] Instance post_init_validator : Validator post_init.
Proof. solve_validator. Qed.
End CoverageHypothesisView.

(** [research/coverage/types.py:68-87 CoverageCell] *)
Module CoverageCell.
Record t : Set := mk {
  node_canonical_key : string;
  identity_id : string;
  family_id : string;
  state : CoverageState.t;
  missing_evidence : list string }.

#[global] Instance eq_dec : EqDecision t.
Proof. solve_decision. Defined.

Definition post_init (x : t) : result t :=
  raise_if Str.is_blank x.(node_canonical_key) as ResearchInputError;;
  raise_if Str.is_blank x.(identity_id) as ResearchInputError;;
  raise_if Str.is_blank x.(family_id) as ResearchInputError;;
  Ok x.

#[global] Instance post_init_validator : Validator post_init.
Proof. solve_validator. Qed.
End CoverageCell.

(** [research/coverage/types.py:91-113 CoverageMatrix] *)
Module CoverageMatrix.
Record t : Set := mk {
  research_run_id : string;
  strategy_version : string;
  cells : list CoverageCell.t;
  cell_counts : list (string * Z);
  total_debt : Z;
  matrix_hash : string }.

Definition post_init (x : t) : result t :=
  raise_if Str.is_blank x.(research_run_id) as ResearchInputError;;
  raise_if Str.is_blank x.(strategy_version) as ResearchInputError;;
  raise_if x.(total_debt) <? 0 as ResearchInputError;;
  raise_if negb (String.length x.(matrix_hash) =? 64)%nat as ResearchInputError;;
  Ok x.

#[global] Instance post_init_validator : Validator post_init.
Proof. solve_validator. Qed.
End CoverageMatrix.

(** [research/coverage/debt.py:23 ANONYMOUS_IDENTITY] *)
Definition ANONYMOUS_IDENTITY : string := "ANONYMOUS".

(** [research/coverage/debt.py:26-33 _tier_to_state] *)
Definition tier_to_state (tier : string) : CoverageState.t :=
  if (tier =? "V1")%string then CoverageState.V1_PASSED
  else if (tier =? "V2")%string then CoverageState.V2_PASSED
  else if (tier =? "V3_QUEUED")%string then CoverageState.V3_QUEUED
  else if (tier =? "COVERED")%string then CoverageState.COVERED
  else CoverageState.UNTESTED.

(** [research/coverage/debt.py:190-197 _tier_rank] *)
Definition tier_rank (tier : string) : Z :=
  if (tier =? "V1")%string then 1
  else if (tier =? "V2")%string then 2
  else if (tier =? "V3_QUEUED")%string then 3
  else if (tier =? "COVERED")%string then 4
  else 0.

(** [research/coverage/debt.py:36-53 _missing_evidence_for_state] *)
Definition missing_evidence_for_state (state : CoverageState.t) (family : HunterFamilyView.t)
    : list string :=
  let of_family := "family:" +:+ family.(HunterFamilyView.family_id) in
  match state with
  | CoverageState.COVERED | CoverageState.NOT_APPLICABLE => []
  | CoverageState.UNTESTED => ["NO_HYPOTHESIS"]
  | CoverageState.HYPOTHESIZED => ["HYPOTHESIS_NOT_VALIDATED"]
  | CoverageState.V1_PASSED => ["V2_EVIDENCE_MISSING"; of_family]
  | CoverageState.V2_PASSED => ["V3_APPROVAL_MISSING"; of_family]
  | CoverageState.V3_QUEUED => ["ACTIVE_EXPERIMENT_PENDING"; of_family]
  end.

(** [research/coverage/debt.py:56-59 _identity_ids_for_node] *)
Definition identity_ids_for_node (node : AttackSurfaceNode.t) : list string :=
  match node.(AttackSurfaceNode.identity_ids) with
  | [] => [ANONYMOUS_IDENTITY]
  | ids => ids
  end.

(** [research/coverage/debt.py:62-67 _cell_key] *)
Definition cell_key (cell : CoverageCell.t) : string * (string * string) :=
  (cell.(CoverageCell.node_canonical_key),
   (cell.(CoverageCell.identity_id), cell.(CoverageCell.family_id))).

(** The dict [specific] after the loop: the last view bound to the cell.
    [research/coverage/debt.py:94-104 compute_coverage_debt] *)
Definition specific (views : list CoverageHypothesisView.t) (node family identity : string)
    : option CoverageHypothesisView.t :=
  List.find (fun v =>
      (v.(CoverageHypothesisView.node_canonical_key) =? node)%string
      && (v.(CoverageHypothesisView.family_id) =? family)%string
      && bool_decide (v.(CoverageHypothesisView.identity_id) = Some identity)) (rev views).

(** The dict [agnostic] after the loop: of the views without identity the first one of the
    highest tier.
    [research/coverage/debt.py:94-104 compute_coverage_debt] *)
Definition agnostic (views : list CoverageHypothesisView.t) (node family : string)
    : option CoverageHypothesisView.t :=
  foldl (fun existing v =>
      if (v.(CoverageHypothesisView.node_canonical_key) =? node)%string
         && (v.(CoverageHypothesisView.family_id) =? family)%string
         && bool_decide (v.(CoverageHypothesisView.identity_id) = None)
      then match existing with
           | None => Some v
           | Some e =>
               if tier_rank e.(CoverageHypothesisView.highest_tier)
                  <? tier_rank v.(CoverageHypothesisView.highest_tier) then Some v else existing
           end
      else existing) None views.

(** [research/coverage/debt.py:128-137 compute_coverage_debt] *)
Definition cell_state (views : list CoverageHypothesisView.t) (node family identity : string)
    : CoverageState.t :=
  let view :=
    match specific views node family identity with
    | Some v => Some v
    | None => agnostic views node family
    end in
  match view with
  | None => CoverageState.UNTESTED
  | Some v =>
      let state := tier_to_state v.(CoverageHypothesisView.highest_tier) in
      if bool_decide (state = CoverageState.UNTESTED)
         && negb (bool_decide (v.(CoverageHypothesisView.hypothesis_id) = None))
      then CoverageState.HYPOTHESIZED else state
  end.

(** [research/coverage/debt.py:154-161 compute_coverage_debt] *)
Definition is_debt (s : CoverageState.t) : bool :=
  mem s [ CoverageState.UNTESTED; CoverageState.HYPOTHESIZED; CoverageState.V1_PASSED;
          CoverageState.V2_PASSED; CoverageState.V3_QUEUED ].

(** [Counter] over the list, as [dict(sorted(counts.items()))]. *)
Definition counter (l : list string) : list (string * Z) :=
  (fun k => (k, Z.of_nat (count_occ string_dec l k))) <$> sort_by id (dedupe l).

Section coverage.
Context `{FloatRepr} (sha256_json : pyval -> string).

Definition is_in_scope (node : AttackSurfaceNode.t) : bool :=
  bool_decide (node.(AttackSurfaceNode.scope_classification) = ScopeClassification.IN_SCOPE).

(** The cells of one node, in the order they are appended.
    [research/coverage/debt.py:107-146 compute_coverage_debt] *)
Definition node_cells (graph : AttackSurfaceGraph.t) (registry : list HunterFamilyView.t)
    (views : list CoverageHypothesisView.t) (node : AttackSurfaceNode.t) : list CoverageCell.t :=
  let key := node.(AttackSurfaceNode.canonical_key) in
  if negb (is_in_scope node)
  then (fun family => CoverageCell.mk key ANONYMOUS_IDENTITY family.(HunterFamilyView.family_id)
                        CoverageState.NOT_APPLICABLE [])
         <$> kind_matched_families node registry
  else families_for_node node graph registry ≫= fun family =>
         (fun identity =>
            let state := cell_state views key family.(HunterFamilyView.family_id) identity in
            CoverageCell.mk key identity family.(HunterFamilyView.family_id) state
              (missing_evidence_for_state state family))
         <$> identity_ids_for_node node.

(** [research/coverage/debt.py:163-176 compute_coverage_debt] *)
Definition matrix_payload (graph : AttackSurfaceGraph.t) (cells : list CoverageCell.t) : pyval :=
  PDict [ ("research_run_id", PStr graph.(AttackSurfaceGraph.research_run_id));
          ("strategy_version", PStr graph.(AttackSurfaceGraph.strategy_version));
          ("cells", PList ((fun cell =>
             PDict [ ("node_canonical_key", PStr cell.(CoverageCell.node_canonical_key));
                     ("identity_id", PStr cell.(CoverageCell.identity_id));
                     ("family_id", PStr cell.(CoverageCell.family_id));
                     ("state", PStr (CoverageState.value cell.(CoverageCell.state)));
                     ("missing_evidence", PList (PStr <$> cell.(CoverageCell.missing_evidence))) ])
             <$> cells)) ].

(** [research/coverage/debt.py:70-187 compute_coverage_debt] *)
Definition compute_coverage_debt (graph : AttackSurfaceGraph.t)
    (registry : list HunterFamilyView.t) (hypotheses_view : list CoverageHypothesisView.t)
    : result CoverageMatrix.t :=
  cells ← traverse CoverageCell.post_init
            (graph.(AttackSurfaceGraph.nodes) ≫= node_cells graph registry hypotheses_view);
  let sorted_cells := sort_by cell_key cells in
  let debt := Z.of_nat (length (List.filter (fun c => is_debt c.(CoverageCell.state)) sorted_cells)) in
  CoverageMatrix.post_init (CoverageMatrix.mk graph.(AttackSurfaceGraph.research_run_id)
    graph.(AttackSurfaceGraph.strategy_version) sorted_cells
    (counter ((fun c => CoverageState.value c.(CoverageCell.state)) <$> sorted_cells)) debt
    (sha256_json (matrix_payload graph sorted_cells))).
End coverage.

(** ** The state of a cell *)

(** The view is about the cell and binds the identity [i]. *)
Definition view_of (node family : string) (i : option string) (v : CoverageHypothesisView.t) : Prop :=
  v.(CoverageHypothesisView.node_canonical_key) = node
  /\ v.(CoverageHypothesisView.family_id) = family
  /\ v.(CoverageHypothesisView.identity_id) = i.

Lemma specific_Some views node family identity v :
  specific views node family identity = Some v ->
  v ∈ views /\ view_of node family (Some identity) v.
Proof.
  unfold specific, view_of. intros [Hv Hk]%find_Some_elem.
  rewrite list_elem_of_In, <-in_rev, <-list_elem_of_In in Hv. bool_prop. tauto.
Qed.

Lemma specific_None views node family identity :
  specific views node family identity = None
  <-> forall v, v ∈ views -> ~ view_of node family (Some identity) v.
Proof.
  unfold specific, view_of. rewrite find_None_iff.
  setoid_rewrite list_elem_of_In. setoid_rewrite <-in_rev. setoid_rewrite <-list_elem_of_In.
  split; intros H v Hv.
  - specialize (H v Hv). bool_prop. tauto.
  - specialize (H v Hv). apply not_true_iff_false. bool_prop. tauto.
Qed.

(** The best of the views without identity: one of them, and none has a higher tier. *)
Lemma agnostic_spec views node family :
  match agnostic views node family with
  | Some v => v ∈ views /\ view_of node family None v
      /\ forall w, w ∈ views -> view_of node family None w ->
           tier_rank w.(CoverageHypothesisView.highest_tier)
           <= tier_rank v.(CoverageHypothesisView.highest_tier)
  | None => forall w, w ∈ views -> ~ view_of node family None w
  end.
Proof.
  induction views as [|x views IH] using rev_ind; [by intros w ?%elem_of_nil|].
  unfold agnostic in *. rewrite foldl_app. cbn [foldl].
  set (best := foldl _ None views) in *.
  assert (forall w, w ∈ views ++ [x] <-> w ∈ views \/ w = x) as Hin.
  { intros w. by rewrite elem_of_app, list_elem_of_singleton. }
  destruct (_ && _) eqn:E.
  - assert (view_of node family None x) as Hx by (unfold view_of; bool_prop; tauto).
    destruct best as [b|]; [destruct (_ <? _) eqn:L|]; bool_prop.
    + destruct IH as (Hb & Hvb & Hall). split; [apply Hin; by right|]. split; [done|].
      intros w [Hw| ->]%Hin Hvw; [|lia]. specialize (Hall w Hw Hvw). lia.
    + destruct IH as (Hb & Hvb & Hall). split; [apply Hin; by left|]. split; [done|].
      intros w [Hw| ->]%Hin Hvw; [by apply Hall|done].
    + split; [apply Hin; by right|]. split; [done|].
      intros w [Hw| ->]%Hin Hvw; [by destruct (IH w)|lia].
  - assert (~ view_of node family None x) as Hx.
    { unfold view_of. intros (E1 & E2 & E3). apply not_true_iff_false in E. apply E. bool_prop. tauto. }
    destruct best as [b|].
    + destruct IH as (Hb & Hvb & Hall). split; [apply Hin; by left|]. split; [done|].
      intros w [Hw| ->]%Hin Hvw; [by apply Hall|done].
    + intros w [Hw| ->]%Hin; [by apply IH|done].
Qed.

(** What the state of a cell says of the views. *)
Definition shows (v : CoverageHypothesisView.t) : CoverageState.t :=
  let state := tier_to_state v.(CoverageHypothesisView.highest_tier) in
  if bool_decide (state = CoverageState.UNTESTED)
     && negb (bool_decide (v.(CoverageHypothesisView.hypothesis_id) = None))
  then CoverageState.HYPOTHESIZED else state.

Lemma cell_state_cases views node family identity :
  (exists v, v ∈ views /\ view_of node family (Some identity) v
     /\ cell_state views node family identity = shows v)
  \/ (forall v, v ∈ views -> ~ view_of node family (Some identity) v)
     /\ ((exists v, v ∈ views /\ view_of node family None v
            /\ cell_state views node family identity = shows v
            /\ forall w, w ∈ views -> view_of node family None w ->
                 tier_rank w.(CoverageHypothesisView.highest_tier)
                 <= tier_rank v.(CoverageHypothesisView.highest_tier))
         \/ (forall v, v ∈ views -> ~ view_of node family None v)
            /\ cell_state views node family identity = CoverageState.UNTESTED).
Proof.
  unfold cell_state. destruct (specific views node family identity) as [v|] eqn:E.
  - left. apply specific_Some in E as [Hv Hvv]. by exists v.
  - right. split; [by apply specific_None|]. pose proof (agnostic_spec views node family) as Ha.
    destruct (agnostic views node family) as [v|]; [left|by right].
    destruct Ha as (Hv & Hvv & Hall). by exists v.
Qed.

(** Coverage is never invented: a cell that is shown as hypothesized, validated, queued or
    covered is so because of a hypothesis view of that very node and family, bound to the cell's
    identity or to none; and without a view bound to its identity it shows at least the tier of
    every view that is bound to none. *)
Theorem coverage_is_witnessed views node family identity :
  let state := cell_state views node family identity in
  (state ≠ CoverageState.UNTESTED ->
   exists v, v ∈ views
     /\ (view_of node family (Some identity) v \/ view_of node family None v)
     /\ state = shows v)
  /\ ((forall v, v ∈ views -> ~ view_of node family (Some identity) v) ->
      forall w, w ∈ views -> view_of node family None w ->
      exists v, v ∈ views /\ view_of node family None v /\ state = shows v
        /\ tier_rank w.(CoverageHypothesisView.highest_tier)
           <= tier_rank v.(CoverageHypothesisView.highest_tier)).
Proof.
  cbn zeta. destruct (cell_state_cases views node family identity)
    as [(v & Hv & Hvv & ->)|[Hno [(v & Hv & Hvv & -> & Hall)|[Hna ->]]]].
  - split; [intros _; exists v; auto|]. intros H. by destruct (H v Hv).
  - split; [intros _; exists v; auto|]. intros _ w Hw Hvw. exists v. auto.
  - split; [done|]. intros _ w Hw Hvw. by destruct (Hna w Hw).
Qed.

(** ** The matrix *)

Lemma traverse_cells l :
  traverse CoverageCell.post_init l
  = if forallb (fun c => is_ok (CoverageCell.post_init c)) l then Ok l else Raise ResearchInputError.
Proof.
  induction l as [|c l IH]; cbn; [done|]. rewrite IH. clear IH.
  destruct (CoverageCell.post_init c) as [c'|e] eqn:E; cbn.
  - apply validated in E as ->. by destruct (forallb _ l).
  - unfold CoverageCell.post_init in E. repeat case_match; by simplify_eq.
Qed.

Lemma counter_total l : foldr (fun p n => p.2 + n) 0 (counter l) = Z.of_nat (length l).
Proof.
  unfold counter.
  assert (forall ks, NoDup ks -> (forall x, x ∈ l -> x ∈ ks) ->
    foldr (fun p n => p.2 + n) 0 ((fun k => (k, Z.of_nat (count_occ string_dec l k))) <$> ks)
    = Z.of_nat (length l)) as H.
  2: { apply H; [rewrite sort_by_perm; apply NoDup_dedupe|]. intros x. by rewrite elem_of_sort_by, elem_of_dedupe. }
  intros ks Hnd. induction l as [|x l IH]; cbn [count_occ length]; intros Hin.
  { clear. by induction ks as [|k ks IH]; cbn in *; [|rewrite IH]. }
  specialize (IH (fun y Hy => Hin y (list_elem_of_further _ _ _ Hy))).
  assert (x ∈ ks) as Hx by (apply Hin; left). clear Hin.
  assert (forall ks', NoDup ks' ->
    foldr (fun p n => p.2 + n) 0
      ((fun k => (k, Z.of_nat (if string_dec x k then S (count_occ string_dec l k) else count_occ string_dec l k))) <$> ks')
    = foldr (fun p n => p.2 + n) 0 ((fun k => (k, Z.of_nat (count_occ string_dec l k))) <$> ks')
      + (if mem x ks' then 1 else 0)) as Hs.
  { clear. induction ks' as [|k ks' IH]; cbn; intros Hnd; [done|]. apply NoDup_cons in Hnd as [Hk Hnd].
    rewrite (IH Hnd). unfold mem. destruct (string_dec x k) as [->|Hne].
    - rewrite bool_decide_false by done. rewrite bool_decide_true by left. lia.
    - destruct (bool_decide (x ∈ ks')) eqn:E; bool_prop.
      + rewrite bool_decide_true by (by right). lia.
      + rewrite bool_decide_false by (by rewrite not_elem_of_cons). lia. }
  rewrite (Hs ks Hnd), IH. unfold mem. rewrite bool_decide_true by done. lia.
Qed.

Section matrix.
Context `{FloatRepr} (sha256_json : pyval -> string).

Lemma compute_ok graph registry views m :
  compute_coverage_debt sha256_json graph registry views = Ok m ->
  let cells := sort_by cell_key (graph.(AttackSurfaceGraph.nodes) ≫= node_cells graph registry views) in
  m.(CoverageMatrix.cells) = cells
  /\ m.(CoverageMatrix.cell_counts) = counter ((fun c => CoverageState.value c.(CoverageCell.state)) <$> cells)
  /\ m.(CoverageMatrix.total_debt)
     = Z.of_nat (length (List.filter (fun c => is_debt c.(CoverageCell.state)) cells)).
Proof.
  unfold compute_coverage_debt. rewrite traverse_cells. destruct (forallb _ _); [|done]. cbn.
  intros ->%validated. done.
Qed.

(** Who the cells of a node are about. *)
Lemma node_cells_in graph registry views node c :
  c ∈ node_cells graph registry views node
  <-> exists family, family ∈ registry
      /\ c.(CoverageCell.node_canonical_key) = node.(AttackSurfaceNode.canonical_key)
      /\ c.(CoverageCell.family_id) = family.(HunterFamilyView.family_id)
      /\ c.(CoverageCell.missing_evidence)
         = missing_evidence_for_state c.(CoverageCell.state) family
      /\ if is_in_scope node
         then family_applies node graph family = true
              /\ c.(CoverageCell.identity_id) ∈ identity_ids_for_node node
              /\ c.(CoverageCell.state)
                 = cell_state views node.(AttackSurfaceNode.canonical_key)
                     family.(HunterFamilyView.family_id) c.(CoverageCell.identity_id)
         else family ∈ kind_matched_families node registry
              /\ c.(CoverageCell.identity_id) = ANONYMOUS_IDENTITY
              /\ c.(CoverageCell.state) = CoverageState.NOT_APPLICABLE.
Proof.
  unfold node_cells. destruct (is_in_scope node) eqn:Es; cbn [negb].
  - rewrite list_elem_of_bind. unfold families_for_node. split.
    + intros (f & (i & -> & Hi)%list_elem_of_fmap & [Hf Ha]%elem_of_list_filter_bool).
      exists f. cbn. done.
    + intros (f & Hf & E1 & E2 & E3 & Ha & Hi & E4). exists f.
      rewrite elem_of_list_filter_bool. split; [|done]. apply list_elem_of_fmap.
      exists c.(CoverageCell.identity_id). split; [|done].
      destruct c; cbn in *; subst; done.
  - rewrite list_elem_of_fmap. split.
    + intros (f & -> & Hf). exists f. cbn. split; [|done].
      by apply elem_of_list_filter_bool in Hf as [? _].
    + intros (f & Hf & E1 & E2 & E3 & Hk & E4 & E5). exists f. split; [|done].
      destruct c; cbn in *; subst; done.
Qed.

(** What coverage debt counts.  The cells are sorted and are those of the nodes: one for
    every applicable family and identity of a node in scope, one not-applicable cell for every
    kind-matched family of any other node.  The debt is the number of cells that are neither
    covered nor not applicable, the counts add up to the number of cells, and debt never arises
    outside the scope. *)
Theorem coverage_debt_exact graph registry views m :
  compute_coverage_debt sha256_json graph registry views = Ok m ->
  StronglySorted (key_le cell_key) m.(CoverageMatrix.cells)
  /\ (forall c, c ∈ m.(CoverageMatrix.cells)
        <-> exists node, node ∈ graph.(AttackSurfaceGraph.nodes)
              /\ c ∈ node_cells graph registry views node)
  /\ m.(CoverageMatrix.total_debt)
     = Z.of_nat (length (List.filter (fun c =>
         negb (bool_decide (c.(CoverageCell.state) = CoverageState.COVERED))
         && negb (bool_decide (c.(CoverageCell.state) = CoverageState.NOT_APPLICABLE)))
         m.(CoverageMatrix.cells)))
  /\ foldr (fun p n => p.2 + n) 0 m.(CoverageMatrix.cell_counts)
     = Z.of_nat (length m.(CoverageMatrix.cells))
  /\ (forall c, c ∈ m.(CoverageMatrix.cells) -> c.(CoverageCell.state) ≠ CoverageState.NOT_APPLICABLE ->
       exists node family, node ∈ graph.(AttackSurfaceGraph.nodes) /\ family ∈ registry
         /\ node.(AttackSurfaceNode.canonical_key) = c.(CoverageCell.node_canonical_key)
         /\ node.(AttackSurfaceNode.scope_classification) = ScopeClassification.IN_SCOPE
         /\ family_applies node graph family = true).
Proof.
  intros (Ec & Ek & Ed)%compute_ok.
  assert (forall c, c ∈ m.(CoverageMatrix.cells)
        <-> exists node, node ∈ graph.(AttackSurfaceGraph.nodes)
              /\ c ∈ node_cells graph registry views node) as Hin.
  { intros c. rewrite Ec, elem_of_sort_by, list_elem_of_bind. naive_solver. }
  split; [rewrite Ec; apply sort_by_sorted|]. split; [done|]. split.
  { rewrite Ed, <-Ec. f_equal. f_equal. apply filter_ext. intros c.
    unfold is_debt, mem. by destruct (CoverageCell.state c). }
  split; [rewrite Ek, <-Ec, counter_total, length_fmap; done|].
  intros c Hc Hna. apply Hin in Hc as (node & Hn & (f & Hf & E1 & E2 & _ & Hx)%node_cells_in).
  destruct (is_in_scope node) eqn:Es; [|by destruct Hx as (_ & _ & ?)].
  destruct Hx as [Ha _]. exists node, f. unfold is_in_scope in Es. by apply bool_decide_eq_true in Es.
Qed.

(** ** What the order of the inputs does *)

Lemma family_applies_edges node graph graph' family :
  graph.(AttackSurfaceGraph.edges) ≡ₚ graph'.(AttackSurfaceGraph.edges) ->
  family_applies node graph family = family_applies node graph' family.
Proof.
  intros He. assert (forall v, node_has_edge_kind node graph v = node_has_edge_kind node graph' v) as Hv.
  { intros v. by apply existsb_perm. }
  unfold family_applies, unmet. do 3 (case_match; [done|]).
  destruct (dict_get "absent_edge_kind" _), (dict_get "required_edge_kind" _); by rewrite ?Hv.
Qed.

Definition view_key (v : CoverageHypothesisView.t) : string * string * option string :=
  (v.(CoverageHypothesisView.node_canonical_key), v.(CoverageHypothesisView.family_id),
   v.(CoverageHypothesisView.identity_id)).

Lemma view_of_unique views node family i v w :
  inj_on view_key views ->
  v ∈ views -> w ∈ views -> view_of node family i v -> view_of node family i w -> v = w.
Proof.
  intros Hinj Hv Hw (? & ? & ?) (? & ? & ?). apply Hinj; [done|done|]. unfold view_key. congruence.
Qed.

Lemma cell_state_perm views views' node family identity :
  inj_on view_key views ->
  views ≡ₚ views' -> cell_state views node family identity = cell_state views' node family identity.
Proof.
  intros Hinj Hp. assert (forall v, v ∈ views' <-> v ∈ views) as Hin by (intros v; by rewrite Hp).
  pose proof (cell_state_cases views node family identity) as H1.
  pose proof (cell_state_cases views' node family identity) as H2. setoid_rewrite Hin in H2.
  destruct H1 as [(v & Hv & Hvv & ->)|[Hno [(v & Hv & Hvv & -> & _)|[Hna ->]]]],
    H2 as [(w & Hw & Hvw & ->)|[Hno' [(w & Hw & Hvw & -> & _)|[Hna' ->]]]];
    try done; try (exfalso; by firstorder).
  - by rewrite (view_of_unique _ _ _ _ _ _ Hinj Hv Hw Hvv Hvw).
  - by rewrite (view_of_unique _ _ _ _ _ _ Hinj Hv Hw Hvv Hvw).
Qed.

Lemma node_cells_perm graph graph' registry registry' views views' node :
  graph.(AttackSurfaceGraph.edges) ≡ₚ graph'.(AttackSurfaceGraph.edges) ->
  registry ≡ₚ registry' -> views ≡ₚ views' -> inj_on view_key views ->
  node_cells graph registry views node ≡ₚ node_cells graph' registry' views' node.
Proof.
  intros He Hr Hv Hi. unfold node_cells. destruct (negb (is_in_scope node)).
  - unfold kind_matched_families. by rewrite (filter_bool_perm _ _ _ _ (fun x => eq_refl) Hr).
  - apply bind_perm_ext.
    + unfold families_for_node. apply filter_bool_perm; [|done]. intros f. by apply family_applies_edges.
    + intros f. erewrite list_fmap_ext; [done|]. intros k i _. cbn.
      by rewrite (cell_state_perm _ _ _ _ _ Hi Hv).
Qed.

Lemma cell_key_inj graph registry views :
  inj_on AttackSurfaceNode.canonical_key graph.(AttackSurfaceGraph.nodes) ->
  inj_on HunterFamilyView.family_id registry ->
  inj_on cell_key (graph.(AttackSurfaceGraph.nodes) ≫= node_cells graph registry views).
Proof.
  intros Hn Hf c d Hc Hd [= E1 E2 E3].
  apply list_elem_of_bind in Hc as (n & (f & Hfr & A1 & A2 & A3 & A4)%node_cells_in & Hnn).
  apply list_elem_of_bind in Hd as (n' & (f' & Hfr' & B1 & B2 & B3 & B4)%node_cells_in & Hnn').
  assert (n = n') as <- by (apply Hn; congruence). assert (f = f') as <- by (apply Hf; congruence).
  assert (c.(CoverageCell.state) = d.(CoverageCell.state)) as Es.
  { destruct (is_in_scope n); [destruct A4 as (_ & _ & ->), B4 as (_ & _ & ->); by rewrite E2|].
    by destruct A4 as (_ & _ & ->), B4 as (_ & _ & ->). }
  destruct c, d; cbn in *. subst. done.
Qed.

(** The matrix, its hash and its errors are a function of what is known, not of the order
    in which it is listed: with nodes, families and views told apart by their keys, rearranging
    the nodes, the edges, the registry or the views changes nothing. *)
Theorem coverage_order_irrelevant graph graph' registry registry' views views' :
  graph'.(AttackSurfaceGraph.research_run_id) = graph.(AttackSurfaceGraph.research_run_id) ->
  graph'.(AttackSurfaceGraph.strategy_version) = graph.(AttackSurfaceGraph.strategy_version) ->
  graph.(AttackSurfaceGraph.nodes) ≡ₚ graph'.(AttackSurfaceGraph.nodes) ->
  graph.(AttackSurfaceGraph.edges) ≡ₚ graph'.(AttackSurfaceGraph.edges) ->
  registry ≡ₚ registry' -> views ≡ₚ views' ->
  inj_on AttackSurfaceNode.canonical_key graph.(AttackSurfaceGraph.nodes) ->
  inj_on HunterFamilyView.family_id registry -> inj_on view_key views ->
  compute_coverage_debt sha256_json graph registry views
  = compute_coverage_debt sha256_json graph' registry' views'.
Proof.
  intros Er Es Hn He Hr Hv In If Iv. unfold compute_coverage_debt. rewrite !traverse_cells.
  assert (graph.(AttackSurfaceGraph.nodes) ≫= node_cells graph registry views
          ≡ₚ graph'.(AttackSurfaceGraph.nodes) ≫= node_cells graph' registry' views') as Hp.
  { apply bind_perm_ext; [done|]. intros node. by apply node_cells_perm. }
  rewrite <-(forallb_perm _ _ _ Hp). destruct (forallb _ _); [|done]. cbn.
  rewrite <-(sort_by_perm_eq cell_key _ _ (cell_key_inj _ _ _ In If) Hp).
  unfold matrix_payload. by rewrite Er, Es.
Qed.
End matrix.

(** ** The summary: [application/coverage/debt_view.py] *)

(** [application/coverage/debt_view.py:20-30 CoverageDebtSummary] *)
Module CoverageDebtSummary.
Record t : Type := mk {
  research_run_id : string;
  strategy_version : string;
  matrix_hash : string;
  total_debt : Z;
  cell_counts : list (string * Z);
  family_debt : list (string * Z);
  top_nodes : list (string * Z);
  snapshot_id : option string }.
End CoverageDebtSummary.

(** [d[k] = d.get(k, 0) + 1] on an item list. *)
Fixpoint bump (k : string) (d : list (string * Z)) : list (string * Z) :=
  match d with
  | [] => [(k, 1)]
  | (k', n) :: d' => if (k' =? k)%string then (k', n + 1) :: d' else (k', n) :: bump k d'
  end.

(** [sorted(..., reverse=True)] keeps the order of equal counts.
    [application/coverage/debt_view.py:121-155 _to_summary] *)
Definition to_summary (matrix : CoverageMatrix.t) (snapshot_id : option string)
    : CoverageDebtSummary.t :=
  let debt_cells :=
    List.filter (fun c => is_debt c.(CoverageCell.state)) matrix.(CoverageMatrix.cells) in
  let family_debt := foldl (fun d c => bump c.(CoverageCell.family_id) d) [] debt_cells in
  let node_debt := foldl (fun d c => bump c.(CoverageCell.node_canonical_key) d) [] debt_cells in
  let top_nodes := firstn 10 (sort_by (fun p : string * Z => - p.2) node_debt) in
  CoverageDebtSummary.mk matrix.(CoverageMatrix.research_run_id)
    matrix.(CoverageMatrix.strategy_version) matrix.(CoverageMatrix.matrix_hash)
    matrix.(CoverageMatrix.total_debt) matrix.(CoverageMatrix.cell_counts) family_debt top_nodes
    snapshot_id.

Definition total (d : list (string * Z)) : Z := foldr (fun p n => p.2 + n) 0 d.

Lemma bump_total k d : total (bump k d) = total d + 1.
Proof.
  induction d as [|[k' n] d IH]; cbn; [done|]. destruct (_ =? _)%string; cbn; [lia|].
  unfold total in IH. rewrite IH. unfold total. lia.
Qed.

Lemma bumps_total {A} (f : A -> string) l d :
  total (foldl (fun d c => bump (f c) d) d l) = total d + Z.of_nat (length l).
Proof.
  revert d. induction l as [|x l IH]; intros d; cbn [foldl length]; [lia|].
  rewrite IH, bump_total. lia.
Qed.

(** The families share out the debt. *)
Lemma family_debt_total `{FloatRepr} sha graph registry views m id :
  compute_coverage_debt sha graph registry views = Ok m ->
  total (to_summary m id).(CoverageDebtSummary.family_debt) = m.(CoverageMatrix.total_debt).
Proof.
  intros (Ec & _ & Ed)%compute_ok. unfold to_summary. cbn [CoverageDebtSummary.family_debt].
  rewrite bumps_total, Ed, Ec. done.
Qed.

(** ** On concrete inputs *)

Definition sample_node (key : string) (ids : list string) (scope : ScopeClassification.t)
    : AttackSurfaceNode.t :=
  AttackSurfaceNode.mk key AttackSurfaceNodeKind.HOSTNAME key TargetEpistemicStatus.OBSERVED ids []
    scope (Some [("tech", PList [PStr "php"; PInt 7])]).

Definition sample_family (id : string) (preconditions : list (string * pyval)) : HunterFamilyView.t :=
  HunterFamilyView.mk id "UNPROTECTED_HOSTNAME" ["HOSTNAME"] preconditions "{canonical_key} has no certificate" [] "V3"
    true 1.

Definition sample_families : list HunterFamilyView.t :=
  [ sample_family "f-1" [("absent_edge_kind", PStr "SECURED_BY")];
    sample_family "f-2" [("required_attribute_any", PDict [("tech", PList [PStr "7"])])] ].

Definition sample_surface : AttackSurfaceGraph.t :=
  AttackSurfaceGraph.mk "run-1" "v1"
    [ sample_node "h-a" ["alice"; "bob"] ScopeClassification.IN_SCOPE;
      sample_node "h-b" [] ScopeClassification.OUT_OF_SCOPE ]
    [ AttackSurfaceEdge.mk "h-b:securedby:c" AttackSurfaceEdgeKind.SECURED_BY "h-b" "c" None []
        TargetEpistemicStatus.OBSERVED ].

Definition sample_view (hypothesis : string) (identity : option string) (tier : string)
    : CoverageHypothesisView.t :=
  CoverageHypothesisView.mk (Some hypothesis) "f-1" "h-a" identity tier.

Definition sample_digest (_ : pyval) : string :=
  "0123456789012345678901234567890123456789012345678901234567890123".

Definition sample_matrix : CoverageMatrix.t :=
  CoverageMatrix.mk "run-1" "v1"
    [ CoverageCell.mk "h-a" "alice" "f-1" CoverageState.HYPOTHESIZED ["HYPOTHESIS_NOT_VALIDATED"];
      CoverageCell.mk "h-a" "alice" "f-2" CoverageState.UNTESTED ["NO_HYPOTHESIS"];
      CoverageCell.mk "h-a" "bob" "f-1" CoverageState.COVERED [];
      CoverageCell.mk "h-a" "bob" "f-2" CoverageState.UNTESTED ["NO_HYPOTHESIS"];
      CoverageCell.mk "h-b" "ANONYMOUS" "f-1" CoverageState.NOT_APPLICABLE [];
      CoverageCell.mk "h-b" "ANONYMOUS" "f-2" CoverageState.NOT_APPLICABLE [] ]
    [("COVERED", 1); ("HYPOTHESIZED", 1); ("NOT_APPLICABLE", 2); ("UNTESTED", 2)] 3
    (sample_digest PNone).

(** Alice's untested hypothesis hides the covered one that is bound to nobody. *)
Definition sample_views : list CoverageHypothesisView.t :=
  [sample_view "hyp-1" None "COVERED"; sample_view "hyp-2" (Some "alice") "UNTESTED"].

Example sample_debt :
  @compute_coverage_debt no_floats sample_digest sample_surface sample_families sample_views
  = Ok sample_matrix.
Proof. vm_compute. reflexivity. Qed.

(** Of several views bound to one identity the last counts, not the highest tier. *)
Example specific_last_wins :
  cell_state [sample_view "hyp-1" (Some "alice") "V3_QUEUED"; sample_view "hyp-2" (Some "alice") "UNTESTED"]
    "h-a" "f-1" "alice" = CoverageState.HYPOTHESIZED
  /\ cell_state [sample_view "hyp-1" None "V3_QUEUED"; sample_view "hyp-2" None "UNTESTED"]
       "h-a" "f-1" "alice" = CoverageState.V3_QUEUED.
Proof. done. Qed.

Lemma coverage_is_witnessed_witness :
  exists v, v ∈ sample_views /\ shows v = CoverageState.COVERED.
Proof.
  destruct (coverage_is_witnessed sample_views "h-a" "f-1" "bob") as [H _].
  destruct H as (v & Hv & _ & E); [discriminate|]. exists v. split; [exact Hv|]. symmetry. exact E.
Defined.

Lemma coverage_debt_exact_witness :
  sample_matrix.(CoverageMatrix.total_debt) = 3
  /\ StronglySorted (key_le cell_key) sample_matrix.(CoverageMatrix.cells).
Proof.
  destruct (@coverage_debt_exact no_floats sample_digest sample_surface sample_families sample_views sample_matrix)
    as (Hs & _ & Hd & _); [vm_compute; reflexivity|].
  split; [rewrite Hd; reflexivity|exact Hs].
Defined.

Lemma coverage_order_irrelevant_witness :
  @compute_coverage_debt no_floats sample_digest sample_surface (rev sample_families) (rev sample_views)
  = Ok sample_matrix.
Proof.
  transitivity (@compute_coverage_debt no_floats sample_digest sample_surface sample_families sample_views);
    [|vm_compute; reflexivity].
  symmetry. apply (@coverage_order_irrelevant no_floats sample_digest);
    [reflexivity|reflexivity|reflexivity|reflexivity|apply Permutation_rev|apply Permutation_rev| | |].
  all: intros x y Hx Hy; set_unfold in Hx; set_unfold in Hy;
    repeat match goal with
    | H : _ \/ _ |- _ => destruct H as [H|H]
    | H : False |- _ => destruct H
    end; subst; try reflexivity; discriminate.
Defined.
