(* ===== verification/CoverageFlow.v ===== *)
(** * Coverage from the ledger

    [application/coverage/]: the hypothesis views read from the audit events, the registry of
    families, the persisted snapshot; and [research/coverage/live.py], which compares two
    snapshots.  The tables are those of [HuntDb]. *)
From S2P Require Import Prelude PyVal PyText PyUrl CoreTypes SafeData Records FindingRecords HuntRecords Candidate Graph Discovery Surface Coverage.

(** The tables of the hunt. *)
Module HuntDb.
Record t : Type := mk {
  hypotheses : list HypothesisRecord.t;
  assessments : list HypothesisAssessmentRecord.t;
  audit_events : list AuditEventRecord.t;
  hunter_families : list HunterFamilyRecord.t;
  hunt_v3_queue : list HuntV3QueueRecord.t;
  snapshots : list CoverageDebtSnapshotRecord.t;
  sensor_observations : list SensorObservationRecord.t;
  approvals : list ApprovalRecord.t }.

Definition set_hypotheses (db : t) l : t :=
  mk l db.(assessments) db.(audit_events) db.(hunter_families) db.(hunt_v3_queue) db.(snapshots)
    db.(sensor_observations) db.(approvals).
Definition set_audit (db : t) l : t :=
  mk db.(hypotheses) db.(assessments) l db.(hunter_families) db.(hunt_v3_queue) db.(snapshots)
    db.(sensor_observations) db.(approvals).
Definition set_queue (db : t) l : t :=
  mk db.(hypotheses) db.(assessments) db.(audit_events) db.(hunter_families) l db.(snapshots)
    db.(sensor_observations) db.(approvals).
Definition set_snapshots (db : t) l : t :=
  mk db.(hypotheses) db.(assessments) db.(audit_events) db.(hunter_families) db.(hunt_v3_queue) l
    db.(sensor_observations) db.(approvals).
End HuntDb.

(** [data/postgres/repositories.py:2577-2591 PostgresAuditEventRepository.insert] *)
Definition record_audit (db : HuntDb.t) (e : AuditEventRecord.t) : result HuntDb.t :=
  e ← AuditEventRecord.post_init e;
  events ← append_audit db.(HuntDb.audit_events) e;
  Ok (HuntDb.set_audit db events).

(** [data/postgres/repositories.py:2603-2614 PostgresAuditEventRepository.list_for_subject_type] *)
Definition events_of_subject_type (db : HuntDb.t) (subject_type : string)
    : list AuditEventRecord.t :=
  sort_by AuditEventRecord.occurred_at
    (List.filter (fun e => (e.(AuditEventRecord.subject_type) =? subject_type)%string)
       db.(HuntDb.audit_events)).

(** [data/postgres/repositories.py:832-845 PostgresHypothesisRepository.list_for_research_run] *)
Definition hypotheses_of_run (db : HuntDb.t) (research_run_id : string)
    : list HypothesisRecord.t :=
  sort_by HypothesisRecord.hypothesis_id
    (List.filter (fun h => (h.(HypothesisRecord.research_run_id) =? research_run_id)%string)
       db.(HuntDb.hypotheses)).

(** ** Hypothesis views: [application/coverage/hypothesis_view.py] *)

(** [application/coverage/hypothesis_view.py:17-21 _TIER_PASS_EVENTS] *)
Definition TIER_PASS_EVENTS : list (string * string) :=
  [ ("HYPOTHESIS_TIER_V1_PASSED", "V1"); ("HYPOTHESIS_TIER_V2_PASSED", "V2");
    ("HYPOTHESIS_TIER_V3_QUEUED", "V3_QUEUED") ].

(** [payload.get("research_run_id") in {research_run_id, None}]: a list or a dict cannot be
    hashed. *)
Definition in_run_or_none (v : pyval) (research_run_id : string) : result bool :=
  match v with
  | PNone => Ok true
  | PStr s => Ok (s =? research_run_id)%string
  | PList _ | PDict _ => Raise TypeError
  | _ => Ok false
  end.

(** [application/coverage/hypothesis_view.py:51-57 build_coverage_hypothesis_view] *)
Definition counts_for_run (research_run_id : string) (event : AuditEventRecord.t) : result bool :=
  let correlated :=
    match event.(AuditEventRecord.correlation_id) with
    | None => true
    | Some c => (c =? research_run_id)%string
    end in
  if correlated
  then in_run_or_none (dict_get "research_run_id" event.(AuditEventRecord.payload)) research_run_id
  else Ok false.

(** [application/coverage/hypothesis_view.py:80-89 _highest_tier_from_events] *)
Definition highest_tier_from_events (events : list AuditEventRecord.t) : string :=
  foldl (fun highest event =>
      match assoc event.(AuditEventRecord.event_type) TIER_PASS_EVENTS with
      | Some tier => if tier_rank highest <? tier_rank tier then tier else highest
      | None => highest
      end) "UNTESTED" (sort_by AuditEventRecord.occurred_at events).

Section views.
Context `{FloatRepr}.

(** [sorted(..., reverse=True)] keeps the order of simultaneous events.
    [application/coverage/hypothesis_view.py:92-104 _node_family_identity_from_events] *)
Definition node_family_identity_from_events (events : list AuditEventRecord.t)
    : option (string * string * option string) :=
  let get e key := dict_get key e.(AuditEventRecord.payload) in
  match List.find (fun e => truthy (get e "node_canonical_key") && truthy (get e "family_id"))
          (sort_by (fun e => - e.(AuditEventRecord.occurred_at)) events) with
  | Some e => Some (py_str (get e "node_canonical_key"), py_str (get e "family_id"),
                if truthy (get e "identity_id") then Some (py_str (get e "identity_id")) else None)
  | None => None
  end.

(** The view of one hypothesis; none while no event names a cell.
    [application/coverage/hypothesis_view.py:28-77 build_coverage_hypothesis_view] *)
Definition hypothesis_view (events : list AuditEventRecord.t) (hypothesis : HypothesisRecord.t)
    : result (option CoverageHypothesisView.t) :=
  let events :=
    List.filter (fun e =>
        (e.(AuditEventRecord.subject_id) =? hypothesis.(HypothesisRecord.hypothesis_id))%string)
      events in
  match node_family_identity_from_events events with
  | None => Ok None
  | Some (node_key, family_id, audit_identity_id) =>
      let identity_id :=
        match hypothesis.(HypothesisRecord.identity_id) with
        | Some i => Some i
        | None => audit_identity_id
        end in
      v ← CoverageHypothesisView.post_init (CoverageHypothesisView.mk
            (Some hypothesis.(HypothesisRecord.hypothesis_id)) family_id node_key identity_id
            (highest_tier_from_events events));
      Ok (Some v)
  end.

(** [application/coverage/hypothesis_view.py:28-77 build_coverage_hypothesis_view] *)
Definition build_coverage_hypothesis_view (db : HuntDb.t) (research_run_id : string)
    : result (list CoverageHypothesisView.t) :=
  match hypotheses_of_run db research_run_id with
  | [] => Ok []
  | hypotheses =>
      events ← filter_result (counts_for_run research_run_id) (events_of_subject_type db "hypothesis");
      views ← traverse (hypothesis_view events) hypotheses;
      Ok (omap (M:=list) id views)
  end.
End views.

(** ** The registry *)

(** [application/run_hunt_scheduler.py:202-213 _to_view] *)
Definition to_family_view (record : HunterFamilyRecord.t) : HunterFamilyView.t :=
  HunterFamilyView.mk record.(HunterFamilyRecord.family_id) record.(HunterFamilyRecord.name)
    record.(HunterFamilyRecord.target_node_kinds) record.(HunterFamilyRecord.preconditions)
    record.(HunterFamilyRecord.claim_template) record.(HunterFamilyRecord.evidence_requirements)
    record.(HunterFamilyRecord.validation_tier) record.(HunterFamilyRecord.enabled)
    record.(HunterFamilyRecord.version).

(** Every enabled version of every family.
    [data/postgres/repositories.py:3279-3288 PostgresHunterFamilyRepository.list_enabled] *)
Definition list_enabled (db : HuntDb.t) : list HunterFamilyRecord.t :=
  sort_by (fun r => (r.(HunterFamilyRecord.family_id), r.(HunterFamilyRecord.version)))
    (List.filter HunterFamilyRecord.enabled db.(HuntDb.hunter_families)).

(** One iteration of the loop over the records; a replaced entry keeps its place.
    [application/coverage/debt_view.py:103-118 CoverageDebtView._load_registry] *)
Definition keep_latest (latest : list (string * HunterFamilyView.t)) (record : HunterFamilyRecord.t)
    : list (string * HunterFamilyView.t) :=
  let view := to_family_view record in
  let key := record.(HunterFamilyRecord.family_id) in
  match dict_look key latest with
  | None => dict_put key view latest
  | Some existing =>
      if existing.(HunterFamilyView.version) <? view.(HunterFamilyView.version)
      then dict_put key view latest else latest
  end.

(** [application/coverage/debt_view.py:99-118 CoverageDebtView._load_registry] *)
Definition load_registry (db : HuntDb.t) : list HunterFamilyView.t :=
  (foldl keep_latest [] (list_enabled db)).*2.

(** ** The use case *)

(** [data/postgres/discovery_repositories.py:413-417 PostgresCoverageDebtSnapshotRepository.insert] *)
Definition insert_snapshot (db : HuntDb.t) (r : CoverageDebtSnapshotRecord.t) : result HuntDb.t :=
  raise_if existsb (fun o => (o.(CoverageDebtSnapshotRecord.snapshot_id)
                              =? r.(CoverageDebtSnapshotRecord.snapshot_id))%string)
             db.(HuntDb.snapshots) as PersistenceConflictError;;
  raise_if negb (is_int4 r.(CoverageDebtSnapshotRecord.total_debt)) as PersistenceError;;
  Ok (HuntDb.set_snapshots db (db.(HuntDb.snapshots) ++ [r])).

Section debt_view.
Context `{FloatRepr} `{NetlocCheck} (sha256_json : pyval -> string).

(** [facts] and [inferences] are the discovery rows of the run; a [snapshot_id] is given when the
    summary is to be persisted.
    [application/coverage/debt_view.py:50-77 CoverageDebtView.execute] *)
Definition coverage_debt_view (db : HuntDb.t) (research_run_id strategy_version : string)
    (facts : list DiscoveryFact.t) (inferences : list DiscoveryInference.t)
    (snapshot_id : option string) (now : Z) : result (HuntDb.t * CoverageDebtSummary.t) :=
  graph ← rebuild_attack_surface_graph research_run_id strategy_version facts inferences [];
  views ← build_coverage_hypothesis_view db research_run_id;
  matrix ← compute_coverage_debt sha256_json graph (load_registry db) views;
  match snapshot_id with
  | None => Ok (db, to_summary matrix None)
  | Some id =>
      record ← CoverageDebtSnapshotRecord.post_init (CoverageDebtSnapshotRecord.mk id
                 matrix.(CoverageMatrix.research_run_id) matrix.(CoverageMatrix.matrix_hash)
                 ((fun p : string * Z => (p.1, PInt p.2)) <$> matrix.(CoverageMatrix.cell_counts))
                 matrix.(CoverageMatrix.total_debt) now);
      db ← insert_snapshot db record;
      Ok (db, to_summary matrix (Some id))
  end.
End debt_view.
