(* ===== verification/CoverageLive.v ===== *)
(** * Live coverage: the change between two snapshots

    [research/coverage/live.py] and the selection of snapshots and change events of
    [application/coverage/live_debt.py].  Counts are JSON values; an [int] is [PInt]. *)
From S2P Require Import Prelude PyVal HuntRecords Surface.

(** [research/coverage/live.py:11-27 FORBIDDEN_LIVE_COVERAGE_KEYS] *)
Definition FORBIDDEN_LIVE_COVERAGE_KEYS : list string :=
  [ "severity"; "cvss"; "cve"; "vulnerability"; "evidence"; "candidate"; "finding"; "token";
    "session_token"; "password"; "raw_request"; "raw_response"; "body" ].

(** [research/coverage/live.py:220-223 _require_text] *)
Definition live_text (value : string) : result string :=
  raise_if Str.is_blank value as ResearchInputError;;
  Ok (Str.strip value).

(** [research/coverage/live.py:214-217 _reject_forbidden] *)
Definition live_reject_forbidden (payload : list (string * pyval)) : result unit :=
  raise_if existsb (fun p => mem p.1 FORBIDDEN_LIVE_COVERAGE_KEYS) payload as ResearchInputError;;
  Ok tt.

(** [research/coverage/live.py:31-56 CoverageDebtSnapshotView] *)
Module CoverageDebtSnapshotView.
Record t : Type := mk {
  snapshot_id : string;
  research_run_id : string;
  matrix_hash : string;
  cell_counts : list (string * pyval);
  total_debt : Z;
  created_at : Z }.

Definition post_init (x : t) : result t :=
  _ ← live_text x.(snapshot_id);
  _ ← live_text x.(research_run_id);
  raise_if negb (String.length x.(matrix_hash) =? 64)%nat as ResearchInputError;;
  _ ← live_reject_forbidden x.(cell_counts);
  raise_if x.(total_debt) <? 0 as ResearchInputError;;
  Ok x.

#[global] Instance post_init_validator : Validator post_init.
Proof. solve_validator. Qed.
End CoverageDebtSnapshotView.

(** [research/coverage/live.py:60-82 CoverageChangeEventView] *)
Module CoverageChangeEventView.
Record t : Set := mk {
  change_event_id : string;
  research_run_id : string;
  category : string;
  statement : string;
  source_refs : list string;
  created_at : Z }.

Definition post_init (x : t) : result t :=
  _ ← live_text x.(change_event_id);
  _ ← live_text x.(research_run_id);
  _ ← live_text x.(category);
  statement ← live_text x.(statement);
  raise_if Str.contains (Str.lower statement) "vulnerability" as ResearchInputError;;
  _ ← traverse live_text x.(source_refs);
  Ok x.

#[global] Instance post_init_validator : Validator post_init.
Proof. solve_validator. Qed.
End CoverageChangeEventView.

(** The four [not_...] flags are [True] by default and never set otherwise; the mapping of count
    changes is an item list.
    [research/coverage/live.py:86-142 LiveCoverageDebtImpact] *)
Module LiveCoverageDebtImpact.
Record t : Set := mk {
  research_run_id : string;
  previous_snapshot_id : option string;
  current_snapshot_id : string;
  previous_matrix_hash : option string;
  current_matrix_hash : string;
  total_debt_before : option Z;
  total_debt_after : Z;
  total_debt_delta : option Z;
  cell_count_delta : list (string * Z);
  change_event_ids : list string;
  reason_codes : list string }.

Definition post_init (x : t) : result t :=
  _ ← live_text x.(research_run_id);
  _ ← live_text x.(current_snapshot_id);
  _ ← match x.(previous_snapshot_id) with Some s => live_text s | None => Ok "" end;
  raise_if match x.(previous_matrix_hash) with
           | Some h => negb (String.length h =? 64)%nat | None => false end as ResearchInputError;;
  raise_if negb (String.length x.(current_matrix_hash) =? 64)%nat as ResearchInputError;;
  raise_if match x.(total_debt_before) with Some d => d <? 0 | None => false end
  as ResearchInputError;;
  raise_if x.(total_debt_after) <? 0 as ResearchInputError;;
  _ ← traverse (fun p : string * Z => live_text p.1) x.(cell_count_delta);
  raise_if bool_decide (x.(reason_codes) = []) as ResearchInputError;;
  Ok x.

#[global] Instance post_init_validator : Validator post_init.
Proof. solve_validator. Qed.
End LiveCoverageDebtImpact.

(** A non-negative [int] that is not a [bool]. *)
Definition count_of (raw : pyval) : result Z :=
  match raw with
  | PInt n => raise_if n <? 0 as ResearchInputError;; Ok n
  | _ => Raise ResearchInputError
  end.

(** [research/coverage/live.py:204-211 _int_counts] *)
Definition int_counts (value : list (string * pyval)) : result (list (string * Z)) :=
  traverse (fun p : string * pyval =>
      _ ← live_text p.1; n ← count_of p.2; Ok (p.1, n)) value.

(** [d.get(key, 0)] *)
Definition count_at (d : list (string * Z)) (key : string) : Z := default 0 (assoc key d).

(** [research/coverage/live.py:194-201 _count_delta] *)
Definition count_delta (previous current : list (string * pyval)) : result (list (string * Z)) :=
  left ← int_counts previous;
  right ← int_counts current;
  Ok ((fun key => (key, count_at right key - count_at left key))
      <$> sorted_set (left.*1 ++ right.*1)).

(** [research/coverage/live.py:156-173 assess_live_coverage_debt] *)
Definition change_reasons (current : CoverageDebtSnapshotView.t)
    (previous : option CoverageDebtSnapshotView.t) : list string :=
  match previous with
  | None => ["LIVE_COVERAGE_BASELINE_CREATED"; "CHANGE_EVENT_NOT_VULNERABILITY"]
  | Some p =>
      let delta := current.(CoverageDebtSnapshotView.total_debt)
                   - p.(CoverageDebtSnapshotView.total_debt) in
      [ "LIVE_COVERAGE_REFRESHED"; "CHANGE_EVENT_NOT_VULNERABILITY";
        if (current.(CoverageDebtSnapshotView.matrix_hash)
            =? p.(CoverageDebtSnapshotView.matrix_hash))%string then "MATRIX_UNCHANGED"
        else if 0 <? delta then "COVERAGE_DEBT_INCREASED"
        else if delta <? 0 then "COVERAGE_DEBT_DECREASED"
        else "COVERAGE_DEBT_REBALANCED" ]
  end.

(** [research/coverage/live.py:145-191 assess_live_coverage_debt] *)
Definition assess_live_coverage_debt (current : CoverageDebtSnapshotView.t)
    (previous : option CoverageDebtSnapshotView.t)
    (change_events : list CoverageChangeEventView.t) : result LiveCoverageDebtImpact.t :=
  let run := current.(CoverageDebtSnapshotView.research_run_id) in
  raise_if existsb (fun e => negb (e.(CoverageChangeEventView.research_run_id) =? run)%string)
             change_events as ResearchInputError;;
  raise_if match previous with
           | Some p => negb (p.(CoverageDebtSnapshotView.research_run_id) =? run)%string
           | None => false
           end as ResearchInputError;;
  delta ← match previous with
          | None => int_counts current.(CoverageDebtSnapshotView.cell_counts)
          | Some p => count_delta p.(CoverageDebtSnapshotView.cell_counts)
                        current.(CoverageDebtSnapshotView.cell_counts)
          end;
  LiveCoverageDebtImpact.post_init (LiveCoverageDebtImpact.mk run
    (CoverageDebtSnapshotView.snapshot_id <$> previous)
    current.(CoverageDebtSnapshotView.snapshot_id)
    (CoverageDebtSnapshotView.matrix_hash <$> previous)
    current.(CoverageDebtSnapshotView.matrix_hash)
    (CoverageDebtSnapshotView.total_debt <$> previous)
    current.(CoverageDebtSnapshotView.total_debt)
    ((fun p => current.(CoverageDebtSnapshotView.total_debt)
               - p.(CoverageDebtSnapshotView.total_debt)) <$> previous)
    delta (sort_by id (CoverageChangeEventView.change_event_id <$> change_events))
    (dedupe (change_reasons current previous
             ++ match change_events with [] => [] | _ => ["TEMPORAL_CHANGE_CONTEXT_ATTACHED"] end))).

(** ** Which snapshot and which events: [application/coverage/live_debt.py] *)

(** [sorted(..., key=created_at)[-1]]: of simultaneous snapshots the last listed.
    [application/coverage/live_debt.py:94-103 _previous_snapshot] *)
Definition previous_snapshot (snapshots : list CoverageDebtSnapshotRecord.t)
    (current_snapshot_id : string) : option CoverageDebtSnapshotRecord.t :=
  last (sort_by CoverageDebtSnapshotRecord.created_at
    (List.filter (fun s => negb (s.(CoverageDebtSnapshotRecord.snapshot_id)
                                 =? current_snapshot_id)%string) snapshots)).

(** The change events of the records, of which only these fields are read.
    [application/coverage/live_debt.py:106-117 _changes_since] *)
Definition changes_since (changes : list CoverageChangeEventView.t)
    (previous : option CoverageDebtSnapshotRecord.t) (current : CoverageDebtSnapshotRecord.t)
    : list CoverageChangeEventView.t :=
  List.filter (fun change =>
      match previous with
      | None => true
      | Some p => p.(CoverageDebtSnapshotRecord.created_at)
                  <? change.(CoverageChangeEventView.created_at)
      end
      && (change.(CoverageChangeEventView.created_at)
          <=? current.(CoverageDebtSnapshotRecord.created_at)))
    (sort_by CoverageChangeEventView.created_at changes).

(** [application/coverage/live_debt.py:120-128 _snapshot_view] *)
Definition snapshot_view (record : CoverageDebtSnapshotRecord.t)
    : result CoverageDebtSnapshotView.t :=
  CoverageDebtSnapshotView.post_init (CoverageDebtSnapshotView.mk
    record.(CoverageDebtSnapshotRecord.snapshot_id)
    record.(CoverageDebtSnapshotRecord.research_run_id)
    record.(CoverageDebtSnapshotRecord.matrix_hash)
    record.(CoverageDebtSnapshotRecord.cell_counts)
    record.(CoverageDebtSnapshotRecord.total_debt)
    record.(CoverageDebtSnapshotRecord.created_at)).

(** ** The deltas add up *)

Lemma int_counts_ok value l :
  int_counts value = Ok l -> l.*1 = value.*1 /\ Forall (fun p => 0 <= p.2) l.
Proof.
  unfold int_counts. rewrite traverse_ok. induction 1 as [|[k v] p value l H1 _ [IH1 IH2]]; cbn; [done|].
  cbn in H1. apply bind_ok in H1 as (? & _ & H1). apply bind_ok in H1 as (n & Hn & [= <-]).
  cbn. rewrite IH1. split; [done|]. constructor; [|done].
  unfold count_of in Hn. destruct v; try done. apply raise_if_ok in Hn as [Hz [= ->]].
  apply Z.ltb_ge in Hz. done.
Qed.

(** The value of every key changes by the delta shown, and every key that is in either snapshot
    is shown. *)
Lemma count_delta_exact previous current left right d :
  int_counts previous = Ok left -> int_counts current = Ok right ->
  count_delta previous current = Ok d ->
  (forall key, key ∈ d.*1 <-> key ∈ left.*1 \/ key ∈ right.*1)
  /\ forall key delta, (key, delta) ∈ d -> count_at left key + delta = count_at right key.
Proof.
  intros Hl Hr. unfold count_delta. rewrite Hl, Hr. cbn. intros [= <-]. split.
  - intros key. rewrite <-list_fmap_compose. cbn.
    rewrite list_elem_of_fmap. setoid_rewrite elem_of_sorted_set. setoid_rewrite elem_of_app.
    split; [intros (k & -> & ?); done|]. intros ?. by exists key.
  - intros key delta (k & [= -> ->] & _)%list_elem_of_fmap. lia.
Qed.

Lemma baseline_iff current previous events impact :
  assess_live_coverage_debt current previous events = Ok impact ->
  "LIVE_COVERAGE_BASELINE_CREATED" ∈ impact.(LiveCoverageDebtImpact.reason_codes)
  <-> impact.(LiveCoverageDebtImpact.total_debt_before) = None.
Proof.
  unfold assess_live_coverage_debt. intros H. apply raise_if_ok in H as [_ H].
  apply raise_if_ok in H as [_ H]. apply bind_ok in H as (d & _ & ->%validated). cbn.
  rewrite elem_of_dedupe, elem_of_app. destruct previous as [p|]; cbn.
  - split; [|done]. unfold change_reasons. intros [Hin|Hin].
    + set_unfold in Hin. destruct Hin as [?|[?|[Hin|[]]]]; [done|done|]. by repeat case_match.
    + destruct events; set_solver.
  - split; [done|]. intros _. left. left.
Qed.

Lemma total_delta_exact current previous events impact :
  assess_live_coverage_debt current previous events = Ok impact ->
  match impact.(LiveCoverageDebtImpact.total_debt_before), impact.(LiveCoverageDebtImpact.total_debt_delta) with
  | Some before, Some delta => before + delta = impact.(LiveCoverageDebtImpact.total_debt_after)
  | None, None => True
  | _, _ => False
  end.
Proof.
  unfold assess_live_coverage_debt. intros H. apply raise_if_ok in H as [_ H].
  apply raise_if_ok in H as [_ H]. apply bind_ok in H as (d & _ & ->%validated). cbn.
  destruct previous; cbn; [lia|done].
Qed.
