(* ===== verification/Scheduler.v ===== *)
(** * The hunt scheduler

    [research/scheduler/]: the score of a coverage cell and the ranking of the debt; and
    [application/run_hunt_scheduler.py], which feeds it from the ledger and audits the
    recommendation.  Ages are binary64 floats ([Float]). *)
From Stdlib Require Import QArith Qround Lqa.
From S2P Require Import Prelude PyVal PyText Float CoreTypes Records FindingRecords HuntRecords Graph Discovery Surface Coverage CoverageFlow.
#[local] Open Scope Z_scope.

(** [research/scheduler/types.py:14-30 FamilyStats] *)
Module FamilyStats.
Record t : Set := mk { family_id : string; supported_count : Z; falsified_count : Z }.

Definition post_init (x : t) : result t :=
  raise_if Str.is_blank x.(family_id) as ResearchInputError;;
  raise_if x.(supported_count) <? 0 as ResearchInputError;;
  raise_if x.(falsified_count) <? 0 as ResearchInputError;;
  Ok x.

#[global] Instance post_init_validator : Validator post_init.
Proof. solve_validator. Qed.
End FamilyStats.

(** [research/scheduler/types.py:34-55 BudgetView] *)
Module BudgetView.
Record t : Set := mk { daily_llm_budget_microdollars : option Z; consumed_microdollars : Z }.

Definition post_init (x : t) : result t :=
  raise_if match x.(daily_llm_budget_microdollars) with Some d => d <? 0 | None => false end
  as ResearchInputError;;
  raise_if x.(consumed_microdollars) <? 0 as ResearchInputError;;
  Ok x.

#[global] Instance post_init_validator : Validator post_init.
Proof. solve_validator. Qed.

(** [research/scheduler/types.py:51-55 BudgetView.is_exhausted] *)
Definition is_exhausted (x : t) : bool :=
  match x.(daily_llm_budget_microdollars) with
  | None => false
  | Some d => d <=? x.(consumed_microdollars)
  end.
End BudgetView.

(** [research/scheduler/types.py:59-77 NodeFreshness] *)
Module NodeFreshness.
Record t : Set := mk {
  node_canonical_key : string;
  first_seen_at : option Z;
  latest_activity_at : option Z }.

Definition post_init (x : t) : result t :=
  raise_if Str.is_blank x.(node_canonical_key) as ResearchInputError;;
  Ok x.

#[global] Instance post_init_validator : Validator post_init.
Proof. solve_validator. Qed.
End NodeFreshness.

(** A value of [freshness_by_node]: [NodeFreshness | datetime | None]. *)
Inductive Freshness : Set :=
  | OfNode (f : NodeFreshness.t)
  | OfTime (t : option Z).

(** The checks of the constructor are on types.
    [research/scheduler/types.py:81-110 HunterScore] *)
Module HunterScore.
Record t : Set := mk {
  cell : CoverageCell.t;
  total_score : Z;
  state_weight : Z;
  family_success_bonus : Z;
  family_exploration_bonus : Z;
  freshness_bonus : Z;
  budget_suitability_bonus : Z;
  explanation : list string }.
End HunterScore.

(** [research/scheduler/types.py:114-124 ScoredCell] *)
Module ScoredCell.
Record t : Set := mk { cell : CoverageCell.t; score : HunterScore.t }.
End ScoredCell.

(** The mapping of nodes to freshness is an item list.
    [research/scheduler/types.py:128-147 HunterScoreInput] *)
Module HunterScoreInput.
Record t : Set := mk {
  cells : list CoverageCell.t;
  family_stats : list FamilyStats.t;
  freshness_by_node : list (string * Freshness);
  budget_view : BudgetView.t;
  reference_time : Z }.
End HunterScoreInput.

(** [research/scheduler/score.py:24-32 STATE_WEIGHT] *)
Definition STATE_WEIGHT (s : CoverageState.t) : Z :=
  match s with
  | CoverageState.UNTESTED => 50
  | CoverageState.HYPOTHESIZED => 40
  | CoverageState.V1_PASSED => 30
  | CoverageState.V2_PASSED => 20
  | CoverageState.V3_QUEUED => 10
  | CoverageState.COVERED | CoverageState.NOT_APPLICABLE => 0
  end.

(** [research/scheduler/score.py:34-44 FAMILY_SUCCESS_MULTIPLIER] *)
Definition FAMILY_SUCCESS_MULTIPLIER : Z := 5.
Definition FAMILY_SUCCESS_MAX_BONUS : Z := 20.
Definition FAMILY_SUCCESS_MAX_PENALTY : Z := -20.
Definition FAMILY_EXPLORATION_BONUS : Z := 5.
Definition FRESHNESS_MAX_HOURS : Z := 24.

(** [research/scheduler/score.py:46 _V3_BOUND_STATES] *)
Definition V3_BOUND_STATES : list CoverageState.t := [CoverageState.V2_PASSED; CoverageState.V3_QUEUED].

(** [research/scheduler/score.py:47-51 _CHEAP_STATES] *)
Definition CHEAP_STATES : list CoverageState.t :=
  [CoverageState.UNTESTED; CoverageState.HYPOTHESIZED; CoverageState.V1_PASSED].

(** [f"{x:.2f}"] of a float that is not negative. *)
Definition fixed2 (x : Q) : string :=
  let n := round_half_even (x * inject_Z 100)%Q in
  pretty (n / 100) +:+ "." +:+ pretty (n / 10 mod 10) +:+ pretty (n mod 10).

(** [f"{b}"] *)
Definition bool_text (b : bool) : string := if b then "True" else "False".

(** [(reference_time - t).total_seconds()], not below zero, in hours. *)
Definition age_hours (reference_time t : Z) : Q :=
  let age_seconds := rnd (inject_Z (reference_time - t) / inject_Z DateTime.per_second) in
  let age_seconds := if Qle_bool 0 age_seconds then age_seconds else 0%Q in
  rnd (age_seconds / inject_Z 3600).

(** [research/scheduler/score.py:131 score_cell] *)
Definition freshness_bonus_of (age : Q) : Z :=
  Z.max 0 (trunc (rnd (inject_Z FRESHNESS_MAX_HOURS - age))).

(** The bonuses of the family and their explanation.
    [research/scheduler/score.py:88-114 score_cell] *)
Definition family_bonus (stats : option FamilyStats.t) : Z * Z * string :=
  match stats with
  | None => (0, FAMILY_EXPLORATION_BONUS, "family_stats_missing family_low_history=True")
  | Some s =>
      let supported := s.(FamilyStats.supported_count) in
      let falsified := s.(FamilyStats.falsified_count) in
      let raw := FAMILY_SUCCESS_MULTIPLIER * (supported - falsified) in
      let success := Z.min FAMILY_SUCCESS_MAX_BONUS (Z.max FAMILY_SUCCESS_MAX_PENALTY raw) in
      let history_count := supported + falsified in
      let exploration :=
        if (history_count <? 2) && (falsified =? 0) then FAMILY_EXPLORATION_BONUS else 0 in
      (success, exploration,
       "family_supported=" +:+ pretty supported +:+ " family_falsified=" +:+ pretty falsified
       +:+ " raw_success_bonus=" +:+ pretty raw +:+ " bounded_success_bonus=" +:+ pretty success
       +:+ " family_low_history=" +:+ bool_text (history_count <? 2))
  end.

(** The bonus for recent activity and its explanation.
    [research/scheduler/score.py:115-142 score_cell] *)
Definition freshness_part (freshness : option Freshness) (reference_time : Z) : Z * string :=
  let '(first_seen, latest_activity) :=
    match freshness with
    | Some (OfNode f) =>
        (f.(NodeFreshness.first_seen_at),
         match f.(NodeFreshness.latest_activity_at) with
         | Some t => Some t
         | None => f.(NodeFreshness.first_seen_at)
         end)
    | Some (OfTime t) => (None, t)
    | None => (None, None)
    end in
  match latest_activity with
  | None => (0, "freshness_unknown")
  | Some latest =>
      let age := age_hours reference_time latest in
      (freshness_bonus_of age,
       match first_seen with
       | Some first =>
           "first_seen_age_hours=" +:+ fixed2 (age_hours reference_time first)
           +:+ " latest_activity_age_hours=" +:+ fixed2 age
       | None => "latest_activity_age_hours=" +:+ fixed2 age
       end)
  end.

(** [research/scheduler/score.py:144-154 score_cell] *)
Definition budget_part (budget_view : BudgetView.t) (state : CoverageState.t) : Z * string :=
  if BudgetView.is_exhausted budget_view
  then if mem state V3_BOUND_STATES then (-20, "budget_exhausted_v3_penalty")
       else if mem state CHEAP_STATES then (5, "budget_exhausted_cheap_bonus")
       else (0, "budget_exhausted_no_adjustment")
  else (0, "budget_available").

(** [{item.family_id: item for item in family_stats}.get(family_id)]: the last item counts. *)
Definition stats_of (family_stats : list FamilyStats.t) (family_id : string) : option FamilyStats.t :=
  List.find (fun s => (s.(FamilyStats.family_id) =? family_id)%string) (rev family_stats).

(** No debt to score. *)
Definition no_debt (s : CoverageState.t) : bool :=
  mem s [CoverageState.COVERED; CoverageState.NOT_APPLICABLE].

(** [research/scheduler/score.py:54-184 score_cell] *)
Definition score_cell (cell : CoverageCell.t) (family_stats : list FamilyStats.t)
    (freshness_by_node : list (string * Freshness)) (budget_view : BudgetView.t)
    (reference_time : Z) : HunterScore.t :=
  let state := cell.(CoverageCell.state) in
  let state_weight := STATE_WEIGHT state in
  let state_text :=
    "state=" +:+ CoverageState.value state +:+ " state_weight=" +:+ pretty state_weight in
  if no_debt state
  then HunterScore.mk cell 0 state_weight 0 0 0 0
         [ state_text; "no_debt_cell success_bonus=0 exploration_bonus=0";
           "freshness_not_applied freshness_bonus=0"; "budget_not_applied budget_bonus=0";
           "total_score=0" ]
  else
    let '(success, exploration, family_text) :=
      family_bonus (stats_of family_stats cell.(CoverageCell.family_id)) in
    let '(freshness, freshness_text) :=
      freshness_part (assoc cell.(CoverageCell.node_canonical_key) freshness_by_node)
        reference_time in
    let '(budget, budget_text) := budget_part budget_view state in
    let total := state_weight + success + exploration + freshness + budget in
    HunterScore.mk cell total state_weight success exploration freshness budget
      [ state_text;
        family_text +:+ " success_bonus=" +:+ pretty success
        +:+ " exploration_bonus=" +:+ pretty exploration;
        freshness_text +:+ " freshness_bonus=" +:+ pretty freshness;
        budget_text +:+ " budget_bonus=" +:+ pretty budget;
        "total_score=" +:+ pretty total ].

(** [(-item.score.total_score, ...)]
    [research/scheduler/score.py:214-219 schedule] *)
Definition rank_key (item : ScoredCell.t) : Z * (string * (string * string)) :=
  (- item.(ScoredCell.score).(HunterScore.total_score), cell_key item.(ScoredCell.cell)).

Definition scored (input : HunterScoreInput.t) (cell : CoverageCell.t) : ScoredCell.t :=
  ScoredCell.mk cell (score_cell cell input.(HunterScoreInput.family_stats)
    input.(HunterScoreInput.freshness_by_node) input.(HunterScoreInput.budget_view)
    input.(HunterScoreInput.reference_time)).

(** [research/scheduler/score.py:187-221 schedule] *)
Definition schedule (input_data : HunterScoreInput.t) : list ScoredCell.t :=
  sort_by rank_key
    (scored input_data
     <$> List.filter (fun c => negb (no_debt c.(CoverageCell.state)))
           input_data.(HunterScoreInput.cells)).

(** ** The score is bounded *)

Lemma age_hours_nonneg now t : (0 <= age_hours now t)%Q.
Proof.
  unfold age_hours. set (s := rnd (inject_Z (now - t) / _)). set (s' := if Qle_bool 0 s then s else 0%Q).
  assert (0 <= s')%Q as Hs.
  { unfold s'. destruct (Qle_bool 0 s) eqn:E; [by apply Qle_bool_iff|lra]. }
  rewrite <-rnd_0. apply rnd_mono. apply Qle_shift_div_l; [done|]. lra.
Qed.

Lemma age_hours_mono now t u : t <= u -> (age_hours now u <= age_hours now t)%Q.
Proof.
  intros Htu. unfold age_hours.
  set (a := rnd (inject_Z (now - u) / _)). set (b := rnd (inject_Z (now - t) / _)).
  assert (a <= b)%Q as Hab.
  { apply rnd_mono. apply Qmult_le_compat_r; [|done]. rewrite <-Zle_Qle. lia. }
  apply rnd_mono. apply Qmult_le_compat_r; [|done].
  destruct (Qle_bool 0 a) eqn:Ea, (Qle_bool 0 b) eqn:Eb.
  - done.
  - apply Qle_bool_iff in Ea. apply Qnot_lt_le. intros _. apply not_true_iff_false in Eb.
    apply Eb, Qle_bool_iff. lra.
  - by apply Qle_bool_iff.
  - lra.
Qed.

Lemma freshness_bonus_bounds age : (0 <= age)%Q -> 0 <= freshness_bonus_of age <= 24.
Proof.
  intros Ha. unfold freshness_bonus_of. split; [lia|]. apply Z.max_lub; [lia|].
  set (x := rnd _). assert (x <= inject_Z 24)%Q as Hx.
  { apply rnd_le; [reflexivity|]. unfold FRESHNESS_MAX_HOURS. lra. }
  destruct (Qlt_le_dec x 0) as [Hn|Hp].
  - apply Qlt_le_weak, trunc_neg in Hn. lia.
  - by apply (trunc_bounds x 0 24).
Qed.

Lemma freshness_bonus_mono a b :
  (a <= b)%Q -> freshness_bonus_of b <= freshness_bonus_of a.
Proof.
  intros Hab. unfold freshness_bonus_of. set (x := rnd _). set (y := rnd (_ - a)).
  assert (x <= y)%Q as Hxy by (apply rnd_mono; lra).
  destruct (Qlt_le_dec x 0) as [Hn|Hp].
  - apply Qlt_le_weak, trunc_neg in Hn. lia.
  - pose proof (trunc_mono x y Hp Hxy). lia.
Qed.

Lemma freshness_part_bounds f now : 0 <= (freshness_part f now).1 <= 24.
Proof.
  unfold freshness_part. destruct f as [[n|t]|]; cbn; [| |lia].
  - destruct (NodeFreshness.latest_activity_at n); cbn; [|destruct (NodeFreshness.first_seen_at n); cbn; [|lia]];
      apply freshness_bonus_bounds, age_hours_nonneg.
  - destruct t; cbn; [|lia]. apply freshness_bonus_bounds, age_hours_nonneg.
Qed.

Lemma family_bonus_bounds s :
  match s with Some s => 0 <= s.(FamilyStats.supported_count) /\ 0 <= s.(FamilyStats.falsified_count) | None => True end ->
  -20 <= (family_bonus s).1.1 <= 20 /\ 0 <= (family_bonus s).1.2 <= 5
  /\ (family_bonus s).1.1 + (family_bonus s).1.2 <= 20.
Proof.
  destruct s as [s|]; cbn; [|unfold FAMILY_EXPLORATION_BONUS; lia]. intros [H1 H2].
  unfold FAMILY_SUCCESS_MAX_BONUS, FAMILY_SUCCESS_MAX_PENALTY, FAMILY_SUCCESS_MULTIPLIER, FAMILY_EXPLORATION_BONUS.
  destruct (_ && _) eqn:E; bool_prop; lia.
Qed.

Lemma budget_part_bounds b s :
  (budget_part b s).1 = 0 \/ (budget_part b s).1 = -20 /\ s ∈ V3_BOUND_STATES
  \/ (budget_part b s).1 = 5 /\ s ∈ CHEAP_STATES.
Proof.
  unfold budget_part. repeat case_match; bool_prop; cbn; auto.
Qed.

(** What the constructor of [FamilyStats] guarantees. *)
Definition valid_stats (l : list FamilyStats.t) : Prop :=
  Forall (fun s => 0 <= s.(FamilyStats.supported_count) /\ 0 <= s.(FamilyStats.falsified_count)) l.

Lemma stats_of_valid l f :
  valid_stats l ->
  match stats_of l f with
  | Some s => 0 <= s.(FamilyStats.supported_count) /\ 0 <= s.(FamilyStats.falsified_count)
  | None => True
  end.
Proof.
  intros Hl. destruct (stats_of l f) as [s|] eqn:E; [|done].
  apply find_Some_elem in E as [Hs _]. rewrite list_elem_of_In, <-in_rev, <-list_elem_of_In in Hs.
  unfold valid_stats in Hl. rewrite Forall_forall in Hl. by apply Hl.
Qed.

Lemma score_in_range cell stats fresh budget now :
  valid_stats stats ->
  -30 <= (score_cell cell stats fresh budget now).(HunterScore.total_score) <= 99.
Proof.
  intros Hv. unfold score_cell.
  destruct (no_debt (CoverageCell.state cell)) eqn:En; cbn; [lia|].
  pose proof (family_bonus_bounds _ (stats_of_valid _ cell.(CoverageCell.family_id) Hv)) as Hf.
  destruct (family_bonus _) as [[success exploration] ft]. cbn in Hf.
  pose proof (freshness_part_bounds (assoc cell.(CoverageCell.node_canonical_key) fresh) now) as Hr.
  destruct (freshness_part (assoc _ fresh) now) as [freshness rt]. cbn in Hr.
  pose proof (budget_part_bounds budget cell.(CoverageCell.state)) as Hb.
  destruct (budget_part _ _) as [b bt]. cbn in *.
  unfold V3_BOUND_STATES, CHEAP_STATES in Hb. unfold no_debt in En.
  destruct (CoverageCell.state cell); cbn in *; try done;
    destruct Hb as [->|[[-> Hs]|[-> Hs]]]; try lia; exfalso; set_solver.
Qed.

(** Every score explains itself and stays in range: the total is the sum of its five parts,
    a cell without debt scores 0, a debt cell between -30 and 99 with a freshness bonus of 0 to
    24 hours, and activity seen later never lowers the score. *)
Theorem hunter_score_bounds cell stats fresh budget now :
  valid_stats stats ->
  let s := score_cell cell stats fresh budget now in
  (no_debt cell.(CoverageCell.state) = true -> s.(HunterScore.total_score) = 0)
  /\ -30 <= s.(HunterScore.total_score) <= 99
  /\ 0 <= s.(HunterScore.freshness_bonus) <= 24
  /\ (no_debt cell.(CoverageCell.state) = false ->
      s.(HunterScore.total_score)
      = s.(HunterScore.state_weight) + s.(HunterScore.family_success_bonus)
        + s.(HunterScore.family_exploration_bonus) + s.(HunterScore.freshness_bonus)
        + s.(HunterScore.budget_suitability_bonus))
  /\ forall t u, t <= u ->
       (score_cell cell stats [(cell.(CoverageCell.node_canonical_key), OfTime (Some t))] budget now).(HunterScore.total_score)
       <= (score_cell cell stats [(cell.(CoverageCell.node_canonical_key), OfTime (Some u))] budget now).(HunterScore.total_score).
Proof.
  intros Hv. cbn zeta. split; [by unfold score_cell; intros ->|].
  split; [by apply score_in_range|]. unfold score_cell.
  destruct (no_debt (CoverageCell.state cell)) eqn:En; cbn; [repeat split; done || lia|].
  pose proof (freshness_part_bounds (assoc cell.(CoverageCell.node_canonical_key) fresh) now) as Hr.
  destruct (family_bonus _) as [[success exploration] ft].
  destruct (freshness_part (assoc _ fresh) now) as [freshness rt].
  destruct (budget_part _ _) as [b bt]. cbn in *.
  split; [done|]. split; [done|]. intros t u Htu.
  unfold assoc. cbn. rewrite String.eqb_refl. cbn.
  pose proof (freshness_bonus_mono _ _ (age_hours_mono now _ _ Htu)). lia.
Qed.

(** ** The ranking *)

Lemma scored_cell input c : ScoredCell.cell (scored input c) = c.
Proof. done. Qed.

Lemma rank_key_inj input l :
  inj_on cell_key l -> forall x y, x ∈ scored input <$> l -> y ∈ scored input <$> l ->
  rank_key x = rank_key y -> x = y.
Proof.
  intros Hinj x y (c & -> & Hc)%list_elem_of_fmap (d & -> & Hd)%list_elem_of_fmap [= _ E1 E2 E3].
  f_equal. apply Hinj; [done|done|]. unfold cell_key. congruence.
Qed.

(** The schedule ranks the debt, all of it and nothing else, by falling score and then by the
    key of the cell; and it is a function of the set of cells: where the keys tell the cells
    apart, their order in the input does not matter. *)
Theorem schedule_ranks_the_debt input cells' :
  let out := schedule input in
  StronglySorted (key_le rank_key) out
  /\ ScoredCell.cell <$> out
     ≡ₚ List.filter (fun c => negb (no_debt c.(CoverageCell.state))) input.(HunterScoreInput.cells)
  /\ (forall item, item ∈ out -> item = scored input item.(ScoredCell.cell))
  /\ (inj_on cell_key input.(HunterScoreInput.cells) ->
      input.(HunterScoreInput.cells) ≡ₚ cells' ->
      schedule (HunterScoreInput.mk cells' input.(HunterScoreInput.family_stats)
        input.(HunterScoreInput.freshness_by_node) input.(HunterScoreInput.budget_view)
        input.(HunterScoreInput.reference_time)) = out).
Proof.
  cbn zeta. unfold schedule. split; [apply sort_by_sorted|]. split.
  { rewrite sort_by_perm, <-list_fmap_compose. unfold compose. by rewrite list_fmap_id. }
  split.
  { intros item (c & -> & _)%elem_of_sort_by%list_elem_of_fmap. done. }
  intros Hinj Hp. symmetry. apply (sort_by_perm_eq rank_key).
  - apply rank_key_inj. intros x y [Hx _]%elem_of_list_filter_bool [Hy _]%elem_of_list_filter_bool.
    by apply Hinj.
  - cbn. apply fmap_Permutation, filter_bool_perm; done.
Qed.

(** ** The use case: [application/run_hunt_scheduler.py] *)

(** [application/run_hunt_scheduler.py:36-38 HUNT_SCHEDULE_RECOMMENDED] *)
Definition HUNT_SCHEDULE_RECOMMENDED : string := "HUNT_SCHEDULE_RECOMMENDED".
Definition SCHEDULER_ACTOR_ID : string := "control-plane:hunt-scheduler".
Definition DEFAULT_TOP_N : Z := 100.

(** [application/run_hunt_scheduler.py:42-48 RunHuntSchedulerCommand] *)
Module RunHuntSchedulerCommand.
Record t : Type := mk {
  research_run_id : string;
  graph : AttackSurfaceGraph.t;
  registry : option (list HunterFamilyView.t);
  daily_llm_budget_microdollars : option Z;
  consumed_microdollars : Z;
  top_n : option Z }.
End RunHuntSchedulerCommand.

(** [application/run_hunt_scheduler.py:52-58 RunHuntSchedulerResult] *)
Module RunHuntSchedulerResult.
Record t : Type := mk {
  research_run_id : string;
  matrix_hash : string;
  scored_cells : list ScoredCell.t;
  recommended : list ScoredCell.t;
  recommended_count : Z;
  no_op : bool }.
End RunHuntSchedulerResult.

(** [l[:n]]: a negative [n] counts from the end. *)
Definition slice_to {A} (n : Z) (l : list A) : list A :=
  firstn (Z.to_nat (if n <? 0 then Z.of_nat (length l) + n else n)) l.

(** [data/postgres/repositories.py:1381-1396 PostgresHypothesisAssessmentRepository.list_for_research_run] *)
Definition assessments_of_run (db : HuntDb.t) (research_run_id : string)
    : list HypothesisAssessmentRecord.t :=
  sort_by HypothesisAssessmentRecord.assessment_id
    (List.filter (fun a => (a.(HypothesisAssessmentRecord.research_run_id) =? research_run_id)%string)
       db.(HuntDb.assessments)).

(** [data/postgres/repositories.py:331-344 PostgresSensorObservationRepository.list_for_research_run] *)
Definition observations_of_run (db : HuntDb.t) (research_run_id : string)
    : list SensorObservationRecord.t :=
  sort_by SensorObservationRecord.created_at
    (List.filter (fun o => (o.(SensorObservationRecord.research_run_id) =? research_run_id)%string)
       db.(HuntDb.sensor_observations)).

(** [sorted(..., key=created_at, reverse=True)[0]]: the latest, the first of simultaneous ones. *)
Definition latest_assessment (l : list HypothesisAssessmentRecord.t)
    : option HypothesisAssessmentRecord.t :=
  head (sort_by (fun a => - a.(HypothesisAssessmentRecord.created_at)) l).

(** The family and the outcome a hypothesis counts for.
    [application/run_hunt_scheduler.py:145-156 _build_family_stats] *)
Definition counted (assessments : list HypothesisAssessmentRecord.t)
    (hypothesis : string * string) : option (string * string) :=
  let '(hypothesis_id, family_id) := hypothesis in
  if Str.is_empty family_id then None
  else match latest_assessment
               (List.filter (fun a =>
                  (a.(HypothesisAssessmentRecord.hypothesis_id) =? hypothesis_id)%string) assessments) with
       | Some latest => Some (family_id, latest.(HypothesisAssessmentRecord.assessment_outcome))
       | None => None
       end.

(** The dict [supported] or [falsified] after the loop.
    [application/run_hunt_scheduler.py:157-160 _build_family_stats] *)
Definition tally (outcome : string) (counts : list (string * string)) : list (string * Z) :=
  foldl (fun d p => if (p.2 =? outcome)%string then bump p.1 d else d) [] counts.

(** The families whose outcomes are counted. *)
Definition family_outcomes (db : HuntDb.t) (research_run_id : string) : list (string * string) :=
  let hypothesis_family :=
    foldl (fun d h => dict_put h.(HypothesisRecord.hypothesis_id)
                        (default "" h.(HypothesisRecord.origin_reference)) d)
      [] (hypotheses_of_run db research_run_id) in
  omap (M:=list) (counted (assessments_of_run db research_run_id)) hypothesis_family.

(** [application/run_hunt_scheduler.py:126-166 _build_family_stats] *)
Definition build_family_stats (db : HuntDb.t) (research_run_id : string)
    : result (list FamilyStats.t) :=
  let outcomes := family_outcomes db research_run_id in
  let supported := tally "CONSISTENT_WITH_PREDICTION" outcomes in
  let falsified := tally "CONTRADICTS_PREDICTION" outcomes in
  traverse (fun family_id =>
      FamilyStats.post_init (FamilyStats.mk family_id (default 0 (dict_look family_id supported))
        (default 0 (dict_look family_id falsified))))
    (sorted_set (supported.*1 ++ falsified.*1)).

(** The instants of the observations that a node cites.
    [application/run_hunt_scheduler.py:184-190 _build_freshness_by_node] *)
Definition cited_instants (collected_at_by_id : list (string * Z)) (node : AttackSurfaceNode.t)
    : list Z :=
  let prefix := "sensor_observation:" in
  omap (M:=list) (fun ref =>
      if Str.starts_with ref prefix
      then dict_look (Str.drop (String.length prefix) ref) collected_at_by_id
      else None)
    node.(AttackSurfaceNode.provenance_refs).

Definition earliest (l : list Z) : option Z :=
  foldl (fun e t => match e with
                    | None => Some t
                    | Some u => if t <? u then Some t else e
                    end) None l.
Definition latest (l : list Z) : option Z :=
  foldl (fun e t => match e with
                    | None => Some t
                    | Some u => if u <? t then Some t else e
                    end) None l.

(** [application/run_hunt_scheduler.py:169-199 _build_freshness_by_node] *)
Definition build_freshness_by_node (db : HuntDb.t) (graph : AttackSurfaceGraph.t)
    : result (list (string * Freshness)) :=
  let collected_at_by_id :=
    foldl (fun d o => dict_put o.(SensorObservationRecord.observation_id)
                        o.(SensorObservationRecord.collected_at) d)
      [] (observations_of_run db graph.(AttackSurfaceGraph.research_run_id)) in
  fold_result (fun d node =>
      let key := node.(AttackSurfaceNode.canonical_key) in
      let instants := cited_instants collected_at_by_id node in
      f ← NodeFreshness.post_init (NodeFreshness.mk key (earliest instants) (latest instants));
      Ok (dict_put key (OfNode f) d)) [] graph.(AttackSurfaceGraph.nodes).

(** [application/run_hunt_scheduler.py:216-251 _schedule_audit] *)
Definition schedule_audit (audit_id : string) (occurred_at : Z) (research_run_id matrix_hash : string)
    (recommended : list ScoredCell.t) (no_op : bool) : result AuditEventRecord.t :=
  AuditEventRecord.post_init (AuditEventRecord.mk audit_id occurred_at SCHEDULER_ACTOR_ID
    "CONTROL_PLANE" HUNT_SCHEDULE_RECOMMENDED "research_run" research_run_id
    [ ("research_run_id", PStr research_run_id); ("matrix_hash", PStr matrix_hash);
      ("no_op", PBool no_op); ("recommended_count", PInt (Z.of_nat (length recommended)));
      ("recommended", PList ((fun item : ScoredCell.t =>
         PDict [ ("node_canonical_key", PStr item.(ScoredCell.cell).(CoverageCell.node_canonical_key));
                 ("identity_id", PStr item.(ScoredCell.cell).(CoverageCell.identity_id));
                 ("family_id", PStr item.(ScoredCell.cell).(CoverageCell.family_id));
                 ("state", PStr (CoverageState.value item.(ScoredCell.cell).(CoverageCell.state)));
                 ("total_score", PInt item.(ScoredCell.score).(HunterScore.total_score)) ])
         <$> recommended)) ]
    (Some research_run_id)).

Section run_hunt_scheduler.
Context `{FloatRepr} (sha256_json : pyval -> string).

(** [audit_id] is the identifier [new_opaque_id] returns.
    [application/run_hunt_scheduler.py:73-123 RunHuntScheduler.execute] *)
Definition run_hunt_scheduler (db : HuntDb.t) (command : RunHuntSchedulerCommand.t)
    (audit_id : string) (now : Z) : result (HuntDb.t * RunHuntSchedulerResult.t) :=
  let run := command.(RunHuntSchedulerCommand.research_run_id) in
  let graph := command.(RunHuntSchedulerCommand.graph) in
  let registry :=
    match command.(RunHuntSchedulerCommand.registry) with
    | Some r => r
    | None => to_family_view <$> list_enabled db
    end in
  hypothesis_view ← build_coverage_hypothesis_view db run;
  matrix ← compute_coverage_debt sha256_json graph registry hypothesis_view;
  family_stats ← build_family_stats db run;
  freshness ← build_freshness_by_node db graph;
  budget ← BudgetView.post_init (BudgetView.mk
             command.(RunHuntSchedulerCommand.daily_llm_budget_microdollars)
             command.(RunHuntSchedulerCommand.consumed_microdollars));
  let scored := schedule (HunterScoreInput.mk matrix.(CoverageMatrix.cells) family_stats freshness
                            budget now) in
  let recommended :=
    slice_to (default DEFAULT_TOP_N command.(RunHuntSchedulerCommand.top_n)) scored in
  let no_op := (length recommended =? 0)%nat in
  event ← schedule_audit audit_id now run matrix.(CoverageMatrix.matrix_hash) recommended no_op;
  db ← record_audit db event;
  Ok (db, RunHuntSchedulerResult.mk run matrix.(CoverageMatrix.matrix_hash) scored recommended
        (Z.of_nat (length recommended)) no_op).
End run_hunt_scheduler.

(** ** What the use case promises *)

Definition occurrences (p : string * string) (l : list (string * string)) : Z :=
  Z.of_nat (length (List.filter (fun q => (q.1 =? p.1)%string && (q.2 =? p.2)%string) l)).

Lemma bump_look k k' d :
  default 0 (dict_look k (bump k' d)) = default 0 (dict_look k d) + (if (k' =? k)%string then 1 else 0).
Proof.
  unfold dict_look. induction d as [|[j n] d IH]; cbn.
  - destruct (String.eqb_spec k' k) as [->|Hne]; [by rewrite bool_decide_true|by rewrite bool_decide_false].
  - destruct (String.eqb_spec j k') as [->|Hj]; cbn; case_bool_decide as Hk; subst; cbn; try lia.
    + rewrite String.eqb_refl. lia.
    + destruct (String.eqb_spec k' k); [done|lia].
    + destruct (String.eqb_spec k' k); [done|lia].
Qed.

Lemma tally_exact outcome f l :
  default 0 (dict_look f (tally outcome l)) = occurrences (f, outcome) l.
Proof.
  unfold tally, occurrences.
  enough (forall d, default 0 (dict_look f (foldl (fun d p => if (p.2 =? outcome)%string then bump p.1 d else d) d l))
    = default 0 (dict_look f d)
      + Z.of_nat (length (List.filter (fun q => (q.1 =? f)%string && (q.2 =? outcome)%string) l))) as H.
  { rewrite H. cbn. done. }
  induction l as [|[g o] l IH]; intros d; cbn [foldl List.filter length fst snd]; [lia|].
  rewrite IH. destruct (o =? outcome)%string eqn:Eo; cbn [fst snd].
  - rewrite bump_look. destruct (g =? f)%string; cbn [andb length]; lia.
  - by rewrite andb_false_r.
Qed.

Lemma occurrences_nonneg p l : 0 <= occurrences p l.
Proof. unfold occurrences. lia. Qed.

(** The statistics count, per family, the hypotheses whose latest assessment has the outcome. *)
Lemma family_stats_exact db run stats :
  build_family_stats db run = Ok stats ->
  forall s, s ∈ stats ->
    s.(FamilyStats.supported_count)
    = occurrences (s.(FamilyStats.family_id), "CONSISTENT_WITH_PREDICTION") (family_outcomes db run)
    /\ s.(FamilyStats.falsified_count)
       = occurrences (s.(FamilyStats.family_id), "CONTRADICTS_PREDICTION") (family_outcomes db run).
Proof.
  unfold build_family_stats. intros H%traverse_ok s Hs.
  apply list_elem_of_lookup in Hs as [i Hi].
  destruct (Forall2_lookup_r _ _ _ _ _ H Hi) as (f & _ & E%validated). subst s. cbn.
  by rewrite !tally_exact.
Qed.

Lemma build_family_stats_valid db run stats :
  build_family_stats db run = Ok stats -> valid_stats stats.
Proof.
  intros H. apply Forall_forall. intros s Hs.
  destruct (family_stats_exact _ _ _ H s Hs) as [-> ->]. split; apply occurrences_nonneg.
Qed.

Lemma slice_to_prefix {A} n (l : list A) : slice_to n l `prefix_of` l.
Proof.
  unfold slice_to. eexists. symmetry. apply List.firstn_skipn.
Qed.

Lemma record_audit_ok db e db' :
  record_audit db e = Ok db' -> db' = HuntDb.set_audit db (db.(HuntDb.audit_events) ++ [e]).
Proof.
  unfold record_audit. rewrite bind_ok. intros (e' & ->%validated & H).
  rewrite bind_ok in H. destruct H as (evs & ->%append_audit_ok & [= <-]). done.
Qed.

Section scheduler_promises.
Context `{FloatRepr} (sha256_json : pyval -> string).

(** The scheduler recommends and does nothing more: a run changes no table but the audit
    log, to which it appends the one event of its recommendation; what it recommends is the head
    of the ranked debt, at most 100 cells unless another number was asked for; and each score it
    ranks by lies between -30 and 99, whatever the ledger holds. *)
Theorem scheduler_only_recommends db command audit_id now db' r :
  run_hunt_scheduler sha256_json db command audit_id now = Ok (db', r) ->
  (exists e, db' = HuntDb.set_audit db (db.(HuntDb.audit_events) ++ [e])
     /\ e.(AuditEventRecord.audit_event_id) = audit_id
     /\ e.(AuditEventRecord.event_type) = HUNT_SCHEDULE_RECOMMENDED
     /\ dict_get "recommended_count" e.(AuditEventRecord.payload)
        = PInt r.(RunHuntSchedulerResult.recommended_count))
  /\ r.(RunHuntSchedulerResult.recommended) `prefix_of` r.(RunHuntSchedulerResult.scored_cells)
  /\ (command.(RunHuntSchedulerCommand.top_n) = None ->
      r.(RunHuntSchedulerResult.recommended_count) <= 100)
  /\ StronglySorted (key_le rank_key) r.(RunHuntSchedulerResult.scored_cells)
  /\ (forall item, item ∈ r.(RunHuntSchedulerResult.scored_cells) ->
        no_debt item.(ScoredCell.cell).(CoverageCell.state) = false
        /\ -30 <= item.(ScoredCell.score).(HunterScore.total_score) <= 99).
Proof.
  unfold run_hunt_scheduler. intros Hrun.
  repeat (let x := fresh "x" in let Hx := fresh "Hx" in rewrite bind_ok in Hrun; destruct Hrun as (x & Hx & Hrun)).
  injection Hrun as <- <-.
  cbn [RunHuntSchedulerResult.recommended RunHuntSchedulerResult.scored_cells
       RunHuntSchedulerResult.recommended_count].
  match goal with Hx : schedule_audit _ _ _ _ _ _ = Ok _ |- _ => unfold schedule_audit in Hx; apply validated in Hx as -> end.
  match goal with Hx : record_audit _ _ = Ok _ |- _ => apply record_audit_ok in Hx as -> end.
  split; [eexists; split; [reflexivity|split; [done|split; [done|done]]]|].
  split; [apply slice_to_prefix|]. split.
  { intros ->. cbn. unfold slice_to, DEFAULT_TOP_N. cbn. rewrite length_firstn. lia. }
  split; [apply sort_by_sorted|].
  intros item (c & -> & [_ Hc]%elem_of_list_filter_bool)%elem_of_sort_by%list_elem_of_fmap.
  split; [by apply negb_true_iff in Hc|]. apply score_in_range. by eapply build_family_stats_valid.
Qed.
End scheduler_promises.

(** ** On concrete inputs *)

Definition sample_budget : BudgetView.t := BudgetView.mk (Some 100) 100.

Lemma hunter_score_bounds_witness :
  let s := score_cell (CoverageCell.mk "h-a" "alice" "f-1" CoverageState.V2_PASSED [])
             [FamilyStats.mk "f-1" 9 1] [("h-a", OfTime (Some 0))] sample_budget 7200000000 in
  s.(HunterScore.total_score) = 42 /\ -30 <= s.(HunterScore.total_score) <= 99.
Proof.
  split; [vm_compute; reflexivity|].
  apply (hunter_score_bounds (CoverageCell.mk "h-a" "alice" "f-1" CoverageState.V2_PASSED [])
           [FamilyStats.mk "f-1" 9 1] [("h-a", OfTime (Some 0))] sample_budget 7200000000).
  repeat constructor; cbn; lia.
Defined.

(** Alice's hypothesis of [sample_views] on the ledger. *)
Definition sample_ledger : HuntDb.t :=
  HuntDb.mk
    [HypothesisRecord.mk "hyp-2" "run-1" "no certificate" 0 (Some "f-1") (Some "alice")]
    [ HypothesisAssessmentRecord.mk "as-1" "hyp-2" "ex-1" "run-1" "CONSISTENT_WITH_PREDICTION" [] "RULE"
        "1" [] "s" 5;
      HypothesisAssessmentRecord.mk "as-2" "hyp-2" "ex-2" "run-1" "CONTRADICTS_PREDICTION" [] "RULE"
        "1" [] "s" 9 ]
    [ AuditEventRecord.mk "au-1" 3 "a" "CONTROL_PLANE" "HUNT_HYPOTHESIS_GENERATED" "hypothesis" "hyp-2"
        [("node_canonical_key", PStr "h-a"); ("family_id", PStr "f-1")] (Some "run-1") ]
    [] [] [] [] [].

Definition sample_command : RunHuntSchedulerCommand.t :=
  RunHuntSchedulerCommand.mk "run-1" sample_surface (Some sample_families) None 0 (Some 2).

Definition sample_recommendation : result (list (string * string * string * Z)) :=
  '(_, r) ← @run_hunt_scheduler no_floats sample_digest sample_ledger sample_command "au-2" 7200000000;
  Ok ((fun i : ScoredCell.t =>
        (i.(ScoredCell.cell).(CoverageCell.node_canonical_key), i.(ScoredCell.cell).(CoverageCell.identity_id),
         i.(ScoredCell.cell).(CoverageCell.family_id), i.(ScoredCell.score).(HunterScore.total_score)))
      <$> r.(RunHuntSchedulerResult.recommended)).

(** The contradicted family loses five points; the two cells of the other one come first. *)
Example recommends_untested :
  sample_recommendation = Ok [("h-a", "alice", "f-2", 55); ("h-a", "bob", "f-2", 55)].
Proof. vm_compute. reflexivity. Qed.

Lemma scheduler_only_recommends_witness :
  exists db' r,
    @run_hunt_scheduler no_floats sample_digest sample_ledger sample_command "au-2" 7200000000 = Ok (db', r)
    /\ r.(RunHuntSchedulerResult.recommended) `prefix_of` r.(RunHuntSchedulerResult.scored_cells)
    /\ db'.(HuntDb.hunt_v3_queue) = [].
Proof.
  destruct (@run_hunt_scheduler no_floats sample_digest sample_ledger sample_command "au-2" 7200000000)
    as [[db' r]|e] eqn:E; [|vm_compute in E; discriminate].
  exists db', r. split; [reflexivity|].
  destruct (@scheduler_only_recommends no_floats sample_digest sample_ledger sample_command "au-2" 7200000000 db' r E)
    as ((e & -> & _) & Hp & _). split; [exact Hp|reflexivity].
Defined.

Lemma schedule_ranks_the_debt_witness :
  let cells := [ CoverageCell.mk "h-a" "alice" "f-2" CoverageState.UNTESTED [];
                 CoverageCell.mk "h-a" "bob" "f-1" CoverageState.COVERED [];
                 CoverageCell.mk "h-a" "alice" "f-1" CoverageState.HYPOTHESIZED [] ] in
  schedule (HunterScoreInput.mk (rev cells) [] [] sample_budget 0)
  = schedule (HunterScoreInput.mk cells [] [] sample_budget 0).
Proof.
  cbn zeta. set (cells := [_; _; _]).
  apply (schedule_ranks_the_debt (HunterScoreInput.mk cells [] [] sample_budget 0) (rev cells));
    [|apply Permutation_rev].
  cbn [HunterScoreInput.cells]. subst cells. intros x y Hx Hy. set_unfold in Hx; set_unfold in Hy.
  repeat match goal with
  | H : _ \/ _ |- _ => destruct H as [H|H]
  | H : False |- _ => destruct H
  end; subst; try reflexivity; discriminate.
Defined.
