(* ===== verification/Plans.v ===== *)
(** * Experiment plans of the hunter families

    [research/mutation/matrix.py] (mutation matrices), [research/protocol/parser_plan.py]
    (protocol plans) and [research/mutation/identity.py] (the catalog of matrices, from which a
    cell that a model selects is looked up).  SHA-256 of the canonical JSON is a parameter. *)
From S2P Require Import Prelude PyVal PyText Graph.
#[local] Open Scope Z_scope.

(** ** Cartesian products *)

(** [itertools.product]: the first factor varies slowest. *)
Fixpoint product {A} (factors : list (list A)) : list (list A) :=
  match factors with
  | [] => [[]]
  | f :: fs => f ≫= fun x => cons x <$> product fs
  end.

(** [dict(zip(keys, combo))] *)
Definition zip_dict (keys combo : list string) : list (string * string) :=
  foldl (fun d p => dict_put p.1 p.2 d) [] (zip keys combo).

(** [f"{i:03d}"] *)
Definition pad3 (i : Z) : string :=
  let digits := pretty i in
  match String.length digits with
  | 1%nat => "00" +:+ digits
  | 2%nat => "0" +:+ digits
  | _ => digits
  end.

(** [f(0, l[0]), f(1, l[1]), ...] *)
Definition index_map {A B} (f : Z -> A -> B) (l : list A) : list B :=
  imap (fun i x => f (Z.of_nat i) x) l.

(** [controls[index % len(controls)]], of a list that is not empty. *)
Definition round_robin (controls : list string) (index : Z) : string :=
  nth (Z.to_nat (index mod Z.of_nat (length controls))) controls "".

Section text.
Context `{FloatRepr}.

(** [research/mutation/matrix.py:143-147 _required_tuple] *)
Definition required_tuple (requirements : list (string * pyval)) (key : string)
    : result (list string) :=
  match dict_get key requirements with
  | PList (v :: l) => Ok (py_str <$> v :: l)
  | _ => Raise ResearchInputError
  end.
End text.

(** [table[dimension]] for each of the dimensions. *)
Definition values_of (table : list (string * list string)) (dimensions : list string)
    : result (list (list string)) :=
  traverse (fun d => match assoc d table with
                     | Some values => Ok values
                     | None => Raise ResearchInputError
                     end) dimensions.

(** ** Mutation matrices: [research/mutation/matrix.py] *)

(** [research/mutation/matrix.py:14 MUTATION_MATRIX_VERSION] *)
Definition MUTATION_MATRIX_VERSION : string := "mutation.matrix.v1".
(** [research/mutation/matrix.py:15 MIN_MEANINGFUL_CELLS] *)
Definition MIN_MEANINGFUL_CELLS : Z := 30.
(** [research/mutation/matrix.py:16 MAX_MATRIX_CELLS] *)
Definition MAX_MATRIX_CELLS : Z := 96.

(** [research/mutation/matrix.py:18-50 DIMENSION_VALUES] *)
Definition DIMENSION_VALUES : list (string * list string) :=
  [ ("input_vector", ["query"; "path"; "json_body"; "form_body"; "header"; "cookie_free"]);
    ("encoding", ["raw"; "url"; "double_url"; "unicode_escape"; "html_entity"; "stacked"]);
    ("parser_delta", ["boolean_delta"; "latency_delta"; "shape_delta"; "status_delta"]);
    ("template_engine_probe",
     ["math_eval"; "delimiter_probe"; "context_escape"; "engine_marker"; "blind_timing";
      "filter_boundary"]);
    ("path_vector", ["path_param"; "query_param"; "json_field"; "multipart_name"]);
    ("normalization", ["dot_segment"; "encoded_slash"; "double_decode"; "mixed_separator"]);
    ("field_family", ["role"; "owner"; "tenant"; "state"; "balance"; "admin_flag"]);
    ("role", ["anonymous"; "owner"; "peer"; "lower_role"]);
    ("state_change", ["write_attempt"; "read_back"; "second_session_read"]);
    ("algorithm", ["none"; "hs_rs_confusion"; "kid_path"; "jwk_swap"]);
    ("key_source", ["inline_jwk"; "remote_jku"; "kid_header"; "default_secret"]);
    ("claim", ["sub"; "aud"; "iss"; "role"; "tenant"]);
    ("origin_variant", ["exact"; "null"; "suffix_confusion"; "scheme_confusion"]);
    ("credentials", ["omit"; "include"; "same_origin_cookie"]);
    ("data_sink", ["me_endpoint"; "billing_endpoint"; "export_endpoint"; "admin_probe"]);
    ("operation_kind", ["query"; "mutation"; "subscription"]);
    ("resolver", ["node"; "edge"; "admin"; "bulk"]);
    ("identity", ["anonymous"; "owner"; "peer"; "admin_candidate"]);
    ("source", ["location"; "hash"; "post_message"; "storage"; "referrer"]);
    ("sink", ["inner_html"; "script_url"; "navigation"; "template"]);
    ("execution_token", ["dom_marker"; "console"; "global_write"; "oob_callback"]);
    ("instruction_channel", ["direct_prompt"; "retrieved_doc"; "tool_result"; "system_reflection"]);
    ("retrieval_context", ["none"; "benign_doc"; "hostile_doc"; "mixed_doc"]);
    ("tool_boundary", ["no_tool"; "read_tool"; "write_tool"; "exfil_sink"]) ].

(** [research/mutation/matrix.py:54-67 MutationMatrixCell] *)
Module MutationMatrixCell.
Record t : Set := mk {
  family_id : string;
  dimension_values : list (string * string);
  control : string;
  cell_id : string }.

Definition post_init (x : t) : result t :=
  raise_if Str.is_blank x.(family_id) as ResearchInputError;;
  raise_if Str.is_blank x.(cell_id) as ResearchInputError;;
  raise_if bool_decide (x.(dimension_values) = []) as ResearchInputError;;
  Ok x.

#[global] Instance post_init_validator : Validator post_init.
Proof. solve_validator. Qed.
End MutationMatrixCell.

(** [research/mutation/matrix.py:71-78 MutationMatrixPlan] *)
Module MutationMatrixPlan.
Record t : Set := mk {
  family_id : string;
  family_name : string;
  matrix_version : string;
  dimensions : list string;
  controls : list string;
  cells : list MutationMatrixCell.t;
  matrix_hash : string }.
End MutationMatrixPlan.

Definition dims_payload (d : list (string * string)) : pyval :=
  PDict ((fun p => (p.1, PStr p.2)) <$> d).

Section plans.
Context `{FloatRepr} (sha256_json : pyval -> string).

(** [research/mutation/matrix.py:118-132 build_mutation_matrix] *)
Definition matrix_hash_payload (family : HunterFamilyView.t) (dimensions controls : list string)
    (cells : list MutationMatrixCell.t) : pyval :=
  PDict [ ("family_id", PStr family.(HunterFamilyView.family_id));
          ("family_name", PStr family.(HunterFamilyView.name));
          ("matrix_version", PStr MUTATION_MATRIX_VERSION);
          ("dimensions", PList (PStr <$> dimensions));
          ("controls", PList (PStr <$> controls));
          ("cells", PList ((fun cell =>
             PDict [ ("cell_id", PStr cell.(MutationMatrixCell.cell_id));
                     ("dimension_values", dims_payload cell.(MutationMatrixCell.dimension_values));
                     ("control", PStr cell.(MutationMatrixCell.control)) ]) <$> cells)) ].

(** The arguments of the constructor of the cell at an index.
    [research/mutation/matrix.py:101-114 build_mutation_matrix] *)
Definition matrix_cell (family : HunterFamilyView.t) (dimensions controls : list string)
    (index : Z) (combo : list string) : MutationMatrixCell.t :=
  MutationMatrixCell.mk family.(HunterFamilyView.family_id) (zip_dict dimensions combo)
    (round_robin controls index)
    (family.(HunterFamilyView.family_id) +:+ ":cell:" +:+ pad3 index).

(** Every turn of the loop appends a cell, so that it breaks at the index [max_cells].
    [research/mutation/matrix.py:81-140 build_mutation_matrix] *)
Definition build_mutation_matrix (family : HunterFamilyView.t) (max_cells : Z)
    : result MutationMatrixPlan.t :=
  raise_if max_cells <? MIN_MEANINGFUL_CELLS as ResearchInputError;;
  let requirements := family.(HunterFamilyView.evidence_requirements) in
  dimensions ← required_tuple requirements "required_matrix_dimensions";
  controls ← required_tuple requirements "required_controls";
  values ← values_of DIMENSION_VALUES dimensions;
  cells ← traverse MutationMatrixCell.post_init
            (index_map (matrix_cell family dimensions controls)
               (firstn (Z.to_nat max_cells) (product values)));
  raise_if Z.of_nat (length cells) <? MIN_MEANINGFUL_CELLS as ResearchInputError;;
  Ok (MutationMatrixPlan.mk family.(HunterFamilyView.family_id) family.(HunterFamilyView.name)
        MUTATION_MATRIX_VERSION dimensions controls cells
        (sha256_json (matrix_hash_payload family dimensions controls cells))).
End plans.

(** ** Protocol plans: [research/protocol/parser_plan.py] *)

(** [research/protocol/parser_plan.py:14 PROTOCOL_PARSER_PLAN_VERSION] *)
Definition PROTOCOL_PARSER_PLAN_VERSION : string := "protocol.parser.v1".
(** [research/protocol/parser_plan.py:15 MIN_PROTOCOL_PLAN_STEPS] *)
Definition MIN_PROTOCOL_PLAN_STEPS : Z := 8.
(** [research/protocol/parser_plan.py:16 MAX_PROTOCOL_PLAN_STEPS] *)
Definition MAX_PROTOCOL_PLAN_STEPS : Z := 48.

(** [research/protocol/parser_plan.py:18-30 PROTOCOL_DIMENSION_VALUES] *)
Definition PROTOCOL_DIMENSION_VALUES : list (string * list string) :=
  [ ("frontend_protocol", ["http1"; "http2"; "h2c_upgrade"]);
    ("backend_protocol", ["http1"; "http2"; "unknown_backend"]);
    ("normalization_boundary",
     ["content_length_transfer_encoding"; "connection_reuse"; "header_case_fold"; "absolute_uri"]);
    ("cache_key_dimension", ["host"; "scheme"; "path"; "query"; "header"]);
    ("cache_behavior", ["store"; "bypass"; "vary"; "stale_revalidate"]);
    ("proxy_layer", ["cdn"; "reverse_proxy"; "edge_cache"; "origin_proxy"]) ].

(** [research/protocol/parser_plan.py:34-47 ProtocolParserPlanStep] *)
Module ProtocolParserPlanStep.
Record t : Set := mk {
  family_id : string;
  dimension_values : list (string * string);
  control : string;
  step_id : string }.

Definition post_init (x : t) : result t :=
  raise_if Str.is_blank x.(family_id) as ResearchInputError;;
  raise_if Str.is_blank x.(step_id) as ResearchInputError;;
  raise_if bool_decide (x.(dimension_values) = []) as ResearchInputError;;
  Ok x.

#[global] Instance post_init_validator : Validator post_init.
Proof. solve_validator. Qed.
End ProtocolParserPlanStep.

(** [research/protocol/parser_plan.py:51-60 ProtocolParserPlan] *)
Module ProtocolParserPlan.
Record t : Set := mk {
  family_id : string;
  family_name : string;
  lane : string;
  plan_version : string;
  required_surface_signals : list string;
  dimensions : list string;
  controls : list string;
  steps : list ProtocolParserPlanStep.t;
  plan_hash : string }.
End ProtocolParserPlan.

(** [research/protocol/parser_plan.py:141-144 _required_text] *)
Definition required_plan_text (value : pyval) : result string :=
  match value with
  | PStr s => raise_if Str.is_blank s as ResearchInputError;; Ok (Str.strip s)
  | _ => Raise ResearchInputError
  end.

Section protocol.
Context `{FloatRepr} (sha256_json : pyval -> string).

(** [research/protocol/parser_plan.py:111-128 build_protocol_parser_plan] *)
Definition plan_hash_payload (family : HunterFamilyView.t) (lane : string)
    (signals dimensions controls : list string) (steps : list ProtocolParserPlanStep.t) : pyval :=
  PDict [ ("family_id", PStr family.(HunterFamilyView.family_id));
          ("family_name", PStr family.(HunterFamilyView.name));
          ("lane", PStr lane);
          ("plan_version", PStr PROTOCOL_PARSER_PLAN_VERSION);
          ("required_surface_signals", PList (PStr <$> signals));
          ("dimensions", PList (PStr <$> dimensions));
          ("controls", PList (PStr <$> controls));
          ("steps", PList ((fun step =>
             PDict [ ("step_id", PStr step.(ProtocolParserPlanStep.step_id));
                     ("dimension_values", dims_payload step.(ProtocolParserPlanStep.dimension_values));
                     ("control", PStr step.(ProtocolParserPlanStep.control)) ]) <$> steps)) ].

(** [research/protocol/parser_plan.py:93-107 build_protocol_parser_plan] *)
Definition protocol_step (family : HunterFamilyView.t) (dimensions controls : list string)
    (index : Z) (combo : list string) : ProtocolParserPlanStep.t :=
  ProtocolParserPlanStep.mk family.(HunterFamilyView.family_id) (zip_dict dimensions combo)
    (round_robin controls index)
    (family.(HunterFamilyView.family_id) +:+ ":protocol-step:" +:+ pad3 index).

(** [research/protocol/parser_plan.py:63-131 build_protocol_parser_plan] *)
Definition build_protocol_parser_plan (family : HunterFamilyView.t) (max_steps : Z)
    : result ProtocolParserPlan.t :=
  raise_if max_steps <? MIN_PROTOCOL_PLAN_STEPS as ResearchInputError;;
  let requirements := family.(HunterFamilyView.evidence_requirements) in
  lane ← required_plan_text (dict_get "protocol_lane" requirements);
  signals ← required_tuple requirements "required_surface_signals";
  dimensions ← required_tuple requirements "required_protocol_dimensions";
  controls ← required_tuple requirements "required_controls";
  values ← values_of PROTOCOL_DIMENSION_VALUES dimensions;
  steps ← traverse ProtocolParserPlanStep.post_init
            (index_map (protocol_step family dimensions controls)
               (firstn (Z.to_nat max_steps) (product values)));
  raise_if Z.of_nat (length steps) <? MIN_PROTOCOL_PLAN_STEPS as ResearchInputError;;
  Ok (ProtocolParserPlan.mk family.(HunterFamilyView.family_id) family.(HunterFamilyView.name)
        lane PROTOCOL_PARSER_PLAN_VERSION signals dimensions controls steps
        (sha256_json (plan_hash_payload family lane signals dimensions controls steps))).
End protocol.

(** ** The catalog of matrices: [research/mutation/identity.py] *)

(** [research/mutation/identity.py:34-38 MutationMatrixFamilyCatalogEntry] *)
Module MutationMatrixFamilyCatalogEntry.
Record t : Set := mk {
  family_id : string;
  family_name : string;
  dimensions : list string;
  controls : list string }.
End MutationMatrixFamilyCatalogEntry.

(** [research/mutation/identity.py:41-96 MUTATION_MATRIX_FAMILY_CATALOG] *)
Definition MUTATION_MATRIX_FAMILY_CATALOG : list MutationMatrixFamilyCatalogEntry.t :=
  let entry := MutationMatrixFamilyCatalogEntry.mk in
  [ entry "hf-sqli" "SQL_INJECTION" ["input_vector"; "encoding"; "parser_delta"]
      ["secure_fixture"; "deceptive_fixture"; "read_back"];
    entry "hf-ssti" "SERVER_SIDE_TEMPLATE_INJECTION" ["template_engine_probe"; "encoding"]
      ["secure_fixture"; "deceptive_fixture"];
    entry "hf-lfi-rfi" "FILE_INCLUDE_AND_PATH_TRAVERSAL"
      ["path_vector"; "encoding"; "normalization"]
      ["safe_path_control"; "deceptive_status_control"];
    entry "hf-mass-assignment" "MASS_ASSIGNMENT" ["field_family"; "role"; "state_change"]
      ["read_back"; "role_boundary_control"];
    entry "hf-jwt-crypto" "JWT_CRYPTO_AND_CLAIM_CONFUSION" ["algorithm"; "key_source"; "claim"]
      ["valid_token_control"; "invalid_token_control"];
    entry "hf-cors" "CORS_CREDENTIAL_EXFILTRATION_CHAIN"
      ["origin_variant"; "credentials"; "data_sink"]
      ["non_credentialed_control"; "sensitive_endpoint_read_back"];
    entry "hf-graphql" "GRAPHQL_AUTHORIZATION_AND_INJECTION"
      ["operation_kind"; "resolver"; "identity"]
      ["introspection_control"; "role_boundary_control"];
    entry "hf-dom-taint" "DOM_TAINT_AND_CLIENT_SIDE_EXECUTION"
      ["source"; "sink"; "execution_token"] ["dom_marker_control"; "detection_rotation"];
    entry "hf-ai-llm-target" "AI_LLM_PROMPT_INJECTION_AND_TOOL_ABUSE"
      ["instruction_channel"; "retrieval_context"; "tool_boundary"]
      ["benign_prompt_control"; "metamorphic_variant"; "tool_denial_control"] ].

(** [research/mutation/identity.py:98 _CATALOG_BY_NAME] *)
Definition CATALOG_BY_NAME : list (string * MutationMatrixFamilyCatalogEntry.t) :=
  (fun e => (e.(MutationMatrixFamilyCatalogEntry.family_name), e)) <$> MUTATION_MATRIX_FAMILY_CATALOG.

(** [research/mutation/cell_contract.py:27-41 FAMILY_REQUIRED_DIMENSIONS] *)
Definition FAMILY_REQUIRED_DIMENSIONS : list (string * list string) :=
  [ ("SQL_INJECTION", ["input_vector"; "encoding"; "parser_delta"]);
    ("SERVER_SIDE_TEMPLATE_INJECTION", ["template_engine_probe"; "encoding"]);
    ("FILE_INCLUDE_AND_PATH_TRAVERSAL", ["path_vector"; "encoding"; "normalization"]);
    ("MASS_ASSIGNMENT", ["field_family"; "role"; "state_change"]);
    ("JWT_CRYPTO_AND_CLAIM_CONFUSION", ["algorithm"; "key_source"; "claim"]);
    ("CORS_CREDENTIAL_EXFILTRATION_CHAIN", ["origin_variant"; "credentials"; "data_sink"]);
    ("GRAPHQL_AUTHORIZATION_AND_INJECTION", ["operation_kind"; "resolver"; "identity"]);
    ("DOM_TAINT_AND_CLIENT_SIDE_EXECUTION", ["source"; "sink"; "execution_token"]);
    ("AI_LLM_PROMPT_INJECTION_AND_TOOL_ABUSE",
     ["instruction_channel"; "retrieval_context"; "tool_boundary"]) ].

(** [x is not None and x != y] *)
Definition names_other (x : option string) (y : string) : bool :=
  match x with Some s => negb (s =? y)%string | None => false end.

(** [research/mutation/identity.py:101-132 mutation_family_view] *)
Definition mutation_family_view (family_name : string) (family_id : option string)
    : result HunterFamilyView.t :=
  match assoc family_name CATALOG_BY_NAME with
  | None => Raise (MutationCellIdentityError "MUTATION_MATRIX_UNKNOWN_FAMILY")
  | Some entry =>
      raise_if names_other family_id entry.(MutationMatrixFamilyCatalogEntry.family_id)
      as MutationCellIdentityError "MUTATION_MATRIX_FAMILY_MISMATCH";;
      Ok (HunterFamilyView.mk entry.(MutationMatrixFamilyCatalogEntry.family_id)
            entry.(MutationMatrixFamilyCatalogEntry.family_name) ["HTTP_OPERATION"]
            [("scope_classification", PStr "IN_SCOPE")] ""
            [ ("required_matrix_dimensions",
               PList (PStr <$> entry.(MutationMatrixFamilyCatalogEntry.dimensions)));
              ("required_controls",
               PList (PStr <$> entry.(MutationMatrixFamilyCatalogEntry.controls))) ]
            "V3" true 1)
  end.

Section identity.
Context `{FloatRepr} (sha256_json : pyval -> string).

(** [research/mutation/identity.py:135-145 rebuild_authoritative_mutation_matrix] *)
Definition rebuild_authoritative_mutation_matrix (family_name : string)
    (family_id : option string) : result MutationMatrixPlan.t :=
  match assoc family_name FAMILY_REQUIRED_DIMENSIONS with
  | None => Raise (MutationCellIdentityError "MUTATION_MATRIX_UNKNOWN_FAMILY")
  | Some _ =>
      view ← mutation_family_view family_name family_id;
      build_mutation_matrix sha256_json view MAX_MATRIX_CELLS
  end.

(** [research/mutation/identity.py:148-179 lookup_authoritative_mutation_cell] *)
Definition lookup_authoritative_mutation_cell (family_name cell_id : string)
    (family_id matrix_hash : option string) : result MutationMatrixCell.t :=
  raise_if Str.is_blank cell_id as MutationCellIdentityError "CELL_ID_REQUIRED";;
  matrix ← rebuild_authoritative_mutation_matrix family_name family_id;
  raise_if names_other matrix_hash matrix.(MutationMatrixPlan.matrix_hash)
  as MutationCellIdentityError "MUTATION_MATRIX_CONTEXT_MISMATCH";;
  let wanted := Str.strip cell_id in
  match List.find (fun cell => (cell.(MutationMatrixCell.cell_id) =? wanted)%string)
          matrix.(MutationMatrixPlan.cells) with
  | None => Raise (MutationCellIdentityError "MUTATION_MATRIX_UNKNOWN_CELL")
  | Some cell =>
      raise_if names_other family_id cell.(MutationMatrixCell.family_id)
      as MutationCellIdentityError "MUTATION_MATRIX_FAMILY_MISMATCH";;
      Ok cell
  end.
End identity.

(** ** Numbers and products *)

(** The number a string of decimal digits reads as. *)
Fixpoint digits_value (n : N) (s : string) : N :=
  match s with
  | EmptyString => n
  | String c s' => digits_value (10 * n + (N_of_ascii c - 48)) s'
  end.

Lemma pretty_N_char_value x : (x < 10)%N -> (N_of_ascii (pretty_N_char x) - 48 = x)%N.
Proof.
  intros Hx. assert (x = 0 \/ x = 1 \/ x = 2 \/ x = 3 \/ x = 4 \/ x = 5 \/ x = 6 \/ x = 7 \/ x = 8 \/ x = 9)%N
    as H by lia.
  repeat (destruct H as [->|H]; [reflexivity|]). by subst.
Qed.

Lemma digits_value_go x s : digits_value 0 (pretty_N_go x s) = digits_value x s.
Proof.
  revert s. induction (N.lt_wf_0 x) as [x _ IH]; intros s.
  destruct (N.eq_dec x 0%N) as [->|Hx]; [by rewrite pretty_N_go_0|].
  rewrite pretty_N_go_step by lia. rewrite IH by (apply N.div_lt; lia). cbn [digits_value].
  rewrite pretty_N_char_value by (apply N.mod_lt; lia). f_equal.
  pose proof (N.div_mod x 10). lia.
Qed.

Lemma digits_value_pretty z : 0 <= z -> digits_value 0 (pretty z) = Z.to_N z.
Proof.
  intros Hz. destruct z as [|p|p]; [done| |lia].
  change (pretty (Z.pos p)) with (pretty_N_go (N.pos p) ""). by rewrite digits_value_go.
Qed.

Lemma digits_value_pad i : digits_value 0 (pad3 i) = digits_value 0 (pretty i).
Proof.
  unfold pad3. destruct (String.length (pretty i)) as [|[|[|n]]]; reflexivity.
Qed.

Lemma pad3_inj i j : 0 <= i -> 0 <= j -> pad3 i = pad3 j -> i = j.
Proof.
  intros Hi Hj E. apply (f_equal (digits_value 0)) in E.
  rewrite !digits_value_pad, !digits_value_pretty in E by done. lia.
Qed.

Lemma elem_of_product {A} (fs : list (list A)) c :
  c ∈ product fs <-> Forall2 (fun x f => x ∈ f) c fs.
Proof.
  revert c. induction fs as [|f fs IH]; intros c; cbn.
  - rewrite list_elem_of_singleton. split; [intros ->; constructor|by inversion 1].
  - rewrite list_elem_of_bind. setoid_rewrite list_elem_of_fmap. setoid_rewrite IH. split.
    + intros (x & (c' & -> & Hc) & Hx). by constructor.
    + inversion 1; subst. eauto.
Qed.

Lemma NoDup_bind_cons {A} (f : list A) (l : list (list A)) :
  NoDup f -> NoDup l -> NoDup (f ≫= fun x => cons x <$> l).
Proof.
  intros Hf Hl. induction Hf as [|x f Hx _ IH]; cbn; [constructor|].
  apply NoDup_app. split; [|split; [|done]].
  - apply NoDup_fmap_2; [|done]. by intros a b [= ->].
  - intros c (d & -> & Hd)%list_elem_of_fmap (y & (d' & [= -> ->] & _)%list_elem_of_fmap & Hy)%list_elem_of_bind.
    done.
Qed.

Lemma NoDup_product {A} (fs : list (list A)) : Forall NoDup fs -> NoDup (product fs).
Proof.
  induction 1 as [|f fs Hf _ IH]; cbn; [apply NoDup_singleton|]. by apply NoDup_bind_cons.
Qed.

Lemma zip_dict_in keys combo p : p ∈ zip_dict keys combo -> p ∈ zip keys combo.
Proof.
  unfold zip_dict. induction (zip keys combo) as [|q l IH] using rev_ind; [done|].
  rewrite foldl_app. cbn. rewrite elem_of_app, list_elem_of_singleton.
  intros [->|Hp]%elem_of_dict_put; [right; by destruct q|left; by apply IH].
Qed.

Lemma dict_put_fresh {K V} `{EqDecision K} (k : K) (v : V) d :
  k ∉ d.*1 -> dict_put k v d = d ++ [(k, v)].
Proof.
  induction d as [|[k' v'] d IH]; cbn; [done|]. intros [Hk Hd]%not_elem_of_cons.
  rewrite bool_decide_false by done. by rewrite IH.
Qed.

Lemma zip_dict_distinct keys combo : NoDup keys -> zip_dict keys combo = zip keys combo.
Proof.
  unfold zip_dict. intros Hk.
  enough (forall d, NoDup (d.*1 ++ keys) ->
    foldl (fun d p => dict_put p.1 p.2 d) d (zip keys combo) = d ++ zip keys combo) as H by by rewrite H.
  clear Hk. revert combo. induction keys as [|k keys IH]; intros [|c combo] d Hd; cbn; try by rewrite app_nil_r.
  rewrite dict_put_fresh.
  - rewrite IH; [by rewrite <-app_assoc|]. rewrite fmap_app. cbn. by rewrite <-app_assoc.
  - apply NoDup_app in Hd as (_ & Hd & _). intros Hin. apply (Hd k Hin). left.
Qed.

Lemma zip_fmap_fst {A B} (l : list A) (k : list B) : length l = length k -> (zip l k).*1 = l.
Proof. revert k. induction l as [|x l IH]; intros [|y k] [=]; cbn; [done|]. by rewrite IH. Qed.

Lemma zip_inj_r {A B} (l : list A) (j k : list B) :
  length l = length j -> length l = length k -> zip l j = zip l k -> j = k.
Proof.
  revert j k. induction l as [|x l IH]; intros [|y j] [|z k] [=] [=]; cbn; [done|].
  intros [= -> E]. f_equal. by apply IH.
Qed.

Lemma lookup_index_map {A B} (f : Z -> A -> B) l i :
  index_map f l !! i = f (Z.of_nat i) <$> l !! i.
Proof. unfold index_map. by rewrite list_lookup_imap. Qed.

Lemma values_of_ok table dimensions values :
  values_of table dimensions = Ok values ->
  Forall2 (fun d v => assoc d table = Some v) dimensions values.
Proof.
  unfold values_of. intros H%traverse_ok. eapply Forall2_impl; [exact H|]. intros d v. cbn.
  destruct (assoc d table); by intros [= ->].
Qed.

Lemma round_robin_in controls i : controls ≠ [] -> 0 <= i -> round_robin controls i ∈ controls.
Proof.
  intros Hc Hi. unfold round_robin. apply list_elem_of_In, nth_In.
  destruct controls as [|c l]; [done|]. cbn [length].
  pose proof (Z.mod_pos_bound i (Z.of_nat (S (length l)))). lia.
Qed.

Lemma round_robin_hits controls c :
  c ∈ controls -> exists i, (i < length controls)%nat /\ round_robin controls (Z.of_nat i) = c.
Proof.
  intros [i Hi]%list_elem_of_lookup. exists i.
  assert (i < length controls)%nat as Hl by (by eapply lookup_lt_Some).
  split; [done|]. unfold round_robin. rewrite Z.mod_small by lia. rewrite Nat2Z.id.
  by apply nth_lookup_Some with (d := "") in Hi.
Qed.

(** ** What both planners promise *)

(** A plan over a table of dimension values: numbered cells with legal values, no two alike, all
    combinations unless the bound cuts them off, and the controls in turn. *)
Definition grid {C} (table : list (string * list string)) (dims : C -> list (string * string))
    (control id : C -> string) (dimensions controls : list string) (minimum maximum : Z)
    (cells : list C) : Prop :=
  minimum <= Z.of_nat (length cells) <= maximum
  /\ NoDup (id <$> cells)
  /\ (forall c d v, c ∈ cells -> (d, v) ∈ dims c ->
        d ∈ dimensions /\ exists values, assoc d table = Some values /\ v ∈ values)
  /\ (forall c, c ∈ cells -> control c ∈ controls)
  /\ (Z.of_nat (length controls) <= Z.of_nat (length cells) ->
      forall k, k ∈ controls -> exists c, c ∈ cells /\ control c = k)
  /\ (NoDup dimensions ->
      (forall c, c ∈ cells -> (dims c).*1 = dimensions)
      /\ NoDup (dims <$> cells)
      /\ (Z.of_nat (length cells) < maximum ->
          forall combo values, values_of table dimensions = Ok values ->
            Forall2 (fun v vs => v ∈ vs) combo values ->
            exists c, c ∈ cells /\ dims c = zip dimensions combo)).

Section grid.
Context {C : Type} (table : list (string * list string)).
Context (dims : C -> list (string * string)) (control id : C -> string).
Context (dimensions controls : list string) (prefix : string) (cell : Z -> list string -> C).
Hypothesis table_distinct : Forall (fun p => NoDup p.2) table.
Hypothesis controls_given : controls ≠ [].
Hypothesis dims_cell : forall i combo, dims (cell i combo) = zip_dict dimensions combo.
Hypothesis control_cell : forall i combo, control (cell i combo) = round_robin controls i.
Hypothesis id_cell : forall i combo, id (cell i combo) = prefix +:+ pad3 i.

Lemma values_lengths values combo :
  values_of table dimensions = Ok values -> combo ∈ product values -> length dimensions = length combo.
Proof.
  intros Hv%values_of_ok%Forall2_length Hc%elem_of_product%Forall2_length. congruence.
Qed.

Lemma values_distinct values : values_of table dimensions = Ok values -> NoDup (product values).
Proof.
  intros Hv%values_of_ok. apply NoDup_product. apply Forall_forall. intros v Hin.
  apply list_elem_of_lookup in Hin as [i Hi].
  destruct (Forall2_lookup_r _ _ _ _ _ Hv Hi) as (d & _ & Hd%assoc_Some_in).
  rewrite Forall_forall in table_distinct. by apply (table_distinct (d, v)).
Qed.

Lemma grid_holds values minimum maximum :
  values_of table dimensions = Ok values -> 0 <= maximum ->
  let cells := index_map cell (firstn (Z.to_nat maximum) (product values)) in
  minimum <= Z.of_nat (length cells) ->
  grid table dims control id dimensions controls minimum maximum cells.
Proof.
  intros Hv Hmax cells Hmin. set (combos := firstn _ _) in cells.
  assert (length cells = length combos) as Hlen by apply length_imap.
  assert (forall i combo, combos !! i = Some combo -> combo ∈ product values) as Hcombo.
  { intros i combo Hi%list_elem_of_lookup_2. rewrite <-(List.firstn_skipn (Z.to_nat maximum)).
    apply elem_of_app. by left. }
  assert (forall c, c ∈ cells -> exists i combo, combos !! i = Some combo /\ c = cell (Z.of_nat i) combo)
    as Hcell.
  { intros c [i Hi]%list_elem_of_lookup. unfold cells in Hi. rewrite lookup_index_map in Hi.
    apply fmap_Some in Hi as (combo & Hi & ->). eauto. }
  split. { split; [done|]. rewrite Hlen. unfold combos. rewrite length_firstn. lia. }
  split.
  { apply NoDup_alt. intros i j x Hi Hj. rewrite list_lookup_fmap in Hi. rewrite list_lookup_fmap in Hj.
    unfold cells in Hi, Hj. rewrite lookup_index_map in Hi. rewrite lookup_index_map in Hj.
    destruct (combos !! i), (combos !! j); try done. cbn in Hi, Hj. simplify_eq.
    rewrite !id_cell in Hi. apply Str.append_cancel_l, pad3_inj in Hi; lia. }
  split.
  { intros c d v (i & combo & Hi%Hcombo & ->)%Hcell. rewrite dims_cell.
    intros Hdv%zip_dict_in. split; [by eapply elem_of_zip_l|].
    apply list_elem_of_lookup in Hdv as [j Hj]. apply lookup_zip_Some in Hj as [Hd Hc].
    apply elem_of_product in Hi. destruct (Forall2_lookup_l _ _ _ _ _ Hi Hc) as (vs & Hvs & Hin).
    apply values_of_ok in Hv. destruct (Forall2_lookup_l _ _ _ _ _ Hv Hd) as (vs' & Hvs' & Ht).
    simplify_eq. eauto. }
  split. { intros c (i & combo & _ & ->)%Hcell. rewrite control_cell. apply round_robin_in; [done|lia]. }
  split.
  { intros Hle k (i & Hi & <-)%round_robin_hits.
    destruct (lookup_lt_is_Some_2 cells i) as [c Hc]; [lia|]. exists c.
    split; [by eapply list_elem_of_lookup_2|]. unfold cells in Hc. rewrite lookup_index_map in Hc.
    apply fmap_Some in Hc as (combo & _ & ->). by rewrite control_cell. }
  intros Hnd.
  assert (forall combo, combo ∈ product values -> length dimensions = length combo) as Hl
    by (intros; by eapply values_lengths).
  split.
  { intros c (i & combo & Hi%Hcombo & ->)%Hcell. rewrite dims_cell, zip_dict_distinct by done.
    by apply zip_fmap_fst, Hl. }
  split.
  - assert (dims <$> cells = zip dimensions <$> combos) as ->.
    { apply list_eq. intros i. rewrite !list_lookup_fmap. unfold cells. rewrite lookup_index_map.
      destruct (combos !! i); cbn; [|done]. by rewrite dims_cell, zip_dict_distinct. }
    apply NoDup_alt. intros i j x Hi Hj. rewrite list_lookup_fmap in Hi. rewrite list_lookup_fmap in Hj.
    destruct (combos !! i) as [a|] eqn:Ea; [|done]. destruct (combos !! j) as [b|] eqn:Eb; [|done].
    cbn in Hi, Hj. simplify_eq. apply zip_inj_r in Hi; [|by eapply Hl, Hcombo|by eapply Hl, Hcombo].
    subst b. eapply (NoDup_lookup combos); [|done|done].
    pose proof (values_distinct _ Hv) as Hp. rewrite <-(List.firstn_skipn (Z.to_nat maximum)) in Hp.
    by apply NoDup_app in Hp as [Hp _].
  - intros Hlt combo values' Hv' Hc. rewrite Hv in Hv'. injection Hv' as <-.
    apply elem_of_product in Hc. rewrite Hlen in Hlt. unfold combos in Hlt. rewrite length_firstn in Hlt.
    assert (combos = product values) as E by (unfold combos; apply firstn_all2; lia).
    rewrite <-E in Hc. apply list_elem_of_lookup in Hc as [i Hi].
    exists (cell (Z.of_nat i) combo). split.
    + apply list_elem_of_lookup_2 with i. unfold cells. by rewrite lookup_index_map, Hi.
    + by rewrite dims_cell, zip_dict_distinct.
Qed.
End grid.

Lemma required_tuple_ok `{FloatRepr} r k l : required_tuple r k = Ok l -> l ≠ [].
Proof. unfold required_tuple. destruct (dict_get k r) as [| | | | |[|v vs]|]; by intros [= <-]. Qed.

Lemma traverse_validated {A} (f : A -> result A) `{!Validator f} l l' :
  traverse f l = Ok l' -> l' = l.
Proof.
  intros H%traverse_ok. induction H as [|x y l l' Hx _ IH]; [done|].
  apply validated in Hx as ->. by rewrite IH.
Qed.

Lemma matrix_values_distinct : Forall (fun p => NoDup p.2) DIMENSION_VALUES.
Proof. apply (bool_decide_unpack _). vm_compute. exact I. Qed.

Lemma protocol_values_distinct : Forall (fun p => NoDup p.2) PROTOCOL_DIMENSION_VALUES.
Proof. apply (bool_decide_unpack _). vm_compute. exact I. Qed.

(** ** The two planners and the catalog *)

Section properties.
Context `{FloatRepr} (sha256_json : pyval -> string).

Lemma matrix_grid family max_cells plan :
  build_mutation_matrix sha256_json family max_cells = Ok plan ->
  grid DIMENSION_VALUES MutationMatrixCell.dimension_values MutationMatrixCell.control
    MutationMatrixCell.cell_id plan.(MutationMatrixPlan.dimensions)
    plan.(MutationMatrixPlan.controls) MIN_MEANINGFUL_CELLS max_cells
    plan.(MutationMatrixPlan.cells).
Proof.
  unfold build_mutation_matrix. rewrite raise_if_ok. intros [Hmax Hb]. bool_prop.
  rewrite bind_ok in Hb. destruct Hb as (dimensions & _ & Hb).
  rewrite bind_ok in Hb. destruct Hb as (controls & Hc%required_tuple_ok & Hb).
  rewrite bind_ok in Hb. destruct Hb as (values & Hv & Hb).
  rewrite bind_ok in Hb. destruct Hb as (cells & Hcells & Hb).
  apply (traverse_validated MutationMatrixCell.post_init) in Hcells as ->.
  rewrite raise_if_ok in Hb. destruct Hb as [Hmin [= <-]]. bool_prop. cbn.
  unfold MIN_MEANINGFUL_CELLS in *.
  eapply grid_holds with (prefix := family.(HunterFamilyView.family_id) +:+ ":cell:");
    [apply matrix_values_distinct|done|done|done| |done|lia|lia].
  intros i combo. symmetry. apply Str.append_assoc.
Qed.

(** A mutation matrix has between 30 and [max_cells] cells with pairwise different ids; every
    cell gives legal values to the dimensions asked for, no two cells the same ones, every
    control is used, and no combination is left out unless the bound cuts the matrix off. *)
Theorem mutation_matrix_is_grid family max_cells plan :
  build_mutation_matrix sha256_json family max_cells = Ok plan ->
  grid DIMENSION_VALUES MutationMatrixCell.dimension_values MutationMatrixCell.control
    MutationMatrixCell.cell_id plan.(MutationMatrixPlan.dimensions)
    plan.(MutationMatrixPlan.controls) MIN_MEANINGFUL_CELLS max_cells
    plan.(MutationMatrixPlan.cells).
Proof. apply matrix_grid. Qed.

(** A protocol plan likewise, with 8 to [max_steps] steps. *)
Theorem protocol_plan_is_grid family max_steps plan :
  build_protocol_parser_plan sha256_json family max_steps = Ok plan ->
  grid PROTOCOL_DIMENSION_VALUES ProtocolParserPlanStep.dimension_values
    ProtocolParserPlanStep.control ProtocolParserPlanStep.step_id
    plan.(ProtocolParserPlan.dimensions) plan.(ProtocolParserPlan.controls)
    MIN_PROTOCOL_PLAN_STEPS max_steps plan.(ProtocolParserPlan.steps).
Proof.
  unfold build_protocol_parser_plan. rewrite raise_if_ok. intros [Hmax Hb]. bool_prop.
  do 2 (rewrite bind_ok in Hb; destruct Hb as (? & _ & Hb)).
  rewrite bind_ok in Hb. destruct Hb as (dimensions & _ & Hb).
  rewrite bind_ok in Hb. destruct Hb as (controls & Hc%required_tuple_ok & Hb).
  rewrite bind_ok in Hb. destruct Hb as (values & Hv & Hb).
  rewrite bind_ok in Hb. destruct Hb as (steps & Hsteps & Hb).
  apply (traverse_validated ProtocolParserPlanStep.post_init) in Hsteps as ->.
  rewrite raise_if_ok in Hb. destruct Hb as [Hmin [= <-]]. bool_prop. cbn.
  unfold MIN_PROTOCOL_PLAN_STEPS in *.
  eapply grid_holds with (prefix := family.(HunterFamilyView.family_id) +:+ ":protocol-step:");
    [apply protocol_values_distinct|done|done|done| |done|lia|lia].
  intros i combo. symmetry. apply Str.append_assoc.
Qed.

(** The plan of each family of the catalog can be built. *)
Definition catalog_plans : list (result MutationMatrixPlan.t) :=
  (fun e => rebuild_authoritative_mutation_matrix sha256_json
              e.(MutationMatrixFamilyCatalogEntry.family_name)
              (Some e.(MutationMatrixFamilyCatalogEntry.family_id)))
  <$> MUTATION_MATRIX_FAMILY_CATALOG.

Lemma catalog_builds : forallb is_ok catalog_plans = true.
Proof. vm_compute. reflexivity. Qed.

Lemma catalog_sizes :
  (fun r => match r with Ok p => length p.(MutationMatrixPlan.cells) | Raise _ => 0%nat end)
  <$> catalog_plans = [96; 36; 96; 72; 80; 48; 48; 80; 64]%nat.
Proof. vm_compute. reflexivity. Qed.

Lemma assoc_catalog name entry :
  assoc name CATALOG_BY_NAME = Some entry ->
  entry ∈ MUTATION_MATRIX_FAMILY_CATALOG
  /\ entry.(MutationMatrixFamilyCatalogEntry.family_name) = name.
Proof.
  intros (e & [= -> ->] & He)%assoc_Some_in%list_elem_of_fmap. done.
Qed.

(** The families of the contract are those of the catalog, with the same dimensions. *)
Lemma catalog_required :
  (fun e => (e.(MutationMatrixFamilyCatalogEntry.family_name), e.(MutationMatrixFamilyCatalogEntry.dimensions)))
  <$> MUTATION_MATRIX_FAMILY_CATALOG = FAMILY_REQUIRED_DIMENSIONS.
Proof. reflexivity. Qed.

Lemma rebuild_matrix_ok name id plan :
  rebuild_authoritative_mutation_matrix sha256_json name id = Ok plan ->
  exists entry, entry ∈ MUTATION_MATRIX_FAMILY_CATALOG
    /\ entry.(MutationMatrixFamilyCatalogEntry.family_name) = name
    /\ names_other id entry.(MutationMatrixFamilyCatalogEntry.family_id) = false
    /\ rebuild_authoritative_mutation_matrix sha256_json name
         (Some entry.(MutationMatrixFamilyCatalogEntry.family_id)) = Ok plan.
Proof.
  unfold rebuild_authoritative_mutation_matrix, mutation_family_view.
  destruct (assoc name FAMILY_REQUIRED_DIMENSIONS); [|done].
  destruct (assoc name CATALOG_BY_NAME) as [entry|] eqn:E; [|done].
  rewrite bind_ok. intros (view & Hview & Hb). rewrite raise_if_ok in Hview.
  destruct Hview as [Hid [= <-]]. apply assoc_catalog in E as [Hin Hname].
  exists entry. split; [done|]. split; [done|]. split; [done|].
  cbn. by rewrite String.eqb_refl.
Qed.

(** A cell that is selected by its id is a cell of the matrix the catalog prescribes for the
    family, the only one with that id: a caller can neither mint a cell nor rewrite one, and a
    foreign family id or a stale matrix hash is refused. *)
Theorem selected_cell_is_authoritative name cell_id id hash cell :
  lookup_authoritative_mutation_cell sha256_json name cell_id id hash = Ok cell ->
  exists entry plan,
    entry ∈ MUTATION_MATRIX_FAMILY_CATALOG
    /\ entry.(MutationMatrixFamilyCatalogEntry.family_name) = name
    /\ rebuild_authoritative_mutation_matrix sha256_json name
         (Some entry.(MutationMatrixFamilyCatalogEntry.family_id)) = Ok plan
    /\ cell ∈ plan.(MutationMatrixPlan.cells)
    /\ cell.(MutationMatrixCell.cell_id) = Str.strip cell_id
    /\ (forall other, other ∈ plan.(MutationMatrixPlan.cells) ->
          other.(MutationMatrixCell.cell_id) = Str.strip cell_id -> other = cell)
    /\ (forall i, id = Some i -> i = entry.(MutationMatrixFamilyCatalogEntry.family_id))
    /\ (forall h, hash = Some h -> h = plan.(MutationMatrixPlan.matrix_hash)).
Proof.
  unfold lookup_authoritative_mutation_cell. rewrite raise_if_ok. intros [_ Hb].
  rewrite bind_ok in Hb. destruct Hb as (plan & Hp & Hb). rewrite raise_if_ok in Hb.
  destruct Hb as [Hh Hb]. destruct (List.find _ _) as [c|] eqn:E; [|done].
  rewrite raise_if_ok in Hb. destruct Hb as [_ [= ->]].
  apply find_Some_elem in E as [Hin Heq]. apply String.eqb_eq in Heq.
  destruct (rebuild_matrix_ok _ _ _ Hp) as (entry & He & Hn & Hid & Hr).
  exists entry, plan. do 5 (split; [done|]). split.
  - intros other Ho Hoid. unfold rebuild_authoritative_mutation_matrix in Hr.
    destruct (assoc name FAMILY_REQUIRED_DIMENSIONS); [|done].
    rewrite bind_ok in Hr. destruct Hr as (view & _ & Hr).
    apply matrix_grid in Hr as (_ & Hids & _).
    eapply NoDup_fmap_inj; [exact Hids|done|done|congruence].
  - split.
    + intros i ->. cbn in Hid. apply negb_false_iff, String.eqb_eq in Hid. done.
    + intros h ->. cbn in Hh. apply negb_false_iff, String.eqb_eq in Hh. done.
Qed.
End properties.

(** ** On the families of the code *)

Definition zero_digest (_ : pyval) : string := "0".

Definition cells_of (family_name : string) : list MutationMatrixCell.t :=
  match @rebuild_authoritative_mutation_matrix no_floats zero_digest family_name None with
  | Ok p => p.(MutationMatrixPlan.cells)
  | Raise _ => []
  end.

Definition used (dimension : string) (cells : list (list (string * string))) : list string :=
  rev (dedupe (rev (omap (M:=list) (assoc dimension) cells))).

(** The product of the SQL injection family has 144 cells, of which the bound keeps 96: the last
    two values of its first dimension are never planned. *)
Example sqli_header_never_planned :
  used "input_vector" (MutationMatrixCell.dimension_values <$> cells_of "SQL_INJECTION")
  = ["query"; "path"; "json_body"; "form_body"].
Proof. vm_compute. reflexivity. Qed.

(** Where the number of controls divides that of the last dimension, each value of that dimension
    is planned under one control only. *)
Example ssti_raw_has_one_control :
  dedupe (MutationMatrixCell.control
          <$> List.filter (fun c => bool_decide (assoc "encoding" c.(MutationMatrixCell.dimension_values) = Some "raw"))
                (cells_of "SERVER_SIDE_TEMPLATE_INJECTION"))
  = ["secure_fixture"].
Proof. vm_compute. reflexivity. Qed.

(** The cache poisoning family. *)
Definition cache_family : HunterFamilyView.t :=
  HunterFamilyView.mk "hf-http-cache" "HTTP_CACHE_POISONING_DECEPTION" ["HTTP_OPERATION"] [] ""
    [ ("protocol_lane", PStr "http_cache_poisoning_deception");
      ("required_surface_signals", PList [PStr "cache"]);
      ("required_protocol_dimensions",
       PList [PStr "cache_key_dimension"; PStr "cache_behavior"; PStr "proxy_layer"]);
      ("required_controls", PList [PStr "secure_fixture"; PStr "deceptive_fixture"]) ]
    "V3" true 1.

Definition cache_plan : result ProtocolParserPlan.t :=
  @build_protocol_parser_plan no_floats zero_digest cache_family MAX_PROTOCOL_PLAN_STEPS.

(** Of its 80 steps 48 are planned, and none with a query or header cache key. *)
Example cache_query_key_never_planned :
  match cache_plan with
  | Ok p => used "cache_key_dimension" (ProtocolParserPlanStep.dimension_values <$> p.(ProtocolParserPlan.steps))
            = ["host"; "scheme"; "path"]
  | Raise _ => False
  end.
Proof. vm_compute. reflexivity. Qed.

Definition ssti_view : HunterFamilyView.t :=
  HunterFamilyView.mk "hf-ssti" "SERVER_SIDE_TEMPLATE_INJECTION" [] [] ""
    [ ("required_matrix_dimensions", PList [PStr "template_engine_probe"; PStr "encoding"]);
      ("required_controls", PList [PStr "secure_fixture"; PStr "deceptive_fixture"]) ] "V3" true 1.

Lemma mutation_matrix_is_grid_witness :
  exists plan, @build_mutation_matrix no_floats zero_digest ssti_view 96 = Ok plan
    /\ length plan.(MutationMatrixPlan.cells) = 36%nat
    /\ NoDup (MutationMatrixCell.cell_id <$> plan.(MutationMatrixPlan.cells)).
Proof.
  destruct (@build_mutation_matrix no_floats zero_digest ssti_view 96) as [plan|e] eqn:E;
    [|vm_compute in E; discriminate].
  exists plan. split; [reflexivity|]. split.
  - transitivity (match @build_mutation_matrix no_floats zero_digest ssti_view 96 with
                  | Ok p => length p.(MutationMatrixPlan.cells) | Raise _ => 0%nat end);
      [rewrite E; reflexivity|vm_compute; reflexivity].
  - apply (@mutation_matrix_is_grid no_floats zero_digest ssti_view 96 plan E).
Defined.

Lemma selected_cell_is_authoritative_witness :
  exists cell,
    @lookup_authoritative_mutation_cell no_floats zero_digest "CORS_CREDENTIAL_EXFILTRATION_CHAIN"
      " hf-cors:cell:007 " (Some "hf-cors") None = Ok cell
    /\ cell.(MutationMatrixCell.cell_id) = "hf-cors:cell:007".
Proof.
  destruct (@lookup_authoritative_mutation_cell no_floats zero_digest "CORS_CREDENTIAL_EXFILTRATION_CHAIN"
      " hf-cors:cell:007 " (Some "hf-cors") None) as [cell|e] eqn:E; [|vm_compute in E; discriminate].
  exists cell. split; [reflexivity|].
  destruct (@selected_cell_is_authoritative no_floats zero_digest _ _ _ _ _ E)
    as (entry & plan & _ & _ & _ & _ & Hid & _). exact Hid.
Defined.
