(* ===== verification/HttpPolicy.v ===== *)
(** * Argument policies of the HTTP capabilities

    [tools/http_transaction_policy.py], [tools/http_authentication_policy.py],
    [tools/http_raw_exchange_policy.py] and [tools/browser_page_policy.py], and the schema check
    of [tools/registry.py] in front of them.  An issue is its reason code; the JSON Schema
    validator is a parameter: the keyword its first error names.  The origin is split by
    [urlsplit], which may raise. *)
From S2P Require Import Prelude PyVal PyUrl.

(** [tools/registry.py:56-58 ArgumentValidationIssue] *)
Definition ArgumentValidationIssue : Set := string.

(** The result of a policy: no issue, an issue, or the exception of [urlsplit]. *)
Abbreviation verdict := (result (option ArgumentValidationIssue)).

Definition invalid : ArgumentValidationIssue := "INVALID_ARGUMENT_TYPE".
Definition unexpected : ArgumentValidationIssue := "UNEXPECTED_ARGUMENT".
Definition unknown_action : ArgumentValidationIssue := "UNKNOWN_ACTION".

(** [if b: return ArgumentValidationIssue(code, ...)] *)
Definition issue_if (b : bool) (code : ArgumentValidationIssue) (rest : verdict) : verdict :=
  if b then Ok (Some code) else rest.

Notation "'issue' c 'if' b ;; k" := (issue_if b c k)
  (at level 100, c at level 99, b at level 99, k at level 200, right associativity).

(** [issue = f(...)] and [if issue is not None: return issue] *)
Definition and_then (r rest : verdict) : verdict :=
  i ← r; match i with Some code => Ok (Some code) | None => rest end.

(** [Draft202012Validator(schema).validate(arguments)]: the keyword of the error it raises. *)
Class JsonSchema : Type :=
  schema_error : list (string * pyval) -> list (string * pyval) -> option string.

(** [tools/registry.py:146-154 _issue_from_jsonschema] *)
Definition issue_from_jsonschema (validator : string) : ArgumentValidationIssue :=
  if (validator =? "required")%string then "MISSING_REQUIRED_ARGUMENT"
  else if (validator =? "additionalProperties")%string then unexpected
  else invalid.

(** [tools/registry.py:134-143 validate_action_arguments] *)
Definition validate_action_arguments `{JsonSchema} (schema arguments : list (string * pyval))
    : option ArgumentValidationIssue :=
  issue_from_jsonschema <$> schema_error schema arguments.

(** ** What the policies share *)

(** [tools/http_transaction_policy.py:30 CRLF_MARKERS] *)
Definition CRLF_MARKERS : list string := [String "013" ""; String "010" ""; String "000" ""].

Definition has_crlf (s : string) : bool := existsb (Str.contains s) CRLF_MARKERS.

(** [tools/http_transaction_policy.py:113-126 _path_issue] *)
Definition path_issue (path : string) (rest : verdict) : verdict :=
  let lowered := Str.lower path in
  issue invalid if has_crlf path;;
  issue invalid if Str.starts_with path "//" || Str.contains path "://";;
  issue invalid if Str.contains path "\" || Str.contains path "/../" || Str.ends_with path "/.."
                   || Str.contains path "/./" || Str.ends_with path "/.";;
  issue invalid if Str.contains path "%"
                   && (Str.contains lowered "%2f" || Str.contains lowered "%2e");;
  issue invalid if negb (Str.starts_with path "/");;
  issue invalid if Str.contains path "//";;
  rest.

(** [not isinstance(v, str) or not v.strip()] *)
Definition not_text (v : pyval) : bool :=
  match v with PStr s => Str.is_blank s | _ => true end.

Definition crlf_in (v : pyval) : bool := match v with PStr s => has_crlf s | _ => false end.

(** [isinstance(k, str)] on the keys of a JSON object is always true. *)
Definition text_pair (p : string * pyval) : bool := match p.2 with PStr _ => true | _ => false end.

Section policies.
Context `{NetlocCheck}.

(** The checks of the origin, the same in the four policies.
    [tools/http_transaction_policy.py:63-74 validate_http_transaction_arguments] *)
Definition origin_issue (origin : pyval) (rest : verdict) : verdict :=
  match origin with
  | PStr o =>
      issue invalid if Str.is_blank o;;
      issue invalid if has_crlf o;;
      parsed ← Url.urlsplit (Str.strip o);
      issue invalid if negb (mem parsed.(Url.path) [""; "/"]);;
      issue invalid if negb (Str.is_empty parsed.(Url.query) && Str.is_empty parsed.(Url.fragment));;
      rest
  | _ => Ok (Some invalid)
  end.

(** ** [http.transaction] *)

(** [tools/http_transaction_policy.py:13-26 FORBIDDEN_REQUEST_HEADERS] *)
Definition FORBIDDEN_REQUEST_HEADERS : list string :=
  [ "host"; "content-length"; "transfer-encoding"; "connection"; "proxy-authorization";
    "proxy-connection"; "authorization"; "cookie"; "cookie2"; "set-cookie" ].
(** [tools/http_transaction_policy.py:27 ALLOWED_READ_METHODS] *)
Definition ALLOWED_READ_METHODS : list string := ["GET"; "HEAD"; "OPTIONS"].
(** [tools/http_transaction_policy.py:28 ALLOWED_MUTATE_METHODS] *)
Definition ALLOWED_MUTATE_METHODS : list string := ["POST"; "PUT"; "PATCH"; "DELETE"].
(** [tools/http_transaction_policy.py:29 MAX_HEADER_NAME_LENGTH] *)
Definition MAX_HEADER_NAME_LENGTH : nat := 64.

(** [ch.isalnum() or ch == "-"] *)
Definition is_header_char (c : ascii) : bool :=
  let n := Str.code c in
  Url.is_alpha c || ((48 <=? n)%nat && (n <=? 57)%nat) || Ascii.eqb c "-".

(** [tools/http_transaction_policy.py:129-142 _headers_issue] *)
Fixpoint headers_issue (headers : list (string * pyval)) (rest : verdict) : verdict :=
  match headers with
  | [] => rest
  | (name, value) :: headers' =>
      issue invalid if negb (text_pair (name, value));;
      issue invalid if has_crlf name || crlf_in value;;
      issue invalid if (MAX_HEADER_NAME_LENGTH <? String.length name)%nat;;
      issue unexpected if mem (Str.lower name) FORBIDDEN_REQUEST_HEADERS;;
      issue invalid if negb (forallb is_header_char (String.list_ascii_of_string name));;
      headers_issue headers' rest
  end.

(** [tools/http_transaction_policy.py:88-92 validate_http_transaction_arguments] *)
Fixpoint query_issue (query : list (string * pyval)) (rest : verdict) : verdict :=
  match query with
  | [] => rest
  | (key, value) :: query' =>
      issue invalid if negb (text_pair (key, value));;
      issue invalid if has_crlf key || crlf_in value;;
      query_issue query' rest
  end.

(** [arguments.get(key) or {}] and [isinstance(..., Mapping)] *)
Definition object_or_empty (v : pyval) : option (list (string * pyval)) :=
  if truthy v then match v with PDict d => Some d | _ => None end else Some [].

(** [tools/http_transaction_policy.py:93-102 validate_http_transaction_arguments] *)
Definition body_issue (action_id : string) (body : pyval) (rest : verdict) : verdict :=
  match body with
  | PNone => rest
  | _ =>
      issue unexpected if (action_id =? "read")%string;;
      match body with
      | PStr b =>
          let cr := String "013" "" in
          let lf := String "010" "" in
          issue invalid if (Str.contains b cr || Str.contains b lf)
                           && Str.contains b (cr +:+ lf +:+ cr +:+ lf);;
          issue invalid if Str.starts_with (Str.lower (Str.strip b)) "file:";;
          rest
      | _ => Ok (Some invalid)
      end
  end.

(** [tools/http_transaction_policy.py:103-110 validate_http_transaction_arguments] *)
Definition session_issue (session_ref : pyval) (rest : verdict) : verdict :=
  match session_ref with
  | PNone => rest
  | _ =>
      issue invalid if not_text session_ref;;
      issue invalid if crlf_in session_ref;;
      rest
  end.

(** [tools/http_transaction_policy.py:45-110 validate_http_transaction_arguments] *)
Definition validate_http_transaction_arguments (action_id : string)
    (arguments : list (string * pyval)) : verdict :=
  match dict_get "method" arguments with
  | PStr method =>
      issue invalid if (action_id =? "read")%string && negb (mem method ALLOWED_READ_METHODS);;
      issue invalid if (action_id =? "mutate")%string && negb (mem method ALLOWED_MUTATE_METHODS);;
      match dict_get "path" arguments with
      | PStr path =>
          path_issue path (origin_issue (dict_get "authorized_origin" arguments) (
          match object_or_empty (dict_get "headers" arguments) with
          | None => Ok (Some invalid)
          | Some headers =>
              headers_issue headers
                match object_or_empty (dict_get "query" arguments) with
                | None => Ok (Some invalid)
                | Some query =>
                    query_issue query (body_issue action_id (dict_get "body" arguments)
                      (session_issue (dict_get "session_context_reference" arguments) (Ok None)))
                end
          end))
      | _ => Ok (Some invalid)
      end
  | _ => Ok (Some invalid)
  end.

(** ** [http.authentication] *)

(** [name in arguments] *)
Definition has_key (k : string) (d : list (string * pyval)) : bool := mem k d.*1.

(** The loop over the required texts.
    [tools/http_authentication_policy.py:45-56 validate_http_authentication_arguments] *)
Fixpoint texts_issue (names : list string) (arguments : list (string * pyval)) (rest : verdict)
    : verdict :=
  match names with
  | [] => rest
  | name :: names' =>
      issue invalid if not_text (dict_get name arguments);;
      issue invalid if crlf_in (dict_get name arguments);;
      texts_issue names' arguments rest
  end.

(** [tools/http_authentication_policy.py:13-70 validate_http_authentication_arguments] *)
Definition validate_http_authentication_arguments (action_id : string)
    (arguments : list (string * pyval)) : verdict :=
  issue unknown_action if negb (action_id =? "login")%string;;
  origin_issue (dict_get "authorized_origin" arguments)
    match dict_get "path" arguments with
    | PStr path =>
        path_issue path (
        texts_issue ["username"; "username_field"; "password_secret_name"; "session_cookie_name";
                     "session_context_id"] arguments (
        session_issue (dict_get "identity_id" arguments) (
        issue unexpected if has_key "headers" arguments;;
        let lowered_keys := Str.lower <$> arguments.*1 in
        issue unexpected if mem "cookie" lowered_keys;;
        issue unexpected if mem "authorization" lowered_keys;;
        Ok None)))
    | _ => Ok (Some invalid)
    end.

(** ** [http.raw_exchange] *)

(** [tools/http_raw_exchange_policy.py:11-27 ALLOWED_PROFILES] *)
Definition ALLOWED_PROFILES : list string :=
  [ "http1_canonical"; "http1_header_case_fold"; "http1_absolute_uri"; "http1_cl_te";
    "http1_te_cl"; "http1_connection_reuse"; "http2_preface"; "h2c_upgrade"; "http1_cache_host";
    "http1_cache_scheme"; "http1_cache_path"; "http1_cache_query"; "http1_cache_header" ].
(** [tools/http_raw_exchange_policy.py:28-30 ALLOWED_LANES] *)
Definition ALLOWED_LANES : list string :=
  ["http_request_smuggling_desync"; "http_cache_poisoning_deception"].

(** [not isinstance(v, str) or v not in allowed] *)
Definition not_one_of (allowed : list string) (v : pyval) : bool :=
  match v with PStr s => negb (mem s allowed) | _ => true end.

(** [tools/http_raw_exchange_policy.py:33-68 validate_http_raw_exchange_arguments] *)
Definition validate_http_raw_exchange_arguments (action_id : string)
    (arguments : list (string * pyval)) : verdict :=
  issue invalid if negb (action_id =? "probe")%string;;
  origin_issue (dict_get "authorized_origin" arguments)
    match dict_get "path" arguments with
    | PStr path =>
        issue invalid if negb (Str.starts_with path "/");;
        issue invalid if has_crlf path;;
        issue invalid if Str.starts_with path "//" || Str.contains path "://";;
        issue invalid if not_one_of ALLOWED_PROFILES (dict_get "framing_profile" arguments);;
        issue invalid if not_one_of ALLOWED_LANES (dict_get "lane" arguments);;
        issue invalid if not_text (dict_get "control" arguments);;
        issue invalid if crlf_in (dict_get "control" arguments);;
        Ok None
    | _ => Ok (Some invalid)
    end.

(** ** [browser.page] *)

(** [tools/browser_page_policy.py:11 INTERACT_KINDS] *)
Definition INTERACT_KINDS : list string := ["click"; "fill"; "select"; "submit"].
(** [tools/browser_page_policy.py:13-24 FORBIDDEN_VALUE_TOKENS] *)
Definition FORBIDDEN_VALUE_TOKENS : list string :=
  [ "cookie"; "set-cookie"; "authorization"; "proxy-authorization"; "password"; "token"; "secret";
    "bearer" ].
(** [tools/browser_page_policy.py:25 FORBIDDEN_SELECTORS] *)
Definition FORBIDDEN_SELECTORS : list string :=
  ["css="; "xpath="; "//"; ">>"; "document.query"; "javascript:"].

(** [tools/browser_page_policy.py:68-91 _interact_issue] *)
Definition interact_issue (arguments : list (string * pyval)) : verdict :=
  match dict_get "kind" arguments with
  | PStr kind =>
      issue invalid if negb (mem kind INTERACT_KINDS);;
      texts_issue ["browser_context_reference"; "page_reference"; "element_reference";
                   "snapshot_fingerprint"] arguments
        (let fill_value := dict_get "value" arguments in
         if mem kind ["fill"; "select"]
         then match fill_value with
              | PStr value =>
                  let lowered := Str.lower value in
                  issue invalid if has_crlf value;;
                  issue unexpected if existsb (Str.contains lowered) FORBIDDEN_VALUE_TOKENS;;
                  issue unexpected if existsb (Str.contains lowered) FORBIDDEN_SELECTORS;;
                  Ok None
              | _ => Ok (Some invalid)
              end
         else match fill_value with PNone => Ok None | _ => Ok (Some unexpected) end)
  | _ => Ok (Some invalid)
  end.

(** [tools/browser_page_policy.py:28-65 validate_browser_page_arguments] *)
Definition validate_browser_page_arguments (action_id : string)
    (arguments : list (string * pyval)) : verdict :=
  origin_issue (dict_get "authorized_origin" arguments)
    match dict_get "path" arguments with
    | PStr path =>
        path_issue path (
        issue unexpected if existsb (fun k => mem (Str.lower k)
                                       ["selector"; "css"; "xpath"; "javascript"; "script"])
                              arguments.*1;;
        session_issue (dict_get "session_context_reference" arguments) (
        if (action_id =? "interact")%string then interact_issue arguments
        else if mem action_id ["observe"; "navigate"]
        then issue unexpected if has_key "kind" arguments || has_key "value" arguments
                                 || has_key "element_reference" arguments;;
             Ok None
        else Ok (Some unknown_action)))
    | _ => Ok (Some invalid)
    end.

(** [tools/http_transaction_policy.py:33-42 extra_argument_validator_for] *)
Definition extra_argument_validator_for (capability_id : string)
    : option (string -> list (string * pyval) -> verdict) :=
  if (capability_id =? "http.transaction")%string then Some validate_http_transaction_arguments
  else if (capability_id =? "http.authentication")%string
  then Some validate_http_authentication_arguments
  else if (capability_id =? "browser.page")%string then Some validate_browser_page_arguments
  else if (capability_id =? "http.raw_exchange")%string
  then Some validate_http_raw_exchange_arguments
  else None.
End policies.

(** ** What is accepted *)

Lemma issue_if_None b code rest : issue_if b code rest = Ok None <-> b = false /\ rest = Ok None.
Proof. unfold issue_if. destruct b; naive_solver. Qed.

(** What ends the segment of a path. *)
Definition segment_end (c : ascii) (b : string) : Prop := b = "" \/ exists b', b = String c b'.

Lemma segment_of_join c l x :
  x ∈ l ->
  exists b, segment_end c b /\ (Str.join c l = x +:+ b \/ exists a, Str.join c l = a +:+ String c (x +:+ b)).
Proof.
  induction l as [|y l IH]; [by intros ?%elem_of_nil|]. intros [->|Hx]%elem_of_cons.
  - destruct l as [|z l]; cbn [Str.join].
    + exists "". split; [by left|]. left. by rewrite Str.append_nil_r.
    + exists (String c (Str.join c (z :: l))). split; [right; by eexists|]. by left.
  - destruct (IH Hx) as (b & Hb & E). exists b. split; [done|]. right.
    destruct l as [|z l]; [by apply elem_of_nil in Hx|]. change (Str.join c (y :: z :: l))
      with (y +:+ String c (Str.join c (z :: l))).
    destruct E as [->|[a ->]]; [by exists y|]. exists (y +:+ String c a).
    by rewrite Str.append_assoc.
Qed.

Lemma segment_occurs path x :
  Str.starts_with path "/" = true -> x ∈ Str.split "/" path -> x <> "" ->
  Str.contains path ("/" +:+ x +:+ "/") = true \/ Str.ends_with path ("/" +:+ x) = true.
Proof.
  intros Hs Hx Hne. apply Str.starts_with_true in Hs as [r ->].
  change ("/" +:+ r) with (String "/" r) in Hx |- *. cbn [Str.split] in Hx.
  rewrite Ascii.eqb_refl in Hx. apply elem_of_cons in Hx as [->|Hx]; [done|].
  apply (segment_of_join "/") in Hx as (b & Hb & E). rewrite Str.join_split in E.
  assert (exists a, String "/" r = a +:+ String "/" (x +:+ b)) as [a ->].
  { destruct E as [->|[a ->]]; [by exists ""|by exists (String "/" a)]. }
  destruct Hb as [->|[b' ->]].
  - right. apply Str.ends_with_true. exists a. by rewrite Str.append_nil_r.
  - left. apply Str.contains_true. exists a, b'. cbn. by rewrite Str.append_assoc.
Qed.

(** A path that is one whatever reads it: absolute, in one piece, without dot segments, encoded
    dots and slashes, or backslashes. *)
Definition plain_path (path : string) : Prop :=
  Str.starts_with path "/" = true /\ has_crlf path = false
  /\ Str.contains path "\" = false /\ Str.contains path "//" = false
  /\ (forall x, x ∈ Str.split "/" path -> x <> "." /\ x <> "..")
  /\ Str.contains (Str.lower path) "%2f" = false /\ Str.contains (Str.lower path) "%2e" = false.

Lemma lower_percent c : Str.lower_ascii c = "%"%char -> c = "%"%char.
Proof. destruct c as [[] [] [] [] [] [] [] []]; vm_compute; congruence. Qed.

Lemma contains_lower_percent path p :
  Str.contains path "%" = false -> Str.contains (Str.lower path) (String "%" p) = false.
Proof.
  induction path as [|c path IH]; [done|]. cbn [Str.contains Str.lower].
  rewrite !orb_false_iff. intros [Hc Hp]. split; [|by apply IH].
  apply not_true_iff_false. intros [r [= E _]]%Str.starts_with_true.
  apply not_true_iff_false in Hc. apply Hc. rewrite (lower_percent c E).
  apply (Str.starts_with_true (String "%" path) "%"). by exists path.
Qed.

Lemma path_issue_None path rest :
  path_issue path rest = Ok None -> plain_path path /\ rest = Ok None.
Proof.
  unfold path_issue. rewrite !issue_if_None. intros (H1 & H2 & H3 & H4 & H5 & H6 & Hr).
  split; [|done]. rewrite !orb_false_iff in H3. destruct H3 as ((((Hb & Hdd) & Hedd) & Hd) & Hed).
  apply negb_false_iff in H5.
  split; [done|]. split; [done|]. split; [done|]. split; [done|]. split.
  - intros x Hx. split; intros ->; destruct (segment_occurs _ _ H5 Hx); try done.
    + cbn in *. congruence.
    + cbn in *. congruence.
    + cbn in *. congruence.
    + cbn in *. congruence.
  - destruct (Str.contains path "%") eqn:Ep.
    + cbn in H4. by apply orb_false_iff in H4.
    + split; by apply contains_lower_percent.
Qed.

Lemma body_issue_None action body rest :
  body_issue action body rest = Ok None ->
  rest = Ok None
  /\ (body = PNone \/ (action =? "read")%string = false /\ exists b, body = PStr b).
Proof.
  destruct body; cbn; try by intros ->; auto.
  all: rewrite issue_if_None; intros [Ha H]; try done.
  rewrite !issue_if_None in H. destruct H as (_ & _ & H). eauto.
Qed.

Lemma session_issue_None v rest : session_issue v rest = Ok None -> rest = Ok None.
Proof. unfold session_issue. destruct v; rewrite ?issue_if_None; tauto. Qed.

Lemma query_issue_None q rest :
  query_issue q rest = Ok None ->
  rest = Ok None
  /\ forall k v, (k, v) ∈ q -> has_crlf k = false /\ exists s, v = PStr s /\ has_crlf s = false.
Proof.
  induction q as [|[k v] q IH]; cbn [query_issue].
  - intros ->. split; [done|]. by intros ? ? ?%elem_of_nil.
  - rewrite !issue_if_None. intros (Ht & Hc & H). destruct (IH H) as [Hr Hq]. split; [done|].
    intros k' v' [[= -> ->]|Hin]%elem_of_cons; [|by apply Hq].
    apply orb_false_iff in Hc as [Hk Hv]. split; [done|].
    destruct v; try discriminate Ht. by eexists.
Qed.

(** A header that cannot take over the connection, the identity or the framing. *)
Definition plain_header (name : string) (value : pyval) : Prop :=
  (Str.lower name ∉ FORBIDDEN_REQUEST_HEADERS) /\ has_crlf name = false
  /\ (String.length name <= MAX_HEADER_NAME_LENGTH)%nat
  /\ exists s, value = PStr s /\ has_crlf s = false.

Lemma headers_issue_None h rest :
  headers_issue h rest = Ok None ->
  rest = Ok None /\ forall n v, (n, v) ∈ h -> plain_header n v.
Proof.
  induction h as [|[n v] h IH]; cbn [headers_issue].
  - intros ->. split; [done|]. by intros ? ? ?%elem_of_nil.
  - rewrite !issue_if_None. intros (Ht & Hc & Hl & Hf & _ & H). destruct (IH H) as [Hr Hh].
    split; [done|]. intros n' v' [[= -> ->]|Hin]%elem_of_cons; [|by apply Hh].
    apply orb_false_iff in Hc as [Hn Hv]. split; [by apply mem_false|]. split; [done|].
    split; [by apply Nat.ltb_ge in Hl|]. destruct v; try discriminate Ht. by eexists.
Qed.

Section safety.
Context `{NetlocCheck}.

(** The origin is an origin: neither path nor query nor fragment. *)
Definition bare_origin (origin : string) : Prop :=
  has_crlf origin = false /\ Str.is_blank origin = false
  /\ exists u, Url.urlsplit (Str.strip origin) = Ok u
      /\ u.(Url.path) ∈ [""; "/"] /\ u.(Url.query) = "" /\ u.(Url.fragment) = "".

Lemma origin_issue_None v rest :
  origin_issue v rest = Ok None -> rest = Ok None /\ exists o, v = PStr o /\ bare_origin o.
Proof.
  destruct v; cbn; try done. rewrite !issue_if_None. intros (Hb & Hc & Hu).
  rewrite bind_ok in Hu. destruct Hu as (u & Hu & Hr). rewrite !issue_if_None in Hr.
  destruct Hr as (Hp & Hq & Hr). split; [done|]. eexists. split; [done|].
  split; [done|]. split; [done|]. exists u. split; [done|].
  apply negb_false_iff in Hp. apply mem_true in Hp. split; [done|].
  apply negb_false_iff, andb_true_iff in Hq as [Hq Hf].
  by apply Str.is_empty_true in Hq, Hf.
Qed.

Lemma accepted_plain action arguments :
  validate_http_transaction_arguments action arguments = Ok None ->
  (exists method, dict_get "method" arguments = PStr method
     /\ (action = "read" -> method ∈ ALLOWED_READ_METHODS)
     /\ (action = "mutate" -> method ∈ ALLOWED_MUTATE_METHODS))
  /\ (exists path, dict_get "path" arguments = PStr path /\ plain_path path)
  /\ (exists origin, dict_get "authorized_origin" arguments = PStr origin /\ bare_origin origin)
  /\ (action = "read" -> dict_get "body" arguments = PNone)
  /\ (forall headers n v, dict_get "headers" arguments = PDict headers -> (n, v) ∈ headers ->
        plain_header n v)
  /\ (forall query k v, dict_get "query" arguments = PDict query -> (k, v) ∈ query ->
        has_crlf k = false /\ exists s, v = PStr s /\ has_crlf s = false).
Proof.
  unfold validate_http_transaction_arguments.
  destruct (dict_get "method" arguments) as [| | | |method| |]; try done.
  rewrite !issue_if_None. intros (Hread & Hmut & H1).
  destruct (dict_get "path" arguments) as [| | | |path| |]; try done.
  apply path_issue_None in H1 as [Hpath H1]. apply origin_issue_None in H1 as [H1 Horigin].
  destruct (object_or_empty (dict_get "headers" arguments)) as [hs|] eqn:Eh; [|done].
  apply headers_issue_None in H1 as [H1 Hhs].
  destruct (object_or_empty (dict_get "query" arguments)) as [qs|] eqn:Eq; [|done].
  apply query_issue_None in H1 as [H1 Hqs]. apply body_issue_None in H1 as [H1 Hbody].
  assert (forall k d l, object_or_empty (dict_get k arguments) = Some l ->
            dict_get k arguments = PDict d -> forall p, p ∈ d -> p ∈ l) as Hobj.
  { intros k d l Hl Hd p Hp. rewrite Hd in Hl. unfold object_or_empty in Hl. cbn in Hl.
    destruct d; [by apply elem_of_nil in Hp|]. cbn in Hl. by simplify_eq. }
  split; [|split; [eauto|split; [done|split; [|split]]]].
  - exists method. split; [done|]. split; intros ->; cbn in *.
    + apply negb_false_iff in Hread. by apply mem_true.
    + apply negb_false_iff in Hmut. by apply mem_true.
  - intros ->. destruct Hbody as [|[? _]]; done.
  - intros headers n v Hh Hin. by apply Hhs, (Hobj _ _ _ Eh Hh).
  - intros query k v Hq Hin. by apply Hqs, (Hobj _ _ _ Eq Hq).
Qed.

(** Arguments the policy of [http.transaction] accepts cannot escape the authorized request:
    the method belongs to the action, reads carry no body, the origin is a bare origin, the path
    is absolute without dot segments, encoded dots or slashes, and no header names a credential,
    the host or the framing, nor does any part contain a line break. *)
Theorem accepted_http_arguments_are_plain action arguments :
  validate_http_transaction_arguments action arguments = Ok None ->
  (exists method, dict_get "method" arguments = PStr method
     /\ (action = "read" -> method ∈ ALLOWED_READ_METHODS)
     /\ (action = "mutate" -> method ∈ ALLOWED_MUTATE_METHODS))
  /\ (exists path, dict_get "path" arguments = PStr path /\ plain_path path)
  /\ (exists origin, dict_get "authorized_origin" arguments = PStr origin /\ bare_origin origin)
  /\ (action = "read" -> dict_get "body" arguments = PNone)
  /\ (forall headers n v, dict_get "headers" arguments = PDict headers -> (n, v) ∈ headers ->
        plain_header n v)
  /\ (forall query k v, dict_get "query" arguments = PDict query -> (k, v) ∈ query ->
        has_crlf k = false /\ exists s, v = PStr s /\ has_crlf s = false).
Proof. apply accepted_plain. Qed.
End safety.

Definition with_path (path : string) : list (string * pyval) :=
  [ ("authorized_origin", PStr "https://app.example.com"); ("method", PStr "GET");
    ("path", PStr path); ("headers", PDict [("Accept", PStr "*/*")]) ].

(** Dot segments, the host header and a body on a read are refused. *)
Example http_policy_refuses :
  @validate_http_transaction_arguments (fun _ => true) "read" (with_path "/api/../admin") = Ok (Some invalid)
  /\ @validate_http_transaction_arguments (fun _ => true) "read"
       (with_path "/a" ++ [("body", PStr "x")]) = Ok (Some unexpected)
  /\ @validate_http_transaction_arguments (fun _ => true) "read"
       [ ("authorized_origin", PStr "https://h"); ("method", PStr "GET"); ("path", PStr "/");
         ("headers", PDict [("Authorization", PStr "Bearer null")]) ] = Ok (Some unexpected).
Proof. done. Qed.

Lemma accepted_http_arguments_are_plain_witness : plain_path "/api/v1".
Proof.
  destruct (@accepted_http_arguments_are_plain (fun _ => true) "read" (with_path "/api/v1"))
    as (_ & (path & [= <-] & Hp) & _); [reflexivity|exact Hp].
Defined.
