(* ===== verification/Compiler.v ===== *)
(** * From an untrusted intent to a bound plan

    [research/types.py], [research/compiler.py], [research/planning.py],
    [research/http_transaction.py] and [application/capability_binding.py].  The registry, read
    from packaged files, the JSON Schema validator and [json.dumps] are parameters. *)
From S2P Require Import Prelude CoreTypes PyVal Capability PyUrl HttpPolicy Proposals.

(** [research/types.py:17-20 _require_text] *)
Definition plan_text (value : string) : result string :=
  raise_if Str.is_blank value as ResearchInputError;;
  Ok value.

(** [research/types.py:23-26 _require_side_effect_level] *)
Definition require_side_effect_level (value : Z) : result Z :=
  raise_if negb (mem value [0; 1; 2; 3]) as ResearchInputError;;
  Ok value.

Definition optional_plan_text (value : option string) : result (option string) :=
  match value with None => Ok None | Some s => s ← plan_text s; Ok (Some s) end.

(** [research/types.py:30-38 HypothesisDraft] *)
Module HypothesisDraft.
Record t : Set := mk { statement : string; origin : string }.

Definition post_init (x : t) : result t :=
  statement ← plan_text x.(statement);
  origin ← plan_text x.(origin);
  Ok (mk statement origin).
End HypothesisDraft.

(** [research/types.py:42-113 ExperimentPlan] *)
Module ExperimentPlan.
Record t : Type := mk {
  hypothesis_id : string;
  required_capability : string;
  action : string;
  target_reference : string;
  side_effect_level : Z;
  arguments : list (string * pyval);
  requested_budget_id : string;
  expected_observation : string;
  disconfirming_observation : string;
  evaluation_strategy : string;
  capability_version : option string;
  capability_definition_fingerprint : option string }.

Definition post_init (x : t) : result t :=
  _ ← plan_text x.(hypothesis_id);
  _ ← plan_text x.(required_capability);
  _ ← plan_text x.(action);
  _ ← plan_text x.(target_reference);
  _ ← plan_text x.(requested_budget_id);
  _ ← require_side_effect_level x.(side_effect_level);
  _ ← plan_text x.(expected_observation);
  _ ← plan_text x.(disconfirming_observation);
  _ ← plan_text x.(evaluation_strategy);
  _ ← optional_plan_text x.(capability_version);
  _ ← optional_plan_text x.(capability_definition_fingerprint);
  Ok x.

#[global] Instance post_init_validator : Validator post_init.
Proof. solve_validator. Qed.
End ExperimentPlan.

(** ** The compiler *)

(** [research/compiler.py:17 SUPPORTED_TARGET_TYPES] *)
Definition SUPPORTED_TARGET_TYPES : list string := ["opaque_reference"; "http_origin"].

(** [research/compiler.py:145-148 _text] *)
Definition intent_text (value : string) : result string :=
  raise_if Str.is_blank value as ResearchInputError;;
  Ok (Str.strip value).

(** [research/compiler.py:29-81 ExperimentIntent] *)
Module ExperimentIntent.
Record t : Type := mk {
  hypothesis_id : string;
  capability_id : string;
  action : string;
  target_reference : string;
  arguments : list (string * pyval);
  requested_budget_id : string;
  expected_observation : string;
  disconfirming_observation : string;
  evaluation_strategy : string;
  requested_side_effect : option Z;
  target_type : string }.

Definition post_init (x : t) : result t :=
  hypothesis_id ← intent_text x.(hypothesis_id);
  capability_id ← intent_text x.(capability_id);
  action ← intent_text x.(action);
  target_reference ← intent_text x.(target_reference);
  budget_id ← intent_text x.(requested_budget_id);
  expected ← intent_text x.(expected_observation);
  disconfirming ← intent_text x.(disconfirming_observation);
  strategy ← intent_text x.(evaluation_strategy);
  raise_if match x.(requested_side_effect) with
           | Some n => negb (mem n [0; 1; 2; 3])
           | None => false
           end as ResearchInputError;;
  target_type ← intent_text x.(target_type);
  Ok (mk hypothesis_id capability_id action target_reference x.(arguments) budget_id expected
        disconfirming strategy x.(requested_side_effect) target_type).
End ExperimentIntent.

(** [if b: raise ExperimentCompileError(code, ...)] *)
Notation "'reject' b 'as' c ';;' k" := (if b then Raise (ExperimentCompileError c) else k)
  (at level 100, b at level 99, c at level 99, k at level 200, right associativity) : zest_scope.

Section compiler.
Context `{JsonSchema} `{NetlocCheck} (catalog : CapabilityRegistry.t).

(** The checks of the arguments: the schema of the action, then the policy of the capability.
    [research/compiler.py:102-109 compile_experiment_intent] *)
Definition compile_arguments (capability_id : string) (action : CapabilityActionDefinition.t)
    (arguments : list (string * pyval)) : result unit :=
  match validate_action_arguments action.(CapabilityActionDefinition.argument_schema) arguments with
  | Some code => Raise (ExperimentCompileError code)
  | None =>
      match extra_argument_validator_for capability_id with
      | None => Ok tt
      | Some extra =>
          found ← extra action.(CapabilityActionDefinition.action_id) arguments;
          match found with
          | Some code => Raise (ExperimentCompileError code)
          | None => Ok tt
          end
      end
  end.

(** [research/compiler.py:84-142 compile_experiment_intent] *)
Definition compile_experiment_intent (intent : ExperimentIntent.t) : result ExperimentPlan.t :=
  match CapabilityRegistry.get catalog intent.(ExperimentIntent.capability_id) with
  | None => Raise (ExperimentCompileError "UNKNOWN_CAPABILITY")
  | Some definition =>
      reject negb (definition.(CapabilityDefinition.executor_class) =? WORKER_EXECUTOR_CLASS)%string
      as "UNKNOWN_CAPABILITY";;
      match CapabilityDefinition.action definition intent.(ExperimentIntent.action) with
      | None => Raise (ExperimentCompileError "UNKNOWN_ACTION")
      | Some action =>
          let target_type := intent.(ExperimentIntent.target_type) in
          reject negb (mem target_type action.(CapabilityActionDefinition.target_types))
          as "WRONG_TARGET_TYPE";;
          reject negb (mem target_type SUPPORTED_TARGET_TYPES) as "WRONG_TARGET_TYPE";;
          reject (target_type =? "http_origin")%string
                 && negb (Str.contains intent.(ExperimentIntent.target_reference) "://")
          as "WRONG_TARGET_TYPE";;
          reject negb (forallb (fun r => mem r ["loopback"; "scope_derived"])
                         action.(CapabilityActionDefinition.requirements))
          as "UNSUPPORTED_REQUIREMENT";;
          _ ← compile_arguments definition.(CapabilityDefinition.capability_id) action
                intent.(ExperimentIntent.arguments);
          let minimum := action.(CapabilityActionDefinition.minimum_side_effect_level) in
          let maximum := action.(CapabilityActionDefinition.maximum_side_effect_level) in
          reject match intent.(ExperimentIntent.requested_side_effect) with
                 | Some n => n <? minimum | None => false end as "RISK_UNDERSTATEMENT";;
          reject match intent.(ExperimentIntent.requested_side_effect) with
                 | Some n => maximum <? n | None => false end as "RISK_EXCEEDS_CAPABILITY";;
          ExperimentPlan.post_init
            (ExperimentPlan.mk intent.(ExperimentIntent.hypothesis_id)
               definition.(CapabilityDefinition.capability_id)
               action.(CapabilityActionDefinition.action_id)
               intent.(ExperimentIntent.target_reference) minimum
               intent.(ExperimentIntent.arguments) intent.(ExperimentIntent.requested_budget_id)
               intent.(ExperimentIntent.expected_observation)
               intent.(ExperimentIntent.disconfirming_observation)
               intent.(ExperimentIntent.evaluation_strategy)
               (Some definition.(CapabilityDefinition.version))
               (Some definition.(CapabilityDefinition.definition_fingerprint)))
      end
  end.

(** [compile_experiment_intent(ExperimentIntent(...))] *)
Definition compile (intent : ExperimentIntent.t) : result ExperimentPlan.t :=
  intent ← ExperimentIntent.post_init intent;
  compile_experiment_intent intent.

(** ** Binding a plan to a capability claim *)

(** [catalog.lookup] with the two errors of a miss.
    [application/capability_binding.py:41-49 capability_view_for] *)
Definition bound_action (capability_id action : string)
    : result (CapabilityDefinition.t * CapabilityActionDefinition.t) :=
  match CapabilityRegistry.lookup catalog capability_id action with
  | None =>
      Raise (CapabilityBindingError
               match CapabilityRegistry.get catalog capability_id with
               | None => "UNKNOWN_CAPABILITY" | Some _ => "UNKNOWN_ACTION" end)
  | Some found =>
      if negb (found.1.(CapabilityDefinition.executor_class) =? WORKER_EXECUTOR_CLASS)%string
      then Raise (CapabilityBindingError "UNKNOWN_CAPABILITY")
      else Ok found
  end.

(** [a or b] for an optional text. *)
Definition text_or (a : option string) (b : string) : string :=
  match a with Some s => if Str.is_empty s then b else s | None => b end.

(** [application/capability_binding.py:31-62 capability_view_for] *)
Definition capability_view_for (capability_id action : string) (effective_side_effect : option Z)
    (capability_version definition_fingerprint : option string)
    : result CapabilityAuthorizationView.t :=
  found ← bound_action capability_id action;
  let '(definition, action_def) := found in
  let minimum := action_def.(CapabilityActionDefinition.minimum_side_effect_level) in
  CapabilityAuthorizationView.post_init
    (CapabilityAuthorizationView.mk definition.(CapabilityDefinition.capability_id)
       action_def.(CapabilityActionDefinition.action_id)
       (text_or capability_version definition.(CapabilityDefinition.version))
       (text_or definition_fingerprint definition.(CapabilityDefinition.definition_fingerprint))
       minimum (default minimum effective_side_effect)).

(** [application/capability_binding.py:127-140 _assert_legacy_compatible] *)
Definition assert_legacy_compatible (plan : ExperimentPlan.t)
    (action_def : CapabilityActionDefinition.t) : result unit :=
  let level := plan.(ExperimentPlan.side_effect_level) in
  raise_if level <? action_def.(CapabilityActionDefinition.minimum_side_effect_level)
  as CapabilityBindingError "RISK_UNDERSTATEMENT";;
  raise_if action_def.(CapabilityActionDefinition.maximum_side_effect_level) <? level
  as CapabilityBindingError "RISK_EXCEEDS_CAPABILITY";;
  match validate_action_arguments action_def.(CapabilityActionDefinition.argument_schema)
          plan.(ExperimentPlan.arguments) with
  | Some code => Raise (CapabilityBindingError code)
  | None => Ok tt
  end.

(** [application/capability_binding.py:91-124 capability_view_for_plan] *)
Definition capability_view_for_plan (plan : ExperimentPlan.t)
    : result CapabilityAuthorizationView.t :=
  found ← bound_action plan.(ExperimentPlan.required_capability) plan.(ExperimentPlan.action);
  let '(definition, action_def) := found in
  let minimum := action_def.(CapabilityActionDefinition.minimum_side_effect_level) in
  match plan.(ExperimentPlan.capability_version),
        plan.(ExperimentPlan.capability_definition_fingerprint) with
  | Some version, Some fingerprint =>
      CapabilityAuthorizationView.post_init
        (CapabilityAuthorizationView.mk plan.(ExperimentPlan.required_capability)
           plan.(ExperimentPlan.action) version fingerprint minimum
           plan.(ExperimentPlan.side_effect_level))
  | _, _ =>
      _ ← assert_legacy_compatible plan action_def;
      CapabilityAuthorizationView.post_init
        (CapabilityAuthorizationView.mk definition.(CapabilityDefinition.capability_id)
           action_def.(CapabilityActionDefinition.action_id)
           definition.(CapabilityDefinition.version)
           definition.(CapabilityDefinition.definition_fingerprint) minimum
           plan.(ExperimentPlan.side_effect_level))
  end.

(** [not s] for an optional text. *)
Definition no_text (s : option string) : bool :=
  match s with Some s => Str.is_empty s | None => true end.

(** [application/capability_binding.py:143-148 require_new_plan_bindings] *)
Definition require_new_plan_bindings (plan : ExperimentPlan.t) : result unit :=
  raise_if no_text plan.(ExperimentPlan.capability_version)
           || no_text plan.(ExperimentPlan.capability_definition_fingerprint)
  as CapabilityBindingError "DEFINITION_FINGERPRINT_MISMATCH";;
  Ok tt.
End compiler.

(** [tools/integration_allowlist.py:22 INTEGRATION_CAPABILITY_VERSION] *)
Definition INTEGRATION_CAPABILITY_VERSION : string := "integration".

(** [tools/integration_allowlist.py:47-48 integration_definition_fingerprint] *)
Definition integration_definition_fingerprint (capability_id : string) : string :=
  "integration." +:+ capability_id.

(** [application/capability_binding.py:65-88 integration_capability_view_for] *)
Definition integration_capability_view_for (capability_id action : string)
    (effective_side_effect : option Z) : result CapabilityAuthorizationView.t :=
  match lookup_integration_capability capability_id action with
  | None =>
      Raise (CapabilityBindingError
               (if mem capability_id integration_capability_ids
                then "UNKNOWN_ACTION" else "UNKNOWN_CAPABILITY"))
  | Some entry =>
      let minimum := entry.(IntegrationAllowlistEntry.minimum_side_effect_level) in
      CapabilityAuthorizationView.post_init
        (CapabilityAuthorizationView.mk entry.(IntegrationAllowlistEntry.capability_id)
           entry.(IntegrationAllowlistEntry.action) INTEGRATION_CAPABILITY_VERSION
           (integration_definition_fingerprint entry.(IntegrationAllowlistEntry.capability_id))
           minimum (default minimum effective_side_effect))
  end.

(** ** What a compiled plan is *)

Section compiled.
Context `{JsonSchema} `{NetlocCheck}.

(** The plan is the intent, bound to a worker action of the catalog: its version and policy
    fingerprint, its minimum side effect, and arguments its schema and its policy accept. *)
Record bound_plan (catalog : CapabilityRegistry.t) (intent : ExperimentIntent.t)
    (plan : ExperimentPlan.t) (d : CapabilityDefinition.t) (a : CapabilityActionDefinition.t)
    : Prop := {
  bp_lookup : CapabilityRegistry.lookup catalog plan.(ExperimentPlan.required_capability)
                plan.(ExperimentPlan.action) = Some (d, a);
  bp_worker : d.(CapabilityDefinition.executor_class) = WORKER_EXECUTOR_CLASS;
  bp_action : a.(CapabilityActionDefinition.action_id) = intent.(ExperimentIntent.action);
  bp_target : intent.(ExperimentIntent.target_type) ∈ a.(CapabilityActionDefinition.target_types);
  bp_arguments : compile_arguments intent.(ExperimentIntent.capability_id) a
                   intent.(ExperimentIntent.arguments) = Ok tt;
  bp_level : forall n, intent.(ExperimentIntent.requested_side_effect) = Some n ->
               a.(CapabilityActionDefinition.minimum_side_effect_level) <= n
               <= a.(CapabilityActionDefinition.maximum_side_effect_level);
  bp_plan : plan = ExperimentPlan.mk intent.(ExperimentIntent.hypothesis_id)
              intent.(ExperimentIntent.capability_id) intent.(ExperimentIntent.action)
              intent.(ExperimentIntent.target_reference)
              a.(CapabilityActionDefinition.minimum_side_effect_level)
              intent.(ExperimentIntent.arguments) intent.(ExperimentIntent.requested_budget_id)
              intent.(ExperimentIntent.expected_observation)
              intent.(ExperimentIntent.disconfirming_observation)
              intent.(ExperimentIntent.evaluation_strategy)
              (Some d.(CapabilityDefinition.version))
              (Some d.(CapabilityDefinition.definition_fingerprint));
  bp_valid : ExperimentPlan.post_init plan = Ok plan }.

Lemma registry_names sha docs catalog id d :
  registry_ok sha docs catalog -> CapabilityRegistry.get catalog id = Some d ->
  d.(CapabilityDefinition.capability_id) = id
  /\ forall aid a, CapabilityDefinition.action d aid = Some a ->
       a.(CapabilityActionDefinition.action_id) = aid
       /\ a.(CapabilityActionDefinition.minimum_side_effect_level)
          <= a.(CapabilityActionDefinition.maximum_side_effect_level).
Proof.
  intros Hreg Hd. destruct (Hreg _ _ Hd) as (Hid & (_ & _ & _ & Hacts) & _). split; [done|].
  intros aid a Ha%assoc_Some_in. destruct (Hacts _ Ha) as (Haid & _ & [_ Hle] & _). by split.
Qed.

Lemma compile_experiment_intent_ok sha docs catalog intent plan :
  registry_ok sha docs catalog ->
  compile_experiment_intent catalog intent = Ok plan ->
  exists d a, bound_plan catalog intent plan d a.
Proof.
  intros Hreg. unfold compile_experiment_intent.
  destruct (CapabilityRegistry.get _ _) as [d|] eqn:Hd; [|done].
  destruct (registry_names _ _ _ _ _ Hreg Hd) as [Hid Hacts].
  intros [Hw Hc]%raise_if_ok.
  destruct (CapabilityDefinition.action _ _) as [a|] eqn:Ha; [|done].
  destruct (Hacts _ _ Ha) as [Haid _].
  apply raise_if_ok in Hc as [Ht Hc]. apply raise_if_ok in Hc as [_ Hc].
  apply raise_if_ok in Hc as [_ Hc]. apply raise_if_ok in Hc as [_ Hc].
  apply bind_ok in Hc as ([] & Hargs & Hc).
  apply raise_if_ok in Hc as [Hlow Hc]. apply raise_if_ok in Hc as [Hhigh Hc].
  pose proof (validated (post_init := ExperimentPlan.post_init) _ _ Hc) as ->.
  rewrite Hid in Hc, Hargs. rewrite Haid in Hc. rewrite Hid, Haid. exists d, a. split; try done.
  - cbn. unfold CapabilityRegistry.lookup. by rewrite Hd, Ha.
  - by apply negb_false_iff, String.eqb_eq in Hw.
  - by apply negb_false_iff, mem_true in Ht.
  - intros n Hn. rewrite Hn in Hlow, Hhigh. apply Z.ltb_ge in Hlow, Hhigh. lia.
Qed.

Definition optional_filled (s : option string) : Prop :=
  forall t, s = Some t -> Str.is_blank t = false.

(** A plan the constructor accepts has its texts and a level from 0 to 3. *)
Lemma plan_accepted x :
  ExperimentPlan.post_init x = Ok x ->
  Str.is_blank x.(ExperimentPlan.required_capability) = false
  /\ Str.is_blank x.(ExperimentPlan.action) = false
  /\ 0 <= x.(ExperimentPlan.side_effect_level) <= 3
  /\ optional_filled x.(ExperimentPlan.capability_version)
  /\ optional_filled x.(ExperimentPlan.capability_definition_fingerprint).
Proof.
  unfold ExperimentPlan.post_init, plan_text, require_side_effect_level. intros Hx.
  apply bind_ok in Hx as (? & _ & Hx).
  apply bind_ok in Hx as (? & [Hcap _]%raise_if_ok & Hx).
  apply bind_ok in Hx as (? & [Hact _]%raise_if_ok & Hx).
  do 2 (apply bind_ok in Hx as (? & _ & Hx)).
  apply bind_ok in Hx as (? & [Hl _]%raise_if_ok & Hx).
  do 3 (apply bind_ok in Hx as (? & _ & Hx)).
  apply bind_ok in Hx as (? & Hv & Hx). apply bind_ok in Hx as (? & Hf & _).
  assert (forall o r, optional_plan_text o = Ok r -> optional_filled o) as Hopt.
  { intros [t|] r; [|by intros _ t]. cbn. unfold plan_text. destruct (Str.is_blank t) eqn:E; [done|].
    by intros _ ? [= <-]. }
  split_and!; eauto; apply negb_false_iff, mem_true in Hl;
    rewrite !elem_of_cons, elem_of_nil in Hl; lia.
Qed.

Lemma opaque_text s : Str.is_blank s = false -> require_opaque_id s = Ok s.
Proof. unfold require_opaque_id. by intros ->. Qed.

Lemma not_blank_not_empty s : Str.is_blank s = false -> Str.is_empty s = false.
Proof. by destruct s. Qed.

Lemma bound_plan_view catalog intent plan d a :
  bound_plan catalog intent plan d a ->
  a.(CapabilityActionDefinition.minimum_side_effect_level)
    <= a.(CapabilityActionDefinition.maximum_side_effect_level) ->
  require_new_plan_bindings plan = Ok tt
  /\ exists view, capability_view_for_plan catalog plan = Ok view
       /\ forall level,
            (check_capability_authorization catalog (Some view) level)
              .(CapabilityAuthorizationCheck.allowed_to_continue) = true
            <-> SideEffectLevel.value level = plan.(ExperimentPlan.side_effect_level).
Proof.
  intros [Hl Hw Ha _ _ _ Hp Hv] Hle.
  apply plan_accepted in Hv as (Hcap & Hact & Hlev & Hver & Hfp).
  subst plan. cbn in Hl, Hcap, Hact, Hlev, Hver, Hfp.
  specialize (Hver _ eq_refl). specialize (Hfp _ eq_refl). split.
  { unfold require_new_plan_bindings. cbn. by rewrite !not_blank_not_empty. }
  eexists. split.
  - unfold capability_view_for_plan, bound_action. cbn. rewrite Hl. cbn.
    rewrite Hw. cbn. unfold CapabilityAuthorizationView.post_init. cbn.
    rewrite !opaque_text by done. cbn. unfold is_side_effect.
    destruct (0 <=? _) eqn:E1; [|lia]. destruct (_ <=? 3) eqn:E2; [|lia]. cbn. reflexivity.
  - intros level. rewrite capability_check_allowed. split.
    + intros (v & [= <-] & [(d' & a' & _ & _ & _ & _ & _ & _ & E)|[E _]]); [exact E|].
      unfold CapabilityRegistry.lookup in Hl. unfold CapabilityRegistry.get in *. cbn in E.
      by rewrite E in Hl.
    + intros E. eexists. split; [done|]. left. exists d, a. cbn. rewrite E. by split_and!.
Qed.
End compiled.

(** C30. A plan that compiles is executable authority of the registry and nothing more: it names a
    worker action of the catalog, carries that definition's version and policy fingerprint and the
    action's minimum side effect, its target type is one of the action's and its arguments passed
    the action's schema and the capability's own policy; it can be stored as a new plan, and the
    claim built from it passes Core's capability check at its own level and at no other. *)
Theorem compiled_plan_is_bound `{JsonSchema} `{NetlocCheck} sha docs catalog intent plan :
  registry_from_documents sha docs = Ok catalog ->
  compile_experiment_intent catalog intent = Ok plan ->
  exists d a, bound_plan catalog intent plan d a
  /\ require_new_plan_bindings plan = Ok tt
  /\ exists view, capability_view_for_plan catalog plan = Ok view
       /\ forall level,
            (check_capability_authorization catalog (Some view) level)
              .(CapabilityAuthorizationCheck.allowed_to_continue) = true
            <-> SideEffectLevel.value level = plan.(ExperimentPlan.side_effect_level).
Proof.
  intros [Hreg _]%registry_from_documents_invariant Hc.
  destruct (compile_experiment_intent_ok _ _ _ _ _ Hreg Hc) as (d & a & Hb).
  exists d, a. split; [done|]. apply (bound_plan_view _ _ _ _ _ Hb).
  pose proof (bp_lookup _ _ _ _ _ Hb) as Hl. unfold CapabilityRegistry.lookup in Hl.
  destruct (CapabilityRegistry.get _ _) as [d'|] eqn:Hd; [|done].
  destruct (CapabilityDefinition.action _ _) as [a'|] eqn:Ha; [|done]. injection Hl as <- <-.
  apply (proj2 (registry_names _ _ _ _ _ Hreg Hd) _ _ Ha).
Qed.

Definition echo_document : list (string * pyval) :=
  [ ("capability_id", PStr "diagnostic.echo"); ("version", PStr "1");
    ("implementation_reference", PStr "diagnostic.echo"); ("executor_class", PStr "WORKER");
    ("actions", PDict [("echo", PDict
       [ ("action_id", PStr "echo");
         ("argument_schema",
          PDict [ ("type", PStr "object"); ("additionalProperties", PBool false);
                  ("required", PList [PStr "message"]);
                  ("properties", PDict [("message", PDict [("type", PStr "string")])]) ]);
         ("result_schema", PDict [("type", PStr "object"); ("additionalProperties", PBool true)]);
         ("minimum_side_effect_level", PInt 0); ("maximum_side_effect_level", PInt 0);
         ("target_types", PList [PStr "opaque_reference"]); ("network_policy", PNone);
         ("requirements", PList []); ("supports_reproduction", PBool true);
         ("supports_negative_control", PBool false); ("normalizer_reference", PNone) ])]) ].

Definition echo_catalog : CapabilityRegistry.t :=
  match registry_from_documents sample_sha [echo_document] with Ok r => r | Raise _ => ∅ end.

(** The validator on the schema of [diagnostic.echo]: a [message], a text, and nothing else. *)
Definition echo_schema : JsonSchema := fun _ arguments =>
  match arguments with
  | [] => Some "required"
  | [(k, v)] => if (k =? "message")%string
                then match v with PStr _ => None | _ => Some "type" end
                else Some "additionalProperties"
  | _ => Some "additionalProperties"
  end.

Definition echo_intent : ExperimentIntent.t :=
  ExperimentIntent.mk "hyp-1" "diagnostic.echo" "echo" "target-1" [("message", PStr "ping")]
    "budget-1" "echoed" "not echoed" "diagnostic.echo.v1" None "opaque_reference".

Lemma compiled_plan_is_bound_witness :
  exists plan view,
    compile_experiment_intent (H := echo_schema) (H0 := fun _ => true) echo_catalog echo_intent = Ok plan
    /\ capability_view_for_plan (H := echo_schema) echo_catalog plan = Ok view
    /\ (check_capability_authorization echo_catalog (Some view) SideEffectLevel.LEVEL_0)
         .(CapabilityAuthorizationCheck.allowed_to_continue) = true.
Proof.
  destruct (compile_experiment_intent (H := echo_schema) (H0 := fun _ => true) echo_catalog echo_intent)
    as [plan|e] eqn:E; [|vm_compute in E; discriminate E].
  destruct (compiled_plan_is_bound (H := echo_schema) (H0 := fun _ => true) sample_sha [echo_document]
              echo_catalog echo_intent plan eq_refl E) as (d & a & _ & _ & view & Hv & Hl).
  exists plan, view. split; [reflexivity|]. split; [exact Hv|]. apply Hl.
  vm_compute in E. injection E as <-. reflexivity.
Defined.
