(* ===== verification/Planning.v ===== *)
(** * The typed plans

    [research/planning.py], [research/http_transaction.py], [research/http_authentication.py],
    [research/identity_session.py], [research/browser_page.py] and [research/browser_lineage.py]:
    the intents the system itself writes, each compiled by [Compiler.compile]. *)
From S2P Require Import Prelude CoreTypes PyVal Capability PyUrl HttpPolicy Proposals Compiler.

(** [tools/capabilities.py:3-21 HTTP_TRANSACTION_CAPABILITY] *)
Definition DIAGNOSTIC_ECHO_CAPABILITY : string := "diagnostic.echo".
Definition HTTP_TRANSACTION_CAPABILITY : string := "http.transaction".
Definition HTTP_AUTHENTICATION_CAPABILITY : string := "http.authentication".
Definition BROWSER_PAGE_CAPABILITY : string := "browser.page".
Definition DIAGNOSTIC_ECHO_EVALUATION_STRATEGY : string := "diagnostic.echo.v1".
Definition DIAGNOSTIC_EXPECTED_OBSERVATION : string := "echoed value matches input".
Definition DIAGNOSTIC_DISCONFIRMING_OBSERVATION : string := "no result or mismatched value".

(** [research/planning.py:34-37 HTTP_AUTHORIZATION_EXPECTED_OBSERVATION] *)
Definition HTTP_AUTHORIZATION_EXPECTED_OBSERVATION : string :=
  "authenticated actor reads own object, reads another actor's object with that object's owner proven, unauthenticated access is denied, and the secure control denies cross-object access".
(** [research/planning.py:38-40 HTTP_AUTHORIZATION_DISCONFIRMING_OBSERVATION] *)
Definition HTTP_AUTHORIZATION_DISCONFIRMING_OBSERVATION : string :=
  "cross-object access is denied or the returned object is not the other actor's object".
(** [research/planning.py:45-48 HTTP_STATE_TRANSITION_EXPECTED_OBSERVATION] *)
Definition HTTP_STATE_TRANSITION_EXPECTED_OBSERVATION : string :=
  "authenticated requester changes workflow state to APPROVED without reviewer authority or required prior states, while the control path denies the transition".
(** [research/planning.py:49-51 HTTP_STATE_TRANSITION_DISCONFIRMING_OBSERVATION] *)
Definition HTTP_STATE_TRANSITION_DISCONFIRMING_OBSERVATION : string :=
  "the requested transition is denied or authoritative state does not change".

(** The message of [plan_admitted_hypothesis] a caller compares. *)
Definition UNSUPPORTED_CAPABILITY_MESSAGE : string :=
  "unknown or unsupported capability cannot be planned".

Definition opaque : string := "opaque_reference".

(** [research/planning.py:54-60 human_seeded_hypothesis] *)
Definition human_seeded_hypothesis (statement origin : string) : result HypothesisDraft.t :=
  HypothesisDraft.post_init (HypothesisDraft.mk statement origin).

(** ** Requests and pages *)

Definition add_if (b : bool) (k : string) (v : pyval) : list (string * pyval) :=
  if b then [(k, v)] else [].
Definition add_text (k : string) (v : option string) : list (string * pyval) :=
  match v with Some s => [(k, PStr s)] | None => [] end.
Definition add_int (k : string) (v : option Z) : list (string * pyval) :=
  match v with Some n => [(k, PInt n)] | None => [] end.

(** An absent or empty [query] or [headers] is the empty list.
    [research/http_transaction.py:24-58 HttpRequestTemplate] *)
Module HttpRequestTemplate.
Record t : Type := mk {
  authorized_origin : string;
  method : string;
  path : string;
  query : list (string * pyval);
  headers : list (string * pyval);
  body : option string;
  content_type : option string;
  session_context_reference : option string;
  max_response_bytes : option Z;
  timeout_ms : option Z }.

(** [research/http_transaction.py:38-58 HttpRequestTemplate.arguments] *)
Definition arguments (x : t) : list (string * pyval) :=
  [ ("authorized_origin", PStr x.(authorized_origin)); ("method", PStr x.(method));
    ("path", PStr x.(path)) ]
  ++ add_if (negb (bool_decide (x.(query) = []))) "query" (PDict x.(query))
  ++ add_if (negb (bool_decide (x.(headers) = []))) "headers" (PDict x.(headers))
  ++ add_text "body" x.(body)
  ++ add_text "content_type" x.(content_type)
  ++ add_text "session_context_reference" x.(session_context_reference)
  ++ add_int "max_response_bytes" x.(max_response_bytes)
  ++ add_int "timeout_ms" x.(timeout_ms).
End HttpRequestTemplate.

(** [research/http_transaction.py:233-238 _action_for_method] *)
Definition action_for_method (method : string) : result string :=
  if mem method ["GET"; "HEAD"; "OPTIONS"] then Ok "read"
  else if mem method ["POST"; "PUT"; "PATCH"; "DELETE"] then Ok "mutate"
  else Raise ResearchInputError.

(** [research/browser_page.py:23-64 BrowserPageIntent] *)
Module BrowserPageIntent.
Record t : Set := mk {
  authorized_origin : string;
  path : string;
  session_context_reference : option string;
  identity_id : option string;
  browser_context_reference : option string;
  page_reference : option string;
  element_reference : option string;
  snapshot_fingerprint : option string;
  kind : option string;
  value : option string;
  timeout_ms : option Z }.

(** [research/browser_page.py:38-64 BrowserPageIntent.arguments] *)
Definition arguments (x : t) (action : string) : list (string * pyval) :=
  [ ("authorized_origin", PStr x.(authorized_origin)); ("path", PStr x.(path)) ]
  ++ add_text "session_context_reference" x.(session_context_reference)
  ++ add_text "identity_id" x.(identity_id)
  ++ add_text "browser_context_reference" x.(browser_context_reference)
  ++ (if (action =? "observe")%string then add_text "page_reference" x.(page_reference) else [])
  ++ (if (action =? "interact")%string
      then add_text "page_reference" x.(page_reference)
           ++ add_text "element_reference" x.(element_reference)
           ++ add_text "snapshot_fingerprint" x.(snapshot_fingerprint)
           ++ add_text "kind" x.(kind) ++ add_text "value" x.(value)
      else [])
  ++ add_int "timeout_ms" x.(timeout_ms).
End BrowserPageIntent.

(** ** Identities *)

(** [research/identity_session.py:15-21 SessionState] *)
Module SessionState.
Inductive t : Set := NEW | AUTHENTICATING | ACTIVE | EXPIRED | REVOKED | FAILED.
#[global] Instance eq_dec : EqDecision t.
Proof. solve_decision. Defined.
End SessionState.

(** [research/identity_session.py:25-35 CredentialReference] *)
Module CredentialReference.
Record t : Set := mk { scheme : string; name : string }.

Definition post_init (x : t) : result t :=
  raise_if negb (mem x.(scheme) ["LOCAL_DEV"; "ENV_REFERENCE"]) as ResearchInputError;;
  raise_if Str.is_blank x.(name) as ResearchInputError;;
  Ok x.
End CredentialReference.

(** [research/identity_session.py:93-94 local_dev_credential] *)
Definition local_dev_credential (name : string) : result CredentialReference.t :=
  CredentialReference.post_init (CredentialReference.mk "LOCAL_DEV" name).

(** [research/identity_session.py:39-63 HttpFormLoginProfile] *)
Module HttpFormLoginProfile.
Record t : Set := mk {
  profile_id : string;
  path : string;
  username_field : string;
  password_secret_name : string;
  session_cookie_name : string;
  success_status_codes : list Z;
  method : string }.

Definition post_init (x : t) : result t :=
  raise_if existsb Str.is_blank [x.(profile_id); x.(path); x.(username_field);
                                 x.(password_secret_name); x.(session_cookie_name)]
  as ResearchInputError;;
  raise_if negb (x.(method) =? "POST")%string as ResearchInputError;;
  raise_if negb (Str.starts_with x.(path) "/") || Str.contains x.(path) "://"
           || Str.starts_with x.(path) "//" as ResearchInputError;;
  raise_if bool_decide (x.(success_status_codes) = []) as ResearchInputError;;
  raise_if existsb (fun s => (s <? 100) || (599 <? s)) x.(success_status_codes)
  as ResearchInputError;;
  Ok x.
End HttpFormLoginProfile.

(** [research/identity_session.py:67-90 Identity] *)
Module Identity.
Record t : Set := mk {
  identity_id : string;
  actor_reference : string;
  target_reference : string;
  credential_reference : CredentialReference.t;
  authentication_profile_reference : string;
  role_reference : option string }.

Definition post_init (x : t) : result t :=
  raise_if existsb Str.is_blank [x.(identity_id); x.(actor_reference); x.(target_reference);
                                 x.(authentication_profile_reference)] as ResearchInputError;;
  raise_if match x.(role_reference) with Some r => Str.is_blank r | None => false end
  as ResearchInputError;;
  Ok x.
End Identity.

(** ** The plans *)

Section plans.
Context `{JsonSchema} `{NetlocCheck} (catalog : CapabilityRegistry.t).

(** [research/planning.py:63-85 plan_diagnostic_echo] *)
Definition plan_diagnostic_echo (hypothesis_id budget_id target_reference message : string)
    : result ExperimentPlan.t :=
  compile catalog
    (ExperimentIntent.mk hypothesis_id DIAGNOSTIC_ECHO_CAPABILITY "echo" target_reference
       [("message", PStr message)] budget_id DIAGNOSTIC_EXPECTED_OBSERVATION
       DIAGNOSTIC_DISCONFIRMING_OBSERVATION DIAGNOSTIC_ECHO_EVALUATION_STRATEGY None opaque).

(** [research/planning.py:88-120 plan_authorization_differential] *)
Definition plan_authorization_differential (hypothesis_id budget_id target_reference
    authorized_origin actor own_object cross_object mode : string) : result ExperimentPlan.t :=
  raise_if negb (mem mode ["vulnerable"; "secure_only"; "redirect"]) as ResearchInputError;;
  compile catalog
    (ExperimentIntent.mk hypothesis_id "http.authorization.differential" "probe" target_reference
       [ ("authorized_origin", PStr authorized_origin); ("actor", PStr actor);
         ("own_object", PStr own_object); ("cross_object", PStr cross_object);
         ("mode", PStr mode) ]
       budget_id HTTP_AUTHORIZATION_EXPECTED_OBSERVATION
       HTTP_AUTHORIZATION_DISCONFIRMING_OBSERVATION "http.authorization.differential.v1" None
       opaque).

(** [research/planning.py:123-157 plan_state_transition] *)
Definition plan_state_transition (hypothesis_id budget_id target_reference authorized_origin actor
    resource_id transition area : string) : result ExperimentPlan.t :=
  raise_if negb (mem area ["workflow"; "control"; "redirect"]) as ResearchInputError;;
  raise_if negb (mem transition ["submit"; "review"; "approve"; "reject"]) as ResearchInputError;;
  compile catalog
    (ExperimentIntent.mk hypothesis_id "http.state_transition" "probe" target_reference
       [ ("authorized_origin", PStr authorized_origin); ("actor", PStr actor);
         ("resource_id", PStr resource_id); ("transition", PStr transition); ("area", PStr area) ]
       budget_id HTTP_STATE_TRANSITION_EXPECTED_OBSERVATION
       HTTP_STATE_TRANSITION_DISCONFIRMING_OBSERVATION "http.state_transition.v1" None opaque).

(** [x in v]: [TypeError] when [v] is not a container.
    [research/planning.py:178 plan_admitted_hypothesis] *)
Definition requires_message (schema : list (string * pyval)) : result bool :=
  match or_empty (dict_get "required" schema) with
  | PStr s => Ok (Str.contains s "message")
  | v => match iter_items v with
         | Some items => Ok (existsb (fun x => eq_str x "message") items)
         | None => Raise TypeError
         end
  end.

(** [research/planning.py:160-205 plan_admitted_hypothesis] *)
Definition plan_admitted_hypothesis (hypothesis_id : string) (proposal : HypothesisProposal.t)
    (challenge : HypothesisChallenge.t) (budget_id target_reference message : string)
    : result ExperimentPlan.t :=
  let capability := proposal.(HypothesisProposal.suggested_capability) in
  match CapabilityRegistry.get catalog capability with
  | None => Raise (ResearchInputErrorSaying UNSUPPORTED_CAPABILITY_MESSAGE)
  | Some definition =>
      raise_if negb (definition.(CapabilityDefinition.executor_class)
                     =? WORKER_EXECUTOR_CLASS)%string
      as ResearchInputErrorSaying UNSUPPORTED_CAPABILITY_MESSAGE;;
      match definition.(CapabilityDefinition.actions) with
      | [(action_id, action)] =>
          with_message ← requires_message action.(CapabilityActionDefinition.argument_schema);
          let echo := (capability =? DIAGNOSTIC_ECHO_CAPABILITY)%string in
          compile catalog
            (ExperimentIntent.mk hypothesis_id capability action_id target_reference
               (if (with_message : bool) then [("message", PStr message)] else []) budget_id
               (if echo then DIAGNOSTIC_EXPECTED_OBSERVATION
                else proposal.(HypothesisProposal.suggested_disconfirming_test))
               challenge.(HypothesisChallenge.proposed_disconfirming_observation)
               (if echo then DIAGNOSTIC_ECHO_EVALUATION_STRATEGY else capability +:+ ".v1")
               None opaque)
      | _ => Raise ResearchInputError
      end
  end.

Definition HTTP_TRANSACTION_EXPECTED_OBSERVATION : string :=
  "authorized HTTP response facts were observed".
Definition HTTP_TRANSACTION_DISCONFIRMING_OBSERVATION : string :=
  "no HTTP response facts were observed".

(** [research/http_transaction.py:61-86 plan_http_transaction] *)
Definition plan_http_transaction (hypothesis_id budget_id target_reference : string)
    (template : HttpRequestTemplate.t) (action : option string)
    (expected_observation disconfirming_observation : string) : result ExperimentPlan.t :=
  let derived := action_for_method template.(HttpRequestTemplate.method) in
  resolved ← match action with
             | Some a => if Str.is_empty a then derived else Ok a
             | None => derived
             end;
  compile catalog
    (ExperimentIntent.mk hypothesis_id HTTP_TRANSACTION_CAPABILITY resolved target_reference
       (HttpRequestTemplate.arguments template) budget_id expected_observation
       disconfirming_observation "http.transaction.v1" None opaque).

(** [research/http_transaction.py:89-116 plan_http_transaction_read] *)
Definition plan_http_transaction_read (hypothesis_id budget_id target_reference authorized_origin
    path method : string) (query headers : list (string * pyval))
    (max_response_bytes timeout_ms : option Z) : result ExperimentPlan.t :=
  plan_http_transaction hypothesis_id budget_id target_reference
    (HttpRequestTemplate.mk authorized_origin method path query headers None None None
       max_response_bytes timeout_ms)
    (Some "read") HTTP_TRANSACTION_EXPECTED_OBSERVATION HTTP_TRANSACTION_DISCONFIRMING_OBSERVATION.

(** [research/http_transaction.py:119-150 plan_http_transaction_mutate] *)
Definition plan_http_transaction_mutate (hypothesis_id budget_id target_reference authorized_origin
    path method : string) (query headers : list (string * pyval))
    (body content_type : option string) (max_response_bytes timeout_ms : option Z)
    : result ExperimentPlan.t :=
  plan_http_transaction hypothesis_id budget_id target_reference
    (HttpRequestTemplate.mk authorized_origin method path query headers body content_type None
       max_response_bytes timeout_ms)
    (Some "mutate") HTTP_TRANSACTION_EXPECTED_OBSERVATION
    HTTP_TRANSACTION_DISCONFIRMING_OBSERVATION.

(** [research/http_transaction.py:153-166 baseline_http_transaction] *)
Definition baseline_http_transaction (hypothesis_id budget_id target_reference : string)
    (template : HttpRequestTemplate.t) : result ExperimentPlan.t :=
  plan_http_transaction hypothesis_id budget_id target_reference template None
    "baseline authorized HTTP response facts were observed"
    HTTP_TRANSACTION_DISCONFIRMING_OBSERVATION.

(** [research/http_transaction.py:169-182 control_http_transaction] *)
Definition control_http_transaction (hypothesis_id budget_id target_reference : string)
    (template : HttpRequestTemplate.t) : result ExperimentPlan.t :=
  plan_http_transaction hypothesis_id budget_id target_reference template None
    "control authorized HTTP response facts were observed"
    HTTP_TRANSACTION_DISCONFIRMING_OBSERVATION.

(** [research/http_transaction.py:185-198 variant_http_transaction] *)
Definition variant_http_transaction (hypothesis_id budget_id target_reference : string)
    (template : HttpRequestTemplate.t) : result ExperimentPlan.t :=
  plan_http_transaction hypothesis_id budget_id target_reference template None
    "variant authorized HTTP response facts were observed"
    HTTP_TRANSACTION_DISCONFIRMING_OBSERVATION.

(** The arguments of the recompiled plan are those of the plan, so the last comparison cannot
    differ in them.
    [research/http_transaction.py:201-230 replay_http_transaction_plan] *)
Definition replay_http_transaction_plan (plan : ExperimentPlan.t) : result ExperimentPlan.t :=
  raise_if negb (plan.(ExperimentPlan.required_capability) =? HTTP_TRANSACTION_CAPABILITY)%string
  as ResearchInputError;;
  raise_if no_text plan.(ExperimentPlan.capability_version)
           || no_text plan.(ExperimentPlan.capability_definition_fingerprint)
  as ResearchInputError;;
  replayed ← compile catalog
    (ExperimentIntent.mk plan.(ExperimentPlan.hypothesis_id)
       plan.(ExperimentPlan.required_capability) plan.(ExperimentPlan.action)
       plan.(ExperimentPlan.target_reference) plan.(ExperimentPlan.arguments)
       plan.(ExperimentPlan.requested_budget_id) plan.(ExperimentPlan.expected_observation)
       plan.(ExperimentPlan.disconfirming_observation) plan.(ExperimentPlan.evaluation_strategy)
       (Some plan.(ExperimentPlan.side_effect_level)) opaque);
  raise_if negb (bool_decide (replayed.(ExperimentPlan.capability_definition_fingerprint)
                              = plan.(ExperimentPlan.capability_definition_fingerprint)))
  as ResearchInputError;;
  raise_if negb (bool_decide (replayed.(ExperimentPlan.capability_version)
                              = plan.(ExperimentPlan.capability_version)))
  as ResearchInputError;;
  raise_if negb (replayed.(ExperimentPlan.target_reference)
                 =? plan.(ExperimentPlan.target_reference))%string
  as ResearchInputError;;
  raise_if negb (replayed.(ExperimentPlan.action) =? plan.(ExperimentPlan.action))%string
  as ResearchInputError;;
  Ok replayed.

(** [research/http_authentication.py:15-58 plan_http_login] *)
Definition plan_http_login (hypothesis_id budget_id target_reference : string)
    (identity : Identity.t) (profile : HttpFormLoginProfile.t)
    (username authorized_origin session_context_id : string) : result ExperimentPlan.t :=
  raise_if Str.is_blank username as ResearchInputError;;
  raise_if Str.is_blank session_context_id as ResearchInputError;;
  raise_if negb (identity.(Identity.authentication_profile_reference)
                 =? profile.(HttpFormLoginProfile.profile_id))%string as ResearchInputError;;
  raise_if negb (profile.(HttpFormLoginProfile.method) =? "POST")%string as ResearchInputError;;
  compile catalog
    (ExperimentIntent.mk hypothesis_id HTTP_AUTHENTICATION_CAPABILITY "login" target_reference
       [ ("authorized_origin", PStr authorized_origin);
         ("path", PStr profile.(HttpFormLoginProfile.path));
         ("username", PStr username);
         ("username_field", PStr profile.(HttpFormLoginProfile.username_field));
         ("password_secret_name", PStr profile.(HttpFormLoginProfile.password_secret_name));
         ("session_cookie_name", PStr profile.(HttpFormLoginProfile.session_cookie_name));
         ("session_context_id", PStr session_context_id);
         ("identity_id", PStr identity.(Identity.identity_id));
         ("success_status_codes",
          PList (PInt <$> profile.(HttpFormLoginProfile.success_status_codes))) ]
       budget_id "authentication response facts were observed"
       "no authentication response facts were observed" "http.authentication.v1" None opaque).

(** [research/browser_page.py:67-101 plan_browser_page] *)
Definition plan_browser_page (hypothesis_id budget_id target_reference action : string)
    (intent : BrowserPageIntent.t) (requested_side_effect : option Z) : result ExperimentPlan.t :=
  raise_if negb (mem action ["observe"; "navigate"; "interact"]) as ResearchInputError;;
  raise_if (action =? "interact")%string
           && negb match intent.(BrowserPageIntent.kind) with
                   | Some k => mem k ["click"; "fill"; "select"; "submit"]
                   | None => false
                   end
  as ResearchInputError;;
  compile catalog
    (ExperimentIntent.mk hypothesis_id BROWSER_PAGE_CAPABILITY action target_reference
       (BrowserPageIntent.arguments intent action) budget_id
       "bounded browser page facts were observed" "no browser page facts were observed"
       "browser.page.v1" requested_side_effect opaque).

(** [research/browser_page.py:104-129 plan_browser_observe] *)
Definition plan_browser_observe (hypothesis_id budget_id target_reference authorized_origin path
    : string) (session identity_id browser_context page : option string)
    : result ExperimentPlan.t :=
  plan_browser_page hypothesis_id budget_id target_reference "observe"
    (BrowserPageIntent.mk authorized_origin path session identity_id browser_context page None None
       None None None) None.

(** [research/browser_page.py:132-155 plan_browser_navigate] *)
Definition plan_browser_navigate (hypothesis_id budget_id target_reference authorized_origin path
    : string) (session identity_id browser_context : option string) : result ExperimentPlan.t :=
  plan_browser_page hypothesis_id budget_id target_reference "navigate"
    (BrowserPageIntent.mk authorized_origin path session identity_id browser_context None None None
       None None None) None.

(** [research/browser_page.py:158-191 plan_browser_interact] *)
Definition plan_browser_interact (hypothesis_id budget_id target_reference authorized_origin path
    browser_context page element snapshot kind : string) (value session identity_id : option string)
    : result ExperimentPlan.t :=
  plan_browser_page hypothesis_id budget_id target_reference "interact"
    (BrowserPageIntent.mk authorized_origin path session identity_id (Some browser_context)
       (Some page) (Some element) (Some snapshot) (Some kind) value None) None.
End plans.

(** [research/browser_lineage.py:14-22 FORBIDDEN_HEADER_NAMES] *)
Definition FORBIDDEN_HEADER_NAMES : list string :=
  ["cookie"; "set-cookie"; "authorization"; "proxy-authorization"; "cookie2"].

(** The header loop.
    [research/browser_lineage.py:47-54 http_template_from_network_event] *)
Definition safe_header (p : string * pyval) : result (string * pyval) :=
  match p.2 with
  | PStr _ =>
      raise_if mem (Str.lower p.1) FORBIDDEN_HEADER_NAMES as ResearchInputError;;
      Ok p
  | _ => Raise ResearchInputError
  end.

(** [event.get(key) or {}], a mapping. *)
Definition mapping_or_empty (v : pyval) : result (list (string * pyval)) :=
  match object_or_empty v with Some d => Ok d | None => Raise ResearchInputError end.

(** [research/browser_lineage.py:25-64 http_template_from_network_event] *)
Definition http_template_from_network_event (event : list (string * pyval))
    (authorized_origin : string) (session_context_reference : option string)
    : result HttpRequestTemplate.t :=
  raise_if negb (eq_str (dict_get "representability" event) "REPRESENTABLE")
  as ResearchInputError;;
  method ← match dict_get "method" event with
           | PStr m => raise_if negb (mem m ["GET"; "HEAD"]) as ResearchInputError;; Ok m
           | PList _ | PDict _ => Raise TypeError
           | _ => Raise ResearchInputError
           end;
  path ← match dict_get "path" event with
         | PStr p => raise_if negb (Str.starts_with p "/") as ResearchInputError;; Ok p
         | _ => Raise ResearchInputError
         end;
  raise_if truthy (dict_get "body_present" event) || truthy (dict_get "body" event)
  as ResearchInputError;;
  query ← mapping_or_empty (dict_get "query" event);
  headers ← mapping_or_empty (dict_get "headers" event);
  safe ← traverse safe_header headers;
  Ok (HttpRequestTemplate.mk authorized_origin method path query safe None None
        session_context_reference None None).

(** [json.dumps] of a dict in key order, the values that are not JSON through [str].
    [research/planning.py:208-224 plan_canonical_identity] *)
Definition plan_canonical_identity (dumps : pyval -> string) (plan : ExperimentPlan.t) : string :=
  dumps (PDict
    [ ("hypothesis_id", PStr plan.(ExperimentPlan.hypothesis_id));
      ("required_capability", PStr plan.(ExperimentPlan.required_capability));
      ("action", PStr plan.(ExperimentPlan.action));
      ("target_reference", PStr plan.(ExperimentPlan.target_reference));
      ("side_effect_level", PInt plan.(ExperimentPlan.side_effect_level));
      ("arguments", PDict plan.(ExperimentPlan.arguments));
      ("requested_budget_id", PStr plan.(ExperimentPlan.requested_budget_id));
      ("expected_observation", PStr plan.(ExperimentPlan.expected_observation));
      ("disconfirming_observation", PStr plan.(ExperimentPlan.disconfirming_observation));
      ("evaluation_strategy", PStr plan.(ExperimentPlan.evaluation_strategy));
      ("capability_version", opt_text plan.(ExperimentPlan.capability_version));
      ("capability_definition_fingerprint",
       opt_text plan.(ExperimentPlan.capability_definition_fingerprint)) ]).

(** [research/planning.py:227-228 plans_equivalent] *)
Definition plans_equivalent (dumps : pyval -> string) (left right : ExperimentPlan.t) : bool :=
  (plan_canonical_identity dumps left =? plan_canonical_identity dumps right)%string.

(** ** Facts *)

Section planned.
Context `{JsonSchema} `{NetlocCheck}.

Lemma intent_text_ok s t : intent_text s = Ok t -> clean t.
Proof. unfold intent_text. intros [Hb [= <-]]%raise_if_ok. by apply clean_strip. Qed.

Lemma intent_text_clean s : clean s -> intent_text s = Ok s.
Proof. unfold intent_text. intros [E Hb]. by rewrite Hb, E. Qed.

(** The texts of an intent its constructor made. *)
Definition clean_intent (i : ExperimentIntent.t) : Prop :=
  Forall clean [ i.(ExperimentIntent.hypothesis_id); i.(ExperimentIntent.capability_id);
                 i.(ExperimentIntent.action); i.(ExperimentIntent.target_reference);
                 i.(ExperimentIntent.requested_budget_id);
                 i.(ExperimentIntent.expected_observation);
                 i.(ExperimentIntent.disconfirming_observation);
                 i.(ExperimentIntent.evaluation_strategy); i.(ExperimentIntent.target_type) ].

Lemma intent_ok x i :
  ExperimentIntent.post_init x = Ok i ->
  clean_intent i
  /\ i.(ExperimentIntent.arguments) = x.(ExperimentIntent.arguments)
  /\ i.(ExperimentIntent.target_type) = Str.strip x.(ExperimentIntent.target_type)
  /\ i.(ExperimentIntent.action) = Str.strip x.(ExperimentIntent.action)
  /\ i.(ExperimentIntent.capability_id) = Str.strip x.(ExperimentIntent.capability_id).
Proof.
  unfold ExperimentIntent.post_init. intros Hx.
  do 8 (let E := fresh "E" in apply bind_ok in Hx as (? & E & Hx)).
  apply raise_if_ok in Hx as [_ Hx]. apply bind_ok in Hx as (? & E7 & [= <-]).
  split; [repeat constructor; eapply intent_text_ok; eassumption|].
  unfold intent_text in *.
  repeat match goal with E : (if _ then _ else _) = Ok _ |- _ => apply raise_if_ok in E as [_ [= <-]] end.
  done.
Qed.

Lemma intent_again i :
  clean_intent i ->
  match i.(ExperimentIntent.requested_side_effect) with
  | Some n => mem n [0; 1; 2; 3] = true | None => True end ->
  ExperimentIntent.post_init i = Ok i.
Proof.
  destruct i as [? ? ? ? ? ? ? ? ? o ?]. unfold clean_intent. cbn. rewrite !Forall_cons.
  intros (? & ? & ? & ? & ? & ? & ? & ? & ? & _) Ho. unfold ExperimentIntent.post_init. cbn.
  rewrite !intent_text_clean by done. cbn. destruct o as [n|]; [|done]. by rewrite Ho.
Qed.

(** Asking for the level a plan has got does not change the plan. *)
Definition asking (n : Z) (i : ExperimentIntent.t) : ExperimentIntent.t :=
  ExperimentIntent.mk i.(ExperimentIntent.hypothesis_id) i.(ExperimentIntent.capability_id)
    i.(ExperimentIntent.action) i.(ExperimentIntent.target_reference)
    i.(ExperimentIntent.arguments) i.(ExperimentIntent.requested_budget_id)
    i.(ExperimentIntent.expected_observation) i.(ExperimentIntent.disconfirming_observation)
    i.(ExperimentIntent.evaluation_strategy) (Some n) i.(ExperimentIntent.target_type).

Lemma compile_asking sha docs catalog i plan :
  registry_ok sha docs catalog -> compile_experiment_intent catalog i = Ok plan ->
  compile_experiment_intent catalog (asking plan.(ExperimentPlan.side_effect_level) i) = Ok plan.
Proof.
  intros Hreg Hc. unfold compile_experiment_intent in *.
  cbn [asking ExperimentIntent.capability_id ExperimentIntent.action ExperimentIntent.target_type
       ExperimentIntent.target_reference ExperimentIntent.arguments
       ExperimentIntent.requested_side_effect].
  destruct (CapabilityRegistry.get _ _) as [d|] eqn:Hd; [|done].
  destruct (_ =? WORKER_EXECUTOR_CLASS)%string; [cbn [negb] in *|done].
  destruct (CapabilityDefinition.action _ _) as [a|] eqn:Ha; [|done].
  destruct (registry_names _ _ _ _ _ Hreg Hd) as [_ Hacts]. destruct (Hacts _ _ Ha) as [_ Hle].
  do 4 (apply raise_if_ok in Hc as [-> Hc]). destruct (compile_arguments _ _ _) as [[]|]; [|done].
  cbn [mbind result_bind] in *. apply raise_if_ok in Hc as [_ Hc]. apply raise_if_ok in Hc as [_ Hc].
  pose proof (validated (post_init := ExperimentPlan.post_init) _ _ Hc) as ->.
  cbn [ExperimentPlan.side_effect_level].
  by rewrite (proj2 (Z.ltb_ge _ _) (Z.le_refl _)), (proj2 (Z.ltb_ge _ _) Hle).
Qed.

Lemma replay_compiled sha docs catalog x plan :
  registry_ok sha docs catalog -> compile catalog x = Ok plan ->
  x.(ExperimentIntent.target_type) = opaque ->
  plan.(ExperimentPlan.required_capability) = HTTP_TRANSACTION_CAPABILITY ->
  replay_http_transaction_plan catalog plan = Ok plan.
Proof.
  unfold compile at 1. intros Hreg (i & Hi & Hc)%bind_ok Hx Hcap.
  apply intent_ok in Hi as (Hclean & _ & Ht & _ & _). rewrite Hx in Ht. change (Str.strip opaque) with opaque in Ht.
  pose proof (compile_asking _ _ _ _ _ Hreg Hc) as Hask.
  apply (compile_experiment_intent_ok _ _ _ _ _ Hreg) in Hc as (d & a & Hb).
  pose proof (bp_valid _ _ _ _ _ Hb) as (_ & _ & Hl & Hver & Hfp)%plan_accepted.
  pose proof (bp_plan _ _ _ _ _ Hb) as Hp.
  unfold replay_http_transaction_plan. rewrite (proj2 (String.eqb_eq _ _) Hcap). cbn [negb].
  assert (no_text plan.(ExperimentPlan.capability_version)
          || no_text plan.(ExperimentPlan.capability_definition_fingerprint) = false) as ->.
  { rewrite Hp in Hver, Hfp |- *. cbn.
    by rewrite (not_blank_not_empty _ (Hver _ eq_refl)), (not_blank_not_empty _ (Hfp _ eq_refl)). }
  replace (ExperimentIntent.mk _ _ _ _ _ _ _ _ _ _ _)
    with (asking plan.(ExperimentPlan.side_effect_level) i)
    by (rewrite Hp; unfold asking; cbn; by rewrite Ht).
  unfold compile. rewrite intent_again; [|exact Hclean|].
  - cbn [mbind result_bind]. rewrite Hask. cbn [mbind result_bind].
    rewrite !bool_decide_true by done. by rewrite !String.eqb_refl.
  - cbn. apply mem_true. rewrite !elem_of_cons. lia.
Qed.

(** What a compile accepted, whatever the capability. *)
Lemma compile_ok sha docs catalog x plan :
  registry_ok sha docs catalog -> compile catalog x = Ok plan ->
  exists d a,
    CapabilityRegistry.lookup catalog plan.(ExperimentPlan.required_capability)
      plan.(ExperimentPlan.action) = Some (d, a)
    /\ d.(CapabilityDefinition.executor_class) = WORKER_EXECUTOR_CLASS
    /\ plan.(ExperimentPlan.side_effect_level)
       = a.(CapabilityActionDefinition.minimum_side_effect_level)
    /\ plan.(ExperimentPlan.required_capability) = Str.strip x.(ExperimentIntent.capability_id)
    /\ plan.(ExperimentPlan.action) = Str.strip x.(ExperimentIntent.action)
    /\ a.(CapabilityActionDefinition.action_id) = plan.(ExperimentPlan.action)
    /\ plan.(ExperimentPlan.arguments) = x.(ExperimentIntent.arguments)
    /\ compile_arguments plan.(ExperimentPlan.required_capability) a
         plan.(ExperimentPlan.arguments) = Ok tt.
Proof.
  unfold compile. intros Hreg (i & Hi & Hc)%bind_ok.
  apply intent_ok in Hi as (_ & Hargs & _ & Hact & Hcap).
  apply (compile_experiment_intent_ok _ _ _ _ _ Hreg) in Hc as (d & a & Hb).
  exists d, a. pose proof (bp_lookup _ _ _ _ _ Hb) as Hl. pose proof (bp_action _ _ _ _ _ Hb).
  pose proof (bp_arguments _ _ _ _ _ Hb). pose proof (bp_worker _ _ _ _ _ Hb).
  rewrite (bp_plan _ _ _ _ _ Hb) in Hl |- *. cbn in *. split_and!; congruence.
Qed.

(** The arguments of an [http.transaction] plan passed its policy. *)
Lemma http_arguments_accepted action arguments :
  compile_arguments HTTP_TRANSACTION_CAPABILITY action arguments = Ok tt ->
  validate_http_transaction_arguments action.(CapabilityActionDefinition.action_id) arguments = Ok None.
Proof.
  unfold compile_arguments. destruct (validate_action_arguments _ _); [done|].
  cbn. destruct (validate_http_transaction_arguments _ _) as [[c|]|]; [done|done|done].
Qed.
End planned.

(** Replaying a persisted [http.transaction] plan against the registry it was compiled with
    gives the same plan back: nothing is widened, dropped or re-derived. *)
Theorem http_replay_is_identity `{JsonSchema} `{NetlocCheck} sha docs catalog x plan :
  registry_from_documents sha docs = Ok catalog ->
  compile catalog x = Ok plan ->
  x.(ExperimentIntent.target_type) = opaque ->
  plan.(ExperimentPlan.required_capability) = HTTP_TRANSACTION_CAPABILITY ->
  replay_http_transaction_plan catalog plan = Ok plan.
Proof. intros [Hreg _]%registry_from_documents_invariant. by apply (replay_compiled sha docs). Qed.

(** The [http.transaction] capability as packaged, the properties of its schemas left out. *)
Definition http_action (action_id : string) (level : Z) : pyval :=
  PDict [ ("action_id", PStr action_id);
          ("argument_schema", PDict [("type", PStr "object"); ("additionalProperties", PBool false)]);
          ("result_schema", PDict [("type", PStr "object")]);
          ("minimum_side_effect_level", PInt level); ("maximum_side_effect_level", PInt level);
          ("target_types", PList [PStr "opaque_reference"]); ("network_policy", PNone);
          ("requirements", PList [PStr "loopback"]); ("supports_reproduction", PBool true);
          ("supports_negative_control", PBool true); ("normalizer_reference", PNone) ].

Definition http_document : list (string * pyval) :=
  [ ("capability_id", PStr "http.transaction"); ("version", PStr "1");
    ("implementation_reference", PStr "http.transaction"); ("executor_class", PStr "WORKER");
    ("actions", PDict [("read", http_action "read" 0); ("mutate", http_action "mutate" 1)]) ].

Definition http_catalog : CapabilityRegistry.t :=
  match registry_from_documents sample_sha [http_document; echo_document] with
  | Ok r => r | Raise _ => ∅ end.

Definition any_schema : JsonSchema := fun _ _ => None.

Definition http_intent : ExperimentIntent.t :=
  ExperimentIntent.mk "hyp-1" "http.transaction" "read" "target-1" (with_path "/api/v1") "budget-1"
    "facts" "no facts" "http.transaction.v1" None opaque.

Lemma http_replay_is_identity_witness :
  exists plan, compile (H := any_schema) (H0 := fun _ => true) http_catalog http_intent = Ok plan
    /\ replay_http_transaction_plan (H := any_schema) (H0 := fun _ => true) http_catalog plan = Ok plan.
Proof.
  destruct (compile (H := any_schema) (H0 := fun _ => true) http_catalog http_intent) as [plan|e] eqn:E;
    [|vm_compute in E; discriminate E].
  exists plan. split; [reflexivity|].
  apply (http_replay_is_identity (H := any_schema) (H0 := fun _ => true) sample_sha
           [http_document; echo_document] http_catalog http_intent plan); [reflexivity|exact E|reflexivity|].
  vm_compute in E. injection E as <-. reflexivity.
Defined.

(** A request captured in a browser, when it can be replayed at all, is replayed as a read: the
    plan that compiles from it is bound to the [read] action and its registered level, has no body,
    keeps to one plain path of a bare origin and carries no credential header. *)
Theorem browser_replay_reads `{JsonSchema} `{NetlocCheck} sha docs catalog event origin session
    template hypothesis_id budget_id target expected disconfirming plan :
  registry_from_documents sha docs = Ok catalog ->
  http_template_from_network_event event origin session = Ok template ->
  plan_http_transaction catalog hypothesis_id budget_id target template None expected disconfirming
    = Ok plan ->
  plan.(ExperimentPlan.action) = "read"
  /\ dict_get "body" plan.(ExperimentPlan.arguments) = PNone
  /\ (exists path, dict_get "path" plan.(ExperimentPlan.arguments) = PStr path /\ plain_path path)
  /\ (exists origin, dict_get "authorized_origin" plan.(ExperimentPlan.arguments) = PStr origin
                     /\ bare_origin origin)
  /\ (forall headers n v, dict_get "headers" plan.(ExperimentPlan.arguments) = PDict headers ->
        (n, v) ∈ headers -> plain_header n v).
Proof.
  intros [Hreg _]%registry_from_documents_invariant Ht Hp.
  assert (action_for_method template.(HttpRequestTemplate.method) = Ok "read") as Hm.
  { unfold http_template_from_network_event in Ht. apply raise_if_ok in Ht as [_ Ht].
    apply bind_ok in Ht as (m & Hm & Ht). peel Ht. injection Ht as <-. cbn.
    destruct (dict_get "method" event); try done. apply raise_if_ok in Hm as [Hm [= <-]].
    apply negb_false_iff, mem_true in Hm. rewrite !elem_of_cons, elem_of_nil in Hm.
    destruct Hm as [-> | [-> | []]]; reflexivity. }
  unfold plan_http_transaction in Hp. rewrite Hm in Hp. cbn [mbind result_bind] in Hp.
  apply (compile_ok _ _ _ _ _ Hreg) in Hp as (d & a & _ & _ & _ & Hcap & Hact & Haid & _ & Hargs).
  change (plan.(ExperimentPlan.action) = "read") in Hact.
  change (plan.(ExperimentPlan.required_capability) = HTTP_TRANSACTION_CAPABILITY) in Hcap.
  rewrite Hcap in Hargs. apply http_arguments_accepted in Hargs. rewrite Haid, Hact in Hargs.
  apply accepted_plain in Hargs as (_ & Hpath & Horigin & Hbody & Hheaders & _).
  split; [exact Hact|]. auto.
Qed.

Definition captured (method : string) (headers : list (string * pyval)) : list (string * pyval) :=
  [ ("representability", PStr "REPRESENTABLE"); ("method", PStr method); ("path", PStr "/orders/7");
    ("query", PDict [("page", PStr "2")]); ("headers", PDict headers) ].

(** A request that carried a cookie is not replayed, nor is a write. *)
Example captured_credentials_refused :
  http_template_from_network_event (captured "GET" [("Cookie", PStr "sid=1")]) "https://a.example" None
    = Raise ResearchInputError
  /\ http_template_from_network_event (captured "POST" []) "https://a.example" None
    = Raise ResearchInputError.
Proof. by split. Qed.

Lemma browser_replay_reads_witness :
  exists template plan,
    http_template_from_network_event (captured "GET" [("Accept", PStr "*/*")]) "https://a.example" None
      = Ok template
    /\ plan_http_transaction (H := any_schema) (H0 := fun _ => true) http_catalog "hyp-1" "budget-1"
         "target-1" template None "facts" "no facts" = Ok plan
    /\ plan.(ExperimentPlan.action) = "read".
Proof.
  destruct (http_template_from_network_event (captured "GET" [("Accept", PStr "*/*")])
              "https://a.example" None) as [template|e] eqn:E; [|vm_compute in E; discriminate E].
  exists template.
  destruct (plan_http_transaction (H := any_schema) (H0 := fun _ => true) http_catalog "hyp-1" "budget-1"
              "target-1" template None "facts" "no facts") as [plan|e] eqn:F.
  2:{ vm_compute in E. injection E as <-. vm_compute in F. discriminate F. }
  exists plan. split; [reflexivity|]. split; [reflexivity|].
  exact (proj1 (browser_replay_reads (H := any_schema) (H0 := fun _ => true) sample_sha
                  [http_document; echo_document] http_catalog _ _ _ _ _ _ _ _ _ _ eq_refl E F)).
Defined.
