(* ===== verification/Cycle.v ===== *)
(** * One bounded cycle: generator, then falsifier

    [research/model_port.py], [application/runtime_outcomes.py] and [research/cycle.py]: the request
    a model is sent, the envelope of its answer, and the two calls.  The model itself is a
    parameter: what it answers to a request, or how it fails. *)
From S2P Require Import Prelude PyVal SafeData Orchestration ModelRuntime Context Proposals.

(** The classes of [ModelPortError], the base class last.
    [research/model_port.py:27-28 ModelPortError] *)
Module PortError.
Inductive t : Set :=
  | ContentPolicyBlockedError | ProviderAuthError | ProviderRateLimitError | ProviderTimeoutError
  | RuntimeUnavailableError | RuntimeCancelledError | RuntimeProcessError
  | StructuredOutputTransportError | ProviderRuntimeError | ModelPortError.
#[global] Instance eq_dec : EqDecision t.
Proof. solve_decision. Defined.
End PortError.

(** Of an exception that is a [ModelPortError].
    [application/runtime_outcomes.py:21-42 runtime_outcome_from_exception] *)
Definition runtime_outcome_from_exception (e : PortError.t) : RuntimeOutcome.t :=
  match e with
  | PortError.ContentPolicyBlockedError => RuntimeOutcome.CONTENT_POLICY_BLOCKED
  | PortError.ProviderAuthError => RuntimeOutcome.AUTH_FAILED
  | PortError.ProviderRateLimitError => RuntimeOutcome.RATE_LIMITED
  | PortError.ProviderTimeoutError => RuntimeOutcome.TIMED_OUT
  | PortError.RuntimeUnavailableError => RuntimeOutcome.UNAVAILABLE
  | PortError.RuntimeCancelledError => RuntimeOutcome.CANCELLED
  | PortError.RuntimeProcessError => RuntimeOutcome.PROCESS_FAILED
  | PortError.StructuredOutputTransportError => RuntimeOutcome.STRUCTURED_OUTPUT_INVALID
  | PortError.ProviderRuntimeError => RuntimeOutcome.PROCESS_FAILED
  | PortError.ModelPortError => RuntimeOutcome.PROTOCOL_ERROR
  end.

(** [application/runtime_outcomes.py:45-56 stop_reason_for_runtime_outcome] *)
Definition stop_reason_for_runtime_outcome (outcome : RuntimeOutcome.t) : StopReason.t :=
  match outcome with
  | RuntimeOutcome.CONTENT_POLICY_BLOCKED => StopReason.CONTENT_POLICY_BLOCKED
  | RuntimeOutcome.UNAVAILABLE => StopReason.NO_COMPATIBLE_RUNTIME
  | RuntimeOutcome.AUTH_FAILED => StopReason.AUTH_REQUIRED
  | RuntimeOutcome.RATE_LIMITED => StopReason.RATE_LIMITED
  | RuntimeOutcome.CANCELLED => StopReason.CANCELLED
  | _ => StopReason.OPERATIONAL_FAILURE
  end.

(** [research/model_port.py:68-97 ModelCallRequest] *)
Module ModelCallRequest.
Record t : Type := mk {
  role : ModelRole.t;
  correlation_id : string;
  context_fingerprint : string;
  instructions : string;
  payload : list (string * pyval);
  model_id_hint : option string;
  timeout_ms : option Z }.

(** The request with its cleaned payload, or the [ModelPortError]; what
    [reject_secret_keys] raises is one too. *)
Definition post_init (x : t) : PortError.t + t :=
  if Str.is_blank x.(correlation_id) then inl PortError.ModelPortError
  else if Str.is_blank x.(context_fingerprint) then inl PortError.ModelPortError
  else if Str.is_blank x.(instructions) then inl PortError.ModelPortError
  else match reject_secret_keys x.(payload) "payload" with
       | Raise _ => inl PortError.ModelPortError
       | Ok payload =>
           if match x.(timeout_ms) with Some n => n <=? 0 | None => false end
           then inl PortError.ModelPortError
           else inr (mk x.(role) x.(correlation_id) x.(context_fingerprint) x.(instructions)
                       payload x.(model_id_hint) x.(timeout_ms))
       end.
End ModelCallRequest.

(** [research/model_port.py:101-109 ModelCallTelemetry] *)
Module ModelCallTelemetry.
Record t : Type := mk {
  latency_ms : option Z;
  input_tokens : option Z;
  output_tokens : option Z;
  retries : option Z;
  provider_reported_cost : option pyval;
  provider_cost_provenance : option string }.
End ModelCallTelemetry.

(** [research/model_port.py:113-165 ModelCallResult] *)
Module ModelCallResult.
Record t : Type := mk {
  role : ModelRole.t;
  adapter_identity : string;
  provider_adapter_identity : string;
  structured_output : list (string * pyval);
  model_id : option string;
  model_version : option string;
  prompt_tokens : option Z;
  completion_tokens : option Z;
  telemetry : option ModelCallTelemetry.t;
  runtime_identity : option ModelRuntimeIdentity.t }.

Definition blank_when_set (s : option string) : bool :=
  match s with Some s => Str.is_blank s | None => false end.
Definition not_positive (n : option Z) : bool :=
  match n with Some n => n <=? 0 | None => false end.

Definition post_init (x : t) : PortError.t + t :=
  if Str.is_blank x.(adapter_identity) || Str.is_blank x.(provider_adapter_identity)
     || blank_when_set x.(model_id) || blank_when_set x.(model_version)
     || not_positive x.(prompt_tokens) || not_positive x.(completion_tokens)
  then inl PortError.ModelPortError else inr x.
End ModelCallResult.

(** ** What a model is sent *)

(** [d[k] = v] for each of the entries, when the class is the one. *)
Definition entries_if (b : bool) (entries d : list (string * pyval)) : list (string * pyval) :=
  if b then with_entries d entries else d.

(** [research/cycle.py:37-59 _item_payload] *)
Definition item_payload (item : ContextItem.t) : pyval :=
  let of_class c := bool_decide (item.(ContextItem.epistemic_class) = c) in
  let data :=
    [ ("item_id", PStr item.(ContextItem.item_id));
      ("epistemic_class", PStr (EpistemicClass.value item.(ContextItem.epistemic_class)));
      ("statement", PStr item.(ContextItem.statement));
      ("source_references", PList (PStr <$> item.(ContextItem.source_references)));
      ("may_issue_instructions", PBool false);
      ("truncated", PBool item.(ContextItem.truncated));
      ("omitted_characters", PInt item.(ContextItem.omitted_characters)) ]
    ++ match item.(ContextItem.payload) with Some p => [("payload", PDict p)] | None => [] end in
  let data := entries_if (of_class EpistemicClass.HYPOTHESIS) (flags ["not_a_fact"]) data in
  let data := entries_if (of_class EpistemicClass.INFERRED)
                (flags ["not_a_fact"; "not_an_observation"]) data in
  let data := entries_if (of_class EpistemicClass.UNTRUSTED_EXTERNAL)
                [("untrusted", PBool true); ("instruction_authority", PBool false)] data in
  PDict (entries_if (of_class EpistemicClass.OBSERVATION)
           (flags ["payload_is_untrusted_as_instruction"]) data).

Section cycle.
Context (sha256_json : pyval -> string).

(** [research/cycle.py:62-104 context_model_payload] *)
Definition context_model_payload (c : ResearchContext.t) : pyval :=
  let allowed := sorted_set (ResearchContext.resolvable_source_ids c) in
  let items l := PList (item_payload <$> l) in
  let o := c.(ResearchContext.omission) in
  PDict
    [ ("research_run_id", PStr c.(ResearchContext.research_run_id));
      ("research_question", PStr c.(ResearchContext.research_question));
      ("is_partial", PBool (ContextOmission.is_partial o));
      ("allowed_source_reference_ids", texts allowed);
      ("allowed_source_reference_ids_fingerprint", PStr (sha256_json (texts allowed)));
      ("omission", PDict
         [ ("omitted_observation_ids", texts o.(ContextOmission.omitted_observation_ids));
           ("omitted_hypothesis_ids", texts o.(ContextOmission.omitted_hypothesis_ids));
           ("omitted_negative_evidence_ids",
            texts o.(ContextOmission.omitted_negative_evidence_ids));
           ("omitted_external_ids", texts o.(ContextOmission.omitted_external_ids));
           ("truncated_external_ids", texts o.(ContextOmission.truncated_external_ids)) ]);
      ("authoritative_facts", items c.(ResearchContext.authoritative_facts));
      ("observations", items c.(ResearchContext.observations));
      ("deterministic_derivations", items c.(ResearchContext.deterministic_derivations));
      ("inferences", items c.(ResearchContext.inferences));
      ("prior_hypotheses", items c.(ResearchContext.prior_hypotheses));
      ("invariant_hypotheses", items c.(ResearchContext.invariant_hypotheses));
      ("chain_hypotheses", items c.(ResearchContext.chain_hypotheses));
      ("research_opportunities", items c.(ResearchContext.research_opportunities));
      ("change_events", items c.(ResearchContext.change_events));
      ("negative_evidence", items c.(ResearchContext.negative_evidence));
      ("procedural_context", items c.(ResearchContext.procedural_context));
      ("unresolved_questions", texts c.(ResearchContext.unresolved_questions));
      ("untrusted_external_content", items c.(ResearchContext.untrusted_external_content)) ].

(** [research/cycle.py:33-34 GENERATOR_INSTRUCTIONS] *)
Definition role_instructions (role : ModelRole.t) : string :=
  match role with
  | ModelRole.GENERATOR => contract_instructions GENERATOR_CONTRACT
  | ModelRole.FALSIFIER => contract_instructions FALSIFIER_CONTRACT
  end.

(** [research/cycle.py:112-132 _request] *)
Definition cycle_request (role : ModelRole.t) (instructions : string) (context : ResearchContext.t)
    (correlation_id : string) (extra : list (string * pyval)) : PortError.t + ModelCallRequest.t :=
  let payload :=
    [ ("instructions_channel",
       PDict [("role", PStr (ModelRole.value role)); ("task", PStr instructions)]);
      ("research_context", context_model_payload context) ] in
  ModelCallRequest.post_init
    (ModelCallRequest.mk role correlation_id context.(ResearchContext.fingerprint) instructions
       (with_entries payload extra) None None).

(** What a model does with a request: a result, a failure of the port, or another exception. *)
Context (complete : ModelCallRequest.t -> result (PortError.t + ModelCallResult.t)).

(** How a call ends: what was read from the result; the port failed; or the result was refused
    with the exception that carries it. *)
Inductive call (A : Type) : Type :=
  | Generated (a : A) (model_result : ModelCallResult.t)
  | PortFailed (e : PortError.t)
  | Refused (e : exn) (model_result : ModelCallResult.t).

(** The part the two calls share: ask, check the role, read.
    [research/cycle.py:151-173 generate_proposal] *)
Definition ask {A} (role : ModelRole.t) (request : PortError.t + ModelCallRequest.t)
    (parse : pyval -> result A) : result (call A) :=
  match request with
  | inl e => Ok (PortFailed A e)
  | inr request =>
      answer ← complete request;
      match answer with
      | inl e => Ok (PortFailed A e)
      | inr model_result =>
          if negb (bool_decide (model_result.(ModelCallResult.role) = role))
          then Ok (Refused A ResearchInputError model_result)
          else match parse (PDict model_result.(ModelCallResult.structured_output)) with
               | Ok a => Ok (Generated A a model_result)
               | Raise ProposalAuthorityError => Ok (Refused A ProposalAuthorityError model_result)
               | Raise ResearchInputError => Ok (Refused A ResearchInputError model_result)
               | Raise e => Raise e
               end
      end
  end.

(** [research/cycle.py:149-173 generate_proposal] *)
Definition generate_proposal (context : ResearchContext.t) (correlation_id : string)
    : result (call HypothesisProposal.t) :=
  ask ModelRole.GENERATOR
    (cycle_request ModelRole.GENERATOR (role_instructions ModelRole.GENERATOR) context
       correlation_id [])
    parse_hypothesis_proposal.

(** [research/cycle.py:176-202 generate_challenge] *)
Definition generate_challenge (context : ResearchContext.t) (proposal : HypothesisProposal.t)
    (correlation_id : string) : result (call HypothesisChallenge.t) :=
  ask ModelRole.FALSIFIER
    (cycle_request ModelRole.FALSIFIER (role_instructions ModelRole.FALSIFIER) context
       correlation_id [("proposal", PDict (HypothesisProposal.to_mapping proposal))])
    parse_hypothesis_challenge.
End cycle.
Arguments Generated {A} a model_result.
Arguments PortFailed {A} e.
Arguments Refused {A} e model_result.

(** ** What the model is told *)

(** The entries [with_entries] puts are found, the last for a key winning; the others stay. *)
Lemma eqb_decide (a b : string) : (a =? b)%string = bool_decide (b = a).
Proof. destruct (String.eqb_spec a b); case_bool_decide; congruence. Qed.

Lemma dict_get_put k v d j :
  dict_get j (dict_put k v d) = if bool_decide (j = k) then v else dict_get j d.
Proof.
  unfold dict_get. induction d as [|[k' v'] d IH]; cbn [dict_put dict_find].
  - rewrite eqb_decide. by case_bool_decide.
  - destruct (bool_decide_reflect (k' = k)) as [->|Hk]; cbn [dict_find]; rewrite eqb_decide.
    + by case_bool_decide.
    + destruct (bool_decide_reflect (j = k')) as [->|Hj]; [|exact IH].
      by rewrite bool_decide_false.
Qed.

(** What the payload of an item says of the item, whatever the item is. *)
Lemma item_payload_marks item :
  exists data, item_payload item = PDict data
    /\ dict_get "item_id" data = PStr item.(ContextItem.item_id)
    /\ dict_get "may_issue_instructions" data = PBool false
    /\ (item.(ContextItem.epistemic_class) = EpistemicClass.UNTRUSTED_EXTERNAL ->
        dict_get "untrusted" data = PBool true
        /\ dict_get "instruction_authority" data = PBool false)
    /\ (item.(ContextItem.epistemic_class) = EpistemicClass.OBSERVATION ->
        dict_get "payload_is_untrusted_as_instruction" data = PBool true).
Proof.
  unfold item_payload.
  destruct item as [id c st refs may tr om [p|]]; destruct c; eexists; (split; [reflexivity|]);
    (split_and!; [reflexivity..|intros E|intros E]); try discriminate E; try split; reflexivity.
Qed.

Lemma request_ok sha role instructions context correlation extra q :
  cycle_request sha role instructions context correlation extra = inr q ->
  q.(ModelCallRequest.role) = role
  /\ q.(ModelCallRequest.instructions) = instructions
  /\ secret_free (PDict q.(ModelCallRequest.payload)) = true
  /\ q.(ModelCallRequest.payload)
     = with_entries
         [ ("instructions_channel",
            PDict [("role", PStr (ModelRole.value role)); ("task", PStr instructions)]);
           ("research_context", context_model_payload sha context) ] extra.
Proof.
  unfold cycle_request, ModelCallRequest.post_init. cbn.
  do 3 (case_match; [done|]). destruct (reject_secret_keys _ _) as [p|] eqn:E; [|done].
  intros [= <-]. apply reject_secret_keys_ok in E as [-> Hs]. by split_and!.
Qed.

(** C39. What a model is sent keeps instructions and data apart: the instructions are the fixed text of
    the role, no key of the payload is a credential's, and every external text of the context is in
    the untrusted section, marked as untrusted and without authority to instruct. *)
Theorem untrusted_text_is_data sha sources budget context role correlation extra q :
  ContextBudget.post_init budget = Ok budget ->
  build_context sha sources (Some budget) = Ok context ->
  extra = [] \/ (exists p, extra = [("proposal", PDict (HypothesisProposal.to_mapping p))]) ->
  cycle_request sha role (role_instructions role) context correlation extra = inr q ->
  q.(ModelCallRequest.instructions) = role_instructions role
  /\ secret_free (PDict q.(ModelCallRequest.payload)) = true
  /\ exists ctx, dict_get "research_context" q.(ModelCallRequest.payload) = PDict ctx
      /\ dict_get "untrusted_external_content" ctx
         = PList (item_payload <$> List.filter is_untrusted (ResearchContext.all_items context))
      /\ forall item, item ∈ ResearchContext.all_items context -> is_untrusted item = true ->
           exists data, item_payload item = PDict data
             /\ dict_get "untrusted" data = PBool true
             /\ dict_get "instruction_authority" data = PBool false
             /\ dict_get "may_issue_instructions" data = PBool false.
Proof.
  intros Hb Hc Hextra (_ & Hi & Hs & Hp)%request_ok.
  destruct (context_accounted _ _ _ _ Hb Hc) as (_ & Hu & _). split; [done|]. split; [done|].
  eexists. split.
  { rewrite Hp. by destruct Hextra as [-> | [p ->]]. }
  split; [by rewrite Hu|]. intros item _ Ht. unfold is_untrusted in Ht. apply bool_decide_eq_true in Ht.
  destruct (item_payload_marks item) as (data & -> & _ & Hmay & Hun & _).
  destruct (Hun Ht). exists data. by split_and!.
Qed.

Lemma untrusted_text_is_data_witness :
  exists context q,
    build_context (fun _ => "sha") (sample_sources "the owner may") (Some sample_budget) = Ok context
    /\ cycle_request (fun _ => "sha") ModelRole.GENERATOR (role_instructions ModelRole.GENERATOR)
         context "corr-1" [] = inr q
    /\ q.(ModelCallRequest.instructions) = contract_instructions GENERATOR_CONTRACT
    /\ secret_free (PDict q.(ModelCallRequest.payload)) = true.
Proof.
  destruct (build_context (fun _ => "sha") (sample_sources "the owner may") (Some sample_budget))
    as [context|e] eqn:E; [|vm_compute in E; discriminate E].
  destruct (cycle_request (fun _ => "sha") ModelRole.GENERATOR (role_instructions ModelRole.GENERATOR)
              context "corr-1" []) as [e|q] eqn:F.
  { vm_compute in E. injection E as <-. vm_compute in F. discriminate F. }
  exists context, q. split; [reflexivity|]. split; [exact F|].
  destruct (untrusted_text_is_data (fun _ => "sha") (sample_sources "the owner may") sample_budget
              context ModelRole.GENERATOR "corr-1" [] q eq_refl E (or_introl eq_refl) F) as (H1 & H2 & _).
  split; [exact H1|exact H2].
Defined.
