(* ===== verification/Propose.v ===== *)
(** * Proposing a hypothesis

    The research cycle of [application/propose_research_hypothesis.py]: the two model calls, the
    admission, the plan, and what is stored of it.  The context is built ([Context]) from what the
    run has; the model, the registry and the fresh identities are parameters.  The reason of a
    decision in words is left out.  A unit of work that raises is rolled back: the tables change
    only with the result [Ok]. *)
From S2P Require Import Prelude PyVal SafeData Records FindingRecords Capability PyUrl HttpPolicy ModelRuntime Context Proposals Compiler Planning Cycle.

(** [data/records.py:148 ALLOWED_REASONING_ROLES] *)
Definition ALLOWED_REASONING_ROLES : list string := ["GENERATOR"; "FALSIFIER"].

(** [data/records.py:792-828 ResearchReasoningRecord] *)
Module ResearchReasoningRecord.
Record t : Type := mk {
  reasoning_record_id : string;
  research_run_id : string;
  hypothesis_id : option string;
  role : string;
  adapter_identity : string;
  provider_adapter_identity : string;
  correlation_id : string;
  context_fingerprint : string;
  structured_output : list (string * pyval);
  created_at : Z;
  model_id : option string;
  model_version : option string }.

Definition post_init (x : t) : result t :=
  _ ← data_opaque_id x.(reasoning_record_id);
  _ ← data_opaque_id x.(research_run_id);
  _ ← data_optional_opaque_id x.(hypothesis_id);
  _ ← data_opaque_id x.(adapter_identity);
  _ ← data_opaque_id x.(provider_adapter_identity);
  _ ← data_opaque_id x.(correlation_id);
  raise_if negb (mem x.(role) ALLOWED_REASONING_ROLES) as PersistenceInputError;;
  raise_if Str.is_blank x.(context_fingerprint) as PersistenceInputError;;
  _ ← data_reject_secret_keys x.(structured_output);
  _ ← data_optional_opaque_id x.(model_id);
  raise_if match x.(model_version) with Some v => Str.is_blank v | None => false end
  as PersistenceInputError;;
  Ok x.

#[global] Instance post_init_validator : Validator post_init.
Proof. solve_validator. Qed.
End ResearchReasoningRecord.

(** [data/records.py:149-158 ALLOWED_ADMISSION_OUTCOMES] *)
Definition ALLOWED_ADMISSION_OUTCOMES : list string :=
  [ "ADMITTED"; "REJECTED_UNTESTABLE"; "REJECTED_UNSUPPORTED"; "REJECTED_POLICY_CONFLICT";
    "NEEDS_MORE_CONTEXT"; "MODEL_INVOCATION_FAILED" ].

(** [data/records.py:832-868 ResearchAdmissionRecord] *)
Module ResearchAdmissionRecord.
Record t : Set := mk {
  admission_record_id : string;
  research_run_id : string;
  outcome : string;
  reason_code : string;
  context_fingerprint : string;
  created_at : Z;
  generator_reasoning_record_id : option string;
  falsifier_reasoning_record_id : option string;
  admitted_hypothesis_id : option string }.

Definition post_init (x : t) : result t :=
  _ ← data_opaque_id x.(admission_record_id);
  _ ← data_opaque_id x.(research_run_id);
  raise_if negb (mem x.(outcome) ALLOWED_ADMISSION_OUTCOMES) as PersistenceInputError;;
  raise_if Str.is_blank x.(reason_code) as PersistenceInputError;;
  raise_if Str.is_blank x.(context_fingerprint) as PersistenceInputError;;
  _ ← data_optional_opaque_id x.(generator_reasoning_record_id);
  _ ← data_optional_opaque_id x.(falsifier_reasoning_record_id);
  _ ← data_optional_opaque_id x.(admitted_hypothesis_id);
  raise_if (x.(outcome) =? "ADMITTED")%string && bool_decide (x.(admitted_hypothesis_id) = None)
  as PersistenceInputError;;
  raise_if negb (x.(outcome) =? "ADMITTED")%string
           && negb (bool_decide (x.(admitted_hypothesis_id) = None))
  as PersistenceInputError;;
  Ok x.

#[global] Instance post_init_validator : Validator post_init.
Proof. solve_validator. Qed.
End ResearchAdmissionRecord.

(** ** The tables a cycle writes *)

Module ProposeDb.
Record t : Type := mk {
  research_runs : list string;
  hypotheses : list HypothesisRecord.t;
  reasoning : list ResearchReasoningRecord.t;
  admissions : list ResearchAdmissionRecord.t }.
End ProposeDb.

(** The unique index on the origins that start with [exh:]. *)
Definition same_exploratory_origin (a b : HypothesisRecord.t) : bool :=
  match a.(HypothesisRecord.origin_reference), b.(HypothesisRecord.origin_reference) with
  | Some o, Some o' =>
      (o =? o')%string && Str.starts_with o "exh:"
      && (a.(HypothesisRecord.research_run_id) =? b.(HypothesisRecord.research_run_id))%string
  | _, _ => false
  end.

Definition has_hypothesis (db : ProposeDb.t) (id run : string) : bool :=
  existsb (fun h => (h.(HypothesisRecord.hypothesis_id) =? id)%string
                    && (h.(HypothesisRecord.research_run_id) =? run)%string)
    db.(ProposeDb.hypotheses).

Definition has_reasoning (db : ProposeDb.t) (id : string) : bool :=
  existsb (fun r => (r.(ResearchReasoningRecord.reasoning_record_id) =? id)%string)
    db.(ProposeDb.reasoning).

(** A reference that is not null has its row. *)
Definition refers (f : string -> bool) (id : option string) : bool :=
  match id with Some id => f id | None => true end.

(** [data/postgres/repositories.py:809-820 PostgresHypothesisRepository.insert] *)
Definition insert_hypothesis (db : ProposeDb.t) (h : HypothesisRecord.t) : result ProposeDb.t :=
  h ← HypothesisRecord.post_init h;
  raise_if existsb (fun o => (o.(HypothesisRecord.hypothesis_id)
                              =? h.(HypothesisRecord.hypothesis_id))%string
                             || same_exploratory_origin o h) db.(ProposeDb.hypotheses)
  as PersistenceConflictError;;
  raise_if negb (mem h.(HypothesisRecord.research_run_id) db.(ProposeDb.research_runs))
  as PersistenceError;;
  Ok (ProposeDb.mk db.(ProposeDb.research_runs) (db.(ProposeDb.hypotheses) ++ [h])
        db.(ProposeDb.reasoning) db.(ProposeDb.admissions)).

(** [data/postgres/repositories.py:1176-1193 PostgresResearchReasoningRepository.insert] *)
Definition insert_reasoning (db : ProposeDb.t) (r : ResearchReasoningRecord.t)
    : result ProposeDb.t :=
  r ← ResearchReasoningRecord.post_init r;
  raise_if has_reasoning db r.(ResearchReasoningRecord.reasoning_record_id)
  as PersistenceConflictError;;
  raise_if negb (mem r.(ResearchReasoningRecord.research_run_id) db.(ProposeDb.research_runs))
           || negb (refers (fun h => has_hypothesis db h r.(ResearchReasoningRecord.research_run_id))
                      r.(ResearchReasoningRecord.hypothesis_id))
  as PersistenceError;;
  Ok (ProposeDb.mk db.(ProposeDb.research_runs) db.(ProposeDb.hypotheses)
        (db.(ProposeDb.reasoning) ++ [r]) db.(ProposeDb.admissions)).

(** [data/postgres/repositories.py:1239-1254 PostgresResearchAdmissionRepository.insert] *)
Definition insert_admission (db : ProposeDb.t) (a : ResearchAdmissionRecord.t)
    : result ProposeDb.t :=
  a ← ResearchAdmissionRecord.post_init a;
  raise_if existsb (fun o => (o.(ResearchAdmissionRecord.admission_record_id)
                              =? a.(ResearchAdmissionRecord.admission_record_id))%string)
             db.(ProposeDb.admissions)
  as PersistenceConflictError;;
  raise_if negb (mem a.(ResearchAdmissionRecord.research_run_id) db.(ProposeDb.research_runs))
           || negb (refers (has_reasoning db) a.(ResearchAdmissionRecord.generator_reasoning_record_id))
           || negb (refers (has_reasoning db) a.(ResearchAdmissionRecord.falsifier_reasoning_record_id))
           || negb (refers (fun h => has_hypothesis db h a.(ResearchAdmissionRecord.research_run_id))
                      a.(ResearchAdmissionRecord.admitted_hypothesis_id))
  as PersistenceError;;
  Ok (ProposeDb.mk db.(ProposeDb.research_runs) db.(ProposeDb.hypotheses)
        db.(ProposeDb.reasoning) (db.(ProposeDb.admissions) ++ [a])).

(** ** The cycle *)

(** What the two calls and the admission leave for the part that stores it. *)
Module Cycled.
Record t : Type := mk {
  admission : AdmissionDecision.t;
  generator_result : option ModelCallResult.t;
  generator_structured : option (list (string * pyval));
  falsifier_result : option ModelCallResult.t;
  falsifier_structured : option (list (string * pyval));
  generator_calls : Z;
  falsifier_calls : Z;
  failed_role : option ModelRole.t;
  runtime_outcome : option RuntimeOutcome.t }.
End Cycled.

(** The subclasses of [ResearchInputError]. *)
Definition is_research_input_error (e : exn) : bool :=
  match e with
  | ResearchInputError | ResearchInputErrorSaying _ | ProposalAuthorityError
  | ExperimentCompileError _ | MutationCellIdentityError _ | MutationCellContractError _
  | ProtocolStepContractError _ => true
  | _ => false
  end.

(** [except ProposalAuthorityError] before [except ResearchInputError]. *)
Definition refusal (e : exn) (proposal : option HypothesisProposal.t) : AdmissionDecision.t :=
  match e with
  | ProposalAuthorityError =>
      AdmissionDecision.mk AdmissionOutcome.REJECTED_POLICY_CONFLICT "POLICY_CONFLICT" proposal None
  | _ => AdmissionDecision.mk AdmissionOutcome.REJECTED_UNTESTABLE "INVALID_STRUCTURED_OUTPUT"
           proposal None
  end.

(** [except ContentPolicyBlockedError] before [except ModelPortError]. *)
Definition port_failure (e : PortError.t) (proposal : option HypothesisProposal.t)
    : AdmissionDecision.t :=
  AdmissionDecision.mk AdmissionOutcome.MODEL_INVOCATION_FAILED
    (if bool_decide (runtime_outcome_from_exception e = RuntimeOutcome.CONTENT_POLICY_BLOCKED)
     then "CONTENT_POLICY_BLOCKED" else "MODEL_INVOCATION_FAILED") proposal None.

(** [application/propose_research_hypothesis.py:981-984 _structured_or_raw] *)
Definition structured_or_raw (r : option ModelCallResult.t) : option (list (string * pyval)) :=
  ModelCallResult.structured_output <$> r.

(** The identities [new_opaque_id] returns, and the clock. *)
Record fresh : Set := Fresh {
  fresh_hypothesis : string;
  fresh_generator : string;
  fresh_falsifier : string;
  fresh_admission : string;
  fresh_now : Z }.

(** [application/propose_research_hypothesis.py:64-78 ProposeResearchHypothesisCommand] *)
Record command : Set := Command {
  research_run_id : string;
  budget_id : string;
  target_reference : string;
  correlation_id : string;
  echo_message : string }.

(** [application/propose_research_hypothesis.py:82-100 ProposeResearchHypothesisResult] *)
Module Proposed.
Record t : Type := mk {
  admission : AdmissionDecision.t;
  experiment_plan : option ExperimentPlan.t;
  hypothesis_id : option string;
  generator_calls : Z;
  falsifier_calls : Z;
  failed_role : option ModelRole.t;
  runtime_outcome : option RuntimeOutcome.t;
  runtime_identity : option string;
  reason_code : string }.
End Proposed.

Section propose.
Context `{JsonSchema} `{NetlocCheck} (catalog : CapabilityRegistry.t) (sha256_json : pyval -> string)
  (complete : ModelCallRequest.t -> result (PortError.t + ModelCallResult.t)).

(** The falsifier's call and the admission.
    [application/propose_research_hypothesis.py:401-515 ProposeResearchHypothesis._execute_body] *)
Definition challenge_and_admit (context : ResearchContext.t) (correlation_id : string)
    (proposal : HypothesisProposal.t) (generated : ModelCallResult.t) : result Cycled.t :=
  let structured := Some (HypothesisProposal.to_mapping proposal) in
  let refused e r calls :=
    Ok (Cycled.mk (refusal e (Some proposal)) (Some generated) structured r (structured_or_raw r)
          1 calls None None) in
  match generate_challenge sha256_json complete context proposal correlation_id with
  | Raise e => if is_research_input_error e then refused e None 0 else Raise e
  | Ok (PortFailed e) =>
      Ok (Cycled.mk (port_failure e (Some proposal)) (Some generated) structured None None 1 0
            (Some ModelRole.FALSIFIER) (Some (runtime_outcome_from_exception e)))
  | Ok (Refused e r) => refused e (Some r) 1
  | Ok (Generated challenge r) =>
      Ok (Cycled.mk (admit_hypothesis context (Some proposal) (Some challenge)) (Some generated)
            structured (Some r) (Some (HypothesisChallenge.to_mapping challenge)) 1 1 None None)
  end.

(** [application/propose_research_hypothesis.py:310-400 ProposeResearchHypothesis._execute_body] *)
Definition run_cycle (context : ResearchContext.t) (correlation_id : string) : result Cycled.t :=
  let refused e r calls :=
    Ok (Cycled.mk (refusal e None) r (structured_or_raw r) None None calls 0 None None) in
  match generate_proposal sha256_json complete context correlation_id with
  | Raise e => if is_research_input_error e then refused e None 0 else Raise e
  | Ok (PortFailed e) =>
      Ok (Cycled.mk (port_failure e None) None None None None 0 0 (Some ModelRole.GENERATOR)
            (Some (runtime_outcome_from_exception e)))
  | Ok (Refused e r) => refused e (Some r) 1
  | Ok (Generated proposal r) => challenge_and_admit context correlation_id proposal r
  end.
(** [generator_structured or generator_result.structured_output] *)
Definition structured_of (structured : option (list (string * pyval))) (r : ModelCallResult.t)
    : list (string * pyval) :=
  match structured with
  | Some ((_ :: _) as d) => d
  | _ => r.(ModelCallResult.structured_output)
  end.

(** [application/propose_research_hypothesis.py:952-978 ProposeResearchHypothesis._reasoning_record] *)
Definition reasoning_record (id : string) (cmd : command) (context : ResearchContext.t)
    (hypothesis_id : option string) (role : ModelRole.t) (now : Z) (r : ModelCallResult.t)
    (structured : list (string * pyval)) : ResearchReasoningRecord.t :=
  ResearchReasoningRecord.mk id cmd.(research_run_id) hypothesis_id (ModelRole.value role)
    r.(ModelCallResult.adapter_identity) r.(ModelCallResult.provider_adapter_identity)
    cmd.(correlation_id) context.(ResearchContext.fingerprint) structured now
    r.(ModelCallResult.model_id) r.(ModelCallResult.model_version).

(** One of the two reasoning records of a cycle, when its call has a result. *)
Definition write_reasoning (db : ProposeDb.t) (id : string) (cmd : command)
    (context : ResearchContext.t) (hypothesis_id : option string) (role : ModelRole.t) (now : Z)
    (r : option ModelCallResult.t) (structured : option (list (string * pyval)))
    : result ProposeDb.t :=
  match r with
  | None => Ok db
  | Some r => insert_reasoning db (reasoning_record id cmd context hypothesis_id role now r
                                     (structured_of structured r))
  end.

(** [application/propose_research_hypothesis.py:880-950 ProposeResearchHypothesis._write_cycle] *)
Definition write_cycle (db : ProposeDb.t) (cmd : command) (context : ResearchContext.t)
    (admission : AdmissionDecision.t) (ids : fresh) (hypothesis_id : option string)
    (c : Cycled.t) : result ProposeDb.t :=
  let id_if (r : option ModelCallResult.t) id := match r with Some _ => Some id | None => None end in
  let generator_id := id_if c.(Cycled.generator_result) ids.(fresh_generator) in
  let falsifier_id := id_if c.(Cycled.falsifier_result) ids.(fresh_falsifier) in
  db ← match hypothesis_id, admission.(AdmissionDecision.proposal) with
       | Some h, Some proposal =>
           insert_hypothesis db
             (HypothesisRecord.mk h cmd.(research_run_id)
                proposal.(HypothesisProposal.proposed_claim) ids.(fresh_now) generator_id None)
       | _, _ => Ok db
       end;
  db ← write_reasoning db ids.(fresh_generator) cmd context hypothesis_id ModelRole.GENERATOR
         ids.(fresh_now) c.(Cycled.generator_result) c.(Cycled.generator_structured);
  db ← write_reasoning db ids.(fresh_falsifier) cmd context hypothesis_id ModelRole.FALSIFIER
         ids.(fresh_now) c.(Cycled.falsifier_result) c.(Cycled.falsifier_structured);
  insert_admission db
    (ResearchAdmissionRecord.mk ids.(fresh_admission) cmd.(research_run_id)
       (AdmissionOutcome.value admission.(AdmissionDecision.outcome))
       admission.(AdmissionDecision.reason_code) context.(ResearchContext.fingerprint)
       ids.(fresh_now) generator_id falsifier_id hypothesis_id).

(** [except ResearchInputError] around the plan, by the message. *)
Definition plan_refusal (e : exn) (p : HypothesisProposal.t) (c : HypothesisChallenge.t)
    : AdmissionDecision.t :=
  let unsupported := bool_decide (e = ResearchInputErrorSaying UNSUPPORTED_CAPABILITY_MESSAGE) in
  AdmissionDecision.mk
    (if unsupported then AdmissionOutcome.REJECTED_UNSUPPORTED
     else AdmissionOutcome.REJECTED_UNTESTABLE)
    (if unsupported then "UNSUPPORTED_CAPABILITY" else "PLANNING_INPUT_REJECTED")
    (Some p) (Some c).

(** The plan of an admitted proposal; a refusal of the planner takes the admission back.
    [application/propose_research_hypothesis.py:792-837 ProposeResearchHypothesis._persist_cycle] *)
Definition plan_cycle (cmd : command) (ids : fresh) (admission : AdmissionDecision.t)
    : result (AdmissionDecision.t * option ExperimentPlan.t * option string) :=
  if negb (AdmissionDecision.admitted admission) then Ok (admission, None, None)
  else match admission.(AdmissionDecision.proposal), admission.(AdmissionDecision.challenge) with
       | Some p, Some c =>
           match plan_admitted_hypothesis catalog ids.(fresh_hypothesis) p c cmd.(budget_id)
                   cmd.(target_reference) cmd.(echo_message) with
           | Ok plan => Ok (admission, Some plan, Some ids.(fresh_hypothesis))
           | Raise e =>
               if is_research_input_error e then Ok (plan_refusal e p c, None, None) else Raise e
           end
       | _, _ => Ok (admission, None, Some ids.(fresh_hypothesis))
       end.

(** [generator_result or falsifier_result] and its adapter. *)
Definition identity_of (c : Cycled.t) : option string :=
  match c.(Cycled.generator_result), c.(Cycled.falsifier_result) with
  | Some r, _ | None, Some r => Some r.(ModelCallResult.adapter_identity)
  | None, None => None
  end.

(** The proposal and the challenge it stores are those of the decision.
    [application/propose_research_hypothesis.py:769-878 ProposeResearchHypothesis._persist_cycle] *)
Definition persist_cycle (db : ProposeDb.t) (cmd : command) (ids : fresh)
    (context : ResearchContext.t) (c : Cycled.t) : result (Proposed.t * ProposeDb.t) :=
  planned ← plan_cycle cmd ids c.(Cycled.admission);
  let '(admission, plan, hypothesis_id) := planned in
  db ← write_cycle db cmd context admission ids hypothesis_id c;
  Ok (Proposed.mk admission plan hypothesis_id c.(Cycled.generator_calls)
        c.(Cycled.falsifier_calls) c.(Cycled.failed_role) c.(Cycled.runtime_outcome)
        (identity_of c) admission.(AdmissionDecision.reason_code), db).

(** The cycle of [execute] on a context it has built. *)
Definition propose (db : ProposeDb.t) (cmd : command) (ids : fresh) (context : ResearchContext.t)
    : result (Proposed.t * ProposeDb.t) :=
  c ← run_cycle context cmd.(correlation_id);
  persist_cycle db cmd ids context c.
End propose.

(** ** What a cycle can store *)

(** The model was asked in a role, and what it answered in that role reads as [a]. *)
Definition answered {A} (complete : ModelCallRequest.t -> result (PortError.t + ModelCallResult.t))
    (role : ModelRole.t) (request : PortError.t + ModelCallRequest.t) (parse : pyval -> result A)
    (a : A) (m : ModelCallResult.t) : Prop :=
  exists q, request = inr q /\ complete q = Ok (inr m) /\ m.(ModelCallResult.role) = role
            /\ parse (PDict m.(ModelCallResult.structured_output)) = Ok a.

(** What the two calls of a cycle answered: the generator the proposal, and the falsifier, told of
    that proposal, the challenge. *)
Definition both_answered (sha256_json : pyval -> string)
    (complete : ModelCallRequest.t -> result (PortError.t + ModelCallResult.t))
    (context : ResearchContext.t) (correlation_id : string) (p : HypothesisProposal.t)
    (c : HypothesisChallenge.t) (generated challenged : ModelCallResult.t) : Prop :=
  answered complete ModelRole.GENERATOR
    (cycle_request sha256_json ModelRole.GENERATOR (role_instructions ModelRole.GENERATOR) context
       correlation_id [])
    parse_hypothesis_proposal p generated
  /\ answered complete ModelRole.FALSIFIER
       (cycle_request sha256_json ModelRole.FALSIFIER (role_instructions ModelRole.FALSIFIER)
          context correlation_id [("proposal", PDict (HypothesisProposal.to_mapping p))])
       parse_hypothesis_challenge c challenged.

(** What the admission asks of a proposal and its challenge. *)
Definition earned (context : ResearchContext.t) (p : HypothesisProposal.t)
    (c : HypothesisChallenge.t) : Prop :=
  policy_conflict p = false
  /\ supported context p.(HypothesisProposal.source_references)
  /\ c.(HypothesisChallenge.alternative_explanations) <> [].

Lemma ask_generated {A} complete role request (parse : pyval -> result A) a r :
  ask complete role request parse = Ok (Generated a r) ->
  answered complete role request parse a r.
Proof.
  unfold ask. destruct request as [|q]; [done|]. intros (answer & Hq & H)%bind_ok.
  destruct answer as [|m]; [done|]. case_bool_decide as Hr; [|done]. cbn [negb] in H.
  destruct (parse _) as [a'|[]] eqn:E; try done. injection H as <- <-. by exists q.
Qed.

Lemma refusal_not_admitted e p : AdmissionDecision.admitted (refusal e p) = false.
Proof. by destruct e. Qed.

Lemma port_failure_not_admitted e p : AdmissionDecision.admitted (port_failure e p) = false.
Proof. done. Qed.

Ltac not_admitted Hc Ha :=
  injection Hc as <-; cbn [Cycled.admission] in Ha;
  rewrite ?refusal_not_admitted, ?port_failure_not_admitted in Ha; discriminate Ha.

Lemma admit_hypothesis_keeps context p c :
  (admit_hypothesis context (Some p) (Some c)).(AdmissionDecision.proposal) = Some p
  /\ (admit_hypothesis context (Some p) (Some c)).(AdmissionDecision.challenge) = Some c.
Proof. unfold admit_hypothesis. by repeat case_match. Qed.

Section facts.
Context `{JsonSchema} `{NetlocCheck} (catalog : CapabilityRegistry.t) (sha256_json : pyval -> string)
  (complete : ModelCallRequest.t -> result (PortError.t + ModelCallResult.t)).

#[local] Opaque admit_hypothesis.

Lemma run_cycle_admitted context correlation_id c :
  run_cycle sha256_json complete context correlation_id = Ok c ->
  AdmissionDecision.admitted c.(Cycled.admission) = true ->
  exists p ch generated challenged,
    c = Cycled.mk (admit_hypothesis context (Some p) (Some ch)) (Some generated)
          (Some (HypothesisProposal.to_mapping p)) (Some challenged)
          (Some (HypothesisChallenge.to_mapping ch)) 1 1 None None
    /\ both_answered sha256_json complete context correlation_id p ch generated challenged
    /\ earned context p ch.
Proof.
  unfold run_cycle, challenge_and_admit. intros Hc Ha.
  destruct (generate_proposal _ _ _ _) as [[p r|e|e r]|e] eqn:Ep.
  2-3: not_admitted Hc Ha.
  2: { case_match; [|done]. not_admitted Hc Ha. }
  destruct (generate_challenge _ _ _ _ _) as [[ch r'|e|e r']|e] eqn:Ec.
  2-3: not_admitted Hc Ha.
  2: { case_match; [|done]. not_admitted Hc Ha. }
  injection Hc as <-. cbn [Cycled.admission] in Ha. exists p, ch, r, r'.
  apply ask_generated in Ep, Ec. pose proof Ep as (? & _ & _ & _ & Hp).
  pose proof Ec as (? & _ & _ & _ & Hch).
  apply (admitted_iff context _ _ p ch Hp Hch) in Ha. by split_and!.
Qed.

(** The rows [write_reasoning] adds. *)
Definition told (id : string) (cmd : command) (context : ResearchContext.t) (h : option string)
    (role : ModelRole.t) (now : Z) (r : option ModelCallResult.t)
    (structured : option (list (string * pyval))) : list ResearchReasoningRecord.t :=
  match r with
  | None => []
  | Some r => [reasoning_record id cmd context h role now r (structured_of structured r)]
  end.

Lemma insert_hypothesis_ok db h db' :
  insert_hypothesis db h = Ok db' ->
  db'.(ProposeDb.hypotheses) = db.(ProposeDb.hypotheses) ++ [h]
  /\ db'.(ProposeDb.reasoning) = db.(ProposeDb.reasoning)
  /\ db'.(ProposeDb.admissions) = db.(ProposeDb.admissions).
Proof.
  unfold insert_hypothesis.
  intros (h' & ->%(validated (post_init := HypothesisRecord.post_init)) & Hi)%bind_ok.
  peel Hi. by injection Hi as <-.
Qed.

Lemma write_reasoning_ok db id cmd context h role now r structured db' :
  write_reasoning db id cmd context h role now r structured = Ok db' ->
  db'.(ProposeDb.hypotheses) = db.(ProposeDb.hypotheses)
  /\ db'.(ProposeDb.reasoning)
     = db.(ProposeDb.reasoning)
       ++ told id cmd context h role now r structured
  /\ db'.(ProposeDb.admissions) = db.(ProposeDb.admissions).
Proof.
  unfold write_reasoning. destruct r as [r|]; [|intros [= <-]; by rewrite app_nil_r].
  unfold insert_reasoning.
  intros (x & ->%(validated (post_init := ResearchReasoningRecord.post_init)) & Hi)%bind_ok.
  peel Hi. by injection Hi as <-.
Qed.

Lemma write_cycle_ok db cmd context admission ids h c db' :
  write_cycle db cmd context admission ids h c = Ok db' ->
  (exists a, db'.(ProposeDb.admissions) = db.(ProposeDb.admissions) ++ [a]
     /\ a.(ResearchAdmissionRecord.outcome)
        = AdmissionOutcome.value admission.(AdmissionDecision.outcome)
     /\ a.(ResearchAdmissionRecord.admitted_hypothesis_id) = h)
  /\ db'.(ProposeDb.reasoning)
     = db.(ProposeDb.reasoning)
       ++ told ids.(fresh_generator) cmd context h ModelRole.GENERATOR ids.(fresh_now)
            c.(Cycled.generator_result) c.(Cycled.generator_structured)
       ++ told ids.(fresh_falsifier) cmd context h ModelRole.FALSIFIER ids.(fresh_now)
            c.(Cycled.falsifier_result) c.(Cycled.falsifier_structured)
  /\ match h, admission.(AdmissionDecision.proposal) with
     | Some id, Some p =>
         db'.(ProposeDb.hypotheses) = db.(ProposeDb.hypotheses)
           ++ [HypothesisRecord.mk id cmd.(research_run_id)
                 p.(HypothesisProposal.proposed_claim) ids.(fresh_now)
                 (const ids.(fresh_generator) <$> c.(Cycled.generator_result)) None]
     | _, _ => db'.(ProposeDb.hypotheses) = db.(ProposeDb.hypotheses)
     end.
Proof.
  unfold write_cycle. intros (db1 & H1 & Hw)%bind_ok.
  apply bind_ok in Hw as (db2 & (E2 & R2 & A2)%write_reasoning_ok & Hw).
  apply bind_ok in Hw as (db3 & (E3 & R3 & A3)%write_reasoning_ok & Hw).
  unfold insert_admission in Hw. apply bind_ok in Hw as (a & Ea & Hw).
  apply (validated (post_init := ResearchAdmissionRecord.post_init)) in Ea as ->.
  peel Hw. injection Hw as <-. cbn. rewrite E3, E2, A3, A2, R3, R2.
  destruct h as [id|], admission.(AdmissionDecision.proposal) as [p|];
    first [injection H1 as <- | apply insert_hypothesis_ok in H1 as (-> & -> & ->)];
    rewrite <- app_assoc; (split_and!; [eexists; by split_and!|done|]);
    by destruct c.(Cycled.generator_result).
Qed.

Lemma plan_cycle_ok cmd ids admission admission' plan h :
  plan_cycle catalog cmd ids admission = Ok (admission', plan, h) ->
  (AdmissionDecision.admitted admission = true ->
   is_Some admission.(AdmissionDecision.proposal)
   /\ is_Some admission.(AdmissionDecision.challenge)) ->
  (h = None /\ plan = None /\ AdmissionDecision.admitted admission' = false)
  \/ (exists p c x, h = Some ids.(fresh_hypothesis) /\ plan = Some x /\ admission' = admission
      /\ AdmissionDecision.admitted admission = true
      /\ admission.(AdmissionDecision.proposal) = Some p
      /\ admission.(AdmissionDecision.challenge) = Some c
      /\ plan_admitted_hypothesis catalog ids.(fresh_hypothesis) p c cmd.(budget_id)
           cmd.(target_reference) cmd.(echo_message) = Ok x).
Proof.
  unfold plan_cycle. destruct (AdmissionDecision.admitted admission) eqn:Ha; cbn [negb].
  2: { intros [= <- <- <-] _. by left. }
  intros Hp Hsome. destruct (Hsome eq_refl) as [[p Ep] [c Ec]]. rewrite Ep, Ec in Hp.
  destruct (plan_admitted_hypothesis _ _ _ _ _ _ _) as [x|e] eqn:Ex.
  - injection Hp as <- <- <-. right. exists p, c, x. by split_and!.
  - case_match; [|done]. injection Hp as <- <- <-. left. split_and!; try done.
    unfold plan_refusal, AdmissionDecision.admitted. cbn. by case_match.
Qed.
End facts.

(** C31. A cycle that asks the models and is stored leaves one admission, and a hypothesis only when
    both models answered and it was earned: either the admission is a rejection and neither
    hypothesis nor plan exists; or the generator answered with a text that reads as the proposal,
    the falsifier, asked about that proposal, with a text that reads as the challenge, the proposal
    is supported by an item of the context that is not untrusted, sets no policy and keeps an
    alternative explanation, its plan was compiled against the registry, and stored are its claim
    and the two answers.  The branch for a registry-external opportunity
    ([_admit_registry_external]), which asks no model, is not a cycle of this kind. *)
Theorem stored_hypotheses_are_earned `{JsonSchema} `{NetlocCheck} catalog sha256_json complete
    db cmd ids context r db' :
  propose catalog sha256_json complete db cmd ids context = Ok (r, db') ->
  (exists a, db'.(ProposeDb.admissions) = db.(ProposeDb.admissions) ++ [a]
     /\ a.(ResearchAdmissionRecord.outcome)
        = AdmissionOutcome.value r.(Proposed.admission).(AdmissionDecision.outcome)
     /\ a.(ResearchAdmissionRecord.admitted_hypothesis_id) = r.(Proposed.hypothesis_id))
  /\ ((AdmissionDecision.admitted r.(Proposed.admission) = false
       /\ r.(Proposed.hypothesis_id) = None /\ r.(Proposed.experiment_plan) = None
       /\ db'.(ProposeDb.hypotheses) = db.(ProposeDb.hypotheses))
      \/ exists p c generated challenged plan,
           let h := ids.(fresh_hypothesis) in
           both_answered sha256_json complete context cmd.(correlation_id) p c generated challenged
           /\ earned context p c
           /\ r.(Proposed.hypothesis_id) = Some h
           /\ r.(Proposed.experiment_plan) = Some plan
           /\ plan_admitted_hypothesis catalog h p c cmd.(budget_id) cmd.(target_reference)
                cmd.(echo_message) = Ok plan
           /\ db'.(ProposeDb.reasoning) = db.(ProposeDb.reasoning)
                ++ [ reasoning_record ids.(fresh_generator) cmd context (Some h)
                       ModelRole.GENERATOR ids.(fresh_now) generated
                       (HypothesisProposal.to_mapping p);
                     reasoning_record ids.(fresh_falsifier) cmd context (Some h)
                       ModelRole.FALSIFIER ids.(fresh_now) challenged
                       (HypothesisChallenge.to_mapping c) ]
           /\ db'.(ProposeDb.hypotheses) = db.(ProposeDb.hypotheses)
                ++ [HypothesisRecord.mk h cmd.(research_run_id)
                      p.(HypothesisProposal.proposed_claim) ids.(fresh_now)
                      (Some ids.(fresh_generator)) None]).
Proof.
  unfold propose, persist_cycle. intros (c & Hrun & Hp)%bind_ok.
  apply bind_ok in Hp as ([[adm plan] h] & Hplan & Hp).
  apply bind_ok in Hp as (db1 & Hw & [= <- <-]).
  apply write_cycle_ok in Hw as (Ha & Hr & Hh). split; [exact Ha|].
  apply plan_cycle_ok in Hplan.
  2: { intros Hadm. destruct (run_cycle_admitted _ _ _ _ _ Hrun Hadm) as (p & ch & ? & ? & -> & _).
       cbn [Cycled.admission]. destruct (admit_hypothesis_keeps context p ch) as [-> ->]. by eauto. }
  destruct Hplan as [(-> & -> & Hna)|(p & ch & x & -> & -> & -> & Hadm & Ep & Ec & Hx)].
  { left. by split_and!. }
  right. destruct (run_cycle_admitted _ _ _ _ _ Hrun Hadm) as (p' & ch' & m & m' & -> & Hb & He).
  cbn [Cycled.admission] in *.
  destruct (admit_hypothesis_keeps context p' ch') as [Ep' Ec'].
  assert (p' = p) as -> by congruence. assert (ch' = ch) as -> by congruence.
  rewrite Ep in Hh. exists p, ch, m, m', x. by split_and!.
Qed.

(** A model that answers the generator's request with one output and the falsifier's with another. *)
Definition scripted (generator falsifier : list (string * pyval)) (q : ModelCallRequest.t)
    : result (PortError.t + ModelCallResult.t) :=
  let answer output := ModelCallResult.mk q.(ModelCallRequest.role) "adapter" "provider" output
                         None None None None None None in
  Ok (inr (answer match q.(ModelCallRequest.role) with
                  | ModelRole.GENERATOR => generator
                  | ModelRole.FALSIFIER => falsifier
                  end)).

Definition sample_generator (capability : string) : list (string * pyval) :=
  [ ("proposed_claim", PStr "Order 8 is readable by anyone."); ("rationale", PStr "obs-1 shows order 7.");
    ("source_references", PList [PStr "obs-1"]);
    ("suggested_disconfirming_test", PStr "read order 8 without a session");
    ("suggested_capability", PStr capability) ].
Definition sample_falsifier : list (string * pyval) :=
  [ ("alternative_explanations", PList [PStr "the order is public"]);
    ("proposed_disconfirming_observation", PStr "a 403 for order 8") ].

Definition sample_command : command := Command "run-1" "budget-1" "target-1" "corr-1" "ping".
Definition sample_ids : fresh := Fresh "hyp-2" "rea-1" "rea-2" "adm-1" 0.
Definition sample_db : ProposeDb.t := ProposeDb.mk ["run-1"] [] [] [].

Definition sample_propose (generator : list (string * pyval)) : result (Proposed.t * ProposeDb.t) :=
  propose (H := echo_schema) (H0 := fun _ => true) echo_catalog (fun _ => "sha")
    (scripted generator sample_falsifier) sample_db sample_command sample_ids sample_context.

Lemma stored_hypotheses_are_earned_witness :
  exists r db', sample_propose (sample_generator "diagnostic.echo") = Ok (r, db')
    /\ r.(Proposed.hypothesis_id) = Some "hyp-2" /\ length db'.(ProposeDb.hypotheses) = 1%nat
    /\ exists a, db'.(ProposeDb.admissions) = [] ++ [a].
Proof.
  destruct (sample_propose (sample_generator "diagnostic.echo")) as [[r db']|e] eqn:E;
    [|vm_compute in E; discriminate E].
  exists r, db'. split; [reflexivity|].
  destruct (stored_hypotheses_are_earned (H := echo_schema) (H0 := fun _ => true) echo_catalog
              (fun _ => "sha") (scripted (sample_generator "diagnostic.echo") sample_falsifier)
              sample_db sample_command sample_ids sample_context r db' E) as [[a [Ha _]] _].
  vm_compute in E. injection E as <- <-. split; [reflexivity|]. split; [reflexivity|].
  exists a. exact Ha.
Defined.

(** A capability with several actions, or unknown, is refused after the admission, and recorded so. *)
Example unplannable_capabilities :
  (fun p => p.1.(Proposed.reason_code)) <$> sample_propose (sample_generator "http.transaction")
    = Ok "UNSUPPORTED_CAPABILITY"
  /\ (fun p => p.1.(Proposed.reason_code)) <$>
       propose (H := any_schema) (H0 := fun _ => true) http_catalog (fun _ => "sha")
         (scripted (sample_generator "http.transaction") sample_falsifier) sample_db sample_command
         sample_ids sample_context
    = Ok "PLANNING_INPUT_REJECTED".
Proof. by vm_compute. Qed.

(** A key that claims authority is a policy conflict, and the cycle is recorded; but
    [authorization] is also a key the reasoning record refuses as a secret, so that conflict (like any
    refused output with a sensitive key) raises instead and leaves no record at all. *)
Example policy_conflict_recorded_or_lost :
  (fun p => (p.1.(Proposed.reason_code), length p.2.(ProposeDb.admissions))) <$>
    sample_propose [("severity", PStr "high")] = Ok ("POLICY_CONFLICT", 1%nat)
  /\ sample_propose [("authorization", PStr "granted")] = Raise PersistenceInputError
  /\ sample_propose [("password", PStr "x")] = Raise PersistenceInputError.
Proof. by vm_compute. Qed.
