(* ===== verification/CellContract.v ===== *)
(** * Cells and steps as requests

    [research/mutation/cell_contract.py] and [research/protocol/step_compile.py]: the arguments of
    the HTTP capabilities for a cell of a mutation matrix and a step of a protocol plan. *)
From S2P Require Import Prelude PyVal PyText Plans Planning.

(** ** [research/mutation/cell_contract.py] *)

(** [research/mutation/cell_contract.py:17 MUTATION_MATRIX_EVALUATION_STRATEGY] *)
Definition MUTATION_MATRIX_EVALUATION_STRATEGY : string := "mutation.matrix.v1".
(** [research/mutation/cell_contract.py:18-20 MUTATION_MATRIX_EXPECTED_OBSERVATION] *)
Definition MUTATION_MATRIX_EXPECTED_OBSERVATION : string :=
  "mutation matrix cell produced a distinguishable HTTP observation under its control".
(** [research/mutation/cell_contract.py:21-23 MUTATION_MATRIX_DISCONFIRMING_OBSERVATION] *)
Definition MUTATION_MATRIX_DISCONFIRMING_OBSERVATION : string :=
  "mutation matrix cell produced no HTTP observation or only the control denial".
(** [research/mutation/cell_contract.py:24 MAX_QUERY_VALUE_LENGTH] *)
Definition MAX_QUERY_VALUE_LENGTH : nat := 128.
(** [research/mutation/cell_contract.py:25 PROBE_TOKEN] *)
Definition PROBE_TOKEN : string := "rosq".

(** [research/mutation/cell_contract.py:53-63 MutationCellHttpBinding] *)
Module MutationCellHttpBinding.
Record t : Type := mk {
  template : HttpRequestTemplate.t;
  action : string;
  expected_observation : string;
  disconfirming_observation : string;
  evaluation_strategy : string;
  family_name : string;
  cell_id : string;
  control : string }.
End MutationCellHttpBinding.

(** [if b: raise MutationCellContractError(code, ...)] *)
Notation "'cell_error' c 'if' b ;; k" := (if b then Raise (MutationCellContractError c) else k)
  (at level 100, c at level 99, b at level 99, k at level 200, right associativity) : zest_scope.

(** [_text(v)] of a value: the text stripped, when it is one.
    [research/mutation/cell_contract.py:290-293 _text] *)
Definition text_of (v : pyval) : option string :=
  match v with
  | PStr s => if Str.is_blank s then None else Some (Str.strip s)
  | _ => None
  end.

(** [research/mutation/cell_contract.py:296-307 _short_family] *)
Definition SHORT_FAMILY : list (string * string) :=
  [ ("SQL_INJECTION", "sqli"); ("SERVER_SIDE_TEMPLATE_INJECTION", "ssti");
    ("FILE_INCLUDE_AND_PATH_TRAVERSAL", "lfi"); ("MASS_ASSIGNMENT", "mass");
    ("JWT_CRYPTO_AND_CLAIM_CONFUSION", "jwt"); ("CORS_CREDENTIAL_EXFILTRATION_CHAIN", "cors");
    ("GRAPHQL_AUTHORIZATION_AND_INJECTION", "gql"); ("DOM_TAINT_AND_CLIENT_SIDE_EXECUTION", "dom");
    ("AI_LLM_PROMPT_INJECTION_AND_TOOL_ABUSE", "llm") ].

(** [research/mutation/cell_contract.py:258-271 _encode] *)
Definition encode_token (token encoding : string) : result string :=
  if (encoding =? "raw")%string then Ok token
  else if (encoding =? "url")%string then Ok (quote token)
  else if (encoding =? "double_url")%string then Ok (quote (quote token))
  else if (encoding =? "unicode_escape")%string then Ok (unicode_escape token)
  else if (encoding =? "html_entity")%string then Ok (html_entities token)
  else if (encoding =? "stacked")%string then Ok (token +:+ ";" +:+ token)
  else Raise (MutationCellContractError "UNKNOWN_ENCODING").

(** [research/mutation/cell_contract.py:274-278 _require_query_fit] *)
Definition require_query_fit (value : string) : result unit :=
  cell_error "PROBE_EXCEEDS_BOUND" if (MAX_QUERY_VALUE_LENGTH <? String.length value)%nat;;
  cell_error "PROBE_INVALID"
    if existsb (Str.contains value) [String "013" ""; String "010" ""; String "000" ""];;
  Ok tt.

(** [research/mutation/cell_contract.py:281-287 _join_path] *)
Definition join_path (base_path segment : string) : result string :=
  let trimmed := Str.rstrip_chars ["/"%char] base_path in
  let trimmed := if Str.starts_with trimmed "/" then trimmed else "/" +:+ trimmed in
  cell_error "PATH_SEGMENT_INVALID"
    if existsb (Str.contains segment) ["/"; String backslash ""; ".."; "%"];;
  Ok (trimmed +:+ "/" +:+ segment).

(** The variables of the request the branches assign. *)
Module CellRequest.
Record t : Type := mk {
  method : string;
  path : string;
  query : list (string * string);
  headers : list (string * string);
  body : option string;
  content_type : option string }.
End CellRequest.

Definition get_request (path : string) (query : list (string * string)) : CellRequest.t :=
  CellRequest.mk "GET" path query [] None None.
Definition post_json (path : string) (query : list (string * string))
    (body : list (string * string)) : CellRequest.t :=
  CellRequest.mk "POST" path query [] (Some (json_texts body)) (Some "application/json").
Definition post_form (path : string) (query : list (string * string)) (body : string)
    : CellRequest.t :=
  CellRequest.mk "POST" path query [] (Some body) (Some "application/x-www-form-urlencoded").

(** [query[k] = v] for each pair, in order. *)
Definition puts (pairs query : list (string * string)) : list (string * string) :=
  foldl (fun d p => dict_put p.1 p.2 d) query pairs.

(** [research/mutation/cell_contract.py:229-255 _apply_input_vector] *)
Definition apply_input_vector (vector encoded base_path : string) (query : list (string * string))
    : result CellRequest.t :=
  let query := dict_put "ros_p" encoded query in
  if (vector =? "query")%string then Ok (get_request base_path query)
  else if (vector =? "path")%string
  then path ← join_path base_path PROBE_TOKEN; Ok (get_request path query)
  else if (vector =? "header")%string
  then Ok (CellRequest.mk "GET" base_path query [("X-Request-Id", Str.take 128 encoded)] None None)
  else if (vector =? "cookie_free")%string
  then Ok (get_request base_path (dict_put "ros_ck" "omit" query))
  else if (vector =? "json_body")%string
  then Ok (post_json base_path query [("ros_p", encoded)])
  else if (vector =? "form_body")%string
  then Ok (post_form base_path query ("ros_p=" +:+ encoded))
  else Raise (MutationCellContractError "UNKNOWN_INPUT_VECTOR").

(** The probe of a family in its encoding, which must fit a query value. *)
Definition probe (token encoding : string) : result string :=
  encoded ← encode_token token encoding;
  _ ← require_query_fit encoded;
  Ok encoded.

(** The branches by family; [dim] reads a required dimension.
    [research/mutation/cell_contract.py:112-216 bind_mutation_matrix_cell] *)
Definition family_request (family_name : string) (dim : string -> string) (base_path : string)
    (query : list (string * string)) : result CellRequest.t :=
  if (family_name =? "SQL_INJECTION")%string then
    encoded ← probe PROBE_TOKEN (dim "encoding");
    apply_input_vector (dim "input_vector") encoded base_path
      (puts [("ros_enc", dim "encoding"); ("ros_dlt", dim "parser_delta")] query)
  else if (family_name =? "SERVER_SIDE_TEMPLATE_INJECTION")%string then
    let engine := dim "template_engine_probe" in
    encoded ← probe ("t" +:+ Str.take 8 engine) (dim "encoding");
    apply_input_vector (if (engine =? "filter_boundary")%string then "json_body" else "query")
      encoded base_path (puts [("ros_enc", dim "encoding"); ("ros_prb", engine)] query)
  else if (family_name =? "FILE_INCLUDE_AND_PATH_TRAVERSAL")%string then
    encoded ← probe PROBE_TOKEN (dim "encoding");
    let vector := dim "path_vector" in
    let query := puts [ ("ros_enc", dim "encoding"); ("ros_nrm", dim "normalization");
                        ("ros_vec", vector); ("ros_p", encoded) ] query in
    if (vector =? "path_param")%string
    then path ← join_path base_path PROBE_TOKEN; Ok (get_request path query)
    else if (vector =? "json_field")%string
    then Ok (post_json base_path query [("ros_p", encoded); ("ros_nrm", dim "normalization")])
    else if (vector =? "multipart_name")%string
    then Ok (post_form base_path query ("ros_p=" +:+ encoded))
    else Ok (get_request base_path query)
  else if (family_name =? "MASS_ASSIGNMENT")%string then
    let query := puts [ ("ros_fld", dim "field_family"); ("ros_role", dim "role");
                        ("ros_st", dim "state_change") ] query in
    if (dim "state_change" =? "write_attempt")%string
    then Ok (post_json base_path query
               (dict_put "ros_role" (dim "role") [(dim "field_family", "1")]))
    else Ok (get_request base_path query)
  else if (family_name =? "JWT_CRYPTO_AND_CLAIM_CONFUSION")%string then
    Ok (get_request base_path (puts [ ("ros_alg", dim "algorithm"); ("ros_key", dim "key_source");
                                      ("ros_clm", dim "claim") ] query))
  else if (family_name =? "CORS_CREDENTIAL_EXFILTRATION_CHAIN")%string then
    Ok (CellRequest.mk "GET" base_path
          (puts [ ("ros_org", dim "origin_variant"); ("ros_crd", dim "credentials");
                  ("ros_snk", dim "data_sink") ] query)
          [("Accept", "application/json")] None None)
  else if (family_name =? "GRAPHQL_AUTHORIZATION_AND_INJECTION")%string then
    Ok (post_json base_path (dict_put "ros_op" (dim "operation_kind") query)
          [ ("ros_op", dim "operation_kind"); ("ros_res", dim "resolver");
            ("ros_id", dim "identity") ])
  else if (family_name =? "DOM_TAINT_AND_CLIENT_SIDE_EXECUTION")%string then
    Ok (get_request base_path (puts [ ("ros_src", dim "source"); ("ros_snk", dim "sink");
                                      ("ros_tok", dim "execution_token") ] query))
  else if (family_name =? "AI_LLM_PROMPT_INJECTION_AND_TOOL_ABUSE")%string then
    Ok (post_json base_path (dict_put "ros_ch" (dim "instruction_channel") query)
          [ ("ros_ch", dim "instruction_channel"); ("ros_ctx", dim "retrieval_context");
            ("ros_tb", dim "tool_boundary") ])
  else Raise (MutationCellContractError "UNKNOWN_MUTATION_FAMILY").

(** A dictionary of texts among the arguments of a request. *)
Definition text_items (d : list (string * string)) : list (string * pyval) :=
  (fun p => (p.1, PStr p.2)) <$> d.

(** [cell_id.split(":")[-1][:16]] *)
Definition cell_suffix (cell_id : string) : string :=
  Str.take 16 (List.last (Str.split ":"%char cell_id) "").

(** A required dimension is a text, which [str] leaves as it is.
    [research/mutation/cell_contract.py:66-226 bind_mutation_matrix_cell] *)
Definition bind_mutation_matrix_cell (family_name cell_id : string)
    (dimension_values : list (string * pyval)) (control authorized_origin path : string)
    : result MutationCellHttpBinding.t :=
  match assoc family_name FAMILY_REQUIRED_DIMENSIONS, assoc family_name SHORT_FAMILY with
  | Some required, Some short =>
      cell_error "CELL_ID_REQUIRED" if Str.is_blank cell_id;;
      cell_error "CONTROL_REQUIRED" if Str.is_blank control;;
      cell_error "ORIGIN_REQUIRED" if Str.is_blank authorized_origin;;
      cell_error "PATH_REQUIRED" if Str.is_blank path;;
      cell_error "DIMENSION_VALUES_REQUIRED" if bool_decide (dimension_values.*1 = []);;
      cell_error "MUTATION_MATRIX_CELL_DIMENSIONS_INCOMPLETE"
        if existsb (fun name => bool_decide (text_of (dict_get name dimension_values) = None))
             required;;
      let dim name := match dict_get name dimension_values with PStr s => s | _ => "" end in
      let control_name := Str.strip control in
      request ← family_request family_name dim (Str.strip path)
                  [ ("ros_fam", short); ("ros_ctl", Str.take 32 control_name);
                    ("ros_cell", cell_suffix cell_id) ];
      let method := request.(CellRequest.method) in
      Ok (MutationCellHttpBinding.mk
            (HttpRequestTemplate.mk (Str.rstrip_chars ["/"%char] (Str.strip authorized_origin))
               method request.(CellRequest.path) (text_items request.(CellRequest.query))
               (text_items request.(CellRequest.headers)) request.(CellRequest.body)
               request.(CellRequest.content_type) None (Some 4096) (Some 2000))
            (if mem method ["POST"; "PUT"; "PATCH"; "DELETE"] then "mutate" else "read")
            MUTATION_MATRIX_EXPECTED_OBSERVATION MUTATION_MATRIX_DISCONFIRMING_OBSERVATION
            MUTATION_MATRIX_EVALUATION_STRATEGY family_name (Str.strip cell_id) control_name)
  | _, _ => Raise (MutationCellContractError "UNKNOWN_MUTATION_FAMILY")
  end.

(** ** [research/protocol/step_compile.py] *)

(** [research/protocol/step_compile.py:14 PROTOCOL_STEP_EVALUATION_STRATEGY] *)
Definition PROTOCOL_STEP_EVALUATION_STRATEGY : string := "protocol.parser.step.v1".
(** [research/protocol/step_compile.py:15-17 PROTOCOL_STEP_EXPECTED_OBSERVATION] *)
Definition PROTOCOL_STEP_EXPECTED_OBSERVATION : string :=
  "protocol step produced a bounded raw-exchange observation under its control".
(** [research/protocol/step_compile.py:18-20 PROTOCOL_STEP_DISCONFIRMING_OBSERVATION] *)
Definition PROTOCOL_STEP_DISCONFIRMING_OBSERVATION : string :=
  "protocol step produced no raw-exchange observation or a redirect/new-origin stop".
(** [research/protocol/step_compile.py:24 SMUGGLING_LANE] *)
Definition SMUGGLING_LANE : string := "http_request_smuggling_desync".
(** [research/protocol/step_compile.py:25 CACHE_LANE] *)
Definition CACHE_LANE : string := "http_cache_poisoning_deception".
(** [research/protocol/step_compile.py:27 SMUGGLING_REQUIRED_DIMENSIONS] *)
Definition SMUGGLING_REQUIRED_DIMENSIONS : list string :=
  ["frontend_protocol"; "backend_protocol"; "normalization_boundary"].
(** [research/protocol/step_compile.py:28 CACHE_REQUIRED_DIMENSIONS] *)
Definition CACHE_REQUIRED_DIMENSIONS : list string :=
  ["cache_key_dimension"; "cache_behavior"; "proxy_layer"].
(** [research/protocol/step_compile.py:30-46 FRAMING_PROFILES] *)
Definition FRAMING_PROFILES : list string :=
  [ "http1_canonical"; "http1_header_case_fold"; "http1_absolute_uri"; "http1_cl_te";
    "http1_te_cl"; "http1_connection_reuse"; "http2_preface"; "h2c_upgrade"; "http1_cache_host";
    "http1_cache_scheme"; "http1_cache_path"; "http1_cache_query"; "http1_cache_header" ].

(** [research/protocol/step_compile.py:58-65 ProtocolStepBinding] *)
Module ProtocolStepBinding.
Record t : Type := mk {
  arguments : list (string * pyval);
  expected_observation : string;
  disconfirming_observation : string;
  evaluation_strategy : string;
  step_id : string;
  control : string;
  framing_profile : string }.
End ProtocolStepBinding.

Definition is_text_value (o : option string) (s : string) : bool := bool_decide (o = Some s).

(** [research/protocol/step_compile.py:125-142 _smuggling_profile] *)
Definition smuggling_profile (dimension_values : list (string * pyval)) (control : string)
    : result string :=
  let frontend := text_of (dict_get "frontend_protocol" dimension_values) in
  let boundary := text_of (dict_get "normalization_boundary" dimension_values) in
  if is_text_value frontend "http2" then Ok "http2_preface"
  else if is_text_value frontend "h2c_upgrade" then Ok "h2c_upgrade"
  else if negb (is_text_value frontend "http1")
  then Raise (ProtocolStepContractError "UNKNOWN_FRONTEND_PROTOCOL")
  else if is_text_value boundary "content_length_transfer_encoding"
  then Ok (if Str.contains control "deceptive" then "http1_te_cl" else "http1_cl_te")
  else if is_text_value boundary "connection_reuse" then Ok "http1_connection_reuse"
  else if is_text_value boundary "header_case_fold" then Ok "http1_header_case_fold"
  else if is_text_value boundary "absolute_uri" then Ok "http1_absolute_uri"
  else Raise (ProtocolStepContractError "UNKNOWN_NORMALIZATION_BOUNDARY").

Definition CACHE_PROFILES : list (string * string) :=
  [ ("host", "http1_cache_host"); ("scheme", "http1_cache_scheme"); ("path", "http1_cache_path");
    ("query", "http1_cache_query"); ("header", "http1_cache_header") ].

(** [research/protocol/step_compile.py:145-156 _cache_profile] *)
Definition cache_profile (dimension_values : list (string * pyval)) : result string :=
  match text_of (dict_get "cache_key_dimension" dimension_values) ≫= fun k => assoc k CACHE_PROFILES with
  | Some profile => Ok profile
  | None => Raise (ProtocolStepContractError "UNKNOWN_CACHE_KEY_DIMENSION")
  end.

(** [if b: raise ProtocolStepContractError(code, ...)] *)
Notation "'step_error' c 'if' b ;; k" := (if b then Raise (ProtocolStepContractError c) else k)
  (at level 100, c at level 99, b at level 99, k at level 200, right associativity) : zest_scope.

(** [research/protocol/step_compile.py:68-122 bind_protocol_step] *)
Definition bind_protocol_step (step_id : string) (dimension_values : list (string * pyval))
    (control authorized_origin path protocol_lane : string) : result ProtocolStepBinding.t :=
  step_error "STEP_ID_REQUIRED" if Str.is_blank step_id;;
  step_error "CONTROL_REQUIRED" if Str.is_blank control;;
  step_error "ORIGIN_REQUIRED" if Str.is_blank authorized_origin;;
  step_error "PATH_REQUIRED" if Str.is_blank path;;
  step_error "DIMENSION_VALUES_REQUIRED" if bool_decide (dimension_values.*1 = []);;
  let lane := Str.strip protocol_lane in
  selected ←
    (if (lane =? SMUGGLING_LANE)%string
     then p ← smuggling_profile dimension_values control; Ok (SMUGGLING_REQUIRED_DIMENSIONS, p)
     else if (lane =? CACHE_LANE)%string
     then p ← cache_profile dimension_values; Ok (CACHE_REQUIRED_DIMENSIONS, p)
     else Raise (ProtocolStepContractError "UNKNOWN_PROTOCOL_LANE"));
  let '(required, profile) := selected in
  step_error "PROTOCOL_STEP_DIMENSIONS_INCOMPLETE"
    if existsb (fun name => bool_decide (text_of (dict_get name dimension_values) = None)) required;;
  step_error "UNKNOWN_FRAMING_PROFILE" if negb (mem profile FRAMING_PROFILES);;
  Ok (ProtocolStepBinding.mk
        [ ("authorized_origin", PStr (Str.rstrip_chars ["/"%char] (Str.strip authorized_origin)));
          ("path", PStr (Str.strip path)); ("framing_profile", PStr profile);
          ("control", PStr (Str.take 64 (Str.strip control))); ("lane", PStr lane);
          ("max_response_bytes", PInt 4096); ("timeout_ms", PInt 2000) ]
        PROTOCOL_STEP_EXPECTED_OBSERVATION PROTOCOL_STEP_DISCONFIRMING_OBSERVATION
        PROTOCOL_STEP_EVALUATION_STRATEGY (Str.strip step_id) (Str.strip control) profile).

(** ** Every cell can be bound *)

(** The dimension of a cell, read as [bind_mutation_matrix_cell] reads it. *)
Definition dim_of (dimension_values : list (string * pyval)) (name : string) : string :=
  match dict_get name dimension_values with PStr s => s | _ => "" end.

(** What [bind_mutation_matrix_cell] asks of a cell beyond the origin and the path. *)
Definition cell_ready (family_name : string) (cell : MutationMatrixCell.t) (base : string)
    (query : list (string * string)) : bool :=
  let values := text_items cell.(MutationMatrixCell.dimension_values) in
  match assoc family_name FAMILY_REQUIRED_DIMENSIONS, assoc family_name SHORT_FAMILY with
  | Some required, Some _ =>
      negb (Str.is_blank cell.(MutationMatrixCell.cell_id))
      && negb (Str.is_blank cell.(MutationMatrixCell.control))
      && negb (bool_decide (values.*1 = []))
      && negb (existsb (fun name => bool_decide (text_of (dict_get name values) = None)) required)
      && is_ok (family_request family_name (dim_of values) base query)
  | _, _ => false
  end.

Section cells.
Context `{FloatRepr} (sha256_json : pyval -> string).

Lemma catalog_cells_ready base query :
  forallb (fun r => match r with
                    | Ok p => forallb (fun c => cell_ready p.(MutationMatrixPlan.family_name) c base query)
                                p.(MutationMatrixPlan.cells)
                    | Raise _ => false
                    end) (catalog_plans sha256_json) = true.
Proof. vm_compute. reflexivity. Qed.
End cells.

(** The shape of a request: a [GET] has no body, a [POST] has one with its type. *)
Definition request_shaped (r : CellRequest.t) : Prop :=
  (r.(CellRequest.method) = "GET" /\ r.(CellRequest.body) = None /\ r.(CellRequest.content_type) = None)
  \/ (r.(CellRequest.method) = "POST" /\ is_Some r.(CellRequest.body)
      /\ is_Some r.(CellRequest.content_type)).

Lemma get_shaped path query : request_shaped (get_request path query).
Proof. by left. Qed.
Lemma post_json_shaped path query body : request_shaped (post_json path query body).
Proof. right. split; [done|]. by split; eexists. Qed.
Lemma post_form_shaped path query body : request_shaped (post_form path query body).
Proof. right. split; [done|]. by split; eexists. Qed.
#[local] Hint Resolve get_shaped post_json_shaped post_form_shaped : core.

Lemma apply_input_vector_shaped vector encoded base query r :
  apply_input_vector vector encoded base query = Ok r -> request_shaped r.
Proof.
  unfold apply_input_vector.
  repeat (case_match; [intros Hr; repeat (apply bind_ok in Hr as (? & _ & Hr)); injection Hr as <-; auto|]);
    try done. by left.
Qed.

Lemma family_request_shaped name dim base query r :
  family_request name dim base query = Ok r -> request_shaped r.
Proof.
  unfold family_request.
  repeat (case_match;
    [intros Hr; repeat (apply bind_ok in Hr as (? & _ & Hr));
     first [by apply apply_input_vector_shaped in Hr
           |repeat case_match; repeat (apply bind_ok in Hr as (? & _ & Hr)); injection Hr as <-; auto; by left]
    |]); done.
Qed.

Section bound_cells.
Context `{FloatRepr} (sha256_json : pyval -> string).

Lemma selected_cell_ready name cell_id id hash cell :
  lookup_authoritative_mutation_cell sha256_json name cell_id id hash = Ok cell ->
  forall base query, cell_ready name cell base query = true.
Proof.
  unfold lookup_authoritative_mutation_cell. rewrite raise_if_ok. intros [_ Hb].
  rewrite bind_ok in Hb. destruct Hb as (plan & Hp & Hb). rewrite raise_if_ok in Hb.
  destruct Hb as [_ Hb]. destruct (List.find _ _) as [c|] eqn:E; [|done].
  rewrite raise_if_ok in Hb. destruct Hb as [_ [= ->]].
  apply find_Some_elem in E as [Hin _]. destruct (rebuild_matrix_ok _ _ _ _ Hp) as (entry & He & Hn & _ & Hr).
  assert (Hname : plan.(MutationMatrixPlan.family_name) = name).
  { unfold rebuild_authoritative_mutation_matrix, mutation_family_view in Hr.
    destruct (assoc name FAMILY_REQUIRED_DIMENSIONS); [|done]. rewrite bind_ok in Hr.
    destruct Hr as (view & Hv & Hr). destruct (assoc name CATALOG_BY_NAME) as [e|] eqn:Ea; [|done].
    apply assoc_catalog in Ea as [_ Ea]. rewrite raise_if_ok in Hv. destruct Hv as [_ [= <-]].
    unfold build_mutation_matrix in Hr. rewrite raise_if_ok in Hr. destruct Hr as [_ Hr].
    repeat (rewrite bind_ok in Hr; destruct Hr as (? & _ & Hr)).
    rewrite raise_if_ok in Hr. destruct Hr as [_ [= <-]]. exact Ea. }
  intros base query. pose proof (catalog_cells_ready sha256_json base query) as Hc.
  rewrite forallb_forall in Hc. specialize (Hc (Ok plan)). cbn beta iota in Hc.
  rewrite forallb_forall, Hname in Hc. apply Hc; [|by apply list_elem_of_In].
  apply list_elem_of_In, list_elem_of_fmap. exists entry. by rewrite Hn.
Qed.

(** Every cell that can be selected can be asked: whatever the cell of the catalog, once an
    origin and a path are given, the cell is bound to one request on that origin, a [read] without
    a body or a [mutate] that posts one, and it carries the identity of the cell.  No family,
    vector or encoding of the catalog is left without a binding. *)
Theorem selected_cells_bind name cell_id id hash cell origin path :
  lookup_authoritative_mutation_cell sha256_json name cell_id id hash = Ok cell ->
  Str.is_blank origin = false ->
  Str.is_blank path = false ->
  exists b,
    bind_mutation_matrix_cell name cell.(MutationMatrixCell.cell_id)
      (text_items cell.(MutationMatrixCell.dimension_values)) cell.(MutationMatrixCell.control)
      origin path = Ok b
    /\ b.(MutationCellHttpBinding.family_name) = name
    /\ b.(MutationCellHttpBinding.cell_id) = Str.strip cell.(MutationMatrixCell.cell_id)
    /\ b.(MutationCellHttpBinding.template).(HttpRequestTemplate.authorized_origin)
       = Str.rstrip_chars ["/"%char] (Str.strip origin)
    /\ ((b.(MutationCellHttpBinding.action) = "read"
         /\ b.(MutationCellHttpBinding.template).(HttpRequestTemplate.method) = "GET"
         /\ b.(MutationCellHttpBinding.template).(HttpRequestTemplate.body) = None)
        \/ (b.(MutationCellHttpBinding.action) = "mutate"
            /\ b.(MutationCellHttpBinding.template).(HttpRequestTemplate.method) = "POST"
            /\ is_Some b.(MutationCellHttpBinding.template).(HttpRequestTemplate.body))).
Proof.
  intros Hsel Ho Hp. pose proof (selected_cell_ready _ _ _ _ _ Hsel) as Hready.
  unfold bind_mutation_matrix_cell.
  assert (Hstep : forall base query, exists required short r,
    assoc name FAMILY_REQUIRED_DIMENSIONS = Some required /\ assoc name SHORT_FAMILY = Some short
    /\ Str.is_blank cell.(MutationMatrixCell.cell_id) = false
    /\ Str.is_blank cell.(MutationMatrixCell.control) = false
    /\ bool_decide ((text_items cell.(MutationMatrixCell.dimension_values)).*1 = []) = false
    /\ existsb (fun n => bool_decide (text_of (dict_get n (text_items cell.(MutationMatrixCell.dimension_values))) = None)) required = false
    /\ family_request name (dim_of (text_items cell.(MutationMatrixCell.dimension_values))) base query = Ok r).
  { intros base query. specialize (Hready base query). unfold cell_ready in Hready.
    destruct (assoc name FAMILY_REQUIRED_DIMENSIONS) as [required|]; [|done].
    destruct (assoc name SHORT_FAMILY) as [short|]; [|done].
    rewrite !andb_true_iff, !negb_true_iff in Hready. destruct Hready as [[[[? ?] ?] ?] Hok].
    unfold is_ok in Hok. destruct (family_request _ _ _ _) as [r|] eqn:Er; [|done].
    by exists required, short, r. }
  destruct (Hstep "" []) as (required & short & _ & Hr & Hs & -> & -> & -> & Hx & _).
  rewrite Hr, Hs, Ho, Hp, Hx. unfold dim_of in Hstep. cbn beta zeta.
  edestruct Hstep as (? & ? & r & _ & _ & _ & _ & _ & _ & Hreq). rewrite Hreq.
  cbn [mbind result_bind]. eexists. split; [reflexivity|]. do 3 (split; [reflexivity|]).
  destruct (family_request_shaped _ _ _ _ _ Hreq) as [(Hm & Hb & _)|(Hm & Hb & _)];
    [left|right]; cbn; by rewrite Hm.
Qed.
End bound_cells.

Lemma selected_cells_bind_witness :
  exists cell b,
    @lookup_authoritative_mutation_cell no_floats zero_digest "CORS_CREDENTIAL_EXFILTRATION_CHAIN"
      " hf-cors:cell:007 " (Some "hf-cors") None = Ok cell
    /\ bind_mutation_matrix_cell "CORS_CREDENTIAL_EXFILTRATION_CHAIN"
         cell.(MutationMatrixCell.cell_id) (text_items cell.(MutationMatrixCell.dimension_values))
         cell.(MutationMatrixCell.control) "http://127.0.0.1:8080/" "/api" = Ok b
    /\ b.(MutationCellHttpBinding.template).(HttpRequestTemplate.authorized_origin)
       = "http://127.0.0.1:8080".
Proof.
  destruct (@lookup_authoritative_mutation_cell no_floats zero_digest "CORS_CREDENTIAL_EXFILTRATION_CHAIN"
      " hf-cors:cell:007 " (Some "hf-cors") None) as [cell|e] eqn:E; [|vm_compute in E; discriminate].
  destruct (@selected_cells_bind no_floats zero_digest _ _ _ _ _ "http://127.0.0.1:8080/" "/api" E
              eq_refl eq_refl) as (b & Hb & _ & _ & Ho & _).
  exists cell, b. split; [reflexivity|]. split; [exact Hb|exact Ho].
Defined.
