(* ===== verification/CompilerRegistry.v ===== *)
(** * The registry of experiment compilers

    [research/compiler_registry.py] and [research/exploratory_research_compile.py]: a request of a
    known hunter family goes to the compiler of that family, a concrete mutation to the compiler of
    variants, anything else to the generic planner.  Each compiler decides: a plan, or the reason
    why there is none.  An exception a compiler does not catch leaves it. *)
From S2P Require Import Prelude PyVal PyText PyUrl Plans HttpPolicy Capability Proposals Compiler Planning CellContract.

(** [research/compiler_registry.py:58 COMPILER_AUTHORIZATION_DIFFERENTIAL] *)
Definition COMPILER_AUTHORIZATION_DIFFERENTIAL : string := "authorization_differential.v1".
Definition COMPILER_STATE_TRANSITION : string := "state_transition.v1".
Definition COMPILER_MUTATION_MATRIX_CELL : string := "mutation_matrix_cell.v1".
Definition COMPILER_MUTATION_VARIANT : string := "mutation_variant.v1".
Definition COMPILER_PROTOCOL_STEP : string := "protocol_step.v1".
Definition COMPILER_GENERIC_PLANNER : string := "generic_planner.v1".

(** [research/compiler_registry.py:68-80 MUTATION_MATRIX_FAMILIES] *)
Definition MUTATION_MATRIX_FAMILIES : list string :=
  [ "SQL_INJECTION"; "SERVER_SIDE_TEMPLATE_INJECTION"; "FILE_INCLUDE_AND_PATH_TRAVERSAL";
    "MASS_ASSIGNMENT"; "JWT_CRYPTO_AND_CLAIM_CONFUSION"; "CORS_CREDENTIAL_EXFILTRATION_CHAIN";
    "GRAPHQL_AUTHORIZATION_AND_INJECTION"; "DOM_TAINT_AND_CLIENT_SIDE_EXECUTION";
    "AI_LLM_PROMPT_INJECTION_AND_TOOL_ABUSE" ].
(** [research/compiler_registry.py:81-86 PROTOCOL_FAMILIES] *)
Definition PROTOCOL_FAMILIES : list string :=
  ["HTTP_REQUEST_SMUGGLING_DESYNC"; "HTTP_CACHE_POISONING_DECEPTION"].
(** [research/compiler_registry.py:89-96 PLANNING_ALIAS_CAPABILITIES] *)
Definition PLANNING_ALIAS_CAPABILITIES : list string :=
  [ "http.authorization_differential"; "http.state_transition_authorization"; "mutation.matrix";
    "protocol.parser" ].
(** [research/compiler_registry.py:98-109 HTTP_TRANSACTION_ARG_KEYS] *)
Definition HTTP_TRANSACTION_ARG_KEYS : list string :=
  [ "authorized_origin"; "method"; "path"; "query"; "headers"; "body"; "content_type";
    "session_context_reference"; "max_response_bytes"; "timeout_ms" ].

(** [research/compiler_registry.py:112-117 CompilerOutcome] *)
Module CompilerOutcome.
Inductive t : Set :=
  | COMPILED | BLOCKED_UNSUPPORTED_CAPABILITY | BLOCKED_MISSING_SEMANTICS | BLOCKED_UNKNOWN_CELL
  | BLOCKED_INVALID_INPUT.
#[global] Instance eq_dec : EqDecision t.
Proof. solve_decision. Defined.
End CompilerOutcome.

(** [arguments or {}] is a dictionary of its own; a missing one is empty.
    [research/compiler_registry.py:121-135 CompilerRequest] *)
Module CompilerRequest.
Record t : Type := mk {
  hypothesis_id : string;
  budget_id : string;
  target_reference : string;
  family_id : option string;
  family_name : option string;
  arguments : list (string * pyval);
  requested_side_effect : option Z;
  proposal : option HypothesisProposal.t;
  challenge : option HypothesisChallenge.t }.
End CompilerRequest.

(** [research/compiler_registry.py:139-150 CompilerResult] *)
Module CompilerResult.
Record t : Type := mk {
  outcome : CompilerOutcome.t;
  reason_code : string;
  compiler_id : string;
  plan : option ExperimentPlan.t;
  family_name : option string }.

(** [research/compiler_registry.py:149-150 CompilerResult.compiled] *)
Definition compiled (x : t) : bool :=
  bool_decide (x.(outcome) = CompilerOutcome.COMPILED) && bool_decide (is_Some x.(plan)).
End CompilerResult.

(** [research/compiler_registry.py:159-171 _blocked] *)
Definition blocked (compiler_id : string) (outcome : CompilerOutcome.t) (reason_code : string)
    (family_name : option string) : CompilerResult.t :=
  CompilerResult.mk outcome reason_code compiler_id None family_name.
(** [research/compiler_registry.py:174-187 _compiled] *)
Definition compiled_with (compiler_id : string) (plan : ExperimentPlan.t)
    (family_name : option string) : CompilerResult.t :=
  CompilerResult.mk CompilerOutcome.COMPILED "COMPILED" compiler_id (Some plan) family_name.

(** [research/compiler_registry.py:190-194 _text_arg] *)
Definition text_arg (arguments : list (string * pyval)) (key : string) : option string :=
  text_of (dict_get key arguments).

(** [_text_arg(arguments, a) or _text_arg(arguments, b)]: such a text is never empty. *)
Definition text_arg_or (arguments : list (string * pyval)) (a b : string) : option string :=
  match text_arg arguments a with Some s => Some s | None => text_arg arguments b end.

(** [except Exception]: whatever was raised becomes a block. *)
Definition catch_all (compiler_id fallback : string) (family_name : option string)
    (r : result ExperimentPlan.t) : CompilerResult.t :=
  match r with
  | Ok plan => compiled_with compiler_id plan family_name
  | Raise (ExperimentCompileError code) =>
      blocked compiler_id CompilerOutcome.BLOCKED_INVALID_INPUT code family_name
  | Raise _ => blocked compiler_id CompilerOutcome.BLOCKED_INVALID_INPUT fallback family_name
  end.

(** [except ExperimentCompileError]: an unknown capability is unsupported, anything else invalid;
    other exceptions pass. *)
Definition catch_compile (compiler_id : string) (family_name : option string)
    (r : result ExperimentPlan.t) : result CompilerResult.t :=
  match r with
  | Ok plan => Ok (compiled_with compiler_id plan family_name)
  | Raise (ExperimentCompileError code) =>
      Ok (blocked compiler_id
            (if (code =? "UNKNOWN_CAPABILITY")%string
             then CompilerOutcome.BLOCKED_UNSUPPORTED_CAPABILITY
             else CompilerOutcome.BLOCKED_INVALID_INPUT) code family_name)
  | Raise e => Raise e
  end.

Section registry.
Context `{JsonSchema} `{NetlocCheck} `{FloatRepr}.
Context (catalog : CapabilityRegistry.t) (sha256_json : pyval -> string).

(** [research/compiler_registry.py:202-243 AuthorizationDifferentialCompiler.compile] *)
Definition authorization_compile (request : CompilerRequest.t) : CompilerResult.t :=
  let arguments := request.(CompilerRequest.arguments) in
  let family := request.(CompilerRequest.family_name) in
  let id := COMPILER_AUTHORIZATION_DIFFERENTIAL in
  match text_arg_or arguments "authorized_origin" "origin", text_arg arguments "actor",
        text_arg arguments "own_object", text_arg arguments "cross_object" with
  | Some origin, Some actor, Some own, Some cross =>
      catch_all id "AUTHORIZATION_DIFFERENTIAL_COMPILE_REJECTED" family
        (plan_authorization_differential catalog request.(CompilerRequest.hypothesis_id)
           request.(CompilerRequest.budget_id) request.(CompilerRequest.target_reference)
           origin actor own cross (from_option (fun s => s) "vulnerable" (text_arg arguments "mode")))
  | _, _, _, _ =>
      blocked id CompilerOutcome.BLOCKED_MISSING_SEMANTICS
        "AUTHORIZATION_DIFFERENTIAL_FIELDS_REQUIRED" family
  end.

(** [research/compiler_registry.py:251-292 StateTransitionCompiler.compile] *)
Definition state_transition_compile (request : CompilerRequest.t) : CompilerResult.t :=
  let arguments := request.(CompilerRequest.arguments) in
  let family := request.(CompilerRequest.family_name) in
  let id := COMPILER_STATE_TRANSITION in
  match text_arg_or arguments "authorized_origin" "origin", text_arg arguments "actor",
        text_arg arguments "resource_id", text_arg arguments "transition" with
  | Some origin, Some actor, Some resource, Some transition =>
      catch_all id "STATE_TRANSITION_COMPILE_REJECTED" family
        (plan_state_transition catalog request.(CompilerRequest.hypothesis_id)
           request.(CompilerRequest.budget_id) request.(CompilerRequest.target_reference)
           origin actor resource transition
           (from_option (fun s => s) "workflow" (text_arg arguments "area")))
  | _, _, _, _ =>
      blocked id CompilerOutcome.BLOCKED_MISSING_SEMANTICS "STATE_TRANSITION_FIELDS_REQUIRED" family
  end.

(** A required dimension of a cell is blank. *)
Definition dimensions_missing (family_name : string) (cell : MutationMatrixCell.t) : bool :=
  existsb (fun name => Str.is_blank (from_option (fun s => s) ""
                         (assoc name cell.(MutationMatrixCell.dimension_values))))
    (from_option (fun l => l) [] (assoc family_name FAMILY_REQUIRED_DIMENSIONS)).

(** The plan of a cell: the binding, then the compiler.
    [research/compiler_registry.py:306-397 MutationMatrixCellCompiler.compile] *)
Definition plan_cell (request : CompilerRequest.t) (family_name : string)
    (cell : MutationMatrixCell.t) (origin path : string) : result ExperimentPlan.t :=
  binding ← bind_mutation_matrix_cell family_name cell.(MutationMatrixCell.cell_id)
              (text_items cell.(MutationMatrixCell.dimension_values))
              cell.(MutationMatrixCell.control) origin path;
  compile catalog
    (ExperimentIntent.mk request.(CompilerRequest.hypothesis_id) HTTP_TRANSACTION_CAPABILITY
       binding.(MutationCellHttpBinding.action) request.(CompilerRequest.target_reference)
       (HttpRequestTemplate.arguments binding.(MutationCellHttpBinding.template))
       request.(CompilerRequest.budget_id)
       binding.(MutationCellHttpBinding.expected_observation)
       binding.(MutationCellHttpBinding.disconfirming_observation)
       binding.(MutationCellHttpBinding.evaluation_strategy)
       request.(CompilerRequest.requested_side_effect) opaque).

(** [research/compiler_registry.py:306-397 MutationMatrixCellCompiler.compile] *)
Definition cell_compile (request : CompilerRequest.t) : result CompilerResult.t :=
  let arguments := request.(CompilerRequest.arguments) in
  let id := COMPILER_MUTATION_MATRIX_CELL in
  let family := request.(CompilerRequest.family_name) in
  let stop outcome code := Ok (blocked id outcome code family) in
  match family with
  | None => stop CompilerOutcome.BLOCKED_INVALID_INPUT "MUTATION_FAMILY_REQUIRED"
  | Some family_name =>
      let path := from_option (fun s => s) "/" (text_arg arguments "path") in
      let family_id := match request.(CompilerRequest.family_id) with
                       | Some s => text_of (PStr s) | None => None end in
      match text_arg_or arguments "cell_id" "selected_cell_id" with
      | None => stop CompilerOutcome.BLOCKED_MISSING_SEMANTICS "MUTATION_MATRIX_CELL_TARGET_REQUIRED"
      | Some cell_id =>
          match lookup_authoritative_mutation_cell sha256_json family_name cell_id family_id
                  (text_arg arguments "matrix_hash") with
          | Raise (MutationCellIdentityError code) => stop CompilerOutcome.BLOCKED_UNKNOWN_CELL code
          | Raise e => Raise e
          | Ok cell =>
              match text_arg_or arguments "authorized_origin" "origin" with
              | None =>
                  stop CompilerOutcome.BLOCKED_MISSING_SEMANTICS
                    "MUTATION_MATRIX_CELL_TARGET_REQUIRED"
              | Some origin =>
                  if dimensions_missing family_name cell
                  then stop CompilerOutcome.BLOCKED_MISSING_SEMANTICS
                         "MUTATION_MATRIX_CELL_DIMENSIONS_INCOMPLETE"
                  else match plan_cell request family_name cell origin path with
                       | Raise (MutationCellContractError code) =>
                           stop CompilerOutcome.BLOCKED_MISSING_SEMANTICS code
                       | r => catch_compile id family r
                       end
              end
          end
      end
  end.

(** [research/compiler_registry.py:409-456 MutationVariantCompiler.compile] *)
Definition variant_compile (request : CompilerRequest.t) : result CompilerResult.t :=
  let arguments := request.(CompilerRequest.arguments) in
  let family := request.(CompilerRequest.family_name) in
  let id := COMPILER_MUTATION_VARIANT in
  let or_text key default := from_option (fun s => s) default (text_arg arguments key) in
  match text_arg arguments "capability_id", text_arg arguments "action" with
  | Some capability, Some action =>
      if (capability =? HTTP_TRANSACTION_CAPABILITY)%string
      then
        catch_compile id family
          (compile catalog
             (ExperimentIntent.mk request.(CompilerRequest.hypothesis_id)
                HTTP_TRANSACTION_CAPABILITY action request.(CompilerRequest.target_reference)
                (omap (M:=list) (fun key => v ← assoc key arguments; Some (key, v))
                   HTTP_TRANSACTION_ARG_KEYS)
                request.(CompilerRequest.budget_id)
                (or_text "expected_observation" HTTP_TRANSACTION_EXPECTED_OBSERVATION)
                (or_text "disconfirming_observation" HTTP_TRANSACTION_DISCONFIRMING_OBSERVATION)
                (or_text "evaluation_strategy" "http.transaction.v1")
                request.(CompilerRequest.requested_side_effect) opaque))
      else Ok (blocked id CompilerOutcome.BLOCKED_UNSUPPORTED_CAPABILITY
                 "MUTATION_VARIANT_REQUIRES_HTTP_TRANSACTION" family)
  | _, _ =>
      Ok (blocked id CompilerOutcome.BLOCKED_UNSUPPORTED_CAPABILITY
            "MUTATION_VARIANT_REQUIRES_HTTP_TRANSACTION" family)
  end.

(** [research/compiler_registry.py:469-531 ProtocolStepCompiler.compile] *)
Definition plan_step (request : CompilerRequest.t) (step_id control origin path lane : string)
    (dimensions : list (string * pyval)) : result ExperimentPlan.t :=
  binding ← bind_protocol_step step_id dimensions control origin path lane;
  compile catalog
    (ExperimentIntent.mk request.(CompilerRequest.hypothesis_id) "http.raw_exchange" "probe"
       request.(CompilerRequest.target_reference) binding.(ProtocolStepBinding.arguments)
       request.(CompilerRequest.budget_id) binding.(ProtocolStepBinding.expected_observation)
       binding.(ProtocolStepBinding.disconfirming_observation)
       binding.(ProtocolStepBinding.evaluation_strategy)
       request.(CompilerRequest.requested_side_effect) opaque).

(** [research/compiler_registry.py:469-531 ProtocolStepCompiler.compile] *)
Definition step_compile (request : CompilerRequest.t) : result CompilerResult.t :=
  let arguments := request.(CompilerRequest.arguments) in
  let family := request.(CompilerRequest.family_name) in
  let id := COMPILER_PROTOCOL_STEP in
  let stop code := Ok (blocked id CompilerOutcome.BLOCKED_MISSING_SEMANTICS code family) in
  match dict_get "dimension_values" arguments with
  | PDict dimensions =>
      match text_arg_or arguments "step_id" "selected_step_id", text_arg arguments "control",
            text_arg_or arguments "authorized_origin" "origin",
            text_arg_or arguments "protocol_lane" "lane" with
      | Some step_id, Some control, Some origin, Some lane =>
          match plan_step request step_id control origin
                  (from_option (fun s => s) "/" (text_arg arguments "path")) lane dimensions with
          | Raise (ProtocolStepContractError code) => stop code
          | r => catch_compile id family r
          end
      | _, _, _, _ => stop "PROTOCOL_STEP_TARGET_REQUIRED"
      end
  | _ => stop "PROTOCOL_STEP_DIMENSIONS_INCOMPLETE"
  end.

(** The keys of a request that are not arguments of the capability.
    [research/compiler_registry.py:543-634 GenericPlannerCompiler.compile] *)
Definition GENERIC_EXCLUDED : list string :=
  [ "capability_id"; "suggested_capability"; "action"; "expected_observation";
    "disconfirming_observation"; "evaluation_strategy"; "family_name"; "family_id"; "claim";
    "node_id"; "identity_id"; "compiler_id"; "worker_dispatch"; "mutation_rule_id" ].

(** [research/compiler_registry.py:636-669 GenericPlannerCompiler._from_proposal] *)
Definition from_proposal (request : CompilerRequest.t) (proposal : HypothesisProposal.t)
    (challenge : HypothesisChallenge.t) : CompilerResult.t :=
  let family := request.(CompilerRequest.family_name) in
  if mem proposal.(HypothesisProposal.suggested_capability) PLANNING_ALIAS_CAPABILITIES
  then blocked COMPILER_GENERIC_PLANNER CompilerOutcome.BLOCKED_UNSUPPORTED_CAPABILITY
         "PLANNING_ALIAS_IS_NOT_A_WORKER_CAPABILITY" family
  else catch_all COMPILER_GENERIC_PLANNER "GENERIC_PLANNER_PROPOSAL_REJECTED" family
         (plan_admitted_hypothesis catalog request.(CompilerRequest.hypothesis_id) proposal challenge
            request.(CompilerRequest.budget_id) request.(CompilerRequest.target_reference) "ping").

(** The action of the request, or the only action there is. *)
Definition chosen_action (arguments : list (string * pyval)) (definition : CapabilityDefinition.t)
    : option string :=
  match text_arg arguments "action", definition.(CapabilityDefinition.actions) with
  | Some action, _ => Some action
  | None, [(action, _)] => Some action
  | None, _ => None
  end.

(** [research/compiler_registry.py:543-634 GenericPlannerCompiler.compile] *)
Definition generic_compile (request : CompilerRequest.t) : result CompilerResult.t :=
  let arguments := request.(CompilerRequest.arguments) in
  let family := request.(CompilerRequest.family_name) in
  let id := COMPILER_GENERIC_PLANNER in
  let stop outcome code := Ok (blocked id outcome code family) in
  let capability := text_arg_or arguments "capability_id" "suggested_capability" in
  if match capability with Some c => mem c PLANNING_ALIAS_CAPABILITIES | None => false end
  then stop CompilerOutcome.BLOCKED_UNSUPPORTED_CAPABILITY
         "PLANNING_ALIAS_IS_NOT_A_WORKER_CAPABILITY"
  else match request.(CompilerRequest.proposal), request.(CompilerRequest.challenge) with
  | Some proposal, Some challenge => Ok (from_proposal request proposal challenge)
  | _, _ =>
  match capability with
  | None => stop CompilerOutcome.BLOCKED_MISSING_SEMANTICS "GENERIC_PLANNER_REQUIRES_CAPABILITY"
  | Some capability =>
  match CapabilityRegistry.get catalog capability with
  | None => stop CompilerOutcome.BLOCKED_UNSUPPORTED_CAPABILITY "UNKNOWN_CAPABILITY"
  | Some definition =>
      if negb (definition.(CapabilityDefinition.executor_class) =? WORKER_EXECUTOR_CLASS)%string
      then stop CompilerOutcome.BLOCKED_UNSUPPORTED_CAPABILITY "UNKNOWN_CAPABILITY"
      else match chosen_action arguments definition with
      | None => stop CompilerOutcome.BLOCKED_MISSING_SEMANTICS "GENERIC_PLANNER_ACTION_AMBIGUOUS"
      | Some action =>
      match text_arg arguments "expected_observation",
            text_arg arguments "disconfirming_observation" with
      | Some expected, Some disconfirming =>
          catch_compile id family
            (compile catalog
               (ExperimentIntent.mk request.(CompilerRequest.hypothesis_id) capability action
                  request.(CompilerRequest.target_reference)
                  (List.filter (fun p => negb (mem p.1 GENERIC_EXCLUDED)) arguments)
                  request.(CompilerRequest.budget_id) expected disconfirming
                  (from_option (fun s => s) (capability +:+ ".v1")
                     (text_arg arguments "evaluation_strategy"))
                  request.(CompilerRequest.requested_side_effect) opaque))
      | _, _ =>
          stop CompilerOutcome.BLOCKED_MISSING_SEMANTICS
            "GENERIC_PLANNER_REQUIRES_OBSERVATION_CONTRACT"
      end
      end
  end
  end
  end.

(** [research/compiler_registry.py:672-683 default_family_compilers] *)
Definition default_family_compiler (family_name : string)
    : option (CompilerRequest.t -> result CompilerResult.t) :=
  if (family_name =? "OBJECT_AUTHORIZATION")%string
  then Some (fun r => Ok (authorization_compile r))
  else if (family_name =? "WORKFLOW_STATE_TRANSITION")%string
  then Some (fun r => Ok (state_transition_compile r))
  else if mem family_name MUTATION_MATRIX_FAMILIES then Some cell_compile
  else if mem family_name PROTOCOL_FAMILIES then Some step_compile
  else None.

(** The compiler of a family, when the family is named and known. *)
Definition family_compiler (family_name : option string)
    : option (CompilerRequest.t -> result CompilerResult.t) :=
  match family_name with
  | Some name => if Str.is_empty name then None else default_family_compiler name
  | None => None
  end.

(** [research/compiler_registry.py:700-703 ExperimentCompilerRegistry.compiler_for] *)
Definition compiler_for (family_name : option string) : CompilerRequest.t -> result CompilerResult.t :=
  from_option (fun c => c) generic_compile (family_compiler family_name).

(** [research/compiler_registry.py:705-711 ExperimentCompilerRegistry.compile] *)
Definition registry_compile (request : CompilerRequest.t) : result CompilerResult.t :=
  match family_compiler request.(CompilerRequest.family_name) with
  | Some compiler => compiler request
  | None =>
      if truthy (dict_get "mutation_rule_id" request.(CompilerRequest.arguments))
      then variant_compile request
      else generic_compile request
  end.

(** [research/compiler_registry.py:714-731 assert_plan_not_understated] *)
Definition assert_plan_not_understated (plan : ExperimentPlan.t) : result unit :=
  match CapabilityRegistry.get catalog plan.(ExperimentPlan.required_capability) with
  | None => Raise (ExperimentCompileError "UNKNOWN_CAPABILITY")
  | Some definition =>
      match CapabilityDefinition.action definition plan.(ExperimentPlan.action) with
      | None => Raise (ExperimentCompileError "UNKNOWN_ACTION")
      | Some action =>
          let level := plan.(ExperimentPlan.side_effect_level) in
          reject level <? action.(CapabilityActionDefinition.minimum_side_effect_level)
          as "RISK_UNDERSTATEMENT";;
          reject action.(CapabilityActionDefinition.maximum_side_effect_level) <? level
          as "RISK_EXCEEDS_CAPABILITY";;
          Ok tt
      end
  end.
End registry.

(** ** What a compiler returns *)

(** The capability the compiler of a known family binds. *)
Definition family_capability (family_name : string) : option string :=
  if (family_name =? "OBJECT_AUTHORIZATION")%string then Some "http.authorization.differential"
  else if (family_name =? "WORKFLOW_STATE_TRANSITION")%string then Some "http.state_transition"
  else if mem family_name MUTATION_MATRIX_FAMILIES then Some HTTP_TRANSACTION_CAPABILITY
  else if mem family_name PROTOCOL_FAMILIES then Some "http.raw_exchange"
  else None.

Lemma family_capability_clean name c : family_capability name = Some c -> Str.strip c = c.
Proof. unfold family_capability. intros Hc. repeat (case_match; [by injection Hc as <-|]). done. Qed.

Section results.
Context `{JsonSchema} `{NetlocCheck} `{FloatRepr}.
Context (catalog : CapabilityRegistry.t) (sha256_json : pyval -> string).

(** A decision of the compiler [id]: no plan, or one the compiler made for a capability [ok]. *)
Definition decided (id : string) (ok : string -> Prop) (r : CompilerResult.t) : Prop :=
  r.(CompilerResult.compiler_id) = id
  /\ match r.(CompilerResult.plan) with
     | None => r.(CompilerResult.outcome) ≠ CompilerOutcome.COMPILED
     | Some plan => r.(CompilerResult.outcome) = CompilerOutcome.COMPILED
         /\ exists x, compile catalog x = Ok plan /\ ok x.(ExperimentIntent.capability_id)
     end.

Lemma blocked_decided id ok outcome code family :
  outcome ≠ CompilerOutcome.COMPILED -> decided id ok (blocked id outcome code family).
Proof. by split. Qed.
#[local] Hint Extern 1 (decided _ _ (blocked _ _ _ _)) => by apply blocked_decided : core.

Lemma catch_all_decided id (ok : string -> Prop) fallback family r :
  (forall plan, r = Ok plan -> exists x, compile catalog x = Ok plan /\ ok x.(ExperimentIntent.capability_id)) ->
  decided id ok (catch_all id fallback family r).
Proof.
  intros Hr. destruct r as [plan|[]]; cbn [catch_all]; auto.
  split; [done|]. split; [done|]. by apply Hr.
Qed.

Lemma catch_compile_decided id (ok : string -> Prop) family r result :
  (forall plan, r = Ok plan -> exists x, compile catalog x = Ok plan /\ ok x.(ExperimentIntent.capability_id)) ->
  catch_compile id family r = Ok result -> decided id ok result.
Proof.
  intros Hr. destruct r as [plan|[]]; try done; cbn [catch_compile]; intros [= <-].
  - split; [done|]. split; [done|]. by apply Hr.
  - apply blocked_decided. by case_match.
Qed.

Lemma authorization_decided request :
  decided COMPILER_AUTHORIZATION_DIFFERENTIAL (eq "http.authorization.differential")
    (authorization_compile catalog request).
Proof.
  unfold authorization_compile. repeat (case_match; auto). apply catch_all_decided.
  intros plan. unfold plan_authorization_differential. rewrite raise_if_ok. intros [_ Hc]. by eexists.
Qed.

Lemma state_transition_decided request :
  decided COMPILER_STATE_TRANSITION (eq "http.state_transition")
    (state_transition_compile catalog request).
Proof.
  unfold state_transition_compile. repeat (case_match; auto). apply catch_all_decided.
  intros plan. unfold plan_state_transition. rewrite !raise_if_ok. intros (_ & _ & Hc). by eexists.
Qed.

Lemma cell_decided request r :
  cell_compile catalog sha256_json request = Ok r ->
  decided COMPILER_MUTATION_MATRIX_CELL (eq HTTP_TRANSACTION_CAPABILITY) r.
Proof.
  unfold cell_compile. destruct request.(CompilerRequest.family_name) as [name|]; [|intros [= <-]; auto].
  destruct (text_arg_or _ _ _) as [cell_id|]; [|intros [= <-]; auto].
  destruct (lookup_authoritative_mutation_cell _ _ _ _ _) as [cell|[]]; try done; [|intros [= <-]; auto].
  destruct (text_arg_or _ _ _) as [origin|]; [|intros [= <-]; auto].
  destruct (dimensions_missing _ _); [intros [= <-]; auto|].
  set (planned := plan_cell _ _ _ _ _ _).
  assert (Hp : forall plan, planned = Ok plan -> exists x, compile catalog x = Ok plan
             /\ HTTP_TRANSACTION_CAPABILITY = x.(ExperimentIntent.capability_id)).
  { intros plan (b & _ & Hc)%bind_ok. by eexists. }
  intros Hr. destruct planned as [plan|e]; [by eapply catch_compile_decided in Hr|].
  destruct e; try (by eapply catch_compile_decided in Hr). injection Hr as <-. auto.
Qed.

Lemma step_decided request r :
  step_compile catalog request = Ok r -> decided COMPILER_PROTOCOL_STEP (eq "http.raw_exchange") r.
Proof.
  unfold step_compile. destruct (dict_get _ _); try (intros [= <-]; auto; fail).
  destruct (text_arg_or _ "step_id" _); [|intros [= <-]; auto].
  destruct (text_arg _ "control"); [|intros [= <-]; auto].
  destruct (text_arg_or _ "authorized_origin" _); [|intros [= <-]; auto].
  destruct (text_arg_or _ "protocol_lane" _); [|intros [= <-]; auto].
  set (planned := plan_step _ _ _ _ _ _ _ _).
  assert (Hp : forall plan, planned = Ok plan -> exists x, compile catalog x = Ok plan
             /\ "http.raw_exchange" = x.(ExperimentIntent.capability_id)).
  { intros plan (b & _ & Hc)%bind_ok. by eexists. }
  intros Hr. destruct planned as [plan|e]; [by eapply catch_compile_decided in Hr|].
  destruct e; try (by eapply catch_compile_decided in Hr). injection Hr as <-. auto.
Qed.

Lemma variant_decided request r :
  variant_compile catalog request = Ok r ->
  decided COMPILER_MUTATION_VARIANT (eq HTTP_TRANSACTION_CAPABILITY) r.
Proof.
  unfold variant_compile. repeat (case_match; try (intros [= <-]; auto; fail)).
  apply catch_compile_decided. intros plan Hc. by eexists.
Qed.

Lemma generic_decided request r :
  generic_compile catalog request = Ok r -> decided COMPILER_GENERIC_PLANNER (fun _ => True) r.
Proof.
  unfold generic_compile. case_match; [intros [= <-]; auto|].
  assert (Hfrom : forall p c, decided COMPILER_GENERIC_PLANNER (fun _ => True)
                    (from_proposal catalog request p c)).
  { intros p c. unfold from_proposal. destruct (mem _ _); [auto|]. apply catch_all_decided.
    intros plan. unfold plan_admitted_hypothesis. destruct (CapabilityRegistry.get _ _); [|done].
    rewrite raise_if_ok. intros [_ Hp]. destruct (CapabilityDefinition.actions _) as [|[? ?] []]; try done.
    apply bind_ok in Hp as (? & _ & Hc). by eexists. }
  destruct (CompilerRequest.proposal request) as [p|], (CompilerRequest.challenge request) as [c|];
    try (intros [= <-]; apply Hfrom).
  all: repeat (case_match; try (intros [= <-]; auto; fail)).
  all: apply catch_compile_decided; intros plan Hc; by eexists.
Qed.

Lemma registry_decided request r :
  registry_compile catalog sha256_json request = Ok r ->
  exists id ok, decided id ok r
    /\ forall name c, request.(CompilerRequest.family_name) = Some name ->
         family_capability name = Some c -> id ≠ COMPILER_GENERIC_PLANNER /\ forall x, ok x -> x = c.
Proof.
  unfold registry_compile, family_compiler. intros Hr.
  assert (Hother : (if truthy (dict_get "mutation_rule_id" request.(CompilerRequest.arguments))
             then variant_compile catalog request else generic_compile catalog request) = Ok r ->
           exists id ok, decided id ok r).
  { destruct (truthy _); intros Hc; do 2 eexists; [eapply variant_decided, Hc|eapply generic_decided, Hc]. }
  destruct request.(CompilerRequest.family_name) as [name|].
  2: { destruct (Hother Hr) as (id & ok & Hd). by exists id, ok. }
  destruct (Str.is_empty name) eqn:Hn.
  { destruct (Hother Hr) as (id & ok & Hd). exists id, ok. split; [done|].
    intros ? c [= <-]. destruct name; [|done]. done. }
  unfold default_family_compiler in Hr.
  assert (Hcap : forall c, family_capability name = Some c -> c = from_option (fun s => s) "" (family_capability name)).
  { by intros c ->. }
  unfold family_capability in Hcap |- *.
  destruct (name =? _)%string eqn:E1; [injection Hr as <-; do 2 eexists; split; [apply authorization_decided|]|].
  2: destruct (name =? "WORKFLOW_STATE_TRANSITION")%string eqn:E2;
       [injection Hr as <-; do 2 eexists; split; [apply state_transition_decided|]|].
  3: destruct (mem name MUTATION_MATRIX_FAMILIES) eqn:E3;
       [do 2 eexists; split; [by eapply cell_decided|]|].
  4: destruct (mem name PROTOCOL_FAMILIES) eqn:E4; [do 2 eexists; split; [by eapply step_decided|]|].
  1-4: intros ? c [= <-]; rewrite ?E1, ?E2, ?E3, ?E4; intros [= <-]; split; [done|by intros ? <-].
  destruct (Hother Hr) as (id & ok & Hd). exists id, ok. split; [done|].
  intros ? c [= <-]. by rewrite E1, E2, E3, E4.
Qed.

(** C33. A compiled experiment is bound: whichever compiler a request reaches, it returns a plan
    exactly when it says it compiled one, and that plan names a worker action of the registry, has
    the registered minimum as its level and arguments that schema and policy accept.  The request of
    a known family is compiled for the capability of that family and never by the generic
    planner. *)
Theorem compiled_experiments_are_bound sha docs request r :
  registry_from_documents sha docs = Ok catalog ->
  registry_compile catalog sha256_json request = Ok r ->
  (r.(CompilerResult.outcome) = CompilerOutcome.COMPILED <-> is_Some r.(CompilerResult.plan))
  /\ forall plan, r.(CompilerResult.plan) = Some plan ->
     (exists d a,
        CapabilityRegistry.lookup catalog plan.(ExperimentPlan.required_capability)
          plan.(ExperimentPlan.action) = Some (d, a)
        /\ d.(CapabilityDefinition.executor_class) = WORKER_EXECUTOR_CLASS
        /\ plan.(ExperimentPlan.side_effect_level)
           = a.(CapabilityActionDefinition.minimum_side_effect_level)
        /\ compile_arguments plan.(ExperimentPlan.required_capability) a
             plan.(ExperimentPlan.arguments) = Ok tt)
     /\ assert_plan_not_understated catalog plan = Ok tt
     /\ forall name c, request.(CompilerRequest.family_name) = Some name ->
          family_capability name = Some c ->
          plan.(ExperimentPlan.required_capability) = c
          /\ r.(CompilerResult.compiler_id) ≠ COMPILER_GENERIC_PLANNER.
Proof.
  intros [Hreg _]%registry_from_documents_invariant Hr.
  destruct (registry_decided _ _ Hr) as (id & ok & (Hid & Hd) & Hfam).
  destruct r.(CompilerResult.plan) as [plan|]; [|split; [split; [done|by intros [? ?]]|done]].
  destruct Hd as (Ho & x & Hx & Hok). split; [by split; [intros _; eexists|]|].
  intros plan' [= <-]. apply (compile_ok _ _ _ _ _ Hreg) in Hx
    as (d & a & Hl & Hw & Hlev & Hcap & _ & _ & _ & Hargs).
  split; [by exists d, a|]. split.
  - unfold assert_plan_not_understated. unfold CapabilityRegistry.lookup in Hl.
    destruct (CapabilityRegistry.get _ _) as [d'|] eqn:Hg; [|done].
    destruct (CapabilityDefinition.action _ _) as [a'|] eqn:Ha; [|done]. injection Hl as -> ->.
    destruct (registry_names _ _ _ _ _ Hreg Hg) as [_ Hacts]. destruct (Hacts _ _ Ha) as [_ Hle].
    rewrite (proj2 (Z.ltb_ge _ _)) by lia. rewrite (proj2 (Z.ltb_ge _ _)) by lia. done.
  - intros name c Hn Hc. destruct (Hfam _ _ Hn Hc) as [Hg Hx]. rewrite Hcap, (Hx _ Hok), (family_capability_clean _ _ Hc). by subst.
Qed.

(** The arguments the cell compiler reads. *)
Definition CELL_KEYS : list string :=
  ["cell_id"; "selected_cell_id"; "authorized_origin"; "origin"; "path"; "matrix_hash"].

(** The caller of the cell compiler selects, it does not write: two requests that agree on the
    cell, the target and the matrix compile to the same decision whatever query, headers, body,
    dimensions or control they carry, and what is compiled is the binding of the authoritative cell
    with the selected id. *)
Theorem cells_compile_from_the_catalog request arguments r :
  (forall k, k ∈ CELL_KEYS ->
     dict_get k arguments = dict_get k request.(CompilerRequest.arguments)) ->
  cell_compile catalog sha256_json request = Ok r ->
  cell_compile catalog sha256_json
    (CompilerRequest.mk request.(CompilerRequest.hypothesis_id) request.(CompilerRequest.budget_id)
       request.(CompilerRequest.target_reference) request.(CompilerRequest.family_id)
       request.(CompilerRequest.family_name) arguments
       request.(CompilerRequest.requested_side_effect) request.(CompilerRequest.proposal)
       request.(CompilerRequest.challenge)) = Ok r
  /\ forall plan, r.(CompilerResult.plan) = Some plan ->
     exists name cell_id id hash cell origin path b,
       request.(CompilerRequest.family_name) = Some name
       /\ lookup_authoritative_mutation_cell sha256_json name cell_id id hash = Ok cell
       /\ bind_mutation_matrix_cell name cell.(MutationMatrixCell.cell_id)
            (text_items cell.(MutationMatrixCell.dimension_values))
            cell.(MutationMatrixCell.control) origin path = Ok b
       /\ text_arg_or arguments "authorized_origin" "origin" = Some origin
       /\ plan_cell catalog request name cell origin path = Ok plan.
Proof.
  intros Hk Hr. assert (Ht : forall k, k ∈ CELL_KEYS ->
    text_arg arguments k = text_arg request.(CompilerRequest.arguments) k).
  { intros k Hin. unfold text_arg. by rewrite Hk. }
  unfold text_arg_or. rewrite !Ht by (unfold CELL_KEYS; set_solver). split.
  - rewrite <-Hr. unfold cell_compile, text_arg_or. cbn. by rewrite !Ht by (unfold CELL_KEYS; set_solver).
  - intros plan Hplan. unfold cell_compile in Hr.
    destruct request.(CompilerRequest.family_name) as [name|] eqn:Hn; [|by injection Hr as <-].
    destruct (text_arg_or _ "cell_id" _) as [cell_id|]; [|by injection Hr as <-].
    destruct (lookup_authoritative_mutation_cell _ _ _ _ _) as [cell|[]] eqn:Hl; try done;
      [|by injection Hr as <-].
    unfold text_arg_or in Hr.
    destruct (match text_arg _ "authorized_origin" with Some _ => _ | None => _ end) as [origin|];
      [|by injection Hr as <-].
    destruct (dimensions_missing _ _); [by injection Hr as <-|].
    destruct (plan_cell _ _ _ _ _ _) as [p|[]] eqn:Hp; try (by injection Hr as <-); try done.
    injection Hr as <-. injection Hplan as <-. pose proof Hp as (b & Hb & _)%bind_ok.
    exists name, cell_id. do 2 eexists. exists cell, origin. eexists. by exists b.
Qed.
End results.

Definition cell_request (more : list (string * pyval)) : CompilerRequest.t :=
  CompilerRequest.mk "hyp-1" "budget-1" "target-1" (Some "hf-cors")
    (Some "CORS_CREDENTIAL_EXFILTRATION_CHAIN")
    ([ ("cell_id", PStr " hf-cors:cell:007 "); ("origin", PStr "http://127.0.0.1:8080");
       ("path", PStr "/api") ] ++ more) None None None.

Definition run_cell (more : list (string * pyval)) : result CompilerResult.t :=
  registry_compile (H := any_schema) (H0 := fun _ => true) (H1 := no_floats) http_catalog
    zero_digest (cell_request more).

Lemma compiled_experiments_are_bound_witness :
  exists r plan, run_cell [] = Ok r /\ r.(CompilerResult.plan) = Some plan
    /\ plan.(ExperimentPlan.required_capability) = "http.transaction"
    /\ assert_plan_not_understated http_catalog plan = Ok tt.
Proof.
  destruct (run_cell []) as [r|e] eqn:E; [|vm_compute in E; discriminate E].
  destruct r.(CompilerResult.plan) as [plan|] eqn:Ep; [|vm_compute in E; injection E as <-; discriminate Ep].
  exists r, plan. split; [reflexivity|]. split; [exact Ep|].
  destruct (@compiled_experiments_are_bound any_schema (fun _ => true) no_floats http_catalog
              zero_digest sample_sha [http_document; echo_document] (cell_request []) r
              eq_refl E) as [_ Hb].
  destruct (Hb _ Ep) as (_ & Ha & Hf). split; [|exact Ha].
  destruct (Hf _ _ eq_refl eq_refl) as [Hc _]. exact Hc.
Defined.

(** A body, a query and dimensions of the caller change nothing. *)
Definition smuggled : list (string * pyval) :=
  [ ("query", PDict [("q", PStr "' OR 1=1")]); ("body", PStr "x"); ("control", PStr "none");
    ("dimension_values", PDict [("credentials", PStr "include")]) ].

Lemma cells_compile_from_the_catalog_witness :
  exists r, cell_compile (H := any_schema) (H0 := fun _ => true) (H1 := no_floats) http_catalog
              zero_digest (cell_request []) = Ok r
    /\ cell_compile (H := any_schema) (H0 := fun _ => true) (H1 := no_floats) http_catalog
         zero_digest (cell_request smuggled) = Ok r.
Proof.
  destruct (cell_compile (H := any_schema) (H0 := fun _ => true) (H1 := no_floats) http_catalog
              zero_digest (cell_request [])) as [r|e] eqn:E; [|vm_compute in E; discriminate E].
  exists r. split; [reflexivity|].
  destruct (@cells_compile_from_the_catalog any_schema (fun _ => true) no_floats http_catalog
              zero_digest (cell_request []) (cell_request smuggled).(CompilerRequest.arguments) r)
    as [Hr _]; [|exact E|exact Hr].
  clear E. apply Forall_forall. unfold CELL_KEYS. repeat (apply Forall_cons; split; [reflexivity|]).
  apply Forall_nil. exact I.
Defined.
