(* ===== verification/Exploratory.v ===== *)
(** * Exploratory drafts and identity anomalies

    [research/exploratory.py], [research/exploratory_compile.py],
    [research/exploratory_research_compile.py] and [research/identity_anomaly.py]: hypotheses that
    no hunter family owns.  A draft is made of sourced signals, kept in the audit log and read back,
    compiled by the compilers of the registry; an anomaly between identities is classified before it
    may become one.  SHA-256 is a parameter, over the canonical JSON of a value where the code
    encodes one. *)
From S2P Require Import Prelude PyVal PyText PyUrl SafeData Plans Graph HttpPolicy Capability Proposals Compiler Planning CellContract CompilerRegistry.

(** ** [research/exploratory.py] *)

(** [research/exploratory.py:16 EXPLORATORY_HYPOTHESIS_STRATEGY_VERSION] *)
Definition EXPLORATORY_HYPOTHESIS_STRATEGY_VERSION : string :=
  "exploratory.hypothesis.registry_external.v1".
(** [research/exploratory.py:19 VALIDATION_GATES] *)
Definition VALIDATION_GATES : list string := ["HYPOTHESIZED"; "V1"; "V2"; "V3"; "FALSE_FINDING_ZERO"].
(** [research/exploratory.py:20-39 FORBIDDEN_EXPLORATORY_KEYS] *)
Definition FORBIDDEN_EXPLORATORY_KEYS : list string :=
  [ "severity"; "cvss"; "cve"; "vulnerability"; "exploit"; "evidence"; "candidate"; "finding";
    "authorization"; "confidence"; "token"; "session_token"; "password"; "raw_request";
    "raw_response"; "body" ].
(** [research/exploratory.py:40-47 FORBIDDEN_TRUTH_MARKERS] *)
Definition FORBIDDEN_TRUTH_MARKERS : list string :=
  [ "confirmed vulnerability"; "this is a vulnerability"; "declare this evidence";
    "declare this a finding"; "confirmed exploit"; "working exploit" ].

(** [research/exploratory.py:50-61 ExploratorySignalKind] *)
Module ExploratorySignalKind.
Inductive t : Set :=
  | TEMPORAL_CHANGE | COVERAGE_DEBT_INCREASE | SCOPE_BOUNDARY_CANDIDATE | RESPONSE_SHAPE_DRIFT
  | GRAPH_STRUCTURE_ANOMALY | IDENTITY_ANOMALY | WORKFLOW_ANOMALY | LAB_ZERO_DAY_STYLE_ANOMALY
  | OTHER.
End ExploratorySignalKind.

Definition claims_truth (value : string) : bool :=
  existsb (Str.contains (Str.lower value)) FORBIDDEN_TRUTH_MARKERS.

(** [research/exploratory.py:393-396 _reject_truth_claims] *)
Definition reject_truth_claims (value : string) : result unit :=
  raise_if claims_truth value as ResearchInputError;; Ok tt.

(** [research/exploratory.py:405-408 _require_text] *)
Definition draft_text (value : string) : result string :=
  raise_if Str.is_blank value as ResearchInputError;; Ok (Str.strip value).

(** [research/exploratory.py:399-402 _require_ids] *)
Definition require_ids (value : list string) : result (list string) :=
  raise_if bool_decide (value = []) as ResearchInputError;; traverse draft_text value.

(** A text that must not be blank and must not claim a truth. *)
Definition modest_text (value : string) : result string :=
  s ← draft_text value;
  _ ← reject_truth_claims s;
  Ok s.

(** Every key of a dictionary is a text.
    [research/exploratory.py:376-390 _reject_forbidden] *)
Definition reject_forbidden (payload : list (string * pyval)) (field_name : string)
    : result (list (string * pyval)) :=
  match reject_secret_keys (PDict payload) field_name with
  | Ok (PDict cleaned) =>
      raise_if existsb (fun k => mem k FORBIDDEN_EXPLORATORY_KEYS) payload.*1 as ResearchInputError;;
      _ ← traverse (fun p : string * pyval =>
              _ ← draft_text p.1;
              match p.2 with PStr s => reject_truth_claims s | _ => Ok tt end) cleaned;
      Ok cleaned
  | _ => Raise ResearchInputError
  end.

(** [research/exploratory.py:65-96 ExploratorySignal] *)
Module ExploratorySignal.
Record t : Type := mk {
  signal_id : string;
  research_run_id : string;
  kind : ExploratorySignalKind.t;
  description : string;
  source_refs : list string;
  target_node_kind : string;
  attributes : list (string * pyval) }.

Definition post_init (x : t) : result t :=
  signal_id ← draft_text x.(signal_id);
  run ← draft_text x.(research_run_id);
  description ← modest_text x.(description);
  refs ← require_ids x.(source_refs);
  node_kind ← draft_text x.(target_node_kind);
  attributes ← reject_forbidden x.(attributes) "attributes";
  Ok (mk signal_id run x.(kind) description refs node_kind attributes).
End ExploratorySignal.

(** [research/exploratory.py:100-201 ExploratoryHypothesisDraft] *)
Module ExploratoryHypothesisDraft.
Record t : Type := mk {
  draft_id : string;
  research_run_id : string;
  hypothesis_claim : string;
  proposed_family_name : string;
  proposed_family_rationale : string;
  source_refs : list string;
  signal_ids : list string;
  target_node_kinds : list string;
  structural_identity : string;
  novelty_basis : NoveltyBasis.t;
  model_claimed_novelty : option string;
  strategy_version : string;
  status : string;
  validation_gates : list string;
  registry_external : bool;
  requires_human_family_approval : bool;
  may_write_hunter_registry : bool;
  not_evidence : bool;
  not_candidate : bool;
  not_finding : bool;
  not_impact_graph_edge : bool;
  false_finding_required_zero : bool }.

(** The flags a draft must carry. *)
Definition gated (x : t) : bool :=
  x.(registry_external) && x.(requires_human_family_approval)
  && negb x.(may_write_hunter_registry) && x.(not_evidence) && x.(not_candidate)
  && x.(not_finding) && x.(not_impact_graph_edge) && x.(false_finding_required_zero).

Definition post_init (x : t) : result t :=
  draft ← draft_text x.(draft_id);
  run ← draft_text x.(research_run_id);
  claim ← modest_text x.(hypothesis_claim);
  name ← draft_text x.(proposed_family_name);
  rationale ← modest_text x.(proposed_family_rationale);
  refs ← require_ids x.(source_refs);
  signals ← require_ids x.(signal_ids);
  kinds ← require_ids x.(target_node_kinds);
  identity ← draft_text x.(structural_identity);
  novelty ← match x.(model_claimed_novelty) with
            | None => Ok None
            | Some s => s ← draft_text s; Ok (Some s)
            end;
  raise_if negb (x.(status) =? "HYPOTHESIZED")%string as ResearchInputError;;
  raise_if negb (bool_decide (x.(validation_gates) = VALIDATION_GATES)) as ResearchInputError;;
  raise_if negb (gated x) as ResearchInputError;;
  Ok (mk draft run claim name rationale refs signals kinds identity x.(novelty_basis) novelty
        x.(strategy_version) x.(status) x.(validation_gates) x.(registry_external)
        x.(requires_human_family_approval) x.(may_write_hunter_registry) x.(not_evidence)
        x.(not_candidate) x.(not_finding) x.(not_impact_graph_edge)
        x.(false_finding_required_zero)).

(** [research/exploratory.py:178-201 ExploratoryHypothesisDraft.to_audit_payload] *)
Definition to_audit_payload (x : t) (hypothesis_id : string) : list (string * pyval) :=
  [ ("hypothesis_id", PStr hypothesis_id);
    ("hypothesis_claim", PStr x.(hypothesis_claim));
    ("proposed_family_name", PStr x.(proposed_family_name));
    ("proposed_family_rationale", PStr x.(proposed_family_rationale));
    ("source_refs", texts x.(source_refs));
    ("signal_ids", texts x.(signal_ids));
    ("target_node_kinds", texts x.(target_node_kinds));
    ("structural_identity", PStr x.(structural_identity));
    ("novelty_basis", PStr (NoveltyBasis.value x.(novelty_basis)));
    ("model_claimed_novelty", opt_text x.(model_claimed_novelty));
    ("strategy_version", PStr x.(strategy_version));
    ("status", PStr x.(status));
    ("validation_gates", texts x.(validation_gates));
    ("registry_external", PBool x.(registry_external));
    ("requires_human_family_approval", PBool x.(requires_human_family_approval));
    ("may_write_hunter_registry", PBool x.(may_write_hunter_registry));
    ("not_evidence", PBool x.(not_evidence));
    ("not_candidate", PBool x.(not_candidate));
    ("not_finding", PBool x.(not_finding));
    ("not_impact_graph_edge", PBool x.(not_impact_graph_edge));
    ("false_finding_required_zero", PBool x.(false_finding_required_zero)) ].
End ExploratoryHypothesisDraft.

(** [research/exploratory.py:204-210 assert_ephemeral_registry_binding] *)
Definition assert_ephemeral_registry_binding (draft : ExploratoryHypothesisDraft.t) : result unit :=
  raise_if draft.(ExploratoryHypothesisDraft.may_write_hunter_registry) as ResearchInputError;;
  raise_if negb draft.(ExploratoryHypothesisDraft.registry_external)
           || negb draft.(ExploratoryHypothesisDraft.requires_human_family_approval)
  as ResearchInputError;;
  Ok tt.

(** The payload is JSON, so a sequence is a list; a text of it is read like [_require_text] does.
    [research/exploratory.py:274-279 _ids_from_payload] *)
Definition ids_from_payload (value : pyval) : result (list string) :=
  match value with
  | PList [] => Raise ResearchInputError
  | PList l => traverse proposal_text l
  | _ => Raise ResearchInputError
  end.

(** [research/exploratory.py:213-271 exploratory_draft_from_audit] *)
Definition exploratory_draft_from_audit (draft_id research_run_id : string) (payload : pyval)
    : result ExploratoryHypothesisDraft.t :=
  match payload with
  | PDict d =>
      let get k := dict_get k d in
      let flag k := truthy (get k) in
      raise_if match get "may_write_hunter_registry" with PBool false => false | _ => true end
      as ResearchInputError;;
      novelty ← match get "novelty_basis" with
                | PStr s => match enum_of NoveltyBasis.value NoveltyBasis.members s with
                            | Ok b => Ok b
                            | Raise _ => Raise ResearchInputError
                            end
                | _ => Ok NoveltyBasis.UNCLASSIFIED
                end;
      claim ← proposal_text (get "hypothesis_claim");
      name ← proposal_text (get "proposed_family_name");
      rationale ← proposal_text (get "proposed_family_rationale");
      refs ← ids_from_payload (get "source_refs");
      signals ← ids_from_payload (get "signal_ids");
      kinds ← ids_from_payload (get "target_node_kinds");
      identity ← proposal_text (get "structural_identity");
      claimed ← match get "model_claimed_novelty" with
                | PNone => Ok None
                | v => s ← proposal_text v; Ok (Some s)
                end;
      version ← proposal_text (if truthy (get "strategy_version") then get "strategy_version"
                               else PStr EXPLORATORY_HYPOTHESIS_STRATEGY_VERSION);
      status ← proposal_text (get "status");
      gates ← ids_from_payload (get "validation_gates");
      ExploratoryHypothesisDraft.post_init
        (ExploratoryHypothesisDraft.mk draft_id research_run_id claim name rationale refs signals
           kinds identity novelty claimed version status gates (flag "registry_external")
           (flag "requires_human_family_approval") (flag "may_write_hunter_registry")
           (flag "not_evidence") (flag "not_candidate") (flag "not_finding")
           (flag "not_impact_graph_edge") (flag "false_finding_required_zero"))
  | _ => Raise ResearchInputError
  end.

(** [sep.join(l)] *)
Fixpoint join_with (sep : string) (l : list string) : string :=
  match l with
  | [] => ""
  | [x] => x
  | x :: l' => x +:+ sep +:+ join_with sep l'
  end.

Section drafts.
Context (sha256_json : pyval -> string).

(** [research/exploratory.py:333-347 exploratory_structural_identity] *)
Definition exploratory_structural_identity (proposed_family_name : string)
    (source_refs signal_ids target_node_kinds : list string) : string :=
  sha256_json
    (PDict [ ("proposed_family_name", PStr (Str.lower (Str.strip proposed_family_name)));
             ("source_refs", texts (sort_by id source_refs));
             ("signal_ids", texts (sort_by id signal_ids));
             ("target_node_kinds", texts (sort_by id target_node_kinds)) ]).

(** The ids and names of the enabled families. *)
Definition registered_tokens (registry : list HunterFamilyView.t) : list string :=
  let enabled := List.filter HunterFamilyView.enabled registry in
  ((fun f => Str.lower (Str.strip f.(HunterFamilyView.family_id))) <$> enabled)
  ++ ((fun f => Str.lower (Str.strip f.(HunterFamilyView.name))) <$> enabled).

(** The families the signals say they matched. *)
Definition matched_family_ids (signals : list ExploratorySignal.t) : list string :=
  concat ((fun s => omap (M:=list) (fun p : string * pyval =>
                      if (p.1 =? "matched_family_id")%string
                      then Str.lower <$> text_of p.2 else None)
                      s.(ExploratorySignal.attributes)) <$> signals).

(** [research/exploratory.py:350-373 _reject_registered_family_overlap] *)
Definition reject_registered_family_overlap (proposed_family_name : string)
    (signals : list ExploratorySignal.t) (registry : list HunterFamilyView.t) : result unit :=
  let tokens := registered_tokens registry in
  raise_if mem (Str.lower (Str.strip proposed_family_name)) tokens as ResearchInputError;;
  raise_if existsb (fun id => mem id tokens) (matched_family_ids signals) as ResearchInputError;;
  Ok tt.

(** [research/exploratory.py:282-330 draft_registry_external_hypothesis] *)
Definition draft_registry_external_hypothesis (draft_id research_run_id proposed_family_name
    proposed_family_rationale : string) (signals : list ExploratorySignal.t)
    (registry : list HunterFamilyView.t) (model_claimed_novelty : option string)
    : result ExploratoryHypothesisDraft.t :=
  run_id ← draft_text research_run_id;
  raise_if match signals with [] => true | _ => false end as ResearchInputError;;
  raise_if existsb (fun s => negb (s.(ExploratorySignal.research_run_id) =? run_id)%string) signals
  as ResearchInputError;;
  family_name ← draft_text proposed_family_name;
  _ ← reject_registered_family_overlap family_name signals registry;
  let source_refs := dedupe (concat (ExploratorySignal.source_refs <$> signals)) in
  let signal_ids := sort_by id (ExploratorySignal.signal_id <$> signals) in
  let target_node_kinds := sort_by id (dedupe (ExploratorySignal.target_node_kind <$> signals)) in
  let claim := "Explore whether " +:+ family_name
               +:+ " describes repeatable target-specific behavior on "
               +:+ join_with ", " target_node_kinds
               +:+ " surfaces before any registry admission." in
  ExploratoryHypothesisDraft.post_init
    (ExploratoryHypothesisDraft.mk draft_id run_id claim family_name proposed_family_rationale
       source_refs signal_ids target_node_kinds
       (exploratory_structural_identity family_name source_refs signal_ids target_node_kinds)
       NoveltyBasis.UNCLASSIFIED model_claimed_novelty EXPLORATORY_HYPOTHESIS_STRATEGY_VERSION
       "HYPOTHESIZED" VALIDATION_GATES true true false true true true true true).
End drafts.

(** ** [research/exploratory_compile.py] *)

(** [research/planning.py:27 DIAGNOSTIC_CLAIM] *)
Definition DIAGNOSTIC_CLAIM : string := "The diagnostic capability returns the submitted value.".

(** A draft has a claim, so the diagnostic claim is not used.
    [research/exploratory_compile.py:79-106 exploratory_proposal_and_challenge] *)
Definition exploratory_proposal_and_challenge (draft : ExploratoryHypothesisDraft.t)
    : result (HypothesisProposal.t * HypothesisChallenge.t) :=
  _ ← assert_ephemeral_registry_binding draft;
  let claim := draft.(ExploratoryHypothesisDraft.hypothesis_claim) in
  Ok (HypothesisProposal.mk
        (if Str.is_empty claim then DIAGNOSTIC_CLAIM else claim)
        draft.(ExploratoryHypothesisDraft.proposed_family_rationale)
        draft.(ExploratoryHypothesisDraft.source_refs)
        ["exploratory draft is not a HunterFamily"]
        ["does the diagnostic control loop round-trip?"]
        "submit a value and observe mismatch" DIAGNOSTIC_ECHO_CAPABILITY None
        draft.(ExploratoryHypothesisDraft.novelty_basis)
        draft.(ExploratoryHypothesisDraft.model_claimed_novelty),
      HypothesisChallenge.mk ["anomaly is environmental rather than repeatable"] [] []
        ["repeat diagnostic echo"] [] DIAGNOSTIC_DISCONFIRMING_OBSERVATION
        (Some "exploratory execution is not a vulnerability verdict")).

Section compile.
Context `{JsonSchema} `{NetlocCheck} `{FloatRepr}.
Context (catalog : CapabilityRegistry.t) (sha256_json : pyval -> string).

(** [research/exploratory_compile.py:32-76 compile_exploratory_hypothesis] *)
Definition compile_exploratory_hypothesis (draft : ExploratoryHypothesisDraft.t)
    (hypothesis_id budget_id target_reference message : string) : result CompilerResult.t :=
  _ ← assert_ephemeral_registry_binding draft;
  hypothesis_id ← draft_text hypothesis_id;
  budget_id ← draft_text budget_id;
  target_reference ← draft_text target_reference;
  message ← draft_text message;
  pair ← exploratory_proposal_and_challenge draft;
  compiled ← registry_compile catalog sha256_json
               (CompilerRequest.mk hypothesis_id budget_id target_reference None None
                  [("message", PStr message)] None (Some pair.1) (Some pair.2));
  match compiled.(CompilerResult.plan) with
  | Some plan =>
      if CompilerResult.compiled compiled
      then
        raise_if negb (plan.(ExperimentPlan.required_capability) =? DIAGNOSTIC_ECHO_CAPABILITY)%string
        as ResearchInputError;;
        raise_if negb (compiled.(CompilerResult.compiler_id) =? COMPILER_GENERIC_PLANNER)%string
        as ResearchInputError;;
        Ok compiled
      else Ok compiled
  | None => Ok compiled
  end.

(** ** [research/exploratory_research_compile.py] *)

(** [research/exploratory_research_compile.py:32-46 MODEL_PAYLOAD_KEYS] *)
Definition MODEL_PAYLOAD_KEYS : list string :=
  [ "query"; "body"; "headers"; "content_type"; "raw"; "raw_body"; "raw_request"; "raw_response";
    "wire"; "framing_bytes"; "payload" ].

(** [research/exploratory_research_compile.py:131-145 _compiler_arguments] *)
Definition compiler_arguments (compile_arguments : list (string * pyval)) : list (string * pyval) :=
  List.filter (fun p => negb (mem p.1 MODEL_PAYLOAD_KEYS)) compile_arguments.

(** [research/exploratory_research_compile.py:178-180 _has_text] *)
Definition has_text (arguments : list (string * pyval)) (key : string) : bool :=
  is_text (dict_get key arguments).

(** [research/exploratory_research_compile.py:155-175 _select_compiler] *)
Definition select_compiler (request : CompilerRequest.t) : result CompilerResult.t :=
  let has := has_text request.(CompilerRequest.arguments) in
  let origin := has "authorized_origin" || has "origin" in
  if has "actor" && has "own_object" && has "cross_object" && origin
  then Ok (authorization_compile catalog request)
  else if has "actor" && has "resource_id" && has "transition" && origin
  then Ok (state_transition_compile catalog request)
  else if has "cell_id" || has "selected_cell_id"
  then cell_compile catalog sha256_json request
  else if has "step_id" || has "selected_step_id" then step_compile catalog request
  else Ok (blocked "exploratory.research.v1" CompilerOutcome.BLOCKED_MISSING_SEMANTICS
             "EXPLORATORY_RESEARCH_MISSING_TYPED_SEMANTICS"
             request.(CompilerRequest.family_name)).

(** [_family_hint] is [_text_arg(arguments, "family_name")].
    [research/exploratory_research_compile.py:88-128 compile_exploratory_research] *)
Definition compile_exploratory_research (draft : ExploratoryHypothesisDraft.t)
    (hypothesis_id budget_id target_reference : string) (compile_arguments : list (string * pyval))
    : result CompilerResult.t :=
  _ ← assert_ephemeral_registry_binding draft;
  hypothesis_id ← draft_text hypothesis_id;
  budget_id ← draft_text budget_id;
  target_reference ← draft_text target_reference;
  let arguments := compiler_arguments compile_arguments in
  pair ← exploratory_proposal_and_challenge draft;
  compiled ← select_compiler
               (CompilerRequest.mk hypothesis_id budget_id target_reference None
                  (text_arg arguments "family_name") arguments None (Some pair.1) (Some pair.2));
  match compiled.(CompilerResult.plan) with
  | Some plan =>
      if CompilerResult.compiled compiled
      then
        raise_if (plan.(ExperimentPlan.required_capability) =? DIAGNOSTIC_ECHO_CAPABILITY)%string
        as ResearchInputError;;
        raise_if (compiled.(CompilerResult.compiler_id) =? COMPILER_GENERIC_PLANNER)%string
        as ResearchInputError;;
        Ok compiled
      else Ok compiled
  | None => Ok compiled
  end.
End compile.

(** ** [research/identity_anomaly.py] *)

(** [research/identity_anomaly.py:29 IDENTITY_ANOMALY_STRATEGY_VERSION] *)
Definition IDENTITY_ANOMALY_STRATEGY_VERSION : string := "identity_anomaly.registry_external.v1".
Definition EXPLORATORY_HYPOTHESIS_ORIGIN_PREFIX : string := "exh:".
Definition HTTP_AUTHORIZATION_DIFFERENTIAL_KIND : string := "HTTP_AUTHORIZATION_DIFFERENTIAL".
(** [research/identity_anomaly.py:32-38 IDENTITY_CHANGED_DIMENSIONS] *)
Definition IDENTITY_CHANGED_DIMENSIONS : list string := ["ACTOR"; "ROLE"; "SESSION"].
(** [research/identity_anomaly.py:39-43 IDENTITY_ANOMALY_CLAIM] *)
Definition IDENTITY_ANOMALY_CLAIM : string :=
  "Observed identity-dependent response divergence is not explained by current enabled HunterFamily matching and may indicate an unmodelled access or state invariant.".
(** [research/identity_anomaly.py:44-47 IDENTITY_ANOMALY_ALTERNATIVE] *)
Definition IDENTITY_ANOMALY_ALTERNATIVE : string :=
  "The divergence is benign representation or session variance rather than an unmodelled access invariant.".
(** [research/identity_anomaly.py:48-53 IDENTITY_ANOMALY_RATIONALE] *)
Definition IDENTITY_ANOMALY_RATIONALE : string :=
  "A durable identity differential exists, no enabled HunterFamily claims this exact anomaly, and AuthorizationDifferentialCompiler can discriminate the access-invariant explanation from benign variance using identities and resources already present in the source record.".
(** [research/identity_anomaly.py:58-61 IDENTITY_ANOMALY_QUESTION] *)
Definition IDENTITY_ANOMALY_QUESTION : string :=
  "Is the identity-dependent divergence explained by an unmodelled access invariant, or by benign representation or session variance?".
(** [research/identity_anomaly.py:62 ALLOWED_LAB_MODES] *)
Definition ALLOWED_LAB_MODES : list string := ["vulnerable"; "secure_only"; "redirect"].

(** [research/identity_anomaly.py:65-73 IdentityAnomalyClass] *)
Module IdentityAnomalyClass.
Inductive t : Set :=
  | REGISTRY_EXTERNAL | KNOWN_FAMILY | REJECT_UNRESOLVED_SOURCE | REJECT_CROSS_RUN
  | REJECT_NOT_IDENTITY | REJECT_NO_ANOMALY.
#[global] Instance eq_dec : EqDecision t.
Proof. solve_decision. Defined.
End IdentityAnomalyClass.

(** What a compiler needs of an anomaly. *)
Module AnomalyFields.
Record t : Set := mk {
  authorized_origin : option string;
  actor : option string;
  own_object : option string;
  cross_object : option string;
  mode : option string }.
Definition none : t := mk None None None None None.
End AnomalyFields.

(** The last five fields of the class are the record [AnomalyFields]; claim and alternative are the
    fixed texts wherever the code makes one.
    [research/identity_anomaly.py:77-109 IdentityAnomalyContext] *)
Module IdentityAnomalyContext.
Record t : Type := mk {
  source_id : string;
  source_kind : string;
  research_run_id : string;
  observation_ids : list string;
  classification : IdentityAnomalyClass.t;
  owning_family_ids : list string;
  fields : AnomalyFields.t;
  reason_code : string }.

Definition claim (x : t) : string := IDENTITY_ANOMALY_CLAIM.
Definition alternative_explanation (x : t) : string := IDENTITY_ANOMALY_ALTERNATIVE.

(** [research/identity_anomaly.py:96-97 IdentityAnomalyContext.registry_external] *)
Definition registry_external (x : t) : bool :=
  bool_decide (x.(classification) = IdentityAnomalyClass.REGISTRY_EXTERNAL).
End IdentityAnomalyContext.

(** [research/identity_anomaly.py:455-483 _reject] *)
Definition anomaly_refused (source_id source_kind run : string) (observation_ids : list string)
    (classification : IdentityAnomalyClass.t) (reason_code : string) (fields : AnomalyFields.t)
    : IdentityAnomalyContext.t :=
  IdentityAnomalyContext.mk source_id source_kind run observation_ids classification [] fields
    reason_code.

(** [research/identity_anomaly.py:150-153 is_identity_changed_dimensions] *)
Definition is_identity_changed_dimensions (changed_dimensions : list string) : bool :=
  existsb (fun d => mem d IDENTITY_CHANGED_DIMENSIONS) changed_dimensions.

(** A family owns the anomaly or none does.
    [research/identity_anomaly.py:156-251 classify_identity_differential] *)
Definition anomaly_owned (source_id source_kind run : string)
    (observation_ids owning_family_ids : list string) (fields : AnomalyFields.t)
    : IdentityAnomalyContext.t :=
  if bool_decide (owning_family_ids = [])
  then IdentityAnomalyContext.mk source_id source_kind run observation_ids
         IdentityAnomalyClass.REGISTRY_EXTERNAL [] fields "REGISTRY_EXTERNAL_IDENTITY_ANOMALY"
  else IdentityAnomalyContext.mk source_id source_kind run observation_ids
         IdentityAnomalyClass.KNOWN_FAMILY owning_family_ids fields "OWNED_BY_HUNTER_FAMILY".

(** [research/identity_anomaly.py:156-251 classify_identity_differential] *)
Definition classify_identity_differential (research_run_id differential_id differential_run_id
    interpretation : string) (changed_dimensions observation_ids unresolved_observation_ids
    cross_run_observation_ids owning_family_ids : list string) (fields : AnomalyFields.t)
    : IdentityAnomalyContext.t :=
  let refuse class code :=
    anomaly_refused differential_id "DIFFERENTIAL" research_run_id observation_ids class code
      AnomalyFields.none in
  if negb (differential_run_id =? research_run_id)%string
  then refuse IdentityAnomalyClass.REJECT_CROSS_RUN "CROSS_RUN_SOURCE"
  else if negb (bool_decide (unresolved_observation_ids = []))
  then refuse IdentityAnomalyClass.REJECT_UNRESOLVED_SOURCE "UNRESOLVED_SOURCE"
  else if negb (bool_decide (cross_run_observation_ids = []))
  then refuse IdentityAnomalyClass.REJECT_CROSS_RUN "CROSS_RUN_OBSERVATION"
  else if negb (is_identity_changed_dimensions changed_dimensions)
  then refuse IdentityAnomalyClass.REJECT_NOT_IDENTITY "NOT_IDENTITY_DIMENSION"
  else if negb (interpretation =? "CONTROLLED_DIFFERENCE")%string
  then refuse IdentityAnomalyClass.REJECT_NO_ANOMALY "NOT_CONTROLLED_DIFFERENCE"
  else anomaly_owned differential_id "DIFFERENTIAL" research_run_id observation_ids
         owning_family_ids fields.

Definition allowed_mode (mode : option string) : string :=
  match mode with Some m => if mem m ALLOWED_LAB_MODES then m else "vulnerable" | None => "vulnerable" end.

(** [research/identity_anomaly.py:352-366 compiler_fields_from_authz_payload] *)
Definition compiler_fields_from_authz_payload (payload : list (string * pyval)) : AnomalyFields.t :=
  AnomalyFields.mk (text_arg_or payload "authorized_origin" "origin") (text_arg payload "actor")
    (text_arg payload "own_object") (text_arg payload "cross_object")
    (Some (allowed_mode (text_arg payload "mode"))).

(** [research/identity_anomaly.py:254-327 classify_http_authorization_observation] *)
Definition classify_http_authorization_observation (research_run_id observation_id
    observation_kind : string) (observation_run_id : option string)
    (payload : list (string * pyval)) (owning_family_ids : list string)
    : IdentityAnomalyContext.t :=
  let refuse := anomaly_refused observation_id HTTP_AUTHORIZATION_DIFFERENTIAL_KIND research_run_id
                  [observation_id] in
  match observation_run_id with
  | None =>
      refuse IdentityAnomalyClass.REJECT_UNRESOLVED_SOURCE "UNRESOLVED_SOURCE" AnomalyFields.none
  | Some run =>
      if negb (run =? research_run_id)%string
      then refuse IdentityAnomalyClass.REJECT_CROSS_RUN "CROSS_RUN_SOURCE" AnomalyFields.none
      else if negb (observation_kind =? HTTP_AUTHORIZATION_DIFFERENTIAL_KIND)%string
      then anomaly_refused observation_id observation_kind research_run_id [observation_id]
             IdentityAnomalyClass.REJECT_NOT_IDENTITY "NOT_IDENTITY_OBSERVATION" AnomalyFields.none
      else let fields := compiler_fields_from_authz_payload payload in
      if negb (eq_int (dict_get "cross_object_request_status" payload) 200)
      then refuse IdentityAnomalyClass.REJECT_NO_ANOMALY "NO_CROSS_IDENTITY_GRANT" fields
      else anomaly_owned observation_id HTTP_AUTHORIZATION_DIFFERENTIAL_KIND research_run_id
             [observation_id] owning_family_ids fields
  end.

(** Each owner once, in the order of the nodes.
    [research/identity_anomaly.py:330-349 owning_identity_families] *)
Definition owning_identity_families `{FloatRepr} (graph : AttackSurfaceGraph.t)
    (registry : list HunterFamilyView.t) : list string :=
  dedupe (concat ((fun node => HunterFamilyView.family_id <$> families_for_node node graph registry)
                  <$> graph.(AttackSurfaceGraph.nodes))).

(** A text that counts for [all]: not missing and not empty. *)
Definition given_text (s : option string) : option string :=
  match s with Some t => if Str.is_empty t then None else Some t | None => None end.

(** [research/identity_anomaly.py:369-383 compiler_arguments_from_context] *)
Definition compiler_arguments_from_context (context : IdentityAnomalyContext.t)
    : option (list (string * pyval)) :=
  let f := context.(IdentityAnomalyContext.fields) in
  match given_text f.(AnomalyFields.authorized_origin), given_text f.(AnomalyFields.actor),
        given_text f.(AnomalyFields.own_object), given_text f.(AnomalyFields.cross_object) with
  | Some origin, Some actor, Some own, Some cross =>
      Some [ ("authorized_origin", PStr origin); ("actor", PStr actor); ("own_object", PStr own);
             ("cross_object", PStr cross);
             ("mode", PStr (allowed_mode f.(AnomalyFields.mode))) ]
  | _, _, _, _ => None
  end.

(** The negative control is written without the comma that makes a tuple of it: what is stored,
    [list] of a text, is the list of its characters.
    [research/identity_anomaly.py:386-420 identity_anomaly_proposal_and_challenge] *)
Definition identity_anomaly_proposal_and_challenge (context : IdentityAnomalyContext.t)
    : result (HypothesisProposal.t * HypothesisChallenge.t) :=
  raise_if negb (IdentityAnomalyContext.registry_external context) as ResearchInputError;;
  Ok (HypothesisProposal.mk (IdentityAnomalyContext.claim context) IDENTITY_ANOMALY_RATIONALE
        [context.(IdentityAnomalyContext.source_id)]
        [ "The source record is a durable same-run observation or differential.";
          "HunterFamily matching did not claim this identity anomaly.";
          "Opportunity selection is not Core authorization." ]
        [IDENTITY_ANOMALY_QUESTION] HTTP_AUTHORIZATION_DISCONFIRMING_OBSERVATION
        "http.authorization.differential" None NoveltyBasis.TARGET_SPECIFIC_BEHAVIOR None,
      HypothesisChallenge.mk [IdentityAnomalyContext.alternative_explanation context] [] []
        ((fun c => String c "") <$> String.list_ascii_of_string
           "secure control must deny cross-identity access when the invariant holds")
        [] HTTP_AUTHORIZATION_DISCONFIRMING_OBSERVATION
        (Some "Identity divergence is not Evidence and does not declare a Finding.")).

Section anomaly.
Context `{JsonSchema} `{NetlocCheck} (catalog : CapabilityRegistry.t) (sha256_text : string -> string).

Definition strip_or_empty (s : option string) : string :=
  match s with Some t => Str.strip t | None => "" end.

(** [research/identity_anomaly.py:112-130 identity_anomaly_structural_identity] *)
Definition identity_anomaly_structural_identity (context : IdentityAnomalyContext.t) : string :=
  let f := context.(IdentityAnomalyContext.fields) in
  sha256_text
    (join_with "|" [ Str.strip context.(IdentityAnomalyContext.research_run_id);
                     strip_or_empty f.(AnomalyFields.authorized_origin);
                     strip_or_empty f.(AnomalyFields.actor);
                     strip_or_empty f.(AnomalyFields.own_object);
                     strip_or_empty f.(AnomalyFields.cross_object);
                     IDENTITY_ANOMALY_STRATEGY_VERSION ]).

(** [research/identity_anomaly.py:108-109 IdentityAnomalyContext.context_signature] *)
Definition context_signature (context : IdentityAnomalyContext.t) : string :=
  "identity_anomaly:" +:+ identity_anomaly_structural_identity context.

(** [research/identity_anomaly.py:133-136 exploratory_hypothesis_origin] *)
Definition exploratory_hypothesis_origin (structural_identity : string) : result string :=
  s ← draft_text structural_identity;
  Ok (EXPLORATORY_HYPOTHESIS_ORIGIN_PREFIX +:+ s).

(** [research/identity_anomaly.py:139-142 is_exploratory_hypothesis_origin] *)
Definition is_exploratory_hypothesis_origin (origin_reference : option string) : bool :=
  match origin_reference with
  | Some s => Str.starts_with s EXPLORATORY_HYPOTHESIS_ORIGIN_PREFIX
  | None => false
  end.

(** [research/identity_anomaly.py:145-147 exploratory_experiment_id] *)
Definition exploratory_experiment_id (research_run_id hypothesis_id : string) : string :=
  sha256_text (research_run_id +:+ ":" +:+ hypothesis_id +:+ ":exploratory-identity-v1").

(** [research/identity_anomaly.py:423-448 compile_identity_anomaly_experiment] *)
Definition compile_identity_anomaly_experiment (context : IdentityAnomalyContext.t)
    (hypothesis_id budget_id target_reference : string) : result ExperimentPlan.t :=
  match compiler_arguments_from_context context with
  | None => Raise ResearchInputError
  | Some arguments =>
      pair ← identity_anomaly_proposal_and_challenge context;
      let compiled :=
        authorization_compile catalog
          (CompilerRequest.mk hypothesis_id budget_id target_reference None None arguments None
             (Some pair.1) (Some pair.2)) in
      match compiled.(CompilerResult.plan) with
      | Some plan => if CompilerResult.compiled compiled then Ok plan else Raise ResearchInputError
      | None => Raise ResearchInputError
      end
  end.
End anomaly.

(** ** Drafts and their audit payload *)

Lemma draft_text_ok s t : draft_text s = Ok t -> clean t.
Proof. unfold draft_text. rewrite raise_if_ok. intros [Hb [= <-]]. by apply clean_strip. Qed.

Lemma draft_text_clean s : clean s -> draft_text s = Ok s.
Proof. unfold draft_text. intros [E Hb]. by rewrite Hb, E. Qed.

Lemma modest_text_ok s t : modest_text s = Ok t -> clean t /\ claims_truth t = false.
Proof.
  unfold modest_text, reject_truth_claims. intros (x & Hx & (u & Hu & [= <-])%bind_ok)%bind_ok.
  rewrite raise_if_ok in Hu. split; [by eapply draft_text_ok|apply Hu].
Qed.

Lemma modest_text_clean s : clean s -> claims_truth s = false -> modest_text s = Ok s.
Proof.
  intros Hc Ht. unfold modest_text, reject_truth_claims. rewrite (draft_text_clean _ Hc).
  cbn [mbind result_bind]. by rewrite Ht.
Qed.

Lemma require_ids_ok l l' : require_ids l = Ok l' -> l' ≠ [] /\ Forall clean l'.
Proof.
  unfold require_ids. rewrite raise_if_ok. intros [Hl Ht]. apply traverse_ok in Ht. split.
  - intros ->. apply bool_decide_eq_false in Hl. by inversion Ht; subst.
  - clear Hl. induction Ht; constructor; eauto using draft_text_ok.
Qed.

Lemma traverse_clean l : Forall clean l -> traverse draft_text l = Ok l.
Proof.
  intros Hl. apply traverse_ok, Forall_Forall2_diag. apply (Forall_impl _ _ _ Hl), draft_text_clean.
Qed.

Lemma require_ids_clean l : l ≠ [] -> Forall clean l -> require_ids l = Ok l.
Proof.
  intros Hn Hl. unfold require_ids. rewrite bool_decide_false by done. by apply traverse_clean.
Qed.

Lemma ids_from_texts l : l ≠ [] -> Forall clean l -> ids_from_payload (texts l) = Ok l.
Proof.
  intros Hn Hl. destruct l as [|x l]; [done|].
  change (ids_from_payload (texts (x :: l))) with (traverse proposal_text (PStr <$> x :: l)).
  apply traverse_ok, Forall2_fmap_l, Forall_Forall2_diag.
  apply (Forall_impl _ _ _ Hl). intros s. apply proposal_text_clean.
Qed.

(** What a draft that was made looks like. *)
Record sound_draft (d : ExploratoryHypothesisDraft.t) : Prop := {
  sd_texts : Forall clean [ d.(ExploratoryHypothesisDraft.draft_id);
                            d.(ExploratoryHypothesisDraft.research_run_id);
                            d.(ExploratoryHypothesisDraft.hypothesis_claim);
                            d.(ExploratoryHypothesisDraft.proposed_family_name);
                            d.(ExploratoryHypothesisDraft.proposed_family_rationale);
                            d.(ExploratoryHypothesisDraft.structural_identity) ];
  sd_claim : claims_truth d.(ExploratoryHypothesisDraft.hypothesis_claim) = false;
  sd_rationale : claims_truth d.(ExploratoryHypothesisDraft.proposed_family_rationale) = false;
  sd_ids : Forall (fun l => l ≠ [] /\ Forall clean l)
             [ d.(ExploratoryHypothesisDraft.source_refs); d.(ExploratoryHypothesisDraft.signal_ids);
               d.(ExploratoryHypothesisDraft.target_node_kinds) ];
  sd_novelty : forall s, d.(ExploratoryHypothesisDraft.model_claimed_novelty) = Some s -> clean s;
  sd_status : d.(ExploratoryHypothesisDraft.status) = "HYPOTHESIZED";
  sd_gates : d.(ExploratoryHypothesisDraft.validation_gates) = VALIDATION_GATES;
  sd_gated : ExploratoryHypothesisDraft.gated d = true }.

Lemma draft_post_init_ok x d : ExploratoryHypothesisDraft.post_init x = Ok d -> sound_draft d.
Proof.
  unfold ExploratoryHypothesisDraft.post_init. intros H.
  do 10 (let E := fresh "E" in apply bind_ok in H as (? & E & H)).
  rewrite !raise_if_ok in H. destruct H as (Hs & Hg & Hf & [= <-]).
  apply draft_text_ok in E, E0, E2, E7. apply modest_text_ok in E1 as [? ?], E3 as [? ?].
  apply require_ids_ok in E4, E5, E6.
  constructor; cbn; try done.
  - by rewrite !Forall_cons, Forall_nil.
  - by rewrite !Forall_cons, Forall_nil.
  - intros s ->. destruct (ExploratoryHypothesisDraft.model_claimed_novelty x); [|done].
    apply bind_ok in E8 as (? & E8 & [= <-]). by eapply draft_text_ok.
  - by apply negb_false_iff, String.eqb_eq in Hs.
  - by apply negb_false_iff, bool_decide_eq_true in Hg.
  - by apply negb_false_iff in Hf.
Qed.

Lemma draft_post_init_again d : sound_draft d -> ExploratoryHypothesisDraft.post_init d = Ok d.
Proof.
  destruct d. intros [Ht Hc Hr Hi Hn Hs Hg Hf]. cbn in *. rewrite !Forall_cons in Ht. rewrite !Forall_cons in Hi.
  destruct Ht as (? & ? & ? & ? & ? & ? & _), Hi as ([? ?] & [? ?] & [? ?] & _).
  unfold ExploratoryHypothesisDraft.post_init. cbn -[VALIDATION_GATES].
  rewrite !draft_text_clean, !modest_text_clean, !require_ids_clean by done. cbn -[VALIDATION_GATES].
  assert (Hclaimed : match model_claimed_novelty with
            | None => Ok None | Some s => s ← draft_text s; Ok (Some s) end = Ok model_claimed_novelty).
  { destruct model_claimed_novelty as [s|]; [|done]. by rewrite (draft_text_clean _ (Hn _ eq_refl)). }
  rewrite Hclaimed, Hs, Hg, bool_decide_true by done. cbn -[VALIDATION_GATES].
  unfold ExploratoryHypothesisDraft.gated in *. cbn in Hf |- *. by rewrite Hf.
Qed.

Lemma novelty_reads b : enum_of NoveltyBasis.value NoveltyBasis.members (NoveltyBasis.value b) = Ok b.
Proof. by destruct b. Qed.

(** The audit payload of a draft reads back as the draft: nothing an operator reviewed is lost,
    and the flags that keep it out of the registry and out of findings survive. *)
Theorem exploratory_draft_roundtrip x d hypothesis_id :
  ExploratoryHypothesisDraft.post_init x = Ok d ->
  clean d.(ExploratoryHypothesisDraft.strategy_version) ->
  exploratory_draft_from_audit d.(ExploratoryHypothesisDraft.draft_id)
    d.(ExploratoryHypothesisDraft.research_run_id)
    (PDict (ExploratoryHypothesisDraft.to_audit_payload d hypothesis_id)) = Ok d.
Proof.
  intros Hd%draft_post_init_ok Hv. pose proof (draft_post_init_again _ Hd) as Hagain.
  destruct Hd as [Ht _ _ Hi Hn Hs Hg Hf]. rewrite !Forall_cons in Ht. rewrite !Forall_cons in Hi.
  destruct Ht as (_ & _ & ? & ? & ? & ? & _), Hi as ([? ?] & [? ?] & [? ?] & _).
  assert (Hflag : d.(ExploratoryHypothesisDraft.may_write_hunter_registry) = false).
  { unfold ExploratoryHypothesisDraft.gated in Hf. rewrite !andb_true_iff, negb_true_iff in Hf. tauto. }
  assert (Hst : clean d.(ExploratoryHypothesisDraft.status)) by (by rewrite Hs).
  assert (Hgt : d.(ExploratoryHypothesisDraft.validation_gates) ≠ []
                /\ Forall clean d.(ExploratoryHypothesisDraft.validation_gates)).
  { rewrite Hg. split; [done|]. by repeat constructor. }
  destruct Hgt. clear Hs Hg.
  unfold exploratory_draft_from_audit, ExploratoryHypothesisDraft.to_audit_payload, dict_get.
  cbn -[texts ids_from_payload proposal_text opt_text ExploratoryHypothesisDraft.post_init
        NoveltyBasis.value enum_of truthy].
  rewrite Hflag. rewrite novelty_reads. cbn [mbind result_bind].
  rewrite !proposal_text_clean, !ids_from_texts by done. cbn [mbind result_bind].
  assert (Hclaimed : match opt_text d.(ExploratoryHypothesisDraft.model_claimed_novelty) with
            | PNone => Ok None | v => s ← proposal_text v; Ok (Some s) end
          = Ok d.(ExploratoryHypothesisDraft.model_claimed_novelty)).
  { destruct d.(ExploratoryHypothesisDraft.model_claimed_novelty) as [s|]; [|done].
    cbn [opt_text]. by rewrite (proposal_text_clean _ (Hn _ eq_refl)). }
  rewrite Hclaimed. cbn [mbind result_bind].
  assert (Htrue : truthy (PStr d.(ExploratoryHypothesisDraft.strategy_version)) = true).
  { cbn. apply negb_true_iff. apply not_blank_not_empty, Hv. }
  rewrite Htrue, (proposal_text_clean _ Hv). cbn [mbind result_bind truthy].
  rewrite <-Hflag at 1. destruct d. exact Hagain.
Qed.

(** ** Drafts stay outside the registry *)

Lemma registered_token family registry :
  family ∈ registry -> family.(HunterFamilyView.enabled) = true ->
  Str.lower (Str.strip family.(HunterFamilyView.family_id)) ∈ registered_tokens registry
  /\ Str.lower (Str.strip family.(HunterFamilyView.name)) ∈ registered_tokens registry.
Proof.
  intros Hin He. assert (family ∈ List.filter HunterFamilyView.enabled registry) as Hf.
  { apply elem_of_list_filter_bool. by split. }
  unfold registered_tokens. rewrite !elem_of_app, !list_elem_of_fmap. naive_solver.
Qed.

(** A draft is made outside the registry and of this run: no enabled family has its name or was
    matched by a signal, every source it cites is a source of a signal of the run, and it claims no
    truth and carries every gate. *)
Theorem drafts_stay_outside_registry sha draft_id run name rationale signals registry claimed d :
  draft_registry_external_hypothesis sha draft_id run name rationale signals registry claimed = Ok d ->
  sound_draft d
  /\ (forall family, family ∈ registry -> family.(HunterFamilyView.enabled) = true ->
        Str.lower (Str.strip family.(HunterFamilyView.family_id)) ≠ Str.lower (Str.strip name)
        /\ Str.lower (Str.strip family.(HunterFamilyView.name)) ≠ Str.lower (Str.strip name)
        /\ Str.lower (Str.strip family.(HunterFamilyView.family_id)) ∉ matched_family_ids signals)
  /\ (forall s, s ∈ signals -> s.(ExploratorySignal.research_run_id) = Str.strip run)
  /\ (forall ref, ref ∈ d.(ExploratoryHypothesisDraft.source_refs) ->
        exists s r, s ∈ signals /\ r ∈ s.(ExploratorySignal.source_refs) /\ ref = Str.strip r).
Proof.
  unfold draft_registry_external_hypothesis. intros (r & Hr & H)%bind_ok.
  rewrite !raise_if_ok in H. destruct H as (_ & Hrun & H).
  apply bind_ok in H as (n & Hn & H). apply bind_ok in H as (u & Hu & H).
  unfold draft_text in Hr, Hn. rewrite raise_if_ok in Hr, Hn.
  destruct Hr as [_ [= <-]], Hn as [_ [= <-]].
  unfold reject_registered_family_overlap in Hu. rewrite !raise_if_ok in Hu.
  destruct Hu as (Hname & Hmatched & _). rewrite Str.strip_idem in Hname.
  split; [by eapply draft_post_init_ok|]. split; [|split].
  - intros f Hf He. destruct (registered_token _ _ Hf He) as [Hid Hnm].
    apply mem_false in Hname. split; [congruence|]. split; [congruence|].
    intros Hm. apply not_true_iff_false in Hmatched. apply Hmatched, existsb_true.
    eexists. split; [exact Hm|]. by apply mem_true.
  - intros s Hs. apply not_true_iff_false in Hrun. apply dec_stable. intros Hne. apply Hrun.
    apply existsb_true. exists s. split; [done|]. by apply negb_true_iff, String.eqb_neq.
  - intros ref Href. unfold ExploratoryHypothesisDraft.post_init in H.
    do 10 (let E := fresh "E" in apply bind_ok in H as (? & E & H)).
    rewrite !raise_if_ok in H. destruct H as (_ & _ & _ & [= <-]). cbn in Href, E4.
    unfold require_ids in E4. rewrite raise_if_ok in E4. destruct E4 as [_ E4%traverse_ok].
    apply list_elem_of_lookup in Href as [i Hi].
    destruct (Forall2_lookup_r _ _ _ _ _ E4 Hi) as (raw & Hraw & Ht).
    unfold draft_text in Ht. rewrite raise_if_ok in Ht. destruct Ht as [_ [= <-]].
    apply list_elem_of_lookup_2, elem_of_dedupe, elem_of_concat in Hraw as (l & Hin & Hl).
    apply list_elem_of_fmap in Hl as (s & -> & Hs). by exists s, raw.
Qed.

(** ** What an exploratory hypothesis compiles to *)

Section research.
Context `{JsonSchema} `{NetlocCheck} `{FloatRepr}.
Context (catalog : CapabilityRegistry.t) (sha256_json : pyval -> string).

Definition RESEARCH_CAPABILITIES : list string :=
  ["http.authorization.differential"; "http.state_transition"; "http.transaction";
   "http.raw_exchange"].

Lemma select_compiler_decided request r :
  select_compiler catalog sha256_json request = Ok r ->
  r.(CompilerResult.plan) = None
  \/ exists id c, decided catalog id (eq c) r /\ c ∈ RESEARCH_CAPABILITIES
       /\ id ≠ COMPILER_GENERIC_PLANNER.
Proof.
  unfold select_compiler. intros H2.
  destruct (_ && _) in H2; [|destruct (_ && _) in H2; [|destruct (_ || _) in H2;
    [|destruct (_ || _) in H2; [|left; by injection H2 as <-]]]]; right.
  - injection H2 as <-. do 2 eexists. split; [apply authorization_decided|].
    split; [unfold RESEARCH_CAPABILITIES; set_solver|done].
  - injection H2 as <-. do 2 eexists. split; [apply state_transition_decided|].
    split; [unfold RESEARCH_CAPABILITIES; set_solver|done].
  - do 2 eexists. split; [eapply cell_decided, H2|].
    split; [unfold RESEARCH_CAPABILITIES, HTTP_TRANSACTION_CAPABILITY; set_solver|done].
  - do 2 eexists. split; [eapply step_decided, H2|].
    split; [unfold RESEARCH_CAPABILITIES; set_solver|done].
Qed.

Lemma compiler_arguments_idem arguments :
  compiler_arguments (compiler_arguments arguments) = compiler_arguments arguments.
Proof.
  unfold compiler_arguments. induction arguments as [|x l IH]; [done|]. cbn.
  destruct (negb (mem x.1 MODEL_PAYLOAD_KEYS)) eqn:E; cbn; rewrite ?E; [by f_equal|done].
Qed.

Lemma research_clean c : c ∈ RESEARCH_CAPABILITIES -> Str.strip c = c /\ c ≠ DIAGNOSTIC_ECHO_CAPABILITY.
Proof.
  intros Hc. unfold RESEARCH_CAPABILITIES in Hc. rewrite !elem_of_cons, elem_of_nil in Hc.
  by destruct Hc as [->|[->|[->|[->|[]]]]].
Qed.

(** An exploratory hypothesis compiles to real research or to nothing: the guards against the
    diagnostic capability and the generic planner never fire, a plan is bound to one of the four
    research capabilities at its registered level, and what a model supplies as query, body,
    headers or raw bytes does not change the decision. *)
Theorem exploratory_research_is_bounded sha docs draft hypothesis_id budget_id target arguments r :
  registry_from_documents sha docs = Ok catalog ->
  compile_exploratory_research catalog sha256_json draft hypothesis_id budget_id target arguments
  = Ok r ->
  compile_exploratory_research catalog sha256_json draft hypothesis_id budget_id target
    (compiler_arguments arguments) = Ok r
  /\ (exists p c, exploratory_proposal_and_challenge draft = Ok (p, c)
       /\ select_compiler catalog sha256_json
            (CompilerRequest.mk (Str.strip hypothesis_id) (Str.strip budget_id) (Str.strip target)
               None (text_arg (compiler_arguments arguments) "family_name")
               (compiler_arguments arguments) None (Some p) (Some c)) = Ok r)
  /\ forall plan, r.(CompilerResult.plan) = Some plan ->
       plan.(ExperimentPlan.required_capability) ∈ RESEARCH_CAPABILITIES
       /\ exists d a, CapabilityRegistry.lookup catalog plan.(ExperimentPlan.required_capability)
                        plan.(ExperimentPlan.action) = Some (d, a)
            /\ plan.(ExperimentPlan.side_effect_level)
               = a.(CapabilityActionDefinition.minimum_side_effect_level).
Proof.
  intros [Hreg _]%registry_from_documents_invariant Hc.
  split; [rewrite <-Hc; unfold compile_exploratory_research; by rewrite compiler_arguments_idem|].
  unfold compile_exploratory_research in Hc.
  apply bind_ok in Hc as (u & Hu & Hc). apply bind_ok in Hc as (h & Hh & Hc).
  apply bind_ok in Hc as (b & Hb & Hc). apply bind_ok in Hc as (t & Ht & Hc). cbv zeta in Hc.
  apply bind_ok in Hc as ([p c] & Hp & Hc). apply bind_ok in Hc as (x & Hx & Hc).
  unfold draft_text in Hh, Hb, Ht. rewrite raise_if_ok in Hh, Hb, Ht.
  destruct Hh as [_ [= <-]], Hb as [_ [= <-]], Ht as [_ [= <-]].
  assert (x = r) as ->.
  { destruct x.(CompilerResult.plan); [|by injection Hc]. destruct (CompilerResult.compiled x);
      [rewrite !raise_if_ok in Hc; by destruct Hc as (_ & _ & [= ->])|by injection Hc]. }
  split; [by exists p, c|]. intros plan Hplan.
  apply select_compiler_decided in Hx as [Hn|(id & cap & [_ Hd] & Hin & _)]; [congruence|].
  rewrite Hplan in Hd. destruct Hd as (_ & i & Hi & Hic).
  apply (compile_ok _ _ _ _ _ Hreg) in Hi as (d & a & Hl & _ & Hlev & Hcap & _).
  rewrite <-Hic, (proj1 (research_clean _ Hin)) in Hcap. rewrite Hcap at 1. split; [done|]. by exists d, a.
Qed.
End research.

(** ** Identity anomalies *)

Lemma anomaly_owned_external id kind run obs owners fields :
  IdentityAnomalyContext.registry_external (anomaly_owned id kind run obs owners fields) = true
  <-> owners = [].
Proof.
  unfold anomaly_owned, IdentityAnomalyContext.registry_external.
  destruct (bool_decide_reflect (owners = [])); cbn; [by split|]. split; [done|by intros ->].
Qed.

(** No family owns an identity anomaly exactly when none applies to any node of the graph. *)
Lemma unowned_iff `{FloatRepr} graph registry :
  owning_identity_families graph registry = []
  <-> forall node family, node ∈ graph.(AttackSurfaceGraph.nodes) -> family ∈ registry ->
        family_applies node graph family = false.
Proof.
  unfold owning_identity_families, families_for_node. split.
  - intros Hn node family Hnode Hf. apply not_true_iff_false. intros Ha.
    assert (family.(HunterFamilyView.family_id) ∈ ([] : list string)) as Hin; [|by apply elem_of_nil in Hin].
    rewrite <-Hn. apply elem_of_dedupe, elem_of_concat. eexists. split.
    2: { apply list_elem_of_fmap. by exists node. }
    apply list_elem_of_fmap. exists family. split; [done|]. by apply elem_of_list_filter_bool.
  - intros Hnone. destruct (dedupe _) as [|x l] eqn:E; [done|].
    assert (x ∈ x :: l) as Hx by (by left). rewrite <-E in Hx.
    apply elem_of_dedupe, elem_of_concat in Hx as (ids & Hx & Hids).
    apply list_elem_of_fmap in Hids as (node & -> & Hnode).
    apply list_elem_of_fmap in Hx as (family & _ & Hf). apply elem_of_list_filter_bool in Hf as [Hf Ha].
    by rewrite (Hnone node family) in Ha.
Qed.

(** An identity anomaly becomes an experiment only when it is one: the differential is of the
    run, all its observations resolve and belong to the run, an identity dimension changed, the
    difference was controlled and no family owns it; the plan is then the authorization
    differential over the identities and resources of the source record. *)
Theorem anomaly_experiments_are_warranted `{JsonSchema} `{NetlocCheck} sha docs catalog
    run id source_run interpretation dimensions obs unresolved foreign owners fields
    hypothesis_id budget_id target plan :
  registry_from_documents sha docs = Ok catalog ->
  compile_identity_anomaly_experiment catalog
    (classify_identity_differential run id source_run interpretation dimensions obs unresolved
       foreign owners fields) hypothesis_id budget_id target = Ok plan ->
  source_run = run /\ unresolved = [] /\ foreign = [] /\ owners = []
  /\ (exists d, d ∈ dimensions /\ d ∈ IDENTITY_CHANGED_DIMENSIONS)
  /\ interpretation = "CONTROLLED_DIFFERENCE"
  /\ plan.(ExperimentPlan.required_capability) = "http.authorization.differential"
  /\ exists a, CapabilityRegistry.lookup catalog plan.(ExperimentPlan.required_capability)
                 plan.(ExperimentPlan.action) = Some a
       /\ plan.(ExperimentPlan.side_effect_level)
          = a.2.(CapabilityActionDefinition.minimum_side_effect_level).
Proof.
  intros [Hreg _]%registry_from_documents_invariant. unfold compile_identity_anomaly_experiment.
  destruct (compiler_arguments_from_context _) as [arguments|]; [|done].
  intros ([p c] & Hp & Hc)%bind_ok. unfold identity_anomaly_proposal_and_challenge in Hp.
  rewrite raise_if_ok in Hp. destruct Hp as [Hext%negb_false_iff _].
  set (request := CompilerRequest.mk _ _ _ _ _ _ _ _ _) in Hc.
  pose proof (authorization_decided catalog request) as [_ Hd].
  destruct (authorization_compile catalog request).(CompilerResult.plan) as [plan'|]; [|done].
  destruct (CompilerResult.compiled _); [|done]. injection Hc as ->.
  destruct Hd as (_ & x & Hx & Hcap).
  apply (compile_ok _ _ _ _ _ Hreg) in Hx as (d & a & Hl & _ & Hlev & Hrc & _).
  rewrite <-Hcap in Hrc. unfold classify_identity_differential in Hext.
  destruct (source_run =? run)%string eqn:E1; [|done]. apply String.eqb_eq in E1.
  destruct (bool_decide_reflect (unresolved = [])); [|done].
  destruct (bool_decide_reflect (foreign = [])); [|done].
  destruct (is_identity_changed_dimensions dimensions) eqn:E2; [|done].
  destruct (interpretation =? _)%string eqn:E3; [|done]. apply String.eqb_eq in E3.
  cbn [negb] in Hext. apply anomaly_owned_external in Hext.
  apply existsb_true in E2 as (dim & Hdim & Hid%mem_true).
  split_and!; try done; [by exists dim|]. by exists (d, a).
Qed.

(** The negative control of an identity anomaly is stored letter by letter. *)
Example negative_control_is_letters context p c :
  identity_anomaly_proposal_and_challenge context = Ok (p, c) ->
  firstn 6 c.(HypothesisChallenge.required_negative_controls) = ["s"; "e"; "c"; "u"; "r"; "e"].
Proof.
  unfold identity_anomaly_proposal_and_challenge. rewrite raise_if_ok. intros [_ [= _ <-]]. reflexivity.
Qed.

(** ** Samples *)

Definition sample_signal : ExploratorySignal.t :=
  ExploratorySignal.mk "sig-1" "run-1" ExploratorySignalKind.IDENTITY_ANOMALY
    "two identities read one order" [" obs-1 "; "obs-2"] "HTTP_OPERATION" [].

Definition sample_draft : result ExploratoryHypothesisDraft.t :=
  draft_registry_external_hypothesis zero_digest "draft-1" " run-1 " "Order mirroring"
    "the response follows the session, not the owner" [sample_signal] [ssti_view] None.

Lemma drafts_stay_outside_registry_witness :
  exists d, sample_draft = Ok d /\ sound_draft d
    /\ d.(ExploratoryHypothesisDraft.source_refs) = ["obs-1"; "obs-2"].
Proof.
  destruct sample_draft as [d|e] eqn:E; [|vm_compute in E; discriminate E].
  exists d. split; [reflexivity|]. split.
  - refine (proj1 (drafts_stay_outside_registry zero_digest "draft-1" " run-1 " "Order mirroring"
              "the response follows the session, not the owner" [sample_signal] [ssti_view] None d _)).
    exact E.
  - vm_compute in E. injection E as <-. reflexivity.
Defined.

Definition made_draft : ExploratoryHypothesisDraft.t :=
  ExploratoryHypothesisDraft.mk " d " "run-1" "Order mirroring repeats" "Order mirroring" "why not"
    ["obs-1"] ["sig-1"] ["HTTP_OPERATION"] "0" NoveltyBasis.TARGET_SPECIFIC_BEHAVIOR (Some " new ")
    "v1" "HYPOTHESIZED" VALIDATION_GATES true true false true true true true true.

Lemma exploratory_draft_roundtrip_witness :
  exists d, ExploratoryHypothesisDraft.post_init made_draft = Ok d
    /\ exploratory_draft_from_audit "d" "run-1"
         (PDict (ExploratoryHypothesisDraft.to_audit_payload d "hyp-1")) = Ok d.
Proof.
  destruct (ExploratoryHypothesisDraft.post_init made_draft) as [d|e] eqn:E;
    [|vm_compute in E; discriminate E].
  exists d. split; [reflexivity|].
  assert (Hd : d.(ExploratoryHypothesisDraft.draft_id) = "d"
               /\ d.(ExploratoryHypothesisDraft.research_run_id) = "run-1"
               /\ clean d.(ExploratoryHypothesisDraft.strategy_version)).
  { vm_compute in E. injection E as <-. by split_and!. }
  destruct Hd as (Hi & Hr & Hv). rewrite <-Hi, <-Hr at 1.
  exact (exploratory_draft_roundtrip _ _ "hyp-1" E Hv).
Defined.

Definition research_arguments : list (string * pyval) :=
  [ ("cell_id", PStr "hf-cors:cell:007"); ("origin", PStr "http://127.0.0.1:8080");
    ("family_name", PStr "CORS_CREDENTIAL_EXFILTRATION_CHAIN"); ("body", PStr "attack") ].

Lemma exploratory_research_is_bounded_witness :
  exists draft r plan, sample_draft = Ok draft
    /\ compile_exploratory_research (H := any_schema) (H0 := fun _ => true) (H1 := no_floats)
         http_catalog zero_digest draft "hyp-1" "budget-1" "target-1" research_arguments = Ok r
    /\ r.(CompilerResult.plan) = Some plan
    /\ plan.(ExperimentPlan.required_capability) ∈ RESEARCH_CAPABILITIES.
Proof.
  destruct sample_draft as [draft|e] eqn:E; [|vm_compute in E; discriminate E].
  assert (Er : exists r plan, compile_exploratory_research (H := any_schema) (H0 := fun _ => true)
            (H1 := no_floats) http_catalog zero_digest draft "hyp-1" "budget-1" "target-1"
            research_arguments = Ok r /\ r.(CompilerResult.plan) = Some plan).
  { vm_compute in E. injection E as <-. do 2 eexists. split; vm_compute; reflexivity. }
  destruct Er as (r & plan & Hr & Hp). exists draft, r, plan.
  split; [reflexivity|]. split; [exact Hr|]. split; [exact Hp|].
  destruct (@exploratory_research_is_bounded any_schema (fun _ => true) no_floats http_catalog
              zero_digest sample_sha [http_document; echo_document] draft "hyp-1" "budget-1"
              "target-1" research_arguments r eq_refl Hr) as (_ & _ & Hb).
  exact (proj1 (Hb _ Hp)).
Defined.

Definition differential_document : list (string * pyval) :=
  [ ("capability_id", PStr "http.authorization.differential"); ("version", PStr "1");
    ("implementation_reference", PStr "http.authorization.differential");
    ("executor_class", PStr "WORKER"); ("actions", PDict [("probe", http_action "probe" 0)]) ].

Definition differential_catalog : CapabilityRegistry.t :=
  match registry_from_documents sample_sha [differential_document] with
  | Ok r => r | Raise _ => ∅ end.

Definition sample_anomaly : IdentityAnomalyContext.t :=
  classify_identity_differential "run-1" "diff-1" "run-1" "CONTROLLED_DIFFERENCE" ["ACTOR"]
    ["obs-1"; "obs-2"] [] [] []
    (AnomalyFields.mk (Some "http://127.0.0.1:8080") (Some "alice") (Some "order-1")
       (Some "order-2") (Some "fast")).

Lemma anomaly_experiments_are_warranted_witness :
  exists plan,
    compile_identity_anomaly_experiment (H := any_schema) (H0 := fun _ => true)
      differential_catalog sample_anomaly "hyp-1" "budget-1" "target-1" = Ok plan
    /\ plan.(ExperimentPlan.required_capability) = "http.authorization.differential".
Proof.
  destruct (compile_identity_anomaly_experiment (H := any_schema) (H0 := fun _ => true)
      differential_catalog sample_anomaly "hyp-1" "budget-1" "target-1") as [plan|e] eqn:E;
    [|vm_compute in E; discriminate E].
  exists plan. split; [reflexivity|].
  destruct (@anomaly_experiments_are_warranted any_schema (fun _ => true) sample_sha
              [differential_document] differential_catalog "run-1" "diff-1" "run-1"
              "CONTROLLED_DIFFERENCE" ["ACTOR"] ["obs-1"; "obs-2"] [] [] [] _ "hyp-1" "budget-1"
              "target-1" plan eq_refl E) as (_ & _ & _ & _ & _ & _ & Hc & _).
  exact Hc.
Defined.
