(* ===== verification/Evaluators.v ===== *)
(** * Evaluators of experiments

    [research/feedback.py], [research/assessment.py], [research/evaluators/*.py],
    [application/plan_records.py] and [application/evaluate_experiment_feedback.py]: what an
    experiment taught.  An evaluator compares the observations of an execution with the prediction
    of its plan; the use case rebuilds both from the tables and stores one assessment. *)
From S2P Require Import Prelude PyVal PyText Verification EvidenceRecords HuntRecords Records Proposals Compiler Planning CellContract.

(** ** [research/feedback.py] *)

(** [research/feedback.py:18-36 ObservedFact] *)
Module ObservedFact.
Record t : Type := mk {
  observation_id : string;
  observation_kind : string;
  payload : list (string * pyval) }.

Definition post_init (x : t) : result t :=
  _ ← plan_text x.(observation_id);
  _ ← plan_text x.(observation_kind);
  Ok x.
End ObservedFact.

(** [research/feedback.py:40-93 ExperimentFeedback] *)
Module ExperimentFeedback.
Record t : Type := mk {
  hypothesis_id : string;
  experiment_id : string;
  research_run_id : string;
  expected_observation : string;
  disconfirming_observation : string;
  evaluation_strategy : string;
  execution_outcome : string;
  observations : list ObservedFact.t;
  submitted_value : option string;
  invocation_status : option string;
  experiment_execution_state : option string;
  attempt_state : option string }.

Definition post_init (x : t) : result t :=
  _ ← plan_text x.(hypothesis_id);
  _ ← plan_text x.(experiment_id);
  _ ← plan_text x.(research_run_id);
  _ ← plan_text x.(expected_observation);
  _ ← plan_text x.(disconfirming_observation);
  _ ← plan_text x.(evaluation_strategy);
  _ ← plan_text x.(execution_outcome);
  Ok x.

(** [research/feedback.py:92-93 ExperimentFeedback.observation_ids] *)
Definition observation_ids (x : t) : list string := ObservedFact.observation_id <$> x.(observations).
End ExperimentFeedback.

(** ** [research/assessment.py] *)

(** [research/assessment.py:34-42 UNUSABLE_EXECUTION_OUTCOMES] *)
Definition UNUSABLE_EXECUTION_OUTCOMES : list string :=
  [ "INVOCATION_FAILED"; "UNKNOWN_OUTCOME"; "DISPATCH_DENIED"; "HUMAN_REVIEW_REQUIRED";
    "AUTHORIZED_NOT_DISPATCHED" ].
(** [research/assessment.py:43-45 UNUSABLE_ATTEMPT_STATES] *)
Definition UNUSABLE_ATTEMPT_STATES : list string :=
  ["FAILED"; "TIMED_OUT"; "CANCELLED"; "UNKNOWN_OUTCOME"].
(** [research/assessment.py:46-48 UNUSABLE_EXPERIMENT_STATES] *)
Definition UNUSABLE_EXPERIMENT_STATES : list string :=
  ["EXECUTION_FAILED"; "BLOCKED"; "CANCELLED"; "BUDGET_EXHAUSTED"].

(** The only kind of evaluator is the deterministic one.
    [research/assessment.py:58-111 HypothesisAssessment] *)
Module HypothesisAssessment.
Record t : Type := mk {
  outcome : AssessmentOutcome.t;
  evaluator_version : string;
  rationale : list (string * pyval);
  hypothesis_id : string;
  experiment_id : string;
  research_run_id : string;
  observation_ids : list string;
  evaluation_strategy : string }.

Definition post_init (x : t) : result t :=
  _ ← plan_text x.(evaluator_version);
  raise_if existsb (fun k => mem k ["severity"; "evidence"; "finding"; "confidence"; "candidate"])
             x.(rationale).*1
  as ResearchInputError;;
  _ ← plan_text x.(hypothesis_id);
  _ ← plan_text x.(experiment_id);
  _ ← plan_text x.(research_run_id);
  _ ← plan_text x.(evaluation_strategy);
  Ok x.

(** [research/assessment.py:110-111 HypothesisAssessment.execution_usable] *)
Definition execution_usable (x : t) : bool :=
  negb (bool_decide (x.(outcome) = AssessmentOutcome.EXECUTION_UNUSABLE)).
End HypothesisAssessment.

(** [research/assessment.py:114-122 ExperimentEvaluator] *)
Abbreviation evaluator :=
  (ExperimentPlan.t -> ExperimentFeedback.t -> result HypothesisAssessment.t).

(** ** What the evaluators share *)

(** The four tests every [evaluate] begins with.
    [research/evaluators/http_transaction.py:25-70 HttpTransactionEvaluator.evaluate] *)
Definition matches (strategy capability : string) (plan : ExperimentPlan.t)
    (feedback : ExperimentFeedback.t) : result unit :=
  raise_if negb (plan.(ExperimentPlan.evaluation_strategy) =? strategy)%string
  as ResearchInputError;;
  raise_if negb (plan.(ExperimentPlan.required_capability) =? capability)%string
  as ResearchInputError;;
  raise_if negb (feedback.(ExperimentFeedback.evaluation_strategy) =? strategy)%string
  as ResearchInputError;;
  raise_if negb (plan.(ExperimentPlan.hypothesis_id) =? feedback.(ExperimentFeedback.hypothesis_id))%string
  as ResearchInputError;;
  Ok tt.

Definition is_one_of (s : option string) (l : list string) : bool :=
  match s with Some t => mem t l | None => false end.

(** [research/evaluators/http_transaction.py:72-79 HttpTransactionEvaluator._unusable] *)
Definition unusable (f : ExperimentFeedback.t) : bool :=
  mem f.(ExperimentFeedback.execution_outcome) UNUSABLE_EXECUTION_OUTCOMES
  || is_one_of f.(ExperimentFeedback.attempt_state) UNUSABLE_ATTEMPT_STATES
  || is_one_of f.(ExperimentFeedback.experiment_execution_state) UNUSABLE_EXPERIMENT_STATES.

(** [research/evaluators/diagnostic_echo.py:91-107 DiagnosticEchoEvaluator._unusable] *)
Definition unusable_invocation (f : ExperimentFeedback.t) : bool :=
  unusable f
  || is_one_of f.(ExperimentFeedback.invocation_status)
       [ "TIMED_OUT"; "START_FAILED"; "PROCESS_FAILED"; "PROTOCOL_ERROR"; "CONTRACT_INVALID";
         "CANCELLED" ].

(** The first observation of a kind. *)
Definition first_of_kind (kind : string) (f : ExperimentFeedback.t) : option ObservedFact.t :=
  List.find (fun o => (o.(ObservedFact.observation_kind) =? kind)%string)
    f.(ExperimentFeedback.observations).

(** [research/evaluators/http_transaction.py:81-98 HttpTransactionEvaluator._result] *)
Definition assess (version : string) (plan : ExperimentPlan.t) (feedback : ExperimentFeedback.t)
    (outcome : AssessmentOutcome.t) (rationale : list (string * pyval))
    : result HypothesisAssessment.t :=
  HypothesisAssessment.post_init
    (HypothesisAssessment.mk outcome version rationale feedback.(ExperimentFeedback.hypothesis_id)
       feedback.(ExperimentFeedback.experiment_id) feedback.(ExperimentFeedback.research_run_id)
       (ExperimentFeedback.observation_ids feedback) plan.(ExperimentPlan.evaluation_strategy)).

Definition context_of (f : ExperimentFeedback.t) : list (string * pyval) :=
  [ ("hypothesis_id", PStr f.(ExperimentFeedback.hypothesis_id));
    ("experiment_id", PStr f.(ExperimentFeedback.experiment_id));
    ("research_run_id", PStr f.(ExperimentFeedback.research_run_id)) ].

(** The rationale, with its reason, its facts and what a branch adds at the end.
    [research/evaluators/http_transaction.py:25-70 HttpTransactionEvaluator.evaluate] *)
Definition rationale_with (plan : ExperimentPlan.t) (f : ExperimentFeedback.t) (reason_code : string)
    (facts more : list (string * pyval)) : list (string * pyval) :=
  [ ("reason_code", PStr reason_code);
    ("expected_observation", PStr plan.(ExperimentPlan.expected_observation));
    ("disconfirming_observation", PStr plan.(ExperimentPlan.disconfirming_observation));
    ("execution_outcome", PStr f.(ExperimentFeedback.execution_outcome));
    ("facts", PDict facts); ("context", PDict (context_of f)) ] ++ more.

(** An evaluator that only asks whether there was a response: [judge] decides on the facts. *)
Definition response_evaluator (strategy capability kind : string)
    (judge : ExperimentPlan.t -> list (string * pyval) ->
             result (AssessmentOutcome.t * string * list (string * pyval)))
    (plan : ExperimentPlan.t) (feedback : ExperimentFeedback.t) : result HypothesisAssessment.t :=
  _ ← matches strategy capability plan feedback;
  let result outcome code facts :=
    assess strategy plan feedback outcome (rationale_with plan feedback code facts []) in
  if unusable feedback then result AssessmentOutcome.EXECUTION_UNUSABLE "RUNTIME_UNUSABLE" []
  else match first_of_kind kind feedback with
       | None => result AssessmentOutcome.INCONCLUSIVE "NO_TARGET_OBSERVATION" []
       | Some o =>
           judged ← judge plan o.(ObservedFact.payload);
           let '(outcome, code, facts) := judged in
           result outcome code facts
       end.

(** [{k: payload.get(k) for k in keys}] *)
Definition facts_from (keys : list string) (payload : list (string * pyval))
    : list (string * pyval) := (fun k => (k, dict_get k payload)) <$> keys.

(** [v in {...}] of a set of texts hashes [v]. *)
Definition in_text_set (v : pyval) (l : list string) : result bool :=
  match v with
  | PList _ | PDict _ => Raise TypeError
  | PStr s => Ok (mem s l)
  | _ => Ok false
  end.

(** ** The evaluators of responses *)

(** [research/evaluators/http_transaction.py:25-70 HttpTransactionEvaluator.evaluate] *)
Definition http_transaction_evaluate : evaluator :=
  response_evaluator "http.transaction.v1" HTTP_TRANSACTION_CAPABILITY "HTTP_TRANSACTION"
    (fun _ payload =>
       Ok (AssessmentOutcome.CONSISTENT_WITH_PREDICTION, "HTTP_RESPONSE_OBSERVED",
           facts_from ["status_class"; "status_code"; "method"; "path"] payload)).

(** [research/evaluators/http_authentication.py:25-69 HttpAuthenticationEvaluator.evaluate] *)
Definition http_authentication_evaluate : evaluator :=
  response_evaluator "http.authentication.v1" HTTP_AUTHENTICATION_CAPABILITY "HTTP_AUTHENTICATION"
    (fun _ payload =>
       Ok (AssessmentOutcome.CONSISTENT_WITH_PREDICTION, "AUTHENTICATION_RESPONSE_OBSERVED",
           facts_from ["status_class"; "status_code"; "session_established"] payload)).

(** [research/evaluators/protocol_step.py:27-72 ProtocolStepEvaluator.evaluate] *)
Definition protocol_step_evaluate : evaluator :=
  response_evaluator PROTOCOL_STEP_EVALUATION_STRATEGY "http.raw_exchange" "HTTP_RAW_EXCHANGE"
    (fun _ payload =>
       Ok (AssessmentOutcome.CONSISTENT_WITH_PREDICTION, "RAW_EXCHANGE_OBSERVED",
           facts_from ["status_code"; "framing_profile"; "write_count"; "redirect"] payload)).

(** The control of the cell, read from the query the plan sends. *)
Definition control_of (plan : ExperimentPlan.t) : pyval :=
  match dict_get "query" plan.(ExperimentPlan.arguments) with
  | PDict q => dict_get "ros_ctl" q
  | _ => PNone
  end.

(** [research/evaluators/mutation_matrix.py:24-76 MutationMatrixEvaluator.evaluate] *)
Definition mutation_matrix_evaluate : evaluator :=
  response_evaluator MUTATION_MATRIX_EVALUATION_STRATEGY HTTP_TRANSACTION_CAPABILITY
    "HTTP_TRANSACTION"
    (fun plan payload =>
       let facts := facts_from ["status_class"; "status_code"; "method"; "path"] payload
                    ++ [("control", control_of plan)] in
       denied ← in_text_set (dict_get "status_class" payload) ["4xx"; "5xx"];
       Ok (if (denied : bool)
           then (AssessmentOutcome.CONTRADICTS_PREDICTION, "CONTROL_OR_DENIAL_OBSERVED", facts)
           else (AssessmentOutcome.CONSISTENT_WITH_PREDICTION, "HTTP_RESPONSE_OBSERVED", facts))).

(** ** [research/evaluators/diagnostic_echo.py] *)

Definition opt_str (s : option string) : pyval := match s with Some t => PStr t | None => PNone end.

Definition echo_rationale (plan : ExperimentPlan.t) (f : ExperimentFeedback.t)
    (reason_code : string) (echoed : pyval) : list (string * pyval) :=
  [ ("reason_code", PStr reason_code);
    ("expected_observation", PStr plan.(ExperimentPlan.expected_observation));
    ("disconfirming_observation", PStr plan.(ExperimentPlan.disconfirming_observation));
    ("submitted_value", opt_str f.(ExperimentFeedback.submitted_value));
    ("observed_echoed", echoed);
    ("execution_outcome", PStr f.(ExperimentFeedback.execution_outcome));
    ("context", PDict (context_of f)) ].

(** [research/evaluators/diagnostic_echo.py:25-89 DiagnosticEchoEvaluator.evaluate] *)
Definition diagnostic_echo_evaluate : evaluator := fun plan feedback =>
  let strategy := DIAGNOSTIC_ECHO_EVALUATION_STRATEGY in
  _ ← matches strategy DIAGNOSTIC_ECHO_CAPABILITY plan feedback;
  let result outcome code echoed :=
    assess strategy plan feedback outcome (echo_rationale plan feedback code echoed) in
  if unusable_invocation feedback
  then result AssessmentOutcome.EXECUTION_UNUSABLE "RUNTIME_UNUSABLE" PNone
  else match first_of_kind "diagnostic.echo" feedback with
  | None => result AssessmentOutcome.INCONCLUSIVE "NO_TARGET_OBSERVATION" PNone
  | Some o =>
      match feedback.(ExperimentFeedback.submitted_value) with
      | None => result AssessmentOutcome.NEEDS_MORE_CONTEXT "MISSING_SUBMITTED_VALUE" PNone
      | Some submitted =>
          let echoed := dict_get "echoed" o.(ObservedFact.payload) in
          match echoed with
          | PStr s =>
              if (s =? submitted)%string
              then result AssessmentOutcome.CONSISTENT_WITH_PREDICTION "ECHO_MATCHED" echoed
              else result AssessmentOutcome.CONTRADICTS_PREDICTION "ECHO_MISMATCHED" echoed
          | _ => result AssessmentOutcome.NEEDS_MORE_CONTEXT "MALFORMED_ECHO_PAYLOAD" echoed
          end
      end
  end.

Section facts.
Context `{FloatRepr}.

(** [str(payload.get(a) or arguments.get(b) or "")] *)
Definition text_from (payload : list (string * pyval)) (a : string)
    (arguments : list (string * pyval)) (b : string) : string :=
  let v := dict_get a payload in
  let w := dict_get b arguments in
  if truthy v then py_str v else if truthy w then py_str w else "".

(** [v if isinstance(v, list) else []] *)
Definition list_or_empty (v : pyval) : list pyval := match v with PList l => l | _ => [] end.

(** [s in items] *)
Definition listed (s : string) (items : list pyval) : bool := existsb (fun v => eq_str v s) items.

(** [isinstance(v, str) and v.strip().upper() == s] *)
Definition reads_upper (v : pyval) (s : string) : bool :=
  match v with PStr t => (Str.upper (Str.strip t) =? s)%string | _ => false end.

(** The facts named [fact_...] that do not hold, in their order. *)
Definition missing_facts (facts : list (string * pyval)) : pyval :=
  texts (omap (M:=list) (fun p : string * pyval =>
           if Str.starts_with p.1 "fact_" && negb (truthy p.2) then Some p.1 else None) facts).

(** [all(facts[name] for name in names)] *)
Definition all_hold (facts : list (string * pyval)) (names : list string) : bool :=
  forallb (fun n => truthy (dict_get n facts)) names.

(** ** [research/evaluators/authorization_differential.py] *)

(** [research/evaluators/authorization_differential.py:24-34 UNAUTHORIZED_DIFFERENTIAL_FACTS] *)
Definition UNAUTHORIZED_DIFFERENTIAL_FACTS : list string :=
  [ "fact_owner_can_read_own"; "fact_actor_can_read_cross_object";
    "fact_returned_object_is_cross_owner"; "fact_unauthenticated_denied";
    "fact_secure_control_denied"; "fact_shared_origin"; "fact_not_explicitly_public";
    "fact_not_explicitly_delegated"; "fact_not_shared_resource" ].

(** [isinstance(cross_owner, str) and bool(cross_owner.strip()) and cross_owner == cross_object] *)
Definition owner_proven (cross_owner : pyval) (cross_object : string) : bool :=
  is_text cross_owner && eq_str cross_owner cross_object.

(** [research/evaluators/authorization_differential.py:160-216 _facts] *)
Definition authorization_facts (payload arguments : list (string * pyval))
    : result (list (string * pyval)) :=
  let get k := dict_get k payload in
  let text k := text_from payload k arguments k in
  let actor := text "actor" in
  let own_object := text "own_object" in
  let cross_object := text "cross_object" in
  let origin := text "authorized_origin" in
  let proven := owner_proven (get "cross_object_request_object_owner") cross_object in
  let cross_200 := eq_int (get "cross_object_request_status") 200 in
  let readers := list_or_empty (get "cross_object_request_authorized_readers") in
  unauth_denied ← in_int_set (get "unauthenticated_control_status") [401; 403];
  Ok [ ("actor", PStr actor); ("own_object", PStr own_object); ("cross_object", PStr cross_object);
       ("authorized_origin", PStr origin);
       ("owner_request_status", get "owner_request_status");
       ("owner_request_object_owner", get "owner_request_object_owner");
       ("cross_object_request_status", get "cross_object_request_status");
       ("cross_object_request_object_owner", get "cross_object_request_object_owner");
       ("cross_object_request_visibility", get "cross_object_request_visibility");
       ("cross_object_request_authorized_readers", PList readers);
       ("cross_object_request_resource_kind", get "cross_object_request_resource_kind");
       ("secure_control_status", get "secure_control_status");
       ("unauthenticated_control_status", get "unauthenticated_control_status");
       ("fact_owner_can_read_own",
        PBool (eq_int (get "owner_request_status") 200
               && eq_str (get "owner_request_object_owner") own_object
               && (own_object =? actor)%string));
       ("fact_actor_can_read_cross_object", PBool cross_200);
       ("fact_returned_object_is_cross_owner",
        PBool (cross_200 && proven && negb (cross_object =? actor)%string));
       ("fact_unauthenticated_denied", PBool unauth_denied);
       ("fact_secure_control_denied", PBool (eq_int (get "secure_control_status") 403));
       ("fact_shared_origin",
        PBool (negb (Str.is_empty origin) && eq_str (get "authorized_origin") origin));
       ("fact_cross_status_only", PBool (cross_200 && negb proven));
       ("fact_not_explicitly_public",
        PBool (negb (reads_upper (get "cross_object_request_visibility") "PUBLIC")));
       ("fact_not_explicitly_delegated", PBool (negb (listed actor readers)));
       ("fact_not_shared_resource",
        PBool (negb (reads_upper (get "cross_object_request_resource_kind") "SHARED"))) ].

(** The branches on the facts: the outcome, its reason and what the rationale gains.
    [research/evaluators/authorization_differential.py:41-120 HttpAuthorizationDifferentialEvaluator.evaluate] *)
Definition judge_authorization (facts : list (string * pyval))
    : AssessmentOutcome.t * string * list (string * pyval) :=
  let holds name := truthy (dict_get name facts) in
  let missing := [("missing_facts", missing_facts facts)] in
  let grant := holds "fact_actor_can_read_cross_object"
               && holds "fact_returned_object_is_cross_owner" in
  if holds "fact_cross_status_only"
  then (AssessmentOutcome.NEEDS_MORE_CONTEXT, "STATUS_ALONE_IS_NOT_OBJECT_ACCESS_PROOF", [])
  else if grant && negb (holds "fact_not_explicitly_public")
  then (AssessmentOutcome.CONTRADICTS_PREDICTION, "LEGITIMATE_PUBLIC_ACCESS", [])
  else if grant && negb (holds "fact_not_explicitly_delegated")
  then (AssessmentOutcome.CONTRADICTS_PREDICTION, "LEGITIMATE_DELEGATED_ACCESS", [])
  else if grant && negb (holds "fact_not_shared_resource")
  then (AssessmentOutcome.CONTRADICTS_PREDICTION, "LEGITIMATE_SHARED_ACCESS", [])
  else if all_hold facts UNAUTHORIZED_DIFFERENTIAL_FACTS
  then (AssessmentOutcome.CONSISTENT_WITH_PREDICTION, "AUTHORIZATION_DIFFERENTIAL_ESTABLISHED", [])
  else if holds "fact_secure_control_denied" && negb (holds "fact_actor_can_read_cross_object")
  then (AssessmentOutcome.CONTRADICTS_PREDICTION, "OBJECT_ACCESS_CONTROL_HELD", missing)
  else (AssessmentOutcome.INCONCLUSIVE, "DIFFERENTIAL_INCOMPLETE", missing).

(** An evaluator that judges facts computed from the first observation of its kind. *)
Definition facts_evaluator (strategy capability kind : string)
    (facts_of : list (string * pyval) -> list (string * pyval) -> result (list (string * pyval)))
    (judge : list (string * pyval) -> AssessmentOutcome.t * string * list (string * pyval))
    : evaluator := fun plan feedback =>
  _ ← matches strategy capability plan feedback;
  let result outcome code facts more :=
    assess strategy plan feedback outcome (rationale_with plan feedback code facts more) in
  if unusable_invocation feedback
  then result AssessmentOutcome.EXECUTION_UNUSABLE "RUNTIME_UNUSABLE" [] []
  else match first_of_kind kind feedback with
       | None => result AssessmentOutcome.INCONCLUSIVE "NO_TARGET_OBSERVATION" [] []
       | Some o =>
           facts ← facts_of o.(ObservedFact.payload) plan.(ExperimentPlan.arguments);
           let '(outcome, code, more) := judge facts in
           result outcome code facts more
       end.

(** [research/evaluators/authorization_differential.py:41-120 HttpAuthorizationDifferentialEvaluator.evaluate] *)
Definition authorization_differential_evaluate : evaluator :=
  facts_evaluator "http.authorization.differential.v1" "http.authorization.differential"
    "HTTP_AUTHORIZATION_DIFFERENTIAL" authorization_facts judge_authorization.

(** ** [research/evaluators/state_transition.py] *)

(** [research/evaluators/state_transition.py:27-39 UNAUTHORIZED_TRANSITION_FACTS] *)
Definition UNAUTHORIZED_TRANSITION_FACTS : list string :=
  [ "fact_actor_identity"; "fact_resource_identity"; "fact_pre_state"; "fact_requested_transition";
    "fact_post_state"; "fact_transition_occurred"; "fact_became_approved";
    "fact_actor_is_requester"; "fact_not_delegated"; "fact_control_denied";
    "fact_violates_role_or_sequence" ].

(** [isinstance(v, str)] and [isinstance(v, str) and bool(v)] *)
Definition is_string (v : pyval) : bool := match v with PStr _ => true | _ => false end.
Definition nonempty_string (v : pyval) : bool :=
  match v with PStr s => negb (Str.is_empty s) | _ => false end.

(** [research/evaluators/state_transition.py:172-272 _facts] *)
Definition transition_facts (payload arguments : list (string * pyval))
    : result (list (string * pyval)) :=
  let get k := dict_get k payload in
  let own_text k := text_from payload k [] k in
  let actor := text_from payload "actor" arguments "actor" in
  let resource_id := text_from payload "resource_id" arguments "resource_id" in
  let origin := text_from payload "authorized_origin" arguments "authorized_origin" in
  let transition := text_from payload "requested_transition" arguments "transition" in
  let actor_role := own_text "actor_role" in
  let pre_state := get "pre_state" in
  let post_state := get "post_state" in
  let readers := list_or_empty (get "delegated_reviewers") in
  let state_changed := truthy (get "state_changed") in
  let explicitly_delegated := listed actor readers in
  let requester := (actor_role =? "requester")%string in
  let became_approved := eq_str post_state "APPROVED" && eq_str (get "approved_by") actor in
  let violation from := (transition =? "approve")%string && requester
    && negb explicitly_delegated && eq_str pre_state from && eq_str post_state "APPROVED"
    && state_changed in
  let role_bypass := violation "UNDER_REVIEW" in
  let sequence_skip := violation "DRAFT" in
  let success := eq_int (get "response_status") 200 in
  let status_only := success && negb (is_string post_state) in
  let unchanged_success := success && negb state_changed in
  let idempotent := unchanged_success && eq_str pre_state "APPROVED"
                    && eq_str post_state "APPROVED" in
  let stale := eq_int (get "response_status") 409 && negb state_changed in
  control_denied ← in_int_set (get "control_status") [401; 403; 409];
  let control_held := (control_denied : bool) && negb state_changed in
  let legitimate_reviewer := state_changed && eq_str post_state "APPROVED"
    && mem actor_role ["reviewer"; "admin"] in
  let invariant_kind :=
    if sequence_skip then "SEQUENCE_PRECONDITION" else if role_bypass then "ROLE_BOUNDARY"
    else if state_changed then "STATE_TRANSITION" else "" in
  Ok [ ("actor", PStr actor); ("actor_role", PStr actor_role); ("resource_id", PStr resource_id);
       ("authorized_origin", PStr origin); ("requested_transition", PStr transition);
       ("pre_state", pre_state); ("post_state", post_state);
       ("response_status", get "response_status"); ("control_status", get "control_status");
       ("approved_by", get "approved_by"); ("delegated_reviewers", PList readers);
       ("approve_from_states", PList (list_or_empty (get "approve_from_states")));
       ("approve_requires_role", PStr (own_text "approve_requires_role"));
       ("invariant_kind", PStr invariant_kind);
       ("fact_actor_identity", PBool (negb (Str.is_empty actor)));
       ("fact_resource_identity", PBool (negb (Str.is_empty resource_id)));
       ("fact_pre_state", PBool (nonempty_string pre_state));
       ("fact_requested_transition", PBool (transition =? "approve")%string);
       ("fact_post_state", PBool (nonempty_string post_state));
       ("fact_transition_occurred", PBool state_changed);
       ("fact_became_approved", PBool became_approved);
       ("fact_actor_is_requester", PBool requester);
       ("fact_not_delegated", PBool (negb explicitly_delegated));
       ("fact_delegated", PBool (explicitly_delegated && became_approved));
       ("fact_legitimate_reviewer", PBool legitimate_reviewer);
       ("fact_control_denied", PBool control_denied);
       ("fact_control_held_unchanged", PBool control_held);
       ("fact_violates_role_or_sequence", PBool (role_bypass || sequence_skip));
       ("fact_role_bypass", PBool role_bypass);
       ("fact_sequence_skip", PBool sequence_skip);
       ("fact_status_only_or_unchanged",
        PBool ((status_only || (unchanged_success && negb idempotent)) && negb stale
               && negb control_held));
       ("fact_idempotent_repeat", PBool idempotent);
       ("fact_stale_or_conflict", PBool stale);
       ("fact_shared_origin",
        PBool (negb (Str.is_empty origin) && eq_str (get "authorized_origin") origin));
       ("transition_ok",
        PBool match get "transition_ok" with PBool b => b | _ => false end) ].

(** [research/evaluators/state_transition.py:46-132 HttpStateTransitionEvaluator.evaluate] *)
Definition judge_transition (facts : list (string * pyval))
    : AssessmentOutcome.t * string * list (string * pyval) :=
  let holds name := truthy (dict_get name facts) in
  let missing := [("missing_facts", missing_facts facts)] in
  let role := [("invariant_kind", PStr "ROLE_BOUNDARY")] in
  if holds "fact_status_only_or_unchanged"
  then (AssessmentOutcome.NEEDS_MORE_CONTEXT, "STATUS_OR_UNCHANGED_STATE_IS_NOT_PROOF", [])
  else if holds "fact_stale_or_conflict"
  then (AssessmentOutcome.NEEDS_MORE_CONTEXT, "STALE_OR_CONFLICT", [])
  else if holds "fact_delegated"
  then (AssessmentOutcome.CONTRADICTS_PREDICTION, "LEGITIMATE_DELEGATED_REVIEWER", role)
  else if holds "fact_legitimate_reviewer"
  then (AssessmentOutcome.CONTRADICTS_PREDICTION, "LEGITIMATE_REVIEWER_APPROVAL", role)
  else if holds "fact_idempotent_repeat"
  then (AssessmentOutcome.CONTRADICTS_PREDICTION, "IDEMPOTENT_NO_NEW_TRANSITION", [])
  else if all_hold facts UNAUTHORIZED_TRANSITION_FACTS
  then (AssessmentOutcome.CONSISTENT_WITH_PREDICTION, "UNAUTHORIZED_STATE_TRANSITION_ESTABLISHED",
        [("invariant_kind", dict_get "invariant_kind" facts)])
  else if holds "fact_control_held_unchanged"
  then (AssessmentOutcome.CONTRADICTS_PREDICTION, "WORKFLOW_CONTROL_HELD", missing)
  else (AssessmentOutcome.INCONCLUSIVE, "STATE_TRANSITION_INCOMPLETE", missing).

(** [research/evaluators/state_transition.py:46-132 HttpStateTransitionEvaluator.evaluate] *)
Definition state_transition_evaluate : evaluator :=
  facts_evaluator "http.state_transition.v1" "http.state_transition"
    "HTTP_STATE_TRANSITION_AUTHORIZATION" transition_facts judge_transition.

(** ** The registry of evaluators *)

(** [research/assessment.py:141-160 default_evaluator_registry] *)
Definition default_evaluator_registry : list (string * evaluator) :=
  [ (DIAGNOSTIC_ECHO_EVALUATION_STRATEGY, diagnostic_echo_evaluate);
    ("http.authorization.differential.v1", authorization_differential_evaluate);
    ("http.state_transition.v1", state_transition_evaluate);
    ("http.transaction.v1", http_transaction_evaluate);
    ("http.authentication.v1", http_authentication_evaluate);
    (MUTATION_MATRIX_EVALUATION_STRATEGY, mutation_matrix_evaluate);
    (PROTOCOL_STEP_EVALUATION_STRATEGY, protocol_step_evaluate) ].

(** [research/assessment.py:132-138 ExperimentEvaluatorRegistry.get] *)
Definition evaluator_for (strategy : string) : result evaluator :=
  match assoc strategy default_evaluator_registry with
  | Some e => Ok e
  | None => Raise ResearchInputError
  end.
End facts.

(** ** [application/plan_records.py] *)

(** [data/records.py:872-921 ExperimentPlanRecord] *)
Module ExperimentPlanRecord.
Record t : Type := mk {
  experiment_id : string;
  research_run_id : string;
  hypothesis_id : string;
  required_capability : string;
  action : string;
  target_reference : string;
  side_effect_level : Z;
  arguments : list (string * pyval);
  requested_budget_id : string;
  expected_observation : string;
  disconfirming_observation : string;
  evaluation_strategy : string;
  created_at : Z;
  capability_version : option string;
  capability_definition_fingerprint : option string }.

Definition post_init (x : t) : result t :=
  _ ← data_opaque_id x.(experiment_id);
  _ ← data_opaque_id x.(research_run_id);
  _ ← data_opaque_id x.(hypothesis_id);
  _ ← data_opaque_id x.(required_capability);
  _ ← data_opaque_id x.(action);
  _ ← data_opaque_id x.(target_reference);
  _ ← data_opaque_id x.(requested_budget_id);
  raise_if negb (mem x.(side_effect_level) [0; 1; 2; 3]) as PersistenceInputError;;
  raise_if Str.is_blank x.(expected_observation) as PersistenceInputError;;
  raise_if Str.is_blank x.(disconfirming_observation) as PersistenceInputError;;
  raise_if Str.is_blank x.(evaluation_strategy) as PersistenceInputError;;
  _ ← data_reject_secret_keys x.(arguments);
  _ ← data_optional_opaque_id x.(capability_version);
  _ ← data_optional_opaque_id x.(capability_definition_fingerprint);
  Ok x.

#[global] Instance post_init_validator : Validator post_init.
Proof. solve_validator. Qed.
End ExperimentPlanRecord.

(** [application/plan_records.py:12-26 experiment_plan_from_record] *)
Definition experiment_plan_from_record (r : ExperimentPlanRecord.t) : result ExperimentPlan.t :=
  ExperimentPlan.post_init
    (ExperimentPlan.mk r.(ExperimentPlanRecord.hypothesis_id)
       r.(ExperimentPlanRecord.required_capability) r.(ExperimentPlanRecord.action)
       r.(ExperimentPlanRecord.target_reference) r.(ExperimentPlanRecord.side_effect_level)
       r.(ExperimentPlanRecord.arguments) r.(ExperimentPlanRecord.requested_budget_id)
       r.(ExperimentPlanRecord.expected_observation)
       r.(ExperimentPlanRecord.disconfirming_observation)
       r.(ExperimentPlanRecord.evaluation_strategy) r.(ExperimentPlanRecord.capability_version)
       r.(ExperimentPlanRecord.capability_definition_fingerprint)).

(** [application/plan_records.py:29-51 experiment_plan_record_for] *)
Definition experiment_plan_record_for (experiment : ExperimentRecord.t) (plan : ExperimentPlan.t)
    (created_at : Z) : result ExperimentPlanRecord.t :=
  ExperimentPlanRecord.post_init
    (ExperimentPlanRecord.mk experiment.(ExperimentRecord.experiment_id)
       experiment.(ExperimentRecord.research_run_id) plan.(ExperimentPlan.hypothesis_id)
       plan.(ExperimentPlan.required_capability) plan.(ExperimentPlan.action)
       plan.(ExperimentPlan.target_reference) plan.(ExperimentPlan.side_effect_level)
       plan.(ExperimentPlan.arguments) plan.(ExperimentPlan.requested_budget_id)
       plan.(ExperimentPlan.expected_observation) plan.(ExperimentPlan.disconfirming_observation)
       plan.(ExperimentPlan.evaluation_strategy) created_at plan.(ExperimentPlan.capability_version)
       plan.(ExperimentPlan.capability_definition_fingerprint)).

(** [application/plan_records.py:54-55 durable_plan_matches] *)
Definition durable_plan_matches (dumps : pyval -> string) (r : ExperimentPlanRecord.t)
    (plan : ExperimentPlan.t) : result bool :=
  stored ← experiment_plan_from_record r;
  Ok (plans_equivalent dumps stored plan).

(** ** [application/evaluate_experiment_feedback.py] *)

Module AssessDb.
Record t : Type := mk {
  hypotheses : list HypothesisRecord.t;
  experiments : list ExperimentRecord.t;
  plans : list ExperimentPlanRecord.t;
  attempts : list ExecutionAttemptRecord.t;
  worker_results : list WorkerResultRecord.t;
  observations : list ObservationRecord.t;
  assessments : list HypothesisAssessmentRecord.t }.
End AssessDb.

(** The query has no order: the rows come as the table keeps them.
    [data/postgres/repositories.py:951-961 PostgresExecutionAttemptRepository.list_for_experiment] *)
Definition attempts_of (db : AssessDb.t) (experiment_id : string) : list ExecutionAttemptRecord.t :=
  List.filter (fun a => (a.(ExecutionAttemptRecord.experiment_id) =? experiment_id)%string)
    db.(AssessDb.attempts).

(** [data/postgres/repositories.py:1081-1092 PostgresWorkerResultRepository.list_for_experiment] *)
Definition worker_results_of (db : AssessDb.t) (experiment_id : string) : list WorkerResultRecord.t :=
  sort_by WorkerResultRecord.worker_result_id
    (List.filter (fun r => (r.(WorkerResultRecord.experiment_id) =? experiment_id)%string)
       db.(AssessDb.worker_results)).

(** [data/postgres/repositories.py:1154-1169 PostgresObservationRepository.list_for_experiment] *)
Definition observations_of (db : AssessDb.t) (experiment_id : string) : list ObservationRecord.t :=
  sort_by ObservationRecord.observation_id
    (List.filter (fun o => existsb (fun r =>
         (r.(WorkerResultRecord.worker_result_id) =? o.(ObservationRecord.worker_result_id))%string)
         (worker_results_of db experiment_id)) db.(AssessDb.observations)).

(** [data/postgres/repositories.py:1353-1366 PostgresHypothesisAssessmentRepository.list_for_experiment] *)
Definition assessments_of (db : AssessDb.t) (experiment_id : string)
    : list HypothesisAssessmentRecord.t :=
  sort_by HypothesisAssessmentRecord.assessment_id
    (List.filter (fun a => (a.(HypothesisAssessmentRecord.experiment_id) =? experiment_id)%string)
       db.(AssessDb.assessments)).

(** [data/postgres/repositories.py:1325-1341 PostgresHypothesisAssessmentRepository.insert] *)
Definition insert_assessment (db : AssessDb.t) (r : HypothesisAssessmentRecord.t)
    : result AssessDb.t :=
  let run := r.(HypothesisAssessmentRecord.research_run_id) in
  raise_if existsb (fun a => (a.(HypothesisAssessmentRecord.assessment_id)
                              =? r.(HypothesisAssessmentRecord.assessment_id))%string)
             db.(AssessDb.assessments) as PersistenceConflictError;;
  raise_if negb (existsb (fun h =>
      (h.(HypothesisRecord.hypothesis_id) =? r.(HypothesisAssessmentRecord.hypothesis_id))%string
      && (h.(HypothesisRecord.research_run_id) =? run)%string) db.(AssessDb.hypotheses))
    || negb (existsb (fun e =>
      (e.(ExperimentRecord.experiment_id) =? r.(HypothesisAssessmentRecord.experiment_id))%string
      && (e.(ExperimentRecord.research_run_id) =? run)%string) db.(AssessDb.experiments))
  as PersistenceError;;
  Ok (AssessDb.mk db.(AssessDb.hypotheses) db.(AssessDb.experiments) db.(AssessDb.plans)
        db.(AssessDb.attempts) db.(AssessDb.worker_results) db.(AssessDb.observations)
        (db.(AssessDb.assessments) ++ [r])).

(** What a caller may override; an empty text is no override.
    [application/evaluate_experiment_feedback.py:33-38 EvaluateExperimentFeedbackCommand] *)
Module EvaluateCommand.
Record t : Set := mk {
  experiment_id : string;
  execution_outcome : option string;
  invocation_status : option string;
  attempt_state : option string;
  experiment_execution_state : option string }.
End EvaluateCommand.

(** [research/assessment.py:164-174 ResearchFeedback] *)
Module ResearchFeedback.
Record t : Type := mk {
  hypothesis_id : string;
  experiment_id : string;
  assessment_id : string;
  assessment_outcome : AssessmentOutcome.t;
  observation_ids : list string;
  execution_usable : bool;
  evaluation_strategy : string;
  research_run_id : string }.
End ResearchFeedback.

(** [a or b] of optional texts. *)
Definition given_or (a b : option string) : option string :=
  match a with Some s => if Str.is_empty s then b else Some s | None => b end.

(** [application/evaluate_experiment_feedback.py:172-191 _derive_execution_outcome] *)
Definition derive_execution_outcome (experiment_state : string) (attempt_state : option string)
    (observed : bool) : string :=
  if is_one_of attempt_state ["FAILED"; "TIMED_OUT"; "CANCELLED"; "UNKNOWN_OUTCOME"]
  then if bool_decide (attempt_state = Some "UNKNOWN_OUTCOME") then "UNKNOWN_OUTCOME"
       else "INVOCATION_FAILED"
  else if mem experiment_state ["BLOCKED"; "BUDGET_EXHAUSTED"] then "DISPATCH_DENIED"
  else if (experiment_state =? "EXECUTION_SUCCEEDED")%string
  then if observed then "OBSERVATION_PRODUCED" else "NO_OBSERVATION"
  else if (experiment_state =? "EXECUTION_FAILED")%string then "INVOCATION_FAILED"
  else experiment_state.

(** [application/evaluate_experiment_feedback.py:126-169 reconstruct_experiment_feedback] *)
Definition reconstruct_experiment_feedback (experiment : ExperimentRecord.t)
    (plan : ExperimentPlan.t) (observations : list ObservationRecord.t)
    (attempt : option ExecutionAttemptRecord.t) (worker_result : option WorkerResultRecord.t)
    (c : EvaluateCommand.t) : result ExperimentFeedback.t :=
  let submitted := match dict_get "message" plan.(ExperimentPlan.arguments) with
                   | PStr s => Some s | _ => None end in
  let state := ExecutionAttemptRecord.state <$> attempt in
  let invocation := match WorkerResultRecord.status <$> worker_result with
                    | Some s => Some s
                    | None => if bool_decide (state = Some "TIMED_OUT") then Some "TIMED_OUT" else None
                    end in
  let execution :=
    default (derive_execution_outcome experiment.(ExperimentRecord.execution_state) state
               (negb (bool_decide (length observations = 0%nat))))
      (given_or c.(EvaluateCommand.execution_outcome) None) in
  facts ← traverse (fun o => ObservedFact.post_init
            (ObservedFact.mk o.(ObservationRecord.observation_id)
               o.(ObservationRecord.observation_kind) o.(ObservationRecord.payload))) observations;
  ExperimentFeedback.post_init
    (ExperimentFeedback.mk experiment.(ExperimentRecord.hypothesis_id)
       experiment.(ExperimentRecord.experiment_id) experiment.(ExperimentRecord.research_run_id)
       plan.(ExperimentPlan.expected_observation) plan.(ExperimentPlan.disconfirming_observation)
       plan.(ExperimentPlan.evaluation_strategy) execution facts submitted
       (given_or c.(EvaluateCommand.invocation_status) invocation)
       (given_or c.(EvaluateCommand.experiment_execution_state)
          (Some experiment.(ExperimentRecord.execution_state)))
       (given_or c.(EvaluateCommand.attempt_state) state)).

Definition outcome_members : list AssessmentOutcome.t :=
  [ AssessmentOutcome.CONSISTENT_WITH_PREDICTION; AssessmentOutcome.CONTRADICTS_PREDICTION;
    AssessmentOutcome.INCONCLUSIVE; AssessmentOutcome.EXECUTION_UNUSABLE;
    AssessmentOutcome.NEEDS_MORE_CONTEXT ].

(** The answer from a stored assessment.
    [application/evaluate_experiment_feedback.py:53-123 EvaluateExperimentFeedback.execute] *)
Definition feedback_of_record (r : HypothesisAssessmentRecord.t) : result ResearchFeedback.t :=
  outcome ← enum_of AssessmentOutcome.value outcome_members
              r.(HypothesisAssessmentRecord.assessment_outcome);
  Ok (ResearchFeedback.mk r.(HypothesisAssessmentRecord.hypothesis_id)
        r.(HypothesisAssessmentRecord.experiment_id) r.(HypothesisAssessmentRecord.assessment_id)
        outcome r.(HypothesisAssessmentRecord.observation_ids)
        (negb (bool_decide (outcome = AssessmentOutcome.EXECUTION_UNUSABLE)))
        r.(HypothesisAssessmentRecord.evaluation_strategy)
        r.(HypothesisAssessmentRecord.research_run_id)).

(** [uow.experiments.get] and [uow.experiment_plans.get]. *)
Definition assessed_experiment (db : AssessDb.t) (id : string) : option ExperimentRecord.t :=
  List.find (fun e => (e.(ExperimentRecord.experiment_id) =? id)%string) db.(AssessDb.experiments).
Definition assessed_plan (db : AssessDb.t) (id : string) : option ExperimentPlanRecord.t :=
  List.find (fun p => (p.(ExperimentPlanRecord.experiment_id) =? id)%string) db.(AssessDb.plans).

Section evaluate.
Context `{FloatRepr}.

(** [seen] is what the reads see, [db] what the insertion meets: nothing is locked between them,
    and no constraint of the table keeps an experiment from a second assessment.
    [application/evaluate_experiment_feedback.py:53-123 EvaluateExperimentFeedback.execute] *)
Definition evaluate_experiment_feedback (seen db : AssessDb.t) (c : EvaluateCommand.t)
    (assessment_id : string) (now : Z) : result (AssessDb.t * ResearchFeedback.t) :=
  id ← data_opaque_id c.(EvaluateCommand.experiment_id);
  match assessed_experiment seen id, assessed_plan seen id with
  | Some experiment, Some plan_record =>
      plan ← experiment_plan_from_record plan_record;
      match assessments_of seen id with
      | r :: _ => answer ← feedback_of_record r; Ok (db, answer)
      | [] =>
          feedback ← reconstruct_experiment_feedback experiment plan (observations_of seen id)
                       (head (attempts_of seen id)) (head (worker_results_of seen id)) c;
          evaluate ← evaluator_for plan.(ExperimentPlan.evaluation_strategy);
          a ← evaluate plan feedback;
          record ← HypothesisAssessmentRecord.post_init
            (HypothesisAssessmentRecord.mk assessment_id a.(HypothesisAssessment.hypothesis_id)
               a.(HypothesisAssessment.experiment_id) a.(HypothesisAssessment.research_run_id)
               (AssessmentOutcome.value a.(HypothesisAssessment.outcome))
               a.(HypothesisAssessment.observation_ids) "DETERMINISTIC"
               a.(HypothesisAssessment.evaluator_version) a.(HypothesisAssessment.rationale)
               a.(HypothesisAssessment.evaluation_strategy) now);
          db ← insert_assessment db record;
          Ok (db, ResearchFeedback.mk a.(HypothesisAssessment.hypothesis_id)
                    a.(HypothesisAssessment.experiment_id) assessment_id
                    a.(HypothesisAssessment.outcome) a.(HypothesisAssessment.observation_ids)
                    (HypothesisAssessment.execution_usable a)
                    a.(HypothesisAssessment.evaluation_strategy)
                    a.(HypothesisAssessment.research_run_id))
      end
  | _, _ => Raise ApplicationError
  end.
End evaluate.

(** ** What every assessment rests on *)

(** The kind of observation each strategy looks at. *)
Definition kind_of_strategy : list (string * string) :=
  [ (DIAGNOSTIC_ECHO_EVALUATION_STRATEGY, "diagnostic.echo");
    ("http.authorization.differential.v1", "HTTP_AUTHORIZATION_DIFFERENTIAL");
    ("http.state_transition.v1", "HTTP_STATE_TRANSITION_AUTHORIZATION");
    ("http.transaction.v1", "HTTP_TRANSACTION"); ("http.authentication.v1", "HTTP_AUTHENTICATION");
    (MUTATION_MATRIX_EVALUATION_STRATEGY, "HTTP_TRANSACTION");
    (PROTOCOL_STEP_EVALUATION_STRATEGY, "HTTP_RAW_EXCHANGE") ].

(** The outcome says something about the prediction. *)
Definition tells (o : AssessmentOutcome.t) : bool :=
  mem o [AssessmentOutcome.CONSISTENT_WITH_PREDICTION; AssessmentOutcome.CONTRADICTS_PREDICTION].

(** An assessment of a plan and its feedback, by the evaluator of a strategy. *)
Definition grounded (strategy kind : string) (plan : ExperimentPlan.t) (f : ExperimentFeedback.t)
    (a : HypothesisAssessment.t) : Prop :=
  plan.(ExperimentPlan.evaluation_strategy) = strategy
  /\ f.(ExperimentFeedback.evaluation_strategy) = strategy
  /\ plan.(ExperimentPlan.hypothesis_id) = a.(HypothesisAssessment.hypothesis_id)
  /\ a.(HypothesisAssessment.hypothesis_id) = f.(ExperimentFeedback.hypothesis_id)
  /\ a.(HypothesisAssessment.experiment_id) = f.(ExperimentFeedback.experiment_id)
  /\ a.(HypothesisAssessment.research_run_id) = f.(ExperimentFeedback.research_run_id)
  /\ a.(HypothesisAssessment.observation_ids) = ExperimentFeedback.observation_ids f
  /\ a.(HypothesisAssessment.evaluation_strategy) = strategy
  /\ (unusable f = true -> a.(HypothesisAssessment.outcome) = AssessmentOutcome.EXECUTION_UNUSABLE)
  /\ (tells a.(HypothesisAssessment.outcome) = true ->
        unusable f = false
        /\ exists o, o ∈ f.(ExperimentFeedback.observations)
             /\ o.(ObservedFact.observation_kind) = kind).

Lemma matches_ok strategy capability plan f u :
  matches strategy capability plan f = Ok u ->
  plan.(ExperimentPlan.evaluation_strategy) = strategy
  /\ plan.(ExperimentPlan.required_capability) = capability
  /\ f.(ExperimentFeedback.evaluation_strategy) = strategy
  /\ plan.(ExperimentPlan.hypothesis_id) = f.(ExperimentFeedback.hypothesis_id).
Proof.
  unfold matches. rewrite !raise_if_ok. rewrite !negb_false_iff, !String.eqb_eq. tauto.
Qed.

Lemma assess_ok version plan f outcome rationale a :
  assess version plan f outcome rationale = Ok a ->
  a = HypothesisAssessment.mk outcome version rationale f.(ExperimentFeedback.hypothesis_id)
        f.(ExperimentFeedback.experiment_id) f.(ExperimentFeedback.research_run_id)
        (ExperimentFeedback.observation_ids f) plan.(ExperimentPlan.evaluation_strategy).
Proof.
  unfold assess, HypothesisAssessment.post_init. intros (? & _ & H)%bind_ok.
  rewrite raise_if_ok in H. destruct H as [_ H].
  do 4 (apply bind_ok in H as (? & _ & H)). by injection H as <-.
Qed.

Lemma first_of_kind_ok kind f o :
  first_of_kind kind f = Some o ->
  o ∈ f.(ExperimentFeedback.observations) /\ o.(ObservedFact.observation_kind) = kind.
Proof. intros [Hin He]%find_Some_elem. split; [done|]. by apply String.eqb_eq in He. Qed.

Lemma assess_grounded strategy capability kind plan f u outcome rationale a :
  matches strategy capability plan f = Ok u ->
  assess strategy plan f outcome rationale = Ok a ->
  (unusable f = true -> outcome = AssessmentOutcome.EXECUTION_UNUSABLE) ->
  (tells outcome = true -> exists o, first_of_kind kind f = Some o) ->
  grounded strategy kind plan f a.
Proof.
  intros (Hs & _ & Hfs & Hh)%matches_ok ->%assess_ok Hu Ht. unfold grounded.
  cbn [HypothesisAssessment.hypothesis_id HypothesisAssessment.experiment_id
       HypothesisAssessment.research_run_id HypothesisAssessment.observation_ids
       HypothesisAssessment.evaluation_strategy HypothesisAssessment.outcome].
  split_and!; try done.
  intros Htell. split.
  - destruct (unusable f); [|done]. by rewrite (Hu eq_refl) in Htell.
  - destruct (Ht Htell) as [o Ho]. exists o. by apply first_of_kind_ok.
Qed.

Lemma response_grounded strategy capability kind judge plan f a :
  response_evaluator strategy capability kind judge plan f = Ok a ->
  grounded strategy kind plan f a.
Proof.
  unfold response_evaluator. intros (u & Hm & H)%bind_ok.
  destruct (unusable f) eqn:Hu; [by eapply assess_grounded; eauto|].
  destruct (first_of_kind kind f) as [o|] eqn:Ho.
  - apply bind_ok in H as ([[outcome code] facts] & _ & H).
    eapply assess_grounded; [done|exact H|by rewrite Hu|by eexists].
  - eapply assess_grounded; [done|exact H|by rewrite Hu|done].
Qed.

Lemma unusable_weaken f : unusable_invocation f = false -> unusable f = false.
Proof. unfold unusable_invocation. by intros [? _]%orb_false_iff. Qed.

Lemma facts_grounded strategy capability kind facts_of judge plan f a :
  facts_evaluator strategy capability kind facts_of judge plan f = Ok a ->
  grounded strategy kind plan f a.
Proof.
  unfold facts_evaluator. intros (u & Hm & H)%bind_ok.
  destruct (unusable_invocation f) eqn:Hu; [by eapply assess_grounded; eauto|].
  apply unusable_weaken in Hu.
  destruct (first_of_kind kind f) as [o|] eqn:Ho.
  - apply bind_ok in H as (facts & _ & H). destruct (judge facts) as [[outcome code] more].
    eapply assess_grounded; [done|exact H|by rewrite Hu|by eexists].
  - eapply assess_grounded; [done|exact H|by rewrite Hu|done].
Qed.

Lemma echo_grounded plan f a :
  diagnostic_echo_evaluate plan f = Ok a ->
  grounded DIAGNOSTIC_ECHO_EVALUATION_STRATEGY "diagnostic.echo" plan f a.
Proof.
  unfold diagnostic_echo_evaluate. intros (u & Hm & H)%bind_ok. cbv zeta in H.
  destruct (unusable_invocation f) eqn:Hu; [by eapply assess_grounded; eauto|].
  apply unusable_weaken in Hu.
  destruct (first_of_kind "diagnostic.echo" f) as [o|] eqn:Ho;
    [|eapply assess_grounded; [done|exact H|by rewrite Hu|done]].
  destruct (ExperimentFeedback.submitted_value f) as [s|];
    [|eapply assess_grounded; [done|exact H|by rewrite Hu|done]].
  destruct (dict_get "echoed" _); try destruct (_ =? _)%string;
    (eapply assess_grounded; [done|exact H|by rewrite Hu|intros _; by exists o]).
Qed.

Section properties.
Context `{FloatRepr}.

Lemma rests_on_observations strategy (e : evaluator) plan f a :
  evaluator_for strategy = Ok e -> e plan f = Ok a ->
  exists kind, (strategy, kind) ∈ kind_of_strategy /\ grounded strategy kind plan f a.
Proof.
  unfold evaluator_for. destruct (assoc strategy default_evaluator_registry) as [e'|] eqn:E; [|done].
  intros [= ->] He. apply assoc_Some_in in E. unfold default_evaluator_registry in E.
  repeat (apply elem_of_cons in E as [[= -> ->]|E];
    [eexists; split; [|first [by apply echo_grounded|by eapply facts_grounded, He
                             |by eapply response_grounded, He]];
     unfold kind_of_strategy; rewrite !elem_of_cons; tauto|]).
  by apply elem_of_nil in E.
Qed.

(** C29. An assessment rests on its execution: whichever evaluator the registry chooses, it judges
    the plan and the feedback of one hypothesis and strategy, cites the observations it was given,
    learns nothing from an execution that failed, and speaks for or against the prediction only
    with an observation of the kind its strategy looks at. *)
Theorem assessments_rest_on_observations strategy (e : evaluator) plan f a :
  evaluator_for strategy = Ok e -> e plan f = Ok a ->
  exists kind, (strategy, kind) ∈ kind_of_strategy /\ grounded strategy kind plan f a.
Proof. apply rests_on_observations. Qed.

(** A test of an observation as an atom of the propositional argument. *)
Ltac atom t := let b := fresh "b" in set (b := t) in *; clearbody b.

(** What an authorization differential has to show: the owner reads the own object, the same actor
    reads an object of somebody else whose owner is proven, nobody unauthenticated does, the secure
    control refuses, all on one origin, and the object is not public, delegated or shared. *)
Definition differential_shown (payload arguments : list (string * pyval)) : Prop :=
  let get k := dict_get k payload in
  let text k := text_from payload k arguments k in
  eq_int (get "owner_request_status") 200 = true
  /\ get "owner_request_object_owner" = PStr (text "own_object")
  /\ text "own_object" = text "actor"
  /\ eq_int (get "cross_object_request_status") 200 = true
  /\ get "cross_object_request_object_owner" = PStr (text "cross_object")
  /\ Str.is_blank (text "cross_object") = false
  /\ text "cross_object" ≠ text "actor"
  /\ in_int_set (get "unauthenticated_control_status") [401; 403] = Ok true
  /\ eq_int (get "secure_control_status") 403 = true
  /\ text "authorized_origin" ≠ "" /\ get "authorized_origin" = PStr (text "authorized_origin")
  /\ reads_upper (get "cross_object_request_visibility") "PUBLIC" = false
  /\ listed (text "actor") (list_or_empty (get "cross_object_request_authorized_readers")) = false
  /\ reads_upper (get "cross_object_request_resource_kind") "SHARED" = false.

Lemma owner_proven_true v s : owner_proven v s = true <-> v = PStr s /\ Str.is_blank s = false.
Proof.
  unfold owner_proven. rewrite andb_true_iff, eq_str_true, is_text_true. naive_solver.
Qed.

Lemma authorization_judged payload arguments facts :
  authorization_facts payload arguments = Ok facts ->
  (judge_authorization facts).1.1 = AssessmentOutcome.CONSISTENT_WITH_PREDICTION
  <-> differential_shown payload arguments.
Proof.
  unfold authorization_facts. intros (unauth & Hu & [= <-])%bind_ok.
  unfold differential_shown. cbv zeta. rewrite Hu.
  rewrite <-!eq_str_true.
  assert (Hempty : forall s, s ≠ "" <-> negb (Str.is_empty s) = true) by (by intros []).
  rewrite Hempty.
  set (proven := owner_proven _ _).
  assert (Hproven : proven = true <-> eq_str (dict_get "cross_object_request_object_owner" payload)
                      (text_from payload "cross_object" arguments "cross_object") = true
                    /\ Str.is_blank (text_from payload "cross_object" arguments "cross_object") = false).
  { unfold proven. by rewrite owner_proven_true, eq_str_true. }
  clearbody proven.
  assert (Hsame : text_from payload "own_object" arguments "own_object"
                  = text_from payload "actor" arguments "actor"
                  <-> (text_from payload "own_object" arguments "own_object"
                       =? text_from payload "actor" arguments "actor")%string = true)
    by (by rewrite String.eqb_eq).
  assert (Hother : text_from payload "cross_object" arguments "cross_object"
                  ≠ text_from payload "actor" arguments "actor"
                  <-> negb (text_from payload "cross_object" arguments "cross_object"
                       =? text_from payload "actor" arguments "actor")%string = true)
    by (by rewrite negb_true_iff, String.eqb_neq).
  assert (Hun : Ok unauth = Ok true <-> unauth = true) by naive_solver.
  rewrite Hsame, Hother, Hun. clear Hempty Hsame Hother Hun Hu.
  assert (Hblank : forall s, Str.is_blank s = false <-> negb (Str.is_blank s) = true)
    by (intros s; by rewrite negb_true_iff).
  rewrite Hblank in Hproven |- *. clear Hblank.
  repeat match goal with
         | |- context [eq_int ?a ?b] => atom (eq_int a b)
         | |- context [eq_str ?a ?b] => atom (eq_str a b)
         | |- context [Str.is_empty ?a] => atom (Str.is_empty a)
         | |- context [Str.is_blank ?a] => atom (Str.is_blank a)
         | |- context [reads_upper ?a ?b] => atom (reads_upper a b)
         | |- context [listed ?a ?b] => atom (listed a b)
         | |- context [(text_from ?a ?b ?c ?d =? text_from ?e ?f ?g ?h)%string] =>
             atom (text_from a b c d =? text_from e f g h)%string
         end.
  unfold judge_authorization, all_hold, UNAUTHORIZED_DIFFERENTIAL_FACTS. cbv zeta.
  cbn -[missing_facts].
  match goal with |- context [missing_facts ?l] => generalize (missing_facts l); intros missing end.
  split.
  - intros Hj. do 4 (destruct (_ && _) in Hj; [discriminate Hj|]).
    destruct (_ && _) eqn:E in Hj; [|destruct (_ && _) in Hj; discriminate Hj].
    clear Hj. rewrite !andb_true_iff, !negb_true_iff in E. rewrite !negb_true_iff in *. tauto.
  - intros Hall. destruct_and! Hall.
    assert (proven = true) as -> by tauto. rewrite !negb_true_iff in *. by subst.
Qed.

(** The outcome of an evaluator of facts is the judgement of the facts of the first observation. *)
Lemma facts_established strategy capability kind facts_of judge plan f a :
  facts_evaluator strategy capability kind facts_of judge plan f = Ok a ->
  a.(HypothesisAssessment.outcome) = AssessmentOutcome.CONSISTENT_WITH_PREDICTION
  <-> unusable_invocation f = false
      /\ exists o, first_of_kind kind f = Some o
           /\ exists facts, facts_of o.(ObservedFact.payload) plan.(ExperimentPlan.arguments) = Ok facts
                /\ (judge facts).1.1 = AssessmentOutcome.CONSISTENT_WITH_PREDICTION.
Proof.
  unfold facts_evaluator. intros (u & _ & H1)%bind_ok. cbv zeta in H1.
  destruct (unusable_invocation f); [apply assess_ok in H1 as ->; naive_solver|].
  destruct (first_of_kind kind f) as [o|]; [|apply assess_ok in H1 as ->; naive_solver].
  apply bind_ok in H1 as (facts & Hf & H1). destruct (judge facts) as [[outcome code] more] eqn:Ej.
  apply assess_ok in H1 as ->. cbn. split.
  - intros ->. split; [done|]. exists o. split; [done|]. exists facts. by rewrite Ej.
  - intros (_ & o' & [= <-] & facts' & Hf' & Hj). rewrite Hf in Hf'. injection Hf' as <-.
    by rewrite Ej in Hj.
Qed.

(** C28. An authorization differential is established exactly when it was shown: a usable execution
    produced an observation of the kind whose facts show the owner's access, the proven foreign
    object, the refusals of the controls and no public, delegated or shared access. *)
Theorem differential_established_iff plan f a :
  authorization_differential_evaluate plan f = Ok a ->
  a.(HypothesisAssessment.outcome) = AssessmentOutcome.CONSISTENT_WITH_PREDICTION
  <-> unusable_invocation f = false
      /\ exists o, first_of_kind "HTTP_AUTHORIZATION_DIFFERENTIAL" f = Some o
           /\ differential_shown o.(ObservedFact.payload) plan.(ExperimentPlan.arguments).
Proof.
  intros He. rewrite (facts_established _ _ _ _ _ _ _ _ He).
  split; intros (Hu & o & Ho & H1); (split; [done|]); exists o; (split; [done|]).
  - destruct H1 as (facts & Hf & Hj). by eapply authorization_judged in Hf as <-.
  - pose proof H1 as Hshown. unfold differential_shown in H1. cbv zeta in H1. destruct_and! H1.
    assert (exists facts, authorization_facts (ObservedFact.payload o) plan.(ExperimentPlan.arguments) = Ok facts) as [facts Hf].
    { unfold authorization_facts. eexists. match goal with E : in_int_set _ _ = _ |- _ => rewrite E end. reflexivity. }
    exists facts. split; [done|]. by eapply authorization_judged.
Qed.

(** What an unauthorized state transition has to show: an identified actor who is the requester and
    not a delegated reviewer approved, from a draft or from review, an identified resource that
    changed its state to approved by that actor, while the control was refused. *)
Definition transition_shown (payload arguments : list (string * pyval)) : Prop :=
  let get k := dict_get k payload in
  let actor := text_from payload "actor" arguments "actor" in
  actor ≠ ""
  /\ text_from payload "resource_id" arguments "resource_id" ≠ ""
  /\ text_from payload "requested_transition" arguments "transition" = "approve"
  /\ (get "pre_state" = PStr "UNDER_REVIEW" \/ get "pre_state" = PStr "DRAFT")
  /\ get "post_state" = PStr "APPROVED"
  /\ get "approved_by" = PStr actor
  /\ text_from payload "actor_role" [] "actor_role" = "requester"
  /\ listed actor (list_or_empty (get "delegated_reviewers")) = false
  /\ in_int_set (get "control_status") [401; 403; 409] = Ok true
  /\ truthy (get "state_changed") = true.

Lemma transition_judged payload arguments facts :
  transition_facts payload arguments = Ok facts ->
  (judge_transition facts).1.1 = AssessmentOutcome.CONSISTENT_WITH_PREDICTION
  <-> transition_shown payload arguments.
Proof.
  unfold transition_facts. intros (denied & Hd & [= <-])%bind_ok.
  unfold transition_shown. cbv zeta. rewrite Hd.
  set (actor := text_from payload "actor" arguments "actor").
  set (resource := text_from payload "resource_id" arguments "resource_id").
  set (origin := text_from payload "authorized_origin" arguments "authorized_origin").
  set (transition := text_from payload "requested_transition" arguments "transition").
  set (role := text_from payload "actor_role" [] "actor_role").
  set (pre := dict_get "pre_state" payload). set (post := dict_get "post_state" payload).
  set (delegated := listed actor _). set (changed := truthy (dict_get "state_changed" payload)).
  set (by_actor := dict_get "approved_by" payload).
  set (status := dict_get "response_status" payload).
  clearbody actor resource origin transition role pre post delegated changed by_actor status.
  assert (Hne : forall s, s ≠ "" <-> negb (Str.is_empty s) = true) by (by intros []).
  rewrite <-!eq_str_true, !Hne.
  assert (Hpre : eq_str pre "UNDER_REVIEW" || eq_str pre "DRAFT" = true ->
                 nonempty_string pre = true /\ eq_str pre "APPROVED" = false).
  { rewrite orb_true_iff, !eq_str_true. by intros [-> | ->]. }
  assert (Hpost : eq_str post "APPROVED" = true ->
                  nonempty_string post = true /\ is_string post = true).
  { rewrite eq_str_true. by intros ->. }
  assert (Hrole : (role =? "requester")%string = true -> mem role ["reviewer"; "admin"] = false).
  { rewrite String.eqb_eq. by intros ->. }
  rewrite <-(String.eqb_eq transition), <-(String.eqb_eq role).
  assert (Hdenied : Ok denied = Ok true <-> denied = true) by naive_solver.
  rewrite Hdenied, <-orb_true_iff. clear Hne Hdenied Hd.
  atom (eq_str by_actor actor). atom (Str.is_empty actor). atom (Str.is_empty resource).
  atom (transition =? "approve")%string. atom (role =? "requester")%string.
  atom (mem role ["reviewer"; "admin"]). atom (eq_str pre "UNDER_REVIEW"). atom (eq_str pre "DRAFT").
  atom (eq_str pre "APPROVED"). atom (nonempty_string pre). atom (eq_str post "APPROVED").
  atom (nonempty_string post). atom (is_string post). atom (eq_int status 200). atom (eq_int status 409).
  unfold judge_transition, all_hold, UNAUTHORIZED_TRANSITION_FACTS. cbv zeta.
  cbn -[missing_facts].
  match goal with |- context [missing_facts ?l] => generalize (missing_facts l); intros missing end.
  split.
  - intros Hj. do 5 (destruct (_ && _) in Hj; [discriminate Hj|]).
    destruct (_ && _) eqn:E in Hj; [|destruct (_ && _) in Hj; discriminate Hj].
    clear Hj. rewrite !andb_true_iff, orb_true_iff, !andb_true_iff, !negb_true_iff in E.
    rewrite !negb_true_iff, orb_true_iff. tauto.
  - intros Hall. destruct_and! Hall. rewrite !negb_true_iff in *.
    match goal with H1 : ?x || ?y = true, H2 : ?x || ?y = true -> _ |- _ => destruct (H2 H1) end.
    match goal with H1 : ?x = true, H2 : ?x = true -> _ /\ _ |- _ => destruct (H2 H1) end.
    match goal with H1 : ?x = true, H2 : ?x = true -> _ = false |- _ => pose proof (H2 H1) end.
    subst. repeat match goal with b : bool |- _ => destruct b end; first [reflexivity|discriminate].
Qed.

(** A state transition is found unauthorized exactly when it was shown to be. *)
Theorem transition_established_iff plan f a :
  state_transition_evaluate plan f = Ok a ->
  a.(HypothesisAssessment.outcome) = AssessmentOutcome.CONSISTENT_WITH_PREDICTION
  <-> unusable_invocation f = false
      /\ exists o, first_of_kind "HTTP_STATE_TRANSITION_AUTHORIZATION" f = Some o
           /\ transition_shown o.(ObservedFact.payload) plan.(ExperimentPlan.arguments).
Proof.
  intros He. rewrite (facts_established _ _ _ _ _ _ _ _ He).
  split; intros (Hu & o & Ho & H1); (split; [done|]); exists o; (split; [done|]).
  - destruct H1 as (facts & Hf & Hj). by eapply transition_judged in Hf as <-.
  - pose proof H1 as Hshown. unfold transition_shown in H1. cbv zeta in H1. destruct_and! H1.
    assert (exists facts, transition_facts (ObservedFact.payload o) plan.(ExperimentPlan.arguments) = Ok facts) as [facts Hf].
    { unfold transition_facts. eexists. match goal with E : in_int_set _ _ = _ |- _ => rewrite E end. reflexivity. }
    exists facts. split; [done|]. by eapply transition_judged.
Qed.

(** ** One assessment per experiment *)

Lemma outcome_reads o : enum_of AssessmentOutcome.value outcome_members (AssessmentOutcome.value o) = Ok o.
Proof. by destruct o. Qed.

Lemma assessment_record_ok x r :
  HypothesisAssessmentRecord.post_init x = Ok r -> r = x.
Proof.
  unfold HypothesisAssessmentRecord.post_init. intros H1.
  do 4 (apply bind_ok in H1 as (? & _ & H1)). rewrite !raise_if_ok in H1.
  destruct H1 as (_ & _ & _ & _ & H1). apply bind_ok in H1 as (ids & Hids & H1).
  rewrite raise_if_ok in H1. destruct H1 as [_ H1]. apply bind_ok in H1 as (? & _ & [= <-]).
  assert (ids = x.(HypothesisAssessmentRecord.observation_ids)) as ->; [|by destruct x].
  apply traverse_ok in Hids. induction Hids as [|i j l k Hij _ IH]; [done|].
  unfold data_opaque_id in Hij. rewrite raise_if_ok in Hij. destruct Hij as [_ [= <-]]. by rewrite IH.
Qed.

Lemma insert_assessment_ok db r db' :
  insert_assessment db r = Ok db' ->
  db' = AssessDb.mk db.(AssessDb.hypotheses) db.(AssessDb.experiments) db.(AssessDb.plans)
          db.(AssessDb.attempts) db.(AssessDb.worker_results) db.(AssessDb.observations)
          (db.(AssessDb.assessments) ++ [r]).
Proof. unfold insert_assessment. rewrite !raise_if_ok. intros (_ & _ & H1). by injection H1 as <-. Qed.

Lemma assessments_of_snoc db r :
  assessments_of db r.(HypothesisAssessmentRecord.experiment_id) = [] ->
  sort_by HypothesisAssessmentRecord.assessment_id
    (List.filter (fun a => (a.(HypothesisAssessmentRecord.experiment_id)
                            =? r.(HypothesisAssessmentRecord.experiment_id))%string)
       (db.(AssessDb.assessments) ++ [r])) = [r].
Proof.
  intros Hn. rewrite List.filter_app. cbn [List.filter]. rewrite String.eqb_refl.
  unfold assessments_of in Hn. set (l := List.filter _ _) in Hn |- *.
  assert (l = []) as ->; [|done]. apply Permutation_nil. by rewrite <-Hn, sort_by_perm.
Qed.

(** The experiment that is read. *)
Lemma found_experiment db id e :
  assessed_experiment db id = Some e ->
  e ∈ db.(AssessDb.experiments) /\ e.(ExperimentRecord.experiment_id) = id.
Proof. intros [Hin He]%find_Some_elem. by apply String.eqb_eq in He. Qed.

Lemma evaluator_ids strategy (e : evaluator) plan f a :
  evaluator_for strategy = Ok e -> e plan f = Ok a ->
  a.(HypothesisAssessment.hypothesis_id) = f.(ExperimentFeedback.hypothesis_id)
  /\ a.(HypothesisAssessment.experiment_id) = f.(ExperimentFeedback.experiment_id)
  /\ a.(HypothesisAssessment.research_run_id) = f.(ExperimentFeedback.research_run_id)
  /\ a.(HypothesisAssessment.observation_ids) = ExperimentFeedback.observation_ids f.
Proof.
  intros H1 H2. destruct (rests_on_observations _ _ _ _ _ H1 H2) as (kind & _ & Hg).
  unfold grounded in Hg. tauto.
Qed.

Lemma reconstruct_ids e plan obs attempt result c f :
  reconstruct_experiment_feedback e plan obs attempt result c = Ok f ->
  f.(ExperimentFeedback.hypothesis_id) = e.(ExperimentRecord.hypothesis_id)
  /\ f.(ExperimentFeedback.experiment_id) = e.(ExperimentRecord.experiment_id)
  /\ f.(ExperimentFeedback.research_run_id) = e.(ExperimentRecord.research_run_id)
  /\ ExperimentFeedback.observation_ids f = ObservationRecord.observation_id <$> obs.
Proof.
  unfold reconstruct_experiment_feedback. cbv zeta. intros (facts & Hf & H1)%bind_ok.
  unfold ExperimentFeedback.post_init in H1. do 7 (apply bind_ok in H1 as (? & _ & H1)).
  injection H1 as <-. cbn. split_and!; try done.
  apply traverse_ok in Hf. unfold ExperimentFeedback.observation_ids. cbn.
  induction Hf as [|o y l k Ho _ IH]; [done|]. unfold ObservedFact.post_init in Ho.
  do 2 (apply bind_ok in Ho as (? & _ & Ho)). injection Ho as <-. cbn. by rewrite IH.
Qed.

(** An evaluation that reads an assessment answers from it and writes nothing. *)
Lemma evaluate_answered seen db c id' now e p plan r rs answer :
  let id := c.(EvaluateCommand.experiment_id) in
  data_opaque_id id = Ok id -> assessed_experiment seen id = Some e ->
  assessed_plan seen id = Some p -> experiment_plan_from_record p = Ok plan ->
  assessments_of seen id = r :: rs -> feedback_of_record r = Ok answer ->
  evaluate_experiment_feedback seen db c id' now = Ok (db, answer).
Proof.
  intros id Hid He Hp Hplan Ha Hr. unfold evaluate_experiment_feedback. fold id. rewrite Hid.
  cbn [mbind result_bind]. rewrite He, Hp, Hplan. cbn [mbind result_bind]. by rewrite Ha, Hr.
Qed.

(** C27. Evaluating an experiment either answers from the assessment of it that was read and
    writes nothing, or, when it read none, adds exactly one, of its own hypothesis and run and
    citing its stored observations in order, and answers with it.  When no other evaluation of
    the experiment committed between the reads and the insertion, every later evaluation that
    reads the assessments there are then and the same plan, whatever the caller overrides and
    whatever else was written, answers with that same assessment and writes nothing. *)
Theorem experiment_assessed_once seen db c assessment_id now db' answer :
  evaluate_experiment_feedback seen db c assessment_id now = Ok (db', answer) ->
  let id := c.(EvaluateCommand.experiment_id) in
  (db' = db
   /\ (exists r rs, assessments_of seen id = r :: rs /\ feedback_of_record r = Ok answer)
   \/ exists e r, e ∈ seen.(AssessDb.experiments)
       /\ e.(ExperimentRecord.experiment_id) = id
       /\ assessments_of seen id = []
       /\ db' = AssessDb.mk db.(AssessDb.hypotheses) db.(AssessDb.experiments) db.(AssessDb.plans)
                  db.(AssessDb.attempts) db.(AssessDb.worker_results) db.(AssessDb.observations)
                  (db.(AssessDb.assessments) ++ [r])
       /\ r.(HypothesisAssessmentRecord.experiment_id) = id
       /\ r.(HypothesisAssessmentRecord.hypothesis_id) = e.(ExperimentRecord.hypothesis_id)
       /\ r.(HypothesisAssessmentRecord.research_run_id) = e.(ExperimentRecord.research_run_id)
       /\ r.(HypothesisAssessmentRecord.observation_ids)
          = ObservationRecord.observation_id <$> observations_of seen id
       /\ feedback_of_record r = Ok answer)
  /\ (assessments_of db id = assessments_of seen id ->
      forall seen2 db2 c' id' now',
       c'.(EvaluateCommand.experiment_id) = id ->
       is_Some (assessed_experiment seen2 id) -> assessed_plan seen2 id = assessed_plan seen id ->
       assessments_of seen2 id = assessments_of db' id ->
       evaluate_experiment_feedback seen2 db2 c' id' now' = Ok (db2, answer)).
Proof.
  unfold evaluate_experiment_feedback at 1. intros (id & Hid & H1)%bind_ok.
  pose proof Hid as Hid'. unfold data_opaque_id in Hid'. rewrite raise_if_ok in Hid'.
  destruct Hid' as [_ [= <-]]. set (id := c.(EvaluateCommand.experiment_id)) in *.
  destruct (assessed_experiment seen id) as [e|] eqn:Ee; [|done].
  destruct (assessed_plan seen id) as [p|] eqn:Ep; [|done].
  apply bind_ok in H1 as (plan & Hplan & H1). cbv zeta.
  destruct (assessments_of seen id) as [|r rs] eqn:Ea.
  - apply bind_ok in H1 as (f & Hf & H1). apply bind_ok in H1 as (ev & Hev & H1).
    apply bind_ok in H1 as (a & Ha & H1). apply bind_ok in H1 as (r & Hr & H1).
    apply bind_ok in H1 as (db1 & Hdb & H1). injection H1 as <- <-.
    apply assessment_record_ok in Hr as Er. apply insert_assessment_ok in Hdb as ->.
    destruct (evaluator_ids _ _ _ _ _ Hev Ha) as (E1 & E2 & E3 & E4).
    destruct (reconstruct_ids _ _ _ _ _ _ _ Hf) as (F1 & F2 & F3 & F4).
    destruct (found_experiment _ _ _ Ee) as [Hin Heid].
    assert (r.(HypothesisAssessmentRecord.experiment_id) = id) as Hrid by (rewrite Er; cbn; congruence).
    match goal with |- context [Ok ?x] =>
      assert (feedback_of_record r = Ok x) as Hfb
        by (rewrite Er; unfold feedback_of_record; cbn; by rewrite outcome_reads) end.
    split.
    + right. exists e, r. split_and!; try done; rewrite Er; cbn; congruence.
    + intros Hdb seen2 db2 c' id' now' Hc [e2 He2] Hp2 Ha2.
      pose proof (assessments_of_snoc db r) as Hs. rewrite Hrid in Hs. specialize (Hs Hdb).
      rewrite <-Hc in Hid, He2, Ha2, Hs, Ep, Hp2.
      unfold assessments_of in Ha2 at 2. cbn [AssessDb.assessments] in Ha2. rewrite Hs in Ha2.
      by eapply evaluate_answered; [..|exact Hfb]; eauto; congruence.
  - apply bind_ok in H1 as (x & Hx & [= <- <-]). split; [left; split; [done|by exists r, rs]|].
    intros Hdb seen2 db2 c' id' now' Hc [e2 He2] Hp2 Ha2. rewrite Hdb in Ha2.
    rewrite <-Hc in Hid, He2, Ha2, Ep, Hp2.
    by eapply evaluate_answered; [..|exact Hx]; eauto; congruence.
Qed.
End properties.

(** ** Samples *)

Definition sample_plan (capability action strategy : string) (arguments : list (string * pyval))
    : ExperimentPlan.t :=
  ExperimentPlan.mk "hyp-1" capability action "target-1" 0 arguments "budget-1" "a grant" "a denial"
    strategy (Some "1") (Some "fp").

Definition sample_feedback (strategy kind : string) (payload : list (string * pyval))
    : ExperimentFeedback.t :=
  ExperimentFeedback.mk "hyp-1" "exp-1" "run-1" "a grant" "a denial" strategy
    "OBSERVATION_PRODUCED" [ObservedFact.mk "obs-1" kind payload] None None None None.

Definition differential_payload : list (string * pyval) :=
  [ ("actor", PStr "alice"); ("own_object", PStr "alice"); ("cross_object", PStr "bob");
    ("authorized_origin", PStr "http://127.0.0.1"); ("owner_request_status", PInt 200);
    ("owner_request_object_owner", PStr "alice"); ("cross_object_request_status", PInt 200);
    ("cross_object_request_object_owner", PStr "bob"); ("secure_control_status", PInt 403);
    ("unauthenticated_control_status", PInt 401) ].

Definition differential_plan : ExperimentPlan.t :=
  sample_plan "http.authorization.differential" "probe" "http.authorization.differential.v1" [].
Definition differential_feedback : ExperimentFeedback.t :=
  sample_feedback "http.authorization.differential.v1" "HTTP_AUTHORIZATION_DIFFERENTIAL"
    differential_payload.

Lemma differential_established_iff_witness :
  exists a, authorization_differential_evaluate (H := no_floats) differential_plan differential_feedback
            = Ok a
    /\ a.(HypothesisAssessment.outcome) = AssessmentOutcome.CONSISTENT_WITH_PREDICTION.
Proof.
  destruct (authorization_differential_evaluate (H := no_floats) differential_plan differential_feedback)
    as [a|e] eqn:E; [|vm_compute in E; discriminate E].
  exists a. split; [reflexivity|].
  apply (@differential_established_iff no_floats _ _ _ E). split; [reflexivity|].
  eexists. split; [reflexivity|]. repeat split; discriminate.
Defined.

Definition transition_payload : list (string * pyval) :=
  [ ("actor", PStr "alice"); ("actor_role", PStr "requester"); ("resource_id", PStr "doc-1");
    ("requested_transition", PStr "approve"); ("pre_state", PStr "DRAFT");
    ("post_state", PStr "APPROVED"); ("approved_by", PStr "alice"); ("response_status", PInt 200);
    ("control_status", PInt 403); ("state_changed", PBool true) ].

Definition transition_plan : ExperimentPlan.t :=
  sample_plan "http.state_transition" "probe" "http.state_transition.v1" [].
Definition transition_feedback : ExperimentFeedback.t :=
  sample_feedback "http.state_transition.v1" "HTTP_STATE_TRANSITION_AUTHORIZATION"
    transition_payload.

Lemma transition_established_iff_witness :
  exists a, state_transition_evaluate (H := no_floats) transition_plan transition_feedback = Ok a
    /\ a.(HypothesisAssessment.outcome) = AssessmentOutcome.CONSISTENT_WITH_PREDICTION.
Proof.
  destruct (state_transition_evaluate (H := no_floats) transition_plan transition_feedback)
    as [a|e] eqn:E; [|vm_compute in E; discriminate E].
  exists a. split; [reflexivity|].
  apply (@transition_established_iff no_floats _ _ _ E). split; [reflexivity|].
  eexists. split; [reflexivity|]. repeat split; try discriminate. right. reflexivity.
Defined.

Lemma assessments_rest_on_observations_witness :
  exists a, http_transaction_evaluate (sample_plan "http.transaction" "read" "http.transaction.v1" [])
              (sample_feedback "http.transaction.v1" "HTTP_TRANSACTION" []) = Ok a
    /\ a.(HypothesisAssessment.observation_ids) = ["obs-1"].
Proof.
  destruct (http_transaction_evaluate (sample_plan "http.transaction" "read" "http.transaction.v1" [])
              (sample_feedback "http.transaction.v1" "HTTP_TRANSACTION" [])) as [a|e] eqn:E;
    [|vm_compute in E; discriminate E].
  exists a. split; [reflexivity|].
  destruct (@assessments_rest_on_observations no_floats "http.transaction.v1"
              http_transaction_evaluate _ _ a eq_refl E) as (kind & _ & Hg).
  unfold grounded in Hg. destruct Hg as (_ & _ & _ & _ & _ & _ & Ho & _). exact Ho.
Defined.

(** An experiment with two attempts, the first of which failed. *)
Definition sample_attempt (id state : string) : ExecutionAttemptRecord.t :=
  ExecutionAttemptRecord.mk id id "exp-1" "run-1" "corr-1" "http.transaction" "read" "target-1"
    "budget-1" 0 "decision-1" state 0 None None None "NOT_CONTACTED".

Definition sample_result : WorkerResultRecord.t :=
  WorkerResultRecord.mk "res-1" "exp-1" "run-1" "att-2" "corr-1" "http.transaction" "read"
    "decision-1" "budget-1" 0 "1" "worker-1" "COMPLETED" 0 None None None None None None None.

Definition sample_db (attempts : list ExecutionAttemptRecord.t) : AssessDb.t :=
  AssessDb.mk [HypothesisRecord.mk "hyp-1" "run-1" "a claim" 0 None None]
    [ExperimentRecord.mk "exp-1" "run-1" "hyp-1" "budget-1" "EXECUTION_SUCCEEDED" 0]
    [ExperimentPlanRecord.mk "exp-1" "run-1" "hyp-1" "http.transaction" "read" "target-1" 0 []
       "budget-1" "facts" "no facts" "http.transaction.v1" 0 None None]
    attempts [sample_result]
    [ObservationRecord.mk "obs-1" "res-1" "HTTP_TRANSACTION" [("status_code", PInt 200)] "v1" 0 0]
    [].

Definition evaluate_now : EvaluateCommand.t := EvaluateCommand.mk "exp-1" None None None None.

Definition assessed (attempts : list ExecutionAttemptRecord.t)
    : result (AssessDb.t * ResearchFeedback.t) :=
  evaluate_experiment_feedback (H := no_floats) (sample_db attempts) (sample_db attempts)
    evaluate_now "asm-1" 0.

Lemma experiment_assessed_once_witness :
  exists db answer, assessed [sample_attempt "att-2" "COMPLETED"] = Ok (db, answer)
    /\ length db.(AssessDb.assessments) = 1%nat
    /\ evaluate_experiment_feedback (H := no_floats) db db
         (EvaluateCommand.mk "exp-1" (Some "INVOCATION_FAILED") None None None) "asm-2" 1
       = Ok (db, answer).
Proof.
  destruct (assessed [sample_attempt "att-2" "COMPLETED"]) as [[db answer]|e] eqn:E;
    [|vm_compute in E; discriminate E].
  exists db, answer. split; [reflexivity|].
  pose proof (proj2 (@experiment_assessed_once no_floats _ _ _ _ _ _ _ E) eq_refl db db) as Hlater.
  vm_compute in E. injection E as <- _. split; [reflexivity|].
  apply Hlater; [reflexivity|eexists; reflexivity|reflexivity|reflexivity].
Defined.

(** Two evaluations of an experiment that overlap store two assessments, here with opposite
    outcomes: the second read the tables before the first committed, and its caller overrode the
    outcome of the execution.  Later evaluations answer with the smaller id, not with what the
    first answered. *)
Definition assessed_twice : result (AssessDb.t * list AssessmentOutcome.t) :=
  let seen := sample_db [sample_attempt "att-2" "COMPLETED"] in
  let late := EvaluateCommand.mk "exp-1" (Some "INVOCATION_FAILED") None None None in
  r1 ← evaluate_experiment_feedback (H := no_floats) seen seen evaluate_now "asm-2" 0;
  r2 ← evaluate_experiment_feedback (H := no_floats) seen r1.1 late "asm-1" 1;
  r3 ← evaluate_experiment_feedback (H := no_floats) r2.1 r2.1 evaluate_now "asm-3" 2;
  Ok (r3.1, ResearchFeedback.assessment_outcome <$> [r1.2; r2.2; r3.2]).

Example concurrent_evaluations_store_two :
  match assessed_twice with
  | Ok (db, outcomes) =>
      HypothesisAssessmentRecord.assessment_id <$> db.(AssessDb.assessments) = ["asm-2"; "asm-1"]
      /\ outcomes = [AssessmentOutcome.CONSISTENT_WITH_PREDICTION;
                     AssessmentOutcome.EXECUTION_UNUSABLE; AssessmentOutcome.EXECUTION_UNUSABLE]
  | Raise _ => False
  end.
Proof. vm_compute. by split. Qed.

(** With several attempts, which the tables allow, the query without an order decides what was
    learned: the same rows say that the execution failed or that the prediction held. *)
Example row_order_decides_outcome :
  (fun r => match r with Ok (_, a) => Some a.(ResearchFeedback.assessment_outcome) | Raise _ => None end)
  <$> [ assessed [sample_attempt "att-1" "FAILED"; sample_attempt "att-2" "COMPLETED"];
        assessed [sample_attempt "att-2" "COMPLETED"; sample_attempt "att-1" "FAILED"] ]
  = [Some AssessmentOutcome.EXECUTION_UNUSABLE; Some AssessmentOutcome.CONSISTENT_WITH_PREDICTION].
Proof. vm_compute. reflexivity. Qed.

(** A redirect, which the prediction of a protocol step names as disconfirming, is consistent with
    the prediction. *)
Example redirect_is_consistent :
  HypothesisAssessment.outcome
  <$> (match protocol_step_evaluate
               (sample_plan "http.raw_exchange" "probe" PROTOCOL_STEP_EVALUATION_STRATEGY [])
               (sample_feedback PROTOCOL_STEP_EVALUATION_STRATEGY "HTTP_RAW_EXCHANGE"
                  [("redirect", PBool true)]) with Ok a => Some a | Raise _ => None end)
  = Some AssessmentOutcome.CONSISTENT_WITH_PREDICTION.
Proof. vm_compute. reflexivity. Qed.

(** The list of missing facts of an authorization differential that is not established also names
    the fact that must not hold. *)
Example missing_facts_name_an_absent_defect :
  match authorization_facts (H := no_floats) [] [] with
  | Ok facts => In (PStr "fact_cross_status_only")
                  (list_or_empty (missing_facts facts))
  | Raise _ => False
  end.
Proof. vm_compute. tauto. Qed.
