(* ===== verification/Opportunity.v ===== *)
(** * Research opportunities

    [research/exploration.py]: what a run may investigate next, the bounded and deterministic
    choice among it, and the opportunities generated from diagnostic state.  A choice is a plan to
    plan; it authorizes nothing.  [hashlib.sha256] of [json.dumps] is a parameter. *)
From S2P Require Import Prelude PyVal PyText Proposals.

(** [research/exploration.py:13 EXPLORATION_STRATEGY_VERSION] *)
Definition EXPLORATION_STRATEGY_VERSION : string := "exploration.diagnostic.echo.v1".

(** [research/exploration.py:14-32 FORBIDDEN_OPPORTUNITY_KEYS] *)
Definition FORBIDDEN_OPPORTUNITY_KEYS : list string :=
  [ "severity"; "cvss"; "cve"; "vulnerability"; "idor"; "confidence"; "evidence"; "candidate";
    "finding"; "authorization"; "token"; "session_token"; "password"; "priority_score";
    "weighted_score" ].

(** [research/exploration.py:36-49 OpportunityKind] *)
Module OpportunityKind.
Inductive t : Set :=
  | HYPOTHESIS_FOLLOWUP | DIFFERENTIAL_FOLLOWUP | INVARIANT_CHALLENGE | CHAIN_EXTENSION
  | NEGATIVE_KNOWLEDGE_REVISIT | UNRESOLVED_TARGET_RELATION | CONTROL_EXPERIMENT
  | SURFACE_DISCOVERY | HUNTER_COVERAGE_GAP | REGISTRY_EXTERNAL_EXPLORATORY | OTHER.
#[global] Instance eq_dec : EqDecision t.
Proof. solve_decision. Defined.
Definition value (x : t) : string :=
  match x with
  | HYPOTHESIS_FOLLOWUP => "HYPOTHESIS_FOLLOWUP"
  | DIFFERENTIAL_FOLLOWUP => "DIFFERENTIAL_FOLLOWUP"
  | INVARIANT_CHALLENGE => "INVARIANT_CHALLENGE"
  | CHAIN_EXTENSION => "CHAIN_EXTENSION"
  | NEGATIVE_KNOWLEDGE_REVISIT => "NEGATIVE_KNOWLEDGE_REVISIT"
  | UNRESOLVED_TARGET_RELATION => "UNRESOLVED_TARGET_RELATION"
  | CONTROL_EXPERIMENT => "CONTROL_EXPERIMENT"
  | SURFACE_DISCOVERY => "SURFACE_DISCOVERY"
  | HUNTER_COVERAGE_GAP => "HUNTER_COVERAGE_GAP"
  | REGISTRY_EXTERNAL_EXPLORATORY => "REGISTRY_EXTERNAL_EXPLORATORY"
  | OTHER => "OTHER"
  end.
Definition members : list t :=
  [ HYPOTHESIS_FOLLOWUP; DIFFERENTIAL_FOLLOWUP; INVARIANT_CHALLENGE; CHAIN_EXTENSION;
    NEGATIVE_KNOWLEDGE_REVISIT; UNRESOLVED_TARGET_RELATION; CONTROL_EXPERIMENT;
    SURFACE_DISCOVERY; HUNTER_COVERAGE_GAP; REGISTRY_EXTERNAL_EXPLORATORY; OTHER ].
End OpportunityKind.

(** [research/exploration.py:52-54 OpportunityMode] *)
Module OpportunityMode.
Inductive t : Set := EXPLOITATION | EXPLORATION.
#[global] Instance eq_dec : EqDecision t.
Proof. solve_decision. Defined.
Definition value (x : t) : string :=
  match x with EXPLOITATION => "EXPLOITATION" | EXPLORATION => "EXPLORATION" end.
Definition members : list t := [EXPLOITATION; EXPLORATION].
End OpportunityMode.

(** [research/exploration.py:57-60 OrdinalLevel] *)
Module OrdinalLevel.
Inductive t : Set := LOW | MEDIUM | HIGH.
#[global] Instance eq_dec : EqDecision t.
Proof. solve_decision. Defined.
Definition value (x : t) : string :=
  match x with LOW => "LOW" | MEDIUM => "MEDIUM" | HIGH => "HIGH" end.
Definition members : list t := [LOW; MEDIUM; HIGH].
End OrdinalLevel.

(** [research/exploration.py:33 COST_RANK] *)
Definition COST_RANK (cost : OrdinalLevel.t) : Z :=
  match cost with OrdinalLevel.LOW => 1 | OrdinalLevel.MEDIUM => 2 | OrdinalLevel.HIGH => 3 end.

(** [research/exploration.py:63-70 SelectionOutcome] *)
Module SelectionOutcome.
Inductive t : Set :=
  | SELECT | DEFER | SKIP_DUPLICATE | SKIP_LOW_INFORMATION | BLOCKED_BUDGET | BLOCKED_POLICY
  | NEEDS_MORE_CONTEXT.
#[global] Instance eq_dec : EqDecision t.
Proof. solve_decision. Defined.
Definition value (x : t) : string :=
  match x with
  | SELECT => "SELECT" | DEFER => "DEFER" | SKIP_DUPLICATE => "SKIP_DUPLICATE"
  | SKIP_LOW_INFORMATION => "SKIP_LOW_INFORMATION" | BLOCKED_BUDGET => "BLOCKED_BUDGET"
  | BLOCKED_POLICY => "BLOCKED_POLICY" | NEEDS_MORE_CONTEXT => "NEEDS_MORE_CONTEXT"
  end.
Definition members : list t :=
  [ SELECT; DEFER; SKIP_DUPLICATE; SKIP_LOW_INFORMATION; BLOCKED_BUDGET; BLOCKED_POLICY;
    NEEDS_MORE_CONTEXT ].
End SelectionOutcome.

(** [research/exploration.py:73-76 _require_text] *)
Definition opportunity_text (value : string) : result string :=
  raise_if Str.is_blank value as ResearchInputError;;
  Ok (Str.strip value).

(** [research/exploration.py:79-82 _require_ids] *)
Definition opportunity_ids (value : list string) : result (list string) :=
  raise_if bool_decide (value = []) as ResearchInputError;;
  traverse opportunity_text value.

(** [research/exploration.py:85-88 _require_non_negative_int] *)
Definition require_non_negative_int (value : Z) : result Z :=
  raise_if value <? 0 as ResearchInputError;;
  Ok value.

(** [research/exploration.py:91-97 _reject_forbidden] *)
Definition reject_forbidden_keys (forbidden : list string) (payload : list (string * pyval))
    : result (list (string * pyval)) :=
  raise_if existsb (fun p => mem p.1 forbidden) payload as ResearchInputError;;
  Ok payload.

(** The level is what the mapping held: only its equality with 0, 1, 2 and 3 is asked.
    [research/exploration.py:107-181 OpportunityDimensions] *)
Module OpportunityDimensions.
Record t : Type := mk {
  expected_information_value : OrdinalLevel.t;
  security_relevance_potential : OrdinalLevel.t;
  novelty_composition : OrdinalLevel.t;
  unresolved_uncertainty : OrdinalLevel.t;
  chain_potential : OrdinalLevel.t;
  evidence_coverage : OrdinalLevel.t;
  execution_cost : OrdinalLevel.t;
  side_effect_requirement : pyval;
  duplicate_risk : OrdinalLevel.t;
  previous_failed_attempts : Z }.

Definition post_init (x : t) : result t :=
  raise_if negb (existsb (eq_int x.(side_effect_requirement)) [0; 1; 2; 3])
  as ResearchInputError;;
  raise_if x.(previous_failed_attempts) <? 0 as ResearchInputError;;
  Ok x.

#[global] Instance post_init_validator : Validator post_init.
Proof. solve_validator. Qed.

(** [research/exploration.py:167-181 OpportunityDimensions.to_mapping] *)
Definition to_mapping (x : t) : list (string * pyval) :=
  [ ("expected_information_value", PStr (OrdinalLevel.value x.(expected_information_value)));
    ("security_relevance_potential", PStr (OrdinalLevel.value x.(security_relevance_potential)));
    ("novelty_composition", PStr (OrdinalLevel.value x.(novelty_composition)));
    ("unresolved_uncertainty", PStr (OrdinalLevel.value x.(unresolved_uncertainty)));
    ("chain_potential", PStr (OrdinalLevel.value x.(chain_potential)));
    ("evidence_coverage", PStr (OrdinalLevel.value x.(evidence_coverage)));
    ("execution_cost", PStr (OrdinalLevel.value x.(execution_cost)));
    ("side_effect_requirement", x.(side_effect_requirement));
    ("duplicate_risk", PStr (OrdinalLevel.value x.(duplicate_risk)));
    ("previous_failed_attempts", PInt x.(previous_failed_attempts));
    ("not_a_priority_score", PBool true);
    ("not_confidence", PBool true) ].
End OpportunityDimensions.

(** [research/exploration.py:185-215 ResearchPolicyBudget] *)
Module ResearchPolicyBudget.
Record t : Set := mk {
  max_selected : Z;
  max_exploratory : Z;
  max_chain_extensions : Z;
  max_estimated_cost_rank : Z }.

Definition default_budget : t := mk 4 1 1 1.

Definition post_init (x : t) : result t :=
  _ ← require_non_negative_int x.(max_selected);
  _ ← require_non_negative_int x.(max_exploratory);
  _ ← require_non_negative_int x.(max_chain_extensions);
  _ ← require_non_negative_int x.(max_estimated_cost_rank);
  raise_if 3 <? x.(max_estimated_cost_rank) as ResearchInputError;;
  Ok x.

#[global] Instance post_init_validator : Validator post_init.
Proof. solve_validator. Qed.
End ResearchPolicyBudget.

(** [research/exploration.py:219-238 NegativeKnowledge] *)
Module NegativeKnowledge.
Record t : Set := mk {
  structural_identity : string;
  context_signature : string;
  strategy_version : string;
  assessment_ref : option string }.

Definition post_init (x : t) : result t :=
  structural_identity ← opportunity_text x.(structural_identity);
  context_signature ← opportunity_text x.(context_signature);
  strategy_version ← opportunity_text x.(strategy_version);
  Ok (mk structural_identity context_signature strategy_version x.(assessment_ref)).
End NegativeKnowledge.

(** Absent attributes are the empty dict.
    [research/exploration.py:242-329 ResearchOpportunity] *)
Module ResearchOpportunity.
Record t : Type := mk {
  opportunity_id : string;
  research_run_id : string;
  opportunity_kind : OpportunityKind.t;
  mode : OpportunityMode.t;
  source_refs : list string;
  proposed_direction : string;
  unresolved_question : string;
  expected_information_value_description : string;
  assumptions : list string;
  dimensions : OpportunityDimensions.t;
  context_signature : string;
  novelty_composition_marker : bool;
  prior_attempt_refs : list string;
  strategy_version : string;
  structural_identity : string;
  attributes : list (string * pyval) }.

Definition post_init (x : t) : result t :=
  opportunity_id ← opportunity_text x.(opportunity_id);
  research_run_id ← opportunity_text x.(research_run_id);
  source_refs ← opportunity_ids x.(source_refs);
  proposed_direction ← opportunity_text x.(proposed_direction);
  unresolved_question ← opportunity_text x.(unresolved_question);
  description ← opportunity_text x.(expected_information_value_description);
  assumptions ← traverse opportunity_text x.(assumptions);
  context_signature ← opportunity_text x.(context_signature);
  strategy_version ← opportunity_text x.(strategy_version);
  structural_identity ← opportunity_text x.(structural_identity);
  prior_attempt_refs ← traverse opportunity_text x.(prior_attempt_refs);
  attributes ← reject_forbidden_keys FORBIDDEN_OPPORTUNITY_KEYS x.(attributes);
  let lowered := Str.lower (proposed_direction +:+ " " +:+ unresolved_question) in
  raise_if Str.contains lowered "vulnerability" || Str.contains lowered "exploit"
  as ResearchInputError;;
  Ok (mk opportunity_id research_run_id x.(opportunity_kind) x.(mode) source_refs
        proposed_direction unresolved_question description assumptions x.(dimensions)
        context_signature x.(novelty_composition_marker) prior_attempt_refs strategy_version
        structural_identity attributes).

(** [research/exploration.py:328-329 ResearchOpportunity.diversity_key] *)
Definition diversity_key (x : t) : string * list string * string :=
  (OpportunityKind.value x.(opportunity_kind), sort_by id x.(source_refs), x.(context_signature)).
End ResearchOpportunity.

(** The inverse of [to_mapping] on the ten fields.
    [research/exploration.py:332-363 dimensions_from_mapping] *)
Definition ordinal_from (mapping : list (string * pyval)) (field_name : string)
    : result OrdinalLevel.t :=
  match dict_get field_name mapping with
  | PStr value =>
      match enum_of OrdinalLevel.value OrdinalLevel.members value with
      | Ok level => Ok level
      | Raise _ => Raise ResearchInputError
      end
  | _ => Raise ResearchInputError
  end.

(** [research/exploration.py:332-363 dimensions_from_mapping] *)
Definition dimensions_from_mapping (mapping : list (string * pyval))
    : result OpportunityDimensions.t :=
  information ← ordinal_from mapping "expected_information_value";
  relevance ← ordinal_from mapping "security_relevance_potential";
  novelty ← ordinal_from mapping "novelty_composition";
  uncertainty ← ordinal_from mapping "unresolved_uncertainty";
  chain ← ordinal_from mapping "chain_potential";
  coverage ← ordinal_from mapping "evidence_coverage";
  cost ← ordinal_from mapping "execution_cost";
  risk ← ordinal_from mapping "duplicate_risk";
  let level := dict_get "side_effect_requirement" mapping in
  raise_if negb (existsb (eq_int level) [0; 1; 2; 3]) as ResearchInputError;;
  match dict_get "previous_failed_attempts" mapping with
  | PInt attempts =>
      OpportunityDimensions.post_init
        (OpportunityDimensions.mk information relevance novelty uncertainty chain coverage cost
           level risk attempts)
  | _ => Raise ResearchInputError
  end.

(** ** One selection cycle *)

(** [research/exploration.py:384-393 ResearchSelectionDecision] *)
Module ResearchSelectionDecision.
Record t : Type := mk {
  outcome : SelectionOutcome.t;
  reason_codes : list string;
  opportunity : ResearchOpportunity.t }.

(** [research/exploration.py:392-393 ResearchSelectionDecision.selected] *)
Definition selected (x : t) : bool := bool_decide (x.(outcome) = SelectionOutcome.SELECT).
End ResearchSelectionDecision.

(** [research/exploration.py:396-406 _same_context_negative] *)
Definition same_context_negative (o : ResearchOpportunity.t) (negatives : list NegativeKnowledge.t)
    : bool :=
  existsb (fun n =>
    (n.(NegativeKnowledge.structural_identity) =? o.(ResearchOpportunity.structural_identity))%string
    && (n.(NegativeKnowledge.context_signature) =? o.(ResearchOpportunity.context_signature))%string
    && (n.(NegativeKnowledge.strategy_version) =? o.(ResearchOpportunity.strategy_version))%string)
    negatives.

Section select.
Context (budget : ResearchPolicyBudget.t) (run_id : string) (negatives : list NegativeKnowledge.t).

(** The reason an opportunity does not reach the slots, if there is one.  Nothing is selected yet,
    so the set of diversity keys the code also asks is empty.
    [research/exploration.py:409-532 select_research_opportunities] *)
Definition triage (seen : list string) (o : ResearchOpportunity.t)
    : option (SelectionOutcome.t * list string) :=
  let cost_rank := COST_RANK o.(ResearchOpportunity.dimensions)
                               .(OpportunityDimensions.execution_cost) in
  if negb (o.(ResearchOpportunity.research_run_id) =? run_id)%string
  then Some (SelectionOutcome.BLOCKED_POLICY, ["CROSS_RUN_SOURCE"])
  else if mem o.(ResearchOpportunity.structural_identity) seen
  then Some (SelectionOutcome.SKIP_DUPLICATE, ["EXACT_STRUCTURAL_DUPLICATE"])
  else if mem (ResearchOpportunity.diversity_key o) []
  then Some (SelectionOutcome.SKIP_DUPLICATE, ["EQUIVALENT_SOURCE_CONTEXT"])
  else if same_context_negative o negatives
  then Some (SelectionOutcome.SKIP_LOW_INFORMATION, ["NEGATIVE_KNOWLEDGE_SAME_CONTEXT"])
  else if (budget.(ResearchPolicyBudget.max_estimated_cost_rank) =? 0)
          || (budget.(ResearchPolicyBudget.max_estimated_cost_rank) <? cost_rank)
  then Some (SelectionOutcome.BLOCKED_BUDGET, ["COST_CLASS_NOT_ALLOWED"])
  else if eq_int o.(ResearchOpportunity.dimensions)
                   .(OpportunityDimensions.side_effect_requirement) 3
  then Some (SelectionOutcome.BLOCKED_POLICY, ["LEVEL_3_NOT_SELECTABLE"])
  else None.

(** The first loop: the decisions made and the opportunities left, in order.
    [research/exploration.py:409-532 select_research_opportunities] *)
Fixpoint triage_all (seen : list string) (l : list ResearchOpportunity.t)
    : list ResearchSelectionDecision.t * list ResearchOpportunity.t :=
  match l with
  | [] => ([], [])
  | o :: l' =>
      match triage seen o with
      | Some (outcome, codes) =>
          let '(decisions, pending) := triage_all seen l' in
          (ResearchSelectionDecision.mk outcome codes o :: decisions, pending)
      | None =>
          let '(decisions, pending) :=
            triage_all (o.(ResearchOpportunity.structural_identity) :: seen) l' in
          (decisions, o :: pending)
      end
  end.

(** What the second half mutates: the selection and its two counters. *)
Record slots : Type := Slots {
  chosen : list ResearchOpportunity.t;
  exploratory_count : Z;
  chain_count : Z }.

Definition is_exploration (o : ResearchOpportunity.t) : bool :=
  bool_decide (o.(ResearchOpportunity.mode) = OpportunityMode.EXPLORATION).
Definition is_chain (o : ResearchOpportunity.t) : bool :=
  bool_decide (o.(ResearchOpportunity.opportunity_kind) = OpportunityKind.CHAIN_EXTENSION).

Definition full (s : slots) : bool :=
  budget.(ResearchPolicyBudget.max_selected) <=? Z.of_nat (length s.(chosen)).
Definition exploration_full (s : slots) : bool :=
  budget.(ResearchPolicyBudget.max_exploratory) <=? s.(exploratory_count).
Definition chain_full (s : slots) (o : ResearchOpportunity.t) : bool :=
  is_chain o && (budget.(ResearchPolicyBudget.max_chain_extensions) <=? s.(chain_count)).

(** [research/exploration.py:409-532 select_research_opportunities] *)
Definition try_select (s : slots) (o : ResearchOpportunity.t) : option slots :=
  if full s then None
  else if is_exploration o && exploration_full s then None
  else if chain_full s o then None
  else if mem (ResearchOpportunity.diversity_key o) (ResearchOpportunity.diversity_key <$> s.(chosen))
  then None
  else Some (Slots (s.(chosen) ++ [o])
               (s.(exploratory_count) + if is_exploration o then 1 else 0)
               (s.(chain_count) + if is_chain o then 1 else 0)).

(** Why an exploratory opportunity was left out.
    [research/exploration.py:409-532 select_research_opportunities] *)
Definition exploratory_refusal (s : slots) (o : ResearchOpportunity.t)
    : SelectionOutcome.t * list string :=
  if budget.(ResearchPolicyBudget.max_exploratory) =? 0
  then (SelectionOutcome.BLOCKED_BUDGET, ["EXPLORATION_SLOT_ZERO"])
  else if exploration_full s then (SelectionOutcome.DEFER, ["EXPLORATION_SLOT_EXHAUSTED"])
  else if full s then (SelectionOutcome.DEFER, ["SELECTION_CAPACITY_EXHAUSTED"])
  else if chain_full s o then (SelectionOutcome.BLOCKED_BUDGET, ["CHAIN_EXTENSION_LIMIT"])
  else (SelectionOutcome.DEFER, ["NOT_SELECTED"]).

(** Why an exploitative opportunity was left out.
    [research/exploration.py:409-532 select_research_opportunities] *)
Definition exploitative_refusal (s : slots) (o : ResearchOpportunity.t)
    : SelectionOutcome.t * list string :=
  if full s then (SelectionOutcome.DEFER, ["SELECTION_CAPACITY_EXHAUSTED"])
  else if chain_full s o then (SelectionOutcome.BLOCKED_BUDGET, ["CHAIN_EXTENSION_LIMIT"])
  else (SelectionOutcome.DEFER, ["NOT_SELECTED"]).

(** [research/exploration.py:409-532 select_research_opportunities] *)
Fixpoint fill (refusal : slots -> ResearchOpportunity.t -> SelectionOutcome.t * list string)
    (s : slots) (l : list ResearchOpportunity.t) : slots * list ResearchSelectionDecision.t :=
  match l with
  | [] => (s, [])
  | o :: l' =>
      match try_select s o with
      | Some s' =>
          let '(s'', decisions) := fill refusal s' l' in
          (s'', ResearchSelectionDecision.mk SelectionOutcome.SELECT
                  ["SELECTED_FOR_PLANNING"; "NOT_AUTHORIZATION"] o :: decisions)
      | None =>
          let '(outcome, codes) := refusal s o in
          let '(s'', decisions) := fill refusal s l' in
          (s'', ResearchSelectionDecision.mk outcome codes o :: decisions)
      end
  end.
End select.

(** [research/exploration.py:409-532 select_research_opportunities] *)
Definition select_research_opportunities (opportunities : list ResearchOpportunity.t)
    (research_run_id : string) (budget : option ResearchPolicyBudget.t)
    (negatives : list NegativeKnowledge.t) (previously_selected_identities : list string)
    : result (list ResearchSelectionDecision.t) :=
  let budget := default ResearchPolicyBudget.default_budget budget in
  run_id ← opportunity_text research_run_id;
  if budget.(ResearchPolicyBudget.max_selected) =? 0
  then Ok (ResearchSelectionDecision.mk SelectionOutcome.BLOCKED_BUDGET ["MAX_SELECTED_ZERO"]
             <$> opportunities)
  else
    let '(decisions, pending) :=
      triage_all budget run_id negatives previously_selected_identities opportunities in
    let '(s, explored) := fill budget (exploratory_refusal budget) (Slots [] 0 0)
                            (List.filter is_exploration pending) in
    let '(_, exploited) := fill budget (exploitative_refusal budget) s
                             (List.filter (fun o => negb (is_exploration o)) pending) in
    Ok (decisions ++ explored ++ exploited).

(** ** Opportunities from diagnostic state *)

(** [research/exploration.py:535-555 _diagnostic_dimensions] *)
Definition diagnostic_dimensions (information novelty uncertainty chain_potential duplicate_risk
    : OrdinalLevel.t) (failed_attempts : Z) : OpportunityDimensions.t :=
  OpportunityDimensions.mk information OrdinalLevel.LOW novelty uncertainty chain_potential
    OrdinalLevel.LOW OrdinalLevel.LOW (PInt 0) duplicate_risk failed_attempts.

(** [research/exploration.py:601-609 DiagnosticOpportunitySources] *)
Module DiagnosticOpportunitySources.
Record t : Type := mk {
  differential_ids : list string;
  invariant_ids : list string;
  chain_ids : list string;
  change_event_ids : list string;
  hypothesis_ids : list string;
  negative_knowledge : list NegativeKnowledge.t }.

(** How many opportunities the sources give. *)
Definition total (x : t) : nat :=
  (length x.(differential_ids) + length x.(invariant_ids) + length x.(chain_ids)
   + length x.(change_event_ids) + length x.(hypothesis_ids) + length x.(negative_knowledge))%nat.
End DiagnosticOpportunitySources.

Section diagnostic.
Context (sha256_json : pyval -> string).

(** [research/exploration.py:366-380 opportunity_structural_identity] *)
Definition opportunity_structural_identity (kind : OpportunityKind.t) (source_refs : list string)
    (context_signature proposed_direction : string) : string :=
  sha256_json (PDict [ ("kind", PStr (OpportunityKind.value kind));
                       ("source_refs", PList (PStr <$> source_refs));
                       ("context_signature", PStr context_signature);
                       ("proposed_direction", PStr proposed_direction) ]).

(** [research/exploration.py:558-597 _opportunity] *)
Definition diagnostic_opportunity (opportunity_id research_run_id : string)
    (kind : OpportunityKind.t) (mode : OpportunityMode.t) (source_refs : list string)
    (direction question information context_signature : string)
    (dimensions : OpportunityDimensions.t) (prior_attempt_refs : list string) (novelty : bool)
    : result ResearchOpportunity.t :=
  dimensions ← OpportunityDimensions.post_init dimensions;
  ResearchOpportunity.post_init
    (ResearchOpportunity.mk opportunity_id research_run_id kind mode source_refs direction question
       information ["diagnostic.echo is plumbing, not authorization"] dimensions context_signature
       novelty prior_attempt_refs EXPLORATION_STRATEGY_VERSION
       (opportunity_structural_identity kind source_refs context_signature direction)
       [("not_a_vulnerability", PBool true); ("not_authorization", PBool true)]).

(** The loops share one index that counts from one. *)
Definition numbered {A} (start : nat) (l : list A) : list (nat * A) :=
  zip (seq (S start) (length l)) l.

Definition opportunity_name (prefix tag : string) (index : nat) : string :=
  prefix +:+ ":" +:+ tag +:+ ":" +:+ pretty index.

(** [research/exploration.py:612-762 propose_diagnostic_opportunities] *)
Definition propose_differential (run prefix : string) (p : nat * string)
    : result ResearchOpportunity.t :=
  diagnostic_opportunity (opportunity_name prefix "diff" p.1) run
    OpportunityKind.DIFFERENTIAL_FOLLOWUP OpportunityMode.EXPLOITATION [p.2]
    "Reproduce the controlled diagnostic input difference."
    "Does the diagnostic echo still differ by submitted input?"
    "Closing a controlled diagnostic difference is high information."
    ("differential:" +:+ p.2)
    (diagnostic_dimensions OrdinalLevel.HIGH OrdinalLevel.LOW OrdinalLevel.MEDIUM OrdinalLevel.LOW
       OrdinalLevel.LOW 0) [] false.

(** [research/exploration.py:612-762 propose_diagnostic_opportunities] *)
Definition propose_invariant (run prefix : string) (p : nat * string)
    : result ResearchOpportunity.t :=
  diagnostic_opportunity (opportunity_name prefix "inv" p.1) run
    OpportunityKind.INVARIANT_CHALLENGE OpportunityMode.EXPLORATION [p.2]
    "Challenge the diagnostic input/output correspondence invariant."
    "Does diagnostic.echo still correspond across a new input?"
    "An untested invariant boundary is informative even if weak."
    ("invariant:" +:+ p.2)
    (diagnostic_dimensions OrdinalLevel.HIGH OrdinalLevel.MEDIUM OrdinalLevel.HIGH
       OrdinalLevel.MEDIUM OrdinalLevel.LOW 0) [] true.

(** [research/exploration.py:612-762 propose_diagnostic_opportunities] *)
Definition propose_chain (run prefix : string) (p : nat * string) : result ResearchOpportunity.t :=
  diagnostic_opportunity (opportunity_name prefix "chain" p.1) run
    OpportunityKind.CHAIN_EXTENSION OpportunityMode.EXPLORATION [p.2]
    "Extend the diagnostic echo chain under a second input."
    "Does a second diagnostic step still compose without a causal leap?"
    "An unresolved chain assumption is worth a bounded extension."
    ("chain:" +:+ p.2)
    (diagnostic_dimensions OrdinalLevel.MEDIUM OrdinalLevel.HIGH OrdinalLevel.HIGH
       OrdinalLevel.HIGH OrdinalLevel.LOW 0) [] true.

(** [research/exploration.py:612-762 propose_diagnostic_opportunities] *)
Definition propose_change (run prefix : string) (p : nat * string) : result ResearchOpportunity.t :=
  diagnostic_opportunity (opportunity_name prefix "change" p.1) run
    OpportunityKind.DIFFERENTIAL_FOLLOWUP OpportunityMode.EXPLORATION [p.2]
    "Investigate a diagnostic ChangeEvent as a TIME-backed difference."
    "What diagnostic behavior changed between snapshot t1 and t2?"
    "A temporal change can reopen research without rewriting history."
    ("change:" +:+ p.2)
    (diagnostic_dimensions OrdinalLevel.HIGH OrdinalLevel.MEDIUM OrdinalLevel.HIGH
       OrdinalLevel.LOW OrdinalLevel.LOW 0) [] true.

(** The direction of a follow-up of a hypothesis, which the negative knowledge of a contradicted
    one names. *)
Definition followup_direction : string :=
  "Continue the existing diagnostic hypothesis with a control echo.".

(** [research/exploration.py:612-762 propose_diagnostic_opportunities] *)
Definition propose_followup (run prefix : string) (p : nat * string)
    : result ResearchOpportunity.t :=
  diagnostic_opportunity (opportunity_name prefix "hyp" p.1) run
    OpportunityKind.HYPOTHESIS_FOLLOWUP OpportunityMode.EXPLOITATION [p.2]
    followup_direction
    "Does a repeated diagnostic echo still round-trip?"
    "A control experiment can close remaining diagnostic ambiguity."
    ("hypothesis:" +:+ p.2)
    (diagnostic_dimensions OrdinalLevel.MEDIUM OrdinalLevel.LOW OrdinalLevel.LOW
       OrdinalLevel.LOW OrdinalLevel.MEDIUM 0) [] false.

(** [x or y] for an optional text. *)
Definition some_text (s : option string) : option string :=
  match s with Some t => if Str.is_empty t then None else Some t | None => None end.

(** [research/exploration.py:612-762 propose_diagnostic_opportunities] *)
Definition propose_revisit (run prefix : string) (p : nat * NegativeKnowledge.t)
    : result ResearchOpportunity.t :=
  let ref := some_text p.2.(NegativeKnowledge.assessment_ref) in
  diagnostic_opportunity (opportunity_name prefix "neg" p.1) run
    OpportunityKind.NEGATIVE_KNOWLEDGE_REVISIT OpportunityMode.EXPLORATION
    [default p.2.(NegativeKnowledge.structural_identity) ref]
    "Revisit a previously contradicted diagnostic direction under new context."
    "Is the earlier contradiction still applicable after context change?"
    "Changed context can make a failed test informative again."
    ("revisit:" +:+ p.2.(NegativeKnowledge.context_signature) +:+ ":new")
    (diagnostic_dimensions OrdinalLevel.MEDIUM OrdinalLevel.MEDIUM OrdinalLevel.HIGH
       OrdinalLevel.LOW OrdinalLevel.LOW 1)
    (option_list ref) true.

(** [research/exploration.py:612-762 propose_diagnostic_opportunities] *)
Definition propose_diagnostic_opportunities (research_run_id : string)
    (sources : DiagnosticOpportunitySources.t) (id_prefix : string)
    : result (list ResearchOpportunity.t) :=
  run ← opportunity_text research_run_id;
  prefix ← opportunity_text id_prefix;
  let differentials := sources.(DiagnosticOpportunitySources.differential_ids) in
  let invariants := sources.(DiagnosticOpportunitySources.invariant_ids) in
  let chains := sources.(DiagnosticOpportunitySources.chain_ids) in
  let changes := sources.(DiagnosticOpportunitySources.change_event_ids) in
  let hypotheses := sources.(DiagnosticOpportunitySources.hypothesis_ids) in
  let n1 := length differentials in
  let n2 := (n1 + length invariants)%nat in
  let n3 := (n2 + length chains)%nat in
  let n4 := (n3 + length changes)%nat in
  let n5 := (n4 + length hypotheses)%nat in
  l1 ← traverse (propose_differential run prefix) (numbered 0 differentials);
  l2 ← traverse (propose_invariant run prefix) (numbered n1 invariants);
  l3 ← traverse (propose_chain run prefix) (numbered n2 chains);
  l4 ← traverse (propose_change run prefix) (numbered n3 changes);
  l5 ← traverse (propose_followup run prefix) (numbered n4 hypotheses);
  l6 ← traverse (propose_revisit run prefix)
         (numbered n5 sources.(DiagnosticOpportunitySources.negative_knowledge));
  Ok (l1 ++ l2 ++ l3 ++ l4 ++ l5 ++ l6).
End diagnostic.

(** ** What a selection is *)

(** The opportunities chosen by a list of decisions, in order. *)
Definition chosen_of (ds : list ResearchSelectionDecision.t) : list ResearchOpportunity.t :=
  ResearchSelectionDecision.opportunity <$> List.filter ResearchSelectionDecision.selected ds.

(** What an opportunity has to be to reach the slots of a cycle. *)
Record admissible (budget : ResearchPolicyBudget.t) (run_id : string)
    (negatives : list NegativeKnowledge.t) (previous : list string) (o : ResearchOpportunity.t)
    : Prop := {
  adm_run : o.(ResearchOpportunity.research_run_id) = run_id;
  adm_new : o.(ResearchOpportunity.structural_identity) ∉ previous;
  adm_unrefuted : same_context_negative o negatives = false;
  adm_cost : 0 ≠ budget.(ResearchPolicyBudget.max_estimated_cost_rank)
             /\ COST_RANK o.(ResearchOpportunity.dimensions).(OpportunityDimensions.execution_cost)
                <= budget.(ResearchPolicyBudget.max_estimated_cost_rank);
  adm_level : eq_int o.(ResearchOpportunity.dimensions)
                       .(OpportunityDimensions.side_effect_requirement) 3 = false }.

(** The kinds of opportunity the budget has slots for. *)
Definition has_slot (budget : ResearchPolicyBudget.t) (o : ResearchOpportunity.t) : Prop :=
  (is_exploration o = true -> 0 < budget.(ResearchPolicyBudget.max_exploratory))
  /\ (is_chain o = true -> 0 < budget.(ResearchPolicyBudget.max_chain_extensions)).

(** The slots of a cycle: within every allowance, with a different diversity key each. *)
Record within (budget : ResearchPolicyBudget.t) (s : slots) : Prop := {
  w_size : Z.of_nat (length s.(chosen)) <= budget.(ResearchPolicyBudget.max_selected);
  w_count : s.(exploratory_count) = Z.of_nat (length (List.filter is_exploration s.(chosen)));
  w_exploration : s.(exploratory_count) <= budget.(ResearchPolicyBudget.max_exploratory);
  w_chains : s.(chain_count) = Z.of_nat (length (List.filter is_chain s.(chosen)));
  w_chain : s.(chain_count) <= budget.(ResearchPolicyBudget.max_chain_extensions);
  w_diverse : NoDup (ResearchOpportunity.diversity_key <$> s.(chosen)) }.

Section selection.
Context (budget : ResearchPolicyBudget.t) (run_id : string) (negatives : list NegativeKnowledge.t).

Lemma triage_none seen o :
  triage budget run_id negatives seen o = None <-> admissible budget run_id negatives seen o.
Proof.
  unfold triage. cbv zeta. split.
  - destruct (String.eqb_spec (ResearchOpportunity.research_run_id o) run_id); [|done].
    destruct (mem _ seen) eqn:Hs; [done|]. apply mem_false in Hs. cbn.
    destruct (same_context_negative _ _) eqn:?; [done|].
    destruct ((_ =? 0) || _) eqn:Hc; [done|]. apply orb_false_iff in Hc as [H1 H2].
    destruct (eq_int _ 3) eqn:?; [done|]. intros _. split; try done. lia.
  - intros [-> Hn Hr Hc Hl]. rewrite String.eqb_refl. cbn. apply mem_false in Hn. rewrite Hn, Hr, Hl.
    destruct (_ =? 0) eqn:E1; [lia|]. destruct (_ <? _) eqn:E2; [lia|done].
Qed.

Lemma triage_refuses seen o outcome codes :
  triage budget run_id negatives seen o = Some (outcome, codes) -> outcome ≠ SelectionOutcome.SELECT.
Proof. unfold triage. cbv zeta. repeat (destruct (_ : bool); [by intros [= <- _]|]). done. Qed.

Lemma chosen_of_app a b : chosen_of (a ++ b) = chosen_of a ++ chosen_of b.
Proof. unfold chosen_of. by rewrite List.filter_app, fmap_app. Qed.

(** The first loop decides every opportunity it does not leave, selects none and leaves admissible
    ones with new identities. *)
Lemma triage_all_ok seen l :
  let '(ds, pending) := triage_all budget run_id negatives seen l in
  l ≡ₚ (ResearchSelectionDecision.opportunity <$> ds) ++ pending
  /\ chosen_of ds = []
  /\ Forall (admissible budget run_id negatives seen) pending
  /\ NoDup (ResearchOpportunity.structural_identity <$> pending).
Proof.
  revert seen. induction l as [|o l IH]; intros seen; cbn; [by repeat constructor|].
  destruct (triage _ _ _ seen o) as [[outcome codes]|] eqn:E.
  - specialize (IH seen). destruct (triage_all _ _ _ seen l) as [ds pending].
    destruct IH as (Hp & Hc & Ha & Hn). split_and!; try done.
    + cbn. by rewrite <-Hp.
    + apply triage_refuses in E. unfold chosen_of, ResearchSelectionDecision.selected in *. cbn.
      by rewrite bool_decide_false.
  - specialize (IH (o.(ResearchOpportunity.structural_identity) :: seen)).
    destruct (triage_all _ _ _ _ l) as [ds pending]. destruct IH as (Hp & Hc & Ha & Hn).
    split_and!; try done.
    + rewrite Hp. by rewrite Permutation_middle.
    + apply triage_none in E. constructor; [done|]. apply (Forall_impl _ _ _ Ha).
      intros x [? Hx ? ? ?]. split; try done. intros Hin. apply Hx. by right.
    + cbn. constructor; [|done]. intros Hin. apply list_elem_of_fmap in Hin as (x & Hx & Hin).
      rewrite Forall_forall in Ha. destruct (Ha _ Hin) as [_ Hnew _ _ _]. apply Hnew. rewrite Hx. by left.
Qed.

Lemma try_select_within s o s' :
  try_select budget s o = Some s' -> within budget s ->
  within budget s' /\ s'.(chosen) = s.(chosen) ++ [o].
Proof.
  unfold try_select, full, exploration_full, chain_full. intros H [Hs Hc He Hcc Hk Hd].
  destruct (_ <=? Z.of_nat _) eqn:E1; [done|].
  destruct (is_exploration o && _) eqn:E2; [done|]. destruct (is_chain o && _) eqn:E3; [done|].
  destruct (mem _ _) eqn:E4; [done|]. injection H as <-. split; [|done].
  apply mem_false in E4.
  split; cbn; rewrite ?List.filter_app, ?length_app; cbn;
    [lia|destruct (is_exploration o); cbn in *; lia|destruct (is_exploration o); cbn in *; lia
    |destruct (is_chain o); cbn in *; lia|destruct (is_chain o); cbn in *; lia|].
  rewrite fmap_app. apply NoDup_app. split_and!; [done| |cbn; apply NoDup_singleton].
  intros k Hk' Hin. cbn in Hin. apply list_elem_of_singleton in Hin as ->. done.
Qed.

(** A loop over the slots decides its opportunities in order and keeps the slots within the
    budget. *)
Lemma fill_ok refusal l s :
  (forall s o, (refusal s o).1 ≠ SelectionOutcome.SELECT) -> within budget s ->
  let '(s', ds) := fill budget refusal s l in
  within budget s' /\ ResearchSelectionDecision.opportunity <$> ds = l
  /\ s'.(chosen) = s.(chosen) ++ chosen_of ds.
Proof.
  intros Hr. revert s. induction l as [|o l IH]; intros s Hw; cbn; [by rewrite app_nil_r|].
  destruct (try_select _ s o) as [s1|] eqn:E.
  - destruct (try_select_within _ _ _ E Hw) as [Hw1 Hc1]. specialize (IH _ Hw1).
    destruct (fill _ _ s1 l) as [s2 ds]. destruct IH as (Hw2 & Hl & Hc2).
    split_and!; [done|cbn; by rewrite Hl|]. rewrite Hc2, Hc1, <-app_assoc. done.
  - specialize (IH _ Hw). destruct (refusal s o) as [outcome codes] eqn:Eo.
    destruct (fill _ _ s l) as [s2 ds]. destruct IH as (Hw2 & Hl & Hc2).
    split_and!; [done|cbn; by rewrite Hl|]. rewrite Hc2. unfold chosen_of.
    unfold ResearchSelectionDecision.selected. cbn.
    rewrite bool_decide_false; [done|]. pose proof (Hr s o) as H. by rewrite Eo in H.
Qed.

Lemma chosen_sublist ds : chosen_of ds `sublist_of` (ResearchSelectionDecision.opportunity <$> ds).
Proof.
  unfold chosen_of. induction ds as [|d ds IH]; cbn; [constructor|].
  destruct (ResearchSelectionDecision.selected d); cbn; by constructor.
Qed.

(** Nothing is chosen only where nothing could have been. *)
Lemma fill_nothing refusal l s o :
  (fill budget refusal s l).1.(chosen) = [] -> o ∈ l -> try_select budget s o = None.
Proof.
  assert (Hmono : forall l s, (fill budget refusal s l).1.(chosen) = [] ->
            s.(chosen) = [] /\ (fill budget refusal s l).1 = s).
  { clear. induction l as [|x l IH]; intros s H; [done|]. cbn in H |- *.
    destruct (try_select budget s x) as [s1|] eqn:E.
    - specialize (IH s1). destruct (fill _ _ s1 l) as [s2 ds]. cbn in *.
      destruct (IH H) as [H1 _]. unfold try_select in E.
      repeat (destruct (_ : bool); [done|]). injection E as <-. cbn in H1.
      by destruct (chosen s).
    - specialize (IH s). destruct (refusal s x). destruct (fill _ _ s l) as [s2 ds]. by apply IH. }
  revert s. induction l as [|x l IH]; intros s H Hin; [by apply elem_of_nil in Hin|].
  pose proof (Hmono _ _ H) as [Hnil Hsame]. cbn in H, Hsame.
  destruct (try_select budget s x) as [s1|] eqn:E.
  { specialize (Hmono l s1). destruct (fill _ _ s1 l) as [s2 ds]. cbn in *.
    destruct (Hmono H) as [H1 _]. unfold try_select in E. repeat (destruct (_ : bool); [done|]).
    injection E as <-. cbn in H1. by destruct (chosen s). }
  apply elem_of_cons in Hin as [->|Hin]; [done|].
  apply IH; [|done]. destruct (refusal s x). by destruct (fill _ _ s l).
Qed.
End selection.

Lemma no_choice_of_blocked codes (l : list ResearchOpportunity.t) :
  chosen_of (ResearchSelectionDecision.mk SelectionOutcome.BLOCKED_BUDGET codes <$> l) = [].
Proof. induction l as [|o l IH]; [done|exact IH]. Qed.

Lemma refusals_refuse budget s o :
  (exploratory_refusal budget s o).1 ≠ SelectionOutcome.SELECT
  /\ (exploitative_refusal budget s o).1 ≠ SelectionOutcome.SELECT.
Proof.
  unfold exploratory_refusal, exploitative_refusal.
  repeat (destruct (_ : bool); cbn; try done).
Qed.

Lemma within_none budget :
  ResearchPolicyBudget.post_init budget = Ok budget -> within budget (Slots [] 0 0).
Proof.
  unfold ResearchPolicyBudget.post_init, require_non_negative_int. intros Hb.
  do 3 (apply bind_ok in Hb as (? & [? _]%raise_if_ok & Hb)).
  split; cbn; try lia. constructor.
Qed.

(** A cycle in its three passes. *)
Lemma select_ok l run b negatives previous ds :
  let budget := default ResearchPolicyBudget.default_budget b in
  select_research_opportunities l run b negatives previous = Ok ds ->
  (budget.(ResearchPolicyBudget.max_selected) = 0
   /\ ds = (ResearchSelectionDecision.mk SelectionOutcome.BLOCKED_BUDGET ["MAX_SELECTED_ZERO"] <$> l))
  \/ exists ds0 pending s ds1 s' ds2,
       budget.(ResearchPolicyBudget.max_selected) ≠ 0
       /\ triage_all budget (Str.strip run) negatives previous l = (ds0, pending)
       /\ fill budget (exploratory_refusal budget) (Slots [] 0 0) (List.filter is_exploration pending)
          = (s, ds1)
       /\ fill budget (exploitative_refusal budget) s
            (List.filter (fun o => negb (is_exploration o)) pending) = (s', ds2)
       /\ ds = ds0 ++ ds1 ++ ds2.
Proof.
  intros budget. unfold select_research_opportunities. fold budget.
  intros (r & Hr & H)%bind_ok. unfold opportunity_text in Hr. apply raise_if_ok in Hr as [_ [= <-]].
  destruct (_ =? 0) eqn:E; [injection H as <-; left; split; [lia|done]|]. right.
  destruct (triage_all _ _ _ _ _) as [ds0 pending].
  destruct (fill _ _ _ (List.filter is_exploration pending)) as [s ds1] eqn:E1.
  destruct (fill _ _ s _) as [s' ds2] eqn:E2. injection H as <-.
  exists ds0, pending, s, ds1, s', ds2. split_and!; try done. lia.
Qed.

Lemma split_by {A} (f : A -> bool) (l : list A) :
  List.filter f l ++ List.filter (fun x => negb (f x)) l ≡ₚ l.
Proof.
  induction l as [|x l IH]; [done|]. cbn. destruct (f x); cbn; [by rewrite IH|].
  by rewrite <-Permutation_middle, IH.
Qed.

(** C35. A selection cycle is bounded and earns what it selects: every opportunity is decided once,
    no allowance of the budget is exceeded, and what is selected is of the run, new to it, not
    refuted in its context, within the cost class and below level 3; no two selections share an
    identity, and no two agree in kind, sorted sources and context signature together (two of one
    context, or of one source, can be selected when they differ in the rest). *)
Theorem selection_within_budget l run b negatives previous ds :
  let budget := default ResearchPolicyBudget.default_budget b in
  ResearchPolicyBudget.post_init budget = Ok budget ->
  select_research_opportunities l run b negatives previous = Ok ds ->
  (ResearchSelectionDecision.opportunity <$> ds) ≡ₚ l
  /\ Z.of_nat (length (chosen_of ds)) <= budget.(ResearchPolicyBudget.max_selected)
  /\ Z.of_nat (length (List.filter is_exploration (chosen_of ds)))
     <= budget.(ResearchPolicyBudget.max_exploratory)
  /\ Z.of_nat (length (List.filter is_chain (chosen_of ds)))
     <= budget.(ResearchPolicyBudget.max_chain_extensions)
  /\ NoDup (ResearchOpportunity.diversity_key <$> chosen_of ds)
  /\ NoDup (ResearchOpportunity.structural_identity <$> chosen_of ds)
  /\ Forall (admissible budget (Str.strip run) negatives previous) (chosen_of ds).
Proof.
  intros budget Hb Hsel%select_ok. fold budget in Hsel.
  destruct Hsel as [[Hz ->]|(ds0 & pending & s & ds1 & s' & ds2 & _ & H0 & H1 & H2 & ->)].
  { rewrite no_choice_of_blocked. pose proof (within_none _ Hb) as [? ? ? ? ? ?]. cbn in *.
    split_and!; try lia; try constructor. rewrite <-list_fmap_compose.
    rewrite (list_fmap_ext _ id l); [by rewrite list_fmap_id|done]. }
  pose proof (triage_all_ok budget (Str.strip run) negatives previous l) as Ht. rewrite H0 in Ht.
  destruct Ht as (Hp & Hc0 & Ha & Hn).
  pose proof (fill_ok budget _ (List.filter is_exploration pending) (Slots [] 0 0)
                (fun s o => proj1 (refusals_refuse budget s o)) (within_none _ Hb)) as Hf1.
  rewrite H1 in Hf1. destruct Hf1 as (Hw1 & Ho1 & Hc1). cbn in Hc1.
  pose proof (fill_ok budget _ (List.filter (fun o => negb (is_exploration o)) pending) s
                (fun s o => proj2 (refusals_refuse budget s o)) Hw1) as Hf2.
  rewrite H2 in Hf2. destruct Hf2 as ([Hs Hcn He Hkn Hk Hd] & Ho2 & Hc2).
  assert (Hall : chosen_of (ds0 ++ ds1 ++ ds2) = s'.(chosen))
    by (rewrite !chosen_of_app, Hc0, Hc2, Hc1; done).
  assert (Hsub : exists k, s'.(chosen) `sublist_of` k /\ k ≡ₚ pending).
  { exists (List.filter is_exploration pending
            ++ List.filter (fun o => negb (is_exploration o)) pending).
    split; [|apply split_by]. rewrite Hc2, Hc1, <-Ho1, <-Ho2.
    apply sublist_app; apply chosen_sublist. }
  destruct Hsub as (k & Hsub & Hk'). rewrite Hall. split_and!; try lia; try done.
  - rewrite !fmap_app, Ho1, Ho2, split_by. by rewrite Hp.
  - rewrite <-Hk' in Hn. eapply sublist_NoDup; [exact Hn|]. by apply fmap_sublist.
  - rewrite <-Hk' in Ha. rewrite Forall_forall in Ha |- *. intros x Hx. apply Ha.
    by eapply elem_of_sublist.
Qed.

(** A cycle with capacity does not idle: when the budget has slots, an admissible opportunity of
    a kind that has one, listed before others with its identity, makes the cycle select something. *)
Theorem selection_makes_progress l1 o l2 run b negatives previous ds :
  let budget := default ResearchPolicyBudget.default_budget b in
  ResearchPolicyBudget.post_init budget = Ok budget ->
  0 < budget.(ResearchPolicyBudget.max_selected) ->
  admissible budget (Str.strip run) negatives previous o -> has_slot budget o ->
  o.(ResearchOpportunity.structural_identity)
    ∉ ResearchOpportunity.structural_identity <$> l1 ->
  select_research_opportunities (l1 ++ o :: l2) run b negatives previous = Ok ds ->
  chosen_of ds ≠ [].
Proof.
  intros budget Hb Hmax Hadm [Hse Hsc] Hnew Hsel%select_ok Hnone. fold budget in Hsel.
  destruct Hsel as [[Hz _]|(ds0 & pending & s & ds1 & s' & ds2 & _ & H0 & H1 & H2 & ->)]; [lia|].
  assert (Hin : o ∈ pending).
  { clear -Hadm Hnew H0. destruct Hadm as [Hr Hi Hn Hc Hl].
    revert previous Hi Hnew ds0 pending H0. induction l1 as [|x l1 IH]; intros previous Hi Hnew ds0 pending H0.
    - cbn in H0. assert (triage budget (Str.strip run) negatives previous o = None) as E
        by (by apply triage_none). rewrite E in H0.
      destruct (triage_all _ _ _ _ l2). injection H0 as <- <-. by left.
    - cbn in H0. rewrite fmap_cons in Hnew. apply not_elem_of_cons in Hnew as [Hx Hnew].
      destruct (triage _ _ _ previous x) as [[]|].
      + destruct (triage_all _ _ _ _ (l1 ++ o :: l2)) eqn:E. injection H0 as <- <-.
        by apply (IH previous Hi Hnew _ _ E).
      + destruct (triage_all _ _ _ _ (l1 ++ o :: l2)) eqn:E. injection H0 as <- <-.
        right. refine (IH _ _ Hnew _ _ E). by apply not_elem_of_cons. }
  rewrite !chosen_of_app in Hnone. apply app_nil in Hnone as [_ [Hn1 Hn2]%app_nil].
  pose proof (fill_ok budget _ (List.filter is_exploration pending) (Slots [] 0 0)
                (fun s o => proj1 (refusals_refuse budget s o)) (within_none _ Hb)) as Hf1.
  rewrite H1 in Hf1. destruct Hf1 as (Hw1 & _ & Hc1).
  pose proof (fill_ok budget _ (List.filter (fun o => negb (is_exploration o)) pending) s
                (fun s o => proj2 (refusals_refuse budget s o)) Hw1) as Hf2.
  rewrite H2 in Hf2. destruct Hf2 as (_ & _ & Hc2). rewrite Hn1 in Hc1. rewrite Hn2, Hc1 in Hc2.
  assert (Htry : forall t, t.(chosen) = [] -> within budget t -> try_select budget t o ≠ None).
  { intros t Ht [_ Hcn _ Hkn _ _]. rewrite Ht in Hcn, Hkn. cbn in Hcn, Hkn.
    unfold try_select, full, exploration_full, chain_full. rewrite Ht, Hcn, Hkn. cbn.
    rewrite (proj2 (Z.leb_gt _ _)) by lia.
    destruct (is_exploration o); cbn [andb];
      [rewrite (proj2 (Z.leb_gt _ _)) by (specialize (Hse eq_refl); lia)|];
      (destruct (is_chain o); cbn [andb];
       [rewrite (proj2 (Z.leb_gt _ _)) by (specialize (Hsc eq_refl); lia)|]); done. }
  destruct (is_exploration o) eqn:Ex.
  - apply (Htry (Slots [] 0 0)); [done|by apply within_none|].
    eapply fill_nothing; [by rewrite H1|]. by apply elem_of_list_filter_bool.
  - apply (Htry s); [by rewrite Hc1|done|].
    eapply fill_nothing; [by rewrite H2|]. apply elem_of_list_filter_bool. by rewrite Ex.
Qed.

(** ** Reading dimensions back *)

Lemma ordinal_reads level : enum_of OrdinalLevel.value OrdinalLevel.members (OrdinalLevel.value level)
                            = Ok level.
Proof. by destruct level. Qed.

(** The mapping of valid dimensions reads back as the dimensions. *)
Theorem dimensions_roundtrip x :
  OpportunityDimensions.post_init x = Ok x ->
  dimensions_from_mapping (OpportunityDimensions.to_mapping x) = Ok x.
Proof.
  intros Hx. pose proof Hx as Hv. unfold OpportunityDimensions.post_init in Hv.
  apply raise_if_ok in Hv as [Hl _]. destruct x.
  unfold dimensions_from_mapping, ordinal_from. cbn -[OpportunityDimensions.post_init].
  rewrite !ordinal_reads. cbn -[OpportunityDimensions.post_init] in Hl |- *. rewrite Hl. exact Hx.
Qed.

(** A hypothesis an assessment contradicted is followed up no more: the negative knowledge made from
    the assessment meets the follow-up of the hypothesis, whatever the budget and the state. *)
Theorem contradicted_followup_is_skipped sha run prefix n hypothesis assessment o budget seen
    negatives previous :
  propose_followup sha run prefix (n, hypothesis) = Ok o ->
  Str.strip hypothesis = hypothesis ->
  NegativeKnowledge.mk
    (Str.strip (opportunity_structural_identity sha OpportunityKind.HYPOTHESIS_FOLLOWUP [hypothesis]
                  ("hypothesis:" +:+ hypothesis) followup_direction))
    (Str.strip ("hypothesis:" +:+ hypothesis)) EXPLORATION_STRATEGY_VERSION assessment ∈ negatives ->
  same_context_negative o negatives = true
  /\ triage budget run negatives seen o ≠ None
  /\ ~ admissible budget run negatives previous o.
Proof.
  intros Ho Hs Hin. assert (same_context_negative o negatives = true) as Hneg.
  { apply existsb_true. eexists. split; [exact Hin|]. unfold propose_followup in Ho.
    apply bind_ok in Ho as (d & _ & Ho). unfold ResearchOpportunity.post_init, opportunity_text in Ho.
    repeat match goal with E : (_ ≫= _) = Ok _ |- _ => apply bind_ok in E as (? & ? & E) end.
    repeat match goal with E : (if _ then Raise _ else _) = Ok _ |- _ =>
                             apply raise_if_ok in E as [_ E] end.
    simplify_eq. cbn. rewrite !String.eqb_refl. done. }
  split_and!; [done| |intros [_ _ ? _ _]; congruence].
  rewrite triage_none. intros [_ _ ? _ _]. congruence.
Qed.

(** ** The theorems at work *)

Definition zero_sha (v : pyval) : string :=
  match v with PDict (_ :: _ :: (_, PStr s) :: _) => s | _ => "0" end.

Definition sample_sources : DiagnosticOpportunitySources.t :=
  DiagnosticOpportunitySources.mk ["d1"; "d2"] ["i1"] ["c1"] [] ["h1"] [].

Definition sample_opportunities : list ResearchOpportunity.t :=
  match propose_diagnostic_opportunities zero_sha "run" sample_sources "p" with
  | Ok l => l | Raise _ => [] end.

Definition sample_decisions : list ResearchSelectionDecision.t :=
  match select_research_opportunities sample_opportunities "run" None [] [] with
  | Ok ds => ds | Raise _ => [] end.

Example sample_selection :
  ResearchOpportunity.opportunity_id <$> chosen_of sample_decisions
  = ["p:inv:3"; "p:diff:1"; "p:diff:2"; "p:hyp:5"].
Proof. vm_compute. reflexivity. Qed.

Lemma selection_within_budget_witness :
  select_research_opportunities sample_opportunities "run" None [] [] = Ok sample_decisions
  /\ Z.of_nat (length (chosen_of sample_decisions)) <= 4
  /\ Forall (admissible ResearchPolicyBudget.default_budget "run" [] []) (chosen_of sample_decisions).
Proof.
  assert (select_research_opportunities sample_opportunities "run" None [] [] = Ok sample_decisions)
    as H by (vm_compute; reflexivity).
  split; [exact H|].
  destruct (selection_within_budget sample_opportunities "run" None [] [] sample_decisions
              eq_refl H) as (_ & H1 & _ & _ & _ & _ & H2).
  split; [exact H1|exact H2].
Defined.

Definition first_opportunity : ResearchOpportunity.t :=
  match sample_opportunities with
  | o :: _ => o
  | [] => ResearchOpportunity.mk "" "" OpportunityKind.OTHER OpportunityMode.EXPLORATION [] "" "" ""
            [] (diagnostic_dimensions OrdinalLevel.LOW OrdinalLevel.LOW OrdinalLevel.LOW
                  OrdinalLevel.LOW OrdinalLevel.LOW 0) "" false [] "" "" []
  end.

Lemma selection_makes_progress_witness :
  admissible ResearchPolicyBudget.default_budget "run" [] [] first_opportunity
  /\ chosen_of sample_decisions ≠ [].
Proof.
  assert (admissible ResearchPolicyBudget.default_budget "run" [] [] first_opportunity) as Ha.
  { apply triage_none. vm_compute. reflexivity. }
  split; [exact Ha|].
  apply (selection_makes_progress [] first_opportunity (tail sample_opportunities) "run" None [] []
           sample_decisions); [reflexivity|reflexivity|exact Ha| |apply not_elem_of_nil|].
  - split; vm_compute; intros; first [reflexivity|discriminate].
  - vm_compute. reflexivity.
Defined.

Lemma dimensions_roundtrip_witness :
  let d := diagnostic_dimensions OrdinalLevel.HIGH OrdinalLevel.LOW OrdinalLevel.MEDIUM
             OrdinalLevel.LOW OrdinalLevel.LOW 2 in
  dimensions_from_mapping (OpportunityDimensions.to_mapping d) = Ok d.
Proof. apply dimensions_roundtrip. reflexivity. Defined.
