(* ===== verification/Selection.v ===== *)
(** * Choosing the next experiment

    [research/selection.py]: a portfolio of hypotheses derived from their assessments, the
    experiments that could tell them apart, the lexicographic choice of one of them and the reason
    to stop when there is none.  Core still decides whether the experiment may run.
    [hashlib.sha256] of [json.dumps] and the capability registry are parameters. *)
From S2P Require Import Prelude CoreTypes PyVal PyText Capability PyUrl HttpPolicy Verification Candidate Proposals Compiler Planning Evaluators Opportunity.

(** [research/selection.py:38 RESEARCH_SELECTION_STRATEGY_VERSION] *)
Definition RESEARCH_SELECTION_STRATEGY_VERSION : string := "research.selection.v1".
(** [research/selection.py:40 OBJECT_OBSERVATION_KIND] *)
Definition OBJECT_OBSERVATION_KIND : string := "HTTP_AUTHORIZATION_DIFFERENTIAL".
(** [research/selection.py:41 WORKFLOW_OBSERVATION_KIND] *)
Definition WORKFLOW_OBSERVATION_KIND : string := "HTTP_STATE_TRANSITION_AUTHORIZATION".
Definition HTTP_AUTHORIZATION_DIFFERENTIAL_CAPABILITY : string := "http.authorization.differential".
Definition HTTP_STATE_TRANSITION_CAPABILITY : string := "http.state_transition".

(** [research/selection.py:42-56 FORBIDDEN_OPTION_KEYS] *)
Definition FORBIDDEN_OPTION_KEYS : list string :=
  FORBIDDEN_OPPORTUNITY_KEYS
  ++ [ "expected_vulnerable"; "ground_truth"; "correct_answer"; "scenario_expected_class";
       "scenario_id"; "fixture_kind"; "expected_class"; "leakage_canary"; "R01"; "R02"; "R03" ].
(** [research/selection.py:57-59 LIVE_LIFECYCLES] *)
Definition LIVE_LIFECYCLES : list string := ["ACTIVE"; "SUPPORTED"; "NEEDS_MORE_CONTEXT"].
(** [research/selection.py:60 OBJECT_HYPOTHESIS_ORIGIN] *)
Definition OBJECT_HYPOTHESIS_ORIGIN : string := "human-seed-object-authorization".
(** [research/selection.py:61 WORKFLOW_HYPOTHESIS_ORIGIN] *)
Definition WORKFLOW_HYPOTHESIS_ORIGIN : string := "human-seed-workflow-authorization".

(** [research/selection.py:64-70 HypothesisFamily] *)
Module HypothesisFamily.
Inductive t : Set :=
  | OBJECT_AUTHORIZATION | WORKFLOW_STATE_TRANSITION | EXPOSED_API_SPEC | UNPROTECTED_HOSTNAME
  | TECH_KNOWN_CVE_SURFACE | UNKNOWN.
#[global] Instance eq_dec : EqDecision t.
Proof. solve_decision. Defined.
Definition value (x : t) : string :=
  match x with
  | OBJECT_AUTHORIZATION => "OBJECT_AUTHORIZATION"
  | WORKFLOW_STATE_TRANSITION => "WORKFLOW_STATE_TRANSITION"
  | EXPOSED_API_SPEC => "EXPOSED_API_SPEC"
  | UNPROTECTED_HOSTNAME => "UNPROTECTED_HOSTNAME"
  | TECH_KNOWN_CVE_SURFACE => "TECH_KNOWN_CVE_SURFACE"
  | UNKNOWN => "UNKNOWN"
  end.
End HypothesisFamily.

(** [research/selection.py:97-104 HypothesisLifecycle] *)
Module HypothesisLifecycle.
Inductive t : Set := ACTIVE | SUPPORTED | NEEDS_MORE_CONTEXT | DEPRIORITIZED | FALSIFIED.
#[global] Instance eq_dec : EqDecision t.
Proof. solve_decision. Defined.
Definition value (x : t) : string :=
  match x with
  | ACTIVE => "ACTIVE" | SUPPORTED => "SUPPORTED" | NEEDS_MORE_CONTEXT => "NEEDS_MORE_CONTEXT"
  | DEPRIORITIZED => "DEPRIORITIZED" | FALSIFIED => "FALSIFIED"
  end.
End HypothesisLifecycle.

(** [research/selection.py:107-113 ExperimentPurpose] *)
Module ExperimentPurpose.
Inductive t : Set :=
  | OBJECT_CROSS_PROBE | OBJECT_CONTROL_PROBE | OBJECT_INDEPENDENT_REPRODUCTION
  | WORKFLOW_TRANSITION_PROBE | WORKFLOW_CONTROL_PROBE | WORKFLOW_INDEPENDENT_REPRODUCTION.
#[global] Instance eq_dec : EqDecision t.
Proof. solve_decision. Defined.
Definition value (x : t) : string :=
  match x with
  | OBJECT_CROSS_PROBE => "OBJECT_CROSS_PROBE"
  | OBJECT_CONTROL_PROBE => "OBJECT_CONTROL_PROBE"
  | OBJECT_INDEPENDENT_REPRODUCTION => "OBJECT_INDEPENDENT_REPRODUCTION"
  | WORKFLOW_TRANSITION_PROBE => "WORKFLOW_TRANSITION_PROBE"
  | WORKFLOW_CONTROL_PROBE => "WORKFLOW_CONTROL_PROBE"
  | WORKFLOW_INDEPENDENT_REPRODUCTION => "WORKFLOW_INDEPENDENT_REPRODUCTION"
  end.
End ExperimentPurpose.

(** [research/selection.py:116-119 DiscriminationLevel] *)
Module DiscriminationLevel.
Inductive t : Set := HIGH_DISCRIMINATION | MEDIUM_DISCRIMINATION | LOW_DISCRIMINATION.
#[global] Instance eq_dec : EqDecision t.
Proof. solve_decision. Defined.
Definition value (x : t) : string :=
  match x with
  | HIGH_DISCRIMINATION => "HIGH_DISCRIMINATION"
  | MEDIUM_DISCRIMINATION => "MEDIUM_DISCRIMINATION"
  | LOW_DISCRIMINATION => "LOW_DISCRIMINATION"
  end.
End DiscriminationLevel.

(** [research/selection.py:122-132 ResearchStopReason] *)
Module ResearchStopReason.
Inductive t : Set :=
  | NO_ACTIVE_HYPOTHESES | NO_AUTHORIZED_DISCRIMINATING_EXPERIMENT | BUDGET_EXHAUSTED
  | SUFFICIENT_EVIDENCE_FOR_VERIFICATION | ALL_HYPOTHESES_FALSIFIED | NEEDS_MORE_CONTEXT
  | OPERATIONAL_INCONCLUSIVE | MAX_CYCLES_REACHED | OPERATOR_PAUSED | CORE_BLOCKED.
#[global] Instance eq_dec : EqDecision t.
Proof. solve_decision. Defined.
Definition value (x : t) : string :=
  match x with
  | NO_ACTIVE_HYPOTHESES => "NO_ACTIVE_HYPOTHESES"
  | NO_AUTHORIZED_DISCRIMINATING_EXPERIMENT => "NO_AUTHORIZED_DISCRIMINATING_EXPERIMENT"
  | BUDGET_EXHAUSTED => "BUDGET_EXHAUSTED"
  | SUFFICIENT_EVIDENCE_FOR_VERIFICATION => "SUFFICIENT_EVIDENCE_FOR_VERIFICATION"
  | ALL_HYPOTHESES_FALSIFIED => "ALL_HYPOTHESES_FALSIFIED"
  | NEEDS_MORE_CONTEXT => "NEEDS_MORE_CONTEXT"
  | OPERATIONAL_INCONCLUSIVE => "OPERATIONAL_INCONCLUSIVE"
  | MAX_CYCLES_REACHED => "MAX_CYCLES_REACHED"
  | OPERATOR_PAUSED => "OPERATOR_PAUSED"
  | CORE_BLOCKED => "CORE_BLOCKED"
  end.
End ResearchStopReason.

(** ** Hypotheses and their lifecycle *)

(** [research/selection.py:135-138 _require_text] *)
Definition selection_text (value : string) : result string :=
  raise_if Str.is_blank value as ResearchInputError;;
  Ok (Str.strip value).

(** [research/selection.py:141-144 _require_ids] *)
Definition selection_ids (value : list string) : result (list string) :=
  traverse selection_text value.

(** [research/selection.py:147-153 _reject_forbidden] *)
Definition reject_forbidden_option (payload : list (string * pyval))
    : result (list (string * pyval)) :=
  reject_forbidden_keys FORBIDDEN_OPTION_KEYS payload.

(** [research/selection.py:156-162 family_for_claim] *)
Definition family_for_claim (claim : string) : result HypothesisFamily.t :=
  text ← selection_text claim;
  Ok (if (text =? HTTP_AUTHORIZATION_DIFFERENTIAL_CLAIM)%string
      then HypothesisFamily.OBJECT_AUTHORIZATION
      else if (text =? HTTP_STATE_TRANSITION_CLAIM)%string
      then HypothesisFamily.WORKFLOW_STATE_TRANSITION
      else HypothesisFamily.UNKNOWN).

(** [research/selection.py:271-296 lifecycle_from_assessments] *)
Definition lifecycle_from_assessments (outcomes : list string)
    (competing_supported remaining_untested_context : bool) : HypothesisLifecycle.t :=
  match last outcomes with
  | None => HypothesisLifecycle.ACTIVE
  | Some latest =>
      let says o := (latest =? AssessmentOutcome.value o)%string in
      if says AssessmentOutcome.CONTRADICTS_PREDICTION
      then if remaining_untested_context then HypothesisLifecycle.ACTIVE
           else HypothesisLifecycle.FALSIFIED
      else if says AssessmentOutcome.CONSISTENT_WITH_PREDICTION then HypothesisLifecycle.SUPPORTED
      else if says AssessmentOutcome.NEEDS_MORE_CONTEXT then HypothesisLifecycle.NEEDS_MORE_CONTEXT
      else if says AssessmentOutcome.EXECUTION_UNUSABLE then HypothesisLifecycle.NEEDS_MORE_CONTEXT
      else if says AssessmentOutcome.INCONCLUSIVE
      then if competing_supported then HypothesisLifecycle.DEPRIORITIZED
           else HypothesisLifecycle.NEEDS_MORE_CONTEXT
      else HypothesisLifecycle.ACTIVE
  end.

(** [research/selection.py:300-313 ObjectProbeContext] *)
Module ObjectProbeContext.
Record t : Set := mk {
  actor : string;
  own_object : string;
  cross_object : string;
  verification_actor : option string;
  verification_own_object : option string;
  verification_cross_object : option string }.

Definition post_init (x : t) : result t :=
  actor ← selection_text x.(actor);
  own_object ← selection_text x.(own_object);
  cross_object ← selection_text x.(cross_object);
  Ok (mk actor own_object cross_object x.(verification_actor) x.(verification_own_object)
        x.(verification_cross_object)).
End ObjectProbeContext.

(** [research/selection.py:317-331 WorkflowProbeContext] *)
Module WorkflowProbeContext.
Record t : Set := mk {
  actor : string;
  resource_id : string;
  transition : string;
  verification_actor : option string;
  verification_resource_id : option string }.

Definition post_init (x : t) : result t :=
  actor ← selection_text x.(actor);
  resource_id ← selection_text x.(resource_id);
  transition ← selection_text x.(transition);
  Ok (mk actor resource_id transition x.(verification_actor) x.(verification_resource_id)).
End WorkflowProbeContext.

(** [research/selection.py:334-338 object_origin_reference] *)
Definition object_origin_reference (c : ObjectProbeContext.t) : string :=
  OBJECT_HYPOTHESIS_ORIGIN +:+ ":" +:+ c.(ObjectProbeContext.actor)
  +:+ ":" +:+ c.(ObjectProbeContext.own_object) +:+ ":" +:+ c.(ObjectProbeContext.cross_object).

(** [research/selection.py:341-345 workflow_origin_reference] *)
Definition workflow_origin_reference (c : WorkflowProbeContext.t) : string :=
  WORKFLOW_HYPOTHESIS_ORIGIN +:+ ":" +:+ c.(WorkflowProbeContext.actor)
  +:+ ":" +:+ c.(WorkflowProbeContext.resource_id) +:+ ":" +:+ c.(WorkflowProbeContext.transition).

(** [research/selection.py:348-351 origin_binds_object_context] *)
Definition origin_binds_object_context (origin_reference : string) (c : ObjectProbeContext.t) : bool :=
  if Str.is_empty origin_reference || (origin_reference =? OBJECT_HYPOTHESIS_ORIGIN)%string then true
  else (origin_reference =? object_origin_reference c)%string.

(** [research/selection.py:354-359 origin_binds_workflow_context] *)
Definition origin_binds_workflow_context (origin_reference : string) (c : WorkflowProbeContext.t)
    : bool :=
  if Str.is_empty origin_reference || (origin_reference =? WORKFLOW_HYPOTHESIS_ORIGIN)%string then true
  else (origin_reference =? workflow_origin_reference c)%string.

(** [research/selection.py:363-377 ObservedResearchFact] *)
Module ObservedResearchFact.
Record t : Type := mk {
  observation_id : string;
  observation_kind : string;
  payload : list (string * pyval) }.

Definition post_init (x : t) : result t :=
  observation_id ← selection_text x.(observation_id);
  observation_kind ← selection_text x.(observation_kind);
  payload ← reject_forbidden_option x.(payload);
  Ok (mk observation_id observation_kind payload).
End ObservedResearchFact.

(** [research/selection.py:381-410 PortfolioHypothesis] *)
Module PortfolioHypothesis.
Record t : Set := mk {
  hypothesis_id : string;
  claim : string;
  family : HypothesisFamily.t;
  lifecycle : HypothesisLifecycle.t;
  observation_ids : list string;
  assessment_outcomes : list string;
  origin_reference : string }.

Definition post_init (x : t) : result t :=
  hypothesis_id ← selection_text x.(hypothesis_id);
  claim ← selection_text x.(claim);
  observation_ids ← selection_ids x.(observation_ids);
  origin_reference ← (if Str.is_empty x.(origin_reference) then Ok x.(origin_reference)
                      else selection_text x.(origin_reference));
  Ok (mk hypothesis_id claim x.(family) x.(lifecycle) observation_ids x.(assessment_outcomes)
        origin_reference).
End PortfolioHypothesis.

(** A portfolio is the tuple of its hypotheses.
    [research/selection.py:414-429 ResearchPortfolio] *)
Definition portfolio : Set := list PortfolioHypothesis.t.

(** [research/selection.py:420-421 ResearchPortfolio.live] *)
Definition live (p : portfolio) : portfolio :=
  List.filter (fun h => mem (HypothesisLifecycle.value h.(PortfolioHypothesis.lifecycle))
                          LIVE_LIFECYCLES) p.

Definition is_open (h : PortfolioHypothesis.t) : bool :=
  mem h.(PortfolioHypothesis.lifecycle)
    [HypothesisLifecycle.ACTIVE; HypothesisLifecycle.NEEDS_MORE_CONTEXT].

(** [research/selection.py:423-429 ResearchPortfolio.open_investigation] *)
Definition open_investigation (p : portfolio) : portfolio := List.filter is_open p.

Definition in_lifecycle (l : HypothesisLifecycle.t) (h : PortfolioHypothesis.t) : bool :=
  bool_decide (h.(PortfolioHypothesis.lifecycle) = l).

(** A mapping is read with a default.  [research/selection.py:432-471 build_portfolio] *)
Definition build_portfolio (hypotheses : list (string * string))
    (assessments_by_hypothesis observation_ids_by_hypothesis : string -> list string)
    (remaining_untested : string -> bool) (origin_reference : string -> string)
    : result portfolio :=
  families ← traverse (fun p => family_for_claim p.2) hypotheses;
  let supported_families :=
    omap (M:=list) (fun pf : (string * string) * HypothesisFamily.t =>
            if bool_decide (last (assessments_by_hypothesis pf.1.1)
                            = Some (AssessmentOutcome.value
                                      AssessmentOutcome.CONSISTENT_WITH_PREDICTION))
            then Some pf.2 else None) (zip hypotheses families) in
  traverse (fun pf : (string * string) * HypothesisFamily.t =>
      let '((hypothesis_id, claim), family) := pf in
      let outcomes := assessments_by_hypothesis hypothesis_id in
      let competing := existsb (fun other => negb (bool_decide (other = family)))
                         supported_families in
      PortfolioHypothesis.post_init
        (PortfolioHypothesis.mk hypothesis_id claim family
           (lifecycle_from_assessments outcomes competing (remaining_untested hypothesis_id))
           (observation_ids_by_hypothesis hypothesis_id) outcomes (origin_reference hypothesis_id)))
    (zip hypotheses families).

(** ** Experiment options *)

(** [research/selection.py:475-584 ExperimentOption] *)
Module ExperimentOption.
Record t : Type := mk {
  option_id : string;
  hypothesis_id : string;
  hypothesis_ids : list string;
  purpose : ExperimentPurpose.t;
  required_capability : string;
  requested_observation : string;
  expected_supporting_observation : string;
  expected_disconfirming_observation : string;
  required_negative_control : string;
  unresolved_facts : list string;
  estimated_request_cost : Z;
  side_effect_level : Z;
  can_falsify_live : bool;
  distinguishes_competing_count : Z;
  resolves_missing_fact : bool;
  provides_missing_negative_control : bool;
  authorized_origin : string;
  target_reference : string;
  in_authorized_origin : bool;
  context_signature : string;
  structural_identity : string;
  plan_arguments : list (string * pyval);
  discrimination : DiscriminationLevel.t;
  observation_ids : list string }.

Definition post_init (x : t) : result t :=
  option_id ← selection_text x.(option_id);
  hypothesis_id ← selection_text x.(hypothesis_id);
  hypothesis_ids ← selection_ids x.(hypothesis_ids);
  required_capability ← selection_text x.(required_capability);
  requested_observation ← selection_text x.(requested_observation);
  supporting ← selection_text x.(expected_supporting_observation);
  disconfirming ← selection_text x.(expected_disconfirming_observation);
  required_negative_control ← selection_text x.(required_negative_control);
  authorized_origin ← selection_text x.(authorized_origin);
  target_reference ← selection_text x.(target_reference);
  context_signature ← selection_text x.(context_signature);
  structural_identity ← selection_text x.(structural_identity);
  raise_if x.(estimated_request_cost) <? 1 as ResearchInputError;;
  raise_if negb (mem x.(side_effect_level) [0; 1; 2; 3]) as ResearchInputError;;
  plan_arguments ← reject_forbidden_option x.(plan_arguments);
  observation_ids ← selection_ids x.(observation_ids);
  let lowered := Str.lower (requested_observation +:+ " " +:+ supporting +:+ " " +:+ disconfirming) in
  raise_if Str.contains lowered "scenario_id" || Str.contains lowered "leakage_canary"
  as ResearchInputError;;
  Ok (mk option_id hypothesis_id hypothesis_ids x.(purpose) required_capability
        requested_observation supporting disconfirming required_negative_control
        x.(unresolved_facts) x.(estimated_request_cost) x.(side_effect_level) x.(can_falsify_live)
        x.(distinguishes_competing_count) x.(resolves_missing_fact)
        x.(provides_missing_negative_control) authorized_origin target_reference
        x.(in_authorized_origin) context_signature structural_identity plan_arguments
        x.(discrimination) observation_ids).

(** [research/selection.py:562-584 ExperimentOption.to_public_mapping] *)
Definition to_public_mapping (x : t) : list (string * pyval) :=
  [ ("option_id", PStr x.(option_id)); ("hypothesis_id", PStr x.(hypothesis_id));
    ("hypothesis_ids", PList (PStr <$> x.(hypothesis_ids)));
    ("purpose", PStr (ExperimentPurpose.value x.(purpose)));
    ("required_capability", PStr x.(required_capability));
    ("requested_observation", PStr x.(requested_observation));
    ("unresolved_facts", PList (PStr <$> x.(unresolved_facts)));
    ("estimated_request_cost", PInt x.(estimated_request_cost));
    ("side_effect_level", PInt x.(side_effect_level));
    ("can_falsify_live", PBool x.(can_falsify_live));
    ("distinguishes_competing_count", PInt x.(distinguishes_competing_count));
    ("resolves_missing_fact", PBool x.(resolves_missing_fact));
    ("provides_missing_negative_control", PBool x.(provides_missing_negative_control));
    ("in_authorized_origin", PBool x.(in_authorized_origin));
    ("context_signature", PStr x.(context_signature));
    ("structural_identity", PStr x.(structural_identity));
    ("discrimination", PStr (DiscriminationLevel.value x.(discrimination)));
    ("observation_ids", PList (PStr <$> x.(observation_ids)));
    ("not_a_priority_score", PBool true); ("not_confidence", PBool true) ].
End ExperimentOption.

(** [research/selection.py:614-627 discrimination_for] *)
Definition discrimination_for (can_falsify_live : bool) (distinguishes_competing_count : Z)
    (resolves_missing_fact provides_missing_negative_control : bool) : DiscriminationLevel.t :=
  if (2 <=? distinguishes_competing_count) && (can_falsify_live || resolves_missing_fact)
  then DiscriminationLevel.HIGH_DISCRIMINATION
  else if can_falsify_live && (resolves_missing_fact || provides_missing_negative_control)
  then DiscriminationLevel.HIGH_DISCRIMINATION
  else if can_falsify_live || resolves_missing_fact || provides_missing_negative_control
  then DiscriminationLevel.MEDIUM_DISCRIMINATION
  else DiscriminationLevel.LOW_DISCRIMINATION.

(** [0 if b else 1] *)
Definition rank (b : bool) : Z := if b then 0 else 1.

(** [research/selection.py:630-647 selector_key] *)
Definition selector_key (o : ExperimentOption.t) :=
  ( rank o.(ExperimentOption.in_authorized_origin),
    rank o.(ExperimentOption.can_falsify_live),
    - o.(ExperimentOption.distinguishes_competing_count),
    rank o.(ExperimentOption.resolves_missing_fact),
    rank o.(ExperimentOption.provides_missing_negative_control),
    o.(ExperimentOption.side_effect_level),
    o.(ExperimentOption.estimated_request_cost),
    rank (bool_decide (o.(ExperimentOption.discrimination)
                       = DiscriminationLevel.HIGH_DISCRIMINATION)),
    rank (bool_decide (o.(ExperimentOption.discrimination)
                       = DiscriminationLevel.MEDIUM_DISCRIMINATION)),
    ExperimentPurpose.value o.(ExperimentOption.purpose),
    o.(ExperimentOption.required_capability),
    o.(ExperimentOption.context_signature),
    o.(ExperimentOption.structural_identity) ).

(** [research/selection.py:651-658 ExperimentSelectionDecision] *)
Module ExperimentSelectionDecision.
Record t : Type := mk {
  outcome : SelectionOutcome.t;
  reason_codes : list string;
  option : ExperimentOption.t }.

(** [research/selection.py:657-658 ExperimentSelectionDecision.selected] *)
Definition selected (x : t) : bool := bool_decide (x.(outcome) = SelectionOutcome.SELECT).
End ExperimentSelectionDecision.

Section choose.
Context (executed_identities negative_context_signatures : list string).

(** Why an option is passed over, if it is.
    [research/selection.py:661-740 select_next_experiment] *)
Definition passed_over (o : ExperimentOption.t) : option (SelectionOutcome.t * list string) :=
  if negb o.(ExperimentOption.in_authorized_origin)
  then Some (SelectionOutcome.BLOCKED_POLICY, ["UNAUTHORIZED_ORIGIN"; "NOT_AUTHORIZATION"])
  else if mem o.(ExperimentOption.structural_identity) executed_identities
  then Some (SelectionOutcome.SKIP_DUPLICATE, ["EQUIVALENT_EXPERIMENT_UNCHANGED_CONTEXT"])
  else if mem o.(ExperimentOption.context_signature) negative_context_signatures
          && mem o.(ExperimentOption.purpose)
               [ExperimentPurpose.OBJECT_CROSS_PROBE; ExperimentPurpose.WORKFLOW_TRANSITION_PROBE]
  then Some (SelectionOutcome.SKIP_LOW_INFORMATION, ["NEGATIVE_KNOWLEDGE_SAME_CONTEXT"])
  else None.

(** [research/selection.py:661-740 select_next_experiment] *)
Definition selection_reasons (o : ExperimentOption.t) : list string :=
  [ "LEXICOGRAPHIC_SELECTION";
    if o.(ExperimentOption.can_falsify_live) then "FALSIFY_LIVE" else "NOT_FALSIFIER";
    if 1 <? o.(ExperimentOption.distinguishes_competing_count)
    then "DISTINGUISHES_COMPETING" else "SINGLE_HYPOTHESIS";
    if o.(ExperimentOption.resolves_missing_fact) then "RESOLVES_MISSING_FACT" else "NO_MISSING_FACT";
    if o.(ExperimentOption.provides_missing_negative_control)
    then "NEGATIVE_CONTROL" else "CONTROL_NOT_REQUIRED";
    "SIDE_EFFECT_" +:+ pretty o.(ExperimentOption.side_effect_level);
    "COST_" +:+ pretty o.(ExperimentOption.estimated_request_cost);
    DiscriminationLevel.value o.(ExperimentOption.discrimination);
    "NOT_AUTHORIZATION" ].

(** The loop, [taken] when an option has been selected.
    [research/selection.py:661-740 select_next_experiment] *)
Fixpoint decide_ranked (taken : bool) (ranked : list ExperimentOption.t)
    : list ExperimentSelectionDecision.t :=
  match ranked with
  | [] => []
  | o :: ranked' =>
      match passed_over o with
      | Some (outcome, codes) =>
          ExperimentSelectionDecision.mk outcome codes o :: decide_ranked taken ranked'
      | None =>
          if taken
          then ExperimentSelectionDecision.mk SelectionOutcome.DEFER ["NOT_SELECTED_THIS_CYCLE"] o
                 :: decide_ranked true ranked'
          else ExperimentSelectionDecision.mk SelectionOutcome.SELECT (selection_reasons o) o
                 :: decide_ranked true ranked'
      end
  end.

(** [research/selection.py:661-740 select_next_experiment] *)
Definition select_next_experiment (options : list ExperimentOption.t)
    : list ExperimentSelectionDecision.t :=
  decide_ranked false (sort_by selector_key options).
End choose.

(** ** What the observations say of a context *)

(** What [propose_experiment_options] reads of the state of a context. *)
Record probe_state : Set := ProbeState {
  observed : bool;
  control_refused : bool;
  state_observation_ids : list string;
  unresolved : list string }.

Section states.
Context `{FloatRepr}.

(** [str(payload.get(key) or d)] *)
Definition payload_text (payload : list (string * pyval)) (key d : string) : string :=
  let v := dict_get key payload in if truthy v then py_str v else d.

Definition observed_at (kind : string) (tests : list (string * string)) (origin : string)
    (f : ObservedResearchFact.t) : bool :=
  (f.(ObservedResearchFact.observation_kind) =? kind)%string
  && forallb (fun t => (payload_text f.(ObservedResearchFact.payload) t.1 "" =? t.2)%string) tests
  && (payload_text f.(ObservedResearchFact.payload) "authorized_origin" origin =? origin)%string.

(** The observations of a context, the last one decides.
    [research/selection.py:743-795 _object_state] *)
Definition object_matching (observations : list ObservedResearchFact.t)
    (c : ObjectProbeContext.t) (origin : string) : list ObservedResearchFact.t :=
  List.filter (observed_at OBJECT_OBSERVATION_KIND
                 [("actor", c.(ObjectProbeContext.actor));
                  ("own_object", c.(ObjectProbeContext.own_object));
                  ("cross_object", c.(ObjectProbeContext.cross_object))] origin)
    (sort_by ObservedResearchFact.observation_id observations).

(** [research/selection.py:743-795 _object_state] *)
Definition object_state (observations : list ObservedResearchFact.t)
    (c : ObjectProbeContext.t) (origin : string) : probe_state :=
  let matching := object_matching observations c origin in
  match last matching with
  | None => ProbeState false false []
              ["cross_object_owner"; "secure_control"; "unauthenticated_control"]
  | Some f =>
      let payload := f.(ObservedResearchFact.payload) in
      let owner_proven := eq_str (dict_get "cross_object_request_object_owner" payload)
                            c.(ObjectProbeContext.cross_object) in
      let secure_denied := eq_int (dict_get "secure_control_status" payload) 403 in
      ProbeState true secure_denied (ObservedResearchFact.observation_id <$> matching)
        ((if owner_proven then [] else ["cross_object_owner"])
         ++ (if secure_denied then [] else ["secure_control"]))
  end.

(** [research/selection.py:798-841 _workflow_state] *)
Definition workflow_matching (observations : list ObservedResearchFact.t)
    (c : WorkflowProbeContext.t) (origin : string) : list ObservedResearchFact.t :=
  List.filter (observed_at WORKFLOW_OBSERVATION_KIND
                 [("actor", c.(WorkflowProbeContext.actor));
                  ("resource_id", c.(WorkflowProbeContext.resource_id))] origin)
    (sort_by ObservedResearchFact.observation_id observations).

(** [research/selection.py:798-841 _workflow_state] *)
Definition workflow_state (observations : list ObservedResearchFact.t)
    (c : WorkflowProbeContext.t) (origin : string) : result probe_state :=
  let matching := workflow_matching observations c origin in
  match last matching with
  | None => Ok (ProbeState false false [] ["pre_state"; "post_state"; "control_path"])
  | Some f =>
      let payload := f.(ObservedResearchFact.payload) in
      let is_state := match dict_get "post_state" payload with PStr _ => true | _ => false end in
      control_denied ← in_int_set (dict_get "control_status" payload) [401; 403; 409];
      Ok (ProbeState true control_denied (ObservedResearchFact.observation_id <$> matching)
            ((if is_state then [] else ["post_state"])
             ++ (if control_denied : bool then [] else ["control_path"])))
  end.

(** [research/selection.py:844-849 object_context_is_observed] *)
Definition object_context_is_observed (observations : list ObservedResearchFact.t)
    (c : ObjectProbeContext.t) (origin : string) : bool :=
  observed (object_state observations c origin).

(** [research/selection.py:852-857 workflow_context_is_observed] *)
Definition workflow_context_is_observed (observations : list ObservedResearchFact.t)
    (c : WorkflowProbeContext.t) (origin : string) : result bool :=
  s ← workflow_state observations c origin;
  Ok (observed s).
End states.

(** ** Options *)

Section options.
Context `{FloatRepr} (sha256_json : pyval -> string).

(** [research/selection.py:587-605 experiment_option_identity] *)
Definition experiment_option_identity (capability : string) (purpose : ExperimentPurpose.t)
    (origin actor resource operation : string) : string :=
  sha256_json (PDict [ ("capability", PStr capability);
                       ("purpose", PStr (ExperimentPurpose.value purpose));
                       ("origin", PStr origin); ("actor", PStr actor);
                       ("resource", PStr resource); ("operation", PStr operation) ]).

(** [research/selection.py:608-611 context_signature_for] *)
Definition context_signature_for (family origin resource : string) : string :=
  sha256_json (PDict [("family", PStr family); ("origin", PStr origin); ("resource", PStr resource)]).

(** [research/selection.py:860-901 identity_from_plan_arguments] *)
Definition identity_from_plan_arguments (capability : string) (arguments : list (string * pyval))
    (target_reference : string) : option string :=
  let text key d := payload_text arguments key d in
  if (capability =? HTTP_AUTHORIZATION_DIFFERENTIAL_CAPABILITY)%string
  then
    let mode := text "mode" "vulnerable" in
    Some (experiment_option_identity capability
            (if (mode =? "secure_only")%string then ExperimentPurpose.OBJECT_CONTROL_PROBE
             else ExperimentPurpose.OBJECT_CROSS_PROBE)
            target_reference (text "actor" "")
            (text "own_object" "" +:+ ":" +:+ text "cross_object" "") mode)
  else if (capability =? HTTP_STATE_TRANSITION_CAPABILITY)%string
  then
    let area := text "area" "workflow" in
    Some (experiment_option_identity capability
            (if (area =? "control")%string then ExperimentPurpose.WORKFLOW_CONTROL_PROBE
             else ExperimentPurpose.WORKFLOW_TRANSITION_PROBE)
            target_reference (text "actor" "") (text "resource_id" "")
            (area +:+ ":" +:+ text "transition" ""))
  else None.

(** What the two makers of options have in common: the hypothesis, the target and the flags. *)
Record option_base : Type := OptionBase {
  base_option_id : string;
  base_hypothesis : PortfolioHypothesis.t;
  base_purpose : ExperimentPurpose.t;
  base_authorized_origin : string;
  base_target_reference : string;
  base_signature : string;
  base_competing : Z;
  base_resolves : bool;
  base_control : bool;
  base_unresolved : list string;
  base_observation_ids : list string }.

(** [research/selection.py:1165-1236 _make_object_option] *)
Definition make_object_option (b : option_base) (c : ObjectProbeContext.t) (mode resource : string)
    : result ExperimentOption.t :=
  ExperimentOption.post_init
    (ExperimentOption.mk b.(base_option_id)
       b.(base_hypothesis).(PortfolioHypothesis.hypothesis_id)
       [b.(base_hypothesis).(PortfolioHypothesis.hypothesis_id)]
       b.(base_purpose) HTTP_AUTHORIZATION_DIFFERENTIAL_CAPABILITY
       "object authorization differential including owner and controls"
       "cross-object read returns the foreign owner's object while the secure control denies"
       "cross-object access is denied, public, delegated, or lacks foreign owner proof"
       "secure_only object control"
       b.(base_unresolved) 4 0 true b.(base_competing) b.(base_resolves) b.(base_control)
       b.(base_authorized_origin) b.(base_target_reference)
       (b.(base_target_reference) =? b.(base_authorized_origin))%string
       b.(base_signature)
       (experiment_option_identity HTTP_AUTHORIZATION_DIFFERENTIAL_CAPABILITY
          (if (mode =? "secure_only")%string then ExperimentPurpose.OBJECT_CONTROL_PROBE
           else ExperimentPurpose.OBJECT_CROSS_PROBE)
          b.(base_target_reference) c.(ObjectProbeContext.actor) resource mode)
       [ ("authorized_origin", PStr b.(base_authorized_origin));
         ("actor", PStr c.(ObjectProbeContext.actor));
         ("own_object", PStr c.(ObjectProbeContext.own_object));
         ("cross_object", PStr c.(ObjectProbeContext.cross_object));
         ("mode", PStr mode) ]
       (discrimination_for true b.(base_competing) b.(base_resolves) b.(base_control))
       b.(base_observation_ids)).

(** [research/selection.py:1239-1309 _make_workflow_option] *)
Definition make_workflow_option (b : option_base) (c : WorkflowProbeContext.t) (area : string)
    : result ExperimentOption.t :=
  ExperimentOption.post_init
    (ExperimentOption.mk b.(base_option_id)
       b.(base_hypothesis).(PortfolioHypothesis.hypothesis_id)
       [b.(base_hypothesis).(PortfolioHypothesis.hypothesis_id)]
       b.(base_purpose) HTTP_STATE_TRANSITION_CAPABILITY
       "authoritative pre/post workflow state and control denial"
       "unauthorized actor changes authoritative workflow state while the control path denies"
       "transition is denied or authoritative post-state is unchanged"
       "control-area workflow denial"
       b.(base_unresolved) 4 1 true b.(base_competing) b.(base_resolves) b.(base_control)
       b.(base_authorized_origin) b.(base_target_reference)
       (b.(base_target_reference) =? b.(base_authorized_origin))%string
       b.(base_signature)
       (experiment_option_identity HTTP_STATE_TRANSITION_CAPABILITY
          (if (area =? "control")%string then ExperimentPurpose.WORKFLOW_CONTROL_PROBE
           else ExperimentPurpose.WORKFLOW_TRANSITION_PROBE)
          b.(base_target_reference) c.(WorkflowProbeContext.actor)
          c.(WorkflowProbeContext.resource_id)
          (area +:+ ":" +:+ c.(WorkflowProbeContext.transition)))
       [ ("authorized_origin", PStr b.(base_authorized_origin));
         ("actor", PStr c.(WorkflowProbeContext.actor));
         ("resource_id", PStr c.(WorkflowProbeContext.resource_id));
         ("transition", PStr c.(WorkflowProbeContext.transition));
         ("area", PStr area) ]
       (discrimination_for true b.(base_competing) b.(base_resolves) b.(base_control))
       b.(base_observation_ids)).

(** [l or d] for lists. *)
Definition or_list (l d : list string) : list string := match l with [] => d | _ => l end.

(** [a or b] for an optional text. *)
Definition or_text (a : option string) (b : string) : string := default b (some_text a).

(** [f"{id_prefix}-{counter:02d}"] of the counter after it is incremented. *)
Definition option_name (id_prefix : string) (counter : nat) : string :=
  let digits := pretty counter in
  id_prefix +:+ "-" +:+ (if bool_decide (String.length digits = 1%nat) then "0" +:+ digits else digits).

(** The makers of one hypothesis, context and target run in order, each with the next id. *)
Fixpoint run_makers (id_prefix : string) (counter : nat)
    (makers : list (string -> result ExperimentOption.t))
    : result (list ExperimentOption.t * nat) :=
  match makers with
  | [] => Ok ([], counter)
  | make :: makers' =>
      o ← make (option_name id_prefix (S counter));
      rest ← run_makers id_prefix (S counter) makers';
      Ok (o :: rest.1, rest.2)
  end.

(** The steps of the loops in order; a step may raise before it has makers. *)
Fixpoint run_steps (id_prefix : string) (counter : nat)
    (steps : list (result (list (string -> result ExperimentOption.t))))
    : result (list ExperimentOption.t) :=
  match steps with
  | [] => Ok []
  | step :: steps' =>
      makers ← step;
      made ← run_makers id_prefix counter makers;
      rest ← run_steps id_prefix made.2 steps';
      Ok (made.1 ++ rest)
  end.

(** [research/selection.py:967-1068 _object_options] *)
Definition object_makers (h : PortfolioHypothesis.t) (c : ObjectProbeContext.t)
    (observations : list ObservedResearchFact.t) (authorized_origin target_reference : string)
    (competing : Z) : list (string -> result ExperimentOption.t) :=
  let state := object_state observations c authorized_origin in
  let family := HypothesisFamily.value HypothesisFamily.OBJECT_AUTHORIZATION in
  let resource := c.(ObjectProbeContext.own_object) +:+ ":" +:+ c.(ObjectProbeContext.cross_object) in
  let base purpose resource resolves control unresolved id :=
    OptionBase id h purpose authorized_origin target_reference
      (context_signature_for family target_reference resource) competing resolves control unresolved
      state.(state_observation_ids) in
  (if is_open h
   then
     [ (fun id => make_object_option
          (base ExperimentPurpose.OBJECT_CROSS_PROBE resource
             (negb state.(observed) || negb (bool_decide (state.(unresolved) = []))) false
             (or_list state.(unresolved) ["object_authorization_semantics"]) id)
          c "vulnerable" resource);
       (fun id => make_object_option
          (base ExperimentPurpose.OBJECT_CONTROL_PROBE resource false
             (negb state.(control_refused))
             (if state.(control_refused) then ["negative_control_already_present"]
              else ["secure_control"]) id)
          c "secure_only" resource) ]
   else [])
  ++ match in_lifecycle HypothesisLifecycle.SUPPORTED h,
           some_text c.(ObjectProbeContext.verification_actor) with
     | true, Some actor =>
         let own := or_text c.(ObjectProbeContext.verification_own_object) actor in
         let cross := or_text c.(ObjectProbeContext.verification_cross_object)
                        c.(ObjectProbeContext.cross_object) in
         [ (fun id =>
              other ← ObjectProbeContext.post_init
                        (ObjectProbeContext.mk actor own cross None None None);
              make_object_option
                (base ExperimentPurpose.OBJECT_INDEPENDENT_REPRODUCTION (own +:+ ":" +:+ cross)
                   false false ["independent_reproduction"] id)
                other "vulnerable" (own +:+ ":" +:+ cross)) ]
     | _, _ => []
     end.

(** [research/selection.py:1071-1162 _workflow_options] *)
Definition workflow_makers (h : PortfolioHypothesis.t) (c : WorkflowProbeContext.t)
    (state : probe_state) (authorized_origin target_reference : string) (competing : Z)
    : list (string -> result ExperimentOption.t) :=
  let family := HypothesisFamily.value HypothesisFamily.WORKFLOW_STATE_TRANSITION in
  let base purpose resource resolves control unresolved id :=
    OptionBase id h purpose authorized_origin target_reference
      (context_signature_for family target_reference resource) competing resolves control unresolved
      state.(state_observation_ids) in
  (if is_open h
   then
     [ (fun id => make_workflow_option
          (base ExperimentPurpose.WORKFLOW_TRANSITION_PROBE c.(WorkflowProbeContext.resource_id)
             (negb state.(observed) || negb (bool_decide (state.(unresolved) = []))) false
             (or_list state.(unresolved) ["workflow_authorization_semantics"]) id)
          c "workflow");
       (fun id => make_workflow_option
          (base ExperimentPurpose.WORKFLOW_CONTROL_PROBE c.(WorkflowProbeContext.resource_id) false
             (negb state.(control_refused))
             (if state.(control_refused) then ["negative_control_already_present"]
              else ["control_path"]) id)
          c "control") ]
   else [])
  ++ match in_lifecycle HypothesisLifecycle.SUPPORTED h,
           some_text c.(WorkflowProbeContext.verification_actor) with
     | true, Some actor =>
         let resource := or_text c.(WorkflowProbeContext.verification_resource_id)
                           c.(WorkflowProbeContext.resource_id) in
         [ (fun id =>
              other ← WorkflowProbeContext.post_init
                        (WorkflowProbeContext.mk actor resource c.(WorkflowProbeContext.transition)
                           None None);
              make_workflow_option
                (base ExperimentPurpose.WORKFLOW_INDEPENDENT_REPRODUCTION resource false false
                   ["independent_reproduction"] id)
                other "workflow") ]
     | _, _ => []
     end.

(** The live families other than the unknown one.
    [research/selection.py:904-964 propose_experiment_options] *)
Definition competing_families (p : portfolio) : list HypothesisFamily.t :=
  dedupe (List.filter (fun f => negb (bool_decide (f = HypothesisFamily.UNKNOWN)))
            (PortfolioHypothesis.family <$> live p)).

(** What the loops visit for one hypothesis: each context that its origin binds, at each target.
    [research/selection.py:904-964 propose_experiment_options] *)
Definition hypothesis_steps (observations : list ObservedResearchFact.t) (origin : string)
    (targets : list string) (object_contexts : list ObjectProbeContext.t)
    (workflow_contexts : list WorkflowProbeContext.t) (competing : Z) (h : PortfolioHypothesis.t)
    : list (result (list (string -> result ExperimentOption.t))) :=
  match h.(PortfolioHypothesis.family) with
  | HypothesisFamily.OBJECT_AUTHORIZATION =>
      if in_lifecycle HypothesisLifecycle.DEPRIORITIZED h then []
      else
        c ← List.filter (origin_binds_object_context h.(PortfolioHypothesis.origin_reference))
              object_contexts;
        t ← targets;
        [Ok (object_makers h c observations origin t competing)]
  | HypothesisFamily.WORKFLOW_STATE_TRANSITION =>
      if in_lifecycle HypothesisLifecycle.DEPRIORITIZED h
         || in_lifecycle HypothesisLifecycle.FALSIFIED h then []
      else
        c ← List.filter (origin_binds_workflow_context h.(PortfolioHypothesis.origin_reference))
              workflow_contexts;
        t ← targets;
        [state ← workflow_state observations c origin;
         Ok (workflow_makers h c state origin t competing)]
  | _ => []
  end.

(** [research/selection.py:904-964 propose_experiment_options] *)
Definition propose_experiment_options (p : portfolio)
    (observations : list ObservedResearchFact.t) (authorized_origin : string)
    (candidate_origins : list string) (object_contexts : list ObjectProbeContext.t)
    (workflow_contexts : list WorkflowProbeContext.t) (id_prefix : string)
    : result (list ExperimentOption.t) :=
  origin ← selection_text authorized_origin;
  let competing := Z.of_nat (length (competing_families p)) in
  let targets := or_list candidate_origins [origin] in
  run_steps id_prefix 0
    (h ← p; hypothesis_steps observations origin targets object_contexts workflow_contexts
              competing h).
End options.

(** ** Plans, kinds and stopping *)

Section plan.
Context `{JsonSchema} `{NetlocCheck} (catalog : CapabilityRegistry.t).

(** [research/selection.py:1312-1333 plan_from_option] *)
Definition plan_from_option (o : ExperimentOption.t) (budget_id : string)
    : result ExperimentPlan.t :=
  match CapabilityRegistry.get catalog o.(ExperimentOption.required_capability) with
  | None => Raise ResearchInputError
  | Some definition =>
      raise_if negb (definition.(CapabilityDefinition.executor_class) =? WORKER_EXECUTOR_CLASS)%string
      as ResearchInputError;;
      match definition.(CapabilityDefinition.actions) with
      | [action] =>
          compile catalog
            (ExperimentIntent.mk o.(ExperimentOption.hypothesis_id)
               o.(ExperimentOption.required_capability) action.1
               o.(ExperimentOption.target_reference) o.(ExperimentOption.plan_arguments) budget_id
               o.(ExperimentOption.expected_supporting_observation)
               o.(ExperimentOption.expected_disconfirming_observation)
               (o.(ExperimentOption.required_capability) +:+ ".v1")
               (Some o.(ExperimentOption.side_effect_level)) "opaque_reference")
      | _ => Raise ResearchInputError
      end
  end.
End plan.

(** [research/selection.py:1336-1347 opportunity_kind_for] *)
Definition opportunity_kind_for (p : ExperimentPurpose.t) : OpportunityKind.t :=
  match p with
  | ExperimentPurpose.OBJECT_CONTROL_PROBE | ExperimentPurpose.WORKFLOW_CONTROL_PROBE =>
      OpportunityKind.CONTROL_EXPERIMENT
  | ExperimentPurpose.OBJECT_INDEPENDENT_REPRODUCTION
  | ExperimentPurpose.WORKFLOW_INDEPENDENT_REPRODUCTION => OpportunityKind.INVARIANT_CHALLENGE
  | _ => OpportunityKind.HYPOTHESIS_FOLLOWUP
  end.

(** [research/selection.py:1350-1356 opportunity_mode_for] *)
Definition opportunity_mode_for (p : ExperimentPurpose.t) : OpportunityMode.t :=
  match p with
  | ExperimentPurpose.OBJECT_CROSS_PROBE | ExperimentPurpose.WORKFLOW_TRANSITION_PROBE =>
      OpportunityMode.EXPLORATION
  | _ => OpportunityMode.EXPLOITATION
  end.

(** [research/selection.py:1359-1392 stop_reason_for_portfolio] *)
Definition stop_reason_for_portfolio (p : portfolio) (selected : option ExperimentOption.t)
    (budget_exhausted max_cycles_reached operational : bool) : option ResearchStopReason.t :=
  let supported := List.filter (in_lifecycle HypothesisLifecycle.SUPPORTED) p in
  let falsified := List.filter (in_lifecycle HypothesisLifecycle.FALSIFIED) p in
  let none {A} (l : list A) := bool_decide (length l = 0%nat) in
  if operational then Some ResearchStopReason.OPERATIONAL_INCONCLUSIVE
  else if budget_exhausted then Some ResearchStopReason.BUDGET_EXHAUSTED
  else if max_cycles_reached then Some ResearchStopReason.MAX_CYCLES_REACHED
  else match selected with
       | Some _ => None
       | None =>
           if negb (none (open_investigation p)) then Some ResearchStopReason.NEEDS_MORE_CONTEXT
           else if negb (none supported)
           then Some ResearchStopReason.SUFFICIENT_EVIDENCE_FOR_VERIFICATION
           else if negb (none falsified)
           then if bool_decide (length falsified = length p)
                then Some ResearchStopReason.ALL_HYPOTHESES_FALSIFIED
                else Some ResearchStopReason.NO_ACTIVE_HYPOTHESES
           else if none (live p) then Some ResearchStopReason.NO_ACTIVE_HYPOTHESES
           else Some ResearchStopReason.NO_AUTHORIZED_DISCRIMINATING_EXPERIMENT
       end.

(** ** The choice is minimal *)

Section choice.
Context (executed negatives : list string).




End choice.


(** ** Why a portfolio stops *)

Lemma no_kept {A} (f : A -> bool) l :
  length (List.filter f l) = 0%nat <-> forall x, x ∈ l -> f x = false.
Proof. rewrite length_zero_iff_nil. apply filter_nil_bool. Qed.

Lemma exists_kept {A} (f : A -> bool) l :
  bool_decide (length (List.filter f l) = 0%nat) = false <-> exists x, x ∈ l /\ f x = true.
Proof.
  rewrite bool_decide_eq_false, length_zero_iff_nil. split.
  - destruct (List.filter f l) as [|x k] eqn:E; [done|]. intros _. exists x.
    apply elem_of_list_filter_bool. rewrite E. by left.
  - intros (x & Hx & Hf) Hn. assert (x ∈ List.filter f l) as Hin by by apply elem_of_list_filter_bool.
    rewrite Hn in Hin. by apply elem_of_nil in Hin.
Qed.

Lemma filter_full {A} (f : A -> bool) l :
  length (List.filter f l) = length l <-> forall x, x ∈ l -> f x = true.
Proof.
  induction l as [|y l IH]; cbn.
  - split; [intros _ x Hx; by apply elem_of_nil in Hx|done].
  - destruct (f y) eqn:E; cbn.
    + rewrite Nat.succ_inj_wd, IH. setoid_rewrite elem_of_cons. naive_solver.
    + split; [|intros H; specialize (H y); rewrite H in E; [done|by left]].
      intros Hl. pose proof (filter_length_le f l). lia.
Qed.

(** Stopping is explained by the portfolio: without a limit and without a selection the reason
    is open questions if there are any, else verification if a hypothesis is supported, else that
    all are falsified, else that none is active; a selection is the only reason to go on. *)
Theorem stopping_is_explained p selected budget_exhausted max_cycles operational :
  let reason := stop_reason_for_portfolio p selected budget_exhausted max_cycles operational in
  let limit := operational || budget_exhausted || max_cycles in
  (reason = None <-> limit = false /\ selected ≠ None)
  /\ (limit = false -> selected = None ->
      let open_left := exists h, h ∈ p /\ is_open h = true in
      let supported := exists h, h ∈ p /\ in_lifecycle HypothesisLifecycle.SUPPORTED h = true in
      (reason = Some ResearchStopReason.NEEDS_MORE_CONTEXT <-> open_left)
      /\ (reason = Some ResearchStopReason.SUFFICIENT_EVIDENCE_FOR_VERIFICATION
          <-> ~ open_left /\ supported)
      /\ (reason = Some ResearchStopReason.ALL_HYPOTHESES_FALSIFIED
          <-> p ≠ [] /\ forall h, h ∈ p -> in_lifecycle HypothesisLifecycle.FALSIFIED h = true)
      /\ reason ≠ Some ResearchStopReason.NO_AUTHORIZED_DISCRIMINATING_EXPERIMENT).
Proof.
  cbv zeta. unfold stop_reason_for_portfolio. cbv zeta. fold (open_investigation p).
  assert (Hopen : bool_decide (length (open_investigation p) = 0%nat) = false
                  <-> exists h, h ∈ p /\ is_open h = true) by apply exists_kept.
  assert (Hsup : bool_decide (length (List.filter (in_lifecycle HypothesisLifecycle.SUPPORTED) p) = 0%nat)
                 = false <-> exists h, h ∈ p /\ in_lifecycle HypothesisLifecycle.SUPPORTED h = true)
    by apply exists_kept.
  assert (Hlive : bool_decide (length (live p) = 0%nat) = false
                  -> bool_decide (length (open_investigation p) = 0%nat) = false
                     \/ bool_decide (length (List.filter (in_lifecycle HypothesisLifecycle.SUPPORTED) p)
                                     = 0%nat) = false).
  { intros (h & Hh & Hl)%exists_kept. rewrite Hopen, Hsup.
    unfold is_open, in_lifecycle. destruct (PortfolioHypothesis.lifecycle h) eqn:E; try done;
      [left|right|left]; exists h; by rewrite E. }
  pose proof (filter_full (in_lifecycle HypothesisLifecycle.FALSIFIED) p) as Hall.
  rewrite <-(bool_decide_eq_true (length (List.filter _ p) = length p)) in Hall.
  pose proof (exists_kept (in_lifecycle HypothesisLifecycle.FALSIFIED) p) as Hfal.
  assert (Hno : forall h, in_lifecycle HypothesisLifecycle.FALSIFIED h = true ->
            is_open h = false /\ in_lifecycle HypothesisLifecycle.SUPPORTED h = false).
  { intros h Hh%bool_decide_eq_true. unfold is_open, in_lifecycle. by rewrite Hh. }
  rewrite <-Hopen, <-Hsup, <-Hall.
  assert (Hall2 : p ≠ [] -> bool_decide (length (List.filter (in_lifecycle HypothesisLifecycle.FALSIFIED) p)
                                         = length p) = true ->
            bool_decide (length (open_investigation p) = 0%nat) = true
            /\ bool_decide (length (List.filter (in_lifecycle HypothesisLifecycle.SUPPORTED) p) = 0%nat)
               = true
            /\ bool_decide (length (List.filter (in_lifecycle HypothesisLifecycle.FALSIFIED) p) = 0%nat)
               = false).
  { rewrite Hall. intros Hne Hf. rewrite Hfal. rewrite <-!not_false_iff_true, Hopen, Hsup.
    split_and!; [intros (h & Hin & Ho)|intros (h & Hin & Ho)|destruct p as [|h p']; [done|]].
    1, 2: destruct (Hno h (Hf h Hin)); congruence.
    exists h. split; [by left|apply Hf; by left]. }
  assert (Hne : bool_decide (length (List.filter (in_lifecycle HypothesisLifecycle.FALSIFIED) p) = 0%nat)
                = false -> p ≠ []) by (intros (h & Hin & _)%Hfal ->; by apply elem_of_nil in Hin).
  clear Hopen Hsup Hall Hfal Hno.
  destruct operational, budget_exhausted, max_cycles; cbn [orb];
    try (split; [split; [done|by intros [? _]]|done]).
  destruct selected as [o|]; [split; [done|done]|].
  split; [split; [|by intros [_ ?]]|intros _ _];
    repeat match goal with |- context [bool_decide ?P] => destruct (bool_decide P); cbn [negb] end;
    naive_solver.
Qed.

(** ** What an option is *)

Lemma selection_text_ok s t : selection_text s = Ok t -> t = Str.strip s /\ Str.is_blank s = false.
Proof. unfold selection_text. rewrite raise_if_ok. naive_solver. Qed.

(** What the constructor of an option changes: it strips the texts. *)
Lemma option_post_init x o :
  ExperimentOption.post_init x = Ok o ->
  o.(ExperimentOption.hypothesis_id) = Str.strip x.(ExperimentOption.hypothesis_id)
  /\ o.(ExperimentOption.purpose) = x.(ExperimentOption.purpose)
  /\ o.(ExperimentOption.required_capability) = Str.strip x.(ExperimentOption.required_capability)
  /\ o.(ExperimentOption.side_effect_level) = x.(ExperimentOption.side_effect_level)
  /\ o.(ExperimentOption.target_reference) = Str.strip x.(ExperimentOption.target_reference)
  /\ o.(ExperimentOption.in_authorized_origin) = x.(ExperimentOption.in_authorized_origin)
  /\ o.(ExperimentOption.structural_identity) = Str.strip x.(ExperimentOption.structural_identity)
  /\ o.(ExperimentOption.plan_arguments) = x.(ExperimentOption.plan_arguments).
Proof.
  unfold ExperimentOption.post_init, reject_forbidden_option, reject_forbidden_keys. intros H.
  repeat match goal with
         | E : (_ ≫= _) = Ok _ |- _ => apply bind_ok in E as (? & ? & E)
         | E : (if _ then Raise _ else _) = Ok _ |- _ => apply raise_if_ok in E as [_ E]
         | E : selection_text _ = Ok _ |- _ => apply selection_text_ok in E as [-> _]
         end.
  injection H as <-. cbn. simplify_eq. done.
Qed.

Section made.
Context `{FloatRepr} (sha256_json : pyval -> string).

Lemma run_makers_elem prefix n makers made o :
  run_makers prefix n makers = Ok made -> o ∈ made.1 ->
  exists make id, make ∈ makers /\ make id = Ok o.
Proof.
  revert n made. induction makers as [|make l IH]; intros n made; cbn.
  - intros [= <-]. by intros ?%elem_of_nil.
  - intros (o' & Ho' & (rest & Hr & [= <-])%bind_ok)%bind_ok. cbn.
    intros [->|Hin]%elem_of_cons; [exists make; eexists; split; [by left|exact Ho']|].
    destruct (IH _ _ Hr Hin) as (m & id & Hm & ?). exists m, id. split; [by right|done].
Qed.

Lemma run_steps_elem prefix n steps l o :
  run_steps prefix n steps = Ok l -> o ∈ l ->
  exists step makers make id, step ∈ steps /\ step = Ok makers /\ make ∈ makers /\ make id = Ok o.
Proof.
  revert n l. induction steps as [|step steps IH]; intros n l; cbn.
  - intros [= <-]. by intros ?%elem_of_nil.
  - intros (makers & Hs & (made & Hm & (rest & Hr & [= <-])%bind_ok)%bind_ok)%bind_ok.
    intros [Hin|Hin]%elem_of_app.
    + destruct (run_makers_elem _ _ _ _ _ Hm Hin) as (make & id & ? & ?).
      exists step, makers, make, id. split_and!; try done. by left.
    + destruct (IH _ _ Hr Hin) as (s & ms & m & id & ? & ?). exists s, ms, m, id. split; [by right|done].
Qed.

(** Where an option comes from: a hypothesis of the portfolio, a context its origin binds and a
    target. *)
Lemma proposed_option p observations authorized origins ocs wcs prefix l o :
  propose_experiment_options sha256_json p observations authorized origins ocs wcs prefix = Ok l ->
  o ∈ l ->
  let origin := Str.strip authorized in
  exists h t, h ∈ p /\ t ∈ or_list origins [origin]
    /\ ((exists c make id, c ∈ ocs
         /\ h.(PortfolioHypothesis.family) = HypothesisFamily.OBJECT_AUTHORIZATION
         /\ origin_binds_object_context h.(PortfolioHypothesis.origin_reference) c = true
         /\ make ∈ object_makers sha256_json h c observations origin t
                     (Z.of_nat (length (competing_families p)))
         /\ make id = Ok o)
        \/ (exists c state make id, c ∈ wcs
         /\ h.(PortfolioHypothesis.family) = HypothesisFamily.WORKFLOW_STATE_TRANSITION
         /\ origin_binds_workflow_context h.(PortfolioHypothesis.origin_reference) c = true
         /\ workflow_state observations c origin = Ok state
         /\ make ∈ workflow_makers sha256_json h c state origin t
                     (Z.of_nat (length (competing_families p)))
         /\ make id = Ok o)).
Proof.
  unfold propose_experiment_options. intros (origin & [-> _]%selection_text_ok & Hrun)%bind_ok Hin.
  cbv zeta. destruct (run_steps_elem _ _ _ _ _ Hrun Hin) as (step & makers & make & id & Hs & -> & Hm & Ho).
  apply list_elem_of_bind in Hs as (h & Hs & Hh). unfold hypothesis_steps in Hs.
  destruct (PortfolioHypothesis.family h) eqn:Ef; try (by apply elem_of_nil in Hs).
  - destruct (in_lifecycle _ h); [by apply elem_of_nil in Hs|].
    apply list_elem_of_bind in Hs as (c & Hs & [Hc Hb]%elem_of_list_filter_bool).
    apply list_elem_of_bind in Hs as (t & Hs & Ht). apply list_elem_of_singleton in Hs as [= ->].
    exists h, t. split_and!; [done|done|]. left. by exists c, make, id.
  - destruct (in_lifecycle _ h || _); [by apply elem_of_nil in Hs|].
    apply list_elem_of_bind in Hs as (c & Hs & [Hc Hb]%elem_of_list_filter_bool).
    apply list_elem_of_bind in Hs as (t & Hs & Ht). apply list_elem_of_singleton in Hs.
    symmetry in Hs. apply bind_ok in Hs as (state & Hst & [= <-]).
    exists h, t. split_and!; [done|done|]. right. by exists c, state, make, id.
Qed.
(** An option of one of the two kinds, of a base, with its arguments. *)
Record made_of (b : option_base) (o : ExperimentOption.t) : Prop := {
  mo_hypothesis : o.(ExperimentOption.hypothesis_id)
                  = Str.strip b.(base_hypothesis).(PortfolioHypothesis.hypothesis_id);
  mo_purpose : o.(ExperimentOption.purpose) = b.(base_purpose);
  mo_kind : (o.(ExperimentOption.required_capability), o.(ExperimentOption.side_effect_level))
            ∈ [ (HTTP_AUTHORIZATION_DIFFERENTIAL_CAPABILITY, 0);
                (HTTP_STATE_TRANSITION_CAPABILITY, 1) ];
  mo_target : o.(ExperimentOption.target_reference) = Str.strip b.(base_target_reference);
  mo_authorized : o.(ExperimentOption.in_authorized_origin)
                  = (b.(base_target_reference) =? b.(base_authorized_origin))%string;
  mo_origin : dict_get "authorized_origin" o.(ExperimentOption.plan_arguments)
              = PStr b.(base_authorized_origin) }.

Lemma made_object_option b c mode resource o :
  make_object_option sha256_json b c mode resource = Ok o -> made_of b o.
Proof.
  intros (Hh & Hp & Hc & Hl & Ht & Ha & _ & Hargs)%option_post_init. cbn in *.
  split; rewrite ?Hc, ?Hl, ?Hargs; try done. by left.
Qed.

Lemma made_workflow_option b c area o :
  make_workflow_option sha256_json b c area = Ok o -> made_of b o.
Proof.
  intros (Hh & Hp & Hc & Hl & Ht & Ha & _ & Hargs)%option_post_init. cbn in *.
  split; rewrite ?Hc, ?Hl, ?Hargs; try done. by right; left.
Qed.

Definition reproduces (p : ExperimentPurpose.t) : bool :=
  mem p [ExperimentPurpose.OBJECT_INDEPENDENT_REPRODUCTION;
         ExperimentPurpose.WORKFLOW_INDEPENDENT_REPRODUCTION].

(** The base of an option of a hypothesis at a target, as its lifecycle allows. *)
Definition allowed_base (h : PortfolioHypothesis.t) (origin t : string) (b : option_base) : Prop :=
  b.(base_hypothesis) = h /\ b.(base_authorized_origin) = origin
  /\ b.(base_target_reference) = t
  /\ if reproduces b.(base_purpose) then in_lifecycle HypothesisLifecycle.SUPPORTED h = true
     else is_open h = true.

Ltac a_maker Hm :=
  repeat match type of Hm with
         | _ ∈ _ :: _ => apply elem_of_cons in Hm as [->|Hm]
         | _ ∈ [] => by apply elem_of_nil in Hm
         end.

Lemma object_maker_makes h c observations origin t competing make id o :
  make ∈ object_makers sha256_json h c observations origin t competing -> make id = Ok o ->
  exists b, allowed_base h origin t b /\ made_of b o.
Proof.
  unfold object_makers. cbv zeta. intros [Hm|Hm]%elem_of_app Ho.
  - destruct (is_open h) eqn:Eo; [|by apply elem_of_nil in Hm].
    a_maker Hm; apply made_object_option in Ho; eexists; (split; [|exact Ho]);
      by repeat split.
  - destruct (in_lifecycle _ h) eqn:El; [|by apply elem_of_nil in Hm].
    destruct (some_text _); [|by apply elem_of_nil in Hm].
    a_maker Hm. apply bind_ok in Ho as (other & _ & Ho). apply made_object_option in Ho.
    eexists; (split; [|exact Ho]). by repeat split.
Qed.

Lemma workflow_maker_makes h c state origin t competing make id o :
  make ∈ workflow_makers sha256_json h c state origin t competing -> make id = Ok o ->
  exists b, allowed_base h origin t b /\ made_of b o.
Proof.
  unfold workflow_makers. cbv zeta. intros [Hm|Hm]%elem_of_app Ho.
  - destruct (is_open h) eqn:Eo; [|by apply elem_of_nil in Hm].
    a_maker Hm; apply made_workflow_option in Ho; eexists; (split; [|exact Ho]);
      by repeat split.
  - destruct (in_lifecycle _ h) eqn:El; [|by apply elem_of_nil in Hm].
    destruct (some_text _); [|by apply elem_of_nil in Hm].
    a_maker Hm. apply bind_ok in Ho as (other & _ & Ho). apply made_workflow_option in Ho.
    eexists; (split; [|exact Ho]). by repeat split.
Qed.

(** Every option is a probe of a hypothesis of the portfolio that is still open, or an
    independent reproduction of one that is supported; it is one of the two capabilities at its
    declared level, its arguments name the authorized origin, and it counts as authorized only when
    its target is that origin. *)
Theorem options_are_authorized_probes p observations authorized origins ocs wcs prefix l o :
  propose_experiment_options sha256_json p observations authorized origins ocs wcs prefix = Ok l ->
  o ∈ l ->
  let origin := Str.strip authorized in
  (exists h, h ∈ p
     /\ o.(ExperimentOption.hypothesis_id) = Str.strip h.(PortfolioHypothesis.hypothesis_id)
     /\ if reproduces o.(ExperimentOption.purpose)
        then in_lifecycle HypothesisLifecycle.SUPPORTED h = true else is_open h = true)
  /\ (o.(ExperimentOption.required_capability), o.(ExperimentOption.side_effect_level))
       ∈ [ (HTTP_AUTHORIZATION_DIFFERENTIAL_CAPABILITY, 0); (HTTP_STATE_TRANSITION_CAPABILITY, 1) ]
  /\ dict_get "authorized_origin" o.(ExperimentOption.plan_arguments) = PStr origin
  /\ (o.(ExperimentOption.in_authorized_origin) = true ->
       o.(ExperimentOption.target_reference) = Str.strip origin).
Proof.
  intros Hp Hin origin. destruct (proposed_option _ _ _ _ _ _ _ _ _ Hp Hin) as (h & t & Hh & _ & Hmade).
  fold origin in Hmade.
  assert (exists b, allowed_base h origin t b /\ made_of b o) as (b & (Hb & Ho & Ht & Hl) & Hm).
  { destruct Hmade as [(c & make & id & _ & _ & _ & Hm & Ho)|(c & st & make & id & _ & _ & _ & _ & Hm & Ho)];
      [by eapply object_maker_makes|by eapply workflow_maker_makes]. }
  destruct Hm as [H1 H2 H3 H4 H5 H6]. rewrite Hb in H1. rewrite Ho in H5, H6. rewrite Ht in H4, H5.
  rewrite <-H2 in Hl. split_and!; [exists h; by split_and!|done|done|].
  rewrite H5, H4. by intros ->%String.eqb_eq.
Qed.

(** ** An executed option is recognised *)

Lemma payload_text_str payload key s :
  dict_get key payload = PStr s -> payload_text payload key "" = s.
Proof. unfold payload_text. intros ->. cbn. by destruct s. Qed.

Definition stripped (s : string) : Prop := Str.strip s = s.

(** A context whose texts carry no blanks around them, those of the verification included. *)
Definition stripped_context (c : ObjectProbeContext.t) : Prop :=
  stripped c.(ObjectProbeContext.cross_object)
  /\ forall s, Some s ∈ [c.(ObjectProbeContext.verification_actor);
                         c.(ObjectProbeContext.verification_own_object);
                         c.(ObjectProbeContext.verification_cross_object)] -> stripped s.

(** The identity that the stored plan of an option would have. *)
Definition plan_identity (o : ExperimentOption.t) : option string :=
  identity_from_plan_arguments sha256_json o.(ExperimentOption.required_capability)
    o.(ExperimentOption.plan_arguments) o.(ExperimentOption.target_reference).

Section recognised.
Hypothesis digest_is_stripped : forall v, stripped (sha256_json v).

Lemma identity_stripped capability purpose origin actor resource operation :
  Str.strip (experiment_option_identity sha256_json capability purpose origin actor resource operation)
  = experiment_option_identity sha256_json capability purpose origin actor resource operation.
Proof. apply digest_is_stripped. Qed.

Lemma object_option_identity b c mode resource o :
  make_object_option sha256_json b c mode resource = Ok o ->
  stripped b.(base_target_reference) -> mode ≠ "" ->
  resource = c.(ObjectProbeContext.own_object) +:+ ":" +:+ c.(ObjectProbeContext.cross_object) ->
  plan_identity o = Some o.(ExperimentOption.structural_identity).
Proof.
  intros (_ & _ & Hc & _ & Ht & _ & Hs & Hargs)%option_post_init Htarget Hmode ->. cbn -[Str.strip experiment_option_identity] in *.
  unfold plan_identity, identity_from_plan_arguments. rewrite Hc, Ht, Hargs, Hs.
  rewrite (Htarget : Str.strip _ = _), identity_stripped.
  cbn -[experiment_option_identity].
  unfold payload_text. cbn -[experiment_option_identity].
  destruct mode; [done|]. cbn -[experiment_option_identity].
  by destruct (ObjectProbeContext.actor c), (ObjectProbeContext.own_object c),
    (ObjectProbeContext.cross_object c).
Qed.

Lemma workflow_option_identity b c area o :
  make_workflow_option sha256_json b c area = Ok o ->
  stripped b.(base_target_reference) -> area ≠ "" ->
  plan_identity o = Some o.(ExperimentOption.structural_identity).
Proof.
  intros (_ & _ & Hc & _ & Ht & _ & Hs & Hargs)%option_post_init Htarget Harea. cbn -[Str.strip experiment_option_identity] in *.
  unfold plan_identity, identity_from_plan_arguments. rewrite Hc, Ht, Hargs, Hs.
  rewrite (Htarget : Str.strip _ = _), identity_stripped.
  cbn -[experiment_option_identity].
  unfold payload_text. cbn -[experiment_option_identity].
  destruct area; [done|]. cbn -[experiment_option_identity].
  by destruct (WorkflowProbeContext.actor c), (WorkflowProbeContext.resource_id c),
    (WorkflowProbeContext.transition c).
Qed.

Lemma or_text_stripped a b : (forall s, a = Some s -> stripped s) -> stripped b -> stripped (or_text a b).
Proof.
  unfold or_text, some_text. intros Ha Hb. destruct a as [s|]; [|done].
  destruct (Str.is_empty s); cbn; [done|by apply Ha].
Qed.

Lemma option_is_recognised p observations authorized origins ocs wcs prefix l o :
  propose_experiment_options sha256_json p observations authorized origins ocs wcs prefix = Ok l ->
  o ∈ l -> Forall stripped origins -> Forall stripped_context ocs ->
  plan_identity o = Some o.(ExperimentOption.structural_identity).
Proof.
  intros Hp Hin Horigins Hocs. destruct (proposed_option _ _ _ _ _ _ _ _ _ Hp Hin) as (h & t & _ & Ht & Hmade).
  assert (stripped t) as Hst.
  { destruct origins as [|x l0]; cbn in Ht.
    - apply list_elem_of_singleton in Ht as ->. apply Str.strip_idem.
    - rewrite Forall_forall in Horigins. by apply Horigins. }
  destruct Hmade as [(c & make & id & Hc & _ & _ & Hm & Ho)|(c & st & make & id & _ & _ & _ & _ & Hm & Ho)].
  - unfold object_makers in Hm. cbv zeta in Hm. apply elem_of_app in Hm as [Hm|Hm].
    + destruct (is_open h); [|by apply elem_of_nil in Hm].
      a_maker Hm; by eapply object_option_identity.
    + destruct (in_lifecycle _ h); [|by apply elem_of_nil in Hm].
      destruct (some_text _) as [actor|] eqn:Ea; [|by apply elem_of_nil in Hm].
      a_maker Hm. apply bind_ok in Ho as (other & Hother & Ho).
      eapply object_option_identity; [exact Ho|done|done|].
      unfold ObjectProbeContext.post_init in Hother.
      apply bind_ok in Hother as (a & _ & Hother).
      apply bind_ok in Hother as (own & [-> _]%selection_text_ok & Hother).
      apply bind_ok in Hother as (cross & [-> _]%selection_text_ok & [= <-]). cbn.
      rewrite Forall_forall in Hocs. destruct (Hocs _ Hc) as [Hcross Hv].
      assert (stripped actor) as Hactor.
      { apply Hv. unfold some_text in Ea. destruct (ObjectProbeContext.verification_actor c) as [s|]; [|done].
        destruct (Str.is_empty s); [done|]. injection Ea as ->. by left. }
      rewrite !or_text_stripped; [done|..]; try done.
      * intros s E. apply Hv. rewrite E. by right; right; left.
      * intros s E. apply Hv. rewrite E. by right; left.
  - unfold workflow_makers in Hm. cbv zeta in Hm. apply elem_of_app in Hm as [Hm|Hm].
    + destruct (is_open h); [|by apply elem_of_nil in Hm].
      a_maker Hm; by eapply workflow_option_identity.
    + destruct (in_lifecycle _ h); [|by apply elem_of_nil in Hm].
      destruct (some_text _) as [actor|]; [|by apply elem_of_nil in Hm].
      a_maker Hm. apply bind_ok in Ho as (other & _ & Ho).
      by eapply workflow_option_identity.
Qed.
End recognised.
End made.

Section planned.
Context `{FloatRepr} `{JsonSchema} `{NetlocCheck} (sha256_json : pyval -> string).

Lemma compile_target sha docs catalog x plan :
  registry_ok sha docs catalog -> compile catalog x = Ok plan ->
  plan.(ExperimentPlan.target_reference) = Str.strip x.(ExperimentIntent.target_reference).
Proof.
  unfold compile. intros Hreg (i & Hi & Hc)%bind_ok.
  apply (compile_experiment_intent_ok _ _ _ _ _ Hreg) in Hc as (d & a & Hb).
  rewrite (bp_plan _ _ _ _ _ Hb). cbn. unfold ExperimentIntent.post_init in Hi.
  do 8 (let E := fresh "E" in apply bind_ok in Hi as (? & E & Hi)).
  apply raise_if_ok in Hi as [_ Hi]. apply bind_ok in Hi as (? & _ & [= <-]). cbn.
  unfold intent_text in *.
  repeat match goal with E : (if _ then _ else _) = Ok _ |- _ => apply raise_if_ok in E as [_ [= <-]] end.
  done.
Qed.

(** C34. Where the candidate origins and the verification actor and objects of the contexts carry
    no blanks around them (the code strips only the actor, the own object and the cross object of a
    context; [blank_verification_actor_is_not_recognised] below is what happens otherwise), and a
    digest carries none: the plan of a proposed option is bound to the registry at the level the
    option asked to be within, and its stored form gives back the identity of the option: an
    experiment that was planned is recognised, so the same choice is not made again. *)
Theorem planned_options_are_recognised sha docs catalog p observations authorized origins ocs wcs
    prefix l o budget_id plan :
  registry_from_documents sha docs = Ok catalog ->
  (forall v, stripped (sha256_json v)) ->
  propose_experiment_options sha256_json p observations authorized origins ocs wcs prefix = Ok l ->
  o ∈ l -> Forall stripped origins -> Forall stripped_context ocs ->
  plan_from_option catalog o budget_id = Ok plan ->
  identity_from_plan_arguments sha256_json plan.(ExperimentPlan.required_capability)
    plan.(ExperimentPlan.arguments) plan.(ExperimentPlan.target_reference)
  = Some o.(ExperimentOption.structural_identity)
  /\ (forall executed negatives,
        o.(ExperimentOption.structural_identity) ∈ executed ->
        passed_over executed negatives o ≠ None)
  /\ exists d a, CapabilityRegistry.lookup catalog plan.(ExperimentPlan.required_capability)
                   plan.(ExperimentPlan.action) = Some (d, a)
       /\ d.(CapabilityDefinition.executor_class) = WORKER_EXECUTOR_CLASS
       /\ plan.(ExperimentPlan.side_effect_level)
          = a.(CapabilityActionDefinition.minimum_side_effect_level).
Proof.
  intros [Hreg _]%registry_from_documents_invariant Hsha Hp Hin Horigins Hocs Hplan.
  pose proof (option_is_recognised _ Hsha _ _ _ _ _ _ _ _ _ Hp Hin Horigins Hocs) as Hid.
  assert (stripped o.(ExperimentOption.required_capability)
          /\ stripped o.(ExperimentOption.target_reference)) as [Hc Ht].
  { destruct (proposed_option _ _ _ _ _ _ _ _ _ _ Hp Hin) as (h & t & _ & _ & Hmade).
    assert (exists b, made_of b o) as (b & [_ _ Hk Ht _ _]).
    { destruct Hmade as [(c & make & id & _ & _ & _ & Hm & Ho)|(c & st & make & id & _ & _ & _ & _ & Hm & Ho)];
        [edestruct object_maker_makes as (b & _ & ?)|edestruct workflow_maker_makes as (b & _ & ?)];
        try done; by exists b. }
    rewrite Ht. split; [|apply Str.strip_idem].
    apply elem_of_cons in Hk as [[= -> _]|[[= -> _]|[]%elem_of_nil]%elem_of_cons]; done. }
  unfold plan_from_option in Hplan.
  destruct (CapabilityRegistry.get _ _) as [d|]; [|done].
  apply raise_if_ok in Hplan as [_ Hplan].
  destruct (CapabilityDefinition.actions d) as [|[aid a] [|]]; [done| |done].
  pose proof (compile_target _ _ _ _ _ Hreg Hplan) as Htarget.
  apply (compile_ok _ _ _ _ _ Hreg) in Hplan as (d' & a' & Hl & Hw & Hlev & Hcap & _ & _ & Hargs & _).
  cbn -[Str.strip] in Htarget, Hcap, Hargs. split_and!.
  - rewrite Hcap, Hargs, Htarget. rewrite (Hc : Str.strip _ = _), (Ht : Str.strip _ = _). exact Hid.
  - intros executed negatives Hex. unfold passed_over. destruct (negb _); [done|].
    by rewrite (proj2 (mem_true _ _) Hex).
  - by exists d', a'.
Qed.
End planned.

(** ** The portfolio *)

Lemma lifecycle_reads outcomes competing remaining :
  let l := lifecycle_from_assessments outcomes competing remaining in
  (l = HypothesisLifecycle.SUPPORTED <-> last outcomes = Some "CONSISTENT_WITH_PREDICTION")
  /\ (l = HypothesisLifecycle.FALSIFIED
      <-> last outcomes = Some "CONTRADICTS_PREDICTION" /\ remaining = false)
  /\ (l = HypothesisLifecycle.DEPRIORITIZED
      <-> last outcomes = Some "INCONCLUSIVE" /\ competing = true).
Proof.
  unfold lifecycle_from_assessments. cbv zeta. cbn [AssessmentOutcome.value].
  destruct (last outcomes) as [latest|]; [|split_and!; split; intros; destruct_and?; done].
  repeat match goal with
         | |- context [(latest =? ?s)%string] => destruct (String.eqb_spec latest s) as [->|?]
         end; destruct remaining, competing;
    split_and!; split; intros; destruct_and?; try congruence; by split.
Qed.

Lemma zip_families (hypotheses : list (string * string)) families :
  Forall2 (fun x y => family_for_claim x.2 = Ok y) hypotheses families ->
  forall q, q ∈ zip hypotheses families -> q.1 ∈ hypotheses /\ family_for_claim q.1.2 = Ok q.2.
Proof.
  intros Hf q [j Hj]%list_elem_of_lookup. apply lookup_zip_with_Some in Hj as (x & y & -> & Hx & Hy).
  split; [cbn; by eapply list_elem_of_lookup_2|]. exact (Forall2_lookup_lr _ _ _ _ _ _ Hf Hx Hy).
Qed.

(** A portfolio reads each hypothesis from its latest assessment: supported exactly when that
    agreed, falsified exactly when that contradicted and no context is left to test, set aside
    exactly when it was inconclusive while a hypothesis of another family is supported. *)
Theorem portfolio_follows_latest_assessment hypotheses outcomes observations remaining origins p i id claim :
  build_portfolio hypotheses outcomes observations remaining origins = Ok p ->
  hypotheses !! i = Some (id, claim) ->
  exists h, p !! i = Some h /\ length p = length hypotheses
    /\ family_for_claim claim = Ok h.(PortfolioHypothesis.family)
    /\ (h.(PortfolioHypothesis.lifecycle) = HypothesisLifecycle.SUPPORTED
        <-> last (outcomes id) = Some "CONSISTENT_WITH_PREDICTION")
    /\ (h.(PortfolioHypothesis.lifecycle) = HypothesisLifecycle.FALSIFIED
        <-> last (outcomes id) = Some "CONTRADICTS_PREDICTION" /\ remaining id = false)
    /\ (h.(PortfolioHypothesis.lifecycle) = HypothesisLifecycle.DEPRIORITIZED
        <-> last (outcomes id) = Some "INCONCLUSIVE"
            /\ exists other, other ∈ hypotheses
                 /\ last (outcomes other.1) = Some "CONSISTENT_WITH_PREDICTION"
                 /\ family_for_claim other.2 ≠ Ok h.(PortfolioHypothesis.family)).
Proof.
  unfold build_portfolio. intros (families & Hf & Hp)%bind_ok Hi.
  apply traverse_ok in Hf. apply traverse_ok in Hp.
  pose proof (Forall2_length _ _ _ Hf) as Hlen. pose proof (Forall2_length _ _ _ Hp) as Hlenp.
  rewrite length_zip_with_l in Hlenp by lia.
  destruct (Forall2_lookup_l _ _ _ _ _ Hf Hi) as (family & Hfi & Hfam). cbn in Hfam.
  assert (zip hypotheses families !! i = Some ((id, claim), family)) as Hz
    by by rewrite lookup_zip_with, Hi, Hfi.
  destruct (Forall2_lookup_l _ _ _ _ _ Hp Hz) as (h & Hhi & Hh). exists h.
  cbv beta iota in Hh. cbn [fst snd] in Hh.
  set (competing := existsb _ _) in Hh.
  assert (Hcomp : competing = true <-> exists other, other ∈ hypotheses
            /\ last (outcomes other.1) = Some "CONSISTENT_WITH_PREDICTION"
            /\ family_for_claim other.2 ≠ Ok family).
  { unfold competing. rewrite existsb_true. split.
    - intros (f & ((p0 & f0) & Hin & Hsel)%list_elem_of_omap & Hne). cbn in Hsel.
      destruct (bool_decide _) eqn:Hl in Hsel; [injection Hsel as ->|done].
      apply bool_decide_eq_true in Hl.
      destruct (zip_families _ _ Hf _ Hin) as [Hp0 Hf0]. exists p0. split_and!; [done|done|].
      apply negb_true_iff, bool_decide_eq_false in Hne. cbn in Hf0. congruence.
    - intros (other & Hin & Hl & Hne). apply list_elem_of_lookup in Hin as [j Hj].
      destruct (Forall2_lookup_l _ _ _ _ _ Hf Hj) as (f & Hfj & Hfo).
      exists f. split; [|apply negb_true_iff, bool_decide_eq_false; congruence].
      apply list_elem_of_omap. exists (other, f). split.
      + apply list_elem_of_lookup. exists j. by rewrite lookup_zip_with, Hj, Hfj.
      + cbn. rewrite bool_decide_true; [done|exact Hl]. }
  clearbody competing. unfold PortfolioHypothesis.post_init in Hh.
  do 4 (apply bind_ok in Hh as (? & _ & Hh)). injection Hh as <-. cbn.
  rewrite <-Hcomp. destruct (lifecycle_reads (outcomes id) competing (remaining id)) as (H1 & H2 & H3).
  split_and!; first [done|lia].
Qed.

(** ** The theorems at work *)

Definition probe_document (capability : string) (level : Z) : list (string * pyval) :=
  [ ("capability_id", PStr capability); ("version", PStr "1");
    ("implementation_reference", PStr capability); ("executor_class", PStr "WORKER");
    ("actions", PDict [("probe", http_action "probe" level)]) ].

Definition probe_documents : list (list (string * pyval)) :=
  [ probe_document HTTP_AUTHORIZATION_DIFFERENTIAL_CAPABILITY 0;
    probe_document HTTP_STATE_TRANSITION_CAPABILITY 1 ].

Definition probe_catalog : CapabilityRegistry.t :=
  match registry_from_documents Capability.sample_sha probe_documents with
  | Ok r => r | Raise _ => ∅ end.

Definition probe_origin : string := "http://127.0.0.1:8080".

Definition probe_context : ObjectProbeContext.t :=
  ObjectProbeContext.mk "alice" "order-1" "order-2" (Some "bob") None None.

Definition probe_hypotheses : list (string * string) :=
  [("h1", HTTP_AUTHORIZATION_DIFFERENTIAL_CLAIM); ("h2", HTTP_STATE_TRANSITION_CLAIM)].

Definition probe_portfolio (outcomes : string -> list string) : portfolio :=
  match build_portfolio probe_hypotheses outcomes (fun _ => []) (fun _ => false) (fun _ => "") with
  | Ok p => p | Raise _ => [] end.

(** The last text of the dict, in place of a digest. *)
Definition tag_sha (v : pyval) : string :=
  match v with
  | PDict d => String.concat "/" ((fun p => match p.2 with PStr s => s | _ => "" end) <$> d)
  | _ => "0" end.

Definition probe_options (sha : pyval -> string) (outcomes : string -> list string)
    : list ExperimentOption.t :=
  match propose_experiment_options (H := no_floats) sha (probe_portfolio outcomes) []
          probe_origin [probe_origin; "http://example.org"] [probe_context]
          [WorkflowProbeContext.mk "carol" "doc-7" "approve" None None] "opt" with
  | Ok l => l | Raise _ => [] end.

(** The best of eight options first, the next one once it is executed. *)
Example probes_in_turn :
  let options := probe_options tag_sha (fun _ => []) in
  length options = 8%nat
  /\ (ExperimentSelectionDecision.option
        <$> List.filter ExperimentSelectionDecision.selected (select_next_experiment [] [] options))
     = List.filter (fun o => (o.(ExperimentOption.option_id) =? "opt-01")%string) options
  /\ (ExperimentSelectionDecision.option
        <$> List.filter ExperimentSelectionDecision.selected
              (select_next_experiment
                 (omap (fun o => if (o.(ExperimentOption.option_id) =? "opt-01")%string
                                 then Some o.(ExperimentOption.structural_identity) else None)
                    options) [] options))
     = List.filter (fun o => (o.(ExperimentOption.option_id) =? "opt-05")%string) options.
Proof. vm_compute. repeat split. Qed.

Lemma options_are_authorized_probes_witness :
  exists o, o ∈ probe_options tag_sha (fun _ => [])
    /\ dict_get "authorized_origin" o.(ExperimentOption.plan_arguments) = PStr probe_origin.
Proof.
  assert (length (probe_options tag_sha (fun _ => [])) = 8%nat) as Hlen by (vm_compute; reflexivity).
  destruct (probe_options tag_sha (fun _ => [])) as [|o l] eqn:E; [discriminate Hlen|].
  clear Hlen. exists o. split; [by left|].
  refine (proj1 (proj2 (proj2 (@options_are_authorized_probes no_floats tag_sha
            (probe_portfolio (fun _ => [])) [] probe_origin [probe_origin; "http://example.org"]
            [probe_context] [WorkflowProbeContext.mk "carol" "doc-7" "approve" None None] "opt"
            (probe_options tag_sha (fun _ => [])) o _ _)))).
  - vm_compute. reflexivity.
  - rewrite E. by left.
Defined.

Lemma planned_options_are_recognised_witness :
  exists o plan, o ∈ probe_options (fun _ => "digest") (fun _ => [])
    /\ plan_from_option (H := any_schema) (H0 := fun _ => true) probe_catalog o "budget-1" = Ok plan
    /\ identity_from_plan_arguments (H := no_floats) (fun _ => "digest")
         plan.(ExperimentPlan.required_capability) plan.(ExperimentPlan.arguments)
         plan.(ExperimentPlan.target_reference) = Some "digest".
Proof.
  assert (match head (probe_options (fun _ => "digest") (fun _ => [])) with
          | Some o => is_ok (plan_from_option (H := any_schema) (H0 := fun _ => true) probe_catalog o
                               "budget-1")
                      && (o.(ExperimentOption.structural_identity) =? "digest")%string
          | None => false end = true) as Hhead by (vm_compute; reflexivity).
  destruct (probe_options (fun _ => "digest") (fun _ => [])) as [|o l] eqn:E; [discriminate Hhead|].
  cbn [head] in Hhead. apply andb_true_iff in Hhead as [Hok Hid]. apply String.eqb_eq in Hid.
  destruct (plan_from_option (H := any_schema) (H0 := fun _ => true) probe_catalog o "budget-1")
    as [plan|e] eqn:Ep; [|discriminate Hok].
  clear Hok. exists o, plan. split; [by left|]. split; [exact Ep|].
  apply (fun H => eq_trans H (f_equal Some Hid)).
  refine (proj1 (@planned_options_are_recognised no_floats any_schema (fun _ => true)
            (fun _ => "digest") Capability.sample_sha probe_documents probe_catalog
            (probe_portfolio (fun _ => [])) [] probe_origin [probe_origin; "http://example.org"]
            [probe_context] [WorkflowProbeContext.mk "carol" "doc-7" "approve" None None] "opt"
            (probe_options (fun _ => "digest") (fun _ => [])) o "budget-1" plan _ _ _ _ _ _ Ep)).
  - vm_compute. reflexivity.
  - by intros v.
  - vm_compute. reflexivity.
  - rewrite E. by left.
  - repeat constructor.
  - constructor; [|constructor]. split; [reflexivity|].
    intros s. cbn. rewrite !elem_of_cons, elem_of_nil. by intros [[= ->]|[?|[?|[]]]].
Defined.

(** A verification actor with a blank after it: the planned arguments carry it stripped, so the
    identity read back from the plan is another one, and the option, executed, is open again. *)
Definition blank_actor_options : list ExperimentOption.t :=
  match propose_experiment_options (H := no_floats) tag_sha
          (probe_portfolio (fun id => if (id =? "h1")%string then ["CONSISTENT_WITH_PREDICTION"]
                                      else [])) [] probe_origin [probe_origin]
          [ObjectProbeContext.mk "alice" "order-1" "order-2" (Some "bob ") None None] [] "opt" with
  | Ok l => l | Raise _ => [] end.

Example blank_verification_actor_is_not_recognised :
  (fun o =>
     match plan_from_option (H := any_schema) (H0 := fun _ => true) probe_catalog o "budget-1" with
     | Ok plan =>
         let read := identity_from_plan_arguments (H := no_floats) tag_sha
                       plan.(ExperimentPlan.required_capability) plan.(ExperimentPlan.arguments)
                       plan.(ExperimentPlan.target_reference) in
         (bool_decide (read = Some o.(ExperimentOption.structural_identity)),
          bool_decide (passed_over (option_list read) [] o = None))
     | Raise _ => (true, false)
     end) <$> blank_actor_options
  = [(false, true)].
Proof. vm_compute. reflexivity. Qed.

Lemma portfolio_follows_latest_assessment_witness :
  exists h, probe_portfolio (fun _ => ["INCONCLUSIVE"; "CONSISTENT_WITH_PREDICTION"]) !! 0%nat = Some h
    /\ h.(PortfolioHypothesis.lifecycle) = HypothesisLifecycle.SUPPORTED.
Proof.
  destruct (portfolio_follows_latest_assessment probe_hypotheses
              (fun _ => ["INCONCLUSIVE"; "CONSISTENT_WITH_PREDICTION"]) (fun _ => []) (fun _ => false)
              (fun _ => "") (probe_portfolio (fun _ => ["INCONCLUSIVE"; "CONSISTENT_WITH_PREDICTION"]))
              0 "h1" HTTP_AUTHORIZATION_DIFFERENTIAL_CLAIM) as (h & Hh & _ & _ & Hs & _);
    [vm_compute; reflexivity|reflexivity|].
  exists h. split; [exact Hh|]. by apply Hs.
Defined.
