(* ===== verification/Envelope.v ===== *)
(** * URLs, scope and the network envelope

    [platform/url_normalize.py], [application/authorized_network_envelope.py],
    [application/http_transaction_authorization.py], the program policy of
    [application/program_research_context.py], and the enforcement of the envelope by the worker,
    [worker_runtime/python/browser_envelope.py].  Core authorizes one URL; the envelope is what
    the worker may reach while it carries the authorized request out.

    [urlsplit] is that of [PyUrl].  [ipaddress.IPv6Address] and the IDNA encoding of hosts with
    characters outside ASCII are a class; IPv4 addresses and the ASCII path of the codec are
    written out. *)
From S2P Require Import Prelude CoreTypes PyVal PyText PyUrl Scope Records HttpPolicy Compiler Orchestration Planning Selection.

(** ** What [SplitResult] computes from the network location *)

(** [SplitResult.username] is not [None] exactly when the location has user information. *)
Definition has_userinfo (u : Url.split_result) : bool := Str.contains u.(Url.authority) "@".

Definition host_name (u : Url.split_result) : option string := Url.host_of u.(Url.authority).

Definition is_digit (c : ascii) : bool := (48 <=? Str.code c)%nat && (Str.code c <=? 57)%nat.

Fixpoint decimal (acc : Z) (s : string) : Z :=
  match s with
  | EmptyString => acc
  | String c s' => decimal (10 * acc + (Z.of_nat (Str.code c) - 48)) s'
  end.

Definition all_digits (s : string) : bool := forallb is_digit (String.list_ascii_of_string s).

(** The text after the colon of the host, [_hostinfo[1]]. *)
Definition port_text (authority : string) : string :=
  let hostinfo := List.last (Str.split "@" authority) "" in
  let after_host :=
    match Str.find "[" hostinfo with
    | Some i => snd (Url.split_once "]" (Str.drop (S i) hostinfo))
    | None => hostinfo
    end in
  snd (Url.split_once ":" after_host).

(** [SplitResult.port] *)
Definition port (u : Url.split_result) : result (option Z) :=
  let text := port_text u.(Url.authority) in
  if Str.is_empty text then Ok None
  else if negb (all_digits text) then Raise ValueError
  else if 65535 <? decimal 0 text then Raise ValueError
  else Ok (Some (decimal 0 text)).

(** ** [platform/url_normalize.py] *)

(** [platform/url_normalize.py:16-19 DEFAULT_PORTS] *)
Definition DEFAULT_PORTS : list (string * Z) := [("http", 80); ("https", 443)].
(** [platform/url_normalize.py:22 IDNA_ERROR] *)
Definition IDNA_ERROR : string := "IDNA".
(** [platform/url_normalize.py:23 IPV6_ERROR] *)
Definition IPV6_ERROR : string := "IPV6".
(** [platform/url_normalize.py:25 PARSE_ERROR] *)
Definition PARSE_ERROR : string := "PARSE".
(** [platform/url_normalize.py:27 EMPTY_HOST] *)
Definition EMPTY_HOST : string := "EMPTY_HOST".

(** [str(ipaddress.IPv6Address(s))] and [s.encode("idna").decode("ascii")] for [s] with a
    character outside ASCII; [None] where they raise. *)
Class HostCodec : Type := {
  ipv6 : string -> option string;
  idna : string -> option string }.

(** [ipaddress.IPv4Address(s)]: four decimal octets without a leading zero; its [str] is [s]. *)
Definition octet (s : string) : bool :=
  negb (Str.is_empty s) && all_digits s && (String.length s <=? 3)%nat
  && negb (Str.starts_with s "0" && (1 <? String.length s)%nat) && (decimal 0 s <=? 255).

Definition ipv4 (s : string) : bool :=
  let octets := Str.split "." s in
  (length octets =? 4)%nat && forallb octet octets.

(** The ASCII path of [encode("idna")]: the labels but the last are not empty, none is too long. *)
Definition idna_ascii (s : string) : option string :=
  let labels := Str.split "." s in
  if forallb (fun l => negb (Str.is_empty l) && (String.length l <? 64)%nat) (removelast labels)
     && (String.length (List.last labels "") <? 64)%nat
  then Some s else None.

Section normalize.
Context `{HostCodec}.

(** [platform/url_normalize.py:117-134 _canonical_host] *)
Definition canonical_host (host : string) : option string * option string :=
  let stripped := Str.strip host in
  let stripped :=
    if Str.starts_with stripped "[" && Str.ends_with stripped "]"
    then Str.take (String.length stripped - 2) (Str.drop 1 stripped) else stripped in
  if Str.contains stripped ":"
  then match ipv6 stripped with Some h => (Some h, None) | None => (None, Some IPV6_ERROR) end
  else if ipv4 stripped then (Some stripped, None)
  else if existsb (fun label => (Str.lower label =? "xn--")%string) (Str.split "." stripped)
  then (None, Some IDNA_ERROR)
  else match (if is_ascii stripped then idna_ascii stripped else idna stripped) with
       | Some h => (Some (Str.lower h), None)
       | None => (None, Some IDNA_ERROR)
       end.

(** [platform/url_normalize.py:105-114 _error] *)
Definition url_error (raw code : string) : ScopeCandidate.t :=
  ScopeCandidate.mk raw None None None "" None (Some code).

Context `{NetlocCheck}.

(** [platform/url_normalize.py:57-102 normalize_url] *)
Definition normalize_url (raw : string) : ScopeCandidate.t :=
  if Str.is_blank raw then url_error raw PARSE_ERROR
  else
  match Url.urlsplit raw with
  | Raise _ => url_error raw PARSE_ERROR
  | Ok parts =>
      if has_userinfo parts then url_error raw NORMALIZATION_USERINFO
      else
      let scheme := Str.lower parts.(Url.scheme) in
      match assoc scheme DEFAULT_PORTS with
      | None => url_error raw PARSE_ERROR
      | Some default_port =>
          match host_name parts with
          | None => url_error raw EMPTY_HOST
          | Some host =>
              if Str.contains host "*" then url_error raw NORMALIZATION_WILDCARD
              else
              match canonical_host host with
              | (None, host_error) => url_error raw (default PARSE_ERROR host_error)
              | (Some canonical_host, _) =>
                  match port parts with
                  | Raise _ => url_error raw PARSE_ERROR
                  | Ok port =>
                      let raw_path := if Str.is_empty parts.(Url.path) then "/"
                                      else parts.(Url.path) in
                      let '(match_path, path_error) := scope_match_path raw_path in
                      let candidate := ScopeCandidate.mk raw (Some scheme) (Some canonical_host)
                                         (Some (default default_port port)) raw_path in
                      match path_error with
                      | Some _ => candidate None path_error
                      | None => candidate match_path None
                      end
                  end
              end
          end
      end
  end.
End normalize.

(** ** The program policy *)

(** [data/records.py:536-548 RateLimitProfileRecord] *)
Module RateLimitProfileRecord.
Record t : Set := mk {
  profile_id : string;
  program_id : string;
  max_requests_per_window : Z;
  window_seconds : Z;
  created_at : Z }.

Definition post_init (x : t) : result t :=
  _ ← data_opaque_id x.(profile_id);
  _ ← data_opaque_id x.(program_id);
  _ ← data_non_negative_int x.(max_requests_per_window);
  _ ← data_non_negative_int x.(window_seconds);
  Ok x.
End RateLimitProfileRecord.

(** [application/program_research_context.py:24-46 ProgramPolicyView] *)
Module ProgramPolicyView.
Record t : Type := mk {
  loopback_fixture : bool;
  max_response_bytes : Z;
  timeout_ms : Z;
  action_policy : list (string * pyval);
  rate_limit_profile : option RateLimitProfileRecord.t }.

Definition allows_action (x : t) (action_name : string) : bool :=
  if Str.is_blank action_name then false
  else match dict_get action_name x.(action_policy) with
       | PNone => true
       | decision =>
           let decision := match decision with PDict d => dict_get "decision" d | v => v end in
           match decision with
           | PStr s => negb (Str.upper s =? "DENY")%string
           | v => truthy v
           end
       end.
End ProgramPolicyView.

(** [application/program_research_context.py:131-144 derive_loopback_only] *)
Definition derive_loopback_only (program_policy : option ProgramPolicyView.t)
    (compiled_scope : option CompiledScope.t) : bool :=
  match program_policy with
  | None => true
  | Some policy =>
      if policy.(ProgramPolicyView.loopback_fixture) then true
      else match compiled_scope with
           | None => true
           | Some c => bool_decide (c.(CompiledScope.rules) = [])
           end
  end.

(** ** [application/authorized_network_envelope.py] *)

(** [application/authorized_network_envelope.py:12-54 AuthorizedNetworkEnvelope] *)
Module AuthorizedNetworkEnvelope.
Record t : Set := mk {
  normalized_scheme : string;
  normalized_host : string;
  normalized_port : Z;
  document_path : string;
  origin_wide : bool;
  allowed_path_prefixes : list string;
  denied_path_prefixes : list string;
  loopback_only : bool;
  source_scope_rule_ids : list string;
  authorization_decision_reference : option string }.

Definition post_init (x : t) : result t :=
  raise_if Str.contains x.(normalized_host) "*" || Str.contains x.(normalized_scheme) "*"
  as ValueError;;
  raise_if x.(normalized_port) <? 1 as ValueError;;
  raise_if negb (Str.starts_with x.(document_path) "/") as ValueError;;
  Ok x.

#[global] Instance post_init_validator : Validator post_init.
Proof. solve_validator. Qed.

Definition to_mapping (x : t) : list (string * pyval) :=
  [ ("normalized_scheme", PStr x.(normalized_scheme));
    ("normalized_host", PStr x.(normalized_host));
    ("normalized_port", PInt x.(normalized_port));
    ("document_path", PStr x.(document_path));
    ("origin_wide", PBool x.(origin_wide));
    ("allowed_path_prefixes", PList (PStr <$> x.(allowed_path_prefixes)));
    ("denied_path_prefixes", PList (PStr <$> x.(denied_path_prefixes)));
    ("loopback_only", PBool x.(loopback_only));
    ("source_scope_rule_ids", PList (PStr <$> x.(source_scope_rule_ids))) ]
  ++ match x.(authorization_decision_reference) with
     | Some r => [("authorization_decision_reference", PStr r)]
     | None => []
     end.

(** [replace(envelope, authorization_decision_reference=r)], which runs [post_init] again. *)
Definition with_reference (x : t) (r : string) : result t :=
  post_init (mk x.(normalized_scheme) x.(normalized_host) x.(normalized_port) x.(document_path)
               x.(origin_wide) x.(allowed_path_prefixes) x.(denied_path_prefixes)
               x.(loopback_only) x.(source_scope_rule_ids) (Some r)).
End AuthorizedNetworkEnvelope.

(** [d[k]] *)
Definition dict_item (k : string) (d : list (string * pyval)) : result pyval :=
  match dict_find k d with Some v => Ok v | None => Raise KeyError end.

(** [d.get(k) or ()] *)
Definition or_empty (v : pyval) : pyval := if truthy v then v else PList [].

Section mappings.
Context `{FloatRepr}.

(** [None if v is None else str(v)] *)
Definition optional_str (v : pyval) : option string :=
  match v with PNone => None | v => Some (py_str v) end.

(** [tuple(str(item) for item in v)] *)
Definition str_items (v : pyval) : result (list string) :=
  match iter_items v with Some l => Ok (py_str <$> l) | None => Raise TypeError end.

(** What [except (KeyError, TypeError, ValueError): return None] makes of a fallible value. *)
Definition or_none {A} (r : result A) : option A := match r with Ok x => Some x | Raise _ => None end.

(** [application/authorized_network_envelope.py:57-83 envelope_from_mapping] *)
Definition envelope_from_mapping (payload : pyval) : option AuthorizedNetworkEnvelope.t :=
  match payload with
  | PDict d =>
      or_none (
        scheme ← dict_item "normalized_scheme" d;
        host ← dict_item "normalized_host" d;
        port_value ← dict_item "normalized_port" d;
        port ← py_int port_value;
        document_path ← dict_item "document_path" d;
        allowed ← str_items (or_empty (dict_get "allowed_path_prefixes" d));
        denied ← str_items (or_empty (dict_get "denied_path_prefixes" d));
        rule_ids ← str_items (or_empty (dict_get "source_scope_rule_ids" d));
        AuthorizedNetworkEnvelope.post_init
          (AuthorizedNetworkEnvelope.mk (py_str scheme) (py_str host) port (py_str document_path)
             (truthy (dict_get "origin_wide" d)) allowed denied
             (truthy (dict_get "loopback_only" d)) rule_ids
             (optional_str (dict_get "authorization_decision_reference" d))))
  | _ => None
  end.
End mappings.

(** [application/authorized_network_envelope.py:134-139 _origin_matches] *)
Definition envelope_origin_matches (candidate : ScopeCandidate.t) (rule : CompiledScopeRule.t) : bool :=
  bool_decide (candidate.(ScopeCandidate.normalized_scheme) = Some rule.(CompiledScopeRule.scheme))
  && bool_decide (candidate.(ScopeCandidate.normalized_host) = rule.(CompiledScopeRule.host))
  && bool_decide (candidate.(ScopeCandidate.normalized_port) = Some rule.(CompiledScopeRule.port)).

(** The rules of the origin that allow, and those that exclude.
    [application/authorized_network_envelope.py:105-114 derive_authorized_network_envelope] *)
Definition origin_allows (candidate : ScopeCandidate.t) (compiled : CompiledScope.t)
    : list CompiledScopeRule.t :=
  List.filter (fun rule => envelope_origin_matches candidate rule
                           && is_allow rule.(CompiledScopeRule.effect))
    compiled.(CompiledScope.rules).
(** [application/authorized_network_envelope.py:105-114 derive_authorized_network_envelope] *)
Definition origin_denies (candidate : ScopeCandidate.t) (compiled : CompiledScope.t)
    : list CompiledScopeRule.t :=
  List.filter (fun rule => envelope_origin_matches candidate rule
                           && is_exclusion rule.(CompiledScopeRule.effect))
    compiled.(CompiledScope.rules).

(** [rule.path_prefix or "/"]
    [application/authorized_network_envelope.py:120 derive_authorized_network_envelope] *)
Definition denied_prefix (rule : CompiledScopeRule.t) : string :=
  match rule.(CompiledScopeRule.path_prefix) with
  | Some p => if Str.is_empty p then "/" else p
  | None => "/"
  end.

(** [application/authorized_network_envelope.py:85-131 derive_authorized_network_envelope] *)
Definition derive_authorized_network_envelope (candidate : ScopeCandidate.t)
    (compiled : CompiledScope.t) (check : ScopeCheck.t) (loopback_only : bool)
    (authorization_decision_reference : option string)
    : result (option AuthorizedNetworkEnvelope.t) :=
  if negb (bool_decide (check.(ScopeCheck.decision) = ScopeDecision.ALLOW)) then Ok None
  else
  match candidate.(ScopeCandidate.normalized_scheme), candidate.(ScopeCandidate.normalized_host),
        candidate.(ScopeCandidate.normalized_port), candidate.(ScopeCandidate.scope_match_path) with
  | Some scheme, Some host, Some port, Some path =>
      let matched := check.(ScopeCheck.matched_rule_ids) in
      let matched_allows :=
        List.filter (fun rule => mem rule.(CompiledScopeRule.rule_id) matched)
          (origin_allows candidate compiled) in
      let origin_wide :=
        existsb (fun rule => bool_decide (rule.(CompiledScopeRule.path_prefix) = None))
          matched_allows in
      let allowed_prefixes := omap CompiledScopeRule.path_prefix matched_allows in
      let denied_prefixes := denied_prefix <$> origin_denies candidate compiled in
      envelope ← AuthorizedNetworkEnvelope.post_init
        (AuthorizedNetworkEnvelope.mk scheme host port path origin_wide allowed_prefixes
           denied_prefixes loopback_only matched authorization_decision_reference);
      Ok (Some envelope)
  | _, _, _, _ => Ok None
  end.

(** ** The worker: [worker_runtime/python/browser_envelope.py] *)

(** [worker_runtime/python/browser_envelope.py:16-18 UNSUPPORTED_SCHEMES] *)
Definition UNSUPPORTED_SCHEMES : list string :=
  ["file"; "data"; "javascript"; "blob"; "ftp"; "about"; "ws"; "wss"].
(** [worker_runtime/python/browser_envelope.py:19 ALLOWED_SCHEMES] *)
Definition ALLOWED_SCHEMES : list string := ["http"; "https"].
(** [worker_runtime/python/browser_envelope.py:20 LOOPBACK_HOST] *)
Definition LOOPBACK_HOST : string := "127.0.0.1".
(** [worker_runtime/python/browser_envelope.py:21 UNSUPPORTED_SCHEME] *)
Definition UNSUPPORTED_SCHEME : string := "UNSUPPORTED_SCHEME".
(** [worker_runtime/python/browser_envelope.py:22 OUTSIDE_ENVELOPE] *)
Definition OUTSIDE_ENVELOPE : string := "OUTSIDE_ENVELOPE".

(** The fields are those of [AuthorizedNetworkEnvelope]; nothing is validated.
    [worker_runtime/python/browser_envelope.py:25-38 BrowserNetworkEnvelope] *)
Module BrowserNetworkEnvelope.
Record t : Set := mk {
  normalized_scheme : string;
  normalized_host : string;
  normalized_port : Z;
  document_path : string;
  origin_wide : bool;
  allowed_path_prefixes : list string;
  denied_path_prefixes : list string;
  loopback_only : bool;
  source_scope_rule_ids : list string;
  authorization_decision_reference : option string }.
End BrowserNetworkEnvelope.

(** [if not isinstance(v, (list, tuple)): return None] *)
Definition list_items (v : pyval) : option (list pyval) :=
  match v with PList l => Some l | _ => None end.

Section worker.
Context `{FloatRepr}.

(** [worker_runtime/python/browser_envelope.py:41-83 parse_envelope] *)
Definition parse_envelope (mapping : pyval) : option BrowserNetworkEnvelope.t :=
  match mapping with
  | PDict d =>
      scheme_value ← dict_find "normalized_scheme" d;
      host_value ← dict_find "normalized_host" d;
      port_value ← dict_find "normalized_port" d;
      port ← or_none (py_int port_value);
      path_value ← dict_find "document_path" d;
      let scheme := Str.lower (Str.strip (py_str scheme_value)) in
      let host := Str.lower (Str.strip (py_str host_value)) in
      let document_path := py_str path_value in
      if Str.contains host "*" || Str.contains scheme "*" then None
      else if Str.is_empty scheme || Str.is_empty host then None
      else if port <? 1 then None
      else if negb (Str.starts_with document_path "/") then None
      else
        allowed ← list_items (or_empty (dict_get "allowed_path_prefixes" d));
        denied ← list_items (or_empty (dict_get "denied_path_prefixes" d));
        rule_ids ← list_items (or_empty (dict_get "source_scope_rule_ids" d));
        Some (BrowserNetworkEnvelope.mk scheme host port document_path
                (truthy (dict_get "origin_wide" d)) (py_str <$> allowed) (py_str <$> denied)
                (truthy (dict_get "loopback_only" d)) (py_str <$> rule_ids)
                (optional_str (dict_get "authorization_decision_reference" d)))
  | _ => None
  end.
End worker.

(** [worker_runtime/python/browser_envelope.py:157-165 _path_ambiguous] *)
Definition path_ambiguous (path : string) : bool :=
  let lowered := Str.lower path in
  (Str.contains path "\" || Str.contains path "/../" || Str.ends_with path "/.."
   || Str.contains path "/./" || Str.ends_with path "/.")
  || Str.contains path "//"
  || (Str.contains path "%" && (Str.contains lowered "%2f" || Str.contains lowered "%2e")).

Section enforcement.
Context `{NetlocCheck}.

(** A URL the worker can read ([inl]: scheme, host, port and path), or why it cannot.
    [worker_runtime/python/browser_envelope.py:130-154 _split_url] *)
Definition split_url (url : string) : (string * string * Z * string) + string :=
  if Str.is_blank url then inr OUTSIDE_ENVELOPE
  else
  match Url.urlsplit (Str.strip url) with
  | Raise _ => inr OUTSIDE_ENVELOPE
  | Ok parts =>
      if has_userinfo parts then inr OUTSIDE_ENVELOPE
      else
      let scheme := Str.lower parts.(Url.scheme) in
      if mem scheme UNSUPPORTED_SCHEMES || negb (mem scheme ALLOWED_SCHEMES)
      then inr UNSUPPORTED_SCHEME
      else
      let host := Str.lower (default "" (host_name parts)) in
      if Str.is_empty host then inr OUTSIDE_ENVELOPE
      else if Str.contains host "*" then inr OUTSIDE_ENVELOPE
      else
      match port parts with
      | Raise _ => inr OUTSIDE_ENVELOPE
      | Ok port =>
          match (match port with Some p => Some p | None => assoc scheme DEFAULT_PORTS end) with
          | None => inr OUTSIDE_ENVELOPE
          | Some port =>
              let path := if Str.is_empty parts.(Url.path) then "/" else parts.(Url.path) in
              if path_ambiguous path then inr OUTSIDE_ENVELOPE
              else inl (scheme, host, port, path)
          end
      end
  end.

(** [prefix and path.startswith(prefix)] *)
Definition under (path prefix : string) : bool :=
  negb (Str.is_empty prefix) && Str.starts_with path prefix.

(** [worker_runtime/python/browser_envelope.py:86-110 envelope_allows] *)
Definition envelope_allows (envelope : BrowserNetworkEnvelope.t) (url : string) : bool * string :=
  let outside := (false, OUTSIDE_ENVELOPE) in
  match split_url url with
  | inr reason => (false, reason)
  | inl (scheme, host, port, path) =>
      if envelope.(BrowserNetworkEnvelope.loopback_only) && negb (host =? LOOPBACK_HOST)%string
      then outside
      else if negb (scheme =? envelope.(BrowserNetworkEnvelope.normalized_scheme))%string
      then outside
      else if negb (host =? envelope.(BrowserNetworkEnvelope.normalized_host))%string then outside
      else if negb (port =? envelope.(BrowserNetworkEnvelope.normalized_port)) then outside
      else if existsb (under path) envelope.(BrowserNetworkEnvelope.denied_path_prefixes)
      then outside
      else if envelope.(BrowserNetworkEnvelope.origin_wide) then (true, "")
      else if (path =? envelope.(BrowserNetworkEnvelope.document_path))%string then (true, "")
      else if existsb (under path) envelope.(BrowserNetworkEnvelope.allowed_path_prefixes)
      then (true, "")
      else outside
  end.

(** [worker_runtime/python/browser_envelope.py:113-117 url_is_representable] *)
Definition url_is_representable (url : string) : bool :=
  match split_url url with inl _ => true | inr _ => false end.

(** [worker_runtime/python/browser_envelope.py:120-127 normalize_target] *)
Definition normalize_target (url : string) : option string :=
  match split_url url with
  | inr _ => None
  | inl (scheme, host, port, path) =>
      if bool_decide (assoc scheme DEFAULT_PORTS = Some port)
      then Some (scheme +:+ "://" +:+ host +:+ path)
      else Some (scheme +:+ "://" +:+ host +:+ ":" +:+ pretty port +:+ path)
  end.
End enforcement.

(** ** [application/http_transaction_authorization.py] *)

Definition HTTP_RAW_EXCHANGE_CAPABILITY : string := "http.raw_exchange".

(** [application/http_transaction_authorization.py:34-43 HTTP_SCOPE_CAPABILITIES] *)
Definition HTTP_SCOPE_CAPABILITIES : list string :=
  [ HTTP_TRANSACTION_CAPABILITY; HTTP_AUTHENTICATION_CAPABILITY; BROWSER_PAGE_CAPABILITY;
    HTTP_AUTHORIZATION_DIFFERENTIAL_CAPABILITY; HTTP_STATE_TRANSITION_CAPABILITY;
    HTTP_RAW_EXCHANGE_CAPABILITY ].

(** [application/http_transaction_authorization.py:46-52 HttpTransactionScopeDecision] *)
Module HttpTransactionScopeDecision.
Record t : Set := mk {
  accepted : bool;
  reason_code : option ReasonCode.t;
  input_rejected : bool;
  scope_check : option ScopeCheck.t;
  envelope : option AuthorizedNetworkEnvelope.t }.
End HttpTransactionScopeDecision.

(** The second case of the code is contained in the test of the first.
    [application/http_transaction_authorization.py:167-180 _from_argument_issue] *)
Definition from_argument_issue (code : ArgumentValidationIssue) : HttpTransactionScopeDecision.t :=
  HttpTransactionScopeDecision.mk false (Some ReasonCode.SCHEMA_MISMATCH)
    (mem code ["INVALID_ARGUMENT_TYPE"; "UNEXPECTED_ARGUMENT"; "MISSING_REQUIRED_ARGUMENT"])
    None None.

(** [by_id.get(rule_id)]: the last rule of that id. *)
Definition rule_by_id (compiled : CompiledScope.t) (rule_id : string) : option CompiledScopeRule.t :=
  last (List.filter (fun r => (r.(CompiledScopeRule.rule_id) =? rule_id)%string)
          compiled.(CompiledScope.rules)).

(** [application/http_transaction_authorization.py:91-109 scope_evaluation_from_compiled_check] *)
Definition scope_evaluation_from_compiled_check (check : ScopeCheck.t) (compiled : CompiledScope.t)
    : result ScopeEvaluationInput.t :=
  matches ← traverse (fun rule =>
      ScopeRuleMatch.post_init
        (ScopeRuleMatch.mk rule.(CompiledScopeRule.rule_id) rule.(CompiledScopeRule.effect) true
           rule.(CompiledScopeRule.source_reference)))
    (omap (rule_by_id compiled) check.(ScopeCheck.matched_rule_ids));
  Ok (ScopeEvaluationInput.mk matches
        (bool_decide (check.(ScopeCheck.decision) = ScopeDecision.REQUIRE_HUMAN_REVIEW))).

Section authorize.
Context `{FloatRepr} `{NetlocCheck} `{HostCodec}.

(** [application/http_transaction_authorization.py:160-164 _request_url] *)
Definition request_url (origin path : string) : result string :=
  parsed ← Url.urlsplit origin;
  if negb (mem parsed.(Url.path) [""; "/"])
  then Ok (if Str.starts_with path "/" then origin +:+ path else origin +:+ "/" +:+ path)
  else Ok (origin +:+ path).

(** [str(arguments["authorized_origin"]).strip().rstrip("/")] *)
Definition plan_origin (plan : ExperimentPlan.t) : result string :=
  v ← dict_item "authorized_origin" plan.(ExperimentPlan.arguments);
  Ok (Str.rstrip_chars ["/"%char] (Str.strip (py_str v))).

(** [str(arguments.get("path", "/"))] *)
Definition plan_path (plan : ExperimentPlan.t) : string :=
  match dict_find "path" plan.(ExperimentPlan.arguments) with Some v => py_str v | None => "/" end.

(** [clock] is what [datetime.now] returns when the scope is evaluated.
    [application/http_transaction_authorization.py:112-146 _authorize_origin_path] *)
Definition authorize_origin_path (clock : Z) (plan : ExperimentPlan.t)
    (compiled_scope : option CompiledScope.t) (program_policy : option ProgramPolicyView.t)
    : result HttpTransactionScopeDecision.t :=
  match compiled_scope with
  | None =>
      Ok (HttpTransactionScopeDecision.mk false (Some ReasonCode.SCOPE_NOT_EXPLICITLY_ALLOWED)
            false None None)
  | Some compiled =>
      origin ← plan_origin plan;
      url ← request_url origin (plan_path plan);
      let candidate := normalize_url url in
      let check := evaluate_scope_candidate clock candidate compiled None in
      if bool_decide (check.(ScopeCheck.decision) = ScopeDecision.ALLOW)
      then
        envelope ← derive_authorized_network_envelope candidate compiled check
                     (derive_loopback_only program_policy compiled_scope) None;
        Ok (HttpTransactionScopeDecision.mk true None false (Some check) envelope)
      else
        Ok (HttpTransactionScopeDecision.mk false (Some check.(ScopeCheck.reason_code)) false
              (Some check) None)
  end.

(** The policy of the arguments of a capability, where the authorization asks for it again. *)
Definition recheck_arguments (plan : ExperimentPlan.t) : verdict :=
  let capability := plan.(ExperimentPlan.required_capability) in
  let action := plan.(ExperimentPlan.action) in
  let arguments := plan.(ExperimentPlan.arguments) in
  if (capability =? HTTP_AUTHENTICATION_CAPABILITY)%string
  then validate_http_authentication_arguments action arguments
  else if (capability =? BROWSER_PAGE_CAPABILITY)%string
  then validate_browser_page_arguments action arguments
  else if (capability =? HTTP_RAW_EXCHANGE_CAPABILITY)%string
  then validate_http_raw_exchange_arguments action arguments
  else if (capability =? HTTP_TRANSACTION_CAPABILITY)%string
  then validate_http_transaction_arguments action arguments
  else Ok None.

(** [application/http_transaction_authorization.py:56-88 authorize_http_transaction_plan] *)
Definition authorize_http_transaction_plan (clock : Z) (plan : ExperimentPlan.t)
    (compiled_scope : option CompiledScope.t) (program_policy : option ProgramPolicyView.t)
    : result HttpTransactionScopeDecision.t :=
  if negb (mem plan.(ExperimentPlan.required_capability) HTTP_SCOPE_CAPABILITIES)
  then Ok (HttpTransactionScopeDecision.mk true None false None None)
  else
    found ← recheck_arguments plan;
    match found with
    | Some code => Ok (from_argument_issue code)
    | None => authorize_origin_path clock plan compiled_scope program_policy
    end.
End authorize.

(** ** Theorems *)

(** *** The mapping sent to the worker reads back as the envelope *)

Section wire.
Context `{FloatRepr}.

Lemma or_empty_items (l : list string) : iter_items (or_empty (PList (PStr <$> l))) = Some (PStr <$> l).
Proof. by destruct l. Qed.

Lemma or_empty_list (l : list string) : list_items (or_empty (PList (PStr <$> l))) = Some (PStr <$> l).
Proof. by destruct l. Qed.

Lemma py_str_texts (l : list string) : py_str <$> (PStr <$> l) = l.
Proof. by rewrite <-list_fmap_compose; induction l as [|s l IH]; cbn; [|rewrite IH]. Qed.

Lemma str_items_texts l : str_items (or_empty (PList (PStr <$> l))) = Ok l.
Proof. unfold str_items. by rewrite or_empty_items, py_str_texts. Qed.

Lemma get_reference (x : AuthorizedNetworkEnvelope.t) :
  optional_str (dict_get "authorization_decision_reference" (AuthorizedNetworkEnvelope.to_mapping x))
  = x.(AuthorizedNetworkEnvelope.authorization_decision_reference).
Proof. destruct x as [? ? ? ? ? ? ? ? ? [r|]]; reflexivity. Qed.

(** Every envelope the control plane accepts reads back from its mapping. *)
Lemma envelope_roundtrip x :
  AuthorizedNetworkEnvelope.post_init x = Ok x ->
  envelope_from_mapping (PDict (AuthorizedNetworkEnvelope.to_mapping x)) = Some x.
Proof.
  intros Hx. unfold envelope_from_mapping. rewrite get_reference.
  change (dict_get "allowed_path_prefixes" (AuthorizedNetworkEnvelope.to_mapping x))
    with (PList (PStr <$> x.(AuthorizedNetworkEnvelope.allowed_path_prefixes))).
  change (dict_get "denied_path_prefixes" (AuthorizedNetworkEnvelope.to_mapping x))
    with (PList (PStr <$> x.(AuthorizedNetworkEnvelope.denied_path_prefixes))).
  change (dict_get "source_scope_rule_ids" (AuthorizedNetworkEnvelope.to_mapping x))
    with (PList (PStr <$> x.(AuthorizedNetworkEnvelope.source_scope_rule_ids))).
  rewrite !str_items_texts. destruct x. cbn -[AuthorizedNetworkEnvelope.post_init] in *.
  unfold AuthorizedNetworkEnvelope.normalized_scheme, AuthorizedNetworkEnvelope.normalized_host in *.
  by rewrite Hx.
Qed.

(** The envelope as the worker holds it. *)
Definition worker_view (x : AuthorizedNetworkEnvelope.t) : BrowserNetworkEnvelope.t :=
  BrowserNetworkEnvelope.mk
    (Str.lower (Str.strip x.(AuthorizedNetworkEnvelope.normalized_scheme)))
    (Str.lower (Str.strip x.(AuthorizedNetworkEnvelope.normalized_host)))
    x.(AuthorizedNetworkEnvelope.normalized_port) x.(AuthorizedNetworkEnvelope.document_path)
    x.(AuthorizedNetworkEnvelope.origin_wide) x.(AuthorizedNetworkEnvelope.allowed_path_prefixes)
    x.(AuthorizedNetworkEnvelope.denied_path_prefixes) x.(AuthorizedNetworkEnvelope.loopback_only)
    x.(AuthorizedNetworkEnvelope.source_scope_rule_ids)
    x.(AuthorizedNetworkEnvelope.authorization_decision_reference).

Lemma parse_worker_view x w :
  parse_envelope (PDict (AuthorizedNetworkEnvelope.to_mapping x)) = Some w -> w = worker_view x.
Proof.
  unfold parse_envelope. rewrite get_reference.
  change (dict_get "allowed_path_prefixes" (AuthorizedNetworkEnvelope.to_mapping x))
    with (PList (PStr <$> x.(AuthorizedNetworkEnvelope.allowed_path_prefixes))).
  change (dict_get "denied_path_prefixes" (AuthorizedNetworkEnvelope.to_mapping x))
    with (PList (PStr <$> x.(AuthorizedNetworkEnvelope.denied_path_prefixes))).
  change (dict_get "source_scope_rule_ids" (AuthorizedNetworkEnvelope.to_mapping x))
    with (PList (PStr <$> x.(AuthorizedNetworkEnvelope.source_scope_rule_ids))).
  rewrite !or_empty_list. cbn -[Str.strip Str.lower]. rewrite !py_str_texts. unfold worker_view.
  intros Hp. repeat case_match; try done. by injection Hp.
Qed.
End wire.

(** *** Hosts *)

Lemma lower_ascii_idem c : Str.lower_ascii (Str.lower_ascii c) = Str.lower_ascii c.
Proof. destruct c as [[] [] [] [] [] [] [] []]; reflexivity. Qed.

Lemma lower_idem s : Str.lower (Str.lower s) = Str.lower s.
Proof. induction s as [|c s IH]; [done|]. cbn [Str.lower]. by rewrite lower_ascii_idem, IH. Qed.

Lemma find_contains p s i : Str.find p s = Some i -> Str.contains (Str.drop i s) p = true.
Proof.
  revert i. induction s as [|c s IH]; intros i; cbn [Str.find].
  - destruct (String.prefix p "") eqn:E; [|done]. intros [= <-]. change (String.prefix p "" || false = true). by rewrite E.
  - destruct (String.prefix p (String c s)) eqn:E.
    + intros [= <-]. cbn [Str.drop Str.contains]. by rewrite E.
    + destruct (Str.find p s) as [j|]; [|done]. intros [= <-]. cbn. by apply IH.
Qed.

Lemma contains_app_r a s p : Str.contains s p = true -> Str.contains (a +:+ s) p = true.
Proof.
  rewrite !Str.contains_true. intros (x & y & ->). exists (a +:+ x), y. by rewrite Str.append_assoc.
Qed.

Lemma percent_in_lower s : Str.contains s "%" = true -> Str.contains (Str.lower s) "%" = true.
Proof.
  induction s as [|c s IH]; [done|]. cbn [Str.contains Str.lower].
  rewrite !orb_true_iff. intros [Hc|Hs]; [left|by right; apply IH].
  apply Str.starts_with_true in Hc as [r [= ->]]. by destruct s.
Qed.

Lemma zone_found s i :
  Str.find "%" s = Some i ->
  Str.contains (Str.lower (Str.lower (Str.take i s) +:+ Str.drop i s)) "%" = true.
Proof. intros Hf. by apply percent_in_lower, contains_app_r, find_contains. Qed.

(** A host without a zone is in lower case already. *)
Lemma host_of_lower n h :
  Url.host_of n = Some h -> Str.contains (Str.lower h) "%" = false -> Str.lower h = h.
Proof.
  unfold Url.host_of. cbv zeta. destruct (Str.is_empty _); [done|].
  destruct (Str.find "%" _) as [i|] eqn:E; [|intros [= <-] _; apply lower_idem].
  intros [= <-] Hn. apply zone_found in E. exact (False_ind _ (eq_true_false_abs _ E Hn)).
Qed.

Lemma scope_match_path_same raw m :
  scope_match_path raw = (m, None) -> m = Some raw /\ Str.starts_with raw "/" = true.
Proof.
  unfold scope_match_path. destruct (Str.starts_with raw "/"); [|by repeat case_match].
  repeat case_match; naive_solver congruence.
Qed.

Section bounds.
Context `{NetlocCheck} `{HostCodec}.

(** A host as Core writes it: canonical, without a zone. *)
Record plain_host (h : string) : Prop := {
  ph_canonical : canonical_host h = (Some h, None);
  ph_lower : Str.lower (Str.strip h) = h;
  ph_zone : Str.contains h "%" = false }.

(** What the worker reads of a URL is what Core normalizes, where Core normalizes it. *)
Lemma split_url_normalized url scheme host number path :
  split_url url = inl (scheme, host, number, path) -> plain_host host ->
  let c := normalize_url (Str.strip url) in
  c.(ScopeCandidate.normalization_error) = None ->
  c = ScopeCandidate.mk (Str.strip url) (Some scheme) (Some host) (Some number) path (Some path) None
  /\ Str.starts_with path "/" = true.
Proof.
  intros Hs [Hcan Hlow Hz]. cbv zeta. unfold split_url in Hs. unfold normalize_url.
  rewrite Str.is_blank_strip. destruct (Str.is_blank url); [done|].
  destruct (Url.urlsplit (Str.strip url)) as [parts|e]; [|done].
  destruct (has_userinfo parts); [done|].
  destruct (_ || _) eqn:Esch; [done|].
  destruct (host_name parts) as [h|] eqn:Eh; cbn [default] in Hs; [|done].
  change (id h) with h in Hs. destruct (Str.is_empty (Str.lower h)); [done|].
  destruct (Str.contains (Str.lower h) "*") eqn:Ew; [done|].
  destruct (port parts) as [p|e]; [|done].
  destruct (assoc (Str.lower parts.(Url.scheme)) DEFAULT_PORTS) as [dp|] eqn:Ed;
    [|intros He; exfalso; revert He; by case_match].
  assert (Hh : Str.lower h = host)
    by (destruct p; repeat case_match; congruence).
  assert (Hhh : h = host).
  { rewrite <-Hh. symmetry. apply (host_of_lower _ _ Eh). by rewrite Hh. }
  rewrite Hhh, Hcan in *. rewrite Hh in Ew. rewrite Ew.
  set (raw_path := if Str.is_empty parts.(Url.path) then "/" else parts.(Url.path)) in *.
  destruct (scope_match_path raw_path) as [m [e|]] eqn:Em; [done|]. intros _.
  destruct (scope_match_path_same _ _ Em) as [-> Hsl].
  destruct p; destruct (path_ambiguous raw_path); try done; injection Hs as <- _ <- <-; done.
Qed.
End bounds.

(** *** Rules at an origin *)

Lemma starts_with_refl s : Str.starts_with s s = true.
Proof. apply Str.starts_with_true. exists "". by rewrite Str.append_nil_r. Qed.

Lemma segment_prefix_starts path p : path_prefix_matches path p = true -> Str.starts_with path p = true.
Proof.
  unfold path_prefix_matches. destruct (path =? p)%string eqn:E.
  - intros _. apply String.eqb_eq in E as ->. apply starts_with_refl.
  - rewrite !Str.starts_with_true. intros [r ->]. destruct (negb _); [|by exists r].
    rewrite Str.append_assoc. eauto.
Qed.

Lemma boundary_prefix_matches path p :
  Str.ends_with p "/" = true -> Str.starts_with path p = true -> path_prefix_matches path p = true.
Proof. unfold path_prefix_matches. intros -> Hp. by destruct (_ =? _)%string. Qed.

Lemma rule_matches_same_origin c c' path r :
  c.(ScopeCandidate.normalized_scheme) = c'.(ScopeCandidate.normalized_scheme) ->
  c.(ScopeCandidate.normalized_host) = c'.(ScopeCandidate.normalized_host) ->
  c.(ScopeCandidate.normalized_port) = c'.(ScopeCandidate.normalized_port) ->
  rule_matches c path r = rule_matches c' path r.
Proof. intros Hs Hh Hp. unfold rule_matches, origin_matches. by rewrite Hs, Hh, Hp. Qed.

Lemma envelope_origin_is_origin c r h :
  c.(ScopeCandidate.normalized_host) = Some h ->
  envelope_origin_matches c r = true
  <-> origin_matches c r = true /\ r.(CompiledScopeRule.host) = Some h.
Proof.
  intros Hh. unfold envelope_origin_matches, origin_matches, host_matches. rewrite Hh.
  rewrite !andb_true_iff, !bool_decide_eq_true. split.
  - intros [[Hs Hr] Hp]. rewrite <-Hr. rewrite !bool_decide_true by done.
    by rewrite String.eqb_refl.
  - intros [Ho Hr]. rewrite Hr in Ho |- *. rewrite String.eqb_refl in Ho. cbn in Ho.
    destruct (bool_decide (ScopeCandidate.normalized_scheme c = _)) eqn:Es; [|done].
    apply bool_decide_eq_true in Es. cbn in Ho. apply bool_decide_eq_true in Ho. done.
Qed.

Lemma matching_rule_prefix c path r :
  rule_matches c path r = true -> Str.starts_with path "/" = true ->
  origin_matches c r = true /\ under path (denied_prefix r) = true.
Proof.
  unfold rule_matches, under, denied_prefix. destruct (negb _) eqn:Eo; [done|].
  apply negb_false_iff in Eo. intros Hm Hsl. split; [done|].
  destruct (CompiledScopeRule.path_prefix r) as [[|x p]|]; try exact Hsl.
  by apply segment_prefix_starts.
Qed.

(** Scope rules the worker's prefix tests can enforce at a host: the rules for the host name it
    exactly, the allowed paths end at a segment, and no rule has expired. *)
Record enforceable (at_ : Z) (h : string) (compiled : CompiledScope.t) : Prop := {
  en_exact : forall r, r ∈ compiled.(CompiledScope.rules) -> host_matches (Some h) r = true ->
    r.(CompiledScopeRule.host) = Some h;
  en_boundary : forall r p, r ∈ compiled.(CompiledScope.rules) ->
    r.(CompiledScopeRule.effect) = ScopeRuleEffect.ALLOW ->
    r.(CompiledScopeRule.path_prefix) = Some p -> Str.ends_with p "/" = true;
  en_current : forall r, r ∈ compiled.(CompiledScope.rules) -> is_expired at_ r = false }.

Lemma origin_at_host c r h :
  c.(ScopeCandidate.normalized_host) = Some h -> origin_matches c r = true ->
  host_matches (Some h) r = true.
Proof.
  intros Hh. unfold origin_matches. rewrite Hh. destruct (negb _); [done|].
  by destruct (host_matches _ r).
Qed.

Lemma is_allow_true e : is_allow e = true <-> e = ScopeRuleEffect.ALLOW.
Proof. unfold is_allow. apply bool_decide_eq_true. Qed.

(** What an envelope says of the candidate and the rules it was derived from. *)
Record derived_from (c : ScopeCandidate.t) (compiled : CompiledScope.t) (matched : list string)
    (e : AuthorizedNetworkEnvelope.t) : Prop := {
  df_scheme : c.(ScopeCandidate.normalized_scheme) = Some e.(AuthorizedNetworkEnvelope.normalized_scheme);
  df_host : c.(ScopeCandidate.normalized_host) = Some e.(AuthorizedNetworkEnvelope.normalized_host);
  df_port : c.(ScopeCandidate.normalized_port) = Some e.(AuthorizedNetworkEnvelope.normalized_port);
  df_path : c.(ScopeCandidate.scope_match_path) = Some e.(AuthorizedNetworkEnvelope.document_path);
  df_wide : e.(AuthorizedNetworkEnvelope.origin_wide) = true ->
    exists r, r ∈ origin_allows c compiled /\ r.(CompiledScopeRule.path_prefix) = None;
  df_allowed : forall p, p ∈ e.(AuthorizedNetworkEnvelope.allowed_path_prefixes) ->
    exists r, r ∈ origin_allows c compiled /\ r.(CompiledScopeRule.path_prefix) = Some p;
  df_denied : forall r, r ∈ origin_denies c compiled ->
    denied_prefix r ∈ e.(AuthorizedNetworkEnvelope.denied_path_prefixes);
  df_ids : e.(AuthorizedNetworkEnvelope.source_scope_rule_ids) = matched }.

Lemma derive_ok c compiled check loopback ref e :
  derive_authorized_network_envelope c compiled check loopback ref = Ok (Some e) ->
  check.(ScopeCheck.decision) = ScopeDecision.ALLOW
  /\ derived_from c compiled check.(ScopeCheck.matched_rule_ids) e.
Proof.
  unfold derive_authorized_network_envelope.
  destruct (negb _) eqn:Ed; [done|]. apply negb_false_iff, bool_decide_eq_true in Ed.
  destruct (ScopeCandidate.normalized_scheme c) as [s|] eqn:Es; [|done].
  destruct (ScopeCandidate.normalized_host c) as [h|] eqn:Eh; [|done].
  destruct (ScopeCandidate.normalized_port c) as [n|] eqn:En; [|done].
  destruct (ScopeCandidate.scope_match_path c) as [path|] eqn:Ep; [|done].
  intros (e' & Hp & [= <-])%bind_ok. split; [done|].
  apply validated in Hp as ->. split; cbn; try done.
  - rewrite existsb_true. intros (r & Hr & Hn). apply elem_of_list_filter_bool in Hr as [Hr _].
    exists r. by apply bool_decide_eq_true in Hn.
  - intros p (r & Hr & Hn)%list_elem_of_omap. apply elem_of_list_filter_bool in Hr as [Hr _]. eauto.
  - intros r Hr. exact (list_elem_of_fmap_2 denied_prefix _ _ Hr).
Qed.

Section soundness.
Context `{FloatRepr} `{NetlocCheck} `{HostCodec}.

Lemma normalized_origin raw :
  let c := normalize_url raw in
  c.(ScopeCandidate.normalization_error) = None ->
  exists s, c.(ScopeCandidate.normalized_scheme) = Some s /\ (s = "http" \/ s = "https").
Proof.
  cbv zeta. unfold normalize_url. destruct (Str.is_blank raw); [done|].
  destruct (Url.urlsplit raw) as [parts|]; [|done]. destruct (has_userinfo parts); [done|].
  destruct (assoc (Str.lower (Url.scheme parts)) DEFAULT_PORTS) as [dp|] eqn:Ed; [|done].
  intros He. exists (Str.lower (Url.scheme parts)). split; [by repeat case_match|].
  apply assoc_Some_in in Ed. unfold DEFAULT_PORTS in Ed. rewrite !elem_of_cons in Ed.
  destruct Ed as [[= -> _]|[[= -> _]|[]%elem_of_nil]]; auto.
Qed.

(** The tests of [envelope_allows], taken apart. *)
Lemma envelope_allows_ok w url reason :
  envelope_allows w url = (true, reason) ->
  exists path, split_url url = inl (w.(BrowserNetworkEnvelope.normalized_scheme),
                                    w.(BrowserNetworkEnvelope.normalized_host),
                                    w.(BrowserNetworkEnvelope.normalized_port), path)
    /\ (forall p, p ∈ w.(BrowserNetworkEnvelope.denied_path_prefixes) -> under path p = false)
    /\ (w.(BrowserNetworkEnvelope.origin_wide) = true
        \/ path = w.(BrowserNetworkEnvelope.document_path)
        \/ exists p, p ∈ w.(BrowserNetworkEnvelope.allowed_path_prefixes) /\ under path p = true)
    /\ (w.(BrowserNetworkEnvelope.loopback_only) = true ->
        w.(BrowserNetworkEnvelope.normalized_host) = LOOPBACK_HOST).
Proof.
  unfold envelope_allows. destruct (split_url url) as [[[[s h] n] path]|]; [|done].
  destruct (_ && _) eqn:El; [done|].
  destruct (s =? BrowserNetworkEnvelope.normalized_scheme w)%string eqn:Es; [|done].
  apply String.eqb_eq in Es as ->. cbn [negb].
  destruct (h =? BrowserNetworkEnvelope.normalized_host w)%string eqn:Eh; [|done].
  apply String.eqb_eq in Eh as ->. cbn [negb].
  destruct (n =? BrowserNetworkEnvelope.normalized_port w) eqn:En; [|done].
  apply Z.eqb_eq in En as ->. cbn [negb].
  destruct (existsb _ _) eqn:Ed; [done|]. intros Hok. exists path. split; [done|].
  split; [by apply existsb_false|]. split.
  - destruct (BrowserNetworkEnvelope.origin_wide w); [by left|].
    destruct (path =? _)%string eqn:Ep; [right; left; by apply String.eqb_eq|].
    destruct (existsb _ (BrowserNetworkEnvelope.allowed_path_prefixes w)) eqn:Ea; [|done].
    right. right. by apply existsb_true.
  - intros Hl. rewrite Hl in El. cbn in El.
    apply negb_false_iff, String.eqb_eq in El. done.
Qed.

Lemma envelope_sound clock later raw compiled ids e url reason :
  let c := normalize_url raw in
  let host := e.(AuthorizedNetworkEnvelope.normalized_host) in
  scope_allows clock c compiled -> derived_from c compiled ids e ->
  plain_host host -> enforceable later host compiled ->
  envelope_allows (worker_view e) url = (true, reason) ->
  let c' := normalize_url (Str.strip url) in
  c'.(ScopeCandidate.normalization_error) = None ->
  scope_allows later c' compiled.
Proof.
  cbv zeta. set (c := normalize_url raw).
  intros (Hcn & p0 & Hp0 & _ & r0 & Hr0 & Hm0 & Ha0) Hdf Hhost Hen Hw Hn.
  destruct (normalized_origin raw Hcn) as (s & Hs & Hs'). fold c in Hs.
  apply envelope_allows_ok in Hw as (path & Hsplit & Hden & Hal & _).
  destruct Hdf as [Dscheme Dhost Dport Dpath Dwide Dallow Ddeny _].
  destruct e as [es eh en ed ew eal eden elo eids eref]. cbn -[Str.strip Str.lower] in *.
  rewrite (ph_lower _ Hhost) in Hsplit. rewrite Dscheme in Hs. injection Hs as ->.
  assert (Hls : Str.lower (Str.strip s) = s) by (by destruct Hs' as [->| ->]).
  rewrite Hls in Hsplit. destruct (split_url_normalized _ _ _ _ _ Hsplit Hhost Hn) as [-> Hsl].
  set (c' := ScopeCandidate.mk _ _ _ _ _ _ _).
  assert (Hsame : forall q r, rule_matches c' q r = rule_matches c q r)
    by (intros; by apply rule_matches_same_origin).
  assert (Hallow : forall r, r ∈ origin_allows c compiled ->
            r ∈ compiled.(CompiledScope.rules) /\ origin_matches c r = true
            /\ r.(CompiledScopeRule.effect) = ScopeRuleEffect.ALLOW).
  { intros r. unfold origin_allows. rewrite elem_of_list_filter_bool, andb_true_iff, is_allow_true.
    rewrite (envelope_origin_is_origin c r eh Dhost). naive_solver. }
  split; [done|]. exists path. split; [done|]. split.
  - intros r Hr Hm. split; [by apply (en_current _ _ _ Hen)|].
    destruct (is_exclusion _) eqn:Ex; [|done]. exfalso. rewrite Hsame in Hm.
    destruct (matching_rule_prefix c path r Hm Hsl) as [Ho Hu].
    assert (Hin : r ∈ origin_denies c compiled).
    { unfold origin_denies. apply elem_of_list_filter_bool. split; [done|].
      apply andb_true_iff. split; [|done]. apply (envelope_origin_is_origin c r eh Dhost).
      split; [done|]. apply (en_exact _ _ _ Hen); [done|]. by apply (origin_at_host c). }
    specialize (Hden _ (Ddeny r Hin)). congruence.
  - destruct Hal as [Hwide|[Hdoc|(p & Hp & Hu)]].
    + destruct (Dwide Hwide) as (r & (Hr & Ho & Ha)%Hallow & Hpp). exists r.
      split; [done|]. split; [|done]. rewrite Hsame. unfold rule_matches. by rewrite Ho, Hpp.
    + exists r0. rewrite Hsame, Hdoc. split; [done|]. split; [|done].
      rewrite Dpath in Hp0. by injection Hp0 as <-.
    + destruct (Dallow p Hp) as (r & (Hr & Ho & Ha)%Hallow & Hpp). exists r.
      split; [done|]. split; [|done]. rewrite Hsame. unfold rule_matches. rewrite Ho, Hpp. cbn.
      apply boundary_prefix_matches; [by apply (en_boundary _ _ _ Hen r)|].
      unfold under in Hu. by apply andb_true_iff in Hu as [_ Hu].
Qed.

(** *** Plans *)

(** The URL a plan asks for. *)
Definition plan_url (plan : ExperimentPlan.t) : result string :=
  origin ← plan_origin plan; request_url origin (plan_path plan).

Lemma http_plan_decision clock plan scope policy d :
  plan.(ExperimentPlan.required_capability) ∈ HTTP_SCOPE_CAPABILITIES ->
  authorize_http_transaction_plan clock plan scope policy = Ok d ->
  d.(HttpTransactionScopeDecision.accepted) = true ->
  recheck_arguments plan = Ok None
  /\ exists compiled raw, scope = Some compiled /\ plan_url plan = Ok raw
     /\ scope_allows clock (normalize_url raw) compiled
     /\ d.(HttpTransactionScopeDecision.scope_check)
        = Some (evaluate_scope_candidate clock (normalize_url raw) compiled None)
     /\ forall e, d.(HttpTransactionScopeDecision.envelope) = Some e ->
          derived_from (normalize_url raw) compiled
            (evaluate_scope_candidate clock (normalize_url raw) compiled None)
              .(ScopeCheck.matched_rule_ids) e.
Proof.
  intros Hc. unfold authorize_http_transaction_plan. rewrite (proj2 (mem_true _ _) Hc). cbn [negb].
  intros (found & Hf & Hd)%bind_ok Hacc.
  destruct found as [code|]; [by injection Hd as <-|]. split; [done|].
  unfold authorize_origin_path in Hd. destruct scope as [compiled|]; [|by injection Hd as <-].
  apply bind_ok in Hd as (origin & Ho & Hd). apply bind_ok in Hd as (raw & Hu & Hd).
  exists compiled, raw. split; [done|]. unfold plan_url. rewrite Ho. cbn. split; [done|].
  destruct (bool_decide _) eqn:Ea; [|by injection Hd as <-]. apply bool_decide_eq_true in Ea.
  apply bind_ok in Hd as (env & He & [= <-]). cbn. split; [by apply scope_allow_iff in Ea|].
  split; [done|]. intros e ->. by apply derive_ok in He as [_ He].
Qed.

Lemma with_reference_derived c compiled ids e r e' :
  AuthorizedNetworkEnvelope.with_reference e r = Ok e' ->
  derived_from c compiled ids e -> derived_from c compiled ids e'.
Proof.
  unfold AuthorizedNetworkEnvelope.with_reference. intros He%validated [? ? ? ? ? ? ? ?].
  rewrite He. by split.
Qed.

(** C11. Of the URLs Core can normalize, the envelope never widens what Core authorized: when the
    host is plain and the rules are such as the worker's tests can express (no rule covers the host
    by a pattern only, the path of every allowing rule ends in a slash, no rule is expired), every
    URL that the worker lets a request of an accepted HTTP plan reach and that Core normalizes
    without an error is one the compiled scope allows at that instant.  A URL that Core cannot
    normalize is outside the claim: the worker may let it through
    ([unnormalizable_url_is_let_through]). *)
Theorem envelope_within_scope clock later plan compiled policy d e reference e' w url reason :
  plan.(ExperimentPlan.required_capability) ∈ HTTP_SCOPE_CAPABILITIES ->
  authorize_http_transaction_plan clock plan (Some compiled) policy = Ok d ->
  d.(HttpTransactionScopeDecision.accepted) = true ->
  d.(HttpTransactionScopeDecision.envelope) = Some e ->
  AuthorizedNetworkEnvelope.with_reference e reference = Ok e' ->
  parse_envelope (PDict (AuthorizedNetworkEnvelope.to_mapping e')) = Some w ->
  plain_host e.(AuthorizedNetworkEnvelope.normalized_host) ->
  enforceable later e.(AuthorizedNetworkEnvelope.normalized_host) compiled ->
  envelope_allows w url = (true, reason) ->
  let candidate := normalize_url (Str.strip url) in
  candidate.(ScopeCandidate.normalization_error) = None ->
  (evaluate_scope_candidate later candidate compiled None).(ScopeCheck.decision)
  = ScopeDecision.ALLOW.
Proof.
  intros Hc Hd Ha He He' Hw Hhost Hen Hallow. cbv zeta. intros Hn.
  destruct (http_plan_decision _ _ _ _ _ Hc Hd Ha) as (_ & c & raw & [= <-] & _ & Hs & _ & Hdf).
  pose proof (with_reference_derived _ _ _ _ _ _ He' (Hdf e He)) as Hdf'.
  apply parse_worker_view in Hw as ->.
  unfold AuthorizedNetworkEnvelope.with_reference in He'. apply validated in He'. subst e'.
  apply scope_allow_iff. cbn [default].
  apply (envelope_sound _ _ _ _ _ _ _ _ Hs Hdf' Hhost Hen Hallow Hn).
Qed.
End soundness.

(** *** A plan, its envelope, and two URLs the envelope lets through *)

Definition no_codec : HostCodec := {| ipv6 := fun _ => None; idna := fun _ => None |}.

Definition any_netloc : NetlocCheck := fun _ => true.

Definition sample_plan (path : string) : ExperimentPlan.t :=
  ExperimentPlan.mk "h-1" HTTP_AUTHORIZATION_DIFFERENTIAL_CAPABILITY "probe" "https://app.example.com"
    0 [("authorized_origin", PStr "https://app.example.com/"); ("path", PStr path)]
    "b-1" "seen" "unseen" "http.authorization.differential.v1" None None.

Definition rule_at (id : string) (e : ScopeRuleEffect.t) (h pattern path : option string)
    : CompiledScopeRule.t :=
  CompiledScopeRule.mk id e "https" h pattern 443 path "src" None.

(** The URL of [path] is in the worker's envelope, for the plan of [planned] under the rules. *)
Definition worker_lets_through (rules : list CompiledScopeRule.t) (planned path : string) : bool :=
  let compiled := CompiledScope.mk rules in
  match authorize_http_transaction_plan (H := no_floats) (H0 := any_netloc) (H1 := no_codec) 0
          (sample_plan planned) (Some compiled) (Some (ProgramPolicyView.mk false 0 0 [] None)) with
  | Ok d =>
      match d.(HttpTransactionScopeDecision.envelope) with
      | Some e =>
          match parse_envelope (H := no_floats) (PDict (AuthorizedNetworkEnvelope.to_mapping e)) with
          | Some w => fst (envelope_allows (H := any_netloc) w ("https://app.example.com" +:+ path))
          | None => false
          end
      | None => false
      end
  | Raise _ => false
  end.

Definition core_allows (rules : list CompiledScopeRule.t) (path : string) : bool :=
  bool_decide ((evaluate_scope_candidate 0
    (normalize_url (H := no_codec) (H0 := any_netloc) ("https://app.example.com" +:+ path))
    (CompiledScope.mk rules) None).(ScopeCheck.decision) = ScopeDecision.ALLOW).

(** The worker compares prefixes by character where Core compares them by segment. *)
Example prefix_boundary_is_lost :
  let rules := [rule_at "allow" ScopeRuleEffect.ALLOW (Some "app.example.com") None (Some "/api")] in
  (worker_lets_through rules "/api/v1" "/api-internal", core_allows rules "/api-internal")
  = (true, false).
Proof. vm_compute. reflexivity. Qed.

(** An exclusion by host pattern is not in the envelope of a host it covers. *)
Example wildcard_exclusion_is_lost :
  let rules := [rule_at "allow" ScopeRuleEffect.ALLOW (Some "app.example.com") None None;
                rule_at "deny" ScopeRuleEffect.DENY None (Some "*.example.com") (Some "/admin")] in
  (worker_lets_through rules "/home" "/admin", core_allows rules "/admin") = (true, false).
Proof. vm_compute. reflexivity. Qed.

(** A URL with a malformed escape, which Core cannot normalize and so refuses, is in the worker's
    envelope: the worker has no test for the escape. *)
Example unnormalizable_url_is_let_through :
  let rules := [rule_at "allow" ScopeRuleEffect.ALLOW (Some "app.example.com") None (Some "/api/")] in
  (worker_lets_through rules "/api/v1" "/api/a%zz", core_allows rules "/api/a%zz",
   bool_decide (is_Some (normalize_url (H := no_codec) (H0 := any_netloc)
     "https://app.example.com/api/a%zz").(ScopeCandidate.normalization_error)))
  = (true, false, true).
Proof. vm_compute. reflexivity. Qed.

(** An allowance by host pattern covers the document alone. *)
Example wildcard_allow_is_narrowed :
  let rules := [rule_at "allow" ScopeRuleEffect.ALLOW None (Some "*.example.com") None] in
  (worker_lets_through rules "/home" "/other", core_allows rules "/other") = (false, true).
Proof. vm_compute. reflexivity. Qed.

Definition sample_scope : CompiledScope.t :=
  CompiledScope.mk
    [rule_at "allow" ScopeRuleEffect.ALLOW (Some "app.example.com") None (Some "/api/");
     rule_at "deny" ScopeRuleEffect.DENY (Some "app.example.com") None (Some "/api/admin")].

Definition sample_envelope (reference : option string) : AuthorizedNetworkEnvelope.t :=
  AuthorizedNetworkEnvelope.mk "https" "app.example.com" 443 "/api/v1" false ["/api/"] ["/api/admin"]
    false ["allow"] reference.

Lemma sample_host_plain : plain_host (H0 := no_codec) "app.example.com".
Proof. by split; vm_compute. Qed.

Lemma sample_enforceable : enforceable 0 "app.example.com" sample_scope.
Proof.
  assert (Hin : forall r, r ∈ sample_scope.(CompiledScope.rules) ->
            r = rule_at "allow" ScopeRuleEffect.ALLOW (Some "app.example.com") None (Some "/api/")
            \/ r = rule_at "deny" ScopeRuleEffect.DENY (Some "app.example.com") None (Some "/api/admin")).
  { intros r. cbn [sample_scope CompiledScope.rules]. rewrite !elem_of_cons, elem_of_nil. tauto. }
  split.
  - by intros r [->| ->]%Hin.
  - by intros r p [->| ->]%Hin; [intros _ [= <-]|].
  - by intros r [->| ->]%Hin.
Qed.

Lemma envelope_within_scope_witness :
  (evaluate_scope_candidate 0
     (normalize_url (H := no_codec) (H0 := any_netloc) (Str.strip "https://app.example.com/api/v2?x"))
     sample_scope None).(ScopeCheck.decision) = ScopeDecision.ALLOW.
Proof.
  apply (envelope_within_scope (H := no_floats) (H0 := any_netloc) (H1 := no_codec) 0 0
    (sample_plan "/api/v1") sample_scope (Some (ProgramPolicyView.mk false 0 0 [] None))
    (HttpTransactionScopeDecision.mk true None false
       (Some (ScopeCheck.mk ScopeDecision.ALLOW ReasonCode.ALLOWED ["allow"] ScopeClassification.IN_SCOPE))
       (Some (sample_envelope None)))
    (sample_envelope None) "ref" (sample_envelope (Some "ref"))
    (worker_view (sample_envelope (Some "ref"))) "https://app.example.com/api/v2?x" "");
    try (vm_compute; reflexivity).
  - rewrite <-mem_true. vm_compute. reflexivity.
  - exact sample_host_plain.
  - exact sample_enforceable.
Defined.
