(* ===== verification/Session.v ===== *)
(** * Sessions and the secrets behind them

    [platform/secrets.py], the session record of [data/records.py],
    [application/session_binding.py] and [application/session_lifecycle.py].  A session row names
    a handle; the secret itself lives in a store of the process.  Binding a plan to a session is
    no grant of scope: it says which secret may go with a request already authorized. *)
From S2P Require Import Prelude CoreTypes PyVal PyText PyUrl Records Compiler Planning HttpPolicy Envelope.

(** ** [platform/secrets.py] *)

(** [platform/secrets.py:15-18 SecretScheme] *)
Module SecretScheme.
Inductive t : Set := LOCAL_DEV | ENV_REFERENCE | SESSION_MATERIAL.
#[global] Instance eq_dec : EqDecision t.
Proof. solve_decision. Defined.
Definition value (x : t) : string :=
  match x with
  | LOCAL_DEV => "LOCAL_DEV" | ENV_REFERENCE => "ENV_REFERENCE"
  | SESSION_MATERIAL => "SESSION_MATERIAL"
  end.
Definition members : list t := [LOCAL_DEV; ENV_REFERENCE; SESSION_MATERIAL].
Definition of_string (s : string) : result t := enum_of value members s.
End SecretScheme.

(** [platform/secrets.py:21-24 SecretResolutionStatus] *)
Module SecretResolutionStatus.
Inductive t : Set := RESOLVED | UNAVAILABLE | INVALID_REFERENCE.
#[global] Instance eq_dec : EqDecision t.
Proof. solve_decision. Defined.
End SecretResolutionStatus.

(** [platform/secrets.py:28-42 SecretReference] *)
Module SecretReference.
Record t : Set := mk { scheme : SecretScheme.t; name : string }.
Definition post_init (x : t) : result t :=
  raise_if Str.is_blank x.(name) as ValueError;;
  Ok (mk x.(scheme) (Str.strip x.(name))).
End SecretReference.

(** [platform/secrets.py:46-56 SecretResolution] *)
Module SecretResolution.
Record t : Set := mk {
  status : SecretResolutionStatus.t;
  reference : SecretReference.t;
  value : option string }.
Definition post_init (x : t) : result t :=
  let resolved := bool_decide (x.(status) = SecretResolutionStatus.RESOLVED) in
  raise_if negb resolved && bool_decide (is_Some x.(value)) as ValueError;;
  raise_if resolved && Str.is_empty (default "" x.(value)) as ValueError;;
  Ok x.
#[global] Instance post_init_validator : Validator post_init.
Proof. solve_validator. Qed.
End SecretResolution.

(** What resolves a reference.  [platform/secrets.py:59-60 SecretPort] *)
Definition SecretPort : Set := SecretReference.t -> result SecretResolution.t.

(** The environment is a mapping of names to values.
    [platform/secrets.py:69-77 EnvSecretResolver.resolve] *)
Definition env_resolve (env : list (string * string)) : SecretPort := fun reference =>
  if negb (mem reference.(SecretReference.scheme) [SecretScheme.ENV_REFERENCE; SecretScheme.LOCAL_DEV])
  then SecretResolution.post_init
         (SecretResolution.mk SecretResolutionStatus.INVALID_REFERENCE reference None)
  else
  match assoc reference.(SecretReference.name) env with
  | Some raw =>
      if Str.is_blank raw
      then SecretResolution.post_init
             (SecretResolution.mk SecretResolutionStatus.UNAVAILABLE reference None)
      else SecretResolution.post_init
             (SecretResolution.mk SecretResolutionStatus.RESOLVED reference (Some raw))
  | None => SecretResolution.post_init
              (SecretResolution.mk SecretResolutionStatus.UNAVAILABLE reference None)
  end.

(** The process-local store.  [platform/secrets.py:87-105 InMemorySecretStore] *)
Module InMemorySecretStore.
Definition t : Type := gmap (string * string) string.

Definition key (reference : SecretReference.t) : string * string :=
  (SecretScheme.value reference.(SecretReference.scheme), reference.(SecretReference.name)).

Definition put (s : t) (reference : SecretReference.t) (value : string) : result t :=
  raise_if Str.is_empty value as ValueError;;
  Ok (<[key reference := value]> s).

Definition drop (s : t) (reference : SecretReference.t) : t := delete (key reference) s.

Definition resolve (s : t) : SecretPort := fun reference =>
  match s !! key reference with
  | Some value =>
      if Str.is_empty value
      then SecretResolution.post_init
             (SecretResolution.mk SecretResolutionStatus.UNAVAILABLE reference None)
      else SecretResolution.post_init
             (SecretResolution.mk SecretResolutionStatus.RESOLVED reference (Some value))
  | None => SecretResolution.post_init
              (SecretResolution.mk SecretResolutionStatus.UNAVAILABLE reference None)
  end.
End InMemorySecretStore.

(** [platform/secrets.py:125-128 CompositeSecretPort.resolve] *)
Definition composite_resolve (store : InMemorySecretStore.t) (env : SecretPort) : SecretPort :=
  fun reference =>
    if bool_decide (reference.(SecretReference.scheme) = SecretScheme.SESSION_MATERIAL)
    then InMemorySecretStore.resolve store reference
    else env reference.

(** [platform/secrets.py:115-118 CompositeSecretPort.put_session] *)
Definition put_session (store : InMemorySecretStore.t) (reference : SecretReference.t)
    (value : string) : result InMemorySecretStore.t :=
  raise_if negb (bool_decide (reference.(SecretReference.scheme) = SecretScheme.SESSION_MATERIAL))
  as ValueError;;
  InMemorySecretStore.put store reference value.

(** [platform/secrets.py:120-123 CompositeSecretPort.delete_session] *)
Definition delete_session (store : InMemorySecretStore.t) (reference : SecretReference.t)
    : result InMemorySecretStore.t :=
  raise_if negb (bool_decide (reference.(SecretReference.scheme) = SecretScheme.SESSION_MATERIAL))
  as ValueError;;
  Ok (InMemorySecretStore.drop store reference).

(** ** The session row *)

(** [research/identity_session.py:15-21 SessionState] *)
Definition session_state_value (x : SessionState.t) : string :=
  match x with
  | SessionState.NEW => "NEW" | SessionState.AUTHENTICATING => "AUTHENTICATING"
  | SessionState.ACTIVE => "ACTIVE" | SessionState.EXPIRED => "EXPIRED"
  | SessionState.REVOKED => "REVOKED" | SessionState.FAILED => "FAILED"
  end.

(** [data/records.py:2319-2321 ALLOWED_SESSION_STATES] *)
Definition ALLOWED_SESSION_STATES : list string :=
  ["NEW"; "AUTHENTICATING"; "ACTIVE"; "EXPIRED"; "REVOKED"; "FAILED"].
(** [data/records.py:2322 ALLOWED_AUTHENTICATION_METHODS] *)
Definition ALLOWED_AUTHENTICATION_METHODS : list string := ["HTTP_FORM_LOGIN"].

(** [data/records.py:2599-2644 SessionContextRecord] *)
Module SessionContextRecord.
Record t : Set := mk {
  session_context_id : string;
  research_run_id : string;
  identity_id : string;
  actor_reference : string;
  origin : string;
  authentication_profile_reference : string;
  authentication_method : string;
  secret_scheme : string;
  secret_name : string;
  state : string;
  created_at : Z;
  updated_at : Z;
  established_at : option Z;
  expires_at : option Z;
  session_cookie_name : option string }.

Definition post_init (x : t) : result t :=
  _ ← data_opaque_id x.(session_context_id);
  _ ← data_opaque_id x.(research_run_id);
  _ ← data_opaque_id x.(identity_id);
  _ ← data_opaque_id x.(actor_reference);
  _ ← data_opaque_id x.(authentication_profile_reference);
  raise_if Str.is_blank x.(origin) as PersistenceInputError;;
  raise_if negb (mem x.(authentication_method) ALLOWED_AUTHENTICATION_METHODS)
  as PersistenceInputError;;
  raise_if Str.is_blank x.(secret_scheme) as PersistenceInputError;;
  raise_if Str.is_blank x.(secret_name) as PersistenceInputError;;
  raise_if negb (mem x.(state) ALLOWED_SESSION_STATES) as PersistenceInputError;;
  raise_if blank_when_set x.(session_cookie_name) as PersistenceInputError;;
  _ ← data_reject_secret_keys [("origin", PStr x.(origin)); ("secret_name", PStr x.(secret_name))];
  Ok x.

#[global] Instance post_init_validator : Validator post_init.
Proof. solve_validator. Qed.

(** An [UPDATE] of the state; an instant that is given replaces the stored one. *)
Definition set_state (x : t) (state : string) (established expires : option Z) (updated : Z) : t :=
  mk x.(session_context_id) x.(research_run_id) x.(identity_id) x.(actor_reference) x.(origin)
    x.(authentication_profile_reference) x.(authentication_method) x.(secret_scheme)
    x.(secret_name) state x.(created_at) updated
    (match established with Some _ => established | None => x.(established_at) end)
    (match expires with Some _ => expires | None => x.(expires_at) end) x.(session_cookie_name).
End SessionContextRecord.

(** ** [application/session_binding.py] *)

(** [application/session_binding.py:23-29 SessionBindingDecision] *)
Module SessionBindingDecision.
Record t : Set := mk {
  accepted : bool;
  input_rejected : bool;
  reason_code : option ReasonCode.t;
  session : option SessionContextRecord.t;
  resolved_secrets : option (list (string * string)) }.
End SessionBindingDecision.

(** [SessionBindingDecision(accepted=False, input_rejected=True, reason_code=r)] *)
Definition reject_input (r : ReasonCode.t) : result SessionBindingDecision.t :=
  Ok (SessionBindingDecision.mk false true (Some r) None None).

(** [SessionBindingDecision(accepted=False, reason_code=r)] *)
Definition refuse (r : ReasonCode.t) : result SessionBindingDecision.t :=
  Ok (SessionBindingDecision.mk false false (Some r) None None).

(** [SessionBindingDecision(accepted=True)] *)
Definition no_session_needed : SessionBindingDecision.t :=
  SessionBindingDecision.mk true false None None None.

(** [application/session_binding.py:68-69 session_material_reference] *)
Definition session_material_reference (session_context_id : string) : result SecretReference.t :=
  SecretReference.post_init
    (SecretReference.mk SecretScheme.SESSION_MATERIAL ("session:" +:+ session_context_id)).

(** [application/session_binding.py:72-73 normalized_origin] *)
Definition normalized_origin (origin : string) : string :=
  Str.rstrip_chars ["/"%char] (Str.strip origin).

(** The secret a port resolves a reference to, if it does. *)
Definition resolved_value (resolution : SecretResolution.t) : option string :=
  if bool_decide (resolution.(SecretResolution.status) = SecretResolutionStatus.RESOLVED)
  then resolution.(SecretResolution.value) else None.

Section binding.
Context `{FloatRepr} `{NetlocCheck}.

(** [application/session_binding.py:314-316 _origin_key] *)
Definition origin_key (origin : string) : result (string * string * option Z) :=
  parsed ← Url.urlsplit (normalized_origin origin);
  number ← port parsed;
  Ok (Str.lower parsed.(Url.scheme), Str.lower (default "" (host_name parsed)), number).

(** [application/session_binding.py:76-77 origins_match] *)
Definition origins_match (left right : string) : result bool :=
  l ← origin_key left;
  r ← origin_key right;
  Ok (bool_decide (l = r)).

(** [application/session_binding.py:80-175 _bind_login] *)
Definition bind_login (plan : ExperimentPlan.t) (identity_id : option string)
    (ident : option Identity.t) (profile : option HttpFormLoginProfile.t)
    (secret_port : option SecretPort) : result SessionBindingDecision.t :=
  let argument key := dict_get key plan.(ExperimentPlan.arguments) in
  let mismatch := reject_input ReasonCode.SCHEMA_MISMATCH in
  if negb (plan.(ExperimentPlan.action) =? "login")%string then reject_input ReasonCode.UNKNOWN_ACTION
  else
  match ident, profile, identity_id with
  | Some ident, Some profile, Some identity_id =>
      if Str.is_empty identity_id then mismatch
      else if negb (ident.(Identity.identity_id) =? identity_id)%string then mismatch
      else if negb (eq_str (argument "identity_id") ident.(Identity.identity_id)) then mismatch
      else if negb (ident.(Identity.authentication_profile_reference)
                    =? profile.(HttpFormLoginProfile.profile_id))%string then mismatch
      else if negb (ident.(Identity.target_reference)
                    =? plan.(ExperimentPlan.target_reference))%string then mismatch
      else if negb (eq_str (argument "path") profile.(HttpFormLoginProfile.path)) then mismatch
      else if negb (eq_str (argument "password_secret_name")
                      profile.(HttpFormLoginProfile.password_secret_name)) then mismatch
      else
      match secret_port with
      | None => mismatch
      | Some resolve =>
          let credential := ident.(Identity.credential_reference) in
          match (scheme ← SecretScheme.of_string credential.(CredentialReference.scheme);
                 SecretReference.post_init
                   (SecretReference.mk scheme credential.(CredentialReference.name))) with
          | Raise ValueError => mismatch
          | Raise e => Raise e
          | Ok password_ref =>
              resolution ← resolve password_ref;
              match resolved_value resolution with
              | None => mismatch
              | Some value =>
                  Ok (SessionBindingDecision.mk true false None None
                        (Some [(profile.(HttpFormLoginProfile.password_secret_name), value)]))
              end
          end
      end
  | _, _, _ => mismatch
  end.

(** [application/session_binding.py:178-311 _bind_existing_session] *)
Definition bind_existing_session (plan : ExperimentPlan.t) (identity_id : option string)
    (ident : option Identity.t) (profile : option HttpFormLoginProfile.t)
    (session : option SessionContextRecord.t) (secret_port : option SecretPort) (now : Z)
    (research_run_id : option string) : result SessionBindingDecision.t :=
  let mismatch := reject_input ReasonCode.SCHEMA_MISMATCH in
  let inactive := refuse ReasonCode.AUTHORIZATION_INACTIVE in
  match identity_id with
  | None | Some EmptyString => mismatch
  | Some identity_id =>
  match ident with
  | None => mismatch
  | Some ident =>
  if negb (ident.(Identity.identity_id) =? identity_id)%string then mismatch
  else
  match session with
  | None => mismatch
  | Some session =>
      let bound_profile := session.(SessionContextRecord.authentication_profile_reference) in
      let state := session.(SessionContextRecord.state) in
      if negb (session.(SessionContextRecord.identity_id) =? identity_id)%string then mismatch
      else if negb (bool_decide (research_run_id = Some session.(SessionContextRecord.research_run_id)))
      then mismatch
      else if negb (ident.(Identity.target_reference)
                    =? plan.(ExperimentPlan.target_reference))%string then mismatch
      else if negb (bound_profile =? ident.(Identity.authentication_profile_reference))%string
      then mismatch
      else if match profile with
              | Some p => negb (bound_profile =? p.(HttpFormLoginProfile.profile_id))%string
              | None => false
              end then mismatch
      else
        let origin_value := dict_get "authorized_origin" plan.(ExperimentPlan.arguments) in
        same ← origins_match session.(SessionContextRecord.origin)
                 (if truthy origin_value then py_str origin_value else "");
        if negb same then refuse ReasonCode.SCOPE_NOT_EXPLICITLY_ALLOWED
        else if (state =? session_state_value SessionState.EXPIRED)%string
                || match session.(SessionContextRecord.expires_at) with
                   | Some at_ => at_ <=? now | None => false end then inactive
        else if (state =? session_state_value SessionState.REVOKED)%string then inactive
        else if negb (state =? session_state_value SessionState.ACTIVE)%string then inactive
        else
        match secret_port with
        | None => mismatch
        | Some resolve =>
            match SecretScheme.of_string session.(SessionContextRecord.secret_scheme) with
            | Raise ValueError => mismatch
            | Raise e => Raise e
            | Ok scheme =>
                reference ← SecretReference.post_init
                              (SecretReference.mk scheme session.(SessionContextRecord.secret_name));
                resolution ← resolve reference;
                match resolved_value resolution with
                | None => mismatch
                | Some value =>
                    Ok (SessionBindingDecision.mk true false None (Some session)
                          (Some [("session_cookie", value)]))
                end
            end
        end
  end
  end
  end.

(** [application/session_binding.py:32-65 bind_identity_session] *)
Definition bind_identity_session (plan : ExperimentPlan.t) (identity_id : option string)
    (ident : option Identity.t) (profile : option HttpFormLoginProfile.t)
    (session : option SessionContextRecord.t) (secret_port : option SecretPort) (now : Z)
    (research_run_id : option string) : result SessionBindingDecision.t :=
  let capability := plan.(ExperimentPlan.required_capability) in
  if (capability =? HTTP_AUTHENTICATION_CAPABILITY)%string
  then bind_login plan identity_id ident profile secret_port
  else if mem capability [HTTP_TRANSACTION_CAPABILITY; BROWSER_PAGE_CAPABILITY]
  then match dict_get "session_context_reference" plan.(ExperimentPlan.arguments) with
       | PNone => Ok no_session_needed
       | _ => bind_existing_session plan identity_id ident profile session secret_port now
                research_run_id
       end
  else Ok no_session_needed.
End binding.

(** ** [application/session_lifecycle.py] *)

(** The rows by their key, and the store of the process. *)
Module SessionDb.
Record t : Type := mk {
  sessions : gmap string SessionContextRecord.t;
  store : InMemorySecretStore.t }.
Definition with_sessions (db : t) (s : gmap string SessionContextRecord.t) : t := mk s db.(store).
Definition with_store (db : t) (s : InMemorySecretStore.t) : t := mk db.(sessions) s.
End SessionDb.

(** [data/postgres/repositories.py:3191-3199 PostgresSessionContextRepository.get] *)
Definition get_session (sessions : gmap string SessionContextRecord.t) (id : string)
    : result (option SessionContextRecord.t) :=
  _ ← data_opaque_id id; Ok (sessions !! id).

(** The run must exist; the caller holds it.
    [data/postgres/repositories.py:3169-3189 PostgresSessionContextRepository.insert] *)
Definition insert_session (sessions : gmap string SessionContextRecord.t)
    (r : SessionContextRecord.t) : result (gmap string SessionContextRecord.t) :=
  raise_if bool_decide (is_Some (sessions !! r.(SessionContextRecord.session_context_id)))
  as PersistenceConflictError;;
  Ok (<[r.(SessionContextRecord.session_context_id) := r]> sessions).

(** [data/postgres/repositories.py:3201-3224 PostgresSessionContextRepository.set_state] *)
Definition set_session_state (sessions : gmap string SessionContextRecord.t) (id state : string)
    (established expires : option Z) (updated : Z) : result (gmap string SessionContextRecord.t) :=
  _ ← data_opaque_id id;
  raise_if negb (mem state ALLOWED_SESSION_STATES) as PersistenceInputError;;
  match sessions !! id with
  | None => Raise PersistenceError
  | Some r => Ok (<[id := SessionContextRecord.set_state r state established expires updated]> sessions)
  end.

Section lifecycle.
Context `{FloatRepr}.

(** [application/session_lifecycle.py:17-41 authenticating_session_record] *)
Definition authenticating_session_record (plan : ExperimentPlan.t) (ident : Identity.t)
    (profile : HttpFormLoginProfile.t) (research_run_id : string) (now : Z)
    : result SessionContextRecord.t :=
  id_value ← dict_item "session_context_id" plan.(ExperimentPlan.arguments);
  let session_context_id := py_str id_value in
  reference ← session_material_reference session_context_id;
  origin_value ← dict_item "authorized_origin" plan.(ExperimentPlan.arguments);
  SessionContextRecord.post_init
    (SessionContextRecord.mk session_context_id research_run_id ident.(Identity.identity_id)
       ident.(Identity.actor_reference) (normalized_origin (py_str origin_value))
       profile.(HttpFormLoginProfile.profile_id) "HTTP_FORM_LOGIN"
       (SecretScheme.value reference.(SecretReference.scheme)) reference.(SecretReference.name)
       (session_state_value SessionState.AUTHENTICATING) now now None None
       (Some profile.(HttpFormLoginProfile.session_cookie_name))).
End lifecycle.

(** [x.get(k) if isinstance(x.get(k), Mapping) else {}] *)
Definition mapping_at (k : string) (d : list (string * pyval)) : list (string * pyval) :=
  match dict_get k d with PDict m => m | _ => [] end.

(** [application/session_lifecycle.py:44-82 capture_login_result] *)
Definition capture_login_result (db : SessionDb.t) (has_port : bool) (request result_ : list (string * pyval))
    (ephemeral : pyval) (now : Z) : result SessionDb.t :=
  if negb (eq_str (dict_get "worker_capability" request) HTTP_AUTHENTICATION_CAPABILITY) then Ok db
  else
  match dict_get "arguments" request with
  | PDict arguments =>
      match dict_get "session_context_id" arguments with
      | PStr id =>
          if Str.is_blank id then Ok db
          else
            found ← get_session db.(SessionDb.sessions) id;
            match found with
            | None => Ok db
            | Some _ =>
                if eq_str (dict_get "status" result_) "REAUTHORIZATION_REQUIRED" then Ok db
                else
                  let established := truthy (dict_get "session_established" (mapping_at "raw_result" result_))
                                     && eq_str (dict_get "status" result_) "SUCCEEDED" in
                  let cookie := match ephemeral with PDict d => dict_get "session_cookie" d | _ => PNone end in
                  match cookie with
                  | PStr (String _ _ as value) =>
                      if established && has_port
                      then
                        reference ← session_material_reference id;
                        store ← put_session db.(SessionDb.store) reference value;
                        sessions ← set_session_state db.(SessionDb.sessions) id
                                     (session_state_value SessionState.ACTIVE) (Some now) None now;
                        Ok (SessionDb.mk sessions store)
                      else
                        sessions ← set_session_state db.(SessionDb.sessions) id
                                     (session_state_value SessionState.FAILED) None None now;
                        Ok (SessionDb.with_sessions db sessions)
                  | _ =>
                      sessions ← set_session_state db.(SessionDb.sessions) id
                                   (session_state_value SessionState.FAILED) None None now;
                      Ok (SessionDb.with_sessions db sessions)
                  end
            end
      | _ => Ok db
      end
  | _ => Ok db
  end.

(** [application/session_lifecycle.py:85-113 expire_session_on_unauthenticated_response] *)
Definition expire_session_on_unauthenticated_response (db : SessionDb.t) (has_port : bool)
    (request result_ : list (string * pyval)) (now : Z) : result SessionDb.t :=
  if negb (eq_str (dict_get "worker_capability" request) HTTP_TRANSACTION_CAPABILITY) then Ok db
  else
  match dict_get "arguments" request with
  | PDict arguments =>
      match dict_get "session_context_reference" arguments with
      | PStr session_ref =>
          if Str.is_blank session_ref then Ok db
          else
            denied ← in_int_set (dict_get "status_code" (mapping_at "raw_result" result_)) [401; 403];
            if negb denied then Ok db
            else
              found ← get_session db.(SessionDb.sessions) session_ref;
              match found with
              | Some session =>
                  if negb (session.(SessionContextRecord.state)
                           =? session_state_value SessionState.ACTIVE)%string then Ok db
                  else
                    sessions ← set_session_state db.(SessionDb.sessions) session_ref
                                 (session_state_value SessionState.EXPIRED) None None now;
                    if has_port
                    then reference ← session_material_reference session_ref;
                         store ← delete_session db.(SessionDb.store) reference;
                         Ok (SessionDb.mk sessions store)
                    else Ok (SessionDb.with_sessions db sessions)
              | None => Ok db
              end
      | _ => Ok db
      end
  | _ => Ok db
  end.

(** [application/session_lifecycle.py:116-131 revoke_session] *)
Definition revoke_session (db : SessionDb.t) (session_context_id : string) (has_port : bool) (now : Z)
    : result SessionDb.t :=
  found ← get_session db.(SessionDb.sessions) session_context_id;
  match found with
  | None => Ok db
  | Some _ =>
      sessions ← set_session_state db.(SessionDb.sessions) session_context_id
                   (session_state_value SessionState.REVOKED) None None now;
      if has_port
      then reference ← session_material_reference session_context_id;
           store ← delete_session db.(SessionDb.store) reference;
           Ok (SessionDb.mk sessions store)
      else Ok (SessionDb.with_sessions db sessions)
  end.

(** The secrets of a worker's answer, and the answer without them.
    [application/session_lifecycle.py:134-144 strip_ephemeral_secrets] *)
Definition strip_ephemeral_secrets (result_ : list (string * pyval))
    : list (string * pyval) * option (list (string * pyval)) :=
  let without k (d : list (string * pyval)) := List.filter (fun p => negb (p.1 =? k)%string) d in
  let cleaned := without "ephemeral_secrets" result_ in
  let cleaned :=
    (fun p => if (p.1 =? "raw_result")%string
              then (p.1, match p.2 with PDict raw => PDict (without "_ephemeral_session_cookie" raw)
                         | v => v end)
              else p) <$> cleaned in
  (cleaned, match dict_get "ephemeral_secrets" result_ with PDict e => Some e | _ => None end).

(** ** Theorems *)

Section bound.
Context `{FloatRepr} `{NetlocCheck}.

(** A session may go with a plan: everything that names it agrees, it is alive, and its secret is
    there. *)
Record session_binds (plan : ExperimentPlan.t) (ident : Identity.t)
    (profile : option HttpFormLoginProfile.t) (s : SessionContextRecord.t) (resolve : SecretPort)
    (now : Z) (run : option string) (secret : string) : Prop := {
  sb_identity : s.(SessionContextRecord.identity_id) = ident.(Identity.identity_id);
  sb_run : run = Some s.(SessionContextRecord.research_run_id);
  sb_target : ident.(Identity.target_reference) = plan.(ExperimentPlan.target_reference);
  sb_profile : s.(SessionContextRecord.authentication_profile_reference)
    = ident.(Identity.authentication_profile_reference)
    /\ forall p, profile = Some p ->
         p.(HttpFormLoginProfile.profile_id) = s.(SessionContextRecord.authentication_profile_reference);
  sb_origin : let v := dict_get "authorized_origin" plan.(ExperimentPlan.arguments) in
    origins_match s.(SessionContextRecord.origin) (if truthy v then py_str v else "") = Ok true;
  sb_active : s.(SessionContextRecord.state) = "ACTIVE";
  sb_current : forall at_, s.(SessionContextRecord.expires_at) = Some at_ -> now < at_;
  sb_secret : exists scheme reference resolution,
    SecretScheme.of_string s.(SessionContextRecord.secret_scheme) = Ok scheme
    /\ SecretReference.post_init (SecretReference.mk scheme s.(SessionContextRecord.secret_name))
       = Ok reference
    /\ resolve reference = Ok resolution /\ resolved_value resolution = Some secret }.

Lemma not_expired (s : SessionContextRecord.t) now :
  match s.(SessionContextRecord.expires_at) with Some at_ => at_ <=? now | None => false end = false
  <-> forall at_, s.(SessionContextRecord.expires_at) = Some at_ -> now < at_.
Proof.
  destruct (SessionContextRecord.expires_at s) as [a|]; [|naive_solver].
  rewrite Z.leb_gt. split; [by intros ? ? [= <-]|eauto].
Qed.

Lemma profile_agrees (profile : option HttpFormLoginProfile.t) bound :
  match profile with
  | Some p => negb (bound =? p.(HttpFormLoginProfile.profile_id))%string
  | None => false
  end = false
  <-> forall p, profile = Some p -> p.(HttpFormLoginProfile.profile_id) = bound.
Proof.
  destruct profile as [p|]; [|naive_solver].
  rewrite negb_false_iff, String.eqb_eq. split; [by intros -> ? [= <-]|].
  intros Hp. by rewrite (Hp p).
Qed.

Ltac refused := intros [= <-]; discriminate.

Lemma existing_session_ok plan id ident profile session port now run d :
  bind_existing_session plan id ident profile session port now run = Ok d ->
  d.(SessionBindingDecision.accepted) = true ->
  exists i s resolve secret, ident = Some i /\ session = Some s /\ port = Some resolve
    /\ id = Some i.(Identity.identity_id) /\ i.(Identity.identity_id) ≠ ""
    /\ session_binds plan i profile s resolve now run secret
    /\ d = SessionBindingDecision.mk true false None (Some s) (Some [("session_cookie", secret)]).
Proof.
  unfold bind_existing_session. destruct id as [[|x tl]|]; [refused| |refused].
  destruct ident as [i|]; [|refused].
  destruct (i.(Identity.identity_id) =? String x tl)%string eqn:Eid; [|refused].
  apply String.eqb_eq in Eid. cbn [negb]. destruct session as [s|]; [|refused]. cbv zeta.
  destruct (s.(SessionContextRecord.identity_id) =? _)%string eqn:Es; [|refused].
  apply String.eqb_eq in Es. cbn [negb].
  destruct (bool_decide (run = _)) eqn:Er; [|refused]. apply bool_decide_eq_true in Er. cbn [negb].
  destruct (i.(Identity.target_reference) =? _)%string eqn:Et; [|refused].
  apply String.eqb_eq in Et. cbn [negb].
  destruct (s.(SessionContextRecord.authentication_profile_reference)
            =? i.(Identity.authentication_profile_reference))%string eqn:Ep; [|refused].
  apply String.eqb_eq in Ep. cbn [negb].
  destruct (match profile with Some _ => _ | None => false end) eqn:Epp; [refused|].
  rewrite profile_agrees in Epp.
  intros (same & Ho & Hd)%bind_ok Hacc. revert Hd Hacc.
  destruct same; [|refused]. cbn [negb].
  destruct (_ || _) eqn:Ex; [refused|]. apply orb_false_iff in Ex as [_ Ex].
  rewrite not_expired in Ex.
  destruct (_ =? session_state_value SessionState.REVOKED)%string; [refused|].
  destruct (_ =? session_state_value SessionState.ACTIVE)%string eqn:Ea; [|refused].
  apply String.eqb_eq in Ea. cbn [negb]. destruct port as [resolve|]; [|refused].
  destruct (SecretScheme.of_string _) as [scheme|[]] eqn:Esc; try discriminate; [|refused].
  intros (reference & Href & Hd)%bind_ok. apply bind_ok in Hd as (resolution & Hres & Hd).
  revert Hd. destruct (resolved_value resolution) as [secret|] eqn:Ev; [|refused].
  intros [= <-] _. exists i, s, resolve, secret.
  split_and!; try done; [by rewrite Eid|by rewrite Eid|].
  split; try done; [congruence|]. by exists scheme, reference, resolution.
Qed.

Lemma existing_session_complete plan i profile s resolve now run secret :
  i.(Identity.identity_id) ≠ "" ->
  session_binds plan i profile s resolve now run secret ->
  bind_existing_session plan (Some i.(Identity.identity_id)) (Some i) profile (Some s)
    (Some resolve) now run
  = Ok (SessionBindingDecision.mk true false None (Some s) (Some [("session_cookie", secret)])).
Proof.
  intros Hne [Hi Hr Ht [Hp Hpp] Ho Ha Hc (scheme & reference & resolution & Hsc & Href & Hres & Hv)].
  unfold bind_existing_session. destruct (Identity.identity_id i) as [|x tl] eqn:Eid; [done|].
  rewrite Hi, String.eqb_refl. cbn [negb]. cbv zeta.
  rewrite bool_decide_true by done. rewrite Ht, Hp, !String.eqb_refl. cbn [negb].
  rewrite <-Hp, (proj2 (profile_agrees profile _) Hpp), Ho. cbn [negb].
  rewrite (proj2 (not_expired s now) Hc), Ha. cbn. rewrite Hsc, Href. cbn. rewrite Hres. cbn.
  by rewrite Hv.
Qed.
End bound.

(** C22. A session goes with a request exactly when everything that names it agrees: identity, run,
    target, profile and origin are the plan's, it is active and not expired, and its secret
    resolves.  In that case, and in no other, the answer accepts, and what the request then carries
    is that session with that secret and nothing else. *)
Theorem session_bound_iff `{FloatRepr} `{NetlocCheck} plan id ident profile session port now run d :
  plan.(ExperimentPlan.required_capability) ∈ [HTTP_TRANSACTION_CAPABILITY; BROWSER_PAGE_CAPABILITY] ->
  dict_get "session_context_reference" plan.(ExperimentPlan.arguments) ≠ PNone ->
  (bind_identity_session plan id ident profile session port now run = Ok d
   /\ d.(SessionBindingDecision.accepted) = true)
  <->
  exists i s resolve secret, ident = Some i /\ session = Some s /\ port = Some resolve
    /\ id = Some i.(Identity.identity_id) /\ i.(Identity.identity_id) ≠ ""
    /\ session_binds plan i profile s resolve now run secret
    /\ d = SessionBindingDecision.mk true false None (Some s) (Some [("session_cookie", secret)]).
Proof.
  intros Hc Href. unfold bind_identity_session.
  assert (Hauth : (plan.(ExperimentPlan.required_capability) =? HTTP_AUTHENTICATION_CAPABILITY)%string
                  = false)
    by (rewrite !elem_of_cons in Hc; destruct Hc as [->|[->|[]%elem_of_nil]]; done).
  rewrite Hauth, (proj2 (mem_true _ _) Hc).
  assert (Hbinds : (bind_existing_session plan id ident profile session port now run = Ok d
                    /\ d.(SessionBindingDecision.accepted) = true)
    <-> exists i s resolve secret, ident = Some i /\ session = Some s /\ port = Some resolve
      /\ id = Some i.(Identity.identity_id) /\ i.(Identity.identity_id) ≠ ""
      /\ session_binds plan i profile s resolve now run secret
      /\ d = SessionBindingDecision.mk true false None (Some s) (Some [("session_cookie", secret)])).
  { split; [intros [Hd Ha]; by apply existing_session_ok|].
    intros (i & s & resolve & secret & -> & -> & -> & -> & Hne & Hb & ->). split; [|done].
    by apply existing_session_complete. }
  by destruct (dict_get _ _) eqn:E.
Qed.

(** A session the target answered with 401 or 403 is not bound again. *)
Lemma expired_session_is_refused `{FloatRepr} `{NetlocCheck} plan id ident profile s port now run d :
  s.(SessionContextRecord.state) = session_state_value SessionState.EXPIRED ->
  bind_existing_session plan id ident profile (Some s) port now run = Ok d ->
  d.(SessionBindingDecision.accepted) = false.
Proof.
  intros Hs Hd. destruct (SessionBindingDecision.accepted d) eqn:Ha; [|done].
  destruct (existing_session_ok _ _ _ _ _ _ _ _ _ Hd Ha)
    as (i & s' & resolve & secret & _ & [= <-] & _ & _ & _ & Hb & _).
  pose proof (sb_active _ _ _ _ _ _ _ _ Hb) as Hact. by rewrite Hs in Hact.
Qed.

Definition sample_session (state : string) (expires : option Z) : SessionContextRecord.t :=
  SessionContextRecord.mk "s-1" "run-1" "id-a" "actor-a" "https://app.example.com" "form" "HTTP_FORM_LOGIN"
    "SESSION_MATERIAL" "session:s-1" state 0 0 (Some 0) expires (Some "sid").

Definition sample_identity : Identity.t :=
  Identity.mk "id-a" "actor-a" "https://app.example.com" (CredentialReference.mk "LOCAL_DEV" "pw") "form" None.

Definition session_plan : ExperimentPlan.t :=
  ExperimentPlan.mk "h-1" HTTP_TRANSACTION_CAPABILITY "read" "https://app.example.com" 0
    [("authorized_origin", PStr "https://app.example.com/"); ("session_context_reference", PStr "s-1")]
    "b-1" "seen" "unseen" "http.transaction.v1" None None.

Definition sample_store : InMemorySecretStore.t := {[ ("SESSION_MATERIAL", "session:s-1") := "c00kie" ]}.

Lemma session_bound_iff_witness :
  exists s resolve secret,
    session_binds (H := no_floats) (H0 := any_netloc) session_plan sample_identity None s resolve 5
      (Some "run-1") secret.
Proof.
  destruct (bind_identity_session (H := no_floats) (H0 := any_netloc) session_plan (Some "id-a")
          (Some sample_identity) None (Some (sample_session "ACTIVE" (Some 10)))
          (Some (composite_resolve sample_store (env_resolve []))) 5 (Some "run-1"))
    as [d|e] eqn:E; [|vm_compute in E; discriminate E].
  assert (Ha : d.(SessionBindingDecision.accepted) = true)
    by (vm_compute in E; injection E as <-; reflexivity).
  pose proof (conj E Ha) as Hb.
  apply (session_bound_iff (H := no_floats) (H0 := any_netloc)) in Hb
    as (i & s & resolve & secret & [= <-] & _ & _ & _ & _ & Hb & _);
    [|rewrite <-mem_true; vm_compute; reflexivity|vm_compute; discriminate].
  by exists s, resolve, secret.
Defined.

(** Nothing in the lifecycle asks for the state the session was in: the answer to a login that
    arrives after a revocation makes the session active again. *)
Example login_result_revives_revoked_session :
  let request := [("worker_capability", PStr "http.authentication");
                  ("arguments", PDict [("session_context_id", PStr "s-1")])] in
  let answer := [("status", PStr "SUCCEEDED");
                 ("raw_result", PDict [("session_established", PBool true)])] in
  let db := SessionDb.mk {[ "s-1" := sample_session "AUTHENTICATING" None ]} ∅ in
  match (db ← revoke_session db "s-1" true 1;
         capture_login_result db true request answer (PDict [("session_cookie", PStr "c00kie")]) 2) with
  | Ok db' => SessionContextRecord.state <$> (db'.(SessionDb.sessions) !! "s-1") = Some "ACTIVE"
  | Raise _ => False
  end.
Proof. vm_compute. reflexivity. Qed.
