(* ===== verification/Redirect.v ===== *)
(** * Redirects: a fresh candidate for Core

    [platform/url_normalize.py resolve_redirect_location] and
    [application/scope_reauthorization.py].  The worker does not follow a redirect; the location
    is resolved against the URL that answered, and the result is evaluated like any other URL.
    [urljoin] of the standard library is written out over [PyUrl]. *)
From S2P Require Import Prelude CoreTypes PyVal PyText PyUrl Scope Orchestration Envelope.

(** ** [urllib.parse.urljoin] *)

Definition uses_relative : list string :=
  [ ""; "ftp"; "http"; "gopher"; "nntp"; "imap"; "wais"; "file"; "https"; "shttp"; "mms";
    "prospero"; "rtsp"; "rtsps"; "rtspu"; "sftp"; "svn"; "svn+ssh"; "ws"; "wss" ].
Definition uses_netloc : list string :=
  [ ""; "ftp"; "http"; "gopher"; "nntp"; "telnet"; "imap"; "wais"; "file"; "mms"; "https";
    "shttp"; "snews"; "prospero"; "rtsp"; "rtsps"; "rtspu"; "rsync"; "svn"; "svn+ssh"; "sftp";
    "nfs"; "git"; "git+ssh"; "ws"; "wss"; "itms-services" ].
Definition uses_params : list string :=
  [ ""; "ftp"; "hdl"; "prospero"; "http"; "https"; "shttp"; "rtsp"; "rtsps"; "rtspu"; "sip";
    "sips"; "mms"; "sftp"; "tel" ].

(** The parameters of the last path segment. *)
Definition split_params (scheme path : string) : string * string :=
  if negb (mem scheme uses_params) then (path, "")
  else
    let segments := Str.split "/" path in
    let '(name, params) := Url.split_once ";" (List.last segments "") in
    (Str.join "/" (removelast segments ++ [name]), params).

Definition path_text (path params : string) : string :=
  if Str.is_empty params then path else path +:+ ";" +:+ params.

Definition urlunsplit (scheme netloc url query fragment : string) : string :=
  let url :=
    if negb (Str.is_empty netloc)
       || (negb (Str.is_empty scheme) && mem scheme uses_netloc && negb (Str.starts_with url "//"))
    then "//" +:+ netloc
         +:+ (if negb (Str.is_empty url) && negb (Str.starts_with url "/") then "/" +:+ url else url)
    else url in
  let url := if Str.is_empty scheme then url else scheme +:+ ":" +:+ url in
  let url := if Str.is_empty query then url else url +:+ "?" +:+ query in
  if Str.is_empty fragment then url else url +:+ "#" +:+ fragment.

(** One segment of the path onto the resolved ones, the last first. *)
Definition push_segment (acc : list string) (segment : string) : list string :=
  if (segment =? "..")%string then tail acc
  else if (segment =? ".")%string then acc
  else segment :: acc.

Definition is_dots (s : string) : bool := mem s ["."; ".."].

(** [segments[1:-1] = filter(None, segments[1:-1])] *)
Definition without_inner_empty (segments : list string) : list string :=
  match segments with
  | first :: (_ :: _) as rest =>
      let rest := tail segments in
      first :: List.filter (fun s => negb (Str.is_empty s)) (removelast rest)
            ++ [List.last rest ""]
  | _ => segments
  end.

Definition resolve_segments (segments : list string) : list string :=
  let resolved := fold_left push_segment segments [] in
  rev (if is_dots (List.last segments "") then "" :: resolved else resolved).

Section join.
Context `{NetlocCheck}.

Definition urljoin (base url : string) : result string :=
  if Str.is_empty base then Ok url
  else if Str.is_empty url then Ok base
  else
    b ← Url.urlsplit base;
    u ← Url.urlsplit url;
    let bscheme := b.(Url.scheme) in
    let scheme := if Str.is_empty u.(Url.scheme) then bscheme else u.(Url.scheme) in
    let '(bpath, bparams) := split_params bscheme b.(Url.path) in
    let '(path, params) := split_params scheme u.(Url.path) in
    if negb (scheme =? bscheme)%string || negb (mem scheme uses_relative) then Ok url
    else if mem scheme uses_netloc && negb (Str.is_empty u.(Url.authority))
    then Ok (urlunsplit scheme u.(Url.authority) (path_text path params) u.(Url.query) u.(Url.fragment))
    else
      let netloc := if mem scheme uses_netloc then b.(Url.authority) else u.(Url.authority) in
      if Str.is_empty path && Str.is_empty params
      then Ok (urlunsplit scheme netloc (path_text bpath bparams)
                 (if Str.is_empty u.(Url.query) then b.(Url.query) else u.(Url.query)) u.(Url.fragment))
      else
        let base_parts := Str.split "/" bpath in
        let base_parts := if Str.is_empty (List.last base_parts "") then base_parts
                          else removelast base_parts in
        let segments :=
          if Str.starts_with path "/" then Str.split "/" path
          else without_inner_empty (base_parts ++ Str.split "/" path) in
        let joined := Str.join "/" (resolve_segments segments) in
        Ok (urlunsplit scheme netloc
              (path_text (if Str.is_empty joined then "/" else joined) params)
              u.(Url.query) u.(Url.fragment)).

(** ** [platform/url_normalize.py:31-51 resolve_redirect_location] *)

(** [platform/url_normalize.py:28 UNSUPPORTED_REDIRECT_SCHEMES] *)
Definition UNSUPPORTED_REDIRECT_SCHEMES : list string := ["javascript"; "data"; "file"; "blob"; "about"].

Context `{HostCodec}.

(** [platform/url_normalize.py:31-51 resolve_redirect_location] *)
Definition resolve_redirect_location (response_url location : string) : ScopeCandidate.t :=
  if Str.is_blank response_url then url_error response_url PARSE_ERROR
  else
  match urljoin (Str.strip response_url) (Str.strip location) with
  | Raise _ => url_error location PARSE_ERROR
  | Ok resolved =>
      match Url.urlsplit resolved with
      | Raise _ => url_error resolved PARSE_ERROR
      | Ok parts =>
          let scheme := Str.lower parts.(Url.scheme) in
          if mem scheme UNSUPPORTED_REDIRECT_SCHEMES || Str.is_empty scheme
          then url_error resolved PARSE_ERROR
          else normalize_url resolved
      end
  end.
End join.

Definition join_of (base url : string) : string :=
  match urljoin (H := any_netloc) base url with Ok s => s | Raise _ => "raised" end.

(** The cases of RFC 3986, section 5.4, that a browser and the code agree on, and two more. *)
Example urljoin_cases :
  (join_of "http://a/b/c/d;p?q" <$> ["g"; "./g"; "g/"; "/g"; "//g"; "?y"; "g?y"; "#s"; ";x"; "";
     ".."; "../g"; "../../../g"; "/./g"; "g/./h"; "g;x=1/../y"; "http:g"; "javascript:1"])
  = [ "http://a/b/c/g"; "http://a/b/c/g"; "http://a/b/c/g/"; "http://a/g"; "http://g";
      "http://a/b/c/d;p?y"; "http://a/b/c/g?y"; "http://a/b/c/d;p?q#s"; "http://a/b/c/;x";
      "http://a/b/c/d;p?q"; "http://a/b/"; "http://a/b/g"; "http://a/g"; "http://a/g";
      "http://a/b/c/g/h"; "http://a/b/c/y"; "http://a/b/c/g"; "javascript:1" ].
Proof. vm_compute. reflexivity. Qed.

(** ** [application/scope_reauthorization.py] *)

(** [application/scope_reauthorization.py:12 REDIRECT_PRESERVE_STATUSES] *)
Definition REDIRECT_PRESERVE_STATUSES : list Z := [307; 308].
(** [application/scope_reauthorization.py:13 REDIRECT_GET_STATUSES] *)
Definition REDIRECT_GET_STATUSES : list Z := [301; 302; 303].

(** [application/scope_reauthorization.py:38-48 proposed_redirect_method] *)
Definition proposed_redirect_method (original_method : string) (status : Z) : string :=
  let method := Str.upper original_method in
  if mem status REDIRECT_PRESERVE_STATUSES then method
  else if mem status REDIRECT_GET_STATUSES
  then if (method =? "HEAD")%string && negb (status =? 303) then "HEAD" else "GET"
  else method.

(** [x if isinstance(x, Mapping) else {}] *)
Definition as_mapping (v : pyval) : list (string * pyval) := match v with PDict d => d | _ => [] end.

(** [isinstance(v, int)]: a [bool] is one. *)
Definition as_int (v : pyval) : option Z :=
  match v with PInt z => Some z | PBool b => Some (if b then 1 else 0) | _ => None end.

Section reauthorize.
Context `{FloatRepr} `{NetlocCheck} `{HostCodec}.

(** [application/scope_reauthorization.py:16-23 scope_candidate_from_redirect_location] *)
Definition scope_candidate_from_redirect_location (location : string) (response_url : option string)
    : ScopeCandidate.t :=
  match response_url with
  | Some (String _ _ as url) => resolve_redirect_location url location
  | _ => resolve_redirect_location location location
  end.

(** [application/scope_reauthorization.py:26-35 reevaluate_redirect_location] *)
Definition reevaluate_redirect_location (clock : Z) (location : string) (compiled : CompiledScope.t)
    (response_url : option string) : ScopeCheck.t :=
  evaluate_scope_candidate clock (scope_candidate_from_redirect_location location response_url)
    compiled None.

(** [str(a or b or ...)], the last taken as it is. *)
Fixpoint str_first (vs : list pyval) (otherwise : string) : string :=
  match vs with
  | [] => otherwise
  | v :: vs => if truthy v then py_str v else str_first vs otherwise
  end.

(** [application/scope_reauthorization.py:51-101 reauthorization_request_from_worker_result] *)
Definition reauthorization_request_from_worker_result
    (worker_request worker_result : list (string * pyval)) : list (string * pyval) :=
  let arguments := as_mapping (dict_get "arguments" worker_request) in
  let diagnostics := as_mapping (dict_get "diagnostics" worker_result) in
  let raw_result := as_mapping (dict_get "raw_result" worker_result) in
  let origin := Str.rstrip_chars ["/"%char] (str_first [dict_get "authorized_origin" arguments] "") in
  let path := str_first [dict_get "path" arguments] "/" in
  let response_url := str_first [dict_get "response_url" diagnostics] (origin +:+ path) in
  let raw_location := str_first [dict_get "raw_location" diagnostics; dict_get "location" diagnostics] "" in
  let candidate := resolve_redirect_location response_url raw_location in
  let proposed := match candidate.(ScopeCandidate.normalization_error) with
                  | None => candidate.(ScopeCandidate.raw_target)
                  | Some _ => raw_location
                  end in
  let original_method := str_first [dict_get "method" raw_result; dict_get "method" arguments] "GET" in
  let redirect_status := as_int (dict_get "status" raw_result) in
  let correlation := match dict_get "correlation" worker_result with
                     | PDict d => PDict d
                     | _ => dict_get "correlation" worker_request
                     end in
  [ ("contract_version", PStr "v1");
    ("correlation", PDict (as_mapping correlation));
    ("worker_id", PStr (str_first [dict_get "worker_id" worker_result;
                                   dict_get "worker_id" worker_request] ""));
    ("current_target_reference", PStr response_url);
    ("proposed_target_reference", PStr proposed);
    ("reason", PStr "redirect");
    ("discovery_context", PDict
       [ ("redirect_status", match dict_get "status" raw_result with
                             | PInt z => PInt z | PBool b => PBool b | _ => PNone end);
         ("raw_location", PStr raw_location);
         ("resolved_location", PStr proposed);
         ("response_url", PStr response_url);
         ("normalization_error", match candidate.(ScopeCandidate.normalization_error) with
                                 | Some e => PStr e | None => PNone end);
         ("original_method", PStr original_method);
         ("proposed_method", match redirect_status with
                             | None => PNone
                             | Some s => PStr (proposed_redirect_method original_method s)
                             end);
         ("proposed_body_preserved", PBool match redirect_status with
                                           | None => false
                                           | Some s => mem s REDIRECT_PRESERVE_STATUSES
                                           end);
         ("followed", PBool false);
         ("self_authorized", PBool false) ]) ].

(** [application/scope_reauthorization.py:104-117 evaluate_reauthorization_request] *)
Definition evaluate_reauthorization_request (clock : Z) (request : list (string * pyval))
    (compiled : CompiledScope.t) : ScopeCheck.t :=
  let response_url := str_first [dict_get "current_target_reference" request] "" in
  let location := str_first [dict_get "proposed_target_reference" request] "" in
  let '(raw_location, response_url) :=
    match dict_get "discovery_context" request with
    | PDict context =>
        if truthy (dict_get "raw_location" context)
        then (py_str (dict_get "raw_location" context),
              str_first [dict_get "response_url" context] response_url)
        else (location, response_url)
    | _ => (location, response_url)
    end in
  reevaluate_redirect_location clock raw_location compiled (Some response_url).
End reauthorize.

(** ** Theorems *)

Section properties.
Context `{FloatRepr} `{NetlocCheck} `{HostCodec}.

Lemma str_first_str s o : str_first [PStr s] o = if Str.is_empty s then o else s.
Proof. by destruct s. Qed.

(** A redirect gains nothing from the worker that reports it: the request built from the
    worker's answer is allowed exactly when the compiled scope allows the location it gave,
    resolved against the URL that answered, whatever else the answer says. *)
Theorem redirect_is_a_fresh_candidate clock compiled worker_request worker_result :
  let r := reauthorization_request_from_worker_result worker_request worker_result in
  let context := as_mapping (dict_get "discovery_context" r) in
  exists location response_url,
    dict_get "raw_location" context = PStr location
    /\ dict_get "response_url" context = PStr response_url
    /\ (location ≠ "" -> response_url ≠ "" ->
        ((evaluate_reauthorization_request clock r compiled).(ScopeCheck.decision) = ScopeDecision.ALLOW
         <-> scope_allows clock (resolve_redirect_location response_url location) compiled))
    /\ dict_get "self_authorized" context = PBool false.
Proof.
  cbv zeta. do 2 eexists. split_and!; [reflexivity|reflexivity| |reflexivity].
  intros Hl Hr. rewrite <-(scope_allow_iff clock _ compiled None).
  unfold evaluate_reauthorization_request, reevaluate_redirect_location.
  cbn -[evaluate_scope_candidate resolve_redirect_location str_first Str.rstrip_chars] in *.
  rewrite !str_first_str.
  set (location := str_first [_; _] "") in *.
  set (url := str_first [dict_get "response_url" _] _) in *.
  destruct location; [done|]. destruct url; [done|]. done.
Qed.
End properties.
