(* ===== verification/ExecDb.v ===== *)
(** * The tables an execution reads and writes

    The records of runs, sources, policies and faults, and the repository operations on
    experiments, plans, attempts, worker results, observations and faults that
    [application/execute_planned_experiment.py] and [application/ingest_worker_invocation.py]
    use.  A foreign key is checked when a row is inserted; the constraints of a table that repeat
    the validation of its record are left out. *)
From S2P Require Import Prelude CoreTypes PyVal Records FindingRecords EvidenceRecords HuntRecords Ledger Evaluators Session.

(** ** Records *)

(** [data/records.py:32-34 ALLOWED_AUTHORIZATION_STATES] *)
Definition ALLOWED_AUTHORIZATION_STATES : list string := ["ACTIVE"; "EXPIRED"; "REVOKED"].

(** [data/records.py:695-722 AuthorizationSourceRecord] *)
Module AuthorizationSourceRecord.
Record t : Set := mk {
  authorization_source_id : string;
  program_id : string;
  state : string;
  provenance_reference : string;
  created_at : Z;
  effective_from : option Z;
  effective_until : option Z }.

Definition post_init (x : t) : result t :=
  _ ← data_opaque_id x.(authorization_source_id);
  _ ← data_opaque_id x.(program_id);
  _ ← data_opaque_id x.(provenance_reference);
  raise_if negb (mem x.(state) ALLOWED_AUTHORIZATION_STATES) as PersistenceInputError;;
  raise_if match x.(effective_from), x.(effective_until) with
           | Some a, Some b => b <? a | _, _ => false end as PersistenceInputError;;
  Ok x.

#[global] Instance post_init_validator : Validator post_init.
Proof. solve_validator. Qed.
End AuthorizationSourceRecord.

(** [data/records.py:726-743 ResearchRunRecord] *)
Module ResearchRunRecord.
Record t : Set := mk {
  research_run_id : string;
  program_id : string;
  authorization_source_id : string;
  initiated_by_actor_id : string;
  initiated_by_actor_type : string;
  started_at : Z }.

Definition post_init (x : t) : result t :=
  _ ← data_opaque_id x.(research_run_id);
  _ ← data_opaque_id x.(program_id);
  _ ← data_opaque_id x.(authorization_source_id);
  _ ← data_opaque_id x.(initiated_by_actor_id);
  raise_if negb (mem x.(initiated_by_actor_type) ALLOWED_ACTOR_TYPES) as PersistenceInputError;;
  Ok x.

#[global] Instance post_init_validator : Validator post_init.
Proof. solve_validator. Qed.
End ResearchRunRecord.

(** [data/records.py:483-505 ProgramPolicyRecord] *)
Module ProgramPolicyRecord.
Record t : Type := mk {
  program_id : string;
  loopback_fixture : bool;
  max_response_bytes : Z;
  timeout_ms : Z;
  created_at : Z;
  updated_at : Z;
  action_policy : option (list (string * pyval));
  daily_llm_budget_microdollars : option Z }.

Definition post_init (x : t) : result t :=
  _ ← data_opaque_id x.(program_id);
  _ ← data_non_negative_int x.(max_response_bytes);
  _ ← data_non_negative_int x.(timeout_ms);
  _ ← data_optional_mapping x.(action_policy);
  _ ← match x.(daily_llm_budget_microdollars) with
      | Some v => _ ← data_non_negative_int v; Ok tt | None => Ok tt end;
  Ok x.

#[global] Instance post_init_validator : Validator post_init.
Proof. solve_validator. Qed.
End ProgramPolicyRecord.

(** [data/records.py:93-99 RunFaultClass] *)
Definition ALLOWED_RUN_FAULT_CLASSES : list string :=
  ["EXECUTION"; "RUNTIME"; "SUPERVISOR"; "PERSISTENCE"; "POLICY"].
(** [data/records.py:102-109 RunFaultComponent] *)
Definition ALLOWED_RUN_FAULT_COMPONENTS : list string :=
  ["CONTROL"; "EXECUTION"; "WORKER"; "RUNTIME"; "SUPERVISOR"; "PERSISTENCE"; "PLANNING"].
(** [data/records.py:112-121 RunFaultPhase] *)
Definition ALLOWED_RUN_FAULT_PHASES : list string :=
  [ "AUTHORIZATION"; "DISPATCH"; "INVOCATION"; "INGESTION"; "TICK"; "HEARTBEAT";
    "RECONCILIATION"; "PERSISTENCE"; "PLANNING" ].

(** [_DIAGNOSTIC_SECRET_PATTERN.sub]: the regular expression engine on one pattern. *)
Class DiagnosticRedaction : Type := redact_diagnostic : string -> string.

(** [data/records.py:137-146 sanitize_diagnostic_summary] *)
Definition sanitize_diagnostic_summary `{DiagnosticRedaction} (value : string) : result string :=
  raise_if Str.is_blank value as PersistenceInputError;;
  let cleaned := redact_diagnostic (Str.strip value) in
  let cleaned := String.string_of_list_ascii
                   (List.filter (fun c => negb (Ascii.eqb c "000"%char))
                      (String.list_ascii_of_string cleaned)) in
  Ok (if (1000 <? String.length cleaned)%nat
      then Str.take 1000 cleaned +:+ "...[truncated]" else cleaned).

(** [data/records.py:2192-2249 RunFaultRecord] *)
Module RunFaultRecord.
Record t : Set := mk {
  fault_id : string;
  research_run_id : string;
  component : string;
  phase : string;
  fault_class : string;
  fault_code : string;
  fatal : bool;
  occurred_at : Z;
  diagnostic_summary : string;
  hypothesis_id : option string;
  experiment_id : option string;
  attempt_id : option string;
  request_id : option string;
  capability : option string;
  action : option string;
  runtime_instance_id : option string;
  correlation_id : option string;
  resolved_at : option Z }.

Definition post_init `{DiagnosticRedaction} (x : t) : result t :=
  _ ← data_opaque_id x.(fault_id);
  _ ← data_opaque_id x.(research_run_id);
  _ ← data_opaque_id x.(fault_code);
  _ ← traverse data_optional_opaque_id
        [x.(hypothesis_id); x.(experiment_id); x.(attempt_id); x.(request_id); x.(capability);
         x.(action); x.(runtime_instance_id); x.(correlation_id)];
  raise_if negb (mem x.(component) ALLOWED_RUN_FAULT_COMPONENTS) as PersistenceInputError;;
  raise_if negb (mem x.(phase) ALLOWED_RUN_FAULT_PHASES) as PersistenceInputError;;
  raise_if negb (mem x.(fault_class) ALLOWED_RUN_FAULT_CLASSES) as PersistenceInputError;;
  summary ← sanitize_diagnostic_summary x.(diagnostic_summary);
  raise_if match x.(resolved_at) with Some r => r <? x.(occurred_at) | None => false end
  as PersistenceInputError;;
  Ok (mk x.(fault_id) x.(research_run_id) x.(component) x.(phase) x.(fault_class) x.(fault_code)
        x.(fatal) x.(occurred_at) summary x.(hypothesis_id) x.(experiment_id) x.(attempt_id)
        x.(request_id) x.(capability) x.(action) x.(runtime_instance_id) x.(correlation_id)
        x.(resolved_at)).
End RunFaultRecord.

(** ** The database *)

Module ExecDb.
Record t : Type := mk {
  experiments : gmap string ExperimentRecord.t;
  plans : gmap string ExperimentPlanRecord.t;
  hypotheses : gmap string HypothesisRecord.t;
  runs : gmap string ResearchRunRecord.t;
  sources : gmap string AuthorizationSourceRecord.t;
  policies : gmap string ProgramPolicyRecord.t;
  attempts : list ExecutionAttemptRecord.t;
  audit : list AuditEventRecord.t;
  sessions : gmap string SessionContextRecord.t;
  faults : gmap string RunFaultRecord.t;
  results : list WorkerResultRecord.t;
  observations : list ObservationRecord.t;
  ledger : Ledger.Db.t }.

Definition with_experiments (db : t) (v : gmap string ExperimentRecord.t) : t :=
  mk v db.(plans) db.(hypotheses) db.(runs) db.(sources) db.(policies) db.(attempts) db.(audit)
    db.(sessions) db.(faults) db.(results) db.(observations) db.(ledger).
Definition with_plans (db : t) (v : gmap string ExperimentPlanRecord.t) : t :=
  mk db.(experiments) v db.(hypotheses) db.(runs) db.(sources) db.(policies) db.(attempts)
    db.(audit) db.(sessions) db.(faults) db.(results) db.(observations) db.(ledger).
Definition with_attempts (db : t) (v : list ExecutionAttemptRecord.t) : t :=
  mk db.(experiments) db.(plans) db.(hypotheses) db.(runs) db.(sources) db.(policies) v
    db.(audit) db.(sessions) db.(faults) db.(results) db.(observations) db.(ledger).
Definition with_audit (db : t) (v : list AuditEventRecord.t) : t :=
  mk db.(experiments) db.(plans) db.(hypotheses) db.(runs) db.(sources) db.(policies)
    db.(attempts) v db.(sessions) db.(faults) db.(results) db.(observations) db.(ledger).
Definition with_sessions (db : t) (v : gmap string SessionContextRecord.t) : t :=
  mk db.(experiments) db.(plans) db.(hypotheses) db.(runs) db.(sources) db.(policies)
    db.(attempts) db.(audit) v db.(faults) db.(results) db.(observations) db.(ledger).
Definition with_faults (db : t) (v : gmap string RunFaultRecord.t) : t :=
  mk db.(experiments) db.(plans) db.(hypotheses) db.(runs) db.(sources) db.(policies)
    db.(attempts) db.(audit) db.(sessions) v db.(results) db.(observations) db.(ledger).
Definition with_results (db : t) (v : list WorkerResultRecord.t) : t :=
  mk db.(experiments) db.(plans) db.(hypotheses) db.(runs) db.(sources) db.(policies)
    db.(attempts) db.(audit) db.(sessions) db.(faults) v db.(observations) db.(ledger).
Definition with_observations (db : t) (v : list ObservationRecord.t) : t :=
  mk db.(experiments) db.(plans) db.(hypotheses) db.(runs) db.(sources) db.(policies)
    db.(attempts) db.(audit) db.(sessions) db.(faults) db.(results) v db.(ledger).
Definition with_ledger (db : t) (v : Ledger.Db.t) : t :=
  mk db.(experiments) db.(plans) db.(hypotheses) db.(runs) db.(sources) db.(policies)
    db.(attempts) db.(audit) db.(sessions) db.(faults) db.(results) db.(observations) v.
End ExecDb.

(** A read by primary key, after [require_opaque_id]. *)
Definition get_row {A} (table : gmap string A) (id : string) : result (option A) :=
  _ ← data_opaque_id id; Ok (table !! id).

(** ** Repositories *)

Definition with_execution_state (x : ExperimentRecord.t) (state : string) : ExperimentRecord.t :=
  ExperimentRecord.mk x.(ExperimentRecord.experiment_id) x.(ExperimentRecord.research_run_id)
    x.(ExperimentRecord.hypothesis_id) x.(ExperimentRecord.budget_id) state
    x.(ExperimentRecord.created_at).

(** [data/postgres/repositories.py:890-900 PostgresExperimentRepository.set_execution_state] *)
Definition set_execution_state (db : ExecDb.t) (experiment_id state : string) : result ExecDb.t :=
  _ ← data_opaque_id experiment_id;
  raise_if negb (mem state ALLOWED_EXPERIMENT_STATES) as PersistenceInputError;;
  match db.(ExecDb.experiments) !! experiment_id with
  | None => Raise PersistenceError
  | Some x => Ok (ExecDb.with_experiments db
                    (<[experiment_id := with_execution_state x state]> db.(ExecDb.experiments)))
  end.

(** The keys to the experiment, the hypothesis and the budget of one run.
    [data/postgres/repositories.py:1288-1308 PostgresExperimentPlanRepository.insert] *)
Definition insert_plan (db : ExecDb.t) (r : ExperimentPlanRecord.t) : result ExecDb.t :=
  let run := r.(ExperimentPlanRecord.research_run_id) in
  let id := r.(ExperimentPlanRecord.experiment_id) in
  raise_if bool_decide (is_Some (db.(ExecDb.plans) !! id)) as PersistenceConflictError;;
  raise_if negb (bool_decide (ExperimentRecord.research_run_id <$> db.(ExecDb.experiments) !! id
                              = Some run))
           || negb (bool_decide (HypothesisRecord.research_run_id
                      <$> db.(ExecDb.hypotheses) !! r.(ExperimentPlanRecord.hypothesis_id) = Some run))
           || negb (bool_decide (IssuedBudgetRecord.research_run_id
                      <$> db.(ExecDb.ledger).(Ledger.Db.issued)
                            !! r.(ExperimentPlanRecord.requested_budget_id) = Some (Some run)))
  as PersistenceError;;
  Ok (ExecDb.with_plans db (<[id := r]> db.(ExecDb.plans))).

(** [data/postgres/repositories.py:931-939 PostgresExecutionAttemptRepository.get] *)
Definition get_attempt (db : ExecDb.t) (attempt_id : string)
    : result (option ExecutionAttemptRecord.t) :=
  _ ← data_opaque_id attempt_id;
  Ok (List.find (fun a => (a.(ExecutionAttemptRecord.attempt_id) =? attempt_id)%string)
        db.(ExecDb.attempts)).

(** The query has no order: the rows come as the table keeps them.
    [data/postgres/repositories.py:951-961 PostgresExecutionAttemptRepository.list_for_experiment] *)
Definition attempts_for_experiment (db : ExecDb.t) (experiment_id : string)
    : result (list ExecutionAttemptRecord.t) :=
  _ ← data_opaque_id experiment_id;
  Ok (List.filter (fun a => (a.(ExecutionAttemptRecord.experiment_id) =? experiment_id)%string)
        db.(ExecDb.attempts)).

(** [data/postgres/repositories.py:963-976 PostgresExecutionAttemptRepository.list_for_research_run] *)
Definition attempts_for_run (db : ExecDb.t) (research_run_id : string)
    : result (list ExecutionAttemptRecord.t) :=
  _ ← data_opaque_id research_run_id;
  Ok (sort_by ExecutionAttemptRecord.attempt_id
        (List.filter (fun a => (a.(ExecutionAttemptRecord.research_run_id) =? research_run_id)%string)
           db.(ExecDb.attempts))).

(** The keys to the experiment and the budget of one run, and to the audit event.
    [data/postgres/repositories.py:907-929 PostgresExecutionAttemptRepository.insert] *)
Definition insert_attempt (db : ExecDb.t) (r : ExecutionAttemptRecord.t) : result ExecDb.t :=
  let run := r.(ExecutionAttemptRecord.research_run_id) in
  raise_if existsb (fun a =>
      (a.(ExecutionAttemptRecord.attempt_id) =? r.(ExecutionAttemptRecord.attempt_id))%string
      || (a.(ExecutionAttemptRecord.request_id) =? r.(ExecutionAttemptRecord.request_id))%string)
    db.(ExecDb.attempts) as PersistenceConflictError;;
  raise_if negb (bool_decide (ExperimentRecord.research_run_id
                   <$> db.(ExecDb.experiments) !! r.(ExecutionAttemptRecord.experiment_id) = Some run))
           || negb (bool_decide (IssuedBudgetRecord.research_run_id
                   <$> db.(ExecDb.ledger).(Ledger.Db.issued) !! r.(ExecutionAttemptRecord.budget_id)
                   = Some (Some run)))
           || negb (existsb (fun e =>
                 (e.(AuditEventRecord.audit_event_id)
                    =? r.(ExecutionAttemptRecord.authorization_decision_reference))%string)
                db.(ExecDb.audit))
  as PersistenceError;;
  Ok (ExecDb.with_attempts db (db.(ExecDb.attempts) ++ [r])).

Definition with_attempt_state (a : ExecutionAttemptRecord.t) (state : string)
    (dispatch_started completed : option Z) (contact : option string) : ExecutionAttemptRecord.t :=
  ExecutionAttemptRecord.mk a.(ExecutionAttemptRecord.attempt_id)
    a.(ExecutionAttemptRecord.request_id) a.(ExecutionAttemptRecord.experiment_id)
    a.(ExecutionAttemptRecord.research_run_id) a.(ExecutionAttemptRecord.correlation_id)
    a.(ExecutionAttemptRecord.worker_capability) a.(ExecutionAttemptRecord.action)
    a.(ExecutionAttemptRecord.target_reference) a.(ExecutionAttemptRecord.budget_id)
    a.(ExecutionAttemptRecord.side_effect_level)
    a.(ExecutionAttemptRecord.authorization_decision_reference) state
    a.(ExecutionAttemptRecord.created_at) a.(ExecutionAttemptRecord.authorized_at)
    (match dispatch_started with
     | Some _ => dispatch_started | None => a.(ExecutionAttemptRecord.dispatch_started_at) end)
    (match completed with Some _ => completed | None => a.(ExecutionAttemptRecord.completed_at) end)
    (default a.(ExecutionAttemptRecord.target_contact_status) contact).

(** [data/postgres/repositories.py:978-1011 PostgresExecutionAttemptRepository.set_state] *)
Definition set_attempt_state (db : ExecDb.t) (attempt_id state : string)
    (dispatch_started completed : option Z) (contact : option string) : result ExecDb.t :=
  _ ← data_opaque_id attempt_id;
  raise_if negb (mem state ALLOWED_EXECUTION_ATTEMPT_STATES) as PersistenceInputError;;
  raise_if match contact with
           | Some c => negb (mem c ALLOWED_TARGET_CONTACT_STATUSES) | None => false end
  as PersistenceInputError;;
  let here a := (a.(ExecutionAttemptRecord.attempt_id) =? attempt_id)%string in
  raise_if negb (existsb here db.(ExecDb.attempts)) as PersistenceError;;
  Ok (ExecDb.with_attempts db
        ((fun a => if here a then with_attempt_state a state dispatch_started completed contact else a)
           <$> db.(ExecDb.attempts))).

(** [data/postgres/repositories.py:1056-1064 PostgresWorkerResultRepository.get_by_request_id] *)
Definition result_by_request (db : ExecDb.t) (request_id : string)
    : result (option WorkerResultRecord.t) :=
  _ ← data_opaque_id request_id;
  Ok (List.find (fun r => (r.(WorkerResultRecord.request_id) =? request_id)%string) db.(ExecDb.results)).

(** [data/postgres/repositories.py:1081-1091 PostgresWorkerResultRepository.list_for_experiment] *)
Definition results_for_experiment (db : ExecDb.t) (experiment_id : string)
    : result (list WorkerResultRecord.t) :=
  _ ← data_opaque_id experiment_id;
  Ok (sort_by WorkerResultRecord.worker_result_id
        (List.filter (fun r => (r.(WorkerResultRecord.experiment_id) =? experiment_id)%string)
           db.(ExecDb.results))).

(** [data/postgres/repositories.py:1018-1044 PostgresWorkerResultRepository.insert] *)
Definition insert_result (db : ExecDb.t) (r : WorkerResultRecord.t) : result ExecDb.t :=
  let run := r.(WorkerResultRecord.research_run_id) in
  raise_if existsb (fun o =>
      (o.(WorkerResultRecord.worker_result_id) =? r.(WorkerResultRecord.worker_result_id))%string
      || (o.(WorkerResultRecord.request_id) =? r.(WorkerResultRecord.request_id))%string)
    db.(ExecDb.results) as PersistenceConflictError;;
  raise_if negb (bool_decide (ExperimentRecord.research_run_id
                   <$> db.(ExecDb.experiments) !! r.(WorkerResultRecord.experiment_id) = Some run))
           || negb (bool_decide (IssuedBudgetRecord.research_run_id
                   <$> db.(ExecDb.ledger).(Ledger.Db.issued) !! r.(WorkerResultRecord.budget_id)
                   = Some (Some run)))
  as PersistenceError;;
  Ok (ExecDb.with_results db (db.(ExecDb.results) ++ [r])).

(** The query has no order.
    [data/postgres/repositories.py:1122-1132 PostgresObservationRepository.list_for_worker_result] *)
Definition observations_for_result (db : ExecDb.t) (worker_result_id : string)
    : result (list ObservationRecord.t) :=
  _ ← data_opaque_id worker_result_id;
  Ok (List.filter (fun o => (o.(ObservationRecord.worker_result_id) =? worker_result_id)%string)
        db.(ExecDb.observations)).

(** [data/postgres/repositories.py:1098-1110 PostgresObservationRepository.insert] *)
Definition insert_observation (db : ExecDb.t) (r : ObservationRecord.t) : result ExecDb.t :=
  raise_if existsb (fun o =>
      (o.(ObservationRecord.observation_id) =? r.(ObservationRecord.observation_id))%string
      || ((o.(ObservationRecord.worker_result_id) =? r.(ObservationRecord.worker_result_id))%string
          && (o.(ObservationRecord.observation_kind) =? r.(ObservationRecord.observation_kind))%string
          && (o.(ObservationRecord.normalization_version)
                =? r.(ObservationRecord.normalization_version))%string))
    db.(ExecDb.observations) as PersistenceConflictError;;
  raise_if negb (existsb (fun w =>
      (w.(WorkerResultRecord.worker_result_id) =? r.(ObservationRecord.worker_result_id))%string)
      db.(ExecDb.results)) as PersistenceError;;
  Ok (ExecDb.with_observations db (db.(ExecDb.observations) ++ [r])).

(** [data/postgres/repositories.py:2577-2591 PostgresAuditEventRepository.insert] *)
Definition insert_audit (db : ExecDb.t) (e : AuditEventRecord.t) : result ExecDb.t :=
  events ← append_audit db.(ExecDb.audit) e;
  Ok (ExecDb.with_audit db events).

(** The key to the run, and the check of the record that is not the table's.
    [data/postgres/repositories.py:3169-3189 PostgresSessionContextRepository.insert] *)
Definition insert_session_row (db : ExecDb.t) (r : SessionContextRecord.t) : result ExecDb.t :=
  sessions ← insert_session db.(ExecDb.sessions) r;
  raise_if negb (bool_decide (is_Some (db.(ExecDb.runs) !! r.(SessionContextRecord.research_run_id))))
  as PersistenceError;;
  Ok (ExecDb.with_sessions db sessions).

(** [ck_run_fault_code] and [ck_run_fault_diagnostic_summary].
    [data/postgres/tables.py:542-546 run_fault] *)
Definition fault_fits (r : RunFaultRecord.t) : bool :=
  let n := String.length r.(RunFaultRecord.diagnostic_summary) in
  (1 <=? n)%nat && (n <=? 1000)%nat && (String.length r.(RunFaultRecord.fault_code) <=? 128)%nat.

(** The keys of a fault that names an experiment, a hypothesis or an attempt; no runtime is named
    by the faults of an execution.
    [data/postgres/repositories.py:2643-2666 PostgresRunFaultRepository.insert] *)
Definition insert_fault (db : ExecDb.t) (r : RunFaultRecord.t) : result ExecDb.t :=
  let run := r.(RunFaultRecord.research_run_id) in
  let missing {A} (found : option A) (run_of : A -> string) :=
    negb (bool_decide (run_of <$> found = Some run)) in
  raise_if bool_decide (is_Some (db.(ExecDb.faults) !! r.(RunFaultRecord.fault_id)))
  as PersistenceConflictError;;
  raise_if negb (fault_fits r) as PersistenceError;;
  raise_if negb (bool_decide (is_Some (db.(ExecDb.runs) !! run)))
           || match r.(RunFaultRecord.hypothesis_id) with
              | Some h => missing (db.(ExecDb.hypotheses) !! h) HypothesisRecord.research_run_id
              | None => false end
           || match r.(RunFaultRecord.experiment_id) with
              | Some e => missing (db.(ExecDb.experiments) !! e) ExperimentRecord.research_run_id
              | None => false end
           || match r.(RunFaultRecord.attempt_id) with
              | Some a => missing (List.find (fun x =>
                              (x.(ExecutionAttemptRecord.attempt_id) =? a)%string) db.(ExecDb.attempts))
                            ExecutionAttemptRecord.research_run_id
              | None => false end
  as PersistenceError;;
  Ok (ExecDb.with_faults db (<[r.(RunFaultRecord.fault_id) := r]> db.(ExecDb.faults))).

(** ** Lemmas: what an operation changes *)

Lemma set_execution_state_ok db id state db' :
  set_execution_state db id state = Ok db' ->
  exists x, db.(ExecDb.experiments) !! id = Some x
    /\ db' = ExecDb.with_experiments db
               (<[id := with_execution_state x state]> db.(ExecDb.experiments)).
Proof.
  unfold set_execution_state. intros (w & _ & H)%bind_ok. apply raise_if_ok in H as [_ H].
  destruct (_ !! id) as [x|]; [|done]. injection H as <-. by exists x.
Qed.

Lemma audit_row_appended db e db' :
  insert_audit db e = Ok db' -> db' = ExecDb.with_audit db (db.(ExecDb.audit) ++ [e]).
Proof. unfold insert_audit. by intros (? & ->%append_audit_ok & [= <-])%bind_ok. Qed.

Lemma insert_attempt_ok db r db' :
  insert_attempt db r = Ok db' ->
  db' = ExecDb.with_attempts db (db.(ExecDb.attempts) ++ [r])
  /\ forall a, a ∈ db.(ExecDb.attempts) ->
       a.(ExecutionAttemptRecord.attempt_id) ≠ r.(ExecutionAttemptRecord.attempt_id)
       /\ a.(ExecutionAttemptRecord.request_id) ≠ r.(ExecutionAttemptRecord.request_id).
Proof.
  unfold insert_attempt. intros [Hc H]%raise_if_ok. apply raise_if_ok in H as [_ [= <-]].
  split; [done|]. rewrite existsb_false in Hc. intros a Ha%Hc.
  by apply orb_false_iff in Ha as [?%String.eqb_neq ?%String.eqb_neq].
Qed.

Lemma set_attempt_state_ok db id state d c k db' :
  set_attempt_state db id state d c k = Ok db' ->
  db' = ExecDb.with_attempts db
          ((fun a => if (a.(ExecutionAttemptRecord.attempt_id) =? id)%string
                     then with_attempt_state a state d c k else a) <$> db.(ExecDb.attempts)).
Proof.
  unfold set_attempt_state. intros (? & _ & H)%bind_ok.
  apply raise_if_ok in H as [_ H]. apply raise_if_ok in H as [_ H].
  by apply raise_if_ok in H as [_ [= <-]].
Qed.

Lemma insert_plan_ok db r db' :
  insert_plan db r = Ok db' ->
  db' = ExecDb.with_plans db (<[r.(ExperimentPlanRecord.experiment_id) := r]> db.(ExecDb.plans))
  /\ db.(ExecDb.plans) !! r.(ExperimentPlanRecord.experiment_id) = None.
Proof.
  unfold insert_plan. intros [Hn H]%raise_if_ok. apply raise_if_ok in H as [_ [= <-]].
  split; [done|]. apply bool_decide_eq_false in Hn. by apply eq_None_not_Some.
Qed.

Lemma get_attempt_ok db id a :
  get_attempt db id = Ok (Some a) ->
  a ∈ db.(ExecDb.attempts) /\ a.(ExecutionAttemptRecord.attempt_id) = id.
Proof.
  unfold get_attempt. intros (? & _ & [= H])%bind_ok. apply find_Some_elem in H as [? H].
  by apply String.eqb_eq in H.
Qed.

Lemma get_row_ok {A} (table : gmap string A) id r : get_row table id = Ok r -> table !! id = r.
Proof. unfold get_row. by intros (? & _ & [= <-])%bind_ok. Qed.

(** The truncated summary of [sanitize_diagnostic_summary] does not fit its column. *)
Lemma truncated_summary_does_not_fit `{DiagnosticRedaction} r r' :
  RunFaultRecord.post_init r = Ok r' ->
  (1000 < String.length r'.(RunFaultRecord.diagnostic_summary))%nat -> fault_fits r' = false.
Proof.
  intros _ Hl. unfold fault_fits. destruct (_ <=? 1000)%nat eqn:E; [apply Nat.leb_le in E; lia|].
  by rewrite andb_false_r.
Qed.
