(* ===== verification/Ingest.v ===== *)
(** * Ingesting what a worker returned

    [platform/worker.py], the checks of [platform/contract_validation.py] around its schemas,
    [application/transition_a/drafts.py] and [application/ingest_worker_invocation.py].  A worker
    result becomes a row once per request, its observations are what the normalizer of the trusted
    request reads in it, and nothing else of the database changes but the session of a login.

    The JSON schemas, the parsing of timestamps and the normalizers are classes: [Normalizers]
    is what [application/transition_a/registry.py] promises, one function per capability and
    action. *)
From S2P Require Import Prelude CoreTypes PyVal PyText Records FindingRecords EvidenceRecords HuntRecords Ledger Orchestration Envelope Session ExecDb.

(** ** [platform/worker.py] *)

(** [platform/worker.py:11-20 InvocationStatus] *)
Module InvocationStatus.
Inductive t : Set :=
  | COMPLETED | START_FAILED | TIMED_OUT | CANCELLED | PROCESS_FAILED | PROTOCOL_ERROR
  | CONTRACT_INVALID.
#[global] Instance eq_dec : EqDecision t.
Proof. solve_decision. Defined.
Definition value (x : t) : string :=
  match x with
  | COMPLETED => "COMPLETED" | START_FAILED => "START_FAILED" | TIMED_OUT => "TIMED_OUT"
  | CANCELLED => "CANCELLED" | PROCESS_FAILED => "PROCESS_FAILED"
  | PROTOCOL_ERROR => "PROTOCOL_ERROR" | CONTRACT_INVALID => "CONTRACT_INVALID"
  end.
End InvocationStatus.

(** [platform/worker.py:24-36 WorkerInvocationOutcome] *)
Module WorkerInvocationOutcome.
Record t : Type := mk {
  invocation_status : InvocationStatus.t;
  started_at : Z;
  completed_at : Z;
  worker_result : option (list (string * pyval));
  exit_code : option Z;
  stderr_diagnostics : string;
  stderr_truncated : bool;
  reason : option string;
  target_contact_status : string }.
End WorkerInvocationOutcome.

(** ** [platform/contract_validation.py] *)

Inductive contract : Set := WorkerRequest | WorkerResult | ReauthorizationRequest.

(** A document satisfies the packaged JSON schema of a contract. *)
Class ContractSchemas : Type := satisfies : contract -> list (string * pyval) -> bool.

(** [platform/contract_validation.py:26-31 CORRELATION_KEYS] *)
Definition CORRELATION_KEYS : list string :=
  ["correlation_id"; "research_run_id"; "experiment_id"; "request_id"].

(** [d.get(k) == e.get(k)] for values that are texts or absent; the schemas admit no others. *)
Definition same_item (k : string) (d e : list (string * pyval)) : bool :=
  match dict_get k d, dict_get k e with
  | PNone, PNone => true
  | PStr a, PStr b => (a =? b)%string
  | _, _ => false
  end.

(** [platform/contract_validation.py:96-103 ContractValidator.correlation_matches] *)
Definition correlation_matches (request result_ : list (string * pyval)) : bool :=
  match dict_get "correlation" request, dict_get "correlation" result_ with
  | PDict c, PDict c' => forallb (fun k => same_item k c c') CORRELATION_KEYS
  | _, _ => false
  end.

(** [platform/contract_validation.py:112-120 ContractValidator._validate] *)
Definition validate_contract `{ContractSchemas} (c : contract) (document : list (string * pyval))
    : result unit :=
  raise_if negb (eq_str (dict_get "contract_version" document) "v1") as ContractValidationError;;
  raise_if negb (satisfies c document) as ContractValidationError;;
  Ok tt.

(** ** [application/transition_a] *)

(** [datetime.fromisoformat] on a text that names a zone: its instant; [None] where it raises or
    the result has no zone. *)
Class IsoTimestamps : Type := from_iso : string -> option Z.

(** [application/transition_a/timestamps.py:10-24 parse_aware_timestamp] *)
Definition parse_aware_timestamp `{IsoTimestamps} (value : pyval) : result Z :=
  match value with
  | PStr s =>
      raise_if Str.is_blank s as MalformedNormalizedPayloadError;;
      let text := Str.strip s in
      let text := if Str.ends_with text "Z"
                  then Str.take (String.length text - 1) text +:+ "+00:00" else text in
      match from_iso text with Some t => Ok t | None => Raise MalformedNormalizedPayloadError end
  | _ => Raise MalformedNormalizedPayloadError
  end.

(** [application/transition_a/drafts.py:12-43 ObservationDraft] *)
Module ObservationDraft.
Record t : Type := mk {
  observation_kind : string;
  payload : list (string * pyval);
  normalization_version : string;
  observed_at : Z }.

Definition forbidden : list string :=
  [ "severity"; "confidence"; "vulnerability_type"; "impact"; "evidence_status"; "finding_status";
    "candidate_status" ].

Definition post_init (x : t) : result t :=
  _ ← data_opaque_id x.(observation_kind);
  raise_if Str.is_blank x.(normalization_version) as PersistenceInputError;;
  raise_if existsb (fun k => mem k forbidden) x.(payload).*1 as PersistenceInputError;;
  Ok x.

#[global] Instance post_init_validator : Validator post_init.
Proof. solve_validator. Qed.
End ObservationDraft.

(** What the registry finds for a capability and an action: the normalizer, a function of the
    request and the result that may raise. *)
Class Normalizers : Type :=
  normalizer : string -> string ->
    option (list (string * pyval) -> list (string * pyval) -> result (list ObservationDraft.t)).

(** ** [application/ingest_worker_invocation.py] *)

(** [application/ingest_worker_invocation.py:45-51 IngestionStatus] *)
Module IngestionStatus.
Inductive t : Set := INGESTED | ALREADY_INGESTED | NO_OBSERVATION | REJECTED_INVALID_INVOCATION.
#[global] Instance eq_dec : EqDecision t.
Proof. solve_decision. Defined.
End IngestionStatus.

(** [str(exc)]: the model keeps the class of an exception, its text is a parameter. *)
Class ExceptionText : Type := exception_text : exn -> string.

(** [application/ingest_worker_invocation.py:55-59 IngestionOutcome] *)
Module IngestionOutcome.
Record t : Set := mk {
  status : IngestionStatus.t;
  worker_result_id : option string;
  observation_ids : list string;
  reason : option string }.
End IngestionOutcome.

(** [application/ingest_worker_invocation.py:62-63 worker_result_id_for] *)
Definition worker_result_id_for (request_id : string) : string := "wr:" +:+ request_id.

(** [application/ingest_worker_invocation.py:66-67 observation_id_for] *)
Definition observation_id_for (request_id kind version : string) : string :=
  "obs:" +:+ request_id +:+ ":" +:+ kind +:+ ":" +:+ version.

Definition rejected (reason : string) : IngestionOutcome.t :=
  IngestionOutcome.mk IngestionStatus.REJECTED_INVALID_INVOCATION None [] (Some reason).

(** [x = d[k]] and [assert isinstance(x, Mapping)] *)
Definition mapping_item (k : string) (d : list (string * pyval)) : result (list (string * pyval)) :=
  match dict_find k d with
  | None => Raise KeyError
  | Some (PDict m) => Ok m
  | Some _ => Raise AssertionError
  end.

(** [str(d[k])] *)
Definition text_item `{FloatRepr} (k : string) (d : list (string * pyval)) : result string :=
  match dict_find k d with None => Raise KeyError | Some v => Ok (py_str v) end.

(** [d.get(k) if isinstance(d.get(k), Mapping) else None] *)
Definition optional_mapping (k : string) (d : list (string * pyval))
    : option (list (string * pyval)) :=
  match dict_get k d with PDict m => Some m | _ => None end.

(** [parse_aware_timestamp(d.get(k), k)] unless [d.get(k) is None] *)
Definition optional_timestamp `{IsoTimestamps} (k : string) (d : list (string * pyval))
    : result (option Z) :=
  match dict_get k d with
  | PNone => Ok None
  | v => t ← parse_aware_timestamp v; Ok (Some t)
  end.

Section ingest.
Context `{FloatRepr} `{ContractSchemas} `{IsoTimestamps} `{Normalizers} `{ExceptionText}.

(** [application/ingest_worker_invocation.py:181-212 IngestCompletedWorkerInvocation._reject_invalid_invocation] *)
Definition reject_invalid_invocation (request : list (string * pyval))
    (outcome : WorkerInvocationOutcome.t) : option IngestionOutcome.t :=
  if negb (bool_decide (outcome.(WorkerInvocationOutcome.invocation_status) = InvocationStatus.COMPLETED))
  then Some (rejected "invocation_status is not COMPLETED; transport/runtime failure is not a WorkerResult")
  else
  match outcome.(WorkerInvocationOutcome.worker_result) with
  | None => Some (rejected "COMPLETED invocation is missing a WorkerResult document")
  | Some document =>
      match (_ ← validate_contract WorkerRequest request; validate_contract WorkerResult document) with
      | Raise e => Some (rejected (exception_text e))
      | Ok _ =>
          if negb (correlation_matches request document)
          then Some (rejected "correlation mismatch; WorkerResult not rewritten and not ingested")
          else None
      end
  end.

(** [application/ingest_worker_invocation.py:214-240 IngestCompletedWorkerInvocation._check_experiment_integrity] *)
Definition check_experiment_integrity (db : ExecDb.t) (request : list (string * pyval))
    : result (option IngestionOutcome.t) :=
  correlation ← mapping_item "correlation" request;
  experiment_id ← text_item "experiment_id" correlation;
  research_run_id ← text_item "research_run_id" correlation;
  budget ← mapping_item "execution_budget" request;
  budget_id ← text_item "budget_id" budget;
  found ← get_row db.(ExecDb.experiments) experiment_id;
  match found with
  | None => Ok (Some (rejected "experiment does not exist for this WorkerRequest"))
  | Some experiment =>
      if negb (experiment.(ExperimentRecord.research_run_id) =? research_run_id)%string
      then Ok (Some (rejected "experiment research_run_id does not match WorkerRequest"))
      else if negb (experiment.(ExperimentRecord.budget_id) =? budget_id)%string
      then Ok (Some (rejected "experiment budget_id does not match WorkerRequest"))
      else Ok None
  end.

(** [application/ingest_worker_invocation.py:242-288 IngestCompletedWorkerInvocation._worker_result_record] *)
Definition worker_result_record (received_at : Z) (request result_ : list (string * pyval))
    : result WorkerResultRecord.t :=
  correlation ← mapping_item "correlation" request;
  budget ← mapping_item "execution_budget" request;
  request_id ← text_item "request_id" correlation;
  started_at ← optional_timestamp "started_at" result_;
  completed_at ← optional_timestamp "completed_at" result_;
  let parent_request_id := match dict_get "parent_request_id" correlation with
                           | PStr s => Some s | _ => None end in
  let descriptors := match dict_get "raw_artifact_descriptors" result_ with
                     | PList l => Some (omap (fun v => match v with PDict d => Some d | _ => None end) l)
                     | _ => None end in
  experiment_id ← text_item "experiment_id" correlation;
  research_run_id ← text_item "research_run_id" correlation;
  correlation_id ← text_item "correlation_id" correlation;
  worker_capability ← text_item "worker_capability" request;
  action ← text_item "action" request;
  reference ← text_item "authorization_decision_reference" request;
  budget_id ← text_item "budget_id" budget;
  level_value ← Envelope.dict_item "side_effect_level" request;
  level ← py_int level_value;
  contract_version ← text_item "contract_version" result_;
  worker_id ← text_item "worker_id" result_;
  status ← text_item "status" result_;
  WorkerResultRecord.post_init
    (WorkerResultRecord.mk (worker_result_id_for request_id) experiment_id research_run_id request_id
       correlation_id worker_capability action reference budget_id level contract_version worker_id
       status received_at started_at completed_at parent_request_id
       (optional_mapping "raw_result" result_) descriptors (optional_mapping "diagnostics" result_)
       (optional_mapping "control_signal" result_)).

(** One turn of the loop over the drafts.
    [application/ingest_worker_invocation.py:290-314 IngestCompletedWorkerInvocation._persist_observations] *)
Definition persist_observation (record : WorkerResultRecord.t) (created_at : Z)
    (s : ExecDb.t * list string) (draft : ObservationDraft.t) : result (ExecDb.t * list string) :=
  let observation_id := observation_id_for record.(WorkerResultRecord.request_id)
                          draft.(ObservationDraft.observation_kind)
                          draft.(ObservationDraft.normalization_version) in
  row ← ObservationRecord.post_init
    (ObservationRecord.mk observation_id record.(WorkerResultRecord.worker_result_id)
       draft.(ObservationDraft.observation_kind) draft.(ObservationDraft.payload)
       draft.(ObservationDraft.normalization_version) draft.(ObservationDraft.observed_at) created_at);
  db ← insert_observation s.1 row;
  Ok (db, s.2 ++ [observation_id]).

(** [application/ingest_worker_invocation.py:290-314 IngestCompletedWorkerInvocation._persist_observations] *)
Definition persist_observations (db : ExecDb.t) (record : WorkerResultRecord.t)
    (drafts : list ObservationDraft.t) (created_at : Z) : result (ExecDb.t * list string) :=
  fold_result (persist_observation record created_at) (db, []) drafts.

(** [application/ingest_worker_invocation.py:316-358 IngestCompletedWorkerInvocation._persist_audit_events] *)
Definition result_event (actor : string) (record : WorkerResultRecord.t)
    (drafts : list ObservationDraft.t) (observation_ids : list string) (created_at : Z)
    : result AuditEventRecord.t :=
  AuditEventRecord.post_init
    (AuditEventRecord.mk ("ae:wr:" +:+ record.(WorkerResultRecord.request_id)) created_at actor
       "CONTROL_PLANE" "WORKER_RESULT_INGESTED" "worker_result"
       record.(WorkerResultRecord.worker_result_id)
       [ ("request_id", PStr record.(WorkerResultRecord.request_id));
         ("worker_result_status", PStr record.(WorkerResultRecord.status));
         ("observation_count", PInt (Z.of_nat (length observation_ids)));
         ("normalization_version", match drafts with
                                   | d :: _ => PStr d.(ObservationDraft.normalization_version)
                                   | [] => PNone
                                   end) ]
       (Some record.(WorkerResultRecord.correlation_id))).

(** [application/ingest_worker_invocation.py:316-358 IngestCompletedWorkerInvocation._persist_audit_events] *)
Definition observation_event (actor : string) (record : WorkerResultRecord.t) (created_at : Z)
    (draft : ObservationDraft.t) (observation_id : string) : result AuditEventRecord.t :=
  let kind := draft.(ObservationDraft.observation_kind) in
  let version := draft.(ObservationDraft.normalization_version) in
  AuditEventRecord.post_init
    (AuditEventRecord.mk
       ("ae:obs:" +:+ record.(WorkerResultRecord.request_id) +:+ ":" +:+ kind +:+ ":" +:+ version)
       created_at actor "CONTROL_PLANE" "OBSERVATION_ADMITTED" "observation" observation_id
       [("observation_kind", PStr kind); ("normalization_version", PStr version)]
       (Some record.(WorkerResultRecord.correlation_id))).

(** [application/ingest_worker_invocation.py:316-358 IngestCompletedWorkerInvocation._persist_audit_events] *)
Definition persist_audit_events (db : ExecDb.t) (actor : string) (record : WorkerResultRecord.t)
    (drafts : list ObservationDraft.t) (observation_ids : list string) (created_at : Z)
    : result ExecDb.t :=
  event ← result_event actor record drafts observation_ids created_at;
  db ← insert_audit db event;
  fold_result (fun db p =>
      event ← observation_event actor record created_at p.1 p.2;
      insert_audit db event) db (zip drafts observation_ids).

(** What answers a request whose result is stored already.
    [application/ingest_worker_invocation.py:129-138 IngestCompletedWorkerInvocation.execute] *)
Definition already_ingested (db : ExecDb.t) (existing : WorkerResultRecord.t)
    : result IngestionOutcome.t :=
  observations ← observations_for_result db existing.(WorkerResultRecord.worker_result_id);
  Ok (IngestionOutcome.mk IngestionStatus.ALREADY_INGESTED
        (Some existing.(WorkerResultRecord.worker_result_id))
        (ObservationRecord.observation_id <$> observations)
        (Some "request_id already ingested; not a duplicate vulnerability")).

(** The session of a login and the expiry of one the target refused, on the tables and the store.
    [application/ingest_worker_invocation.py:162-167 IngestCompletedWorkerInvocation.execute] *)
Definition session_effects (db : ExecDb.t) (store : InMemorySecretStore.t) (has_port : bool)
    (request result_ : list (string * pyval)) (ephemeral : option (list (string * pyval))) (now : Z)
    : result SessionDb.t :=
  s ← capture_login_result (SessionDb.mk db.(ExecDb.sessions) store) has_port request result_
        (match ephemeral with Some d => PDict d | None => PNone end) now;
  expire_session_on_unauthenticated_response s has_port request result_ now.

(** The rows of a new result: the result, its observations, the sessions and the audit events.
    The store of secrets is no table: what a login has put into it stays when the audit fails.
    [application/ingest_worker_invocation.py:145-179 IngestCompletedWorkerInvocation.execute] *)
Definition admit_result (db : ExecDb.t) (store : InMemorySecretStore.t) (has_port : bool) (actor : string)
    (request result_ : list (string * pyval)) (ephemeral : option (list (string * pyval)))
    (record : WorkerResultRecord.t) (drafts : list ObservationDraft.t) (created_at : Z)
    : result (ExecDb.t * IngestionOutcome.t) * InMemorySecretStore.t :=
  match (db ← insert_result db record;
         persisted ← persist_observations db record drafts created_at;
         s ← session_effects persisted.1 store has_port request result_ ephemeral created_at;
         Ok (persisted, s)) with
  | Raise e => (Raise e, store)
  | Ok (db, ids, s) =>
      (db ← persist_audit_events (ExecDb.with_sessions db s.(SessionDb.sessions)) actor record drafts
              ids created_at;
       Ok (db, IngestionOutcome.mk
                 (if bool_decide (ids = []) then IngestionStatus.NO_OBSERVATION
                  else IngestionStatus.INGESTED)
                 (Some record.(WorkerResultRecord.worker_result_id)) ids None),
       s.(SessionDb.store))
  end.

(** What the transaction works on, once the invocation is accepted: the trusted capability and
    action choose the normalizer, which reads the result without its secrets.
    [application/ingest_worker_invocation.py:101-121 IngestCompletedWorkerInvocation.execute] *)
Definition normalized_drafts (request : list (string * pyval)) (result_ : list (string * pyval))
    : result (list ObservationDraft.t + IngestionOutcome.t) :=
  match dict_get "worker_capability" request, dict_get "action" request with
  | PStr capability, PStr action =>
      match normalizer capability action with
      | None => Ok (inr (rejected (exception_text UnsupportedNormalizerError)))
      | Some normalize =>
          match normalize request result_ with
          | Ok drafts => Ok (inl drafts)
          | Raise MalformedNormalizedPayloadError =>
              Ok (inr (rejected (exception_text MalformedNormalizedPayloadError)))
          | Raise e => Raise e
          end
      end
  | _, _ => Ok (inr (rejected "trusted request is missing worker_capability/action"))
  end.

(** [seen] is the database the first read sees, [db] the one the writes go to; [received] and
    [created] are two readings of the clock.
    [application/ingest_worker_invocation.py:90-179 IngestCompletedWorkerInvocation.execute] *)
Definition ingest (seen db : ExecDb.t) (store : InMemorySecretStore.t) (has_port : bool)
    (actor : string) (received created : Z) (request : list (string * pyval))
    (outcome : WorkerInvocationOutcome.t)
    : result (ExecDb.t * IngestionOutcome.t) * InMemorySecretStore.t :=
  match reject_invalid_invocation request outcome with
  | Some refusal => (Ok (db, refusal), store)
  | None =>
  let '(result_, ephemeral) :=
    strip_ephemeral_secrets (default [] outcome.(WorkerInvocationOutcome.worker_result)) in
  match normalized_drafts request result_ with
  | Raise e => (Raise e, store)
  | Ok (inr refusal) => (Ok (db, refusal), store)
  | Ok (inl drafts) =>
  match (correlation ← mapping_item "correlation" request;
         request_id ← text_item "request_id" correlation;
         existing ← result_by_request seen request_id;
         Ok (request_id, existing)) with
  | Raise e => (Raise e, store)
  | Ok (_, Some existing) => (answer ← already_ingested seen existing; Ok (db, answer), store)
  | Ok (request_id, None) =>
  match (integrity ← check_experiment_integrity seen request;
         match integrity with
         | Some refusal => Ok (inr refusal)
         | None => record ← worker_result_record received request result_; Ok (inl record)
         end) with
  | Raise e => (Raise e, store)
  | Ok (inr refusal) => (Ok (db, refusal), store)
  | Ok (inl record) =>
  match insert_result db record with
  | Raise PersistenceConflictError =>
      (raced ← result_by_request db request_id;
       match raced with
       | None => Raise PersistenceConflictError
       | Some raced => answer ← already_ingested db raced; Ok (db, answer)
       end, store)
  | _ => admit_result db store has_port actor request result_ ephemeral record drafts created
  end
  end
  end
  end
  end.
End ingest.

(** ** Theorems *)

Section theorems.
Context `{FloatRepr} `{ContractSchemas} `{IsoTimestamps} `{Normalizers} `{ExceptionText}.

Lemma insert_result_ok db r db' :
  insert_result db r = Ok db' ->
  db' = ExecDb.with_results db (db.(ExecDb.results) ++ [r])
  /\ forall o, o ∈ db.(ExecDb.results) ->
       o.(WorkerResultRecord.request_id) ≠ r.(WorkerResultRecord.request_id).
Proof.
  unfold insert_result. intros [Hc Hr]%raise_if_ok. apply raise_if_ok in Hr as [_ [= <-]].
  split; [done|]. rewrite existsb_false in Hc. intros o Ho%Hc.
  by apply orb_false_iff in Ho as [_ ?%String.eqb_neq].
Qed.

(** [o] records the draft [d] under the result [record]. *)
Definition recorded (record : WorkerResultRecord.t) (d : ObservationDraft.t)
    (o : ObservationRecord.t) : Prop :=
  o.(ObservationRecord.worker_result_id) = record.(WorkerResultRecord.worker_result_id)
  /\ o.(ObservationRecord.observation_kind) = d.(ObservationDraft.observation_kind)
  /\ o.(ObservationRecord.normalization_version) = d.(ObservationDraft.normalization_version)
  /\ o.(ObservationRecord.payload) = d.(ObservationDraft.payload)
  /\ o.(ObservationRecord.observed_at) = d.(ObservationDraft.observed_at).

Lemma persist_observation_ok record created db ids draft db' ids' :
  persist_observation record created (db, ids) draft = Ok (db', ids') ->
  exists o, db' = ExecDb.with_observations db (db.(ExecDb.observations) ++ [o])
    /\ ids' = ids ++ [o.(ObservationRecord.observation_id)]
    /\ recorded record draft o.
Proof.
  unfold persist_observation, recorded. intros (row & Hrow%validated & Hp)%bind_ok.
  apply bind_ok in Hp as (db1 & Hdb & [= <- <-]). exists row.
  unfold insert_observation in Hdb. apply raise_if_ok in Hdb as [_ Hdb].
  apply raise_if_ok in Hdb as [_ [= <-]]. rewrite Hrow. by cbn.
Qed.

Lemma persist_observations_from record created drafts db ids db' ids' :
  fold_result (persist_observation record created) (db, ids) drafts = Ok (db', ids') ->
  exists obs, db' = ExecDb.with_observations db (db.(ExecDb.observations) ++ obs)
    /\ ids' = ids ++ (ObservationRecord.observation_id <$> obs)
    /\ Forall2 (recorded record) drafts obs.
Proof.
  revert db ids. induction drafts as [|d drafts IH]; intros db ids.
  - intros [= <- <-]. exists []. rewrite !app_nil_r. by destruct db.
  - cbn [fold_result]. intros ([db1 ids1] & Ho & Hrest)%bind_ok.
    apply persist_observation_ok in Ho as (o & -> & -> & Ho).
    apply IH in Hrest as (obs & -> & -> & Hall). exists (o :: obs). cbn.
    rewrite <-!app_assoc. split_and!; [done|done|]. by constructor.
Qed.

Lemma persist_audit_events_ok db actor record drafts ids created db' :
  persist_audit_events db actor record drafts ids created = Ok db' ->
  exists events, db' = ExecDb.with_audit db (db.(ExecDb.audit) ++ events).
Proof.
  unfold persist_audit_events. intros (e & _ & Hr)%bind_ok.
  apply bind_ok in Hr as (db1 & ->%audit_row_appended & Hr).
  revert Hr. apply (fold_result_ind (fun x => exists events,
    x = ExecDb.with_audit db (db.(ExecDb.audit) ++ events))); [|by exists [e]].
  intros x p x' _ [events ->] (event & _ & ->%audit_row_appended)%bind_ok.
  exists (events ++ [event]). cbn. by rewrite app_assoc.
Qed.

(** A key that is taken out of a mapping is not in it. *)
Lemma without_key k (d : list (string * pyval)) :
  dict_find k (List.filter (fun p => negb (p.1 =? k)%string) d) = None.
Proof.
  induction d as [|[k' v] d IH]; [done|]. cbn. destruct (k' =? k)%string eqn:E; [done|].
  cbn. by rewrite E.
Qed.

Lemma raw_result_has_no_cookie result_ raw :
  optional_mapping "raw_result" (strip_ephemeral_secrets result_).1 = Some raw ->
  dict_find "_ephemeral_session_cookie" raw = None.
Proof.
  unfold optional_mapping, strip_ephemeral_secrets. cbn [fst].
  generalize (List.filter (fun p => negb (p.1 =? "ephemeral_secrets")%string) result_) as d. intros d.
  unfold dict_get. induction d as [|[k v] d IH]; [done|]. cbn.
  destruct (k =? "raw_result")%string eqn:E; cbn; rewrite E; [|exact IH].
  destruct v; try done. intros [= <-]. apply without_key.
Qed.

Lemma not_rejected request outcome :
  reject_invalid_invocation request outcome = None ->
  outcome.(WorkerInvocationOutcome.invocation_status) = InvocationStatus.COMPLETED
  /\ exists document, outcome.(WorkerInvocationOutcome.worker_result) = Some document
     /\ validate_contract WorkerRequest request = Ok tt
     /\ validate_contract WorkerResult document = Ok tt
     /\ correlation_matches request document = true.
Proof.
  unfold reject_invalid_invocation. destruct (negb _) eqn:E; [done|].
  apply negb_false_iff, bool_decide_eq_true in E.
  destruct (WorkerInvocationOutcome.worker_result outcome) as [d|]; [|done].
  destruct (validate_contract WorkerRequest request) as [[]|] eqn:E1; [|done]. cbn.
  destruct (validate_contract WorkerResult d) as [[]|] eqn:E2; [|done].
  destruct (correlation_matches request d) eqn:E3; [|done]. intros _. split; [done|]. by exists d.
Qed.

Lemma integrity_ok db request :
  check_experiment_integrity db request = Ok None ->
  exists correlation budget experiment_id run budget_id x,
    mapping_item "correlation" request = Ok correlation
    /\ mapping_item "execution_budget" request = Ok budget
    /\ text_item "experiment_id" correlation = Ok experiment_id
    /\ text_item "research_run_id" correlation = Ok run
    /\ text_item "budget_id" budget = Ok budget_id
    /\ db.(ExecDb.experiments) !! experiment_id = Some x
    /\ x.(ExperimentRecord.research_run_id) = run /\ x.(ExperimentRecord.budget_id) = budget_id.
Proof.
  unfold check_experiment_integrity. intros (c & Hc & Hr)%bind_ok.
  apply bind_ok in Hr as (e & He & Hr). apply bind_ok in Hr as (run & Hrun & Hr).
  apply bind_ok in Hr as (b & Hb & Hr). apply bind_ok in Hr as (bid & Hbid & Hr).
  apply bind_ok in Hr as (found & Hf%get_row_ok & Hr). destruct found as [x|]; [|done].
  destruct (_ =? run)%string eqn:E1; [|done]. destruct (_ =? bid)%string eqn:E2; [|done].
  apply String.eqb_eq in E1, E2. by exists c, b, e, run, bid, x.
Qed.

Lemma worker_result_record_ok received request result_ record correlation budget :
  worker_result_record received request result_ = Ok record ->
  mapping_item "correlation" request = Ok correlation ->
  mapping_item "execution_budget" request = Ok budget ->
  text_item "experiment_id" correlation = Ok record.(WorkerResultRecord.experiment_id)
  /\ text_item "research_run_id" correlation = Ok record.(WorkerResultRecord.research_run_id)
  /\ text_item "request_id" correlation = Ok record.(WorkerResultRecord.request_id)
  /\ text_item "budget_id" budget = Ok record.(WorkerResultRecord.budget_id)
  /\ record.(WorkerResultRecord.raw_result) = optional_mapping "raw_result" result_
  /\ record.(WorkerResultRecord.worker_result_id)
     = worker_result_id_for record.(WorkerResultRecord.request_id).
Proof.
  unfold worker_result_record. intros Hr Hc Hb.
  do 17 (apply bind_ok in Hr as (? & ? & Hr)). apply validated in Hr as ->. cbn.
  split_and!; congruence.
Qed.

(** The document without the secrets it carries for Core: neither the mapping of secrets nor the
    cookie inside the raw result. *)
Lemma stripped_has_no_secrets document :
  let clean := (strip_ephemeral_secrets document).1 in
  dict_find "ephemeral_secrets" clean = None
  /\ forall raw, optional_mapping "raw_result" clean = Some raw ->
       dict_find "_ephemeral_session_cookie" raw = None.
Proof.
  split; [|apply raw_result_has_no_cookie]. unfold strip_ephemeral_secrets. cbn [fst].
  induction document as [|[k v] d IH]; [done|]. cbn.
  destruct (k =? "ephemeral_secrets")%string eqn:E; [exact IH|]. cbn.
  destruct (k =? "raw_result")%string; cbn; by rewrite E.
Qed.

(** The rows a new result leaves: [record] and [obs] for the request, computed from the worker's
    document without its secrets. *)
Record admission (seen db db' : ExecDb.t) (received : Z) (request document : list (string * pyval))
    (record : WorkerResultRecord.t) (obs : list ObservationRecord.t) (out : IngestionOutcome.t)
    : Prop := {
  ad_rows : exists events, db' = ExecDb.with_audit (ExecDb.with_sessions (ExecDb.with_observations
      (ExecDb.with_results db (db.(ExecDb.results) ++ [record])) (db.(ExecDb.observations) ++ obs))
      db'.(ExecDb.sessions)) (db.(ExecDb.audit) ++ events);
  ad_fresh : forall r, r ∈ db.(ExecDb.results) ->
    r.(WorkerResultRecord.request_id) ≠ record.(WorkerResultRecord.request_id);
  ad_request : exists correlation budget,
    mapping_item "correlation" request = Ok correlation
    /\ mapping_item "execution_budget" request = Ok budget
    /\ text_item "request_id" correlation = Ok record.(WorkerResultRecord.request_id)
    /\ text_item "experiment_id" correlation = Ok record.(WorkerResultRecord.experiment_id)
    /\ text_item "research_run_id" correlation = Ok record.(WorkerResultRecord.research_run_id)
    /\ text_item "budget_id" budget = Ok record.(WorkerResultRecord.budget_id);
  ad_experiment : exists x,
    seen.(ExecDb.experiments) !! record.(WorkerResultRecord.experiment_id) = Some x
    /\ x.(ExperimentRecord.research_run_id) = record.(WorkerResultRecord.research_run_id)
    /\ x.(ExperimentRecord.budget_id) = record.(WorkerResultRecord.budget_id);
  ad_record : worker_result_record received request (strip_ephemeral_secrets document).1 = Ok record
    /\ record.(WorkerResultRecord.raw_result)
       = optional_mapping "raw_result" (strip_ephemeral_secrets document).1;
  ad_observations : exists drafts,
    normalized_drafts request (strip_ephemeral_secrets document).1 = Ok (inl drafts)
    /\ Forall2 (recorded record) drafts obs;
  ad_secrets : dict_find "ephemeral_secrets" (strip_ephemeral_secrets document).1 = None
    /\ forall raw, record.(WorkerResultRecord.raw_result) = Some raw ->
         dict_find "_ephemeral_session_cookie" raw = None;
  ad_outcome : out = IngestionOutcome.mk
    (if bool_decide (obs = []) then IngestionStatus.NO_OBSERVATION else IngestionStatus.INGESTED)
    (Some record.(WorkerResultRecord.worker_result_id)) (ObservationRecord.observation_id <$> obs)
    None }.

Lemma admit_result_ok db store has_port actor request result_ eph record drafts created db' out store' :
  admit_result db store has_port actor request result_ eph record drafts
    created = (Ok (db', out), store') ->
  exists obs events, db' = ExecDb.with_audit (ExecDb.with_sessions (ExecDb.with_observations
      (ExecDb.with_results db (db.(ExecDb.results) ++ [record])) (db.(ExecDb.observations) ++ obs))
      db'.(ExecDb.sessions)) (db.(ExecDb.audit) ++ events)
  /\ (forall r, r ∈ db.(ExecDb.results) ->
       r.(WorkerResultRecord.request_id) ≠ record.(WorkerResultRecord.request_id))
  /\ Forall2 (recorded record) drafts obs
  /\ out = IngestionOutcome.mk
       (if bool_decide (obs = []) then IngestionStatus.NO_OBSERVATION else IngestionStatus.INGESTED)
       (Some record.(WorkerResultRecord.worker_result_id)) (ObservationRecord.observation_id <$> obs)
       None.
Proof.
  unfold admit_result. intros Ha.
  destruct (_ ≫= _) as [[[db1 ids] s]|] eqn:E in Ha; [|done].
  apply bind_ok in E as (db2 & [-> Hfresh]%insert_result_ok & E).
  apply bind_ok in E as ([db3 ids3] & Hobs & E). apply bind_ok in E as (s' & _ & [= -> -> ->]).
  apply persist_observations_from in Hobs as (obs & -> & -> & Hall).
  destruct (_ ≫= _) as [[db4 out4]|] eqn:E in Ha; [|done]. injection Ha as -> -> _.
  apply bind_ok in E as (db5 & [events ->]%persist_audit_events_ok & [= <- <-]).
  exists obs, events. split; [done|]. split; [done|]. split; [done|]. by destruct obs.
Qed.

Definition admitted (seen db db' : ExecDb.t) (received : Z) (request : list (string * pyval))
    (outcome : WorkerInvocationOutcome.t) (out : IngestionOutcome.t) : Prop :=
  exists document record obs,
    outcome.(WorkerInvocationOutcome.invocation_status) = InvocationStatus.COMPLETED
    /\ outcome.(WorkerInvocationOutcome.worker_result) = Some document
    /\ validate_contract WorkerRequest request = Ok tt
    /\ validate_contract WorkerResult document = Ok tt
    /\ correlation_matches request document = true
    /\ admission seen db db' received request document record obs out.

Definition unchanged (db db' : ExecDb.t) (out : IngestionOutcome.t) : Prop :=
  db' = db /\ out.(IngestionOutcome.status)
              ∈ [IngestionStatus.ALREADY_INGESTED; IngestionStatus.REJECTED_INVALID_INVOCATION].

Lemma refusal_is_rejection request outcome refusal :
  reject_invalid_invocation request outcome = Some refusal ->
  refusal.(IngestionOutcome.status) = IngestionStatus.REJECTED_INVALID_INVOCATION.
Proof. unfold reject_invalid_invocation. repeat case_match; intros; by simplify_eq. Qed.

Lemma drafts_refusal_is_rejection request result_ refusal :
  normalized_drafts request result_ = Ok (inr refusal) ->
  refusal.(IngestionOutcome.status) = IngestionStatus.REJECTED_INVALID_INVOCATION.
Proof. unfold normalized_drafts. repeat case_match; intros; by simplify_eq. Qed.

Lemma integrity_refusal_is_rejection db request refusal :
  check_experiment_integrity db request = Ok (Some refusal) ->
  refusal.(IngestionOutcome.status) = IngestionStatus.REJECTED_INVALID_INVOCATION.
Proof.
  unfold check_experiment_integrity. intros (c & _ & Hr)%bind_ok.
  do 5 (apply bind_ok in Hr as (? & _ & Hr)). revert Hr. repeat case_match; intros; by simplify_eq.
Qed.

Lemma already_ingested_ok db existing out :
  already_ingested db existing = Ok out ->
  out.(IngestionOutcome.status) = IngestionStatus.ALREADY_INGESTED.
Proof. unfold already_ingested. by intros (o & _ & [= <-])%bind_ok. Qed.

(** What was checked and written makes an admission. *)
Lemma admission_of seen db store has_port actor received request document eph record drafts created
    db' out store' :
  check_experiment_integrity seen request = Ok None ->
  worker_result_record received request (strip_ephemeral_secrets document).1 = Ok record ->
  normalized_drafts request (strip_ephemeral_secrets document).1 = Ok (inl drafts) ->
  admit_result db store has_port actor request (strip_ephemeral_secrets document).1 eph record drafts
    created = (Ok (db', out), store') ->
  exists obs, admission seen db db' received request document record obs out.
Proof.
  intros Hint Hrec Hdrafts Ha.
  apply integrity_ok in Hint as (co & b & e & run & bid & x & Hco & Hb & He & Hrun & Hbid & Hx & Hxr & Hxb).
  destruct (worker_result_record_ok _ _ _ _ _ _ Hrec Hco Hb) as (Ge & Gr & Gq & Gb & Graw & _).
  apply admit_result_ok in Ha as (obs & events & Hdb & Hf & Hall & Hout).
  destruct (stripped_has_no_secrets document) as [Hs Hc]. exists obs.
  split; [by exists events|done|by exists co, b|exists x; split_and!; congruence|done
         |by exists drafts| |done].
  split; [done|]. intros raw Hr. apply Hc. by rewrite <-Graw.
Qed.

Lemma ingest_ok seen db store has_port actor received created request outcome db' out store' :
  ingest seen db store has_port actor received created request outcome = (Ok (db', out), store') ->
  unchanged db db' out \/ admitted seen db db' received request outcome out.
Proof.
  unfold ingest, unchanged. destruct (reject_invalid_invocation request outcome) as [refusal|] eqn:Erej.
  { intros [= <- <- _]. left. rewrite (refusal_is_rejection _ _ _ Erej). split; [done|set_solver]. }
  destruct (not_rejected _ _ Erej) as (Hdone & document & Hdoc & Hreq & Hres & Hcorr).
  rewrite Hdoc. cbn [default]. change (id document) with document.
  destruct (strip_ephemeral_secrets document) as [result_ eph] eqn:Estrip.
  assert (result_ = (strip_ephemeral_secrets document).1) as -> by (by rewrite Estrip).
  destruct (normalized_drafts request _) as [[drafts|refusal]|] eqn:Edrafts; [| |done].
  2: { intros [= <- <- _]. left.
       rewrite (drafts_refusal_is_rejection _ _ _ Edrafts). split; [done|set_solver]. }
  destruct (c ← mapping_item "correlation" request; _) as [[rid [existing|]]|] eqn:Eseen; [| |done].
  { destruct (already_ingested seen existing) as [answer|] eqn:Ea; [|done]. intros [= <- <- _]. left.
    rewrite (already_ingested_ok _ _ _ Ea). split; [done|set_solver]. }
  destruct (check_experiment_integrity seen request) as [[refusal|]|] eqn:Eint; [| |done]; cbn [mbind result_bind].
  { intros [= <- <- _]. left.
    rewrite (integrity_refusal_is_rejection _ _ _ Eint). split; [done|set_solver]. }
  destruct (worker_result_record received request _) as [record|] eqn:Erec; [|done].
  cbn [mbind result_bind].
  assert (Hadmit : admit_result db store has_port actor request (strip_ephemeral_secrets document).1
      eph record drafts created = (Ok (db', out), store') ->
      admitted seen db db' received request outcome out).
  { intros Ha. destruct (admission_of _ _ _ _ _ _ _ _ _ _ _ _ _ _ _ Eint Erec Edrafts Ha) as [obs Hadm].
    by exists document, record, obs. }
  destruct (insert_result db record) as [db1|[]] eqn:Eins; try (intros Ha; right; by apply Hadmit).
  destruct (result_by_request db rid) as [[raced|]|]; cbn [mbind result_bind]; try done.
  destruct (already_ingested db raced) as [answer|] eqn:Ea; [|done]. intros [= <- <- _]. left.
  rewrite (already_ingested_ok _ _ _ Ea). split; [done|set_solver].
Qed.
End theorems.

(** A request, a result that answers it, and a store where the experiment is. *)
Module Sample.
Definition correlation : list (string * pyval) :=
  [ ("correlation_id", PStr "c1"); ("research_run_id", PStr "run1"); ("experiment_id", PStr "e1");
    ("request_id", PStr "q1") ].
Definition request : list (string * pyval) :=
  [ ("contract_version", PStr "v1"); ("correlation", PDict correlation);
    ("worker_capability", PStr "http"); ("action", PStr "get");
    ("authorization_decision_reference", PStr "ref1");
    ("execution_budget", PDict [("budget_id", PStr "b1")]); ("side_effect_level", PInt 1) ].
Definition document : list (string * pyval) :=
  [ ("contract_version", PStr "v1"); ("correlation", PDict correlation); ("worker_id", PStr "w1");
    ("status", PStr "SUCCEEDED"); ("raw_result", PDict [("http_status", PInt 200)]) ].
Definition outcome : WorkerInvocationOutcome.t :=
  WorkerInvocationOutcome.mk InvocationStatus.COMPLETED 1 2 (Some document) (Some 0) "" false None
    "CONTACTED".
Definition store : InMemorySecretStore.t := ∅.
Definition db : ExecDb.t :=
  ExecDb.mk {["e1" := ExperimentRecord.mk "e1" "run1" "h1" "b1" "RUNNING" 0]} ∅ ∅ ∅ ∅ ∅ [] [] ∅ ∅ [] []
    (Ledger.Db.mk {["b1" := IssuedBudgetRecord.mk "b1" (Some "run1") 5 5 1000 1 0]} ∅ []).
Definition one_draft : Normalizers := fun capability action =>
  if (capability =? "http")%string && (action =? "get")%string
  then Some (fun _ _ => Ok [ObservationDraft.mk "HTTP" [("http_status", PInt 200)] "v1" 2])
  else None.
Definition any_schema : ContractSchemas := fun _ _ => true.
Definition no_instants : IsoTimestamps := fun _ => None.
Definition no_text : ExceptionText := fun _ => "refused".

Definition run (seen db : ExecDb.t) : result (ExecDb.t * IngestionOutcome.t) * InMemorySecretStore.t :=
  @ingest no_floats any_schema no_instants one_draft no_text seen db store false
    "a1" 3 4 request outcome.
Definition after : ExecDb.t := match (run db db).1 with Ok (d, _) => d | Raise _ => db end.
End Sample.

(** The same invocation again: nothing is written and the stored ids are answered. *)
Example second_ingestion_changes_nothing :
  (run_twice ← (Sample.run Sample.after Sample.after).1;
   Ok (run_twice.2.(IngestionOutcome.status), run_twice.2.(IngestionOutcome.observation_ids),
       length run_twice.1.(ExecDb.results), length run_twice.1.(ExecDb.audit)))
  = Ok (IngestionStatus.ALREADY_INGESTED, ["obs:q1:HTTP:v1"], 1%nat, 2%nat).
Proof. vm_compute. reflexivity. Qed.

(** Two invocations that both read before either writes: the second one's write conflicts, and it
    answers with the rows of the first. *)
Example raced_ingestion_answers_the_winner :
  (raced ← (Sample.run Sample.db Sample.after).1;
   Ok (raced.2.(IngestionOutcome.status), raced.2.(IngestionOutcome.worker_result_id),
       length raced.1.(ExecDb.results)))
  = Ok (IngestionStatus.ALREADY_INGESTED, Some "wr:q1", 1%nat).
Proof. vm_compute. reflexivity. Qed.

(** An answer to another request is not rewritten and not ingested. *)
Example other_answer_is_refused :
  (refused ← (@ingest no_floats Sample.any_schema Sample.no_instants Sample.one_draft Sample.no_text
      Sample.db Sample.db Sample.store false "a1" 3 4 Sample.request
      (WorkerInvocationOutcome.mk InvocationStatus.COMPLETED 1 2
         (Some (("correlation", PDict [("correlation_id", PStr "c1"); ("research_run_id", PStr "run1");
                   ("experiment_id", PStr "e1"); ("request_id", PStr "q2")]) :: Sample.document))
         (Some 0) "" false None "CONTACTED")).1;
   Ok (refused.2.(IngestionOutcome.status), length refused.1.(ExecDb.results)))
  = Ok (IngestionStatus.REJECTED_INVALID_INVOCATION, 0%nat).
Proof. vm_compute. reflexivity. Qed.

(** C21. A worker result is admitted once and where it is owed: ingestion, whatever database its
    reads saw, either changes nothing and says why, or the invocation completed under both contracts
    with the request's correlation, and it leaves one new result, with the request id, experiment,
    run and budget that the request names, the experiment read being of that run and budget, for a
    request that had no result among those stored at the insertion; its observations record the
    drafts the normalizer of the request's capability and action made; and both are computed from
    the worker's document without its mapping of secrets and without the session cookie in its raw
    result. *)
Theorem ingestion_admits_once `{FloatRepr} `{ContractSchemas} `{IsoTimestamps} `{Normalizers}
    `{ExceptionText} seen db store has_port actor received created request outcome db' out store' :
  ingest seen db store has_port actor received created request outcome = (Ok (db', out), store') ->
  (db' = db /\ out.(IngestionOutcome.status)
               ∈ [IngestionStatus.ALREADY_INGESTED; IngestionStatus.REJECTED_INVALID_INVOCATION])
  \/ exists document record obs,
       outcome.(WorkerInvocationOutcome.invocation_status) = InvocationStatus.COMPLETED
       /\ outcome.(WorkerInvocationOutcome.worker_result) = Some document
       /\ validate_contract WorkerRequest request = Ok tt
       /\ validate_contract WorkerResult document = Ok tt
       /\ correlation_matches request document = true
       /\ admission seen db db' received request document record obs out.
Proof. exact (ingest_ok _ _ _ _ _ _ _ _ _ _ _ _). Qed.

Lemma ingestion_admits_once_witness :
  exists out record, (Sample.run Sample.db Sample.db).1 = Ok (Sample.after, out)
    /\ out.(IngestionOutcome.status) = IngestionStatus.INGESTED
    /\ Sample.after.(ExecDb.results) = [record]
    /\ record.(WorkerResultRecord.experiment_id) = "e1"
    /\ record.(WorkerResultRecord.research_run_id) = "run1".
Proof.
  eexists (IngestionOutcome.mk IngestionStatus.INGESTED (Some "wr:q1") ["obs:q1:HTTP:v1"] None).
  destruct (@ingestion_admits_once no_floats Sample.any_schema Sample.no_instants Sample.one_draft
           Sample.no_text Sample.db Sample.db Sample.store false "a1" 3 4 Sample.request
           Sample.outcome Sample.after
           (IngestionOutcome.mk IngestionStatus.INGESTED (Some "wr:q1") ["obs:q1:HTTP:v1"] None)
           Sample.store) as [[_ Hs]|(document & record & obs & _ & _ & _ & _ & _ & Ha)].
  - vm_compute. reflexivity.
  - apply mem_true in Hs; discriminate Hs.
  - exists record. split; [vm_compute; reflexivity|]. split; [reflexivity|].
    destruct Ha as [(events & Hrows) _ (co & b & Hco & _ & _ & He & Hr & _) _ _ _ _ _].
    injection Hco as <-. split; [|split].
    + rewrite Hrows. reflexivity.
    + injection He as He. symmetry. exact He.
    + injection Hr as Hr. symmetry. exact Hr.
Defined.
