(* ===== verification/Authorize.v ===== *)
(** * Authorizing a planned experiment

    The first transaction of [application/execute_planned_experiment.py]: a plan that is bound to
    an experiment is checked by Core, by the scope, by the session and by the rate limit of the
    program, the decision is audited, and an allowed one leaves an attempt in the state AUTHORIZED
    and the request a worker would be given.

    The database of the reads and the one of the writes are two arguments: the code reads before it
    writes and locks no row, so what another transaction commits between them is in the second one
    only.  [authorize db db] is a transaction nobody interferes with. *)
From S2P Require Import Prelude CoreTypes CorePolicy Capability Scope RateLimit Execution PyVal PyText PyUrl Records FindingRecords EvidenceRecords HuntRecords Ledger HttpPolicy Compiler Planning Selection Evaluators Envelope Session ExecDb Ingest.

(** ** Data *)

(** [application/execute_planned_experiment.py:87-95 TERMINAL_EXPERIMENT_STATES] *)
Definition TERMINAL_EXPERIMENT_STATES : list string :=
  ["EXECUTION_SUCCEEDED"; "EXECUTION_FAILED"; "BLOCKED"; "CANCELLED"; "BUDGET_EXHAUSTED"].

(** [application/execute_planned_experiment.py:107-119 ResearchLoopStatus] *)
Module ResearchLoopStatus.
Inductive t : Set :=
  | OBSERVATION_PRODUCED | NO_OBSERVATION | DISPATCH_DENIED | HUMAN_REVIEW_REQUIRED
  | INVOCATION_FAILED | UNKNOWN_OUTCOME | AUTHORIZED_NOT_DISPATCHED | ALREADY_TERMINAL
  | INPUT_REJECTED | REAUTHORIZATION_REQUIRED.
#[global] Instance eq_dec : EqDecision t.
Proof. solve_decision. Defined.
End ResearchLoopStatus.

(** [application/execute_planned_experiment.py:123-133 ExecutePlannedExperimentCommand] *)
Module ExecutePlannedExperimentCommand.
Record t : Type := mk {
  experiment_id : string;
  plan : ExperimentPlan.t;
  scope : ScopeEvaluationInput.t;
  approval : option ApprovalView.t;
  budget_usage : option BudgetUsage.t;
  compiled_scope : option CompiledScope.t;
  program_policy : option ProgramPolicyView.t;
  identity_id : option string;
  ident : option Identity.t;
  authentication_profile : option HttpFormLoginProfile.t }.
End ExecutePlannedExperimentCommand.

(** [application/execute_planned_experiment.py:137-151 AuthorizedDispatch] *)
Module AuthorizedDispatch.
Record t : Type := mk {
  experiment_id : string;
  hypothesis_id : string;
  request_id : string;
  attempt_id : string;
  correlation_id : string;
  authorization_decision_reference : string;
  worker_request : list (string * pyval);
  timeout_ms : Z;
  core_decision : ExecutionDecisionKind.t;
  core_reason_code : ReasonCode.t;
  resolved_secret_values : option (list (string * string));
  network_envelope : option AuthorizedNetworkEnvelope.t }.
End AuthorizedDispatch.

(** [application/execute_planned_experiment.py:155-172 ResearchLoopOutcome] *)
Module ResearchLoopOutcome.
Record t : Type := mk {
  status : ResearchLoopStatus.t;
  hypothesis_id : string;
  experiment_id : string;
  experiment_execution_state : string;
  core_decision : option ExecutionDecisionKind.t;
  core_reason_code : option ReasonCode.t;
  authorization_decision_reference : option string;
  request_id : option string;
  attempt_id : option string;
  attempt_state : option string;
  invocation_status : option InvocationStatus.t;
  worker_result_id : option string;
  observation_ids : list string;
  ingestion_status : option IngestionStatus.t;
  hypothesis_claim_unchanged : bool;
  reauthorization_request : option (list (string * pyval));
  network_envelope : option AuthorizedNetworkEnvelope.t }.
End ResearchLoopOutcome.

(** The fields that no refusal sets. *)
Definition refusal (status : ResearchLoopStatus.t) (hypothesis_id experiment_id state : string)
    (decision : option ExecutionDecisionKind.t) (reason : option ReasonCode.t)
    (reference : option string) : ResearchLoopOutcome.t :=
  ResearchLoopOutcome.mk status hypothesis_id experiment_id state decision reason reference None None
    None None None [] None true None None.

(** What the use case draws from its clock, from the clock of the scope rules and from [uuid4]. *)
Module Draws.
Record t : Set := mk {
  now : Z;
  plan_now : Z;
  scope_now : Z;
  request_id : string;
  correlation_id : string;
  denial_id : string }.
End Draws.

(** [application/identity.py:18-19 attempt_id_for] *)
Definition attempt_id_for (request_id : string) : string := "ea:" +:+ request_id.

(** [application/identity.py:22-23 execution_decision_audit_id] *)
Definition execution_decision_audit_id (request_id : string) : string := "ae:exec:" +:+ request_id.

(** ** The context of a decision *)

Definition authorization_state_of_value (s : string) : result AuthorizationSourceState.t :=
  match List.find (fun x => (AuthorizationSourceState.value x =? s)%string)
          [AuthorizationSourceState.ACTIVE; AuthorizationSourceState.EXPIRED;
           AuthorizationSourceState.REVOKED] with
  | Some x => Ok x
  | None => Raise ValueError
  end.

(** [application/execute_planned_experiment.py:949-958 _authorization_view] *)
Definition authorization_view (record : option AuthorizationSourceRecord.t)
    : result (option AuthorizationSourceView.t) :=
  match record with
  | None => Ok None
  | Some r =>
      state ← authorization_state_of_value r.(AuthorizationSourceRecord.state);
      view ← AuthorizationSourceView.post_init
               (AuthorizationSourceView.mk r.(AuthorizationSourceRecord.authorization_source_id)
                  r.(AuthorizationSourceRecord.program_id) state);
      Ok (Some view)
  end.

(** [application/execute_planned_experiment.py:961-968 _issued_budget_from_record] *)
Definition issued_budget_from_record (r : IssuedBudgetRecord.t) : result IssuedBudget.t :=
  IssuedBudget.post_init
    (IssuedBudget.mk r.(IssuedBudgetRecord.budget_id) r.(IssuedBudgetRecord.max_requests)
       r.(IssuedBudgetRecord.max_tool_calls) r.(IssuedBudgetRecord.max_runtime_ms)
       r.(IssuedBudgetRecord.max_concurrency)).

(** [application/execute_planned_experiment.py:971-974 _deny_experiment_state] *)
Definition deny_experiment_state (reason : ReasonCode.t) : string :=
  if bool_decide (reason = ReasonCode.BUDGET_EXHAUSTED) then "BUDGET_EXHAUSTED" else "BLOCKED".

(** [application/execute_planned_experiment.py:977-983 _rate_limit_profile_from_record] *)
Definition rate_limit_profile_from_record (r : RateLimitProfileRecord.t)
    : result RateLimitProfile.t :=
  RateLimitProfile.post_init
    (RateLimitProfile.mk r.(RateLimitProfileRecord.profile_id) r.(RateLimitProfileRecord.program_id)
       r.(RateLimitProfileRecord.max_requests_per_window) r.(RateLimitProfileRecord.window_seconds)).

(** What is read before anything is decided. *)
Module LoadedContext.
Record t : Set := mk {
  experiment : ExperimentRecord.t;
  hypothesis_id : string;
  source : option AuthorizationSourceView.t;
  issued : IssuedBudgetRecord.t }.
End LoadedContext.

(** [ResearchLoopOutcome(status=INPUT_REJECTED, ...)] of an experiment that is there. *)
Definition input_rejected (experiment : ExperimentRecord.t) (hypothesis_id : string)
    (decision : option ExecutionDecisionKind.t) (reason : option ReasonCode.t)
    : ResearchLoopOutcome.t :=
  refusal ResearchLoopStatus.INPUT_REJECTED hypothesis_id experiment.(ExperimentRecord.experiment_id)
    experiment.(ExperimentRecord.execution_state) decision reason None.

(** [application/execute_planned_experiment.py:765-837 ExecutePlannedExperiment._load_context] *)
Definition load_context (db : ExecDb.t) (command : ExecutePlannedExperimentCommand.t)
    : result (LoadedContext.t + ResearchLoopOutcome.t) :=
  let plan := command.(ExecutePlannedExperimentCommand.plan) in
  let id := command.(ExecutePlannedExperimentCommand.experiment_id) in
  found ← get_row db.(ExecDb.experiments) id;
  match found with
  | None => Ok (inr (refusal ResearchLoopStatus.INPUT_REJECTED plan.(ExperimentPlan.hypothesis_id) id
                       "MISSING" None None None))
  | Some x =>
      let rejected := input_rejected x x.(ExperimentRecord.hypothesis_id) None None in
      if mem x.(ExperimentRecord.execution_state) TERMINAL_EXPERIMENT_STATES
      then Ok (inr (refusal ResearchLoopStatus.ALREADY_TERMINAL x.(ExperimentRecord.hypothesis_id)
                      x.(ExperimentRecord.experiment_id) x.(ExperimentRecord.execution_state)
                      None None None))
      else if negb (x.(ExperimentRecord.hypothesis_id) =? plan.(ExperimentPlan.hypothesis_id))%string
      then Ok (inr rejected)
      else if negb (x.(ExperimentRecord.budget_id) =? plan.(ExperimentPlan.requested_budget_id))%string
      then Ok (inr rejected)
      else
      hypothesis ← get_row db.(ExecDb.hypotheses) x.(ExperimentRecord.hypothesis_id);
      match hypothesis with
      | None => Ok (inr rejected)
      | Some hypothesis =>
      run ← get_row db.(ExecDb.runs) x.(ExperimentRecord.research_run_id);
      match run with
      | None => Ok (inr rejected)
      | Some run =>
      issued ← get_row db.(ExecDb.ledger).(Ledger.Db.issued) x.(ExperimentRecord.budget_id);
      match issued with
      | None => Ok (inr rejected)
      | Some issued =>
      source ← get_row db.(ExecDb.sources) run.(ResearchRunRecord.authorization_source_id);
      view ← authorization_view source;
      Ok (inl (LoadedContext.mk x hypothesis.(HypothesisRecord.hypothesis_id) view issued))
      end end end
  end.

(** [not s] for an optional text. *)
Definition missing_text (s : option string) : bool :=
  match s with Some s => Str.is_empty s | None => true end.

(** The stored plan is the plan, or there is none and it is stored.  The answer tells whether the
    plan is bound.
    [application/execute_planned_experiment.py:839-865 ExecutePlannedExperiment._ensure_plan] *)
Definition ensure_plan (dumps : pyval -> string) (seen db : ExecDb.t) (experiment : ExperimentRecord.t)
    (plan : ExperimentPlan.t) (created_at : Z) : result (ExecDb.t * bool) :=
  existing ← get_row seen.(ExecDb.plans) experiment.(ExperimentRecord.experiment_id);
  match existing with
  | None =>
      if missing_text plan.(ExperimentPlan.capability_version)
         || missing_text plan.(ExperimentPlan.capability_definition_fingerprint)
      then Ok (db, false)
      else
        record ← experiment_plan_record_for experiment plan created_at;
        db ← insert_plan db record;
        Ok (db, true)
  | Some existing => same ← durable_plan_matches dumps existing plan; Ok (db, same)
  end.

(** ** The request of the worker *)

(** [datetime.isoformat()] of an instant in UTC. *)
Class IsoFormat : Type := iso_format : Z -> string.

(** [str.isalnum] on one character of U+0000..U+00FF. *)
Definition is_alnum (c : ascii) : bool :=
  let n := Str.code c in
  ((48 <=? n)%nat && (n <=? 57)%nat) || ((65 <=? n)%nat && (n <=? 90)%nat)
  || ((97 <=? n)%nat && (n <=? 122)%nat) || mem n [170; 178; 179; 181; 185; 186; 188; 189; 190]%nat
  || ((192 <=? n)%nat && negb (n =? 215)%nat && negb (n =? 247)%nat).

(** [application/execute_planned_experiment.py:1127-1147 _PROGRAM_HEADER_BLOCKLIST] *)
Definition PROGRAM_HEADER_BLOCKLIST : list string :=
  [ "authorization"; "proxy-authorization"; "cookie"; "set-cookie"; "host"; "content-length";
    "transfer-encoding"; "connection"; "upgrade"; "origin"; "referer"; "user-agent"; "forwarded";
    "x-forwarded-for"; "x-forwarded-host"; "x-forwarded-proto"; "x-real-ip" ].

(** [application/execute_planned_experiment.py:1149-1156 _PROGRAM_HEADER_SENSITIVE_MARKERS] *)
Definition PROGRAM_HEADER_SENSITIVE_MARKERS : list string :=
  ["api-key"; "apikey"; "password"; "secret"; "token"; "credential"].

(** The condition of the loop, for a name and a value that are stripped.
    [application/execute_planned_experiment.py:1159-1196 _validate_required_program_headers] *)
Definition bad_program_header (seen : list string) (name value : string) : bool :=
  let lower := Str.lower name in
  Str.is_empty name || (64 <? String.length name)%nat
  || existsb (fun c => negb (is_alnum c || Ascii.eqb c "-")) (String.list_ascii_of_string name)
  || mem lower PROGRAM_HEADER_BLOCKLIST
  || existsb (Str.contains lower) PROGRAM_HEADER_SENSITIVE_MARKERS
  || mem lower seen || Str.is_empty value || (256 <? String.length value)%nat || has_crlf value.

(** [application/execute_planned_experiment.py:1159-1196 _validate_required_program_headers] *)
Fixpoint program_headers (seen : list string) (items : list (string * pyval))
    : result (list (string * string)) :=
  match items with
  | [] => Ok []
  | (raw_name, PStr raw_value) :: items =>
      let name := Str.strip raw_name in
      let value := Str.strip raw_value in
      raise_if bad_program_header seen name value as ValueError;;
      rest ← program_headers (Str.lower name :: seen) items;
      Ok ((name, value) :: rest)
  | _ => Raise ValueError
  end.

(** [application/execute_planned_experiment.py:1159-1196 _validate_required_program_headers] *)
Definition validate_required_program_headers (value : pyval) : result (list (string * string)) :=
  match value with
  | PNone => Ok []
  | PDict items =>
      raise_if (8 <? length items)%nat as ValueError;;
      program_headers [] items
  | _ => Raise ValueError
  end.

(** The action policy of the program of a run, if it says anything. *)
Definition action_policy_of (db : ExecDb.t) (research_run_id : string)
    : result (option (list (string * pyval))) :=
  run ← get_row db.(ExecDb.runs) research_run_id;
  match run with
  | None => Raise ValueError
  | Some run =>
      policy ← get_row db.(ExecDb.policies) run.(ResearchRunRecord.program_id);
      Ok (match policy ≫= ProgramPolicyRecord.action_policy with
          | None | Some [] => None
          | Some p => Some p
          end)
  end.

(** [application/execute_planned_experiment.py:1199-1216 _required_program_headers] *)
Definition required_program_headers (db : ExecDb.t) (research_run_id : string)
    : result (list (string * string)) :=
  policy ← action_policy_of db research_run_id;
  match policy with
  | None => Ok []
  | Some p => validate_required_program_headers (dict_get "required_headers" p)
  end.

(** [application/execute_planned_experiment.py:1107-1124 _required_user_agent] *)
Definition required_user_agent (db : ExecDb.t) (research_run_id : string) : result (option string) :=
  policy ← action_policy_of db research_run_id;
  match policy with
  | None => Ok None
  | Some p =>
      match dict_get "required_user_agent" p with
      | PNone => Ok None
      | PStr value =>
          raise_if Str.is_blank value || has_crlf value || (128 <? String.length value)%nat
          as ValueError;;
          Ok (Some (Str.strip value))
      | _ => Raise ValueError
      end
  end.

(** [application/execute_planned_experiment.py:1035-1104 _build_worker_request] *)
Definition set_authoritative_header (headers : list (string * pyval)) (name value : string)
    : list (string * pyval) :=
  List.filter (fun p => negb (Str.lower p.1 =? Str.lower name)%string) headers ++ [(name, PStr value)].

(** The headers of the plan under those of the program.
    [application/execute_planned_experiment.py:1035-1104 _build_worker_request] *)
Definition request_arguments (arguments : list (string * pyval)) (identity_id user_agent : option string)
    (required_headers : list (string * string)) : result (list (string * pyval)) :=
  let arguments := match identity_id with
                   | Some i => dict_put "identity_id" (PStr i) arguments | None => arguments end in
  let existing := dict_get "headers" arguments in
  existing_headers ← match existing with
                     | PDict d => Ok d
                     | v => raise_if truthy v as ValueError;; Ok []
                     end;
  let headers := match user_agent with
                 | Some ua => set_authoritative_header existing_headers "User-Agent" ua
                 | None => existing_headers end in
  validated ← validate_required_program_headers
                (PDict ((fun p => (p.1, PStr p.2)) <$> required_headers));
  let headers := foldl (fun h p => set_authoritative_header h p.1 p.2) headers validated in
  Ok (if bool_decide (is_Some user_agent) || negb (bool_decide (required_headers = []))
      then dict_put "headers" (PDict headers) arguments else arguments).

(** [application/execute_planned_experiment.py:1035-1104 _build_worker_request] *)
Definition build_worker_request (experiment : ExperimentRecord.t) (plan : ExperimentPlan.t)
    (view : CapabilityAuthorizationView.t) (issued : IssuedBudgetRecord.t)
    (request_id correlation_id reference : string) (envelope : option AuthorizedNetworkEnvelope.t)
    (identity_id user_agent : option string) (required_headers : list (string * string))
    : result (list (string * pyval)) :=
  arguments ← request_arguments plan.(ExperimentPlan.arguments) identity_id user_agent required_headers;
  Ok ([ ("contract_version", PStr "v1");
        ("correlation", PDict
           [ ("correlation_id", PStr correlation_id);
             ("research_run_id", PStr experiment.(ExperimentRecord.research_run_id));
             ("experiment_id", PStr experiment.(ExperimentRecord.experiment_id));
             ("request_id", PStr request_id) ]);
        ("worker_capability", PStr plan.(ExperimentPlan.required_capability));
        ("action", PStr plan.(ExperimentPlan.action));
        ("target_reference", PStr plan.(ExperimentPlan.target_reference));
        ("authorization_decision_reference", PStr reference);
        ("execution_budget", PDict
           [ ("budget_id", PStr issued.(IssuedBudgetRecord.budget_id));
             ("max_requests", PInt issued.(IssuedBudgetRecord.max_requests));
             ("max_tool_calls", PInt issued.(IssuedBudgetRecord.max_tool_calls));
             ("max_runtime_ms", PInt issued.(IssuedBudgetRecord.max_runtime_ms));
             ("max_concurrency", PInt issued.(IssuedBudgetRecord.max_concurrency)) ]);
        ("side_effect_level", PInt plan.(ExperimentPlan.side_effect_level));
        ("capability_version", PStr view.(CapabilityAuthorizationView.capability_version));
        ("capability_definition_fingerprint",
           PStr view.(CapabilityAuthorizationView.definition_fingerprint));
        ("secret_references", PList []);
        ("arguments", PDict arguments) ]
      ++ match envelope with
         | Some e => [("network_envelope", PDict (AuthorizedNetworkEnvelope.to_mapping e))]
         | None => []
         end).

(** ** The audit *)

Definition opt_text (s : option string) : pyval := match s with Some s => PStr s | None => PNone end.

(** [application/execute_planned_experiment.py:986-1016 _execution_decision_audit] *)
Definition execution_decision_audit (audit_id : string) (occurred_at : Z) (actor_id experiment_id
    correlation_id request_id : string) (d : ExecutionDecision.t) : result AuditEventRecord.t :=
  AuditEventRecord.post_init
    (AuditEventRecord.mk audit_id occurred_at actor_id "CONTROL_PLANE" "EXECUTION_DECISION"
       "experiment" experiment_id
       [ ("decision", PStr (ExecutionDecisionKind.value d.(ExecutionDecision.decision)));
         ("reason_code", PStr (ReasonCode.value d.(ExecutionDecision.reason_code)));
         ("authorization_source_id", opt_text d.(ExecutionDecision.authorization_source_id));
         ("matched_scope_rule_ids", PList (PStr <$> d.(ExecutionDecision.matched_scope_rule_ids)));
         ("budget_id", opt_text d.(ExecutionDecision.budget_id));
         ("side_effect_level", PInt (SideEffectLevel.value d.(ExecutionDecision.side_effect_level)));
         ("approval_id", opt_text d.(ExecutionDecision.approval_id));
         ("request_id", PStr request_id);
         ("dispatched",
            PBool (bool_decide (d.(ExecutionDecision.decision) = ExecutionDecisionKind.ALLOW))) ]
       (Some correlation_id)).

(** The members by their names, which are their values. *)
Definition reason_members : list ReasonCode.t :=
  [ ReasonCode.ALLOWED; ReasonCode.AUTHORIZATION_MISSING; ReasonCode.AUTHORIZATION_INACTIVE;
    ReasonCode.SCOPE_DENIED; ReasonCode.SCOPE_NOT_EXPLICITLY_ALLOWED;
    ReasonCode.SCOPE_AMBIGUOUS; ReasonCode.BUDGET_EXHAUSTED; ReasonCode.BUDGET_MISMATCH;
    ReasonCode.APPROVAL_REQUIRED; ReasonCode.APPROVAL_REJECTED;
    ReasonCode.APPROVAL_INVALID_ACTOR; ReasonCode.APPROVAL_SUBJECT_MISMATCH;
    ReasonCode.APPROVAL_NOT_RECORDED; ReasonCode.SIDE_EFFECT_LEVEL_DENIED;
    ReasonCode.CAPABILITY_AUTHORIZATION_MISSING; ReasonCode.UNKNOWN_CAPABILITY;
    ReasonCode.UNKNOWN_ACTION; ReasonCode.UNSUPPORTED_CAPABILITY_VERSION;
    ReasonCode.DEFINITION_FINGERPRINT_MISMATCH; ReasonCode.RISK_UNDERSTATEMENT;
    ReasonCode.RISK_EXCEEDS_CAPABILITY; ReasonCode.SIDE_EFFECT_BINDING_MISMATCH;
    ReasonCode.SCHEMA_MISMATCH; ReasonCode.SCOPE_PATH_AMBIGUOUS;
    ReasonCode.SCOPE_NORMALIZATION_INVALID; ReasonCode.SCOPE_USERINFO_DENIED;
    ReasonCode.SCOPE_WILDCARD_REJECTED; ReasonCode.SCOPE_UNKNOWN_CLASSIFICATION;
    ReasonCode.SCOPE_EXPIRED; ReasonCode.PROGRAM_POLICY_DENIED; ReasonCode.RATE_LIMIT_DENIED;
    ReasonCode.SENSOR_TIMEOUT; ReasonCode.SENSOR_FAILED; ReasonCode.CENSUS_ALLOWED;
    ReasonCode.CENSUS_DENIED; ReasonCode.IMPACT_CHAIN_MISSING;
    ReasonCode.IMPACT_CHAIN_CROSS_RUN; ReasonCode.CROSS_RUN_PROOF ].

(** [application/execute_planned_experiment.py:1329-1338 _binding_reason] *)
Definition binding_reason (code : string) : ReasonCode.t :=
  match List.find (fun r => (ReasonCode.value r =? code)%string) reason_members with
  | Some r => r
  | None =>
      if mem code ["MISSING_REQUIRED_ARGUMENT"; "UNEXPECTED_ARGUMENT"; "INVALID_ARGUMENT_TYPE"]
      then ReasonCode.SCHEMA_MISMATCH else ReasonCode.UNKNOWN_CAPABILITY
  end.

(** What answers an experiment that has an attempt.
    [application/execute_planned_experiment.py:867-890 ExecutePlannedExperiment._outcome_for_existing] *)
Definition outcome_for_existing (experiment : ExperimentRecord.t) (hypothesis_id : string)
    (attempt : ExecutionAttemptRecord.t) : ResearchLoopOutcome.t :=
  let state := attempt.(ExecutionAttemptRecord.state) in
  let status :=
    if (state =? "AUTHORIZED")%string then ResearchLoopStatus.AUTHORIZED_NOT_DISPATCHED
    else if (state =? "UNKNOWN_OUTCOME")%string then ResearchLoopStatus.UNKNOWN_OUTCOME
    else ResearchLoopStatus.ALREADY_TERMINAL in
  ResearchLoopOutcome.mk status hypothesis_id experiment.(ExperimentRecord.experiment_id)
    experiment.(ExperimentRecord.execution_state) None None
    (Some attempt.(ExecutionAttemptRecord.authorization_decision_reference))
    (Some attempt.(ExecutionAttemptRecord.request_id)) (Some attempt.(ExecutionAttemptRecord.attempt_id))
    (Some state) None None [] None true None None.

Section authorize.
Context `{FloatRepr} `{NetlocCheck} `{HostCodec} `{JsonSchema} `{ContractSchemas} `{IsoFormat}.
Context (catalog : CapabilityRegistry.t) (dumps : pyval -> string) (actor_id : string).
Context (secret_port : option SecretPort).

(** The gate answers with the rows it leaves and the refusal.
    [application/execute_planned_experiment.py:892-946 ExecutePlannedExperiment._check_rate_limit] *)
Definition check_rate_limit_gate (seen db : ExecDb.t) (policy : option ProgramPolicyView.t)
    (experiment : ExperimentRecord.t) (hypothesis_id : string) (draws : Draws.t)
    : result (option (ExecDb.t * ResearchLoopOutcome.t)) :=
  match policy ≫= ProgramPolicyView.rate_limit_profile with
  | None => Ok None
  | Some record =>
      profile ← rate_limit_profile_from_record record;
      attempts ← attempts_for_run seen experiment.(ExperimentRecord.research_run_id);
      check ← check_rate_limit profile (omap ExecutionAttemptRecord.authorized_at attempts)
                draws.(Draws.now);
      if check.(RateLimitCheck.allowed) then Ok None
      else
        let audit_id := execution_decision_audit_id draws.(Draws.denial_id) in
        event ← AuditEventRecord.post_init
          (AuditEventRecord.mk audit_id draws.(Draws.now) actor_id "CONTROL_PLANE" "RATE_LIMIT_DENIED"
             "experiment" experiment.(ExperimentRecord.experiment_id)
             [ ("profile_id", PStr record.(RateLimitProfileRecord.profile_id));
               ("max_requests_per_window", PInt profile.(RateLimitProfile.max_requests_per_window));
               ("window_seconds", PInt profile.(RateLimitProfile.window_seconds));
               ("reason_code", PStr (ReasonCode.value check.(RateLimitCheck.reason_code)));
               ("next_allowed_at", match check.(RateLimitCheck.next_allowed_at) with
                                   | Some t => PStr (iso_format t) | None => PNone end) ]
             (Some experiment.(ExperimentRecord.research_run_id)));
        db ← insert_audit db event;
        Ok (Some (db, refusal ResearchLoopStatus.DISPATCH_DENIED hypothesis_id
                        experiment.(ExperimentRecord.experiment_id) "BLOCKED"
                        (Some ExecutionDecisionKind.DENY) (Some check.(RateLimitCheck.reason_code))
                        (Some audit_id)))
  end.

(** [application/execute_planned_experiment.py:1272-1277 _usage_or_ledger] *)
Definition usage_or_ledger (provided : option BudgetUsage.t) (db : ExecDb.t) (budget_id : string)
    : result BudgetUsage.t :=
  match provided with
  | Some u => Ok u
  | None => rows ← list_for_budget db.(ExecDb.ledger) budget_id; usage_from_consumptions rows
  end.

(** The scope Core sees: of an HTTP request what the compiled rules say of its address, of any
    other what the command says.
    [application/execute_planned_experiment.py:296-308 ExecutePlannedExperiment.authorize] *)
Definition core_scope (command : ExecutePlannedExperimentCommand.t) (plan : ExperimentPlan.t)
    (http : HttpTransactionScopeDecision.t) : result ScopeEvaluationInput.t :=
  if mem plan.(ExperimentPlan.required_capability) HTTP_SCOPE_CAPABILITIES
  then match command.(ExecutePlannedExperimentCommand.compiled_scope),
             http.(HttpTransactionScopeDecision.scope_check) with
       | Some compiled, Some check => scope_evaluation_from_compiled_check check compiled
       | _, _ => Ok (ScopeEvaluationInput.mk [] false)
       end
  else Ok command.(ExecutePlannedExperimentCommand.scope).

(** [ExecutionDecision(decision=DENY, ...)] over a decision of Core. *)
Definition denied (d : ExecutionDecision.t) (reason : ReasonCode.t) (matched : list string)
    : ExecutionDecision.t :=
  ExecutionDecision.mk ExecutionDecisionKind.DENY reason d.(ExecutionDecision.authorization_source_id)
    matched d.(ExecutionDecision.budget_id) d.(ExecutionDecision.side_effect_level)
    d.(ExecutionDecision.approval_id).

(** What Core is asked.
    [application/execute_planned_experiment.py:309-321 ExecutePlannedExperiment.authorize] *)
Definition core_request (context : LoadedContext.t) (command : ExecutePlannedExperimentCommand.t)
    (plan : ExperimentPlan.t) (view : CapabilityAuthorizationView.t) (scope : ScopeEvaluationInput.t)
    (issued : IssuedBudget.t) (usage : BudgetUsage.t) : ExecutionRequest.t :=
  ExecutionRequest.mk context.(LoadedContext.source) (Some scope) (Some issued) (Some usage)
    plan.(ExperimentPlan.requested_budget_id) (LevelInt plan.(ExperimentPlan.side_effect_level))
    plan.(ExperimentPlan.target_reference) (Some view)
    command.(ExecutePlannedExperimentCommand.approval).

(** The decision of Core, and of the scope where it refuses.
    [application/execute_planned_experiment.py:296-339 ExecutePlannedExperiment.authorize] *)
Definition decide (seen : ExecDb.t) (context : LoadedContext.t)
    (command : ExecutePlannedExperimentCommand.t) (plan : ExperimentPlan.t)
    (view : CapabilityAuthorizationView.t) (http : HttpTransactionScopeDecision.t)
    : result ExecutionDecision.t :=
  scope ← core_scope command plan http;
  issued ← issued_budget_from_record context.(LoadedContext.issued);
  usage ← usage_or_ledger command.(ExecutePlannedExperimentCommand.budget_usage) seen
            context.(LoadedContext.issued).(IssuedBudgetRecord.budget_id);
  d ← evaluate_execution catalog (core_request context command plan view scope issued usage);
  Ok (if mem plan.(ExperimentPlan.required_capability) HTTP_SCOPE_CAPABILITIES
         && negb http.(HttpTransactionScopeDecision.accepted)
      then denied d (default ReasonCode.SCOPE_NOT_EXPLICITLY_ALLOWED
                       http.(HttpTransactionScopeDecision.reason_code))
             (match http.(HttpTransactionScopeDecision.scope_check) with
              | Some check => check.(ScopeCheck.matched_rule_ids) | None => [] end)
      else d).

(** The session the plan names, and what binds it.
    [application/execute_planned_experiment.py:340-353 ExecutePlannedExperiment.authorize] *)
Definition bind_session (seen : ExecDb.t) (command : ExecutePlannedExperimentCommand.t)
    (plan : ExperimentPlan.t) (research_run_id : string) (now : Z) : result SessionBindingDecision.t :=
  loaded ← match dict_get "session_context_reference" plan.(ExperimentPlan.arguments) with
           | PStr reference => if Str.is_blank reference then Ok None
                               else get_row seen.(ExecDb.sessions) reference
           | _ => Ok None
           end;
  bind_identity_session plan command.(ExecutePlannedExperimentCommand.identity_id)
    command.(ExecutePlannedExperimentCommand.ident)
    command.(ExecutePlannedExperimentCommand.authentication_profile) loaded secret_port now
    (Some research_run_id).

(** An allowed execution without its session is denied.
    [application/execute_planned_experiment.py:364-373 ExecutePlannedExperiment.authorize] *)
Definition deny_unbound_session (d : ExecutionDecision.t) (session : SessionBindingDecision.t)
    : ExecutionDecision.t :=
  if bool_decide (d.(ExecutionDecision.decision) = ExecutionDecisionKind.ALLOW)
     && negb session.(SessionBindingDecision.accepted)
  then denied d (default ReasonCode.SCHEMA_MISMATCH session.(SessionBindingDecision.reason_code)) []
  else d.

(** The identity a browser works under.
    [application/execute_planned_experiment.py:425-432 ExecutePlannedExperiment.authorize] *)
Definition browser_identity (plan : ExperimentPlan.t) (session : SessionBindingDecision.t)
    : option string :=
  if (plan.(ExperimentPlan.required_capability) =? BROWSER_PAGE_CAPABILITY)%string
  then SessionContextRecord.identity_id <$> session.(SessionBindingDecision.session) else None.

(** The row of a login that is about to happen.
    [application/execute_planned_experiment.py:443-456 ExecutePlannedExperiment.authorize] *)
Definition insert_login_session (db : ExecDb.t) (command : ExecutePlannedExperimentCommand.t)
    (plan : ExperimentPlan.t) (research_run_id : string) (now : Z) : result ExecDb.t :=
  match command.(ExecutePlannedExperimentCommand.ident),
        command.(ExecutePlannedExperimentCommand.authentication_profile) with
  | Some ident, Some profile =>
      if (plan.(ExperimentPlan.required_capability) =? HTTP_AUTHENTICATION_CAPABILITY)%string
      then record ← authenticating_session_record plan ident profile research_run_id now;
           insert_session_row db record
      else Ok db
  | _, _ => Ok db
  end.

(** [application/execute_planned_experiment.py:457-475 ExecutePlannedExperiment.authorize] *)
Definition authorized_attempt (experiment : ExperimentRecord.t) (plan : ExperimentPlan.t)
    (issued : IssuedBudgetRecord.t) (draws : Draws.t) : result ExecutionAttemptRecord.t :=
  ExecutionAttemptRecord.post_init
    (ExecutionAttemptRecord.mk (attempt_id_for draws.(Draws.request_id)) draws.(Draws.request_id)
       experiment.(ExperimentRecord.experiment_id) experiment.(ExperimentRecord.research_run_id)
       draws.(Draws.correlation_id) plan.(ExperimentPlan.required_capability)
       plan.(ExperimentPlan.action) plan.(ExperimentPlan.target_reference)
       issued.(IssuedBudgetRecord.budget_id) plan.(ExperimentPlan.side_effect_level)
       (execution_decision_audit_id draws.(Draws.request_id)) "AUTHORIZED" draws.(Draws.now)
       (Some draws.(Draws.now)) None None "UNKNOWN").

(** The envelope that names the decision it comes from.
    [application/execute_planned_experiment.py:489-492 ExecutePlannedExperiment.authorize] *)
Definition envelope_with_reference (e : AuthorizedNetworkEnvelope.t) (reference : string)
    : result AuthorizedNetworkEnvelope.t :=
  AuthorizedNetworkEnvelope.post_init
    (AuthorizedNetworkEnvelope.mk e.(AuthorizedNetworkEnvelope.normalized_scheme)
       e.(AuthorizedNetworkEnvelope.normalized_host) e.(AuthorizedNetworkEnvelope.normalized_port)
       e.(AuthorizedNetworkEnvelope.document_path) e.(AuthorizedNetworkEnvelope.origin_wide)
       e.(AuthorizedNetworkEnvelope.allowed_path_prefixes)
       e.(AuthorizedNetworkEnvelope.denied_path_prefixes)
       e.(AuthorizedNetworkEnvelope.loopback_only) e.(AuthorizedNetworkEnvelope.source_scope_rule_ids)
       (Some reference)).

(** An allowed execution: the request is built and checked, a login leaves its session row, the
    attempt is stored and the experiment is READY; the caller's hook, which writes to tables that
    are not modelled here, runs last and may raise.
    [application/execute_planned_experiment.py:416-508 ExecutePlannedExperiment.authorize] *)
Definition commit_authorization (hook : option (string -> string -> result unit)) (seen db : ExecDb.t)
    (context : LoadedContext.t) (command : ExecutePlannedExperimentCommand.t) (plan : ExperimentPlan.t)
    (view : CapabilityAuthorizationView.t) (http : HttpTransactionScopeDecision.t)
    (d : ExecutionDecision.t) (session : SessionBindingDecision.t) (draws : Draws.t)
    : result (ExecDb.t * AuthorizedDispatch.t) :=
  let x := context.(LoadedContext.experiment) in
  let id := x.(ExperimentRecord.experiment_id) in
  let run := x.(ExperimentRecord.research_run_id) in
  let issued := context.(LoadedContext.issued) in
  let reference := execution_decision_audit_id draws.(Draws.request_id) in
  user_agent ← required_user_agent seen run;
  headers ← required_program_headers seen run;
  request ← build_worker_request x plan view issued draws.(Draws.request_id)
              draws.(Draws.correlation_id) reference http.(HttpTransactionScopeDecision.envelope)
              (browser_identity plan session) user_agent headers;
  _ ← validate_contract WorkerRequest request;
  db ← insert_login_session db command plan run draws.(Draws.now);
  attempt ← authorized_attempt x plan issued draws;
  db ← insert_attempt db attempt;
  db ← set_execution_state db id "READY";
  _ ← match hook with
      | Some h => h attempt.(ExecutionAttemptRecord.attempt_id) id | None => Ok tt end;
  envelope ← match http.(HttpTransactionScopeDecision.envelope) with
             | Some e => e ← envelope_with_reference e reference; Ok (Some e)
             | None => Ok None
             end;
  let request := match envelope with
                 | Some e => dict_put "network_envelope"
                               (PDict (AuthorizedNetworkEnvelope.to_mapping e)) request
                 | None => request
                 end in
  Ok (db, AuthorizedDispatch.mk id context.(LoadedContext.hypothesis_id) draws.(Draws.request_id)
            attempt.(ExecutionAttemptRecord.attempt_id) draws.(Draws.correlation_id) reference request
            issued.(IssuedBudgetRecord.max_runtime_ms) d.(ExecutionDecision.decision)
            d.(ExecutionDecision.reason_code) session.(SessionBindingDecision.resolved_secrets) envelope).

(** The decision is audited, whatever it is, and then obeyed.
    [application/execute_planned_experiment.py:374-415 ExecutePlannedExperiment.authorize] *)
Definition obey_decision (hook : option (string -> string -> result unit)) (seen db : ExecDb.t)
    (context : LoadedContext.t) (command : ExecutePlannedExperimentCommand.t) (plan : ExperimentPlan.t)
    (view : CapabilityAuthorizationView.t) (http : HttpTransactionScopeDecision.t)
    (d : ExecutionDecision.t) (session : SessionBindingDecision.t) (draws : Draws.t)
    : result (ExecDb.t * (AuthorizedDispatch.t + ResearchLoopOutcome.t)) :=
  let id := context.(LoadedContext.experiment).(ExperimentRecord.experiment_id) in
  let audit_id := execution_decision_audit_id draws.(Draws.request_id) in
  event ← execution_decision_audit audit_id draws.(Draws.now) actor_id id draws.(Draws.correlation_id)
            draws.(Draws.request_id) d;
  db ← insert_audit db event;
  match d.(ExecutionDecision.decision) with
  | ExecutionDecisionKind.DENY =>
      let terminal := deny_experiment_state d.(ExecutionDecision.reason_code) in
      db ← set_execution_state db id terminal;
      Ok (db, inr (refusal ResearchLoopStatus.DISPATCH_DENIED context.(LoadedContext.hypothesis_id) id
                     terminal (Some d.(ExecutionDecision.decision))
                     (Some d.(ExecutionDecision.reason_code)) (Some audit_id)))
  | ExecutionDecisionKind.REQUIRE_HUMAN_REVIEW =>
      Ok (db, inr (refusal ResearchLoopStatus.HUMAN_REVIEW_REQUIRED
                     context.(LoadedContext.hypothesis_id) id "AUTHORIZATION_CHECK"
                     (Some d.(ExecutionDecision.decision)) (Some d.(ExecutionDecision.reason_code))
                     (Some audit_id)))
  | ExecutionDecisionKind.ALLOW =>
      committed ← commit_authorization hook seen db context command plan view http d session draws;
      Ok (committed.1, inl committed.2)
  end.

(** The experiment is under check; a refusal of the capability, of the arguments or of the session
    as an input leaves the database as it was ([before]).
    [application/execute_planned_experiment.py:255-373 ExecutePlannedExperiment.authorize] *)
Definition authorize_plan (hook : option (string -> string -> result unit)) (seen before db : ExecDb.t)
    (context : LoadedContext.t) (command : ExecutePlannedExperimentCommand.t) (plan : ExperimentPlan.t)
    (draws : Draws.t) : result (ExecDb.t * (AuthorizedDispatch.t + ResearchLoopOutcome.t)) :=
  let x := context.(LoadedContext.experiment) in
  let id := x.(ExperimentRecord.experiment_id) in
  let hypothesis_id := context.(LoadedContext.hypothesis_id) in
  match capability_view_for_plan catalog plan with
  | Raise (CapabilityBindingError code) =>
      Ok (before, inr (refusal ResearchLoopStatus.DISPATCH_DENIED hypothesis_id id
                         x.(ExperimentRecord.execution_state) (Some ExecutionDecisionKind.DENY)
                         (Some (binding_reason code)) None))
  | Raise e => Raise e
  | Ok view =>
  let policy := command.(ExecutePlannedExperimentCommand.program_policy) in
  http ← authorize_http_transaction_plan draws.(Draws.scope_now) plan
           command.(ExecutePlannedExperimentCommand.compiled_scope) policy;
  if http.(HttpTransactionScopeDecision.input_rejected)
  then Ok (before, inr (input_rejected x hypothesis_id (Some ExecutionDecisionKind.DENY)
                          http.(HttpTransactionScopeDecision.reason_code)))
  else
  limited ← check_rate_limit_gate seen db policy x hypothesis_id draws;
  match limited with
  | Some (db, outcome) => db ← set_execution_state db id "BLOCKED"; Ok (db, inr outcome)
  | None =>
  d ← decide seen context command plan view http;
  session ← bind_session seen command plan x.(ExperimentRecord.research_run_id) draws.(Draws.now);
  if session.(SessionBindingDecision.input_rejected)
  then Ok (before, inr (input_rejected x hypothesis_id (Some ExecutionDecisionKind.DENY)
                          session.(SessionBindingDecision.reason_code)))
  else obey_decision hook seen db context command plan view http (deny_unbound_session d session)
         session draws
  end
  end.

(** [application/execute_planned_experiment.py:217-254 ExecutePlannedExperiment.authorize] *)
Definition authorize (hook : option (string -> string -> result unit)) (seen db : ExecDb.t)
    (command : ExecutePlannedExperimentCommand.t) (draws : Draws.t)
    : result (ExecDb.t * (AuthorizedDispatch.t + ResearchLoopOutcome.t)) :=
  loaded ← load_context seen command;
  match loaded with
  | inr outcome => Ok (db, inr outcome)
  | inl context =>
  let x := context.(LoadedContext.experiment) in
  let id := x.(ExperimentRecord.experiment_id) in
  bound ← ensure_plan dumps seen db x command.(ExecutePlannedExperimentCommand.plan)
            draws.(Draws.plan_now);
  let '(planned, bound) := bound in
  if negb bound then Ok (db, inr (input_rejected x x.(ExperimentRecord.hypothesis_id) None None))
  else
  persisted ← get_row planned.(ExecDb.plans) id;
  match persisted with
  | None => Ok (db, inr (input_rejected x context.(LoadedContext.hypothesis_id) None None))
  | Some persisted =>
  plan ← experiment_plan_from_record persisted;
  attempts ← attempts_for_experiment seen id;
  match attempts with
  | first :: _ =>
      Ok (db, inr (outcome_for_existing x context.(LoadedContext.hypothesis_id) first))
  | [] =>
      checking ← set_execution_state planned id "AUTHORIZATION_CHECK";
      authorize_plan hook seen db checking context command plan draws
  end
  end
  end.
End authorize.

(** ** Theorems *)

Lemma core_allow_is_may_execute catalog r d :
  evaluate_execution catalog r = Ok d -> d.(ExecutionDecision.decision) = ExecutionDecisionKind.ALLOW ->
  exists level, parse_side_effect_level r.(ExecutionRequest.side_effect_level) = Ok level
    /\ may_execute catalog r level.
Proof.
  intros Hd Ha. pose proof Hd as Hr. unfold evaluate_execution, required in Hr.
  destruct r.(ExecutionRequest.issued_budget) as [b|] eqn:Eb; [|done]. cbn [mbind result_bind] in Hr.
  destruct r.(ExecutionRequest.budget_usage) as [u|] eqn:Eu; [|done]. cbn [mbind result_bind] in Hr.
  destruct r.(ExecutionRequest.scope) as [e|] eqn:Ee; [|done]. cbn [mbind result_bind] in Hr.
  apply bind_ok in Hr as (level & El & Hr). apply bind_ok in Hr as (? & [Es _]%raise_if_ok & Hr).
  apply bind_ok in Hr as (? & [Ei _]%raise_if_ok & _). exists level. split; [done|].
  destruct (evaluate_cases catalog r level b u e Eb Eu Ee El Es Ei) as (d' & Hd' & _ & [Hm _] & _).
  apply Hm. congruence.
Qed.

Lemma denied_is_deny d reason ids :
  (denied d reason ids).(ExecutionDecision.decision) = ExecutionDecisionKind.DENY.
Proof. done. Qed.

Lemma session_allow d session :
  (deny_unbound_session d session).(ExecutionDecision.decision) = ExecutionDecisionKind.ALLOW ->
  deny_unbound_session d session = d /\ session.(SessionBindingDecision.accepted) = true.
Proof.
  unfold deny_unbound_session. case_bool_decide as Ed; [|done].
  by destruct session.(SessionBindingDecision.accepted).
Qed.

Section authorized.
Context `{FloatRepr} `{NetlocCheck} `{HostCodec} `{JsonSchema} `{ContractSchemas} `{IsoFormat}.
Context (catalog : CapabilityRegistry.t) (dumps : pyval -> string) (actor_id : string).
Context (secret_port : option SecretPort).

Lemma decide_allow seen context command plan view http d :
  decide catalog seen context command plan view http = Ok d ->
  d.(ExecutionDecision.decision) = ExecutionDecisionKind.ALLOW ->
  (plan.(ExperimentPlan.required_capability) ∈ HTTP_SCOPE_CAPABILITIES ->
     http.(HttpTransactionScopeDecision.accepted) = true)
  /\ exists scope issued usage level,
       core_scope command plan http = Ok scope
       /\ issued_budget_from_record context.(LoadedContext.issued) = Ok issued
       /\ usage_or_ledger command.(ExecutePlannedExperimentCommand.budget_usage) seen
            context.(LoadedContext.issued).(IssuedBudgetRecord.budget_id) = Ok usage
       /\ parse_side_effect_level (LevelInt plan.(ExperimentPlan.side_effect_level)) = Ok level
       /\ may_execute catalog (core_request context command plan view scope issued usage) level.
Proof.
  unfold decide. intros (scope & Hs & Hd)%bind_ok. apply bind_ok in Hd as (issued & Hi & Hd).
  apply bind_ok in Hd as (usage & Hu & Hd). apply bind_ok in Hd as (core & Hc & [= <-]).
  destruct (mem _ HTTP_SCOPE_CAPABILITIES && negb _) eqn:E; [done|]. intros Ha. split.
  - intros Hin. rewrite (proj2 (mem_true _ _) Hin) in E. by apply negb_false_iff in E.
  - destruct (core_allow_is_may_execute _ _ _ Hc Ha) as (level & Hl & Hm).
    by exists scope, issued, usage, level.
Qed.

Lemma login_session_rows db command plan run now db' :
  insert_login_session db command plan run now = Ok db' ->
  exists sessions, db' = ExecDb.with_sessions db sessions.
Proof.
  assert (Hsame : db = ExecDb.with_sessions db db.(ExecDb.sessions)) by by destruct db.
  unfold insert_login_session. destruct (_.(ExecutePlannedExperimentCommand.ident)) as [i|];
    [|intros [= <-]; eauto].
  destruct (_.(ExecutePlannedExperimentCommand.authentication_profile)) as [p|]; [|intros [= <-]; eauto].
  destruct (_ =? _)%string; [|intros [= <-]; eauto]. intros (r & _ & Hr)%bind_ok.
  unfold insert_session_row in Hr. apply bind_ok in Hr as (sessions & _ & Hr).
  apply raise_if_ok in Hr as [_ [= <-]]. eauto.
Qed.

(** What an allowed execution leaves. *)
Lemma commit_authorization_ok hook seen db context command plan view http d session draws db' a :
  commit_authorization hook seen db context command plan view http d session draws = Ok (db', a) ->
  exists attempt sessions x,
    authorized_attempt context.(LoadedContext.experiment) plan context.(LoadedContext.issued) draws
      = Ok attempt
    /\ db.(ExecDb.experiments) !! context.(LoadedContext.experiment).(ExperimentRecord.experiment_id)
       = Some x
    /\ db' = ExecDb.with_experiments (ExecDb.with_attempts (ExecDb.with_sessions db sessions)
               (db.(ExecDb.attempts) ++ [attempt]))
               (<[context.(LoadedContext.experiment).(ExperimentRecord.experiment_id)
                  := with_execution_state x "READY"]> db.(ExecDb.experiments))
    /\ a.(AuthorizedDispatch.attempt_id) = attempt.(ExecutionAttemptRecord.attempt_id)
    /\ a.(AuthorizedDispatch.experiment_id) = attempt.(ExecutionAttemptRecord.experiment_id)
    /\ a.(AuthorizedDispatch.resolved_secret_values) = session.(SessionBindingDecision.resolved_secrets)
    /\ Forall (fun o => o.(ExecutionAttemptRecord.attempt_id)
                        ≠ attempt.(ExecutionAttemptRecord.attempt_id)) db.(ExecDb.attempts).
Proof.
  unfold commit_authorization. intros (ua & _ & Hc)%bind_ok. apply bind_ok in Hc as (headers & _ & Hc).
  apply bind_ok in Hc as (request & _ & Hc). apply bind_ok in Hc as (u1 & _ & Hc).
  apply bind_ok in Hc as (db1 & [sessions ->]%login_session_rows & Hc).
  apply bind_ok in Hc as (attempt & Hatt & Hc).
  apply bind_ok in Hc as (db2 & [-> Hfresh]%insert_attempt_ok & Hc).
  apply bind_ok in Hc as (db3 & (x & Hx & ->)%set_execution_state_ok & Hc).
  apply bind_ok in Hc as (u2 & _ & Hc). apply bind_ok in Hc as (env & _ & [= <- <-]).
  exists attempt, sessions, x. split_and!; try done.
  - unfold authorized_attempt in Hatt. by apply validated in Hatt as ->.
  - apply Forall_forall. intros o Ho. by apply Hfresh.
Qed.

(** Why an attempt may exist: what was true of the rows the transaction read ([seen]). *)
Record warrant (seen : ExecDb.t) (command : ExecutePlannedExperimentCommand.t) (draws : Draws.t)
    (x : ExperimentRecord.t) (plan : ExperimentPlan.t) (secrets : option (list (string * string)))
    : Prop := {
  wa_experiment : seen.(ExecDb.experiments) !! command.(ExecutePlannedExperimentCommand.experiment_id)
                  = Some x;
  wa_open : x.(ExperimentRecord.execution_state) ∉ TERMINAL_EXPERIMENT_STATES;
  wa_first : forall o, o ∈ seen.(ExecDb.attempts) ->
    o.(ExecutionAttemptRecord.experiment_id) ≠ x.(ExperimentRecord.experiment_id);
  wa_core : exists context view http scope issued usage level,
    context.(LoadedContext.experiment) = x
    /\ load_context seen command = Ok (inl context)
    /\ capability_view_for_plan catalog plan = Ok view
    /\ authorize_http_transaction_plan draws.(Draws.scope_now) plan
         command.(ExecutePlannedExperimentCommand.compiled_scope)
         command.(ExecutePlannedExperimentCommand.program_policy) = Ok http
    /\ core_scope command plan http = Ok scope
    /\ issued_budget_from_record context.(LoadedContext.issued) = Ok issued
    /\ usage_or_ledger command.(ExecutePlannedExperimentCommand.budget_usage) seen
         context.(LoadedContext.issued).(IssuedBudgetRecord.budget_id) = Ok usage
    /\ parse_side_effect_level (LevelInt plan.(ExperimentPlan.side_effect_level)) = Ok level
    /\ may_execute catalog (core_request context command plan view scope issued usage) level;
  wa_scope : plan.(ExperimentPlan.required_capability) ∈ HTTP_SCOPE_CAPABILITIES ->
    recheck_arguments plan = Ok None
    /\ exists compiled raw,
         command.(ExecutePlannedExperimentCommand.compiled_scope) = Some compiled
         /\ plan_url plan = Ok raw
         /\ scope_allows draws.(Draws.scope_now) (normalize_url raw) compiled;
  wa_session : exists session,
    bind_session secret_port seen command plan x.(ExperimentRecord.research_run_id) draws.(Draws.now)
      = Ok session
    /\ session.(SessionBindingDecision.accepted) = true
    /\ session.(SessionBindingDecision.resolved_secrets) = secrets }.

(** What an authorization writes: a plan if there was none, one audit event that says ALLOW, the
    session row of a login, one attempt that names the event, and the state of the experiment. *)
Record written (db db' : ExecDb.t) (x : ExperimentRecord.t) (plan : ExperimentPlan.t)
    (event : AuditEventRecord.t) (attempt : ExecutionAttemptRecord.t) : Prop := {
  wr_rows : exists plans sessions experiments,
    db' = ExecDb.with_experiments (ExecDb.with_attempts (ExecDb.with_sessions (ExecDb.with_audit
            (ExecDb.with_plans db plans) (db.(ExecDb.audit) ++ [event])) sessions)
            (db.(ExecDb.attempts) ++ [attempt])) experiments;
  wr_plan : exists record, db'.(ExecDb.plans) !! x.(ExperimentRecord.experiment_id) = Some record
    /\ experiment_plan_from_record record = Ok plan;
  wr_ready : ExperimentRecord.execution_state
    <$> db'.(ExecDb.experiments) !! x.(ExperimentRecord.experiment_id) = Some "READY";
  wr_fresh : Forall (fun o => o.(ExecutionAttemptRecord.attempt_id)
                              ≠ attempt.(ExecutionAttemptRecord.attempt_id)) db.(ExecDb.attempts);
  wr_event : event.(AuditEventRecord.audit_event_id)
             = attempt.(ExecutionAttemptRecord.authorization_decision_reference)
    /\ event.(AuditEventRecord.subject_id) = x.(ExperimentRecord.experiment_id)
    /\ dict_get "decision" event.(AuditEventRecord.payload) = PStr "ALLOW";
  wr_attempt : attempt.(ExecutionAttemptRecord.state) = "AUTHORIZED"
    /\ attempt.(ExecutionAttemptRecord.experiment_id) = x.(ExperimentRecord.experiment_id)
    /\ attempt.(ExecutionAttemptRecord.research_run_id) = x.(ExperimentRecord.research_run_id)
    /\ attempt.(ExecutionAttemptRecord.worker_capability) = plan.(ExperimentPlan.required_capability)
    /\ attempt.(ExecutionAttemptRecord.action) = plan.(ExperimentPlan.action)
    /\ attempt.(ExecutionAttemptRecord.target_reference) = plan.(ExperimentPlan.target_reference)
    /\ attempt.(ExecutionAttemptRecord.side_effect_level) = plan.(ExperimentPlan.side_effect_level) }.

Lemma load_context_ok seen command context :
  load_context seen command = Ok (inl context) ->
  seen.(ExecDb.experiments) !! command.(ExecutePlannedExperimentCommand.experiment_id)
    = Some context.(LoadedContext.experiment)
  /\ context.(LoadedContext.experiment).(ExperimentRecord.execution_state)
     ∉ TERMINAL_EXPERIMENT_STATES.
Proof.
  unfold load_context. intros (found & Hf%get_row_ok & Hl)%bind_ok.
  destruct found as [x|]; [|done]. cbv zeta in Hl.
  destruct (mem _ TERMINAL_EXPERIMENT_STATES) eqn:Et; [done|]. apply mem_false in Et.
  destruct (negb _); [done|]. destruct (negb _); [done|].
  apply bind_ok in Hl as ([h|] & _ & Hl); [|done]. apply bind_ok in Hl as ([r|] & _ & Hl); [|done].
  apply bind_ok in Hl as ([i|] & _ & Hl); [|done]. apply bind_ok in Hl as (source & _ & Hl).
  apply bind_ok in Hl as (v & _ & [= <-]). done.
Qed.

Lemma ensure_plan_rows seen db x plan created db' b :
  ensure_plan dumps seen db x plan created = Ok (db', b) -> exists plans, db' = ExecDb.with_plans db plans.
Proof.
  assert (Hsame : db = ExecDb.with_plans db db.(ExecDb.plans)) by by destruct db.
  unfold ensure_plan. intros (found & _ & He)%bind_ok. destruct found as [existing|].
  - apply bind_ok in He as (same & _ & [= <- _]). eauto.
  - destruct (_ || _); [injection He as <- _; eauto|]. apply bind_ok in He as (r & _ & He).
    apply bind_ok in He as (db1 & [-> _]%insert_plan_ok & [= <- _]). eauto.
Qed.

Lemma obey_allow hook seen db context command plan view http d session draws db' a :
  obey_decision actor_id hook seen db context command plan view http d session draws
    = Ok (db', inl a) ->
  d.(ExecutionDecision.decision) = ExecutionDecisionKind.ALLOW
  /\ exists event,
       execution_decision_audit (execution_decision_audit_id draws.(Draws.request_id))
         draws.(Draws.now) actor_id context.(LoadedContext.experiment).(ExperimentRecord.experiment_id)
         draws.(Draws.correlation_id) draws.(Draws.request_id) d = Ok event
       /\ commit_authorization hook seen (ExecDb.with_audit db (db.(ExecDb.audit) ++ [event])) context
            command plan view http d session draws = Ok (db', a).
Proof.
  unfold obey_decision. intros (event & He & Ho)%bind_ok.
  apply bind_ok in Ho as (db1 & ->%audit_row_appended & Ho).
  destruct d.(ExecutionDecision.decision) eqn:Ed; [| |done].
  - apply bind_ok in Ho as ([db2 a2] & Hc & [= <- <-]). split; [done|]. by exists event.
  - by apply bind_ok in Ho as (db2 & _ & [= <- _]).
Qed.

Lemma authorize_plan_allow hook seen before db context command plan draws db' a :
  authorize_plan catalog actor_id secret_port hook seen before db context command plan draws
    = Ok (db', inl a) ->
  exists view http d session,
    capability_view_for_plan catalog plan = Ok view
    /\ authorize_http_transaction_plan draws.(Draws.scope_now) plan
         command.(ExecutePlannedExperimentCommand.compiled_scope)
         command.(ExecutePlannedExperimentCommand.program_policy) = Ok http
    /\ decide catalog seen context command plan view http = Ok d
    /\ bind_session secret_port seen command plan
         context.(LoadedContext.experiment).(ExperimentRecord.research_run_id) draws.(Draws.now)
       = Ok session
    /\ obey_decision actor_id hook seen db context command plan view http
         (deny_unbound_session d session) session draws = Ok (db', inl a).
Proof.
  unfold authorize_plan.
  destruct (capability_view_for_plan catalog plan) as [view|[]]; try done.
  intros (http & Hh & Ha)%bind_ok. destruct http.(HttpTransactionScopeDecision.input_rejected); [done|].
  apply bind_ok in Ha as ([[db1 o]|] & _ & Ha); [by apply bind_ok in Ha as (? & _ & ?)|].
  apply bind_ok in Ha as (d & Hd & Ha). apply bind_ok in Ha as (session & Hs & Ha).
  destruct session.(SessionBindingDecision.input_rejected); [done|]. by exists view, http, d, session.
Qed.

Lemma no_attempts_before seen id :
  attempts_for_experiment seen id = Ok [] ->
  forall o, o ∈ seen.(ExecDb.attempts) -> o.(ExecutionAttemptRecord.experiment_id) ≠ id.
Proof.
  unfold attempts_for_experiment. intros (w & _ & [= Hl])%bind_ok o Ho <-.
  assert (o ∈ List.filter (fun a => (a.(ExecutionAttemptRecord.experiment_id)
            =? o.(ExecutionAttemptRecord.experiment_id))%string) seen.(ExecDb.attempts)) as Hin.
  { apply list_elem_of_In, filter_In. split; [by apply list_elem_of_In|]. apply String.eqb_refl. }
  rewrite Hl in Hin. by apply elem_of_nil in Hin.
Qed.

Lemma authorize_ok hook seen db command draws db' a :
  authorize catalog dumps actor_id secret_port hook seen db command draws = Ok (db', inl a) ->
  exists x plan event attempt,
    warrant seen command draws x plan a.(AuthorizedDispatch.resolved_secret_values)
    /\ written db db' x plan event attempt
    /\ a.(AuthorizedDispatch.attempt_id) = attempt.(ExecutionAttemptRecord.attempt_id)
    /\ a.(AuthorizedDispatch.experiment_id) = x.(ExperimentRecord.experiment_id).
Proof.
  unfold authorize. intros ([context|] & Hload & Ha)%bind_ok; [|done].
  destruct (load_context_ok _ _ _ Hload) as [Hx Hopen].
  apply bind_ok in Ha as ([planned b] & [plans ->]%ensure_plan_rows & Ha).
  destruct b; [|done]. cbn [negb] in Ha.
  apply bind_ok in Ha as ([record|] & Hrec%get_row_ok & Ha); [|done].
  apply bind_ok in Ha as (plan & Hplan & Ha). apply bind_ok in Ha as ([|] & Hnone & Ha); [|done].
  apply bind_ok in Ha as (checking & (y & Hy & ->)%set_execution_state_ok & Ha).
  apply authorize_plan_allow in Ha as (view & http & d & session & Hv & Hh & Hd & Hs & Ha).
  apply obey_allow in Ha as (Hallow & event & He & Hc).
  destruct (session_allow _ _ Hallow) as [Hsame Hacc]. rewrite Hsame in He, Hc, Hallow.
  destruct (decide_allow _ _ _ _ _ _ _ Hd Hallow)
    as (Hhttp & scope & issued & usage & level & Hscope & Hissued & Husage & Hlevel & Hmay).
  apply commit_authorization_ok in Hc
    as (attempt & sessions & z & Hatt & Hz & -> & Hid & Hexp & Hsec & Hfresh).
  unfold authorized_attempt in Hatt. apply validated in Hatt.
  exists context.(LoadedContext.experiment), plan, event, attempt.
  split; [|split; [|split; [done|by rewrite Hexp, Hatt]]].
  - split; try done.
    + by apply no_attempts_before.
    + by exists context, view, http, scope, issued, usage, level.
    + intros Hin. destruct (http_plan_decision _ _ _ _ _ Hin Hh (Hhttp Hin))
        as (Hre & compiled & raw & Hcs & Hraw & Hall & _).
      split; [done|]. by exists compiled, raw.
    + exists session. by rewrite Hsec.
  - unfold execution_decision_audit in He. apply validated in He. split.
    + by eexists _, _, _.
    + by exists record.
    + cbn. by rewrite lookup_insert_eq.
    + done.
    + rewrite He, Hatt, Hallow. done.
    + by rewrite Hatt.
Qed.

(** What any other answer leaves: rows of plans, states and the audit, never an attempt. *)
Definition only_notes (db db' : ExecDb.t) : Prop :=
  exists plans experiments events,
    db' = ExecDb.with_experiments (ExecDb.with_audit (ExecDb.with_plans db plans)
            (db.(ExecDb.audit) ++ events)) experiments.

Lemma only_notes_refl db : only_notes db db.
Proof. exists db.(ExecDb.plans), db.(ExecDb.experiments), []. rewrite app_nil_r. by destruct db. Qed.

Lemma only_notes_intro db events experiments :
  only_notes db (ExecDb.with_experiments (ExecDb.with_audit db (db.(ExecDb.audit) ++ events)) experiments).
Proof. exists db.(ExecDb.plans), experiments, events. by destruct db. Qed.

Lemma gate_rows seen db policy x hypothesis draws db' o :
  check_rate_limit_gate actor_id seen db policy x hypothesis draws = Ok (Some (db', o)) ->
  exists event, db' = ExecDb.with_audit db (db.(ExecDb.audit) ++ [event]).
Proof.
  unfold check_rate_limit_gate. destruct (policy ≫= _) as [record|]; [|done].
  intros (profile & _ & Hg)%bind_ok. apply bind_ok in Hg as (attempts & _ & Hg).
  apply bind_ok in Hg as (check & _ & Hg). destruct check.(RateLimitCheck.allowed); [done|].
  apply bind_ok in Hg as (event & _ & Hg).
  apply bind_ok in Hg as (db1 & ->%audit_row_appended & [= <- _]). eauto.
Qed.

Lemma obey_refusal hook seen db context command plan view http d session draws db' o :
  obey_decision actor_id hook seen db context command plan view http d session draws
    = Ok (db', inr o) -> only_notes db db'.
Proof.
  unfold obey_decision. intros (event & _ & Ho)%bind_ok.
  apply bind_ok in Ho as (db1 & ->%audit_row_appended & Ho).
  destruct d.(ExecutionDecision.decision).
  - by apply bind_ok in Ho as ([db2 a2] & _ & [= _ ?]).
  - apply bind_ok in Ho as (db2 & (x & _ & ->)%set_execution_state_ok & [= <- _]).
    apply only_notes_intro.
  - injection Ho as <- _. exists db.(ExecDb.plans), db.(ExecDb.experiments), [event]. by destruct db.
Qed.

Lemma authorize_plan_refusal hook seen before db context command plan draws db' o :
  authorize_plan catalog actor_id secret_port hook seen before db context command plan draws
    = Ok (db', inr o) -> db' = before \/ only_notes db db'.
Proof.
  unfold authorize_plan.
  destruct (capability_view_for_plan catalog plan) as [view|[]]; try done; [|intros [= <- _]; by left].
  intros (http & _ & Ha)%bind_ok.
  destruct http.(HttpTransactionScopeDecision.input_rejected); [injection Ha as <- _; by left|].
  apply bind_ok in Ha as ([[db1 o1]|] & Hg & Ha).
  { apply gate_rows in Hg as [event ->].
    apply bind_ok in Ha as (db2 & (x & _ & ->)%set_execution_state_ok & [= <- _]). right.
    apply only_notes_intro. }
  apply bind_ok in Ha as (d & _ & Ha). apply bind_ok in Ha as (session & _ & Ha).
  destruct session.(SessionBindingDecision.input_rejected); [injection Ha as <- _; by left|].
  right. by eapply obey_refusal.
Qed.

Lemma authorize_refusal hook seen db command draws db' o :
  authorize catalog dumps actor_id secret_port hook seen db command draws = Ok (db', inr o) ->
  only_notes db db'.
Proof.
  unfold authorize. intros ([context|] & _ & Ha)%bind_ok; [|injection Ha as <- _; apply only_notes_refl].
  apply bind_ok in Ha as ([planned b] & [plans ->]%ensure_plan_rows & Ha).
  destruct b; [cbn [negb] in Ha|injection Ha as <- _; apply only_notes_refl].
  apply bind_ok in Ha as ([record|] & _ & Ha); [|injection Ha as <- _; apply only_notes_refl].
  apply bind_ok in Ha as (plan & _ & Ha).
  apply bind_ok in Ha as ([|first rest] & _ & Ha); [|injection Ha as <- _; apply only_notes_refl].
  apply bind_ok in Ha as (checking & (y & _ & ->)%set_execution_state_ok & Ha).
  apply authorize_plan_refusal in Ha as [->|(plans' & experiments & events & ->)];
    [apply only_notes_refl|].
  by exists plans', experiments, events.
Qed.
End authorized.

(** C9. An attempt that a worker may be given is warranted, and only such a one is written: in the
    rows the transaction read its experiment is open and has no attempt, Core allows the plan that
    is bound to it under their source, budget and approval and under the scope that follows from
    the command (for an HTTP plan, from the check of its URL against the compiled scope, which
    allows it); the session is bound, and one audit event that says ALLOW is its reference.  Every
    other answer leaves no attempt.  Nothing is locked: of what was read only the key of the
    attempt is checked again when it is written ([stale_reads_authorize_twice]). *)
Theorem authorized_attempt_is_warranted `{FloatRepr} `{NetlocCheck} `{HostCodec} `{JsonSchema}
    `{ContractSchemas} `{IsoFormat} catalog dumps actor port hook seen db command draws db' answer :
  authorize catalog dumps actor port hook seen db command draws = Ok (db', answer) ->
  match answer with
  | inl a => exists x plan event attempt,
      warrant catalog port seen command draws x plan a.(AuthorizedDispatch.resolved_secret_values)
      /\ written db db' x plan event attempt
      /\ a.(AuthorizedDispatch.attempt_id) = attempt.(ExecutionAttemptRecord.attempt_id)
      /\ a.(AuthorizedDispatch.experiment_id) = x.(ExperimentRecord.experiment_id)
  | inr _ => only_notes db db'
  end.
Proof. destruct answer; [apply authorize_ok|apply authorize_refusal]. Qed.

(** ** Examples *)

Module AuthorizeSample.
Definition registry : CapabilityRegistry.t :=
  {[ HTTP_AUTHORIZATION_DIFFERENTIAL_CAPABILITY :=
     CapabilityDefinition.mk HTTP_AUTHORIZATION_DIFFERENTIAL_CAPABILITY "1" "impl" "WORKER"
       [("probe", CapabilityActionDefinition.mk "probe" [] [] 0 1 ["url"] None [] true true None)] "fp" ]}.
Definition start : Z := 1000000000.
Definition plan : ExperimentPlan.t :=
  ExperimentPlan.mk "h-1" HTTP_AUTHORIZATION_DIFFERENTIAL_CAPABILITY "probe" "https://app.example.com"
    0 [("authorized_origin", PStr "https://app.example.com/"); ("path", PStr "/api/v1")]
    "b-1" "seen" "unseen" "http.authorization.differential.v1" (Some "1") (Some "fp").
Definition db : ExecDb.t :=
  ExecDb.mk {["e-1" := ExperimentRecord.mk "e-1" "run-1" "h-1" "b-1" "PLANNED" 0;
              "e-2" := ExperimentRecord.mk "e-2" "run-1" "h-1" "b-1" "PLANNED" 0]} ∅
    {["h-1" := HypothesisRecord.mk "h-1" "run-1" "claim" 0 None None]}
    {["run-1" := ResearchRunRecord.mk "run-1" "prog" "src" "a-1" "HUMAN_OPERATOR" 0]}
    {["src" := AuthorizationSourceRecord.mk "src" "prog" "ACTIVE" "doc" 0 (Some (start + 10)) (Some (start + 20))]}
    {["prog" := ProgramPolicyRecord.mk "prog" false 1000 1000 0 0
                  (Some [("required_user_agent", PStr " zest "); 
                         ("required_headers", PDict [("X-Bounty", PStr "42")])]) None]}
    [] [] ∅ ∅ [] []
    (Ledger.Db.mk {["b-1" := IssuedBudgetRecord.mk "b-1" (Some "run-1") 1 5 1000 1 0]} ∅ []).
Definition one_per_minute : ProgramPolicyView.t :=
  ProgramPolicyView.mk false 0 0 [] (Some (RateLimitProfileRecord.mk "rl-1" "prog" 1 60 0)).
Definition command (id : string) (policy : option ProgramPolicyView.t)
    : ExecutePlannedExperimentCommand.t :=
  ExecutePlannedExperimentCommand.mk id plan (ScopeEvaluationInput.mk [] false) None None
    (Some sample_scope) policy None None None.
Definition draws (now : Z) (request : string) : Draws.t :=
  Draws.mk (start + now) (start + now) (start + now) request "c-1" (request +:+ "-denied").
Definition any_iso : IsoFormat := fun _ => "later".
Definition run (seen db : ExecDb.t) (id : string) (policy : option ProgramPolicyView.t) (now : Z)
    (request : string) : result (ExecDb.t * (AuthorizedDispatch.t + ResearchLoopOutcome.t)) :=
  @authorize no_floats any_netloc no_codec (fun _ _ => None) Ingest.Sample.any_schema any_iso registry
    (fun _ => "") "cp" None None seen db (command id policy) (draws now request).
Definition status (answer : AuthorizedDispatch.t + ResearchLoopOutcome.t) : option ResearchLoopStatus.t :=
  match answer with inl _ => None | inr o => Some o.(ResearchLoopOutcome.status) end.
Definition attempts_of_experiments (db : ExecDb.t) : list (string * string) :=
  (fun a => (a.(ExecutionAttemptRecord.experiment_id), a.(ExecutionAttemptRecord.state)))
    <$> db.(ExecDb.attempts).
End AuthorizeSample.
Import AuthorizeSample.

(** The database after one authorization inside the window of the source. *)
Definition authorized_once : ExecDb.t :=
  match run db db "e-1" (Some one_per_minute) 15 "q-1" with Ok (d, _) => d | Raise _ => db end.

(** The request carries the headers of the program and the envelope of the decision. *)
Example request_of_the_worker :
  (answer ← run db db "e-1" (Some one_per_minute) 15 "q-1";
   match answer.2 with
   | inl a => Ok (dict_get "arguments" a.(AuthorizedDispatch.worker_request),
                  bool_decide (is_Some a.(AuthorizedDispatch.network_envelope)),
                  attempts_of_experiments answer.1)
   | inr _ => Raise ValueError
   end)
  = Ok (PDict [ ("authorized_origin", PStr "https://app.example.com/"); ("path", PStr "/api/v1");
                ("headers", PDict [("User-Agent", PStr "zest"); ("X-Bounty", PStr "42")]) ], true,
        [("e-1", "AUTHORIZED")]).
Proof. vm_compute. reflexivity. Qed.

(** Nothing asks whether the authorization is in force now: the source is so from the tenth to the
    twentieth moment, and the experiment is authorized at the hundredth as at the fifteenth. *)
Example authorization_window_is_not_asked :
  (answer ← run db db "e-1" None 100 "q-1"; Ok (status answer.2)) = Ok None.
Proof. vm_compute. reflexivity. Qed.

(** A limit of one request a minute refuses the second experiment of the run; two minutes later the
    limit would allow it, but the experiment is terminal. *)
Example rate_limit_refusal_is_final :
  (second ← run authorized_once authorized_once "e-2" (Some one_per_minute) 16 "q-2";
   later ← run second.1 second.1 "e-2" (Some one_per_minute) 200000000 "q-3";
   fresh ← run authorized_once authorized_once "e-2" (Some one_per_minute) 200000000 "q-3";
   Ok (status second.2, status later.2, status fresh.2))
  = Ok (Some ResearchLoopStatus.DISPATCH_DENIED, Some ResearchLoopStatus.ALREADY_TERMINAL, None).
Proof. vm_compute. reflexivity. Qed.

(** A command without the policy of the program is not limited at all. *)
Example no_policy_is_no_limit :
  (second ← run authorized_once authorized_once "e-2" None 16 "q-2"; Ok (status second.2)) = Ok None.
Proof. vm_compute. reflexivity. Qed.

(** The database with the plan stored beforehand, as the preparation of an experiment leaves it. *)
Definition planned : ExecDb.t :=
  match (record ← experiment_plan_record_for (ExperimentRecord.mk "e-1" "run-1" "h-1" "b-1" "PLANNED" 0)
                    plan 0; insert_plan db record) with Ok d => d | Raise _ => db end.

Definition planned_once : ExecDb.t :=
  match run planned planned "e-1" None 15 "q-1" with Ok (d, _) => d | Raise _ => db end.

(** Two transactions that both read before either writes leave two attempts of one experiment... *)
Example stale_reads_authorize_twice :
  (second ← run planned planned_once "e-1" None 16 "q-2"; Ok (attempts_of_experiments second.1))
  = Ok [("e-1", "AUTHORIZED"); ("e-1", "AUTHORIZED")].
Proof. vm_compute. reflexivity. Qed.

(** ...unless both store the plan as well: its key makes the second one fail. *)
Example stale_reads_conflict_on_a_new_plan :
  run db authorized_once "e-1" None 16 "q-2" = Raise PersistenceConflictError.
Proof. vm_compute. reflexivity. Qed.

(** The second transaction finds the attempt of the first. *)
Example second_authorization_is_refused :
  (second ← run authorized_once authorized_once "e-1" None 16 "q-2";
   Ok (status second.2, attempts_of_experiments second.1))
  = Ok (Some ResearchLoopStatus.AUTHORIZED_NOT_DISPATCHED, [("e-1", "AUTHORIZED")]).
Proof. vm_compute. reflexivity. Qed.

Lemma authorized_attempt_is_warranted_witness :
  exists a x plan event attempt,
    (run db db "e-1" (Some one_per_minute) 15 "q-1") = Ok (authorized_once, inl a)
    /\ @warrant no_floats any_netloc no_codec (fun _ _ => None) registry None db
         (command "e-1" (Some one_per_minute)) (draws 15 "q-1") x plan
         a.(AuthorizedDispatch.resolved_secret_values)
    /\ written db authorized_once x plan event attempt.
Proof.
  destruct (run db db "e-1" (Some one_per_minute) 15 "q-1") as [[db' [a|o]]|] eqn:E;
    [|exfalso; vm_compute in E; discriminate E..].
  assert (Hdb : db' = authorized_once) by (unfold authorized_once; by rewrite E).
  pose proof E as Hw. unfold run in Hw.
  apply authorized_attempt_is_warranted in Hw as (x & plan & event & attempt & Hw & Hr & _).
  exists a, x, plan, event, attempt. rewrite <-Hdb. split; [reflexivity|]. by split.
Defined.
