(* ===== verification/Dispatch.v ===== *)
(** * Dispatching an authorized experiment

    The transactions of [application/execute_planned_experiment.py] around the call of the worker,
    the fault of [application/observability.py] an unfinished call leaves, and the use case that
    composes them: an attempt goes from AUTHORIZED to DISPATCHING with its budget reserved, the
    worker is invoked once, the outcome is recorded, the result is ingested.

    [step] is one transaction of any process on the common database; [invoked] are the attempts a
    worker was called for.  Nothing is locked but the ledger: a transaction that reads before it
    writes is given the database it read ([seen]) and the one it writes to ([db]). *)
From S2P Require Import Prelude CoreTypes CorePolicy Capability Scope PyVal PyText PyUrl Records FindingRecords EvidenceRecords HuntRecords Ledger HttpPolicy Compiler Planning Evaluators Envelope Session Redirect ExecDb Ingest Authorize.

(** ** [application/observability.py] *)

(** [a or b or c] of texts. *)
Definition first_text (texts : list (option string)) (otherwise : string) : string :=
  match omap (fun s => match s with Some s => if Str.is_empty s then None else Some s
                                  | None => None end) texts with
  | s :: _ => s
  | [] => otherwise
  end.

(** [application/observability.py:73-102 run_fault_for_invocation] *)
Definition run_fault_for_invocation `{DiagnosticRedaction} (attempt : ExecutionAttemptRecord.t)
    (outcome : WorkerInvocationOutcome.t) (occurred_at : Z) (hypothesis_id : option string)
    : result (option RunFaultRecord.t) :=
  let status := outcome.(WorkerInvocationOutcome.invocation_status) in
  let name := InvocationStatus.value status in
  if bool_decide (status = InvocationStatus.COMPLETED)
     && bool_decide (is_Some outcome.(WorkerInvocationOutcome.worker_result))
  then Ok None
  else
    fault ← RunFaultRecord.post_init
      (RunFaultRecord.mk
         ("rf:attempt:" +:+ attempt.(ExecutionAttemptRecord.attempt_id) +:+ ":" +:+ Str.lower name)
         attempt.(ExecutionAttemptRecord.research_run_id) "EXECUTION" "INVOCATION" "EXECUTION"
         ("INVOCATION_" +:+ name) false occurred_at
         (first_text [outcome.(WorkerInvocationOutcome.reason);
                      Some outcome.(WorkerInvocationOutcome.stderr_diagnostics)] name)
         hypothesis_id (Some attempt.(ExecutionAttemptRecord.experiment_id))
         (Some attempt.(ExecutionAttemptRecord.attempt_id))
         (Some attempt.(ExecutionAttemptRecord.request_id))
         (Some attempt.(ExecutionAttemptRecord.worker_capability))
         (Some attempt.(ExecutionAttemptRecord.action)) None
         (Some attempt.(ExecutionAttemptRecord.correlation_id)) None);
    Ok (Some fault).

(** ** The budget of a dispatch *)

(** [tools/browser_page_policy.py:12 BROWSER_PAGE_MAX_NETWORK_REQUESTS] *)
Definition BROWSER_PAGE_MAX_NETWORK_REQUESTS : Z := 16.

(** [application/execute_planned_experiment.py:1280-1297 _request_consumption_amount] *)
Definition request_consumption_amount (db : ExecDb.t) (attempt : ExecutionAttemptRecord.t)
    (issued : IssuedBudgetRecord.t) : result Z :=
  let capability := attempt.(ExecutionAttemptRecord.worker_capability) in
  if (capability =? HTTP_RAW_EXCHANGE_CAPABILITY)%string
  then
    plan ← get_row db.(ExecDb.plans) attempt.(ExecutionAttemptRecord.experiment_id);
    Ok (match plan with
        | Some p => if eq_str (dict_get "framing_profile" p.(ExperimentPlanRecord.arguments))
                         "http1_connection_reuse" then 2 else 1
        | None => 1
        end)
  else if negb (capability =? BROWSER_PAGE_CAPABILITY)%string then Ok 1
  else
    rows ← list_for_budget db.(ExecDb.ledger) issued.(IssuedBudgetRecord.budget_id);
    usage ← usage_from_consumptions rows;
    remaining ← remaining_for_resource issued usage "REQUEST";
    raise_if remaining <? 1 as BudgetOverspendError;;
    Ok (Z.min remaining BROWSER_PAGE_MAX_NETWORK_REQUESTS).

(** One row of the ledger, if the allowance has room for it. *)
Definition consume (db : ExecDb.t) (attempt : ExecutionAttemptRecord.t) (issued : IssuedBudgetRecord.t)
    (consumption_id resource_type : string) (amount occurred_at : Z) : result ExecDb.t :=
  row ← BudgetConsumptionRecord.post_init
    (BudgetConsumptionRecord.mk consumption_id issued.(IssuedBudgetRecord.budget_id)
       (Some attempt.(ExecutionAttemptRecord.research_run_id)) resource_type amount "count" occurred_at
       "execute_planned_experiment.dispatch" (Some attempt.(ExecutionAttemptRecord.experiment_id))
       (Some attempt.(ExecutionAttemptRecord.request_id)) None);
  ledger ← insert_within_allowance db.(ExecDb.ledger) row;
  Ok (ExecDb.with_ledger db ledger).

(** [application/execute_planned_experiment.py:1300-1326 _record_dispatch_consumption] *)
Definition record_dispatch_consumption (db : ExecDb.t) (attempt : ExecutionAttemptRecord.t)
    (issued : IssuedBudgetRecord.t) (consumption_ids : string * string) (occurred_at request_amount : Z)
    : result ExecDb.t :=
  db ← consume db attempt issued consumption_ids.1 "WORKER_INVOCATION" 1 occurred_at;
  consume db attempt issued consumption_ids.2 "REQUEST" request_amount occurred_at.

(** ** The transaction before the call *)

(** [application/execute_planned_experiment.py:622-645 ExecutePlannedExperiment._mark_unknown] *)
Definition mark_unknown (db : ExecDb.t) (experiment : ExperimentRecord.t)
    (attempt : ExecutionAttemptRecord.t) (hypothesis_id : string) (now : Z)
    : result (ExecDb.t * ResearchLoopOutcome.t) :=
  db ← set_attempt_state db attempt.(ExecutionAttemptRecord.attempt_id) "UNKNOWN_OUTCOME" None
         (Some now) None;
  Ok (db, ResearchLoopOutcome.mk ResearchLoopStatus.UNKNOWN_OUTCOME hypothesis_id
            experiment.(ExperimentRecord.experiment_id) experiment.(ExperimentRecord.execution_state)
            None None (Some attempt.(ExecutionAttemptRecord.authorization_decision_reference))
            (Some attempt.(ExecutionAttemptRecord.request_id))
            (Some attempt.(ExecutionAttemptRecord.attempt_id)) (Some "UNKNOWN_OUTCOME") None None []
            None true None None).

(** [ResearchLoopOutcome(...)] of a dispatch that does not take place.
    [application/execute_planned_experiment.py:516-525 ExecutePlannedExperiment.dispatch] *)
Definition not_dispatched (status : ResearchLoopStatus.t) (a : AuthorizedDispatch.t) (state : string)
    (attempt_state : option string) (reason : option ReasonCode.t) : ResearchLoopOutcome.t :=
  ResearchLoopOutcome.mk status a.(AuthorizedDispatch.hypothesis_id) a.(AuthorizedDispatch.experiment_id)
    state None reason None (Some a.(AuthorizedDispatch.request_id))
    (Some a.(AuthorizedDispatch.attempt_id)) attempt_state None None [] None true None None.

(** The rows of a dispatch: both states, and the budget.
    [application/execute_planned_experiment.py:541-555 ExecutePlannedExperiment.dispatch] *)
Definition reserve (seen db : ExecDb.t) (attempt : ExecutionAttemptRecord.t)
    (experiment : ExperimentRecord.t) (issued : IssuedBudgetRecord.t) (consumption_ids : string * string)
    (now : Z) : result (ExecDb.t * Z) :=
  db ← set_attempt_state db attempt.(ExecutionAttemptRecord.attempt_id) "DISPATCHING" (Some now) None None;
  db ← set_execution_state db experiment.(ExperimentRecord.experiment_id) "RUNNING";
  amount ← request_consumption_amount seen attempt issued;
  db ← record_dispatch_consumption db attempt issued consumption_ids now amount;
  Ok (db, amount).

(** The left answer is the call that follows: the number of requests reserved, and the capability.
    [application/execute_planned_experiment.py:510-569 ExecutePlannedExperiment.dispatch] *)
Definition begin_dispatch (seen db : ExecDb.t) (a : AuthorizedDispatch.t)
    (consumption_ids : string * string) (now unknown_now : Z)
    : result (ExecDb.t * ((Z * string) + ResearchLoopOutcome.t)) :=
  attempt ← get_attempt seen a.(AuthorizedDispatch.attempt_id);
  experiment ← get_row seen.(ExecDb.experiments) a.(AuthorizedDispatch.experiment_id);
  match attempt, experiment with
  | Some attempt, Some x =>
      if negb (attempt.(ExecutionAttemptRecord.state) =? "AUTHORIZED")%string
      then
        if (attempt.(ExecutionAttemptRecord.state) =? "DISPATCHING")%string
        then marked ← mark_unknown db x attempt a.(AuthorizedDispatch.hypothesis_id) unknown_now;
             Ok (marked.1, inr marked.2)
        else Ok (db, inr (outcome_for_existing x a.(AuthorizedDispatch.hypothesis_id) attempt))
      else
      issued ← get_row seen.(ExecDb.ledger).(Ledger.Db.issued) attempt.(ExecutionAttemptRecord.budget_id);
      match issued with
      | None => Ok (db, inr (not_dispatched ResearchLoopStatus.INPUT_REJECTED a
                               x.(ExperimentRecord.execution_state) None None))
      | Some issued =>
          match reserve seen db attempt x issued consumption_ids now with
          | Ok (db, amount) => Ok (db, inl (amount, attempt.(ExecutionAttemptRecord.worker_capability)))
          | Raise BudgetOverspendError =>
              Ok (db, inr (not_dispatched ResearchLoopStatus.DISPATCH_DENIED a "BUDGET_EXHAUSTED"
                             (Some "AUTHORIZED") (Some ReasonCode.BUDGET_EXHAUSTED)))
          | Raise e => Raise e
          end
      end
  | _, _ =>
      Ok (db, inr (not_dispatched ResearchLoopStatus.INPUT_REJECTED a
                     (match experiment with Some x => x.(ExperimentRecord.execution_state)
                                          | None => "MISSING" end) None None))
  end.

(** [application/execute_planned_experiment.py:1019-1032 _request_with_resolved_secrets] *)
Definition request_with_resolved_secrets (request : list (string * pyval))
    (values : option (list (string * string))) (max_attempted_requests : option Z)
    : list (string * pyval) :=
  let request := match values with
                 | None | Some [] => request
                 | Some l => dict_put "resolved_secret_values" (PDict ((fun p => (p.1, PStr p.2)) <$> l))
                               request
                 end in
  match max_attempted_requests with
  | Some n => dict_put "max_attempted_requests" (PInt n) request
  | None => request
  end.

(** What the worker is called with.
    [application/execute_planned_experiment.py:570-579 ExecutePlannedExperiment.dispatch] *)
Definition invocation_request (a : AuthorizedDispatch.t) (amount : Z) (capability : string)
    : list (string * pyval) :=
  request_with_resolved_secrets a.(AuthorizedDispatch.worker_request)
    a.(AuthorizedDispatch.resolved_secret_values)
    (if (capability =? BROWSER_PAGE_CAPABILITY)%string then Some amount else None).

(** ** After the call *)

(** [application/execute_planned_experiment.py:1219-1269 _classify_invocation] *)
Definition classify_invocation (invocation : WorkerInvocationOutcome.t)
    : string * string * ResearchLoopStatus.t :=
  match invocation.(WorkerInvocationOutcome.invocation_status) with
  | InvocationStatus.COMPLETED =>
      let status := dict_get "status" (default [] invocation.(WorkerInvocationOutcome.worker_result)) in
      if eq_str status "REAUTHORIZATION_REQUIRED"
      then ("COMPLETED", "AUTHORIZATION_CHECK", ResearchLoopStatus.REAUTHORIZATION_REQUIRED)
      else if eq_str status "BUDGET_EXHAUSTED"
      then ("COMPLETED", "BUDGET_EXHAUSTED", ResearchLoopStatus.DISPATCH_DENIED)
      else if eq_str status "BLOCKED"
      then ("COMPLETED", "BLOCKED", ResearchLoopStatus.NO_OBSERVATION)
      else ("COMPLETED", "EXECUTION_SUCCEEDED", ResearchLoopStatus.NO_OBSERVATION)
  | InvocationStatus.TIMED_OUT => ("TIMED_OUT", "EXECUTION_FAILED", ResearchLoopStatus.INVOCATION_FAILED)
  | InvocationStatus.CANCELLED => ("CANCELLED", "CANCELLED", ResearchLoopStatus.INVOCATION_FAILED)
  | InvocationStatus.START_FAILED | InvocationStatus.PROCESS_FAILED
  | InvocationStatus.PROTOCOL_ERROR | InvocationStatus.CONTRACT_INVALID =>
      ("FAILED", "EXECUTION_FAILED", ResearchLoopStatus.INVOCATION_FAILED)
  end.

(** The subclasses of [PersistenceError]. *)
Definition is_persistence_error (e : exn) : bool :=
  match e with
  | PersistenceError | PersistenceInputError | BudgetOverspendError
  | TerminalOrchestrationStateError | LeaseFencingError | PersistenceConflictError => true
  | _ => false
  end.

(** The contact the worker claims, if it is one of the three.
    [application/execute_planned_experiment.py:654-656 ExecutePlannedExperiment._record_outcome] *)
Definition contact_status (invocation : WorkerInvocationOutcome.t) : string :=
  let claimed := invocation.(WorkerInvocationOutcome.target_contact_status) in
  if mem claimed ALLOWED_TARGET_CONTACT_STATUSES then claimed else "UNKNOWN".

Section outcome.
Context `{DiagnosticRedaction} `{FloatRepr} `{NetlocCheck} `{HostCodec}.

(** The fault is inserted unless it is there.  *)
Definition insert_new_fault (db : ExecDb.t) (fault : option RunFaultRecord.t) : result ExecDb.t :=
  match fault with
  | None => Ok db
  | Some fault =>
      existing ← get_row db.(ExecDb.faults) fault.(RunFaultRecord.fault_id);
      match existing with Some _ => Ok db | None => insert_fault db fault end
  end.

(** The first transaction of an outcome.
    [application/execute_planned_experiment.py:659-682 ExecutePlannedExperiment._record_outcome] *)
Definition settle (seen db : ExecDb.t) (a : AuthorizedDispatch.t) (invocation : WorkerInvocationOutcome.t)
    (now : Z) : result ExecDb.t :=
  let '(attempt_state, experiment_state, _) := classify_invocation invocation in
  attempt ← get_attempt seen a.(AuthorizedDispatch.attempt_id);
  match attempt with
  | None => Raise PersistenceError
  | Some attempt =>
      db ← set_attempt_state db a.(AuthorizedDispatch.attempt_id) attempt_state None (Some now)
             (Some (contact_status invocation));
      db ← set_execution_state db a.(AuthorizedDispatch.experiment_id) experiment_state;
      fault ← run_fault_for_invocation attempt invocation now (Some a.(AuthorizedDispatch.hypothesis_id));
      insert_new_fault db fault
  end.

(** The transaction of a result that is refused: [reason] is the one of the ingestion.
    [application/execute_planned_experiment.py:694-728 ExecutePlannedExperiment._record_outcome] *)
Definition settle_rejected (db : ExecDb.t) (a : AuthorizedDispatch.t) (attempt : ExecutionAttemptRecord.t)
    (invocation : WorkerInvocationOutcome.t) (reason : option string) (now : Z) : result ExecDb.t :=
  db ← set_attempt_state db a.(AuthorizedDispatch.attempt_id) "FAILED" None (Some now) None;
  db ← set_execution_state db a.(AuthorizedDispatch.experiment_id) "EXECUTION_FAILED";
  existing ← get_row db.(ExecDb.faults)
               ("rf:attempt:" +:+ a.(AuthorizedDispatch.attempt_id) +:+ ":contract_invalid");
  match existing with
  | Some _ => Ok db
  | None =>
      fault ← run_fault_for_invocation attempt
        (WorkerInvocationOutcome.mk InvocationStatus.CONTRACT_INVALID
           invocation.(WorkerInvocationOutcome.started_at)
           invocation.(WorkerInvocationOutcome.completed_at) None None "" false
           (Some (first_text [reason] "worker result rejected")) (contact_status invocation))
        now (Some a.(AuthorizedDispatch.hypothesis_id));
      match fault with Some f => insert_fault db f | None => Raise AttributeError end
  end.

(** The states a recorded outcome ends in, with the ingestion where there was one.
    [application/execute_planned_experiment.py:737-763 ExecutePlannedExperiment._record_outcome] *)
Definition loop_outcome (a : AuthorizedDispatch.t) (invocation : WorkerInvocationOutcome.t)
    (attempt_state experiment_state : string) (status : ResearchLoopStatus.t)
    (ingestion : option IngestionOutcome.t) : ResearchLoopOutcome.t :=
  let request :=
    if bool_decide (status = ResearchLoopStatus.REAUTHORIZATION_REQUIRED)
    then reauthorization_request_from_worker_result a.(AuthorizedDispatch.worker_request)
           <$> invocation.(WorkerInvocationOutcome.worker_result)
    else None in
  ResearchLoopOutcome.mk status a.(AuthorizedDispatch.hypothesis_id) a.(AuthorizedDispatch.experiment_id)
    experiment_state (Some a.(AuthorizedDispatch.core_decision))
    (Some a.(AuthorizedDispatch.core_reason_code))
    (Some a.(AuthorizedDispatch.authorization_decision_reference))
    (Some a.(AuthorizedDispatch.request_id)) (Some a.(AuthorizedDispatch.attempt_id))
    (Some attempt_state) (Some invocation.(WorkerInvocationOutcome.invocation_status))
    (ingestion ≫= IngestionOutcome.worker_result_id)
    (match ingestion with Some i => i.(IngestionOutcome.observation_ids) | None => [] end)
    (IngestionOutcome.status <$> ingestion) true request a.(AuthorizedDispatch.network_envelope).

Context `{ContractSchemas} `{IsoTimestamps} `{Normalizers} `{ExceptionText}.
Context (actor_id : string) (has_port : bool).

(** What is left of a use case: the tables, the secrets, and the answer or the exception; the
    transactions that were committed stay. *)
Definition run_of (A : Type) : Type := ExecDb.t * InMemorySecretStore.t * result A.

(** The ingestion and what follows from its answer.
    [application/execute_planned_experiment.py:688-737 ExecutePlannedExperiment._record_outcome] *)
Definition ingest_settled (db : ExecDb.t) (store : InMemorySecretStore.t) (a : AuthorizedDispatch.t)
    (attempt : ExecutionAttemptRecord.t) (invocation : WorkerInvocationOutcome.t)
    (now received created : Z) : run_of ResearchLoopOutcome.t :=
  let '(attempt_state, experiment_state, status) := classify_invocation invocation in
  match ingest db db store has_port actor_id received created a.(AuthorizedDispatch.worker_request)
          invocation with
  | (Raise e, store) => (db, store, Raise e)
  | (Ok (db, ingestion), store) =>
      match ingestion.(IngestionOutcome.status) with
      | IngestionStatus.REJECTED_INVALID_INVOCATION =>
          match settle_rejected db a attempt invocation ingestion.(IngestionOutcome.reason) now with
          | Raise e => (db, store, Raise e)
          | Ok db => (db, store, Ok (loop_outcome a invocation "FAILED" "EXECUTION_FAILED"
                                       ResearchLoopStatus.INVOCATION_FAILED (Some ingestion)))
          end
      | IngestionStatus.NO_OBSERVATION =>
          let status :=
            if bool_decide (status = ResearchLoopStatus.REAUTHORIZATION_REQUIRED) then status
            else ResearchLoopStatus.NO_OBSERVATION in
          (db, store, Ok (loop_outcome a invocation attempt_state experiment_state status
                            (Some ingestion)))
      | IngestionStatus.INGESTED | IngestionStatus.ALREADY_INGESTED =>
          (db, store, Ok (loop_outcome a invocation attempt_state experiment_state
                            ResearchLoopStatus.OBSERVATION_PRODUCED (Some ingestion)))
      end
  end.

(** [application/execute_planned_experiment.py:647-763 ExecutePlannedExperiment._record_outcome] *)
Definition record_outcome (db : ExecDb.t) (store : InMemorySecretStore.t) (a : AuthorizedDispatch.t)
    (invocation : WorkerInvocationOutcome.t) (now received created : Z)
    : run_of ResearchLoopOutcome.t :=
  let '(attempt_state, experiment_state, status) := classify_invocation invocation in
  match settle db db a invocation now with
  | Raise e =>
      if is_persistence_error e
      then (db, store, Ok (loop_outcome a invocation "DISPATCHING" "RUNNING"
                             ResearchLoopStatus.INVOCATION_FAILED None))
      else (db, store, Raise e)
  | Ok settled =>
      match invocation.(WorkerInvocationOutcome.invocation_status),
            invocation.(WorkerInvocationOutcome.worker_result),
            get_attempt db a.(AuthorizedDispatch.attempt_id) with
      | InvocationStatus.COMPLETED, Some _, Ok (Some attempt) =>
          ingest_settled settled store a attempt invocation now received created
      | _, _, _ =>
          (settled, store, Ok (loop_outcome a invocation attempt_state experiment_state status None))
      end
  end.

(** ** The use case *)

(** [application/execute_planned_experiment.py:582-620 ExecutePlannedExperiment._fail_closed_existing] *)
Definition fail_closed_existing (seen db : ExecDb.t) (experiment_id : string) (now : Z)
    : result (ExecDb.t * option ResearchLoopOutcome.t) :=
  found ← get_row seen.(ExecDb.experiments) experiment_id;
  match found with
  | None => Ok (db, Some (refusal ResearchLoopStatus.INPUT_REJECTED "" experiment_id "MISSING"
                            None None None))
  | Some x =>
  let hypothesis_id := x.(ExperimentRecord.hypothesis_id) in
  let state := x.(ExperimentRecord.execution_state) in
  attempts ← attempts_for_experiment seen experiment_id;
  match attempts with
  | [] =>
      Ok (db, if mem state TERMINAL_EXPERIMENT_STATES
              then Some (refusal ResearchLoopStatus.ALREADY_TERMINAL hypothesis_id
                           x.(ExperimentRecord.experiment_id) state None None None)
              else None)
  | attempt :: _ =>
      if (attempt.(ExecutionAttemptRecord.state) =? "DISPATCHING")%string
      then marked ← mark_unknown db x attempt hypothesis_id now; Ok (marked.1, Some marked.2)
      else
      results ← results_for_experiment seen experiment_id;
      if (attempt.(ExecutionAttemptRecord.state) =? "COMPLETED")%string
         && existsb (fun r => (r.(WorkerResultRecord.status) =? "REAUTHORIZATION_REQUIRED")%string)
              results
      then Ok (db, Some (ResearchLoopOutcome.mk ResearchLoopStatus.REAUTHORIZATION_REQUIRED
             hypothesis_id x.(ExperimentRecord.experiment_id) state None None
             (Some attempt.(ExecutionAttemptRecord.authorization_decision_reference))
             (Some attempt.(ExecutionAttemptRecord.request_id))
             (Some attempt.(ExecutionAttemptRecord.attempt_id))
             (Some attempt.(ExecutionAttemptRecord.state)) None None [] None true None None))
      else Ok (db, Some (outcome_for_existing x hypothesis_id attempt))
  end
  end.

Context `{JsonSchema} `{IsoFormat}.
Context (catalog : CapabilityRegistry.t) (dumps : pyval -> string) (secret_port : option SecretPort).

(** What the worker answers a request within a time: the port is no code of this repository's
    control plane. *)
Context (invoke : list (string * pyval) -> Z -> WorkerInvocationOutcome.t).

(** The readings of the clock and the ids after the authorization. *)
Definition after_draws : Type := (string * string) * (Z * Z) * (Z * Z * Z).

(** [application/execute_planned_experiment.py:510-580 ExecutePlannedExperiment.dispatch] *)
Definition dispatch (db : ExecDb.t) (store : InMemorySecretStore.t) (a : AuthorizedDispatch.t)
    (draws : after_draws) : run_of ResearchLoopOutcome.t :=
  let '(consumption_ids, (now, unknown_now), (settled_at, received, created)) := draws in
  match begin_dispatch db db a consumption_ids now unknown_now with
  | Raise e => (db, store, Raise e)
  | Ok (db, inr outcome) => (db, store, Ok outcome)
  | Ok (db, inl (amount, capability)) =>
      record_outcome db store a
        (invoke (invocation_request a amount capability) a.(AuthorizedDispatch.timeout_ms))
        settled_at received created
  end.

(** [application/execute_planned_experiment.py:203-215 ExecutePlannedExperiment.execute] *)
Definition execute (hook : option (string -> string -> result unit)) (db : ExecDb.t)
    (store : InMemorySecretStore.t) (command : ExecutePlannedExperimentCommand.t)
    (existing_now : Z) (draws : Draws.t) (after : after_draws) : run_of ResearchLoopOutcome.t :=
  match fail_closed_existing db db command.(ExecutePlannedExperimentCommand.experiment_id) existing_now with
  | Raise e => (db, store, Raise e)
  | Ok (db, Some outcome) => (db, store, Ok outcome)
  | Ok (db, None) =>
      match authorize catalog dumps actor_id secret_port hook db db command draws with
      | Raise e => (db, store, Raise e)
      | Ok (db, inr outcome) => (db, store, Ok outcome)
      | Ok (db, inl a) => dispatch db store a after
      end
  end.
End outcome.

(** ** What an operation does to the attempts *)

(** The attempts keep their ids and their experiments, and none is authorized again. *)
Definition attempt_step (a a' : ExecutionAttemptRecord.t) : Prop :=
  a'.(ExecutionAttemptRecord.attempt_id) = a.(ExecutionAttemptRecord.attempt_id)
  /\ a'.(ExecutionAttemptRecord.experiment_id) = a.(ExecutionAttemptRecord.experiment_id)
  /\ (a'.(ExecutionAttemptRecord.state) = "AUTHORIZED" -> a.(ExecutionAttemptRecord.state) = "AUTHORIZED").

Definition attempts_kept (db db' : ExecDb.t) : Prop :=
  Forall2 attempt_step db.(ExecDb.attempts) db'.(ExecDb.attempts).

#[global] Instance attempt_step_preorder : PreOrder attempt_step.
Proof. split; [by intros a|]. intros a b c (Hi & He & Ha) (Hi' & He' & Ha'). split_and!; [congruence..|auto]. Qed.

#[global] Instance attempts_kept_preorder : PreOrder attempts_kept.
Proof. split; [by intros a; unfold attempts_kept|]. intros a b c Hab Hbc. unfold attempts_kept in *. by etrans. Qed.

Lemma same_attempts_kept db db' : db'.(ExecDb.attempts) = db.(ExecDb.attempts) -> attempts_kept db db'.
Proof. intros H. unfold attempts_kept. by rewrite H. Qed.

Lemma set_attempt_state_kept db id state d c k db' :
  set_attempt_state db id state d c k = Ok db' -> state ≠ "AUTHORIZED" ->
  attempts_kept db db'
  /\ forall a, a ∈ db'.(ExecDb.attempts) -> a.(ExecutionAttemptRecord.attempt_id) = id ->
       a.(ExecutionAttemptRecord.state) = state.
Proof.
  intros ->%set_attempt_state_ok Hs. split.
  - unfold attempts_kept. cbn. induction db.(ExecDb.attempts) as [|a l IH]; constructor; [|done].
    destruct (_ =? id)%string; [|done]. split_and!; [done..|]. cbn. congruence.
  - intros a. cbn. rewrite list_elem_of_fmap. intros (b & -> & _).
    destruct (b.(ExecutionAttemptRecord.attempt_id) =? id)%string eqn:E; [done|].
    by apply String.eqb_neq in E.
Qed.

Lemma set_execution_state_attempts db id state db' :
  set_execution_state db id state = Ok db' ->
  db'.(ExecDb.attempts) = db.(ExecDb.attempts)
  /\ ExperimentRecord.execution_state <$> db'.(ExecDb.experiments) !! id = Some state.
Proof. intros (x & _ & ->)%set_execution_state_ok. cbn. by rewrite lookup_insert_eq. Qed.

Lemma consume_keeps db attempt issued id kind amount at_ db' :
  consume db attempt issued id kind amount at_ = Ok db' -> exists l, db' = ExecDb.with_ledger db l.
Proof. unfold consume. intros (row & _ & Hc)%bind_ok. apply bind_ok in Hc as (l & _ & [= <-]). eauto. Qed.

Lemma reserve_kept seen db attempt x issued ids now db' amount :
  reserve seen db attempt x issued ids now = Ok (db', amount) ->
  attempts_kept db db'
  /\ forall a, a ∈ db'.(ExecDb.attempts) ->
       a.(ExecutionAttemptRecord.attempt_id) = attempt.(ExecutionAttemptRecord.attempt_id) ->
       a.(ExecutionAttemptRecord.state) = "DISPATCHING".
Proof.
  unfold reserve. intros (db1 & [Hk Hall]%set_attempt_state_kept & Hr)%bind_ok; [|done].
  apply bind_ok in Hr as (db2 & [Ha _]%set_execution_state_attempts & Hr).
  apply bind_ok in Hr as (n & _ & Hr). apply bind_ok in Hr as (db3 & Hc & [= <- _]).
  unfold record_dispatch_consumption in Hc. apply bind_ok in Hc as (db4 & [l ->]%consume_keeps & Hc).
  apply consume_keeps in Hc as [l' ->].
  assert (Hsame : attempts_kept db1 (ExecDb.with_ledger (ExecDb.with_ledger db2 l) l'))
    by (by apply same_attempts_kept).
  split; [by etrans|]. intros a Hin. apply Hall. cbn in Hin. by rewrite <-Ha.
Qed.

Lemma mark_unknown_kept db x attempt hypothesis now db' out :
  mark_unknown db x attempt hypothesis now = Ok (db', out) -> attempts_kept db db'.
Proof.
  unfold mark_unknown. intros (db1 & [Hk _]%set_attempt_state_kept & [= <- _])%bind_ok; [exact Hk|done].
Qed.

Lemma begin_refused seen db a ids now unknown_now db' out :
  begin_dispatch seen db a ids now unknown_now = Ok (db', inr out) -> attempts_kept db db'.
Proof.
  unfold begin_dispatch. intros (attempt & _ & Hb)%bind_ok. apply bind_ok in Hb as (x & _ & Hb).
  destruct attempt as [attempt|]; [|by injection Hb as <- _].
  destruct x as [x|]; [|by injection Hb as <- _].
  destruct (negb _).
  - destruct (_ =? "DISPATCHING")%string; [|by injection Hb as <- _].
    apply bind_ok in Hb as ([db1 o] & Hm%mark_unknown_kept & [= <- _]). exact Hm.
  - apply bind_ok in Hb as ([issued|] & _ & Hb); [|by injection Hb as <- _].
    destruct (reserve _ _ _ _ _ _ _) as [[db1 n]|[]]; try done. by injection Hb as <- _.
Qed.

(** The call of the worker is preceded by an attempt that was AUTHORIZED and is DISPATCHING. *)
Lemma begin_ok seen db a ids now unknown_now db' call :
  begin_dispatch seen db a ids now unknown_now = Ok (db', inl call) ->
  exists attempt, get_attempt seen a.(AuthorizedDispatch.attempt_id) = Ok (Some attempt)
    /\ attempt.(ExecutionAttemptRecord.attempt_id) = a.(AuthorizedDispatch.attempt_id)
    /\ attempt.(ExecutionAttemptRecord.state) = "AUTHORIZED"
    /\ attempts_kept db db'
    /\ forall b, b ∈ db'.(ExecDb.attempts) ->
         b.(ExecutionAttemptRecord.attempt_id) = a.(AuthorizedDispatch.attempt_id) ->
         b.(ExecutionAttemptRecord.state) = "DISPATCHING".
Proof.
  unfold begin_dispatch. intros (found & Hf & Hb)%bind_ok. apply bind_ok in Hb as (x & _ & Hb).
  destruct found as [attempt|]; [|done]. destruct x as [x|]; [|done].
  pose proof (get_attempt_ok _ _ _ Hf) as [_ Hid]. exists attempt. destruct (negb _) eqn:Es.
  - destruct (_ =? "DISPATCHING")%string; [|done]. by apply bind_ok in Hb as (? & _ & ?).
  - apply negb_false_iff, String.eqb_eq in Es. apply bind_ok in Hb as ([issued|] & _ & Hb); [|done].
    destruct (reserve _ _ _ _ _ _ _) as [[db1 n]|[]] eqn:Er; try done. injection Hb as <- _.
    apply reserve_kept in Er as [Hk Hall]. rewrite Hid in Hall. done.
Qed.

Lemma classified_states invocation attempt_state experiment_state status :
  classify_invocation invocation = (attempt_state, experiment_state, status) ->
  attempt_state ∈ ["COMPLETED"; "FAILED"; "TIMED_OUT"; "CANCELLED"].
Proof. unfold classify_invocation. repeat case_match; intros [= <- _ _]; set_solver. Qed.

Section transactions.
Context `{DiagnosticRedaction} `{FloatRepr} `{NetlocCheck} `{HostCodec} `{ContractSchemas}.
Context `{IsoTimestamps} `{Normalizers} `{ExceptionText} `{JsonSchema} `{IsoFormat}.

Lemma insert_fault_keeps db r db' : insert_fault db r = Ok db' -> exists f, db' = ExecDb.with_faults db f.
Proof.
  unfold insert_fault. intros [_ Hi]%raise_if_ok. apply raise_if_ok in Hi as [_ Hi].
  apply raise_if_ok in Hi as [_ [= <-]]. eauto.
Qed.

Lemma insert_new_fault_keeps db fault db' :
  insert_new_fault db fault = Ok db' -> exists f, db' = ExecDb.with_faults db f.
Proof.
  assert (Hsame : db = ExecDb.with_faults db db.(ExecDb.faults)) by by destruct db.
  unfold insert_new_fault. destruct fault as [fault|]; [|intros [= <-]; eauto].
  intros ([old|] & _ & Hi)%bind_ok; [injection Hi as <-; eauto|]. by eapply insert_fault_keeps.
Qed.

(** Both states of a recorded outcome, where they are stored. *)
Definition states_stored (db : ExecDb.t) (a : AuthorizedDispatch.t) (attempt_state experiment_state : string)
    : Prop :=
  (forall b, b ∈ db.(ExecDb.attempts) ->
     b.(ExecutionAttemptRecord.attempt_id) = a.(AuthorizedDispatch.attempt_id) ->
     b.(ExecutionAttemptRecord.state) = attempt_state)
  /\ ExperimentRecord.execution_state <$> db.(ExecDb.experiments) !! a.(AuthorizedDispatch.experiment_id)
     = Some experiment_state.

Lemma settle_ok seen db a invocation now db' attempt_state experiment_state status :
  classify_invocation invocation = (attempt_state, experiment_state, status) ->
  settle seen db a invocation now = Ok db' ->
  attempts_kept db db' /\ states_stored db' a attempt_state experiment_state.
Proof.
  intros Hc. unfold settle. rewrite Hc. intros ([attempt|] & _ & Hs)%bind_ok; [|done].
  apply bind_ok in Hs as (db1 & [Hk Hall]%set_attempt_state_kept & Hs).
  2: { intros ->. apply classified_states in Hc. set_solver. }
  apply bind_ok in Hs as (db2 & [Ha Hx]%set_execution_state_attempts & Hs).
  apply bind_ok in Hs as (fault & _ & [f ->]%insert_new_fault_keeps). split.
  - transitivity db1; [done|]. by apply same_attempts_kept.
  - split; [|exact Hx]. intros b Hb. apply Hall. cbn in Hb. by rewrite <-Ha.
Qed.

Lemma settle_rejected_ok db a attempt invocation reason now db' :
  settle_rejected db a attempt invocation reason now = Ok db' ->
  attempts_kept db db' /\ states_stored db' a "FAILED" "EXECUTION_FAILED".
Proof.
  unfold settle_rejected. intros (db1 & [Hk Hall]%set_attempt_state_kept & Hs)%bind_ok; [|done].
  apply bind_ok in Hs as (db2 & [Ha Hx]%set_execution_state_attempts & Hs).
  assert (exists f, db' = ExecDb.with_faults db2 f) as [f ->].
  { apply bind_ok in Hs as ([old|] & _ & Hs); [injection Hs as <-; exists db2.(ExecDb.faults); by destruct db2|].
    apply bind_ok in Hs as ([fault|] & _ & Hs); [|done]. by eapply insert_fault_keeps. }
  split; [transitivity db1; [done|by apply same_attempts_kept]|].
  split; [|exact Hx]. intros b Hb. apply Hall. cbn in Hb. by rewrite <-Ha.
Qed.

(** An ingestion touches neither the attempts nor the experiments. *)
Lemma ingest_keeps seen db store has_port actor received created request outcome db' out store' :
  ingest seen db store has_port actor received created request outcome = (Ok (db', out), store') ->
  db'.(ExecDb.attempts) = db.(ExecDb.attempts) /\ db'.(ExecDb.experiments) = db.(ExecDb.experiments)
  /\ (out.(IngestionOutcome.status) = IngestionStatus.REJECTED_INVALID_INVOCATION -> db' = db).
Proof.
  intros [[-> _]|(document & record & obs & _ & _ & _ & _ & _ & Ha)]%ingest_ok; [done|].
  destruct (ad_rows _ _ _ _ _ _ _ _ _ Ha) as [events ->]. cbn. split_and!; [done..|].
  rewrite (ad_outcome _ _ _ _ _ _ _ _ _ Ha). cbn. by case_bool_decide.
Qed.

Lemma fail_closed_kept seen db id now db' out :
  fail_closed_existing seen db id now = Ok (db', out) -> attempts_kept db db'.
Proof.
  unfold fail_closed_existing. intros ([x|] & _ & Hf)%bind_ok; [|by injection Hf as <- _].
  apply bind_ok in Hf as ([|attempt rest] & _ & Hf); [by injection Hf as <- _|].
  destruct (_ =? "DISPATCHING")%string.
  - apply bind_ok in Hf as ([db1 o] & Hm%mark_unknown_kept & [= <- _]). exact Hm.
  - apply bind_ok in Hf as (results & _ & Hf). destruct (_ && _); by injection Hf as <- _.
Qed.
End transactions.

(** ** Interleavings *)

Section interleavings.
Context `{DiagnosticRedaction} `{FloatRepr} `{NetlocCheck} `{HostCodec} `{ContractSchemas}.
Context `{IsoTimestamps} `{Normalizers} `{ExceptionText} `{JsonSchema} `{IsoFormat}.
Context (catalog : CapabilityRegistry.t) (dumps : pyval -> string) (actor_id : string).
Context (secret_port : option SecretPort) (has_port : bool).

(** The rows of the attempts of an experiment. *)
Definition experiment_attempts (db : ExecDb.t) (experiment_id : string) : list ExecutionAttemptRecord.t :=
  List.filter (fun a => (a.(ExecutionAttemptRecord.experiment_id) =? experiment_id)%string)
    db.(ExecDb.attempts).

(** One transaction of some process, after which [invoked] lists the attempts whose worker was
    called.  What a transaction reads ([seen]) may be anything, with two exceptions: between the
    reads of an authorization that creates an attempt and its writes no attempt of that experiment
    was written, and between the reads of a dispatch that calls the worker and its writes the
    attempt was not.  [other] is any transaction of the rest of the system, which has no operation
    on attempts. *)
Inductive step : ExecDb.t * list string -> ExecDb.t * list string -> Prop :=
  | step_authorize hook seen db invoked command draws db' a :
      authorize catalog dumps actor_id secret_port hook seen db command draws = Ok (db', inl a) ->
      experiment_attempts db a.(AuthorizedDispatch.experiment_id)
        = experiment_attempts seen a.(AuthorizedDispatch.experiment_id) ->
      step (db, invoked) (db', invoked)
  | step_deny hook seen db invoked command draws db' out :
      authorize catalog dumps actor_id secret_port hook seen db command draws = Ok (db', inr out) ->
      step (db, invoked) (db', invoked)
  | step_invoke seen db invoked a ids now unknown_now db' call :
      begin_dispatch seen db a ids now unknown_now = Ok (db', inl call) ->
      get_attempt db a.(AuthorizedDispatch.attempt_id)
        = get_attempt seen a.(AuthorizedDispatch.attempt_id) ->
      step (db, invoked) (db', invoked ++ [a.(AuthorizedDispatch.attempt_id)])
  | step_refuse seen db invoked a ids now unknown_now db' out :
      begin_dispatch seen db a ids now unknown_now = Ok (db', inr out) ->
      step (db, invoked) (db', invoked)
  | step_settle seen db invoked a invocation now db' :
      settle seen db a invocation now = Ok db' -> step (db, invoked) (db', invoked)
  | step_ingest seen db invoked store received created request invocation db' out store' :
      ingest seen db store has_port actor_id received created request invocation
        = (Ok (db', out), store') ->
      step (db, invoked) (db', invoked)
  | step_reject db invoked a attempt invocation reason now db' :
      settle_rejected db a attempt invocation reason now = Ok db' -> step (db, invoked) (db', invoked)
  | step_fail_closed seen db invoked id now db' out :
      fail_closed_existing seen db id now = Ok (db', out) -> step (db, invoked) (db', invoked)
  | step_other db invoked db' :
      db'.(ExecDb.attempts) = db.(ExecDb.attempts) -> step (db, invoked) (db', invoked).

(** Reachable from a database without attempts. *)
Inductive reachable : ExecDb.t * list string -> Prop :=
  | reachable_start db : db.(ExecDb.attempts) = [] -> reachable (db, [])
  | reachable_step s s' : reachable s -> step s s' -> reachable s'.

(** One attempt per experiment, one call per attempt, and none of an attempt that is AUTHORIZED. *)
Record once (s : ExecDb.t * list string) : Prop := {
  on_ids : NoDup (ExecutionAttemptRecord.attempt_id <$> s.1.(ExecDb.attempts));
  on_experiments : NoDup (ExecutionAttemptRecord.experiment_id <$> s.1.(ExecDb.attempts));
  on_invoked : NoDup s.2;
  on_called : forall id, id ∈ s.2 -> exists a, a ∈ s.1.(ExecDb.attempts)
    /\ a.(ExecutionAttemptRecord.attempt_id) = id /\ a.(ExecutionAttemptRecord.state) ≠ "AUTHORIZED" }.

Lemma kept_fmap {A} (f : ExecutionAttemptRecord.t -> A) db db' :
  (forall a a', attempt_step a a' -> f a' = f a) -> attempts_kept db db' ->
  f <$> db'.(ExecDb.attempts) = f <$> db.(ExecDb.attempts).
Proof. intros Hf Hk. induction Hk as [|a a' l l' Ha _ IH]; [done|]. cbn. by rewrite IH, (Hf a a'). Qed.

Lemma kept_once db invoked db' :
  attempts_kept db db' -> once (db, invoked) -> once (db', invoked).
Proof.
  intros Hk [Hi He Hn Hc]. cbn in *.
  split; cbn; [by rewrite (kept_fmap _ db) by (done || by intros ?? (?&?&?))..| |].
  - done.
  - intros id (a & Ha & Hid & Hs)%Hc. apply list_elem_of_lookup in Ha as [i Ha].
    destruct (Forall2_lookup_l _ _ _ _ _ Hk Ha) as (a' & Ha' & (Hid' & _ & Hs')).
    exists a'. split_and!; [by eapply list_elem_of_lookup_2|congruence|auto].
Qed.

Lemma no_attempts_of seen db id :
  experiment_attempts db id = experiment_attempts seen id ->
  (forall o, o ∈ seen.(ExecDb.attempts) -> o.(ExecutionAttemptRecord.experiment_id) ≠ id) ->
  forall o, o ∈ db.(ExecDb.attempts) -> o.(ExecutionAttemptRecord.experiment_id) ≠ id.
Proof.
  intros Heq Hs o Ho E. unfold experiment_attempts in Heq.
  assert (o ∈ List.filter (fun a => (a.(ExecutionAttemptRecord.experiment_id) =? id)%string)
                db.(ExecDb.attempts)) as Hin
    by (rewrite elem_of_list_filter_bool, String.eqb_eq; done).
  rewrite Heq, elem_of_list_filter_bool in Hin. by apply (Hs o (proj1 Hin)).
Qed.

Lemma authorize_once hook seen db invoked command draws db' a :
  authorize catalog dumps actor_id secret_port hook seen db command draws = Ok (db', inl a) ->
  experiment_attempts db a.(AuthorizedDispatch.experiment_id)
    = experiment_attempts seen a.(AuthorizedDispatch.experiment_id) ->
  once (db, invoked) -> once (db', invoked).
Proof.
  intros (x & plan & event & attempt & Hw & Hr & _ & Hax)%authorize_ok Hread [Hi He Hn Hc].
  rewrite Hax in Hread. pose proof (no_attempts_of _ _ _ Hread (wa_first _ _ _ _ _ _ _ _ Hw)) as Hfirst.
  destruct (wr_rows _ _ _ _ _ _ Hr) as (plans & sessions & experiments & ->).
  destruct (wr_attempt _ _ _ _ _ _ Hr) as (_ & Hx & _).
  pose proof (wr_fresh _ _ _ _ _ _ Hr) as Hf. rewrite Forall_forall in Hf. cbn in *. split; cbn.
  - rewrite fmap_app. apply NoDup_app. split_and!; [done| |apply NoDup_singleton].
    intros y (b & -> & Hb)%list_elem_of_fmap Hy%list_elem_of_singleton. by apply (Hf b Hb).
  - rewrite fmap_app. apply NoDup_app. split_and!; [done| |apply NoDup_singleton].
    intros y (b & -> & Hb)%list_elem_of_fmap Hy%list_elem_of_singleton.
    apply (Hfirst b Hb). congruence.
  - done.
  - intros id (b & Hb & Hid & Hs)%Hc. exists b. split; [by apply elem_of_app; left|done].
Qed.

Lemma step_once s s' : step s s' -> once s -> once s'.
Proof.
  intros Hstep. destruct Hstep as
    [? ? ? ? ? ? ? ? Ha Hr|? ? ? ? ? ? ? ? Ha|seen db invoked a ? ? ? db' ? Hb Hr|? ? ? ? ? ? ? ? ? Hb
    |? ? ? ? invocation ? ? Hs|? ? ? ? ? ? ? ? ? ? ? Hi|? ? ? ? ? ? ? ? Hs|? ? ? ? ? ? ? Hf|? ? ? Hsame].
  - by eapply authorize_once.
  - apply authorize_refusal in Ha as (plans & experiments & events & ->). apply kept_once.
    by apply same_attempts_kept.
  - destruct (begin_ok _ _ _ _ _ _ _ _ Hb) as (attempt & Hat & Hid & Hs & Hk & Hall).
    rewrite <-Hr in Hat. apply get_attempt_ok in Hat as [Hin _].
    intros Ho. destruct (kept_once _ _ _ Hk Ho) as [Hi He Hn Hc]. cbn in *. split; cbn; try done.
    + apply NoDup_app. split_and!; [done| |apply NoDup_singleton].
      intros id Hid' ->%list_elem_of_singleton.
      destruct (on_called _ Ho _ Hid') as (b & Hb' & Hbid & Hbs). apply Hbs.
      rewrite (NoDup_fmap_inj _ _ b attempt (on_ids _ Ho)); [done|done|done|congruence].
    + intros id Hid'. apply elem_of_app in Hid' as [Hid'|Hid']; [by apply Hc|].
      apply list_elem_of_singleton in Hid' as ->.
      apply list_elem_of_lookup in Hin as [i Hin].
      destruct (Forall2_lookup_l _ _ _ _ _ Hk Hin) as (b & Hb' & (Hbid & _)).
      apply list_elem_of_lookup_2 in Hb'. exists b. split_and!; [done|congruence|].
      rewrite Hall by (done || congruence). done.
  - apply kept_once. by eapply begin_refused.
  - destruct (classify_invocation invocation) as [[sa sx] st] eqn:Hc.
    apply kept_once. by destruct (settle_ok _ _ _ _ _ _ _ _ _ Hc Hs).
  - destruct (ingest_keeps _ _ _ _ _ _ _ _ _ _ _ _ Hi) as (Ha & _). apply kept_once.
    by apply same_attempts_kept.
  - destruct (settle_rejected_ok _ _ _ _ _ _ _ Hs) as [Hk _]. by apply kept_once.
  - apply kept_once. by eapply fail_closed_kept.
  - apply kept_once. by apply same_attempts_kept.
Qed.

Lemma reachable_once s : reachable s -> once s.
Proof.
  induction 1 as [db Hdb|s s' _ IH Hs]; [|by eapply step_once].
  split; cbn; [rewrite Hdb; constructor..|constructor|by intros id ?%elem_of_nil].
Qed.
End interleavings.

(** C10. A worker is called at most once for an experiment, as long as no two transactions race on
    its attempt: in every history in which no attempt of an experiment is written between the reads
    and the writes of the authorization that gives it one, nor the attempt between the reads and the
    writes of the dispatch that calls the worker, whatever else was read stale and whatever else
    the system did, an experiment has at most one attempt, no attempt is dispatched twice, and one
    that was dispatched is stored and never AUTHORIZED again.  Nothing in the program enforces the
    condition ([Authorize.stale_reads_authorize_twice], [stale_reads_dispatch_twice]). *)
Theorem worker_is_called_at_most_once `{DiagnosticRedaction} `{FloatRepr} `{NetlocCheck} `{HostCodec}
    `{ContractSchemas} `{IsoTimestamps} `{Normalizers} `{ExceptionText} `{JsonSchema} `{IsoFormat}
    catalog dumps actor port has_port db invoked :
  reachable catalog dumps actor port has_port (db, invoked) ->
  NoDup (ExecutionAttemptRecord.experiment_id <$> db.(ExecDb.attempts))
  /\ NoDup invoked
  /\ forall id, id ∈ invoked -> exists a, a ∈ db.(ExecDb.attempts)
       /\ a.(ExecutionAttemptRecord.attempt_id) = id
       /\ a.(ExecutionAttemptRecord.state) ≠ "AUTHORIZED".
Proof. intros []%reachable_once. by split_and!. Qed.

Section recorded.
Context `{DiagnosticRedaction} `{FloatRepr} `{NetlocCheck} `{HostCodec} `{ContractSchemas}.
Context `{IsoTimestamps} `{Normalizers} `{ExceptionText} `{JsonSchema} `{IsoFormat}.

(** What an answer says of the states. *)
Definition answer_stored (db : ExecDb.t) (a : AuthorizedDispatch.t) (out : ResearchLoopOutcome.t) : Prop :=
  exists attempt_state, out.(ResearchLoopOutcome.attempt_state) = Some attempt_state
    /\ attempt_state ∈ ["COMPLETED"; "FAILED"; "TIMED_OUT"; "CANCELLED"]
    /\ states_stored db a attempt_state out.(ResearchLoopOutcome.experiment_execution_state).

Lemma same_states db db' a x y :
  db'.(ExecDb.attempts) = db.(ExecDb.attempts) -> db'.(ExecDb.experiments) = db.(ExecDb.experiments) ->
  states_stored db a x y -> states_stored db' a x y.
Proof. intros Ha Hx. unfold states_stored. by rewrite Ha, Hx. Qed.

Lemma ingest_settled_stored actor has_port db store a attempt invocation now received created
    db' store' out attempt_state experiment_state status :
  classify_invocation invocation = (attempt_state, experiment_state, status) ->
  states_stored db a attempt_state experiment_state ->
  ingest_settled actor has_port db store a attempt invocation now received created
    = (db', store', Ok out) -> answer_stored db' a out.
Proof.
  intros Hc Hst. pose proof (classified_states _ _ _ _ Hc) as Hin.
  unfold ingest_settled. rewrite Hc.
  destruct (ingest _ _ _ _ _ _ _ _ _) as [[[db1 ing]|e] store1] eqn:Ei; [|done].
  destruct (ingest_keeps _ _ _ _ _ _ _ _ _ _ _ _ Ei) as (Ha & Hx & _).
  assert (Hst' : states_stored db1 a attempt_state experiment_state) by by eapply same_states.
  destruct ing.(IngestionOutcome.status).
  1-3: intros [= <- <- <-]; by exists attempt_state.
  destruct (settle_rejected _ _ _ _ _ _) as [db2|e] eqn:Er; [|done]. intros [= <- <- <-].
  apply settle_rejected_ok in Er as [_ Hr]. exists "FAILED". split_and!; [done|set_solver|done].
Qed.

Lemma record_outcome_stored actor has_port db store a invocation now received created db' store' out :
  record_outcome actor has_port db store a invocation now received created = (db', store', Ok out) ->
  (db' = db /\ out.(ResearchLoopOutcome.status) = ResearchLoopStatus.INVOCATION_FAILED
   /\ out.(ResearchLoopOutcome.attempt_state) = Some "DISPATCHING"
   /\ exists e, settle db db a invocation now = Raise e)
  \/ answer_stored db' a out.
Proof.
  unfold record_outcome. destruct (classify_invocation invocation) as [[sa sx] st] eqn:Hc.
  destruct (settle db db a invocation now) as [db1|e] eqn:Es.
  - destruct (settle_ok _ _ _ _ _ _ _ _ _ Hc Es) as [_ Hst].
    assert (Hplain : (db1, store, Ok (loop_outcome a invocation sa sx st None)) = (db', store', Ok out)
                     -> answer_stored db' a out).
    { intros [= <- _ <-]. exists sa. split_and!; [done|by eapply classified_states|done]. }
    intros Hr. right.
    destruct (invocation.(WorkerInvocationOutcome.invocation_status)); try by apply Hplain.
    destruct (invocation.(WorkerInvocationOutcome.worker_result)); [|by apply Hplain].
    destruct (get_attempt db _) as [[attempt|]|]; [|by apply Hplain..].
    by eapply ingest_settled_stored.
  - destruct (is_persistence_error e); [|done]. intros [= <- <- <-]. left. split_and!; try done. eauto.
Qed.
End recorded.

(** C23. The answer to a call tells what is stored: the attempt is in the final state the answer
    names and the experiment in the state it names, unless the transaction of the outcome failed,
    in which case nothing is stored and the answer says that the attempt is still DISPATCHING. *)
Theorem recorded_outcome_is_stored `{DiagnosticRedaction} `{FloatRepr} `{NetlocCheck} `{HostCodec}
    `{ContractSchemas} `{IsoTimestamps} `{Normalizers} `{ExceptionText}
    actor has_port db store a invocation now received created db' store' out :
  record_outcome actor has_port db store a invocation now received created = (db', store', Ok out) ->
  (db' = db /\ out.(ResearchLoopOutcome.status) = ResearchLoopStatus.INVOCATION_FAILED
   /\ out.(ResearchLoopOutcome.attempt_state) = Some "DISPATCHING"
   /\ exists e, settle db db a invocation now = Raise e)
  \/ answer_stored db' a out.
Proof. exact (record_outcome_stored _ _ _ _ _ _ _ _ _ _ _ _). Qed.

(** ** Examples *)

Module DispatchSample.
Definition keep : DiagnosticRedaction := fun s => s.
Definition no_drafts : Normalizers := fun _ _ => Some (fun _ _ => Ok []).

(** The handle of the authorization of [AuthorizeSample]. *)
Definition handle_of (answer : result (ExecDb.t * (AuthorizedDispatch.t + ResearchLoopOutcome.t)))
    : option (ExecDb.t * AuthorizedDispatch.t) :=
  match answer with Ok (db, inl a) => Some (db, a) | _ => None end.

Definition first : option (ExecDb.t * AuthorizedDispatch.t) :=
  handle_of (AuthorizeSample.run Authorize.planned Authorize.planned "e-1" None 15 "q-1").

Definition begin (seen db : ExecDb.t) (a : AuthorizedDispatch.t) (ids : string)
    : option (ExecDb.t * ((Z * string) + ResearchLoopOutcome.t)) :=
  match begin_dispatch seen db a (ids +:+ "1", ids +:+ "2") 30 31 with Ok r => Some r | Raise _ => None end.

Definition invocation (status : InvocationStatus.t) (diagnostics : string)
    : WorkerInvocationOutcome.t :=
  WorkerInvocationOutcome.mk status 30 40 None None diagnostics false None "UNKNOWN".

Definition settled (db : ExecDb.t) (a : AuthorizedDispatch.t) (i : WorkerInvocationOutcome.t)
    : ExecDb.t * option (string * option string) :=
  match @record_outcome keep no_floats any_netloc no_codec Ingest.Sample.any_schema
          Ingest.Sample.no_instants no_drafts Ingest.Sample.no_text "cp" false db ∅ a i 50 51 52 with
  | (db, _, Ok o) => (db, Some (o.(ResearchLoopOutcome.experiment_execution_state),
                                o.(ResearchLoopOutcome.attempt_state)))
  | (db, _, Raise _) => (db, None)
  end.
Definition stored (db : ExecDb.t) (id : string) : option string :=
  ExperimentRecord.execution_state <$> db.(ExecDb.experiments) !! id.
End DispatchSample.
Import DispatchSample.

(** A dispatch and a time-out: the call, the stored states and the answer. *)
Example dispatched_and_timed_out :
  (p ← first; q ← begin p.1 p.1 p.2 "c";
   let s := settled q.1 p.2 (invocation InvocationStatus.TIMED_OUT "slow") in
   Some (match q.2 with inl call => Some call | inr _ => None end,
         AuthorizeSample.attempts_of_experiments s.1, stored s.1 "e-1", s.2, size s.1.(ExecDb.faults)))
  = Some (Some (1, "http.authorization.differential"), [("e-1", "TIMED_OUT")],
          Some "EXECUTION_FAILED", Some ("EXECUTION_FAILED", Some "TIMED_OUT"), 1%nat).
Proof. vm_compute. reflexivity. Qed.

(** A diagnostic of more than a thousand characters is cut to a text its column does not take: the
    fault fails the transaction, and the outcome of the worker is lost. *)
Example long_diagnostic_loses_the_outcome :
  (p ← first; q ← begin p.1 p.1 p.2 "c";
   let long := String.concat "" (replicate 1001 "x") in
   let s := settled q.1 p.2 (invocation InvocationStatus.TIMED_OUT long) in
   Some (AuthorizeSample.attempts_of_experiments s.1, stored s.1 "e-1", s.2))
  = Some ([("e-1", "DISPATCHING")], Some "RUNNING", Some ("RUNNING", Some "DISPATCHING")).
Proof. vm_compute. reflexivity. Qed.

(** Two dispatches of one handle that both read before either writes both call the worker; the
    ledger has the request of one of them. *)
Example stale_reads_dispatch_twice :
  (p ← first; q ← begin p.1 p.1 p.2 "c"; r ← begin p.1 q.1 p.2 "d";
   Some (match q.2, r.2 with inl _, inl _ => true | _, _ => false end,
         BudgetConsumptionRecord.consumption_id <$> r.1.(ExecDb.ledger).(Ledger.Db.rows)))
  = Some (true, ["c1"; "c2"]).
Proof. vm_compute. reflexivity. Qed.

(** The second experiment of a budget of one request: the answer says BUDGET_EXHAUSTED, the
    experiment stays READY. *)
Example exhausted_state_is_not_stored :
  (p ← first;
   p' ← handle_of (AuthorizeSample.run p.1 p.1 "e-2" None 16 "q-2");
   q ← begin p'.1 p'.1 p.2 "c"; r ← begin q.1 q.1 p'.2 "d";
   Some (match r.2 with inr o => Some o.(ResearchLoopOutcome.experiment_execution_state)
                      | inl _ => None end, stored r.1 "e-2"))
  = Some (Some "BUDGET_EXHAUSTED", Some "READY").
Proof. vm_compute. reflexivity. Qed.

(** A COMPLETED call without a result: the fault is there, the experiment succeeded. *)
Example completed_without_result_succeeds :
  (p ← first; q ← begin p.1 p.1 p.2 "c";
   let s := settled q.1 p.2 (invocation InvocationStatus.COMPLETED "no document") in
   Some (stored s.1 "e-1", size s.1.(ExecDb.faults)))
  = Some (Some "EXECUTION_SUCCEEDED", 1%nat).
Proof. vm_compute. reflexivity. Qed.

Definition first_db : ExecDb.t := match first with Some p => p.1 | None => Authorize.planned end.
Definition calling_db : ExecDb.t :=
  match (p ← first; begin p.1 p.1 p.2 "c") with Some q => q.1 | None => Authorize.planned end.

Lemma worker_is_called_at_most_once_witness :
  calling_db.(ExecDb.attempts) ≠ []
  /\ NoDup (ExecutionAttemptRecord.experiment_id <$> calling_db.(ExecDb.attempts))
  /\ NoDup ["ea:q-1"].
Proof.
  split; [vm_compute; discriminate|].
  destruct (worker_is_called_at_most_once (H := keep) (H0 := no_floats) (H1 := any_netloc) (H2 := no_codec)
    (H3 := Ingest.Sample.any_schema) (H4 := Ingest.Sample.no_instants) (H5 := no_drafts)
    (H6 := Ingest.Sample.no_text) (H7 := fun _ _ => None) (H8 := AuthorizeSample.any_iso)
    AuthorizeSample.registry (fun _ => "") "cp" None false calling_db ["ea:q-1"]) as (He & Hn & _);
    [|by split].
  destruct first as [[db a]|] eqn:Ef; [|exfalso; vm_compute in Ef; discriminate Ef].
  assert (Ha : a.(AuthorizedDispatch.attempt_id) = "ea:q-1")
    by (vm_compute in Ef; injection Ef as <- <-; reflexivity).
  destruct (begin db db a "c") as [[db' [call|o]]|] eqn:Eb.
  2,3: exfalso; unfold first in Ef; vm_compute in Ef; injection Ef as <- <-; vm_compute in Eb; discriminate Eb.
  assert (Hc : calling_db = db') by (unfold calling_db; rewrite Ef; cbn; by rewrite Eb).
  rewrite Hc, <-Ha. apply (reachable_step _ _ _ _ _ (db, [])).
  - apply (reachable_step _ _ _ _ _ (Authorize.planned, [])); [by apply reachable_start|].
    unfold first, handle_of in Ef.
    destruct (AuthorizeSample.run _ _ _ _ _ _) as [[db2 [a2|o2]]|] eqn:Er; try discriminate Ef.
    injection Ef as -> ->. eapply step_authorize; [exact Er|reflexivity].
  - unfold begin in Eb. destruct (begin_dispatch _ _ _ _ _ _) as [r|] eqn:Er; [|discriminate Eb].
    injection Eb as ->. change ["ea:q-1"] with ([] ++ ["ea:q-1"]).
    eapply (step_invoke _ _ _ _ _ db db []); [exact Er|reflexivity].
Defined.

Definition first_handle : AuthorizedDispatch.t :=
  match first with
  | Some p => p.2
  | None => AuthorizedDispatch.mk "" "" "" "" "" "" [] 0 ExecutionDecisionKind.DENY
              ReasonCode.SCOPE_DENIED None None
  end.

Lemma recorded_outcome_is_stored_witness :
  exists out db',
    out.(ResearchLoopOutcome.attempt_state) = Some "TIMED_OUT"
    /\ ((db' = calling_db /\ out.(ResearchLoopOutcome.status) = ResearchLoopStatus.INVOCATION_FAILED
         /\ out.(ResearchLoopOutcome.attempt_state) = Some "DISPATCHING"
         /\ exists e, @settle keep calling_db calling_db first_handle
                        (invocation InvocationStatus.TIMED_OUT "slow") 50 = Raise e)
        \/ answer_stored db' first_handle out).
Proof.
  destruct (@record_outcome keep no_floats any_netloc no_codec Ingest.Sample.any_schema
    Ingest.Sample.no_instants no_drafts Ingest.Sample.no_text "cp" false calling_db ∅ first_handle
    (invocation InvocationStatus.TIMED_OUT "slow") 50 51 52) as [[db' store'] [out|e]] eqn:E;
    [|exfalso; vm_compute in E; discriminate E].
  exists out, db'. split; [vm_compute in E; injection E as _ _ <-; reflexivity|].
  exact (recorded_outcome_is_stored _ _ _ _ _ _ _ _ _ _ _ _ E).
Defined.
