(* ===== verification/Normalizers.v ===== *)
(** * What an observation says

    The normalizers of [application/transition_a/]: one per capability and action, each reads the
    result of a worker and makes at most one draft of an observation out of named facts.
    [normalizer_registry] is what [Ingest] takes as its class [Normalizers]. *)
From S2P Require Import Prelude CoreTypes PyVal PyText Records FindingRecords EvidenceRecords HuntRecords Ledger Planning Selection Envelope Session ExecDb Ingest.

(** ** What the normalizers share *)

(** The six normalizers that have the set repeat it.
    [application/transition_a/http_transaction.py:14-23 STATUSES_WITHOUT_TARGET_OBSERVATION] *)
Definition STATUSES_WITHOUT_TARGET_OBSERVATION : list string :=
  [ "EXECUTION_FAILED"; "BLOCKED"; "CANCELLED"; "TIMED_OUT"; "BUDGET_EXHAUSTED";
    "REAUTHORIZATION_REQUIRED" ].

(** [a or b] *)
Definition value_or (a b : pyval) : pyval := if truthy a then a else b.

(** [isinstance(v, int)]: a [bool] is an [int]. *)
Definition is_int (v : pyval) : bool := match v with PInt _ | PBool _ => true | _ => false end.

(** The number of an [int]. *)
Definition int_of (v : pyval) : Z :=
  match v with PInt z => z | PBool true => 1 | _ => 0 end.

(** [d if isinstance(d, Mapping) else {}] *)
Definition mapping_or_empty (v : pyval) : list (string * pyval) :=
  match v with PDict d => d | _ => [] end.

(** [FORBIDDEN.intersection(key.lower() for key in d)] is not empty. *)
Definition has_forbidden (forbidden : list string) (d : list (string * pyval)) : bool :=
  existsb (fun p => mem (Str.lower p.1) forbidden) d.

(** [application/transition_a/http_transaction.py:127-138 _status_class] *)
Definition status_class (status_code : Z) : string :=
  let within a b := (a <=? status_code) && (status_code <=? b) in
  if within 100 199 then "1xx" else if within 200 299 then "2xx" else if within 300 399 then "3xx"
  else if within 400 499 then "4xx" else if within 500 599 then "5xx" else "unknown".

Section normalizers.
Context `{IsoTimestamps}.

(** The frame of every [normalize]: nothing is observed in a result that did not succeed; the
    payload is read from [raw_result] and the arguments of the request.
    [application/transition_a/http_transaction.py:48-83 HttpTransactionNormalizer.normalize] *)
Definition normalize_with (kind version : string)
    (payload_of : list (string * pyval) -> list (string * pyval) -> result (list (string * pyval)))
    (request result_ : list (string * pyval)) : result (list ObservationDraft.t) :=
  match dict_get "status" result_ with
  | PList _ | PDict _ => Raise TypeError
  | PStr status =>
      if mem status STATUSES_WITHOUT_TARGET_OBSERVATION then Ok []
      else if negb (status =? "SUCCEEDED")%string then Raise MalformedNormalizedPayloadError
      else
      match dict_get "raw_result" result_ with
      | PDict raw_result =>
          payload ← payload_of raw_result (mapping_or_empty (dict_get "arguments" request));
          observed_at ← parse_aware_timestamp
                          (value_or (dict_get "completed_at" result_) (dict_get "started_at" result_));
          draft ← ObservationDraft.post_init (ObservationDraft.mk kind payload version observed_at);
          Ok [draft]
      | _ => Raise MalformedNormalizedPayloadError
      end
  | _ => Raise MalformedNormalizedPayloadError
  end.

(** ** [diagnostic.echo] *)

(** [application/transition_a/diagnostic_echo.py:31-63 DiagnosticEchoNormalizer.normalize] *)
Definition echo_payload (raw arguments : list (string * pyval)) : result (list (string * pyval)) :=
  match dict_get "echoed" raw with
  | PStr s => Ok [("echoed", PStr s)]
  | _ => Raise MalformedNormalizedPayloadError
  end.

(** [application/transition_a/diagnostic_echo.py:31-63 DiagnosticEchoNormalizer.normalize] *)
Definition normalize_echo : list (string * pyval) -> list (string * pyval) -> result (list ObservationDraft.t) :=
  normalize_with "diagnostic.echo" "diagnostic.echo.v1" echo_payload.

(** ** [http.transaction] *)

(** [application/transition_a/http_transaction.py:24-37 FORBIDDEN_PAYLOAD_KEYS] *)
Definition TRANSACTION_FORBIDDEN_KEYS : list string :=
  [ "is_vulnerable"; "severity"; "finding"; "confidence"; "cookie"; "authorization"; "set-cookie";
    "password"; "token"; "secret" ].

(** [application/transition_a/http_transaction.py:38 ALLOWED_RESPONSE_HEADER_KEYS] *)
Definition ALLOWED_RESPONSE_HEADER_KEYS : list string := ["content-type"; "location"].

(** The headers that are kept, the last of a name winning.
    [application/transition_a/http_transaction.py:86-124 _factual_payload] *)
Definition kept_headers (headers_in : pyval) : list (string * pyval) :=
  foldl (fun headers p =>
      match p.2 with
      | PStr _ => if mem (Str.lower p.1) ALLOWED_RESPONSE_HEADER_KEYS
                  then dict_put (Str.lower p.1) p.2 headers else headers
      | _ => headers
      end) [] (mapping_or_empty headers_in).

(** [application/transition_a/http_transaction.py:86-124 _factual_payload] *)
Definition transaction_payload (raw arguments : list (string * pyval)) : result (list (string * pyval)) :=
  let status_code := dict_get "status_code" raw in
  raise_if negb (is_int status_code) as MalformedNormalizedPayloadError;;
  let method := value_or (dict_get "method" raw) (dict_get "method" arguments) in
  let path := value_or (dict_get "path" raw) (dict_get "path" arguments) in
  match method, path with
  | PStr _, PStr _ =>
      let headers := kept_headers (dict_get "response_headers" raw) in
      let payload :=
        [ ("authorized_origin", value_or (dict_get "authorized_origin" raw)
                                         (dict_get "authorized_origin" arguments));
          ("method", method); ("path", path); ("status_code", status_code);
          ("status_class", PStr (status_class (int_of status_code)));
          ("content_type", value_or (dict_get "content_type" raw) (dict_get "content-type" headers));
          ("body_length", dict_get "body_length" raw); ("body_digest", dict_get "body_digest" raw);
          ("request_fingerprint", dict_get "request_fingerprint" raw);
          ("elapsed_ms", dict_get "elapsed_ms" raw); ("redirect", PBool false) ]
        ++ (if bool_decide (headers = []) then [] else [("response_headers", PDict headers)])
        ++ match dict_get "json_value_kind" raw with
           | PStr kind => if Str.is_blank kind then [] else [("json_value_kind", PStr kind)]
           | _ => []
           end
        ++ match dict_get "json_top_level_keys" raw with
           | PList keys => if forallb (fun k => match k with PStr _ => true | _ => false end) keys
                           then [("json_top_level_keys", PList keys)] else []
           | _ => []
           end in
      raise_if has_forbidden TRANSACTION_FORBIDDEN_KEYS payload as MalformedNormalizedPayloadError;;
      Ok payload
  | _, _ => Raise MalformedNormalizedPayloadError
  end.

(** [application/transition_a/http_transaction.py:48-83 HttpTransactionNormalizer.normalize] *)
Definition normalize_transaction : list (string * pyval) -> list (string * pyval) -> result (list ObservationDraft.t) :=
  normalize_with "HTTP_TRANSACTION" "http.transaction.v1" transaction_payload.

(** ** [http.authentication] *)

(** [application/transition_a/http_authentication.py:24-38 FORBIDDEN_PAYLOAD_KEYS] *)
Definition AUTHENTICATION_FORBIDDEN_KEYS : list string := TRANSACTION_FORBIDDEN_KEYS ++ ["session"].

(** [application/transition_a/http_authentication.py:84-108 _factual_payload] *)
Definition authentication_payload (raw arguments : list (string * pyval))
    : result (list (string * pyval)) :=
  let either k := value_or (dict_get k raw) (dict_get k arguments) in
  let status_code := dict_get "status_code" raw in
  raise_if negb (is_int status_code) as MalformedNormalizedPayloadError;;
  match dict_get "session_established" raw with
  | PBool established =>
      match either "path", either "authorized_origin" with
      | PStr path, PStr origin =>
          let payload :=
            [ ("authorized_origin", PStr origin); ("method", PStr "POST"); ("path", PStr path);
              ("status_code", status_code);
              ("status_class", PStr (status_class (int_of status_code)));
              ("session_established", PBool established); ("identity_id", either "identity_id");
              ("session_context_id", either "session_context_id"); ("redirect", PBool false) ] in
          raise_if has_forbidden AUTHENTICATION_FORBIDDEN_KEYS payload
          as MalformedNormalizedPayloadError;;
          Ok payload
      | _, _ => Raise MalformedNormalizedPayloadError
      end
  | _ => Raise MalformedNormalizedPayloadError
  end.

(** [application/transition_a/http_authentication.py:46-81 HttpAuthenticationNormalizer.normalize] *)
Definition normalize_authentication : list (string * pyval) -> list (string * pyval) -> result (list ObservationDraft.t) :=
  normalize_with "HTTP_AUTHENTICATION" "http.authentication.v1" authentication_payload.

(** ** [http.raw_exchange] *)

(** [application/transition_a/http_raw_exchange.py:24-39 FORBIDDEN_PAYLOAD_KEYS] *)
Definition RAW_EXCHANGE_FORBIDDEN_KEYS : list string :=
  TRANSACTION_FORBIDDEN_KEYS ++ ["request_bytes"; "raw_request"].

(** [application/transition_a/http_raw_exchange.py:47-97 HttpRawExchangeNormalizer.normalize] *)
Definition raw_exchange_payload (raw arguments : list (string * pyval)) : result (list (string * pyval)) :=
  let either k := (k, value_or (dict_get k raw) (dict_get k arguments)) in
  let own k := (k, dict_get k raw) in
  let payload :=
    [ either "authorized_origin"; either "path"; either "framing_profile"; either "lane";
      either "control"; own "status_code"; own "write_count"; own "bytes_written";
      own "body_length"; own "body_digest"; own "request_fingerprint"; ("redirect", PBool false) ] in
  raise_if negb (is_int (dict_get "status_code" raw)) as MalformedNormalizedPayloadError;;
  raise_if has_forbidden RAW_EXCHANGE_FORBIDDEN_KEYS payload as MalformedNormalizedPayloadError;;
  Ok payload.

(** [application/transition_a/http_raw_exchange.py:47-97 HttpRawExchangeNormalizer.normalize] *)
Definition normalize_raw_exchange : list (string * pyval) -> list (string * pyval) -> result (list ObservationDraft.t) :=
  normalize_with "HTTP_RAW_EXCHANGE" "http.raw_exchange.v1" raw_exchange_payload.

(** ** [http.authorization.differential] *)

(** [application/transition_a/authorization_differential.py:27-32 _REQUEST_KEYS] *)
Definition DIFFERENTIAL_REQUEST_KEYS : list string :=
  ["owner_request"; "cross_object_request"; "secure_control"; "unauthenticated_control"].

(** A text that may be absent and may not be blank, under its name in the payload. *)
Definition optional_fact (name : string) (v : pyval) : result (list (string * pyval)) :=
  match v with
  | PNone => Ok []
  | PStr s => raise_if Str.is_blank s as MalformedNormalizedPayloadError;; Ok [(name, PStr (Str.strip s))]
  | _ => Raise MalformedNormalizedPayloadError
  end.

Definition reader_entry (v : pyval) : option string :=
  match v with PStr s => if Str.is_blank s then None else Some (Str.strip s) | _ => None end.

(** One turn of the loop over the four requests.
    [application/transition_a/authorization_differential.py:40-122 HttpAuthorizationDifferentialNormalizer.normalize] *)
Definition request_facts (raw : list (string * pyval)) (key : string)
    : result (list (string * pyval)) :=
  match dict_get key raw with
  | PDict item =>
      let status_value := dict_get "status" item in
      raise_if negb (is_int status_value) as MalformedNormalizedPayloadError;;
      owner ← optional_fact (key +:+ "_object_owner") (dict_get "object_owner" item);
      visibility ← optional_fact (key +:+ "_visibility") (dict_get "object_visibility" item);
      readers ← match dict_get "object_authorized_readers" item with
                | PNone => Ok []
                | PList entries =>
                    raise_if negb (forallb (fun v => bool_decide (is_Some (reader_entry v))) entries)
                    as MalformedNormalizedPayloadError;;
                    Ok [(key +:+ "_authorized_readers", PList (PStr <$> omap reader_entry entries))]
                | _ => Raise MalformedNormalizedPayloadError
                end;
      resource_kind ← optional_fact (key +:+ "_resource_kind") (dict_get "object_resource_kind" item);
      Ok ([(key +:+ "_status", status_value)] ++ owner ++ visibility ++ readers ++ resource_kind)
  | _ => Raise MalformedNormalizedPayloadError
  end.

(** [application/transition_a/authorization_differential.py:40-122 HttpAuthorizationDifferentialNormalizer.normalize] *)
Definition differential_payload (raw arguments : list (string * pyval)) : result (list (string * pyval)) :=
  let either k := (k, value_or (dict_get k raw) (dict_get k arguments)) in
  let asked k := (k, dict_get k arguments) in
  facts ← traverse (request_facts raw) DIFFERENTIAL_REQUEST_KEYS;
  Ok ([either "authorized_origin"; either "mode"; asked "actor"; asked "own_object"; asked "cross_object"]
      ++ concat facts).

(** [application/transition_a/authorization_differential.py:40-122 HttpAuthorizationDifferentialNormalizer.normalize] *)
Definition normalize_differential : list (string * pyval) -> list (string * pyval) -> result (list ObservationDraft.t) :=
  normalize_with "HTTP_AUTHORIZATION_DIFFERENTIAL" "http.authorization.differential.v1" differential_payload.

(** ** [http.state_transition] *)

(** [application/transition_a/state_transition.py:27-32 _REQUEST_KEYS] *)
Definition TRANSITION_REQUEST_KEYS : list string :=
  ["pre_state_request"; "transition_request"; "post_state_request"; "control_request"].

(** [application/transition_a/state_transition.py:115-118 _optional_text] *)
Definition optional_text (v : pyval) : option string :=
  match v with PStr s => if Str.is_blank s then None else Some (Str.strip s) | _ => None end.

Definition text_value (s : option string) : pyval := match s with Some s => PStr s | None => PNone end.

(** [list(v or [])] *)
Definition list_value (v : pyval) : result (list pyval) :=
  if negb (truthy v) then Ok []
  else match v with
       | PList l => Ok l
       | PDict d => Ok ((fun p => PStr p.1) <$> d)
       | PStr s => Ok ((fun c => PStr (String c "")) <$> String.list_ascii_of_string s)
       | _ => Raise TypeError
       end.

Definition transition_request (raw : list (string * pyval)) (key : string)
    : result (list (string * pyval)) :=
  match dict_get key raw with
  | PDict item => raise_if negb (is_int (dict_get "status" item)) as MalformedNormalizedPayloadError;; Ok item
  | _ => Raise MalformedNormalizedPayloadError
  end.

(** [application/transition_a/state_transition.py:40-112 HttpStateTransitionNormalizer.normalize] *)
Definition transition_payload (raw arguments : list (string * pyval)) : result (list (string * pyval)) :=
  pre ← transition_request raw "pre_state_request";
  transition ← transition_request raw "transition_request";
  post ← transition_request raw "post_state_request";
  control ← transition_request raw "control_request";
  let pre_state := optional_text (dict_get "state" pre) in
  let post_state := optional_text (dict_get "state" post) in
  delegated ← list_value (dict_get "delegated_reviewers" pre);
  from_states ← list_value (dict_get "approve_from_states" pre);
  Ok [ ("authorized_origin", value_or (dict_get "authorized_origin" raw)
                                      (dict_get "authorized_origin" arguments));
       ("area", value_or (dict_get "area" raw) (dict_get "area" arguments));
       ("actor", text_value (optional_text (dict_get "actor" arguments)));
       ("actor_role", text_value (optional_text (value_or (dict_get "actor_role" pre)
                                                          (dict_get "actor_role" post))));
       ("resource_id", value_or (dict_get "resource_id" raw) (dict_get "resource_id" arguments));
       ("requested_transition", value_or (dict_get "requested_transition" raw)
                                         (dict_get "transition" arguments));
       ("pre_state", text_value pre_state);
       ("response_status", dict_get "status" transition);
       ("post_state", text_value post_state);
       ("state_changed", PBool (match pre_state, post_state with
                                | Some a, Some b => negb (a =? b)%string | _, _ => false end));
       ("approved_by", text_value (optional_text (dict_get "approved_by" post)));
       ("owner", text_value (optional_text (value_or (dict_get "owner" pre) (dict_get "owner" post))));
       ("delegated_reviewers", PList delegated);
       ("approve_requires_role", text_value (optional_text (dict_get "approve_requires_role" pre)));
       ("approve_from_states", PList from_states);
       ("control_status", dict_get "status" control);
       ("pre_status", dict_get "status" pre);
       ("post_status", dict_get "status" post);
       ("transition_ok", PBool (match dict_get "ok" transition with PBool b => b | _ => false end)) ].

(** [application/transition_a/state_transition.py:40-112 HttpStateTransitionNormalizer.normalize] *)
Definition normalize_transition : list (string * pyval) -> list (string * pyval) -> result (list ObservationDraft.t) :=
  normalize_with "HTTP_STATE_TRANSITION_AUTHORIZATION" "http.state_transition.v1" transition_payload.

(** ** [browser.page] *)

(** [application/transition_a/browser_page.py:24-42 FORBIDDEN_PAYLOAD_KEYS] *)
Definition PAGE_FORBIDDEN_KEYS : list string :=
  [ "is_vulnerable"; "severity"; "finding"; "confidence"; "candidate"; "cookie"; "authorization";
    "set-cookie"; "password"; "token"; "secret"; "html"; "innerhtml"; "textcontent"; "screenshot" ].
(** [application/transition_a/browser_page.py:43-55 FORBIDDEN_CONTROL_KEYS] *)
Definition FORBIDDEN_CONTROL_KEYS : list string :=
  [ "value"; "input_value"; "password"; "innerhtml"; "textcontent"; "html"; "cookie"; "token";
    "secret" ].
(** [application/transition_a/browser_page.py:56-68 FORBIDDEN_EVENT_KEYS] *)
Definition FORBIDDEN_EVENT_KEYS : list string :=
  [ "cookie"; "set-cookie"; "authorization"; "proxy-authorization"; "password"; "token"; "secret";
    "body"; "headers" ].
(** [application/transition_a/browser_page.py:69-83 ALLOWED_CONTROL_KEYS] *)
Definition ALLOWED_CONTROL_KEYS : list string :=
  [ "element_reference"; "snapshot_fingerprint"; "tag"; "role"; "input_type"; "disabled"; "checked";
    "name"; "aria_label"; "placeholder"; "href_scheme"; "href_origin"; "href_path" ].
(** [application/transition_a/browser_page.py:84-96 ALLOWED_EVENT_KEYS] *)
Definition ALLOWED_EVENT_KEYS : list string :=
  [ "event_id"; "method"; "resource_type"; "normalized_target"; "path"; "status_code";
    "request_bytes"; "response_bytes"; "redirect"; "representability"; "body_digest" ].
(** [application/transition_a/browser_page.py:97 MAX_CONTROLS] *)
Definition MAX_CONTROLS : nat := 32.
(** [application/transition_a/browser_page.py:98 MAX_EVENTS] *)
Definition MAX_EVENTS : nat := 32.
(** [application/transition_a/browser_page.py:99 CONTROL_TEXT_CAP] *)
Definition CONTROL_TEXT_CAP : nat := 64.

(** [application/transition_a/browser_page.py:264-267 _optional_text] *)
Definition page_text (v : pyval) (otherwise : string) : pyval :=
  match v with
  | PStr s => if Str.is_blank s then PStr otherwise
              else PStr (if (2048 <? String.length s)%nat then Str.take CONTROL_TEXT_CAP s else s)
  | _ => PStr otherwise
  end.

(** [application/transition_a/browser_page.py:270-273 _capped_text] *)
Definition capped_text (v : pyval) (otherwise : string) : pyval :=
  match v with PStr s => PStr (Str.take CONTROL_TEXT_CAP s) | _ => PStr otherwise end.

(** [application/transition_a/browser_page.py:276-279 _optional_int] *)
Definition optional_int (v : pyval) (otherwise : Z) : pyval :=
  match v with PInt z => if 0 <=? z then PInt z else PInt otherwise | _ => PInt otherwise end.

(** [set(item) - set(ALLOWED)] is not empty. *)
Definition has_extra (allowed : list string) (d : list (string * pyval)) : bool :=
  existsb (fun p => negb (mem p.1 allowed)) d.

(** One entry of [_controls].
    [application/transition_a/browser_page.py:181-216 _controls] *)
Definition control_entry (v : pyval) : result pyval :=
  match v with
  | PDict item =>
      let capped k := (k, capped_text (dict_get k item) "") in
      raise_if has_forbidden FORBIDDEN_CONTROL_KEYS item as MalformedNormalizedPayloadError;;
      match dict_get "element_reference" item, dict_get "snapshot_fingerprint" item with
      | PStr element_ref, PStr snapshot_fp =>
          raise_if has_extra ALLOWED_CONTROL_KEYS item as MalformedNormalizedPayloadError;;
          Ok (PDict
            [ ("element_reference", PStr element_ref); ("snapshot_fingerprint", PStr snapshot_fp);
              capped "tag"; capped "role"; capped "input_type";
              ("disabled", PBool (truthy (dict_get "disabled" item)));
              ("checked", PBool (truthy (dict_get "checked" item)));
              capped "name"; capped "aria_label"; capped "placeholder"; capped "href_scheme";
              capped "href_origin"; capped "href_path" ])
      | _, _ => Raise MalformedNormalizedPayloadError
      end
  | _ => Raise MalformedNormalizedPayloadError
  end.

(** One entry of [_network_events].
    [application/transition_a/browser_page.py:219-261 _network_events] *)
Definition event_entry (v : pyval) : result pyval :=
  match v with
  | PDict item =>
      let size k := match dict_get k item with
                    | PInt z => if 0 <=? z then [(k, PInt z)] else [] | _ => [] end in
      raise_if has_forbidden FORBIDDEN_EVENT_KEYS item as MalformedNormalizedPayloadError;;
      match dict_get "event_id" item, dict_get "method" item, dict_get "normalized_target" item with
      | PStr event_id, PStr method, PStr target =>
          raise_if has_extra ALLOWED_EVENT_KEYS item as MalformedNormalizedPayloadError;;
          Ok (PDict
            ([ ("event_id", PStr event_id); ("method", PStr method);
               ("resource_type", page_text (dict_get "resource_type" item) "other");
               ("normalized_target", PStr target);
               ("path", page_text (dict_get "path" item) "/");
               ("redirect", PBool (truthy (dict_get "redirect" item)));
               ("representability", page_text (dict_get "representability" item) "NOT_REPRESENTABLE") ]
             ++ match dict_get "status_code" item with
                | PInt z => [("status_code", PInt z)] | _ => [] end
             ++ size "request_bytes" ++ size "response_bytes"
             ++ match dict_get "body_digest" item with
                | PStr s => if Str.is_blank s then [] else [("body_digest", PStr s)] | _ => [] end))
      | _, _, _ => Raise MalformedNormalizedPayloadError
      end
  | _ => Raise MalformedNormalizedPayloadError
  end.

(** The first entries of an optional array.
    [application/transition_a/browser_page.py:181-216 _controls] *)
Definition entries (limit : nat) (entry : pyval -> result pyval) (raw : pyval) : result (list pyval) :=
  match raw with
  | PNone => Ok []
  | PList l => traverse entry (take limit l)
  | _ => Raise MalformedNormalizedPayloadError
  end.

(** A text that may not be blank. *)
Definition nonblank (v : pyval) : result string :=
  match v with
  | PStr s => raise_if Str.is_blank s as MalformedNormalizedPayloadError;; Ok s
  | _ => Raise MalformedNormalizedPayloadError
  end.

(** [application/transition_a/browser_page.py:149-178 _factual_payload] *)
Definition page_payload (raw arguments : list (string * pyval)) : result (list (string * pyval)) :=
  raise_if has_forbidden PAGE_FORBIDDEN_KEYS raw as MalformedNormalizedPayloadError;;
  snapshot_fp ← nonblank (dict_get "snapshot_fingerprint" raw);
  normalized_url ← nonblank (dict_get "normalized_url" raw);
  match dict_get "browser_context_reference" raw, dict_get "page_reference" raw,
        dict_get "attempted_network_requests" raw with
  | PStr context_ref, PStr page_ref, PInt attempted =>
      raise_if attempted <? 0 as MalformedNormalizedPayloadError;;
      controls ← entries MAX_CONTROLS control_entry (dict_get "controls" raw);
      events ← entries MAX_EVENTS event_entry (dict_get "network_events" raw);
      let payload :=
        [ ("browser_context_reference", PStr context_ref); ("page_reference", PStr page_ref);
          ("snapshot_fingerprint", PStr snapshot_fp); ("normalized_url", PStr normalized_url);
          ("ready_state", page_text (dict_get "ready_state" raw) "complete");
          ("frame_count", optional_int (dict_get "frame_count" raw) 1);
          ("attempted_network_requests", PInt attempted);
          ("snapshot_schema_version", page_text (dict_get "snapshot_schema_version" raw) "browser.page.v1");
          ("controls", PList controls); ("network_events", PList events) ] in
      raise_if has_forbidden PAGE_FORBIDDEN_KEYS payload as MalformedNormalizedPayloadError;;
      Ok payload
  | _, _, _ => Raise MalformedNormalizedPayloadError
  end.

(** [application/transition_a/browser_page.py:109-146 BrowserPageNormalizer.normalize] *)
Definition normalize_page : list (string * pyval) -> list (string * pyval) -> result (list ObservationDraft.t) :=
  normalize_with "BROWSER_PAGE_STATE" "browser.page.v1" page_payload.

(** ** The registry *)

(** The keys are pairwise distinct, so that the first entry is the one the dictionary keeps.
    [application/transition_a/registry.py:39-68 NormalizerRegistry] *)
Definition registered : list (string * string * (list (string * pyval) -> list (string * pyval) -> result (list ObservationDraft.t))) :=
  [ ("diagnostic.echo", "echo", normalize_echo);
    (HTTP_AUTHORIZATION_DIFFERENTIAL_CAPABILITY, "probe", normalize_differential);
    (HTTP_STATE_TRANSITION_CAPABILITY, "probe", normalize_transition);
    (HTTP_TRANSACTION_CAPABILITY, "read", normalize_transaction);
    (HTTP_TRANSACTION_CAPABILITY, "mutate", normalize_transaction);
    (HTTP_AUTHENTICATION_CAPABILITY, "login", normalize_authentication);
    (HTTP_RAW_EXCHANGE_CAPABILITY, "probe", normalize_raw_exchange);
    (BROWSER_PAGE_CAPABILITY, "observe", normalize_page);
    (BROWSER_PAGE_CAPABILITY, "navigate", normalize_page);
    (BROWSER_PAGE_CAPABILITY, "interact", normalize_page) ].

(** [application/transition_a/registry.py:62-68 NormalizerRegistry.get] *)
Definition normalizer_registry : Normalizers := fun capability action =>
  snd <$> List.find (fun e => (e.1.1 =? capability)%string && (e.1.2 =? action)%string) registered.
End normalizers.

(** ** Theorems *)

(** The facts an observation of a capability can have. *)
Definition differential_suffixes : list string :=
  ["_status"; "_object_owner"; "_visibility"; "_authorized_readers"; "_resource_kind"].

Definition shape (kind : string) : list string :=
  if (kind =? "diagnostic.echo")%string then ["echoed"]
  else if (kind =? "HTTP_TRANSACTION")%string
  then [ "authorized_origin"; "method"; "path"; "status_code"; "status_class"; "content_type";
         "body_length"; "body_digest"; "request_fingerprint"; "elapsed_ms"; "redirect";
         "response_headers"; "json_value_kind"; "json_top_level_keys" ]
  else if (kind =? "HTTP_AUTHENTICATION")%string
  then [ "authorized_origin"; "method"; "path"; "status_code"; "status_class"; "session_established";
         "identity_id"; "session_context_id"; "redirect" ]
  else if (kind =? "HTTP_RAW_EXCHANGE")%string
  then [ "authorized_origin"; "path"; "framing_profile"; "lane"; "control"; "status_code";
         "write_count"; "bytes_written"; "body_length"; "body_digest"; "request_fingerprint";
         "redirect" ]
  else if (kind =? "HTTP_AUTHORIZATION_DIFFERENTIAL")%string
  then ["authorized_origin"; "mode"; "actor"; "own_object"; "cross_object"]
       ++ concat ((fun k => (fun s => k +:+ s) <$> differential_suffixes) <$> DIFFERENTIAL_REQUEST_KEYS)
  else if (kind =? "HTTP_STATE_TRANSITION_AUTHORIZATION")%string
  then [ "authorized_origin"; "area"; "actor"; "actor_role"; "resource_id"; "requested_transition";
         "pre_state"; "response_status"; "post_state"; "state_changed"; "approved_by"; "owner";
         "delegated_reviewers"; "approve_requires_role"; "approve_from_states"; "control_status";
         "pre_status"; "post_status"; "transition_ok" ]
  else [ "browser_context_reference"; "page_reference"; "snapshot_fingerprint"; "normalized_url";
         "ready_state"; "frame_count"; "attempted_network_requests"; "snapshot_schema_version";
         "controls"; "network_events" ].

Definition within (allowed : list string) (d : list (string * pyval)) : Prop :=
  forall k, k ∈ d.*1 -> k ∈ allowed.

Lemma within_true allowed d : forallb (fun k => mem k allowed) d.*1 = true -> within allowed d.
Proof. rewrite forallb_true. intros H k Hk. apply mem_true. by apply H. Qed.

Lemma within_app allowed d d' : within allowed d -> within allowed d' -> within allowed (d ++ d').
Proof. intros Hd Hd' k. rewrite fmap_app, elem_of_app. intros [?|?]; auto. Qed.

Lemma within_cons allowed k v d : k ∈ allowed -> within allowed d -> within allowed ((k, v) :: d).
Proof. intros Hk Hd j. cbn. rewrite elem_of_cons. intros [->|?]; auto. Qed.

Lemma within_concat {A} allowed (f : A -> result (list (string * pyval))) l ds :
  (forall x d, x ∈ l -> f x = Ok d -> within allowed d) -> traverse f l = Ok ds ->
  within allowed (concat ds).
Proof.
  revert ds. induction l as [|x l IH]; intros ds Hf.
  - intros [= <-]. by intros k ?%elem_of_nil.
  - cbn. intros (d & Hd & Hr)%bind_ok. apply bind_ok in Hr as (rest & Hrest & [= <-]).
    cbn. apply within_app; [eapply Hf; [left|done]|].
    apply IH; [|done]. intros y e Hy. apply Hf. by right.
Qed.

(** Keys of a literal list of facts. *)
Ltac literal_shape := apply within_true; vm_compute; reflexivity.

Lemma transaction_shape raw arguments d :
  transaction_payload raw arguments = Ok d -> within (shape "HTTP_TRANSACTION") d.
Proof.
  unfold transaction_payload. intros [_ Hp]%raise_if_ok. cbv zeta in Hp.
  destruct (value_or _ _) as [| | | |m| |]; try done.
  destruct (value_or _ _) as [| | | |p| |]; try done.
  apply raise_if_ok in Hp as [_ [= <-]].
  repeat apply within_app; repeat case_match; literal_shape.
Qed.

Lemma authentication_shape raw arguments d :
  authentication_payload raw arguments = Ok d -> within (shape "HTTP_AUTHENTICATION") d.
Proof.
  unfold authentication_payload. intros [_ Hp]%raise_if_ok. revert Hp.
  repeat case_match; try done. intros [= <-]. literal_shape.
Qed.

Lemma raw_exchange_shape raw arguments d :
  raw_exchange_payload raw arguments = Ok d -> within (shape "HTTP_RAW_EXCHANGE") d.
Proof.
  unfold raw_exchange_payload. intros [_ Hp]%raise_if_ok. apply raise_if_ok in Hp as [_ [= <-]].
  literal_shape.
Qed.

Lemma optional_fact_keys name v d : optional_fact name v = Ok d -> within [name] d.
Proof.
  unfold optional_fact. repeat case_match; intros [= <-] k Hk; cbn in Hk; set_solver.
Qed.

Lemma within_mono allowed allowed' d : within allowed d -> allowed ⊆ allowed' -> within allowed' d.
Proof. intros H Hs k Hk. by apply Hs, H. Qed.

Lemma request_facts_keys raw key d :
  request_facts raw key = Ok d -> within ((fun s => key +:+ s) <$> differential_suffixes) d.
Proof.
  unfold request_facts. destruct (dict_get key raw) as [| | | | | |item]; try done.
  intros [_ Hf]%raise_if_ok. apply bind_ok in Hf as (owner & Ho%optional_fact_keys & Hf).
  apply bind_ok in Hf as (visibility & Hv%optional_fact_keys & Hf).
  apply bind_ok in Hf as (readers & Hr & Hf).
  apply bind_ok in Hf as (kind & Hk%optional_fact_keys & [= <-]).
  assert (Hr' : within [key +:+ "_authorized_readers"] readers).
  { revert Hr. repeat case_match; intros [= <-] k Hin; cbn in Hin; set_solver. }
  apply within_cons; [cbn; left|]. repeat apply within_app.
  - eapply within_mono; [exact Ho|]. cbn. set_solver.
  - eapply within_mono; [exact Hv|]. cbn. set_solver.
  - eapply within_mono; [exact Hr'|]. cbn. set_solver.
  - eapply within_mono; [exact Hk|]. cbn. set_solver.
Qed.

Lemma differential_shape raw arguments d :
  differential_payload raw arguments = Ok d -> within (shape "HTTP_AUTHORIZATION_DIFFERENTIAL") d.
Proof.
  unfold differential_payload. intros (facts & Hf & [= <-])%bind_ok.
  do 5 (apply within_cons; [apply mem_true; vm_compute; reflexivity|]).
  eapply within_concat; [|exact Hf]. intros key e Hkey He%request_facts_keys.
  eapply within_mono; [exact He|]. intros k Hk. cbn [shape]. apply elem_of_app. right.
  apply list_elem_of_In, in_concat. eexists. split; [|by apply list_elem_of_In].
  apply list_elem_of_In, list_elem_of_fmap. by exists key.
Qed.

Lemma transition_shape raw arguments d :
  transition_payload raw arguments = Ok d -> within (shape "HTTP_STATE_TRANSITION_AUTHORIZATION") d.
Proof.
  unfold transition_payload. intros Hp. do 6 (apply bind_ok in Hp as (? & _ & Hp)).
  injection Hp as <-. literal_shape.
Qed.

Lemma echo_shape raw arguments d : echo_payload raw arguments = Ok d -> within (shape "diagnostic.echo") d.
Proof. unfold echo_payload. case_match; intros [= <-]; literal_shape. Qed.

(** A bounded list of objects with known keys. *)
Definition bounded_objects (limit : nat) (allowed : list string) (v : pyval) : Prop :=
  exists l, v = PList l /\ (length l <= limit)%nat
    /\ Forall (fun x => exists item, x = PDict item /\ within allowed item) l.

Lemma entries_bounded limit entry allowed raw l :
  (forall v x, entry v = Ok x -> exists item, x = PDict item /\ within allowed item) ->
  entries limit entry raw = Ok l -> bounded_objects limit allowed (PList l).
Proof.
  intros He. unfold entries. destruct raw as [| | | | |items|]; try done.
  - intros [= <-]. exists []. split_and!; [done|cbn; lia|constructor].
  - intros Ht. exists l. split; [done|]. apply traverse_ok in Ht. split.
    + apply Forall2_length in Ht. rewrite <-Ht. rewrite length_take. lia.
    + induction Ht as [|v x vs xs Hv _ IH]; constructor; [by eapply He|done].
Qed.

Lemma control_keys v x :
  control_entry v = Ok x -> exists item, x = PDict item /\ within ALLOWED_CONTROL_KEYS item.
Proof.
  unfold control_entry. destruct v as [| | | | | |item]; try done. intros [_ Hc]%raise_if_ok.
  destruct (dict_get "element_reference" item); try done.
  destruct (dict_get "snapshot_fingerprint" item); try done.
  apply raise_if_ok in Hc as [_ [= <-]]. eexists. split; [done|]. literal_shape.
Qed.

Lemma event_keys v x :
  event_entry v = Ok x -> exists item, x = PDict item /\ within ALLOWED_EVENT_KEYS item.
Proof.
  unfold event_entry. destruct v as [| | | | | |item]; try done. intros [_ Hc]%raise_if_ok.
  destruct (dict_get "event_id" item); try done. destruct (dict_get "method" item); try done.
  destruct (dict_get "normalized_target" item); try done.
  apply raise_if_ok in Hc as [_ [= <-]]. eexists. split; [done|].
  repeat apply within_app; repeat case_match; literal_shape.
Qed.

Lemma page_shape raw arguments d :
  page_payload raw arguments = Ok d ->
  within (shape "BROWSER_PAGE_STATE") d
  /\ bounded_objects MAX_CONTROLS ALLOWED_CONTROL_KEYS (dict_get "controls" d)
  /\ bounded_objects MAX_EVENTS ALLOWED_EVENT_KEYS (dict_get "network_events" d).
Proof.
  unfold page_payload. intros [_ Hp]%raise_if_ok. apply bind_ok in Hp as (fp & _ & Hp).
  apply bind_ok in Hp as (url & _ & Hp).
  destruct (dict_get "browser_context_reference" raw); try done.
  destruct (dict_get "page_reference" raw); try done.
  destruct (dict_get "attempted_network_requests" raw); try done.
  apply raise_if_ok in Hp as [_ Hp]. apply bind_ok in Hp as (controls & Hc & Hp).
  apply bind_ok in Hp as (events & He & Hp). apply raise_if_ok in Hp as [_ [= <-]].
  split; [literal_shape|]. cbn. split; eapply entries_bounded; [|exact Hc| |exact He].
  - exact control_keys.
  - exact event_keys.
Qed.

Lemma normalize_with_ok `{IsoTimestamps} kind version payload_of request result_ drafts :
  normalize_with kind version payload_of request result_ = Ok drafts ->
  (drafts = [] /\ exists s, dict_get "status" result_ = PStr s
                           /\ s ∈ STATUSES_WITHOUT_TARGET_OBSERVATION)
  \/ exists raw payload observed_at,
       dict_get "status" result_ = PStr "SUCCEEDED" /\ dict_get "raw_result" result_ = PDict raw
       /\ payload_of raw (mapping_or_empty (dict_get "arguments" request)) = Ok payload
       /\ drafts = [ObservationDraft.mk kind payload version observed_at].
Proof.
  unfold normalize_with. destruct (dict_get "status" result_) as [| | | |s| |]; try done.
  destruct (mem s STATUSES_WITHOUT_TARGET_OBSERVATION) eqn:Es.
  { intros [= <-]. left. split; [done|]. exists s. split; [done|by apply mem_true]. }
  destruct (s =? "SUCCEEDED")%string eqn:E; [|done]. apply String.eqb_eq in E as ->. cbn [negb].
  destruct (dict_get "raw_result" result_) as [| | | | | |raw]; try done.
  intros (payload & Hp & Hr)%bind_ok. apply bind_ok in Hr as (at_ & _ & Hr).
  apply bind_ok in Hr as (draft & ->%validated & [= <-]). right. by exists raw, payload, at_.
Qed.

(** What is known of a draft, whatever the worker wrote. *)
Record shaped (d : ObservationDraft.t) : Prop := {
  sh_facts : within (shape d.(ObservationDraft.observation_kind)) d.(ObservationDraft.payload);
  sh_page : d.(ObservationDraft.observation_kind) = "BROWSER_PAGE_STATE" ->
    bounded_objects MAX_CONTROLS ALLOWED_CONTROL_KEYS (dict_get "controls" d.(ObservationDraft.payload))
    /\ bounded_objects MAX_EVENTS ALLOWED_EVENT_KEYS
         (dict_get "network_events" d.(ObservationDraft.payload)) }.

Lemma registered_shapes `{IsoTimestamps} capability action normalize request result_ drafts :
  normalizer_registry capability action = Some normalize -> normalize request result_ = Ok drafts ->
  (drafts = [] /\ exists s, dict_get "status" result_ = PStr s
                           /\ s ∈ STATUSES_WITHOUT_TARGET_OBSERVATION)
  \/ exists d, drafts = [d] /\ dict_get "status" result_ = PStr "SUCCEEDED" /\ shaped d.
Proof.
  unfold normalizer_registry. intros Hn.
  destruct (List.find _ registered) as [[[c a] n]|] eqn:E; [|done]. injection Hn as <-.
  apply find_some in E as [Hin _]. cbn in Hin.
  assert (Hcase : forall kind version payload_of,
    (forall raw arguments d, payload_of raw arguments = Ok d ->
       shaped (ObservationDraft.mk kind d version 0)) ->
    normalize_with kind version payload_of request result_ = Ok drafts ->
    (drafts = [] /\ exists s, dict_get "status" result_ = PStr s
                             /\ s ∈ STATUSES_WITHOUT_TARGET_OBSERVATION)
    \/ exists d, drafts = [d] /\ dict_get "status" result_ = PStr "SUCCEEDED" /\ shaped d).
  { intros kind version payload_of Hs Hr. apply normalize_with_ok in Hr as
      [?|(raw & payload & at_ & Hst & _ & Hp & ->)]; [by left|right].
    eexists. split; [done|]. split; [done|]. destruct (Hs _ _ _ Hp) as [H1 H2]. by split. }
  assert (Hfacts : forall kind d version, (kind ≠ "BROWSER_PAGE_STATE") -> within (shape kind) d ->
    shaped (ObservationDraft.mk kind d version 0)) by (intros kind d version Hk Hd; by split).
  repeat (destruct Hin as [[= <- <- <-]|Hin]); [..|done]; apply Hcase; intros raw arguments d Hd.
  - apply Hfacts; [done|by eapply echo_shape].
  - apply Hfacts; [done|by eapply differential_shape].
  - apply Hfacts; [done|by eapply transition_shape].
  - apply Hfacts; [done|by eapply transaction_shape].
  - apply Hfacts; [done|by eapply transaction_shape].
  - apply Hfacts; [done|by eapply authentication_shape].
  - apply Hfacts; [done|by eapply raw_exchange_shape].
  - destruct (page_shape _ _ _ Hd) as (H1 & H2 & H3). by split.
  - destruct (page_shape _ _ _ Hd) as (H1 & H2 & H3). by split.
  - destruct (page_shape _ _ _ Hd) as (H1 & H2 & H3). by split.
Qed.

(** A page with one element, of which the worker also tells other facts. *)
Module Sample.
Definition instants : IsoTimestamps := fun _ => Some 5.
Definition page (control_facts : list (string * pyval)) : list (string * pyval) :=
  [ ("status", PStr "SUCCEEDED"); ("completed_at", PStr "2026-01-01T00:00:00Z");
    ("raw_result", PDict
       [ ("browser_context_reference", PStr "ctx1"); ("page_reference", PStr "p1");
         ("snapshot_fingerprint", PStr "f1"); ("normalized_url", PStr "https://a.example/");
         ("attempted_network_requests", PInt 0);
         ("controls", PList [PDict ([("element_reference", PStr "e1");
                                     ("snapshot_fingerprint", PStr "f1")] ++ control_facts)]) ]) ].
Definition observed (control_facts : list (string * pyval)) : result (list ObservationDraft.t) :=
  match @normalizer_registry instants BROWSER_PAGE_CAPABILITY "observe" with
  | Some normalize => normalize [] (page control_facts)
  | None => Raise KeyError
  end.
End Sample.

Example page_is_observed :
  (d ← Sample.observed [("role", PStr "button")];
   Ok (map (fun d => map (fun c => match c with PDict item => dict_get "role" item | v => v end)
              (match dict_get "controls" d.(ObservationDraft.payload) with PList l => l | _ => [] end)) d))
  = Ok [[PStr "button"]].
Proof. vm_compute. reflexivity. Qed.

(** A fact that an element cannot have is an error. *)
Example unknown_fact_is_an_error :
  Sample.observed [("onclick", PStr "steal()")] = Raise MalformedNormalizedPayloadError.
Proof. vm_compute. reflexivity. Qed.

(** A secret of an element is an error: nothing is observed. *)
Example secret_fact_is_an_error :
  Sample.observed [("password", PStr "hunter2")] = Raise MalformedNormalizedPayloadError.
Proof. vm_compute. reflexivity. Qed.

(** No observation can have a fact under the name of a secret or of a conclusion. *)
Example no_shape_has_a_secret :
  forallb (fun kind => negb (existsb (fun k => mem k (TRANSACTION_FORBIDDEN_KEYS ++ ObservationDraft.forbidden))
                                (shape kind)))
    [ "diagnostic.echo"; "HTTP_TRANSACTION"; "HTTP_AUTHENTICATION"; "HTTP_RAW_EXCHANGE";
      "HTTP_AUTHORIZATION_DIFFERENTIAL"; "HTTP_STATE_TRANSITION_AUTHORIZATION"; "BROWSER_PAGE_STATE" ]
  = true.
Proof. vm_compute. reflexivity. Qed.

(** C38. Whatever a worker returns, an observation says only what its kind of observation can say:
    each registered normalizer makes no draft of a result that failed, and at most one of a result
    that succeeded, whose facts are among the named facts of its kind; a page lists at most its
    bounded number of elements and of network events, each with known facts only. *)
Theorem observations_keep_to_their_shape `{IsoTimestamps} capability action normalize request result_
    drafts :
  normalizer_registry capability action = Some normalize -> normalize request result_ = Ok drafts ->
  (drafts = [] /\ exists s, dict_get "status" result_ = PStr s
                           /\ s ∈ STATUSES_WITHOUT_TARGET_OBSERVATION)
  \/ exists d, drafts = [d] /\ dict_get "status" result_ = PStr "SUCCEEDED" /\ shaped d.
Proof. exact (registered_shapes _ _ _ _ _ _). Qed.

Lemma observations_keep_to_their_shape_witness :
  exists drafts, @normalize_page Sample.instants [] (Sample.page [("role", PStr "button")]) = Ok drafts
    /\ length drafts = 1%nat
    /\ ((drafts = [] /\ exists s,
           dict_get "status" (Sample.page [("role", PStr "button")]) = PStr s
           /\ s ∈ STATUSES_WITHOUT_TARGET_OBSERVATION)
        \/ exists d, drafts = [d]
             /\ dict_get "status" (Sample.page [("role", PStr "button")]) = PStr "SUCCEEDED"
             /\ shaped d).
Proof.
  eexists. split; [vm_compute; reflexivity|]. split; [reflexivity|].
  apply (@observations_keep_to_their_shape Sample.instants BROWSER_PAGE_CAPABILITY "observe"
           (@normalize_page Sample.instants) [] (Sample.page [("role", PStr "button")])).
  - reflexivity.
  - vm_compute. reflexivity.
Defined.
