(* ===== verification/Evidence.v ===== *)
(** * Evidence: proposal and admission

    [research/evidence.py] decides, [application/admit_diagnostic_evidence.py] reads the rows of an
    experiment and stores what was decided.  The rows are those of [Evaluators.AssessDb] with the two
    tables of evidence. *)
From S2P Require Import Prelude CoreTypes PyVal PyText Records FindingRecords HuntRecords Verification Planning Evaluators EvidenceRecords Candidate.

(** ** [research/evidence.py] *)

(** [research/evidence.py:20 EVIDENCE_ADMISSION_POLICY_VERSION] *)
Definition EVIDENCE_ADMISSION_POLICY_VERSION : string := "evidence.admission.v1".
(** [research/assessment.py:28-30 HTTP_AUTHORIZATION_DIFFERENTIAL_EVALUATION_STRATEGY] *)
Definition DIFFERENTIAL_STRATEGY : string := "http.authorization.differential.v1".
(** [research/assessment.py:31 HTTP_STATE_TRANSITION_EVALUATION_STRATEGY] *)
Definition TRANSITION_STRATEGY : string := "http.state_transition.v1".
(** [research/evidence.py:29-31 HTTP_AUTHORIZATION_CONTROL_HELD_CLAIM] *)
Definition HTTP_AUTHORIZATION_CONTROL_HELD_CLAIM : string :=
  "observed HTTP differential does not establish missing object access control".
(** [research/evidence.py:36-38 HTTP_STATE_TRANSITION_CONTROL_HELD_CLAIM] *)
Definition HTTP_STATE_TRANSITION_CONTROL_HELD_CLAIM : string :=
  "observed HTTP state transition does not establish unauthorized workflow bypass".
(** [research/evidence.py:39-45 SUPPORTED_EVIDENCE_STRATEGIES] *)
Definition SUPPORTED_EVIDENCE_STRATEGIES : list string :=
  [DIAGNOSTIC_ECHO_EVALUATION_STRATEGY; DIFFERENTIAL_STRATEGY; TRANSITION_STRATEGY].
(** [research/evidence.py:47-57 FORBIDDEN_EVIDENCE_KEYS] *)
Definition FORBIDDEN_EVIDENCE_KEYS : list string :=
  [ "severity"; "finding"; "candidate"; "exploitability"; "authorization"; "confidence";
    "verification" ].

(** [research/evidence.py:66-72 EvidenceAdmissionOutcome] *)
Module EvidenceAdmissionOutcome.
Inductive t : Set :=
  | ADMITTED | REJECTED_INSUFFICIENT_SUPPORT | REJECTED_BROKEN_PROVENANCE
  | REJECTED_EXECUTION_UNUSABLE | REJECTED_POLICY_CONFLICT | NEEDS_VERIFICATION.
#[global] Instance eq_dec : EqDecision t.
Proof. solve_decision. Defined.
Definition value (x : t) : string :=
  match x with
  | ADMITTED => "ADMITTED" | REJECTED_INSUFFICIENT_SUPPORT => "REJECTED_INSUFFICIENT_SUPPORT"
  | REJECTED_BROKEN_PROVENANCE => "REJECTED_BROKEN_PROVENANCE"
  | REJECTED_EXECUTION_UNUSABLE => "REJECTED_EXECUTION_UNUSABLE"
  | REJECTED_POLICY_CONFLICT => "REJECTED_POLICY_CONFLICT"
  | NEEDS_VERIFICATION => "NEEDS_VERIFICATION"
  end.
Definition members : list t :=
  [ ADMITTED; REJECTED_INSUFFICIENT_SUPPORT; REJECTED_BROKEN_PROVENANCE; REJECTED_EXECUTION_UNUSABLE;
    REJECTED_POLICY_CONFLICT; NEEDS_VERIFICATION ].
End EvidenceAdmissionOutcome.

(** [research/evidence.py:100-126 EvidenceObservationRef] *)
Module EvidenceObservationRef.
Record t : Set := mk {
  observation_id : string;
  research_run_id : string;
  worker_result_id : string;
  observation_kind : string }.

Definition post_init (x : t) : result t :=
  a ← require_text x.(observation_id);
  b ← require_text x.(research_run_id);
  c ← require_text x.(worker_result_id);
  d ← require_text x.(observation_kind);
  Ok (mk a b c d).
End EvidenceObservationRef.

(** [research/evidence.py:130-194 EvidenceAdmissionContext] *)
Module EvidenceAdmissionContext.
Record t : Set := mk {
  research_run_id : string;
  hypothesis_id : string;
  experiment_id : string;
  evaluation_strategy : string;
  observations : list EvidenceObservationRef.t;
  missing_source_ids : list string;
  assessment_id : option string;
  assessment_outcome : option AssessmentOutcome.t;
  attempt_state : option string;
  worker_status : option string;
  invocation_status : option string;
  execution_outcome : option string;
  experiment_execution_state : option string }.

Definition post_init (x : t) : result t :=
  a ← require_text x.(research_run_id);
  b ← require_text x.(hypothesis_id);
  c ← require_text x.(experiment_id);
  d ← require_text x.(evaluation_strategy);
  Ok (mk a b c d x.(observations) x.(missing_source_ids) x.(assessment_id) x.(assessment_outcome)
        x.(attempt_state) x.(worker_status) x.(invocation_status) x.(execution_outcome)
        x.(experiment_execution_state)).

(** [research/evidence.py:170-171 EvidenceAdmissionContext.observation_ids] *)
Definition observation_ids (x : t) : list string :=
  EvidenceObservationRef.observation_id <$> x.(observations).

(** [research/evidence.py:174-194 EvidenceAdmissionContext.execution_unusable] *)
Definition execution_unusable (x : t) : bool :=
  bool_decide (x.(assessment_outcome) = Some AssessmentOutcome.EXECUTION_UNUSABLE)
  || is_one_of x.(execution_outcome) UNUSABLE_EXECUTION_OUTCOMES
  || is_one_of x.(attempt_state) UNUSABLE_ATTEMPT_STATES
  || is_one_of x.(experiment_execution_state) UNUSABLE_EXPERIMENT_STATES
  || is_one_of x.(invocation_status)
       [ "TIMED_OUT"; "START_FAILED"; "PROCESS_FAILED"; "PROTOCOL_ERROR"; "CONTRACT_INVALID";
         "CANCELLED" ]
  || is_one_of x.(worker_status) ["TIMED_OUT"; "CANCELLED"; "EXECUTION_FAILED"].
End EvidenceAdmissionContext.

(** [research/evidence.py:198-237 EvidenceProposal] *)
Module EvidenceProposal.
Record t : Type := mk {
  proposal_id : string;
  research_run_id : string;
  hypothesis_id : string;
  experiment_id : string;
  observation_ids : list string;
  assessment_ids : list string;
  polarity : EvidencePolarity.t;
  claim_scope : string;
  rationale : list (string * pyval);
  provenance : list (string * pyval) }.

Definition post_init (x : t) : result t :=
  a ← require_text x.(proposal_id);
  b ← require_text x.(research_run_id);
  c ← require_text x.(hypothesis_id);
  d ← require_text x.(experiment_id);
  e ← require_ids x.(observation_ids);
  f ← require_ids x.(assessment_ids);
  g ← require_text x.(claim_scope);
  h ← reject_forbidden FORBIDDEN_EVIDENCE_KEYS x.(rationale);
  i ← reject_forbidden FORBIDDEN_EVIDENCE_KEYS x.(provenance);
  Ok (mk a b c d e f x.(polarity) g h i).
End EvidenceProposal.

(** [research/evidence.py:241-249 EvidenceAdmissionDecision] *)
Module EvidenceAdmissionDecision.
Record t : Type := mk {
  outcome : EvidenceAdmissionOutcome.t;
  reason_codes : list string;
  proposal : EvidenceProposal.t;
  admitted : bool }.

(** [research/evidence.py:248-249 EvidenceAdmissionDecision.creates_evidence] *)
Definition creates_evidence (x : t) : bool :=
  bool_decide (x.(outcome) = EvidenceAdmissionOutcome.ADMITTED) && x.(admitted).
End EvidenceAdmissionDecision.

(** What the three proposers share: a usable execution of their strategy that was assessed and
    observed.
    [research/evidence.py:337-372 propose_state_transition_evidence] *)
Definition proposable (strategy : string) (c : EvidenceAdmissionContext.t)
    : option (string * AssessmentOutcome.t) :=
  if negb (c.(EvidenceAdmissionContext.evaluation_strategy) =? strategy)%string then None
  else if EvidenceAdmissionContext.execution_unusable c then None
  else match c.(EvidenceAdmissionContext.assessment_id), c.(EvidenceAdmissionContext.assessment_outcome) with
       | Some id, Some outcome =>
           if bool_decide (c.(EvidenceAdmissionContext.observations) = []) then None
           else Some (id, outcome)
       | _, _ => None
       end.

(** [EvidenceProposal(...)] over all the observations of the context. *)
Definition proposal_over (c : EvidenceAdmissionContext.t) (proposal_id : string)
    (assessment_ids : list string) (polarity : EvidencePolarity.t) (claim : string)
    (rationale provenance : list (string * pyval)) : result EvidenceProposal.t :=
  EvidenceProposal.post_init
    (EvidenceProposal.mk proposal_id c.(EvidenceAdmissionContext.research_run_id)
       c.(EvidenceAdmissionContext.hypothesis_id) c.(EvidenceAdmissionContext.experiment_id)
       (EvidenceAdmissionContext.observation_ids c) assessment_ids polarity claim rationale provenance).

(** The proposal over the observations that cites the assessment.
    [research/evidence.py:299-334 propose_authorization_differential_evidence] *)
Definition propose (c : EvidenceAdmissionContext.t) (proposal_id assessment_id : string)
    (polarity : EvidencePolarity.t) (claim reason source : string) (more : list (string * pyval))
    : result (option EvidenceProposal.t) :=
  p ← proposal_over c proposal_id [assessment_id] polarity claim
        ([ ("reason_code", PStr reason);
           ("evaluation_strategy", PStr c.(EvidenceAdmissionContext.evaluation_strategy)) ] ++ more)
        [ ("source", PStr source); ("assessment_id", PStr assessment_id);
          ("experiment_id", PStr c.(EvidenceAdmissionContext.experiment_id)) ];
  Ok (Some p).

(** [research/evidence.py:252-296 propose_diagnostic_echo_evidence] *)
Definition propose_diagnostic_echo_evidence (c : EvidenceAdmissionContext.t) (proposal_id : string)
    : result (option EvidenceProposal.t) :=
  let echo := "diagnostic.echo.deterministic" in
  let plumbing := [("not_vulnerability_evidence", PBool true)] in
  match proposable DIAGNOSTIC_ECHO_EVALUATION_STRATEGY c with
  | Some (id, AssessmentOutcome.CONSISTENT_WITH_PREDICTION) =>
      propose c proposal_id id EvidencePolarity.SUPPORTING DIAGNOSTIC_ECHO_MATCHED_CLAIM "ECHO_MATCHED"
        echo plumbing
  | Some (id, AssessmentOutcome.CONTRADICTS_PREDICTION) =>
      propose c proposal_id id EvidencePolarity.CONTRADICTING DIAGNOSTIC_ECHO_MISMATCHED_CLAIM
        "ECHO_MISMATCHED" echo plumbing
  | _ => Ok None
  end.

(** [research/evidence.py:299-334 propose_authorization_differential_evidence] *)
Definition propose_authorization_differential_evidence (c : EvidenceAdmissionContext.t)
    (proposal_id : string) : result (option EvidenceProposal.t) :=
  match proposable DIFFERENTIAL_STRATEGY c with
  | Some (id, AssessmentOutcome.CONSISTENT_WITH_PREDICTION) =>
      propose c proposal_id id EvidencePolarity.SUPPORTING HTTP_AUTHORIZATION_DIFFERENTIAL_CLAIM
        "AUTHORIZATION_DIFFERENTIAL_ESTABLISHED" "http.authorization.differential.deterministic" []
  | _ => Ok None
  end.

(** [research/evidence.py:337-372 propose_state_transition_evidence] *)
Definition propose_state_transition_evidence (c : EvidenceAdmissionContext.t) (proposal_id : string)
    : result (option EvidenceProposal.t) :=
  match proposable TRANSITION_STRATEGY c with
  | Some (id, AssessmentOutcome.CONSISTENT_WITH_PREDICTION) =>
      propose c proposal_id id EvidencePolarity.SUPPORTING HTTP_STATE_TRANSITION_CLAIM
        "UNAUTHORIZED_STATE_TRANSITION_ESTABLISHED" "http.state_transition.deterministic" []
  | _ => Ok None
  end.

(** ** The admission *)

Definition decision (p : EvidenceProposal.t) (outcome : EvidenceAdmissionOutcome.t)
    (codes : list string) : EvidenceAdmissionDecision.t :=
  EvidenceAdmissionDecision.mk outcome codes p
    (bool_decide (outcome = EvidenceAdmissionOutcome.ADMITTED)).

(** What is wrong with the references of a proposal.
    [research/evidence.py:375-467 admit_evidence] *)
Definition source_codes (p : EvidenceProposal.t) (c : EvidenceAdmissionContext.t) : list string :=
  code_if (negb (p.(EvidenceProposal.research_run_id) =? c.(EvidenceAdmissionContext.research_run_id))%string)
    "WRONG_RESEARCH_RUN"
  ++ code_if (negb (p.(EvidenceProposal.hypothesis_id) =? c.(EvidenceAdmissionContext.hypothesis_id))%string)
       "WRONG_HYPOTHESIS"
  ++ code_if (negb (p.(EvidenceProposal.experiment_id) =? c.(EvidenceAdmissionContext.experiment_id))%string)
       "WRONG_EXPERIMENT"
  ++ code_if (negb (bool_decide (c.(EvidenceAdmissionContext.missing_source_ids) = []))) "MISSING_SOURCE"
  ++ code_if (existsb (fun id => negb (mem id (EvidenceAdmissionContext.observation_ids c)))
                p.(EvidenceProposal.observation_ids)
              || bool_decide (p.(EvidenceProposal.observation_ids) = []))
       "HALLUCINATED_OR_ABSENT_SOURCE"
  ++ code_if (existsb (fun o => negb (o.(EvidenceObservationRef.research_run_id)
                                      =? c.(EvidenceAdmissionContext.research_run_id))%string)
                c.(EvidenceAdmissionContext.observations)) "OBSERVATION_WRONG_RUN"
  ++ match c.(EvidenceAdmissionContext.assessment_id) with
     | None => ["ASSESSMENT_REQUIRED"]
     | Some id => code_if (negb (mem id p.(EvidenceProposal.assessment_ids))) "ASSESSMENT_NOT_REFERENCED"
     end.

(** The admission of a class whose only claim is [claim]; the test of the other class's claim after
    it can never hold.
    [research/evidence.py:470-515 _admit_http_authorization_evidence] *)
Definition admit_vulnerability_evidence (p : EvidenceProposal.t) (c : EvidenceAdmissionContext.t)
    (codes : list string) (claim other not_established intact : string) : EvidenceAdmissionDecision.t :=
  if negb (bool_decide (c.(EvidenceAdmissionContext.assessment_outcome)
                        = Some AssessmentOutcome.CONSISTENT_WITH_PREDICTION))
  then decision p EvidenceAdmissionOutcome.REJECTED_INSUFFICIENT_SUPPORT (not_established :: codes)
  else if negb (p.(EvidenceProposal.claim_scope) =? claim)%string
  then decision p EvidenceAdmissionOutcome.REJECTED_POLICY_CONFLICT ("CLAIM_EXCEEDS_SOURCES" :: codes)
  else if (p.(EvidenceProposal.claim_scope) =? other)%string
  then decision p EvidenceAdmissionOutcome.REJECTED_POLICY_CONFLICT ("CROSS_CLASS_CLAIM_REJECTED" :: codes)
  else if negb (bool_decide (p.(EvidenceProposal.polarity) = EvidencePolarity.SUPPORTING))
  then decision p EvidenceAdmissionOutcome.REJECTED_INSUFFICIENT_SUPPORT
         ("POLARITY_DOES_NOT_SUPPORT_CLAIM" :: codes)
  else if negb (bool_decide (codes = []))
  then decision p EvidenceAdmissionOutcome.REJECTED_INSUFFICIENT_SUPPORT codes
  else decision p EvidenceAdmissionOutcome.ADMITTED [intact].

(** [research/evidence.py:470-515 _admit_http_authorization_evidence] *)
Definition admit_http_authorization_evidence (p : EvidenceProposal.t) (c : EvidenceAdmissionContext.t)
    (codes : list string) : EvidenceAdmissionDecision.t :=
  admit_vulnerability_evidence p c codes HTTP_AUTHORIZATION_DIFFERENTIAL_CLAIM HTTP_STATE_TRANSITION_CLAIM
    "DIFFERENTIAL_DOES_NOT_ESTABLISH_MISSING_OBJECT_ACCESS_CONTROL"
    "HTTP_AUTHORIZATION_DIFFERENTIAL_PROVENANCE_INTACT".

(** [research/evidence.py:518-563 _admit_state_transition_evidence] *)
Definition admit_state_transition_evidence (p : EvidenceProposal.t) (c : EvidenceAdmissionContext.t)
    (codes : list string) : EvidenceAdmissionDecision.t :=
  admit_vulnerability_evidence p c codes HTTP_STATE_TRANSITION_CLAIM HTTP_AUTHORIZATION_DIFFERENTIAL_CLAIM
    "STATE_TRANSITION_DOES_NOT_ESTABLISH_WORKFLOW_BYPASS"
    "HTTP_STATE_TRANSITION_AUTHORIZATION_PROVENANCE_INTACT".

(** [research/evidence.py:375-467 admit_evidence] *)
Definition admit_evidence (p : EvidenceProposal.t) (c : EvidenceAdmissionContext.t)
    : EvidenceAdmissionDecision.t :=
  let codes := source_codes p c in
  let strategy := c.(EvidenceAdmissionContext.evaluation_strategy) in
  if EvidenceAdmissionContext.execution_unusable c
  then decision p EvidenceAdmissionOutcome.REJECTED_EXECUTION_UNUSABLE ("EXECUTION_UNUSABLE" :: codes)
  else if mem "WRONG_RESEARCH_RUN" codes || mem "OBSERVATION_WRONG_RUN" codes || mem "MISSING_SOURCE" codes
  then decision p EvidenceAdmissionOutcome.REJECTED_BROKEN_PROVENANCE codes
  else if mem "HALLUCINATED_OR_ABSENT_SOURCE" codes
  then decision p EvidenceAdmissionOutcome.REJECTED_BROKEN_PROVENANCE codes
  else if negb (mem strategy SUPPORTED_EVIDENCE_STRATEGIES)
  then decision p EvidenceAdmissionOutcome.REJECTED_POLICY_CONFLICT
         ("UNSUPPORTED_EVALUATION_STRATEGY" :: codes)
  else if (strategy =? DIFFERENTIAL_STRATEGY)%string then admit_http_authorization_evidence p c codes
  else if (strategy =? TRANSITION_STRATEGY)%string then admit_state_transition_evidence p c codes
  else
    let admitted_as claim :=
      if negb (p.(EvidenceProposal.claim_scope) =? claim)%string
      then decision p EvidenceAdmissionOutcome.REJECTED_POLICY_CONFLICT ("CLAIM_EXCEEDS_SOURCES" :: codes)
      else if negb (bool_decide (codes = []))
      then decision p EvidenceAdmissionOutcome.REJECTED_INSUFFICIENT_SUPPORT codes
      else decision p EvidenceAdmissionOutcome.ADMITTED ["DIAGNOSTIC_ECHO_PROVENANCE_INTACT"] in
    match c.(EvidenceAdmissionContext.assessment_outcome) with
    | Some AssessmentOutcome.CONSISTENT_WITH_PREDICTION => admitted_as DIAGNOSTIC_ECHO_MATCHED_CLAIM
    | Some AssessmentOutcome.CONTRADICTS_PREDICTION => admitted_as DIAGNOSTIC_ECHO_MISMATCHED_CLAIM
    | _ => decision p EvidenceAdmissionOutcome.REJECTED_INSUFFICIENT_SUPPORT
             ("ASSESSMENT_DOES_NOT_SUPPORT_EVIDENCE" :: codes)
    end.

(** ** The rows *)

(** [data/records.py:1012-1057 EvidenceAdmissionRecord] *)
Module EvidenceAdmissionRecord.
Record t : Set := mk {
  admission_record_id : string;
  proposal_id : string;
  research_run_id : string;
  outcome : string;
  reason_codes : list string;
  observation_ids : list string;
  assessment_ids : list string;
  admission_policy_version : string;
  evaluator_version : string;
  created_at : Z;
  admitted_evidence_id : option string;
  claim_scope : option string;
  polarity : option string }.

Definition post_init (x : t) : result t :=
  _ ← data_opaque_id x.(admission_record_id);
  _ ← data_opaque_id x.(proposal_id);
  _ ← data_opaque_id x.(research_run_id);
  raise_if negb (mem x.(outcome) (EvidenceAdmissionOutcome.value <$> EvidenceAdmissionOutcome.members))
  as PersistenceInputError;;
  raise_if bool_decide (x.(reason_codes) = []) as PersistenceInputError;;
  raise_if Str.is_blank x.(admission_policy_version) as PersistenceInputError;;
  raise_if Str.is_blank x.(evaluator_version) as PersistenceInputError;;
  _ ← match x.(admitted_evidence_id) with
      | Some id => if (x.(outcome) =? "ADMITTED")%string
                   then _ ← data_opaque_id id; Ok tt else Raise PersistenceInputError
      | None => raise_if (x.(outcome) =? "ADMITTED")%string as PersistenceInputError;; Ok tt
      end;
  raise_if match x.(polarity) with
           | Some p => negb (mem p ALLOWED_EVIDENCE_POLARITIES) | None => false end
  as PersistenceInputError;;
  raise_if match x.(claim_scope) with Some s => Str.is_blank s | None => false end
  as PersistenceInputError;;
  Ok x.

#[global] Instance post_init_validator : Validator post_init.
Proof. solve_validator. Qed.
End EvidenceAdmissionRecord.

Module EvidenceDb.
Record t : Type := mk {
  rows : AssessDb.t;
  runs : list string;
  evidence : list EvidenceRecord.t;
  admissions : list EvidenceAdmissionRecord.t }.
End EvidenceDb.

Definition is_supporting (r : EvidenceRecord.t) : bool :=
  (r.(EvidenceRecord.polarity) =? "SUPPORTING")%string.

(** The index [uq_evidence_experiment_supporting] refuses the row: the one conflict a caller asks
    for. *)
Definition supporting_conflict (db : EvidenceDb.t) (r : EvidenceRecord.t) : bool :=
  is_supporting r
  && existsb (fun o => is_supporting o
                       && (o.(EvidenceRecord.experiment_id) =? r.(EvidenceRecord.experiment_id))%string)
       db.(EvidenceDb.evidence).

(** The keys to the hypothesis and the experiment of the run and to the observations, none twice.
    [None]: the conflict is the one of [supporting_conflict].
    [data/postgres/repositories.py:1403-1426 PostgresEvidenceRepository.insert] *)
Definition insert_evidence (db : EvidenceDb.t) (r : EvidenceRecord.t) : result (option EvidenceDb.t) :=
  let run := r.(EvidenceRecord.research_run_id) in
  raise_if existsb (fun o => (o.(EvidenceRecord.evidence_id) =? r.(EvidenceRecord.evidence_id))%string)
             db.(EvidenceDb.evidence) as PersistenceConflictError;;
  if supporting_conflict db r then Ok None
  else
  raise_if negb (existsb (fun h =>
      (h.(HypothesisRecord.hypothesis_id) =? r.(EvidenceRecord.hypothesis_id))%string
      && (h.(HypothesisRecord.research_run_id) =? run)%string) db.(EvidenceDb.rows).(AssessDb.hypotheses))
    || negb (existsb (fun e =>
      (e.(ExperimentRecord.experiment_id) =? r.(EvidenceRecord.experiment_id))%string
      && (e.(ExperimentRecord.research_run_id) =? run)%string)
      db.(EvidenceDb.rows).(AssessDb.experiments))
  as PersistenceError;;
  raise_if negb (bool_decide (NoDup r.(EvidenceRecord.observation_ids))) as PersistenceConflictError;;
  raise_if negb (forallb (fun id => existsb (fun o =>
      (o.(ObservationRecord.observation_id) =? id)%string) db.(EvidenceDb.rows).(AssessDb.observations))
      r.(EvidenceRecord.observation_ids)) as PersistenceError;;
  Ok (Some (EvidenceDb.mk db.(EvidenceDb.rows) db.(EvidenceDb.runs) (db.(EvidenceDb.evidence) ++ [r])
              db.(EvidenceDb.admissions))).

(** [data/postgres/repositories.py:1477-1496 PostgresEvidenceAdmissionRepository.insert] *)
Definition insert_admission (db : EvidenceDb.t) (r : EvidenceAdmissionRecord.t) : result EvidenceDb.t :=
  raise_if existsb (fun o => (o.(EvidenceAdmissionRecord.admission_record_id)
                              =? r.(EvidenceAdmissionRecord.admission_record_id))%string)
             db.(EvidenceDb.admissions) as PersistenceConflictError;;
  raise_if negb (mem r.(EvidenceAdmissionRecord.research_run_id) db.(EvidenceDb.runs))
    || match r.(EvidenceAdmissionRecord.admitted_evidence_id) with
       | Some id => negb (mem id (EvidenceRecord.evidence_id <$> db.(EvidenceDb.evidence)))
       | None => false
       end
  as PersistenceError;;
  Ok (EvidenceDb.mk db.(EvidenceDb.rows) db.(EvidenceDb.runs) db.(EvidenceDb.evidence)
        (db.(EvidenceDb.admissions) ++ [r])).

(** [data/postgres/repositories.py:1508-1524 PostgresEvidenceAdmissionRepository.list_for_research_run] *)
Definition admissions_for_run (db : EvidenceDb.t) (run : string) : list EvidenceAdmissionRecord.t :=
  sort_by EvidenceAdmissionRecord.admission_record_id
    (List.filter (fun r => (r.(EvidenceAdmissionRecord.research_run_id) =? run)%string)
       db.(EvidenceDb.admissions)).

(** [data/postgres/repositories.py:1449-1450 PostgresEvidenceRepository.list_for_experiment] *)
Definition evidence_for_experiment (db : EvidenceDb.t) (experiment_id : string)
    : result (list EvidenceRecord.t) :=
  _ ← data_opaque_id experiment_id;
  Ok (sort_by EvidenceRecord.evidence_id
        (List.filter (fun r => (r.(EvidenceRecord.experiment_id) =? experiment_id)%string)
           db.(EvidenceDb.evidence))).

(** ** The use case *)

(** [application/admit_diagnostic_evidence.py:50-53 AdmitDiagnosticEvidenceCommand] *)
Module AdmitCommand.
Record t : Type := mk {
  experiment_id : string;
  assessment_id : option string;
  proposal : option EvidenceProposal.t }.
End AdmitCommand.

(** [application/admit_diagnostic_evidence.py:57-62 AdmitDiagnosticEvidenceResult] *)
Module AdmitResult.
Record t : Set := mk {
  outcome : EvidenceAdmissionOutcome.t;
  admission_record_id : string;
  evidence_id : option string;
  reason_codes : list string;
  proposal_id : string }.
End AdmitResult.

(** What [new_opaque_id] and the clock answer to one execution. *)
Record fresh : Set := Fresh {
  new_proposal_id : string;
  new_admission_id : string;
  new_evidence_id : string;
  evidence_now : Z;
  admission_now : Z }.

(** [application/admit_diagnostic_evidence.py:268-278 _admitted_for_assessment] *)
Definition admitted_for_assessment (records : list EvidenceAdmissionRecord.t) (assessment_id : string)
    : option EvidenceAdmissionRecord.t :=
  head (sort_by EvidenceAdmissionRecord.created_at
          (List.filter (fun r => mem assessment_id r.(EvidenceAdmissionRecord.assessment_ids)
                                 && (r.(EvidenceAdmissionRecord.outcome) =? "ADMITTED")%string) records)).

(** [application/admit_diagnostic_evidence.py:281-288 _result_from_admission] *)
Definition result_from_admission (r : EvidenceAdmissionRecord.t) : result AdmitResult.t :=
  outcome ← enum_of EvidenceAdmissionOutcome.value EvidenceAdmissionOutcome.members
              r.(EvidenceAdmissionRecord.outcome);
  Ok (AdmitResult.mk outcome r.(EvidenceAdmissionRecord.admission_record_id)
        r.(EvidenceAdmissionRecord.admitted_evidence_id) r.(EvidenceAdmissionRecord.reason_codes)
        r.(EvidenceAdmissionRecord.proposal_id)).

(** [application/admit_diagnostic_evidence.py:291-302 _select_assessment] *)
Definition select_assessment (assessments : list HypothesisAssessmentRecord.t)
    (assessment_id : option string) : result (option HypothesisAssessmentRecord.t) :=
  match assessments, assessment_id with
  | [], _ => Ok None
  | _, None => Ok (last assessments)
  | _, Some id =>
      match List.find (fun a => (a.(HypothesisAssessmentRecord.assessment_id) =? id)%string) assessments with
      | Some a => Ok (Some a)
      | None => Raise ApplicationError
      end
  end.

(** Every reference takes the run of the experiment.
    [application/admit_diagnostic_evidence.py:305-346 _admission_context] *)
Definition admission_context (experiment : ExperimentRecord.t) (strategy : string)
    (assessment : option HypothesisAssessmentRecord.t) (observations : list ObservationRecord.t)
    (attempt : option ExecutionAttemptRecord.t) (worker_result : option WorkerResultRecord.t)
    (requested : list string) : result EvidenceAdmissionContext.t :=
  refs ← traverse (fun o => EvidenceObservationRef.post_init
           (EvidenceObservationRef.mk o.(ObservationRecord.observation_id)
              experiment.(ExperimentRecord.research_run_id) o.(ObservationRecord.worker_result_id)
              o.(ObservationRecord.observation_kind))) observations;
  let present := EvidenceObservationRef.observation_id <$> refs in
  outcome ← match assessment with
            | None => Ok None
            | Some a => o ← enum_of AssessmentOutcome.value outcome_members
                              a.(HypothesisAssessmentRecord.assessment_outcome); Ok (Some o)
            end;
  EvidenceAdmissionContext.post_init
    (EvidenceAdmissionContext.mk experiment.(ExperimentRecord.research_run_id)
       experiment.(ExperimentRecord.hypothesis_id) experiment.(ExperimentRecord.experiment_id) strategy
       refs (List.filter (fun id => negb (mem id present)) requested)
       (HypothesisAssessmentRecord.assessment_id <$> assessment) outcome
       (ExecutionAttemptRecord.state <$> attempt) (WorkerResultRecord.status <$> worker_result)
       None None (Some experiment.(ExperimentRecord.execution_state))).

(** A proposal without a claim of its own: what is stored of an experiment that showed nothing.
    [application/admit_diagnostic_evidence.py:75-229 AdmitDiagnosticEvidence.execute] *)
Definition neutral_proposal (c : EvidenceAdmissionContext.t) (proposal_id claim source reason : string)
    (more : list (string * pyval)) : result EvidenceProposal.t :=
  proposal_over c proposal_id
    (match c.(EvidenceAdmissionContext.assessment_id) with None => [] | Some id => [id] end)
    EvidencePolarity.NEUTRAL claim (("reason_code", PStr reason) :: more) [("source", PStr source)].

(** The proposal when the caller has none.
    [application/admit_diagnostic_evidence.py:75-229 AdmitDiagnosticEvidence.execute] *)
Definition own_proposal (strategy : string) (c : EvidenceAdmissionContext.t) (proposal_id : string)
    : result EvidenceProposal.t :=
  built ← (if (strategy =? DIFFERENTIAL_STRATEGY)%string
           then propose_authorization_differential_evidence c proposal_id
           else if (strategy =? TRANSITION_STRATEGY)%string
           then propose_state_transition_evidence c proposal_id
           else propose_diagnostic_echo_evidence c proposal_id);
  match built with
  | Some p => Ok p
  | None =>
      if EvidenceAdmissionContext.execution_unusable c
      then neutral_proposal c proposal_id "diagnostic execution was unusable; no Evidence"
             "diagnostic.echo.unusable" "EXECUTION_UNUSABLE" [("not_vulnerability_evidence", PBool true)]
      else if (strategy =? DIFFERENTIAL_STRATEGY)%string
      then neutral_proposal c proposal_id HTTP_AUTHORIZATION_CONTROL_HELD_CLAIM
             "http.authorization.differential.rejected"
             "DIFFERENTIAL_DOES_NOT_ESTABLISH_MISSING_OBJECT_ACCESS_CONTROL" []
      else if (strategy =? TRANSITION_STRATEGY)%string
      then neutral_proposal c proposal_id HTTP_STATE_TRANSITION_CONTROL_HELD_CLAIM
             "http.state_transition.rejected" "STATE_TRANSITION_DOES_NOT_ESTABLISH_WORKFLOW_BYPASS" []
      else Raise ApplicationError
  end.

(** [application/admit_diagnostic_evidence.py:231-265 AdmitDiagnosticEvidence._reload_admitted] *)
Definition reload_admitted (db : EvidenceDb.t) (experiment_id : string) (assessment_id : option string)
    : result AdmitResult.t :=
  id ← data_opaque_id experiment_id;
  match List.find (fun e => (e.(ExperimentRecord.experiment_id) =? id)%string)
          db.(EvidenceDb.rows).(AssessDb.experiments) with
  | None => Raise ApplicationError
  | Some experiment =>
      match a ← assessment_id;
            admitted_for_assessment (admissions_for_run db experiment.(ExperimentRecord.research_run_id)) a with
      | Some existing => result_from_admission existing
      | None =>
          rows ← evidence_for_experiment db id;
          match sort_by EvidenceRecord.created_at (List.filter is_supporting rows) with
          | [] => Raise ApplicationError
          | r :: _ =>
              Ok (AdmitResult.mk EvidenceAdmissionOutcome.ADMITTED r.(EvidenceRecord.admission_record_id)
                    (Some r.(EvidenceRecord.evidence_id)) ["EVIDENCE_ALREADY_ADMITTED"]
                    r.(EvidenceRecord.admission_record_id))
          end
      end
  end.

(** [EvidenceRecord(...)] of an admitted proposal.
    [application/admit_diagnostic_evidence.py:75-229 AdmitDiagnosticEvidence.execute] *)
Definition evidence_record (p : EvidenceProposal.t) (f : fresh) : result EvidenceRecord.t :=
  EvidenceRecord.post_init
    (EvidenceRecord.mk f.(new_evidence_id) p.(EvidenceProposal.research_run_id)
       p.(EvidenceProposal.hypothesis_id) p.(EvidenceProposal.experiment_id) f.(new_admission_id)
       (EvidencePolarity.value p.(EvidenceProposal.polarity)) p.(EvidenceProposal.claim_scope)
       p.(EvidenceProposal.observation_ids) p.(EvidenceProposal.assessment_ids) f.(evidence_now)).

(** [application/admit_diagnostic_evidence.py:349-372 _admission_record] *)
Definition admission_record (f : fresh) (evidence_id : option string) (d : EvidenceAdmissionDecision.t)
    (evaluator_version : string) : result EvidenceAdmissionRecord.t :=
  let p := d.(EvidenceAdmissionDecision.proposal) in
  EvidenceAdmissionRecord.post_init
    (EvidenceAdmissionRecord.mk f.(new_admission_id) p.(EvidenceProposal.proposal_id)
       p.(EvidenceProposal.research_run_id)
       (EvidenceAdmissionOutcome.value d.(EvidenceAdmissionDecision.outcome))
       d.(EvidenceAdmissionDecision.reason_codes) p.(EvidenceProposal.observation_ids)
       p.(EvidenceProposal.assessment_ids) EVIDENCE_ADMISSION_POLICY_VERSION evaluator_version
       f.(admission_now) evidence_id (Some p.(EvidenceProposal.claim_scope))
       (Some (EvidencePolarity.value p.(EvidenceProposal.polarity)))).

(** The writes of a decision; [None]: the evidence met the supporting evidence of the experiment.
    [application/admit_diagnostic_evidence.py:75-229 AdmitDiagnosticEvidence.execute] *)
Definition store_decision (db : EvidenceDb.t) (f : fresh) (d : EvidenceAdmissionDecision.t)
    (assessment : option HypothesisAssessmentRecord.t) : result (option (EvidenceDb.t * AdmitResult.t)) :=
  let p := d.(EvidenceAdmissionDecision.proposal) in
  let creates := EvidenceAdmissionDecision.creates_evidence d in
  let evidence_id := if creates then Some f.(new_evidence_id) else None in
  inserted ← (if creates then r ← evidence_record p f; insert_evidence db r else Ok (Some db));
  match inserted with
  | None => Ok None
  | Some db1 =>
      a ← admission_record f evidence_id d
            (match assessment with
             | Some a => a.(HypothesisAssessmentRecord.evaluator_version) | None => "none" end);
      db2 ← insert_admission db1 a;
      Ok (Some (db2, AdmitResult.mk d.(EvidenceAdmissionDecision.outcome) f.(new_admission_id) evidence_id
                       d.(EvidenceAdmissionDecision.reason_codes) p.(EvidenceProposal.proposal_id)))
  end.

(** The reads see [seen]; the writes meet [db], where another worker may have admitted meanwhile.
    [application/admit_diagnostic_evidence.py:75-229 AdmitDiagnosticEvidence.execute] *)
Definition admit_diagnostic_evidence (seen db : EvidenceDb.t) (c : AdmitCommand.t) (f : fresh)
    : result (EvidenceDb.t * AdmitResult.t) :=
  let rows := seen.(EvidenceDb.rows) in
  id ← data_opaque_id c.(AdmitCommand.experiment_id);
  match List.find (fun e => (e.(ExperimentRecord.experiment_id) =? id)%string) rows.(AssessDb.experiments),
        List.find (fun p => (p.(ExperimentPlanRecord.experiment_id) =? id)%string) rows.(AssessDb.plans) with
  | Some experiment, Some plan =>
      let strategy := plan.(ExperimentPlanRecord.evaluation_strategy) in
      raise_if negb (mem strategy SUPPORTED_EVIDENCE_STRATEGIES) as ApplicationError;;
      assessment ← select_assessment (assessments_of rows id) c.(AdmitCommand.assessment_id);
      match match c.(AdmitCommand.proposal), assessment with
            | None, Some a => admitted_for_assessment
                (admissions_for_run seen experiment.(ExperimentRecord.research_run_id))
                a.(HypothesisAssessmentRecord.assessment_id)
            | _, _ => None
            end with
      | Some existing => answer ← result_from_admission existing; Ok (db, answer)
      | None =>
          context ← admission_context experiment strategy assessment (observations_of rows id)
                      (head (attempts_of rows id)) (head (worker_results_of rows id))
                      (match c.(AdmitCommand.proposal) with
                       | Some p => p.(EvidenceProposal.observation_ids) | None => [] end);
          proposal ← match c.(AdmitCommand.proposal) with
                     | Some p => Ok p
                     | None => own_proposal strategy context f.(new_proposal_id)
                     end;
          stored ← store_decision db f (admit_evidence proposal context) assessment;
          match stored with
          | Some answer => Ok answer
          | None => answer ← reload_admitted db c.(AdmitCommand.experiment_id) c.(AdmitCommand.assessment_id);
                    Ok (db, answer)
          end
      end
  | _, _ => Raise ApplicationError
  end.

(** ** When evidence is admitted *)

(** The references of a proposal are those of the experiment. *)
Record intact (p : EvidenceProposal.t) (c : EvidenceAdmissionContext.t) : Prop := {
  in_run : p.(EvidenceProposal.research_run_id) = c.(EvidenceAdmissionContext.research_run_id);
  in_hypothesis : p.(EvidenceProposal.hypothesis_id) = c.(EvidenceAdmissionContext.hypothesis_id);
  in_experiment : p.(EvidenceProposal.experiment_id) = c.(EvidenceAdmissionContext.experiment_id);
  in_sources : c.(EvidenceAdmissionContext.missing_source_ids) = [];
  in_observed : p.(EvidenceProposal.observation_ids) ≠ []
    /\ p.(EvidenceProposal.observation_ids) ⊆ EvidenceAdmissionContext.observation_ids c;
  in_same_run : Forall (fun o => o.(EvidenceObservationRef.research_run_id)
                                 = c.(EvidenceAdmissionContext.research_run_id))
                  c.(EvidenceAdmissionContext.observations);
  in_assessed : exists id, c.(EvidenceAdmissionContext.assessment_id) = Some id
    /\ id ∈ p.(EvidenceProposal.assessment_ids) }.

(** What an outcome of a strategy lets a proposal claim, and with which polarity: the echo does not
    look at the polarity. *)
Inductive claimable : string -> AssessmentOutcome.t -> string -> EvidencePolarity.t -> Prop :=
  | echo_matched polarity :
      claimable DIAGNOSTIC_ECHO_EVALUATION_STRATEGY AssessmentOutcome.CONSISTENT_WITH_PREDICTION
        DIAGNOSTIC_ECHO_MATCHED_CLAIM polarity
  | echo_mismatched polarity :
      claimable DIAGNOSTIC_ECHO_EVALUATION_STRATEGY AssessmentOutcome.CONTRADICTS_PREDICTION
        DIAGNOSTIC_ECHO_MISMATCHED_CLAIM polarity
  | differential_established :
      claimable DIFFERENTIAL_STRATEGY AssessmentOutcome.CONSISTENT_WITH_PREDICTION
        HTTP_AUTHORIZATION_DIFFERENTIAL_CLAIM EvidencePolarity.SUPPORTING
  | transition_established :
      claimable TRANSITION_STRATEGY AssessmentOutcome.CONSISTENT_WITH_PREDICTION
        HTTP_STATE_TRANSITION_CLAIM EvidencePolarity.SUPPORTING.

Lemma eqb_neg_false a b : negb (a =? b)%string = false <-> a = b.
Proof. by rewrite negb_false_iff, String.eqb_eq. Qed.

Lemma source_codes_nil p c : source_codes p c = [] <-> intact p c.
Proof.
  unfold source_codes. rewrite !app_nil, !code_if_nil, !eqb_neg_false, negb_false_iff,
    bool_decide_eq_true, orb_false_iff, bool_decide_eq_false, !existsb_false.
  setoid_rewrite negb_false_iff. setoid_rewrite mem_true. setoid_rewrite String.eqb_eq.
  split.
  - intros (H1 & H2 & H3 & H4 & [H5 H6] & H7 & H8). split; try done.
    + by rewrite Forall_forall.
    + destruct c.(EvidenceAdmissionContext.assessment_id) as [id|]; [|done]. exists id.
      apply code_if_nil, negb_false_iff, mem_true in H8. done.
  - intros [H1 H2 H3 H4 [H5 H6] H7 (id & Hid & Hin)]. rewrite Hid. rewrite Forall_forall in H7.
    split_and!; try done. apply code_if_nil, negb_false_iff. by apply mem_true.
Qed.

Lemma creates_decision p o codes :
  EvidenceAdmissionDecision.creates_evidence (decision p o codes) = true
  <-> o = EvidenceAdmissionOutcome.ADMITTED.
Proof.
  unfold EvidenceAdmissionDecision.creates_evidence, decision. cbn.
  rewrite andb_true_iff, !bool_decide_eq_true. tauto.
Qed.

Lemma vulnerability_admitted p c codes claim other n i :
  claim ≠ other ->
  EvidenceAdmissionDecision.creates_evidence (admit_vulnerability_evidence p c codes claim other n i) = true
  <-> codes = []
      /\ c.(EvidenceAdmissionContext.assessment_outcome) = Some AssessmentOutcome.CONSISTENT_WITH_PREDICTION
      /\ p.(EvidenceProposal.claim_scope) = claim
      /\ p.(EvidenceProposal.polarity) = EvidencePolarity.SUPPORTING.
Proof.
  intros Hne. unfold admit_vulnerability_evidence.
  destruct (bool_decide (_ = Some _)) eqn:E1; cbn [negb].
  2: { apply bool_decide_eq_false in E1. rewrite creates_decision. naive_solver. }
  destruct (_ =? claim)%string eqn:E2; cbn [negb].
  2: { apply String.eqb_neq in E2. rewrite creates_decision. naive_solver. }
  apply String.eqb_eq in E2. destruct (_ =? other)%string eqn:E3.
  { apply String.eqb_eq in E3. congruence. }
  destruct (bool_decide (_ = EvidencePolarity.SUPPORTING)) eqn:E4; cbn [negb].
  2: { apply bool_decide_eq_false in E4. rewrite creates_decision. naive_solver. }
  apply bool_decide_eq_true in E1, E4. destruct (bool_decide (codes = [])) eqn:E5; cbn [negb];
    rewrite creates_decision; [apply bool_decide_eq_true in E5|apply bool_decide_eq_false in E5];
    naive_solver.
Qed.

(** The claims of the two classes differ. *)
Lemma claims_differ : HTTP_AUTHORIZATION_DIFFERENTIAL_CLAIM ≠ HTTP_STATE_TRANSITION_CLAIM.
Proof. done. Qed.

Lemma rejected_first (b : bool) p o codes d (P : Prop) :
  o ≠ EvidenceAdmissionOutcome.ADMITTED -> (b = true -> ~ P) ->
  (b = false -> EvidenceAdmissionDecision.creates_evidence d = true <-> P) ->
  EvidenceAdmissionDecision.creates_evidence (if b then decision p o codes else d) = true <-> P.
Proof. intros Ho Hb Hd. destruct b; [|by apply Hd]. rewrite creates_decision. naive_solver. Qed.

(** The echo's claim follows from its outcome. *)
Lemma echo_admitted p codes claim o (usable : bool) :
  (forall polarity, claimable DIAGNOSTIC_ECHO_EVALUATION_STRATEGY o claim polarity) ->
  (forall s polarity, claimable DIAGNOSTIC_ECHO_EVALUATION_STRATEGY o s polarity -> s = claim) ->
  usable = false ->
  EvidenceAdmissionDecision.creates_evidence
    (if negb (p.(EvidenceProposal.claim_scope) =? claim)%string
     then decision p EvidenceAdmissionOutcome.REJECTED_POLICY_CONFLICT ("CLAIM_EXCEEDS_SOURCES" :: codes)
     else if negb (bool_decide (codes = []))
     then decision p EvidenceAdmissionOutcome.REJECTED_INSUFFICIENT_SUPPORT codes
     else decision p EvidenceAdmissionOutcome.ADMITTED ["DIAGNOSTIC_ECHO_PROVENANCE_INTACT"]) = true
  <-> usable = false /\ codes = []
      /\ exists outcome, Some o = Some outcome
         /\ claimable DIAGNOSTIC_ECHO_EVALUATION_STRATEGY outcome p.(EvidenceProposal.claim_scope)
              p.(EvidenceProposal.polarity).
Proof.
  intros Hcan Honly Hu. apply rejected_first; [done| |intros He%eqb_neg_false].
  { intros He%negb_true_iff%String.eqb_neq (_ & _ & o' & [= <-] & Hcl). by apply He, (Honly _ _ Hcl). }
  apply rejected_first; [done|intros Hn%negb_true_iff%bool_decide_eq_false (_ & ? & _); done|].
  intros Hn%negb_false_iff%bool_decide_eq_true. rewrite creates_decision. split; [|done]. intros _.
  split_and!; [done..|]. exists o. split; [done|]. rewrite He. apply Hcan.
Qed.

Lemma evidence_admitted p c :
  EvidenceAdmissionDecision.creates_evidence (admit_evidence p c) = true
  <-> EvidenceAdmissionContext.execution_unusable c = false /\ intact p c
      /\ exists outcome, c.(EvidenceAdmissionContext.assessment_outcome) = Some outcome
         /\ claimable c.(EvidenceAdmissionContext.evaluation_strategy) outcome
              p.(EvidenceProposal.claim_scope) p.(EvidenceProposal.polarity).
Proof.
  unfold admit_evidence. rewrite <-source_codes_nil. set (codes := source_codes p c).
  apply rejected_first; [done|intros Hb (Hb' & _); congruence|intros Hu].
  apply rejected_first; [done| |intros _].
  { intros Hm (_ & -> & _). done. }
  apply rejected_first; [done| |intros _].
  { intros Hm (_ & -> & _). done. }
  apply rejected_first; [done| |intros Hs%negb_false_iff%mem_true].
  { intros Hs%negb_true_iff%mem_false (_ & _ & o & _ & Hc). apply Hs.
    inversion Hc; cbn; set_solver. }
  destruct (_ =? DIFFERENTIAL_STRATEGY)%string eqn:E1.
  { apply String.eqb_eq in E1. rewrite E1. unfold admit_http_authorization_evidence.
    rewrite vulnerability_admitted by exact claims_differ. split.
    - intros (Hc & Ho & Hcl & Hp). split_and!; [done..|]. eexists. split; [done|]. rewrite Hcl, Hp.
      constructor.
    - intros (_ & Hc & o & Ho & Hcl). by inversion Hcl; subst. }
  destruct (_ =? TRANSITION_STRATEGY)%string eqn:E2.
  { apply String.eqb_eq in E2. rewrite E2. unfold admit_state_transition_evidence.
    rewrite vulnerability_admitted by (intros Hx; by apply claims_differ). split.
    - intros (Hc & Ho & Hcl & Hp). split_and!; [done..|]. eexists. split; [done|]. rewrite Hcl, Hp.
      constructor.
    - intros (_ & Hc & o & Ho & Hcl). by inversion Hcl; subst. }
  apply String.eqb_neq in E1, E2.
  assert (Hs' : c.(EvidenceAdmissionContext.evaluation_strategy) = DIAGNOSTIC_ECHO_EVALUATION_STRATEGY).
  { unfold SUPPORTED_EVIDENCE_STRATEGIES in Hs. set_solver. }
  rewrite Hs'. cbv zeta.
  destruct c.(EvidenceAdmissionContext.assessment_outcome) as [[]|] eqn:Eo.
  - apply echo_admitted; [constructor| |done]. intros s pol Hc. by inversion Hc.
  - apply echo_admitted; [constructor| |done]. intros s pol Hc. by inversion Hc.
  - rewrite creates_decision. split; [done|]. intros (_ & _ & o & [= <-] & Hc). by inversion Hc.
  - rewrite creates_decision. split; [done|]. intros (_ & _ & o & [= <-] & Hc). by inversion Hc.
  - rewrite creates_decision. split; [done|]. intros (_ & _ & o & [= <-] & Hc). by inversion Hc.
  - rewrite creates_decision. split; [done|]. intros (_ & _ & o & ? & _). done.
Qed.

(** C37. Evidence is admitted exactly when it is sourced: the execution was usable, the proposal
    names the run, hypothesis and experiment it comes from, cites at least one observation and only
    observations of the experiment and the chosen assessment, and that assessment's outcome lets
    the strategy claim what the proposal claims. *)
Theorem evidence_admitted_iff p c :
  EvidenceAdmissionDecision.creates_evidence (admit_evidence p c) = true
  <-> EvidenceAdmissionContext.execution_unusable c = false /\ intact p c
      /\ exists outcome, c.(EvidenceAdmissionContext.assessment_outcome) = Some outcome
         /\ claimable c.(EvidenceAdmissionContext.evaluation_strategy) outcome
              p.(EvidenceProposal.claim_scope) p.(EvidenceProposal.polarity).
Proof. exact (evidence_admitted p c). Qed.

(** ** What the use case stores *)

(** One row per id, and at most one piece of supporting evidence per experiment. *)
Record supporting_once (db : EvidenceDb.t) : Prop := {
  so_ids : NoDup (EvidenceRecord.evidence_id <$> db.(EvidenceDb.evidence));
  so_supporting :
    NoDup (EvidenceRecord.experiment_id <$> List.filter is_supporting db.(EvidenceDb.evidence)) }.

(** An experiment, its observations and an assessment of it stand behind a piece of evidence; the
    contexts and proposals keep ids without the blanks around them. *)
Record sourced (seen : EvidenceDb.t) (c : AdmitCommand.t) (r : EvidenceRecord.t) : Prop := {
  so_experiment : exists e, e ∈ seen.(EvidenceDb.rows).(AssessDb.experiments)
    /\ e.(ExperimentRecord.experiment_id) = c.(AdmitCommand.experiment_id)
    /\ r.(EvidenceRecord.experiment_id) = Str.strip e.(ExperimentRecord.experiment_id)
    /\ r.(EvidenceRecord.research_run_id) = Str.strip e.(ExperimentRecord.research_run_id)
    /\ r.(EvidenceRecord.hypothesis_id) = Str.strip e.(ExperimentRecord.hypothesis_id);
  so_observations : r.(EvidenceRecord.observation_ids) ≠ []
    /\ Forall (fun id => exists o,
         o ∈ observations_of seen.(EvidenceDb.rows) c.(AdmitCommand.experiment_id)
         /\ id = Str.strip o.(ObservationRecord.observation_id)) r.(EvidenceRecord.observation_ids);
  so_claim : exists plan a outcome polarity,
    plan ∈ seen.(EvidenceDb.rows).(AssessDb.plans)
    /\ plan.(ExperimentPlanRecord.experiment_id) = c.(AdmitCommand.experiment_id)
    /\ a ∈ assessments_of seen.(EvidenceDb.rows) c.(AdmitCommand.experiment_id)
    /\ a.(HypothesisAssessmentRecord.assessment_id) ∈ r.(EvidenceRecord.assessment_ids)
    /\ a.(HypothesisAssessmentRecord.assessment_outcome) = AssessmentOutcome.value outcome
    /\ r.(EvidenceRecord.polarity) = EvidencePolarity.value polarity
    /\ claimable plan.(ExperimentPlanRecord.evaluation_strategy) outcome
         r.(EvidenceRecord.claim_scope) polarity }.

(** An answer that was there before. *)
Definition already_admitted (seen db : EvidenceDb.t) (c : AdmitCommand.t) (answer : AdmitResult.t) : Prop :=
  answer.(AdmitResult.outcome) = EvidenceAdmissionOutcome.ADMITTED
  /\ ((exists a, (a ∈ seen.(EvidenceDb.admissions) \/ a ∈ db.(EvidenceDb.admissions))
         /\ a.(EvidenceAdmissionRecord.admission_record_id) = answer.(AdmitResult.admission_record_id)
         /\ a.(EvidenceAdmissionRecord.admitted_evidence_id) = answer.(AdmitResult.evidence_id)
         /\ a.(EvidenceAdmissionRecord.outcome) = "ADMITTED")
      \/ exists r, r ∈ db.(EvidenceDb.evidence) /\ is_supporting r = true
         /\ r.(EvidenceRecord.experiment_id) = c.(AdmitCommand.experiment_id)
         /\ r.(EvidenceRecord.admission_record_id) = answer.(AdmitResult.admission_record_id)
         /\ answer.(AdmitResult.evidence_id) = Some r.(EvidenceRecord.evidence_id)).

(** What a decision leaves. *)
Definition decided (seen db db' : EvidenceDb.t) (c : AdmitCommand.t) (f : fresh) (answer : AdmitResult.t)
    : Prop :=
  exists evidence a,
    db' = EvidenceDb.mk db.(EvidenceDb.rows) db.(EvidenceDb.runs) (db.(EvidenceDb.evidence) ++ evidence)
            (db.(EvidenceDb.admissions) ++ [a])
    /\ a.(EvidenceAdmissionRecord.admission_record_id) = answer.(AdmitResult.admission_record_id)
    /\ a.(EvidenceAdmissionRecord.admitted_evidence_id) = answer.(AdmitResult.evidence_id)
    /\ a.(EvidenceAdmissionRecord.outcome) = EvidenceAdmissionOutcome.value answer.(AdmitResult.outcome)
    /\ match answer.(AdmitResult.evidence_id) with
       | Some id => answer.(AdmitResult.outcome) = EvidenceAdmissionOutcome.ADMITTED
           /\ id = f.(new_evidence_id) /\ exists r, evidence = [r] /\ r.(EvidenceRecord.evidence_id) = id
              /\ r.(EvidenceRecord.admission_record_id) = answer.(AdmitResult.admission_record_id)
              /\ sourced seen c r
       | None => answer.(AdmitResult.outcome) ≠ EvidenceAdmissionOutcome.ADMITTED /\ evidence = []
       end.

Lemma insert_evidence_ok db r db' :
  insert_evidence db r = Ok (Some db') ->
  db' = EvidenceDb.mk db.(EvidenceDb.rows) db.(EvidenceDb.runs) (db.(EvidenceDb.evidence) ++ [r])
          db.(EvidenceDb.admissions)
  /\ (supporting_once db -> supporting_once db').
Proof.
  unfold insert_evidence. intros [Hid H]%raise_if_ok.
  destruct (supporting_conflict db r) eqn:Hc; [done|]. do 3 apply raise_if_ok in H as [_ H].
  injection H as <-. split; [done|]. rewrite existsb_false in Hid. intros [H1 H2]. split; cbn.
  - rewrite fmap_app. apply NoDup_app. split; [done|]. split; [|apply NoDup_singleton].
    intros i (o & -> & Ho)%list_elem_of_fmap Hi%list_elem_of_singleton. specialize (Hid o Ho).
    by rewrite Hi, String.eqb_refl in Hid.
  - unfold supporting_conflict in Hc. rewrite List.filter_app, fmap_app. cbn.
    destruct (is_supporting r) eqn:E; cbn; [|by rewrite app_nil_r].
    apply NoDup_app. split; [done|]. split; [|apply NoDup_singleton].
    intros i (o & -> & [Ho Hs]%list_elem_of_In%filter_In)%list_elem_of_fmap Hi%list_elem_of_singleton.
    cbn in Hc. rewrite existsb_false in Hc. apply list_elem_of_In in Ho. specialize (Hc o Ho).
    by rewrite Hs, Hi, String.eqb_refl in Hc.
Qed.

Lemma insert_admission_ok db r db' :
  insert_admission db r = Ok db' ->
  db' = EvidenceDb.mk db.(EvidenceDb.rows) db.(EvidenceDb.runs) db.(EvidenceDb.evidence)
          (db.(EvidenceDb.admissions) ++ [r]).
Proof.
  unfold insert_admission. intros [_ H]%raise_if_ok. apply raise_if_ok in H as [_ H]. by injection H as <-.
Qed.

Lemma admitted_for_assessment_ok records id r :
  admitted_for_assessment records id = Some r ->
  r ∈ records /\ r.(EvidenceAdmissionRecord.outcome) = "ADMITTED".
Proof.
  unfold admitted_for_assessment. intros Hr. apply head_Some_elem_of in Hr. rewrite elem_of_sort_by in Hr.
  apply list_elem_of_In, filter_In in Hr as [Hin [_ Ho]%andb_true_iff].
  split; [by apply list_elem_of_In|by apply String.eqb_eq].
Qed.

Lemma elem_of_admissions_for_run db run r : r ∈ admissions_for_run db run -> r ∈ db.(EvidenceDb.admissions).
Proof.
  unfold admissions_for_run. rewrite elem_of_sort_by. intros [Hin _]%list_elem_of_In%filter_In.
  by apply list_elem_of_In.
Qed.

Lemma result_from_admitted r answer :
  result_from_admission r = Ok answer -> r.(EvidenceAdmissionRecord.outcome) = "ADMITTED" ->
  answer.(AdmitResult.outcome) = EvidenceAdmissionOutcome.ADMITTED
  /\ r.(EvidenceAdmissionRecord.admission_record_id) = answer.(AdmitResult.admission_record_id)
  /\ r.(EvidenceAdmissionRecord.admitted_evidence_id) = answer.(AdmitResult.evidence_id).
Proof.
  unfold result_from_admission. intros (o & Ho%enum_of_ok & [= <-])%bind_ok Hr. rewrite Hr in Ho.
  split; [|done]. cbn. by destruct o.
Qed.

Lemma reload_admitted_ok seen db c answer :
  reload_admitted db c.(AdmitCommand.experiment_id) c.(AdmitCommand.assessment_id) = Ok answer ->
  already_admitted seen db c answer.
Proof.
  unfold reload_admitted. intros (id & [-> _]%data_opaque_id_ok & H)%bind_ok.
  destruct (List.find _ _) as [e|]; [|done].
  destruct (_ ≫= _) as [r|] eqn:Er in H.
  - apply bind_Some in Er as (a & _ & Hr). apply admitted_for_assessment_ok in Hr as [Hr Ho].
    destruct (result_from_admitted _ _ H Ho) as (H1 & H2 & H3). split; [done|]. left. exists r.
    apply elem_of_admissions_for_run in Hr. tauto.
  - apply bind_ok in H as (rows & Hrows & H).
    destruct (sort_by EvidenceRecord.created_at _) as [|r rs] eqn:Es; [done|]. injection H as <-.
    split; [done|]. right. exists r.
    assert (Hr : r ∈ sort_by EvidenceRecord.created_at (List.filter is_supporting rows))
      by (rewrite Es; by left).
    rewrite elem_of_sort_by in Hr. apply list_elem_of_In, filter_In in Hr as [Hr Hs].
    unfold evidence_for_experiment in Hrows. apply bind_ok in Hrows as (? & _ & [= <-]).
    apply list_elem_of_In in Hr. rewrite elem_of_sort_by in Hr.
    apply list_elem_of_In, filter_In in Hr as [Hr He%String.eqb_eq]. apply list_elem_of_In in Hr. done.
Qed.

Lemma require_text_ok v w : require_text v = Ok w -> w = Str.strip v.
Proof. unfold require_text. by intros [_ [= <-]]%raise_if_ok. Qed.

(** What the context has of the rows. *)
Lemma admission_context_ok e strategy assessment observations attempt worker requested context :
  admission_context e strategy assessment observations attempt worker requested = Ok context ->
  context.(EvidenceAdmissionContext.research_run_id) = Str.strip e.(ExperimentRecord.research_run_id)
  /\ context.(EvidenceAdmissionContext.hypothesis_id) = Str.strip e.(ExperimentRecord.hypothesis_id)
  /\ context.(EvidenceAdmissionContext.experiment_id) = Str.strip e.(ExperimentRecord.experiment_id)
  /\ context.(EvidenceAdmissionContext.evaluation_strategy) = Str.strip strategy
  /\ EvidenceAdmissionContext.observation_ids context
     = (fun o => Str.strip o.(ObservationRecord.observation_id)) <$> observations
  /\ context.(EvidenceAdmissionContext.assessment_id)
     = HypothesisAssessmentRecord.assessment_id <$> assessment
  /\ forall a o, assessment = Some a -> context.(EvidenceAdmissionContext.assessment_outcome) = Some o ->
       a.(HypothesisAssessmentRecord.assessment_outcome) = AssessmentOutcome.value o.
Proof.
  unfold admission_context. intros (refs & Hrefs & H)%bind_ok. cbv zeta in H.
  apply bind_ok in H as (outcome & Hout & H). unfold EvidenceAdmissionContext.post_init in H. cbn in H.
  apply bind_ok in H as (r1 & ->%require_text_ok & H). apply bind_ok in H as (r2 & ->%require_text_ok & H).
  apply bind_ok in H as (r3 & ->%require_text_ok & H). apply bind_ok in H as (r4 & ->%require_text_ok & H).
  injection H as <-. cbn. split_and!; try done.
  - unfold EvidenceAdmissionContext.observation_ids. cbn. apply traverse_ok in Hrefs. clear -Hrefs.
    induction Hrefs as [|o x l k Hx _ IH]; [done|]. cbn. rewrite IH. f_equal.
    unfold EvidenceObservationRef.post_init in Hx. apply bind_ok in Hx as (i & ->%require_text_ok & Hx).
    do 3 apply bind_ok in Hx as (? & _ & Hx). by injection Hx as <-.
  - intros a o -> ->. cbn in Hout. apply bind_ok in Hout as (o' & Ho%enum_of_ok & [= ->]). done.
Qed.

Lemma admit_evidence_decision p c : exists o codes, admit_evidence p c = decision p o codes.
Proof.
  unfold admit_evidence, admit_http_authorization_evidence, admit_state_transition_evidence,
    admit_vulnerability_evidence. cbv zeta.
  repeat match goal with |- exists o codes, (if ?b then _ else _) = _ => destruct b end; eauto;
    repeat case_match; eauto.
Qed.

Lemma evidence_record_ok p f r :
  evidence_record p f = Ok r ->
  r = EvidenceRecord.mk f.(new_evidence_id) p.(EvidenceProposal.research_run_id)
        p.(EvidenceProposal.hypothesis_id) p.(EvidenceProposal.experiment_id) f.(new_admission_id)
        (EvidencePolarity.value p.(EvidenceProposal.polarity)) p.(EvidenceProposal.claim_scope)
        p.(EvidenceProposal.observation_ids) p.(EvidenceProposal.assessment_ids) f.(evidence_now).
Proof. unfold evidence_record. by intros ->%validated. Qed.

Lemma store_decision_ok seen db c f p context assessment db' answer :
  store_decision db f (admit_evidence p context) assessment = Ok (Some (db', answer)) ->
  (forall r, EvidenceAdmissionDecision.creates_evidence (admit_evidence p context) = true ->
     evidence_record p f = Ok r -> sourced seen c r) ->
  decided seen db db' c f answer /\ (supporting_once db -> supporting_once db').
Proof.
  destruct (admit_evidence_decision p context) as (o & codes & ->).
  unfold store_decision. cbn [EvidenceAdmissionDecision.proposal decision].
  destruct (EvidenceAdmissionDecision.creates_evidence (decision p o codes)) eqn:Ec; intros H Hs;
    apply bind_ok in H as (ins & Hins & H); (destruct ins as [db1|]; [|done]);
    apply bind_ok in H as (a & Ha & H); apply bind_ok in H as (db2 & ->%insert_admission_ok & [= <- <-]);
    unfold admission_record in Ha; apply validated in Ha as ->; cbn.
  - apply creates_decision in Ec as ->. apply bind_ok in Hins as (r & Hr & [-> Honce]%insert_evidence_ok).
    split; [|by intros [? ?]%Honce].  pose proof (evidence_record_ok _ _ _ Hr) as Er.
    eexists [r], _. cbn. split_and!; [reflexivity..|]. exists r. split_and!; [done|by subst r..|].
    by apply Hs.
  - injection Hins as <-. split; [|by intros [? ?]]. eexists [], _. cbn. rewrite app_nil_r.
    split_and!; [reflexivity..| |done]. intros ->. cbn in Ec.
    assert (Ht : EvidenceAdmissionDecision.creates_evidence
                   (decision p EvidenceAdmissionOutcome.ADMITTED codes) = true)
      by by apply creates_decision.
    congruence.
Qed.

Lemma select_assessment_ok l id a : select_assessment l id = Ok (Some a) -> a ∈ l.
Proof.
  unfold select_assessment. destruct l as [|x l]; [done|]. destruct id as [id|].
  - destruct (List.find _ _) as [b|] eqn:E; [|done]. intros [= <-]. by apply find_Some_elem in E as [? _].
  - intros [= Hl]. by apply last_Some_elem_of in Hl.
Qed.

Lemma strip_supported s : s ∈ SUPPORTED_EVIDENCE_STRATEGIES -> Str.strip s = s.
Proof. unfold SUPPORTED_EVIDENCE_STRATEGIES. intros Hs. set_unfold in Hs. destruct Hs as [->|[->|[->|[]]]]; reflexivity. Qed.

(** Admitted evidence is sourced in the rows the context was made of. *)
Lemma admitted_is_sourced seen c f p e plan assessment context r attempt worker requested :
  e ∈ seen.(EvidenceDb.rows).(AssessDb.experiments) ->
  e.(ExperimentRecord.experiment_id) = c.(AdmitCommand.experiment_id) ->
  plan ∈ seen.(EvidenceDb.rows).(AssessDb.plans) ->
  plan.(ExperimentPlanRecord.experiment_id) = c.(AdmitCommand.experiment_id) ->
  plan.(ExperimentPlanRecord.evaluation_strategy) ∈ SUPPORTED_EVIDENCE_STRATEGIES ->
  select_assessment (assessments_of seen.(EvidenceDb.rows) c.(AdmitCommand.experiment_id))
    c.(AdmitCommand.assessment_id) = Ok assessment ->
  admission_context e plan.(ExperimentPlanRecord.evaluation_strategy) assessment
    (observations_of seen.(EvidenceDb.rows) c.(AdmitCommand.experiment_id)) attempt worker requested
  = Ok context ->
  EvidenceAdmissionDecision.creates_evidence (admit_evidence p context) = true ->
  evidence_record p f = Ok r -> sourced seen c r.
Proof.
  intros He Heid Hp Hpid Hs Hsel Hctx (_ & Hin & o & Ho & Hclaim)%evidence_admitted ->%evidence_record_ok.
  apply admission_context_ok in Hctx as (H1 & H2 & H3 & H4 & H5 & H6 & H7).
  rewrite (strip_supported _ Hs) in H4. destruct Hin as [I1 I2 I3 _ [I5 I6] _ (id & I7 & I8)].
  rewrite I7 in H6. destruct assessment as [a|]; [|done]. injection H6 as ->. split; cbn.
  - exists e. split_and!; congruence.
  - split; [done|]. apply Forall_forall. intros i Hi%I6. rewrite H5 in Hi.
    apply list_elem_of_fmap in Hi as (o' & -> & Hi). by exists o'.
  - exists plan, a, o, p.(EvidenceProposal.polarity). split_and!; try done.
    + by eapply select_assessment_ok.
    + by apply H7.
    + congruence.
Qed.

Lemma admit_diagnostic_evidence_ok seen db c f db' answer :
  admit_diagnostic_evidence seen db c f = Ok (db', answer) ->
  (db' = db /\ already_admitted seen db c answer
   \/ decided seen db db' c f answer)
  /\ (supporting_once db -> supporting_once db').
Proof.
  unfold admit_diagnostic_evidence. cbv zeta. intros (id & [-> _]%data_opaque_id_ok & H)%bind_ok.
  destruct (List.find _ _.(AssessDb.experiments)) as [e|] eqn:Ee; [|done].
  destruct (List.find _ _.(AssessDb.plans)) as [plan|] eqn:Ep; [|done].
  apply find_Some_elem in Ee as [Ee Eid%String.eqb_eq], Ep as [Ep Epid%String.eqb_eq].
  apply raise_if_ok in H as [Hs%negb_false_iff%mem_true H].
  apply bind_ok in H as (assessment & Hsel & H).
  destruct (match c.(AdmitCommand.proposal), assessment with None, Some _ => _ | _, _ => _ end)
    as [existing|] eqn:Eex.
  - apply bind_ok in H as (ans & Hans & [= <- <-]). split; [left; split; [done|]|done].
    assert (Hex : existing ∈ seen.(EvidenceDb.admissions) /\ existing.(EvidenceAdmissionRecord.outcome) = "ADMITTED").
    { destruct c.(AdmitCommand.proposal), assessment as [a|]; try done.
      apply admitted_for_assessment_ok in Eex as [Eex ?]. by apply elem_of_admissions_for_run in Eex. }
    destruct Hex as [Hex Ho]. destruct (result_from_admitted _ _ Hans Ho) as (R1 & R2 & R3).
    split; [done|]. left. exists existing. tauto.
  - apply bind_ok in H as (context & Hctx & H). apply bind_ok in H as (p & _ & H).
    apply bind_ok in H as ([[db1 ans1]|] & Hst & H).
    + injection H as <- <-. eapply store_decision_ok in Hst; [destruct Hst as [Hd Ho]; split; [by right|exact Ho]|].
      intros r Hc Hr. by eapply (admitted_is_sourced seen c f p e plan assessment context r).
    + apply bind_ok in H as (ans & Hans & [= <- <-]). split; [left|done].
      split; [done|]. by apply reload_admitted_ok.
Qed.

(** ** Samples *)

Module Sample.
(** An experiment of a strategy whose assessment has an outcome. *)
Definition rows (strategy outcome : string) : AssessDb.t :=
  AssessDb.mk [HypothesisRecord.mk "hyp-1" "run-1" "a claim" 0 None None]
    [ExperimentRecord.mk "exp-1" "run-1" "hyp-1" "budget-1" "EXECUTION_SUCCEEDED" 0]
    [ExperimentPlanRecord.mk "exp-1" "run-1" "hyp-1" "capability" "probe" "target-1" 0 [] "budget-1"
       "a grant" "a denial" strategy 0 None None] []
    [WorkerResultRecord.mk "res-1" "exp-1" "run-1" "att-1" "corr-1" "capability" "probe" "decision-1"
       "budget-1" 0 "1" "worker-1" "SUCCEEDED" 0 None None None None None None None]
    [ObservationRecord.mk "obs-1" "res-1" "A_KIND" [] "v1" 0 0]
    [HypothesisAssessmentRecord.mk "asm-1" "hyp-1" "exp-1" "run-1" outcome ["obs-1"] "DETERMINISTIC"
       "evaluator-1" [] strategy 0].
Definition db (strategy outcome : string) : EvidenceDb.t :=
  EvidenceDb.mk (rows strategy outcome) ["run-1"] [] [].
Definition established : EvidenceDb.t := db DIFFERENTIAL_STRATEGY "CONSISTENT_WITH_PREDICTION".
Definition ask : AdmitCommand.t := AdmitCommand.mk "exp-1" None None.
Definition ids (n : string) : fresh := Fresh ("prop-" +:+ n) ("adm-" +:+ n) ("ev-" +:+ n) 1 2.
Definition admitted_once : result (EvidenceDb.t * AdmitResult.t) :=
  admit_diagnostic_evidence established established ask (ids "1").
Definition after : EvidenceDb.t := match admitted_once with Ok (d, _) => d | Raise _ => established end.
Definition answer : AdmitResult.t :=
  AdmitResult.mk EvidenceAdmissionOutcome.ADMITTED "adm-1" (Some "ev-1")
    ["HTTP_AUTHORIZATION_DIFFERENTIAL_PROVENANCE_INTACT"] "prop-1".
(** The proposal of a caller. *)
Definition proposal (claim : string) (polarity : EvidencePolarity.t) (assessments : list string)
    : EvidenceProposal.t :=
  EvidenceProposal.mk "prop-9" "run-1" "hyp-1" "exp-1" ["obs-1"] assessments polarity claim [] [].
End Sample.

(** Asking again answers with the first admission and stores nothing. *)
Example second_admission_changes_nothing :
  admit_diagnostic_evidence Sample.after Sample.after Sample.ask (Sample.ids "2")
  = Ok (Sample.after, Sample.answer).
Proof. vm_compute. reflexivity. Qed.

(** Two workers that read before either writes: the index refuses the second, which answers with
    the evidence of the first. *)
Example raced_admission_answers_the_winner :
  (raced ← admit_diagnostic_evidence Sample.established Sample.after Sample.ask (Sample.ids "2");
   Ok (raced.2, length raced.1.(EvidenceDb.evidence)))
  = Ok (AdmitResult.mk EvidenceAdmissionOutcome.ADMITTED "adm-1" (Some "ev-1")
          ["EVIDENCE_ALREADY_ADMITTED"] "adm-1", 1%nat).
Proof. vm_compute. reflexivity. Qed.

(** An experiment whose control held leaves the record of a refusal and no evidence. *)
Example held_control_is_recorded_without_evidence :
  (held ← admit_diagnostic_evidence (Sample.db TRANSITION_STRATEGY "CONTRADICTS_PREDICTION")
            (Sample.db TRANSITION_STRATEGY "CONTRADICTS_PREDICTION") Sample.ask (Sample.ids "1");
   Ok (held.2.(AdmitResult.outcome), held.1.(EvidenceDb.evidence),
       EvidenceAdmissionRecord.claim_scope <$> held.1.(EvidenceDb.admissions)))
  = Ok (EvidenceAdmissionOutcome.REJECTED_INSUFFICIENT_SUPPORT, [],
        [Some HTTP_STATE_TRANSITION_CONTROL_HELD_CLAIM]).
Proof. vm_compute. reflexivity. Qed.

(** The echo's claim that the observation did not match is admitted as supporting evidence. *)
Example mismatch_is_admitted_as_supporting :
  (wrong ← admit_diagnostic_evidence (Sample.db DIAGNOSTIC_ECHO_EVALUATION_STRATEGY "CONTRADICTS_PREDICTION")
      (Sample.db DIAGNOSTIC_ECHO_EVALUATION_STRATEGY "CONTRADICTS_PREDICTION")
      (AdmitCommand.mk "exp-1" None
         (Some (Sample.proposal DIAGNOSTIC_ECHO_MISMATCHED_CLAIM EvidencePolarity.SUPPORTING ["asm-1"])))
      (Sample.ids "1");
   Ok (EvidenceRecord.polarity <$> wrong.1.(EvidenceDb.evidence)))
  = Ok ["SUPPORTING"].
Proof. vm_compute. reflexivity. Qed.

(** Of the assessments a proposal cites only the chosen one is looked for: the evidence keeps the
    ids of assessments that are not there. *)
Example absent_assessment_is_kept :
  (cited ← admit_diagnostic_evidence Sample.established Sample.established
      (AdmitCommand.mk "exp-1" None
         (Some (Sample.proposal HTTP_AUTHORIZATION_DIFFERENTIAL_CLAIM EvidencePolarity.SUPPORTING
                  ["asm-1"; "asm-none"]))) (Sample.ids "1");
   Ok (EvidenceRecord.assessment_ids <$> cited.1.(EvidenceDb.evidence)))
  = Ok [["asm-1"; "asm-none"]].
Proof. vm_compute. reflexivity. Qed.

(** C7. Stored evidence is sourced and unique: admitting either answers with an admission or the
    supporting evidence that was there and stores nothing, or stores one admission record, and with
    it one piece of evidence exactly when it admits; that evidence is of the experiment's own run
    and hypothesis, cites its stored observations and an assessment of it whose outcome allows the
    claim. An experiment never has two pieces of supporting evidence, whatever another worker
    stored between the reads and the writes. *)
Theorem stored_evidence_is_sourced seen db c f db' answer :
  admit_diagnostic_evidence seen db c f = Ok (db', answer) ->
  (db' = db /\ already_admitted seen db c answer
   \/ decided seen db db' c f answer)
  /\ (supporting_once db -> supporting_once db').
Proof. exact (admit_diagnostic_evidence_ok seen db c f db' answer). Qed.

Lemma stored_evidence_is_sourced_witness :
  Sample.admitted_once = Ok (Sample.after, Sample.answer)
  /\ length Sample.after.(EvidenceDb.evidence) = 1%nat
  /\ (Sample.after = Sample.established
        /\ already_admitted Sample.established Sample.established Sample.ask Sample.answer
      \/ decided Sample.established Sample.established Sample.after Sample.ask (Sample.ids "1")
           Sample.answer)
  /\ supporting_once Sample.after.
Proof.
  split; [vm_compute; reflexivity|]. split; [vm_compute; reflexivity|].
  destruct (stored_evidence_is_sourced Sample.established Sample.established Sample.ask
              (Sample.ids "1") Sample.after Sample.answer ltac:(vm_compute; reflexivity)) as [H1 H2].
  split; [exact H1|]. apply H2. split; vm_compute; constructor.
Defined.
