(* ===== verification/CandidateFlow.v ===== *)
(** * From evidence to a concluded candidate

    [application/propose_candidate.py], [application/start_candidate_verification.py] and
    [application/complete_candidate_verification.py] over the rows of [Evidence.EvidenceDb] with the
    tables of candidates and verifications.  Research decides ([Candidate], [Verification]); the use
    cases read the rows the decision needs and store it.  Every use case reads one database, [seen],
    and writes another, [db]: what other workers stored between the two. *)
From S2P Require Import Prelude CoreTypes PyVal PyText Records FindingRecords HuntRecords Verification Planning Evaluators EvidenceRecords Candidate FindingFlow Evidence.

(** ** The rows *)

(** [research/candidate.py:17 CANDIDATE_ADMISSION_POLICY_VERSION] *)
Definition CANDIDATE_ADMISSION_POLICY_VERSION : string := "candidate.admission.v1".

(** [data/records.py:225-234 ALLOWED_CANDIDATE_ADMISSION_OUTCOMES] *)
Definition ALLOWED_CANDIDATE_ADMISSION_OUTCOMES : list string :=
  [ "ADMITTED"; "REJECTED_INSUFFICIENT_SUPPORT"; "REJECTED_BROKEN_PROVENANCE";
    "REJECTED_CLAIM_EXCEEDS_EVIDENCE"; "REJECTED_NOT_TESTABLE"; "REJECTED_POLICY_CONFLICT" ].

(** [data/records.py:1095-1136 CandidateAdmissionRecord] *)
Module CandidateAdmissionRecord.
Record t : Set := mk {
  admission_record_id : string;
  proposal_id : string;
  research_run_id : string;
  outcome : string;
  reason_codes : list string;
  evidence_ids : list string;
  admission_policy_version : string;
  created_at : Z;
  admitted_candidate_id : option string;
  claim : option string;
  classification : option string }.

Definition post_init (x : t) : result t :=
  _ ← data_opaque_id x.(admission_record_id);
  _ ← data_opaque_id x.(proposal_id);
  _ ← data_opaque_id x.(research_run_id);
  raise_if negb (mem x.(outcome) ALLOWED_CANDIDATE_ADMISSION_OUTCOMES) as PersistenceInputError;;
  raise_if bool_decide (x.(reason_codes) = []) as PersistenceInputError;;
  _ ← traverse data_opaque_id x.(evidence_ids);
  raise_if Str.is_blank x.(admission_policy_version) as PersistenceInputError;;
  _ ← match x.(admitted_candidate_id) with
      | Some id => if (x.(outcome) =? "ADMITTED")%string
                   then _ ← data_opaque_id id; Ok tt else Raise PersistenceInputError
      | None => raise_if (x.(outcome) =? "ADMITTED")%string as PersistenceInputError;; Ok tt
      end;
  raise_if match x.(classification) with
           | Some c => negb (mem c DATA_CANDIDATE_CLASSIFICATIONS) | None => false end
  as PersistenceInputError;;
  raise_if match x.(claim) with Some s => Str.is_blank s | None => false end
  as PersistenceInputError;;
  Ok x.

#[global] Instance post_init_validator : Validator post_init.
Proof. solve_validator. Qed.
End CandidateAdmissionRecord.

Module CandidateDb.
Record t : Type := mk {
  base : EvidenceDb.t;
  candidates : list CandidateRecord.t;
  admissions : list CandidateAdmissionRecord.t;
  verifications : list VerificationRecord.t }.
End CandidateDb.

(** [data/postgres/repositories.py:1428-1436 PostgresEvidenceRepository.get] *)
Definition get_evidence (db : CandidateDb.t) (evidence_id : string) : result (option EvidenceRecord.t) :=
  _ ← data_opaque_id evidence_id;
  Ok (List.find (fun r => (r.(EvidenceRecord.evidence_id) =? evidence_id)%string)
        db.(CandidateDb.base).(EvidenceDb.evidence)).

(** [data/postgres/repositories.py:1555-1563 PostgresCandidateRepository.get] *)
Definition get_candidate (db : CandidateDb.t) (candidate_id : string) : result (option CandidateRecord.t) :=
  _ ← data_opaque_id candidate_id;
  Ok (List.find (fun r => (r.(CandidateRecord.candidate_id) =? candidate_id)%string)
        db.(CandidateDb.candidates)).

(** [data/postgres/repositories.py:1615-1623 PostgresCandidateAdmissionRepository.get] *)
Definition get_candidate_admission (db : CandidateDb.t) (admission_record_id : string)
    : result (option CandidateAdmissionRecord.t) :=
  _ ← data_opaque_id admission_record_id;
  Ok (List.find (fun r => (r.(CandidateAdmissionRecord.admission_record_id)
                           =? admission_record_id)%string) db.(CandidateDb.admissions)).

(** [data/postgres/repositories.py:1565-1578 PostgresCandidateRepository.list_for_research_run] *)
Definition candidates_for_run (db : CandidateDb.t) (run : string) : list CandidateRecord.t :=
  sort_by CandidateRecord.candidate_id
    (List.filter (fun r => (r.(CandidateRecord.research_run_id) =? run)%string)
       db.(CandidateDb.candidates)).

(** [data/postgres/repositories.py:1781-1791 PostgresVerificationRepository.list_for_candidate] *)
Definition verifications_of (db : CandidateDb.t) (candidate_id : string) : list VerificationRecord.t :=
  sort_by VerificationRecord.verification_id
    (List.filter (fun r => (r.(VerificationRecord.candidate_id) =? candidate_id)%string)
       db.(CandidateDb.verifications)).

(** A row of [candidate_evidence] has the evidence. *)
Definition seeds (db : CandidateDb.t) (evidence_id : string) : bool :=
  existsb (fun c => mem evidence_id c.(CandidateRecord.evidence_ids)) db.(CandidateDb.candidates).

(** The rows of [candidate_evidence]: the primary key, [uq_candidate_evidence_evidence_id] and the
    key to the evidence; [Ok false] is the conflict a caller asks for.
    [data/postgres/repositories.py:1531-1553 PostgresCandidateRepository.insert] *)
Fixpoint link_evidence (db : CandidateDb.t) (linked ids : list string) : result bool :=
  match ids with
  | [] => Ok true
  | id :: ids =>
      raise_if mem id linked as PersistenceConflictError;;
      if seeds db id then Ok false
      else
      raise_if negb (existsb (fun e => (e.(EvidenceRecord.evidence_id) =? id)%string)
                       db.(CandidateDb.base).(EvidenceDb.evidence)) as PersistenceError;;
      link_evidence db (id :: linked) ids
  end.

(** [data/postgres/repositories.py:1531-1553 PostgresCandidateRepository.insert] *)
Definition insert_candidate (db : CandidateDb.t) (r : CandidateRecord.t) : result (option CandidateDb.t) :=
  raise_if existsb (fun c => (c.(CandidateRecord.candidate_id) =? r.(CandidateRecord.candidate_id))%string)
             db.(CandidateDb.candidates) as PersistenceConflictError;;
  raise_if negb (mem r.(CandidateRecord.research_run_id) db.(CandidateDb.base).(EvidenceDb.runs))
    || negb (existsb (fun h =>
         (h.(HypothesisRecord.hypothesis_id) =? r.(CandidateRecord.hypothesis_id))%string
         && (h.(HypothesisRecord.research_run_id) =? r.(CandidateRecord.research_run_id))%string)
         db.(CandidateDb.base).(EvidenceDb.rows).(AssessDb.hypotheses))
  as PersistenceError;;
  linked ← link_evidence db [] r.(CandidateRecord.evidence_ids);
  if (linked : bool)
  then Ok (Some (CandidateDb.mk db.(CandidateDb.base) (db.(CandidateDb.candidates) ++ [r])
                   db.(CandidateDb.admissions) db.(CandidateDb.verifications)))
  else Ok None.

(** [data/postgres/repositories.py:1580-1590 PostgresCandidateRepository.set_state] *)
Definition set_state (db : CandidateDb.t) (candidate_id state : string) : result CandidateDb.t :=
  _ ← data_opaque_id candidate_id;
  raise_if negb (mem state ALLOWED_CANDIDATE_STATES) as PersistenceInputError;;
  raise_if negb (existsb (fun c => (c.(CandidateRecord.candidate_id) =? candidate_id)%string)
                   db.(CandidateDb.candidates)) as PersistenceError;;
  Ok (CandidateDb.mk db.(CandidateDb.base)
        ((fun c => if (c.(CandidateRecord.candidate_id) =? candidate_id)%string
                   then candidate_with_state state c else c) <$> db.(CandidateDb.candidates))
        db.(CandidateDb.admissions) db.(CandidateDb.verifications)).

(** [data/postgres/repositories.py:1597-1613 PostgresCandidateAdmissionRepository.insert] *)
Definition insert_candidate_admission (db : CandidateDb.t) (r : CandidateAdmissionRecord.t)
    : result CandidateDb.t :=
  raise_if existsb (fun o => (o.(CandidateAdmissionRecord.admission_record_id)
                              =? r.(CandidateAdmissionRecord.admission_record_id))%string)
             db.(CandidateDb.admissions) as PersistenceConflictError;;
  raise_if negb (mem r.(CandidateAdmissionRecord.research_run_id) db.(CandidateDb.base).(EvidenceDb.runs))
    || match r.(CandidateAdmissionRecord.admitted_candidate_id) with
       | Some id => negb (mem id (CandidateRecord.candidate_id <$> db.(CandidateDb.candidates)))
       | None => false
       end
  as PersistenceError;;
  Ok (CandidateDb.mk db.(CandidateDb.base) db.(CandidateDb.candidates)
        (db.(CandidateDb.admissions) ++ [r]) db.(CandidateDb.verifications)).

(** The primary key, [uq_verification_candidate] and the keys to the candidate and the run;
    [None] is the second conflict.
    [data/postgres/repositories.py:1751-1769 PostgresVerificationRepository.insert] *)
Definition insert_verification (db : CandidateDb.t) (r : VerificationRecord.t)
    : result (option CandidateDb.t) :=
  raise_if existsb (fun o => (o.(VerificationRecord.verification_id)
                              =? r.(VerificationRecord.verification_id))%string)
             db.(CandidateDb.verifications) as PersistenceConflictError;;
  if existsb (fun o => (o.(VerificationRecord.candidate_id) =? r.(VerificationRecord.candidate_id))%string)
       db.(CandidateDb.verifications) then Ok None
  else
  raise_if negb (mem r.(VerificationRecord.candidate_id)
                   (CandidateRecord.candidate_id <$> db.(CandidateDb.candidates)))
    || negb (mem r.(VerificationRecord.research_run_id) db.(CandidateDb.base).(EvidenceDb.runs))
  as PersistenceError;;
  Ok (Some (CandidateDb.mk db.(CandidateDb.base) db.(CandidateDb.candidates)
              db.(CandidateDb.admissions) (db.(CandidateDb.verifications) ++ [r]))).

(** ** [application/propose_candidate.py] *)

(** [application/propose_candidate.py:35-39 ProposeCandidateFromEvidenceCommand] *)
Module ProposeCommand.
Record t : Type := mk {
  evidence_id : string;
  proposal : option CandidateProposal.t;
  authoritative_out_of_scope : bool;
  known_duplicate_candidate_id : option string }.
End ProposeCommand.

(** [application/propose_candidate.py:43-49 ProposeCandidateFromEvidenceResult] *)
Module ProposeResult.
Record t : Set := mk {
  outcome : CandidateAdmissionOutcome.t;
  admission_record_id : string;
  candidate_id : option string;
  reason_codes : list string;
  proposal_id : string;
  state : option CandidateState.t }.
End ProposeResult.

(** What [new_opaque_id] and the clock answer to one proposal; each of the three proposers would
    get an id of its own, at most one of which is used. *)
Record candidate_ids : Set := CandidateIds {
  id_proposal : string;
  id_admission : string;
  id_candidate : string;
  candidate_now : Z;
  candidate_admission_now : Z }.

(** The candidate a piece of evidence has, the oldest one first.
    [application/propose_candidate.py:164-196 ProposeCandidateFromEvidence._reload_existing] *)
Definition existing_candidate (db : CandidateDb.t) (e : EvidenceRecord.t) : option CandidateRecord.t :=
  head (sort_by CandidateRecord.created_at
          (List.filter (fun c => mem e.(EvidenceRecord.evidence_id) c.(CandidateRecord.evidence_ids))
             (candidates_for_run db e.(EvidenceRecord.research_run_id)))).

(** [application/propose_candidate.py:164-196 ProposeCandidateFromEvidence._reload_existing] *)
Definition result_of_candidate (db : CandidateDb.t) (r : CandidateRecord.t) : result ProposeResult.t :=
  admission ← get_candidate_admission db r.(CandidateRecord.admission_record_id);
  state ← candidate_state_of_value r.(CandidateRecord.state);
  Ok (ProposeResult.mk CandidateAdmissionOutcome.ADMITTED r.(CandidateRecord.admission_record_id)
        (Some r.(CandidateRecord.candidate_id))
        (match admission with
         | Some a => a.(CandidateAdmissionRecord.reason_codes)
         | None => ["CANDIDATE_ALREADY_ADMITTED"] end)
        (match admission with
         | Some a => a.(CandidateAdmissionRecord.proposal_id)
         | None => r.(CandidateRecord.admission_record_id) end)
        (Some state)).

(** [application/propose_candidate.py:164-196 ProposeCandidateFromEvidence._reload_existing] *)
Definition reload_candidate (db : CandidateDb.t) (evidence_id : string) : result ProposeResult.t :=
  found_evidence ← get_evidence db evidence_id;
  evidence ← found found_evidence;
  existing ← found (existing_candidate db evidence);
  result_of_candidate db existing.

(** [application/propose_candidate.py:199-225 _admission_context] *)
Definition candidate_context (e : EvidenceRecord.t) (c : ProposeCommand.t)
    : result CandidateAdmissionContext.t :=
  ref ← CandidateEvidenceRef.post_init
    (CandidateEvidenceRef.mk e.(EvidenceRecord.evidence_id) e.(EvidenceRecord.research_run_id)
       e.(EvidenceRecord.hypothesis_id) e.(EvidenceRecord.experiment_id) e.(EvidenceRecord.polarity)
       e.(EvidenceRecord.claim_scope));
  CandidateAdmissionContext.post_init
    (CandidateAdmissionContext.mk e.(EvidenceRecord.research_run_id) e.(EvidenceRecord.hypothesis_id)
       [ref]
       (List.filter (fun id => negb (id =? e.(EvidenceRecord.evidence_id))%string)
          (match c.(ProposeCommand.proposal) with
           | Some p => p.(CandidateProposal.evidence_ids) | None => [] end))
       c.(ProposeCommand.authoritative_out_of_scope) c.(ProposeCommand.known_duplicate_candidate_id)).

(** The first of the three proposers that proposes.
    [application/propose_candidate.py:62-161 ProposeCandidateFromEvidence.execute] *)
Definition proposed_candidate (context : CandidateAdmissionContext.t) (proposal_id : string)
    : result CandidateProposal.t :=
  diagnostic ← propose_diagnostic_candidate context proposal_id;
  match diagnostic with
  | Some p => Ok p
  | None =>
      differential ← propose_authorization_differential_candidate context proposal_id;
      match differential with
      | Some p => Ok p
      | None => transition ← propose_state_transition_candidate context proposal_id; found transition
      end
  end.

(** [application/propose_candidate.py:62-161 ProposeCandidateFromEvidence.execute] *)
Definition candidate_record (p : CandidateProposal.t) (state : CandidateState.t) (ids : candidate_ids)
    : result CandidateRecord.t :=
  CandidateRecord.post_init
    (CandidateRecord.mk ids.(id_candidate) p.(CandidateProposal.research_run_id)
       p.(CandidateProposal.hypothesis_id) p.(CandidateProposal.claim)
       p.(CandidateProposal.classification) (CandidateState.value state)
       p.(CandidateProposal.evidence_ids) ids.(candidate_now) ids.(id_admission)).

(** [application/propose_candidate.py:228-248 _admission_record] *)
Definition candidate_admission_record (d : CandidateAdmissionDecision.t) (candidate_id : option string)
    (ids : candidate_ids) : result CandidateAdmissionRecord.t :=
  let p := d.(CandidateAdmissionDecision.proposal) in
  CandidateAdmissionRecord.post_init
    (CandidateAdmissionRecord.mk ids.(id_admission) p.(CandidateProposal.proposal_id)
       p.(CandidateProposal.research_run_id)
       (CandidateAdmissionOutcome.value d.(CandidateAdmissionDecision.outcome))
       d.(CandidateAdmissionDecision.reason_codes) p.(CandidateProposal.evidence_ids)
       CANDIDATE_ADMISSION_POLICY_VERSION ids.(candidate_admission_now) candidate_id
       (Some p.(CandidateProposal.claim)) (Some p.(CandidateProposal.classification))).

(** The writes of a decision; [None]: the evidence seeds a candidate.
    [application/propose_candidate.py:62-161 ProposeCandidateFromEvidence.execute] *)
Definition store_candidate (db : CandidateDb.t) (d : CandidateAdmissionDecision.t) (ids : candidate_ids)
    : result (option (CandidateDb.t * ProposeResult.t)) :=
  let creates := CandidateAdmissionDecision.creates_candidate d in
  let candidate_id := if creates then Some ids.(id_candidate) else None in
  inserted ←
    (if creates
     then match d.(CandidateAdmissionDecision.initial_state) with
          | Some CandidateState.OPEN =>
              r ← candidate_record d.(CandidateAdmissionDecision.proposal) CandidateState.OPEN ids;
              insert_candidate db r
          | _ => Raise AssertionError
          end
     else Ok (Some db));
  match inserted with
  | None => Ok None
  | Some db1 =>
      a ← candidate_admission_record d candidate_id ids;
      db2 ← insert_candidate_admission db1 a;
      Ok (Some (db2, ProposeResult.mk d.(CandidateAdmissionDecision.outcome) ids.(id_admission)
                       candidate_id d.(CandidateAdmissionDecision.reason_codes)
                       d.(CandidateAdmissionDecision.proposal).(CandidateProposal.proposal_id)
                       d.(CandidateAdmissionDecision.initial_state)))
  end.

(** [application/propose_candidate.py:62-161 ProposeCandidateFromEvidence.execute] *)
Definition propose_candidate (seen db : CandidateDb.t) (c : ProposeCommand.t) (ids : candidate_ids)
    : result (CandidateDb.t * ProposeResult.t) :=
  found_evidence ← get_evidence seen c.(ProposeCommand.evidence_id);
  evidence ← found found_evidence;
  match existing_candidate seen evidence with
  | Some r => answer ← result_of_candidate seen r; Ok (db, answer)
  | None =>
      context ← candidate_context evidence c;
      p ← match c.(ProposeCommand.proposal) with
          | Some p => Ok p
          | None => proposed_candidate context ids.(id_proposal)
          end;
      stored ← store_candidate db (admit_candidate p context) ids;
      match stored with
      | Some answer => Ok answer
      | None => answer ← reload_candidate db c.(ProposeCommand.evidence_id); Ok (db, answer)
      end
  end.

(** ** [application/start_candidate_verification.py] *)

(** The plan of a classification.
    [application/start_candidate_verification.py:43-95 StartCandidateVerification.execute] *)
Definition verification_plan (r : CandidateRecord.t) : result VerificationPlan.t :=
  let plan := if (r.(CandidateRecord.classification) =? HTTP_AUTHORIZATION_DIFFERENTIAL_CLASSIFICATION)%string
              then plan_authorization_differential_verification
              else if (r.(CandidateRecord.classification) =? HTTP_STATE_TRANSITION_CLASSIFICATION)%string
              then plan_state_transition_verification else plan_diagnostic_verification in
  plan r.(CandidateRecord.candidate_id) r.(CandidateRecord.evidence_ids).

(** [application/start_candidate_verification.py:33-36 StartCandidateVerificationResult] *)
Module StartResult.
Record t : Set := mk {
  candidate_id : string;
  state : CandidateState.t;
  plan : VerificationPlan.t }.
End StartResult.

(** [application/start_candidate_verification.py:43-95 StartCandidateVerification.execute] *)
Definition start_verification (seen db : CandidateDb.t) (candidate_id : string)
    : result (CandidateDb.t * StartResult.t) :=
  found_candidate ← get_candidate seen candidate_id;
  candidate ← found found_candidate;
  current ← reraise is_value_error (candidate_state_of_value candidate.(CandidateRecord.state));
  let id := candidate.(CandidateRecord.candidate_id) in
  if bool_decide (current = CandidateState.VERIFYING)
  then plan ← verification_plan candidate; Ok (db, StartResult.mk id current plan)
  else
  next_state ← reraise is_input_error (start_candidate_verification current);
  plan ← verification_plan candidate;
  db' ← set_state db id (CandidateState.value next_state);
  Ok (db', StartResult.mk id next_state plan).

(** ** [application/complete_candidate_verification.py] *)

(** [application/complete_candidate_verification.py:49-54 CompleteCandidateVerificationCommand] *)
Module CompleteCommand.
Record t : Set := mk {
  candidate_id : string;
  reproduction_experiment_id : option string;
  negative_control_experiment_id : option string;
  authoritative_out_of_scope : bool;
  duplicate_of_candidate_id : option string }.
End CompleteCommand.

(** [application/complete_candidate_verification.py:58-63 CompleteCandidateVerificationResult] *)
Module CompleteResult.
Record t : Set := mk {
  candidate_id : string;
  verification_id : string;
  outcome : VerificationOutcome.t;
  state : CandidateState.t;
  reason_codes : list string }.
End CompleteResult.

(** [research/verification.py:46-53 VerificationOutcome] *)
Definition verification_outcomes : list VerificationOutcome.t :=
  [ VerificationOutcome.VALIDATED; VerificationOutcome.REJECTED; VerificationOutcome.INCONCLUSIVE;
    VerificationOutcome.DUPLICATE; VerificationOutcome.OUT_OF_SCOPE ].

(** The request an experiment was executed with.
    [application/complete_candidate_verification.py:266-289 _evidence_ref] *)
Definition request_of (rows : AssessDb.t) (experiment_id : string) : option string :=
  match attempts_of rows experiment_id, worker_results_of rows experiment_id with
  | a :: _, _ => Some a.(ExecutionAttemptRecord.request_id)
  | [], r :: _ => Some r.(WorkerResultRecord.request_id)
  | [], [] => None
  end.

(** [application/complete_candidate_verification.py:292-304 _observation_facts] *)
Definition observation_facts (observations : list ObservationRecord.t) (wanted : list string)
    : list (string * pyval) :=
  match List.find (fun o => mem o.(ObservationRecord.observation_id) wanted
          && mem o.(ObservationRecord.observation_kind)
               ["HTTP_AUTHORIZATION_DIFFERENTIAL"; "HTTP_STATE_TRANSITION_AUTHORIZATION"]) observations with
  | Some o => o.(ObservationRecord.payload)
  | None => []
  end.

(** [application/complete_candidate_verification.py:307-317 _echoed_value] *)
Definition echoed_of (o : ObservationRecord.t) : option string :=
  match dict_get "echoed" o.(ObservationRecord.payload) with
  | PStr s => if Str.is_blank s then None else Some s
  | _ => None
  end.

(** [application/complete_candidate_verification.py:307-317 _echoed_value] *)
Definition echoed_value (observations : list ObservationRecord.t) (wanted : list string) : option string :=
  head (omap echoed_of (List.filter (fun o => mem o.(ObservationRecord.observation_id) wanted) observations)).

(** [application/complete_candidate_verification.py:266-289 _evidence_ref] *)
Definition evidence_ref (rows : AssessDb.t) (e : EvidenceRecord.t) : result VerificationEvidenceRef.t :=
  request_id ← found (request_of rows e.(EvidenceRecord.experiment_id));
  let observations := observations_of rows e.(EvidenceRecord.experiment_id) in
  let facts := observation_facts observations e.(EvidenceRecord.observation_ids) in
  VerificationEvidenceRef.post_init
    (VerificationEvidenceRef.mk e.(EvidenceRecord.evidence_id) e.(EvidenceRecord.research_run_id)
       e.(EvidenceRecord.experiment_id) request_id e.(EvidenceRecord.observation_ids)
       e.(EvidenceRecord.polarity) e.(EvidenceRecord.claim_scope)
       (echoed_value observations e.(EvidenceRecord.observation_ids))
       (if bool_decide (length facts = 0%nat) then None else Some facts)).

(** [application/complete_candidate_verification.py:257-263 _originating_evidence] *)
Definition originating_evidence (db : CandidateDb.t) (evidence_ids : list string)
    : result EvidenceRecord.t :=
  match evidence_ids with
  | [] => Raise ApplicationError
  | id :: _ => e ← get_evidence db id; found e
  end.

(** [application/complete_candidate_verification.py:320-336 _execution_unusable] *)
Definition execution_unusable (experiment : ExperimentRecord.t) (attempt : option ExecutionAttemptRecord.t)
    (worker_result : option WorkerResultRecord.t) : bool :=
  mem experiment.(ExperimentRecord.execution_state) UNUSABLE_EXPERIMENT_STATES
  || is_one_of (ExecutionAttemptRecord.state <$> attempt) UNUSABLE_ATTEMPT_STATES
  || is_one_of (WorkerResultRecord.status <$> worker_result) ["EXECUTION_FAILED"; "TIMED_OUT"; "CANCELLED"].

(** The first piece of evidence of an experiment, whatever it says.
    [application/complete_candidate_verification.py:76-234 CompleteCandidateVerification.execute] *)
Definition first_evidence_ref (db : CandidateDb.t) (experiment_id : string)
    : result (option VerificationEvidenceRef.t) :=
  items ← evidence_for_experiment db.(CandidateDb.base) experiment_id;
  match items with
  | [] => Ok None
  | e :: _ => ref ← evidence_ref db.(CandidateDb.base).(EvidenceDb.rows) e; Ok (Some ref)
  end.

(** What the command's reproduction experiment shows. *)
Module Reproduction.
Record t : Type := mk {
  evidence : option VerificationEvidenceRef.t;
  unusable : bool;
  assessment_outcome : option AssessmentOutcome.t;
  experiment_id : option string;
  request_id : option string;
  observation_ids : list string }.
Definition none : t := mk None false None None None [].
End Reproduction.

(** [application/complete_candidate_verification.py:76-234 CompleteCandidateVerification.execute] *)
Definition read_reproduction (db : CandidateDb.t) (candidate : CandidateRecord.t) (id : string)
    : result Reproduction.t :=
  let rows := db.(CandidateDb.base).(EvidenceDb.rows) in
  _ ← data_opaque_id id;
  experiment ← found (List.find (fun e => (e.(ExperimentRecord.experiment_id) =? id)%string)
                        rows.(AssessDb.experiments));
  raise_if negb (experiment.(ExperimentRecord.research_run_id)
                 =? candidate.(CandidateRecord.research_run_id))%string as ApplicationError;;
  outcome ← match last (assessments_of rows id) with
            | None => Ok None
            | Some a => o ← enum_of AssessmentOutcome.value outcome_members
                              a.(HypothesisAssessmentRecord.assessment_outcome); Ok (Some o)
            end;
  evidence ← first_evidence_ref db id;
  Ok (Reproduction.mk evidence
        (execution_unusable experiment (head (attempts_of rows id)) (head (worker_results_of rows id)))
        outcome (Some experiment.(ExperimentRecord.experiment_id)) (request_of rows id)
        (ObservationRecord.observation_id <$> observations_of rows id)).

(** The verifier of a classification.
    [application/complete_candidate_verification.py:76-234 CompleteCandidateVerification.execute] *)
Definition verifier_for (classification : string)
    : VerificationContext.t -> result VerificationResult.t :=
  if (classification =? HTTP_AUTHORIZATION_DIFFERENTIAL_CLASSIFICATION)%string
  then evaluate_authorization_differential_verification
  else if (classification =? HTTP_STATE_TRANSITION_CLASSIFICATION)%string
  then evaluate_state_transition_verification else evaluate_diagnostic_verification.

(** What the verifier is shown.
    [application/complete_candidate_verification.py:76-234 CompleteCandidateVerification.execute] *)
Definition verification_context (db : CandidateDb.t) (candidate : CandidateRecord.t)
    (current : CandidateState.t) (c : CompleteCommand.t) : result VerificationContext.t :=
  let rows := db.(CandidateDb.base).(EvidenceDb.rows) in
  original ← originating_evidence db candidate.(CandidateRecord.evidence_ids);
  original_ref ← evidence_ref rows original;
  reproduction ← match c.(CompleteCommand.reproduction_experiment_id) with
                 | None => Ok Reproduction.none
                 | Some id => read_reproduction db candidate id
                 end;
  control ← match c.(CompleteCommand.negative_control_experiment_id) with
            | None => Ok None
            | Some id => first_evidence_ref db id
            end;
  known ← match c.(CompleteCommand.duplicate_of_candidate_id) with
          | None => Ok None
          | Some id => get_candidate db id
          end;
  plan ← verification_plan candidate;
  VerificationContext.post_init
    (VerificationContext.mk candidate.(CandidateRecord.candidate_id) current
       candidate.(CandidateRecord.research_run_id) candidate.(CandidateRecord.hypothesis_id)
       candidate.(CandidateRecord.claim) plan original_ref reproduction.(Reproduction.evidence) control
       reproduction.(Reproduction.unusable) c.(CompleteCommand.authoritative_out_of_scope)
       c.(CompleteCommand.duplicate_of_candidate_id) (bool_decide (is_Some known))
       reproduction.(Reproduction.assessment_outcome) reproduction.(Reproduction.experiment_id)
       reproduction.(Reproduction.request_id) reproduction.(Reproduction.observation_ids)).

(** [application/complete_candidate_verification.py:76-234 CompleteCandidateVerification.execute] *)
Definition verification_record (candidate : CandidateRecord.t) (r : VerificationResult.t)
    (verification_id : string) (now : Z) : result VerificationRecord.t :=
  VerificationRecord.post_init
    (VerificationRecord.mk verification_id candidate.(CandidateRecord.candidate_id)
       candidate.(CandidateRecord.research_run_id) r.(VerificationResult.strategy)
       (VerificationOutcome.value r.(VerificationResult.outcome))
       (CandidateState.value r.(VerificationResult.proposed_candidate_state))
       r.(VerificationResult.original_evidence_ids) r.(VerificationResult.reproduction_evidence_ids)
       r.(VerificationResult.negative_control_evidence_ids)
       r.(VerificationResult.alternative_explanation_checks) r.(VerificationResult.verifier_kind)
       r.(VerificationResult.verifier_identity) now).

(** The answer from a recorded verification.
    [application/complete_candidate_verification.py:236-254 CompleteCandidateVerification._reload_existing] *)
Definition recorded_answer (candidate_id : string) (state : CandidateState.t) (v : VerificationRecord.t)
    : result CompleteResult.t :=
  outcome ← enum_of VerificationOutcome.value verification_outcomes v.(VerificationRecord.outcome);
  Ok (CompleteResult.mk candidate_id v.(VerificationRecord.verification_id) outcome state
        ["VERIFICATION_ALREADY_RECORDED"]).

(** [application/complete_candidate_verification.py:236-254 CompleteCandidateVerification._reload_existing] *)
Definition reload_verification (db : CandidateDb.t) (candidate_id : string) : result CompleteResult.t :=
  found_candidate ← get_candidate db candidate_id;
  candidate ← found found_candidate;
  v ← found (last (verifications_of db candidate_id));
  state ← candidate_state_of_value candidate.(CandidateRecord.state);
  recorded_answer candidate_id state v.

(** [application/complete_candidate_verification.py:76-234 CompleteCandidateVerification.execute] *)
Definition complete_verification (seen db : CandidateDb.t) (c : CompleteCommand.t)
    (verification_id : string) (now : Z) : result (CandidateDb.t * CompleteResult.t) :=
  let id := c.(CompleteCommand.candidate_id) in
  found_candidate ← get_candidate seen id;
  candidate ← found found_candidate;
  match last (verifications_of seen id) with
  | Some v =>
      state ← reraise is_value_error (candidate_state_of_value candidate.(CandidateRecord.state));
      answer ← recorded_answer id state v; Ok (db, answer)
  | None =>
      current ← reraise is_value_error (candidate_state_of_value candidate.(CandidateRecord.state));
      context ← verification_context seen candidate current c;
      r ← verifier_for candidate.(CandidateRecord.classification) context;
      next_state ← reraise is_input_error (apply_verification_to_candidate current r);
      record ← verification_record candidate r verification_id now;
      inserted ← insert_verification db record;
      match inserted with
      | None => answer ← reload_verification db id; Ok (db, answer)
      | Some db1 =>
          db2 ← set_state db1 candidate.(CandidateRecord.candidate_id) (CandidateState.value next_state);
          Ok (db2, CompleteResult.mk candidate.(CandidateRecord.candidate_id) verification_id
                     r.(VerificationResult.outcome) next_state r.(VerificationResult.reason_codes))
      end
  end.

(** ** Steps *)

(** What a worker read is still there, but for the states of candidates. *)
Record grows (seen db : CandidateDb.t) : Prop := {
  gr_evidence : seen.(CandidateDb.base).(EvidenceDb.evidence) ⊆ db.(CandidateDb.base).(EvidenceDb.evidence);
  gr_candidates : forall c, c ∈ seen.(CandidateDb.candidates) -> exists s,
    candidate_with_state s c ∈ db.(CandidateDb.candidates) }.

Definition with_base (base : EvidenceDb.t) (db : CandidateDb.t) : CandidateDb.t :=
  CandidateDb.mk base db.(CandidateDb.candidates) db.(CandidateDb.admissions)
    db.(CandidateDb.verifications).

(** One use case of one worker, or anything the rest of the system does to the rows of experiments;
    [seen] is what the worker read, at any time before. *)
Inductive step (db : CandidateDb.t) : CandidateDb.t -> Prop :=
  | rows_step rows runs :
      step db (with_base (EvidenceDb.mk rows runs db.(CandidateDb.base).(EvidenceDb.evidence)
                            db.(CandidateDb.base).(EvidenceDb.admissions)) db)
  | admit_step seen c f base answer :
      Str.strip f.(new_evidence_id) = f.(new_evidence_id) ->
      admit_diagnostic_evidence seen db.(CandidateDb.base) c f = Ok (base, answer) ->
      step db (with_base base db)
  | propose_step seen c ids db' answer :
      grows seen db -> propose_candidate seen db c ids = Ok (db', answer) -> step db db'
  | start_step seen id db' answer :
      grows seen db -> start_verification seen db id = Ok (db', answer) -> step db db'
  | complete_step seen c id now db' answer :
      grows seen db -> complete_verification seen db c id now = Ok (db', answer) -> step db db'.

Inductive reachable (start : CandidateDb.t) : CandidateDb.t -> Prop :=
  | reachable_refl : reachable start start
  | reachable_step db db' : reachable start db -> step db db' -> reachable start db'.

(** No evidence, no candidate. *)
Definition fresh_start (db : CandidateDb.t) : Prop :=
  db.(CandidateDb.base).(EvidenceDb.evidence) = [] /\ db.(CandidateDb.candidates) = []
  /\ db.(CandidateDb.verifications) = [].

(** ** The invariant *)

(** A row of evidence as [Evidence] admits it. *)
Record evidence_ok (e : EvidenceRecord.t) : Prop := {
  eo_id : Str.strip e.(EvidenceRecord.evidence_id) = e.(EvidenceRecord.evidence_id);
  eo_polarity : exists p, e.(EvidenceRecord.polarity) = EvidencePolarity.value p;
  eo_claim : e.(EvidenceRecord.claim_scope)
    ∈ [ DIAGNOSTIC_ECHO_MATCHED_CLAIM; DIAGNOSTIC_ECHO_MISMATCHED_CLAIM;
        HTTP_AUTHORIZATION_DIFFERENTIAL_CLAIM; HTTP_STATE_TRANSITION_CLAIM ] }.

(** A supporting piece of evidence for the claim of the candidate, the first of those it cites. *)
Definition seeded (db : CandidateDb.t) (c : CandidateRecord.t) (e : EvidenceRecord.t) : Prop :=
  e ∈ db.(CandidateDb.base).(EvidenceDb.evidence)
  /\ head c.(CandidateRecord.evidence_ids) = Some e.(EvidenceRecord.evidence_id)
  /\ is_supporting e = true
  /\ e.(EvidenceRecord.claim_scope) = c.(CandidateRecord.claim)
  /\ c.(CandidateRecord.claim) = expected_claim c.(CandidateRecord.classification).

(** Evidence of the candidate's claim from another experiment than the one that seeded it. *)
Definition reproduced (db : CandidateDb.t) (c : CandidateRecord.t) (v : VerificationRecord.t) : Prop :=
  exists e0 e1, seeded db c e0
    /\ e1 ∈ db.(CandidateDb.base).(EvidenceDb.evidence)
    /\ v.(VerificationRecord.reproduction_evidence_ids) = [e1.(EvidenceRecord.evidence_id)]
    /\ is_supporting e1 = true
    /\ e1.(EvidenceRecord.claim_scope) = c.(CandidateRecord.claim)
    /\ e1.(EvidenceRecord.experiment_id) ≠ e0.(EvidenceRecord.experiment_id)
    /\ forall o, o ∈ e0.(EvidenceRecord.observation_ids) -> o ∉ e1.(EvidenceRecord.observation_ids).

Record inv (db : CandidateDb.t) : Prop := {
  i_once : supporting_once db.(CandidateDb.base);
  i_evidence : Forall evidence_ok db.(CandidateDb.base).(EvidenceDb.evidence);
  i_ids : NoDup (CandidateRecord.candidate_id <$> db.(CandidateDb.candidates));
  i_seeded : forall c, c ∈ db.(CandidateDb.candidates) -> exists e, seeded db c e;
  i_own : forall c c' i, c ∈ db.(CandidateDb.candidates) -> c' ∈ db.(CandidateDb.candidates) ->
    i ∈ c.(CandidateRecord.evidence_ids) -> i ∈ c'.(CandidateRecord.evidence_ids) ->
    c.(CandidateRecord.candidate_id) = c'.(CandidateRecord.candidate_id);
  i_once_verified : NoDup (VerificationRecord.candidate_id <$> db.(CandidateDb.verifications));
  i_concluded : forall c s, c ∈ db.(CandidateDb.candidates) ->
    c.(CandidateRecord.state) = CandidateState.value s -> s ∈ TERMINAL_CANDIDATE_STATES ->
    exists v, v ∈ db.(CandidateDb.verifications)
      /\ v.(VerificationRecord.candidate_id) = c.(CandidateRecord.candidate_id)
      /\ v.(VerificationRecord.outcome) = c.(CandidateRecord.state);
  i_validated : forall v, v ∈ db.(CandidateDb.verifications) ->
    v.(VerificationRecord.outcome) = "VALIDATED" ->
    exists c, c ∈ db.(CandidateDb.candidates)
      /\ c.(CandidateRecord.candidate_id) = v.(VerificationRecord.candidate_id) /\ reproduced db c v }.

(** *** The reads *)

Lemma get_evidence_ok db id e :
  get_evidence db id = Ok (Some e) ->
  e ∈ db.(CandidateDb.base).(EvidenceDb.evidence) /\ e.(EvidenceRecord.evidence_id) = id.
Proof.
  unfold get_evidence. intros (? & _ & [= He])%bind_ok.
  apply find_Some_elem in He as [? ?%String.eqb_eq]. done.
Qed.

Lemma get_candidate_ok db id c :
  get_candidate db id = Ok (Some c) ->
  c ∈ db.(CandidateDb.candidates) /\ c.(CandidateRecord.candidate_id) = id.
Proof.
  unfold get_candidate. intros (? & _ & [= Hc])%bind_ok.
  apply find_Some_elem in Hc as [? ?%String.eqb_eq]. done.
Qed.

Lemma evidence_for_experiment_ok db id l :
  evidence_for_experiment db id = Ok l -> forall e, e ∈ l ->
  e ∈ db.(EvidenceDb.evidence) /\ e.(EvidenceRecord.experiment_id) = id.
Proof.
  unfold evidence_for_experiment. intros (? & _ & [= <-])%bind_ok e. rewrite elem_of_sort_by.
  intros [Hin He%String.eqb_eq]%list_elem_of_In%filter_In. split; [by apply list_elem_of_In|done].
Qed.

(** *** Claims and polarities have no blanks around them *)

Lemma strip_polarity p : Str.strip (EvidencePolarity.value p) = EvidencePolarity.value p.
Proof. by destruct p. Qed.

Lemma strip_claim e : evidence_ok e -> Str.strip e.(EvidenceRecord.claim_scope) = e.(EvidenceRecord.claim_scope).
Proof.
  intros [_ _ Hc]. set_unfold in Hc. destruct Hc as [->|[->|[->|[->|[]]]]]; vm_compute; reflexivity.
Qed.

Lemma stripped_supporting e :
  evidence_ok e -> Str.strip e.(EvidenceRecord.polarity) = "SUPPORTING" -> is_supporting e = true.
Proof.
  intros [_ [p Hp] _]. unfold is_supporting. rewrite Hp, strip_polarity. intros ->. reflexivity.
Qed.

(** *** Evidence *)

Lemma claimable_claim strategy outcome claim polarity :
  claimable strategy outcome claim polarity ->
  claim ∈ [ DIAGNOSTIC_ECHO_MATCHED_CLAIM; DIAGNOSTIC_ECHO_MISMATCHED_CLAIM;
            HTTP_AUTHORIZATION_DIFFERENTIAL_CLAIM; HTTP_STATE_TRANSITION_CLAIM ].
Proof. destruct 1; set_solver. Qed.

(** Admission only adds evidence, and only such evidence. *)
Lemma admitted_evidence seen db c f db' answer :
  admit_diagnostic_evidence seen db c f = Ok (db', answer) ->
  Str.strip f.(new_evidence_id) = f.(new_evidence_id) ->
  (supporting_once db -> supporting_once db')
  /\ exists new, db'.(EvidenceDb.evidence) = db.(EvidenceDb.evidence) ++ new /\ Forall evidence_ok new.
Proof.
  intros [H Honce]%admit_diagnostic_evidence_ok Hf. split; [done|].
  destruct H as [[-> _]|(new & a & -> & _ & _ & _ & H)].
  { exists []. by rewrite app_nil_r. }
  exists new. split; [done|]. destruct answer.(AdmitResult.evidence_id) as [id|]; [|by destruct H as [_ ->]].
  destruct H as (_ & -> & r & -> & Hid & _ & [_ _ (plan & a' & o & p & _ & _ & _ & _ & _ & Hp & Hc)]).
  apply Forall_singleton. split; [congruence|by exists p|by eapply claimable_claim].
Qed.

Lemma inv_more_evidence db base new :
  inv db -> supporting_once base ->
  base.(EvidenceDb.evidence) = db.(CandidateDb.base).(EvidenceDb.evidence) ++ new ->
  Forall evidence_ok new -> inv (with_base base db).
Proof.
  intros [I1 I2 I3 I4 I5 I6 I7 I8] Hb He Hn.
  assert (Hs : forall c e, seeded db c e -> seeded (with_base base db) c e).
  { intros c e (H & ?). split; [|done]. cbn. rewrite He. apply elem_of_app. by left. }
  split; cbn; try done.
  - rewrite He. by apply Forall_app.
  - intros c Hc. destruct (I4 c Hc) as [e ?]. exists e. by apply Hs.
  - intros v Hv Ho. destruct (I8 v Hv Ho) as (c & Hc & Hid & e0 & e1 & H0 & H1 & H2). exists c.
    split; [done|]. split; [done|]. exists e0, e1. split; [by apply Hs|]. split; [|done].
    cbn. rewrite He. apply elem_of_app. by left.
Qed.

(** *** Proposal *)

Lemma candidate_context_ok e c context :
  candidate_context e c = Ok context ->
  exists ref, context.(CandidateAdmissionContext.evidence) = [ref]
    /\ ref.(CandidateEvidenceRef.evidence_id) = Str.strip e.(EvidenceRecord.evidence_id)
    /\ ref.(CandidateEvidenceRef.polarity) = Str.strip e.(EvidenceRecord.polarity)
    /\ ref.(CandidateEvidenceRef.claim_scope) = Str.strip e.(EvidenceRecord.claim_scope).
Proof.
  unfold candidate_context. intros (ref & Href & H)%bind_ok. exists ref.
  unfold CandidateEvidenceRef.post_init in Href. cbn in Href.
  apply bind_ok in Href as (r1 & ->%require_text_ok & Href).
  do 3 apply bind_ok in Href as (? & _ & Href). apply bind_ok in Href as (r5 & ->%require_text_ok & Href).
  apply bind_ok in Href as (r6 & ->%require_text_ok & [= <-]).
  unfold CandidateAdmissionContext.post_init in H. cbn in H.
  do 2 apply bind_ok in H as (? & _ & H). by injection H as <-.
Qed.

(** What admission establishes of the proposal. *)
Lemma admitted_candidate p context e :
  (exists ref, context.(CandidateAdmissionContext.evidence) = [ref]
    /\ ref.(CandidateEvidenceRef.evidence_id) = Str.strip e.(EvidenceRecord.evidence_id)
    /\ ref.(CandidateEvidenceRef.polarity) = Str.strip e.(EvidenceRecord.polarity)
    /\ ref.(CandidateEvidenceRef.claim_scope) = Str.strip e.(EvidenceRecord.claim_scope)) ->
  evidence_ok e ->
  CandidateAdmissionDecision.creates_candidate (admit_candidate p context) = true ->
  p.(CandidateProposal.claim) = expected_claim p.(CandidateProposal.classification)
  /\ e.(EvidenceRecord.claim_scope) = p.(CandidateProposal.claim) /\ is_supporting e = true
  /\ head p.(CandidateProposal.evidence_ids) = Some e.(EvidenceRecord.evidence_id)
  /\ forall i, i ∈ p.(CandidateProposal.evidence_ids) -> i = e.(EvidenceRecord.evidence_id).
Proof.
  intros (ref & Href & Hid & Hpol & Hcl) He Hc. pose proof (proj1 (admit_candidate_iff p context)) as Hiff.
  apply Hiff in Hc as (_ & [_ _ _ Hne Hknown _] & [_ Hclaim (r & Hr & _ & Hs & Hrc) _] & _).
  rewrite Href in Hr. apply list_elem_of_singleton in Hr as ->.
  assert (Hall : forall i, i ∈ p.(CandidateProposal.evidence_ids) -> i = e.(EvidenceRecord.evidence_id)).
  { intros i Hi. specialize (Hknown i Hi). unfold CandidateAdmissionContext.evidence_ids in Hknown.
    rewrite Href in Hknown. cbn in Hknown. apply list_elem_of_singleton in Hknown as ->.
    rewrite Hid. apply He. }
  split; [done|]. split; [by rewrite <-(strip_claim e He), <-Hcl|]. split.
  { apply stripped_supporting; [done|congruence]. }
  split; [|done]. destruct p.(CandidateProposal.evidence_ids) as [|i l]; [done|]. cbn. f_equal.
  apply Hall. by left.
Qed.

Lemma link_evidence_ok db linked ids :
  link_evidence db linked ids = Ok true -> forall i, i ∈ ids -> seeds db i = false.
Proof.
  revert linked. induction ids as [|j ids IH]; intros linked; [by intros _ i ?%elem_of_nil|].
  cbn. intros [_ H]%raise_if_ok. destruct (seeds db j) eqn:E; [done|].
  apply raise_if_ok in H as [_ H]. intros i [-> |Hi]%elem_of_cons; [done|]. by eapply IH.
Qed.

Lemma insert_candidate_ok db r db' :
  insert_candidate db r = Ok (Some db') ->
  db' = CandidateDb.mk db.(CandidateDb.base) (db.(CandidateDb.candidates) ++ [r])
          db.(CandidateDb.admissions) db.(CandidateDb.verifications)
  /\ ~ (r.(CandidateRecord.candidate_id) ∈ CandidateRecord.candidate_id <$> db.(CandidateDb.candidates))
  /\ forall i, i ∈ r.(CandidateRecord.evidence_ids) -> seeds db i = false.
Proof.
  unfold insert_candidate. intros [Hid H]%raise_if_ok. apply raise_if_ok in H as [_ H].
  apply bind_ok in H as ([] & Hl & H); [|done]. injection H as <-. split; [done|]. split.
  - intros (c & Hc & Hin)%list_elem_of_fmap. rewrite existsb_false in Hid. specialize (Hid c Hin).
    by rewrite <-Hc, String.eqb_refl in Hid.
  - by eapply link_evidence_ok.
Qed.

Lemma insert_candidate_admission_ok db r db' :
  insert_candidate_admission db r = Ok db' ->
  db' = CandidateDb.mk db.(CandidateDb.base) db.(CandidateDb.candidates)
          (db.(CandidateDb.admissions) ++ [r]) db.(CandidateDb.verifications).
Proof.
  unfold insert_candidate_admission. intros [_ H]%raise_if_ok. apply raise_if_ok in H as [_ H].
  by injection H as <-.
Qed.

Lemma decision_proposal p context : (admit_candidate p context).(CandidateAdmissionDecision.proposal) = p.
Proof. unfold admit_candidate. cbv zeta. repeat case_match; done. Qed.

(** At most one candidate more: open, seeded, of evidence that seeds no other. *)
Definition one_candidate_more (db db' : CandidateDb.t) : Prop :=
  exists new adm, db' = CandidateDb.mk db.(CandidateDb.base) (db.(CandidateDb.candidates) ++ new)
      (db.(CandidateDb.admissions) ++ adm) db.(CandidateDb.verifications)
    /\ (new = [] \/ exists r e, new = [r] /\ r.(CandidateRecord.state) = "OPEN" /\ seeded db r e
         /\ ~ (r.(CandidateRecord.candidate_id) ∈ CandidateRecord.candidate_id <$> db.(CandidateDb.candidates))
         /\ (forall i, i ∈ r.(CandidateRecord.evidence_ids) -> seeds db i = false)).

Lemma no_candidate_more db : one_candidate_more db db.
Proof. exists [], []. rewrite !app_nil_r. destruct db. by split; [|left]. Qed.

Lemma store_candidate_ok db p context ids db' answer e :
  store_candidate db (admit_candidate p context) ids = Ok (Some (db', answer)) ->
  e ∈ db.(CandidateDb.base).(EvidenceDb.evidence) -> evidence_ok e ->
  (exists ref, context.(CandidateAdmissionContext.evidence) = [ref]
    /\ ref.(CandidateEvidenceRef.evidence_id) = Str.strip e.(EvidenceRecord.evidence_id)
    /\ ref.(CandidateEvidenceRef.polarity) = Str.strip e.(EvidenceRecord.polarity)
    /\ ref.(CandidateEvidenceRef.claim_scope) = Str.strip e.(EvidenceRecord.claim_scope)) ->
  one_candidate_more db db'.
Proof.
  unfold store_candidate. rewrite decision_proposal. intros (ins & Hins & Hst)%bind_ok Hin He Hctx.
  destruct (CandidateAdmissionDecision.creates_candidate (admit_candidate p context)) eqn:Ec.
  - destruct ins as [db2|]; [|done]. apply bind_ok in Hst as (a & _ & Hst).
    apply bind_ok in Hst as (db3 & ->%insert_candidate_admission_ok & [= <- <-]).
    destruct (CandidateAdmissionDecision.initial_state _) as [[]|] in Hins; try done.
    apply bind_ok in Hins as (r & Hr & (-> & Hfresh & Hun)%insert_candidate_ok).
    unfold candidate_record in Hr. apply validated in Hr. exists [r], [a].
    split; [done|right]. exists r, e. split; [done|].
    destruct (admitted_candidate p context e Hctx He Ec) as (H1 & H2 & H3 & H4 & _).
    split; [by rewrite Hr|]. split; [|done]. unfold seeded. by rewrite Hr.
  - injection Hins as <-. apply bind_ok in Hst as (a & _ & Hst).
    apply bind_ok in Hst as (db3 & ->%insert_candidate_admission_ok & [= <- <-]).
    exists [], [a]. rewrite app_nil_r. by split; [|left].
Qed.

Lemma propose_candidate_ok seen db c ids db' answer :
  Forall evidence_ok db.(CandidateDb.base).(EvidenceDb.evidence) -> grows seen db ->
  propose_candidate seen db c ids = Ok (db', answer) -> one_candidate_more db db'.
Proof.
  intros Hok [Hgrow _]. unfold propose_candidate.
  intros (fe & Hfe & H)%bind_ok. apply bind_ok in H as (e & ->%found_ok & H).
  apply get_evidence_ok in Hfe as [Hin _]. apply Hgrow in Hin.
  pose proof (proj1 (Forall_forall _ _) Hok e Hin) as He.
  destruct (existing_candidate seen e) as [x|].
  { apply bind_ok in H as (a & _ & [= <- <-]). apply no_candidate_more. }
  apply bind_ok in H as (context & Hctx%candidate_context_ok & H). apply bind_ok in H as (p & _ & H).
  apply bind_ok in H as ([[db1 a1]|] & Hst & H).
  - injection H as <- <-. by eapply store_candidate_ok.
  - apply bind_ok in H as (a & _ & [= <- <-]). apply no_candidate_more.
Qed.

Lemma seeds_false db i c :
  seeds db i = false -> c ∈ db.(CandidateDb.candidates) -> i ∉ c.(CandidateRecord.evidence_ids).
Proof. unfold seeds. rewrite existsb_false. intros H Hc. by apply mem_false, H. Qed.

Lemma open_is_not_terminal s : CandidateState.value s = "OPEN" -> s ∉ TERMINAL_CANDIDATE_STATES.
Proof. destruct s; try done; intros _; apply mem_false; reflexivity. Qed.

Lemma inv_one_candidate_more db db' : inv db -> one_candidate_more db db' -> inv db'.
Proof.
  intros [I1 I2 I3 I4 I5 I6 I7 I8] (new & adm & -> & Hnew).
  destruct Hnew as [-> |(r & e & -> & Hst & Hse & Hfresh & Hun)].
  { rewrite app_nil_r. by split. }
  assert (Hold : forall v, v ∈ db.(CandidateDb.candidates) -> v ∈ db.(CandidateDb.candidates) ++ [r])
    by (intros v Hv; apply elem_of_app; by left).
  split; cbn; try done.
  - rewrite fmap_app. apply NoDup_app. split; [done|]. split; [|apply NoDup_singleton].
    intros i Hi ->%list_elem_of_singleton. done.
  - intros c [Hc| ->%list_elem_of_singleton]%elem_of_app; [by apply I4|by exists e].
  - intros c c' i Hc Hc' Hi Hi'.
    apply elem_of_app in Hc as [Hc| ->%list_elem_of_singleton], Hc' as [Hc'| ->%list_elem_of_singleton];
      [by eapply I5|..|done].
    + exfalso. by apply (seeds_false db i c (Hun i Hi')).
    + exfalso. by apply (seeds_false db i c' (Hun i Hi)).
  - intros c s [Hc| ->%list_elem_of_singleton]%elem_of_app Hs Ht; [by eapply I7|].
    rewrite Hst in Hs. by apply open_is_not_terminal in Ht.
  - intros v Hv Ho. destruct (I8 v Hv Ho) as (c & Hc & Hid & Hr). exists c. by split; [apply Hold|].
Qed.

(** *** States *)

Definition put_state (id state : string) (db : CandidateDb.t) : CandidateDb.t :=
  CandidateDb.mk db.(CandidateDb.base)
    ((fun c => if (c.(CandidateRecord.candidate_id) =? id)%string
               then candidate_with_state state c else c) <$> db.(CandidateDb.candidates))
    db.(CandidateDb.admissions) db.(CandidateDb.verifications).

Lemma set_state_ok db id state db' : set_state db id state = Ok db' -> db' = put_state id state db.
Proof.
  unfold set_state. intros (? & _ & H)%bind_ok. do 2 apply raise_if_ok in H as [_ H].
  by injection H as <-.
Qed.

(** A candidate after a change of states is one before, with another state at most. *)
Lemma elem_of_put_state id state db c :
  c ∈ (put_state id state db).(CandidateDb.candidates) ->
  exists c0, c0 ∈ db.(CandidateDb.candidates) /\ c = candidate_with_state c.(CandidateRecord.state) c0
    /\ (c.(CandidateRecord.state) = c0.(CandidateRecord.state)
        \/ c0.(CandidateRecord.candidate_id) = id /\ c.(CandidateRecord.state) = state).
Proof.
  cbn. intros (c0 & -> & Hc)%list_elem_of_fmap. exists c0. split; [done|].
  destruct (String.eqb_spec c0.(CandidateRecord.candidate_id) id); [by split; [|right]|].
  split; [by destruct c0|by left].
Qed.

Lemma put_state_elem id state db c :
  c ∈ db.(CandidateDb.candidates) ->
  exists s, candidate_with_state s c ∈ (put_state id state db).(CandidateDb.candidates).
Proof.
  intros Hc. destruct (String.eqb_spec c.(CandidateRecord.candidate_id) id) as [E|E].
  - exists state. cbn. apply list_elem_of_fmap. exists c. by rewrite E, String.eqb_refl.
  - exists c.(CandidateRecord.state). cbn. apply list_elem_of_fmap. exists c. split; [|done].
    apply String.eqb_neq in E. rewrite E. by destruct c.
Qed.

Lemma inv_put_state db id s :
  inv db ->
  (s ∈ TERMINAL_CANDIDATE_STATES -> exists v, v ∈ db.(CandidateDb.verifications)
     /\ v.(VerificationRecord.candidate_id) = id
     /\ v.(VerificationRecord.outcome) = CandidateState.value s) ->
  inv (put_state id (CandidateState.value s) db).
Proof.
  intros [I1 I2 I3 I4 I5 I6 I7 I8] Hv. split; try done.
  - cbn. rewrite <-list_fmap_compose. erewrite list_fmap_ext; [exact I3|]. intros i c _. cbn.
    by case_match.
  - intros c (c0 & Hc & -> & _)%elem_of_put_state. destruct (I4 c0 Hc) as [e ?]. by exists e.
  - intros c c' i (c0 & Hc & -> & _)%elem_of_put_state (c1 & Hc' & -> & _)%elem_of_put_state.
    cbn. by apply I5.
  - intros c t (c0 & Hc & E & Hs)%elem_of_put_state Ht Hterm.
    destruct Hs as [Hs|[Hid Hs]].
    + rewrite Ht in Hs. symmetry in Hs. destruct (I7 c0 t Hc Hs Hterm) as (v & Hin & Hvid & Ho).
      exists v. rewrite E. cbn. split; [done|]. split; [done|]. congruence.
    + rewrite Ht in Hs. assert (t = s) as -> by (destruct t, s; done).
      destruct (Hv Hterm) as (v & Hin & Hvid & Ho). exists v. rewrite E. cbn. split_and!; congruence.
  - intros v Hin Ho. destruct (I8 v Hin Ho) as (c & Hc & Hid & Hr).
    destruct (put_state_elem id (CandidateState.value s) db c Hc) as [t Ht].
    exists (candidate_with_state t c). done.
Qed.

Lemma start_verification_ok seen db id db' answer :
  start_verification seen db id = Ok (db', answer) ->
  db' = db \/ exists i, db' = put_state i (CandidateState.value CandidateState.VERIFYING) db.
Proof.
  unfold start_verification. intros (fc & _ & H)%bind_ok. apply bind_ok in H as (c & _ & H).
  apply bind_ok in H as (current & _ & H). cbv zeta in H.
  destruct (bool_decide _).
  { apply bind_ok in H as (plan & _ & [= <- <-]). by left. }
  apply bind_ok in H as (next & Hn & H). apply bind_ok in H as (plan & _ & H).
  apply bind_ok in H as (db1 & ->%set_state_ok & [= <- <-]). right. eexists.
  unfold reraise, start_candidate_verification in Hn.
  destruct (transition_candidate current CandidateState.VERIFYING) as [t|] eqn:E; [|by destruct (is_input_error _)].
  injection Hn as ->. by apply transition_candidate_ok in E as [-> _].
Qed.

(** *** Completion *)

(** What all three verifiers ask of a reproduction. *)
Lemma verifier_ok classification context r :
  verifier_for classification context = Ok r ->
  r.(VerificationResult.proposed_candidate_state) = state_of r.(VerificationResult.outcome)
  /\ (r.(VerificationResult.outcome) = VerificationOutcome.VALIDATED ->
      exists e, context.(VerificationContext.reproduction_evidence) = Some e
        /\ separate context.(VerificationContext.original_evidence) e
        /\ e.(VerificationEvidenceRef.polarity) = "SUPPORTING"
        /\ e.(VerificationEvidenceRef.claim_scope) = expected_claim classification
        /\ r.(VerificationResult.reproduction_evidence_ids) = [e.(VerificationEvidenceRef.evidence_id)]).
Proof.
  unfold verifier_for, expected_claim.
  destruct (classification =? HTTP_AUTHORIZATION_DIFFERENTIAL_CLASSIFICATION)%string.
  { intros (Hv & _ & Hs & _)%http_result_inv. split; [done|]. intros Ho.
    destruct (Hv Ho) as (_ & e & (? & ? & ? & ? & _) & ?). by exists e. }
  destruct (classification =? HTTP_STATE_TRANSITION_CLASSIFICATION)%string.
  { intros (Hv & _ & Hs & _)%http_result_inv. split; [done|]. intros Ho.
    destruct (Hv Ho) as (_ & e & (? & ? & ? & ? & _) & ?). by exists e. }
  intros (Hv & _ & Hs)%diagnostic_result_inv. split; [done|]. intros Ho.
  destruct (Hv Ho) as (_ & e & ((? & ? & ? & ? & _) & _) & ?). by exists e.
Qed.

Lemma require_ids_strip l k : require_ids l = Ok k -> k = Str.strip <$> l.
Proof.
  unfold require_ids. intros H%traverse_ok. induction H as [|x y l k Hx _ IH]; [done|].
  cbn. by rewrite IH, (require_text_ok _ _ Hx).
Qed.

Lemma evidence_ref_ok rows e ref :
  evidence_ref rows e = Ok ref ->
  ref.(VerificationEvidenceRef.evidence_id) = Str.strip e.(EvidenceRecord.evidence_id)
  /\ ref.(VerificationEvidenceRef.experiment_id) = Str.strip e.(EvidenceRecord.experiment_id)
  /\ ref.(VerificationEvidenceRef.observation_ids) = Str.strip <$> e.(EvidenceRecord.observation_ids)
  /\ ref.(VerificationEvidenceRef.polarity) = Str.strip e.(EvidenceRecord.polarity)
  /\ ref.(VerificationEvidenceRef.claim_scope) = Str.strip e.(EvidenceRecord.claim_scope).
Proof.
  unfold evidence_ref, VerificationEvidenceRef.post_init. cbv zeta. intros (q & _ & H)%bind_ok.
  apply bind_ok in H as (r1 & ->%require_text_ok & H). apply bind_ok in H as (r2 & _ & H).
  apply bind_ok in H as (r3 & ->%require_text_ok & H). apply bind_ok in H as (r4 & _ & H).
  apply bind_ok in H as (r5 & ->%require_ids_strip & H). apply bind_ok in H as (r6 & ->%require_text_ok & H).
  apply bind_ok in H as (r7 & ->%require_text_ok & H). do 2 apply bind_ok in H as (? & _ & H).
  by injection H as <-.
Qed.

Lemma first_evidence_ref_ok db id ref :
  first_evidence_ref db id = Ok (Some ref) ->
  exists e, e ∈ db.(CandidateDb.base).(EvidenceDb.evidence)
    /\ evidence_ref db.(CandidateDb.base).(EvidenceDb.rows) e = Ok ref.
Proof.
  unfold first_evidence_ref. intros (items & Hi & H)%bind_ok. destruct items as [|e l]; [done|].
  apply bind_ok in H as (ref' & Hr & [= ->]). exists e. split; [|done].
  by apply (evidence_for_experiment_ok _ _ _ Hi e (list_elem_of_here _ _)).
Qed.

(** The parts of the context that decide. *)
Lemma verification_context_ok db candidate current c context :
  verification_context db candidate current c = Ok context ->
  exists e0, e0 ∈ db.(CandidateDb.base).(EvidenceDb.evidence)
    /\ head candidate.(CandidateRecord.evidence_ids) = Some e0.(EvidenceRecord.evidence_id)
    /\ evidence_ref db.(CandidateDb.base).(EvidenceDb.rows) e0
       = Ok context.(VerificationContext.original_evidence)
    /\ forall ref, context.(VerificationContext.reproduction_evidence) = Some ref ->
         exists e1, e1 ∈ db.(CandidateDb.base).(EvidenceDb.evidence)
           /\ evidence_ref db.(CandidateDb.base).(EvidenceDb.rows) e1 = Ok ref.
Proof.
  unfold verification_context. cbv zeta. intros (e0 & He0 & H)%bind_ok.
  apply bind_ok in H as (ref0 & Href0 & H). apply bind_ok in H as (rep & Hrep & H).
  do 3 apply bind_ok in H as (? & _ & H). unfold VerificationContext.post_init in H.
  do 7 apply bind_ok in H as (? & _ & H). injection H as <-. cbn.
  unfold originating_evidence in He0. destruct candidate.(CandidateRecord.evidence_ids) as [|i l]; [done|].
  apply bind_ok in He0 as (fe & Hfe & ->%found_ok). apply get_evidence_ok in Hfe as [Hin Hid].
  exists e0. split; [done|]. split; [cbn; by rewrite Hid|]. split; [done|]. intros ref Hr.
  destruct c.(CompleteCommand.reproduction_experiment_id) as [xid|]; [|by injection Hrep as <-].
  unfold read_reproduction in Hrep. cbv zeta in Hrep. apply bind_ok in Hrep as (? & _ & Hrep).
  apply bind_ok in Hrep as (? & _ & Hrep). apply raise_if_ok in Hrep as [_ Hrep].
  apply bind_ok in Hrep as (? & _ & Hrep). apply bind_ok in Hrep as (ev & Hev & [= <-]). cbn in Hr.
  subst ev. by eapply first_evidence_ref_ok.
Qed.

Lemma separate_rows rows rows' e0 e1 r0 r1 :
  evidence_ref rows e0 = Ok r0 -> evidence_ref rows' e1 = Ok r1 -> separate r0 r1 ->
  e1.(EvidenceRecord.experiment_id) ≠ e0.(EvidenceRecord.experiment_id)
  /\ forall o, o ∈ e0.(EvidenceRecord.observation_ids) -> o ∉ e1.(EvidenceRecord.observation_ids).
Proof.
  intros (_ & X0 & O0 & _)%evidence_ref_ok (_ & X1 & O1 & _)%evidence_ref_ok [_ Hx _ Ho].
  rewrite X0, X1 in Hx. rewrite O0, O1 in Ho. split; [congruence|].
  intros o H0 H1. apply (Ho (Str.strip o)); by apply list_elem_of_fmap_2.
Qed.

Lemma insert_verification_ok db r db' :
  insert_verification db r = Ok (Some db') ->
  db' = CandidateDb.mk db.(CandidateDb.base) db.(CandidateDb.candidates) db.(CandidateDb.admissions)
          (db.(CandidateDb.verifications) ++ [r])
  /\ ~ (r.(VerificationRecord.candidate_id)
        ∈ VerificationRecord.candidate_id <$> db.(CandidateDb.verifications)).
Proof.
  unfold insert_verification. intros [_ H]%raise_if_ok. case_match eqn:E; [done|].
  apply raise_if_ok in H as [_ H]. injection H as <-. split; [done|].
  intros (v & Hv & Hin)%list_elem_of_fmap. rewrite existsb_false in E. specialize (E v Hin).
  by rewrite <-Hv, String.eqb_refl in E.
Qed.

Lemma value_of_outcome o : CandidateState.value (state_of o) = VerificationOutcome.value o.
Proof. by destruct o. Qed.

(** What the completion of a candidate stores. *)
Lemma complete_verification_ok seen db c id now db' answer :
  complete_verification seen db c id now = Ok (db', answer) ->
  db' = db
  \/ exists candidate current context r v db1,
       candidate ∈ seen.(CandidateDb.candidates)
       /\ verification_context seen candidate current c = Ok context
       /\ verifier_for candidate.(CandidateRecord.classification) context = Ok r
       /\ v.(VerificationRecord.candidate_id) = candidate.(CandidateRecord.candidate_id)
       /\ v.(VerificationRecord.outcome) = VerificationOutcome.value r.(VerificationResult.outcome)
       /\ v.(VerificationRecord.reproduction_evidence_ids) = r.(VerificationResult.reproduction_evidence_ids)
       /\ insert_verification db v = Ok (Some db1)
       /\ db' = put_state candidate.(CandidateRecord.candidate_id)
                  (CandidateState.value (state_of r.(VerificationResult.outcome))) db1.
Proof.
  unfold complete_verification. cbv zeta. intros (fc & Hfc & H)%bind_ok.
  apply bind_ok in H as (candidate & ->%found_ok & H). apply get_candidate_ok in Hfc as [Hin _].
  destruct (last (verifications_of seen _)) as [v|].
  { apply bind_ok in H as (s & _ & H). apply bind_ok in H as (a & _ & [= <- <-]). by left. }
  apply bind_ok in H as (current & _ & H). apply bind_ok in H as (context & Hctx & H).
  apply bind_ok in H as (r & Hr & H). apply bind_ok in H as (next & Hn & H).
  apply bind_ok in H as (v & Hv & H). apply bind_ok in H as ([db1|] & Hins & H).
  2: { apply bind_ok in H as (a & _ & [= <- <-]). by left. }
  apply bind_ok in H as (db2 & ->%set_state_ok & [= <- <-]). right.
  unfold verification_record in Hv. apply validated in Hv.
  exists candidate, current, context, r, v, db1. rewrite Hv at 1 2 3. cbn. split_and!; try done.
  f_equal. f_equal. destruct (verifier_ok _ _ _ Hr) as [Hp _].
  unfold reraise, apply_verification_to_candidate in Hn.
  destruct (transition_candidate _ _) as [t|] eqn:E in Hn; [|by destruct (is_input_error _)].
  injection Hn as ->. apply transition_candidate_ok in E as [-> _]. done.
Qed.

Lemma state_of_terminal o : state_of o ∈ TERMINAL_CANDIDATE_STATES.
Proof. apply mem_true. by destruct o. Qed.

(** A validated candidate was reproduced. *)
Lemma validated_is_reproduced seen db c0 current c context r v :
  inv db -> grows seen db -> c0 ∈ seen.(CandidateDb.candidates) ->
  verification_context seen c0 current c = Ok context ->
  verifier_for c0.(CandidateRecord.classification) context = Ok r ->
  r.(VerificationResult.outcome) = VerificationOutcome.VALIDATED ->
  v.(VerificationRecord.reproduction_evidence_ids) = r.(VerificationResult.reproduction_evidence_ids) ->
  exists s, candidate_with_state s c0 ∈ db.(CandidateDb.candidates)
    /\ reproduced db (candidate_with_state s c0) v.
Proof.
  intros [I1 I2 I3 I4 _ _ _ _] [Hge Hgc] Hc (e0 & He0 & Hhead & Hr0 & Hrep)%verification_context_ok Hr Ho Hv.
  destruct (verifier_ok _ _ _ Hr) as [_ Hval]. destruct (Hval Ho) as (ref & Href & Hsep & Hpol & Hcl & Hids).
  destruct (Hrep ref Href) as (e1 & He1 & Hr1). apply Hge in He0, He1.
  destruct (separate_rows _ _ _ _ _ _ Hr0 Hr1 Hsep) as [Hx Hobs].
  apply evidence_ref_ok in Hr1 as (E1 & _ & _ & E4 & E5).
  pose proof (proj1 (Forall_forall _ _) I2 e1 He1) as Hok1.
  pose proof (proj1 (Forall_forall _ _) I2 e0 He0) as Hok0.
  destruct (Hgc c0 Hc) as [s Hs]. destruct (I4 _ Hs) as (e & Hse). exists s. split; [done|].
  assert (Hsame : e.(EvidenceRecord.evidence_id) = e0.(EvidenceRecord.evidence_id)).
  { destruct Hse as (_ & Hh & _). cbn in Hh. congruence. }
  assert (e = e0) as ->.
  { eapply (NoDup_fmap_inj EvidenceRecord.evidence_id); [apply I1|apply Hse|done..]. }
  exists e0, e1. split; [done|]. destruct Hse as (_ & _ & _ & Hclaim & Hexp).
  split; [done|]. split; [by rewrite Hv, Hids, E1, (eo_id _ Hok1)|].
  split; [apply stripped_supporting; [done|congruence]|]. split; [|done].
  rewrite Hexp. cbn. by rewrite <-Hcl, E5, strip_claim.
Qed.

Lemma inv_complete seen db c id now db' answer :
  inv db -> grows seen db -> complete_verification seen db c id now = Ok (db', answer) -> inv db'.
Proof.
  intros Hinv Hg [->|H]%complete_verification_ok; [done|].
  destruct H as (c0 & current & context & r & v & db1 & Hc & Hctx & Hr & Hvid & Hvo & Hvr & Hins & ->).
  apply insert_verification_ok in Hins as [-> Hfresh]. apply inv_put_state.
  2: { intros _. exists v. cbn. rewrite value_of_outcome. split; [apply elem_of_app; right; by left|done]. }
  pose proof Hinv as [I1 I2 I3 I4 I5 I6 I7 I8]. split; cbn; try done.
  - rewrite fmap_app. apply NoDup_app. split; [done|]. split; [|apply NoDup_singleton].
    intros i Hi ->%list_elem_of_singleton. done.
  - intros x s Hx Hs Ht. destruct (I7 x s Hx Hs Ht) as (w & Hw & ?). exists w.
    split; [apply elem_of_app; by left|done].
  - intros w [Hw| ->%list_elem_of_singleton]%elem_of_app Ho; [by apply I8|].
    assert (Hval : r.(VerificationResult.outcome) = VerificationOutcome.VALIDATED)
      by (rewrite Ho in Hvo; by destruct (VerificationResult.outcome r)).
    destruct (validated_is_reproduced _ _ _ _ _ _ _ v Hinv Hg Hc Hctx Hr Hval Hvr) as (s & Hs & Hrep).
    exists (candidate_with_state s c0). done.
Qed.

Lemma inv_step db db' : inv db -> step db db' -> inv db'.
Proof.
  intros Hinv Hstep. destruct Hstep as [rows runs|seen c f base answer Hf H|seen c ids db' answer Hg H
    |seen id db' answer Hg H|seen c id now db' answer Hg H].
  - apply (inv_more_evidence db _ []); [done| |cbn; by rewrite app_nil_r|constructor].
    destruct (i_once _ Hinv). by split.
  - apply admitted_evidence in H as (Hb & new & Hnew & Hok); [|done].
    eapply inv_more_evidence; [done| |done..]. apply Hb, Hinv.
  - eapply inv_one_candidate_more; [done|]. eapply propose_candidate_ok; [apply Hinv|done..].
  - apply start_verification_ok in H as [->|[i ->]]; [done|]. apply inv_put_state; [done|].
    intros Ht. apply mem_true in Ht. done.
  - by eapply inv_complete.
Qed.

Lemma inv_start db : fresh_start db -> inv db.
Proof.
  intros (He & Hc & Hv). split; rewrite ?He, ?Hc, ?Hv; try (by constructor);
    try (by intros ? ?%elem_of_nil); try (by intros ? ? ?%elem_of_nil).
  - split; rewrite He; constructor.
  - by intros ? ? ? ?%elem_of_nil.
Qed.

Lemma inv_reachable start db : fresh_start start -> reachable start db -> inv db.
Proof. intros Hs. induction 1; [by apply inv_start|by eapply inv_step]. Qed.

(** ** Samples *)

Module Sample.
Definition experiment (n hypothesis : string) : ExperimentRecord.t :=
  ExperimentRecord.mk ("exp-" +:+ n) "run-1" hypothesis "budget-1" "EXECUTION_SUCCEEDED" 0.
Definition plan (n hypothesis : string) : ExperimentPlanRecord.t :=
  ExperimentPlanRecord.mk ("exp-" +:+ n) "run-1" hypothesis "capability" "probe" "target-1" 0 []
    "budget-1" "a grant" "a denial" DIFFERENTIAL_STRATEGY 0 None None.
Definition worker_result (n : string) : WorkerResultRecord.t :=
  WorkerResultRecord.mk ("res-" +:+ n) ("exp-" +:+ n) "run-1" ("req-" +:+ n) "corr-1" "capability"
    "probe" "decision-1" "budget-1" 0 "1" "worker-1" "SUCCEEDED" 0 None None None None None None None.
Definition observation (n : string) : ObservationRecord.t :=
  ObservationRecord.mk ("obs-" +:+ n) ("res-" +:+ n) "HTTP_AUTHORIZATION_DIFFERENTIAL" differential_facts
    "v1" 0 0.
Definition assessment (n hypothesis : string) : HypothesisAssessmentRecord.t :=
  HypothesisAssessmentRecord.mk ("asm-" +:+ n) hypothesis ("exp-" +:+ n) "run-1"
    "CONSISTENT_WITH_PREDICTION" ["obs-" +:+ n] "DETERMINISTIC" "evaluator-1" [] DIFFERENTIAL_STRATEGY 0.
(** Two experiments that both showed the cross-object read; the second one tests [hypothesis]. *)
Definition rows (hypothesis : string) : AssessDb.t :=
  AssessDb.mk [HypothesisRecord.mk "hyp-1" "run-1" "a claim" 0 None None;
               HypothesisRecord.mk "hyp-2" "run-1" "another claim" 0 None None]
    [experiment "1" "hyp-1"; experiment "2" hypothesis] [plan "1" "hyp-1"; plan "2" hypothesis] []
    [worker_result "1"; worker_result "2"] [observation "1"; observation "2"]
    [assessment "1" "hyp-1"; assessment "2" hypothesis].
Definition start (hypothesis : string) : CandidateDb.t :=
  CandidateDb.mk (EvidenceDb.mk (rows hypothesis) ["run-1"] [] []) [] [] [].

Definition or_same (db : CandidateDb.t) {A} (r : result (CandidateDb.t * A)) : CandidateDb.t :=
  match r with Ok (d, _) => d | Raise _ => db end.
Definition admitting (n : string) (db : CandidateDb.t) : CandidateDb.t :=
  match admit_diagnostic_evidence db.(CandidateDb.base) db.(CandidateDb.base)
          (AdmitCommand.mk ("exp-" +:+ n) None None) (Evidence.Sample.ids n) with
  | Ok (base, _) => with_base base db
  | Raise _ => db
  end.
Definition ids : candidate_ids := CandidateIds "prop-1" "cadm-1" "cand-1" 3 4.
Definition proposal : ProposeCommand.t := ProposeCommand.mk "ev-1" None false None.
Definition proposed (hypothesis : string) : CandidateDb.t :=
  let db := admitting "2" (admitting "1" (start hypothesis)) in or_same db (propose_candidate db db proposal ids).
Definition verifying (hypothesis : string) : CandidateDb.t :=
  let db := proposed hypothesis in or_same db (start_verification db db "cand-1").
Definition by_second : CompleteCommand.t := CompleteCommand.mk "cand-1" (Some "exp-2") None false None.
Definition completed (hypothesis : string) : result (CandidateDb.t * CompleteResult.t) :=
  complete_verification (verifying hypothesis) (verifying hypothesis) by_second "ver-1" 5.
Definition final : CandidateDb.t := or_same (verifying "hyp-1") (completed "hyp-1").
Definition validated : CandidateRecord.t :=
  CandidateRecord.mk "cand-1" "run-1" "hyp-1" HTTP_AUTHORIZATION_DIFFERENTIAL_CLAIM
    "HTTP_AUTHORIZATION_DIFFERENTIAL" "VALIDATED" ["ev-1"] 3 "cadm-1".
End Sample.

Example reproduced_candidate_is_validated :
  (r ← Sample.completed "hyp-1"; Ok (r.2.(CompleteResult.outcome), r.1.(CandidateDb.candidates)))
  = Ok (VerificationOutcome.VALIDATED, [Sample.validated]).
Proof. vm_compute. reflexivity. Qed.

(** The experiment that seeded the candidate does not reproduce it. *)
Example own_experiment_does_not_reproduce :
  (r ← complete_verification (Sample.verifying "hyp-1") (Sample.verifying "hyp-1")
         (CompleteCommand.mk "cand-1" (Some "exp-1") None false None) "ver-1" 5;
   Ok (r.2.(CompleteResult.outcome), r.2.(CompleteResult.reason_codes)))
  = Ok (VerificationOutcome.INCONCLUSIVE, ["REPRODUCTION_NOT_INDEPENDENT"; "CANNOT_SELF_VALIDATE"]).
Proof. vm_compute. reflexivity. Qed.

(** A reproduction need not test the hypothesis of the candidate: an experiment of another hypothesis
    of the run validates it. *)
Example other_hypothesis_validates :
  (r ← Sample.completed "hyp-2"; Ok r.2.(CompleteResult.outcome)) = Ok VerificationOutcome.VALIDATED.
Proof. vm_compute. reflexivity. Qed.

(** A worker that read the candidate open before another concluded it puts it back under
    verification; completing it again answers with the recorded verification, so that it stays
    there. *)
Definition concluded_meanwhile : CandidateDb.t :=
  Sample.or_same (Sample.proposed "hyp-1")
    (complete_verification (Sample.proposed "hyp-1") (Sample.proposed "hyp-1")
       (CompleteCommand.mk "cand-1" None None true None) "ver-1" 5).
Definition reopened : CandidateDb.t :=
  Sample.or_same concluded_meanwhile
    (start_verification (Sample.proposed "hyp-1") concluded_meanwhile "cand-1").

Example late_start_reopens_a_concluded_candidate :
  (CandidateRecord.state <$> concluded_meanwhile.(CandidateDb.candidates),
   CandidateRecord.state <$> reopened.(CandidateDb.candidates),
   r ← complete_verification reopened reopened Sample.by_second "ver-2" 6;
   Ok (r.2.(CompleteResult.outcome), r.2.(CompleteResult.state), r.2.(CompleteResult.reason_codes)))
  = (["OUT_OF_SCOPE"], ["VERIFYING"],
     Ok (VerificationOutcome.OUT_OF_SCOPE, CandidateState.VERIFYING, ["VERIFICATION_ALREADY_RECORDED"])).
Proof. vm_compute. reflexivity. Qed.

(** C6. From evidence to conclusion nothing is skipped, whatever the workers interleave: in every
    database reachable from one without evidence, a candidate rests on stored supporting evidence
    of exactly its claim, which seeds no other candidate; a candidate with a conclusion has the one
    recorded verification with that outcome; and one that is VALIDATED has in it a second piece of
    supporting evidence for the same claim, from another experiment and other observations. *)
Theorem validated_candidates_were_reproduced start db c :
  fresh_start start -> reachable start db -> c ∈ db.(CandidateDb.candidates) ->
  (exists e, seeded db c e
     /\ forall c', c' ∈ db.(CandidateDb.candidates) ->
          e.(EvidenceRecord.evidence_id) ∈ c'.(CandidateRecord.evidence_ids) -> c' = c)
  /\ (forall s, c.(CandidateRecord.state) = CandidateState.value s -> s ∈ TERMINAL_CANDIDATE_STATES ->
      exists v, v ∈ db.(CandidateDb.verifications)
        /\ v.(VerificationRecord.candidate_id) = c.(CandidateRecord.candidate_id)
        /\ v.(VerificationRecord.outcome) = c.(CandidateRecord.state)
        /\ (forall w, w ∈ db.(CandidateDb.verifications) ->
              w.(VerificationRecord.candidate_id) = c.(CandidateRecord.candidate_id) -> w = v)
        /\ (s = CandidateState.VALIDATED -> reproduced db c v)).
Proof.
  intros Hs Hr Hc. pose proof (inv_reachable _ _ Hs Hr) as [I1 I2 I3 I4 I5 I6 I7 I8]. split.
  - destruct (I4 c Hc) as [e He]. exists e. split; [done|]. intros c' Hc' Hi.
    apply (NoDup_fmap_inj CandidateRecord.candidate_id _ _ _ I3 Hc' Hc).
    apply (I5 c' c _ Hc' Hc Hi). destruct He as (_ & Hh & _). by apply head_Some_elem_of.
  - intros s Hst Ht. destruct (I7 c s Hc Hst Ht) as (v & Hv & Hid & Ho). exists v.
    split; [done|]. split; [done|]. split; [done|]. split.
    + intros w Hw Hwid. apply (NoDup_fmap_inj VerificationRecord.candidate_id _ _ _ I6 Hw Hv). congruence.
    + intros ->. rewrite Hst in Ho. destruct (I8 v Hv Ho) as (c' & Hc' & Hid' & Hrep).
      replace c with c'; [done|].
      apply (NoDup_fmap_inj CandidateRecord.candidate_id _ _ _ I3 Hc' Hc). congruence.
Qed.

Lemma grows_refl db : grows db db.
Proof. split; [done|]. intros c Hc. exists c.(CandidateRecord.state). by destruct c. Qed.

Lemma validated_candidates_were_reproduced_witness :
  exists v, v ∈ Sample.final.(CandidateDb.verifications)
    /\ v.(VerificationRecord.outcome) = "VALIDATED" /\ reproduced Sample.final Sample.validated v.
Proof.
  set (db0 := Sample.start "hyp-1"). set (db1 := Sample.admitting "1" db0). set (db2 := Sample.admitting "2" db1).
  assert (H1 : step db0 db1).
  { apply (admit_step db0 (CandidateDb.base db0) (AdmitCommand.mk "exp-1" None None)
             (Evidence.Sample.ids "1") (CandidateDb.base db1)
             (AdmitResult.mk EvidenceAdmissionOutcome.ADMITTED "adm-1" (Some "ev-1")
                ["HTTP_AUTHORIZATION_DIFFERENTIAL_PROVENANCE_INTACT"] "prop-1")); vm_compute; reflexivity. }
  assert (H2 : step db1 db2).
  { apply (admit_step db1 (CandidateDb.base db1) (AdmitCommand.mk "exp-2" None None)
             (Evidence.Sample.ids "2") (CandidateDb.base db2)
             (AdmitResult.mk EvidenceAdmissionOutcome.ADMITTED "adm-2" (Some "ev-2")
                ["HTTP_AUTHORIZATION_DIFFERENTIAL_PROVENANCE_INTACT"] "prop-2")); vm_compute; reflexivity. }
  assert (H3 : step db2 (Sample.proposed "hyp-1")).
  { eapply (propose_step db2 db2 Sample.proposal Sample.ids _
             (ProposeResult.mk CandidateAdmissionOutcome.ADMITTED "cadm-1" (Some "cand-1")
                ["HTTP_AUTHORIZATION_DIFFERENTIAL_CANDIDATE_SEEDED_FROM_EVIDENCE"] "prop-1"
                (Some CandidateState.OPEN)));
      [apply grows_refl|vm_compute; reflexivity]. }
  destruct (start_verification (Sample.proposed "hyp-1") (Sample.proposed "hyp-1") "cand-1") as [[db4 a4]|]
    eqn:E4; [|vm_compute in E4; discriminate E4].
  destruct (Sample.completed "hyp-1") as [[db5 a5]|] eqn:E5; [|vm_compute in E5; discriminate E5].
  pose proof (start_step _ _ _ _ _ (grows_refl _) E4) as H4. unfold Sample.completed in E5.
  pose proof (complete_step _ _ _ _ _ _ _ (grows_refl _) E5) as H5.
  replace db4 with (Sample.verifying "hyp-1") in H4 by (unfold Sample.verifying; rewrite E4; reflexivity).
  replace db5 with Sample.final in H5 by (unfold Sample.final, Sample.completed; rewrite E5; reflexivity).
  pose proof (reachable_step _ _ _ (reachable_step _ _ _ (reachable_step _ _ _ (reachable_step _ _ _
    (reachable_step _ _ _ (reachable_refl _) H1) H2) H3) H4) H5) as Hr.
  destruct (validated_candidates_were_reproduced db0 Sample.final Sample.validated) as [_ H].
  - split; [reflexivity|]. split; reflexivity.
  - exact Hr.
  - replace (CandidateDb.candidates Sample.final) with [Sample.validated] by (vm_compute; reflexivity).
    left.
  - destruct (H CandidateState.VALIDATED) as (v & Hv & _ & Ho & _ & Hrep).
    + reflexivity.
    + apply mem_true. reflexivity.
    + exists v. split; [exact Hv|]. split; [exact Ho|]. apply Hrep. reflexivity.
Defined.
