(* ===== verification/Promotion.v ===== *)
(** * The promotion pipeline

    [application/promotion_pipeline.py]: from an assessment to a finding proposal, through the use
    cases of [Evidence], [CandidateFlow], [Evaluators] and [Submission], each in a transaction of its
    own.  The pipeline is a program over the tables: [M] threads them, what earlier transactions
    committed stays when a later one raises, and [others] is whatever other workers do between two
    accesses.  [ExecutePlannedExperiment], which has a model of its own in [Authorize] and
    [Dispatch], is the function [execute_planned] of the rows of experiments. *)
From S2P Require Import Prelude CoreTypes CorePolicy PyVal PyText Records FindingRecords HuntRecords Scope Verification Planning Compiler Evaluators EvidenceRecords Candidate Finding FindingFlow ImpactLedger Submission Authorize Evidence CandidateFlow.

(** ** The rows *)

(** [data/records.py:212-224 ALLOWED_PROMOTION_STAGES] *)
Definition ALLOWED_PROMOTION_STAGES : list string :=
  [ "EVIDENCE_REJECTED"; "EVIDENCE_ADMITTED"; "CANDIDATE_REJECTED"; "CANDIDATE_OPEN"; "VERIFYING";
    "REPRODUCTION_EXECUTED"; "VERIFIED"; "PROPOSAL_RECORDED"; "STOPPED" ].

(** [data/records.py:1220-1261 PromotionRunRecord] *)
Module PromotionRunRecord.
Record t : Set := mk {
  promotion_run_id : string;
  research_run_id : string;
  assessment_id : string;
  original_experiment_id : string;
  stage : string;
  created_at : Z;
  updated_at : Z;
  evidence_id : option string;
  candidate_id : option string;
  verification_id : option string;
  finding_proposal_id : option string;
  reproduction_experiment_id : option string;
  stop_reason : option string }.

Definition post_init (x : t) : result t :=
  _ ← data_opaque_id x.(promotion_run_id);
  _ ← data_opaque_id x.(research_run_id);
  _ ← data_opaque_id x.(assessment_id);
  _ ← data_opaque_id x.(original_experiment_id);
  raise_if negb (mem x.(stage) ALLOWED_PROMOTION_STAGES) as PersistenceInputError;;
  _ ← data_optional_opaque_id x.(evidence_id);
  _ ← data_optional_opaque_id x.(candidate_id);
  _ ← data_optional_opaque_id x.(verification_id);
  _ ← data_optional_opaque_id x.(finding_proposal_id);
  _ ← data_optional_opaque_id x.(reproduction_experiment_id);
  raise_if match x.(stop_reason) with Some s => Str.is_blank s | None => false end
  as PersistenceInputError;;
  Ok x.

#[global] Instance post_init_validator : Validator post_init.
Proof. solve_validator. Qed.

(** [replace(run, ...)], one field or two at a time. *)
Definition at_stage (s : string) (x : t) : t :=
  mk x.(promotion_run_id) x.(research_run_id) x.(assessment_id) x.(original_experiment_id) s
    x.(created_at) x.(updated_at) x.(evidence_id) x.(candidate_id) x.(verification_id)
    x.(finding_proposal_id) x.(reproduction_experiment_id) x.(stop_reason).
Definition at_time (now : Z) (x : t) : t :=
  mk x.(promotion_run_id) x.(research_run_id) x.(assessment_id) x.(original_experiment_id) x.(stage)
    x.(created_at) now x.(evidence_id) x.(candidate_id) x.(verification_id)
    x.(finding_proposal_id) x.(reproduction_experiment_id) x.(stop_reason).
Definition with_evidence (e : option string) (x : t) : t :=
  mk x.(promotion_run_id) x.(research_run_id) x.(assessment_id) x.(original_experiment_id) x.(stage)
    x.(created_at) x.(updated_at) e x.(candidate_id) x.(verification_id)
    x.(finding_proposal_id) x.(reproduction_experiment_id) x.(stop_reason).
Definition with_candidate (c : string) (x : t) : t :=
  mk x.(promotion_run_id) x.(research_run_id) x.(assessment_id) x.(original_experiment_id) x.(stage)
    x.(created_at) x.(updated_at) x.(evidence_id) (Some c) x.(verification_id)
    x.(finding_proposal_id) x.(reproduction_experiment_id) x.(stop_reason).
Definition with_verification (v : string) (x : t) : t :=
  mk x.(promotion_run_id) x.(research_run_id) x.(assessment_id) x.(original_experiment_id) x.(stage)
    x.(created_at) x.(updated_at) x.(evidence_id) x.(candidate_id) (Some v)
    x.(finding_proposal_id) x.(reproduction_experiment_id) x.(stop_reason).
Definition with_proposal (p : string) (x : t) : t :=
  mk x.(promotion_run_id) x.(research_run_id) x.(assessment_id) x.(original_experiment_id) x.(stage)
    x.(created_at) x.(updated_at) x.(evidence_id) x.(candidate_id) x.(verification_id) (Some p)
    x.(reproduction_experiment_id) x.(stop_reason).
Definition with_reproduction (e : string) (x : t) : t :=
  mk x.(promotion_run_id) x.(research_run_id) x.(assessment_id) x.(original_experiment_id) x.(stage)
    x.(created_at) x.(updated_at) x.(evidence_id) x.(candidate_id) x.(verification_id)
    x.(finding_proposal_id) (Some e) x.(stop_reason).
Definition stopped (why : string) (x : t) : t :=
  mk x.(promotion_run_id) x.(research_run_id) x.(assessment_id) x.(original_experiment_id) x.(stage)
    x.(created_at) x.(updated_at) x.(evidence_id) x.(candidate_id) x.(verification_id)
    x.(finding_proposal_id) x.(reproduction_experiment_id) (Some why).
End PromotionRunRecord.

Module PromotionDb.
Record t : Type := mk {
  flow : CandidateDb.t;
  promotions : list PromotionRunRecord.t;
  workflow : FindingFlow.Db.t;
  ledger : ImpactLedger.Db.t;
  budgets : list IssuedBudgetRecord.t }.

Definition with_flow (f : CandidateDb.t) (x : t) : t :=
  mk f x.(promotions) x.(workflow) x.(ledger) x.(budgets).
Definition with_promotions (l : list PromotionRunRecord.t) (x : t) : t :=
  mk x.(flow) l x.(workflow) x.(ledger) x.(budgets).
Definition with_workflow (w : FindingFlow.Db.t) (x : t) : t :=
  mk x.(flow) x.(promotions) w x.(ledger) x.(budgets).
(** The rows of experiments. *)
Definition rows (x : t) : AssessDb.t := x.(flow).(CandidateDb.base).(EvidenceDb.rows).
Definition with_rows (r : AssessDb.t) (x : t) : t :=
  let base := x.(flow).(CandidateDb.base) in
  with_flow (with_base (EvidenceDb.mk r base.(EvidenceDb.runs) base.(EvidenceDb.evidence)
                          base.(EvidenceDb.admissions)) x.(flow)) x.

(** The same rows as [Submission] has them: one table of candidates. *)
Definition tables (x : t) : Submission.Tables.t :=
  Submission.Tables.mk
    (FindingFlow.Db.mk (list_to_set x.(flow).(CandidateDb.base).(EvidenceDb.runs))
       (list_to_map ((fun c => (c.(CandidateRecord.candidate_id), c)) <$> x.(flow).(CandidateDb.candidates)))
       x.(workflow).(FindingFlow.Db.proposals) x.(workflow).(FindingFlow.Db.human_reviews)
       x.(workflow).(FindingFlow.Db.approvals) x.(workflow).(FindingFlow.Db.findings)
       x.(workflow).(FindingFlow.Db.audit_events))
    x.(flow).(CandidateDb.verifications) x.(ledger).
End PromotionDb.

(** [data/postgres/repositories.py:1655-1663 PostgresPromotionRunRepository.get] *)
Definition get_promotion (db : PromotionDb.t) (id : string) : result (option PromotionRunRecord.t) :=
  _ ← data_opaque_id id;
  Ok (List.find (fun r => (r.(PromotionRunRecord.promotion_run_id) =? id)%string)
        db.(PromotionDb.promotions)).

(** [data/postgres/repositories.py:1665-1673 PostgresPromotionRunRepository.get_by_assessment_id] *)
Definition promotion_of_assessment (db : PromotionDb.t) (assessment_id : string)
    : result (option PromotionRunRecord.t) :=
  _ ← data_opaque_id assessment_id;
  Ok (List.find (fun r => (r.(PromotionRunRecord.assessment_id) =? assessment_id)%string)
        db.(PromotionDb.promotions)).

(** [order_by(created_at, promotion_run_id)]: the order by id, kept by the stable sort by date.
    [data/postgres/repositories.py:1675-1688 PostgresPromotionRunRepository.list_for_research_run] *)
Definition promotions_for_run (db : PromotionDb.t) (run : string) : list PromotionRunRecord.t :=
  sort_by PromotionRunRecord.created_at (sort_by PromotionRunRecord.promotion_run_id
    (List.filter (fun r => (r.(PromotionRunRecord.research_run_id) =? run)%string)
       db.(PromotionDb.promotions))).

(** The primary key and [uq_promotion_run_assessment].
    [data/postgres/repositories.py:1647-1653 PostgresPromotionRunRepository.insert] *)
Definition insert_promotion (db : PromotionDb.t) (r : PromotionRunRecord.t) : result PromotionDb.t :=
  raise_if existsb (fun o =>
      (o.(PromotionRunRecord.promotion_run_id) =? r.(PromotionRunRecord.promotion_run_id))%string
      || (o.(PromotionRunRecord.assessment_id) =? r.(PromotionRunRecord.assessment_id))%string)
      db.(PromotionDb.promotions) as PersistenceConflictError;;
  raise_if negb (mem r.(PromotionRunRecord.research_run_id)
                   db.(PromotionDb.flow).(CandidateDb.base).(EvidenceDb.runs)) as PersistenceError;;
  Ok (PromotionDb.with_promotions (db.(PromotionDb.promotions) ++ [r]) db).

(** The whole row is written over, whatever it became since it was read.
    [data/postgres/repositories.py:1690-1699 PostgresPromotionRunRepository.save] *)
Definition save_promotion (db : PromotionDb.t) (r : PromotionRunRecord.t) : result PromotionDb.t :=
  raise_if negb (mem r.(PromotionRunRecord.stage) ALLOWED_PROMOTION_STAGES) as PersistenceInputError;;
  let is_it o := (o.(PromotionRunRecord.promotion_run_id)
                  =? r.(PromotionRunRecord.promotion_run_id))%string in
  raise_if negb (existsb is_it db.(PromotionDb.promotions)) as PersistenceError;;
  Ok (PromotionDb.with_promotions
        ((fun o => if is_it o then r else o) <$> db.(PromotionDb.promotions)) db).

(** The one write that looks at the row: of two workers that read a run without a reproduction,
    one gets it; [uq_promotion_run_reproduction_experiment] is answered with [false] too.
    [data/postgres/repositories.py:1701-1726 PostgresPromotionRunRepository.claim_reproduction] *)
Definition claim_reproduction (db : PromotionDb.t) (id experiment_id : string) (now : Z)
    : result (PromotionDb.t * bool) :=
  _ ← data_opaque_id id;
  _ ← data_opaque_id experiment_id;
  let claims o := (o.(PromotionRunRecord.promotion_run_id) =? id)%string
                  && (o.(PromotionRunRecord.stage) =? "VERIFYING")%string
                  && bool_decide (o.(PromotionRunRecord.reproduction_experiment_id) = None) in
  if negb (existsb claims db.(PromotionDb.promotions))
     || existsb (fun o => bool_decide (o.(PromotionRunRecord.reproduction_experiment_id)
                                       = Some experiment_id)) db.(PromotionDb.promotions)
  then Ok (db, false)
  else Ok (PromotionDb.with_promotions
             ((fun o => if claims o
                        then PromotionRunRecord.at_time now
                               (PromotionRunRecord.with_reproduction experiment_id o)
                        else o) <$> db.(PromotionDb.promotions)) db, true).

(** ** [application/prepare_planned_experiment.py] *)

(** [application/prepare_planned_experiment.py:28-31 PreparePlannedExperimentResult] *)
Module PrepareResult.
Record t : Set := mk { experiment_id : string; hypothesis_id : string; evaluation_strategy : string }.
End PrepareResult.

Definition stored_experiment (rows : AssessDb.t) (id : string) : option ExperimentRecord.t :=
  List.find (fun e => (e.(ExperimentRecord.experiment_id) =? id)%string) rows.(AssessDb.experiments).
Definition stored_plan (rows : AssessDb.t) (id : string) : option ExperimentPlanRecord.t :=
  List.find (fun p => (p.(ExperimentPlanRecord.experiment_id) =? id)%string) rows.(AssessDb.plans).

(** The two insertions of a new experiment; [None]: a row with the id is there.
    [application/prepare_planned_experiment.py:44-102 PreparePlannedExperiment.execute] *)
Definition insert_planned (db : PromotionDb.t) (e : ExperimentRecord.t) (p : ExperimentPlanRecord.t)
    : result (option PromotionDb.t) :=
  let r := PromotionDb.rows db in
  let id := e.(ExperimentRecord.experiment_id) in
  if bool_decide (is_Some (stored_experiment r id)) || bool_decide (is_Some (stored_plan r id))
  then Ok None
  else
  raise_if negb (existsb (fun h =>
      (h.(HypothesisRecord.hypothesis_id) =? e.(ExperimentRecord.hypothesis_id))%string
      && (h.(HypothesisRecord.research_run_id) =? e.(ExperimentRecord.research_run_id))%string)
      r.(AssessDb.hypotheses))
    || negb (existsb (fun b =>
      (b.(IssuedBudgetRecord.budget_id) =? e.(ExperimentRecord.budget_id))%string
      && bool_decide (b.(IssuedBudgetRecord.research_run_id) = Some e.(ExperimentRecord.research_run_id)))
      db.(PromotionDb.budgets))
  as PersistenceError;;
  Ok (Some (PromotionDb.with_rows
    (AssessDb.mk r.(AssessDb.hypotheses) (r.(AssessDb.experiments) ++ [e]) (r.(AssessDb.plans) ++ [p])
       r.(AssessDb.attempts) r.(AssessDb.worker_results) r.(AssessDb.observations)
       r.(AssessDb.assessments)) db)).

(** [application/prepare_planned_experiment.py:44-102 PreparePlannedExperiment.execute] *)
Definition prepare_planned_experiment (seen db : PromotionDb.t) (experiment_id run : string)
    (plan : ExperimentPlan.t) (now : Z) : result (PromotionDb.t * PrepareResult.t) :=
  let r := PromotionDb.rows seen in
  let answer hypothesis := PrepareResult.mk experiment_id hypothesis
                             plan.(ExperimentPlan.evaluation_strategy) in
  _ ← require_new_plan_bindings plan;
  _ ← data_opaque_id run;
  raise_if negb (mem run seen.(PromotionDb.flow).(CandidateDb.base).(EvidenceDb.runs))
  as ApplicationError;;
  raise_if negb (existsb (fun h =>
      (h.(HypothesisRecord.hypothesis_id) =? plan.(ExperimentPlan.hypothesis_id))%string
      && (h.(HypothesisRecord.research_run_id) =? run)%string) r.(AssessDb.hypotheses))
  as ApplicationError;;
  raise_if negb (existsb (fun b =>
      (b.(IssuedBudgetRecord.budget_id) =? plan.(ExperimentPlan.requested_budget_id))%string
      && bool_decide (b.(IssuedBudgetRecord.research_run_id) = Some run)) seen.(PromotionDb.budgets))
  as ApplicationError;;
  match stored_experiment r experiment_id with
  | Some _ => Ok (db, answer plan.(ExperimentPlan.hypothesis_id))
  | None =>
      let experiment := ExperimentRecord.mk experiment_id run plan.(ExperimentPlan.hypothesis_id)
                          plan.(ExperimentPlan.requested_budget_id) "PLANNED" now in
      experiment ← ExperimentRecord.post_init experiment;
      record ← experiment_plan_record_for experiment plan now;
      inserted ← insert_planned db experiment record;
      match inserted with
      | Some db' => Ok (db', answer plan.(ExperimentPlan.hypothesis_id))
      | None =>
          match stored_experiment (PromotionDb.rows db) experiment_id,
                stored_plan (PromotionDb.rows db) experiment_id with
          | Some existing, Some _ => Ok (db, answer existing.(ExperimentRecord.hypothesis_id))
          | _, _ => Raise PersistenceConflictError
          end
      end
  end.

(** ** A program over the tables *)

(** What the pipeline does not decide: ids, times, the other workers, the execution of an
    experiment, the order of rows read without one, and whether the name of the constraint that a conflict reports is among
    [EXPECTED_ADVANCE_CONFLICTS] (or it has none).  Each is asked with the number of the access. *)
Class World : Type := {
  new_id : nat -> string;
  clock : nat -> Z;
  others : nat -> PromotionDb.t -> PromotionDb.t;
  execute_planned : nat -> AssessDb.t -> ExecutePlannedExperimentCommand.t ->
                    AssessDb.t * result ResearchLoopStatus.t;
  expected_conflict : nat -> bool;
  sha256_json : pyval -> string;
  edge_rows :: EdgeOrder }.

Definition M (A : Type) : Type := nat -> PromotionDb.t -> result A * (nat * PromotionDb.t).

#[global] Instance M_ret : MRet M := fun A a n db => (Ok a, (n, db)).
#[global] Instance M_bind : MBind M := fun A B f m n db =>
  match m n db with
  | (Ok a, (n', db')) => f a n' db'
  | (Raise e, s) => (Raise e, s)
  end.

Definition raise {A} (e : exn) : M A := fun n db => (Raise e, (n, db)).

(** [try: m except Exception as e: h(e)]: what [m] committed stays. *)
Definition catch {A} (m : M A) (h : exn -> M A) : M A := fun n db =>
  match m n db with
  | (Ok a, s) => (Ok a, s)
  | (Raise e, (n', db')) => h e n' db'
  end.

Section pipeline.
Context `{World} `{FloatRepr}.

Definition fresh_id : M string := fun n db => (Ok (new_id n), (S n, db)).
Definition time : M Z := fun n db => (Ok (clock n), (S n, db)).

(** A unit of work that only reads. *)
Definition read {A} (f : PromotionDb.t -> result A) : M A := fun n db =>
  let db1 := others n db in (f db1, (S n, db1)).

(** A unit of work that writes: others may commit before its reads and between its reads and its
    writes; raising leaves what they did. *)
Definition write {A} (f : PromotionDb.t -> PromotionDb.t -> result (PromotionDb.t * A)) : M A := fun n db =>
  let seen := others n db in
  let db1 := others (S n) seen in
  match f seen db1 with
  | Ok (db2, a) => (Ok a, (S (S n), db2))
  | Raise e => (Raise e, (S (S n), db1))
  end.

(** *** The use cases *)

Definition admit_evidence_of (c : AdmitCommand.t) : M AdmitResult.t :=
  p ← fresh_id; a ← fresh_id; e ← fresh_id; t1 ← time; t2 ← time;
  write (fun seen db =>
    r ← admit_diagnostic_evidence seen.(PromotionDb.flow).(CandidateDb.base)
          db.(PromotionDb.flow).(CandidateDb.base) c (Fresh p a e t1 t2);
    Ok (PromotionDb.with_flow (with_base r.1 db.(PromotionDb.flow)) db, r.2)).

(** A use case over the tables of candidates. *)
Definition on_flow {A} (f : CandidateDb.t -> CandidateDb.t -> result (CandidateDb.t * A)) : M A :=
  write (fun seen db => r ← f seen.(PromotionDb.flow) db.(PromotionDb.flow);
                        Ok (PromotionDb.with_flow r.1 db, r.2)).

Definition propose (evidence_id : string) : M ProposeResult.t :=
  p ← fresh_id; a ← fresh_id; c ← fresh_id; t1 ← time; t2 ← time;
  on_flow (fun seen db => propose_candidate seen db (ProposeCommand.mk evidence_id None false None)
                            (CandidateIds p a c t1 t2)).

Definition start (candidate_id : string) : M StartResult.t :=
  on_flow (fun seen db => start_verification seen db candidate_id).

Definition complete (c : CompleteCommand.t) : M CompleteResult.t :=
  v ← fresh_id; t ← time; on_flow (fun seen db => complete_verification seen db c v t).

Definition submit (actor_id candidate_id : string) : M SubmitFindingProposalResult.t :=
  i0 ← fresh_id; i1 ← fresh_id; i2 ← fresh_id; i3 ← fresh_id; t0 ← time; t1 ← time;
  write (fun seen db =>
    r ← submit_finding_proposal sha256_json (PromotionDb.tables seen) (PromotionDb.tables db)
          (fun n => nth n [i0; i1; i2; i3] i3) (fun n => nth n [t0; t1] t1) actor_id
          (SubmitFindingProposalCommand.mk candidate_id None);
    Ok (PromotionDb.with_workflow r.1.(Submission.Tables.flow) db, r.2)).

Definition prepare (experiment_id run : string) (plan : ExperimentPlan.t) : M PrepareResult.t :=
  t ← time; write (fun seen db => prepare_planned_experiment seen db experiment_id run plan t).

(** The transactions of one execution; only rows of experiments change. *)
Definition execute (c : ExecutePlannedExperimentCommand.t) : M ResearchLoopStatus.t := fun n db =>
  let db1 := others n db in
  let r := execute_planned n (PromotionDb.rows db1) c in
  (r.2, (S n, PromotionDb.with_rows r.1 db1)).

Definition evaluate (experiment_id : string) : M ResearchFeedback.t :=
  a ← fresh_id; t ← time;
  write (fun seen db =>
    r ← evaluate_experiment_feedback (PromotionDb.rows seen) (PromotionDb.rows db)
          (EvaluateCommand.mk experiment_id None None None None) a t;
    Ok (PromotionDb.with_rows r.1 db, r.2)).

(** [replace(run, ..., updated_at=now)], and the unit of work that stores it.
    [application/promotion_pipeline.py:696-700 PromotionPipeline._save] *)
Definition save (f : PromotionRunRecord.t -> PromotionRunRecord.t) (run : PromotionRunRecord.t)
    : M PromotionRunRecord.t :=
  now ← time;
  match PromotionRunRecord.post_init (PromotionRunRecord.at_time now (f run)) with
  | Raise e => raise e
  | Ok r => write (fun _ db => db' ← save_promotion db r; Ok (db', r))
  end.

(** [application/promotion_pipeline.py:647-658 PromotionPipeline._claim_reproduction] *)
Definition claim (promotion_run_id experiment_id : string) : M bool :=
  now ← time; write (fun _ db => claim_reproduction db promotion_run_id experiment_id now).

(** [application/promotion_pipeline.py:702-706 PromotionPipeline._get] *)
Definition reload (promotion_run_id : string) : M (option PromotionRunRecord.t) :=
  read (fun db => get_promotion db promotion_run_id).

(** [application/promotion_pipeline.py:743-747 PromotionPipeline._verifications_for] *)
Definition latest_verification (candidate_id : string) : M (option VerificationRecord.t) :=
  read (fun db => _ ← data_opaque_id candidate_id;
                  Ok (last (verifications_of db.(PromotionDb.flow) candidate_id))).

(** [application/promotion_pipeline.py:749-753 PromotionPipeline._proposals_for] *)
Definition latest_proposal (candidate_id : string) : M (option FindingProposalRecord.t) :=
  read (fun db => l ← list_proposals_for_candidate db.(PromotionDb.workflow) candidate_id; Ok (last l)).

(** [application/promotion_pipeline.py:737-741 PromotionPipeline._get_candidate] *)
Definition current_candidate (candidate_id : string) : M (option CandidateRecord.t) :=
  read (fun db => CandidateFlow.get_candidate db.(PromotionDb.flow) candidate_id).

(** [application/promotion_pipeline.py:724-735 PromotionPipeline._candidate_for_evidence] *)
Definition candidate_for_evidence (evidence_id : string) : M (option CandidateRecord.t) :=
  read (fun db =>
    e ← get_evidence db.(PromotionDb.flow) evidence_id;
    Ok (e ≫= existing_candidate db.(PromotionDb.flow))).

(** [application/promotion_pipeline.py:714-722 PromotionPipeline._is_reproduction_experiment] *)
Definition is_reproduction_experiment (experiment_id : string) : M bool :=
  read (fun db =>
    _ ← data_opaque_id experiment_id;
    match stored_experiment (PromotionDb.rows db) experiment_id with
    | None => Ok false
    | Some e => Ok (existsb (fun r =>
        bool_decide (r.(PromotionRunRecord.reproduction_experiment_id) = Some experiment_id))
        (promotions_for_run db e.(ExperimentRecord.research_run_id)))
    end).
End pipeline.

(** ** [application/promotion_pipeline.py] *)

(** [application/promotion_pipeline.py:74-88 PromotionOutcome] *)
Module PromotionOutcome.
Inductive t : Set :=
  | ADMITTED | ADMISSION_REJECTED | CANDIDATE_ADMITTED | CANDIDATE_REJECTED | VERIFICATION_STARTED
  | VERIFICATION_COMPLETED | FINDING_PROPOSAL_RECORDED | SKIPPED_NOT_EVIDENCE_ELIGIBLE
  | SKIPPED_UNSUPPORTED_STRATEGY | SKIPPED_ALREADY_ATTEMPTED | SKIPPED_MISSING_ASSESSMENT
  | SKIPPED_REPRODUCTION_EXPERIMENT | SKIPPED_NO_WORKER | PENDING_INDEPENDENT_VERIFICATION.
#[global] Instance eq_dec : EqDecision t.
Proof. solve_decision. Defined.
End PromotionOutcome.

(** [application/promotion_pipeline.py:92 PENDING_VERIFICATION_STAGES] *)
Definition PENDING_VERIFICATION_STAGES : list string := ["VERIFYING"; "REPRODUCTION_EXECUTED"].

(** [value] of the status of an execution.
    [application/execute_planned_experiment.py:107-119 ResearchLoopStatus] *)
Definition status_value (s : ResearchLoopStatus.t) : string :=
  match s with
  | ResearchLoopStatus.OBSERVATION_PRODUCED => "OBSERVATION_PRODUCED"
  | ResearchLoopStatus.NO_OBSERVATION => "NO_OBSERVATION"
  | ResearchLoopStatus.DISPATCH_DENIED => "DISPATCH_DENIED"
  | ResearchLoopStatus.HUMAN_REVIEW_REQUIRED => "HUMAN_REVIEW_REQUIRED"
  | ResearchLoopStatus.INVOCATION_FAILED => "INVOCATION_FAILED"
  | ResearchLoopStatus.UNKNOWN_OUTCOME => "UNKNOWN_OUTCOME"
  | ResearchLoopStatus.AUTHORIZED_NOT_DISPATCHED => "AUTHORIZED_NOT_DISPATCHED"
  | ResearchLoopStatus.ALREADY_TERMINAL => "ALREADY_TERMINAL"
  | ResearchLoopStatus.INPUT_REJECTED => "INPUT_REJECTED"
  | ResearchLoopStatus.REAUTHORIZATION_REQUIRED => "REAUTHORIZATION_REQUIRED"
  end.

(** [application/promotion_pipeline.py:114-124 NON_SCIENTIFIC_REPRODUCTION_STATUSES] *)
Definition non_scientific (s : ResearchLoopStatus.t) : bool :=
  match s with
  | ResearchLoopStatus.UNKNOWN_OUTCOME | ResearchLoopStatus.INVOCATION_FAILED
  | ResearchLoopStatus.DISPATCH_DENIED | ResearchLoopStatus.HUMAN_REVIEW_REQUIRED
  | ResearchLoopStatus.AUTHORIZED_NOT_DISPATCHED | ResearchLoopStatus.INPUT_REJECTED
  | ResearchLoopStatus.REAUTHORIZATION_REQUIRED => true
  | _ => false
  end.

(** [application/promotion_pipeline.py:128-139 PromotionResult] *)
Module PromotionResult.
Record t : Set := mk {
  outcome : PromotionOutcome.t;
  assessment_id : option string;
  experiment_id : string;
  evidence_id : option string;
  candidate_id : option string;
  verification_id : option string;
  finding_proposal_id : option string;
  promotion_run_id : option string;
  stage : option string;
  reason_codes : list string }.
(** [application/promotion_pipeline.py:192-261 PromotionPipeline.on_assessment] *)
Definition skipped (outcome : PromotionOutcome.t) (assessment_id : option string)
    (experiment_id : string) : t :=
  mk outcome assessment_id experiment_id None None None None None None [].
End PromotionResult.

(** [application/promotion_pipeline.py:143-149 AdvancePromotionCommand] *)
Module AdvancePromotionCommand.
Record t : Type := mk {
  research_run_id : string;
  scope : ScopeEvaluationInput.t;
  compiled_scope : option CompiledScope.t;
  approval : option ApprovalView.t;
  assessment_id : option string;
  promotion_run_id : option string }.
End AdvancePromotionCommand.

(** [application/promotion_pipeline.py:834-851 _result_from_run] *)
Definition result_from_run (outcome : PromotionOutcome.t) (assessment_id experiment_id : string)
    (run : PromotionRunRecord.t) (codes : list string) : PromotionResult.t :=
  PromotionResult.mk outcome (Some assessment_id) experiment_id run.(PromotionRunRecord.evidence_id)
    run.(PromotionRunRecord.candidate_id) run.(PromotionRunRecord.verification_id)
    run.(PromotionRunRecord.finding_proposal_id) (Some run.(PromotionRunRecord.promotion_run_id))
    (Some run.(PromotionRunRecord.stage)) codes.

(** The assessment and the experiment are those of the run.
    [application/promotion_pipeline.py:854-864 _feedback_stub] *)
Definition result_of_run (outcome : PromotionOutcome.t) (run : PromotionRunRecord.t)
    (codes : list string) : PromotionResult.t :=
  result_from_run outcome run.(PromotionRunRecord.assessment_id)
    run.(PromotionRunRecord.original_experiment_id) run codes.

Section pipeline.
Context `{World} `{FloatRepr}.
Import PromotionRunRecord.

(** [application/promotion_pipeline.py:666-694 PromotionPipeline._ensure_promotion_run] *)
Definition ensure_promotion_run (feedback : ResearchFeedback.t) (admitted : AdmitResult.t)
    (existing : option PromotionRunRecord.t) : M PromotionRunRecord.t :=
  match existing with
  | Some run => mret run
  | None =>
      now ← time; id ← fresh_id;
      match PromotionRunRecord.post_init
              (PromotionRunRecord.mk id feedback.(ResearchFeedback.research_run_id)
                 feedback.(ResearchFeedback.assessment_id) feedback.(ResearchFeedback.experiment_id)
                 (if bool_decide (admitted.(AdmitResult.outcome) = EvidenceAdmissionOutcome.ADMITTED)
                  then "EVIDENCE_ADMITTED" else "EVIDENCE_REJECTED")
                 now now admitted.(AdmitResult.evidence_id) None None None None None) with
      | Raise e => raise e
      | Ok record =>
          write (fun seen db =>
            collision ← promotion_of_assessment seen record.(assessment_id);
            match collision with
            | Some run => Ok (db, run)
            | None => db' ← insert_promotion db record; Ok (db', record)
            end)
      end
  end.

(** The candidate of the evidence, proposed when it has none; [inl]: the answer when none is
    admitted.
    [application/promotion_pipeline.py:282-356 PromotionPipeline._promote_candidate] *)
Definition candidate_to_verify (feedback : ResearchFeedback.t) (run : PromotionRunRecord.t)
    (evidence_id : string) : M (PromotionResult.t + string) :=
  existing ← candidate_for_evidence evidence_id;
  match existing with
  | Some c => mret (inr c.(CandidateRecord.candidate_id))
  | None =>
      proposed ← propose evidence_id;
      match bool_decide (proposed.(ProposeResult.outcome) = CandidateAdmissionOutcome.ADMITTED),
            proposed.(ProposeResult.candidate_id) with
      | true, Some id => mret (inr id)
      | _, _ =>
          run ← save (fun r => at_stage "CANDIDATE_REJECTED" (stopped "CANDIDATE_NOT_ADMITTED" r)) run;
          mret (inl (result_from_run PromotionOutcome.CANDIDATE_REJECTED
                       feedback.(ResearchFeedback.assessment_id)
                       feedback.(ResearchFeedback.experiment_id) run
                       proposed.(ProposeResult.reason_codes)))
      end
  end.

(** [application/promotion_pipeline.py:282-356 PromotionPipeline._promote_candidate] *)
Definition promote_candidate (feedback : ResearchFeedback.t) (run : PromotionRunRecord.t)
    (evidence_id : string) (codes : list string) : M PromotionResult.t :=
  let answer outcome run codes :=
    result_from_run outcome feedback.(ResearchFeedback.assessment_id)
      feedback.(ResearchFeedback.experiment_id) run codes in
  chosen ← candidate_to_verify feedback run evidence_id;
  match chosen with
  | inl refused => mret refused
  | inr candidate_id =>
      run ← save (fun r => at_stage "CANDIDATE_OPEN" (with_candidate candidate_id r)) run;
      candidate ← current_candidate candidate_id;
      refused ←
        (if match candidate with
            | Some c => (c.(CandidateRecord.state) =? "OPEN")%string | None => false end
         then started ← start candidate_id;
              mret (negb (bool_decide (started.(StartResult.state) = CandidateState.VERIFYING)))
         else mret false);
      if (refused : bool)
      then
        run ← save (fun r => at_stage "STOPPED" (stopped "VERIFICATION_START_REJECTED" r)) run;
        mret (answer PromotionOutcome.CANDIDATE_ADMITTED run ["VERIFICATION_START_REJECTED"])
      else
        run ← save (fun r => at_stage "VERIFYING" (with_candidate candidate_id r)) run;
        mret (answer PromotionOutcome.VERIFICATION_STARTED run codes)
  end.

(** What [on_assessment] does with an assessment that can be evidence.
    [application/promotion_pipeline.py:192-261 PromotionPipeline.on_assessment] *)
Definition promote (feedback : ResearchFeedback.t) : M PromotionResult.t :=
  let assessment_id := feedback.(ResearchFeedback.assessment_id) in
  let experiment_id := feedback.(ResearchFeedback.experiment_id) in
  existing ← read (fun db => promotion_of_assessment db assessment_id);
  admitted ← admit_evidence_of (AdmitCommand.mk experiment_id (Some assessment_id) None);
  run ← ensure_promotion_run feedback admitted existing;
  match bool_decide (admitted.(AdmitResult.outcome) = EvidenceAdmissionOutcome.ADMITTED),
        admitted.(AdmitResult.evidence_id) with
  | true, Some evidence_id =>
      if match existing with
         | Some r => negb (mem r.(stage) ["EVIDENCE_ADMITTED"; "CANDIDATE_OPEN"]) | None => false end
      then mret (result_from_run PromotionOutcome.SKIPPED_ALREADY_ATTEMPTED assessment_id experiment_id
                   run admitted.(AdmitResult.reason_codes))
      else
        run ← (if mem run.(stage) ["EVIDENCE_REJECTED"; "EVIDENCE_ADMITTED"]
                  || bool_decide (existing = None)
               then save (fun r => at_stage "EVIDENCE_ADMITTED" (with_evidence (Some evidence_id) r)) run
               else mret run);
        promote_candidate feedback run evidence_id admitted.(AdmitResult.reason_codes)
  | _, _ =>
      run ← (if (run.(stage) =? "EVIDENCE_REJECTED")%string then mret run
             else save (fun r => at_stage "EVIDENCE_REJECTED"
                     (with_evidence None (stopped "EVIDENCE_ADMISSION_REJECTED" r))) run);
      mret (result_from_run PromotionOutcome.ADMISSION_REJECTED assessment_id experiment_id run
              admitted.(AdmitResult.reason_codes))
  end.

(** [application/promotion_pipeline.py:192-261 PromotionPipeline.on_assessment] *)
Definition on_assessment (feedback : ResearchFeedback.t) : M PromotionResult.t :=
  let id := feedback.(ResearchFeedback.assessment_id) in
  let experiment_id := feedback.(ResearchFeedback.experiment_id) in
  if Str.is_empty id
  then mret (PromotionResult.skipped PromotionOutcome.SKIPPED_MISSING_ASSESSMENT None experiment_id)
  else
  reproduction ← is_reproduction_experiment experiment_id;
  if (reproduction : bool)
  then mret (PromotionResult.skipped PromotionOutcome.SKIPPED_REPRODUCTION_EXPERIMENT (Some id) experiment_id)
  else if negb (bool_decide (feedback.(ResearchFeedback.assessment_outcome)
                             = AssessmentOutcome.CONSISTENT_WITH_PREDICTION))
  then mret (PromotionResult.skipped PromotionOutcome.SKIPPED_NOT_EVIDENCE_ELIGIBLE (Some id) experiment_id)
  else if negb (mem feedback.(ResearchFeedback.evaluation_strategy) SUPPORTED_EVIDENCE_STRATEGIES)
  then mret (PromotionResult.skipped PromotionOutcome.SKIPPED_UNSUPPORTED_STRATEGY (Some id) experiment_id)
  else promote feedback.
End pipeline.

(** *** Advancing *)

Section advance.
Context `{World} `{FloatRepr} (actor_id : string).
Import PromotionRunRecord.

(** [application/promotion_pipeline.py:536-594 PromotionPipeline._submit_if_validated] *)
Definition submit_if_validated (run : PromotionRunRecord.t) (candidate verification : string)
    : M PromotionResult.t :=
  existing ← latest_proposal candidate;
  match existing with
  | Some p =>
      run ← save (fun r => at_stage "PROPOSAL_RECORDED"
              (with_proposal p.(FindingProposalRecord.proposal_id) (with_verification verification r))) run;
      mret (result_of_run PromotionOutcome.SKIPPED_ALREADY_ATTEMPTED run
              ["FINDING_PROPOSAL_ALREADY_RECORDED"])
  | None =>
      submitted ← submit actor_id candidate;
      match bool_decide (submitted.(SubmitFindingProposalResult.outcome)
                         = FindingProposalAdmissionOutcome.ADMITTED),
            submitted.(SubmitFindingProposalResult.proposal_id) with
      | true, Some p =>
          run ← save (fun r => at_stage "PROPOSAL_RECORDED"
                  (with_proposal p (with_verification verification r))) run;
          mret (result_of_run PromotionOutcome.FINDING_PROPOSAL_RECORDED run
                  submitted.(SubmitFindingProposalResult.reason_codes))
      | _, _ =>
          run ← save (fun r => at_stage "VERIFIED"
                  (with_verification verification (stopped "FINDING_PROPOSAL_NOT_ADMITTED" r))) run;
          mret (result_of_run PromotionOutcome.VERIFICATION_COMPLETED run
                  submitted.(SubmitFindingProposalResult.reason_codes))
      end
  end.

(** A verification is there: it is noted, and a validated candidate is submitted.
    [application/promotion_pipeline.py:383-534 PromotionPipeline._advance_one_body] *)
Definition record_verification (run : PromotionRunRecord.t) (candidate : string)
    (latest : VerificationRecord.t) : M PromotionResult.t :=
  run ← save (fun r =>
          with_verification latest.(VerificationRecord.verification_id)
            (if bool_decide (r.(finding_proposal_id) = None) then at_stage "VERIFIED" r else r)) run;
  if (latest.(VerificationRecord.outcome) =? "VALIDATED")%string
  then submit_if_validated run candidate latest.(VerificationRecord.verification_id)
  else mret (result_of_run PromotionOutcome.VERIFICATION_COMPLETED run
               [latest.(VerificationRecord.outcome)]).

(** [except ApplicationError] *)
Definition is_application_error (e : exn) : bool :=
  match e with ApplicationError => true | _ => false end.

(** [None]: the reproduction cannot be executed.
    [application/promotion_pipeline.py:596-645 PromotionPipeline._execute_independent_reproduction] *)
Definition execute_independent_reproduction (run : PromotionRunRecord.t)
    (command : AdvancePromotionCommand.t) : M (option ResearchLoopStatus.t) :=
  match run.(reproduction_experiment_id) with
  | None => mret None
  | Some experiment_id =>
      attempts ← read (fun db => Ok (attempts_of (PromotionDb.rows db) experiment_id));
      if negb (bool_decide (length attempts = 0%nat)) then mret (Some ResearchLoopStatus.ALREADY_TERMINAL)
      else
      original ← read (fun db => _ ← data_opaque_id run.(original_experiment_id);
                                 Ok (stored_plan (PromotionDb.rows db) run.(original_experiment_id)));
      match original with
      | None => mret None
      | Some record =>
          match experiment_plan_from_record record with
          | Raise e => raise e
          | Ok plan =>
              prepared ← catch (p ← prepare experiment_id run.(research_run_id) plan; mret true)
                           (fun e => if is_application_error e then mret false else raise e);
              if negb prepared then mret None
              else
              status ← execute (ExecutePlannedExperimentCommand.mk experiment_id plan
                         command.(AdvancePromotionCommand.scope) command.(AdvancePromotionCommand.approval)
                         None command.(AdvancePromotionCommand.compiled_scope) None None None None);
              _ ← match status with
                  | ResearchLoopStatus.OBSERVATION_PRODUCED | ResearchLoopStatus.ALREADY_TERMINAL
                  | ResearchLoopStatus.NO_OBSERVATION =>
                      catch (f ← evaluate experiment_id; mret tt)
                        (fun e => if is_application_error e
                                     && bool_decide (status = ResearchLoopStatus.ALREADY_TERMINAL)
                                  then mret tt else raise e)
                  | _ => mret tt
                  end;
              mret (Some status)
          end
      end
  end.

(** [application/promotion_pipeline.py:660-664 PromotionPipeline._admit_reproduction_evidence] *)
Definition admit_reproduction_evidence (experiment_id : string) : M () :=
  catch (r ← admit_evidence_of (AdmitCommand.mk experiment_id None None); mret tt)
    (fun e => if is_application_error e then mret tt else raise e).

(** [x or run] *)
Definition reloaded_or (run : PromotionRunRecord.t) : M PromotionRunRecord.t :=
  r ← reload run.(promotion_run_id); mret (default run r).

(** The stop of a run that has no reproduction.
    [application/promotion_pipeline.py:383-534 PromotionPipeline._advance_one_body] *)
Definition stop_run (run : PromotionRunRecord.t) (why : string) : M PromotionResult.t :=
  run ← save (fun r => at_stage "STOPPED" (stopped why r)) run;
  mret (result_of_run PromotionOutcome.VERIFICATION_COMPLETED run [why]).

(** The verification with the executed reproduction; [None]: it raised [ApplicationError]. *)
Definition try_complete (candidate reproduction_id : string) : M (option CompleteResult.t) :=
  catch (c ← complete (CompleteCommand.mk candidate (Some reproduction_id) None false None); mret (Some c))
    (fun e => if is_application_error e then mret None else raise e).

(** [application/promotion_pipeline.py:383-534 PromotionPipeline._advance_one_body] *)
Definition complete_promotion (run : PromotionRunRecord.t) : M PromotionResult.t :=
  match run.(reproduction_experiment_id) with
  | None => stop_run run "INDEPENDENT_REPRODUCTION_NOT_EXECUTED"
  | Some reproduction_id =>
      _ ← admit_reproduction_evidence reproduction_id;
      match run.(candidate_id) with
      | None => raise PersistenceInputError
      | Some candidate =>
          completed ← try_complete candidate reproduction_id;
          match completed with
          | None =>
              existing ← latest_verification candidate;
              match existing with
              | None => raise ApplicationError
              | Some latest => record_verification run candidate latest
              end
          | Some c =>
              run ← save (fun r => at_stage "VERIFIED"
                      (with_verification c.(CompleteResult.verification_id) r)) run;
              if bool_decide (c.(CompleteResult.outcome) = VerificationOutcome.VALIDATED)
              then submit_if_validated run candidate c.(CompleteResult.verification_id)
              else mret (result_of_run PromotionOutcome.VERIFICATION_COMPLETED run
                           c.(CompleteResult.reason_codes))
          end
      end
  end.

(** The run that may execute a reproduction: one that has it reserved, or claims it; [None]:
    another worker has claimed it.
    [application/promotion_pipeline.py:383-534 PromotionPipeline._advance_one_body] *)
Definition reserve (run : PromotionRunRecord.t) : M (PromotionRunRecord.t * bool) :=
  match run.(reproduction_experiment_id) with
  | Some _ => mret (run, true)
  | None =>
      experiment_id ← fresh_id;
      claimed ← claim run.(promotion_run_id) experiment_id;
      run ← reloaded_or run;
      mret (run, claimed)
  end.

(** [again] is [_advance_one].
    [application/promotion_pipeline.py:383-534 PromotionPipeline._advance_one_body] *)
Definition advance_body (again : PromotionRunRecord.t -> M PromotionResult.t)
    (command : AdvancePromotionCommand.t) (run : PromotionRunRecord.t) : M PromotionResult.t :=
  match run.(candidate_id) with
  | None => mret (result_of_run PromotionOutcome.CANDIDATE_REJECTED run ["MISSING_CANDIDATE"])
  | Some candidate =>
      existing ← latest_verification candidate;
      match existing with
      | Some latest => record_verification run candidate latest
      | None =>
          if negb (run.(stage) =? "VERIFYING")%string then complete_promotion run
          else
          reserved ← reserve run;
          let '(run, mine) := reserved in
          if negb mine
          then
            match run.(candidate_id) with
            | None => raise PersistenceInputError
            | Some candidate =>
                existing ← latest_verification candidate;
                match existing with
                | Some _ => again run
                | None => mret (result_of_run PromotionOutcome.PENDING_INDEPENDENT_VERIFICATION run
                                  ["REPRODUCTION_CLAIMED_BY_CONCURRENT_ADVANCE"])
                end
            end
          else
          status ← execute_independent_reproduction run command;
          run ← reloaded_or run;
          match status with
          | None => stop_run run "INDEPENDENT_REPRODUCTION_NOT_EXECUTED"
          | Some s =>
              if non_scientific s then stop_run run (status_value s)
              else
              run ← save (at_stage "REPRODUCTION_EXECUTED") run;
              complete_promotion run
          end
      end
  end.

Definition is_conflict_error (e : exn) : bool :=
  match e with PersistenceConflictError => true | _ => false end.

(** A conflict that is not expected is raised; after an expected one the run is read again.
    [application/promotion_pipeline.py:358-381 PromotionPipeline._advance_one] *)
Definition on_conflict (again : PromotionRunRecord.t -> M PromotionResult.t)
    (command : AdvancePromotionCommand.t) (run : PromotionRunRecord.t) (e : exn) : M PromotionResult.t :=
  expected ← (fun n db => (Ok (expected_conflict n), (S n, db))) : M bool;
  if negb (is_conflict_error e) || negb expected then raise e
  else
  reloaded ← reload run.(promotion_run_id);
  match reloaded with
  | None => raise e
  | Some r =>
      let pending := mret (result_of_run PromotionOutcome.PENDING_INDEPENDENT_VERIFICATION r
                             ["CONCURRENT_PROMOTION_CONFLICT"]) in
      match run.(candidate_id) with
      | None => pending
      | Some candidate =>
          existing ← latest_verification candidate;
          match existing with Some _ => advance_body again command r | None => pending end
      end
  end.

(** Each turn calls itself again only when the candidate got a verification meanwhile; then the
    next turn stops at it ([advance_needs_two_turns]).
    [application/promotion_pipeline.py:358-381 PromotionPipeline._advance_one] *)
Fixpoint advance_one (turns : nat) (command : AdvancePromotionCommand.t) (run : PromotionRunRecord.t)
    : M PromotionResult.t :=
  match turns with
  | O => raise AssertionError
  | S turns =>
      catch (advance_body (advance_one turns command) command run)
        (on_conflict (advance_one turns command) command run)
  end.

(** [application/promotion_pipeline.py:755-770 PromotionPipeline._pending_runs] *)
Definition pending_runs (c : AdvancePromotionCommand.t) : M (list PromotionRunRecord.t) :=
  match c.(AdvancePromotionCommand.promotion_run_id), c.(AdvancePromotionCommand.assessment_id) with
  | Some id, _ => r ← reload id; mret (option_list r)
  | None, Some id => r ← read (fun db => promotion_of_assessment db id); mret (option_list r)
  | None, None =>
      read (fun db =>
        _ ← data_opaque_id c.(AdvancePromotionCommand.research_run_id);
        Ok (List.filter (fun r => mem r.(stage) PENDING_VERIFICATION_STAGES)
              (promotions_for_run db c.(AdvancePromotionCommand.research_run_id))))
  end.

(** [tuple(f(x) for x in l)] *)
Fixpoint each {A B} (f : A -> M B) (l : list A) : M (list B) :=
  match l with
  | [] => mret []
  | x :: l => y ← f x; k ← each f l; mret (y :: k)
  end.

(** [worker]: the pipeline has one.
    [application/promotion_pipeline.py:263-280 PromotionPipeline.advance] *)
Definition advance (worker : bool) (turns : nat) (command : AdvancePromotionCommand.t)
    : M (list PromotionResult.t) :=
  targets ← pending_runs command;
  if negb worker
  then mret ((fun r => PromotionResult.mk PromotionOutcome.SKIPPED_NO_WORKER (Some r.(assessment_id))
                r.(original_experiment_id) r.(evidence_id) r.(candidate_id) None None
                (Some r.(promotion_run_id)) (Some r.(stage)) []) <$> targets)
  else each (advance_one turns command) targets.
End advance.

(** ** Reasoning about the program *)

(** A stored verification that validated the candidate. *)
Definition validated_by (db : PromotionDb.t) (candidate verification : string) : Prop :=
  exists v, v ∈ db.(PromotionDb.flow).(CandidateDb.verifications)
    /\ v.(VerificationRecord.verification_id) = verification
    /\ v.(VerificationRecord.candidate_id) = candidate
    /\ v.(VerificationRecord.outcome) = "VALIDATED".

(** A run that recorded a proposal names its candidate and the verification that validated it. *)
Definition run_ok (db : PromotionDb.t) (r : PromotionRunRecord.t) : Prop :=
  r.(PromotionRunRecord.stage) = "PROPOSAL_RECORDED" ->
  exists c v, r.(PromotionRunRecord.candidate_id) = Some c
    /\ r.(PromotionRunRecord.verification_id) = Some v
    /\ r.(PromotionRunRecord.finding_proposal_id) ≠ None /\ validated_by db c v.

Record ok (db : PromotionDb.t) : Prop := {
  ok_flow : CandidateFlow.inv db.(PromotionDb.flow);
  ok_runs : Forall (run_ok db) db.(PromotionDb.promotions) }.

(** What the pipeline relies on: the other workers only take steps of the flow of candidates, and
    keep what is known of the promotions; [new_opaque_id] puts no blanks around an id. *)
Class WorldLaws `{World} : Prop := {
  others_flow n db : CandidateFlow.reachable db.(PromotionDb.flow) (others n db).(PromotionDb.flow);
  others_ok n db : ok db -> ok (others n db);
  new_id_clean n : Str.strip (new_id n) = new_id n }.

Lemma reachable_one db db' : step db db' -> CandidateFlow.reachable db db'.
Proof. intros Hs. eapply CandidateFlow.reachable_step; [apply CandidateFlow.reachable_refl|done]. Qed.

Lemma reachable_trans a b c :
  CandidateFlow.reachable a b -> CandidateFlow.reachable b c -> CandidateFlow.reachable a c.
Proof. intros Hab. induction 1; [done|]. by eapply CandidateFlow.reachable_step. Qed.

Lemma inv_reached a b : CandidateFlow.inv a -> CandidateFlow.reachable a b -> CandidateFlow.inv b.
Proof. intros Ha. induction 1; [done|]. by eapply inv_step. Qed.

(** *** What the flow of candidates keeps *)

Lemma grows_same seen db :
  seen.(CandidateDb.base).(EvidenceDb.evidence) ⊆ db.(CandidateDb.base).(EvidenceDb.evidence) ->
  db.(CandidateDb.candidates) = seen.(CandidateDb.candidates) -> grows seen db.
Proof.
  intros He Hc. split; [done|]. intros c Hin. exists c.(CandidateRecord.state). rewrite Hc. by destruct c.
Qed.

Lemma step_keeps db db' :
  CandidateFlow.inv db -> step db db' ->
  db.(CandidateDb.verifications) ⊆ db'.(CandidateDb.verifications) /\ grows db db'.
Proof.
  intros Hinv Hs. destruct Hs as [rows runs|seen c f base answer Hf H|seen c ids db' answer Hg H
    |seen id db' answer Hg H|seen c id now db' answer Hg H].
  - split; [done|]. by apply grows_same.
  - apply admitted_evidence in H as (_ & new & Hnew & _); [|done]. split; [done|].
    apply grows_same; [|done]. cbn. rewrite Hnew. intros e He. apply elem_of_app. by left.
  - apply propose_candidate_ok in H as (new & adm & -> & _); [|apply Hinv|done]. split; [done|].
    split; [done|]. intros c' Hc. exists c'.(CandidateRecord.state). cbn. apply elem_of_app. left.
    by destruct c'.
  - apply start_verification_ok in H as [->|[i ->]]; [split; [done|apply grows_refl]|].
    split; [done|]. split; [done|]. intros c' Hc. by apply put_state_elem.
  - apply complete_verification_ok in H as [->|H]; [split; [done|apply grows_refl]|].
    destruct H as (c0 & cur & ctx & r & v & db1 & _ & _ & _ & _ & _ & _ & [-> _]%insert_verification_ok & ->).
    split; [cbn; intros w Hw; apply elem_of_app; by left|]. split; [done|]. intros c' Hc.
    exact (put_state_elem _ _ (CandidateDb.mk _ _ _ _) c' Hc).
Qed.

Lemma grows_trans a b c : grows a b -> grows b c -> grows a c.
Proof.
  intros [E1 C1] [E2 C2]. split; [by trans (EvidenceDb.evidence (CandidateDb.base b))|].
  intros x Hx. destruct (C1 x Hx) as [s Hs]. destruct (C2 _ Hs) as [t Ht]. exists t. exact Ht.
Qed.

Lemma reachable_keeps db db' :
  CandidateFlow.inv db -> CandidateFlow.reachable db db' ->
  db.(CandidateDb.verifications) ⊆ db'.(CandidateDb.verifications) /\ grows db db'.
Proof.
  intros Hinv. induction 1 as [|db1 db2 Hr [IHv IHg] Hs]; [split; [done|apply grows_refl]|].
  destruct (step_keeps db1 db2 (inv_reached _ _ Hinv Hr) Hs) as [Hv Hg].
  split; [by trans (CandidateDb.verifications db1)|by eapply grows_trans].
Qed.

(** *** Triples *)

(** A fact about the tables that no step of the flow takes away. *)
Class Stable (P : PromotionDb.t -> Prop) : Prop :=
  stable db db' : CandidateFlow.inv db.(PromotionDb.flow) ->
    CandidateFlow.reachable db.(PromotionDb.flow) db'.(PromotionDb.flow) -> P db -> P db'.

#[export] Instance stable_pure (P : Prop) : Stable (fun _ => P).
Proof. by intros db db' _ _. Qed.
#[export] Instance stable_and P Q : Stable P -> Stable Q -> Stable (fun db => P db /\ Q db).
Proof. intros HP HQ db db' Hi Hr [? ?]. split; [by eapply HP|by eapply HQ]. Qed.
#[export] Instance stable_impl (P : Prop) Q : Stable Q -> Stable (fun db => P -> Q db).
Proof. intros HQ db db' Hi Hr H Hp. eapply HQ; [done..|]. by apply H. Qed.
#[export] Instance stable_exists {A} (Q : A -> PromotionDb.t -> Prop) :
  (forall a, Stable (Q a)) -> Stable (fun db => exists a, Q a db).
Proof. intros HQ db db' Hi Hr [a Ha]. exists a. by eapply HQ. Qed.
#[export] Instance stable_verification v :
  Stable (fun db => v ∈ db.(PromotionDb.flow).(CandidateDb.verifications)).
Proof. intros db db' Hi Hr Hv. by apply (reachable_keeps _ _ Hi Hr). Qed.
#[export] Instance stable_validated c v : Stable (fun db => validated_by db c v).
Proof. unfold validated_by. apply _. Qed.
#[export] Instance stable_run_ok r : Stable (fun db => run_ok db r).
Proof. unfold run_ok. apply _. Qed.

(** The tables stay consistent and take steps of the flow, whether [m] answers or raises. *)
Definition triple {A} (P : PromotionDb.t -> Prop) (m : M A) (Q : A -> PromotionDb.t -> Prop) : Prop :=
  forall n db, ok db -> P db ->
  let '(r, (_, db')) := m n db in
  ok db' /\ CandidateFlow.reachable db.(PromotionDb.flow) db'.(PromotionDb.flow)
  /\ forall a, r = Ok a -> Q a db'.

Lemma stable_runs db db' :
  ok db -> CandidateFlow.reachable db.(PromotionDb.flow) db'.(PromotionDb.flow) ->
  Forall (run_ok db') db.(PromotionDb.promotions).
Proof.
  intros [Hf Hr] Hreach. eapply Forall_impl; [exact Hr|]. intros r Ho.
  by eapply (stable_run_ok r).
Qed.

(** Consistent again after steps of the flow that leave the promotions. *)
Lemma ok_steps db db' :
  ok db -> CandidateFlow.reachable db.(PromotionDb.flow) db'.(PromotionDb.flow) ->
  db'.(PromotionDb.promotions) = db.(PromotionDb.promotions) -> ok db'.
Proof.
  intros Hok Hr Hp. split; [by eapply inv_reached; [apply Hok|]|]. rewrite Hp. by apply stable_runs.
Qed.

(** Consistent again after a change of the promotions. *)
Lemma ok_promotions db l :
  ok db -> Forall (run_ok db) l -> ok (PromotionDb.with_promotions l db).
Proof. intros [Hf _] Hl. by split. Qed.

Section triples.
Context `{WorldLaws} `{FloatRepr}.

Lemma t_ret {A} (a : A) (P : PromotionDb.t -> Prop) (Q : A -> PromotionDb.t -> Prop) :
  (forall db, P db -> Q a db) -> triple P (mret a) Q.
Proof.
  intros HQ n db Hok HP. split; [done|]. split; [apply CandidateFlow.reachable_refl|].
  intros b [= <-]. by apply HQ.
Qed.

Lemma t_raise {A} e P (Q : A -> PromotionDb.t -> Prop) : triple P (raise e) Q.
Proof. intros n db Hok _. split; [done|]. by split; [apply CandidateFlow.reachable_refl|]. Qed.

Lemma t_bind {A B} P (m : M A) R (f : A -> M B) Q :
  triple P m R -> (forall a, triple (R a) (f a) Q) -> triple P (m ≫= f) Q.
Proof.
  intros Hm Hf n db Hok HP. specialize (Hm n db Hok HP). unfold mbind, M_bind.
  destruct (m n db) as [[a|e] [n' db']]; destruct Hm as (Hok' & Hr & Hq); [|done].
  specialize (Hf a n' db' Hok' (Hq a eq_refl)). destruct (f a n' db') as [r [n2 db2]].
  destruct Hf as (Hok2 & Hr2 & Hq2). split; [done|]. split; [by eapply reachable_trans|done].
Qed.

Lemma t_conseq {A} (P P' : PromotionDb.t -> Prop) (m : M A) (Q Q' : A -> PromotionDb.t -> Prop) :
  triple P' m Q' -> (forall db, P db -> P' db) -> (forall a db, Q' a db -> Q a db) -> triple P m Q.
Proof.
  intros Hm HP HQ n db Hok Hp. specialize (Hm n db Hok (HP _ Hp)).
  destruct (m n db) as [r [n' db']]. destruct Hm as (Hok' & Hr & Hq). split; [done|]. split; [done|].
  intros a Ha. by apply HQ, Hq.
Qed.

Lemma t_frame {A} P `{Hst : Stable R} (m : M A) Q :
  triple P m Q -> triple (fun db => P db /\ R db) m (fun a db => Q a db /\ R db).
Proof.
  intros Hm n db Hok [HP HR]. specialize (Hm n db Hok HP).
  destruct (m n db) as [r [n' db']]. destruct Hm as (Hok' & Hr & HQ). split; [done|]. split; [done|].
  intros a Ha. split; [by apply HQ|]. eapply Hst; [apply Hok|done..].
Qed.

Lemma t_catch {A} `{Hst : Stable P} (m : M A) h Q :
  triple P m Q -> (forall e, triple P (h e) Q) -> triple P (catch m h) Q.
Proof.
  intros Hm Hh n db Hok HP. specialize (Hm n db Hok HP). unfold catch.
  destruct (m n db) as [[a|e] [n' db']]; destruct Hm as (Hok' & Hr & Hq); [done|].
  specialize (Hh e n' db' Hok' ltac:(eapply Hst; [apply Hok|done..])).
  destruct (h e n' db') as [r [n2 db2]]. destruct Hh as (Hok2 & Hr2 & Hq2). split; [done|].
  split; [by eapply reachable_trans|done].
Qed.

Lemma t_id `{Hst : Stable P} Q :
  (forall s db, P db -> Str.strip s = s -> Q s db) -> triple P fresh_id Q.
Proof.
  intros HQ n db Hok HP. cbn. split; [done|]. split; [apply CandidateFlow.reachable_refl|].
  intros a [= <-]. apply HQ; [done|apply new_id_clean].
Qed.

Lemma t_time P : triple P time (fun _ => P).
Proof. intros n db Hok HP. cbn. split; [done|]. by split; [apply CandidateFlow.reachable_refl|]. Qed.

Lemma t_read {A} `{Hst : Stable P} (f : PromotionDb.t -> result A) Q :
  (forall db a, ok db -> P db -> f db = Ok a -> Q a db) -> triple P (read f) Q.
Proof.
  intros HQ n db Hok HP. cbn. pose proof (others_flow n db) as Hr. pose proof (others_ok n db Hok) as Ho.
  split; [done|]. split; [done|]. intros a Ha. apply HQ; [done| |done].
  eapply Hst; [apply Hok|done..].
Qed.

Lemma t_write {A} `{Hst : Stable P} (f : PromotionDb.t -> PromotionDb.t -> result (PromotionDb.t * A)) Q :
  (forall seen db db' a, ok seen -> ok db -> P seen -> P db ->
     CandidateFlow.reachable seen.(PromotionDb.flow) db.(PromotionDb.flow) -> f seen db = Ok (db', a) ->
     ok db' /\ CandidateFlow.reachable db.(PromotionDb.flow) db'.(PromotionDb.flow) /\ Q a db') ->
  triple P (write f) Q.
Proof.
  intros HQ n db Hok HP. unfold write. cbv zeta. pose proof (others_flow n db) as Hr1. pose proof (others_ok n db Hok) as Ho1.
  pose proof (others_flow (S n) (others n db)) as Hr2. pose proof (others_ok (S n) _ Ho1) as Ho2.
  assert (HP1 : P (others n db)) by (eapply Hst; [apply Hok|done..]).
  assert (HP2 : P (others (S n) (others n db))) by (eapply Hst; [apply Ho1|done..]).
  pose proof (reachable_trans _ _ _ Hr1 Hr2) as Hr.
  destruct (f _ _) as [[db' a]|e] eqn:E; [|done].
  destruct (HQ _ _ _ _ Ho1 Ho2 HP1 HP2 Hr2 E) as (Ho' & Hr' & Hq). split; [done|].
  split; [by eapply reachable_trans|]. by intros b [= <-].
Qed.
End triples.

(** *** The use cases *)

Section use_cases.
Context `{WorldLaws} `{FloatRepr}.

(** A program that keeps the tables consistent, whatever it answers. *)
Definition keeps {A} (m : M A) : Prop := triple (fun _ => True) m (fun _ _ => True).

Lemma t_keep {A} `{Hst : Stable P} (m : M A) : keeps m -> triple P m (fun _ => P).
Proof.
  intros Hm. eapply t_conseq; [exact (t_frame (fun _ => True) (R := P) m (fun _ _ => True) Hm)| |];
    [done|by intros a db [_ ?]].
Qed.

Lemma keeps_weaken {A} P (m : M A) Q : triple P m Q -> (forall db, P db) -> keeps m.
Proof. intros Hm HP. by eapply t_conseq. Qed.

Lemma keeps_ret {A} (a : A) : keeps (mret a).
Proof. by apply t_ret. Qed.

Lemma keeps_bind {A B} (m : M A) (f : A -> M B) : keeps m -> (forall a, keeps (f a)) -> keeps (m ≫= f).
Proof. intros Hm Hf. by eapply t_bind. Qed.

Lemma keeps_catch {A} (m : M A) h : keeps m -> (forall e, keeps (h e)) -> keeps (catch m h).
Proof. intros Hm Hh. apply (t_catch (P := fun _ => True)); [done|exact Hh]. Qed.

Lemma keeps_id : keeps fresh_id.
Proof. by apply (t_id (P := fun _ => True)). Qed.

Lemma keeps_time : keeps time.
Proof. apply t_time. Qed.

Lemma keeps_raise {A} e : keeps (raise (A := A) e).
Proof. apply t_raise. Qed.

Lemma keeps_read {A} (f : PromotionDb.t -> result A) : keeps (read f).
Proof. by apply (t_read (P := fun _ => True)). Qed.

(** A unit of work that leaves the promotions and takes steps of the flow. *)
Lemma keeps_write {A} (f : PromotionDb.t -> PromotionDb.t -> result (PromotionDb.t * A)) :
  (forall seen db db' a, ok seen ->
     CandidateFlow.reachable seen.(PromotionDb.flow) db.(PromotionDb.flow) -> f seen db = Ok (db', a) ->
     CandidateFlow.reachable db.(PromotionDb.flow) db'.(PromotionDb.flow)
     /\ db'.(PromotionDb.promotions) = db.(PromotionDb.promotions)) ->
  keeps (write f).
Proof.
  intros Hf. apply (t_write (P := fun _ => True)). intros seen db db' a Hs Hok _ _ Hr E.
  destruct (Hf _ _ _ _ Hs Hr E) as [Hr' Hp]. split; [by eapply ok_steps|done].
Qed.

Lemma keeps_on_flow {A} (f : CandidateDb.t -> CandidateDb.t -> result (CandidateDb.t * A)) :
  (forall seen db db' a, grows seen db -> f seen db = Ok (db', a) -> step db db') -> keeps (on_flow f).
Proof.
  intros Hf. apply keeps_write. intros seen db db' a Hs Hr (r & Hr1 & [= <- <-])%bind_ok.
  destruct r as [d x]. split; [|done]. cbn. eapply reachable_one, Hf; [|exact Hr1].
  apply (reachable_keeps _ _ (ok_flow _ Hs) Hr).
Qed.

Lemma keeps_admit c : keeps (admit_evidence_of c).
Proof.
  unfold admit_evidence_of. apply keeps_bind; [apply keeps_id|]. intros p.
  apply keeps_bind; [apply keeps_id|]. intros a.
  eapply (t_bind _ _ (fun e _ => Str.strip e = e)); [by apply (t_id (P := fun _ => True))|]. intros e.
  eapply (t_bind _ _ (fun _ _ => Str.strip e = e)); [apply t_time|]. intros t1.
  eapply (t_bind _ _ (fun _ _ => Str.strip e = e)); [apply t_time|]. intros t2.
  apply (t_write (P := fun _ => Str.strip e = e)). intros seen db db' x Hs Hok He _ Hr Hw.
  apply bind_ok in Hw as ([base ans] & Ha & [= <- <-]). cbn.
  assert (Hr' : CandidateFlow.reachable db.(PromotionDb.flow) (with_base base db.(PromotionDb.flow))).
  { apply reachable_one. eapply admit_step; [|exact Ha]. exact He. }
  split; [by eapply ok_steps|done].
Qed.

Lemma keeps_propose e : keeps (propose e).
Proof.
  unfold propose. repeat (apply keeps_bind; [first [apply keeps_id|apply keeps_time]|intros ?]).
  apply keeps_on_flow. intros seen db db' x Hg Hp. by eapply propose_step.
Qed.

Lemma keeps_start c : keeps (start c).
Proof. apply keeps_on_flow. intros seen db db' a Hg Hp. by eapply start_step. Qed.

Lemma keeps_submit actor c : keeps (submit actor c).
Proof.
  unfold submit. repeat (apply keeps_bind; [first [apply keeps_id|apply keeps_time]|intros ?]).
  apply keeps_write. intros seen db db' x _ _ (r & _ & [= <- <-])%bind_ok.
  by split; [apply CandidateFlow.reachable_refl|].
Qed.

(** The rows of experiments are the flow's to read only. *)
Lemma with_rows_reachable rows db :
  CandidateFlow.reachable db.(PromotionDb.flow) (PromotionDb.with_rows rows db).(PromotionDb.flow).
Proof. apply reachable_one, rows_step. Qed.

Lemma prepare_keeps seen db e run plan now db' a :
  prepare_planned_experiment seen db e run plan now = Ok (db', a) ->
  CandidateFlow.reachable db.(PromotionDb.flow) db'.(PromotionDb.flow)
  /\ db'.(PromotionDb.promotions) = db.(PromotionDb.promotions).
Proof.
  intros Hp. unfold prepare_planned_experiment in Hp. cbv zeta in Hp.
  do 2 apply bind_ok in Hp as (? & _ & Hp). do 3 apply raise_if_ok in Hp as [_ Hp].
  destruct (stored_experiment (PromotionDb.rows seen) e).
  { injection Hp as <- <-. by split; [apply CandidateFlow.reachable_refl|]. }
  do 2 apply bind_ok in Hp as (? & _ & Hp). apply bind_ok in Hp as ([d|] & Hi & Hp).
  - injection Hp as <- <-. unfold insert_planned in Hi. cbv zeta in Hi.
    destruct (_ || _) in Hi; [done|]. apply raise_if_ok in Hi as [_ [= <-]].
    by split; [apply with_rows_reachable|].
  - destruct (stored_experiment (PromotionDb.rows db) e), (stored_plan (PromotionDb.rows db) e); try done.
    injection Hp as <- <-. by split; [apply CandidateFlow.reachable_refl|].
Qed.

Lemma keeps_prepare e run plan : keeps (prepare e run plan).
Proof.
  unfold prepare. apply keeps_bind; [apply keeps_time|intros t]. apply keeps_write.
  intros seen db db' x _ _ Hp. by eapply prepare_keeps.
Qed.

Lemma keeps_execute c : keeps (execute c).
Proof.
  intros n db Hok _. unfold execute. cbv zeta. pose proof (others_flow n db) as Hr.
  pose proof (others_ok n db Hok) as Ho.
  pose proof (with_rows_reachable (execute_planned n (PromotionDb.rows (others n db)) c).1 (others n db)) as Hr2.
  split; [by eapply ok_steps|]. split; [by eapply reachable_trans|done].
Qed.

Lemma keeps_evaluate e : keeps (evaluate e).
Proof.
  unfold evaluate. repeat (apply keeps_bind; [first [apply keeps_id|apply keeps_time]|intros ?]).
  apply keeps_write. intros seen db db' a' _ _ (r & _ & [= <- <-])%bind_ok.
  by split; [apply with_rows_reachable|].
Qed.

Lemma put_promotion_ok db r :
  ok db -> run_ok db r ->
  ok (PromotionDb.with_promotions
        ((fun o => if (o.(PromotionRunRecord.promotion_run_id)
                       =? r.(PromotionRunRecord.promotion_run_id))%string then r else o)
         <$> db.(PromotionDb.promotions)) db).
Proof.
  intros Hok Hr. apply ok_promotions; [done|]. apply Forall_fmap. eapply Forall_impl; [apply Hok|].
  intros o Ho. cbn. by case_match.
Qed.

Lemma t_save `{Hst : Stable P} f run :
  (forall now db, ok db -> P db -> run_ok db (PromotionRunRecord.at_time now (f run))) ->
  triple P (save f run) (fun r db => P db /\ exists now, r = PromotionRunRecord.at_time now (f run)).
Proof.
  intros Hf. unfold save. eapply t_bind; [apply t_time|]. intros now.
  destruct (PromotionRunRecord.post_init _) as [r|e] eqn:E; [|apply t_raise]. apply validated in E as ->.
  apply t_write. intros seen db db' a _ Hok _ HP _ (d & Hd & [= <- <-])%bind_ok.
  unfold save_promotion in Hd. cbv zeta in Hd. do 2 apply raise_if_ok in Hd as [_ Hd]. injection Hd as <-.
  assert (Hr : CandidateFlow.reachable db.(PromotionDb.flow) db.(PromotionDb.flow))
    by apply CandidateFlow.reachable_refl.
  split; [exact (put_promotion_ok db _ Hok (Hf now db Hok HP))|]. split; [exact Hr|].
  split; [eapply Hst; [apply Hok|exact Hr|done]|by exists now].
Qed.

(** A run that is not at the last stage can always be saved. *)
Lemma keeps_save f run :
  (forall now, (PromotionRunRecord.at_time now (f run)).(PromotionRunRecord.stage) ≠ "PROPOSAL_RECORDED") ->
  keeps (save f run).
Proof.
  intros Hs. eapply t_conseq; [apply (t_save (P := fun _ => True))|done|done].
  intros now db _ _ Hst. by apply Hs in Hst.
Qed.

Lemma keeps_claim id e : keeps (claim id e).
Proof.
  unfold claim. apply keeps_bind; [apply keeps_time|intros now]. apply (t_write (P := fun _ => True)).
  intros seen db db' a _ Hok _ _ _ Hc. unfold claim_reproduction in Hc. cbv zeta in Hc.
  do 2 apply bind_ok in Hc as (? & _ & Hc).
  destruct (negb _ || _) in Hc; injection Hc as <- <-; (split; [|by split; [apply CandidateFlow.reachable_refl|]]).
  - done.
  - apply ok_promotions; [done|]. apply Forall_fmap. eapply Forall_impl; [apply Hok|]. intros o Ho.
    cbn. case_match; [|done]. exact Ho.
Qed.
End use_cases.


Create HintDb promotion.
#[export] Hint Resolve keeps_ret keeps_raise keeps_id keeps_time keeps_read keeps_admit keeps_propose
  keeps_start keeps_submit keeps_prepare keeps_execute keeps_evaluate keeps_claim : promotion.
#[export] Hint Extern 1 (keeps (save _ _)) => apply keeps_save; intros; cbn; discriminate : promotion.

(** Programs made of programs that keep the tables consistent. *)
Ltac keeps_steps :=
  repeat first
    [ solve [auto with promotion]
    | apply keeps_catch; [|intros ?]
    | apply keeps_bind; [|intros ?]
    | case_match ].

Section calls.
Context `{WorldLaws} `{FloatRepr}.
Import PromotionRunRecord.

Lemma keeps_ensure f admitted existing : keeps (ensure_promotion_run f admitted existing).
Proof.
  unfold ensure_promotion_run. destruct existing as [run|]; [auto with promotion|].
  apply keeps_bind; [auto with promotion|intros now]. apply keeps_bind; [auto with promotion|intros id].
  destruct (post_init _) as [r|e] eqn:E; [|auto with promotion]. apply validated in E.
  apply (t_write (P := fun _ => True)). intros seen db db' a _ Hok _ _ _ Hw.
  apply bind_ok in Hw as ([c|] & _ & Hw).
  { injection Hw as <- <-. split; [done|]. by split; [apply CandidateFlow.reachable_refl|]. }
  apply bind_ok in Hw as (d & Hd & [= <- <-]). unfold insert_promotion in Hd.
  do 2 apply raise_if_ok in Hd as [_ Hd]. injection Hd as <-.
  split; [|by split; [apply CandidateFlow.reachable_refl|]].
  apply ok_promotions; [done|]. apply Forall_app. split; [apply Hok|]. apply Forall_singleton.
  intros Hs. rewrite E in Hs. cbn in Hs. by case_bool_decide.
Qed.

Lemma keeps_candidate_to_verify f run e : keeps (candidate_to_verify f run e).
Proof. unfold candidate_to_verify, candidate_for_evidence. keeps_steps. Qed.
End calls.
#[export] Hint Resolve keeps_ensure keeps_candidate_to_verify : promotion.

Section calls.
Context `{WorldLaws} `{FloatRepr}.

Lemma keeps_promote_candidate f run e codes : keeps (promote_candidate f run e codes).
Proof. unfold promote_candidate, current_candidate. keeps_steps. Qed.
End calls.
#[export] Hint Resolve keeps_promote_candidate : promotion.

Section calls.
Context `{WorldLaws} `{FloatRepr}.

Lemma keeps_promote f : keeps (promote f).
Proof. unfold promote. keeps_steps. Qed.

Lemma keeps_on_assessment f : keeps (on_assessment f).
Proof. unfold on_assessment, is_reproduction_experiment. repeat first [apply keeps_promote|progress keeps_steps]. Qed.
End calls.

(** *** Advancing *)

(** A completion that answers VALIDATED leaves a verification that says so. *)
Lemma complete_validated seen db c id now db' answer :
  seen.(CandidateDb.verifications) ⊆ db.(CandidateDb.verifications) ->
  complete_verification seen db c id now = Ok (db', answer) ->
  answer.(CompleteResult.outcome) = VerificationOutcome.VALIDATED ->
  exists v, v ∈ db'.(CandidateDb.verifications)
    /\ v.(VerificationRecord.verification_id) = answer.(CompleteResult.verification_id)
    /\ v.(VerificationRecord.candidate_id) = c.(CompleteCommand.candidate_id)
    /\ v.(VerificationRecord.outcome) = "VALIDATED".
Proof.
  intros Hsub Hw Hval.
  assert (Hlast : forall d v, d.(CandidateDb.verifications) ⊆ db.(CandidateDb.verifications) ->
    last (verifications_of d c.(CompleteCommand.candidate_id)) = Some v ->
    forall s, recorded_answer c.(CompleteCommand.candidate_id) s v = Ok answer ->
    exists v, v ∈ db.(CandidateDb.verifications)
      /\ v.(VerificationRecord.verification_id) = answer.(CompleteResult.verification_id)
      /\ v.(VerificationRecord.candidate_id) = c.(CompleteCommand.candidate_id)
      /\ v.(VerificationRecord.outcome) = "VALIDATED").
  { intros d v Hd Hv s Ha. apply last_Some_elem_of in Hv. unfold verifications_of in Hv.
    rewrite elem_of_sort_by in Hv. apply list_elem_of_In, filter_In in Hv as [Hv Hc].
    apply list_elem_of_In in Hv. apply String.eqb_eq in Hc. unfold recorded_answer in Ha.
    apply bind_ok in Ha as (o & Ho & [= <-]). cbn in Hval. subst o. exists v.
    split; [by apply Hd|]. split; [done|]. split; [done|]. apply enum_of_ok in Ho. done. }
  unfold complete_verification in Hw. cbv zeta in Hw. apply bind_ok in Hw as (fc & Hfc & Hw).
  apply bind_ok in Hw as (candidate & ->%found_ok & Hw). apply get_candidate_ok in Hfc as [_ Hid].
  destruct (last (verifications_of seen _)) as [v|] eqn:El.
  { apply bind_ok in Hw as (s & _ & Hw). apply bind_ok in Hw as (a & Ha & [= <- ->]).
    exact (Hlast seen v Hsub El s Ha). }
  apply bind_ok in Hw as (current & _ & Hw). apply bind_ok in Hw as (context & _ & Hw).
  apply bind_ok in Hw as (r & _ & Hw). apply bind_ok in Hw as (next & _ & Hw).
  apply bind_ok in Hw as (v & Hv & Hw). apply bind_ok in Hw as ([db1|] & Hins & Hw).
  - apply bind_ok in Hw as (db2 & ->%set_state_ok & [= <- <-]).
    apply insert_verification_ok in Hins as [-> _]. unfold verification_record in Hv.
    apply validated in Hv. cbn in Hval. exists v. split; [apply elem_of_app; right; by left|].
    rewrite Hv, Hval, Hid. done.
  - apply bind_ok in Hw as (a & Ha & [= <- ->]). unfold reload_verification in Ha.
    apply bind_ok in Ha as (? & _ & Ha). apply bind_ok in Ha as (? & _ & Ha).
    apply bind_ok in Ha as (w & Hw%found_ok & Ha). apply bind_ok in Ha as (s & _ & Ha).
    exact (Hlast db w ltac:(done) Hw s Ha).
Qed.

Section calls.
Context `{WorldLaws} `{FloatRepr} (actor_id : string).
Import PromotionRunRecord.

(** The candidate of the run, and the verification that validated it. *)
Definition may_submit (run : PromotionRunRecord.t) (candidate verification : string)
    (db : PromotionDb.t) : Prop :=
  run.(candidate_id) = Some candidate /\ validated_by db candidate verification.

#[export] Instance stable_may_submit run c v : Stable (may_submit run c v).
Proof. unfold may_submit. apply _. Qed.

Definition recorded_for (run : PromotionRunRecord.t) (candidate : string) (v : VerificationRecord.t)
    (db : PromotionDb.t) : Prop :=
  run.(candidate_id) = Some candidate
  /\ v ∈ db.(PromotionDb.flow).(CandidateDb.verifications)
  /\ v.(VerificationRecord.candidate_id) = candidate.

#[export] Instance stable_recorded_for run c v : Stable (recorded_for run c v).
Proof. unfold recorded_for. apply _. Qed.

Definition no_post {A} (_ : A) (_ : PromotionDb.t) : Prop := True.

Lemma t_keeps {A} `{Hst : Stable P} (m : M A) : keeps m -> triple P m no_post.
Proof. intros Hm. by eapply t_conseq; [apply Hm| |]. Qed.

Lemma t_save_proposal run c v p :
  triple (may_submit run c v)
    (save (fun r => at_stage "PROPOSAL_RECORDED" (with_proposal p (with_verification v r))) run) no_post.
Proof.
  eapply t_conseq; [apply (t_save (P := may_submit run c v))|done|done].
  intros now db _ [Hc Hv] _. by exists c, v.
Qed.

Lemma t_submit_if_validated run c v :
  triple (may_submit run c v) (submit_if_validated actor_id run c v) no_post.
Proof.
  unfold submit_if_validated. eapply t_bind; [apply t_keep; unfold latest_proposal; auto with promotion|].
  intros [p|].
  - eapply t_bind; [apply t_save_proposal|]. intros r. by apply t_ret.
  - eapply t_bind; [apply t_keep; auto with promotion|]. intros s. cbn beta.
    assert (Hno : triple (may_submit run c v)
      (run ← save (fun r => at_stage "VERIFIED"
                     (with_verification v (stopped "FINDING_PROPOSAL_NOT_ADMITTED" r))) run;
       mret (result_of_run PromotionOutcome.VERIFICATION_COMPLETED run
               s.(SubmitFindingProposalResult.reason_codes))) no_post)
      by (apply t_keeps; keeps_steps).
    repeat case_match; try exact Hno.
    eapply t_bind; [apply t_save_proposal|]. intros r. by apply t_ret.
Qed.

Lemma t_record_verification run c latest :
  triple (fun db => run_ok db run /\ recorded_for run c latest db)
    (record_verification actor_id run c latest) no_post.
Proof.
  unfold record_verification. eapply t_bind; [apply t_save|].
  - intros now db Hok (Hrun & Hc & Hin & Hl). unfold run_ok. cbn.
    case_bool_decide as E; cbn; [done|]. intros Hs. destruct (Hrun Hs) as (c' & v' & Hc' & Hv' & Hp & Hval).
    assert (c' = c) as -> by congruence. exists c, latest.(VerificationRecord.verification_id).
    split; [done|]. split; [done|]. split; [done|]. destruct Hval as (w & Hw & Hid & Hwc & Ho).
    exists w. split; [done|]. split; [|done]. f_equal.
    apply (NoDup_fmap_inj VerificationRecord.candidate_id _ _ _ (i_once_verified _ (ok_flow _ Hok)) Hw Hin).
    congruence.
  - intros run'. case_match eqn:Eo; [|by apply t_ret]. apply String.eqb_eq in Eo.
    eapply t_conseq; [apply (t_submit_if_validated run' c)| |done].
    intros db ((_ & Hc & Hin & Hl) & now & ->). split; [by case_match|]. by exists latest.
Qed.

Lemma t_latest `{Hst : Stable P} c run :
  (forall db, P db -> run.(candidate_id) = Some c) ->
  triple P (latest_verification c)
    (fun o db => P db /\ match o with Some v => recorded_for run c v db | None => True end).
Proof.
  intros Hc. unfold latest_verification. apply t_read. intros db a _ HP Ha.
  apply bind_ok in Ha as (? & _ & [= <-]). split; [done|].
  destruct (last _) as [v|] eqn:E; [|done]. apply last_Some_elem_of in E. unfold verifications_of in E.
  rewrite elem_of_sort_by in E. apply list_elem_of_In, filter_In in E as [Hin Hv%String.eqb_eq].
  apply list_elem_of_In in Hin. split; [by apply (Hc db)|done].
Qed.

Lemma t_reload `{Hst : Stable P} id :
  triple P (reload id)
    (fun o db => P db /\ match o with Some r => run_ok db r | None => True end).
Proof.
  unfold reload. apply t_read. intros db a Hok HP Ha. split; [done|]. unfold get_promotion in Ha.
  apply bind_ok in Ha as (? & _ & [= <-]). destruct (List.find _ _) as [r|] eqn:E; [|done].
  apply find_Some_elem in E as [E _]. pose proof (ok_runs _ Hok) as Hr. rewrite Forall_forall in Hr.
  by apply Hr.
Qed.

Lemma t_reloaded_or run :
  triple (fun db => run_ok db run) (reloaded_or run) (fun r db => run_ok db r).
Proof.
  unfold reloaded_or. eapply t_bind; [apply t_reload|]. intros [r|]; apply t_ret; intros db [? ?]; done.
Qed.

Lemma keeps_stop run why : keeps (stop_run run why).
Proof. unfold stop_run. keeps_steps. Qed.
End calls.
#[export] Hint Resolve keeps_stop : promotion.

Section calls.
Context `{WorldLaws} `{FloatRepr} (actor_id : string).
Import PromotionRunRecord.

Lemma keeps_execute_reproduction run command : keeps (execute_independent_reproduction run command).
Proof.
  unfold execute_independent_reproduction. destruct (reproduction_experiment_id run); keeps_steps.
Qed.

Lemma keeps_admit_reproduction e : keeps (admit_reproduction_evidence e).
Proof. unfold admit_reproduction_evidence. keeps_steps. Qed.

Lemma t_try_complete `{Hst : Stable P} c reproduction :
  triple P (try_complete c reproduction)
    (fun o db => P db /\ match o with
       | Some a => a.(CompleteResult.outcome) = VerificationOutcome.VALIDATED ->
                   validated_by db c a.(CompleteResult.verification_id)
       | None => True end).
Proof.
  unfold try_complete. apply t_catch; [|intros e; case_match; [by apply t_ret|apply t_raise]].
  eapply t_bind with (R := fun a db => P db /\
    (a.(CompleteResult.outcome) = VerificationOutcome.VALIDATED ->
     validated_by db c a.(CompleteResult.verification_id))); [|intros a; by apply t_ret].
  unfold complete, on_flow. eapply t_bind; [apply t_keep, keeps_id|]. intros v.
  eapply t_bind; [apply t_keep, keeps_time|]. intros t. cbn beta. apply t_write.
  intros seen db db' a Hs Hok _ HP Hr Hw. apply bind_ok in Hw as ([d ans] & Hw & [= <- <-]).
  destruct (reachable_keeps _ _ (ok_flow _ Hs) Hr) as [Hsub Hg].
  assert (Hreach : CandidateFlow.reachable db.(PromotionDb.flow) d)
    by (apply reachable_one; exact (complete_step _ _ _ _ _ _ _ Hg Hw)).
  split; [by apply (ok_steps db)|]. split; [exact Hreach|].
  split; [exact (Hst db (PromotionDb.with_flow d db) (ok_flow _ Hok) Hreach HP)|]. intros Hv.
  exact (complete_validated _ _ _ _ _ _ _ Hsub Hw Hv).
Qed.

Lemma t_complete_promotion run :
  triple (fun db => run_ok db run) (complete_promotion actor_id run) no_post.
Proof.
  unfold complete_promotion. destruct (reproduction_experiment_id run) as [reproduction|].
  2: { apply t_keeps, keeps_stop. }
  eapply t_bind; [apply t_keep, keeps_admit_reproduction|]. intros []. cbn beta.
  destruct (candidate_id run) as [c|] eqn:Ec; [|apply t_raise].
  eapply t_bind; [apply t_try_complete|]. intros [a|].
  - set (Val := a.(CompleteResult.outcome) = VerificationOutcome.VALIDATED).
    eapply t_bind with (R := fun run' db => Val ->
      may_submit run' c a.(CompleteResult.verification_id) db).
    + eapply t_conseq.
      * apply (t_save (P := fun db => Val -> validated_by db c a.(CompleteResult.verification_id))).
        by intros now db _ _.
      * by intros db [_ ?].
      * intros r db [Hv [now ->]] HV. split; [exact Ec|by apply Hv].
    + intros run'. case_bool_decide as HV; [|by apply t_ret].
      eapply t_conseq; [apply t_submit_if_validated| |done]. intros db Hm. by apply Hm.
  - eapply t_bind; [apply (t_latest c run); by intros|]. intros [latest|]; [|apply t_raise].
    eapply t_conseq; [apply (t_record_verification actor_id run c latest)| |done].
    by intros db [[? _] ?].
Qed.

Lemma t_reserve run :
  triple (fun db => run_ok db run) (reserve run) (fun r db => run_ok db r.1).
Proof.
  unfold reserve. destruct (reproduction_experiment_id run); [by apply t_ret|].
  eapply t_bind; [apply t_keep, keeps_id|]. intros e.
  eapply t_bind; [apply t_keep, keeps_claim|]. intros claimed.
  eapply t_bind; [apply t_reloaded_or|]. intros r. by apply t_ret.
Qed.

Definition safe (m : PromotionRunRecord.t -> M PromotionResult.t) : Prop :=
  forall run, triple (fun db => run_ok db run) (m run) no_post.

Lemma t_advance_body again command : safe again -> safe (advance_body actor_id again command).
Proof.
  intros Hagain run. unfold advance_body. destruct (candidate_id run) as [c|] eqn:Ec; [|by apply t_ret].
  eapply t_bind; [apply (t_latest c run); by intros|]. intros [latest|].
  { by apply t_record_verification. }
  apply t_conseq with (P' := fun db => run_ok db run) (Q' := no_post); [|by intros db [? _]|done].
  destruct (negb _); [apply t_complete_promotion|].
  eapply t_bind; [apply t_reserve|]. intros [run' mine]. cbn [fst].
  destruct mine; cbn [negb].
  - eapply t_bind; [apply t_keep, keeps_execute_reproduction|]. intros status.
    eapply t_bind; [apply t_reloaded_or|]. intros run2.
    destruct status as [s|]; [|apply t_keeps, keeps_stop].
    destruct (non_scientific s); [apply t_keeps, keeps_stop|].
    eapply t_bind with (R := fun r db => run_ok db r).
    + eapply t_conseq; [apply (t_save (P := fun _ => True)); by intros now db _ _|done|].
      by intros r db [_ [now ->]].
    + intros run3. apply t_complete_promotion.
  - destruct (candidate_id run') as [c'|] eqn:Ec'; [|apply t_raise].
    eapply t_bind; [apply (t_latest c' run'); by intros|]. intros [v|]; [|by apply t_ret].
    eapply t_conseq; [apply Hagain|by intros db [? _]|done].
Qed.

Lemma t_on_conflict again command run e :
  safe again -> triple (fun db => run_ok db run) (on_conflict actor_id again command run e) no_post.
Proof.
  intros Hagain. unfold on_conflict. eapply t_bind with (R := fun _ db => run_ok db run).
  { intros n db Hok Hr. split; [done|]. by split; [apply CandidateFlow.reachable_refl|]. }
  intros expected. case_match; [apply t_raise|].
  eapply t_bind; [apply t_reload|]. intros [r|]; [|apply t_raise].
  destruct (candidate_id run) as [c|]; [|by apply t_ret].
  eapply t_bind; [apply t_keep; unfold latest_verification; auto with promotion|].
  intros [v|]; [|by apply t_ret].
  eapply t_conseq; [apply (t_advance_body again command Hagain r)|by intros db [_ ?]|done].
Qed.

Lemma t_advance_one turns command : safe (advance_one actor_id turns command).
Proof.
  induction turns as [|turns IH]; intros run; cbn [advance_one]; [apply t_raise|].
  apply t_catch; [by apply t_advance_body|]. intros e. by apply t_on_conflict.
Qed.

Lemma t_pending command :
  triple (fun _ => True) (pending_runs command) (fun l db => Forall (run_ok db) l).
Proof.
  unfold pending_runs.
  assert (Hfind : forall (p : PromotionRunRecord.t -> bool) db r, ok db ->
    List.find p db.(PromotionDb.promotions) = Some r -> run_ok db r).
  { intros p db r Hok [Hin _]%find_Some_elem. pose proof (ok_runs _ Hok) as Hr.
    rewrite Forall_forall in Hr. by apply Hr. }
  destruct (AdvancePromotionCommand.promotion_run_id command) as [id|].
  { eapply t_bind; [apply (t_reload (P := fun _ => True) id)|]. intros [r|]; apply t_ret.
    - intros db [_ Hr]. by apply Forall_singleton.
    - intros db _. constructor. }
  destruct (AdvancePromotionCommand.assessment_id command) as [id|].
  - eapply t_bind with (R := fun o db => match o with Some r => run_ok db r | None => True end).
    + apply (t_read (P := fun _ => True)). intros db a Hok _ (? & _ & [= <-])%bind_ok.
      destruct (List.find _ _) eqn:E; [|done]. by eapply Hfind.
    + intros [r|]; apply t_ret; [intros db Hr; by apply Forall_singleton|constructor].
  - apply (t_read (P := fun _ => True)). intros db a Hok _ (? & _ & [= <-])%bind_ok.
    apply Forall_forall. intros r [Hr _]%list_elem_of_In%filter_In. apply list_elem_of_In in Hr.
    unfold promotions_for_run in Hr. rewrite !elem_of_sort_by in Hr.
    apply list_elem_of_In, filter_In in Hr as [Hr%list_elem_of_In _].
    pose proof (ok_runs _ Hok) as Hall. rewrite Forall_forall in Hall. by apply Hall.
Qed.

#[local] Instance stable_forall l : Stable (fun db => Forall (run_ok db) l).
Proof.
  intros db db' Hi Hr Hl. eapply Forall_impl; [exact Hl|]. intros r Hro. by eapply (stable_run_ok r).
Qed.

Lemma t_each {B} (f : PromotionRunRecord.t -> M B) l :
  (forall run, triple (fun db => run_ok db run) (f run) no_post) ->
  triple (fun db => Forall (run_ok db) l) (each f l) no_post.
Proof.
  intros Hf. induction l as [|r l IH]; cbn [each]; [by apply t_ret|].
  eapply t_bind with (R := fun _ db => Forall (run_ok db) l).
  - eapply t_conseq; [apply (t_frame _ (R := fun db => Forall (run_ok db) l) _ _ (Hf r))| |].
    + intros db Hl. by apply Forall_cons.
    + by intros b db [_ ?].
  - intros b. eapply t_bind; [apply IH|]. intros k. by apply t_ret.
Qed.

Lemma keeps_advance worker turns command : keeps (advance actor_id worker turns command).
Proof.
  unfold advance. eapply t_bind; [apply t_pending|]. intros targets. cbn beta.
  destruct (negb worker); [by apply t_ret|]. eapply t_conseq; [apply t_each, t_advance_one|done|done].
Qed.
End calls.

(** *** Two turns *)

(** The promotion of the id is stored, with the candidate. *)
Definition has (id candidate : string) (db : PromotionDb.t) : Prop :=
  exists r, List.find (fun r => (r.(PromotionRunRecord.promotion_run_id) =? id)%string)
              db.(PromotionDb.promotions) = Some r
    /\ r.(PromotionRunRecord.candidate_id) = Some candidate.

(** The run is that promotion, as it was when it was read. *)
Definition names (id candidate : string) (run : PromotionRunRecord.t) : Prop :=
  run.(PromotionRunRecord.promotion_run_id) = id
  /\ run.(PromotionRunRecord.candidate_id) = Some candidate.

(** Other workers keep a promotion and its candidate. *)
Class PromotionsKept `{World} : Prop :=
  others_kept n db id c : has id c db -> has id c (others n db).

(** A change of the stored promotions that keeps their ids, and the candidate of this one. *)
Lemma has_fmap id c (f : PromotionRunRecord.t -> PromotionRunRecord.t) db :
  (forall r, (f r).(PromotionRunRecord.promotion_run_id) = r.(PromotionRunRecord.promotion_run_id)) ->
  (forall r, names id c r -> (f r).(PromotionRunRecord.candidate_id) = Some c) ->
  has id c db -> has id c (PromotionDb.with_promotions (f <$> db.(PromotionDb.promotions)) db).
Proof.
  intros Hid Hc (r & Hr & Hrc). unfold has. cbn. exists (f r). induction db.(PromotionDb.promotions) as [|x l IH].
  { done. }
  cbn in *. rewrite Hid. case_match eqn:E; [|by apply IH]. injection Hr as ->. split; [done|].
  apply Hc. split; [by apply String.eqb_eq|done].
Qed.

Section turns.
Context `{WorldLaws} `{!PromotionsKept} `{FloatRepr} (actor_id : string).
Import PromotionRunRecord.

(** The program keeps the promotion, whether it answers or raises. *)
Definition holds {A} (id c : string) (m : M A) (Q : A -> Prop) : Prop :=
  forall n db, has id c db ->
  let '(r, (_, db')) := m n db in has id c db' /\ forall a, r = Ok a -> Q a.

Definition any {A} (_ : A) : Prop := True.

Lemma h_ret {A} id c (a : A) (Q : A -> Prop) : Q a -> holds id c (mret a) Q.
Proof. intros HQ n db Hh. split; [done|]. by intros b [= <-]. Qed.

Lemma h_raise {A} id c e (Q : A -> Prop) : holds id c (raise e) Q.
Proof. by intros n db Hh. Qed.

Lemma h_bind {A B} id c (m : M A) R (f : A -> M B) Q :
  holds id c m R -> (forall a, R a -> holds id c (f a) Q) -> holds id c (m ≫= f) Q.
Proof.
  intros Hm Hf n db Hh. specialize (Hm n db Hh). unfold mbind, M_bind.
  destruct (m n db) as [[a|e] [n' db']]; destruct Hm as [Hh' Hq]; [|done].
  exact (Hf a (Hq a eq_refl) n' db' Hh').
Qed.

Lemma h_catch {A} id c (m : M A) h Q :
  holds id c m Q -> (forall e, holds id c (h e) Q) -> holds id c (catch m h) Q.
Proof.
  intros Hm Hh n db Hhas. specialize (Hm n db Hhas). unfold catch.
  destruct (m n db) as [[a|e] [n' db']]; destruct Hm as [Hh' Hq]; [done|]. by apply Hh.
Qed.

Lemma h_id id c : holds id c fresh_id any.
Proof. by intros n db Hh. Qed.
Lemma h_time id c : holds id c time any.
Proof. by intros n db Hh. Qed.
Lemma h_read {A} id c (f : PromotionDb.t -> result A) : holds id c (read f) any.
Proof. intros n db Hh. split; [by apply others_kept|done]. Qed.

Lemma h_write {A} id c (f : PromotionDb.t -> PromotionDb.t -> result (PromotionDb.t * A)) Q :
  (forall seen db db' a, has id c db -> f seen db = Ok (db', a) -> has id c db' /\ Q a) ->
  holds id c (write f) Q.
Proof.
  intros Hf n db Hh. unfold write. cbv zeta.
  assert (Hh2 : has id c (others (S n) (others n db))) by (by do 2 apply others_kept).
  destruct (f _ _) as [[db' a]|e] eqn:E; [|done]. destruct (Hf _ _ _ _ Hh2 E) as [Hh' Hq].
  split; [done|]. by intros b [= <-].
Qed.

Lemma h_write_same {A} id c (f : PromotionDb.t -> PromotionDb.t -> result (PromotionDb.t * A)) :
  (forall seen db db' a, f seen db = Ok (db', a) ->
     db'.(PromotionDb.promotions) = db.(PromotionDb.promotions)) -> holds id c (write f) any.
Proof.
  intros Hf. apply h_write. intros seen db db' a Hh E. split; [|done]. unfold has.
  by rewrite (Hf _ _ _ _ E).
Qed.
End turns.

Create HintDb kept.
#[export] Hint Resolve h_ret h_raise h_id h_time h_read : kept.
#[export] Hint Extern 0 (any _) => exact I : kept.

(** Programs that keep the promotion because their parts do. *)
Ltac kept_steps :=
  repeat first
    [ solve [auto with kept]
    | apply h_catch; [|intros ?]
    | eapply h_bind; [solve [auto with kept]|intros ? _] ].

Section turns.
Context `{WorldLaws} `{!PromotionsKept} `{FloatRepr} (actor_id : string).
Import PromotionRunRecord.

Lemma h_admit id c x : holds id c (admit_evidence_of x) any.
Proof.
  unfold admit_evidence_of. kept_steps. apply h_write_same.
  by intros seen db db' y (r & _ & [= <- <-])%bind_ok.
Qed.

Lemma h_complete id c x : holds id c (complete x) any.
Proof.
  unfold complete, on_flow. kept_steps. apply h_write_same.
  by intros seen db db' y (r & _ & [= <- <-])%bind_ok.
Qed.

Lemma h_submit id c x : holds id c (submit actor_id x) any.
Proof.
  unfold submit. kept_steps. apply h_write_same. by intros seen db db' y (r & _ & [= <- <-])%bind_ok.
Qed.

Lemma h_prepare id c e run plan : holds id c (prepare e run plan) any.
Proof.
  unfold prepare. kept_steps. apply h_write_same. intros seen db db' x Hp.
  exact (proj2 (prepare_keeps _ _ _ _ _ _ _ _ Hp)).
Qed.

Lemma h_execute id c x : holds id c (execute x) any.
Proof. intros n db Hh. split; [|done]. by apply others_kept. Qed.

Lemma h_evaluate id c e : holds id c (evaluate e) any.
Proof.
  unfold evaluate. kept_steps. apply h_write_same. by intros seen db db' y (r & _ & [= <- <-])%bind_ok.
Qed.

Lemma h_claim id c p e : holds id c (claim p e) any.
Proof.
  unfold claim. kept_steps. apply h_write. intros seen db db' x Hh Hc. split; [|done].
  unfold claim_reproduction in Hc. cbv zeta in Hc. do 2 apply bind_ok in Hc as (? & _ & Hc).
  destruct (negb _ || _) in Hc; injection Hc as <- <-; [done|].
  apply has_fmap; [intros r; by case_match| |done]. intros r [_ Hr]. by case_match.
Qed.

(** A save of the promotion under its candidate. *)
Lemma h_save id c f run :
  (forall now, names id c (at_time now (f run))) -> holds id c (save f run) (names id c).
Proof.
  intros Hn. unfold save. eapply h_bind; [apply h_time|intros now _].
  destruct (post_init _) as [r|e] eqn:E; [|apply h_raise]. apply validated in E as ->.
  specialize (Hn now). set (r := at_time now (f run)) in *.
  apply h_write. intros seen db db' x Hh (d & Hd & [= <- <-])%bind_ok. split; [|done].
  unfold save_promotion in Hd. cbv zeta in Hd. do 2 apply raise_if_ok in Hd as [_ Hd]. injection Hd as <-.
  destruct Hn as [Hi Hc]. apply has_fmap; [| |done].
  - intros o. case_match eqn:E; [|done]. apply String.eqb_eq in E. exact (eq_sym E).
  - intros o [Ho Hoc]. by case_match.
Qed.

Lemma h_reload id c : holds id c (reload id) (fun o => exists r, o = Some r /\ names id c r).
Proof.
  intros n db Hh. unfold reload, read. cbv zeta. pose proof (others_kept n db id c Hh) as Hh'.
  split; [done|]. intros a (? & _ & [= <-])%bind_ok. destruct Hh' as (r & Hr & Hc).
  exists r. split; [done|]. split; [|done]. apply find_Some_elem in Hr as [_ Hr]. by apply String.eqb_eq.
Qed.

Lemma h_reloaded_or id c run :
  names id c run -> holds id c (reloaded_or run) (names id c).
Proof.
  intros [<- Hc]. unfold reloaded_or. eapply h_bind; [apply (h_reload _ c)|].
  intros o (r & -> & Hr). by apply h_ret.
Qed.
End turns.
#[export] Hint Resolve h_admit h_complete h_submit h_prepare h_execute h_evaluate h_claim : kept.

(** A save after which the run is answered. *)
Ltac kept_save Hn :=
  eapply h_bind; [apply h_save; intros ?; exact Hn|intros ? ?].

Section turns.
Context `{WorldLaws} `{!PromotionsKept} `{FloatRepr} (actor_id : string).
Import PromotionRunRecord.

Lemma h_submit_if_validated id c run c' v :
  names id c run -> holds id c (submit_if_validated actor_id run c' v) any.
Proof.
  intros Hn. unfold submit_if_validated, latest_proposal. eapply h_bind; [apply h_read|].
  intros [p|] _; [kept_save Hn; by apply h_ret|]. kept_steps.
  repeat case_match; kept_save Hn; by apply h_ret.
Qed.

Lemma h_record_verification id c run c' v :
  names id c run -> holds id c (record_verification actor_id run c' v) any.
Proof.
  intros Hn. unfold record_verification. eapply h_bind.
  { apply h_save. intros now. by case_bool_decide. }
  intros run' Hn'. case_match; [by apply h_submit_if_validated|by apply h_ret].
Qed.

Lemma h_stop id c run why : names id c run -> holds id c (stop_run run why) any.
Proof. intros Hn. unfold stop_run. kept_save Hn. by apply h_ret. Qed.

Lemma h_execute_reproduction id c run x : holds id c (execute_independent_reproduction run x) any.
Proof.
  unfold execute_independent_reproduction. destruct (reproduction_experiment_id run); [|by apply h_ret].
  kept_steps. case_match; [by apply h_ret|]. kept_steps. case_match; [|by apply h_ret].
  case_match; [|apply h_raise]. eapply h_bind with (R := any).
  { apply h_catch; [kept_steps|intros e]. case_match; [by apply h_ret|apply h_raise]. }
  intros prepared _. case_match; [by apply h_ret|]. kept_steps.
  eapply h_bind with (R := any); [|intros ? _; by apply h_ret]. case_match; try by apply h_ret.
  all: apply h_catch; [kept_steps|intros e; case_match; [by apply h_ret|apply h_raise]].
Qed.

Lemma h_complete_promotion id c run :
  names id c run -> holds id c (complete_promotion actor_id run) any.
Proof.
  intros Hn. unfold complete_promotion.
  destruct (reproduction_experiment_id run); [|by apply h_stop]. eapply h_bind with (R := any).
  { unfold admit_reproduction_evidence. apply h_catch; [kept_steps|].
    intros e. case_match; [by apply h_ret|apply h_raise]. }
  intros ? _. case_match; [|apply h_raise]. eapply h_bind with (R := any).
  { unfold try_complete. apply h_catch; [kept_steps|]. intros e.
    case_match; [by apply h_ret|apply h_raise]. }
  intros [ans|] _.
  - kept_save Hn. case_match; [by apply h_submit_if_validated|by apply h_ret].
  - unfold latest_verification. kept_steps. case_match; [by apply h_record_verification|apply h_raise].
Qed.

Lemma h_reserve id c run :
  names id c run -> holds id c (reserve run) (fun r => names id c r.1).
Proof.
  intros Hn. unfold reserve. case_match; [by apply h_ret|]. kept_steps.
  eapply h_bind; [by apply h_reloaded_or|]. intros r Hr. by apply h_ret.
Qed.

Lemma h_advance_body id c again command run :
  names id c run -> (forall r, names id c r -> holds id c (again r) any) ->
  holds id c (advance_body actor_id again command run) any.
Proof.
  intros Hn Hagain. unfold advance_body, latest_verification. rewrite (proj2 Hn).
  eapply h_bind; [apply h_read|]. intros [v|] _; [by apply h_record_verification|].
  case_match; [by apply h_complete_promotion|].
  eapply h_bind; [by apply h_reserve|]. intros [r mine] Hr. cbn in Hr. case_match.
  - rewrite (proj2 Hr). eapply h_bind; [apply h_read|].
    intros [v|] _; [by apply Hagain|by apply h_ret].
  - eapply h_bind; [apply h_execute_reproduction|]. intros status _.
    eapply h_bind; [by apply h_reloaded_or|]. intros r2 Hr2.
    case_match; [|by apply h_stop]. case_match; [by apply h_stop|].
    kept_save Hr2. by apply h_complete_promotion.
Qed.

Lemma h_advance_one id c turns command run :
  names id c run -> holds id c (advance_one actor_id turns command run) any.
Proof.
  revert run. induction turns as [|turns IH]; intros run Hn; cbn [advance_one]; [apply h_raise|].
  apply h_catch; [by apply h_advance_body|]. intros e. unfold on_conflict.
  eapply h_bind with (R := any); [by intros n db Hh|]. intros expected _.
  case_match; [apply h_raise|]. rewrite (proj1 Hn). eapply h_bind; [apply h_reload|].
  intros o (r & -> & Hr). rewrite (proj2 Hn). unfold latest_verification.
  eapply h_bind; [apply h_read|]. intros [v|] _; [|by apply h_ret]. by apply h_advance_body.
Qed.

(** *** The same answer with more turns *)

(** The candidate has its verification. *)
Definition verified (c : string) (db : PromotionDb.t) : Prop :=
  exists v, v ∈ db.(PromotionDb.flow).(CandidateDb.verifications) /\ v.(VerificationRecord.candidate_id) = c.

#[local] Instance stable_verified c : Stable (verified c).
Proof. unfold verified. apply _. Qed.

Lemma same_bind {A B} (m : M A) (f g : A -> M B) n db :
  (forall a n' db', m n db = (Ok a, (n', db')) -> f a n' db' = g a n' db') ->
  (m ≫= f) n db = (m ≫= g) n db.
Proof. intros Hfg. unfold mbind, M_bind. destruct (m n db) as [[a|e] [n' db']]; [by apply Hfg|done]. Qed.

Lemma same_catch {A} (m m' : M A) h h' n db :
  m n db = m' n db ->
  (forall e n' db', m n db = (Raise e, (n', db')) -> h e n' db' = h' e n' db') ->
  catch m h n db = catch m' h' n db.
Proof.
  intros Hm Hh. unfold catch. rewrite <-Hm. destruct (m n db) as [[a|e] [n' db']]; [done|by apply Hh].
Qed.

(** What the programs above leave, at an answer. *)
Lemma kept_at {A} id c (m : M A) Q P R n db r n' db' :
  holds id c m Q -> triple P m R -> ok db -> P db -> has id c db -> m n db = (r, (n', db')) ->
  ok db' /\ has id c db' /\ (forall a, r = Ok a -> Q a /\ R a db')
  /\ CandidateFlow.reachable db.(PromotionDb.flow) db'.(PromotionDb.flow).
Proof.
  intros Hh Ht Hok HP Hhas E. specialize (Hh n db Hhas). specialize (Ht n db Hok HP). rewrite E in Hh, Ht.
  destruct Hh as [Hh Hq]. destruct Ht as (Ho & Hr & Hp). split; [done|]. split; [done|].
  split; [|done]. intros a Ha. split; [by apply Hq|by apply Hp].
Qed.

(** A verified candidate is never turned over again. *)
Lemma verified_body again again' command run c n db :
  run.(candidate_id) = Some c -> ok db -> verified c db ->
  advance_body actor_id again command run n db = advance_body actor_id again' command run n db.
Proof.
  intros Hc Hok Hv. unfold advance_body. rewrite Hc. apply same_bind. intros [v|] n' db' E; [done|].
  exfalso. unfold latest_verification, read in E. injection E as E _ <-.
  apply bind_ok in E as (? & _ & [= E]). apply last_None in E.
  assert (Hv' : verified c (others n db))
    by (eapply (stable_verified c); [apply Hok|apply others_flow|done]).
  destruct Hv' as (v & Hv' & Hvc). apply (not_elem_of_nil v). rewrite <-E. unfold verifications_of.
  rewrite elem_of_sort_by. apply list_elem_of_In, filter_In. split; [by apply list_elem_of_In|].
  by apply String.eqb_eq.
Qed.

(** After a conflict the candidate is verified, or there is no other turn. *)
Lemma same_conflict again again' command run id c e n db :
  names id c run -> ok db -> has id c db ->
  on_conflict actor_id again command run e n db = on_conflict actor_id again' command run e n db.
Proof.
  intros [Hi Hc] Hok Hh. unfold on_conflict. rewrite Hi, Hc. apply same_bind. intros expected n1 db1 [= <- <- <-].
  case_match; [done|]. apply same_bind. intros o n2 db2 E.
  destruct (kept_at _ _ _ _ _ _ _ _ _ _ _ (h_reload id c) (t_reload (P := fun _ => True) id) Hok I Hh E)
    as (Hok2 & Hh2 & Hq & _).
  destruct (Hq o eq_refl) as [(r & -> & Hr) _]. apply same_bind. intros [v|] n3 db3 E3; [|done].
  destruct (kept_at id c _ any _ _ _ _ _ _ _ (h_read _ _ _)
              (t_latest (P := fun _ => True) c run ltac:(by intros)) Hok2 I Hh2 E3) as (Hok3 & _ & Hq3 & _).
  destruct (Hq3 _ eq_refl) as (_ & _ & _ & Hv & Hvc).
  apply (verified_body _ _ _ _ c); [apply Hr|done|by exists v].
Qed.

Lemma verified_turn turns turns' command run id c n db :
  names id c run -> ok db -> has id c db -> verified c db -> run_ok db run ->
  advance_one actor_id (S turns) command run n db = advance_one actor_id (S turns') command run n db.
Proof.
  intros Hn Hok Hh Hv Hro. cbn [advance_one]. apply same_catch.
  { apply (verified_body _ _ _ _ c); [apply Hn|done..]. }
  intros e n' db' E.
  destruct (kept_at id c _ any _ _ _ _ _ _ _
              (h_advance_body id c _ _ _ Hn (fun r Hr => h_advance_one id c turns command r Hr))
              (t_advance_body actor_id _ command (t_advance_one actor_id turns command) run)
              Hok Hro Hh E) as (Hok' & Hh' & _).
  by apply (same_conflict _ _ _ _ id c).
Qed.

Lemma same_body turns turns' command run id c n db :
  names id c run -> ok db -> has id c db -> run_ok db run ->
  advance_body actor_id (advance_one actor_id (S turns) command) command run n db
  = advance_body actor_id (advance_one actor_id (S turns') command) command run n db.
Proof.
  intros Hn Hok Hh Hro. unfold advance_body. rewrite (proj2 Hn). apply same_bind.
  intros [v|] n1 db1 E1; [done|].
  destruct (kept_at id c _ any _ _ _ _ _ _ _ (h_read _ _ _)
              (t_keep (P := fun db => run_ok db run) _ (keeps_read _)) Hok Hro Hh E1)
    as (Hok1 & Hh1 & Hq1 & _). destruct (Hq1 _ eq_refl) as [_ Hro1].
  case_match; [done|]. apply same_bind. intros [r mine] n2 db2 E2.
  destruct (kept_at _ _ _ _ _ _ _ _ _ _ _ (h_reserve id c run Hn) (t_reserve run) Hok1 Hro1 Hh1 E2)
    as (Hok2 & Hh2 & Hq2 & _). destruct (Hq2 _ eq_refl) as [Hr Hro2]. cbn in Hr, Hro2.
  case_match; [|done]. rewrite (proj2 Hr). apply same_bind. intros [v|] n3 db3 E3; [|done].
  destruct (kept_at id c _ any _ _ _ _ _ _ _ (h_read _ _ _)
              (t_latest (P := fun db => run_ok db r) c r (fun _ _ => proj2 Hr)) Hok2 Hro2 Hh2 E3)
    as (Hok3 & Hh3 & Hq3 & _). destruct (Hq3 _ eq_refl) as (_ & Hro3 & _ & Hv & Hvc).
  apply (verified_turn _ _ _ _ id c); [done..|by exists v|done].
Qed.

Lemma two_turns k command run n db :
  ok db -> run_ok db run ->
  (forall c, run.(candidate_id) = Some c -> has run.(promotion_run_id) c db) ->
  advance_one actor_id (S (S k)) command run n db = advance_one actor_id 2 command run n db.
Proof.
  intros Hok Hro Hh. destruct (candidate_id run) as [c|] eqn:Ec.
  2: { cbn [advance_one]. unfold catch, advance_body. by rewrite Ec. }
  assert (Hn : names run.(promotion_run_id) c run) by done. specialize (Hh c eq_refl).
  change (advance_one actor_id (S (S k)) command run n db)
    with (catch (advance_body actor_id (advance_one actor_id (S k) command) command run)
            (on_conflict actor_id (advance_one actor_id (S k) command) command run) n db).
  change (advance_one actor_id 2 command run n db)
    with (catch (advance_body actor_id (advance_one actor_id 1 command) command run)
            (on_conflict actor_id (advance_one actor_id 1 command) command run) n db).
  apply same_catch; [by apply (same_body _ _ _ _ run.(promotion_run_id) c)|].
  intros e n' db' E.
  destruct (kept_at _ c _ any _ _ _ _ _ _ _
              (h_advance_body _ c _ _ _ Hn (fun r Hr => h_advance_one _ c (S k) command r Hr))
              (t_advance_body actor_id _ command (t_advance_one actor_id (S k) command) run)
              Hok Hro Hh E) as (Hok' & Hh' & _).
  by apply (same_conflict _ _ _ _ run.(promotion_run_id) c).
Qed.
End turns.


(** ** Histories *)

(** A call of the pipeline, by a worker of any actor. *)
Inductive call : Type :=
  | assess (feedback : ResearchFeedback.t)
  | advance_runs (actor_id : string) (worker : bool) (turns : nat) (command : AdvancePromotionCommand.t).

Section histories.
Context `{World} `{FloatRepr}.

Definition run_call (c : call) : M () :=
  match c with
  | assess feedback => catch (r ← on_assessment feedback; mret tt) (fun _ => mret tt)
  | advance_runs actor_id worker turns command =>
      catch (r ← advance actor_id worker turns command; mret tt) (fun _ => mret tt)
  end.

(** The tables after the calls, one after the other, whether they answer or raise. *)
Definition history (calls : list call) (db : PromotionDb.t) : PromotionDb.t :=
  (each run_call calls 0%nat db).2.2.
End histories.

Lemma keeps_run_call `{WorldLaws} `{FloatRepr} c : keeps (run_call c).
Proof.
  destruct c; cbn; (apply keeps_catch; [apply keeps_bind; [|intros ?]|intros ?]);
    auto using keeps_on_assessment, keeps_advance with promotion.
Qed.

Lemma keeps_history `{WorldLaws} `{FloatRepr} calls : keeps (each run_call calls).
Proof.
  induction calls as [|c calls IH]; cbn [each]; [auto with promotion|].
  apply keeps_bind; [apply keeps_run_call|]. intros []. apply keeps_bind; [done|]. intros k.
  apply keeps_ret.
Qed.

Lemma history_ok `{WorldLaws} `{FloatRepr} calls db :
  ok db -> ok (history calls db)
  /\ CandidateFlow.reachable db.(PromotionDb.flow) (history calls db).(PromotionDb.flow).
Proof.
  intros Hok. pose proof (keeps_history calls 0%nat db Hok I) as Hk. unfold history.
  destruct (each _ _ _ _) as [r [n db']]. by destruct Hk as (? & ? & _).
Qed.

Module Sample.
Import CandidateFlow.Sample.
(** The plan of the experiments, bound to a definition of the capability. *)
Definition bound (n : string) : ExperimentPlanRecord.t :=
  ExperimentPlanRecord.mk ("exp-" +:+ n) "run-1" "hyp-1" "capability" "probe" "target-1" 1 []
    "budget-1" "a grant" "a denial" DIFFERENTIAL_STRATEGY 0 (Some "1") (Some "fingerprint").
(** One experiment that showed the cross-object read. *)
Definition first_rows : AssessDb.t :=
  AssessDb.mk [HypothesisRecord.mk "hyp-1" "run-1" "a claim" 0 None None]
    [experiment "1" "hyp-1"] [bound "1"] [] [worker_result "1"] [observation "1"] [assessment "1" "hyp-1"].
Definition tier (id t : string) : AuditEventRecord.t :=
  AuditEventRecord.mk id 0 "control-plane" "CONTROL_PLANE" "VALIDATION_TIER" "hypothesis" "hyp-1"
    [("tier", PStr t); ("outcome", PStr "PASSED"); ("scope_state", PStr "IN_SCOPE")] (Some "run-1").
Definition start : PromotionDb.t :=
  PromotionDb.mk (CandidateDb.mk (EvidenceDb.mk first_rows ["run-1"] [] []) [] [] []) []
    (FindingFlow.Db.mk ∅ ∅ ∅ [] [] [] [tier "t1" "V1"; tier "t2" "V2"; tier "t3" "V3"]) (ImpactLedger.Db.mk ∅ ∅ ∅ ∅ ∅ ∅ ∅ [] [])
    [IssuedBudgetRecord.mk "budget-1" (Some "run-1") 10 10 1000 1 0].
(** The execution of the reproduction: it shows the same read. *)
Definition executed (rows : AssessDb.t) : AssessDb.t :=
  AssessDb.mk rows.(AssessDb.hypotheses) rows.(AssessDb.experiments) rows.(AssessDb.plans)
    rows.(AssessDb.attempts) (rows.(AssessDb.worker_results) ++ [worker_result "2"])
    (rows.(AssessDb.observations) ++ [observation "2"])
    (rows.(AssessDb.assessments) ++ [assessment "2" "hyp-1"]).
(** The id at the access [reproduction] is that of the second experiment. *)
Definition world (reproduction : nat) (elsewhere : nat -> PromotionDb.t -> PromotionDb.t) : World := {|
  new_id n := if (n =? reproduction)%nat then "exp-2" else Str.strip ("id-" +:+ pretty n);
  clock n := Z.of_nat n;
  others := elsewhere;
  execute_planned _ rows _ := (executed rows, Ok ResearchLoopStatus.OBSERVATION_PRODUCED);
  expected_conflict _ := false;
  sha256_json _ := "0000000000000000000000000000000000000000000000000000000000000000";
  edge_rows := insertion_order |}.
Definition feedback : ResearchFeedback.t :=
  ResearchFeedback.mk "hyp-1" "exp-1" "asm-1" AssessmentOutcome.CONSISTENT_WITH_PREDICTION ["obs-1"]
    true DIFFERENTIAL_STRATEGY "run-1".
Definition command : AdvancePromotionCommand.t :=
  AdvancePromotionCommand.mk "run-1" (ScopeEvaluationInput.mk [] false) None None None None.
(** The assessment promoted, and the run advanced, with nobody else at work. *)
Definition alone : World := world 35 (fun _ db => db).
Definition calls : list call := [assess feedback; advance_runs "actor" true 2 command].
Definition final : PromotionDb.t := @history alone no_floats calls start.
Definition recorded : PromotionRunRecord.t :=
  PromotionRunRecord.mk "id-10" "run-1" "asm-1" "exp-1" "PROPOSAL_RECORDED" 9 77 (Some "id-4")
    (Some "id-19") (Some "id-61") (Some "id-70") (Some "exp-2") None.
(** The tables and the run before it is advanced. *)
Definition pending : PromotionDb.t := @history alone no_floats [assess feedback] start.
Definition verifying : PromotionRunRecord.t :=
  PromotionRunRecord.mk "id-10" "run-1" "asm-1" "exp-1" "VERIFYING" 9 30 (Some "id-4")
    (Some "id-19") None None None None.
(** Another worker did all of it while the first was about to insert its run. *)
Definition overtaken : World := world 35 (fun n db => if (n =? 11)%nat then final else db).
#[global] Instance alone_laws : @WorldLaws alone.
Proof.
  split; intros; [apply CandidateFlow.reachable_refl|done|]. unfold new_id, alone, world.
  case_match; [done|apply Str.strip_idem].
Qed.
#[global] Instance alone_keeps : @PromotionsKept alone.
Proof. by intros n db id c. Qed.
End Sample.

(** From an assessment to a recorded proposal. *)
Example assessment_becomes_a_proposal : Sample.final.(PromotionDb.promotions) = [Sample.recorded].
Proof. vm_compute. reflexivity. Qed.

(** The worker that finds the run of another one at its insertion writes it back to where it began:
    a recorded promotion is under verification again. *)
Example collision_reopens_a_recorded_promotion :
  (fun r => (r.(PromotionRunRecord.stage), r.(PromotionRunRecord.finding_proposal_id)))
    <$> (@history Sample.overtaken no_floats [assess Sample.feedback] Sample.start).(PromotionDb.promotions)
  = [("VERIFYING", Some "id-70")].
Proof. vm_compute. reflexivity. Qed.

(** C5. No proposal without a reproduction: after any calls from tables without evidence, a
    promotion run at PROPOSAL_RECORDED names a proposal, a stored candidate, and the one
    verification that validated it, which rests on a second piece of evidence for the same claim
    from another experiment and other observations. *)
Theorem recorded_proposals_were_reproduced `{WorldLaws} `{FloatRepr} calls db r :
  fresh_start db.(PromotionDb.flow) -> db.(PromotionDb.promotions) = [] ->
  let db' := history calls db in
  r ∈ db'.(PromotionDb.promotions) ->
  r.(PromotionRunRecord.stage) = "PROPOSAL_RECORDED" ->
  exists c v, c ∈ db'.(PromotionDb.flow).(CandidateDb.candidates)
    /\ v ∈ db'.(PromotionDb.flow).(CandidateDb.verifications)
    /\ r.(PromotionRunRecord.candidate_id) = Some c.(CandidateRecord.candidate_id)
    /\ r.(PromotionRunRecord.verification_id) = Some v.(VerificationRecord.verification_id)
    /\ r.(PromotionRunRecord.finding_proposal_id) ≠ None
    /\ v.(VerificationRecord.candidate_id) = c.(CandidateRecord.candidate_id)
    /\ v.(VerificationRecord.outcome) = "VALIDATED"
    /\ reproduced db'.(PromotionDb.flow) c v.
Proof.
  intros Hf Hp db' Hin Hs.
  assert (Hok : ok db) by (split; [by apply inv_start|by rewrite Hp]).
  destruct (history_ok calls db Hok) as [[Hinv Hruns] _]. rewrite Forall_forall in Hruns.
  destruct (Hruns r Hin Hs) as (c & v & Hc & Hv & Hprop & w & Hw & Hid & Hwc & Ho).
  destruct (i_validated _ Hinv w Hw Ho) as (c0 & Hc0 & Hc0id & Hrep).
  exists c0, w. split_and!; try done; congruence.
Qed.

(** C36. Advancing a stored promotion ends in two turns, whoever else advances it: when the other
    workers keep the candidate of a promotion, the recursion that a concurrent verification or a
    conflict starts gives with any more turns the same answer, error and tables as with two. *)
Theorem advance_needs_two_turns `{WorldLaws} `{!PromotionsKept} `{FloatRepr} k actor_id command run n db :
  ok db -> run ∈ db.(PromotionDb.promotions) ->
  (forall c, run.(PromotionRunRecord.candidate_id) = Some c ->
     has run.(PromotionRunRecord.promotion_run_id) c db) ->
  advance_one actor_id (S (S k)) command run n db = advance_one actor_id 2 command run n db.
Proof.
  intros Hok Hin Hh. apply two_turns; [done| |done].
  pose proof (ok_runs _ Hok) as Hr. rewrite Forall_forall in Hr. by apply Hr.
Qed.

Lemma recorded_proposals_were_reproduced_witness :
  exists c v, Sample.recorded.(PromotionRunRecord.candidate_id) = Some c.(CandidateRecord.candidate_id)
    /\ reproduced Sample.final.(PromotionDb.flow) c v.
Proof.
  assert (Hin : Sample.recorded ∈ Sample.final.(PromotionDb.promotions)).
  { replace (Sample.final.(PromotionDb.promotions)) with [Sample.recorded]; [by left|].
    vm_compute. reflexivity. }
  destruct (@recorded_proposals_were_reproduced Sample.alone Sample.alone_laws no_floats Sample.calls
              Sample.start Sample.recorded (conj eq_refl (conj eq_refl eq_refl)) eq_refl Hin eq_refl)
    as (c & v & _ & _ & Hc & _ & _ & _ & _ & Hr).
  exists c, v. by split.
Defined.

Lemma advance_needs_two_turns_witness :
  (@advance_one Sample.alone no_floats "actor" 5 Sample.command Sample.verifying 34%nat Sample.pending).1
  = (@advance_one Sample.alone no_floats "actor" 2 Sample.command Sample.verifying 34%nat Sample.pending).1
  /\ Sample.verifying.(PromotionRunRecord.stage) = "VERIFYING".
Proof.
  assert (E : Sample.pending.(PromotionDb.promotions) = [Sample.verifying]) by (vm_compute; reflexivity).
  split; [|reflexivity]. apply (f_equal fst).
  refine (@advance_needs_two_turns Sample.alone Sample.alone_laws Sample.alone_keeps no_floats 3 "actor"
            Sample.command Sample.verifying 34%nat Sample.pending _ _ _).
  - unfold Sample.pending.
    refine (proj1 (@history_ok Sample.alone Sample.alone_laws no_floats [assess Sample.feedback]
                     Sample.start _)).
    split; [apply inv_start; repeat split|constructor].
  - rewrite E. by left.
  - intros c [= <-]. unfold has. exists Sample.verifying. rewrite E. split; vm_compute; reflexivity.
Defined.
